(* ===== verification/_CoqProject ===== *)
-Q . S2P
Prelude.v
Bits.v
IpUtil.v
Text.v
Macros.v
Injector.v
UserSyncCrate.v
BitReader.v
GppSections.v
TcfConsent.v
TcfExchange.v
Json.v
CacheCrate.v
Cache.v
Dsa.v
FloatText.v
CategoryMapping.v
BidAdjustment.v
JsonMerge.v
RulesEngine.v
ModulesCrate.v
UserSync.v
SyncRequests.v
Hooks.v
HooksCrate.v
OpenRtb.v
StoredResponses.v
PrivacySandbox.v
OrtbVersion.v
SupplyChains.v
RequestValidator.v
Interstitial.v
Validation.v
ConfigData.v
Config.v
AccountAmp.v
BidderInfos.v
OpenRtbExt.v
PrivacyCrate.v
GdprEnforcement.v
GdprConfig.v
ExchangePrivacy.v
SyncEndpoints.v
Scrubber.v
ExchangeUtils.v
RequestSplitter.v
FirstPartyData.v
Util.v
PriceBucket.v
AuctionHelpers.v
Currency.v
CurrencyCrate.v
TargetingCrate.v
BidPipeline.v
Floors.v
FloorsCrate.v
AuctionTargeting.v
Deals.v
ExtPrebid.v
OrtbCrate.v
ResponseBuilder.v
VastEvents.v
Analytics.v
AdServerTargeting.v
BidderRequests.v
AdapterKit.v
Adapters1.v
Adapters5.v
Adapters9.v
Adapters11.v
Adapters12.v
Registry.v
StoredFetchers.v
StoredRequests.v
StoredBackends.v
Auction.v
Endpoints.v
