(* ===== verification/Prelude.v ===== *)
(** * Prebid Server (Rust): a verification development

    The program is the Rust port of Prebid Server under src/rust/crates: a
    server that takes an OpenRTB bid request, asks a set of bidders for bids
    over HTTP and returns the bids with ad-server targeting, under the privacy
    rules (GDPR, CCPA, GPP, COPPA, LMT) that bind each bidder.  This library
    models its crates from the endpoints' handlers down to the readers of
    consent bits.  Paths below are relative to src/rust/crates.

    ** Files

    Foundations:
    - [Prelude]: [outcome] (Rust's [Result] with panics), the state-and-error
      monad [M] of [&mut self] methods, machine integers, Rust's string
      functions, its stable sort, and the lemmas the components share.
    - [Bits]: bit strings, their numbers and their bytes, the reference for the
      readers.  [Text]: ASCII texts and printed numbers.
    - [Json]: serde_json's [Value] (objects in key order) and binary64 numbers,
      as [spec_float].  [FloatText]: reading a float.
    - [Cache]: the interface to a cache that may forget at any time.

    Data:
    - [OpenRtb]: openrtb/src/lib.rs.  [OpenRtbExt], [ExtPrebid]:
      openrtb-ext/src/lib.rs and the data of adapters/src/lib.rs.
    - [ConfigData], [Config]: config/src (lib.rs, account.rs,
      account_fetcher.rs, env_config.rs).  [BidderInfos]: the bidders' YAML
      files (config/src/bidder_info.rs, bidder_info_loader.rs and
      adapters/src/bidder_info_runtime.rs).

    Privacy:
    - [BitReader]: the three bit readers (privacy/src/gpp/bitfield.rs,
      gdpr/src/tcf2_bits.rs, exchange/src/gdpr.rs), the interface [BitSource]
      they implement, and the calculus [parses]/[accepts] in which the
      decoders' theorems are proved against that interface.
    - [GppSections]: privacy/src/gpp.  [TcfConsent]: gdpr/src/consent.rs.
      [TcfExchange]: the exchange's own decoder, at fixed offsets.
    - [GdprEnforcement], [GdprConfig]: exchange/src/gdpr.rs, gdpr_config.rs and
      vendorlist.rs, the rest of gdpr/src, and the consent writers of
      privacy/src.
    - [PrivacyCrate]: the policies and activities of privacy/src.
      [ExchangePrivacy]: the auction's privacy gate, and [Scrubber] both
      scrubbers (exchange/src/privacy.rs, privacy/src/scrubber.rs).  [IpUtil]:
      util/src/iputil.rs.  [PrivacySandbox]: topics.

    The auction (exchange/src):
    - [Auction]: [hold_auction_with_timeouts] of lib.rs.  [auction_run] is the
      function with the tasks it spawned as a second result, so that what an
      auction sends is visible; [hold_auction_with_timeouts] is its first.
    - [Validation], [RequestValidator], [OrtbCrate] (ortb/src): validation.
    - [BidderRequests]: the request each bidder gets and its HTTP calls.
      [BidPipeline]: what becomes of its bids.  [AuctionTargeting],
      [AdServerTargeting], [PriceBucket], [Currency]: targeting keys, seat bids,
      price granularity, conversion.
    - [Hooks]: hooks.rs.  [Floors]: floors.rs.  [FirstPartyData]:
      first_party_data.rs and firstpartydata/src.  [BidAdjustment]:
      bidadjustment.rs and bidadjustment/src.  [CategoryMapping],
      [SupplyChains], [Dsa], [Deals], [ExchangeUtils], [RequestSplitter],
      [ResponseBuilder], [AuctionHelpers], [OrtbVersion], [JsonMerge],
      [AccountAmp], [StoredBackends], [Interstitial]: the files of these names.
    - [Injector], [VastEvents]: VAST trackers, events, event_request.rs, vtrack.rs.
    - [Analytics]: analytics.rs with its workers, and analytics/src.

    User sync: [UserSync] (exchange/src/usersync.rs), [SyncRequests]
    (cookie_sync.rs, setuid.rs), [SyncEndpoints] (the handlers of
    endpoints/src/lib.rs) and [UserSyncCrate] (usersync/src, which the server's
    router calls).

    Endpoints: [Endpoints] (the handlers of endpoints/src/lib.rs) and
    [StoredFetchers] (endpoints/src/stored_requests.rs).

    Crates beside the exchange: [HooksCrate], [FloorsCrate], [CurrencyCrate],
    [CacheCrate], [TargetingCrate] (adservertargeting), [RulesEngine] (rules, and
    modules/src/rulesengine.rs), [ModulesCrate], [StoredRequests],
    [StoredResponses], [Macros] (macros, injector), [Util].

    Adapters (adapters/src): [AdapterKit], the trait [Bidder] as a class and the
    contract [HonestAdapter]; [Adapters1], [Adapters5], [Adapters9],
    [Adapters11], [Adapters12], the adapters of those directories; [Registry],
    the map of adapters with its aliases.

    ** How the parts interact

    A handler of [Endpoints] merges stored requests into what it received and
    holds an auction.  An auction validates its request, runs the hooks of each
    stage (any instance of [StageRunner]; [Hooks]' executor is one), answers a
    stored auction response at once, and otherwise passes every bidder an
    impression names through the gate of [ExchangePrivacy], builds its request
    ([BidderRequests]), calls it, and collects the results in the order in which
    the tasks complete ([BidPipeline.collect_results]: currency, adjustment,
    floors, validation, deduplication, multi-bid limit); targeting keys and seat
    bids are derived from them ([AuctionTargeting]).

    ** How the model corresponds to the code

    A [&mut self] method is a function of the state that returns it; a
    [Result] is an [outcome] (or a sum with [inl] the error, where nothing can
    panic); a loop is a [Fixpoint] over its list, or over a bound of its turns:
    [header_ids] and [tcf_read_loop] carry as fuel the number of bits left, the
    searches of [Macros] the length of the text, and running out is [Panic] or a
    result the theorems exclude.  Machine integers are [Z] with their wrap-around
    written out where an operation can leave their range.  [f64] is IEEE
    binary64, computed by [spec_float]; decimals are printed with Rust's
    rounding.  A [HashMap] is a [gmap]; where the code iterates over one, the
    order is a parameter ([MapIter], [iter_map]) of which the theorems assume
    only that it lists the entries.  Concurrency is explicit where the code has
    it: the completion order of an auction's tasks is a parameter ([join_set]),
    the hooks crate's executor and the analytics crate are step relations over
    interleavings, and a worker is a function of its messages and timer ticks.
    Statements that only log or count are left out.

    Third-party code is a parameter, or a class with the documented laws the
    theorems use: base64, serde_json and serde's generated conversions, reqwest
    ([send]), axum's extraction of a query ([QueryReader]), chrono, flate2, regex,
    caches, SQL and the file system.

    ** What the theorems show

    - The auction: whatever the adapters answer and in whatever order their tasks
      end, seats are bidders an impression names and the gate lets through, with
      distinct bids within limits and floors (auction_response_safe,
      process_bids_spec, collect_results_safe); a request that is blocked spawns
      nothing (privacy_gate_stops_auction); when an auction fails, and with
      which error (hold_auction_errors); hooks, and what they may change
      (execute_stage_spec, hooks_change_nothing); the auction as its endpoint
      answers it (auction_endpoint_safe).
    - What a bidder sees: split_imps_isolates, request_bid_spec, deep_merge_spec,
      fpd_for_bidders_spec, scrub_all_spec.
    - Privacy decisions: privacy_gate_spec, check_bidder_spec, legal_basis_spec.
    - Decoders are exact: readers_agree, consent_parse_iff, us_state_parse_iff,
      parse_gpp_header_spec.
    - Prices: floor_for_imp_spec, floors_enforced_agree, bid_adjustment_spec,
      price_granularity_bucket_spec, winner_keys_spec, category_mapping_spec.
    - User sync: setuid_getuids_roundtrip, priority_ejector_spec,
      choose_bidders_spec, build_syncers_spec, cookie_sync_spec, choose_spec,
      cookie_opt_out_holds.
    - Transformations: rules_engine_spec, version_conversion_spec,
      merge_patch_spec, inject_tracker_spec, event_url_roundtrip.
    - Adapters and analytics: registry_safe, analytics_workers_conserve.

    The other lemmas state each component's behaviour on its branches; those
    under a heading "Findings", or that a finding names, show behaviour that
    differs from what a comment, a document or a name says.

    ** Not modelled

    The remaining adapters (translations of the same shape, each for one bidder),
    the start-up and routing of the server and its middleware, metrics and
    logging; the second, multi-source configuration, of which the server keeps
    the default; JSON schemas of bidder parameters, and the structs of
    bidder_params.rs; the account crate, of which the server has a fetcher that
    finds nothing; modules and crates nothing calls (dsa, errortypes,
    price_granularity.rs, targeting.rs) or that are not declared (debug.rs,
    hooks_exec.rs, ortb_conversion.rs); experiments, benchmarks and test
    harnesses. *)

From Stdlib Require Export ZArith Lia Sorted.
From stdpp Require Export base list numbers strings pretty gmap.

(** ** Outcomes: Rust's [Result], with the panics it can hide *)

Inductive outcome (E A : Type) : Type :=
| Ok (a : A)
| Err (e : E)
| Panic.
Arguments Ok {E A} a.
Arguments Err {E A} e.
Arguments Panic {E A}.

#[export] Instance outcome_ret E : MRet (outcome E) := λ A a, Ok a.
#[export] Instance outcome_bind E : MBind (outcome E) := λ A B k m,
  match m with Ok a => k a | Err e => Err e | Panic => Panic end.

#[export] Instance outcome_eq_dec `{EqDecision E, EqDecision A} :
  EqDecision (outcome E A).
Proof. solve_decision. Defined.

(** A [&mut self] method that returns [Result]: the receiver comes back on
    every path, errors included. *)
Definition M (S E A : Type) : Type := S → outcome E A * S.

#[export] Instance M_ret S E : MRet (M S E) := λ A a s, (Ok a, s).
#[export] Instance M_bind S E : MBind (M S E) := λ A B k m s,
  match m s with
  | (Ok a, s') => k a s'
  | (Err e, s') => (Err e, s')
  | (Panic, s') => (Panic, s')
  end.

(** [Result::map_err]. *)
Definition map_err {E F A} (f : E → F) (m : outcome E A) : outcome F A :=
  match m with Ok a => Ok a | Err e => Err (f e) | Panic => Panic end.
Definition M_map_err {S E F A} (f : E → F) (m : M S E A) : M S F A :=
  λ s, (map_err f (m s).1, (m s).2).
(** [Err(e)] / [return Err(e)]. *)
Definition M_err {S E A} (e : E) : M S E A := λ s, (Err e, s).

(** Run a computation over a local [let mut s = ...]. *)
Definition M_run {S E A} (s : S) (m : M S E A) : outcome E A := (m s).1.

Definition is_Ok {E A} (m : outcome E A) : bool :=
  match m with Ok _ => true | _ => false end.

(** [for _ in 0..n { v.push(m?) }] *)
Fixpoint M_repeat {S E A} (n : nat) (m : M S E A) : M S E (list A) :=
  match n with
  | O => mret []
  | Datatypes.S n' => x ← m; xs ← M_repeat n' m; mret (x :: xs)
  end.

(** [for i in i0..i0+n { v.push(m(i)?) }] *)
Fixpoint M_collect {S E A} (n : nat) (i : Z) (m : Z → M S E A) : M S E (list A) :=
  match n with
  | O => mret []
  | Datatypes.S n' => x ← m i; xs ← M_collect n' (i + 1)%Z m; mret (x :: xs)
  end.

(** [for x in l { acc = f(acc, x)?; }] *)
Fixpoint foldM {E A B} (f : A → B → outcome E A) (acc : A) (l : list B) : outcome E A :=
  match l with
  | [] => Ok acc
  | x :: l' => acc' ← f acc x; foldM f acc' l'
  end.

(** [sort_by] / [sort_by_key]: the stable sort of a comparator that orders
    totally, [le x y] meaning it does not say Greater. *)
Fixpoint sort_insert {A} (le : A → A → bool) (x : A) (l : list A) : list A :=
  match l with
  | [] => [x]
  | y :: l' => if le x y then x :: l else y :: sort_insert le x l'
  end.
Definition sort_by {A} (le : A → A → bool) (l : list A) : list A :=
  foldr (sort_insert le) [] l.

(** ** Machine integers *)

Open Scope Z_scope.

Definition usize_max : Z := 2 ^ 64 - 1.
Definition u8 (z : Z) : Z := z mod 2 ^ 8.
Definition u16 (z : Z) : Z := z mod 2 ^ 16.
Definition u32 (z : Z) : Z := z mod 2 ^ 32.
Definition u64 (z : Z) : Z := z mod 2 ^ 64.
(** Unchecked [usize] addition of a release build. *)
Definition usize (z : Z) : Z := z mod 2 ^ 64.
(** [as i64] and [as i32]. *)
Definition i64 (z : Z) : Z := (z + 2 ^ 63) mod 2 ^ 64 - 2 ^ 63.
Definition i32 (z : Z) : Z := (z + 2 ^ 31) mod 2 ^ 32 - 2 ^ 31.
(** [usize::saturating_sub] and [usize::saturating_mul]. *)
Definition sat_sub (a b : Z) : Z := Z.max 0 (a - b).
Definition sat_mul (a b : Z) : Z := Z.min usize_max (a * b).

Definition zlen {A} (l : list A) : Z := Z.of_nat (length l).

Definition is_byte (z : Z) : Prop := 0 ≤ z < 256.
#[export] Instance is_byte_dec z : Decision (is_byte z).
Proof. unfold is_byte. apply _. Defined.

(** ** Strings, as the UTF-8 bytes a [&str] holds *)

Definition str_len (s : string) : Z := Z.of_nat (String.length s).
Definition str_is_empty (s : string) : bool := bool_decide (s = "").

(** A character literal, [ch "c"]. *)
Definition ch (s : string) : Ascii.ascii :=
  match s with String a _ => a | "" => Ascii.zero end.

(** The double quote, as a string. *)
Definition dq : string := String (Ascii.ascii_of_N 34) "".

(** [s.split(c)]: never empty, the separators are dropped. *)
Fixpoint split_char (c : Ascii.ascii) (s : string) : list string :=
  match s with
  | "" => [""]
  | String a s' =>
      if bool_decide (a = c) then "" :: split_char c s'
      else match split_char c s' with
           | [] => [String a ""]
           | p :: ps => String a p :: ps
           end
  end.

(** [s.chars()], each as its bytes: a UTF-8 continuation byte belongs to the
    character before it. *)
Definition is_continuation (a : Ascii.ascii) : bool :=
  let n := Ascii.N_of_ascii a in (128 <=? n)%N && (n <? 192)%N.
Definition starts_with_continuation (s : string) : bool :=
  match s with String b _ => is_continuation b | "" => false end.
Fixpoint str_chars (s : string) : list string :=
  match s with
  | "" => []
  | String a s' =>
      match str_chars s' with
      | c :: cs =>
          if starts_with_continuation s' then String a c :: cs else String a "" :: c :: cs
      | [] => [String a ""]
      end
  end.

(** [a.eq_ignore_ascii_case(b)] *)
Definition ascii_lower (a : Ascii.ascii) : Ascii.ascii :=
  let n := Ascii.N_of_ascii a in
  if (65 <=? n)%N && (n <=? 90)%N then Ascii.ascii_of_N (n + 32) else a.
Fixpoint to_ascii_lowercase (s : string) : string :=
  match s with "" => "" | String a s' => String (ascii_lower a) (to_ascii_lowercase s') end.
Definition eq_ignore_ascii_case (a b : string) : bool :=
  bool_decide (to_ascii_lowercase a = to_ascii_lowercase b).

(** [s.split(c).next().unwrap_or("")] *)
Definition split_first (c : Ascii.ascii) (s : string) : string :=
  default "" (head (split_char c s)).

(** [s.trim_end_matches(c)] *)
Fixpoint trim_end_matches (c : Ascii.ascii) (s : string) : string :=
  match s with
  | "" => ""
  | String a s' =>
      let t := trim_end_matches c s' in
      if bool_decide (t = "") && bool_decide (a = c) then "" else String a t
  end.

(** [s.split_once(c)] *)
Fixpoint split_once (c : Ascii.ascii) (s : string) : option (string * string) :=
  match s with
  | "" => None
  | String a s' =>
      if bool_decide (a = c) then Some ("", s')
      else '(k, v) ← split_once c s'; Some (String a k, v)
  end.

(** [s.replace(from, to)] for a non-empty [from]: left to right, the matches do
    not overlap.  [skip] characters of the current match are still to drop. *)
Fixpoint replace_go (from to : string) (skip : nat) (s : string) : string :=
  match s with
  | "" => ""
  | String a s' =>
      match skip with
      | S skip' => replace_go from to skip' s'
      | O =>
          if String.prefix from s
          then to +:+ replace_go from to (pred (String.length from)) s'
          else String a (replace_go from to 0 s')
      end
  end.
Definition str_replace (from to s : string) : string := replace_go from to 0 s.

(** [s.find(pat)], the byte offset of the first occurrence. *)
Fixpoint str_find (pat s : string) : option nat :=
  if String.prefix pat s then Some 0%nat
  else match s with "" => None | String _ s' => S <$> str_find pat s' end.
(** [s.rfind(pat)], the byte offset of the last occurrence. *)
Fixpoint str_rfind (pat s : string) : option nat :=
  match s with
  | "" => if String.prefix pat s then Some 0%nat else None
  | String _ s' =>
      match str_rfind pat s' with
      | Some n => Some (S n)
      | None => if String.prefix pat s then Some 0%nat else None
      end
  end.
(** [s.contains(pat)] *)
Fixpoint str_contains (pat s : string) : bool :=
  String.prefix pat s || match s with "" => false | String _ s' => str_contains pat s' end.

(** [s.replacen(from, to, 1)]. *)
Fixpoint replace_first (from to s : string) : string :=
  if String.prefix from s
  then to +:+ String.substring (String.length from) (String.length s - String.length from) s
  else match s with "" => "" | String a s' => String a (replace_first from to s') end.
Definition str_drop (n : nat) (s : string) : string := String.substring n (String.length s - n) s.
(** [s.is_char_boundary(n)] *)
Definition is_char_boundary (n : nat) (s : string) : bool :=
  match String.get n s with
  | Some a => negb (is_continuation a)
  | None => bool_decide (n = String.length s)
  end.
(** [&s[..n]] and [&s[n..]] *)
Definition slice_to (n : nat) (s : string) : outcome string string :=
  if is_char_boundary n s then Ok (String.substring 0 n s) else Panic.
Definition slice_from (n : nat) (s : string) : outcome string string :=
  if is_char_boundary n s then Ok (str_drop n s) else Panic.

(** The digits of [s] in base ten. *)
Fixpoint digits_value (acc : Z) (s : string) : option Z :=
  match s with
  | "" => Some acc
  | String a s' =>
      let d := Z.of_N (Ascii.N_of_ascii a) - 48 in
      if (0 <=? d) && (d <=? 9) then digits_value (10 * acc + d) s' else None
  end.
(** [s.parse()] at an integer type with range [lo..=hi]: an optional sign (a
    minus only at a signed type), at least one digit, no overflow. *)
Definition parse_int (lo hi : Z) (s : string) : option Z :=
  let unsigned (s : string) := if str_is_empty s then None else digits_value 0 s in
  v ← match s with
      | String a s' =>
          if bool_decide (a = ch "+") then unsigned s'
          else if bool_decide (a = ch "-") && (lo <? 0) then Z.opp <$> unsigned s'
          else unsigned s
      | "" => None
      end;
  if (lo <=? v) && (v <=? hi) then Some v else None.

(** [a.or(b)] *)
Definition option_or {A} (a b : option A) : option A := match a with Some _ => a | None => b end.

Fixpoint string_bytes (s : string) : list Z :=
  match s with
  | "" => []
  | String a s' => Z.of_N (Ascii.N_of_ascii a) :: string_bytes s'
  end.

Definition ascii_of_byte (z : Z) : Ascii.ascii := Ascii.ascii_of_N (Z.to_N z).

(** [vec![...].join(sep)] *)
Fixpoint join (sep : string) (l : list string) : string :=
  match l with
  | [] => ""
  | [s] => s
  | s :: l' => s +:+ sep +:+ join sep l'
  end.

(** No character of [s] is [c]. *)
Definition no_char (c : Ascii.ascii) (s : string) : Prop :=
  c ∉ String.list_ascii_of_string s.
#[export] Instance no_char_dec c s : Decision (no_char c s).
Proof. unfold no_char. apply _. Defined.

(** The order in which a [HashMap] iterates. *)
Class MapIter : Type := {
  map_iter : ∀ A, gmap string A → list (string * A);
  map_iter_perm A (m : gmap string A) : map_iter A m ≡ₚ map_to_list m;
}.
Arguments map_iter {_ A} m.
(** Not an instance: a theorem holds for every order, and only its witness picks one. *)
Definition map_iter_to_list : MapIter := {| map_iter A m := map_to_list m;
  map_iter_perm A m := Permutation_refl _ |}.

(** ** Hint databases and tactics *)

Create HintDb pbs.

(** Case analysis on the scrutinee of every [match] or [if] of the goal. *)
Ltac break_match :=
  match goal with
  | |- context [match ?x with _ => _ end] => destruct x eqn:?
  end.
Ltac break_match_hyp H :=
  match type of H with
  | context [match ?x with _ => _ end] => destruct x eqn:?
  end.
(** Turns boolean tests in the context into propositions. *)
Ltac bools :=
  repeat match goal with
  | H : bool_decide _ = true |- _ => apply bool_decide_eq_true in H
  | H : bool_decide _ = false |- _ => apply bool_decide_eq_false in H
  | H : (_ && _) = true |- _ => apply andb_true_iff in H as [? ?]
  | H : (_ || _) = false |- _ => apply orb_false_iff in H as [? ?]
  | H : (_ <? _) = true |- _ => apply Z.ltb_lt in H
  | H : (_ <? _) = false |- _ => apply Z.ltb_ge in H
  | H : (_ <=? _) = true |- _ => apply Z.leb_le in H
  | H : (_ <=? _) = false |- _ => apply Z.leb_gt in H
  | H : (_ =? _) = true |- _ => apply Z.eqb_eq in H
  | H : (_ =? _) = false |- _ => apply Z.eqb_neq in H
  | H : negb _ = true |- _ => apply negb_true_iff in H
  | H : negb _ = false |- _ => apply negb_false_iff in H
  end.
(** Linear arithmetic with the equations of [div] and [mod]. *)
Ltac dlia := Z.div_mod_to_equations; lia.

(** ** Generic lemmas *)

Lemma bind_Ok {E A B} (m : outcome E A) (k : A → outcome E B) b :
  m ≫= k = Ok b ↔ ∃ a, m = Ok a ∧ k a = Ok b.
Proof.
  destruct m; simpl; split; intros H; [eauto|by destruct H as (?&[= ->]&?)|done| |done|];
    by destruct H as (?&?&?).
Qed.

Lemma M_bind_Ok {S E A B} (m : M S E A) (k : A → M S E B) s a s' :
  m s = (Ok a, s') → (m ≫= k) s = k a s'.
Proof. intros H. unfold mbind, M_bind. by rewrite H. Qed.

Lemma M_bind_Err {S E A B} (m : M S E A) (k : A → M S E B) s e s' :
  m s = (Err e, s') → (m ≫= k) s = (Err e, s').
Proof. intros H. unfold mbind, M_bind. by rewrite H. Qed.

Lemma map_err_Ok {E F A} (f : E → F) (m : outcome E A) a :
  map_err f m = Ok a ↔ m = Ok a.
Proof. destruct m; simpl; split; congruence. Qed.

Lemma foldM_app {E A B} (f : A → B → outcome E A) acc l1 l2 :
  foldM f acc (l1 ++ l2) = acc' ← foldM f acc l1; foldM f acc' l2.
Proof. revert acc. induction l1 as [|x l1 IH]; intros acc; simpl; [done|].
  destruct (f acc x); simpl; auto. Qed.

(** An invariant of every step is an invariant of the loop. *)
Lemma foldM_inv {E A B} (I : A → Prop) (f : A → B → outcome E A) acc l acc' :
  (∀ a x a', x ∈ l → I a → f a x = Ok a' → I a') →
  I acc → foldM f acc l = Ok acc' → I acc'.
Proof.
  revert acc. induction l as [|x l IH]; intros acc Hf HI H; simpl in H.
  { by injection H as <-. }
  apply bind_Ok in H as (a&Ha&H).
  eapply (IH a); [intros; eapply Hf; [by right|..]; eauto| |done].
  eapply Hf; [by left|..]; eauto.
Qed.

Lemma zlen_nonneg {A} (l : list A) : 0 ≤ zlen l.
Proof. unfold zlen. lia. Qed.
Lemma zlen_cons {A} (x : A) l : zlen (x :: l) = 1 + zlen l.
Proof. unfold zlen. simpl length. lia. Qed.

Lemma u8_small z : 0 ≤ z < 2 ^ 8 → u8 z = z.
Proof. apply Z.mod_small. Qed.
Lemma u16_small z : 0 ≤ z < 2 ^ 16 → u16 z = z.
Proof. apply Z.mod_small. Qed.
Lemma u32_small z : 0 ≤ z < 2 ^ 32 → u32 z = z.
Proof. apply Z.mod_small. Qed.
Lemma u64_small z : 0 ≤ z < 2 ^ 64 → u64 z = z.
Proof. apply Z.mod_small. Qed.
Lemma usize_small z : 0 ≤ z < 2 ^ 64 → usize z = z.
Proof. apply Z.mod_small. Qed.
Lemma i64_small z : - 2 ^ 63 ≤ z < 2 ^ 63 → i64 z = z.
Proof. intros H. unfold i64. rewrite Z.mod_small; lia. Qed.

#[export] Hint Resolve zlen_nonneg u8_small u16_small u32_small u64_small : pbs.

Lemma filter_sublist {A} `{EqDecision A} (l k : list A) : NoDup k → sublist l k →
  List.filter (λ x, bool_decide (x ∈ l)) k = l.
Proof.
  intros Hk Hs. induction Hs as [|x l k Hs IH|x l k Hs IH]; [done| |];
    apply NoDup_cons in Hk as [Hx Hk]; simpl.
  - rewrite bool_decide_true by by left. f_equal. etrans; [|exact (IH Hk)].
    apply List.filter_ext_in. intros y Hy. apply list_elem_of_In in Hy. apply bool_decide_ext.
    rewrite elem_of_cons. split; [|by right]. intros [->|?]; [done|auto].
  - rewrite bool_decide_false; [auto|]. intros Hl. apply Hx. by eapply elem_of_sublist.
Qed.

Lemma filter_flat_map {A} (f : A → bool) l :
  List.filter f l = flat_map (λ x, if f x then [x] else []) l.
Proof. induction l as [|x l IH]; [done|]. simpl. rewrite IH. by destruct (f x). Qed.

Lemma split_char_no_char c s : no_char c s → split_char c s = [s].
Proof.
  unfold no_char. induction s as [|a s IH]; [done|]. simpl. intros Hc.
  apply not_elem_of_cons in Hc as [Ha Hc]. by rewrite bool_decide_false, IH by done.
Qed.

Lemma split_char_app c s t : no_char c s →
  split_char c (s +:+ String c t) = s :: split_char c t.
Proof.
  unfold no_char. induction s as [|a s IH]; simpl; intros Hc.
  - by rewrite bool_decide_true by done.
  - apply not_elem_of_cons in Hc as [Ha Hc]. by rewrite bool_decide_false, IH by done.
Qed.

(** [split] undoes [join]. *)
Lemma split_char_join c p ps : Forall (no_char c) (p :: ps) →
  split_char c (join (String c "") (p :: ps)) = p :: ps.
Proof.
  revert p. induction ps as [|q ps IH]; intros p Hp; apply Forall_cons in Hp as [Hp Hps].
  - by apply split_char_no_char.
  - change (join (String c "") (p :: q :: ps))
      with (p +:+ String c (join (String c "") (q :: ps))).
    by rewrite split_char_app, IH.
Qed.

Lemma sort_insert_perm {A} (le : A → A → bool) x l : sort_insert le x l ≡ₚ x :: l.
Proof.
  induction l as [|y l IH]; [done|]. simpl. destruct (le x y); [done|].
  rewrite IH. apply Permutation_swap.
Qed.
Lemma sort_by_perm {A} (le : A → A → bool) l : sort_by le l ≡ₚ l.
Proof. induction l as [|x l IH]; [done|]. simpl. by rewrite sort_insert_perm, IH. Qed.

Section SortBy.
Context {A : Type} (P : A → Prop) (le : A → A → bool).
Context (le_total : ∀ x y, P x → P y → le x y = false → le y x = true).
Context (le_trans : ∀ x y z, P x → P y → P z →
  le x y = true → le y z = true → le x z = true).

Lemma sort_insert_sorted x l : P x → Forall P l →
  StronglySorted (λ a b, le a b = true) l →
  StronglySorted (λ a b, le a b = true) (sort_insert le x l).
Proof.
  intros Hx Hl. induction l as [|y l IH]; simpl; intros Hs.
  { by repeat constructor. }
  apply StronglySorted_inv in Hs as [Hs Hy]. apply Forall_cons in Hl as [Py Hl].
  destruct (le x y) eqn:Hxy.
  - constructor; [by constructor|]. constructor; [done|].
    rewrite Forall_forall in *. intros z Hz. eapply le_trans; [..|exact Hxy|]; eauto.
  - constructor; [auto|]. rewrite sort_insert_perm. constructor; [by apply le_total|done].
Qed.
(** On elements it orders totally, the sort sorts. *)
Lemma sort_by_sorted l : Forall P l → StronglySorted (λ a b, le a b = true) (sort_by le l).
Proof.
  induction 1 as [|x l Hx Hl IH]; simpl; [constructor|].
  apply sort_insert_sorted; [done| |done]. by rewrite sort_by_perm.
Qed.
End SortBy.

Lemma elem_of_StronglySorted_app {A} (R : A → A → Prop) l1 l2 x y :
  StronglySorted R (l1 ++ l2) → x ∈ l1 → y ∈ l2 → R x y.
Proof.
  induction l1 as [|z l1 IH]; simpl; intros Hs Hx Hy; [by apply elem_of_nil in Hx|].
  apply StronglySorted_inv in Hs as [Hs Hz].
  apply elem_of_cons in Hx as [->|Hx]; [|auto].
  rewrite Forall_forall in Hz. apply Hz. rewrite elem_of_app. by right.
Qed.

Lemma map_iter_elem `{MI : MapIter} {A} (m : gmap string A) k v :
  (k, v) ∈ map_iter m ↔ m !! k = Some v.
Proof. by rewrite (map_iter_perm A m), elem_of_map_to_list. Qed.

Lemma map_iter_nodup `{MI : MapIter} {A} (m : gmap string A) : NoDup (map_iter m).*1.
Proof. rewrite (map_iter_perm A m). apply NoDup_fst_map_to_list. Qed.
Lemma map_iter_empty `{MI : MapIter} {A} : map_iter (∅ : gmap string A) = [].
Proof. apply Permutation_nil. by rewrite (map_iter_perm A ∅), map_to_list_empty. Qed.

(** A loop over a map that changes each key by its entry. *)
Lemma map_iter_fold_update `{MI : MapIter} {A B} (step : gmap string B → string * A → gmap string B)
    (h : string → A → option B → option B) (m : gmap string A) (acc : gmap string B) k :
  (∀ acc k v, step acc (k, v) = partial_alter (h k v) k acc) →
  fold_left step (map_iter m) acc !! k = match m !! k with Some v => h k v (acc !! k) | None => acc !! k end.
Proof.
  intros Hstep. pose proof (map_iter_perm A m) as Hperm.
  pose proof (map_iter_nodup m) as Hnd.
  assert (Hm : (list_to_map (map_iter m) : gmap string A) = m).
  { by rewrite (list_to_map_proper _ _ Hnd Hperm), list_to_map_to_list. }
  rewrite <-Hm at 2. clear Hperm Hm. revert acc. generalize dependent (map_iter m). clear m.
  induction l as [|[k' v] l IH]; intros Hnd acc; cbn; [by rewrite lookup_empty|].
  apply NoDup_cons in Hnd as [Hk Hl]. rewrite IH, Hstep by done. cbn in Hk.
  destruct (decide (k' = k)) as [->|Hne].
  - by rewrite not_elem_of_list_to_map_1, lookup_insert_eq, lookup_partial_alter_eq by done.
  - by rewrite lookup_insert_ne, lookup_partial_alter_ne by done.
Qed.

(** A loop over a map that sets each key to what its entry gives. *)
Lemma map_iter_fold_lookup `{MI : MapIter} {A B S} (step : gmap string B * S → string * A → gmap string B * S)
    (g : string → A → option B) (m : gmap string A) (acc : gmap string B * S) k :
  (∀ acc k v, (step acc (k, v)).1 = match g k v with Some w => <[k := w]> acc.1 | None => acc.1 end) →
  (fold_left step (map_iter m) acc).1 !! k = match m !! k ≫= g k with Some w => Some w | None => acc.1 !! k end.
Proof.
  intros Hstep. pose proof (map_iter_perm A m) as Hperm.
  pose proof (map_iter_nodup m) as Hnd.
  assert (Hm : (list_to_map (map_iter m) : gmap string A) = m).
  { by rewrite (list_to_map_proper _ _ Hnd Hperm), list_to_map_to_list. }
  rewrite <-Hm at 2. clear Hperm Hm. revert acc. generalize dependent (map_iter m). clear m.
  induction l as [|[k' v] l IH]; intros Hnd acc; cbn; [by rewrite lookup_empty|].
  apply NoDup_cons in Hnd as [Hk Hl]. rewrite IH, Hstep by done. cbn in Hk.
  destruct (decide (k' = k)) as [->|Hne].
  - rewrite not_elem_of_list_to_map_1, lookup_insert_eq by done. cbn.
    destruct (g k v); [by rewrite lookup_insert_eq|done].
  - rewrite lookup_insert_ne by done. destruct (g k' v); [by rewrite lookup_insert_ne|done].
Qed.

Lemma str_app_assoc (s t u : string) : (s +:+ t) +:+ u = s +:+ (t +:+ u).
Proof. induction s as [|a s IH]; [done|]. by change (String a ((s +:+ t) +:+ u) = String a (s +:+ (t +:+ u))); rewrite IH. Qed.

Lemma omap_nil {A B} (f : A → option B) (l : list A) : omap f l = [] ↔ Forall (λ x, f x = None) l.
Proof.
  induction l as [|x l IH]; cbn; [done|]. rewrite Forall_cons, <-IH. destruct (f x); naive_solver.
Qed.
Lemma omap_ext_in {A B} (f g : A → option B) (l : list A) : (∀ x, x ∈ l → f x = g x) → omap f l = omap g l.
Proof.
  induction l as [|x l IH]; intros He; [done|]. cbn. rewrite He by set_solver. by rewrite IH by set_solver.
Qed.

Lemma i32_add a b : i32 (i32 a + b) = i32 (a + b).
Proof.
  unfold i32. f_equal. replace ((a + 2 ^ 31) mod 2 ^ 32 - 2 ^ 31 + b + 2 ^ 31)
    with ((a + 2 ^ 31) mod 2 ^ 32 + b) by lia.
  rewrite Zplus_mod_idemp_l. f_equal. lia.
Qed.

Lemma mapM_spec {E A B} (f : A → outcome E B) l :
  match mapM f l with
  | Ok k => Forall2 (λ x y, f x = Ok y) l k
  | Err e => ∃ x, x ∈ l ∧ f x = Err e
  | Panic => ∃ x, x ∈ l ∧ f x = Panic
  end.
Proof.
  induction l as [|x l IH]; [by constructor|]. cbn. destruct (f x) as [y|e|] eqn:Hx; cbn.
  - destruct (mapM f l) as [k|e|]; cbn; [by constructor|..];
      destruct IH as (x' & ? & ?); exists x'; (split; [by right|done]).
  - exists x. by split; [left|].
  - exists x. by split; [left|].
Qed.
