(* ===== verification/Bits.v ===== *)
(** * Bit strings and their packing into bytes

    The reference semantics the bit readers of the privacy, GDPR and exchange
    crates are compared with: a byte string is the list of its bits, most
    significant first, and an unsigned field of [n] bits is the number those
    bits spell.  No definition of this file models code by itself; it is the
    specification side of [BitReader.v], [GppSections.v] and [TcfConsent.v]. *)

From S2P Require Import Prelude.

(** The [n] low bits of [v], most significant first. *)
Fixpoint bits_of_Z (n : nat) (v : Z) : list bool :=
  match n with
  | O => []
  | S n' => Z.testbit v (Z.of_nat n') :: bits_of_Z n' v
  end.

(** The number a big-endian bit string spells, from an accumulator. *)
Fixpoint Z_of_bits_acc (acc : Z) (l : list bool) : Z :=
  match l with
  | [] => acc
  | b :: l' => Z_of_bits_acc (2 * acc + Z.b2z b) l'
  end.
Definition Z_of_bits (l : list bool) : Z := Z_of_bits_acc 0 l.

(** The bits of a byte string. *)
Definition bits_of (bytes : list Z) : list bool := bytes ≫= bits_of_Z 8.

(** Packing, zero-padded to a byte boundary. *)
Fixpoint pack_fuel (fuel : nat) (l : list bool) : list Z :=
  match fuel, l with
  | S f, _ :: _ => Z_of_bits (take 8 (l ++ replicate 7 false)) :: pack_fuel f (drop 8 l)
  | _, _ => []
  end.
Definition pack (l : list bool) : list Z := pack_fuel (length l) l.

(** ** Numbers and bit strings *)

Lemma length_bits_of_Z n v : length (bits_of_Z n v) = n.
Proof. induction n; simpl; auto. Qed.

Lemma Z_of_bits_acc_spec acc l :
  Z_of_bits_acc acc l = acc * 2 ^ zlen l + Z_of_bits l.
Proof.
  unfold Z_of_bits. revert acc. induction l as [|b l IH]; intros acc; cbn [Z_of_bits_acc]; [unfold zlen; simpl; lia|].
  rewrite IH, (IH (2 * 0 + _)), zlen_cons, Z.pow_add_r by (auto with pbs; lia).
  lia.
Qed.

Lemma Z_of_bits_cons b l : Z_of_bits (b :: l) = Z.b2z b * 2 ^ zlen l + Z_of_bits l.
Proof. unfold Z_of_bits at 1. simpl. rewrite Z_of_bits_acc_spec. f_equal. Qed.

Lemma zlen_app {A} (l1 l2 : list A) : zlen (l1 ++ l2) = zlen l1 + zlen l2.
Proof. unfold zlen. rewrite length_app. lia. Qed.

Lemma Z_of_bits_app l1 l2 : Z_of_bits (l1 ++ l2) = Z_of_bits l1 * 2 ^ zlen l2 + Z_of_bits l2.
Proof.
  induction l1 as [|b l1 IH]; simpl; [unfold Z_of_bits at 2; simpl; lia|].
  rewrite !Z_of_bits_cons, IH, zlen_app, Z.pow_add_r by auto with pbs. lia.
Qed.

Lemma Z_of_bits_bound l : 0 ≤ Z_of_bits l < 2 ^ zlen l.
Proof.
  induction l as [|b l IH]; [unfold Z_of_bits, zlen; simpl; lia|].
  rewrite Z_of_bits_cons, zlen_cons, Z.pow_add_r by (auto with pbs; lia).
  destruct b; simpl Z.b2z; lia.
Qed.

Lemma Z_of_bits_bits_of_Z n v : Z_of_bits (bits_of_Z n v) = v mod 2 ^ Z.of_nat n.
Proof.
  induction n as [|n IH]; [unfold Z_of_bits; simpl; by rewrite Z.mod_1_r|].
  simpl bits_of_Z. rewrite Z_of_bits_cons, IH. unfold zlen. rewrite length_bits_of_Z.
  rewrite Z.testbit_spec' by lia.
  replace (Z.of_nat (S n)) with (Z.of_nat n + 1) by lia.
  assert (Hp : 0 < 2 ^ Z.of_nat n) by (apply Z.pow_pos_nonneg; lia).
  rewrite Z.pow_add_r, Z.rem_mul_r, Z.pow_1_r by lia. lia.
Qed.

Lemma Z_of_bits_small n v :
  0 ≤ v < 2 ^ Z.of_nat n → Z_of_bits (bits_of_Z n v) = v.
Proof. intros H. by rewrite Z_of_bits_bits_of_Z, Z.mod_small. Qed.

Lemma testbit_Z_of_bits l i : (i < length l)%nat →
  Z.testbit (Z_of_bits l) (zlen l - 1 - Z.of_nat i) = default false (l !! i).
Proof.
  revert i. induction l as [|b l IH]; simpl; intros i Hi; [lia|].
  pose proof (Z_of_bits_bound l) as Hb.
  rewrite Z_of_bits_cons, zlen_cons.
  assert (Hz : zlen l = Z.of_nat (length l)) by done.
  assert (Hp : 0 < 2 ^ zlen l) by (apply Z.pow_pos_nonneg; lia).
  destruct i as [|i]; simpl.
  - replace (1 + zlen l - 1 - Z.of_nat 0) with (zlen l) by lia.
    apply Z.b2z_inj. rewrite Z.testbit_spec' by lia.
    rewrite Z.div_add_l, (Z.div_small (Z_of_bits l)) by lia.
    destruct b; simpl; reflexivity.
  - replace (1 + zlen l - 1 - Z.of_nat (S i)) with (zlen l - 1 - Z.of_nat i) by lia.
    rewrite <-IH by lia.
    rewrite <-(Z.mod_pow2_bits_low _ (zlen l)) by lia.
    rewrite Z.add_comm, Z.mod_add, Z.mod_small by lia. done.
Qed.

Lemma bits_of_Z_of_bits l : bits_of_Z (length l) (Z_of_bits l) = l.
Proof.
  induction l as [|b l IH]; [done|].
  simpl. f_equal.
  - pose proof (testbit_Z_of_bits (b :: l) 0 ltac:(simpl; lia)) as H.
    rewrite zlen_cons in H. etrans; [|exact H]. f_equal. unfold zlen. lia.
  - etrans; [|exact IH]. rewrite Z_of_bits_cons. clear IH.
    unfold zlen. generalize (Z_of_bits l) as v. intros v.
    assert (H : ∀ n m, (n ≤ m)%nat →
      bits_of_Z n (Z.b2z b * 2 ^ Z.of_nat m + v) = bits_of_Z n v); [|by apply H].
    induction n as [|n IH]; intros m Hm; [done|]. simpl. rewrite IH by lia. f_equal.
    rewrite <-(Z.mod_pow2_bits_low _ (Z.of_nat m)) by lia.
    rewrite Z.add_comm, Z.mod_add by (apply Z.pow_nonzero; lia).
    by rewrite Z.mod_pow2_bits_low by lia.
Qed.

Lemma bits_of_Z_of_bits_n n l : length l = n → bits_of_Z n (Z_of_bits l) = l.
Proof. intros <-. apply bits_of_Z_of_bits. Qed.

(** ** Byte strings *)

Lemma bits_of_cons b bytes : bits_of (b :: bytes) = bits_of_Z 8 b ++ bits_of bytes.
Proof. done. Qed.

Lemma length_bits_of bytes : length (bits_of bytes) = (8 * length bytes)%nat.
Proof.
  induction bytes as [|b bytes IH]; [done|].
  rewrite bits_of_cons, length_app, IH, length_bits_of_Z. simpl. lia.
Qed.

Lemma zlen_bits_of bytes : zlen (bits_of bytes) = 8 * zlen bytes.
Proof. unfold zlen. rewrite length_bits_of. lia. Qed.

Lemma bits_of_Z8_lookup b i : (i < 8)%nat →
  bits_of_Z 8 b !! i = Some (Z.testbit b (7 - Z.of_nat i)).
Proof. intros Hi. do 8 (destruct i as [|i]; [done|]). lia. Qed.

(** Bit [i] of a byte string is bit [7 - i mod 8] of byte [i / 8]. *)
Lemma bits_of_lookup bytes i :
  bits_of bytes !! i =
    b ← bytes !! (i / 8)%nat; Some (Z.testbit b (7 - Z.of_nat (i mod 8)%nat)).
Proof.
  revert i. induction bytes as [|b bytes IH]; intros i; [done|].
  rewrite bits_of_cons.
  destruct (decide (i < 8)%nat).
  - rewrite lookup_app_l by (rewrite length_bits_of_Z; lia).
    rewrite Nat.div_small, Nat.mod_small by lia. by apply bits_of_Z8_lookup.
  - rewrite lookup_app_r, length_bits_of_Z by (rewrite length_bits_of_Z; lia).
    rewrite IH. set (j := (i - 8)%nat). replace i with (j + 1 * 8)%nat by lia.
    rewrite Nat.div_add, Nat.Div0.mod_add by lia.
    replace (j / 8 + 1)%nat with (S (j / 8)) by lia. done.
Qed.

Lemma bits_of_pack_fuel f l : (length l ≤ f)%nat →
  ∃ k, (k < 8)%nat ∧ bits_of (pack_fuel f l) = l ++ replicate k false.
Proof.
  revert l. induction f as [|f IH]; intros l Hl.
  { destruct l; simpl in *; [|lia]. exists 0%nat; split; [lia|done]. }
  destruct l as [|b l]; [exists 0%nat; split; [lia|done]|].
  cbn [pack_fuel]. rewrite bits_of_cons.
  set (l' := b :: l) in *.
  assert (Hw : length (take 8 (l' ++ replicate 7 false)) = 8%nat).
  { rewrite length_take, length_app, length_replicate. subst l'; simpl length. lia. }
  rewrite (bits_of_Z_of_bits_n 8 _ Hw).
  destruct (decide (8 ≤ length l')%nat).
  - destruct (IH (drop 8 l')) as (k&?&Hk).
    { rewrite length_drop. simpl in *. lia. }
    exists k; split; [done|]. rewrite Hk, take_app_le by done.
    by rewrite app_assoc, take_drop.
  - exists (8 - length l')%nat. split; [simpl; lia|].
    rewrite (drop_ge l') by lia.
    replace (pack_fuel f []) with (@nil Z) by by destruct f.
    change (bits_of []) with (@nil bool). rewrite app_nil_r, take_app_ge by lia.
    rewrite take_replicate. do 2 f_equal. simpl in *; lia.
Qed.

(** Packing then reading back gives the bits and at most seven zeros. *)
Lemma bits_of_pack l : ∃ k, (k < 8)%nat ∧ bits_of (pack l) = l ++ replicate k false.
Proof. by apply bits_of_pack_fuel. Qed.

Lemma pack_is_byte l : Forall is_byte (pack l).
Proof.
  unfold pack. generalize (length l) as f. intros f. revert l.
  induction f as [|f IH]; intros [|b l]; simpl; constructor; auto.
  pose proof (Z_of_bits_bound (b :: take 7 (l ++ replicate 7 false))) as H.
  unfold is_byte. rewrite zlen_cons in H. unfold zlen in H.
  rewrite length_take, length_app, length_replicate in H.
  replace (1 + Z.of_nat (7 `min` (length l + 7))) with 8 in H by lia.
  exact H.
Qed.

Lemma zlen_pack l : 8 * zlen (pack l) < zlen l + 8.
Proof.
  destruct (bits_of_pack l) as (k&Hk&H). apply (f_equal zlen) in H.
  rewrite zlen_bits_of, zlen_app in H. unfold zlen in *.
  rewrite length_replicate in H. lia.
Qed.

(** Slices of a bit string. *)
Definition bit_slice (l : list bool) (pos n : Z) : list bool :=
  take (Z.to_nat n) (drop (Z.to_nat pos) l).

#[export] Hint Resolve length_bits_of_Z pack_is_byte Z_of_bits_small : pbs.

(** ** Slices and machine operations *)

Lemma bits_of_Z_lookup n v i : (i < n)%nat →
  bits_of_Z n v !! i = Some (Z.testbit v (Z.of_nat n - 1 - Z.of_nat i)).
Proof.
  revert i. induction n as [|n IH]; intros i Hi; [lia|].
  destruct i as [|i]; simpl bits_of_Z.
  - simpl. do 2 f_equal. lia.
  - change ((?x :: ?l) !! S i) with (l !! i). rewrite IH by lia. do 2 f_equal. lia.
Qed.

Lemma bits_of_Z_slice n v o t : (o + t ≤ n)%nat →
  take t (drop o (bits_of_Z n v)) = bits_of_Z t (Z.shiftr v (Z.of_nat (n - o - t))).
Proof.
  intros Ht. apply list_eq_same_length with t.
  { by rewrite length_bits_of_Z. }
  { rewrite length_take, length_drop, length_bits_of_Z. lia. }
  intros i x y Hi Hx Hy. rewrite lookup_take_lt, lookup_drop in Hx by done.
  rewrite bits_of_Z_lookup in Hx, Hy by lia. simplify_eq.
  rewrite Z.shiftr_spec by lia. f_equal. lia.
Qed.

Lemma lor_shiftl_add v c t : 0 ≤ t → 0 ≤ c < 2 ^ t →
  Z.lor (Z.shiftl v t) c = v * 2 ^ t + c.
Proof.
  intros Ht Hc. apply Z.bits_inj'. intros i Hi. rewrite Z.lor_spec.
  destruct (decide (i < t)).
  - rewrite Z.shiftl_spec_low by lia. simpl.
    rewrite <-(Z.mod_pow2_bits_low (v * 2 ^ t + c) t) by lia.
    by rewrite Z.add_comm, Z.mod_add, Z.mod_small by lia.
  - rewrite Z.shiftl_spec by lia.
    assert (Z.testbit c i = false) as ->.
    { rewrite <-(Z.mod_small c (2 ^ t)) by done. apply Z.mod_pow2_bits_high. lia. }
    rewrite orb_false_r. replace i with ((i - t) + t) at 2 by lia.
    rewrite <-Z.div_pow2_bits by lia.
    by rewrite Z.div_add_l, Z.div_small, Z.add_0_r by lia.
Qed.

Lemma land_ones_mask v t : 0 ≤ t → Z.land v (Z.shiftl 1 t - 1) = v mod 2 ^ t.
Proof.
  intros Ht. rewrite <-Z.land_ones by done. unfold Z.ones. do 2 f_equal.
Qed.

Lemma zlen_take {A} n (l : list A) : 0 ≤ n ≤ zlen l → zlen (take (Z.to_nat n) l) = n.
Proof. unfold zlen. rewrite length_take. lia. Qed.
Lemma zlen_drop {A} n (l : list A) : 0 ≤ n ≤ zlen l →
  zlen (drop (Z.to_nat n) l) = zlen l - n.
Proof. unfold zlen. rewrite length_drop. lia. Qed.

#[global] Arguments bits_of_Z : simpl never.
