(* ===== verification/IpUtil.v ===== *)
(** * IP addresses

    util/src/iputil.rs, with the parsers and printers of [std::net] it calls.  An
    [Ipv4Addr] is the number [u32::from] gives, an [Ipv6Addr] that of
    [u128::from]. *)

From S2P Require Import Prelude.

(** ** std::net *)

Definition is_digit (a : Ascii.ascii) : bool :=
  let n := Ascii.N_of_ascii a in (48 <=? n)%N && (n <=? 57)%N.
(** A decimal octet: one to three digits, no leading zero, at most 255. *)
Definition parse_octet (s : string) : option Z :=
  if (3 <? str_len s) || (str_is_empty s) then None
  else if (1 <? str_len s) && String.prefix "0" s then None
  else v ← digits_value 0 s; if v <=? 255 then Some v else None.
Definition ipv4_of_octets (a b c d : Z) : Z := ((a * 256 + b) * 256 + c) * 256 + d.
(** [str::parse::<Ipv4Addr>] *)
Definition parse_ipv4 (s : string) : option Z :=
  match parse_octet <$> split_char (ch ".") s with
  | [Some a; Some b; Some c; Some d] => Some (ipv4_of_octets a b c d)
  | _ => None
  end.
Definition octets (n : Z) : list Z :=
  [n / 2 ^ 24 mod 256; n / 2 ^ 16 mod 256; n / 2 ^ 8 mod 256; n mod 256].
(** [Ipv4Addr::to_string] *)
Definition print_ipv4 (n : Z) : string := join "." (pretty <$> octets n).

(** A hexadecimal digit, either case. *)
Definition hex_digit (a : Ascii.ascii) : option Z :=
  let n := Z.of_N (Ascii.N_of_ascii a) in
  if (48 <=? n) && (n <=? 57) then Some (n - 48)
  else if (97 <=? n) && (n <=? 102) then Some (n - 87)
  else if (65 <=? n) && (n <=? 70) then Some (n - 55)
  else None.
Fixpoint hex_value (acc : Z) (s : string) : option Z :=
  match s with
  | "" => Some acc
  | String a s' => d ← hex_digit a; hex_value (16 * acc + d) s'
  end.
(** A group: one to four hexadecimal digits. *)
Definition parse_group (s : string) : option Z :=
  if (4 <? str_len s) || str_is_empty s then None else hex_value 0 s.
(** Groups between colons; the last may be an IPv4 address, for two groups. *)
Fixpoint parse_groups (allow_v4 : bool) (parts : list string) : option (list Z) :=
  match parts with
  | [] => Some []
  | [p] =>
      match parse_group p with
      | Some g => Some [g]
      | None => if allow_v4 then v ← parse_ipv4 p; Some [v / 2 ^ 16; v mod 2 ^ 16] else None
      end
  | p :: parts' => g ← parse_group p; gs ← parse_groups allow_v4 parts'; Some (g :: gs)
  end.
Definition parse_side (allow_v4 : bool) (s : string) : option (list Z) :=
  if str_is_empty s then Some [] else parse_groups allow_v4 (split_char (ch ":") s).
(** [s.split_once("::")] *)
Fixpoint split_double_colon (s : string) : option (string * string) :=
  match s with
  | "" => None
  | String a s' =>
      if String.prefix "::" s then Some ("", String.substring 1 (String.length s' - 1) s')
      else match split_double_colon s' with
           | Some (l, r) => Some (String a l, r)
           | None => None
           end
  end.
Definition ipv6_of_groups (gs : list Z) : Z := fold_left (λ acc g, acc * 2 ^ 16 + g) gs 0.
(** [str::parse::<Ipv6Addr>]: eight groups, or fewer around one [::]. *)
Definition parse_ipv6 (s : string) : option Z :=
  match split_double_colon s with
  | None =>
      gs ← parse_side true s;
      if (length gs =? 8)%nat then Some (ipv6_of_groups gs) else None
  | Some (l, r) =>
      head ← parse_side false l;
      tail ← parse_side true r;
      if (length head + length tail <=? 7)%nat
      then Some (ipv6_of_groups (head ++ replicate (8 - length head - length tail) 0 ++ tail))
      else None
  end.

Definition segments (n : Z) : list Z := (λ i, n / 2 ^ (16 * i) mod 2 ^ 16) <$> [7; 6; 5; 4; 3; 2; 1; 0].
Definition hex_char (d : Z) : Ascii.ascii := ascii_of_byte (if d <? 10 then d + 48 else d + 87).
Definition hex4 (g : Z) : string :=
  String (hex_char (g / 4096)) (String (hex_char (g / 256 mod 16))
    (String (hex_char (g / 16 mod 16)) (String (hex_char (g mod 16)) ""))).
(** [{:x}]: no leading zeros. *)
Definition print_group (g : Z) : string :=
  if g <? 16 then String.substring 3 1 (hex4 g)
  else if g <? 256 then String.substring 2 2 (hex4 g)
  else if g <? 4096 then String.substring 1 3 (hex4 g)
  else hex4 g.
(** The first of the longest runs of zero segments: its start and its length. *)
Fixpoint longest_zeros (i : nat) (cur best : nat * nat) (segs : list Z) : nat * nat :=
  match segs with
  | [] => best
  | g :: segs' =>
      if g =? 0 then
        let cur := if (cur.2 =? 0)%nat then (i, 1%nat) else (cur.1, S cur.2) in
        longest_zeros (S i) cur (if (best.2 <? cur.2)%nat then cur else best) segs'
      else longest_zeros (S i) (0%nat, 0%nat) best segs'
  end.
(** [Ipv6Addr::to_string] *)
Definition print_ipv6 (n : Z) : string :=
  let segs := segments n in
  if bool_decide (take 6 segs = [0; 0; 0; 0; 0; 65535]) then "::ffff:" +:+ print_ipv4 (n mod 2 ^ 32)
  else
    let '(start, len) := longest_zeros 0 (0, 0)%nat (0, 0)%nat segs in
    if (1 <? len)%nat
    then join ":" (print_group <$> take start segs) +:+ "::" +:+
         join ":" (print_group <$> drop (start + len) segs)
    else join ":" (print_group <$> segs).

(** [char::is_whitespace], on the code point the bytes of a character spell. *)
Definition char_code (c : string) : Z :=
  match string_bytes c with
  | [b] => b
  | [b; b1] => (b mod 32) * 64 + b1 mod 64
  | [b; b1; b2] => ((b mod 16) * 64 + b1 mod 64) * 64 + b2 mod 64
  | [b; b1; b2; b3] => (((b mod 8) * 64 + b1 mod 64) * 64 + b2 mod 64) * 64 + b3 mod 64
  | _ => 0
  end.
Definition is_whitespace (c : string) : bool :=
  let n := char_code c in
  ((9 <=? n) && (n <=? 13)) || ((8192 <=? n) && (n <=? 8202)) ||
  bool_decide (n ∈ [32; 133; 160; 5760; 8232; 8233; 8239; 8287; 12288]).
Fixpoint drop_while {A} (p : A → bool) (l : list A) : list A :=
  match l with x :: l' => if p x then drop_while p l' else l | [] => [] end.
(** [s.trim()] *)
Definition trim (s : string) : string :=
  String.concat "" (reverse (drop_while is_whitespace
    (reverse (drop_while is_whitespace (str_chars s))))).

(** ** iputil.rs *)

Inductive IpVersion : Type := IpUnknown | IpV4 | IpV6.
#[export] Instance IpVersion_eq_dec : EqDecision IpVersion.
Proof. solve_decision. Defined.
(** [IpAddr] *)
Inductive IpAddr : Type := AddrV4 (n : Z) | AddrV6 (n : Z).
(** [v.parse::<IpAddr>()] *)
Definition parse_ip_addr (v : string) : option IpAddr :=
  match parse_ipv4 v with
  | Some n => Some (AddrV4 n)
  | None => AddrV6 <$> parse_ipv6 v
  end.
Definition contains_char (c : Ascii.ascii) (s : string) : bool := bool_decide (¬ no_char c s).
Definition parse_ip (v : string) : option IpAddr * IpVersion :=
  match parse_ip_addr v with
  | Some (AddrV4 ip) => (Some (AddrV4 ip), IpV4)
  | Some (AddrV6 ip) =>
      if contains_char (ch ":") v then (Some (AddrV6 ip), IpV6) else (Some (AddrV6 ip), IpV4)
  | None => (None, IpUnknown)
  end.
Record VersionIpValidator : Type := { viv_version : IpVersion }.
Definition version_is_valid (v : VersionIpValidator) (_ip : IpAddr) (ver : IpVersion) : bool :=
  bool_decide (ver = viv_version v).

Definition strip_mapped_prefix (ip : string) : string :=
  if String.prefix "::ffff:" ip then String.substring 7 (String.length ip - 7) ip else ip.
Definition count_char (c : Ascii.ascii) (s : string) : nat := length (split_char c s) - 1.
(** [ip[..pos]] and [ip[1..end]] at the first occurrence of a character. *)
Definition sanitize_ip (ip : string) : string :=
  let ip := strip_mapped_prefix (trim ip) in
  if String.prefix "[" ip && contains_char (ch "]") ip
  then String.substring 1 (String.length (split_first (ch "]") ip) - 1) (split_first (ch "]") ip)
  else if (count_char (ch ":") ip =? 1)%nat then split_first (ch ":") ip
  else ip.

(** [!0u32 << (32 - bits)], with Rust's 32-bit shift. *)
Definition mask32 (bits_to_keep : Z) : Z := u32 (Z.shiftl (2 ^ 32 - 1) (32 - bits_to_keep)).
Definition mask128 (bits_to_keep : Z) : Z :=
  Z.shiftl (2 ^ 128 - 1) (128 - bits_to_keep) mod 2 ^ 128.
Definition mask_ipv4 (ip : string) (bits_to_keep : Z) : option string :=
  addr ← parse_ipv4 ip;
  if 32 <=? bits_to_keep then Some (print_ipv4 addr)
  else if bits_to_keep =? 0 then Some "0.0.0.0"
  else Some (print_ipv4 (Z.land addr (mask32 bits_to_keep))).
Definition mask_ipv6 (ip : string) (bits_to_keep : Z) : option string :=
  addr ← parse_ipv6 ip;
  if 128 <=? bits_to_keep then Some (print_ipv6 addr)
  else if bits_to_keep =? 0 then Some "::"
  else Some (print_ipv6 (Z.land addr (mask128 bits_to_keep))).

(** ** Specification *)

(** The first [k] of the [w] bits of an address, the others zero. *)
Definition ip_prefix (w k n : Z) : Z := if w <=? k then n else n / 2 ^ (w - k) * 2 ^ (w - k).

(** Auxiliary notions of the proofs. *)
(** A string of one to four digits, written from the digits. *)
Definition hex_string (ds : list Z) : string :=
  foldr (λ d s, String (hex_char d) s) "" ds.
Definition group_ok (g : Z) : Prop := 0 ≤ g < 2 ^ 16.
Definition prepend (p : string) (r : option (string * string)) : option (string * string) :=
  match r with Some (l, r) => Some (p +:+ l, r) | None => None end.
Definition starts_with_colon (s : string) : bool :=
  match s with String a _ => bool_decide (ch ":" = a) | "" => false end.
Definition zero_run (segs : list Z) (r : nat * nat) : Prop :=
  ∀ k, (r.1 ≤ k < r.1 + r.2)%nat → segs !! k = Some 0.

(** ** Proofs: decimal octets *)

Lemma forall_below (P : Z → bool) n : forallb P (seqZ 0 n) = true → ∀ z, 0 ≤ z < n → P z = true.
Proof.
  intros H z Hz. rewrite forallb_forall in H. apply H. rewrite <-list_elem_of_In.
  apply elem_of_seqZ. lia.
Qed.

Lemma octet_roundtrip o : 0 ≤ o < 256 →
  parse_octet (pretty o) = Some o ∧ no_char (ch ".") (pretty o) ∧ no_char (ch ":") (pretty o).
Proof.
  intros Ho.
  assert (H : bool_decide (parse_octet (pretty o) = Some o) && bool_decide (no_char (ch ".") (pretty o))
              && bool_decide (no_char (ch ":") (pretty o)) = true).
  { revert o Ho. apply forall_below. vm_compute. reflexivity. }
  rewrite !andb_true_iff, !bool_decide_eq_true in H. tauto.
Qed.

Lemma octets_value n : 0 ≤ n < 2 ^ 32 →
  ∃ a b c d, octets n = [a; b; c; d] ∧ n = ipv4_of_octets a b c d ∧
    0 ≤ a < 256 ∧ 0 ≤ b < 256 ∧ 0 ≤ c < 256 ∧ 0 ≤ d < 256.
Proof.
  intros Hn. do 4 eexists. split; [done|]. split_and!; try (apply Z.mod_pos_bound; lia).
  unfold ipv4_of_octets. change (2 ^ 24) with 16777216. change (2 ^ 16) with 65536.
  change (2 ^ 8) with 256. change (2 ^ 32) with 4294967296 in Hn.
  Z.div_mod_to_equations. lia.
Qed.

Lemma ipv4_roundtrip n : 0 ≤ n < 2 ^ 32 → parse_ipv4 (print_ipv4 n) = Some n.
Proof.
  intros Hn. destruct (octets_value n Hn) as (a&b&c&d&Ho&Hv&Ha&Hb&Hc&Hd).
  unfold parse_ipv4, print_ipv4. rewrite Ho.
  change (join "." (pretty <$> [a; b; c; d])) with (join "." [pretty a; pretty b; pretty c; pretty d]).
  apply octet_roundtrip in Ha as (Ha&Na&_), Hb as (Hb&Nb&_), Hc as (Hc&Nc&_), Hd as (Hd&Nd&_).
  rewrite (split_char_join (ch ".")) by (by repeat constructor).
  csimpl. rewrite Ha, Hb, Hc, Hd. by rewrite Hv.
Qed.

(** ** Proofs: groups *)

Lemma hex_digit_char d : 0 ≤ d < 16 →
  hex_digit (hex_char d) = Some d ∧ hex_char d ≠ ch ":".
Proof.
  intros Hd.
  assert (H : bool_decide (hex_digit (hex_char d) = Some d) && bool_decide (hex_char d ≠ ch ":") = true).
  { revert d Hd. apply forall_below. vm_compute. reflexivity. }
  by rewrite andb_true_iff, !bool_decide_eq_true in H.
Qed.

Lemma hex_value_string ds acc : Forall (λ d, 0 ≤ d < 16) ds →
  hex_value acc (hex_string ds) = Some (fold_left (λ acc d, 16 * acc + d) ds acc).
Proof.
  intros H. revert acc. induction H as [|d ds Hd Hds IH]; intros acc; [done|]. simpl.
  by rewrite (proj1 (hex_digit_char d Hd)); simpl.
Qed.
Lemma hex_string_no_colon ds : Forall (λ d, 0 ≤ d < 16) ds → no_char (ch ":") (hex_string ds).
Proof.
  unfold no_char. induction 1 as [|d ds Hd Hds IH]; simpl; [apply not_elem_of_nil|].
  apply not_elem_of_cons. split; [|done]. apply not_eq_sym. by apply hex_digit_char.
Qed.

Lemma print_group_digits g : group_ok g → ∃ ds, print_group g = hex_string ds ∧
  Forall (λ d, 0 ≤ d < 16) ds ∧ (1 ≤ length ds ≤ 4)%nat ∧
  fold_left (λ acc d, 16 * acc + d) ds 0 = g.
Proof.
  unfold group_ok. change (2 ^ 16) with 65536. intros Hg.
  assert (Hm : ∀ x, 0 ≤ x mod 16 < 16) by (intros x; apply Z.mod_pos_bound; lia).
  unfold print_group.
  destruct (g <? 16) eqn:H1; [|destruct (g <? 256) eqn:H2; [|destruct (g <? 4096) eqn:H3]];
    rewrite ?Z.ltb_lt, ?Z.ltb_ge in *.
  - exists [g mod 16]. split_and!; [done|repeat constructor; apply Hm|simpl; lia..|].
    simpl. Z.div_mod_to_equations. lia.
  - exists [g / 16 mod 16; g mod 16]. split_and!; [done|repeat constructor; apply Hm|simpl; lia..|].
    simpl. Z.div_mod_to_equations. lia.
  - exists [g / 256 mod 16; g / 16 mod 16; g mod 16].
    split_and!; [done|repeat constructor; apply Hm|simpl; lia..|].
    simpl. Z.div_mod_to_equations. lia.
  - exists [g / 4096; g / 256 mod 16; g / 16 mod 16; g mod 16].
    split_and!; [done| |simpl; lia..|].
    + repeat constructor; try apply Hm; Z.div_mod_to_equations; lia.
    + simpl. Z.div_mod_to_equations. lia.
Qed.

Lemma hex_string_length ds : String.length (hex_string ds) = length ds.
Proof. induction ds; simpl; congruence. Qed.

Lemma group_roundtrip g : group_ok g →
  parse_group (print_group g) = Some g ∧ no_char (ch ":") (print_group g) ∧ print_group g ≠ "".
Proof.
  intros (ds&->&Hds&Hlen&Hv)%print_group_digits.
  assert (Hne : hex_string ds ≠ "") by (destruct ds; [simpl in Hlen; lia|done]).
  split_and!; [|by apply hex_string_no_colon|done].
  unfold parse_group, str_len, str_is_empty. rewrite hex_string_length, bool_decide_false by done.
  rewrite (proj2 (Z.ltb_ge _ _)) by lia. simpl. by rewrite hex_value_string, Hv.
Qed.

Lemma parse_groups_print b gs : Forall group_ok gs → parse_groups b (print_group <$> gs) = Some gs.
Proof.
  induction 1 as [|g gs Hg Hgs IH]; [done|]. csimpl.
  destruct (group_roundtrip g Hg) as (Hp&_). destruct gs as [|g' gs]; csimpl; [by rewrite Hp|].
  csimpl in IH. by rewrite Hp, IH.
Qed.

Lemma join_cons_ne sep s l : l ≠ [] → join sep (s :: l) = s +:+ sep +:+ join sep l.
Proof. by destruct l. Qed.

Lemma parse_side_print b gs : Forall group_ok gs →
  parse_side b (join ":" (print_group <$> gs)) = Some gs.
Proof.
  intros Hgs. unfold parse_side, str_is_empty. destruct gs as [|g gs]; [done|].
  rewrite bool_decide_false.
  - rewrite fmap_cons. change ":" with (String (ch ":") "") at 2.
    rewrite split_char_join; [by apply (parse_groups_print b (g :: gs))|].
    rewrite <-fmap_cons. apply Forall_fmap. eapply Forall_impl; [exact Hgs|].
    intros x Hx. by apply group_roundtrip.
  - apply Forall_cons in Hgs as [Hg _]. destruct (group_roundtrip g Hg) as (_&_&Hne).
    rewrite fmap_cons. destruct (decide (gs = [])) as [->|Hnil]; [done|].
    rewrite join_cons_ne by by destruct gs. by destruct (print_group g).
Qed.

(** ** Proofs: the double colon *)

Lemma str_app_nil_r (s : string) : s +:+ "" = s.
Proof. induction s as [|a s IH]; [done|]. by change (String a (s +:+ "") = String a s); rewrite IH. Qed.


Lemma prefix_cons a b p s :
  String.prefix (String a p) (String b s) = bool_decide (a = b) && String.prefix p s.
Proof.
  unfold String.prefix; fold String.prefix.
  destruct (Ascii.ascii_dec a b) as [->|Hne]; [by rewrite bool_decide_true|].
  by rewrite bool_decide_false.
Qed.

Lemma split_dc_step a s : a ≠ ch ":" ∨ starts_with_colon s = false →
  split_double_colon (String a s) = prepend (String a "") (split_double_colon s).
Proof.
  intros Ha. cbn [split_double_colon].
  assert (String.prefix "::" (String a s) = false) as ->; [|by destruct (split_double_colon s) as [[]|]].
  rewrite (prefix_cons (ch ":")). destruct (decide (ch ":" = a)) as [<-|Hne].
  - destruct Ha as [[]|Ha]; [done|]. destruct s as [|b s]; [done|].
    change (bool_decide (ch ":" = b) = false) in Ha.
    by rewrite (prefix_cons (ch ":")), Ha, andb_false_r.
  - by rewrite bool_decide_false.
Qed.

Lemma split_dc_skip p s : no_char (ch ":") p →
  split_double_colon (p +:+ s) = prepend p (split_double_colon s).
Proof.
  unfold no_char. induction p as [|a p IH].
  - intros _. change ("" +:+ s) with s. by destruct (split_double_colon s) as [[]|].
  - intros [Ha Hp]%not_elem_of_cons.
    change (String a p +:+ s) with (String a (p +:+ s)). rewrite split_dc_step by (left; done).
    rewrite IH by done. by destruct (split_double_colon s) as [[]|].
Qed.

Lemma substring_all s : String.substring 0 (String.length s) s = s.
Proof. induction s as [|a s IH]; simpl; congruence. Qed.

Lemma split_dc_here s : split_double_colon ("::" +:+ s) = Some ("", s).
Proof.
  change ("::" +:+ s) with (String (ch ":") (String (ch ":") s)).
  cbn [split_double_colon]. rewrite !(prefix_cons (ch ":")), !bool_decide_true by done.
  assert (String.prefix "" s = true) as -> by by destruct s.
  simpl. rewrite Nat.sub_0_r. by rewrite substring_all.
Qed.

(** The groups before a double colon, or before the end. *)
Lemma split_dc_groups gs s : Forall group_ok gs →
  s = "" ∨ (∃ t, s = "::" +:+ t) →
  split_double_colon (join ":" (print_group <$> gs) +:+ s) =
    prepend (join ":" (print_group <$> gs)) (split_double_colon s).
Proof.
  intros Hgs Hs. induction Hgs as [|g gs Hg Hgs IH].
  { change (join ":" (print_group <$> [])) with "". change ("" +:+ s) with s.
    by destruct (split_double_colon s) as [[]|]. }
  destruct (group_roundtrip g Hg) as (_&Hno&Hne). rewrite fmap_cons.
  destruct (decide (gs = [])) as [->|Hnil]; [by apply split_dc_skip|].
  rewrite join_cons_ne by by destruct gs.
  rewrite !str_app_assoc, split_dc_skip by done.
  assert (Hstart : starts_with_colon (join ":" (print_group <$> gs) +:+ s) = false).
  { destruct gs as [|g' gs]; [done|]. apply Forall_cons in Hgs as [Hg' _].
    destruct (group_roundtrip g' Hg') as (_&Hno'&Hne'). rewrite fmap_cons.
    assert (∃ r, join ":" (print_group g' :: (print_group <$> gs)) = print_group g' +:+ r) as [r ->].
    { destruct (decide (gs = [])) as [->|Hn]; [exists ""; by rewrite str_app_nil_r|].
      rewrite join_cons_ne by by destruct gs. eauto. }
    destruct (print_group g') as [|a p]; [done|]. simpl. apply bool_decide_eq_false. intros <-.
    apply Hno'. simpl. by left. }
  change (":" +:+ ?x) with (String (ch ":") x).
  rewrite split_dc_step by by right. rewrite IH.
  destruct (split_double_colon s) as [[l r]|]; [|done]. simpl. f_equal. f_equal.
  by rewrite ?str_app_assoc.
Qed.

(** ** Proofs: the longest run of zero groups *)

Lemma longest_zeros_run full segs : ∀ i cur best,
  zero_run full cur → zero_run full best → (cur.2 = 0 ∨ cur.1 + cur.2 = i)%nat →
  drop i full = segs → zero_run full (longest_zeros i cur best segs).
Proof.
  induction segs as [|g segs IH]; intros i [cs cl] [bs bl] Hc Hb Hi Hd; [done|]. simpl in *.
  assert (Hg : full !! i = Some g).
  { rewrite <-(Nat.add_0_r i), <-lookup_drop, Hd. done. }
  assert (Hd' : drop (S i) full = segs).
  { replace (S i) with (i + 1)%nat by lia. rewrite <-drop_drop, Hd. done. }
  destruct (Z.eqb_spec g 0) as [->|_]; [|by apply IH; [intros k ? | | left | ]; [simpl in *; lia|..]].
  set (cur := if (cl =? 0)%nat then (i, 1%nat) else (cs, S cl)).
  assert (Hcur : zero_run full cur ∧ (cur.1 + cur.2 = S i)%nat).
  { subst cur. destruct (Nat.eqb_spec cl 0) as [->|Hne]; simpl.
    - split; [|lia]. intros k Hk. simpl in Hk. by replace k with i by lia.
    - destruct Hi as [|Hi]; [done|]. split; [|lia]. intros k Hk. simpl in Hk.
      destruct (decide (k = i)) as [->|]; [done|]. apply Hc. simpl. lia. }
  destruct Hcur as [Hz Hend]. apply IH; [done| |by right|done].
  by destruct (bl <? cur.2)%nat.
Qed.

Lemma zero_run_split full s l : zero_run full (s, l) → (0 < l)%nat →
  full = take s full ++ replicate l 0 ++ drop (s + l) full ∧ (s + l ≤ length full)%nat.
Proof.
  intros Hz Hl. assert (Hlen : (s + l ≤ length full)%nat).
  { assert (full !! (s + l - 1)%nat = Some 0) as H%lookup_lt_Some by (apply Hz; simpl; lia). lia. }
  split; [|done]. rewrite <-(take_drop s full) at 1. f_equal.
  rewrite <-(take_drop l (drop s full)) at 1. rewrite drop_drop. f_equal.
  apply list_eq. intros k. destruct (decide (k < l)%nat) as [Hk|Hk].
  - rewrite lookup_take_lt, lookup_drop, lookup_replicate_2 by done. apply Hz. simpl. lia.
  - rewrite !lookup_ge_None_2; [done|..]; rewrite ?length_replicate, ?length_take; lia.
Qed.

(** ** Proofs: IPv6 round trip *)

Lemma segments_ok n : length (segments n) = 8%nat ∧ Forall group_ok (segments n).
Proof.
  split; [done|]. apply Forall_fmap, Forall_forall. intros i _. apply Z.mod_pos_bound. lia.
Qed.

Lemma segments_value n : 0 ≤ n < 2 ^ 128 → ipv6_of_groups (segments n) = n.
Proof.
  intros Hn.
  assert (Hs : ∀ i, 0 ≤ i → n / 2 ^ (16 * (i + 1)) * 2 ^ 16 + n / 2 ^ (16 * i) mod 2 ^ 16 = n / 2 ^ (16 * i)).
  { intros i Hi. replace (16 * (i + 1)) with (16 * i + 16) by lia.
    rewrite Z.pow_add_r, <-Z.div_div by lia. rewrite Z.mul_comm. symmetry. apply Z.div_mod. lia. }
  pose proof (Hs 0) as E0. pose proof (Hs 1) as E1. pose proof (Hs 2) as E2. pose proof (Hs 3) as E3.
  pose proof (Hs 4) as E4. pose proof (Hs 5) as E5. pose proof (Hs 6) as E6. pose proof (Hs 7) as E7.
  assert (Q0 : n / 2 ^ (16 * 0) = n) by apply Z.div_1_r.
  assert (Q8 : n / 2 ^ (16 * (7 + 1)) = 0) by by apply Z.div_small.
  unfold ipv6_of_groups, segments. cbn [fmap list_fmap fold_left].
  change (16 * (0 + 1)) with (16 * 1) in E0. change (16 * (1 + 1)) with (16 * 2) in E1.
  change (16 * (2 + 1)) with (16 * 3) in E2. change (16 * (3 + 1)) with (16 * 4) in E3.
  change (16 * (4 + 1)) with (16 * 5) in E4. change (16 * (5 + 1)) with (16 * 6) in E5.
  change (16 * (6 + 1)) with (16 * 7) in E6. rewrite Q8 in E7. rewrite Q0 in E0.
  rewrite E7, E6, E5, E4, E3, E2, E1, Q0, E0 by lia. done.
Qed.

Lemma hex_value_dot p s : ∀ acc, hex_value acc (p +:+ String (ch ".") s) = None.
Proof.
  induction p as [|a p IH]; intros acc; [done|].
  change (String a p +:+ String (ch ".") s) with (String a (p +:+ String (ch ".") s)).
  cbn [hex_value]. destruct (hex_digit a); [|done]. apply IH.
Qed.

Lemma print_ipv4_not_group n : 0 ≤ n < 2 ^ 32 →
  parse_group (print_ipv4 n) = None ∧ no_char (ch ":") (print_ipv4 n).
Proof.
  intros Hn. destruct (octets_value n Hn) as (a&b&c&d&Ho&_&Ha&Hb&Hc&Hd).
  unfold print_ipv4. rewrite Ho.
  change (join "." (pretty <$> [a; b; c; d])) with
    (pretty a +:+ String (ch ".") (pretty b +:+ String (ch ".") (pretty c +:+ String (ch ".") (pretty d)))).
  split.
  - unfold parse_group. rewrite hex_value_dot. by destruct (_ || _).
  - apply octet_roundtrip in Ha as (_&_&Ha), Hb as (_&_&Hb), Hc as (_&_&Hc), Hd as (_&_&Hd).
    assert (Happ : ∀ s t, no_char (ch ":") s → no_char (ch ":") t → no_char (ch ":") (s +:+ String (ch ".") t)).
    { unfold no_char. intros s t Hs Ht. induction s as [|x s IH].
      - simpl. by apply not_elem_of_cons.
      - simpl in Hs |- *. apply not_elem_of_cons in Hs as [Hx Hs]. apply not_elem_of_cons. by split; [|apply IH]. }
    by repeat apply Happ.
Qed.

Lemma low_groups n :
  n mod 2 ^ 32 / 2 ^ 16 = n / 2 ^ 16 mod 2 ^ 16 ∧ (n mod 2 ^ 32) mod 2 ^ 16 = n mod 2 ^ 16.
Proof.
  change (2 ^ 32) with 4294967296. change (2 ^ 16) with 65536.
  split; Z.div_mod_to_equations; lia.
Qed.

Lemma ipv6_roundtrip n : 0 ≤ n < 2 ^ 128 → parse_ipv6 (print_ipv6 n) = Some n.
Proof.
  intros Hn. destruct (segments_ok n) as [Hlen Hok]. pose proof (segments_value n Hn) as Hval.
  unfold print_ipv6. case_bool_decide as Hm.
  - assert (Hv : 0 ≤ n mod 2 ^ 32 < 2 ^ 32) by (apply Z.mod_pos_bound; lia).
    destruct (print_ipv4_not_group _ Hv) as [Hg Hno].
    unfold parse_ipv6. change ("::ffff:" +:+ ?x) with ("::" +:+ ("ffff:" +:+ x)).
    rewrite split_dc_here. change (parse_side false "") with (Some (@nil Z)).
    cbn [mbind option_bind]. unfold parse_side, str_is_empty. rewrite bool_decide_false by done.
    change ("ffff:" +:+ ?x) with (join (String (ch ":") "") ["ffff"; x]).
    rewrite split_char_join by (repeat constructor; [vm_compute|done]; set_solver).
    change (parse_groups true ["ffff"; ?p]) with (gs ← parse_groups true [p]; Some (65535 :: gs)).
    cbn [parse_groups]. rewrite Hg, ipv4_roundtrip by done. simpl. f_equal.
    etransitivity; [|exact Hval]. unfold segments in Hm |- *. cbn [fmap list_fmap take] in Hm |- *.
    injection Hm as -> -> -> -> -> ->.
    destruct (low_groups n) as [-> ->]. change (16 * 1) with 16. change (16 * 0) with 0.
    by rewrite Z.div_1_r.
  - destruct (longest_zeros 0 (0, 0) (0, 0) (segments n))%nat as [start len] eqn:Hz.
    destruct (Nat.ltb_spec 1 len) as [Hl|Hl].
    + assert (Hrun : zero_run (segments n) (start, len)).
      { rewrite <-Hz. apply longest_zeros_run; [intros k ?; simpl in *; lia..|by left|done]. }
      destruct (zero_run_split _ _ _ Hrun ltac:(lia)) as [Hsplit Hle].
      unfold parse_ipv6. rewrite split_dc_groups;
        [|by apply Forall_take|right; eexists; reflexivity].
      rewrite split_dc_here. simpl. rewrite str_app_nil_r.
      rewrite !parse_side_print by (by apply Forall_take || by apply Forall_drop).
      simpl. rewrite length_take, length_drop, Hlen in *.
      rewrite (proj2 (Nat.leb_le _ _)) by lia.
      replace (8 - start `min` 8 - (8 - (start + len)))%nat with len by lia.
      by rewrite <-Hsplit, Hval.
    + assert (Hnone : split_double_colon (join ":" (print_group <$> segments n)) = None).
      { rewrite <-(str_app_nil_r (join _ _)). by rewrite split_dc_groups by (done || by left). }
      unfold parse_ipv6. rewrite Hnone, parse_side_print by done.
      cbn [mbind option_bind]. by rewrite Hlen, Hval.
Qed.

(** ** Proofs: masks *)

Lemma land_prefix w k n : 0 < k < w → 0 ≤ n < 2 ^ w →
  Z.land n (Z.shiftl (2 ^ w - 1) (w - k) mod 2 ^ w) = ip_prefix w k n.
Proof.
  intros Hk Hn. unfold ip_prefix. rewrite (proj2 (Z.leb_gt _ _)) by lia.
  rewrite <-Z.shiftr_div_pow2, <-Z.shiftl_mul_pow2 by lia.
  apply Z.bits_inj'. intros i Hi.
  assert (Hones : 2 ^ w - 1 = Z.ones w) by (rewrite Z.ones_equiv; lia). rewrite Hones.
  rewrite Z.land_spec, <-Z.land_ones, Z.land_spec, !Z.shiftl_spec by lia.
  destruct (decide (i < w)) as [Hw|Hw].
  - rewrite (Z.ones_spec_low w i) by lia. rewrite andb_true_r.
    destruct (decide (w - k ≤ i)) as [Hj|Hj].
    + rewrite Z.ones_spec_low, andb_true_r, Z.shiftr_spec by lia. f_equal. lia.
    + rewrite !(Z.testbit_neg_r _ (i - (w - k))) by lia. by rewrite andb_false_r.
  - rewrite (Z.ones_spec_high w i), !andb_false_r by lia. symmetry.
    rewrite Z.shiftr_spec by lia. replace (i - (w - k) + (w - k)) with i by lia.
    destruct (decide (n = 0)) as [->|Hn0]; [apply Z.bits_0|].
    apply Z.bits_above_log2; [lia|]. apply Z.lt_le_trans with w; [|lia].
    apply Z.log2_lt_pow2; lia.
Qed.

Lemma ip_prefix_range w k n : 0 ≤ k → 0 ≤ n < 2 ^ w → 0 ≤ ip_prefix w k n < 2 ^ w.
Proof.
  intros Hk Hn. unfold ip_prefix. destruct (Z.leb_spec w k); [done|].
  pose proof (Z.mul_div_le n (2 ^ (w - k)) ltac:(lia)).
  pose proof (Z.div_pos n (2 ^ (w - k)) ltac:(lia) ltac:(lia)). nia.
Qed.
Lemma ip_prefix_idem w k n : 0 ≤ k → ip_prefix w k (ip_prefix w k n) = ip_prefix w k n.
Proof.
  intros Hk. unfold ip_prefix. destruct (Z.leb_spec w k); [done|]. by rewrite Z.div_mul by lia.
Qed.
Lemma ip_prefix_none w n : 0 ≤ w → 0 ≤ n < 2 ^ w → ip_prefix w 0 n = 0.
Proof.
  intros Hw Hn. unfold ip_prefix. destruct (Z.leb_spec w 0); [replace w with 0 in Hn by lia; lia|].
  rewrite Z.sub_0_r, Z.div_small by done. done.
Qed.

Lemma digits_value_nonneg s : ∀ acc v, 0 ≤ acc → digits_value acc s = Some v → 0 ≤ v.
Proof.
  induction s as [|a s IH]; intros acc v Hacc; simpl; [congruence|].
  destruct (_ && _) eqn:Hd; [|done]. apply andb_true_iff in Hd as [Hd _]. apply Z.leb_le in Hd.
  apply IH. lia.
Qed.

Lemma parse_octet_range s o : parse_octet s = Some o → 0 ≤ o < 256.
Proof.
  unfold parse_octet. repeat case_match; try done. intros (v&Hv&Hle)%bind_Some.
  destruct (Z.leb_spec v 255); [|done]. simplify_eq.
  apply digits_value_nonneg in Hv; lia.
Qed.
Lemma parse_ipv4_range s n : parse_ipv4 s = Some n → 0 ≤ n < 2 ^ 32.
Proof.
  unfold parse_ipv4. destruct (split_char _ s) as [|a [|b [|c [|d []]]]]; csimpl; try (by repeat case_match).
  destruct (parse_octet a) as [a'|] eqn:Ha; [|done]. destruct (parse_octet b) as [b'|] eqn:Hb; [|done].
  destruct (parse_octet c) as [c'|] eqn:Hc; [|done]. destruct (parse_octet d) as [d'|] eqn:Hd; [|done].
  intros [= <-]. apply parse_octet_range in Ha, Hb, Hc, Hd. unfold ipv4_of_octets.
  change (2 ^ 32) with 4294967296. lia.
Qed.

Lemma hex_value_range s : ∀ acc v, 0 ≤ acc → hex_value acc s = Some v →
  0 ≤ v < (acc + 1) * 16 ^ Z.of_nat (String.length s).
Proof.
  induction s as [|a s IH]; intros acc v Hacc; [simpl; intros [= <-]; lia|]. cbn [hex_value String.length].
  intros (d&Hd&Hv)%bind_Some. assert (0 ≤ d < 16) as Hr.
  { unfold hex_digit in Hd. repeat case_match; simplify_eq;
      rewrite ?andb_true_iff, ?Z.leb_le in *; lia. }
  apply IH in Hv; [|lia]. rewrite Nat2Z.inj_succ, Z.pow_succ_r by lia.
  pose proof (Z.pow_pos_nonneg 16 (Z.of_nat (String.length s)) ltac:(lia) ltac:(lia)). nia.
Qed.
Lemma parse_group_ok s g : parse_group s = Some g → group_ok g.
Proof.
  unfold parse_group, str_len, group_ok. destruct (Z.ltb_spec 4 (Z.of_nat (String.length s))); [done|].
  destruct (str_is_empty s); [done|]. intros Hv%hex_value_range; [|lia].
  assert (16 ^ Z.of_nat (String.length s) ≤ 16 ^ 4) by (apply Z.pow_le_mono_r; lia).
  change (2 ^ 16) with 65536. change (16 ^ 4) with 65536 in *. lia.
Qed.
Lemma parse_groups_ok b parts : ∀ gs, parse_groups b parts = Some gs → Forall group_ok gs.
Proof.
  induction parts as [|p parts IH]; intros gs; [by intros [= <-]|].
  destruct parts as [|q parts]; simpl.
  - destruct (parse_group p) as [g|] eqn:Hg; [intros [= <-]; eauto using parse_group_ok|].
    destruct b; [|done]. intros (v&Hv%parse_ipv4_range&[= <-])%bind_Some.
    repeat constructor; unfold group_ok; change (2 ^ 16) with 65536; change (2 ^ 32) with 4294967296 in *;
      Z.div_mod_to_equations; lia.
  - intros (g&Hg&(gs'&Hgs&[= <-])%bind_Some)%bind_Some.
    constructor; [by eapply parse_group_ok|by apply IH].
Qed.
Lemma parse_side_ok b s gs : parse_side b s = Some gs → Forall group_ok gs.
Proof. unfold parse_side. destruct (str_is_empty s); [by intros [= <-]|apply parse_groups_ok]. Qed.

Lemma ipv6_of_groups_range gs : Forall group_ok gs →
  0 ≤ ipv6_of_groups gs < 2 ^ (16 * Z.of_nat (length gs)).
Proof.
  intros Hgs. unfold ipv6_of_groups.
  assert (H : ∀ acc, 0 ≤ acc → 0 ≤ fold_left (λ acc g, acc * 2 ^ 16 + g) gs acc
                         < (acc + 1) * 2 ^ (16 * Z.of_nat (length gs))); [|specialize (H 0); lia].
  induction Hgs as [|g gs Hg Hgs IH]; intros acc Hacc; cbn [fold_left length]; [simpl; lia|].
  unfold group_ok in Hg. specialize (IH (acc * 2 ^ 16 + g) ltac:(lia)).
  replace (16 * Z.of_nat (S (length gs))) with (16 + 16 * Z.of_nat (length gs)) by lia.
  rewrite Z.pow_add_r by lia.
  pose proof (Z.pow_pos_nonneg 2 (16 * Z.of_nat (length gs)) ltac:(lia) ltac:(lia)). nia.
Qed.
Lemma parse_ipv6_range s n : parse_ipv6 s = Some n → 0 ≤ n < 2 ^ 128.
Proof.
  assert (H8 : ∀ gs, length gs = 8%nat → Forall group_ok gs → 0 ≤ ipv6_of_groups gs < 2 ^ 128).
  { intros gs Hl Hgs%ipv6_of_groups_range. by rewrite Hl in Hgs. }
  unfold parse_ipv6. destruct (split_double_colon s) as [[l r]|].
  - intros (hd&Hh%parse_side_ok&(tl&Ht%parse_side_ok&Hn)%bind_Some)%bind_Some.
    destruct (Nat.leb_spec (length hd + length tl) 7); [|done]. simplify_eq. apply H8.
    + rewrite !length_app, length_replicate. lia.
    + rewrite !Forall_app. split_and!; [done| |done]. apply Forall_replicate. unfold group_ok. lia.
  - intros (gs&Hgs%parse_side_ok&Hn)%bind_Some.
    destruct (Nat.eqb_spec (length gs) 8); [|done]. simplify_eq. by apply H8.
Qed.

Lemma mask_ipv4_prefix ip k : 0 ≤ k →
  mask_ipv4 ip k = (λ n, print_ipv4 (ip_prefix 32 k n)) <$> parse_ipv4 ip.
Proof.
  intros Hk. unfold mask_ipv4. destruct (parse_ipv4 ip) as [n|] eqn:Hn; [|done]. simpl.
  apply parse_ipv4_range in Hn. destruct (Z.leb_spec 32 k).
  { unfold ip_prefix. by rewrite (proj2 (Z.leb_le _ _)). }
  destruct (Z.eqb_spec k 0) as [->|]; [by rewrite ip_prefix_none by lia|].
  unfold mask32, u32. by rewrite land_prefix by lia.
Qed.
Lemma mask_ipv6_prefix ip k : 0 ≤ k →
  mask_ipv6 ip k = (λ n, print_ipv6 (ip_prefix 128 k n)) <$> parse_ipv6 ip.
Proof.
  intros Hk. unfold mask_ipv6. destruct (parse_ipv6 ip) as [n|] eqn:Hn; [|done]. simpl.
  apply parse_ipv6_range in Hn. destruct (Z.leb_spec 128 k).
  { unfold ip_prefix. by rewrite (proj2 (Z.leb_le _ _)). }
  destruct (Z.eqb_spec k 0) as [->|]; [by rewrite ip_prefix_none by lia|].
  unfold mask128. by rewrite land_prefix by lia.
Qed.

(** ** Properties *)

(** masking an address keeps exactly its first [k] bits: an address that
    parses is printed with the others zero, at every [k] (also zero and beyond
    the width), and one that does not parse is refused; what is printed parses
    back, for both families, to that prefix, so masking twice is masking once
    and two addresses with the same first [k] bits become the same text. *)
Theorem mask_ip_spec ip k : 0 ≤ k →
  mask_ipv4 ip k = (λ n, print_ipv4 (ip_prefix 32 k n)) <$> parse_ipv4 ip ∧
  mask_ipv6 ip k = (λ n, print_ipv6 (ip_prefix 128 k n)) <$> parse_ipv6 ip ∧
  (∀ s, mask_ipv4 ip k = Some s → parse_ipv4 s = ip_prefix 32 k <$> parse_ipv4 ip ∧ mask_ipv4 s k = Some s) ∧
  (∀ s, mask_ipv6 ip k = Some s → parse_ipv6 s = ip_prefix 128 k <$> parse_ipv6 ip ∧ mask_ipv6 s k = Some s).
Proof.
  intros Hk. split; [by apply mask_ipv4_prefix|]. split; [by apply mask_ipv6_prefix|]. split; intros s.
  - rewrite !mask_ipv4_prefix by done. destruct (parse_ipv4 ip) as [n|] eqn:Hn; [|done].
    intros [= <-]. apply parse_ipv4_range in Hn. rewrite ipv4_roundtrip by by apply ip_prefix_range.
    simpl. by rewrite ip_prefix_idem.
  - rewrite !mask_ipv6_prefix by done. destruct (parse_ipv6 ip) as [n|] eqn:Hn; [|done].
    intros [= <-]. apply parse_ipv6_range in Hn. rewrite ipv6_roundtrip by by apply ip_prefix_range.
    simpl. by rewrite ip_prefix_idem.
Qed.
Lemma mask_ip_spec_witness :
  0 ≤ 56 ∧ mask_ipv6 "2001:db8:1:22ff::7" 56 = Some "2001:db8:1:2200::" ∧
  parse_ipv6 "2001:db8:1:2200::" = ip_prefix 128 56 <$> parse_ipv6 "2001:db8:1:22ff::7".
Proof.
  split; [lia|]. split; [vm_compute; reflexivity|].
  apply (mask_ip_spec "2001:db8:1:22ff::7" 56); [lia|]. vm_compute. reflexivity.
Defined.

(** ** Examples *)

Example mask_v4 : mask_ipv4 "192.168.1.100" 24 = Some "192.168.1.0".
Proof. vm_compute. reflexivity. Qed.
Example mask_v6 : mask_ipv6 "2001:db8::1" 32 = Some "2001:db8::".
Proof. vm_compute. reflexivity. Qed.
Example mask_v6' : mask_ipv6 "2001:DB8:0:1:0:0:0:1" 128 = Some "2001:db8:0:1::1".
Proof. vm_compute. reflexivity. Qed.
Example mask_v6'' : mask_ipv6 "::ffff:1.2.3.4" 128 = Some "::ffff:1.2.3.4".
Proof. vm_compute. reflexivity. Qed.
Example mask_bad : mask_ipv6 "1::2::3" 64 = None ∧ mask_ipv4 "1.2.3.04" 8 = None.
Proof. vm_compute. split; reflexivity. Qed.
Example sanitize_1 : sanitize_ip " [::1]:8080 " = "::1" ∧ sanitize_ip "1.2.3.4:80" = "1.2.3.4".
Proof. vm_compute. split; reflexivity. Qed.
