(* ===== verification/Text.v ===== *)
(** * Text

    What the components that parse headers and templates share about strings:
    ASCII texts and their characters, visible texts, trimming, and printed numbers. *)

From S2P Require Import Prelude IpUtil.

Definition is_ascii_char (a : Ascii.ascii) : Prop := (Ascii.N_of_ascii a < 128)%N.
Definition ascii_text (s : string) : Prop := Forall is_ascii_char (String.list_ascii_of_string s).
(** Visible ASCII: what cookie names, base64 texts and macro names are made of. *)
Definition visible (a : Ascii.ascii) : Prop := (33 ≤ Ascii.N_of_ascii a ∧ Ascii.N_of_ascii a < 127)%N.
Definition plain (s : string) : Prop := Forall visible (String.list_ascii_of_string s).
Definition blank (s : string) : Prop := Forall (λ a, a = ch " ") (String.list_ascii_of_string s).

(** A codec of texts into zeros and ones, to witness what is assumed of base64. *)
Fixpoint pos_bits (p : positive) : string :=
  match p with
  | xH => "1" | xO p => String (ch "0") (pos_bits p) | xI p => String (ch "1") (pos_bits p)
  end.
Fixpoint bits_pos (s : string) : option positive :=
  match s with
  | "" => None
  | String a s' =>
      match bits_pos s' with
      | Some p => Some (if bool_decide (a = ch "1") then xI p else xO p)
      | None => if bool_decide (a = ch "1" ∧ s' = "") then Some xH else None
      end
  end.
Definition bits_encode (b : string) : string := pos_bits (encode b).
Definition bits_decode (t : string) : option string := bits_pos t ≫= decode.

Lemma list_ascii_app s t : String.list_ascii_of_string (s +:+ t) =
  String.list_ascii_of_string s ++ String.list_ascii_of_string t.
Proof.
  induction s as [|a s IH]; [done|]. change (String a s +:+ t) with (String a (s +:+ t)).
  simpl. by rewrite IH.
Qed.
Lemma str_length_app s t : String.length (s +:+ t) = (String.length s + String.length t)%nat.
Proof.
  induction s as [|a s IH]; [done|]. change (String a s +:+ t) with (String a (s +:+ t)).
  simpl. by rewrite IH.
Qed.
Lemma no_char_app c s t : no_char c (s +:+ t) ↔ no_char c s ∧ no_char c t.
Proof. unfold no_char. rewrite list_ascii_app, not_elem_of_app. done. Qed.
Lemma plain_cons a s : plain (String a s) ↔ visible a ∧ plain s.
Proof. unfold plain. simpl. apply Forall_cons. Qed.
Lemma plain_app s t : plain (s +:+ t) ↔ plain s ∧ plain t.
Proof. unfold plain. by rewrite list_ascii_app, Forall_app. Qed.
Lemma plain_ascii s : plain s → ascii_text s.
Proof. intros H. eapply Forall_impl; [exact H|]. unfold visible, is_ascii_char. lia. Qed.
Lemma blank_ascii s : blank s → ascii_text s.
Proof. intros H. eapply Forall_impl; [exact H|]. by intros a ->. Qed.
Lemma ascii_text_app s t : ascii_text (s +:+ t) ↔ ascii_text s ∧ ascii_text t.
Proof. unfold ascii_text. by rewrite list_ascii_app, Forall_app. Qed.

Lemma ascii_continuation s : ascii_text s → starts_with_continuation s = false.
Proof.
  destruct s as [|a s]; [done|]. unfold ascii_text, is_ascii_char. intros [Ha _]%Forall_cons. simpl.
  unfold is_continuation. apply andb_false_iff. left. apply N.leb_gt. lia.
Qed.
(** The characters of an ASCII text are its bytes. *)
Lemma ascii_chars s : ascii_text s →
  str_chars s = (λ a, String a "") <$> String.list_ascii_of_string s.
Proof.
  induction s as [|a s IH]; [done|]. intros [_ Hs]%Forall_cons. simpl. rewrite IH by done.
  pose proof (ascii_continuation _ Hs) as Hc. destruct s as [|b s]; [done|]. simpl in *. by rewrite Hc.
Qed.
Lemma concat_chars l : String.concat "" ((λ a, String a "") <$> l) = String.string_of_list_ascii l.
Proof.
  induction l as [|a l IH]; [done|]. destruct l as [|b l]; [done|].
  change (String.concat "" ((λ a, String a "") <$> a :: b :: l))
    with (String a "" +:+ "" +:+ String.concat "" ((λ a, String a "") <$> b :: l)).
  by rewrite IH.
Qed.
Lemma visible_not_space a : visible a → is_whitespace (String a "") = false.
Proof.
  unfold visible. destruct a as [[] [] [] [] [] [] [] []]; vm_compute; intros []; try done;
    repeat match goal with H : _ → _ |- _ => specialize (H eq_refl) end; done.
Qed.
(** A text whose ends are visible is what trimming leaves. *)
Definition starts_visible (l : list Ascii.ascii) : Prop := match l with a :: _ => visible a | [] => False end.
Definition edged (s : string) : Prop :=
  ascii_text s ∧ starts_visible (String.list_ascii_of_string s) ∧
  starts_visible (reverse (String.list_ascii_of_string s)).
Lemma drop_while_visible l rest : starts_visible l →
  drop_while is_whitespace (((λ a, String a "") <$> l) ++ rest) = ((λ a, String a "") <$> l) ++ rest.
Proof. destruct l as [|a l]; [done|]. cbn [starts_visible]. intros Ha. simpl. by rewrite visible_not_space. Qed.
Lemma drop_while_blank l rest : Forall (λ a, a = ch " ") l →
  drop_while is_whitespace (((λ a, String a "") <$> l) ++ rest) = drop_while is_whitespace rest.
Proof. induction 1 as [|a l -> Hl IH]; [done|]. simpl. done. Qed.

(** Trimming takes the blanks around a text with visible ends away. *)
Lemma trim_edges before s after : blank before → blank after → edged s →
  trim (before +:+ s +:+ after) = s.
Proof.
  intros Hb Ha (Hs&Hl&Hr). unfold trim. rewrite ascii_chars.
  2: { rewrite !ascii_text_app. auto using blank_ascii. }
  rewrite !list_ascii_app, !fmap_app, drop_while_blank by done.
  rewrite drop_while_visible by done. rewrite reverse_app, <-!fmap_reverse.
  rewrite drop_while_blank by by apply Forall_reverse.
  pose proof (drop_while_visible (reverse (String.list_ascii_of_string s)) [] Hr) as Hd.
  rewrite !app_nil_r in Hd. rewrite Hd.
  by rewrite <-fmap_reverse, reverse_involutive, concat_chars, String.string_of_list_ascii_of_string.
Qed.
Lemma trim_blank s : blank s → trim s = "".
Proof.
  intros Hs. unfold trim. rewrite ascii_chars by by apply blank_ascii.
  pose proof (drop_while_blank (String.list_ascii_of_string s) [] Hs) as Hd. rewrite app_nil_r in Hd. by rewrite Hd.
Qed.
Lemma starts_visible_plain l : Forall visible l → l ≠ [] → starts_visible l.
Proof. intros Hl Hne. destruct l as [|a l]; [done|]. by apply Forall_cons in Hl as [Ha _]. Qed.
Lemma plain_edged s : plain s → s ≠ "" → edged s.
Proof.
  intros Hs Hne. assert (Hl : String.list_ascii_of_string s ≠ []) by by destruct s.
  split_and!; [by apply plain_ascii|by apply starts_visible_plain|].
  apply starts_visible_plain; [by apply Forall_reverse|]. intros Hr. apply Hl.
  by rewrite <-(reverse_involutive (String.list_ascii_of_string s)), Hr.
Qed.
Lemma trim_blanks before s after : blank before → blank after → plain s →
  trim (before +:+ s +:+ after) = s.
Proof.
  intros Hb Ha Hs. destruct (decide (s = "")) as [->|Hne]; [|by apply trim_edges, plain_edged].
  apply trim_blank. unfold blank. change ("" +:+ after) with after. rewrite list_ascii_app. by apply Forall_app.
Qed.
Lemma trim_plain s : plain s → trim s = s.
Proof.
  intros Hs. pose proof (trim_blanks "" s "" ltac:(constructor) ltac:(constructor) Hs) as H.
  rewrite str_app_nil_r in H. exact H.
Qed.
Lemma trim_space s : plain s → trim (" " +:+ s) = s.
Proof.
  intros Hs. pose proof (trim_blanks " " s "" ltac:(by repeat constructor) ltac:(constructor) Hs) as H.
  by rewrite str_app_nil_r in H.
Qed.

Lemma bits_pos_bits p : bits_pos (pos_bits p) = Some p.
Proof. induction p as [p IH|p IH|]; simpl; [by rewrite IH..|done]. Qed.
Lemma pos_bits_text p : plain (pos_bits p) ∧ no_char (ch ";") (pos_bits p).
Proof.
  assert (H : Forall (λ a, a = ch "0" ∨ a = ch "1") (String.list_ascii_of_string (pos_bits p))).
  { induction p as [p IH|p IH|]; simpl; constructor; auto. }
  split.
  - eapply Forall_impl; [exact H|]. intros a [-> | ->]; by vm_compute.
  - unfold no_char. rewrite Forall_forall in H. intros Hin. by destruct (H _ Hin).
Qed.
Lemma bits_decode_encode b : bits_decode (bits_encode b) = Some b.
Proof. unfold bits_encode, bits_decode. rewrite bits_pos_bits. simpl. apply decode_encode. Qed.

(** *** Searching *)

Lemma prefix_split p s : String.prefix p s = true →
  s = p +:+ String.substring (String.length p) (String.length s - String.length p) s.
Proof.
  revert s. induction p as [|a p IH]; intros s Hp.
  { cbn [String.length]. rewrite Nat.sub_0_r. change (s = String.substring 0 (String.length s) s).
    clear Hp. induction s as [|b s IHs]; [done|]. cbn. by rewrite <-IHs. }
  destruct s as [|b s]; [done|]. cbn in Hp. destruct (Ascii.ascii_dec a b) as [->|]; [|done].
  change (String b s = String b (p +:+
    String.substring (String.length p) (String.length s - String.length p) s)).
  f_equal. by apply IH.
Qed.
Lemma replace_first_spec from to s :
  match str_find from s with
  | None => replace_first from to s = s
  | Some n => ∃ pre post, s = pre +:+ from +:+ post ∧ String.length pre = n ∧
      replace_first from to s = pre +:+ to +:+ post
  end.
Proof.
  induction s as [|a s IH].
  - cbn. destruct from as [|b from]; [|done]. by exists "", "".
  - cbn [str_find replace_first]. destruct (String.prefix from (String a s)) eqn:Hp.
    + apply prefix_split in Hp. by exists "", (String.substring (String.length from)
        (String.length (String a s) - String.length from) (String a s)).
    + destruct (str_find from s) as [n|]; cbn; [|by rewrite IH].
      destruct IH as (pre & post & -> & <- & ->). by exists (String a pre), post.
Qed.
Lemma split_once_app c k v : no_char c k → split_once c (k +:+ String c v) = Some (k, v).
Proof.
  unfold no_char. induction k as [|a k IH]; simpl; intros Hk.
  - by rewrite bool_decide_true.
  - apply not_elem_of_cons in Hk as [Ha Hk]. rewrite bool_decide_false by done. by rewrite IH.
Qed.
Lemma get_app_r pre s i : String.get (String.length pre + i) (pre +:+ s) = String.get i s.
Proof. induction pre as [|a pre IH]; [done|]. exact IH. Qed.
Lemma get_app_l s t i : (i < String.length s)%nat → String.get i (s +:+ t) = String.get i s.
Proof.
  revert i. induction s as [|a s IH]; intros i Hi; [cbn in Hi; lia|].
  destruct i as [|i]; [done|]. cbn in Hi. apply (IH i). lia.
Qed.
Lemma substring_app_r pre s i n :
  String.substring (String.length pre + i) n (pre +:+ s) = String.substring i n s.
Proof. induction pre as [|a pre IH]; [done|]. exact IH. Qed.
Lemma substring_app_l s t : String.substring 0 (String.length s) (s +:+ t) = s.
Proof.
  induction s as [|a s IH]; [by destruct t|]. change (String a s +:+ t) with (String a (s +:+ t)).
  cbn. by rewrite IH.
Qed.
Lemma substring_whole_text s : String.substring 0 (String.length s) s = s.
Proof. rewrite <-(str_app_nil_r s) at 2. apply substring_app_l. Qed.
Lemma concat_cons s l : String.concat "" (s :: l) = s +:+ String.concat "" l.
Proof. destruct l; [by cbn; rewrite str_app_nil_r|done]. Qed.
Lemma str_find_bound pat s n : str_find pat s = Some n →
  (n + String.length pat ≤ String.length s)%nat.
Proof.
  intros Hf. pose proof (replace_first_spec pat "" s) as H. rewrite Hf in H.
  destruct H as (pre&post&->&<-&_). rewrite !str_length_app. lia.
Qed.
Lemma str_find_split pat s n : str_find pat s = Some n →
  ∃ pre post, s = pre +:+ pat +:+ post ∧ String.length pre = n.
Proof.
  intros Hf. pose proof (replace_first_spec pat "" s) as H. rewrite Hf in H.
  destruct H as (pre&post&->&<-&_). by exists pre, post.
Qed.
Lemma str_rfind_split pat s n : str_rfind pat s = Some n →
  ∃ pre post, s = pre +:+ pat +:+ post ∧ String.length pre = n ∧
    ∀ a rest, pat +:+ post = String a rest → str_rfind pat rest = None.
Proof.
  revert n. induction s as [|a s IH]; intros n; cbn [str_rfind].
  { destruct (String.prefix pat "") eqn:Hp; [|done]. intros [= <-].
    destruct pat; [|done]. by exists "", "". }
  destruct (str_rfind pat s) as [m|] eqn:Hr.
  - intros [= <-]. destruct (IH m eq_refl) as (pre&post&->&<-&Hlast). by exists (String a pre), post.
  - destruct (String.prefix pat (String a s)) eqn:Hp; [|done]. intros [= <-].
    apply prefix_split in Hp. set (post := String.substring _ _ _) in Hp. exists "", post.
    split_and!; [done..|]. intros b rest He. rewrite <-Hp in He. by injection He as <- <-.
Qed.
Lemma str_drop_app s t : str_drop (String.length s) (s +:+ t) = t.
Proof.
  unfold str_drop. rewrite str_length_app. replace (_ + _ - _)%nat with (String.length t) by lia.
  rewrite <-(Nat.add_0_r (String.length s)), substring_app_r. apply substring_whole_text.
Qed.

(** ** Numbers *)

Lemma pretty_char_digit n : (n < 10)%N →
  Z.of_N (Ascii.N_of_ascii (pretty_N_char n)) - 48 = Z.of_N n.
Proof.
  intros Hn. unfold pretty_N_char.
  assert (n = 0 ∨ n = 1 ∨ n = 2 ∨ n = 3 ∨ n = 4 ∨ n = 5 ∨ n = 6 ∨ n = 7 ∨ n = 8 ∨ n = 9)%N as H by lia.
  destruct_or! H; subst; done.
Qed.
Lemma digits_value_pretty_go n : ∀ s,
  digits_value 0 (pretty_N_go n s) = digits_value (Z.of_N n) s.
Proof.
  induction n as [n IH] using (well_founded_ind N.lt_wf_0). intros s.
  destruct (decide (0 < n)%N) as [Hn|Hn].
  - rewrite pretty_N_go_step by done. rewrite IH by (by apply N.div_lt).
    assert (Hd : (n mod 10 < 10)%N) by by apply N.mod_lt.
    pose proof (N.div_mod n 10 ltac:(done)) as Hdm. revert Hd Hdm.
    generalize (n mod 10)%N as d, (n / 10)%N as q. intros d q Hd Hdm.
    cbn [digits_value]. rewrite pretty_char_digit by done.
    rewrite (proj2 (Z.leb_le 0 (Z.of_N d))), (proj2 (Z.leb_le (Z.of_N d) 9)) by lia.
    cbn [andb]. f_equal. lia.
  - replace n with 0%N by lia. done.
Qed.
(** A printed integer reads back, within the bounds of its type. *)
Lemma digits_value_pretty n : digits_value 0 (pretty (n : N)) = Some (Z.of_N n).
Proof.
  unfold pretty, pretty_N. destruct (decide (n = 0)%N) as [->|Hn]; [done|].
  by rewrite digits_value_pretty_go.
Qed.
Lemma pretty_N_first n : ∃ a s, pretty (n : N) = String a s ∧ a ≠ ch "+" ∧ a ≠ ch "-".
Proof.
  destruct (pretty n) as [|a s] eqn:Hp.
  { pose proof (digits_value_pretty n) as H. rewrite Hp in H. injection H as H.
    assert (n = 0)%N as -> by lia. done. }
  exists a, s. split; [done|]. pose proof (digits_value_pretty n) as H. rewrite Hp in H.
  split; intros ->; done.
Qed.
Lemma parse_pretty z lo hi : lo ≤ z ≤ hi → (z < 0 → lo < 0) → parse_int lo hi (pretty z) = Some z.
Proof.
  intros Hz Hlo.
  assert (Hn : ∀ n : N, Z.of_N n = z → parse_int lo hi (pretty n) = Some z).
  { intros n Hn. pose proof (digits_value_pretty n) as Hd.
    destruct (pretty_N_first n) as (a&s&Hp&H1&H2). rewrite Hp in *. unfold parse_int.
    rewrite !bool_decide_false by done. cbn [andb]. unfold str_is_empty. rewrite bool_decide_false by done.
    rewrite Hd. cbn [mbind option_bind]. rewrite Hn.
    by rewrite (proj2 (Z.leb_le lo z)), (proj2 (Z.leb_le z hi)) by lia. }
  destruct z as [|p|p]; [by apply (Hn 0%N)|by apply (Hn (Npos p))|].
  change (pretty (Z.neg p)) with (String (ch "-") (pretty (Npos p))). unfold parse_int.
  rewrite bool_decide_false, bool_decide_true by done.
  rewrite (proj2 (Z.ltb_lt lo 0)) by lia. cbn [andb]. unfold str_is_empty.
  destruct (pretty_N_first (Npos p)) as (a&s&Hp&_&_).
  rewrite bool_decide_false by by rewrite Hp. rewrite digits_value_pretty. cbn [fmap option_fmap option_map mbind option_bind].
  change (- Z.of_N (N.pos p)) with (Z.neg p).
  by rewrite (proj2 (Z.leb_le lo _)), (proj2 (Z.leb_le _ hi)) by lia.
Qed.
Definition digit_text (s : string) : Prop :=
  Forall (λ a, a = ch "-" ∨ 48 ≤ Z.of_N (Ascii.N_of_ascii a) ≤ 57) (String.list_ascii_of_string s).
Lemma digits_value_text s : ∀ acc, is_Some (digits_value acc s) → digit_text s.
Proof.
  induction s as [|a s IH]; intros acc; [constructor|]. cbn.
  destruct (_ && _) eqn:Hd; [|by intros []]. intros Hs. bools. constructor; [right; lia|by eapply IH].
Qed.
Lemma pretty_text z : digit_text (pretty (z : Z)).
Proof.
  destruct z as [|p|p]; [apply (digits_value_text _ 0); by eexists| |].
  - apply (digits_value_text _ 0). eexists. apply (digits_value_pretty (Npos p)).
  - constructor; [by left|]. apply (digits_value_text _ 0). eexists. apply (digits_value_pretty (Npos p)).
Qed.
Lemma digit_text_plain s : digit_text s → plain s.
Proof. intros H. eapply Forall_impl; [exact H|]. unfold visible. intros a [->|Ha]; [by vm_compute|lia]. Qed.
Lemma pretty_plain (z : Z) : plain (pretty z).
Proof. apply digit_text_plain, pretty_text. Qed.

(** ** Words *)

(** [s.split_whitespace()] *)
Fixpoint words_go (cur : string) (cs : list string) : list string :=
  match cs with
  | [] => if str_is_empty cur then [] else [cur]
  | c :: cs' =>
      if is_whitespace c then (if str_is_empty cur then words_go "" cs' else cur :: words_go "" cs')
      else words_go (cur +:+ c) cs'
  end.
Definition split_whitespace (s : string) : list string := words_go "" (str_chars s).
Lemma words_go_plain w cur rest : plain w →
  words_go cur (((λ a, String a "") <$> String.list_ascii_of_string w) ++ rest) = words_go (cur +:+ w) rest.
Proof.
  revert cur. induction w as [|a w IH]; intros cur Hw; [by rewrite str_app_nil_r|].
  apply plain_cons in Hw as [Ha Hw]. cbn [String.list_ascii_of_string fmap list_fmap app words_go].
  rewrite visible_not_space by done. rewrite IH by done. f_equal. clear.
  induction cur as [|b cur IHc]; [done|]. by change (String b ((cur +:+ String a "") +:+ w) = String b (cur +:+ String a w)); rewrite IHc.
Qed.
(** Words joined with spaces read back. *)
Lemma split_whitespace_join ws : Forall (λ w, plain w ∧ w ≠ "") ws → split_whitespace (join " " ws) = ws.
Proof.
  intros Hws. unfold split_whitespace. rewrite ascii_chars.
  2:{ induction Hws as [|w ws [Hp _] Hws IH]; [constructor|]. destruct ws as [|w' ws]; [by apply plain_ascii|].
      change (join " " (w :: w' :: ws)) with (w +:+ " " +:+ join " " (w' :: ws)).
      rewrite !ascii_text_app. split_and!; [by apply plain_ascii|by repeat constructor|done]. }
  induction Hws as [|w ws [Hp Hne] Hws IH]; [done|]. destruct ws as [|w' ws].
  - cbn [join]. rewrite <-(app_nil_r (_ <$> _)), words_go_plain by done. cbn. unfold str_is_empty.
    by rewrite bool_decide_eq_false_2.
  - change (join " " (w :: w' :: ws)) with (w +:+ " " +:+ join " " (w' :: ws)).
    rewrite !list_ascii_app, !fmap_app, words_go_plain by done.
    change ("" +:+ w) with w. cbn [String.list_ascii_of_string fmap list_fmap app words_go].
    change (is_whitespace " ") with true. cbn iota. unfold str_is_empty at 1. rewrite bool_decide_eq_false_2 by done.
    by rewrite <-IH at 2.
Qed.
