(* ===== verification/Macros.v ===== *)
(** * Macros and the injector crate

    macros/src/lib.rs: the context of [##KEY##] macros and the replacer; and
    injector/src/ (macros_support.rs, html.rs, vast.rs, lib.rs): the injector's own
    replacer, and the insertion of trackers into HTML and VAST markup by search of
    the closing tags.  The searches look for ASCII text, so every slice of the code
    falls between characters.  Both loops carry as fuel the length of the template:
    each turn drops a key with its four hashes. *)

From S2P Require Import Prelude IpUtil Text.
Open Scope Z_scope.

(** ** macros/src/lib.rs *)

Definition BID_ID : string := "PBS-BIDID".
Definition APP_BUNDLE : string := "PBS-APPBUNDLE".
Definition DOMAIN : string := "PBS-DOMAIN".
Definition PUB_DOMAIN : string := "PBS-PUBDOMAIN".
Definition PAGE_URL : string := "PBS-PAGEURL".
Definition ACCOUNT_ID : string := "PBS-ACCOUNTID".
Definition LMT_TRACKING : string := "PBS-LIMITADTRACKING".
Definition CONSENT : string := "PBS-GDPRCONSENT".
Definition BIDDER : string := "PBS-BIDDER".
Definition INTEGRATION : string := "PBS-INTEGRATION".
Definition VAST_CRT_ID : string := "PBS-VASTCRTID".
Definition TIMESTAMP : string := "PBS-TIMESTAMP".
Definition AUCTION_ID : string := "PBS-AUCTIONID".
Definition CHANNEL : string := "PBS-CHANNEL".
Definition EVENT_TYPE : string := "PBS-EVENTTYPE".
Definition VAST_EVENT : string := "PBS-VASTEVENT".
Definition CUSTOM_MACRO_PREFIX : string := "PBS-MACRO-".
Definition CUSTOM_MACRO_LENGTH : nat := 100.

Record MacroContext : Type := {
  mc_bid_id : option string; mc_app_bundle : option string; mc_domain : option string;
  mc_pub_domain : option string; mc_page_url : option string; mc_account_id : option string;
  mc_limit_ad_tracking : option string; mc_gdpr_consent : option string; mc_bidder : option string;
  mc_integration : option string; mc_vast_creative_id : option string; mc_timestamp : option string;
  mc_auction_id : option string; mc_channel : option string; mc_event_type : option string;
  mc_vast_event : option string; mc_custom : gmap string string;
}.
Definition macro_context_new : MacroContext := {|
  mc_bid_id := None; mc_app_bundle := None; mc_domain := None; mc_pub_domain := None;
  mc_page_url := None; mc_account_id := None; mc_limit_ad_tracking := None; mc_gdpr_consent := None;
  mc_bidder := None; mc_integration := None; mc_vast_creative_id := None; mc_timestamp := None;
  mc_auction_id := None; mc_channel := None; mc_event_type := None; mc_vast_event := None;
  mc_custom := ∅;
|}.
Definition with_custom (f : gmap string string → gmap string string) (c : MacroContext) : MacroContext := {|
  mc_bid_id := mc_bid_id c; mc_app_bundle := mc_app_bundle c; mc_domain := mc_domain c;
  mc_pub_domain := mc_pub_domain c; mc_page_url := mc_page_url c; mc_account_id := mc_account_id c;
  mc_limit_ad_tracking := mc_limit_ad_tracking c; mc_gdpr_consent := mc_gdpr_consent c;
  mc_bidder := mc_bidder c; mc_integration := mc_integration c;
  mc_vast_creative_id := mc_vast_creative_id c; mc_timestamp := mc_timestamp c;
  mc_auction_id := mc_auction_id c; mc_channel := mc_channel c; mc_event_type := mc_event_type c;
  mc_vast_event := mc_vast_event c; mc_custom := f (mc_custom c);
|}.

Definition truncate_chars (s : string) (max_chars : nat) : string :=
  let chars := str_chars s in
  if (length chars <? max_chars)%nat then s else String.concat "" (take max_chars chars).
Definition set_custom (key value : string) (c : MacroContext) : MacroContext :=
  with_custom <[ key := truncate_chars value CUSTOM_MACRO_LENGTH ]> c.

(** [s.strip_prefix(p)]. *)
Definition macro_strip_prefix (p s : string) : option string :=
  if String.prefix p s then Some (str_drop (String.length p) s) else None.
Definition macro_get (c : MacroContext) (key : string) : option string :=
  if bool_decide (key = BID_ID) then mc_bid_id c
  else if bool_decide (key = APP_BUNDLE) then mc_app_bundle c
  else if bool_decide (key = DOMAIN) then mc_domain c
  else if bool_decide (key = PUB_DOMAIN) then mc_pub_domain c
  else if bool_decide (key = PAGE_URL) then mc_page_url c
  else if bool_decide (key = ACCOUNT_ID) then mc_account_id c
  else if bool_decide (key = LMT_TRACKING) then mc_limit_ad_tracking c
  else if bool_decide (key = CONSENT) then mc_gdpr_consent c
  else if bool_decide (key = BIDDER) then mc_bidder c
  else if bool_decide (key = INTEGRATION) then mc_integration c
  else if bool_decide (key = VAST_CRT_ID) then mc_vast_creative_id c
  else if bool_decide (key = TIMESTAMP) then mc_timestamp c
  else if bool_decide (key = AUCTION_ID) then mc_auction_id c
  else if bool_decide (key = CHANNEL) then mc_channel c
  else if bool_decide (key = EVENT_TYPE) then mc_event_type c
  else if bool_decide (key = VAST_EVENT) then mc_vast_event c
  else match macro_strip_prefix CUSTOM_MACRO_PREFIX key with
       | Some custom_key => mc_custom c !! custom_key
       | None => None
       end.

Definition MACRO_DELIM : string := "##".
(** The [while let] of both replacers, [get] the lookup of a key. *)
Fixpoint resolve_loop (fuel : nat) (get : string → option string) (out rest : string) : option string :=
  match fuel with
  | O => None
  | S fuel' =>
      match str_find MACRO_DELIM rest with
      | None => Some (out +:+ rest)
      | Some start =>
          let out := out +:+ String.substring 0 start rest in
          let after_start := str_drop (start + String.length MACRO_DELIM) rest in
          match str_find MACRO_DELIM after_start with
          | Some e =>
              let key := String.substring 0 e after_start in
              let out := match get key with
                | Some val => out +:+ val
                | None => out +:+ MACRO_DELIM +:+ key +:+ MACRO_DELIM
                end in
              resolve_loop fuel' get out (str_drop (e + String.length MACRO_DELIM) after_start)
          | None => Some (out +:+ MACRO_DELIM +:+ after_start)
          end
      end
  end.
Definition hash_hash_resolve (template : string) (ctx : MacroContext) : option string :=
  resolve_loop (S (String.length template)) (macro_get ctx) "" template.

(** ** injector/src *)

Definition simple_resolve (template : string) (macros : gmap string string) : option string :=
  resolve_loop (S (String.length template)) (macros !!.) "" template.

Record TrackingEvents : Type := {
  te_impressions : list string; te_errors : list string; te_video_clicks : list string;
  te_non_linear_click_tracking : list string; te_companion_click_through : list string;
  te_tracking_events : gmap string (list string);
}.
Definition tracking_events_new : TrackingEvents := {|
  te_impressions := []; te_errors := []; te_video_clicks := []; te_non_linear_click_tracking := [];
  te_companion_click_through := []; te_tracking_events := ∅;
|}.
Definition no_items {A} (l : list A) : bool := match l with [] => true | _ => false end.
Definition tracking_events_is_empty (e : TrackingEvents) : bool :=
  no_items (te_impressions e) && no_items (te_errors e) && no_items (te_video_clicks e) &&
  no_items (te_non_linear_click_tracking e) && no_items (te_companion_click_through e) &&
  forallb (λ kv, no_items kv.2) (map_to_list (te_tracking_events e)).

(** The text of a replacement; the loop always ends, see [resolve_total]. *)
Definition macro_resolved (template : string) (macros : gmap string string) : string :=
  default "" (simple_resolve template macros).

(** *** html.rs *)

Inductive HtmlMode : Type := HtmlImg | HtmlScript.
Definition escape_attr (s : string) : string :=
  str_replace dq "&quot;" (str_replace "&" "&amp;" s).
Definition render_tag (mode : HtmlMode) (url : string) : string :=
  match mode with
  | HtmlImg => "<img src=" +:+ dq +:+ escape_attr url +:+ dq +:+ " width=" +:+ dq +:+ "1" +:+ dq +:+
      " height=" +:+ dq +:+ "1" +:+ dq +:+ " style=" +:+ dq +:+ "display:none" +:+ dq +:+
      " alt=" +:+ dq +:+ dq +:+ "/>"
  | HtmlScript => "<script src=" +:+ dq +:+ escape_attr url +:+ dq +:+ " async></script>"
  end.
(** [&s[..i]], the fragment, [&s[i..]]. *)
Definition splice_at (i : nat) (fragment s : string) : string :=
  String.substring 0 i s +:+ fragment +:+ str_drop i s.
Definition html_fragment (mode : HtmlMode) (events : TrackingEvents) (macros : gmap string string) : string :=
  fold_left (λ fragment url, fragment +:+ render_tag mode (macro_resolved url macros)) (te_impressions events) "".
Definition html_inject (mode : HtmlMode) (markup : string) (events : TrackingEvents)
    (macros : gmap string string) : string :=
  if no_items (te_impressions events) then markup else
  let fragment := html_fragment mode events macros in
  match str_find "</body>" markup with
  | Some idx => splice_at idx fragment markup
  | None => markup +:+ fragment
  end.

(** *** vast.rs *)

Definition build_elements (tag : string) (urls : list string) (m : gmap string string) : string :=
  fold_left (λ out url, out +:+ ("<" +:+ tag +:+ "><![CDATA[") +:+ macro_resolved url m +:+ "]]></" +:+ tag +:+ ">") urls "".
Definition build_impressions (events : TrackingEvents) (m : gmap string string) : string :=
  build_elements "Impression" (te_impressions events) m.
Definition vast_build_errors (events : TrackingEvents) (m : gmap string string) : string :=
  build_elements "Error" (te_errors events) m.
Definition build_tracking_children (events : TrackingEvents) (m : gmap string string) : string :=
  let keys := sort_by String.leb (map_to_list (te_tracking_events events)).*1 in
  fold_left (λ out k,
    match te_tracking_events events !! k with
    | Some urls => fold_left (λ out url,
        out +:+ "<Tracking event=" +:+ dq +:+ k +:+ dq +:+ "><![CDATA[" +:+ macro_resolved url m +:+ "]]></Tracking>") urls out
    | None => out
    end) keys "".
Definition build_tracking_block (events : TrackingEvents) (m : gmap string string) : string :=
  let inner := build_tracking_children events m in
  if str_is_empty inner then "" else "<TrackingEvents>" +:+ inner +:+ "</TrackingEvents>".
Definition insert_before (haystack needle fragment : string) : option string :=
  (λ idx, splice_at idx fragment haystack) <$> str_find needle haystack.

(** [for close in ["</InLine>", "</Wrapper>"] { ...; break; }] *)
Fixpoint insert_first (closes : list string) (fragment out : string) : string :=
  match closes with
  | [] => out
  | close :: closes' =>
      match insert_before out close fragment with
      | Some updated => updated
      | None => insert_first closes' fragment out
      end
  end.
Definition insert_top (top_fragment out : string) : string :=
  if str_is_empty top_fragment then out else insert_first ["</InLine>"; "</Wrapper>"] top_fragment out.
Definition insert_tracking (events : TrackingEvents) (macros : gmap string string) (out : string) : string :=
  let tracking_block := build_tracking_block events macros in
  if str_is_empty tracking_block then out
  else match str_find "<TrackingEvents>" out with
  | Some te_start =>
      splice_at (te_start + String.length "<TrackingEvents>") (build_tracking_children events macros) out
  | None => default out (insert_before out "</Linear>" tracking_block)
  end.
Definition vast_inject (markup : string) (events : TrackingEvents) (macros : gmap string string) : string :=
  if str_is_empty markup then markup else
  let top_fragment := build_impressions events macros +:+ vast_build_errors events macros in
  insert_tracking events macros (insert_top top_fragment markup).

(** [TrackerInjector]. *)
Class TrackerInjector (I : Type) : Type := {
  ti_inject : I → string → TrackingEvents → gmap string string → string;
}.
#[export] Instance html_injector : TrackerInjector HtmlMode := {| ti_inject := html_inject |}.
#[export] Instance vast_injector : TrackerInjector () := {| ti_inject := λ _, vast_inject |}.

(** ** The replacers *)

(** A template in pieces: text, macros, and what follows the last macro. *)
Inductive MacroPiece : Type := TextPiece (s : string) | MacroKey (key : string).
Definition piece_text (p : MacroPiece) : string :=
  match p with TextPiece s => s | MacroKey key => MACRO_DELIM +:+ key +:+ MACRO_DELIM end.
Definition macro_piece_value (get : string → option string) (p : MacroPiece) : string :=
  match p with
  | TextPiece s => s
  | MacroKey key => default (MACRO_DELIM +:+ key +:+ MACRO_DELIM) (get key)
  end.
Definition template_of (ps : list MacroPiece) : string := String.concat "" (piece_text <$> ps).

Lemma str_find_cut pat s n : str_find pat s = Some n →
  s = String.substring 0 n s +:+ pat +:+ str_drop (n + String.length pat) s.
Proof.
  intros (pre & post & -> & <-)%str_find_split. rewrite substring_app_l. f_equal. f_equal.
  rewrite <-(str_app_assoc pre pat post), <-str_length_app. by rewrite str_drop_app.
Qed.
(** One induction for the loop: an invariant of text consumed and text written. *)
Lemma resolve_loop_ind get (R : string → string → Prop) :
  (∀ s, R s s) →
  (∀ text key rest out, R rest out → R (text +:+ MACRO_DELIM +:+ key +:+ MACRO_DELIM +:+ rest)
     (text +:+ macro_piece_value get (MacroKey key) +:+ out)) →
  ∀ fuel out rest, (String.length rest < fuel)%nat →
  ∃ res, resolve_loop fuel get out rest = Some (out +:+ res) ∧ R rest res.
Proof.
  intros Hend Hstep. induction fuel as [|fuel IH]; intros out rest Hf; [lia|]. cbn [resolve_loop].
  destruct (str_find MACRO_DELIM rest) as [start|] eqn:Hs; [|by exists rest].
  pose proof (str_find_cut _ _ _ Hs) as Hc. set (text := String.substring 0 start rest) in *.
  set (after := str_drop _ rest) in *. destruct (str_find MACRO_DELIM after) as [e|] eqn:He.
  2: { exists (text +:+ MACRO_DELIM +:+ after). split; [by rewrite !str_app_assoc|]. rewrite Hc. apply Hend. }
  pose proof (str_find_cut _ _ _ He) as Ha. set (key := String.substring 0 e after) in *.
  set (rest' := str_drop _ after) in *.
  assert (Hl : (String.length rest' < fuel)%nat).
  { rewrite Hc, Ha, !str_length_app in Hf. change (String.length MACRO_DELIM) with 2%nat in Hf. lia. }
  destruct (IH ((out +:+ text) +:+ macro_piece_value get (MacroKey key)) rest' Hl) as (res & Hres & HR).
  exists (text +:+ macro_piece_value get (MacroKey key) +:+ res). split.
  - trans (resolve_loop fuel get ((out +:+ text) +:+ macro_piece_value get (MacroKey key)) rest').
    + cbn [macro_piece_value]. by destruct (get key).
    + rewrite Hres. by rewrite !str_app_assoc.
  - rewrite Hc, Ha. by apply Hstep.
Qed.

(** The replacers always end. *)
Lemma resolve_total get out s : is_Some (resolve_loop (S (String.length s)) get out s).
Proof.
  destruct (resolve_loop_ind get (λ _ _, True) (λ _, I) (λ _ _ _ _ _, I) (S (String.length s)) out s)
    as (res & -> & _); [lia|]. done.
Qed.
(** Whatever the template, an unknown key is left as it stands. *)
Lemma resolve_unknown get s : (∀ key, get key = None) →
  resolve_loop (S (String.length s)) get "" s = Some s.
Proof.
  intros Hn. destruct (resolve_loop_ind get (λ s r, r = s)) with (fuel := S (String.length s)) (out := "") (rest := s)
    as (res & -> & ->); try done; [|lia]. intros text key rest out ->. cbn. rewrite Hn. cbn. by rewrite !str_app_assoc.
Qed.
(** Any template is pieces and a rest without further macros, and its replacement is theirs. *)
Lemma resolve_pieces get s : ∃ ps rest,
  s = template_of ps +:+ rest ∧
  resolve_loop (S (String.length s)) get "" s =
    Some (String.concat "" (macro_piece_value get <$> ps) +:+ rest).
Proof.
  destruct (resolve_loop_ind get (λ s r, ∃ ps rest, s = template_of ps +:+ rest ∧
    r = String.concat "" (macro_piece_value get <$> ps) +:+ rest)) with (fuel := S (String.length s)) (out := "") (rest := s)
    as (res & -> & ps & rest & Hs & ->); [| |lia|].
  - intros s'. by exists [], s'.
  - intros text key rest out (ps & rest' & -> & ->). exists (TextPiece text :: MacroKey key :: ps), rest'.
    unfold template_of. cbn [fmap list_fmap]. rewrite !concat_cons. cbn [piece_text macro_piece_value].
    rewrite !str_app_assoc. done.
  - by exists ps, rest.
Qed.

(** No hash: no macro starts in the text, and a key ends where it should. *)
Lemma prefix_head a b p s : a ≠ b → String.prefix (String a p) (String b s) = false.
Proof. intros Hab. cbn. by destruct (Ascii.ascii_dec a b). Qed.
Lemma str_find_no_hash s t : no_char (ch "#") s → str_find MACRO_DELIM (s +:+ MACRO_DELIM +:+ t) = Some (String.length s).
Proof.
  unfold no_char. induction s as [|a s IH]; intros Hs; [by destruct t|]. apply not_elem_of_cons in Hs as [Ha Hs].
  change (String a s +:+ MACRO_DELIM +:+ t) with (String a (s +:+ MACRO_DELIM +:+ t)). cbn [str_find].
  unfold MACRO_DELIM at 1. rewrite prefix_head by done. by rewrite IH.
Qed.
Lemma str_find_none_hash s : no_char (ch "#") s → str_find MACRO_DELIM s = None.
Proof.
  unfold no_char. induction s as [|a s IH]; intros Hs; [done|]. apply not_elem_of_cons in Hs as [Ha Hs].
  cbn [str_find]. rewrite IH by done. unfold MACRO_DELIM. by rewrite prefix_head.
Qed.
Definition macro_piece_ok (p : MacroPiece) : Prop :=
  no_char (ch "#") match p with TextPiece s => s | MacroKey key => key end.
Lemma resolve_template_go get ps : Forall macro_piece_ok ps → ∀ fuel out text,
  no_char (ch "#") text → (String.length (text +:+ template_of ps) < fuel)%nat →
  resolve_loop fuel get out (text +:+ template_of ps) =
    Some (out +:+ text +:+ String.concat "" (macro_piece_value get <$> ps)).
Proof.
  induction 1 as [|p ps Hp Hps IH]; intros fuel out text Ht Hf.
  - destruct fuel as [|fuel]; [lia|]. cbn [resolve_loop]. unfold template_of. cbn [fmap list_fmap String.concat].
    by rewrite str_app_nil_r, str_find_none_hash.
  - revert Hf. unfold template_of in *. cbn [fmap list_fmap]. rewrite !concat_cons. intros Hf.
    destruct p as [s|key]; cbn [piece_text macro_piece_value] in *.
    + rewrite <-(str_app_assoc text) in Hf |- *. rewrite IH; [by rewrite !str_app_assoc| |done].
      apply no_char_app. by split.
    + destruct fuel as [|fuel]; [lia|]. cbn [resolve_loop].
      rewrite !str_app_assoc in Hf |- *. rewrite str_find_no_hash by done.
      rewrite substring_app_l.
      rewrite <-str_length_app, <-(str_app_assoc text MACRO_DELIM), str_drop_app.
      rewrite str_find_no_hash by done.
      rewrite substring_app_l, <-str_length_app, <-(str_app_assoc key), str_drop_app.
      change (String.concat "" (piece_text <$> ps)) with ("" +:+ String.concat "" (piece_text <$> ps)) at 1.
      rewrite IH; [|apply not_elem_of_nil|].
      * cbn [String.append]. destruct (get key); cbn; by rewrite !str_app_assoc.
      * rewrite !str_length_app in Hf. change (String.length MACRO_DELIM) with 2%nat in Hf.
        change ("" +:+ ?s) with s. lia.
Qed.
(** Text and keys without a hash: exactly the known keys are replaced. *)
Theorem resolve_template get ps : Forall macro_piece_ok ps →
  resolve_loop (S (String.length (template_of ps))) get "" (template_of ps) =
    Some (String.concat "" (macro_piece_value get <$> ps)).
Proof.
  intros Hps. change (template_of ps) with ("" +:+ template_of ps) at 2.
  rewrite resolve_template_go; [done|done|apply not_elem_of_nil|]. change ("" +:+ ?s) with s. lia.
Qed.
(** The two crates' replacers are the same function of the lookup. *)
Lemma resolve_loop_ext get get' fuel : (∀ key, get key = get' key) →
  ∀ out s, resolve_loop fuel get out s = resolve_loop fuel get' out s.
Proof.
  intros Hg. induction fuel as [|fuel IH]; intros out s; [done|]. cbn. destruct (str_find _ s); [|done].
  destruct (str_find _ _); [|done]. by rewrite Hg, IH.
Qed.
Theorem replacers_agree ctx macros template : (∀ key, macro_get ctx key = macros !! key) →
  hash_hash_resolve template ctx = simple_resolve template macros.
Proof. intros Hg. by apply resolve_loop_ext. Qed.

(** ** Custom macros *)

Lemma truncate_chars_length s n : (length (str_chars s) < n)%nat ∧ truncate_chars s n = s ∨
  (n ≤ length (str_chars s))%nat ∧ truncate_chars s n = String.concat "" (take n (str_chars s)).
Proof. unfold truncate_chars. destruct (Nat.ltb_spec (length (str_chars s)) n); auto. Qed.
Lemma macro_strip_prefix_app p s : macro_strip_prefix p (p +:+ s) = Some s.
Proof.
  unfold macro_strip_prefix. rewrite str_drop_app. replace (String.prefix p (p +:+ s)) with true; [done|].
  symmetry. induction p as [|a p IH]; [by destruct s|].
  change (String a p +:+ s) with (String a (p +:+ s)). cbn. by destruct (Ascii.ascii_dec a a).
Qed.
(** A custom macro is read back, cut to a hundred characters; a key of its own keeps its value. *)
Theorem set_custom_get key value c k :
  macro_get (set_custom key value c) k =
    if bool_decide (k = CUSTOM_MACRO_PREFIX +:+ key) then Some (truncate_chars value CUSTOM_MACRO_LENGTH)
    else macro_get c k.
Proof.
  destruct (decide (k = CUSTOM_MACRO_PREFIX +:+ key)) as [->|Hk].
  - rewrite bool_decide_true by done. unfold macro_get.
    repeat (rewrite bool_decide_false by (intros He; discriminate He)).
    rewrite macro_strip_prefix_app. apply lookup_insert_eq.
  - rewrite bool_decide_false by done. unfold macro_get, set_custom, with_custom. cbn -[macro_strip_prefix].
    repeat (destruct (bool_decide (k = _)); [done|]). unfold macro_strip_prefix.
    destruct (String.prefix CUSTOM_MACRO_PREFIX k) eqn:Hp; [|done]. apply prefix_split in Hp.
    rewrite lookup_insert_ne; [done|]. intros Heq. apply Hk. rewrite Hp. f_equal. exact (eq_sym Heq).
Qed.

(** ** Injection *)

Lemma cut_at i s : String.substring 0 i s +:+ str_drop i s = s.
Proof.
  revert i. induction s as [|a s IH]; intros [|i]; try done.
  - unfold str_drop. rewrite Nat.sub_0_r. apply substring_whole_text.
  - change (String a (String.substring 0 i s +:+ str_drop i s) = String a s). by rewrite IH.
Qed.
#[local] Notation chars_of := String.list_ascii_of_string (only parsing).
(** What an injection writes contains the markup, in order: it only inserts. *)
Definition only_inserts (markup out : string) : Prop := chars_of markup `sublist_of` chars_of out.
#[export] Instance only_inserts_preorder : PreOrder only_inserts.
Proof. split; [intros s; unfold only_inserts; done|intros s t u; unfold only_inserts; apply (transitivity (R := sublist))]. Qed.
Lemma splice_at_inserts i fragment s : only_inserts s (splice_at i fragment s).
Proof.
  unfold only_inserts, splice_at. rewrite <-(cut_at i s) at 1. rewrite !list_ascii_app.
  apply sublist_app; [done|]. by apply sublist_inserts_l.
Qed.
Lemma insert_before_inserts s needle fragment t : insert_before s needle fragment = Some t → only_inserts s t.
Proof. unfold insert_before. destruct (str_find needle s); [|done]. intros [= <-]. apply splice_at_inserts. Qed.
Lemma insert_first_inserts closes fragment s : only_inserts s (insert_first closes fragment s).
Proof.
  induction closes as [|c closes IH]; [done|]. cbn. destruct (insert_before s c fragment) as [t|] eqn:Hi; [|done].
  by apply insert_before_inserts in Hi.
Qed.
Lemma insert_top_inserts top s : only_inserts s (insert_top top s).
Proof. unfold insert_top. destruct (str_is_empty top); [done|]. apply insert_first_inserts. Qed.
Lemma insert_tracking_inserts events m s : only_inserts s (insert_tracking events m s).
Proof.
  unfold insert_tracking. destruct (str_is_empty _); [done|].
  destruct (str_find _ s); [apply splice_at_inserts|].
  destruct (insert_before s _ _) as [t|] eqn:Hi; [|done]. by apply insert_before_inserts in Hi.
Qed.
(** Neither injector ever drops or reorders a byte of the creative. *)
Theorem injectors_only_insert mode markup events macros :
  only_inserts markup (html_inject mode markup events macros) ∧
  only_inserts markup (vast_inject markup events macros).
Proof.
  split.
  - unfold html_inject. destruct (no_items _); [done|]. destruct (str_find _ markup); [apply splice_at_inserts|].
    unfold only_inserts. rewrite list_ascii_app. by apply sublist_inserts_r.
  - unfold vast_inject. destruct (str_is_empty markup); [done|].
    etrans; [apply insert_top_inserts|apply insert_tracking_inserts].
Qed.

(** Nothing configured: nothing is written. *)
Lemma build_children_nil events m : forallb (λ kv, no_items kv.2) (map_to_list (te_tracking_events events)) = true →
  build_tracking_children events m = "".
Proof.
  intros Hn. unfold build_tracking_children. generalize (sort_by String.leb (map_to_list (te_tracking_events events)).*1) as keys.
  induction keys as [|k keys IH]; [done|]. cbn. destruct (te_tracking_events events !! k) as [urls|] eqn:Hk; [|done].
  rewrite forallb_forall in Hn. specialize (Hn (k, urls)). destruct urls; [done|].
  cbn in Hn. discriminate Hn. apply list_elem_of_In. by apply elem_of_map_to_list.
Qed.
Theorem inject_nothing mode markup events macros : tracking_events_is_empty events = true →
  html_inject mode markup events macros = markup ∧ vast_inject markup events macros = markup.
Proof.
  unfold tracking_events_is_empty. rewrite !andb_true_iff. intros (((((Hi & He) & _) & _) & _) & Ht).
  unfold html_inject. rewrite Hi. split; [done|]. unfold vast_inject.
  destruct (str_is_empty markup); [done|]. unfold insert_tracking, build_tracking_block.
  rewrite build_children_nil by done. cbn.
  unfold build_impressions, vast_build_errors. destruct (te_impressions events); [|done].
  by destruct (te_errors events).
Qed.

(** *** HTML *)

Lemma replace_char_no_char c to s : no_char c to → no_char c (str_replace (String c "") to s).
Proof.
  intros Hto. unfold str_replace. induction s as [|a s IH]; [apply not_elem_of_nil|].
  cbn [replace_go]. destruct (decide (c = a)) as [<-|Hca].
  - cbn -[String.append replace_go]. destruct (Ascii.ascii_dec c c); [|done].
    destruct s; cbn -[String.append replace_go]; apply no_char_app; by split.
  - rewrite prefix_head by done. apply not_elem_of_cons. by split.
Qed.
(** An escaped URL cannot close the attribute it stands in. *)
Lemma escape_attr_quoted s : no_char (ch dq) (escape_attr s).
Proof. apply (replace_char_no_char (ch dq)). apply (bool_decide_unpack _). vm_compute. done. Qed.

Lemma fold_append {A} (f : A → string) l : ∀ acc,
  fold_left (λ out x, out +:+ f x) l acc = acc +:+ String.concat "" (f <$> l).
Proof.
  induction l as [|x l IH]; intros acc; cbn [fold_left fmap list_fmap]; [by rewrite str_app_nil_r|].
  rewrite IH, concat_cons. by rewrite str_app_assoc.
Qed.
(** The pixels of all impressions, in their order, before the first closing body tag or at the end. *)
Theorem html_inject_spec mode markup events macros :
  let pixels := String.concat "" ((λ url, render_tag mode (macro_resolved url macros)) <$> te_impressions events) in
  match str_find "</body>" markup with
  | Some idx => html_inject mode markup events macros =
      String.substring 0 idx markup +:+ pixels +:+ str_drop idx markup
  | None => html_inject mode markup events macros = markup +:+ pixels
  end.
Proof.
  cbv zeta. unfold html_inject, html_fragment. rewrite fold_append. change ("" +:+ ?s) with s.
  destruct (te_impressions events); cbn [no_items].
  - cbn. destruct (str_find _ markup); [by rewrite cut_at|by rewrite str_app_nil_r].
  - by destruct (str_find _ markup).
Qed.

(** *** VAST *)

Lemma prefix_app_local p s t u : (String.length p ≤ String.length s)%nat →
  String.prefix p (s +:+ t) = String.prefix p (s +:+ u).
Proof.
  revert s. induction p as [|a p IH]; intros s Hl; [by destruct (s +:+ t), (s +:+ u)|].
  destruct s as [|b s]; [cbn in Hl; lia|]. change (String b s +:+ ?x) with (String b (s +:+ x)). cbn.
  destruct (Ascii.ascii_dec a b); [|done]. apply IH. cbn in Hl. lia.
Qed.
(** What is found before a place does not depend on what follows it. *)
Lemma str_find_local pat s t u i : str_find pat (s +:+ t) = Some i → (i + String.length pat ≤ String.length s)%nat →
  str_find pat (s +:+ u) = Some i.
Proof.
  revert i. induction s as [|a s IH]; intros i Hf Hl.
  { cbn in Hl. assert (pat = "") as -> by (destruct pat; [done|cbn in Hl; lia]).
    assert (i = 0)%nat as -> by (cbn in Hl; lia). by destruct u. }
  change (String a s +:+ ?x) with (String a (s +:+ x)) in *. cbn [str_find] in *.
  destruct (decide (i = 0)%nat) as [->|Hi].
  - change (String a (s +:+ ?x)) with (String a s +:+ x) in *.
    rewrite (prefix_app_local pat (String a s) t u) in Hf by done.
    destruct (String.prefix pat (String a s +:+ u)); [done|].
    change (String a s +:+ t) with (String a (s +:+ t)) in Hf. by destruct (str_find pat (s +:+ t)).
  - change (String a (s +:+ ?x)) with (String a s +:+ x) in Hf |- *.
    rewrite (prefix_app_local pat (String a s) u t).
    + destruct (String.prefix pat (String a s +:+ t)); [by injection Hf as <-|].
      change (String a s +:+ t) with (String a (s +:+ t)) in Hf. cbn [str_find] in Hf.
      destruct (str_find pat (s +:+ t)) as [j|] eqn:Hj; [|done]. cbn in Hf. injection Hf as <-.
      change (String a s +:+ u) with (String a (s +:+ u)). rewrite (IH j); [done|done|]. cbn in Hl. lia.
    + cbn in Hl |- *. lia.
Qed.
Lemma substring_cut n s : (n ≤ String.length s)%nat → String.length (String.substring 0 n s) = n.
Proof. revert s. induction n as [|n IH]; intros [|a s] Hn; cbn in *; try lia. f_equal. apply IH. lia. Qed.

(** In a creative whose linear part comes before the end of the ad, the events go
    before the first [</Linear>], the impressions and errors before the first
    [</InLine>], and everything else stays. *)
Theorem vast_inject_inline pre mid post events macros :
  let markup := pre +:+ "</Linear>" +:+ mid +:+ "</InLine>" +:+ post in
  let top := build_impressions events macros +:+ vast_build_errors events macros in
  str_find "</Linear>" markup = Some (String.length pre) →
  str_find "</InLine>" markup = Some (String.length (pre +:+ "</Linear>" +:+ mid)) →
  str_find "<TrackingEvents>" (pre +:+ "</Linear>" +:+ mid +:+ top +:+ "</InLine>" +:+ post) = None →
  vast_inject markup events macros =
    pre +:+ build_tracking_block events macros +:+ "</Linear>" +:+ mid +:+ top +:+ "</InLine>" +:+ post.
Proof.
  cbv zeta. set (top := _ +:+ vast_build_errors _ _). intros Hlin Hin Hte. unfold vast_inject.
  replace (str_is_empty _) with false.
  2: { symmetry. apply bool_decide_false. intros He. apply (f_equal String.length) in He.
       rewrite !str_length_app in He. cbn in He. lia. }
  fold top.
  assert (Htop : insert_top top (pre +:+ "</Linear>" +:+ mid +:+ "</InLine>" +:+ post) =
    pre +:+ "</Linear>" +:+ mid +:+ top +:+ "</InLine>" +:+ post).
  { unfold insert_top. destruct (str_is_empty top) eqn:He.
    - apply bool_decide_eq_true in He. by rewrite He.
    - cbn [insert_first]. unfold insert_before. rewrite Hin. cbn [fmap option_fmap option_map]. unfold splice_at.
      rewrite <-!(str_app_assoc pre), <-!(str_app_assoc (pre +:+ "</Linear>")).
      rewrite substring_app_l, str_drop_app. by rewrite !str_app_assoc. }
  rewrite Htop. unfold insert_tracking. rewrite Hte.
  destruct (str_is_empty (build_tracking_block events macros)) eqn:Hb.
  { apply bool_decide_eq_true in Hb. by rewrite Hb. }
  unfold insert_before.
  rewrite <-(str_app_assoc pre "</Linear>") in Hlin |- *.
  rewrite (str_find_local _ (pre +:+ "</Linear>") _ (mid +:+ top +:+ "</InLine>" +:+ post) _ Hlin) by
    (rewrite str_length_app; lia).
  cbn [fmap option_fmap option_map default]. unfold splice_at. rewrite str_app_assoc, substring_app_l, str_drop_app.
  done.
Qed.
(** A tracking block that is there already is kept, and the new events come first in it. *)
Lemma insert_tracking_merges pre post events macros :
  str_find "<TrackingEvents>" (pre +:+ "<TrackingEvents>" +:+ post) = Some (String.length pre) →
  insert_tracking events macros (pre +:+ "<TrackingEvents>" +:+ post) =
    pre +:+ "<TrackingEvents>" +:+ build_tracking_children events macros +:+ post.
Proof.
  intros Hf. unfold insert_tracking, build_tracking_block.
  destruct (str_is_empty (build_tracking_children events macros)) eqn:He.
  { apply bool_decide_eq_true in He. by rewrite He. }
  replace (str_is_empty _) with false by (symmetry; by apply bool_decide_false).
  rewrite Hf. unfold splice_at. rewrite <-str_length_app, <-(str_app_assoc pre), substring_app_l, str_drop_app.
  by rewrite str_app_assoc.
Qed.

(** ** Findings *)

(** The comment of vast.rs promises the first closing tag, of [</InLine>] and
    [</Wrapper>]: the code takes the first [</InLine>], even after a [</Wrapper>]. *)
Lemma inline_preferred :
  vast_inject "<Wrapper></Wrapper><InLine></InLine>"
    {| te_impressions := ["u"]; te_errors := []; te_video_clicks := []; te_non_linear_click_tracking := [];
       te_companion_click_through := []; te_tracking_events := ∅ |} ∅ =
  "<Wrapper></Wrapper><InLine><Impression><![CDATA[u]]></Impression></InLine>".
Proof. vm_compute. reflexivity. Qed.
(** Without a [</Linear>], the tracking events are silently dropped. *)
Lemma tracking_dropped :
  vast_inject "<VAST></VAST>"
    {| te_impressions := []; te_errors := []; te_video_clicks := []; te_non_linear_click_tracking := [];
       te_companion_click_through := []; te_tracking_events := {[ "start" := ["u"] ]} |} ∅ = "<VAST></VAST>".
Proof. vm_compute. reflexivity. Qed.
