(* ===== verification/Injector.v ===== *)
(** * Injector

    VAST trackers (exchange/src/injector.rs): the scanner that copies an XML text
    tag by tag and writes the tracking events of a response where they belong.
    [to_lowercase] and the order of the map of tracking events are parameters. *)

From S2P Require Import Prelude IpUtil Text.

Definition EMPTY_ADM_RESPONSE : string :=
  "<VAST version=" +:+ dq +:+ "3.0" +:+ dq +:+
  "><Ad><Wrapper><AdSystem>prebid.org wrapper</AdSystem><VASTAdTagURI><![CDATA[{nurl}]]></VASTAdTagURI><Creatives></Creatives></Wrapper></Ad></VAST>".
Definition IMPRESSION_START_TAG : string := "<Impression><![CDATA[".
Definition IMPRESSION_END_TAG : string := "]]></Impression>".
Definition ERROR_START_TAG : string := "<Error><![CDATA[".
Definition ERROR_END_TAG : string := "]]></Error>".
Definition CLICK_TRACKING_START_TAG : string := "<ClickTracking><![CDATA[".
Definition CLICK_TRACKING_END_TAG : string := "]]></ClickTracking>".
Definition NONLINEAR_CLICK_TRACKING_START_TAG : string := "<NonLinearClickTracking><![CDATA[".
Definition NONLINEAR_CLICK_TRACKING_END_TAG : string := "]]></NonLinearClickTracking>".
Definition COMPANION_CLICK_THROUGH_START_TAG : string := "<CompanionClickThrough><![CDATA[".
Definition COMPANION_CLICK_THROUGH_END_TAG : string := "]]></CompanionClickThrough>".
Definition TRACKING_EVENTS_START_TAG : string := "<TrackingEvents>".
Definition TRACKING_EVENTS_END_TAG : string := "</TrackingEvents>".
Definition VIDEO_CLICKS_START_TAG : string := "<VideoClicks>".
Definition VIDEO_CLICKS_END_TAG : string := "</VideoClicks>".
Definition COMPANION_START_TAG : string := "<Companion>".
Definition COMPANION_END_TAG : string := "</Companion>".
Definition NONLINEAR_START_TAG : string := "<NonLinear>".
Definition NONLINEAR_END_TAG : string := "</NonLinear>".

Record VASTEvents : Type := {
  ve_errors : list string; ve_impressions : list string; ve_video_clicks : list string;
  ve_non_linear_click_tracking : list string; ve_companion_click_through : list string;
  ve_tracking_events : gmap string (list string);
}.
Definition default_vast_events : VASTEvents := {|
  ve_errors := []; ve_impressions := []; ve_video_clicks := []; ve_non_linear_click_tracking := [];
  ve_companion_click_through := []; ve_tracking_events := ∅ |}.

Record InjectionState : Type := {
  is_inject_tracker : bool; is_inject_video_clicks : bool; is_inline_wrapper_tag_found : bool;
  is_wrapper_tag_found : bool; is_impression_tag_found : bool; is_error_tag_found : bool;
  is_creative_id : string; is_is_creative : bool; is_companion_tag_found : bool;
  is_non_linear_tag_found : bool;
}.
Definition default_injection_state : InjectionState := {|
  is_inject_tracker := false; is_inject_video_clicks := false; is_inline_wrapper_tag_found := false;
  is_wrapper_tag_found := false; is_impression_tag_found := false; is_error_tag_found := false;
  is_creative_id := ""; is_is_creative := false; is_companion_tag_found := false;
  is_non_linear_tag_found := false |}.
Definition set_inject (tracker video_clicks : bool) (s : InjectionState) : InjectionState := {|
  is_inject_tracker := tracker; is_inject_video_clicks := video_clicks;
  is_inline_wrapper_tag_found := is_inline_wrapper_tag_found s;
  is_wrapper_tag_found := is_wrapper_tag_found s; is_impression_tag_found := is_impression_tag_found s;
  is_error_tag_found := is_error_tag_found s; is_creative_id := is_creative_id s;
  is_is_creative := is_is_creative s; is_companion_tag_found := is_companion_tag_found s;
  is_non_linear_tag_found := is_non_linear_tag_found s |}.
Definition set_found (inline wrapper impression error companion non_linear : bool)
    (s : InjectionState) : InjectionState := {|
  is_inject_tracker := is_inject_tracker s; is_inject_video_clicks := is_inject_video_clicks s;
  is_inline_wrapper_tag_found := inline || is_inline_wrapper_tag_found s;
  is_wrapper_tag_found := wrapper || is_wrapper_tag_found s;
  is_impression_tag_found := impression || is_impression_tag_found s;
  is_error_tag_found := error || is_error_tag_found s; is_creative_id := is_creative_id s;
  is_is_creative := is_is_creative s; is_companion_tag_found := companion || is_companion_tag_found s;
  is_non_linear_tag_found := non_linear || is_non_linear_tag_found s |}.
Definition set_creative (creative : bool) (id : string) (s : InjectionState) : InjectionState := {|
  is_inject_tracker := is_inject_tracker s; is_inject_video_clicks := is_inject_video_clicks s;
  is_inline_wrapper_tag_found := is_inline_wrapper_tag_found s;
  is_wrapper_tag_found := is_wrapper_tag_found s; is_impression_tag_found := is_impression_tag_found s;
  is_error_tag_found := is_error_tag_found s; is_creative_id := id;
  is_is_creative := creative; is_companion_tag_found := is_companion_tag_found s;
  is_non_linear_tag_found := is_non_linear_tag_found s |}.

(** [find_char] over the bytes of [s]. *)
Definition find_char (s : string) (c : Ascii.ascii) (start : nat) : option nat :=
  List.find (λ i, bool_decide (String.get i s = Some c)) (seq start (String.length s - start)).
(** [&s[from..to]] where both are known to be in range. *)
Definition between (from to : nat) (s : string) : string := String.substring from (to - from) s.

Section Injector.
Context `{MI : MapIter} (to_lowercase : string → string).

(** The tag is cut at an offset found in its lower-case copy. *)
Definition extract_attribute (tag attr_name : string) : outcome string (option string) :=
  let lower := to_lowercase tag in
  let pattern := to_lowercase attr_name +:+ "=" in
  match str_find pattern lower with
  | None => Ok None
  | Some pos =>
      after_eq ← slice_from (pos + String.length pattern) tag;
      Ok (match after_eq with
          | String q rest =>
              if bool_decide (String q "" = dq) || bool_decide (q = ch "'")
              then (λ n, String.substring 0 n rest) <$> str_find (String q "") rest
              else None
          | "" => None
          end)
  end.

(** *** What the events add to the output *)

Section Events.
Context (events : VASTEvents).

Definition enclose (before after : string) (urls : list string) : string :=
  String.concat "" ((λ url, before +:+ url +:+ after) <$> urls).
Definition within_parent (add_parent_tag : bool) (before after body : string) : string :=
  if add_parent_tag then before +:+ body +:+ after else body.
Definition tracking_urls (entry : string * list string) : string :=
  enclose ("<Tracking event=" +:+ dq +:+ entry.1 +:+ dq +:+ "><![CDATA[") "]]></Tracking>" entry.2.

Definition add_tracking_event (add_parent_tag : bool) : string :=
  if bool_decide (ve_tracking_events events = ∅) then ""
  else within_parent add_parent_tag TRACKING_EVENTS_START_TAG TRACKING_EVENTS_END_TAG
         (String.concat "" (tracking_urls <$> map_iter (ve_tracking_events events))).
Definition add_click_tracking_event (add_parent_tag : bool) : string :=
  if bool_decide (ve_video_clicks events = []) then ""
  else within_parent add_parent_tag VIDEO_CLICKS_START_TAG VIDEO_CLICKS_END_TAG
         (enclose CLICK_TRACKING_START_TAG CLICK_TRACKING_END_TAG (ve_video_clicks events)).
Definition add_impression_tracking_event : string :=
  enclose IMPRESSION_START_TAG IMPRESSION_END_TAG (ve_impressions events).
Definition add_error_tracking_event : string :=
  enclose ERROR_START_TAG ERROR_END_TAG (ve_errors events).
Definition add_non_linear_click_tracking_event (add_parent_tag : bool) : string :=
  if bool_decide (ve_non_linear_click_tracking events = []) then ""
  else within_parent add_parent_tag NONLINEAR_START_TAG NONLINEAR_END_TAG
         (enclose NONLINEAR_CLICK_TRACKING_START_TAG NONLINEAR_CLICK_TRACKING_END_TAG
            (ve_non_linear_click_tracking events)).
Definition add_companion_click_through_event (add_parent_tag : bool) : string :=
  if bool_decide (ve_companion_click_through events = []) then ""
  else within_parent add_parent_tag COMPANION_START_TAG COMPANION_END_TAG
         (enclose COMPANION_CLICK_THROUGH_START_TAG COMPANION_CLICK_THROUGH_END_TAG
            (ve_companion_click_through events)).

(** *** The handlers *)

Definition scanner : Type := InjectionState * string.

Definition handle_start_tag (tag : string) (s : scanner) : outcome string scanner :=
  let '(state, output) := s in
  let tag_lower := to_lowercase tag in
  let has pat := str_contains pat tag_lower in
  let output := output +:+ tag in
  if has "<wrapper" then Ok (set_found false true false false false false state, output)
  else if has "<creative" then
    id ← extract_attribute tag "adid"; Ok (set_creative true (default "" id) state, output)
  else if has "<linear" && negb (has "<nonlinear") then Ok (set_inject true true state, output)
  else if has "<videoclicks" then
    Ok (set_inject (is_inject_tracker state) false state, output +:+ add_click_tracking_event false)
  else if has "<nonlinearads" then
    Ok (set_inject true (is_inject_video_clicks state) state, output)
  else if has "<trackingevents" && is_is_creative state then
    Ok (set_inject false (is_inject_video_clicks state) state, output +:+ add_tracking_event false)
  else Ok (state, output).

Definition unless (b : bool) (s : string) : string := if b then "" else s.
Definition when (b : bool) (s : string) : string := if b then s else "".

Definition handle_end_tag (tag : string) (s : scanner) : scanner :=
  let '(state, output) := s in
  let tag_lower := to_lowercase tag in
  let has pat := str_contains pat tag_lower in
  if has "</impression" then
    (set_found false false true false false false state,
     output +:+ tag +:+ unless (is_impression_tag_found state) add_impression_tracking_event)
  else if has "</error" then
    (set_found false false false true false false state,
     output +:+ tag +:+ unless (is_error_tag_found state) add_error_tracking_event)
  else if has "</nonlinearads" then
    if is_inject_tracker state
    then (set_inject false (is_inject_video_clicks state) state,
          output +:+ add_tracking_event true +:+ add_non_linear_click_tracking_event false +:+ tag)
    else (state, output +:+ tag)
  else if has "</linear" && negb (has "</nonlinear") then
    (set_inject false false state,
     output +:+ when (is_inject_video_clicks state) (add_click_tracking_event true) +:+
       when (is_inject_tracker state) (add_tracking_event true) +:+ tag)
  else if has "</inline" || has "</wrapper" then
    (set_found true false false false false false state,
     output +:+ unless (is_impression_tag_found state) add_impression_tracking_event +:+
       unless (is_error_tag_found state) add_error_tracking_event +:+ tag)
  else if has "</nonlinear>" then
    (set_found false false false false false true state,
     output +:+ add_non_linear_click_tracking_event false +:+ tag)
  else if has "</companion>" then
    (set_found false false false false true false state,
     output +:+ add_companion_click_through_event false +:+ tag)
  else if has "</companionads" then
    (state, output +:+ when (negb (is_companion_tag_found state) && is_wrapper_tag_found state)
                         (add_companion_click_through_event true) +:+ tag)
  else if has "</creative" then (set_creative false (is_creative_id state) state, output +:+ tag)
  else (state, output +:+ tag).

(** *** The scan *)

Definition handle_tag (tag : string) (s : scanner) : outcome string scanner :=
  if String.prefix "</" tag then Ok (handle_end_tag tag s) else handle_start_tag tag s.
(** [None]: the fuel has run out. *)
Fixpoint process_loop (fuel : nat) (xml : string) (pos : nat) (s : scanner)
    : option (outcome string scanner) :=
  match fuel with
  | O => None
  | S fuel' =>
      if (pos <? String.length xml)%nat then
        if bool_decide (String.get pos xml = Some (ch "<")) then
          match find_char xml (ch ">") pos with
          | None => Some (Ok (s.1, s.2 +:+ str_drop pos xml))
          | Some tag_end =>
              match handle_tag (between pos (tag_end + 1) xml) s with
              | Ok s' => process_loop fuel' xml (tag_end + 1) s'
              | other => Some other
              end
          end
        else
          let next_tag := default (String.length xml) (find_char xml (ch "<") pos) in
          process_loop fuel' xml next_tag (s.1, s.2 +:+ between pos next_tag xml)
      else Some (Ok s)
  end.
Definition process_vast_xml (xml : string) : option (outcome string string) :=
  r ← process_loop (S (String.length xml)) xml 0 (default_injection_state, "");
  Some ('(state, output) ← r;
        if negb (is_inline_wrapper_tag_found state)
        then Err "VAST XML is missing InLine or Wrapper element" else Ok output).

Definition inject_tracker (vast_xml nurl : string) : option (outcome string string) :=
  if str_is_empty vast_xml && str_is_empty nurl then Some (Err "both VAST XML and NURL are empty")
  else if str_is_empty vast_xml then Some (Ok (str_replace "{nurl}" nurl EMPTY_ADM_RESPONSE))
  else process_vast_xml vast_xml.
End Events.

Definition modify_vast_xml_string (vast_xml impression_url : string) : option (outcome string string) :=
  if str_is_empty vast_xml || str_is_empty impression_url then Some (Ok vast_xml)
  else
    let events := {| ve_errors := []; ve_impressions := [impression_url]; ve_video_clicks := [];
      ve_non_linear_click_tracking := []; ve_companion_click_through := []; ve_tracking_events := ∅ |} in
    r ← inject_tracker events vast_xml "";
    Some (match r with Ok modified => Ok modified | Err _ => Ok vast_xml | Panic => Panic end).
End Injector.

(** ** Specification *)

(** The pieces of a text: tags from [<] to the next [>], the text between them,
    and what follows the last [<] when no [>] closes it. *)
Inductive scan : string → list string → Prop :=
| scan_end : scan "" []
| scan_rest s : String.get 0 s = Some (ch "<") → no_char (ch ">") s → scan s [s]
| scan_tag mid s pieces : no_char (ch ">") mid → scan s pieces →
    scan (("<" +:+ mid +:+ ">") +:+ s) (("<" +:+ mid +:+ ">") :: pieces)
| scan_text text s pieces : text ≠ "" → no_char (ch "<") text →
    s = "" ∨ String.get 0 s = Some (ch "<") → scan s pieces → scan (text +:+ s) (text :: pieces).

Definition is_tag (piece : string) : bool :=
  bool_decide (String.get 0 piece = Some (ch "<")) && contains_char (ch ">") piece.
(** [pieces] with something that satisfies [P] before and after each. *)
Inductive interleaved (P : string → Prop) : list string → string → Prop :=
| interleaved_nil : interleaved P [] ""
| interleaved_snoc pieces out before piece after : interleaved P pieces out → P before → P after →
    interleaved P (pieces ++ [piece]) (out +:+ before +:+ piece +:+ after).
Definition occurs_in (part s : string) : Prop := ∃ before after, s = before +:+ part +:+ after.

Section Promise.
Context `{MI : MapIter} (to_lowercase : string → string) (events : VASTEvents).

(** The tag that the scanner takes for the end of an ad's only element. *)
Definition closes (piece : string) : bool :=
  let has pat := str_contains pat (to_lowercase piece) in
  is_tag piece && String.prefix "</" piece && (has "</inline" || has "</wrapper") &&
  negb (has "</impression") && negb (has "</error") && negb (has "</nonlinearads") &&
  negb (has "</linear" && negb (has "</nonlinear")).

Definition blocks : list string :=
  [add_impression_tracking_event events; add_error_tracking_event events;
   add_click_tracking_event events false; add_click_tracking_event events true;
   add_tracking_event events false; add_tracking_event events true;
   add_non_linear_click_tracking_event events false; add_companion_click_through_event events false;
   add_companion_click_through_event events true].
Definition snippet (s : string) : Prop :=
  ∃ l, Forall (.∈ blocks) l ∧ s = String.concat "" l.

Definition piece_step (s : scanner) (piece : string) : outcome string scanner :=
  if is_tag piece then handle_tag to_lowercase events piece s else Ok (s.1, s.2 +:+ piece).
End Promise.

(** ** Theorems *)

Lemma no_char_get c s i : no_char c s → String.get i s ≠ Some c.
Proof.
  revert i. induction s as [|a s IH]; intros i Hc; [by destruct i|].
  unfold no_char in *. cbn in Hc. apply not_elem_of_cons in Hc as [Ha Hs].
  destruct i as [|i]; [cbn; congruence|]. by apply (IH i).
Qed.
(** A text has no [c], or is cut at its first one. *)
Lemma first_char c s : no_char c s ∨ ∃ mid rest, s = mid +:+ String c rest ∧ no_char c mid.
Proof.
  unfold no_char. induction s as [|a s IH]; [left; cbn; apply not_elem_of_nil|].
  destruct (decide (a = c)) as [->|Ha].
  { right. exists "", s. split; [done|apply not_elem_of_nil]. }
  destruct IH as [Hs|(mid&rest&->&Hm)].
  - left. cbn. rewrite not_elem_of_cons. done.
  - right. exists (String a mid), rest. split; [done|]. cbn. rewrite not_elem_of_cons. done.
Qed.

Lemma find_seq_first f a n k : (∀ i, (i < k)%nat → f (a + i)%nat = false) → f (a + k)%nat = true →
  (k < n)%nat → List.find f (seq a n) = Some (a + k)%nat.
Proof.
  revert a n. induction k as [|k IH]; intros a n Hf Hk Hn; (destruct n as [|n]; [lia|]); cbn.
  - rewrite Nat.add_0_r in *. by rewrite Hk.
  - pose proof (Hf 0%nat ltac:(lia)) as H0. rewrite Nat.add_0_r in H0. rewrite H0.
    replace (a + S k)%nat with (S a + k)%nat in * by lia. apply IH; [|done|lia].
    intros i Hi. replace (S a + i)%nat with (a + S i)%nat by lia. apply Hf. lia.
Qed.
Lemma find_char_first pre mid c rest : no_char c mid →
  find_char (pre +:+ mid +:+ String c rest) c (String.length pre) =
  Some (String.length pre + String.length mid)%nat.
Proof.
  intros Hc. unfold find_char. apply find_seq_first.
  - intros i Hi. apply bool_decide_eq_false. rewrite get_app_r, get_app_l by done.
    by apply no_char_get.
  - apply bool_decide_eq_true. rewrite get_app_r. rewrite <-(Nat.add_0_r (String.length mid)).
    by rewrite get_app_r.
  - rewrite !str_length_app. cbn. lia.
Qed.
Lemma find_char_none pre s c : no_char c s → find_char (pre +:+ s) c (String.length pre) = None.
Proof.
  intros Hc. unfold find_char. destruct (List.find _ _) as [i|] eqn:Hi; [|done].
  apply find_some in Hi as [Hin Hi%bool_decide_eq_true]. apply in_seq in Hin.
  replace i with (String.length pre + (i - String.length pre))%nat in Hi by lia.
  rewrite get_app_r in Hi. by apply no_char_get in Hi.
Qed.

(** Every text has its pieces, and they are all of it. *)
Lemma scan_total s : ∃ pieces, scan s pieces.
Proof.
  remember (String.length s) as n eqn:Hn. revert s Hn.
  induction (lt_wf n) as [n _ IH]. intros s ->. destruct s as [|a s]; [eexists; constructor|].
  destruct (decide (a = ch "<")) as [->|Ha].
  - destruct (first_char (ch ">") s) as [Hs|(mid&rest&->&Hm)].
    + eexists. apply scan_rest; [done|]. unfold no_char in *. cbn. by apply not_elem_of_cons.
    + destruct (IH (String.length rest)) with (s := rest) as [ps Hp]; [|done|].
      { cbn. rewrite str_length_app. cbn. lia. }
      exists (("<" +:+ mid +:+ ">") :: ps).
      replace (String (ch "<") (mid +:+ String (ch ">") rest)) with (("<" +:+ mid +:+ ">") +:+ rest).
      { by apply scan_tag. }
      rewrite str_app_assoc. cbn. f_equal. by rewrite str_app_assoc.
  - destruct (first_char (ch "<") (String a s)) as [Hs|(mid&rest&He&Hm)].
    + exists [String a s]. rewrite <-(str_app_nil_r (String a s)) at 1. apply scan_text; auto using scan_end.
    + destruct mid as [|b mid]; [by injection He as -> ->|]. rewrite He.
      destruct (IH (String.length (String (ch "<") rest))) with (s := String (ch "<") rest)
        as [ps Hp]; [|done|].
      { rewrite He. rewrite str_length_app. cbn. lia. }
      eexists. apply scan_text; [done|done|by right|exact Hp].
Qed.
Lemma scan_concat s pieces : scan s pieces → String.concat "" pieces = s.
Proof. induction 1; rewrite ?concat_cons; cbn; rewrite ?str_app_nil_r; congruence. Qed.

Section Loop.
Context `{MI : MapIter} (to_lowercase : string → string) (events : VASTEvents).

Lemma enclosed_is_tag mid : is_tag ("<" +:+ mid +:+ ">") = true.
Proof.
  unfold is_tag. cbn. unfold contains_char. apply bool_decide_eq_true. intros Hc.
  change (no_char (ch ">") ("<" +:+ mid +:+ ">")) in Hc. rewrite !no_char_app in Hc.
  destruct Hc as (_&_&Hc). unfold no_char in Hc. cbn in Hc. apply Hc. by constructor.
Qed.
Lemma text_not_tag text s : text ≠ "" → no_char (ch "<") text →
  bool_decide (String.get 0 (text +:+ s) = Some (ch "<")) = false ∧ is_tag text = false.
Proof.
  intros Hne Hc. destruct text as [|a text]; [done|]. unfold is_tag, no_char in *.
  change (String a text +:+ s) with (String a (text +:+ s)). cbn in *.
  apply not_elem_of_cons in Hc as [Ha _]. by rewrite !bool_decide_eq_false_2 by congruence.
Qed.

(** With more fuel than text left, the loop ends; it handles the pieces in order. *)
Lemma process_loop_pieces rest pieces : scan rest pieces → ∀ pre fuel s,
  (String.length rest < fuel)%nat →
  process_loop to_lowercase events fuel (pre +:+ rest) (String.length pre) s =
    Some (foldM (piece_step to_lowercase events) s pieces).
Proof.
  induction 1 as [|s Hlt Hgt|mid s pieces Hgt Hs IH|text s pieces Hne Hlt Hafter Hs IH];
    intros pre fuel st Hf; (destruct fuel as [|fuel]; [lia|]); cbn [process_loop].
  - rewrite str_app_nil_r, Nat.ltb_irrefl. done.
  - replace (_ <? _)%nat with true.
    2: { symmetry. apply Nat.ltb_lt. rewrite str_length_app. destruct s; [done|cbn; lia]. }
    pose proof (get_app_r pre s 0) as Hg. rewrite Nat.add_0_r in Hg. rewrite Hg, Hlt.
    rewrite bool_decide_true, find_char_none by done. cbn. unfold piece_step.
    replace (is_tag s) with false.
    2: { unfold is_tag, contains_char. rewrite (bool_decide_false (¬ _)) by auto. by rewrite andb_false_r. }
    do 3 f_equal. unfold str_drop. rewrite <-(Nat.add_0_r (String.length pre)), str_length_app.
    replace (_ + _ - _)%nat with (String.length s) by lia.
    by rewrite substring_app_r, substring_whole_text.
  - set (tag := "<" +:+ mid +:+ ">") in *.
    assert (Hsplit : pre +:+ tag +:+ s = pre +:+ ("<" +:+ mid) +:+ String (ch ">") s).
    { subst tag. by rewrite !str_app_assoc. }
    pose proof (enclosed_is_tag mid) as Hb. fold tag in Hb.
    assert (Htag : String.length tag = (2 + String.length mid)%nat).
    { subst tag. rewrite !str_length_app. cbn. lia. }
    replace (_ <? _)%nat with true.
    2: { symmetry. apply Nat.ltb_lt. rewrite !str_length_app. lia. }
    pose proof (get_app_r pre (tag +:+ s) 0) as Hg. rewrite Nat.add_0_r in Hg. rewrite Hg.
    rewrite bool_decide_true by done. rewrite Hsplit, find_char_first, <-Hsplit.
    2: { rewrite no_char_app. split; [|done]. unfold no_char. cbn. by rewrite list_elem_of_singleton. }
    replace (String.length pre + _ + 1)%nat with (String.length (pre +:+ tag)).
    2: { rewrite !str_length_app, Htag. cbn. lia. }
    unfold between. rewrite str_length_app.
    replace (_ + _ - _)%nat with (String.length tag) by lia.
    rewrite <-(Nat.add_0_r (String.length pre)) at 1.
    rewrite substring_app_r, substring_app_l. cbn [foldM]. unfold piece_step at 2. rewrite Hb.
    destruct (handle_tag _ _ _ _) as [st'|e|]; [|done..]. cbn [mbind outcome_bind].
    rewrite <-str_length_app, <-str_app_assoc. apply IH. rewrite str_length_app in Hf. lia.
  - destruct (text_not_tag text s Hne Hlt) as [Hg Ht].
    assert (Hlen : (0 < String.length text)%nat) by (destruct text; [done|cbn; lia]).
    replace (_ <? _)%nat with true.
    2: { symmetry. apply Nat.ltb_lt. rewrite !str_length_app. lia. }
    pose proof (get_app_r pre (text +:+ s) 0) as Hg'. rewrite Nat.add_0_r in Hg'. rewrite Hg', Hg.
    replace (default _ (find_char _ _ _)) with (String.length (pre +:+ text)).
    2: { destruct Hafter as [->|Hs0].
      - rewrite str_app_nil_r. by rewrite find_char_none.
      - destruct s as [|a s]; [done|]. injection Hs0 as ->. rewrite find_char_first by done.
        by rewrite str_length_app. }
    unfold between. rewrite str_length_app.
    replace (_ + _ - _)%nat with (String.length text) by lia.
    rewrite <-(Nat.add_0_r (String.length pre)) at 2.
    rewrite substring_app_r, substring_app_l. cbn [foldM]. unfold piece_step at 2. rewrite Ht.
    cbn [mbind outcome_bind]. rewrite <-str_length_app, <-str_app_assoc. apply IH.
    rewrite str_length_app in Hf. lia.
Qed.
End Loop.

(** *** What a turn writes *)

Section Turns.
Context `{MI : MapIter} (to_lowercase : string → string) (events : VASTEvents).
Notation snippet := (snippet events).

Lemma snippet_nil : snippet "".
Proof. by exists []. Qed.
Lemma snippet_block s : s ∈ blocks events → snippet s.
Proof. intros H. exists [s]. split; [by constructor|]. by rewrite concat_cons, str_app_nil_r. Qed.
Lemma concat_app_text l1 l2 :
  String.concat "" (l1 ++ l2) = String.concat "" l1 +:+ String.concat "" l2.
Proof. induction l1 as [|s l1 IH]; [done|]. cbn [app]. by rewrite !concat_cons, IH, str_app_assoc. Qed.
Lemma snippet_app s t : snippet s → snippet t → snippet (s +:+ t).
Proof.
  intros (l1&H1&->) (l2&H2&->). exists (l1 ++ l2). split; [by apply Forall_app|].
  by rewrite concat_app_text.
Qed.
Lemma snippet_when b s : snippet s → snippet (when b s).
Proof. destruct b; [done|intros; apply snippet_nil]. Qed.
Lemma snippet_unless b s : snippet s → snippet (unless b s).
Proof. destruct b; [intros; apply snippet_nil|done]. Qed.
Hint Resolve snippet_nil snippet_app snippet_when snippet_unless : core.
Ltac block := apply snippet_block; unfold blocks; set_solver.

Lemma occurs_app part s t : occurs_in part s → occurs_in part (s +:+ t).
Proof. intros (b&a&->). exists b, (a +:+ t). by rewrite !str_app_assoc. Qed.
Lemma occurs_mid part b a : occurs_in part (b +:+ part +:+ a).
Proof. by exists b, a. Qed.

(** What has been written before a turn and during it: the tag between snippets,
    and the impressions and errors no later than the state says so. *)
Definition told (s : scanner) : Prop :=
  (is_impression_tag_found s.1 || is_inline_wrapper_tag_found s.1 = true →
     occurs_in (add_impression_tracking_event events) s.2) ∧
  (is_error_tag_found s.1 || is_inline_wrapper_tag_found s.1 = true →
     occurs_in (add_error_tracking_event events) s.2).
Definition turn (tag : string) (s s' : scanner) : Prop :=
  (∃ before after, s'.2 = s.2 +:+ before +:+ tag +:+ after ∧ snippet before ∧ snippet after) ∧
  (told s → told s').

Lemma turn_intro tag st st' out before after :
  snippet before → snippet after →
  (told (st, out) → told (st', out +:+ before +:+ tag +:+ after)) →
  turn tag (st, out) (st', out +:+ before +:+ tag +:+ after).
Proof. intros Hb Ha Ht. split; [by exists before, after|done]. Qed.
Lemma turn_quiet tag st st' out before after :
  snippet before → snippet after →
  is_impression_tag_found st' = is_impression_tag_found st →
  is_error_tag_found st' = is_error_tag_found st →
  is_inline_wrapper_tag_found st' = is_inline_wrapper_tag_found st →
  turn tag (st, out) (st', out +:+ before +:+ tag +:+ after).
Proof.
  intros Hb Ha H1 H2 H3. apply turn_intro; [done..|]. unfold told. cbn. rewrite H1, H2, H3.
  intros [Hi He]. split; intros H; apply occurs_app; auto.
Qed.
Lemma turn_after tag st st' out after : turn tag (st, out) (st', out +:+ "" +:+ tag +:+ after) →
  turn tag (st, out) (st', out +:+ tag +:+ after).
Proof. done. Qed.
Lemma turn_before tag st st' out before : turn tag (st, out) (st', out +:+ before +:+ tag +:+ "") →
  turn tag (st, out) (st', out +:+ before +:+ tag).
Proof. by rewrite str_app_nil_r. Qed.

Lemma handle_start_tag_turn tag s s' :
  handle_start_tag to_lowercase events tag s = Ok s' →
  turn tag s s' ∧ is_inline_wrapper_tag_found s'.1 = is_inline_wrapper_tag_found s.1.
Proof.
  destruct s as [st out]. unfold handle_start_tag.
  assert (Hq : ∀ st' after, snippet after →
    is_impression_tag_found st' = is_impression_tag_found st →
    is_error_tag_found st' = is_error_tag_found st →
    is_inline_wrapper_tag_found st' = is_inline_wrapper_tag_found st →
    turn tag (st, out) (st', (out +:+ tag) +:+ after) ∧
    is_inline_wrapper_tag_found (st', (out +:+ tag) +:+ after).1 = is_inline_wrapper_tag_found st).
  { intros st' after Ha H1 H2 H3. rewrite str_app_assoc. split; [|done].
    apply turn_after, turn_quiet; auto. }
  assert (Hn : ∀ st', is_impression_tag_found st' = is_impression_tag_found st →
    is_error_tag_found st' = is_error_tag_found st →
    is_inline_wrapper_tag_found st' = is_inline_wrapper_tag_found st →
    turn tag (st, out) (st', out +:+ tag) ∧
    is_inline_wrapper_tag_found (st', out +:+ tag).1 = is_inline_wrapper_tag_found st).
  { intros st' H1 H2 H3. rewrite <-(str_app_nil_r (out +:+ tag)). by apply Hq. }
  repeat case_match; try (intros [= <-]; (apply Hn || apply Hq); try done; block).
  destruct (extract_attribute _ _ _) as [id| |]; [|done..]. intros [= <-]. by apply Hn.
Qed.

Lemma turn_impression tag st out :
  turn tag (st, out) (set_found false false true false false false st,
    out +:+ tag +:+ unless (is_impression_tag_found st) (add_impression_tracking_event events)).
Proof.
  apply turn_after, turn_intro; [done|apply snippet_unless; block|].
  unfold told. cbn. intros [Hi He]. split; intros H; [|by apply occurs_app; auto].
  destruct (is_impression_tag_found st); cbn; [by apply occurs_app; auto|].
  exists (out +:+ tag), "". by rewrite str_app_nil_r, !str_app_assoc.
Qed.
Lemma turn_error tag st out :
  turn tag (st, out) (set_found false false false true false false st,
    out +:+ tag +:+ unless (is_error_tag_found st) (add_error_tracking_event events)).
Proof.
  apply turn_after, turn_intro; [done|apply snippet_unless; block|].
  unfold told. cbn. intros [Hi He]. split; intros H; [by apply occurs_app; auto|].
  destruct (is_error_tag_found st); cbn; [by apply occurs_app; auto|].
  exists (out +:+ tag), "". by rewrite str_app_nil_r, !str_app_assoc.
Qed.
Lemma turn_inline tag st out :
  turn tag (st, out) (set_found true false false false false false st,
    out +:+ unless (is_impression_tag_found st) (add_impression_tracking_event events) +:+
      unless (is_error_tag_found st) (add_error_tracking_event events) +:+ tag).
Proof.
  set (imp := unless _ _). set (err := unless (is_error_tag_found st) _).
  replace (imp +:+ err +:+ tag) with ((imp +:+ err) +:+ tag +:+ "")
    by by rewrite str_app_nil_r, str_app_assoc.
  apply turn_intro; [apply snippet_app; apply snippet_unless; block|done|].
  unfold told. cbn. intros [Hi He]. subst imp err. split; intros _.
  - destruct (is_impression_tag_found st); [by apply occurs_app; auto|]. cbn [unless].
    rewrite (str_app_assoc (add_impression_tracking_event events)). apply occurs_mid.
  - destruct (is_error_tag_found st); [by apply occurs_app; auto|]. cbn [unless].
    rewrite <-!str_app_assoc, str_app_assoc. rewrite (str_app_assoc _ _ (tag +:+ "")).
    apply occurs_mid.
Qed.
Lemma turn_no_snippet tag st st' out :
  is_impression_tag_found st' = is_impression_tag_found st →
  is_error_tag_found st' = is_error_tag_found st →
  is_inline_wrapper_tag_found st' = is_inline_wrapper_tag_found st →
  turn tag (st, out) (st', out +:+ tag).
Proof. intros. rewrite <-(str_app_nil_r tag) at 2. apply turn_after. by apply turn_quiet. Qed.

Lemma handle_end_tag_turn tag s : is_tag tag = true → String.prefix "</" tag = true →
  turn tag s (handle_end_tag to_lowercase events tag s) ∧
  is_inline_wrapper_tag_found (handle_end_tag to_lowercase events tag s).1 =
    closes to_lowercase tag || is_inline_wrapper_tag_found s.1.
Proof.
  destruct s as [st out]. intros Htag Hpre. unfold handle_end_tag, closes. rewrite Htag, Hpre.
  generalize (to_lowercase tag) as low. intros low. cbv zeta.
  assert (Hb : ∀ st' before, snippet before →
    is_impression_tag_found st' = is_impression_tag_found st →
    is_error_tag_found st' = is_error_tag_found st →
    is_inline_wrapper_tag_found st' = is_inline_wrapper_tag_found st →
    turn tag (st, out) (st', out +:+ before +:+ tag)).
  { intros. apply turn_before. by apply turn_quiet. }
  pose proof (turn_no_snippet tag st) as Hn.
  destruct (str_contains "</impression" low); [split; [apply turn_impression|by rewrite !andb_false_r]|].
  destruct (str_contains "</error" low); [split; [apply turn_error|by rewrite !andb_false_r]|].
  destruct (str_contains "</nonlinearads" low).
  { destruct (is_inject_tracker st); (split; [|by rewrite !andb_false_r]); [|by apply Hn].
    rewrite <-(str_app_assoc (add_tracking_event _ _)). apply Hb; [|done..]. apply snippet_app; block. }
  destruct (str_contains "</linear" low && _).
  { split; [|by rewrite !andb_false_r]. rewrite <-(str_app_assoc (when _ _)).
    apply Hb; [|done..]. apply snippet_app; apply snippet_when; block. }
  destruct (str_contains "</inline" low || _); [split; [apply turn_inline|done]|].
  rewrite !andb_false_r. cbn [andb orb].
  destruct (str_contains "</nonlinear>" low); [split; [apply Hb; [block|done..]|done]|].
  destruct (str_contains "</companion>" low); [split; [apply Hb; [block|done..]|done]|].
  destruct (str_contains "</companionads" low).
  { split; [apply Hb; [apply snippet_when; block|done..]|done]. }
  destruct (str_contains "</creative" low); split; done || by apply Hn.
Qed.

Lemma piece_step_turn piece s s' : piece_step to_lowercase events s piece = Ok s' →
  turn piece s s' ∧
  is_inline_wrapper_tag_found s'.1 = closes to_lowercase piece || is_inline_wrapper_tag_found s.1.
Proof.
  unfold piece_step. destruct (is_tag piece) eqn:Ht.
  - unfold handle_tag. destruct (String.prefix "</" piece) eqn:Hp.
    + intros [= <-]. by apply handle_end_tag_turn.
    + intros H. apply handle_start_tag_turn in H as [H1 H2]. split; [done|].
      unfold closes. by rewrite Hp, andb_false_r.
  - intros [= <-]. destruct s as [st out]. cbn. split; [by apply turn_no_snippet|].
    unfold closes. by rewrite Ht.
Qed.
(** A scan that ends has written every piece, and knows whether one closes the ad. *)
Lemma pieces_written pieces s' :
  foldM (piece_step to_lowercase events) (default_injection_state, "") pieces = Ok s' →
  interleaved snippet pieces s'.2 ∧ told s' ∧
  is_inline_wrapper_tag_found s'.1 = existsb (closes to_lowercase) pieces.
Proof.
  revert s'. induction pieces as [|piece pieces IH] using rev_ind; intros s'.
  { intros [= <-]. split_and!; [constructor|by split|done]. }
  rewrite foldM_app, existsb_app. cbn [foldM existsb]. rewrite orb_false_r.
  destruct (foldM _ _ pieces) as [s|e|]; [|done..]. destruct (IH s eq_refl) as (Hi&Ht&Hf).
  cbn [mbind outcome_bind]. destruct (piece_step _ _ s piece) as [s2|e|] eqn:Hs; [|done..].
  intros [= <-]. apply piece_step_turn in Hs as [[(b&a&->&Hb&Ha) Htold] ->].
  split_and!; [by apply interleaved_snoc|by apply Htold|]. by rewrite Hf, orb_comm.
Qed.
Lemma extract_attribute_no_error tag name e : extract_attribute to_lowercase tag name ≠ Err e.
Proof.
  unfold extract_attribute. destruct (str_find _ _); [|done]. unfold slice_from.
  by destruct (is_char_boundary _ _).
Qed.
Lemma piece_step_panic s piece : is_Ok (piece_step to_lowercase events s piece) = false →
  piece_step to_lowercase events s piece = Panic ∧
  extract_attribute to_lowercase piece "adid" = Panic.
Proof.
  pose proof (extract_attribute_no_error piece "adid") as He.
  unfold piece_step, handle_tag, handle_start_tag. destruct s as [st out].
  repeat case_match; try done. destruct (extract_attribute _ _ _) as [id|e|]; [done| |done].
  by destruct (He e).
Qed.
Lemma pieces_panic pieces s : is_Ok (foldM (piece_step to_lowercase events) s pieces) = false →
  foldM (piece_step to_lowercase events) s pieces = Panic ∧
  ∃ piece, piece ∈ pieces ∧ extract_attribute to_lowercase piece "adid" = Panic.
Proof.
  revert s. induction pieces as [|piece pieces IH]; intros s; [done|]. cbn [foldM].
  pose proof (piece_step_panic s piece) as Hp.
  destruct (piece_step _ _ s piece) as [s2| |] eqn:Hs; cbn [mbind outcome_bind] in *; intros Hr.
  - destruct (IH s2 Hr) as (->&p&Hin&Hx). split; [done|]. exists p. split; [by right|done].
  - by destruct (Hp eq_refl).
  - destruct (Hp eq_refl) as [_ Hx]. split; [done|]. exists piece. split; [by left|done].
Qed.
End Turns.

(** An ASCII tag keeps its offsets in lower case, so cutting it cannot panic. *)
Lemma lowercase_length s : String.length (to_ascii_lowercase s) = String.length s.
Proof. induction s as [|a s IH]; [done|]. cbn. by rewrite IH. Qed.
Lemma get_In i s a : String.get i s = Some a → a ∈ String.list_ascii_of_string s.
Proof.
  revert i. induction s as [|b s IH]; intros i; [by destruct i|]. cbn.
  destruct i as [|i]; [intros [= ->]; by left|intros H; right; by apply (IH i)].
Qed.
Lemma get_beyond i s : String.get i s = None → (String.length s ≤ i)%nat.
Proof.
  revert i. induction s as [|b s IH]; intros i; [cbn; lia|]. destruct i as [|i]; [done|].
  cbn. intros H. apply IH in H. lia.
Qed.
Lemma ascii_slice_from n s : ascii_text s → (n ≤ String.length s)%nat →
  slice_from n s = Ok (str_drop n s).
Proof.
  intros Hs Hn. unfold slice_from, is_char_boundary.
  destruct (String.get n s) as [a|] eqn:Hg.
  - apply get_In in Hg. unfold ascii_text in Hs. rewrite Forall_forall in Hs. specialize (Hs a Hg).
    unfold is_ascii_char in Hs. replace (is_continuation a) with false; [done|].
    symmetry. unfold is_continuation. apply andb_false_iff. left. apply N.leb_gt. lia.
  - apply get_beyond in Hg. by rewrite bool_decide_true by lia.
Qed.
Lemma ascii_extract_attribute to_lowercase tag :
  (∀ s, ascii_text s → to_lowercase s = to_ascii_lowercase s) → ascii_text tag →
  extract_attribute to_lowercase tag "adid" ≠ Panic.
Proof.
  intros Hl Ht. unfold extract_attribute. rewrite (Hl tag Ht).
  destruct (str_find _ _) as [pos|] eqn:Hf; [|done]. apply str_find_bound in Hf.
  rewrite lowercase_length in Hf. rewrite str_length_app in Hf.
  by rewrite ascii_slice_from by (rewrite ?str_length_app; done).
Qed.
Lemma ascii_pieces s pieces piece : scan s pieces → ascii_text s → piece ∈ pieces → ascii_text piece.
Proof.
  intros Hs Ha. apply scan_concat in Hs as <-. induction pieces as [|p pieces IH].
  { by intros ?%elem_of_nil. }
  rewrite concat_cons, ascii_text_app in Ha. intros [->|Hin]%elem_of_cons; [by destruct Ha|].
  apply IH; [by destruct Ha|done].
Qed.

(** C22: Injecting trackers ends, and it only inserts.  A scan of any text takes no
    more turns than the text has bytes.  It succeeds exactly when some tag closes
    the ad's InLine or Wrapper element; the output is then every piece of the text
    in order, with nothing but the events' own elements between them, and no
    impression or error tracker is lost.  The only panic is a tag whose lower-case
    form has other offsets, which an ASCII text has not. *)
Theorem inject_tracker_spec `{MI : MapIter} to_lowercase events xml nurl
  (Hlower : ∀ s, ascii_text s → to_lowercase s = to_ascii_lowercase s) : xml ≠ "" →
  ∃ pieces result, scan xml pieces ∧ String.concat "" pieces = xml ∧
    inject_tracker to_lowercase events xml nurl = Some result ∧
    match result with
    | Ok output => (∃ piece, piece ∈ pieces ∧ closes to_lowercase piece = true) ∧
        interleaved (snippet events) pieces output ∧
        occurs_in (add_impression_tracking_event events) output ∧
        occurs_in (add_error_tracking_event events) output
    | Err _ => ∀ piece, piece ∈ pieces → closes to_lowercase piece = false
    | Panic => ¬ ascii_text xml ∧
        ∃ piece, piece ∈ pieces ∧ extract_attribute to_lowercase piece "adid" = Panic
    end.
Proof.
  intros Hne. destruct (scan_total xml) as [pieces Hs]. pose proof (scan_concat _ _ Hs) as Hc.
  unfold inject_tracker, process_vast_xml. unfold str_is_empty at 1 3.
  rewrite bool_decide_false by done. cbn [andb].
  pose proof (process_loop_pieces to_lowercase events xml pieces Hs "" (S (String.length xml))
    (default_injection_state, "") ltac:(lia)) as Hl. cbn [String.length] in Hl.
  change ("" +:+ xml) with xml in Hl. rewrite Hl. cbn [mbind option_bind].
  pose proof (pieces_panic to_lowercase events pieces (default_injection_state, "")) as Hp.
  pose proof (pieces_written to_lowercase events pieces) as Hw.
  destruct (foldM _ _ pieces) as [[st out]|e|].
  - destruct (Hw _ eq_refl) as (Hi&[Ht1 Ht2]&Hf). cbn in Hi, Ht1, Ht2, Hf. exists pieces.
    cbn [mbind outcome_bind]. destruct (is_inline_wrapper_tag_found st); cbn [negb].
    + exists (Ok out). do 3 (split; [done|]). cbv beta iota.
      split; [|split; [done|split; [apply Ht1, orb_true_r|apply Ht2, orb_true_r]]].
      symmetry in Hf. apply existsb_exists in Hf as (p&Hin&Hp'). exists p.
      by rewrite list_elem_of_In.
    + eexists (Err _). do 3 (split; [done|]). cbv beta iota.
      intros p Hin. apply not_true_is_false. intros Hx. symmetry in Hf.
      apply not_true_iff_false in Hf. apply Hf, existsb_exists. exists p. by rewrite <-list_elem_of_In.
  - by destruct (Hp eq_refl).
  - destruct (Hp eq_refl) as (_&p&Hin&Hx). exists pieces, Panic. split_and!; [done..| |by exists p].
    intros Ha. by apply (ascii_extract_attribute to_lowercase p Hlower (ascii_pieces _ _ _ Hs Ha Hin)).
Qed.

(** Without events the text comes back as it was. *)
Lemma no_events_unchanged `{MI : MapIter} pieces output :
  interleaved (snippet default_vast_events) pieces output → output = String.concat "" pieces.
Proof.
  assert (Hs : ∀ s, snippet default_vast_events s → s = "").
  { intros s (l&Hl&->). induction Hl as [|x l Hx Hl IH]; [done|]. rewrite concat_cons, IH.
    rewrite str_app_nil_r. unfold blocks in Hx. vm_compute in Hx.
    repeat (apply elem_of_cons in Hx as [->|Hx]; [done|]). by apply elem_of_nil in Hx. }
  induction 1 as [|pieces out b p a _ IH Hb Ha]; [done|]. rewrite (Hs b Hb), (Hs a Ha), IH.
  rewrite concat_app_text. cbn. by rewrite str_app_nil_r.
Qed.
(** The tag is cut at an offset of its lower-case copy: a Kelvin sign before the
    attribute, three bytes that become one, shifts the value. *)
Definition kelvin : string := String (Ascii.ascii_of_nat 226) (String (Ascii.ascii_of_nat 132) (String (Ascii.ascii_of_nat 170) "")).
Definition kelvin_lowercase (s : string) : string :=
  str_replace kelvin "k" (to_ascii_lowercase s).
Definition kelvin_tag : string :=
  "<Creative n='" +:+ kelvin +:+ "' adid='abc'>".
Lemma offsets_of_lower_case_misread : extract_attribute kelvin_lowercase kelvin_tag "adid" = Ok None.
Proof. by vm_compute. Qed.

#[local] Existing Instance map_iter_to_list.
Definition sample_vast : string :=
  "<VAST><Ad><InLine><Impression>a</Impression><Creatives/></InLine></Ad></VAST>".
Definition sample_events : VASTEvents := {|
  ve_errors := ["e"]; ve_impressions := ["i"]; ve_video_clicks := [];
  ve_non_linear_click_tracking := []; ve_companion_click_through := []; ve_tracking_events := ∅ |}.
Lemma inject_tracker_spec_witness :
  inject_tracker to_ascii_lowercase sample_events sample_vast "" = Some (Ok (
    "<VAST><Ad><InLine><Impression>a</Impression><Impression><![CDATA[i]]></Impression>" +:+
    "<Creatives/><Error><![CDATA[e]]></Error></InLine></Ad></VAST>")) ∧
  ∃ pieces result, scan sample_vast pieces ∧ String.concat "" pieces = sample_vast ∧
    inject_tracker to_ascii_lowercase sample_events sample_vast "" = Some result ∧ 
    match result with
    | Ok output => (∃ piece, piece ∈ pieces ∧ closes to_ascii_lowercase piece = true) ∧
        interleaved (snippet sample_events) pieces output ∧
        occurs_in (add_impression_tracking_event sample_events) output ∧
        occurs_in (add_error_tracking_event sample_events) output
    | Err _ => ∀ piece, piece ∈ pieces → closes to_ascii_lowercase piece = false
    | Panic => ¬ ascii_text sample_vast ∧
        ∃ piece, piece ∈ pieces ∧ extract_attribute to_ascii_lowercase piece "adid" = Panic
    end.
Proof.
  split; [by vm_compute|]. by apply (inject_tracker_spec to_ascii_lowercase sample_events sample_vast "").
Defined.
