(* ===== verification/UserSyncCrate.v ===== *)
(** * The usersync crate

    usersync/src: the uids cookie with its opt-out, syncers as templates, and the
    chooser; and the handlers of server/src/router.rs over them.  base64's
    URL-safe alphabet, serde_json and the clock (milliseconds) are parameters.
    Names the exchange has too ([UserSync]) are prefixed with [Crate] here. *)

From S2P Require Import Prelude IpUtil Text.

(** ** The cookie *)

Definition UID_TTL_DAYS : Z := 14.
Definition UID_COOKIE_NAME : string := "uids".
Definition MS_PER_DAY : Z := 24 * 60 * 60 * 1000.

Record CrateUidEntry : Type := { cue_uid : string; cue_expires : Z }.
#[export] Instance CrateUidEntry_eq_dec : EqDecision CrateUidEntry.
Proof. solve_decision. Defined.
Record Cookie : Type := { ck_uids : gmap string CrateUidEntry; ck_opt_out : bool }.
#[export] Instance Cookie_eq_dec : EqDecision Cookie.
Proof. solve_decision. Defined.
(** What serde_json makes of the wire format; a missing field is empty. *)
Record CookieJson : Type := { cj_uids : gmap string CrateUidEntry; cj_opt_out : bool }.
Inductive CookieError : Type := CookieOptedOut | CookieBase64 (e : string) | CookieJsonError (e : string).

Definition cookie_new : Cookie := {| ck_uids := ∅; ck_opt_out := false |}.
Definition allow_syncs (c : Cookie) : bool := negb (ck_opt_out c).
Definition set_opt_out (opt_out : bool) (c : Cookie) : Cookie := {|
  ck_uids := if opt_out then ∅ else ck_uids c; ck_opt_out := opt_out |}.
Definition cookie_entry (key : string) (c : Cookie) : option CrateUidEntry := ck_uids c !! key.
(** The uid, whether it is found and whether it is active. *)
Definition cookie_get_uid (now : Z) (key : string) (c : Cookie) : string * bool * bool :=
  match ck_uids c !! key with
  | Some entry => (cue_uid entry, true, now <? cue_expires entry)
  | None => ("", false, false)
  end.
Definition get_uids (c : Cookie) : gmap string string := cue_uid <$> ck_uids c.
Definition has_live_sync (now : Z) (key : string) (c : Cookie) : bool :=
  let '(_, _, active) := cookie_get_uid now key c in active.
Definition has_live_uids (now : Z) (c : Cookie) : bool :=
  existsb (λ kv, now <? cue_expires kv.2) (map_to_list (ck_uids c)).
Definition cookie_len (c : Cookie) : Z := Z.of_nat (size (ck_uids c)).
Definition cookie_is_empty (c : Cookie) : bool := bool_decide (ck_uids c = ∅).
Definition cookie_sync (now : Z) (key uid : string) : M Cookie CookieError unit := λ c,
  if negb (allow_syncs c) then (Err CookieOptedOut, c)
  else (Ok tt, {| ck_uids := <[ key := {| cue_uid := uid;
                    cue_expires := now + UID_TTL_DAYS * MS_PER_DAY |} ]> (ck_uids c);
                  ck_opt_out := ck_opt_out c |}).
Definition unsync (key : string) (c : Cookie) : Cookie := {|
  ck_uids := delete key (ck_uids c); ck_opt_out := ck_opt_out c |}.

(** [s.ends_with(c)] *)
Definition ends_with_char (c : Ascii.ascii) (s : string) : bool :=
  bool_decide (last (String.list_ascii_of_string s) = Some c).

Section CookieCodec.
(** base64, URL-safe: encoding pads; decoding with and without padding. *)
Context (url_encode : string → string) (url_decode no_pad_decode : string → option string).
Context (to_vec : CookieJson → outcome string string) (from_slice : string → option CookieJson).

Definition cookie_encode (c : Cookie) : outcome CookieError string :=
  json ← map_err CookieJsonError (to_vec {| cj_uids := ck_uids c; cj_opt_out := ck_opt_out c |});
  Ok (url_encode json).
Definition audience_network_fix (c : Cookie) : Cookie :=
  match ck_uids c !! "audienceNetwork" with
  | Some entry => if bool_decide (cue_uid entry = "0") then unsync "audienceNetwork" c else c
  | None => c
  end.
Definition cookie_decode (value : string) : Cookie :=
  let bytes := if ends_with_char (ch "=") value then url_decode value else no_pad_decode value in
  match bytes ≫= from_slice with
  | None => cookie_new
  | Some parsed =>
      audience_network_fix {| ck_uids := if cj_opt_out parsed then ∅ else cj_uids parsed;
                              ck_opt_out := cj_opt_out parsed |}
  end.
End CookieCodec.

(** ** Syncers *)

Inductive CrateSyncType : Type := CIframe | CRedirect.
#[export] Instance CrateSyncType_eq_dec : EqDecision CrateSyncType.
Proof. solve_decision. Defined.
Definition crate_sync_type_as_str (t : CrateSyncType) : string :=
  match t with CIframe => "iframe" | CRedirect => "redirect" end.
Record Sync : Type := { sn_url : string; sn_sync_type : CrateSyncType; sn_support_cors : bool }.
Record CrateSyncTypeFilter : Type := { ctf_allowed : list CrateSyncType }.
Definition filter_default : CrateSyncTypeFilter := {| ctf_allowed := [] |}.
Definition filter_all : CrateSyncTypeFilter := {| ctf_allowed := [CIframe; CRedirect] |}.
Definition iframe_only : CrateSyncTypeFilter := {| ctf_allowed := [CIframe] |}.
Definition redirect_only : CrateSyncTypeFilter := {| ctf_allowed := [CRedirect] |}.
Definition type_allows (t : CrateSyncType) (f : CrateSyncTypeFilter) : bool :=
  bool_decide (t ∈ ctf_allowed f).
Record PrivacyPolicies : Type := {
  pv_gdpr : string; pv_gdpr_consent : string; pv_us_privacy : string; pv_gpp : string;
  pv_gpp_sid : string; pv_redirect_url : string;
}.
Inductive SyncerError : Type := NoSyncTypesProvided | NoSyncTypesSupported.

(** [trait Syncer]. *)
Class CrateSyncer (Sy : Type) : Type := {
  syncer_key_of : Sy → string;
  default_sync_type : Sy → CrateSyncType;
  syncer_supports : list CrateSyncType → Sy → bool;
  get_sync : CrateSyncTypeFilter → PrivacyPolicies → Sy → outcome SyncerError Sync;
}.

(** The offset of the first two closing braces. *)
Fixpoint find_close (haystack : string) : option nat :=
  match haystack with
  | String a (String b _ as rest) =>
      if bool_decide (a = ch "}") && bool_decide (b = ch "}") then Some 0%nat
      else S <$> find_close rest
  | _ => None
  end.
(** [bytes[i] as char]: the byte as a Latin-1 character. *)
Definition byte_char (a : Ascii.ascii) : string :=
  let n := Ascii.N_of_ascii a in
  if (n <? 128)%N then String a ""
  else String (Ascii.ascii_of_N (192 + n / 64)) (String (Ascii.ascii_of_N (128 + n mod 64)) "").

Section Macros.
Context (privacy : PrivacyPolicies).
Definition macro_values : list (string * string) := [
  ("GDPR", pv_gdpr privacy); ("GDPRConsent", pv_gdpr_consent privacy);
  ("USPrivacy", pv_us_privacy privacy); ("GPP", pv_gpp privacy); ("GPPSID", pv_gpp_sid privacy);
  ("RedirectURL", pv_redirect_url privacy)].
Definition macro_value (name : string) : option string :=
  snd <$> List.find (λ kv, bool_decide (kv.1 = name)) macro_values.
(** The value of the macro that starts [s] and the length of its text. *)
Definition macro_at (s : string) : option (string * nat) :=
  match s with
  | String a (String b rest) =>
      if bool_decide (a = ch "{") && bool_decide (b = ch "{") then
        end_ ← find_close rest;
        match trim (String.substring 0 end_ rest) with
        | String d name =>
            if bool_decide (d = ch ".")
            then value ← macro_value (trim name); Some (value, (2 + end_ + 2)%nat)
            else None
        | "" => None
        end
      else None
  | _ => None
  end.
(** [skip] characters of the current macro are still to drop. *)
Fixpoint resolve_go (skip : nat) (s : string) : string :=
  match s with
  | "" => ""
  | String a s' =>
      match skip with
      | S skip' => resolve_go skip' s'
      | O =>
          match macro_at s with
          | Some (value, len) => value +:+ resolve_go (pred len) s'
          | None => byte_char a +:+ resolve_go 0 s'
          end
      end
  end.
Definition resolve_macros (template : string) : string := resolve_go 0 template.
End Macros.

Record StandardSyncer : Type := {
  std_key : string; std_default_sync_type : CrateSyncType; std_iframe_template : option string;
  std_redirect_template : option string; std_support_cors : bool;
}.
Definition standard_syncer_new (key : string) (default_sync_type : CrateSyncType)
    (iframe_template redirect_template : option string) : StandardSyncer := {|
  std_key := key; std_default_sync_type := default_sync_type;
  std_iframe_template := iframe_template; std_redirect_template := redirect_template;
  std_support_cors := false |}.
Definition with_support_cors (support_cors : bool) (s : StandardSyncer) : StandardSyncer := {|
  std_key := std_key s; std_default_sync_type := std_default_sync_type s;
  std_iframe_template := std_iframe_template s; std_redirect_template := std_redirect_template s;
  std_support_cors := support_cors |}.
Definition template_for (t : CrateSyncType) (s : StandardSyncer) : option string :=
  match t with CIframe => std_iframe_template s | CRedirect => std_redirect_template s end.
Definition filter_supported (sync_types : list CrateSyncType) (s : StandardSyncer)
    : list CrateSyncType :=
  List.filter (λ t, match t with
                    | CIframe => bool_decide (is_Some (std_iframe_template s))
                    | CRedirect => bool_decide (is_Some (std_redirect_template s))
                    end) sync_types.
(** The [expect] on the template panics where it is missing. *)
Definition standard_get_sync (f : CrateSyncTypeFilter) (privacy : PrivacyPolicies)
    (s : StandardSyncer) : outcome SyncerError Sync :=
  match ctf_allowed f with
  | [] => Err NoSyncTypesProvided
  | _ =>
      match filter_supported (ctf_allowed f) s with
      | [] => Err NoSyncTypesSupported
      | (first :: _) as supported =>
          let chosen := if bool_decide (std_default_sync_type s ∈ supported)
                        then std_default_sync_type s else first in
          match template_for chosen s with
          | Some template => Ok {| sn_url := resolve_macros privacy template; sn_sync_type := chosen;
                                   sn_support_cors := std_support_cors s |}
          | None => Panic
          end
      end
  end.
#[export] Instance standard_syncer : CrateSyncer StandardSyncer := {|
  syncer_key_of := std_key; default_sync_type := std_default_sync_type;
  syncer_supports sync_types s := negb (bool_decide (filter_supported sync_types s = []));
  get_sync := standard_get_sync |}.

(** ** The chooser *)

Inductive Status : Type :=
| StOk | BlockedByUserOptOut | StAlreadySynced | UnknownBidder | RejectedByFilter | Duplicate
| BlockedByPrivacy.
#[export] Instance Status_eq_dec : EqDecision Status.
Proof. solve_decision. Defined.
Record BidderEvaluation : Type := { be_bidder : string; be_syncer_key : string; be_status : Status }.
Record ChooserRequest : Type := {
  chq_bidders : list string; chq_limit : Z; chq_sync_type_filter : CrateSyncTypeFilter;
  chq_privacy_blocked : gset string;
}.

Section Chooser.
Context {Sy : Type} `{!CrateSyncer Sy}.
Record CrateSyncerChoice : Type := { csc_bidder : string; csc_syncer : Sy }.
Record ChooserResult : Type := {
  chr_bidders_evaluated : list BidderEvaluation; chr_syncers_chosen : list CrateSyncerChoice;
  chr_status : Status;
}.
Record StandardChooser : Type := { sch_bidder_syncer_lookup : gmap string Sy }.

(** [clock bidder]: the time at which the bidder's uid is looked at. *)
Definition evaluate (chooser : StandardChooser) (now : Z) (bidder : string)
    (request : ChooserRequest) (cookie : Cookie) (syncers_seen : gset string)
    : option Sy * BidderEvaluation * gset string :=
  match sch_bidder_syncer_lookup chooser !! bidder with
  | None => (None, {| be_bidder := bidder; be_syncer_key := ""; be_status := UnknownBidder |},
             syncers_seen)
  | Some syncer =>
      let key := syncer_key_of syncer in
      let eval status := {| be_bidder := bidder; be_syncer_key := key; be_status := status |} in
      if bool_decide (key ∈ syncers_seen) then (None, eval Duplicate, syncers_seen)
      else
        let syncers_seen := {[ key ]} ∪ syncers_seen in
        if negb (syncer_supports (ctf_allowed (chq_sync_type_filter request)) syncer)
        then (None, eval RejectedByFilter, syncers_seen)
        else if has_live_sync now key cookie then (None, eval StAlreadySynced, syncers_seen)
        else if bool_decide (bidder ∈ chq_privacy_blocked request)
        then (None, eval BlockedByPrivacy, syncers_seen)
        else (Some syncer, eval StOk, syncers_seen)
  end.
Record ChooseState : Type := {
  chs_syncers_seen : gset string; chs_bidders_seen : gset string;
  chs_evaluated : list BidderEvaluation; chs_chosen : list CrateSyncerChoice;
}.
Fixpoint choose_loop (chooser : StandardChooser) (clock : string → Z) (request : ChooserRequest)
    (cookie : Cookie) (bidders : list string) (st : ChooseState) : ChooseState :=
  match bidders with
  | [] => st
  | bidder :: bidders' =>
      if negb (chq_limit request =? 0) && (chq_limit request <=? zlen (chs_chosen st)) then st
      else if bool_decide (bidder ∈ chs_bidders_seen st)
      then choose_loop chooser clock request cookie bidders' st
      else
        let '(syncer_opt, eval, syncers_seen) :=
          evaluate chooser (clock bidder) bidder request cookie (chs_syncers_seen st) in
        choose_loop chooser clock request cookie bidders' {|
          chs_syncers_seen := syncers_seen;
          chs_bidders_seen := {[ bidder ]} ∪ chs_bidders_seen st;
          chs_evaluated := chs_evaluated st ++ [eval];
          chs_chosen := match syncer_opt with
                        | Some syncer => chs_chosen st ++ [{| csc_bidder := bidder;
                                                              csc_syncer := syncer |}]
                        | None => chs_chosen st
                        end |}
  end.
Definition choose (chooser : StandardChooser) (clock : string → Z) (request : ChooserRequest)
    (cookie : Cookie) : ChooserResult :=
  if negb (allow_syncs cookie)
  then {| chr_bidders_evaluated := []; chr_syncers_chosen := []; chr_status := BlockedByUserOptOut |}
  else
    let st := choose_loop chooser clock request cookie (chq_bidders request)
                {| chs_syncers_seen := ∅; chs_bidders_seen := ∅; chs_evaluated := [];
                   chs_chosen := [] |} in
    {| chr_bidders_evaluated := chs_evaluated st; chr_syncers_chosen := chs_chosen st;
       chr_status := StOk |}.
End Chooser.
Arguments CrateSyncerChoice : clear implicits.
Arguments ChooserResult : clear implicits.
Arguments StandardChooser : clear implicits.
Arguments ChooseState : clear implicits.

(** ** server/src/router.rs *)

Section Router.
Context (url_decode no_pad_decode : string → option string) (from_slice : string → option CookieJson).
(** [s.strip_prefix(p)] *)
Definition strip_prefix (p s : string) : option string :=
  if String.prefix p s
  then Some (String.substring (String.length p) (String.length s - String.length p) s) else None.
Definition uids_cookie_value (raw : string) : option string :=
  head (omap (λ pair, strip_prefix (UID_COOKIE_NAME +:+ "=") (trim pair)) (split_char (ch ";") raw)).
Definition cookie_from_headers (cookie_hdr : option string) : Cookie :=
  match cookie_hdr ≫= uids_cookie_value with
  | Some rest => cookie_decode url_decode no_pad_decode from_slice rest
  | None => cookie_new
  end.
(** The handler of /cookie_sync: its status and the bidders it lists. *)
Definition router_cookie_sync {Sy} `{!CrateSyncer Sy} (chooser : StandardChooser Sy)
    (clock : string → Z) (cookie_hdr : option string) (bidders : list string) (limit : option Z)
    : string * list string :=
  let cookie := cookie_from_headers cookie_hdr in
  let request := {| chq_bidders := bidders; chq_limit := default 0 limit;
                    chq_sync_type_filter := filter_default; chq_privacy_blocked := ∅ |} in
  let result := choose chooser clock request cookie in
  (match chr_status result with
   | StOk => "ok"
   | BlockedByUserOptOut => "blocked_by_user_opt_out"
   | BlockedByPrivacy => "blocked_by_privacy"
   | _ => "no_sync"
   end, csc_bidder <$> chr_syncers_chosen result).
End Router.

(** ** Specification *)

(** An opted-out cookie holds no uid. *)
Definition cookie_wf (c : Cookie) : Prop := ck_opt_out c = true → ck_uids c = ∅.
(** What the operations make of a cookie. *)
Inductive cookie_step : Cookie → Cookie → Prop :=
| StepOptOut b c : cookie_step c (set_opt_out b c)
| StepSync now key uid c : cookie_step c (cookie_sync now key uid c).2
| StepUnsync key c : cookie_step c (unsync key c).

Class UrlCodec (url_encode : string → string) (url_decode no_pad_decode : string → option string)
    (to_vec : CookieJson → outcome string string) (from_slice : string → option CookieJson) : Prop := {
  url_padded b : url_decode (url_encode b) = Some b;
  url_unpadded b : ends_with_char (ch "=") (url_encode b) = false →
    no_pad_decode (url_encode b) = Some b;
  url_json j : ∃ json, to_vec j = Ok json ∧ from_slice json = Some j;
}.

(** A syncer produces a sync, of an acceptable type, exactly when it supports one. *)
Class SyncerContract (Sy : Type) `{!CrateSyncer Sy} : Prop :=
  get_sync_supported f privacy (s : Sy) :
    match get_sync f privacy s with
    | Ok sync => syncer_supports (ctf_allowed f) s = true ∧ sn_sync_type sync ∈ ctf_allowed f
    | Err _ => syncer_supports (ctf_allowed f) s = false
    | Panic => False
    end.

(** A template in pieces: text without a brace, and macros. *)
Inductive piece : Type := TextPiece (t : string) | MacroPiece (before after name : string).
Definition render_piece (p : piece) : string :=
  match p with
  | TextPiece t => t
  | MacroPiece before after name => "{{" +:+ before +:+ "." +:+ name +:+ after +:+ "}}"
  end.
Definition piece_value (privacy : PrivacyPolicies) (p : piece) : string :=
  match p with
  | TextPiece t => t
  | MacroPiece _ _ name => default "" (macro_value privacy name)
  end.
Definition piece_ok (privacy : PrivacyPolicies) (p : piece) : Prop :=
  match p with
  | TextPiece t => no_char (ch "{") t ∧ ascii_text t
  | MacroPiece before after name =>
      blank before ∧ blank after ∧ is_Some (macro_value privacy name)
  end.
Definition join_pieces (f : piece → string) (ps : list piece) : string :=
  foldr (λ p s, f p +:+ s) "" ps.

(** The bidders without the repeats, in the order of their first occurrence. *)
Fixpoint first_occurrences (seen : gset string) (l : list string) : list string :=
  match l with
  | [] => []
  | b :: l' => if bool_decide (b ∈ seen) then first_occurrences seen l'
               else b :: first_occurrences ({[ b ]} ∪ seen) l'
  end.

(** A chosen bidder passed every check. *)
Definition choice_ok_for {Sy} `{!CrateSyncer Sy} (chooser : StandardChooser Sy) (clock : string → Z)
    (request : ChooserRequest) (cookie : Cookie) (c : CrateSyncerChoice Sy) : Prop :=
  sch_bidder_syncer_lookup chooser !! csc_bidder c = Some (csc_syncer c) ∧
  syncer_supports (ctf_allowed (chq_sync_type_filter request)) (csc_syncer c) = true ∧
  has_live_sync (clock (csc_bidder c)) (syncer_key_of (csc_syncer c)) cookie = false ∧
  (csc_bidder c ∉ chq_privacy_blocked request).
Definition ok_bidders (evals : list BidderEvaluation) : list string :=
  be_bidder <$> List.filter (λ e, bool_decide (be_status e = StOk)) evals.

(** A codec for the witnesses: zeros and ones, of which none is a padding sign. *)
Definition json_tuple (j : CookieJson) : gmap string (string * Z) * bool :=
  ((λ e, (cue_uid e, cue_expires e)) <$> cj_uids j, cj_opt_out j).
Definition json_of_tuple (t : gmap string (string * Z) * bool) : CookieJson := {|
  cj_uids := (λ e, {| cue_uid := e.1; cue_expires := e.2 |}) <$> t.1; cj_opt_out := t.2 |}.
Definition bits_to_vec (j : CookieJson) : outcome string string := Ok (pos_bits (encode (json_tuple j))).
Definition bits_from_slice (s : string) : option CookieJson :=
  json_of_tuple <$> (bits_pos s ≫= decode).
Definition sample_privacy : PrivacyPolicies := {|
  pv_gdpr := "1"; pv_gdpr_consent := "{{.GPP}}"; pv_us_privacy := ""; pv_gpp := ""; pv_gpp_sid := "";
  pv_redirect_url := "" |}.

Definition sample_standard_syncer : StandardSyncer :=
  standard_syncer_new "adnxs" CRedirect None (Some "https://sync?gdpr={{ .GDPR }}").
Definition sample_chooser : StandardChooser StandardSyncer := {|
  sch_bidder_syncer_lookup := {[ "appnexus" := sample_standard_syncer ]} |}.
Definition sample_chooser_request : ChooserRequest := {|
  chq_bidders := ["appnexus"; "unknown"; "appnexus"]; chq_limit := 0;
  chq_sync_type_filter := filter_all; chq_privacy_blocked := ∅ |}.

(** ** Proofs *)

Lemma cookie_step_wf c c' : cookie_wf c → cookie_step c c' → cookie_wf c'.
Proof.
  unfold cookie_wf. intros Hc Hs. destruct Hs as [b c|now key uid c|key c].
  - simpl. by intros ->.
  - unfold cookie_sync, allow_syncs. destruct (ck_opt_out c) eqn:Ho; simpl; [|congruence].
    intros _. by apply Hc.
  - simpl. intros Ho. rewrite Hc by done. apply delete_empty.
Qed.
Lemma cookie_decode_wf url_decode no_pad_decode from_slice value :
  cookie_wf (cookie_decode url_decode no_pad_decode from_slice value).
Proof.
  unfold cookie_decode. destruct (_ ≫= _) as [parsed|]; [|done].
  unfold audience_network_fix. cbn [ck_uids]. set (c := {| ck_uids := _ |}).
  assert (Hc : cookie_wf c) by (unfold cookie_wf, c; simpl; by intros ->).
  destruct (_ !! "audienceNetwork") as [entry|]; [|done]. case_bool_decide; [|done].
  by eapply cookie_step_wf; [exact Hc|constructor].
Qed.

Section CookieProofs.
Context (url_encode : string → string) (url_decode no_pad_decode : string → option string).
Context (to_vec : CookieJson → outcome string string) (from_slice : string → option CookieJson).
Context `{Hcodec : !UrlCodec url_encode url_decode no_pad_decode to_vec from_slice}.

(** C32: Opting out is final until it is withdrawn.  However a cookie is made and
    changed, an opted-out one holds no uid: so no sync of it is live, and a new
    sync fails and changes nothing, while with consent the synced uid is found and
    active for fourteen days.  Every such cookie can be encoded and is decoded to
    itself, up to the audience network's unset uid, which is dropped. *)
Theorem cookie_opt_out_holds value c :
  rtc cookie_step cookie_new c ∨
    rtc cookie_step (cookie_decode url_decode no_pad_decode from_slice value) c →
  cookie_wf c ∧
  (∀ now key uid, let '(out, c') := cookie_sync now key uid c in
    if ck_opt_out c
    then out = Err CookieOptedOut ∧ c' = c ∧ has_live_sync now key c = false
    else out = Ok tt ∧ ∀ now', cookie_get_uid now' key c' =
           (uid, true, now' <? now + UID_TTL_DAYS * MS_PER_DAY)) ∧
  ∃ text, cookie_encode url_encode to_vec c = Ok text ∧
    cookie_decode url_decode no_pad_decode from_slice text = audience_network_fix c.
Proof.
  intros Hreach. assert (Hwf : cookie_wf c).
  { assert (H : ∀ c0, cookie_wf c0 → rtc cookie_step c0 c → cookie_wf c).
    { intros c0 H0 Hs. induction Hs; [done|]. eauto using cookie_step_wf. }
    destruct Hreach as [Hs|Hs]; eapply H; [|exact Hs| |exact Hs]; [done|apply cookie_decode_wf]. }
  split; [done|]. split.
  - intros now key uid. unfold cookie_sync, allow_syncs, has_live_sync, cookie_get_uid.
    destruct (ck_opt_out c) eqn:Ho; simpl; [by rewrite (Hwf Ho)|].
    split; [done|]. intros now'. by rewrite lookup_insert_eq.
  - unfold cookie_encode. set (j := {| cj_uids := _ |}).
    destruct (url_json j) as (json&->&Hj). simpl. eexists. split; [done|].
    unfold cookie_decode.
    replace (if ends_with_char _ _ then _ else _) with (Some json).
    2: { destruct (ends_with_char _ _) eqn:He; symmetry; [apply url_padded|by apply url_unpadded]. }
    simpl. rewrite Hj. f_equal. unfold j. simpl. destruct c as [uids []]; simpl; [|done].
    f_equal. symmetry. by apply Hwf.
Qed.
End CookieProofs.

(** *** Macros *)

Section MacroProofs.
Context (privacy : PrivacyPolicies).

Lemma find_close_inner inner rest : no_char (ch "}") inner →
  find_close (inner +:+ "}}" +:+ rest) = Some (String.length inner).
Proof.
  unfold no_char. induction inner as [|a inner IH]; [done|]. intros [Ha Hi]%not_elem_of_cons.
  change (String a inner +:+ "}}" +:+ rest) with (String a (inner +:+ "}}" +:+ rest)).
  assert (Hstep : ∀ s, s ≠ "" → find_close (String a s) = S <$> find_close s).
  { intros [|b s]; [done|]. intros _. cbn [find_close]. by rewrite bool_decide_false by done. }
  rewrite Hstep, IH; [done|done|]. by destruct inner.
Qed.
Lemma substring_app s t : String.substring 0 (String.length s) (s +:+ t) = s.
Proof.
  induction s as [|a s IH]; [by destruct t|].
  change (String a s +:+ t) with (String a (s +:+ t)). simpl. by rewrite IH.
Qed.
Lemma resolve_skip u rest : resolve_go privacy (String.length u) (u +:+ rest) = resolve_go privacy 0 rest.
Proof. induction u as [|a u IH]; [done|]. exact IH. Qed.
Lemma resolve_text t rest : no_char (ch "{") t → ascii_text t →
  resolve_go privacy 0 (t +:+ rest) = t +:+ resolve_go privacy 0 rest.
Proof.
  unfold no_char, ascii_text. induction t as [|a t IH]; [done|].
  intros [Ha Ht]%not_elem_of_cons [Hc Hcs]%Forall_cons.
  change (String a t +:+ rest) with (String a (t +:+ rest)).
  assert (Hm : macro_at privacy (String a (t +:+ rest)) = None).
  { unfold macro_at. destruct (t +:+ rest); [done|]. by rewrite bool_decide_false by done. }
  cbn [resolve_go]. rewrite Hm, IH by done. unfold byte_char.
  by replace (_ <? 128)%N with true by (symmetry; by apply N.ltb_lt).
Qed.
Lemma macro_name_ok name : is_Some (macro_value privacy name) →
  plain ("." +:+ name) ∧ no_char (ch "}") ("." +:+ name).
Proof.
  unfold macro_value, macro_values. simpl. intros [v Hv].
  repeat (case_bool_decide; [subst; clear; split; vm_compute; [by repeat constructor|set_solver]|]).
  done.
Qed.
Lemma blank_no_char c s : c ≠ ch " " → blank s → no_char c s.
Proof. intros Hc Hs. unfold blank, no_char in *. rewrite Forall_forall in Hs. intros Hin. by apply Hs in Hin. Qed.
Lemma macro_at_macro before after name v rest :
  blank before → blank after → macro_value privacy name = Some v →
  macro_at privacy (render_piece (MacroPiece before after name) +:+ rest) =
    Some (v, (String.length (render_piece (MacroPiece before after name)))%nat).
Proof.
  intros Hb Ha Hv. destruct (macro_name_ok name) as [Hp Hn]; [eauto|].
  set (inner := before +:+ ("." +:+ name) +:+ after).
  assert (Hr : render_piece (MacroPiece before after name) +:+ rest = "{{" +:+ inner +:+ "}}" +:+ rest).
  { unfold inner. simpl render_piece. by rewrite !str_app_assoc. }
  assert (Hl : String.length (render_piece (MacroPiece before after name)) =
    (2 + String.length inner + 2)%nat).
  { unfold inner, render_piece. rewrite !str_length_app. cbn [String.length]. lia. }
  rewrite Hr, Hl. change ("{{" +:+ inner +:+ "}}" +:+ rest)
    with (String (ch "{") (String (ch "{") (inner +:+ "}}" +:+ rest))).
  unfold macro_at. rewrite find_close_inner.
  2: { unfold inner. rewrite !no_char_app in *. split_and!; try tauto; by apply blank_no_char. }
  rewrite !(bool_decide_true (_ = ch "{")) by done. cbn [andb mbind option_bind].
  rewrite substring_app. unfold inner. rewrite trim_blanks by done.
  change ("." +:+ name) with (String (ch ".") name). cbn iota beta.
  rewrite (bool_decide_true (_ = ch ".")) by done. rewrite trim_plain by (apply plain_app in Hp; tauto). by rewrite Hv.
Qed.

(** Macros are resolved in place.  A template made of ASCII text without
    braces and of known macros, with any blanks around their names, becomes that
    text with every macro replaced by its value; values are not expanded again. *)
Theorem resolve_macros_spec ps : Forall (piece_ok privacy) ps →
  resolve_macros privacy (join_pieces render_piece ps) = join_pieces (piece_value privacy) ps.
Proof.
  unfold resolve_macros. induction 1 as [|p ps Hp Hps IH]; [done|]. simpl.
  destruct p as [t|before after name]; simpl in Hp.
  - simpl. rewrite resolve_text by tauto. by rewrite IH.
  - destruct Hp as (Hb&Ha&[v Hv]). simpl piece_value. rewrite Hv. simpl default. rewrite <-IH.
    pose proof (macro_at_macro before after name v (join_pieces render_piece ps) Hb Ha Hv) as Hm.
    assert (Hc : ∃ u, render_piece (MacroPiece before after name) = String (ch "{") u) by (by eexists).
    destruct Hc as [u Hu]. rewrite Hu in *.
    change (String (ch "{") u +:+ join_pieces render_piece ps)
      with (String (ch "{") (u +:+ join_pieces render_piece ps)) in *.
    cbn [resolve_go]. rewrite Hm. cbn [String.length pred]. by rewrite resolve_skip.
Qed.
End MacroProofs.

(** *** Syncers and the chooser *)

#[export] Instance standard_syncer_contract : SyncerContract StandardSyncer.
Proof.
  intros f privacy s. simpl. unfold standard_get_sync.
  destruct f as [[|a l]]; [done|]. cbn [ctf_allowed]. set (types := a :: l). clearbody types.
  assert (Hin : ∀ t, t ∈ filter_supported types s → t ∈ types ∧ is_Some (template_for t s)).
  { intros t Ht. unfold filter_supported in Ht.
    apply list_elem_of_In, filter_In in Ht as [Ht%list_elem_of_In Hs]. split; [done|].
    destruct t; by apply bool_decide_eq_true in Hs. }
  destruct (filter_supported types s) as [|first supported]; [done|].
  set (chosen := if bool_decide _ then _ else _).
  destruct (Hin chosen) as [Hc [t ->]].
  { unfold chosen. case_bool_decide; [done|by left]. }
  simpl. done.
Qed.

Section ChooserProofs.
Context {Sy : Type} `{!CrateSyncer Sy, Hcontract : !SyncerContract Sy}.
Context (chooser : StandardChooser Sy) (clock : string → Z) (request : ChooserRequest) (cookie : Cookie).
Notation filter_types := (chq_sync_type_filter request).

Notation choice_ok := (choice_ok_for chooser clock request cookie).
Record loop_inv (st : ChooseState Sy) : Prop := {
  inv_ok : Forall choice_ok (chs_chosen st);
  inv_keys : NoDup ((λ c, syncer_key_of (csc_syncer c)) <$> chs_chosen st);
  inv_seen : Forall (λ c, syncer_key_of (csc_syncer c) ∈ chs_syncers_seen st) (chs_chosen st);
  inv_chosen : csc_bidder <$> chs_chosen st = ok_bidders (chs_evaluated st);
  inv_limit : chq_limit request ≠ 0 → zlen (chs_chosen st) ≤ Z.max 0 (chq_limit request);
}.

Lemma choose_loop_spec bidders st : loop_inv st →
  let st' := choose_loop chooser clock request cookie bidders st in
  loop_inv st' ∧ ∃ n,
    be_bidder <$> chs_evaluated st' =
      (be_bidder <$> chs_evaluated st) ++ take n (first_occurrences (chs_bidders_seen st) bidders) ∧
    ((length (first_occurrences (chs_bidders_seen st) bidders) ≤ n)%nat ∨
     chq_limit request ≠ 0 ∧ chq_limit request ≤ zlen (chs_chosen st')).
Proof.
  revert st. induction bidders as [|b bidders IH]; intros st Hst; simpl.
  { split; [done|]. exists 0%nat. rewrite app_nil_r. split; [done|]. by left. }
  destruct (negb (chq_limit request =? 0) && (chq_limit request <=? zlen (chs_chosen st))) eqn:Hlim.
  { split; [done|]. exists 0%nat. rewrite take_0, app_nil_r. split; [done|]. right. by bools. }
  case_bool_decide as Hb; [by apply IH|].
  destruct (evaluate chooser (clock b) b request cookie (chs_syncers_seen st))
    as [[syncer_opt eval] seen] eqn:He.
  set (st1 := {| chs_syncers_seen := seen; chs_bidders_seen := {[ b ]} ∪ chs_bidders_seen st;
    chs_evaluated := chs_evaluated st ++ [eval]; chs_chosen := _ |}).
  assert (Heval : be_bidder eval = b ∧ chs_syncers_seen st ⊆ seen ∧
    match syncer_opt with
    | Some syncer => be_status eval = StOk ∧ choice_ok {| csc_bidder := b; csc_syncer := syncer |} ∧
        (syncer_key_of syncer ∉ chs_syncers_seen st) ∧ syncer_key_of syncer ∈ seen
    | None => be_status eval ≠ StOk
    end).
  { unfold evaluate in He. destruct (_ !! b) as [syncer|] eqn:Hl; [|by simplify_eq]. cbv zeta in He.
    case_bool_decide as Hk; [by simplify_eq|].
    destruct (syncer_supports (ctf_allowed filter_types) syncer) eqn:Hsup; cbn [negb] in He;
      [|simplify_eq; split_and!; simpl; [done|set_solver|done]].
    destruct (has_live_sync _ _ _) eqn:Hlive; [simplify_eq; split_and!; simpl; [done|set_solver|done]|].
    case_bool_decide as Hp; simplify_eq; [split_and!; simpl; [done|set_solver|done]|]. bools.
    split; [done|]. split; [set_solver|]. split; [done|]. split; [done|]. split; [done|set_solver]. }
  destruct Heval as (Hbid&Hsub&Hopt).
  assert (Hst1 : loop_inv st1).
  { destruct Hst as [Hok Hkeys Hseen Hch Hl]. destruct syncer_opt as [syncer|]; constructor; simpl.
    - destruct Hopt as (_&?&_). apply Forall_app. split; [done|by apply Forall_singleton].
    - rewrite fmap_app. destruct Hopt as (_&_&Hnew&_). apply NoDup_app. split; [done|].
      split; [|apply NoDup_singleton]. intros k Hk%list_elem_of_fmap Hk'%list_elem_of_singleton.
      destruct Hk as (c&Hk&Hc). rewrite Forall_forall in Hseen. apply Hnew. simpl in Hk'.
      rewrite <-Hk', Hk. by apply Hseen.
    - destruct Hopt as (_&_&_&?). apply Forall_app. split; [|by apply Forall_singleton].
      eapply Forall_impl; [exact Hseen|]. set_solver.
    - destruct Hopt as (Hs&_). unfold ok_bidders in *. rewrite List.filter_app, !fmap_app, Hch.
      simpl. rewrite bool_decide_true by done. simpl. by rewrite Hbid.
    - intros Hne. unfold zlen in *. rewrite length_app. simpl.
      destruct (chq_limit request =? 0) eqn:Hz; bools; [lia|]. simpl in Hlim. bools. lia.
    - done.
    - done.
    - eapply Forall_impl; [exact Hseen|]. set_solver.
    - unfold ok_bidders in *. rewrite List.filter_app, fmap_app, Hch. simpl.
      rewrite bool_decide_false by done. simpl. by rewrite app_nil_r.
    - done. }
  destruct (IH st1 Hst1) as [Hinv (n&Hn&Hend)]. split; [exact Hinv|]. exists (S n).
  rewrite Hn. unfold st1 at 1. cbn [chs_evaluated]. rewrite fmap_app, <-app_assoc. simpl.
  rewrite Hbid. split; [done|]. destruct Hend as [?|?]; [left; simpl in *; lia|by right].
Qed.

(** C39: The chooser evaluates the requested bidders in order, without repeats,
    until the limit (if any) is reached, and chooses those evaluated as fit: they
    have a syncer, no live sync and no privacy block; no two share a syncer key;
    there are no more than the limit; and each chosen syncer, whatever its type,
    produces a sync of an acceptable type.  An opted-out user gets nothing. *)
Theorem choose_spec :
  let result := choose chooser clock request cookie in
  if ck_opt_out cookie
  then chr_status result = BlockedByUserOptOut ∧ chr_bidders_evaluated result = [] ∧
       chr_syncers_chosen result = []
  else
    chr_status result = StOk ∧
    (∃ n, be_bidder <$> chr_bidders_evaluated result =
            take n (first_occurrences ∅ (chq_bidders request)) ∧
       ((length (first_occurrences ∅ (chq_bidders request)) ≤ n)%nat ∨
        chq_limit request ≠ 0 ∧ chq_limit request ≤ zlen (chr_syncers_chosen result))) ∧
    csc_bidder <$> chr_syncers_chosen result = ok_bidders (chr_bidders_evaluated result) ∧
    (chq_limit request ≠ 0 → zlen (chr_syncers_chosen result) ≤ Z.max 0 (chq_limit request)) ∧
    NoDup ((λ c, syncer_key_of (csc_syncer c)) <$> chr_syncers_chosen result) ∧
    ∀ c, c ∈ chr_syncers_chosen result → choice_ok c ∧
      ∀ privacy, ∃ sync, get_sync filter_types privacy (csc_syncer c) = Ok sync ∧
        sn_sync_type sync ∈ ctf_allowed filter_types.
Proof.
  cbv zeta. unfold choose, allow_syncs. destruct (ck_opt_out cookie); [done|]. cbn [negb].
  set (st0 := {| chs_syncers_seen := ∅ |}).
  assert (H0 : loop_inv st0).
  { constructor; [constructor..|done|]. intros _. unfold zlen. simpl. lia. }
  destruct (choose_loop_spec (chq_bidders request) st0 H0) as [[Hok Hkeys _ Hch Hl] (n&Hn&Hend)].
  cbn [chr_status chr_bidders_evaluated chr_syncers_chosen]. split; [done|]. split; [by exists n|].
  split; [done|]. split; [done|]. split; [done|]. intros c Hc. rewrite Forall_forall in Hok.
  split; [by apply Hok|]. intros privacy. pose proof (get_sync_supported filter_types privacy (csc_syncer c)) as Hs.
  destruct (Hok c Hc) as (_&Hsup&_). rewrite Hsup in Hs.
  destruct (get_sync _ _ _) as [sync|?|]; [|done..]. exists sync. by destruct Hs.
Qed.

(** The server's /cookie_sync asks for no sync type, so it chooses no bidder. *)
Lemma router_syncs_nobody url_decode no_pad_decode from_slice cookie_hdr bidders limit :
  (router_cookie_sync url_decode no_pad_decode from_slice chooser clock cookie_hdr bidders limit).2 = [].
Proof.
  unfold router_cookie_sync. cbn [snd]. set (c := cookie_from_headers _ _ _ _).
  set (req := {| chq_bidders := bidders |}). unfold choose. destruct (negb _); [done|].
  cbn [chr_syncers_chosen].
  assert (H : ∀ l st, chs_chosen st = [] → chs_chosen (choose_loop chooser clock req c l st) = []).
  { induction l as [|b l IH]; intros st Hst; simpl; [done|].
    destruct (_ && _); [done|]. case_bool_decide; [by apply IH|].
    destruct (evaluate _ _ _ _ _ _) as [[o e] seen] eqn:He. apply IH. simpl.
    destruct o as [syncer|]; [|done]. exfalso. unfold evaluate in He.
    destruct (_ !! b) as [sy|]; [|done]. case_bool_decide; [done|].
    pose proof (get_sync_supported filter_default {| pv_gdpr := ""; pv_gdpr_consent := "";
      pv_us_privacy := ""; pv_gpp := ""; pv_gpp_sid := ""; pv_redirect_url := "" |} sy) as Hs.
    destruct (get_sync _ _ _); [destruct Hs as [_ Hin]; by apply elem_of_nil in Hin| |done].
    simpl in Hs. subst req. simpl in He. rewrite Hs in He. done. }
  by rewrite H.
Qed.
End ChooserProofs.

(** A character beyond ASCII comes out as two. *)
Lemma macros_mangle_utf8 privacy : resolve_macros privacy "é" = "Ã©".
Proof. reflexivity. Qed.

(** *** Witnesses *)

Lemma choose_spec_witness :
  let result := choose sample_chooser (λ _, 0) sample_chooser_request cookie_new in
  csc_bidder <$> chr_syncers_chosen result = ["appnexus"] ∧
  ∀ c, c ∈ chr_syncers_chosen result → choice_ok_for sample_chooser (λ _, 0) sample_chooser_request cookie_new c.
Proof.
  intros result. split; [by vm_compute|]. intros c Hc.
  destruct (choose_spec sample_chooser (λ _, 0) sample_chooser_request cookie_new)
    as (_&_&_&_&_&H). by apply H.
Defined.
Lemma resolve_macros_spec_witness :
  resolve_macros sample_privacy "https://s?g={{ .GDPR }}&c={{.GDPRConsent}}" = "https://s?g=1&c={{.GPP}}".
Proof.
  change "https://s?g={{ .GDPR }}&c={{.GDPRConsent}}" with (join_pieces render_piece
    [TextPiece "https://s?g="; MacroPiece " " " " "GDPR"; TextPiece "&c="; MacroPiece "" "" "GDPRConsent"]).
  rewrite (resolve_macros_spec sample_privacy); [reflexivity|].
  repeat constructor; vm_compute; try done; try set_solver; eauto.
Defined.

#[export] Instance bits_url_codec :
  UrlCodec bits_encode bits_decode bits_decode bits_to_vec bits_from_slice.
Proof.
  split; [apply bits_decode_encode|intros b _; apply bits_decode_encode|].
  intros j. eexists. split; [done|]. unfold bits_from_slice. rewrite bits_pos_bits.
  cbn [mbind option_bind]. rewrite decode_encode. cbn [fmap option_fmap option_map]. f_equal.
  unfold json_of_tuple, json_tuple. destruct j as [uids opt_out]. simpl. f_equal.
  rewrite <-map_fmap_compose. apply map_eq. intros k. rewrite lookup_fmap.
  by destruct (uids !! k) as [[u e]|].
Qed.
Lemma cookie_opt_out_holds_witness :
  let c := set_opt_out true (cookie_sync 0 "adnxs" "42" cookie_new).2 in
  cookie_wf c ∧ (cookie_sync 0 "adnxs" "42" c).1 = Err CookieOptedOut.
Proof.
  intros c.
  assert (Hr : rtc cookie_step cookie_new c).
  { eapply rtc_l; [apply (StepSync 0 "adnxs" "42")|]. eapply rtc_l; [apply (StepOptOut true)|]. done. }
  destruct (cookie_opt_out_holds bits_encode bits_decode bits_decode bits_to_vec bits_from_slice ""
    c (or_introl Hr)) as (Hwf&Hs&_).
  split; [exact Hwf|]. specialize (Hs 0 "adnxs" "42").
  destruct (cookie_sync 0 "adnxs" "42" c) as [out c']. by destruct Hs.
Defined.
