(* ===== verification/BitReader.v ===== *)
(** * The three bit readers of the code base

    - [gpp_*]: [BitReader] of privacy/src/gpp/bitfield.rs, one bit per step;
    - [tcf_*]: [BitReader] of gdpr/src/tcf2_bits.rs, up to a byte per step;
    - [exch_read_bit], [exch_read_bits]: the offset functions of
      exchange/src/gdpr.rs.

    [BitSource] is the interface the section and consent decoders are verified
    against; the two cursor readers are its instances, so both read exactly
    the bits of [Bits.v] and agree with each other. *)

From S2P Require Import Prelude Bits.

(** ** privacy/src/gpp/mod.rs: errors *)

Inductive GppError : Type :=
| InvalidHeader (msg : string)
| Base64 (msg : string)
| Truncated
| UnknownSection (id : Z)
| BadBitfield (msg : string).

#[export] Instance GppError_eq_dec : EqDecision GppError.
Proof. solve_decision. Defined.

(** ** privacy/src/gpp/bitfield.rs *)

Record GppBitReader : Type := { gpp_bytes : list Z; gpp_pos : Z }.

Definition gpp_new (bytes : list Z) : GppBitReader := {| gpp_bytes := bytes; gpp_pos := 0 |}.

Definition gpp_remaining_bits (r : GppBitReader) : Z :=
  sat_sub (sat_mul (zlen (gpp_bytes r)) 8) (gpp_pos r).

Definition gpp_skip_bits (n : Z) : M GppBitReader GppError unit := λ r,
  if gpp_remaining_bits r <? n then (Err Truncated, r)
  else (Ok tt, {| gpp_bytes := gpp_bytes r; gpp_pos := usize (gpp_pos r + n) |}).

(** The loop of [read_bits], [n] steps to go; indexing past the end panics. *)
Fixpoint gpp_read_loop (n : nat) (value : Z) (r : GppBitReader) : outcome GppError Z * GppBitReader :=
  match n with
  | O => (Ok value, r)
  | S n' =>
      let byte_idx := gpp_pos r / 8 in
      let bit_in_byte := 7 - gpp_pos r mod 8 in
      match gpp_bytes r !! Z.to_nat byte_idx with
      | None => (Panic, r)
      | Some byte =>
          let bit := Z.land (Z.shiftr byte bit_in_byte) 1 in
          gpp_read_loop n' (Z.lor (u64 (Z.shiftl value 1)) bit)
            {| gpp_bytes := gpp_bytes r; gpp_pos := usize (gpp_pos r + 1) |}
      end
  end.

Definition gpp_read_bits (n : Z) : M GppBitReader GppError Z := λ r,
  if 64 <? n then (Err (BadBitfield ("n=" +:+ pretty n +:+ " exceeds 64")), r)
  else if gpp_remaining_bits r <? n then (Err Truncated, r)
  else gpp_read_loop (Z.to_nat n) 0 r.

Definition gpp_read_bool : M GppBitReader GppError bool :=
  v ← gpp_read_bits 1; mret (v =? 1).
Definition gpp_read_u6 : M GppBitReader GppError Z :=
  v ← gpp_read_bits 6; mret (u8 v).
Definition gpp_read_u12 : M GppBitReader GppError Z :=
  v ← gpp_read_bits 12; mret (u16 v).

(** ** gdpr/src/tcf2_bits.rs *)

(** [BitReaderError(pub String)] *)
Definition BitReaderError : Type := string.

Record TcfBitReader : Type := { tcf_bytes : list Z; tcf_cursor : Z }.

Definition tcf_new (bytes : list Z) : TcfBitReader := {| tcf_bytes := bytes; tcf_cursor := 0 |}.

Definition tcf_total_bits (r : TcfBitReader) : Z := usize (zlen (tcf_bytes r) * 8).

Definition tcf_remaining_bits (r : TcfBitReader) : Z :=
  sat_sub (tcf_total_bits r) (tcf_cursor r).

Definition past_end (what : string) (n : Z) (r : TcfBitReader) : BitReaderError :=
  what +:+ "(" +:+ pretty n +:+ ") past end (cursor=" +:+ pretty (tcf_cursor r)
  +:+ ", total=" +:+ pretty (tcf_total_bits r) +:+ ")".

Definition tcf_skip_bits (n : Z) : M TcfBitReader BitReaderError unit := λ r,
  if tcf_total_bits r <? usize (tcf_cursor r + n) then (Err (past_end "skip_bits" n r), r)
  else (Ok tt, {| tcf_bytes := tcf_bytes r; tcf_cursor := usize (tcf_cursor r + n) |}).

(** [while bits_left > 0]: every turn takes at least one bit, so [bits_left]
    turns of fuel are enough ([tcf_read_loop_spec]); running out of fuel is
    reported as [Panic], like the out-of-range index. *)
Fixpoint tcf_read_loop (fuel : nat) (bytes : list Z) (value bits_left cursor : Z)
    : outcome BitReaderError (Z * Z) :=
  if bits_left <=? 0 then Ok (value, cursor)
  else match fuel with
  | O => Panic
  | S fuel' =>
      let byte_idx := cursor / 8 in
      let bit_in_byte := cursor mod 8 in
      match bytes !! Z.to_nat byte_idx with
      | None => Panic
      | Some byte =>
          let available := 8 - bit_in_byte in
          let take := Z.min bits_left available in
          let shift := available - take in
          let mask := if take =? 8 then 255 else u8 (Z.shiftl 1 take) - 1 in
          let chunk := Z.land (Z.shiftr byte shift) mask in
          tcf_read_loop fuel' bytes (Z.lor (u64 (Z.shiftl value take)) chunk)
            (bits_left - take) (cursor + take)
      end
  end.

Definition tcf_read_bits (n : Z) : M TcfBitReader BitReaderError Z := λ r,
  if 64 <? n then (Err ("read_bits(" +:+ pretty n +:+ ") > 64"), r)
  else if n =? 0 then (Ok 0, r)
  else if tcf_total_bits r <? usize (tcf_cursor r + n) then (Err (past_end "read_bits" n r), r)
  else match tcf_read_loop (Z.to_nat n) (tcf_bytes r) 0 n (tcf_cursor r) with
       | Ok (value, cursor) => (Ok value, {| tcf_bytes := tcf_bytes r; tcf_cursor := cursor |})
       | Err e => (Err e, r)
       | Panic => (Panic, r)
       end.

Definition tcf_read_bool : M TcfBitReader BitReaderError bool :=
  v ← tcf_read_bits 1; mret (negb (v =? 0)).
Definition tcf_read_u6 : M TcfBitReader BitReaderError Z :=
  v ← tcf_read_bits 6; mret (u8 v).
Definition tcf_read_u12 : M TcfBitReader BitReaderError Z :=
  v ← tcf_read_bits 12; mret (u16 v).
Definition tcf_read_u16 : M TcfBitReader BitReaderError Z :=
  v ← tcf_read_bits 16; mret (u16 v).
Definition tcf_read_u24 : M TcfBitReader BitReaderError Z :=
  v ← tcf_read_bits 24; mret (u32 v).
Definition tcf_read_u36 : M TcfBitReader BitReaderError Z := tcf_read_bits 36.

(** [read_datetime], over chrono's [Utc.timestamp_millis_opt(..).single()]. *)
Definition tcf_read_datetime {DateTime : Type} (timestamp_millis_opt : Z → option DateTime)
    : M TcfBitReader BitReaderError DateTime :=
  v ← tcf_read_u36;
  let deciseconds := i64 v in
  let millis := deciseconds * 100 in
  if bool_decide (i64 millis = millis) then
    match timestamp_millis_opt millis with
    | Some dt => mret dt
    | None => M_err ("invalid datetime " +:+ pretty deciseconds +:+ "ds")
    end
  else M_err "datetime overflow".

(** The UTF-8 bytes of [b as char]. *)
Definition byte_as_char (b : Z) : string :=
  if b <? 128 then String (ascii_of_byte b) ""
  else String (ascii_of_byte (192 + b / 64)) (String (ascii_of_byte (128 + b mod 64)) "").

Definition tcf_read_language : M TcfBitReader BitReaderError string :=
  first ← tcf_read_u6;
  second ← tcf_read_u6;
  mret (byte_as_char (u8 (65 + first)) +:+ byte_as_char (u8 (65 + second))).

(** ** exchange/src/gdpr.rs: reads at an offset *)

Definition exch_read_bit (data : list Z) (bit_offset : Z) : option bool :=
  let byte_index := bit_offset / 8 in
  let bit_index := 7 - bit_offset mod 8 in
  if zlen data <=? byte_index then None
  else b ← data !! Z.to_nat byte_index; Some (Z.land (Z.shiftr b bit_index) 1 =? 1).

Fixpoint exch_read_loop (data : list Z) (bit_offset : Z) (n : nat) (i value : Z) : option Z :=
  match n with
  | O => Some value
  | S n' =>
      bit ← exch_read_bit data (bit_offset + i);
      exch_read_loop data bit_offset n' (i + 1) (Z.lor (u64 (Z.shiftl value 1)) (Z.b2z bit))
  end.

Definition exch_read_bits (data : list Z) (bit_offset count : Z) : option Z :=
  if 64 <? count then None
  else exch_read_loop data bit_offset (Z.to_nat count) 0 0.

(** ** The interface *)

(** What a cursor over a byte string promises: the unread bits, and that
    [n]-bit reads return exactly the next [n] bits or fail, unmoved, on a
    short stream.  [eof] are the errors a short stream can give. *)
Class BitSource (R E : Type) := {
  unread : R → list bool;
  reader_wf : R → Prop;
  eof : E → Prop;
  read_bits : Z → M R E Z;
  skip_bits : Z → M R E unit;
  read_bits_ok r n :
    reader_wf r → 0 ≤ n ≤ 64 → n ≤ zlen (unread r) →
    ∃ r', read_bits n r = (Ok (Z_of_bits (take (Z.to_nat n) (unread r))), r')
      ∧ reader_wf r' ∧ unread r' = drop (Z.to_nat n) (unread r);
  read_bits_short r n :
    reader_wf r → 0 ≤ n ≤ 64 → zlen (unread r) < n →
    ∃ e, read_bits n r = (Err e, r) ∧ eof e;
  skip_bits_ok r n :
    reader_wf r → 0 ≤ n → n ≤ zlen (unread r) →
    ∃ r', skip_bits n r = (Ok tt, r')
      ∧ reader_wf r' ∧ unread r' = drop (Z.to_nat n) (unread r);
  skip_bits_short r n :
    reader_wf r → 0 ≤ n ≤ 64 → zlen (unread r) < n →
    ∃ e, skip_bits n r = (Err e, r) ∧ eof e;
}.

(** A buffer whose bit count, and a 64-bit read past it, fit [usize]. *)
Definition buffer_ok (bytes : list Z) : Prop := 8 * zlen bytes + 64 ≤ usize_max.
Definition cursor_ok (bytes : list Z) (pos : Z) : Prop :=
  buffer_ok bytes ∧ 0 ≤ pos ≤ 8 * zlen bytes.

Lemma bits_at bytes pos : 0 ≤ pos < 8 * zlen bytes →
  ∃ byte, bytes !! Z.to_nat (pos / 8) = Some byte ∧
    drop (Z.to_nat pos) (bits_of bytes)
      = Z.testbit byte (7 - pos mod 8) :: drop (Z.to_nat (pos + 1)) (bits_of bytes).
Proof.
  intros Hpos. pose proof (bits_of_lookup bytes (Z.to_nat pos)) as H.
  assert (Hlt : (Z.to_nat pos < length (bits_of bytes))%nat).
  { rewrite length_bits_of. unfold zlen in Hpos. lia. }
  apply lookup_lt_is_Some_2 in Hlt as [b Hb]. rewrite Hb in H.
  replace (Z.to_nat pos / 8)%nat with (Z.to_nat (pos / 8)) in H
    by (rewrite Z2Nat.inj_div by lia; done).
  replace (Z.of_nat (Z.to_nat pos mod 8)) with (pos mod 8) in H
    by (rewrite Nat2Z.inj_mod, Z2Nat.id by lia; done).
  destruct (bytes !! _) as [byte|] eqn:Hbyte; [|done]. simpl in H. simplify_eq.
  eexists; split; [done|].
  rewrite (drop_S _ _ _ Hb). do 2 f_equal. lia.
Qed.

Lemma zlen_unread bytes pos : cursor_ok bytes pos →
  zlen (drop (Z.to_nat pos) (bits_of bytes)) = 8 * zlen bytes - pos.
Proof.
  intros [? ?]. rewrite zlen_drop, zlen_bits_of; [done|]. rewrite zlen_bits_of. lia.
Qed.

Lemma land_1_testbit byte k : 0 ≤ k → Z.land (Z.shiftr byte k) 1 = Z.b2z (Z.testbit byte k).
Proof.
  intros Hk. rewrite (Z.land_ones _ 1) by lia.
  by rewrite Z.shiftr_div_pow2, Z.testbit_spec' by lia.
Qed.

Lemma push_bit value b n : 0 ≤ n ≤ 63 → 0 ≤ value < 2 ^ n →
  Z.lor (u64 (Z.shiftl value 1)) (Z.b2z b) = 2 * value + Z.b2z b ∧
  0 ≤ 2 * value + Z.b2z b < 2 ^ (n + 1).
Proof.
  intros Hn Hv. assert (2 ^ n ≤ 2 ^ 63) by (apply Z.pow_le_mono_r; lia).
  rewrite Z.pow_add_r by lia. rewrite u64_small.
  - rewrite lor_shiftl_add by (destruct b; simpl; lia). destruct b; simpl Z.b2z; lia.
  - rewrite Z.shiftl_mul_pow2 by lia. lia.
Qed.

(** *** The GPP reader *)

Lemma gpp_remaining_bits_eq r : cursor_ok (gpp_bytes r) (gpp_pos r) →
  gpp_remaining_bits r = zlen (drop (Z.to_nat (gpp_pos r)) (bits_of (gpp_bytes r))).
Proof.
  intros Hok. rewrite zlen_unread by done. destruct Hok as [Hb ?].
  unfold gpp_remaining_bits, sat_sub, sat_mul, buffer_ok in *. lia.
Qed.

Lemma gpp_read_loop_spec n value bytes pos :
  cursor_ok bytes pos → Z.of_nat n ≤ 8 * zlen bytes - pos → (n ≤ 64)%nat →
  0 ≤ value < 2 ^ (64 - Z.of_nat n) →
  gpp_read_loop n value {| gpp_bytes := bytes; gpp_pos := pos |} =
    (Ok (Z_of_bits_acc value (take n (drop (Z.to_nat pos) (bits_of bytes)))),
     {| gpp_bytes := bytes; gpp_pos := pos + Z.of_nat n |}).
Proof.
  revert value pos. induction n as [|n IH]; intros value pos Hok Hn Hn64 Hv.
  { simpl. by rewrite Z.add_0_r. }
  pose proof Hok as [Hb Hpos]. unfold buffer_ok, usize_max in Hb.
  destruct (bits_at bytes pos) as (byte&Hbyte&Hbits); [lia|].
  cbn [gpp_read_loop gpp_bytes gpp_pos]. rewrite Hbyte, Hbits.
  pose proof (Z.mod_pos_bound pos 8 ltac:(lia)).
  rewrite (usize_small (pos + 1)), land_1_testbit by lia.
  destruct (push_bit value (Z.testbit byte (7 - pos mod 8)) (64 - Z.of_nat (S n)))
    as [-> Hv']; [lia|done|].
  rewrite IH; [|split; [done|lia]|lia|lia|].
  - by replace (pos + 1 + Z.of_nat n) with (pos + Z.of_nat (S n)) by lia.
  - replace (64 - Z.of_nat n) with (64 - Z.of_nat (S n) + 1) by lia. done.
Qed.

#[export, refine] Instance GppBitSource : BitSource GppBitReader GppError := {|
  unread r := drop (Z.to_nat (gpp_pos r)) (bits_of (gpp_bytes r));
  reader_wf r := cursor_ok (gpp_bytes r) (gpp_pos r);
  eof e := e = Truncated;
  read_bits := gpp_read_bits;
  skip_bits := gpp_skip_bits;
|}.
Proof.
  - intros [bytes pos] n Hok Hn Hlen. simpl in *. pose proof Hlen as Hlen'.
    rewrite zlen_unread in Hlen by done. unfold gpp_read_bits.
    rewrite gpp_remaining_bits_eq by done. simpl.
    rewrite (proj2 (Z.ltb_ge 64 n)), (proj2 (Z.ltb_ge _ n)) by lia.
    rewrite gpp_read_loop_spec; [|done|lia|lia|].
    + eexists; split; [done|]. simpl. rewrite Z2Nat.id by lia.
      destruct Hok as [? ?]. split; [split; [done|lia]|].
      rewrite drop_drop. f_equal. lia.
    + rewrite Z2Nat.id by lia. split; [lia|]. apply Z.pow_pos_nonneg; lia.
  - intros r n Hok Hn Hlen. unfold gpp_read_bits.
    rewrite gpp_remaining_bits_eq by done.
    rewrite (proj2 (Z.ltb_ge 64 n)), (proj2 (Z.ltb_lt _ n)) by lia. eauto.
  - intros [bytes pos] n Hok Hn Hlen. simpl in *. unfold gpp_skip_bits.
    rewrite gpp_remaining_bits_eq by done. simpl.
    rewrite (proj2 (Z.ltb_ge _ n)) by lia. eexists; split; [done|].
    rewrite zlen_unread in Hlen by done. destruct Hok as [Hb ?].
    unfold buffer_ok, usize_max in Hb. simpl.
    rewrite usize_small by lia. split; [split; [done|lia]|].
    rewrite drop_drop. f_equal. lia.
  - intros r n Hok Hn Hlen. unfold gpp_skip_bits.
    rewrite gpp_remaining_bits_eq, (proj2 (Z.ltb_lt _ n)) by done. eauto.
Defined.

(** *** The TCF reader *)

Lemma tcf_total_bits_eq r : buffer_ok (tcf_bytes r) →
  tcf_total_bits r = 8 * zlen (tcf_bytes r).
Proof.
  intros Hb. unfold tcf_total_bits, buffer_ok, usize_max in *.
  pose proof (zlen_nonneg (tcf_bytes r)). rewrite usize_small; lia.
Qed.

Lemma Z_of_bits_acc_app acc l1 l2 :
  Z_of_bits_acc acc (l1 ++ l2) = Z_of_bits_acc (Z_of_bits_acc acc l1) l2.
Proof. revert acc. induction l1; intros acc; simpl; auto. Qed.

(** Up to a byte's worth of bits, inside one byte. *)
Lemma bits_in_byte bytes pos byte t :
  0 ≤ pos < 8 * zlen bytes → bytes !! Z.to_nat (pos / 8) = Some byte →
  0 ≤ t ≤ 8 - pos mod 8 →
  take (Z.to_nat t) (drop (Z.to_nat pos) (bits_of bytes))
    = bits_of_Z (Z.to_nat t) (Z.shiftr byte (8 - pos mod 8 - t)).
Proof.
  intros Hpos Hbyte Ht. pose proof (Z.mod_pos_bound pos 8 ltac:(lia)).
  pose proof (Z.div_mod pos 8 ltac:(lia)) as Hdm.
  apply list_elem_of_split_length in Hbyte as (l1&l2&->&Hl1).
  assert (Hpos' : Z.to_nat pos = (8 * length l1 + Z.to_nat (pos mod 8))%nat).
  { rewrite <-Hl1. apply Nat2Z.inj.
    rewrite Nat2Z.inj_add, Nat2Z.inj_mul, !Z2Nat.id by (try apply Z.div_pos; lia). lia. }
  assert (Hd : drop (8 * length l1) (bits_of (l1 ++ byte :: l2)) = bits_of_Z 8 byte ++ bits_of l2).
  { replace (bits_of (l1 ++ byte :: l2)) with (bits_of l1 ++ bits_of_Z 8 byte ++ bits_of l2)
      by (unfold bits_of; by rewrite bind_app).
    rewrite drop_app_length' by (by rewrite length_bits_of). done. }
  rewrite Hpos', <-drop_drop, Hd.
  rewrite drop_app_le by (rewrite length_bits_of_Z; lia).
  rewrite take_app_le by (rewrite length_drop, length_bits_of_Z; lia).
  rewrite bits_of_Z_slice by lia. do 2 f_equal. lia.
Qed.

Lemma push_bits value chunk t n : 0 ≤ t → 0 ≤ n → n + t ≤ 64 →
  0 ≤ value < 2 ^ n → 0 ≤ chunk < 2 ^ t →
  Z.lor (u64 (Z.shiftl value t)) chunk = value * 2 ^ t + chunk ∧
  0 ≤ value * 2 ^ t + chunk < 2 ^ (n + t).
Proof.
  intros Ht Hn Hnt Hv Hc. rewrite Z.pow_add_r by lia.
  assert (2 ^ n * 2 ^ t ≤ 2 ^ 64).
  { rewrite <-Z.pow_add_r by lia. apply Z.pow_le_mono_r; lia. }
  rewrite u64_small.
  - rewrite lor_shiftl_add by lia. split; [done|nia].
  - rewrite Z.shiftl_mul_pow2 by lia. nia.
Qed.

Lemma chunk_mask t : 1 ≤ t ≤ 8 →
  (if t =? 8 then 255 else u8 (Z.shiftl 1 t) - 1) = Z.shiftl 1 t - 1.
Proof.
  intros Ht.
  assert (t = 1 ∨ t = 2 ∨ t = 3 ∨ t = 4 ∨ t = 5 ∨ t = 6 ∨ t = 7 ∨ t = 8) by lia.
  destruct_or!; subst t; reflexivity.
Qed.

Lemma tcf_read_loop_spec fuel bytes value left pos n :
  cursor_ok bytes pos → 0 ≤ left ≤ 8 * zlen bytes - pos → left ≤ Z.of_nat fuel →
  0 ≤ n → n + left ≤ 64 → 0 ≤ value < 2 ^ n →
  tcf_read_loop fuel bytes value left pos =
    Ok (Z_of_bits_acc value (take (Z.to_nat left) (drop (Z.to_nat pos) (bits_of bytes))),
        pos + left).
Proof.
  revert value left pos n.
  induction fuel as [|fuel IH]; intros value left pos n Hok Hl Hf Hn Hnl Hv; cbn [tcf_read_loop].
  { rewrite (proj2 (Z.leb_le left 0)) by lia. replace left with 0 by lia.
    simpl. by rewrite Z.add_0_r. }
  case_eq (left <=? 0); intros Hl0; bools.
  { replace left with 0 by lia. simpl. by rewrite Z.add_0_r. }
  pose proof Hok as [Hb Hpos]. pose proof (Z.mod_pos_bound pos 8 ltac:(lia)).
  destruct (bits_at bytes pos) as (byte&Hbyte&_); [lia|]. rewrite Hbyte.
  set (t := Z.min left (8 - pos mod 8)).
  rewrite chunk_mask, land_ones_mask by lia.
  pose proof (bits_in_byte bytes pos byte t ltac:(lia) Hbyte ltac:(lia)) as Hslice.
  set (chunk := Z.shiftr byte _ mod 2 ^ t).
  assert (Hchunk : Z_of_bits (take (Z.to_nat t) (drop (Z.to_nat pos) (bits_of bytes))) = chunk).
  { rewrite Hslice, Z_of_bits_bits_of_Z, Z2Nat.id by lia. done. }
  assert (0 ≤ chunk < 2 ^ t) by (apply Z.mod_pos_bound, Z.pow_pos_nonneg; lia).
  destruct (push_bits value chunk t n) as [-> Hv']; [lia..|done|done|].
  rewrite (IH _ _ _ (n + t)); [|split; [done|lia]|lia..|done].
  f_equal. f_equal; [|lia].
  replace (Z.to_nat left) with (Z.to_nat t + Z.to_nat (left - t))%nat by lia.
  rewrite <-take_take_drop, Z_of_bits_acc_app, drop_drop.
  rewrite (Z_of_bits_acc_spec value), Hchunk, zlen_take by (rewrite zlen_unread; [lia|done]).
  do 3 f_equal. lia.
Qed.

#[export, refine] Instance TcfBitSource : BitSource TcfBitReader BitReaderError := {|
  unread r := drop (Z.to_nat (tcf_cursor r)) (bits_of (tcf_bytes r));
  reader_wf r := cursor_ok (tcf_bytes r) (tcf_cursor r);
  eof e := ∃ what n r, e = past_end what n r;
  read_bits := tcf_read_bits;
  skip_bits := tcf_skip_bits;
|}.
Proof.
  - intros [bytes pos] n Hok Hn Hlen. simpl in *. rewrite zlen_unread in Hlen by done.
    pose proof Hok as [Hb ?]. unfold tcf_read_bits. simpl tcf_cursor.
    rewrite tcf_total_bits_eq by done.
    rewrite usize_small by (unfold buffer_ok, usize_max in *; lia).
    rewrite (proj2 (Z.ltb_ge 64 n)) by lia.
    case_eq (n =? 0); intros Hn0; bools.
    { subst n. eexists; split; [done|]. done. }
    rewrite (proj2 (Z.ltb_ge _ _)) by (simpl; lia).
    simpl tcf_bytes. rewrite (tcf_read_loop_spec _ _ _ _ _ 0); [|done|lia..|done].
    eexists; split; [done|]. simpl. split; [split; [done|lia]|].
    rewrite drop_drop. f_equal. lia.
  - intros [bytes pos] n Hok Hn Hlen. simpl in *. rewrite zlen_unread in Hlen by done.
    pose proof Hok as [Hb ?]. unfold tcf_read_bits. simpl tcf_cursor.
    rewrite tcf_total_bits_eq by done.
    rewrite usize_small by (unfold buffer_ok, usize_max in *; lia).
    rewrite (proj2 (Z.ltb_ge 64 n)), (proj2 (Z.eqb_neq n 0)) by lia.
    rewrite (proj2 (Z.ltb_lt _ _)) by (simpl; lia). eauto 10.
  - intros [bytes pos] n Hok Hn Hlen. simpl in *. rewrite zlen_unread in Hlen by done.
    pose proof Hok as [Hb ?]. unfold tcf_skip_bits. simpl tcf_cursor.
    rewrite tcf_total_bits_eq by done.
    rewrite usize_small by (unfold buffer_ok, usize_max in *; lia).
    rewrite (proj2 (Z.ltb_ge _ _)) by (simpl; lia). eexists; split; [done|].
    simpl. split; [split; [done|lia]|]. rewrite drop_drop. f_equal. lia.
  - intros [bytes pos] n Hok Hn Hlen. simpl in *. rewrite zlen_unread in Hlen by done.
    pose proof Hok as [Hb ?]. unfold tcf_skip_bits. simpl tcf_cursor.
    rewrite tcf_total_bits_eq by done.
    rewrite usize_small by (unfold buffer_ok, usize_max in *; lia).
    rewrite (proj2 (Z.ltb_lt _ _)) by (simpl; lia). eauto 10.
Defined.

(** *** The exchange's offset functions *)

Lemma exch_read_bit_spec data off : 0 ≤ off →
  exch_read_bit data off = bits_of data !! Z.to_nat off.
Proof.
  intros Hoff. unfold exch_read_bit. pose proof (Z.mod_pos_bound off 8 ltac:(lia)).
  rewrite bits_of_lookup. replace (Z.to_nat off / 8)%nat with (Z.to_nat (off / 8))
    by (rewrite Z2Nat.inj_div by lia; done).
  replace (Z.of_nat (Z.to_nat off mod 8)) with (off mod 8)
    by (rewrite Nat2Z.inj_mod, Z2Nat.id by lia; done).
  pose proof (Z.div_pos off 8 ltac:(lia) ltac:(lia)).
  case_eq (zlen data <=? off / 8); intros Hlt; bools; unfold zlen in Hlt.
  - by rewrite (lookup_ge_None_2 data) by lia.
  - destruct (data !! _) as [b|]; [|done]. simpl. f_equal.
    rewrite land_1_testbit by lia. by destruct (Z.testbit _ _).
Qed.

Lemma exch_read_loop_spec data off n i value :
  0 ≤ off → 0 ≤ i → (n ≤ 64)%nat → 0 ≤ value < 2 ^ (64 - Z.of_nat n) →
  exch_read_loop data off n i value =
    if decide (off + i + Z.of_nat n ≤ 8 * zlen data ∨ n = 0%nat)
    then Some (Z_of_bits_acc value (take n (drop (Z.to_nat (off + i)) (bits_of data))))
    else None.
Proof.
  intros Hoff. revert i value. induction n as [|n IH]; intros i value Hi Hn Hv.
  { rewrite decide_True by tauto. done. }
  cbn [exch_read_loop]. rewrite exch_read_bit_spec by lia.
  destruct (decide (off + i < 8 * zlen data)) as [Hin|Hout].
  - destruct (bits_at data (off + i)) as (byte&_&Hbits); [lia|].
    pose proof (f_equal head Hbits) as Hhd. rewrite head_lookup, lookup_drop in Hhd.
    rewrite Nat.add_0_r in Hhd. rewrite Hhd, Hbits. simpl mbind.
    destruct (push_bit value (Z.testbit byte (7 - (off + i) mod 8)) (64 - Z.of_nat (S n)))
      as [-> Hv']; [lia|done|].
    rewrite IH; [|lia|lia|by replace (64 - Z.of_nat n) with (64 - Z.of_nat (S n) + 1) by lia].
    cbn [take Z_of_bits_acc].
    replace (off + (i + 1)) with (off + i + 1) by lia.
    destruct (decide (off + i + 1 + Z.of_nat n ≤ 8 * zlen data ∨ n = 0%nat)).
    + rewrite decide_True by lia. done.
    + rewrite decide_False by lia. done.
  - rewrite lookup_ge_None_2 by (rewrite length_bits_of; unfold zlen in *; lia).
    simpl. rewrite decide_False by lia. done.
Qed.

Lemma exch_read_bits_spec data off n : 0 ≤ off → 0 < n ≤ 64 →
  exch_read_bits data off n =
    if decide (off + n ≤ 8 * zlen data)
    then Some (Z_of_bits (take (Z.to_nat n) (drop (Z.to_nat off) (bits_of data)))) else None.
Proof.
  intros Hoff Hn. unfold exch_read_bits. rewrite (proj2 (Z.ltb_ge 64 n)) by lia.
  rewrite exch_read_loop_spec; [|lia|lia|lia|].
  - rewrite Z.add_0_r. destruct (decide (off + n ≤ 8 * zlen data)).
    + rewrite decide_True by lia. done.
    + rewrite decide_False by lia. done.
  - split; [lia|]. apply Z.pow_pos_nonneg; lia.
Qed.

(** ** Reasoning about decoders built from reads *)

Section Decoders.
Context {R E : Type} `{BitSource R E}.

(** [m] accepts the bits [l] as [a], whatever follows them. *)
Definition parses {A} (m : M R E A) (l : list bool) (a : A) : Prop :=
  ∀ r rest, reader_wf r → unread r = l ++ rest →
    ∃ r', m r = (Ok a, r') ∧ reader_wf r' ∧ unread r' = rest.

(** [m] consumes exactly [w] bits, which are related to its result by [P];
    on a shorter stream it reports the end of the stream and nothing else. *)
Definition consumes {A} (m : M R E A) (w : nat) (P : list bool → A → Prop) : Prop :=
  ∀ r, reader_wf r →
    ((w ≤ length (unread r))%nat → ∃ a r', m r = (Ok a, r') ∧ reader_wf r'
       ∧ unread r' = drop w (unread r) ∧ P (take w (unread r)) a) ∧
    ((length (unread r) < w)%nat → ∃ e r', m r = (Err e, r') ∧ eof e).

(** What [m] accepts is described by [P]: on success it consumed some bits
    that [P] relates to the result, and it never panics. *)
Definition accepts {A} (m : M R E A) (P : list bool → A → Prop) : Prop :=
  ∀ r, reader_wf r →
    match m r with
    | (Ok a, r') => reader_wf r' ∧ ∃ l, unread r = l ++ unread r' ∧ P l a
    | (Err _, _) => True
    | (Panic, _) => False
    end.

(** The [n]-bit big-endian field [v]. *)
Definition field (n : nat) (l : list bool) (v : Z) : Prop :=
  l = bits_of_Z n v ∧ 0 ≤ v < 2 ^ Z.of_nat n.

Lemma parses_ret {A} (a : A) : parses (mret a) [] a.
Proof. intros r rest Hr Hu. by exists r. Qed.

Lemma parses_bind {A B} (m : M R E A) (k : A → M R E B) l1 l2 a b :
  parses m l1 a → parses (k a) l2 b → parses (m ≫= k) (l1 ++ l2) b.
Proof.
  intros Hm Hk r rest Hr Hu. rewrite <-app_assoc in Hu.
  destruct (Hm r (l2 ++ rest) Hr Hu) as (r1&H1&?&?).
  rewrite (M_bind_Ok _ _ _ _ _ H1). by apply Hk.
Qed.

Lemma parses_read n v : (n ≤ 64)%nat → 0 ≤ v < 2 ^ Z.of_nat n →
  parses (read_bits (Z.of_nat n)) (bits_of_Z n v) v.
Proof.
  intros Hn Hv r rest Hr Hu.
  destruct (read_bits_ok r (Z.of_nat n)) as (r'&Hrd&Hr'&Hu'); [done|lia| |].
  { rewrite Hu. unfold zlen. rewrite length_app, length_bits_of_Z. lia. }
  rewrite Nat2Z.id, Hu in *.
  rewrite take_app_length', drop_app_length' in * by by rewrite length_bits_of_Z.
  rewrite Z_of_bits_small in Hrd by done. eauto.
Qed.

Lemma parses_skip l : parses (skip_bits (zlen l)) l tt.
Proof.
  intros r rest Hr Hu.
  destruct (skip_bits_ok r (zlen l)) as (r'&Hrd&Hr'&Hu'); [done|auto with pbs| |].
  { rewrite Hu, zlen_app. pose proof (zlen_nonneg rest). lia. }
  unfold zlen in Hu'. rewrite Nat2Z.id, Hu, drop_app_length in Hu'. eauto.
Qed.

Lemma parses_repeat {A} (m : M R E A) (enc : A → list bool) xs :
  Forall (λ x, parses m (enc x) x) xs →
  parses (M_repeat (length xs) m) (xs ≫= enc) xs.
Proof.
  induction 1 as [|x xs Hx Hxs IH]; [apply parses_ret|].
  change ((x :: xs) ≫= enc) with (enc x ++ (xs ≫= enc)).
  eapply parses_bind; [exact Hx|]. rewrite <-(app_nil_r (xs ≫= enc)).
  eapply parses_bind; [apply IH|]. apply parses_ret.
Qed.

Lemma consumes_ret {A} (a : A) (P : list bool → A → Prop) : P [] a → consumes (mret a) 0 P.
Proof. intros HP r Hr. split; [|lia]. intros _. by exists a, r. Qed.

Lemma consumes_bind {A B} (m : M R E A) (k : A → M R E B) w1 w2 P Q :
  consumes m w1 P → (∀ a l, P l a → consumes (k a) w2 (λ l', Q (l ++ l'))) →
  consumes (m ≫= k) (w1 + w2) Q.
Proof.
  intros Hm Hk r Hr. destruct (Hm r Hr) as [Hok Herr].
  destruct (decide (w1 ≤ length (unread r))%nat) as [Hw|Hw].
  - destruct (Hok Hw) as (a&r1&H1&Hr1&Hu1&Ha). destruct (Hk a _ Ha r1 Hr1) as [Hok2 Herr2].
    rewrite (M_bind_Ok _ _ _ _ _ H1), Hu1, drop_drop, length_drop, take_take_drop in *.
    split; intros; [apply Hok2|apply Herr2]; lia.
  - destruct Herr as (e&r1&H1&He); [lia|]. split; [lia|]. intros _.
    rewrite (M_bind_Err _ _ _ _ _ H1). eauto.
Qed.

Lemma consumes_mono {A} (m : M R E A) w w' (P Q : list bool → A → Prop) :
  consumes m w P → w = w' → (∀ l a, P l a → Q l a) → consumes m w' Q.
Proof.
  intros Hm <- HPQ r Hr. destruct (Hm r Hr) as [Hok Herr]. split; [|done].
  intros Hw. destruct (Hok Hw) as (a&r'&?&?&?&?). eauto 10.
Qed.

Lemma consumes_width {A} (m : M R E A) w w' P :
  consumes m w P → w = w' → consumes m w' P.
Proof. by intros ? <-. Qed.

Lemma consumes_read n : (n ≤ 64)%nat →
  consumes (read_bits (Z.of_nat n)) n (field n).
Proof.
  intros Hn r Hr. split; intros Hl.
  - destruct (read_bits_ok r (Z.of_nat n)) as (r'&Hrd&Hr'&Hu');
      [done|lia|unfold zlen; lia|]. rewrite Nat2Z.id in *.
    eexists _, r'. split; [exact Hrd|]. do 2 (split; [done|]).
    assert (Hlen : length (take n (unread r)) = n) by (rewrite length_take; lia).
    split; [by rewrite (bits_of_Z_of_bits_n n)|].
    pose proof (Z_of_bits_bound (take n (unread r))) as Hb.
    unfold zlen in Hb. by rewrite Hlen in Hb.
  - destruct (read_bits_short r (Z.of_nat n)) as (e&He&?);
      [done|lia|unfold zlen; lia|]. eauto.
Qed.

Lemma consumes_skip n : (n ≤ 64)%nat →
  consumes (skip_bits (Z.of_nat n)) n (λ l _, length l = n).
Proof.
  intros Hn r Hr. split; intros Hl.
  - destruct (skip_bits_ok r (Z.of_nat n)) as (r'&Hrd&Hr'&Hu');
      [done|lia|unfold zlen; lia|]. rewrite Nat2Z.id in *.
    exists tt, r'. do 3 (split; [done|]). rewrite length_take. lia.
  - destruct (skip_bits_short r (Z.of_nat n)) as (e&He&?);
      [done|lia|unfold zlen; lia|]. eauto.
Qed.

Lemma accepts_ret {A} (a : A) (P : list bool → A → Prop) : P [] a → accepts (mret a) P.
Proof. intros HP r Hr. split; [done|]. by exists []. Qed.

Lemma accepts_err {A} e (P : list bool → A → Prop) : accepts (M_err e) P.
Proof. done. Qed.

Lemma accepts_bind {A B} (m : M R E A) (k : A → M R E B) P Q :
  accepts m P → (∀ a l, P l a → accepts (k a) (λ l', Q (l ++ l'))) → accepts (m ≫= k) Q.
Proof.
  intros Hm Hk r Hr. specialize (Hm r Hr). unfold mbind, M_bind.
  destruct (m r) as [[a|e|] r1]; [|done..]. destruct Hm as (Hr1&l&Hu&Ha).
  specialize (Hk a l Ha r1 Hr1). destruct (k a r1) as [[b|e|] r2]; [|done..].
  destruct Hk as (Hr2&l'&Hu'&HQ). split; [done|]. exists (l ++ l').
  by rewrite Hu, Hu', app_assoc.
Qed.

Lemma accepts_mono {A} (m : M R E A) (P Q : list bool → A → Prop) :
  accepts m P → (∀ l a, P l a → Q l a) → accepts m Q.
Proof.
  intros Hm HPQ r Hr. specialize (Hm r Hr). destruct (m r) as [[a|e|] r1]; [|done..].
  destruct Hm as (?&l&?&?). eauto 10.
Qed.

Lemma accepts_map_err {A} f (m : M R E A) P : accepts m P → accepts (M_map_err f m) P.
Proof.
  intros Hm r Hr. specialize (Hm r Hr). unfold M_map_err.
  destruct (m r) as [[a|e|] r1]; done.
Qed.

Lemma consumes_accepts {A} (m : M R E A) w P : consumes m w P → accepts m P.
Proof.
  intros Hm r Hr. destruct (Hm r Hr) as [Hok Herr].
  destruct (decide (w ≤ length (unread r))%nat) as [Hw|Hw].
  - destruct (Hok Hw) as (a&r1&->&?&Hu&?). split; [done|].
    exists (take w (unread r)). by rewrite Hu, take_drop.
  - destruct Herr as (e&r1&->&?); [lia|done].
Qed.

Lemma accepts_collect {A} n i (m : Z → M R E A) (P : Z → list bool → A → Prop) :
  (∀ j, i ≤ j < i + Z.of_nat n → accepts (m j) (P j)) →
  accepts (M_collect n i m) (λ l xs, length xs = n ∧
    ∃ ls, l = concat ls ∧ length ls = n ∧
      ∀ k x b, xs !! k = Some x → ls !! k = Some b → P (i + Z.of_nat k) b x).
Proof.
  revert i. induction n as [|n IH]; intros i Hm; simpl.
  { apply accepts_ret. split; [done|]. by exists []. }
  eapply accepts_bind; [apply Hm; lia|]. intros x l Hx.
  eapply accepts_bind; [apply (IH (i + 1)); intros; apply Hm; lia|].
  intros xs l' (Hlen&ls&->&Hls&HP). apply accepts_ret. split; [simpl; lia|].
  exists (l :: ls). rewrite app_nil_r. split_and!; [done|simpl; lia|].
  intros [|k] y b Hy Hb; simpl in *; simplify_eq; [by rewrite Z.add_0_r|].
  replace (i + Z.of_nat (S k)) with (i + 1 + Z.of_nat k) by lia. eauto.
Qed.

Lemma parses_map_err {A} f (m : M R E A) l a : parses m l a → parses (M_map_err f m) l a.
Proof.
  intros Hm r rest Hr Hu. destruct (Hm r rest Hr Hu) as (r'&Hmr&?&?).
  exists r'. unfold M_map_err. by rewrite Hmr.
Qed.

Lemma parses_collect {A} i (m : Z → M R E A) (ls : list (list bool)) xs :
  length ls = length xs →
  (∀ k x b, xs !! k = Some x → ls !! k = Some b → parses (m (i + Z.of_nat k)) b x) →
  parses (M_collect (length xs) i m) (concat ls) xs.
Proof.
  revert i ls. induction xs as [|x xs IH]; intros i [|b ls] Hlen Hm; try done; simpl.
  { apply parses_ret. }
  eapply parses_bind.
  { specialize (Hm 0%nat x b eq_refl eq_refl). by rewrite Z.add_0_r in Hm. }
  rewrite <-(app_nil_r (concat ls)). eapply parses_bind; [|apply parses_ret].
  apply IH; [by injection Hlen|]. intros k y b' Hy Hb.
  specialize (Hm (S k) y b' Hy Hb).
  by replace (i + 1 + Z.of_nat k) with (i + Z.of_nat (S k)) by lia.
Qed.

Lemma consumes_repeat {A} (m : M R E A) w (P : A → Prop) (enc : A → list bool) n :
  consumes m w (λ l a, l = enc a ∧ P a) →
  consumes (M_repeat n m) (n * w) (λ l xs, l = xs ≫= enc ∧ length xs = n ∧ Forall P xs).
Proof.
  intros Hm. induction n as [|n IH]; [by apply consumes_ret|].
  apply (consumes_bind _ _ w (n * w) (λ l a, l = enc a ∧ P a)); [done|]. intros a l [-> Ha].
  rewrite <-(Nat.add_0_r (n * w)). eapply consumes_bind; [exact IH|].
  intros xs l (->&Hl&Hxs). apply consumes_ret. rewrite app_nil_r.
  split_and!; [done|simpl; lia|by constructor].
Qed.
End Decoders.

(** A fresh reader sees the whole buffer. *)
Lemma gpp_new_wf bytes : buffer_ok bytes →
  reader_wf (gpp_new bytes) ∧ unread (gpp_new bytes) = bits_of bytes.
Proof. intros Hb. split; [split; [done|]|done]. simpl. pose proof (zlen_nonneg bytes). lia. Qed.
Lemma tcf_new_wf bytes : buffer_ok bytes →
  reader_wf (tcf_new bytes) ∧ unread (tcf_new bytes) = bits_of bytes.
Proof. intros Hb. split; [split; [done|]|done]. simpl. pose proof (zlen_nonneg bytes). lia. Qed.

(** The generic lemmas at each reader. *)
Lemma gpp_consumes_read k n : k = Z.of_nat n → (n ≤ 64)%nat →
  consumes (gpp_read_bits k) n (field n).
Proof. intros ->. exact (@consumes_read _ _ GppBitSource n). Qed.
Lemma gpp_consumes_skip k n : k = Z.of_nat n → (n ≤ 64)%nat →
  consumes (gpp_skip_bits k) n (λ l _, length l = n).
Proof. intros ->. exact (@consumes_skip _ _ GppBitSource n). Qed.
Lemma gpp_parses_read k n v : k = Z.of_nat n → (n ≤ 64)%nat → 0 ≤ v < 2 ^ Z.of_nat n →
  parses (gpp_read_bits k) (bits_of_Z n v) v.
Proof. intros ->. exact (@parses_read _ _ GppBitSource n v). Qed.
Lemma gpp_parses_skip k l : k = zlen l → parses (gpp_skip_bits k) l tt.
Proof. intros ->. exact (@parses_skip _ _ GppBitSource l). Qed.
Lemma tcf_consumes_read k n : k = Z.of_nat n → (n ≤ 64)%nat →
  consumes (tcf_read_bits k) n (field n).
Proof. intros ->. exact (@consumes_read _ _ TcfBitSource n). Qed.
Lemma tcf_parses_read k n v : k = Z.of_nat n → (n ≤ 64)%nat → 0 ≤ v < 2 ^ Z.of_nat n →
  parses (tcf_read_bits k) (bits_of_Z n v) v.
Proof. intros ->. exact (@parses_read _ _ TcfBitSource n v). Qed.

Lemma gpp_read_bits_eq bytes pos n : cursor_ok bytes pos → 0 ≤ n ≤ 64 →
  gpp_read_bits n {| gpp_bytes := bytes; gpp_pos := pos |} =
    if decide (pos + n ≤ 8 * zlen bytes)
    then (Ok (Z_of_bits (bit_slice (bits_of bytes) pos n)),
          {| gpp_bytes := bytes; gpp_pos := pos + n |})
    else (Err Truncated, {| gpp_bytes := bytes; gpp_pos := pos |}).
Proof.
  intros Hok Hn. unfold gpp_read_bits. rewrite gpp_remaining_bits_eq, zlen_unread by done.
  rewrite (proj2 (Z.ltb_ge 64 n)) by lia. simpl.
  destruct (decide _).
  - rewrite (proj2 (Z.ltb_ge _ n)) by lia. rewrite gpp_read_loop_spec; [|done|lia|lia|].
    + by rewrite Z2Nat.id by lia.
    + split; [lia|]. apply Z.pow_pos_nonneg; lia.
  - by rewrite (proj2 (Z.ltb_lt _ n)) by lia.
Qed.

Lemma tcf_read_bits_eq bytes pos n : cursor_ok bytes pos → 0 < n ≤ 64 →
  let r := {| tcf_bytes := bytes; tcf_cursor := pos |} in
  tcf_read_bits n r =
    if decide (pos + n ≤ 8 * zlen bytes)
    then (Ok (Z_of_bits (bit_slice (bits_of bytes) pos n)),
          {| tcf_bytes := bytes; tcf_cursor := pos + n |})
    else (Err (past_end "read_bits" n r), r).
Proof.
  intros Hok Hn r. pose proof Hok as [Hb ?]. unfold tcf_read_bits.
  rewrite tcf_total_bits_eq by done. simpl tcf_cursor. simpl tcf_bytes.
  rewrite (proj2 (Z.ltb_ge 64 n)), (proj2 (Z.eqb_neq n 0)) by lia.
  rewrite usize_small by (unfold buffer_ok, usize_max in *; lia).
  destruct (decide _).
  - rewrite (proj2 (Z.ltb_ge _ (pos + n))) by lia.
    by rewrite (tcf_read_loop_spec _ _ _ _ _ 0) by (done || lia).
  - by rewrite (proj2 (Z.ltb_lt _ (pos + n))) by lia.
Qed.

(** C20: At any position of any buffer, reading 1 to 64 bits gives the same
    result in the three readers of the code base: when the bits are there, the
    bit-by-bit GPP reader, the byte-at-a-time TCF reader and the exchange's
    offset function all return the number the next [n] bits spell and advance
    by exactly [n]; otherwise each reports its end-of-data error with the
    cursor unmoved.  No read panics and every loop ends. *)
Theorem readers_agree bytes pos n :
  buffer_ok bytes → 0 ≤ pos ≤ 8 * zlen bytes → 0 < n ≤ 64 →
  let g := {| gpp_bytes := bytes; gpp_pos := pos |} in
  let t := {| tcf_bytes := bytes; tcf_cursor := pos |} in
  if decide (pos + n ≤ 8 * zlen bytes) then
    let v := Z_of_bits (bit_slice (bits_of bytes) pos n) in
    gpp_read_bits n g = (Ok v, {| gpp_bytes := bytes; gpp_pos := pos + n |}) ∧
    tcf_read_bits n t = (Ok v, {| tcf_bytes := bytes; tcf_cursor := pos + n |}) ∧
    exch_read_bits bytes pos n = Some v
  else
    gpp_read_bits n g = (Err Truncated, g) ∧
    tcf_read_bits n t = (Err (past_end "read_bits" n t), t) ∧
    exch_read_bits bytes pos n = None.
Proof.
  intros Hb Hpos Hn g t. subst g t.
  rewrite gpp_read_bits_eq, tcf_read_bits_eq, exch_read_bits_spec by (done || lia).
  by destruct (decide _).
Qed.

Lemma readers_agree_witness :
  buffer_ok [171; 205] ∧
  gpp_read_bits 8 {| gpp_bytes := [171; 205]; gpp_pos := 5 |} =
    (Ok 121, {| gpp_bytes := [171; 205]; gpp_pos := 13 |}) ∧
  exch_read_bits [171; 205] 5 8 = Some 121.
Proof.
  split; [by vm_compute|].
  destruct (readers_agree [171; 205] 5 8) as (Hg&_&He); [by vm_compute..|].
  split; [exact Hg|exact He].
Defined.
