(* ===== verification/GppSections.v ===== *)
(** * GPP: section registry, header and section decoders

    privacy/src/gpp: [section.rs] (the registry of section ids), [header.rs]
    (the `header~section~...` container), [policy.rs], and the decoders of
    [sections/]: [uspv1.rs], [usnat.rs] and the sixteen US state sections.
    The state decoders share one record shape and one of three bodies; each
    state's parser is its own definition, made from its body and its
    constants.  Base64 is third-party and a parameter. *)

From S2P Require Import Prelude Bits BitReader.

(** ** section.rs *)

Inductive SectionId : Type :=
| TcfEuV2 | UspV1 | UsNatV1 | UsCaV1 | UsVaV1 | UsCoV1 | UsUtV1 | UsCtV1 | UsFlV1
| UsMtV1 | UsOrV1 | UsTxV1 | UsDeV1 | UsIaV1 | UsNeV1 | UsNhV1 | UsNjV1 | UsTnV1.

#[export] Instance SectionId_eq_dec : EqDecision SectionId.
Proof. solve_decision. Defined.

Definition section_from_i32 (v : Z) : outcome GppError SectionId :=
  match v with
  | 2 => Ok TcfEuV2 | 6 => Ok UspV1 | 7 => Ok UsNatV1 | 8 => Ok UsCaV1 | 9 => Ok UsVaV1
  | 10 => Ok UsCoV1 | 11 => Ok UsUtV1 | 12 => Ok UsCtV1 | 13 => Ok UsFlV1 | 14 => Ok UsMtV1
  | 15 => Ok UsOrV1 | 16 => Ok UsTxV1 | 17 => Ok UsDeV1 | 18 => Ok UsIaV1 | 19 => Ok UsNeV1
  | 20 => Ok UsNhV1 | 21 => Ok UsNjV1 | 22 => Ok UsTnV1
  | other => Err (UnknownSection other)
  end.

Definition section_as_i32 (s : SectionId) : Z :=
  match s with
  | TcfEuV2 => 2 | UspV1 => 6 | UsNatV1 => 7 | UsCaV1 => 8 | UsVaV1 => 9 | UsCoV1 => 10
  | UsUtV1 => 11 | UsCtV1 => 12 | UsFlV1 => 13 | UsMtV1 => 14 | UsOrV1 => 15 | UsTxV1 => 16
  | UsDeV1 => 17 | UsIaV1 => 18 | UsNeV1 => 19 | UsNhV1 => 20 | UsNjV1 => 21 | UsTnV1 => 22
  end.

Definition section_name (s : SectionId) : string :=
  match s with
  | TcfEuV2 => "tcfeuv2" | UspV1 => "uspv1" | UsNatV1 => "usnatv1" | UsCaV1 => "uscav1"
  | UsVaV1 => "usvav1" | UsCoV1 => "uscov1" | UsUtV1 => "usutv1" | UsCtV1 => "usctv1"
  | UsFlV1 => "usflv1" | UsMtV1 => "usmtv1" | UsOrV1 => "usorv1" | UsTxV1 => "ustxv1"
  | UsDeV1 => "usdev1" | UsIaV1 => "usiav1" | UsNeV1 => "usnev1" | UsNhV1 => "usnhv1"
  | UsNjV1 => "usnjv1" | UsTnV1 => "ustnv1"
  end.

(** ** policy.rs *)

Record GppPolicy : Type := {
  gp_consent_string : option string;
  gp_gpp : option string;
  gp_gpp_sid : list Z;
  gp_no_sale_bidders : list string;
}.
Definition gpp_applies (p : GppPolicy) (section_id : Z) : bool :=
  bool_decide (section_id ∈ gp_gpp_sid p).

(** ** header.rs *)

Section Header.
(** [URL_SAFE_NO_PAD.decode], its error already displayed. *)
Context (b64_decode : string → outcome string (list Z)).

(** [while reader.remaining_bits() > 0]: one bit per turn, so as many turns
    as bits remain; running out of fuel is [Panic]. *)
Fixpoint header_ids (fuel : nat) (idx : Z) (ids : list SectionId)
    : M GppBitReader GppError (list SectionId) := λ r,
  if gpp_remaining_bits r <=? 0 then (Ok ids, r)
  else match fuel with
  | O => (Panic, r)
  | S fuel' =>
      (bit ← gpp_read_bool;
       let ids' :=
         if bit : bool then
           match section_from_i32 idx with Ok sid => ids ++ [sid] | _ => ids end
         else ids in
       header_ids fuel' (i32 (idx + 1)) ids') r
  end.

Definition header_flags : M GppBitReader GppError (list SectionId) :=
  λ r, header_ids (Z.to_nat (gpp_remaining_bits r)) 1 [] r.

(** The two six-bit fields, then the flags up to the end of the stream. *)
Definition header_body : M GppBitReader GppError (list SectionId) :=
  _gpp_type ← gpp_read_u6;
  _gpp_version ← gpp_read_u6;
  header_flags.

Definition parse_gpp_header (s : string) : outcome GppError (list SectionId * list string) :=
  let parts := split_char (ch "~") s in
  match parts with
  | [] => Err (InvalidHeader "empty GPP string")
  | header :: payloads =>
      if str_is_empty header then Err (InvalidHeader "empty header segment")
      else
        decoded ← map_err Base64 (b64_decode header);
        ids ← M_run (gpp_new decoded) header_body;
        if negb (length ids =? length payloads)%nat
        then let n := Nat.min (length ids) (length payloads) in
             Ok (take n ids, take n payloads)
        else Ok (ids, payloads)
  end.
End Header.

(** ** sections/uspv1.rs *)

(** The three [char] fields hold the byte read as a Latin-1 code point. *)
Record UspV1Section : Type := {
  usp_version : Z; usp_explicit_notice : Z; usp_opt_out_sale : Z; usp_lspa_covered : Z;
}.

(** [(b as char).to_digit(10)] *)
Definition to_digit_10 (b : Z) : option Z :=
  if (48 <=? b) && (b <=? 57) then Some (b - 48) else None.

Definition uspv1_parse (payload : string) : outcome GppError UspV1Section :=
  let bytes := string_bytes payload in
  match bytes with
  | [b0; b1; b2; b3] =>
      match to_digit_10 b0 with
      | None => Err (BadBitfield "USP V1 version not a digit")
      | Some d => Ok {| usp_version := u8 d; usp_explicit_notice := b1;
                        usp_opt_out_sale := b2; usp_lspa_covered := b3 |}
      end
  | _ => Err (BadBitfield ("USP V1 must be 4 chars, got " +:+ pretty (zlen bytes)))
  end.

(** [r.read_bits(2)? as u8] *)
Definition gpp_read_2 : M GppBitReader GppError Z := v ← gpp_read_bits 2; mret (u8 v).

(** ** sections/usnat.rs *)

Record UsNatSection : Type := {
  nat_version : Z; nat_sharing_notice : Z; nat_sale_opt_out_notice : Z;
  nat_sale_opt_out : Z; nat_targeted_advertising_opt_out : Z; nat_known_child : Z;
}.

(** [known_child] is read only when 34 more bits are there. *)
Definition usnat_known_child : M GppBitReader GppError Z := λ r,
  if 2 * 16 + 2 <=? gpp_remaining_bits r
  then (_ ← gpp_skip_bits (2 * 16); gpp_read_2) r
  else (Ok 0, r).

Definition usnat_core : M GppBitReader GppError UsNatSection :=
  version ← gpp_read_u6;
  sharing_notice ← gpp_read_2;
  sale_opt_out_notice ← gpp_read_2;
  _ ← gpp_skip_bits (2 * 4);
  sale_opt_out ← gpp_read_2;
  _ ← gpp_skip_bits 2;
  targeted_advertising_opt_out ← gpp_read_2;
  known_child ← usnat_known_child;
  mret {| nat_version := version; nat_sharing_notice := sharing_notice;
          nat_sale_opt_out_notice := sale_opt_out_notice;
          nat_sale_opt_out := sale_opt_out;
          nat_targeted_advertising_opt_out := targeted_advertising_opt_out;
          nat_known_child := known_child |}.

Definition usnat_parse (b64_decode : string → outcome string (list Z)) (payload : string)
    : outcome GppError UsNatSection :=
  let core := split_first (ch ".") payload in
  if str_is_empty core then Err (BadBitfield "empty USNat core")
  else
    bytes ← map_err Base64 (b64_decode core);
    M_run (gpp_new bytes) usnat_core.

(** ** sections/us{ca,co,ct,de,fl,ia,mt,ne,nh,nj,or,tn,tx,ut,va}.rs *)

(** The fifteen state structs have the same fields. *)
Record UsSection : Type := {
  us_version : Z;
  us_sharing_notice : Z;
  us_sale_opt_out_notice : Z;
  us_sharing_opt_out_notice : Z;
  us_targeted_advertising_opt_out_notice : Z;
  us_sale_opt_out : Z;
  us_sharing_opt_out : Z;
  us_targeted_advertising_opt_out : Z;
  us_sensitive_data_processing : list Z;
  us_known_child_sensitive_data_consents : list Z;
  us_personal_data_consents : Z;
  us_mspa_covered : Z;
  us_mspa_opt_out_option_mode : Z;
  us_mspa_service_provider_mode : Z;
}.

Section StateBodies.
(** The module's [SENSITIVE_DATA_CATEGORIES] and [KNOWN_CHILD_FIELDS]. *)
Context (SENSITIVE_DATA_CATEGORIES KNOWN_CHILD_FIELDS : nat).

(** The body of every state but Utah and California. *)
Definition common_body : M GppBitReader GppError UsSection :=
  version ← gpp_read_u6;
  sharing_notice ← gpp_read_2;
  sale_opt_out_notice ← gpp_read_2;
  let sharing_opt_out_notice := 0 in
  targeted_advertising_opt_out_notice ← gpp_read_2;
  sale_opt_out ← gpp_read_2;
  let sharing_opt_out := 0 in
  targeted_advertising_opt_out ← gpp_read_2;
  sensitive_data_processing ← M_repeat SENSITIVE_DATA_CATEGORIES gpp_read_2;
  known_child_sensitive_data_consents ← M_repeat KNOWN_CHILD_FIELDS gpp_read_2;
  personal_data_consents ← gpp_read_2;
  mspa_covered ← gpp_read_2;
  mspa_opt_out_option_mode ← gpp_read_2;
  mspa_service_provider_mode ← gpp_read_2;
  mret (Build_UsSection version sharing_notice sale_opt_out_notice sharing_opt_out_notice
    targeted_advertising_opt_out_notice sale_opt_out sharing_opt_out
    targeted_advertising_opt_out sensitive_data_processing
    known_child_sensitive_data_consents personal_data_consents mspa_covered
    mspa_opt_out_option_mode mspa_service_provider_mode).

(** Utah: no sharing notice, two bits skipped after the
    targeted-advertising notice, no personal-data field. *)
Definition utah_body : M GppBitReader GppError UsSection :=
  version ← gpp_read_u6;
  let sharing_notice := 0 in
  sale_opt_out_notice ← gpp_read_2;
  let sharing_opt_out_notice := 0 in
  targeted_advertising_opt_out_notice ← gpp_read_2;
  _ ← gpp_skip_bits 2;
  sale_opt_out ← gpp_read_2;
  let sharing_opt_out := 0 in
  targeted_advertising_opt_out ← gpp_read_2;
  sensitive_data_processing ← M_repeat SENSITIVE_DATA_CATEGORIES gpp_read_2;
  known_child_sensitive_data_consents ← M_repeat KNOWN_CHILD_FIELDS gpp_read_2;
  let personal_data_consents := 0 in
  mspa_covered ← gpp_read_2;
  mspa_opt_out_option_mode ← gpp_read_2;
  mspa_service_provider_mode ← gpp_read_2;
  mret (Build_UsSection version sharing_notice sale_opt_out_notice sharing_opt_out_notice
    targeted_advertising_opt_out_notice sale_opt_out sharing_opt_out
    targeted_advertising_opt_out sensitive_data_processing
    known_child_sensitive_data_consents personal_data_consents mspa_covered
    mspa_opt_out_option_mode mspa_service_provider_mode).

(** California: no sharing notice and no targeted-advertising opt-out. *)
Definition california_body : M GppBitReader GppError UsSection :=
  version ← gpp_read_u6;
  let sharing_notice := 0 in
  sale_opt_out_notice ← gpp_read_2;
  sharing_opt_out_notice ← gpp_read_2;
  targeted_advertising_opt_out_notice ← gpp_read_2;
  sale_opt_out ← gpp_read_2;
  sharing_opt_out ← gpp_read_2;
  let targeted_advertising_opt_out := 0 in
  sensitive_data_processing ← M_repeat SENSITIVE_DATA_CATEGORIES gpp_read_2;
  known_child_sensitive_data_consents ← M_repeat KNOWN_CHILD_FIELDS gpp_read_2;
  personal_data_consents ← gpp_read_2;
  mspa_covered ← gpp_read_2;
  mspa_opt_out_option_mode ← gpp_read_2;
  mspa_service_provider_mode ← gpp_read_2;
  mret (Build_UsSection version sharing_notice sale_opt_out_notice sharing_opt_out_notice
    targeted_advertising_opt_out_notice sale_opt_out sharing_opt_out
    targeted_advertising_opt_out sensitive_data_processing
    known_child_sensitive_data_consents personal_data_consents mspa_covered
    mspa_opt_out_option_mode mspa_service_provider_mode).
End StateBodies.

(** The empty check in front of each body. *)
Definition state_parse (tag : string) (body : M GppBitReader GppError UsSection)
    (bytes : list Z) : outcome GppError UsSection :=
  match bytes with
  | [] => Err (BadBitfield ("empty " +:+ tag +:+ " payload"))
  | _ => M_run (gpp_new bytes) body
  end.

Definition usca_parse := state_parse "UsCa" (california_body 9 2).
Definition usco_parse := state_parse "UsCo" (common_body 7 1).
Definition usct_parse := state_parse "UsCt" (common_body 8 3).
Definition usde_parse := state_parse "UsDe" (common_body 8 2).
Definition usfl_parse := state_parse "UsFl" (common_body 8 2).
Definition usia_parse := state_parse "UsIa" (common_body 8 2).
Definition usmt_parse := state_parse "UsMt" (common_body 8 2).
Definition usne_parse := state_parse "UsNe" (common_body 8 2).
Definition usnh_parse := state_parse "UsNh" (common_body 8 2).
Definition usnj_parse := state_parse "UsNj" (common_body 8 2).
Definition usor_parse := state_parse "UsOr" (common_body 11 2).
Definition ustn_parse := state_parse "UsTn" (common_body 8 2).
Definition ustx_parse := state_parse "UsTx" (common_body 8 2).
Definition usut_parse := state_parse "UsUt" (utah_body 8 1).
Definition usva_parse := state_parse "UsVa" (common_body 8 1).

(** ** Specification of the state sections *)

Inductive UsState : Type :=
| CA | CO | CT | DE | FL | IA | MT | NE | NH | NJ | OR | TN | TX | UT | VA.

Definition us_parse (st : UsState) : list Z → outcome GppError UsSection :=
  match st with
  | CA => usca_parse | CO => usco_parse | CT => usct_parse | DE => usde_parse
  | FL => usfl_parse | IA => usia_parse | MT => usmt_parse | NE => usne_parse
  | NH => usnh_parse | NJ => usnj_parse | OR => usor_parse | TN => ustn_parse
  | TX => ustx_parse | UT => usut_parse | VA => usva_parse
  end.

(** Sensitive-data categories and known-child fields of each state. *)
Definition us_sensitive (st : UsState) : nat :=
  match st with CA => 9 | CO => 7 | OR => 11 | _ => 8 end.
Definition us_known_child (st : UsState) : nat :=
  match st with CO | UT | VA => 1 | CT => 3 | _ => 2 end.

Inductive UsLayout : Type := CommonLayout | UtahLayout | CaliforniaLayout.
Definition us_layout (st : UsState) : UsLayout :=
  match st with UT => UtahLayout | CA => CaliforniaLayout | _ => CommonLayout end.

(** The two-bit fields of a section in wire order; [skipped] is the field the
    Utah parser passes over. *)
Definition us_fields (ly : UsLayout) (skipped : Z) (s : UsSection) : list Z :=
  match ly with
  | UtahLayout =>
      [us_sale_opt_out_notice s; us_targeted_advertising_opt_out_notice s; skipped;
       us_sale_opt_out s; us_targeted_advertising_opt_out s]
      ++ us_sensitive_data_processing s ++ us_known_child_sensitive_data_consents s
      ++ [us_mspa_covered s; us_mspa_opt_out_option_mode s; us_mspa_service_provider_mode s]
  | CaliforniaLayout =>
      [us_sale_opt_out_notice s; us_sharing_opt_out_notice s;
       us_targeted_advertising_opt_out_notice s; us_sale_opt_out s; us_sharing_opt_out s]
      ++ us_sensitive_data_processing s ++ us_known_child_sensitive_data_consents s
      ++ [us_personal_data_consents s; us_mspa_covered s;
          us_mspa_opt_out_option_mode s; us_mspa_service_provider_mode s]
  | CommonLayout =>
      [us_sharing_notice s; us_sale_opt_out_notice s;
       us_targeted_advertising_opt_out_notice s; us_sale_opt_out s;
       us_targeted_advertising_opt_out s]
      ++ us_sensitive_data_processing s ++ us_known_child_sensitive_data_consents s
      ++ [us_personal_data_consents s; us_mspa_covered s;
          us_mspa_opt_out_option_mode s; us_mspa_service_provider_mode s]
  end.

(** The fields a layout does not transmit, reported as 0. *)
Definition us_absent (ly : UsLayout) (s : UsSection) : list Z :=
  match ly with
  | UtahLayout => [us_sharing_notice s; us_sharing_opt_out_notice s; us_sharing_opt_out s;
                   us_personal_data_consents s]
  | CaliforniaLayout => [us_sharing_notice s; us_targeted_advertising_opt_out s]
  | CommonLayout => [us_sharing_opt_out_notice s; us_sharing_opt_out s]
  end.

Definition two_bit (v : Z) : Prop := 0 ≤ v < 4.

Definition us_encode (ly : UsLayout) (skipped : Z) (s : UsSection) : list bool :=
  bits_of_Z 6 (us_version s) ++ (us_fields ly skipped s ≫= bits_of_Z 2).

Definition us_valid (ly : UsLayout) (sens child : nat) (skipped : Z) (s : UsSection) : Prop :=
  0 ≤ us_version s < 64 ∧ Forall two_bit (us_fields ly skipped s) ∧
  Forall (λ v, v = 0) (us_absent ly s) ∧
  length (us_sensitive_data_processing s) = sens ∧
  length (us_known_child_sensitive_data_consents s) = child.

(** Bits of a whole section. *)
Definition us_width (ly : UsLayout) (sens child : nat) : nat :=
  6 + 2 * (match ly with UtahLayout => 8 | _ => 9 end + sens + child).

Definition us_body (ly : UsLayout) : nat → nat → M GppBitReader GppError UsSection :=
  match ly with
  | CommonLayout => common_body | UtahLayout => utah_body | CaliforniaLayout => california_body
  end.

(** The registry in id order, and the sections a run of flag bits names: bit
    [k] (from 0) stands for the section with id [k + 1]. *)
Definition all_sections : list SectionId :=
  [TcfEuV2; UspV1; UsNatV1; UsCaV1; UsVaV1; UsCoV1; UsUtV1; UsCtV1; UsFlV1;
   UsMtV1; UsOrV1; UsTxV1; UsDeV1; UsIaV1; UsNeV1; UsNhV1; UsNjV1; UsTnV1].
Definition flag_set (flags : list bool) (idx : Z) : bool :=
  default false (flags !! Z.to_nat (idx - 1)).
Definition flagged (flags : list bool) : list SectionId :=
  List.filter (λ s, flag_set flags (section_as_i32 s)) all_sections.
(** The ids a loop started at [idx] can still push. *)
Definition flagged_from (idx : Z) (p : Z → bool) : list SectionId :=
  List.filter (λ s, (idx <=? section_as_i32 s) && p (section_as_i32 s)) all_sections.

(** The flags that name a set of sections, and a header that carries them. *)
Definition flags_of (ids : list SectionId) : list bool :=
  (λ i, bool_decide (Exists (λ s, section_as_i32 s = i) ids)) <$> seqZ 1 22.
Definition header_bits (gpp_type version : Z) (ids : list SectionId) : list bool :=
  bits_of_Z 6 gpp_type ++ bits_of_Z 6 version ++ flags_of ids.

(** ** Proofs: field reads *)

Lemma consumes_u6 : consumes gpp_read_u6 6 (field 6).
Proof.
  change 6%nat with (6 + 0)%nat. eapply consumes_bind; [by apply (gpp_consumes_read _ 6); lia|].
  intros v l [-> Hv]. apply consumes_ret. rewrite app_nil_r, u8_small by lia. done.
Qed.

Lemma consumes_2 : consumes gpp_read_2 2 (field 2).
Proof.
  change 2%nat with (2 + 0)%nat. eapply consumes_bind; [by apply (gpp_consumes_read _ 2); lia|].
  intros v l [-> Hv]. apply consumes_ret. rewrite app_nil_r, u8_small by lia. done.
Qed.

Lemma consumes_2s n :
  consumes (M_repeat n gpp_read_2) (n * 2)
    (λ l xs, l = xs ≫= bits_of_Z 2 ∧ length xs = n ∧ Forall two_bit xs).
Proof. apply consumes_repeat. exact consumes_2. Qed.

Lemma consumes_skip_2 : consumes (gpp_skip_bits 2) 2
  (λ l _, ∃ skipped, l = bits_of_Z 2 skipped ∧ two_bit skipped).
Proof.
  eapply consumes_mono; [by apply (gpp_consumes_skip _ 2); lia|done|].
  intros l a Hl. cbv beta in Hl. exists (Z_of_bits l). rewrite (bits_of_Z_of_bits_n 2) by done.
  split; [done|]. pose proof (Z_of_bits_bound l) as Hb. unfold zlen in Hb.
  by rewrite Hl in Hb.
Qed.

Lemma parses_u6 v : 0 ≤ v < 64 → parses gpp_read_u6 (bits_of_Z 6 v) v.
Proof.
  intros Hv. rewrite <-(app_nil_r (bits_of_Z 6 v)).
  eapply parses_bind; [by apply (gpp_parses_read _ 6); try lia|].
  rewrite u8_small by lia. apply parses_ret.
Qed.

Lemma parses_2 v : two_bit v → parses gpp_read_2 (bits_of_Z 2 v) v.
Proof.
  intros Hv. rewrite <-(app_nil_r (bits_of_Z 2 v)).
  eapply parses_bind; [by apply (gpp_parses_read _ 2); try lia|].
  unfold two_bit in Hv. rewrite u8_small by lia. apply parses_ret.
Qed.

Lemma parses_2s n xs : length xs = n → Forall two_bit xs →
  parses (M_repeat n gpp_read_2) (xs ≫= bits_of_Z 2) xs.
Proof.
  intros <- Hxs. apply parses_repeat. eapply Forall_impl; [exact Hxs|]. apply parses_2.
Qed.

(** Walks a body read by read, collecting what each read consumed. *)
Ltac consume_step :=
  eapply consumes_bind;
  [first [exact consumes_u6 | exact consumes_2 | apply consumes_2s | exact consumes_skip_2]
  |intros ? ? ?].
Ltac parse_step :=
  eapply parses_bind;
  [first [apply parses_u6 | apply parses_2 | apply parses_2s
         | by apply gpp_parses_skip]|].

(** Splits what [consume_step] collected. *)
Ltac split_fields :=
  cbv beta in *;
  repeat match goal with
  | H : field 2 _ ?v |- _ => let H' := fresh in destruct H as [-> H']; change (two_bit v) in H'
  | H : field 6 _ _ |- _ => destruct H as [-> H]
  | H : ∃ _, _ |- _ => let sk := fresh "skipped" in destruct H as [sk H]
  | H : _ = _ ∧ _ |- _ => destruct H as [-> H]
  | H : _ ∧ Forall two_bit _ |- _ => destruct H as [<- H]
  end.
Lemma fields_cons v vs : (v :: vs) ≫= bits_of_Z 2 = bits_of_Z 2 v ++ (vs ≫= bits_of_Z 2).
Proof. done. Qed.
Ltac norm_fields :=
  unfold us_encode, us_fields;
  cbn [app us_version us_sharing_notice
     us_sale_opt_out_notice us_sharing_opt_out_notice us_targeted_advertising_opt_out_notice
     us_sale_opt_out us_sharing_opt_out us_targeted_advertising_opt_out
     us_sensitive_data_processing us_known_child_sensitive_data_consents
     us_personal_data_consents us_mspa_covered us_mspa_opt_out_option_mode
     us_mspa_service_provider_mode];
  repeat (rewrite fields_cons || rewrite bind_app);
  rewrite <-?app_assoc, ?app_nil_r.
Ltac solve_encode := norm_fields; reflexivity.
Ltac solve_valid :=
  unfold us_valid, us_fields, us_absent;
  rewrite ?Forall_app; split_and!;
  repeat (apply Forall_cons_2; [first [assumption|done]|]);
  first [apply Forall_nil_2 | assumption | done | simpl in *; lia].

Lemma us_body_consumes ly sens child :
  consumes (us_body ly sens child) (us_width ly sens child)
    (λ l s, ∃ skipped, two_bit skipped ∧ l = us_encode ly skipped s
                       ∧ us_valid ly sens child skipped s).
Proof.
  destruct ly; (eapply consumes_width;
    [unfold us_body, common_body, utah_body, california_body; cbv zeta;
     repeat consume_step; apply consumes_ret
    |unfold us_width; lia]); split_fields.
  - exists 0. split; [unfold two_bit; lia|]. split; [solve_encode|solve_valid].
  - exists skipped. split; [done|]. split; [solve_encode|solve_valid].
  - exists 0. split; [unfold two_bit; lia|]. split; [solve_encode|solve_valid].
Qed.

Lemma us_body_parses ly sens child skipped s :
  two_bit skipped → us_valid ly sens child skipped s →
  parses (us_body ly sens child) (us_encode ly skipped s) s.
Proof.
  intros Hsk (Hv&Hf&Ha&Hls&Hlc).
  destruct ly, s; unfold us_body, common_body, utah_body, california_body; cbv zeta;
    unfold us_absent, us_fields in *; simpl in *;
    repeat match goal with
    | H : Forall _ (_ :: _) |- _ => apply Forall_cons in H as [? H]
    | H : Forall _ (_ ++ _) |- _ => apply Forall_app in H as [? H]
    end; subst.
  all: norm_fields; repeat (parse_step; [done..|]).
  all: rewrite <-(app_nil_r (bits_of_Z 2 _)); parse_step; [done|apply parses_ret].
Qed.

Lemma us_parse_run st bytes : bytes ≠ [] →
  us_parse st bytes =
    M_run (gpp_new bytes) (us_body (us_layout st) (us_sensitive st) (us_known_child st)).
Proof. by destruct bytes, st. Qed.

(** The sixteen payload checks and reads, seen from a fresh reader. *)
Lemma run_consumes {A} (m : M GppBitReader GppError A) w P bytes :
  consumes m w P → buffer_ok bytes →
  (Z.of_nat w ≤ 8 * zlen bytes →
     ∃ a, M_run (gpp_new bytes) m = Ok a ∧ P (take w (bits_of bytes)) a) ∧
  (8 * zlen bytes < Z.of_nat w → M_run (gpp_new bytes) m = Err Truncated).
Proof.
  intros Hm Hb. destruct (gpp_new_wf bytes Hb) as [Hwf Hu].
  destruct (Hm _ Hwf) as [Hok Herr]. rewrite Hu, length_bits_of in *.
  unfold M_run, zlen. split; intros Hw.
  - destruct Hok as (a&r'&->&_&_&HP); [lia|]. eauto.
  - destruct Herr as (e&r'&->&He); [lia|]. simpl in *. by rewrite He.
Qed.

Lemma run_parses {A} (m : M GppBitReader GppError A) l rest a bytes :
  parses m l a → buffer_ok bytes → bits_of bytes = l ++ rest →
  M_run (gpp_new bytes) m = Ok a.
Proof.
  intros Hm Hb Hl. destruct (gpp_new_wf bytes Hb) as [Hwf Hu].
  destruct (Hm _ rest Hwf) as (r'&Hr&_); [by rewrite Hu|]. unfold M_run. by rewrite Hr.
Qed.

(** ** Proofs: the header *)

Lemma section_from_as s : section_from_i32 (section_as_i32 s) = Ok s.
Proof. by destruct s. Qed.

Lemma section_from_Ok v s : section_from_i32 v = Ok s → v = section_as_i32 s.
Proof.
  unfold section_from_i32. intros H.
  repeat (match type of H with context [match ?x with _ => _ end] => destruct x end; try done);
    by injection H as <-.
Qed.

Lemma section_id_range s : 2 ≤ section_as_i32 s ≤ 22.
Proof. destruct s; simpl; lia. Qed.

Lemma flagged_from_ext idx p q : (∀ i, idx ≤ i → p i = q i) →
  flagged_from idx p = flagged_from idx q.
Proof.
  intros H. apply List.filter_ext. intros s.
  destruct (idx <=? section_as_i32 s) eqn:E; [|done]. simpl. apply H. by apply Z.leb_le.
Qed.

Lemma flagged_from_step idx p : 1 ≤ idx →
  flagged_from idx p =
    (if p idx then match section_from_i32 idx with Ok s => [s] | _ => [] end else [])
    ++ flagged_from (idx + 1) p.
Proof.
  intros Hi. destruct (Z.le_gt_cases idx 22) as [Hle|Hgt].
  - assert (Hc : idx ∈ seqZ 1 22) by (apply elem_of_seqZ; lia).
    change (seqZ 1 22) with [1;2;3;4;5;6;7;8;9;10;11;12;13;14;15;16;17;18;19;20;21;22] in Hc.
    unfold flagged_from. rewrite !filter_flat_map. unfold all_sections. destruct (p idx) eqn:Hp;
    repeat (apply elem_of_cons in Hc as [->|Hc]; [simpl; rewrite ?Hp; reflexivity|]);
    by apply elem_of_nil in Hc.
  - assert (Hno : section_from_i32 idx = Err (UnknownSection idx)).
    { destruct (section_from_i32 idx) as [s|e|] eqn:E.
      - apply section_from_Ok in E. pose proof (section_id_range s). lia.
      - unfold section_from_i32 in E. repeat break_match_hyp E; simplify_eq; done.
      - unfold section_from_i32 in E. repeat break_match_hyp E; done. }
    rewrite Hno. destruct (p idx); simpl; unfold flagged_from;
      apply List.filter_ext; intros s; pose proof (section_id_range s);
      by rewrite !(proj2 (Z.leb_gt _ _)) by lia.
Qed.

Lemma gpp_parses_bool b : parses gpp_read_bool [b] b.
Proof.
  change [b] with (bits_of_Z 1 (Z.b2z b) ++ []) || replace [b] with (bits_of_Z 1 (Z.b2z b) ++ [])
    by by destruct b.
  eapply parses_bind; [by apply (gpp_parses_read _ 1); try lia; destruct b; simpl; lia|].
  replace (Z.b2z b =? 1) with b by by destruct b. apply parses_ret.
Qed.

Lemma gpp_remaining_unread r : reader_wf r → gpp_remaining_bits r = zlen (unread r).
Proof. apply gpp_remaining_bits_eq. Qed.

Lemma flagged_from_1 flags :
  flagged_from 1 (λ i, default false (flags !! Z.to_nat (i - 1))) = flagged flags.
Proof.
  unfold flagged_from, flagged. apply List.filter_ext. intros s.
  pose proof (section_id_range s). by rewrite (proj2 (Z.leb_le _ _)) by lia.
Qed.

Lemma header_ids_spec fuel idx ids r :
  reader_wf r → (length (unread r) ≤ fuel)%nat →
  1 ≤ idx → idx + zlen (unread r) < 2 ^ 31 →
  ∃ r', header_ids fuel idx ids r =
    (Ok (ids ++ flagged_from idx (λ i, default false (unread r !! Z.to_nat (i - idx)))), r').
Proof.
  revert idx ids r. induction fuel as [|fuel IH]; intros idx ids r Hr Hf Hi Hb;
    cbn [header_ids]; rewrite gpp_remaining_unread by done;
    destruct (unread r) as [|b l] eqn:Hu; try (simpl in Hf; lia).
  1,2: exists r; simpl; unfold flagged_from;
    by rewrite (List.filter_ext _ (λ _, false)) by (intros; by rewrite andb_false_r);
    simpl; rewrite app_nil_r.
  rewrite zlen_cons in *. pose proof (zlen_nonneg l).
  rewrite (proj2 (Z.leb_gt _ _)) by lia.
  destruct (gpp_parses_bool b r l Hr Hu) as (r1&Hrd&Hr1&Hu1).
  rewrite (M_bind_Ok _ _ _ _ _ Hrd). cbv zeta.
  assert (Hi32 : i32 (idx + 1) = idx + 1) by (unfold i32; rewrite Z.mod_small; lia).
  rewrite Hi32.
  set (ids' := if b then _ else _).
  destruct (IH (idx + 1) ids' r1) as (r'&->); [done|rewrite Hu1; simpl in Hf; lia|lia| |].
  { rewrite Hu1. lia. }
  exists r'. do 2 f_equal. rewrite Hu1, (flagged_from_step idx) by done.
  rewrite Z.sub_diag. simpl default. rewrite (flagged_from_ext (idx + 1) _
    (λ i, default false ((b :: l) !! Z.to_nat (i - idx)))).
  - rewrite app_assoc. f_equal. subst ids'. destruct b; simpl; [|by rewrite app_nil_r].
    destruct (section_from_i32 idx); by rewrite ?app_nil_r.
  - intros i Hle. replace (Z.to_nat (i - idx)) with (S (Z.to_nat (i - (idx + 1)))) by lia. done.
Qed.

Lemma header_body_spec bytes : 8 * zlen bytes < 2 ^ 31 - 1 →
  M_run (gpp_new bytes) header_body =
    if decide (12 ≤ 8 * zlen bytes) then Ok (flagged (drop 12 (bits_of bytes)))
    else Err Truncated.
Proof.
  intros Hb. assert (Hok : buffer_ok bytes) by (unfold buffer_ok, usize_max; lia).
  destruct (gpp_new_wf bytes Hok) as [Hr Hu].
  pose proof (zlen_bits_of bytes) as Hlen. unfold zlen in Hlen, Hb |- *.
  unfold M_run, header_body.
  destruct (consumes_u6 _ Hr) as [Hok6 Herr6]. rewrite Hu in *.
  destruct (decide _) as [Hw|Hw].
  - destruct Hok6 as (a&r1&Hr1&Hwf1&Hu1&_); [lia|]. rewrite (M_bind_Ok _ _ _ _ _ Hr1).
    destruct (consumes_u6 _ Hwf1) as [Hok6' _].
    destruct Hok6' as (a'&r2&Hr2&Hwf2&Hu2&_); [rewrite Hu1, length_drop; lia|].
    rewrite (M_bind_Ok _ _ _ _ _ Hr2). unfold header_flags.
    rewrite gpp_remaining_unread by done.
    assert (Hu12 : unread r2 = drop 12 (bits_of bytes)) by by rewrite Hu2, Hu1, drop_drop.
    destruct (header_ids_spec (Z.to_nat (zlen (unread r2))) 1 [] r2) as (r'&->);
      [done|unfold zlen; lia|lia| |].
    { rewrite Hu12. unfold zlen. rewrite length_drop. lia. }
    cbn [fst app]. rewrite Hu12, flagged_from_1. done.
  - destruct (decide (6 ≤ length (bits_of bytes))%nat) as [H6|H6].
    + destruct Hok6 as (a&r1&Hr1&Hwf1&Hu1&_); [lia|]. rewrite (M_bind_Ok _ _ _ _ _ Hr1).
      destruct (consumes_u6 _ Hwf1) as [_ Herr6'].
      destruct Herr6' as (e&r2&Hr2&He); [rewrite Hu1, length_drop; lia|].
      rewrite (M_bind_Err _ _ _ _ _ Hr2). simpl in *. by rewrite He.
    + destruct Herr6 as (e&r2&Hr2&He); [lia|].
      rewrite (M_bind_Err _ _ _ _ _ Hr2). simpl in *. by rewrite He.
Qed.

Lemma flagged_flags_of ids rest : sublist ids all_sections →
  flagged (flags_of ids ++ rest) = ids.
Proof.
  intros Hs. trans (List.filter (λ s, bool_decide (s ∈ ids)) all_sections).
  - apply List.filter_ext. intros s. unfold flag_set. pose proof (section_id_range s) as Hr.
    assert (Hlen : length (flags_of ids) = 22%nat) by done.
    rewrite lookup_app_l by lia. unfold flags_of. rewrite list_lookup_fmap, lookup_seqZ_lt by lia.
    simpl. replace (1 + Z.of_nat (Z.to_nat (section_as_i32 s - 1))) with (section_as_i32 s) by lia.
    apply bool_decide_ext. rewrite Exists_exists. split.
    + intros (s'&Hin&Heq). assert (Heq' : section_from_i32 (section_as_i32 s') = Ok s)
        by by rewrite Heq, section_from_as.
      rewrite section_from_as in Heq'. by injection Heq' as ->.
    + eauto.
  - apply filter_sublist; [|done]. apply (bool_decide_unpack _). by vm_compute.
Qed.

(** C21: Each of the fifteen state parsers accepts exactly the byte strings that
    begin with the encoding of a section of that state -- version in 6 bits,
    then its two-bit fields in wire order, with as many sensitive-data and
    known-child fields as the state's constants say -- and returns that
    section, whatever bits follow; the fields the state does not transmit are
    0. *)
Theorem us_state_parse_iff st bytes s : buffer_ok bytes →
  us_parse st bytes = Ok s ↔
  ∃ skipped rest, two_bit skipped ∧
    us_valid (us_layout st) (us_sensitive st) (us_known_child st) skipped s ∧
    bits_of bytes = us_encode (us_layout st) skipped s ++ rest.
Proof.
  intros Hb. split.
  - destruct (decide (bytes = [])) as [->|Hne]; [by destruct st|].
    rewrite us_parse_run by done. intros Hp.
    destruct (run_consumes _ _ _ bytes (us_body_consumes (us_layout st) (us_sensitive st)
      (us_known_child st)) Hb) as [Hok Herr].
    destruct (Z.le_gt_cases (Z.of_nat (us_width (us_layout st) (us_sensitive st)
      (us_known_child st))) (8 * zlen bytes)) as [Hw|Hw]; [|by rewrite Herr in Hp by lia].
    destruct (Hok Hw) as (s'&Hs'&sk&Hsk&Henc&Hv). rewrite Hs' in Hp. simplify_eq.
    exists sk, (drop (us_width (us_layout st) (us_sensitive st) (us_known_child st)) (bits_of bytes)).
    split_and!; [done..|]. rewrite <-Henc. symmetry. apply take_drop.
  - intros (sk&rest&Hsk&Hv&Hl). destruct (decide (bytes = [])) as [->|Hne]; [done|].
    rewrite us_parse_run by done. eapply run_parses; [by apply us_body_parses|done|done].
Qed.

(** A state parser fails in two ways only: an empty payload is a
    [BadBitfield], and a payload with fewer bits than the section is
    [Truncated]; every longer payload parses.  No payload makes it panic. *)
Theorem us_state_parse_total st bytes : buffer_ok bytes →
  (bytes = [] → ∃ msg, us_parse st bytes = Err (BadBitfield msg)) ∧
  (bytes ≠ [] →
     8 * zlen bytes < Z.of_nat (us_width (us_layout st) (us_sensitive st) (us_known_child st)) →
     us_parse st bytes = Err Truncated) ∧
  (Z.of_nat (us_width (us_layout st) (us_sensitive st) (us_known_child st)) ≤ 8 * zlen bytes →
     ∃ s, us_parse st bytes = Ok s).
Proof.
  intros Hb. destruct (run_consumes _ _ _ bytes (us_body_consumes (us_layout st)
    (us_sensitive st) (us_known_child st)) Hb) as [Hok Herr].
  split_and!.
  - intros ->. destruct st; eexists; reflexivity.
  - intros Hne Hw. by rewrite us_parse_run, Herr by done.
  - intros Hw. rewrite us_parse_run.
    + destruct (Hok Hw) as (s&->&_). eauto.
    + intros ->. unfold zlen, us_width in Hw; simpl in Hw. lia.
Qed.

Lemma us_state_parse_iff_witness :
  buffer_ok [5; 187; 0; 0; 0; 0] ∧
  ∃ skipped rest, two_bit skipped ∧
    bits_of [5; 187; 0; 0; 0; 0] =
      us_encode UtahLayout skipped
        (Build_UsSection 1 0 1 0 2 2 0 3 (replicate 8 0) [0] 0 0 0 0) ++ rest.
Proof.
  split; [by vm_compute|].
  destruct (proj1 (us_state_parse_iff UT [5; 187; 0; 0; 0; 0]
    (Build_UsSection 1 0 1 0 2 2 0 3 (replicate 8 0) [0] 0 0 0 0) ltac:(by vm_compute)))
    as (sk&rest&Hsk&_&Hl); [by vm_compute|].
  exists sk, rest. split; [exact Hsk|exact Hl].
Defined.

Lemma us_state_parse_total_witness :
  buffer_ok [4; 0] ∧ us_parse OR [4; 0] = Err Truncated.
Proof.
  split; [by vm_compute|].
  apply (us_state_parse_total OR [4; 0]); by vm_compute.
Defined.

Lemma parse_gpp_header_exact b64_decode s header payloads bytes :
  split_char (ch "~") s = header :: payloads → header ≠ "" →
  b64_decode header = Ok bytes → 8 * zlen bytes < 2 ^ 31 - 1 →
  parse_gpp_header b64_decode s =
    if decide (12 ≤ 8 * zlen bytes) then
      let ids := flagged (drop 12 (bits_of bytes)) in
      Ok (take (length payloads) ids, take (length ids) payloads)
    else Err Truncated.
Proof.
  intros Hs Hh Hd Hb. unfold parse_gpp_header, str_is_empty.
  rewrite Hs, bool_decide_false, Hd by done. simpl.
  rewrite header_body_spec by done. destruct (decide _); [|done]. simpl.
  set (ids := flagged _). destruct (length ids =? length payloads)%nat eqn:He; simpl.
  - apply Nat.eqb_eq in He. by rewrite <-He, firstn_all, He, firstn_all.
  - rewrite (Nat.min_comm (length ids)) at 1.
    by rewrite <-take_take, firstn_all, <-take_take, firstn_all.
Qed.
(** C34: A GPP string whose header segment decodes to [bytes] yields the known
    sections whose flag bit is set, in id order, each with the payload of the
    same rank; unknown ids are dropped, and when counts differ both lists are
    cut to the shorter one.  A header of fewer than twelve bits is the only
    [Truncated] one, and nothing panics. *)
Theorem parse_gpp_header_spec b64_decode s header payloads bytes :
  split_char (ch "~") s = header :: payloads → header ≠ "" →
  b64_decode header = Ok bytes → 8 * zlen bytes < 2 ^ 31 - 1 →
  parse_gpp_header b64_decode s =
    if decide (12 ≤ 8 * zlen bytes) then
      let ids := flagged (drop 12 (bits_of bytes)) in
      Ok (take (length payloads) ids, take (length ids) payloads)
    else Err Truncated.
Proof. apply parse_gpp_header_exact. Qed.

(** Round trip of the container: a header that flags [ids] (in registry
    order) and one payload for each, joined by [~], parses back to exactly
    these ids and payloads, whatever the header's type and version. *)
Theorem parse_gpp_header_roundtrip b64_decode gpp_type version ids header payloads :
  sublist ids all_sections → length payloads = length ids →
  Forall (no_char (ch "~")) (header :: payloads) → header ≠ "" →
  0 ≤ gpp_type < 64 → 0 ≤ version < 64 →
  b64_decode header = Ok (pack (header_bits gpp_type version ids)) →
  parse_gpp_header b64_decode (join "~" (header :: payloads)) = Ok (ids, payloads).
Proof.
  intros Hids Hlen Hno Hh Ht Hv Hd.
  assert (Hs : split_char (ch "~") (join "~" (header :: payloads)) = header :: payloads)
    by by apply (split_char_join (ch "~")).
  assert (Hlb : length (header_bits gpp_type version ids) = 34%nat).
  { unfold header_bits, flags_of. by rewrite !length_app, !length_bits_of_Z. }
  destruct (bits_of_pack (header_bits gpp_type version ids)) as (k&Hk&Hbits).
  pose proof (zlen_bits_of (pack (header_bits gpp_type version ids))) as Hz.
  rewrite Hbits, zlen_app in Hz. unfold zlen at 1 2 in Hz.
  rewrite Hlb, length_replicate in Hz.
  rewrite (parse_gpp_header_exact _ _ header payloads _ Hs Hh Hd) by lia.
  rewrite decide_True by lia. cbv zeta. rewrite Hbits. unfold header_bits at 1 2.
  rewrite !app_assoc, <-(app_assoc (_ ++ _)), drop_app_length'
    by by rewrite length_app, !length_bits_of_Z.
  rewrite flagged_flags_of by done.
  by rewrite Hlen, firstn_all, <-Hlen, firstn_all.
Qed.

Lemma parse_gpp_header_spec_witness :
  parse_gpp_header (λ _, Ok [12; 16; 96]) "DBM~a~b~c" = Ok ([UspV1; UsNatV1], ["a"; "b"]).
Proof.
  rewrite (parse_gpp_header_spec (λ _, Ok [12; 16; 96]) "DBM~a~b~c" "DBM" ["a"; "b"; "c"]
    [12; 16; 96]); [by vm_compute..].
Defined.

Lemma parse_gpp_header_roundtrip_witness :
  let ids := [TcfEuV2; UspV1; UsTnV1] in
  let b64 := λ s, if bool_decide (s = "DBAB") then Ok (pack (header_bits 3 1 ids)) else Err "bad" in
  parse_gpp_header b64 (join "~" ["DBAB"; "CPX"; "1YNN"; "BVVV"]) = Ok (ids, ["CPX"; "1YNN"; "BVVV"]).
Proof.
  intros ids b64. apply (parse_gpp_header_roundtrip b64 3 1 ids "DBAB" ["CPX"; "1YNN"; "BVVV"]);
    [repeat constructor|done| |done|lia|lia|by vm_compute].
  apply (bool_decide_unpack _). by vm_compute.
Defined.
