(* ===== verification/TcfConsent.v ===== *)
(** * TCF 2.2 consent strings

    gdpr/src/consent.rs: the decoder of the core segment of a TCF consent
    string, its vendor section (bitfield or range list) and the vendor lookup.
    Base64 and chrono's timestamps are third-party and parameters of the
    model.  The specification is a wire format, [CoreWire]: its bits, what a
    well-formed one is, and the consent record it stands for. *)

From S2P Require Import Prelude Bits BitReader.

(** [MalformedConsentError] (gdpr/src/lib.rs) *)
Record MalformedConsentError : Type := { mce_consent : string; mce_cause : string }.

Record VendorRange : Type := { vr_start : Z; vr_end : Z }.

Inductive VendorConsent : Type :=
| Bitfield (bits : list bool)
| RangeList (ranges : list VendorRange).

(** [VendorConsent::contains] *)
Definition vendor_contains (vc : VendorConsent) (vendor_id : Z) : bool :=
  if vendor_id =? 0 then false
  else match vc with
  | Bitfield bits => default false (bits !! Z.to_nat (vendor_id - 1))
  | RangeList ranges =>
      existsb (λ r, (vr_start r <=? vendor_id) && (vendor_id <=? vr_end r)) ranges
  end.

(** [{context}: {e}], [e] a [BitReaderError]: its [Display] has a prefix. *)
Definition ctx {A} (context : string) (m : M TcfBitReader BitReaderError A)
    : M TcfBitReader string A :=
  M_map_err (λ e, context +:+ ": bit reader error: " +:+ e) m.

Definition indexed (name : string) (i : Z) (suffix : string) : string :=
  name +:+ "[" +:+ pretty i +:+ "]" +:+ suffix.

(** One turn of the range loop. *)
Definition decode_range_entry (max_vendor_id i : Z) : M TcfBitReader string VendorRange :=
  is_a_range ← ctx (indexed "range" i ".is_range") tcf_read_bool;
  start ← ctx (indexed "range" i ".start") tcf_read_u16;
  stop ← (if is_a_range : bool then ctx (indexed "range" i ".end") tcf_read_u16
          else mret start);
  if (start =? 0) || (stop <? start) || (max_vendor_id <? stop)
  then M_err (indexed "range" i " invalid: start=" +:+ pretty start +:+ " end="
              +:+ pretty stop +:+ " max_vendor_id=" +:+ pretty max_vendor_id)
  else mret {| vr_start := start; vr_end := stop |}.

Definition decode_vendor_section : M TcfBitReader string VendorConsent :=
  max_vendor_id ← ctx "max_vendor_id" tcf_read_u16;
  is_range ← ctx "is_range_encoding" tcf_read_bool;
  if is_range : bool then
    num_entries ← ctx "num_entries" tcf_read_u12;
    ranges ← M_collect (Z.to_nat num_entries) 0 (decode_range_entry max_vendor_id);
    mret (RangeList ranges)
  else
    bits ← M_collect (Z.to_nat max_vendor_id) 0
             (λ i, ctx (indexed "bitfield" i "") tcf_read_bool);
    mret (Bitfield bits).

Section Consent.
Context {DateTime : Type}.
(** chrono: [Utc.timestamp_millis_opt(ms).single()] and the unwrapped
    [from_timestamp(0, 0)]. *)
Context (timestamp_millis_opt : Z → option DateTime) (unix_epoch : DateTime).
(** [URL_SAFE_NO_PAD.decode], its error already displayed. *)
Context (b64_decode : string → outcome string (list Z)).

Record ConsentString : Type := {
  cs_raw : string;
  cs_version : Z;
  cs_created : DateTime;
  cs_last_updated : DateTime;
  cs_cmp_id : Z;
  cs_cmp_version : Z;
  cs_consent_screen : Z;
  cs_consent_language : string;
  cs_vendor_list_version : Z;
  cs_tcf_policy_version : Z;
  cs_is_service_specific : bool;
  cs_use_non_standard_stacks : bool;
  cs_special_feature_optins : list bool;
  cs_purposes_consent : list bool;
  cs_purposes_li_transparency : list bool;
  cs_purpose_one_treatment : bool;
  cs_publisher_cc : string;
  cs_vendors_consent : VendorConsent;
}.

Definition with_raw (raw : string) (cs : ConsentString) : ConsentString := {|
  cs_raw := raw; cs_version := cs_version cs; cs_created := cs_created cs;
  cs_last_updated := cs_last_updated cs; cs_cmp_id := cs_cmp_id cs;
  cs_cmp_version := cs_cmp_version cs; cs_consent_screen := cs_consent_screen cs;
  cs_consent_language := cs_consent_language cs;
  cs_vendor_list_version := cs_vendor_list_version cs;
  cs_tcf_policy_version := cs_tcf_policy_version cs;
  cs_is_service_specific := cs_is_service_specific cs;
  cs_use_non_standard_stacks := cs_use_non_standard_stacks cs;
  cs_special_feature_optins := cs_special_feature_optins cs;
  cs_purposes_consent := cs_purposes_consent cs;
  cs_purposes_li_transparency := cs_purposes_li_transparency cs;
  cs_purpose_one_treatment := cs_purpose_one_treatment cs;
  cs_publisher_cc := cs_publisher_cc cs;
  cs_vendors_consent := cs_vendors_consent cs |}.

(** The three loops over fixed arrays of flags. *)
Definition decode_flags (n : nat) (name : string) : M TcfBitReader string (list bool) :=
  M_collect n 0 (λ i, ctx (indexed name i "") tcf_read_bool).

Definition decode_core : M TcfBitReader string ConsentString :=
  version ← ctx "version" tcf_read_u6;
  created ← ctx "created" (tcf_read_datetime timestamp_millis_opt);
  last_updated ← ctx "last_updated" (tcf_read_datetime timestamp_millis_opt);
  cmp_id ← ctx "cmp_id" tcf_read_u12;
  cmp_version ← ctx "cmp_version" tcf_read_u12;
  consent_screen ← ctx "consent_screen" tcf_read_u6;
  consent_language ← ctx "consent_language" tcf_read_language;
  vendor_list_version ← ctx "vendor_list_version" tcf_read_u12;
  tcf_policy_version ← ctx "tcf_policy_version" tcf_read_u6;
  is_service_specific ← ctx "is_service_specific" tcf_read_bool;
  use_non_standard_stacks ← ctx "use_non_standard_stacks" tcf_read_bool;
  special_feature_optins ← decode_flags 12 "special_feature_optins";
  purposes_consent ← decode_flags 24 "purposes_consent";
  purposes_li_transparency ← decode_flags 24 "purposes_li_transparency";
  purpose_one_treatment ← ctx "purpose_one_treatment" tcf_read_bool;
  publisher_cc ← ctx "publisher_cc" tcf_read_language;
  vendors_consent ← M_map_err (λ e, "vendors_consent: " +:+ e) decode_vendor_section;
  mret {|
    cs_raw := ""; cs_version := version; cs_created := created;
    cs_last_updated := last_updated; cs_cmp_id := cmp_id;
    cs_cmp_version := cmp_version; cs_consent_screen := consent_screen;
    cs_consent_language := consent_language;
    cs_vendor_list_version := vendor_list_version;
    cs_tcf_policy_version := tcf_policy_version;
    cs_is_service_specific := is_service_specific;
    cs_use_non_standard_stacks := use_non_standard_stacks;
    cs_special_feature_optins := special_feature_optins;
    cs_purposes_consent := purposes_consent;
    cs_purposes_li_transparency := purposes_li_transparency;
    cs_purpose_one_treatment := purpose_one_treatment;
    cs_publisher_cc := publisher_cc;
    cs_vendors_consent := vendors_consent |}.

(** [decode_base64url]: [s.trim_end_matches('=')], then the engine. *)
Definition decode_base64url (s : string) : outcome string (list Z) :=
  b64_decode (trim_end_matches (ch "=") s).

Definition consent_parse (raw : string) : outcome MalformedConsentError ConsentString :=
  if str_is_empty raw then
    Err {| mce_consent := raw; mce_cause := "consent string is empty" |}
  else
    let core_b64 := split_first (ch ".") raw in
    if str_is_empty core_b64 then
      Err {| mce_consent := raw; mce_cause := "core segment is empty" |}
    else
      bytes ← map_err (λ e, {| mce_consent := raw;
                               mce_cause := "base64 decode error: " +:+ e |})
                (decode_base64url core_b64);
      cs ← map_err (λ cause, {| mce_consent := raw; mce_cause := cause |})
             (M_run (tcf_new bytes) decode_core);
      Ok (with_raw raw cs).

Definition consent_placeholder (s : string) : ConsentString := {|
  cs_raw := s; cs_version := 0; cs_created := unix_epoch; cs_last_updated := unix_epoch;
  cs_cmp_id := 0; cs_cmp_version := 0; cs_consent_screen := 0; cs_consent_language := "";
  cs_vendor_list_version := 0; cs_tcf_policy_version := 0;
  cs_is_service_specific := false; cs_use_non_standard_stacks := false;
  cs_special_feature_optins := replicate 12 false;
  cs_purposes_consent := replicate 24 false;
  cs_purposes_li_transparency := replicate 24 false;
  cs_purpose_one_treatment := false; cs_publisher_cc := "";
  cs_vendors_consent := Bitfield [] |}.

(** [ConsentString::new]: total but for a panic of the parser. *)
Definition consent_new (s : string) : outcome MalformedConsentError ConsentString :=
  match consent_parse s with
  | Ok parsed => Ok parsed
  | Err _ => Ok (consent_placeholder s)
  | Panic => Panic
  end.

(** [ConsentString::version] *)
Definition consent_version (cs : ConsentString) : outcome MalformedConsentError Z :=
  if str_is_empty (cs_raw cs) then
    Err {| mce_consent := cs_raw cs; mce_cause := "consent string is empty" |}
  else Ok (cs_version cs).

(** ** The wire format *)

(** A range entry, and whether it is written as a range or as one id. *)
Inductive VendorWire : Type :=
| WBits (bits : list bool)
| WRanges (max_vendor_id : Z) (entries : list (bool * VendorRange)).

Record CoreWire : Type := {
  w_version : Z; w_created : Z; w_last_updated : Z; w_cmp_id : Z; w_cmp_version : Z;
  w_consent_screen : Z; w_language : Z * Z; w_vendor_list_version : Z;
  w_tcf_policy_version : Z; w_is_service_specific : bool;
  w_use_non_standard_stacks : bool; w_special_feature_optins : list bool;
  w_purposes_consent : list bool; w_purposes_li_transparency : list bool;
  w_purpose_one_treatment : bool; w_publisher_cc : Z * Z; w_vendors : VendorWire;
}.

Definition entry_bits (e : bool * VendorRange) : list bool :=
  [e.1] ++ bits_of_Z 16 (vr_start e.2) ++ (if e.1 then bits_of_Z 16 (vr_end e.2) else []).
Definition vendor_bits (w : VendorWire) : list bool :=
  match w with
  | WBits bits => bits_of_Z 16 (zlen bits) ++ [false] ++ bits
  | WRanges max entries =>
      bits_of_Z 16 max ++ [true] ++ bits_of_Z 12 (zlen entries) ++ concat (entry_bits <$> entries)
  end.
Definition letters_bits (p : Z * Z) : list bool := bits_of_Z 6 p.1 ++ bits_of_Z 6 p.2.
Definition core_bits (w : CoreWire) : list bool :=
  bits_of_Z 6 (w_version w) ++ bits_of_Z 36 (w_created w) ++
  bits_of_Z 36 (w_last_updated w) ++ bits_of_Z 12 (w_cmp_id w) ++
  bits_of_Z 12 (w_cmp_version w) ++ bits_of_Z 6 (w_consent_screen w) ++
  letters_bits (w_language w) ++ bits_of_Z 12 (w_vendor_list_version w) ++
  bits_of_Z 6 (w_tcf_policy_version w) ++ [w_is_service_specific w] ++
  [w_use_non_standard_stacks w] ++ w_special_feature_optins w ++
  w_purposes_consent w ++ w_purposes_li_transparency w ++
  [w_purpose_one_treatment w] ++ letters_bits (w_publisher_cc w) ++
  vendor_bits (w_vendors w).

Definition width (n v : Z) : Prop := 0 ≤ v < 2 ^ n.
(** The ranges are within the vendor ids the section declares. *)
Definition entry_wf (max : Z) (e : bool * VendorRange) : Prop :=
  0 < vr_start e.2 ∧ vr_start e.2 ≤ vr_end e.2 ∧ vr_end e.2 ≤ max ∧
  (e.1 = false → vr_end e.2 = vr_start e.2).
Definition vendor_wf (w : VendorWire) : Prop :=
  match w with
  | WBits bits => width 16 (zlen bits)
  | WRanges max entries =>
      width 16 max ∧ width 12 (zlen entries) ∧ Forall (entry_wf max) entries
  end.
Definition core_wf (w : CoreWire) : Prop :=
  width 6 (w_version w) ∧ width 36 (w_created w) ∧ width 36 (w_last_updated w) ∧
  width 12 (w_cmp_id w) ∧ width 12 (w_cmp_version w) ∧ width 6 (w_consent_screen w) ∧
  (width 6 (w_language w).1 ∧ width 6 (w_language w).2) ∧
  width 12 (w_vendor_list_version w) ∧ width 6 (w_tcf_policy_version w) ∧
  length (w_special_feature_optins w) = 12%nat ∧
  length (w_purposes_consent w) = 24%nat ∧
  length (w_purposes_li_transparency w) = 24%nat ∧
  (width 6 (w_publisher_cc w).1 ∧ width 6 (w_publisher_cc w).2) ∧
  vendor_wf (w_vendors w).

(** What the wire stands for; timestamps count deciseconds, letters from A. *)
Definition letters (p : Z * Z) : string := byte_as_char (65 + p.1) +:+ byte_as_char (65 + p.2).
Definition vendor_value (w : VendorWire) : VendorConsent :=
  match w with
  | WBits bits => Bitfield bits
  | WRanges _ entries => RangeList (snd <$> entries)
  end.
Definition core_value (raw : string) (w : CoreWire) (created updated : DateTime) : ConsentString := {|
  cs_raw := raw; cs_version := w_version w; cs_created := created;
  cs_last_updated := updated; cs_cmp_id := w_cmp_id w;
  cs_cmp_version := w_cmp_version w; cs_consent_screen := w_consent_screen w;
  cs_consent_language := letters (w_language w);
  cs_vendor_list_version := w_vendor_list_version w;
  cs_tcf_policy_version := w_tcf_policy_version w;
  cs_is_service_specific := w_is_service_specific w;
  cs_use_non_standard_stacks := w_use_non_standard_stacks w;
  cs_special_feature_optins := w_special_feature_optins w;
  cs_purposes_consent := w_purposes_consent w;
  cs_purposes_li_transparency := w_purposes_li_transparency w;
  cs_purpose_one_treatment := w_purpose_one_treatment w;
  cs_publisher_cc := letters (w_publisher_cc w);
  cs_vendors_consent := vendor_value (w_vendors w) |}.
Definition core_means (raw : string) (w : CoreWire) (cs : ConsentString) : Prop :=
  ∃ created updated, timestamp_millis_opt (w_created w * 100) = Some created ∧
    timestamp_millis_opt (w_last_updated w * 100) = Some updated ∧
    cs = core_value raw w created updated.
End Consent.

(** A concrete core, for the witnesses. *)
Definition sample_wire : CoreWire := {|
  w_version := 2; w_created := 15000000000; w_last_updated := 15000000001; w_cmp_id := 31;
  w_cmp_version := 7; w_consent_screen := 1; w_language := (4, 13);
  w_vendor_list_version := 95; w_tcf_policy_version := 2; w_is_service_specific := true;
  w_use_non_standard_stacks := false; w_special_feature_optins := replicate 12 true;
  w_purposes_consent := replicate 24 true; w_purposes_li_transparency := replicate 24 false;
  w_purpose_one_treatment := false; w_publisher_cc := (3, 4);
  w_vendors := WRanges 800 [(false, Build_VendorRange 32 32); (true, Build_VendorRange 40 52)];
|}.

(** ** Proofs: the primitive reads under a context *)

Local Abbreviation acc := (@accepts _ _ TcfBitSource _).
Local Abbreviation prs := (@parses _ _ TcfBitSource _).

Lemma acc_ctx {A} c (m : M TcfBitReader BitReaderError A) P : acc m P → acc (ctx c m) P.
Proof. apply (@accepts_map_err _ _ TcfBitSource). Qed.
Lemma prs_ctx {A} c (m : M TcfBitReader BitReaderError A) l a : prs m l a → prs (ctx c m) l a.
Proof. apply (@parses_map_err _ _ TcfBitSource). Qed.
Lemma acc_bind {A B} (m : M TcfBitReader string A) (k : A → M TcfBitReader string B) P Q :
  acc m P → (∀ a l, P l a → acc (k a) (λ l', Q (l ++ l'))) → acc (m ≫= k) Q.
Proof. apply (@accepts_bind _ _ TcfBitSource). Qed.
Lemma prs_bind {A B} (m : M TcfBitReader string A) (k : A → M TcfBitReader string B) l1 l2 a b :
  prs m l1 a → prs (k a) l2 b → prs (m ≫= k) (l1 ++ l2) b.
Proof. apply (@parses_bind _ _ TcfBitSource). Qed.
Lemma acc_ret {A} (a : A) (P : list bool → A → Prop) : P [] a → acc (mret a) P.
Proof. apply (@accepts_ret _ _ TcfBitSource). Qed.
Lemma prs_ret {A} (a : A) : prs (mret a) [] a.
Proof. apply (@parses_ret _ _ TcfBitSource). Qed.
(** The last step of a body. *)
Lemma prs_bind_ret {A B} (m : M TcfBitReader string A) (f : A → B) l a :
  prs m l a → prs (m ≫= λ x, mret (f x)) l (f a).
Proof. intros Hm. rewrite <-(app_nil_r l). eapply prs_bind; [exact Hm|apply prs_ret]. Qed.

(** A read of [n] bits, then a conversion that changes no [n]-bit number. *)
Lemma acc_num n k f : k = Z.of_nat n → (n ≤ 64)%nat → (∀ v, width k v → f v = v) →
  acc (v ← tcf_read_bits k; mret (f v)) (λ l v, l = bits_of_Z n v ∧ width k v).
Proof.
  intros -> Hn Hf. eapply acc_bind.
  { eapply (@consumes_accepts _ _ TcfBitSource), tcf_consumes_read; [done|exact Hn]. }
  intros v l [-> Hv]. apply acc_ret. by rewrite app_nil_r, Hf.
Qed.
Lemma prs_num n k f v : k = Z.of_nat n → (n ≤ 64)%nat → f v = v → width k v →
  prs (x ← tcf_read_bits k; mret (f x)) (bits_of_Z n v) v.
Proof.
  intros -> Hn Hf Hv. rewrite <-Hf at 2. apply prs_bind_ret. by apply tcf_parses_read.
Qed.

Lemma acc_bool : acc tcf_read_bool (λ l b, l = [b]).
Proof.
  eapply acc_bind.
  { eapply (@consumes_accepts _ _ TcfBitSource), (tcf_consumes_read _ 1); [done|lia]. }
  intros v l [-> Hv]. apply acc_ret. rewrite app_nil_r.
  assert (v = 0 ∨ v = 1) as [->| ->] by lia; done.
Qed.
Lemma prs_bool b : prs tcf_read_bool [b] b.
Proof.
  replace [b] with (bits_of_Z 1 (Z.b2z b)) by by destruct b.
  replace b with (negb (Z.b2z b =? 0)) at 2 by by destruct b.
  apply (prs_bind_ret _ (λ v, negb (v =? 0))), (tcf_parses_read _ 1); [done|lia|].
  destruct b; simpl; lia.
Qed.

Lemma acc_u6 : acc tcf_read_u6 (λ l v, l = bits_of_Z 6 v ∧ width 6 v).
Proof. apply acc_num; [done|lia|]. unfold width. intros. apply u8_small. lia. Qed.
Lemma acc_u12 : acc tcf_read_u12 (λ l v, l = bits_of_Z 12 v ∧ width 12 v).
Proof. apply acc_num; [done|lia|]. unfold width. intros. apply u16_small. lia. Qed.
Lemma acc_u16 : acc tcf_read_u16 (λ l v, l = bits_of_Z 16 v ∧ width 16 v).
Proof. apply acc_num; [done|lia|]. unfold width. intros. apply u16_small. lia. Qed.
Lemma prs_u6 v : width 6 v → prs tcf_read_u6 (bits_of_Z 6 v) v.
Proof. intros Hv. apply prs_num; [done|lia| |done]. apply u8_small. unfold width in Hv. lia. Qed.
Lemma prs_u12 v : width 12 v → prs tcf_read_u12 (bits_of_Z 12 v) v.
Proof. intros Hv. apply prs_num; [done|lia| |done]. apply u16_small. unfold width in Hv. lia. Qed.
Lemma prs_u16 v : width 16 v → prs tcf_read_u16 (bits_of_Z 16 v) v.
Proof. intros Hv. apply prs_num; [done|lia| |done]. apply u16_small. unfold width in Hv. lia. Qed.

Lemma acc_language : acc tcf_read_language
  (λ l s, ∃ p, l = letters_bits p ∧ s = letters p ∧ width 6 p.1 ∧ width 6 p.2).
Proof.
  eapply acc_bind; [apply acc_u6|]. intros a l [-> Ha].
  eapply acc_bind; [apply acc_u6|]. intros b l [-> Hb].
  apply acc_ret. exists (a, b). rewrite app_nil_r.
  unfold letters, letters_bits, width in *; simpl. by rewrite !u8_small by lia.
Qed.
Lemma prs_language p : width 6 p.1 → width 6 p.2 →
  prs tcf_read_language (letters_bits p) (letters p).
Proof.
  intros Ha Hb. eapply prs_bind; [by apply prs_u6|].
  rewrite <-(app_nil_r (bits_of_Z 6 p.2)). eapply prs_bind; [by apply prs_u6|].
  unfold letters, width in *. rewrite !u8_small by lia. apply prs_ret.
Qed.

Section Datetime.
Context {DateTime : Type} (timestamp_millis_opt : Z → option DateTime).

(** 36 bits of deciseconds fit [i64], in milliseconds too. *)
Lemma deciseconds_fit v : width 36 v →
  i64 v = v ∧ i64 (v * 100) = v * 100.
Proof. unfold width. intros Hv. split; apply i64_small; lia. Qed.

Lemma acc_datetime : acc (tcf_read_datetime timestamp_millis_opt)
  (λ l d, ∃ v, l = bits_of_Z 36 v ∧ width 36 v ∧ timestamp_millis_opt (v * 100) = Some d).
Proof.
  eapply acc_bind.
  { eapply (@consumes_accepts _ _ TcfBitSource), (tcf_consumes_read _ 36); [done|lia]. }
  intros v l [-> Hv]. destruct (deciseconds_fit v Hv) as [H1 H2]. cbv zeta.
  rewrite H1, H2, bool_decide_true by done.
  destruct (timestamp_millis_opt (v * 100)) eqn:Ht; [|by apply (@accepts_err _ _ TcfBitSource)].
  apply acc_ret. exists v. by rewrite app_nil_r.
Qed.
Lemma prs_datetime v d : width 36 v → timestamp_millis_opt (v * 100) = Some d →
  prs (tcf_read_datetime timestamp_millis_opt) (bits_of_Z 36 v) d.
Proof.
  intros Hv Ht. destruct (deciseconds_fit v Hv) as [H1 H2].
  rewrite <-(app_nil_r (bits_of_Z 36 v)).
  eapply prs_bind; [by apply (tcf_parses_read _ 36); [|lia|]|]. cbv zeta.
  rewrite H1, H2, bool_decide_true, Ht by done. apply prs_ret.
Qed.
End Datetime.

(** ** Proofs: the loops *)

Lemma concat_singletons (ls : list (list bool)) bs :
  length ls = length bs →
  (∀ k x b, bs !! k = Some x → ls !! k = Some b → b = [x]) → concat ls = bs.
Proof.
  revert bs. induction ls as [|l ls IH]; intros [|x bs] Hlen H; try done.
  simpl. rewrite (H 0%nat x l) by done. simpl. f_equal. apply IH; [by injection Hlen|].
  intros k y b Hy Hb. exact (H (S k) y b Hy Hb).
Qed.

Lemma acc_flags n c : acc (M_collect n 0 (λ i, ctx (c i) tcf_read_bool))
  (λ l bs, l = bs ∧ length bs = n).
Proof.
  eapply (@accepts_mono _ _ TcfBitSource).
  { apply (@accepts_collect _ _ TcfBitSource) with (P := λ _ l b, l = [b]).
    intros. apply acc_ctx, acc_bool. }
  intros l bs (Hn&ls&->&Hls&H). split; [|done]. apply concat_singletons; [lia|exact H].
Qed.
Lemma prs_flags n c bs : length bs = n →
  prs (M_collect n 0 (λ i, ctx (c i) tcf_read_bool)) bs bs.
Proof.
  intros <-. replace bs with (concat ((λ b, [b]) <$> bs)) at 2.
  - apply (@parses_collect _ _ TcfBitSource); [by rewrite length_fmap|].
    intros k x b Hx Hb. rewrite list_lookup_fmap, Hx in Hb. injection Hb as <-.
    apply prs_ctx, prs_bool.
  - induction bs as [|b bs IH]; [done|]. simpl. f_equal. exact IH.
Qed.

Lemma acc_entry max i : acc (decode_range_entry max i)
  (λ l r, ∃ e, l = entry_bits (e, r) ∧ entry_wf max (e, r)).
Proof.
  eapply acc_bind; [apply acc_ctx, acc_bool|]. intros e l ->.
  eapply acc_bind; [apply acc_ctx, acc_u16|]. intros start l [-> Hs].
  eapply acc_bind with (P := λ l stop,
    l = (if e then bits_of_Z 16 stop else []) ∧ (e = false → stop = start)).
  { destruct e; [|by apply acc_ret].
    eapply (@accepts_mono _ _ TcfBitSource); [apply acc_ctx, acc_u16|]. by intros ?? [-> ?]. }
  intros stop l [-> He]. destruct (_ || _ || _) eqn:Hif; [by apply (@accepts_err _ _ TcfBitSource)|].
  bools. apply acc_ret. exists e. unfold width, entry_bits, entry_wf in *; simpl.
  rewrite app_nil_r. split_and!; [done|lia..|done].
Qed.
Lemma prs_entry max i e r : width 16 max → entry_wf max (e, r) →
  prs (decode_range_entry max i) (entry_bits (e, r)) r.
Proof.
  unfold entry_wf, entry_bits, width. destruct r as [start stop]. cbn [fst snd vr_start vr_end].
  intros Hm (H1&H2&H3&He).
  eapply prs_bind; [apply prs_ctx, prs_bool|].
  eapply prs_bind; [apply prs_ctx, prs_u16; unfold width; lia|].
  rewrite <-(app_nil_r (if e then bits_of_Z 16 stop else [])).
  eapply prs_bind with (a := stop).
  { destruct e; [apply prs_ctx, prs_u16; unfold width; lia|]. rewrite He by done. apply prs_ret. }
  rewrite (proj2 (Z.eqb_neq _ _)), !(proj2 (Z.ltb_ge _ _)) by lia. apply prs_ret.
Qed.

Lemma acc_vendor : acc decode_vendor_section
  (λ l vc, ∃ w, l = vendor_bits w ∧ vendor_wf w ∧ vc = vendor_value w).
Proof.
  eapply acc_bind; [apply acc_ctx, acc_u16|]. intros max l [-> Hm].
  eapply acc_bind; [apply acc_ctx, acc_bool|]. intros [] l ->.
  - eapply acc_bind; [apply acc_ctx, acc_u12|]. intros num l [-> Hn].
    eapply acc_bind.
    { apply (@accepts_collect _ _ TcfBitSource). intros j _. apply acc_entry. }
    intros rs l (Hlen&ls&->&Hls&H). apply acc_ret.
    assert (∃ es, ls = entry_bits <$> es ∧ rs = snd <$> es ∧ Forall (entry_wf max) es)
      as (es&->&->&Hes).
    { clear Hm Hn. revert ls Hls Hlen H. generalize (Z.to_nat num) as n.
      induction rs as [|r rs IH]; intros n [|b ls] Hls Hlen H; simpl in *; try lia.
      { by exists []. }
      destruct (H 0%nat r b) as (e&->&He); [done..|].
      destruct (IH (pred n) ls) as (es&->&->&Hes); [lia..| |].
      { intros k x b' Hx Hb. exact (H (S k) x b' Hx Hb). }
      exists ((e, r) :: es). split_and!; [done..|by constructor]. }
    exists (WRanges max es). rewrite length_fmap in *. unfold width in *.
    assert (Hz : num = zlen es) by (unfold zlen; lia).
    simpl. rewrite <-Hz, !app_nil_r. split_and!; unfold width; [done|lia..|done|done].
  - eapply acc_bind; [apply acc_flags|]. intros bs l [-> Hlen]. apply acc_ret.
    exists (WBits bs). unfold width in *. assert (Hz : zlen bs = max) by (unfold zlen; lia).
    simpl. rewrite Hz, app_nil_r. split_and!; unfold width; [done|lia..|done].
Qed.
Lemma prs_vendor w : vendor_wf w → prs decode_vendor_section (vendor_bits w) (vendor_value w).
Proof.
  destruct w as [bs|max es]; cbn [vendor_wf vendor_bits vendor_value].
  - intros Hw. eapply prs_bind; [apply prs_ctx, prs_u16; exact Hw|].
    eapply prs_bind; [apply prs_ctx, prs_bool|]. cbv beta iota.
    apply (prs_bind_ret _ Bitfield), prs_flags. unfold zlen. lia.
  - intros (Hm&Hn&Hes). eapply prs_bind; [apply prs_ctx, prs_u16; exact Hm|].
    eapply prs_bind; [apply prs_ctx, prs_bool|]. cbv beta iota.
    eapply prs_bind; [apply prs_ctx, prs_u12; exact Hn|].
    apply (prs_bind_ret _ RangeList).
    replace (Z.to_nat (zlen es)) with (length (snd <$> es))
      by (rewrite length_fmap; unfold zlen; lia).
    apply (@parses_collect _ _ TcfBitSource); [by rewrite !length_fmap|].
    intros k r b Hr Hb. rewrite list_lookup_fmap in Hr. rewrite list_lookup_fmap in Hb.
    destruct (es !! k) as [[e r']|] eqn:Hk; [|done]. simplify_eq/=.
    apply prs_entry; [done|]. by apply (Forall_lookup_1 _ _ _ _ Hes Hk).
Qed.

(** ** Proofs: the core segment *)

(** What each step of the core consumed, put back together. *)
Ltac acc_step :=
  eapply acc_bind;
  [first [apply acc_ctx; first [exact acc_u6 | exact acc_u12 | exact acc_bool
                               | exact acc_language | apply acc_datetime]
         | apply acc_flags
         | apply (@accepts_map_err _ _ TcfBitSource); exact acc_vendor]
  |intros ? ? ?].
Ltac prs_step :=
  eapply prs_bind;
  [first [apply prs_ctx; first [apply prs_u6 | apply prs_u12 | apply prs_bool
                               | apply prs_language | apply prs_datetime]
         | apply prs_flags]|].

Section Core.
Context {DateTime : Type} (timestamp_millis_opt : Z → option DateTime) (unix_epoch : DateTime).

Lemma acc_core : acc (decode_core timestamp_millis_opt)
  (λ l cs, ∃ w, l = core_bits w ∧ core_wf w ∧ core_means timestamp_millis_opt "" w cs).
Proof.
  unfold decode_core, decode_flags. repeat acc_step. apply acc_ret. cbv beta in *.
  repeat match goal with
  | H : ∃ _, _ |- _ => destruct H as [? H]
  | H : _ ∧ _ |- _ => destruct H as [? H]
  end; subst.
  match goal with |- context [vendor_value ?w] => set (vw := w) in * end.
  eexists (Build_CoreWire _ _ _ _ _ _ _ _ _ _ _ _ _ _ _ _ vw).
  split; [|split; [|do 2 eexists; split; [|split; [|unfold core_value; cbn; reflexivity]]]];
    cbn; [unfold core_bits; cbn; rewrite app_nil_r; reflexivity| |eassumption..].
  unfold core_wf; cbn; tauto.
Qed.

Lemma prs_core w cs : core_wf w → core_means timestamp_millis_opt "" w cs →
  prs (decode_core timestamp_millis_opt) (core_bits w) cs.
Proof.
  intros Hw (created&updated&Hc&Hu&->). unfold core_wf in Hw. destruct_and! Hw.
  unfold decode_core, decode_flags, core_bits.
  repeat (prs_step; [eassumption..|]).
  apply (prs_bind_ret _ (λ vc, _)), (@parses_map_err _ _ TcfBitSource). by apply prs_vendor.
Qed.

Lemma decode_core_iff bytes cs : buffer_ok bytes →
  M_run (tcf_new bytes) (decode_core timestamp_millis_opt) = Ok cs ↔
  ∃ w rest, core_wf w ∧ bits_of bytes = core_bits w ++ rest ∧
            core_means timestamp_millis_opt "" w cs.
Proof.
  intros Hb. destruct (tcf_new_wf bytes Hb) as [Hwf Hu]. unfold M_run. split.
  - pose proof (acc_core _ Hwf) as H.
    destruct (decode_core timestamp_millis_opt (tcf_new bytes)) as [[a|e|] r']; [|done..].
    intros [= <-]. destruct H as (_&l&Hl&w&->&Hw&Hm). exists w, (unread r').
    by rewrite <-Hl, Hu.
  - intros (w&rest&Hw&Hl&Hm).
    destruct (prs_core w cs Hw Hm (tcf_new bytes) rest Hwf) as (r'&->&_); [|done].
    by rewrite Hu.
Qed.

Lemma decode_core_total bytes : buffer_ok bytes →
  M_run (tcf_new bytes) (decode_core timestamp_millis_opt) ≠ Panic.
Proof.
  intros Hb. destruct (tcf_new_wf bytes Hb) as [Hwf _]. unfold M_run.
  pose proof (acc_core _ Hwf) as H.
  by destruct (decode_core timestamp_millis_opt (tcf_new bytes)) as [[a|e|] r'].
Qed.
End Core.

Lemma core_means_raw {DateTime} (ts : Z → option DateTime) raw w cs :
  core_means ts raw w cs ↔ ∃ cs0, core_means ts "" w cs0 ∧ cs = with_raw raw cs0.
Proof.
  split.
  - intros (c&u&Hc&Hu&->). exists (core_value "" w c u). split; [|done]. by exists c, u.
  - intros (cs0&(c&u&Hc&Hu&->)&->). by exists c, u.
Qed.

(** C14: The consent-string decoder accepts exactly the well-formed core
    segments.  When the first [.]-separated segment decodes to [bytes], the
    parse succeeds with [cs] if and only if [bytes] starts with the bits of a
    well-formed core (every vendor range within [1..=max_vendor_id]) that means
    [cs]; so decoding an encoded core gives it back, whatever segments or bits
    follow it, and a short or invalid core is an error. *)
Theorem consent_parse_iff {DateTime} (ts : Z → option DateTime) b64_decode raw bytes cs :
  split_first (ch ".") raw ≠ "" →
  b64_decode (trim_end_matches (ch "=") (split_first (ch ".") raw)) = Ok bytes →
  buffer_ok bytes →
  consent_parse ts b64_decode raw = Ok cs ↔
  ∃ w rest, core_wf w ∧ bits_of bytes = core_bits w ++ rest ∧ core_means ts raw w cs.
Proof.
  intros Hcore Hd Hb. unfold consent_parse, decode_base64url, str_is_empty.
  rewrite (bool_decide_false (raw = "")) by (by intros ->).
  rewrite bool_decide_false, Hd by done. simpl. rewrite bind_Ok. split.
  - intros (cs0&Hcs&[= <-]). apply map_err_Ok, decode_core_iff in Hcs as (w&rest&?&?&Hm); [|done].
    exists w, rest. split_and!; [done..|]. apply core_means_raw. eauto.
  - intros (w&rest&Hw&Hl&Hm). apply core_means_raw in Hm as (cs0&Hm&->).
    exists cs0. split; [|done]. apply map_err_Ok, decode_core_iff; [done|]. by exists w, rest.
Qed.

(** [ConsentString::new] is total and keeps its input: on any string it
    returns a record whose raw form is that string, either the parsed record or
    the version-0 placeholder that consents to no vendor. *)
Theorem consent_new_total {DateTime} (ts : Z → option DateTime) epoch b64_decode s :
  (∀ t, b64_decode t ≠ Panic) →
  (∀ t bytes, b64_decode t = Ok bytes → buffer_ok bytes) →
  ∃ cs, consent_new ts epoch b64_decode s = Ok cs ∧ cs_raw cs = s ∧
    (consent_parse ts b64_decode s = Ok cs ∨
     cs_version cs = 0 ∧ ∀ v, vendor_contains (cs_vendors_consent cs) v = false).
Proof.
  intros Hnp Hbuf. unfold consent_new.
  destruct (consent_parse ts b64_decode s) as [cs|e|] eqn:Hp.
  - exists cs. split_and!; [done| |by left]. unfold consent_parse in Hp.
    repeat (break_match_hyp Hp; [done|]). apply bind_Ok in Hp as (bytes&_&Hp).
    apply bind_Ok in Hp as (cs0&_&[= <-]). done.
  - exists (consent_placeholder epoch s). split_and!; [done..|]. right. split; [done|].
    intros v. simpl. unfold vendor_contains. by destruct (v =? 0).
  - exfalso. unfold consent_parse, decode_base64url in Hp.
    repeat (break_match_hyp Hp; [done|]).
    destruct (b64_decode _) as [bytes|e|] eqn:Hd; [|done|by apply Hnp in Hd]. simpl in Hp.
    pose proof (decode_core_total ts bytes (Hbuf _ _ Hd)) as Ht.
    by destruct (M_run _ _).
Qed.

(** The bitfield that marks the ids the ranges cover. *)
Lemma existsb_covered max entries v : Forall (entry_wf max) entries →
  existsb (λ r, (vr_start r <=? v) && (v <=? vr_end r)) (snd <$> entries) = true → 1 ≤ v ≤ max.
Proof.
  intros Hwf Hex. apply existsb_exists in Hex as (r&Hin&Hv). apply list_elem_of_In in Hin.
  apply list_elem_of_fmap in Hin as (e&->&He). rewrite Forall_forall in Hwf.
  destruct (Hwf e He) as (?&?&?&_). bools. lia.
Qed.

(** The two vendor encodings agree: a well-formed range list answers every
    lookup like the bitfield over [1..=max_vendor_id] that marks the ids in its
    ranges; in particular neither covers id 0 nor an id above the maximum. *)
Theorem vendor_encodings_agree max entries v :
  vendor_wf (WRanges max entries) → 0 ≤ v < 2 ^ 16 →
  let covers := λ id, existsb (λ e, (vr_start e.2 <=? id) && (id <=? vr_end e.2)) entries in
  vendor_contains (vendor_value (WRanges max entries)) v
    = vendor_contains (vendor_value (WBits (covers <$> seqZ 1 max))) v ∧
  (vendor_contains (vendor_value (WRanges max entries)) v = true → 1 ≤ v ≤ max).
Proof.
  intros (Hm&_&Hes) Hv covers. unfold width in Hm. simpl.
  assert (Hc : existsb (λ r, (vr_start r <=? v) && (v <=? vr_end r)) (snd <$> entries) = covers v).
  { subst covers. clear. induction entries as [|e es IH]; [done|]. simpl. f_equal. exact IH. }
  assert (Hb : covers v = true → 1 ≤ v ≤ max).
  { rewrite <-Hc. by apply existsb_covered. }
  unfold vendor_contains. destruct (Z.eqb_spec v 0) as [->|Hv0]; [done|]. rewrite Hc.
  split; [|done]. destruct (Z.le_gt_cases v max) as [Hle|Hgt].
  - rewrite list_lookup_fmap, lookup_seqZ_lt by lia. simpl. f_equal. lia.
  - rewrite list_lookup_fmap, lookup_seqZ_ge by lia. simpl.
    destruct (covers v) eqn:E; [|done]. lia.
Qed.

Lemma consent_parse_iff_witness :
  consent_parse Some (λ _, Ok (pack (core_bits sample_wire))) "CP==.xx" =
    Ok (core_value "CP==.xx" sample_wire 1500000000000 1500000000100).
Proof.
  apply (consent_parse_iff Some (λ _, Ok (pack (core_bits sample_wire))) "CP==.xx"
           (pack (core_bits sample_wire))); [done|done|by vm_compute|].
  destruct (bits_of_pack (core_bits sample_wire)) as (k&_&->).
  exists sample_wire, (replicate k false). split; [|split; [done|]].
  - unfold core_wf, width; simpl. split_and!; try done; try lia.
    unfold zlen; simpl. repeat constructor; simpl; lia.
  - exists 1500000000000, 1500000000100. done.
Defined.

Lemma consent_new_total_witness :
  ∃ cs, consent_new Some 0 (λ _, Err "Invalid symbol") "!!" = Ok cs ∧ cs_raw cs = "!!".
Proof.
  destruct (consent_new_total Some 0 (λ _, Err "Invalid symbol") "!!") as (cs&?&?&_); [done..|].
  by exists cs.
Defined.

Lemma vendor_encodings_agree_witness :
  vendor_contains (vendor_value (w_vendors sample_wire)) 45 =
  vendor_contains (vendor_value (WBits ((λ id, existsb
    (λ e : bool * VendorRange, (vr_start e.2 <=? id) && (id <=? vr_end e.2))
    [(false, Build_VendorRange 32 32); (true, Build_VendorRange 40 52)]) <$> seqZ 1 800))) 45.
Proof.
  apply (vendor_encodings_agree 800
    [(false, Build_VendorRange 32 32); (true, Build_VendorRange 40 52)] 45); [|lia].
  unfold vendor_wf, width, zlen; simpl. split_and!; try lia. repeat constructor; simpl; lia.
Defined.
