(* ===== verification/TcfExchange.v ===== *)
(** * The exchange's TCF consent decoder

    exchange/src/gdpr.rs, the [TcfConsent] part: a second decoder of consent
    strings, that reads at fixed offsets instead of walking the segment, plus
    the legacy helpers built on it.  The bit reads are those of [BitReader];
    base64 is a parameter.  A [HashSet<u32>] is a [gset Z]. *)

From S2P Require Import Prelude Bits BitReader TcfConsent.



(** [for vid in a..=b] *)
Definition ids_from_to (a b : Z) : list Z := seqZ a (b - a + 1).

(** One [insert] or [remove] of [parse_range_entries]. *)
Definition set_vendor (default_consent : bool) (vendors : gset Z) (vid : Z) : gset Z :=
  if default_consent then vendors ∖ {[ vid ]} else vendors ∪ {[ vid ]}.

Section ParseRangeEntries.
Context (data : list Z) (max_vendor_id : Z) (default_consent : bool).

(** [for _ in 0..num_entries]: the vendors and the offset are the state; a
    read past the end returns early with the vendors so far. *)
Fixpoint range_entries_loop (num_entries : nat) (offset : Z) (vendors : gset Z) : gset Z :=
  match num_entries with
  | O => vendors
  | S n =>
      match exch_read_bit data offset with
      | None => vendors
      | Some is_range =>
          let offset := usize (offset + 1) in
          if is_range then
            match exch_read_bits data offset 16 with
            | None => vendors
            | Some start_id =>
                let start_id := u32 start_id in
                let offset := usize (offset + 16) in
                match exch_read_bits data offset 16 with
                | None => vendors
                | Some end_id =>
                    let end_id := u32 end_id in
                    let offset := usize (offset + 16) in
                    range_entries_loop n offset
                      (fold_left (set_vendor default_consent)
                         (ids_from_to start_id (Z.min end_id max_vendor_id)) vendors)
                end
            end
          else
            match exch_read_bits data offset 16 with
            | None => vendors
            | Some vid =>
                let vid := u32 vid in
                let offset := usize (offset + 16) in
                range_entries_loop n offset
                  (if vid <=? max_vendor_id then set_vendor default_consent vendors vid
                   else vendors)
            end
      end
  end.

Definition parse_range_entries (start_bit : Z) (vendors : gset Z) : gset Z :=
  let vendors :=
    if default_consent
    then fold_left (λ vs vid, vs ∪ {[ vid ]}) (ids_from_to 1 max_vendor_id) vendors
    else vendors in
  match exch_read_bits data start_bit 12 with
  | None => vendors
  | Some num_entries =>
      range_entries_loop (Z.to_nat num_entries) (usize (start_bit + 12)) vendors
  end.
End ParseRangeEntries.

(** [for i in 0..24 { if read_bit(decoded, 152 + i)? { consents |= 1 << i } }],
    [n] turns left. *)
Fixpoint purpose_bits_loop (decoded : list Z) (n : nat) (i consents : Z) : option Z :=
  match n with
  | O => Some consents
  | S n' =>
      b ← exch_read_bit decoded (152 + i);
      purpose_bits_loop decoded n' (i + 1)
        (if b : bool then Z.lor consents (Z.shiftl 1 i) else consents)
  end.
Definition extract_purpose_consents_v1 (decoded : list Z) : option Z :=
  purpose_bits_loop decoded 24 0 0.
Definition extract_purpose_consents_v2 (decoded : list Z) : option Z :=
  purpose_bits_loop decoded 24 0 0.

(** The bitfield loops: vendor [vid]'s bit is at [base + vid - 1]. *)
Definition bitfield_loop (decoded : list Z) (base max : Z) : gset Z :=
  fold_left (λ vendors vid,
    if default false (exch_read_bit decoded (base + (vid - 1))) then vendors ∪ {[ vid ]}
    else vendors) (ids_from_to 1 max) ∅.

Definition extract_vendor_consents_v1 (decoded : list Z) : gset Z :=
  match exch_read_bits decoded 176 16 with
  | None => ∅
  | Some v =>
      let max_vendor_id := u32 v in
      let is_range_encoding := default false (exch_read_bit decoded 192) in
      if negb is_range_encoding then bitfield_loop decoded 193 max_vendor_id
      else
        let default_consent := default false (exch_read_bit decoded 193) in
        parse_range_entries decoded max_vendor_id default_consent 194 ∅
  end.

Definition extract_vendor_consents_v2 (decoded : list Z) : gset Z :=
  match exch_read_bits decoded 260 16 with
  | None => ∅
  | Some v =>
      let max_vendor_id := u32 v in
      let is_range_encoding := default false (exch_read_bit decoded 276) in
      if negb is_range_encoding then bitfield_loop decoded 277 (Z.min max_vendor_id 2048)
      else parse_range_entries decoded max_vendor_id false 277 ∅
  end.

(** The parsed consent of the exchange. *)
Record TcfConsent : Type := {
  tcf_version : Z;
  tcf_purpose_consents : Z;
  tcf_vendor_consents : gset Z;
  tcf_raw : list Z;
}.

Definition parse_v1 (decoded : list Z) : option TcfConsent :=
  purpose_consents ← extract_purpose_consents_v1 decoded;
  let vendor_consents := extract_vendor_consents_v1 decoded in
  Some {| tcf_version := 1; tcf_purpose_consents := purpose_consents;
          tcf_vendor_consents := vendor_consents; tcf_raw := decoded |}.
Definition parse_v2 (decoded : list Z) : option TcfConsent :=
  purpose_consents ← extract_purpose_consents_v2 decoded;
  let vendor_consents := extract_vendor_consents_v2 decoded in
  Some {| tcf_version := 2; tcf_purpose_consents := purpose_consents;
          tcf_vendor_consents := vendor_consents; tcf_raw := decoded |}.

Definition has_purpose_consent (tcf : TcfConsent) (purpose_id : Z) : bool :=
  if (purpose_id =? 0) || (64 <? purpose_id) then false
  else Z.land (Z.shiftr (tcf_purpose_consents tcf) (purpose_id - 1)) 1 =? 1.

Definition has_vendor_consent (tcf : TcfConsent) (vendor_id : Z) : bool :=
  bool_decide (vendor_id ∈ tcf_vendor_consents tcf).

(** [input.chars().map(..)]: the two URL-safe characters, byte by byte (no byte
    of a longer UTF-8 character is ASCII). *)
Fixpoint to_standard_alphabet (s : string) : string :=
  match s with
  | "" => ""
  | String a s' =>
      String (if bool_decide (a = ch "-") then ch "+"
              else if bool_decide (a = ch "_") then ch "/" else a) (to_standard_alphabet s')
  end.
Definition pad_base64 (s : string) : string :=
  match str_len s mod 4 with
  | 2 => s +:+ "=="
  | 3 => s +:+ "="
  | _ => s
  end.

Section ExchangeConsent.
(** [general_purpose::STANDARD.decode(..).ok()] *)
Context (b64_standard : string → option (list Z)).

Definition exch_decode_base64url (input : string) : option (list Z) :=
  b64_standard (pad_base64 (to_standard_alphabet input)).

Definition tcf_parse_bytes (decoded : list Z) : option TcfConsent :=
  match decoded with
  | b0 :: _ =>
      if zlen decoded <? 8 then None
      else match Z.land (Z.shiftr b0 2) 63 with
           | 1 => parse_v1 decoded
           | 2 => parse_v2 decoded
           | _ => None
           end
  | [] => None
  end.

Definition tcf_parse (consent_string : string) : option TcfConsent :=
  if str_is_empty consent_string then None
  else decoded ← exch_decode_base64url consent_string; tcf_parse_bytes decoded.

(** The legacy helpers. *)
Definition parse_purpose_consents (consent_string : string) : option Z :=
  tcf_purpose_consents <$> tcf_parse consent_string.

Definition vendor_has_consent (consent_string : string) (vendor_id purpose_id : Z) : bool :=
  match tcf_parse consent_string with
  | Some tcf => has_purpose_consent tcf purpose_id && has_vendor_consent tcf vendor_id
  | None => false
  end.

Definition should_block_bidder_gdpr (gdpr_applies : bool) (consent_string : option string)
    (_bidder_name : string) : bool :=
  if negb gdpr_applies then false
  else match consent_string with
  | None => true
  | Some s => if str_is_empty s then true else bool_decide (parse_purpose_consents s = None)
  end.
End ExchangeConsent.

(** ** Specification *)

(** The ids [e] covers, cut at the declared maximum, as the range loop does. *)
Definition entry_ids (max : Z) (e : bool * VendorRange) : list Z :=
  ids_from_to (vr_start e.2) (Z.min (if e.1 then vr_end e.2 else vr_start e.2) max).
Definition entry_width (e : bool * VendorRange) : Prop :=
  width 16 (vr_start e.2) ∧ (e.1 = true → width 16 (vr_end e.2)).
(** The parts of a core segment around its purpose flags. *)
Definition core_pre (w : CoreWire) : list bool :=
  bits_of_Z 36 (w_created w) ++ bits_of_Z 36 (w_last_updated w) ++
  bits_of_Z 12 (w_cmp_id w) ++ bits_of_Z 12 (w_cmp_version w) ++
  bits_of_Z 6 (w_consent_screen w) ++ letters_bits (w_language w) ++
  bits_of_Z 12 (w_vendor_list_version w) ++ bits_of_Z 6 (w_tcf_policy_version w) ++
  [w_is_service_specific w] ++ [w_use_non_standard_stacks w] ++ w_special_feature_optins w.
Definition core_post (w : CoreWire) : list bool :=
  w_purposes_li_transparency w ++ [w_purpose_one_treatment w] ++
  letters_bits (w_publisher_cc w) ++ vendor_bits (w_vendors w).

(** ** Proofs: purposes *)

(** Setting bit [i] of a number with [i] bits. *)
Lemma set_top_bit (b : bool) c i : 0 ≤ i → 0 ≤ c < 2 ^ i →
  let c1 := if b then Z.lor c (Z.shiftl 1 i) else c in
  0 ≤ c1 < 2 ^ (i + 1) ∧
  ∀ k, Z.testbit c1 k = if decide (k = i) then b else Z.testbit c k.
Proof.
  intros Hi Hc. assert (Hci : Z.testbit c i = false).
  { apply (Z.bounded_iff_bits_nonneg i c); lia. }
  rewrite Z.pow_add_r by lia. destruct b; cbv zeta.
  - split; [rewrite Z.lor_comm, lor_shiftl_add by lia; lia|]. intros k.
    rewrite Z.lor_spec, Z.shiftl_1_l, Z.pow2_bits_eqb by lia.
    destruct (decide (k = i)) as [->|]; [by rewrite Z.eqb_refl, orb_true_r|].
    by rewrite (proj2 (Z.eqb_neq i k)), orb_false_r by congruence.
  - split; [lia|]. intros k. by destruct (decide (k = i)) as [->|].
Qed.

Lemma purpose_bits_loop_spec decoded n i c :
  0 ≤ i → 0 ≤ c < 2 ^ i →
  (Z.to_nat (152 + i) + n ≤ length (bits_of decoded))%nat →
  ∃ c', purpose_bits_loop decoded n i c = Some c' ∧
    ∀ k, 0 ≤ k → Z.testbit c' k =
      if decide (i ≤ k < i + Z.of_nat n)
      then default false (bits_of decoded !! Z.to_nat (152 + k)) else Z.testbit c k.
Proof.
  revert i c. induction n as [|n IH]; intros i c Hi Hc Hl; cbn [purpose_bits_loop].
  { exists c. split; [done|]. intros k Hk. by rewrite decide_False by lia. }
  rewrite exch_read_bit_spec by lia.
  destruct (lookup_lt_is_Some_2 (bits_of decoded) (Z.to_nat (152 + i))) as [b Hb]; [lia|].
  rewrite Hb. destruct (set_top_bit b c i Hi Hc) as [Hc1 Hbit].
  destruct (IH (i + 1) (if b then Z.lor c (Z.shiftl 1 i) else c)) as (c'&Hc'&Ht);
    [lia|done|lia|].
  exists c'. split; [done|]. intros k Hk. rewrite Ht, Hbit by done.
  destruct (decide (k = i)) as [->|].
  - rewrite decide_False, decide_True by lia. by rewrite Hb.
  - destruct (decide (i ≤ k < i + Z.of_nat (S n)));
      [rewrite decide_True by lia|rewrite decide_False by lia]; done.
Qed.

Lemma extract_purposes decoded : 176 ≤ 8 * zlen decoded →
  ∃ c, purpose_bits_loop decoded 24 0 0 = Some c ∧
    ∀ v vs p, 0 < p ≤ 64 →
      has_purpose_consent (Build_TcfConsent v c vs decoded) p =
      if decide (p ≤ 24) then default false (bits_of decoded !! Z.to_nat (151 + p)) else false.
Proof.
  intros Hlen. destruct (purpose_bits_loop_spec decoded 24 0 0) as (c&Hc&Ht); [lia|lia| |].
  { pose proof (zlen_bits_of decoded). unfold zlen in *. lia. }
  exists c. split; [done|]. intros v vs p Hp. unfold has_purpose_consent. simpl.
  rewrite (proj2 (Z.eqb_neq p 0)), (proj2 (Z.ltb_ge 64 p)) by lia. simpl.
  rewrite land_1_testbit, Ht by lia. destruct (decide (p ≤ 24)).
  - rewrite decide_True by lia. replace (152 + (p - 1)) with (151 + p) by lia.
    by destruct (default _ _).
  - by rewrite decide_False, Z.testbit_0_l by lia.
Qed.

Lemma version_bits b0 rest :
  Z.land (Z.shiftr b0 2) 63 = Z_of_bits (take 6 (bits_of (b0 :: rest))).
Proof.
  rewrite <-(Z_of_bits_small 6 (Z.land (Z.shiftr b0 2) 63)).
  - f_equal. rewrite bits_of_cons, take_app_le by (rewrite length_bits_of_Z; lia).
    change (Z.of_nat 6) with 6. unfold bits_of_Z at 1. simpl take.
    rewrite !Z.land_spec, !Z.shiftr_spec by lia. simpl. by rewrite !andb_true_r.
  - change 63 with (Z.ones 6). rewrite Z.land_ones by lia. apply Z.mod_pos_bound. lia.
Qed.

(** ** Proofs: range entries *)

Lemma elem_of_ids a b v : v ∈ ids_from_to a b ↔ a ≤ v ≤ b.
Proof. unfold ids_from_to. rewrite elem_of_seqZ. lia. Qed.

Lemma fold_set_vendor dc ids vs v :
  v ∈ fold_left (set_vendor dc) ids vs ↔ if dc then v ∈ vs ∧ v ∉ ids else v ∈ vs ∨ v ∈ ids.
Proof.
  revert vs. induction ids as [|i ids IH]; intros vs; simpl;
    [destruct dc; rewrite elem_of_nil; tauto|].
  rewrite IH. unfold set_vendor.
  destruct dc; rewrite ?elem_of_difference, ?elem_of_union, elem_of_singleton, elem_of_cons; tauto.
Qed.

Lemma read_field_at data o n v rest : buffer_ok data → 0 ≤ o → (0 < n ≤ 64)%nat →
  0 ≤ v < 2 ^ Z.of_nat n →
  drop (Z.to_nat o) (bits_of data) = bits_of_Z n v ++ rest →
  exch_read_bits data o (Z.of_nat n) = Some v ∧
  drop (Z.to_nat (o + Z.of_nat n)) (bits_of data) = rest ∧
  usize (o + Z.of_nat n) = o + Z.of_nat n.
Proof.
  intros Hb Ho Hn Hv Hd.
  assert (Hl : o + Z.of_nat n ≤ 8 * zlen data).
  { apply (f_equal length) in Hd. rewrite length_drop, length_app, length_bits_of_Z in Hd.
    pose proof (zlen_bits_of data). unfold zlen in *. lia. }
  split_and!.
  - rewrite exch_read_bits_spec, decide_True by lia.
    rewrite Nat2Z.id, Hd, take_app_length' by by rewrite length_bits_of_Z.
    by rewrite Z_of_bits_small.
  - replace (Z.to_nat (o + Z.of_nat n)) with (Z.to_nat o + n)%nat by lia.
    rewrite <-drop_drop, Hd. apply drop_app_length'. by rewrite length_bits_of_Z.
  - unfold buffer_ok, usize_max in Hb. apply (usize_small (o + Z.of_nat n)). lia.
Qed.

Lemma read_bit_at data o b rest : buffer_ok data → 0 ≤ o →
  drop (Z.to_nat o) (bits_of data) = b :: rest →
  exch_read_bit data o = Some b ∧ drop (Z.to_nat (o + 1)) (bits_of data) = rest ∧
  usize (o + 1) = o + 1.
Proof.
  intros Hb Ho Hd.
  destruct (read_field_at data o 1 (Z.b2z b) rest) as (_&Hr&Hu); try done; [lia|by destruct b|..].
  { rewrite Hd. by destruct b. }
  split_and!; [|done..]. rewrite exch_read_bit_spec by done.
  rewrite <-(Nat.add_0_r (Z.to_nat o)), <-lookup_drop, Hd. done.
Qed.

Lemma range_entries_loop_spec data max dc es rest o vs :
  buffer_ok data → 0 ≤ o → Forall entry_width es →
  drop (Z.to_nat o) (bits_of data) = concat (entry_bits <$> es) ++ rest →
  range_entries_loop data max dc (length es) o vs
    = fold_left (set_vendor dc) (es ≫= entry_ids max) vs.
Proof.
  intros Hb Ho Hes. revert o vs Ho.
  induction Hes as [|[b [s t]] es [Hs Ht] Hes IH]; intros o vs Ho Hd; [done|].
  change (((b, {| vr_start := s; vr_end := t |}) :: es) ≫= entry_ids max)
    with (entry_ids max (b, {| vr_start := s; vr_end := t |}) ++ (es ≫= entry_ids max)).
  rewrite fold_left_app. cbn [fmap list_fmap concat] in Hd. rewrite <-app_assoc in Hd.
  unfold entry_bits in Hd at 1. unfold entry_ids at 2. cbn [fst snd vr_start vr_end] in *.
  rewrite <-!app_assoc in Hd.
  destruct (read_bit_at _ _ _ _ Hb Ho Hd) as (Hr0&Hd0&Hu0).
  destruct (read_field_at data (o + 1) 16 s _ Hb ltac:(lia) ltac:(lia) Hs Hd0) as (Hr1&Hd1&Hu1).
  cbn [length range_entries_loop]. rewrite Hr0. cbv zeta. rewrite Hu0.
  change (Z.of_nat 16) with 16 in *. unfold width in *.
  destruct b.
  - destruct (read_field_at data (o + 1 + 16) 16 t _ Hb ltac:(lia) ltac:(lia) (Ht eq_refl) Hd1)
      as (Hr2&Hd2&Hu2). change (Z.of_nat 16) with 16 in *.
    rewrite Hr1, Hu1, Hr2, Hu2, !u32_small by lia. apply IH; [lia|done].
  - rewrite Hr1, Hu1, !u32_small by lia. rewrite (IH (o + 1 + 16)) by (lia || done).
    f_equal. unfold ids_from_to. destruct (Z.leb_spec s max).
    + rewrite Z.min_l by lia. replace (s - s + 1) with 1 by lia. done.
    + rewrite Z.min_r by lia. rewrite seqZ_nil by lia. done.
Qed.

(** What the parse makes of a well-formed list of entries. *)
Lemma parse_range_entries_at data start max dc es rest vs v :
  buffer_ok data → 0 ≤ start → width 12 (zlen es) → Forall entry_width es →
  drop (Z.to_nat start) (bits_of data)
    = bits_of_Z 12 (zlen es) ++ concat (entry_bits <$> es) ++ rest →
  v ∈ parse_range_entries data max dc start vs ↔
    if dc then (v ∈ vs ∨ 1 ≤ v ≤ max) ∧ v ∉ (es ≫= entry_ids max)
    else v ∈ vs ∨ v ∈ (es ≫= entry_ids max).
Proof.
  intros Hb Hs Hn Hes Hd. unfold parse_range_entries.
  destruct (read_field_at data start 12 (zlen es) _ Hb Hs ltac:(lia) Hn Hd) as (Hr&Hd'&Hu).
  change (Z.of_nat 12) with 12 in *. rewrite Hr, Hu.
  replace (Z.to_nat (zlen es)) with (length es) by (unfold zlen; lia).
  rewrite (range_entries_loop_spec _ _ _ _ rest) by (done || lia). rewrite fold_set_vendor.
  destruct dc; [|done].
  change (λ vs vid, vs ∪ {[ vid ]}) with (set_vendor false).
  rewrite (fold_set_vendor false), elem_of_ids. done.
Qed.

(** The 146 bits between the version and the purposes, and what follows. *)
Lemma core_bits_split w :
  core_bits w = bits_of_Z 6 (w_version w) ++ core_pre w ++ w_purposes_consent w ++ core_post w.
Proof. unfold core_bits, core_pre, core_post. rewrite <-!app_assoc. reflexivity. Qed.

(** The two consent decoders agree on purposes: whenever the [gdpr] crate's
    decoder accepts a version-2 core, the exchange's fixed-offset decoder
    accepts the same bytes as version 2 and answers every purpose id like the
    decoded purpose flags (ids 0 and above 24 are never consented). *)
Theorem purpose_decoders_agree {DateTime} (ts : Z → option DateTime) bytes cs :
  buffer_ok bytes →
  M_run (tcf_new bytes) (decode_core ts) = Ok cs → cs_version cs = 2 →
  ∃ tcf, tcf_parse_bytes bytes = Some tcf ∧ tcf_version tcf = 2 ∧ tcf_raw tcf = bytes ∧
    ∀ p, 0 ≤ p → has_purpose_consent tcf p =
      if p =? 0 then false else default false (cs_purposes_consent cs !! Z.to_nat (p - 1)).
Proof.
  intros Hb Hd Hv. apply decode_core_iff in Hd as (w&rest&Hw&Hl&(c&u&_&_&->)); [|done].
  unfold core_wf in Hw. destruct_and! Hw. cbn [cs_version core_value cs_purposes_consent] in *.
  rewrite core_bits_split, Hv in Hl.
  assert (Hpre : length (core_pre w) = 146%nat).
  { unfold core_pre, letters_bits. rewrite !length_app, !length_bits_of_Z. simpl. lia. }
  assert (Hlen : 207 < 8 * zlen bytes).
  { rewrite <-zlen_bits_of, Hl. unfold core_post, zlen, letters_bits.
    rewrite !length_app, !length_bits_of_Z. simpl. lia. }
  destruct bytes as [|b0 bs]; [unfold zlen in Hlen; simpl in Hlen; lia|].
  unfold tcf_parse_bytes. rewrite (proj2 (Z.ltb_ge _ 8)) by lia.
  rewrite (version_bits b0 bs), Hl, <-!app_assoc, take_app_length' by done.
  change (Z_of_bits (bits_of_Z 6 2)) with 2. cbv iota.
  unfold parse_v2, extract_purpose_consents_v2.
  destruct (extract_purposes (b0 :: bs)) as (c'&->&Hp); [lia|]. simpl.
  eexists. split; [reflexivity|]. do 2 (split; [done|]). intros p Hp0.
  destruct (Z.eqb_spec p 0) as [->|Hpne]; [done|].
  destruct (Z.le_gt_cases p 64) as [Hp64|Hp64].
  - rewrite Hp, Hl, <-!app_assoc by lia. destruct (decide (p ≤ 24)).
    + rewrite lookup_app_r, length_bits_of_Z by (rewrite length_bits_of_Z; lia).
      rewrite lookup_app_r, lookup_app_l by lia. do 2 f_equal. lia.
    + by rewrite lookup_ge_None_2 by lia.
  - unfold has_purpose_consent. rewrite (proj2 (Z.ltb_lt 64 p)), orb_true_r by lia.
    by rewrite lookup_ge_None_2 by lia.
Qed.

(** A range-encoded vendor list read at its offset gives exactly the ids
    of its entries, each range cut at the declared maximum: added to the set
    without default consent, and taken out of [1..=max] with it. *)
Theorem parse_range_entries_spec data start max default_consent es rest vs :
  buffer_ok data → 0 ≤ start → zlen es < 4096 → Forall entry_width es →
  drop (Z.to_nat start) (bits_of data)
    = bits_of_Z 12 (zlen es) ++ concat (entry_bits <$> es) ++ rest →
  ∀ v, v ∈ parse_range_entries data max default_consent start vs ↔
    let covered := ∃ e : bool * VendorRange, e ∈ es ∧ vr_start e.2 ≤ v ≤
                     Z.min (if e.1 then vr_end e.2 else vr_start e.2) max in
    if default_consent then (v ∈ vs ∨ 1 ≤ v ≤ max) ∧ ¬ covered else v ∈ vs ∨ covered.
Proof.
  intros Hb Hs Hn Hes Hd v.
  rewrite (parse_range_entries_at _ _ _ _ es rest)
    by first [done | unfold width; pose proof (zlen_nonneg es); lia].
  cbv zeta.
  assert (Hc : v ∈ (es ≫= entry_ids max) ↔ ∃ e : bool * VendorRange, e ∈ es ∧ vr_start e.2 ≤ v ≤
                     Z.min (if e.1 then vr_end e.2 else vr_start e.2) max).
  { rewrite list_elem_of_bind. unfold entry_ids.
    split; intros (e&H1&H2); exists e; rewrite elem_of_ids in *; tauto. }
  destruct default_consent; by rewrite Hc.
Qed.

(** The two decoders do not agree on vendors: a consent string exists that
    both accept, in which the [gdpr] crate finds vendor 32 consented and the
    exchange, which reads the vendor section 47 bits further on, does not. *)
Theorem vendor_decoders_disagree :
  ∃ bytes (cs : ConsentString (DateTime := Z)) tcf,
    M_run (tcf_new bytes) (decode_core Some) = Ok cs ∧
    tcf_parse_bytes bytes = Some tcf ∧
    vendor_contains (cs_vendors_consent cs) 32 = true ∧ has_vendor_consent tcf 32 = false.
Proof.
  exists (pack (core_bits sample_wire)).
  destruct (M_run (tcf_new (pack (core_bits sample_wire))) (decode_core Some))
    as [cs|e|] eqn:Hd; [|by vm_compute in Hd..].
  destruct (tcf_parse_bytes (pack (core_bits sample_wire))) as [tcf|] eqn:Ht;
    [|by vm_compute in Ht].
  exists cs, tcf. split_and!; [done..| |].
  - vm_compute in Hd. by injection Hd as <-.
  - assert (Hh : (λ t, has_vendor_consent t 32) <$>
                   tcf_parse_bytes (pack (core_bits sample_wire)) = Some false) by by vm_compute.
    rewrite Ht in Hh. by injection Hh.
Qed.

Lemma purpose_decoders_agree_witness :
  ∃ tcf, tcf_parse_bytes (pack (core_bits sample_wire)) = Some tcf ∧
    has_purpose_consent tcf 10 = true.
Proof.
  destruct (purpose_decoders_agree Some (pack (core_bits sample_wire))
    (core_value "" sample_wire 1500000000000 1500000000100))
    as (tcf&Htcf&_&_&H); [by vm_compute..|].
  exists tcf. split; [exact Htcf|]. rewrite H by lia. reflexivity.
Defined.

Lemma parse_range_entries_spec_witness :
  let es := [(false, Build_VendorRange 7 7); (true, Build_VendorRange 10 20)] in
  let bits := bits_of_Z 12 2 ++ concat (entry_bits <$> es) in
  12 ∈ parse_range_entries (pack bits) 15 false 0 ∅ ∧
  12 ∉ parse_range_entries (pack bits) 15 true 0 ∅.
Proof.
  intros es bits. destruct (bits_of_pack bits) as (k&_&Hk).
  assert (Hes : Forall entry_width es).
  { repeat constructor; unfold width; simpl; lia. }
  assert (Hd : drop (Z.to_nat 0) (bits_of (pack bits)) =
    bits_of_Z 12 (zlen es) ++ concat (entry_bits <$> es) ++ replicate k false).
  { rewrite Hk. subst bits. by rewrite <-app_assoc. }
  assert (Hb : buffer_ok (pack bits)) by by vm_compute.
  assert (Hc : ∃ e : bool * VendorRange, e ∈ es ∧ vr_start e.2 ≤ 12 ≤
                Z.min (if e.1 then vr_end e.2 else vr_start e.2) 15).
  { exists (true, Build_VendorRange 10 20). split; [|simpl; lia].
    right. by left. }
  split.
  - apply (parse_range_entries_spec (pack bits) 0 15 false es (replicate k false));
      [exact Hb|lia|done|exact Hes|exact Hd|]. right. exact Hc.
  - rewrite (parse_range_entries_spec (pack bits) 0 15 true es (replicate k false));
      [|exact Hb|lia|done|exact Hes|exact Hd]. intros [_ Hn]. exact (Hn Hc).
Defined.
