(* ===== verification/Json.v ===== *)
(** * JSON values and floats

    The part of [serde_json] the source's types are made of: [Value], with
    numbers kept as serde_json keeps them and an object as its [BTreeMap], a
    list of pairs in ascending key order.  Also [f64], as the Standard Library's
    [spec_float] at the precision and exponent range of binary64: IEEE
    arithmetic with round-to-nearest-even, computable in the kernel. *)

From Stdlib Require Export SpecFloat.
From S2P Require Import Prelude.

(** ** [f64] *)

Definition f64 : Type := spec_float.
Definition f64_prec : Z := 53.
Definition f64_emax : Z := 1024.

Definition f64_add : f64 → f64 → f64 := SFadd f64_prec f64_emax.
Definition f64_sub : f64 → f64 → f64 := SFsub f64_prec f64_emax.
Definition f64_mul : f64 → f64 → f64 := SFmul f64_prec f64_emax.
Definition f64_div : f64 → f64 → f64 := SFdiv f64_prec f64_emax.
Definition f64_of_Z (z : Z) : f64 := binary_normalize f64_prec f64_emax z 0 false.
(** [num / 10^k], rounded once: what a decimal literal denotes. *)
Definition f64_of_dec (num : Z) (k : Z) : f64 := f64_div (f64_of_Z num) (f64_of_Z (10 ^ k)).
Definition f64_zero : f64 := S754_zero false.
Definition f64_ltb : f64 → f64 → bool := SFltb.
Definition f64_leb : f64 → f64 → bool := SFleb.
Definition f64_eqb : f64 → f64 → bool := SFeqb.
Definition f64_gtb (x y : f64) : bool := f64_ltb y x.
Definition f64_geb (x y : f64) : bool := f64_leb y x.

#[export] Instance f64_eq_dec : EqDecision f64.
Proof. unfold f64. solve_decision. Defined.

(** [is_finite] *)
Definition f64_is_finite (x : f64) : bool :=
  match x with S754_zero _ | S754_finite _ _ _ => true | _ => false end.
Definition f64_is_nan (x : f64) : bool :=
  match x with S754_nan => true | _ => false end.

(** [f64::floor]: only a fraction has a negative exponent. *)
Definition f64_floor (x : f64) : f64 :=
  match x with
  | S754_finite s m e =>
      if 0 <=? e then x
      else f64_of_Z (Z.div (if s then Z.neg m else Z.pos m) (2 ^ (- e)))
  | _ => x
  end.
(** [f64::round]: half away from zero. *)
Definition f64_round (x : f64) : f64 :=
  match x with
  | S754_finite s m e =>
      if 0 <=? e then x
      else
        let q := (2 * Z.pos m + 2 ^ (- e)) / (2 * 2 ^ (- e)) in
        if q =? 0 then S754_zero s else f64_of_Z (if s then - q else q)
  | _ => x
  end.
(** [x as i64]: towards zero, saturating, zero for NaN. *)
Definition f64_as_i64 (x : f64) : Z :=
  match x with
  | S754_finite s m e =>
      let t := if 0 <=? e then Z.pos m * 2 ^ e else Z.pos m / 2 ^ (- e) in
      Z.max (- 2 ^ 63) (Z.min (2 ^ 63 - 1) (if s then - t else t))
  | S754_infinity s => if s then - 2 ^ 63 else 2 ^ 63 - 1
  | _ => 0
  end.

(** ** [serde_json::Value] *)

(** [serde_json::Number] without [arbitrary_precision]. *)
Inductive Number : Type :=
| PosInt (n : Z)
| NegInt (n : Z)
| Float (x : f64).

#[export] Instance Number_eq_dec : EqDecision Number.
Proof. solve_decision. Defined.

(** Its induction principle is [Value_nested_ind]. *)
Unset Elimination Schemes.
Inductive Value : Type :=
| VNull
| VBool (b : bool)
| VNumber (n : Number)
| VString (s : string)
| VArray (l : list Value)
| VObject (m : list (string * Value)).
Set Elimination Schemes.

(** [json!(z)] of an integer. *)
Definition number (z : Z) : Value := VNumber (if z <? 0 then NegInt z else PosInt z).

(** [BTreeMap::get], [contains_key], [insert] and [remove]. *)
Fixpoint obj_get {A} (k : string) (m : list (string * A)) : option A :=
  match m with
  | [] => None
  | (k', v) :: m' => if bool_decide (k' = k) then Some v else obj_get k m'
  end.
Fixpoint obj_insert {A} (k : string) (v : A) (m : list (string * A)) : list (string * A) :=
  match m with
  | [] => [(k, v)]
  | (k', v') :: m' =>
      match String.compare k k' with
      | Eq => (k, v) :: m'
      | Lt => (k, v) :: m
      | Gt => (k', v') :: obj_insert k v m'
      end
  end.
Fixpoint obj_remove {A} (k : string) (m : list (string * A)) : list (string * A) :=
  match m with
  | [] => []
  | (k', v') :: m' => if bool_decide (k' = k) then m' else (k', v') :: obj_remove k m'
  end.

(** The keys ascend, as in every [BTreeMap]. *)
Fixpoint obj_sorted {A} (m : list (string * A)) : Prop :=
  match m with
  | [] => True
  | (k, _) :: m' =>
      Forall (λ p, String.compare k p.1 = Lt) m' ∧ obj_sorted m'
  end.

(** [Value::get(key)], on any value. *)
Definition get (k : string) (v : Value) : option Value :=
  match v with VObject m => obj_get k m | _ => None end.
Definition as_object (v : Value) : option (list (string * Value)) :=
  match v with VObject m => Some m | _ => None end.
Definition as_array (v : Value) : option (list Value) :=
  match v with VArray l => Some l | _ => None end.
Definition as_str (v : Value) : option string :=
  match v with VString s => Some s | _ => None end.
Definition as_bool (v : Value) : option bool :=
  match v with VBool b => Some b | _ => None end.
Definition as_u64 (v : Value) : option Z :=
  match v with VNumber (PosInt n) => Some n | _ => None end.
Definition as_i64 (v : Value) : option Z :=
  match v with
  | VNumber (PosInt n) => if n <=? 2 ^ 63 - 1 then Some n else None
  | VNumber (NegInt n) => Some n
  | _ => None
  end.
Definition as_f64 (v : Value) : option f64 :=
  match v with
  | VNumber (PosInt n) | VNumber (NegInt n) => Some (f64_of_Z n)
  | VNumber (Float x) => Some x
  | _ => None
  end.

(** [v.as_ref().and_then(|e| e.get(k1)).and_then(|p| p.get(k2))...] *)
Definition json_path (keys : list string) (v : option Value) : option Value :=
  fold_left (λ v k, v ≫= get k) keys v.

Definition is_object (v : Value) : bool := match v with VObject _ => true | _ => false end.
Definition is_null (v : Value) : bool := match v with VNull => true | _ => false end.

(** A map as [serde_json::to_value] makes it an object. *)
Definition map_to_object {A} (f : A → Value) (m : gmap string A) : Value :=
  VObject (fold_left (λ o e, obj_insert e.1 (f e.2) o) (map_to_list m) []).
Definition object (l : list (string * Value)) : Value :=
  VObject (fold_left (λ o e, obj_insert e.1 e.2 o) l []).
(** [obj[key] = v] on an object. *)
Definition set_key (key : string) (v : Value) (o : list (string * Value)) : list (string * Value) :=
  obj_insert key v o.
Definition strings (l : list string) : Value := VArray (VString <$> l).
(** [skip_serializing_if = "Option::is_none"] *)
Definition optional (key : string) (v : option Value) : list (string * Value) :=
  match v with Some v => [(key, v)] | None => [] end.
(** [as_object_mut] and [insert]. *)
Definition insert_entry (key : string) (x v : Value) : Value :=
  match v with VObject m => VObject (obj_insert key x m) | _ => v end.
(** [v[key] = x]: null becomes an object, any other value panics. *)
Definition index_set {E} (key : string) (x v : Value) : outcome E Value :=
  match v with
  | VObject m => Ok (VObject (obj_insert key x m))
  | VNull => Ok (VObject [(key, x)])
  | _ => Panic
  end.

(** The value under [key] of an object, entered as an empty object where there is
    none, is changed in place; another value has no entries. *)
Definition with_entry (key : string) (f : Value → Value) (v : Value) : Value :=
  match v with
  | VObject m =>
      let m := match obj_get key m with
               | Some _ => m
               | None => obj_insert key (VObject []) m
               end in
      VObject (match obj_get key m with Some child => obj_insert key (f child) m | None => m end)
  | _ => v
  end.

(** Objects with ascending keys, all the way down. *)
Fixpoint value_wf (v : Value) : Prop :=
  match v with
  | VArray l => (fix go (l : list Value) : Prop :=
      match l with [] => True | v :: l' => value_wf v ∧ go l' end) l
  | VObject m => obj_sorted m ∧ (fix go (m : list (string * Value)) : Prop :=
      match m with [] => True | p :: m' => value_wf p.2 ∧ go m' end) m
  | _ => True
  end.

Section ValueInd.
Context (P : Value → Prop).
Context (Hnull : P VNull) (Hbool : ∀ b, P (VBool b)) (Hnum : ∀ n, P (VNumber n))
  (Hstr : ∀ s, P (VString s))
  (Harr : ∀ l, Forall P l → P (VArray l))
  (Hobj : ∀ m, Forall (λ p, P p.2) m → P (VObject m)).

(** Induction through the arrays and objects. *)
Fixpoint Value_nested_ind (v : Value) : P v :=
  match v with
  | VNull => Hnull
  | VBool b => Hbool b
  | VNumber n => Hnum n
  | VString s => Hstr s
  | VArray l => Harr l ((fix go l : Forall P l :=
      match l with
      | [] => Forall_nil_2 _
      | v :: l' => Forall_cons_2 _ _ _ (Value_nested_ind v) (go l')
      end) l)
  | VObject m => Hobj m ((fix go m : Forall (λ p, P p.2) m :=
      match m with
      | [] => Forall_nil_2 _
      | p :: m' => Forall_cons_2 (λ p, P p.2) _ _ (Value_nested_ind p.2) (go m')
      end) m)
  end.
End ValueInd.

(** ** Lemmas *)

Lemma compare_lt_trans k1 k2 k3 :
  String.compare k1 k2 = Lt → String.compare k2 k3 = Lt → String.compare k1 k3 = Lt.
Proof.
  revert k2 k3. induction k1 as [|a k1 IH]; intros [|b k2] [|c k3]; simpl; try done.
  unfold Ascii.compare.
  destruct (N.compare_spec (Ascii.N_of_ascii a) (Ascii.N_of_ascii b)) as [Hab|Hab|Hab],
    (N.compare_spec (Ascii.N_of_ascii b) (Ascii.N_of_ascii c)) as [Hbc|Hbc|Hbc]; intros H1 H2;
    try done;
    destruct (N.compare_spec (Ascii.N_of_ascii a) (Ascii.N_of_ascii c)) as [Hac|Hac|Hac];
    try done; try lia; eauto.
Qed.

Lemma compare_refl k : String.compare k k = Eq.
Proof.
  induction k as [|a k IH]; [done|]. simpl. unfold Ascii.compare. by rewrite N.compare_refl.
Qed.

Lemma obj_get_insert {A} k k' (v : A) m : obj_sorted m →
  obj_get k (obj_insert k' v m) = if bool_decide (k' = k) then Some v else obj_get k m.
Proof.
  induction m as [|[k1 v1] m IH]; simpl; [done|]. intros [Hlt Hm].
  destruct (String.compare k' k1) eqn:Hc; simpl.
  - apply String.compare_eq_iff in Hc as ->. by destruct (bool_decide (k1 = k)).
  - done.
  - rewrite IH by done. destruct (decide (k1 = k)) as [->|Hne].
    + rewrite (bool_decide_true (k = k)) by done. rewrite bool_decide_false; [done|].
      intros ->. by rewrite compare_refl in Hc.
    + by rewrite !(bool_decide_false (k1 = k)) by done.
Qed.

Lemma obj_get_insert_other {A} k k' (v : A) m : k' ≠ k → obj_get k (obj_insert k' v m) = obj_get k m.
Proof.
  intros Hne. induction m as [|[k1 v1] m IH]; cbn; [by rewrite bool_decide_false|].
  destruct (String.compare k' k1) eqn:Hc; cbn.
  - apply String.compare_eq_iff in Hc as ->. by rewrite !(bool_decide_false (k1 = k)).
  - by rewrite (bool_decide_false (k' = k)).
  - by rewrite IH.
Qed.
Lemma obj_get_insert_same {A} k (v : A) m : obj_get k (obj_insert k v m) = Some v.
Proof.
  induction m as [|[k1 v1] m IH]; cbn; [by rewrite bool_decide_true|].
  destruct (String.compare k k1) eqn:Hc; cbn.
  - by rewrite bool_decide_true.
  - by rewrite bool_decide_true.
  - rewrite bool_decide_false; [done|]. intros ->. by rewrite compare_refl in Hc.
Qed.
Lemma obj_sorted_insert {A} k (v : A) m : obj_sorted m → obj_sorted (obj_insert k v m).
Proof.
  induction m as [|[k1 v1] m IH]; simpl; [by split|]. intros [Hlt Hm].
  destruct (String.compare k k1) eqn:Hc; simpl.
  - apply String.compare_eq_iff in Hc as ->. done.
  - split; [|done]. constructor; [done|]. eapply Forall_impl; [exact Hlt|].
    intros p Hp. by eapply compare_lt_trans.
  - split; [|auto]. assert (Hk : String.compare k1 k = Lt).
    { rewrite String.compare_antisym, Hc. done. }
    clear IH Hm. induction Hlt as [|[k2 v2] m H2 Hlt IH]; simpl; [by repeat constructor|].
    destruct (String.compare k k2); repeat constructor; done.
Qed.

(** ** The order of [f64]: total but for NaN *)

Lemma f64_compare_spec x y : f64_is_nan x = false → f64_is_nan y = false →
  ∃ c, SFcompare x y = Some c ∧ SFcompare y x = Some (CompOpp c).
Proof.
  destruct x as [sx|sx| |sx mx ex], y as [sy|sy| |sy my ey]; try done; intros _ _; simpl;
    try (destruct sx; eexists; split; reflexivity);
    try (destruct sx, sy; eexists; split; reflexivity); try (destruct sy; eexists; split; reflexivity).
  destruct sx, sy; try (eexists; split; reflexivity);
    rewrite (Z.compare_antisym ex ey); destruct (ex ?= ey)%Z; try (eexists; split; reflexivity);
    change (Pos.compare_cont Eq my mx) with (Pos.compare my mx);
    change (Pos.compare_cont Eq mx my) with (Pos.compare mx my);
    rewrite (Pos.compare_antisym mx my); eexists; (split; [reflexivity|]); by destruct (Pos.compare mx my).
Qed.

Lemma f64_leb_ltb x y : f64_is_nan x = false → f64_is_nan y = false →
  f64_leb x y = negb (f64_ltb y x).
Proof.
  intros Hx Hy. destruct (f64_compare_spec x y Hx Hy) as (c&H1&H2).
  unfold f64_leb, f64_ltb, SFleb, SFltb. rewrite H1, H2. by destruct c.
Qed.

Lemma f64_ltb_not_nan x y : f64_ltb x y = true → f64_is_nan x = false ∧ f64_is_nan y = false.
Proof. by destruct x, y. Qed.
Lemma f64_leb_not_nan x y : f64_leb x y = true → f64_is_nan x = false ∧ f64_is_nan y = false.
Proof. by destruct x, y. Qed.

Lemma f64_leb_trans x y z : f64_leb x y = true → f64_leb y z = true → f64_leb x z = true.
Proof.
  unfold f64_leb, SFleb.
  destruct x as [sx|sx| |sx mx ex], y as [sy|sy| |sy my ey], z as [sz|sz| |sz mz ez]; simpl; try done;
    repeat match goal with s : bool |- _ => destruct s end; try done;
    change (Pos.compare_cont Eq) with Pos.compare;
    destruct (Z.compare_spec ex ey), (Z.compare_spec ey ez), (Z.compare_spec ex ez); try done; try lia;
    destruct (Pos.compare_spec mx my), (Pos.compare_spec my mz), (Pos.compare_spec mx mz); try done; lia.
Qed.

Lemma f64_leb_refl x : f64_is_nan x = false → f64_leb x x = true.
Proof.
  intros Hx. rewrite f64_leb_ltb by done. destruct (f64_compare_spec x x Hx Hx) as (c&H1&H2).
  unfold f64_ltb, SFltb. rewrite H1 in *. injection H2 as H2. by destruct c.
Qed.

Lemma f64_ltb_leb x y : f64_ltb x y = true → f64_leb x y = true.
Proof. unfold f64_ltb, f64_leb, SFltb, SFleb. by destruct (SFcompare x y) as [[]|]. Qed.

Lemma f64_leb_total x y : f64_is_nan x = false → f64_is_nan y = false →
  f64_leb x y = true ∨ f64_leb y x = true.
Proof.
  intros Hx Hy. rewrite (f64_leb_ltb x y) by done.
  destruct (f64_ltb y x) eqn:E; [right; by apply f64_ltb_leb|by left].
Qed.

Lemma f64_ltb_leb_trans x y z : f64_ltb x y = true → f64_leb y z = true → f64_ltb x z = true.
Proof.
  intros Hxy Hyz.
  destruct (f64_ltb_not_nan _ _ Hxy), (f64_leb_not_nan _ _ Hyz).
  apply not_false_is_true. intros Hzx. rewrite <-negb_true_iff, <-f64_leb_ltb in Hzx by done.
  pose proof (f64_leb_trans _ _ _ Hyz Hzx) as Hyx.
  rewrite f64_leb_ltb, negb_true_iff in Hyx by done.
  congruence.
Qed.

(** ** Lemmas on objects *)

Lemma obj_get_not_in {A} k (m : list (string * A)) : k ∉ m.*1 → obj_get k m = None.
Proof.
  induction m as [|[k' v] m IH]; simpl; [done|]. intros [Hne Hm]%not_elem_of_cons.
  rewrite bool_decide_false by done. auto.
Qed.

Lemma obj_get_elem {A} k (m : list (string * A)) : k ∈ m.*1 → is_Some (obj_get k m).
Proof.
  induction m as [|[k' v] m IH]; csimpl; [by intros ?%elem_of_nil|].
  intros [->|Hin]%elem_of_cons; [by rewrite bool_decide_true|].
  case_bool_decide; [done|auto].
Qed.

Lemma obj_sorted_NoDup {A} (m : list (string * A)) : obj_sorted m → NoDup m.*1.
Proof.
  induction m as [|[k v] m IH]; simpl; [constructor|]. intros [Hlt Hm].
  constructor; [|auto]. rewrite list_elem_of_fmap. intros ([k' v']&->&Hin).
  rewrite Forall_forall in Hlt. specialize (Hlt _ Hin). simpl in Hlt. by rewrite compare_refl in Hlt.
Qed.

Lemma obj_get_app {A} k (l l' : list (string * A)) :
  obj_get k (l ++ l') = match obj_get k l with Some v => Some v | None => obj_get k l' end.
Proof. induction l as [|[k' v] l IH]; [done|]. simpl. by destruct (bool_decide (k' = k)). Qed.

Lemma value_wf_get k v w : value_wf v → get k v = Some w → value_wf w.
Proof.
  destruct v as [| | | | |m]; try done. simpl. intros [_ Hm] Hg.
  induction m as [|[k' v'] m IH]; simpl in *; [done|]. destruct Hm as [Hv Hm].
  case_bool_decide; [by simplify_eq|]. auto.
Qed.

Lemma value_wf_object m :
  value_wf (VObject m) ↔ obj_sorted m ∧ ∀ k v, obj_get k m = Some v → value_wf v.
Proof.
  split.
  - intros H. split; [by destruct H|]. intros k v Hg. by apply (value_wf_get k (VObject m)).
  - intros [Hs Hall]. split; [done|].
    pose proof (obj_sorted_NoDup _ Hs) as Hnd. clear Hs.
    induction m as [|[k v] m IH]; [done|]. csimpl in Hnd. apply NoDup_cons in Hnd as [Hni Hnd].
    split; [apply (Hall k); simpl; by rewrite bool_decide_true|].
    apply IH; [|done]. intros k' v' Hg. apply (Hall k'). simpl.
    rewrite bool_decide_false; [done|]. intros ->. by rewrite obj_get_not_in in Hg.
Qed.

Lemma obj_get_elem_of {A} k (v : A) m : obj_get k m = Some v → (k, v) ∈ m.
Proof.
  induction m as [|[k' v'] m IH]; simpl; [done|].
  case_bool_decide; intros ?; simplify_eq; [by left|right; auto].
Qed.

Lemma obj_sorted_ext {A} (m1 m2 : list (string * A)) : obj_sorted m1 → obj_sorted m2 →
  (∀ k, obj_get k m1 = obj_get k m2) → m1 = m2.
Proof.
  assert (Hlow : ∀ k' k (v : A) m, Forall (λ p, String.compare k p.1 = Lt) m →
    String.compare k' k ≠ Gt → k' ≠ k → obj_get k' ((k, v) :: m) = None).
  { intros k' k v m Hlt Hc Hne. apply obj_get_not_in. csimpl. intros [?|Hin]%elem_of_cons; [done|].
    apply list_elem_of_fmap in Hin as (p&->&Hp). rewrite Forall_forall in Hlt.
    specialize (Hlt _ Hp). destruct (String.compare p.1 k) eqn:Hpk; [| |done].
    - by apply String.compare_eq_iff in Hpk.
    - pose proof (compare_lt_trans _ _ _ Hlt Hpk) as Hf. by rewrite compare_refl in Hf. }
  revert m2. induction m1 as [|[k1 v1] m1 IH]; intros [|[k2 v2] m2]; [done| | |].
  { intros _ _ Hg. specialize (Hg k2). simpl in Hg. by rewrite bool_decide_true in Hg. }
  { intros _ _ Hg. specialize (Hg k1). simpl in Hg. by rewrite bool_decide_true in Hg. }
  simpl. intros [Hlt1 Hs1] [Hlt2 Hs2] Hg.
  destruct (decide (k1 = k2)) as [->|Hne].
  - pose proof (Hg k2) as Hk. rewrite !bool_decide_true in Hk by done. simplify_eq.
    f_equal. apply IH; [done..|]. intros k. specialize (Hg k). simpl in Hg.
    destruct (decide (k2 = k)) as [->|]; [|by rewrite !(bool_decide_false (k2 = k)) in Hg by done].
    rewrite !obj_get_not_in; [done|..]; intros Hin; apply list_elem_of_fmap in Hin as (p&->&Hp).
    + rewrite Forall_forall in Hlt2. specialize (Hlt2 _ Hp). by rewrite compare_refl in Hlt2.
    + rewrite Forall_forall in Hlt1. specialize (Hlt1 _ Hp). by rewrite compare_refl in Hlt1.
  - exfalso. destruct (String.compare k1 k2) eqn:Hc.
    + by apply String.compare_eq_iff in Hc.
    + specialize (Hg k1). rewrite bool_decide_true in Hg by done.
      pose proof (Hlow k1 k2 v2 m2 Hlt2) as Hn. simpl in Hn. rewrite Hn in Hg; [done| |done].
      by rewrite Hc.
    + specialize (Hg k2). rewrite (bool_decide_true (k2 = k2)) in Hg by done.
      pose proof (Hlow k2 k1 v1 m1 Hlt1) as Hn. simpl in Hn. rewrite Hn in Hg; [done| |done].
      rewrite String.compare_antisym, Hc. done.
Qed.

Lemma json_path_none path : json_path path None = None.
Proof. unfold json_path. by induction path. Qed.

Lemma json_path_leaf path w v : json_path path (Some w) = Some v →
  is_object w = false → v = w.
Proof.
  destruct path as [|k path]; [by intros [= ->]|]. intros Hp Hw.
  change (json_path path (Some w ≫= get k) = Some v) in Hp.
  assert (Hn : Some w ≫= get k = None) by (by destruct w).
  by rewrite Hn, json_path_none in Hp.
Qed.

Lemma obj_remove_absent {A} k (m : list (string * A)) : obj_get k m = None → obj_remove k m = m.
Proof. induction m as [|[k' v] m IH]; [done|]. simpl. case_bool_decide; [done|]. intros Hk. by rewrite IH. Qed.
Lemma obj_get_remove {A} k k' (m : list (string * A)) : obj_sorted m →
  obj_get k (obj_remove k' m) = if bool_decide (k' = k) then None else obj_get k m.
Proof.
  intros Hs%obj_sorted_NoDup. induction m as [|[k1 v1] m IH]; simpl; [by case_bool_decide|].
  apply NoDup_cons in Hs as [Hni Hs]. specialize (IH Hs).
  destruct (bool_decide (k1 = k')) eqn:H1; bools; simpl.
  - subst k1. case_bool_decide; [subst|done]. by apply obj_get_not_in.
  - rewrite IH. repeat case_bool_decide; congruence.
Qed.
Lemma obj_sorted_remove {A} k (m : list (string * A)) : obj_sorted m → obj_sorted (obj_remove k m).
Proof.
  induction m as [|[k1 v1] m IH]; simpl; [done|]. intros [Hlt Hs].
  destruct (bool_decide (k1 = k)); [done|]. simpl. split; [|by apply IH].
  rewrite Forall_forall in *. intros e He. apply Hlt. clear -He.
  induction m as [|[k2 v2] m IH]; simpl in *; [done|].
  destruct (bool_decide (k2 = k)); [by right|].
  apply elem_of_cons in He as [->|He]; [by left|right; by apply IH].
Qed.
Lemma obj_remove_insert {A} k (v : A) m : obj_sorted m →
  obj_remove k (obj_insert k v m) = obj_remove k m.
Proof.
  intros Hs. apply obj_sorted_ext; [by apply obj_sorted_remove, obj_sorted_insert|by apply obj_sorted_remove|].
  intros k'. rewrite !obj_get_remove, obj_get_insert by eauto using obj_sorted_insert.
  by case_bool_decide.
Qed.
Lemma obj_insert_insert {A} k (v w : A) m : obj_sorted m →
  obj_insert k v (obj_insert k w m) = obj_insert k v m.
Proof.
  intros Hs. apply obj_sorted_ext; [by repeat apply obj_sorted_insert..|].
  intros k'. rewrite !obj_get_insert by eauto using obj_sorted_insert. by case_bool_decide.
Qed.
Lemma obj_insert_same {A} k (v : A) m : obj_sorted m → obj_get k m = Some v → obj_insert k v m = m.
Proof.
  intros Hs Hk. apply obj_sorted_ext; [by apply obj_sorted_insert|done|].
  intros k'. rewrite obj_get_insert by done. case_bool_decide; by subst.
Qed.
Lemma as_i64_number z : - 2 ^ 63 ≤ z < 2 ^ 63 → as_i64 (number z) = Some z.
Proof.
  intros Hz. unfold number. destruct (z <? 0) eqn:Hneg; bools; cbn; [done|].
  by rewrite (proj2 (Z.leb_le _ _)) by lia.
Qed.
