(* ===== verification/CacheCrate.v ===== *)
(** * The cache crate

    cache/src/lib.rs: what is sent to Prebid Cache, the client that sends it, the
    client that does nothing, and the contract both keep: as many ids as values.

    The HTTP client, serde_json's printer and parser are parameters. *)

From S2P Require Import Prelude Json.

Inductive PcError : Type :=
| PcRequestBuild (s : string)
| PcRequestSend (s : string)
| PcBadStatus (status : Z) (body : string)
| PcResponseParse (s : string)
| PcEncode (s : string).
Definition pc_error_to_string (e : PcError) : string :=
  match e with
  | PcRequestBuild s => "error creating request to Prebid Cache: " +:+ s
  | PcRequestSend s => "error sending request to Prebid Cache: " +:+ s
  | PcBadStatus status body => "Prebid Cache returned HTTP " +:+ pretty status +:+ ": " +:+ body
  | PcResponseParse s => "error parsing Prebid Cache response: " +:+ s
  | PcEncode s => "error encoding values for Prebid Cache: " +:+ s
  end.
Inductive PayloadType : Type := PtJson | PtXml.
Definition payload_type_to_string (t : PayloadType) : string := match t with PtJson => "json" | PtXml => "xml" end.
Record PcCacheable : Type := {
  pcc_type : option PayloadType; pcc_data : option Value; pcc_ttl_seconds : Z; pcc_key : string;
  pcc_bidid : string; pcc_bidder : string; pcc_timestamp : Z }.
Definition is_zero_or_negative (v : Z) : bool := v <=? 0.
Definition is_zero_i64 (v : Z) : bool := v =? 0.
(** The fields an entry is sent with, in their order. *)
Definition cacheable_fields (c : PcCacheable) : list (string * Value) :=
  [("type", match pcc_type c with Some t => VString (payload_type_to_string t) | None => VNull end)]
  ++ optional "value" (pcc_data c)
  ++ (if is_zero_or_negative (pcc_ttl_seconds c) then [] else [("ttlseconds", number (pcc_ttl_seconds c))])
  ++ (if str_is_empty (pcc_key c) then [] else [("key", VString (pcc_key c))])
  ++ (if str_is_empty (pcc_bidid c) then [] else [("bidid", VString (pcc_bidid c))])
  ++ (if str_is_empty (pcc_bidder c) then [] else [("bidder", VString (pcc_bidder c))])
  ++ (if is_zero_i64 (pcc_timestamp c) then [] else [("timestamp", number (pcc_timestamp c))]).
Record PcExtCacheData : Type := { ecd_scheme : string; ecd_host : string; ecd_path : string }.
(** The trait. *)
Class PcCache (C : Type) : Type := {
  put_objects : C → list PcCacheable → list string * list PcError;
  get_ext_cache_data : C → PcExtCacheData;
}.
(** Times are in milliseconds. *)
Record PcClientConfig : Type := { pcf_base_url : string; pcf_timeout : Z; pcf_external_cache : PcExtCacheData }.
Definition default_ClientConfig : PcClientConfig := {|
  pcf_base_url := ""; pcf_timeout := 1000; pcf_external_cache := {| ecd_scheme := ""; ecd_host := ""; ecd_path := "" |} |}.
Record PcClient : Type := { pcl_put_url : string; pcl_timeout : Z; pcl_external_cache : PcExtCacheData }.
Definition client_new (config : PcClientConfig) : PcClient := {|
  pcl_put_url := trim_end_matches (ch "/") (pcf_base_url config) +:+ "/cache"; pcl_timeout := pcf_timeout config;
  pcl_external_cache := pcf_external_cache config |}.

(** reqwest and serde_json: the answer to a POST is an error, or a status and the
    text of the body or the error of reading it. *)
Class CacheHttp : Type := {
  put_request_to_vec : list (list (string * Value)) → string + list Z;
  http_put : string → Z → list Z → string + (Z * (string + string));
  put_response_from_str : string → string + list string;
}.
(** [uuids[i] = resp.uuid], up to the number of values. *)
Fixpoint fill_uuids (uuids responses : list string) : list string :=
  match uuids, responses with
  | _ :: uuids', r :: responses' => r :: fill_uuids uuids' responses'
  | _, _ => uuids
  end.
Definition cc_is_success (status : Z) : bool := (200 <=? status) && (status <? 300).
Section Client.
Context `{CacheHttp}.
Definition client_put_objects (c : PcClient) (values : list PcCacheable) : list string * list PcError :=
  match values with
  | [] => ([], [])
  | _ =>
      let uuids := replicate (length values) "" in
      match put_request_to_vec (cacheable_fields <$> values) with
      | inl e => (uuids, [PcEncode e])
      | inr payload =>
          match http_put (pcl_put_url c) (pcl_timeout c) payload with
          | inl e => (uuids, [PcRequestSend e])
          | inr (_, inl e) => (uuids, [PcRequestSend e])
          | inr (status, inr body) =>
              if negb (cc_is_success status) then (uuids, [PcBadStatus status body]) else
              match put_response_from_str body with
              | inl e => (uuids, [PcResponseParse (e +:+ ": body was: " +:+ body)])
              | inr responses => (fill_uuids uuids responses, [])
              end
          end
      end
  end.
Definition client_ext_cache_data (c : PcClient) : PcExtCacheData :=
  let path := ecd_path (pcl_external_cache c) in
  {| ecd_scheme := ecd_scheme (pcl_external_cache c); ecd_host := ecd_host (pcl_external_cache c);
     ecd_path := if bool_decide (path = "/") then ""
       else if negb (str_is_empty path) && negb (String.prefix "/" path) then "/" +:+ path else path |}.
#[export] Instance client_cache : PcCache PcClient := {
  put_objects := client_put_objects; get_ext_cache_data := client_ext_cache_data }.
End Client.
Inductive NoopCache : Type := MkNoopCache.
#[export] Instance noop_cache : PcCache NoopCache := {
  put_objects _ values := (replicate (length values) "", []);
  get_ext_cache_data _ := {| ecd_scheme := ""; ecd_host := ""; ecd_path := "" |} }.

(** ** The contract *)

(** A cache answers as many ids as it was given values; without a value it does
    nothing; an external path is empty or begins with a separator. *)
Class LawfulCache (C : Type) `{PcCache C} : Prop := {
  one_id_per_value (c : C) values : length (put_objects c values).1 = length values;
  errors_leave_no_id (c : C) values : (put_objects c values).2 ≠ [] → (put_objects c values).1 = replicate (length values) "";
  ext_path (c : C) : ecd_path (get_ext_cache_data c) = "" ∨ String.prefix "/" (ecd_path (get_ext_cache_data c)) = true;
}.
Lemma fill_uuids_length uuids responses : length (fill_uuids uuids responses) = length uuids.
Proof. revert responses. induction uuids as [|u uuids IH]; intros [|r responses]; cbn; auto. Qed.
(** An id is the response's at its place, and blank past the last response. *)
Lemma fill_uuids_lookup n responses i : fill_uuids (replicate n "") responses !! i =
  if bool_decide (i < n)%nat then Some (default "" (responses !! i)) else None.
Proof.
  revert responses i. induction n as [|n IH]; intros [|r responses] i; cbn [replicate fill_uuids].
  - by rewrite bool_decide_eq_false_2 by lia.
  - by rewrite bool_decide_eq_false_2 by lia.
  - change ("" :: replicate n "") with (replicate (S n) ""). rewrite lookup_nil. case_bool_decide.
    + by rewrite lookup_replicate_2.
    + by apply lookup_replicate_None; lia.
  - destruct i as [|i]; [done|]. cbn. rewrite IH. by rewrite (bool_decide_ext (S i < S n)%nat (i < n)%nat) by lia.
Qed.
#[export] Instance noop_lawful : LawfulCache NoopCache.
Proof. split; cbn; intros; [by rewrite length_replicate|done|by left]. Qed.
#[export] Instance client_lawful `{CacheHttp} : LawfulCache PcClient.
Proof.
  split; cbn.
  - intros c values. unfold client_put_objects. destruct values as [|v values]; [done|]. cbn zeta.
    repeat case_match; cbn [fst]; by rewrite ?fill_uuids_length, length_replicate.
  - intros c values. unfold client_put_objects. destruct values as [|v values]; [done|]. cbn zeta.
    repeat case_match; done.
  - intros c. unfold client_ext_cache_data. cbn. case_bool_decide; [by left|].
    destruct (str_is_empty _) eqn:He; cbn; [left; by apply bool_decide_eq_true in He|].
    destruct (String.prefix "/" _) eqn:Hp; cbn; [by right|]. right. by destruct (ecd_path _).
Qed.
(** The endpoint is under the base, whatever separators that ends with. *)
Example put_url_slashes : pcl_put_url (client_new {| pcf_base_url := "https://c//"; pcf_timeout := 1;
  pcf_external_cache := {| ecd_scheme := ""; ecd_host := ""; ecd_path := "" |} |}) = "https://c/cache".
Proof. by vm_compute. Qed.
