(* ===== verification/Cache.v ===== *)
(** * Caches

    The interface to the concurrent caches of the moka crate the fetchers keep
    their answers in: an entry may be evicted or expire at any time, and what is
    read is what was last inserted under the key.  [Kept] is the map without
    eviction, [Forgetful] the cache that keeps nothing. *)

From S2P Require Import Prelude.

(** [cache_holds c k v]: a lookup of [k] may still return [v]. *)
Class Cache (C V : Type) : Type := {
  cache_get : string → C → option V * C;
  cache_insert : string → V → C → C;
  cache_holds : C → string → V → Prop;
  cache_get_holds k c v : (cache_get k c).1 = Some v → cache_holds c k v;
  cache_get_keeps k c k' v : cache_holds (cache_get k c).2 k' v → cache_holds c k' v;
  cache_insert_holds k v c k' v' : cache_holds (cache_insert k v c) k' v' →
    k' = k ∧ v' = v ∨ k' ≠ k ∧ cache_holds c k' v';
}.

(** Every entry is as [P] says. *)
Definition cache_all {C V} `{!Cache C V} (P : string → V → Prop) (c : C) : Prop :=
  ∀ k v, cache_holds c k v → P k v.

#[export] Program Instance kept_cache V : Cache (gmap string V) V := {|
  cache_get k c := (c !! k, c); cache_insert k v c := <[ k := v ]> c;
  cache_holds c k v := c !! k = Some v |}.
Next Obligation. done. Qed.
Next Obligation. done. Qed.
Next Obligation. intros V k v c k' v' [[<- <-]|[? ?]]%lookup_insert_Some; auto. Qed.

#[export] Program Instance forgetful_cache V : Cache unit V := {|
  cache_get _ c := (None, c); cache_insert _ _ c := c; cache_holds _ _ _ := False |}.
Next Obligation. done. Qed.
Next Obligation. done. Qed.
Next Obligation. done. Qed.

Section CacheAll.
Context {C V : Type} `{!Cache C V} (P : string → V → Prop).
Lemma cache_all_get k c v : cache_all P c → (cache_get k c).1 = Some v → P k v.
Proof. intros Hc Hg. by apply Hc, cache_get_holds. Qed.
Lemma cache_all_keep k c : cache_all P c → cache_all P (cache_get k c).2.
Proof. intros Hc k' v' H. by eapply Hc, cache_get_keeps. Qed.
Lemma cache_all_insert k v c : cache_all P c → P k v → cache_all P (cache_insert k v c).
Proof. intros Hc Hp k' v' [[-> ->]|[_ H]]%cache_insert_holds; [done|by apply Hc]. Qed.
End CacheAll.
#[export] Hint Resolve cache_all_keep cache_all_insert : pbs.
