(* ===== verification/Dsa.v ===== *)
(** Digital Services Act (exchange/src/dsa.rs): the check of a bid's transparency
    object against the request's, and the account's default.  Serde is a parameter. *)
From S2P Require Import Prelude Json.

Definition REQUIRED : Z := 2.
Definition REQUIRED_ONLINE_PLATFORM : Z := 3.
Definition PUB_CANNOT_RENDER : Z := 0.
Definition PUB_WILL_RENDER : Z := 2.
Definition AD_WILL_RENDER : Z := 1.
Definition BEHALF_MAX_LENGTH : Z := 100.
Definition PAID_MAX_LENGTH : Z := 100.

Inductive DsaError : Type := DsaMissing | BehalfTooLong | PaidTooLong | NeitherWillRender | BothWillRender.
Definition dsa_error_to_string (e : DsaError) : string :=
  match e with
  | DsaMissing => "DSA object missing when required"
  | BehalfTooLong => "DSA behalf exceeds limit of 100 chars"
  | PaidTooLong => "DSA paid exceeds limit of 100 chars"
  | NeitherWillRender => "DSA publisher and buyer both signal will not render"
  | BothWillRender => "DSA publisher and buyer both signal will render"
  end.
Record DsaTransparencyEntry : Type := { dte_domain : string; dte_dsaparams : list Z }.
Record DsaRequest : Type := {
  dsr_dsarequired : option Z; dsr_pubrender : option Z; dsr_datatopub : option Z;
  dsr_transparency : list DsaTransparencyEntry;
}.
Record DsaResponse : Type := {
  dsp_behalf : string; dsp_paid : string; dsp_transparency : list DsaTransparencyEntry;
  dsp_adrender : option Z;
}.

Definition dsa_required (request_dsa : option DsaRequest) : bool :=
  match request_dsa with
  | Some dsa =>
      match dsr_dsarequired dsa with
      | Some v => (v =? REQUIRED) || (v =? REQUIRED_ONLINE_PLATFORM)
      | None => false
      end
  | None => false
  end.
(** Lengths are bytes. *)
Definition validate_dsa (request_dsa : option DsaRequest) (response_dsa : option DsaResponse)
    : outcome DsaError () :=
  if dsa_required request_dsa && bool_decide (response_dsa = None) then Err DsaMissing
  else match response_dsa with
  | None => Ok ()
  | Some bid_dsa =>
      if BEHALF_MAX_LENGTH <? str_len (dsp_behalf bid_dsa) then Err BehalfTooLong
      else if PAID_MAX_LENGTH <? str_len (dsp_paid bid_dsa) then Err PaidTooLong
      else match request_dsa with
      | None => Ok ()
      | Some req_dsa =>
          match dsr_pubrender req_dsa, dsp_adrender bid_dsa with
          | Some pub_render, Some ad_render =>
              if (pub_render =? PUB_CANNOT_RENDER) && negb (ad_render =? AD_WILL_RENDER) then Err NeitherWillRender
              else if (pub_render =? PUB_WILL_RENDER) && (ad_render =? AD_WILL_RENDER) then Err BothWillRender
              else Ok ()
          | _, _ => Ok ()
          end
      end
  end.

Record DsaAccountConfig : Type := { dac_default : option DsaRequest; dac_gdpr_only : bool }.
Record DsaWriter : Type := { dsw_config : option DsaAccountConfig; dsw_gdpr_in_scope : bool }.

Class DsaCodec : Type := {
  dsa_to_value : DsaRequest → outcome string Value;
  dsa_from_value : Value → option DsaRequest;
  dsa_response_from_value : Value → option DsaResponse;
}.
Section Codec.
Context `{DC : DsaCodec}.
Definition get_request_dsa (ext : Value) : option DsaRequest :=
  d ← json_path ["regs"; "ext"; "dsa"] (Some ext); dsa_from_value d.
Definition get_bid_dsa (bid_ext : Value) : option DsaResponse :=
  d ← get "dsa" bid_ext; dsa_response_from_value d.
(** Set [regs.ext.dsa], making the objects on the way. *)
Definition insert_dsa (dsa_value request_ext : Value) : outcome string Value :=
  match request_ext with
  | VObject m =>
      match default (VObject []) (obj_get "regs" m) with
      | VObject regs =>
          match default (VObject []) (obj_get "ext" regs) with
          | VObject ext =>
              Ok (VObject (obj_insert "regs"
                (VObject (obj_insert "ext" (VObject (obj_insert "dsa" dsa_value ext)) regs)) m))
          | _ => Err "regs.ext is not an object"
          end
      | _ => Err "regs is not an object"
      end
  | _ => Err "request ext is not an object"
  end.
(** The result, and the extension, which an error leaves as it was. *)
Definition dsa_write (w : DsaWriter) (request_ext : Value) : outcome string bool * Value :=
  match get_request_dsa request_ext with
  | Some _ => (Ok false, request_ext)
  | None =>
      match dsw_config w with
      | None => (Ok false, request_ext)
      | Some config =>
          match dac_default config with
          | None => (Ok false, request_ext)
          | Some default_dsa =>
              if dac_gdpr_only config && negb (dsw_gdpr_in_scope w) then (Ok false, request_ext)
              else
                match map_err (λ e, "failed to serialize DSA default: " +:+ e) (dsa_to_value default_dsa) with
                | Ok dsa_value =>
                    match insert_dsa dsa_value request_ext with
                    | Ok ext => (Ok true, ext)
                    | Err e => (Err e, request_ext)
                    | Panic => (Panic, request_ext)
                    end
                | Err e => (Err e, request_ext)
                | Panic => (Panic, request_ext)
                end
          end
      end
  end.

(** ** Proofs *)

Lemma validate_dsa_spec request response : validate_dsa request response = Ok () ↔
  (dsa_required request = true → response ≠ None) ∧
  ∀ bid, response = Some bid → str_len (dsp_behalf bid) ≤ 100 ∧ str_len (dsp_paid bid) ≤ 100 ∧
    ∀ p a, (request ≫= dsr_pubrender) = Some p → dsp_adrender bid = Some a →
      (p = 0 → a = 1) ∧ (p = 2 → a ≠ 1).
Proof.
  unfold validate_dsa, BEHALF_MAX_LENGTH, PAID_MAX_LENGTH, PUB_CANNOT_RENDER, PUB_WILL_RENDER, AD_WILL_RENDER.
  destruct response as [bid|].
  2: { rewrite bool_decide_true by done. destruct (dsa_required request); cbn; naive_solver. }
  rewrite bool_decide_false, andb_false_r by done.
  destruct (Z.ltb_spec 100 (str_len (dsp_behalf bid))); [split; [done|]; intros [_ H']; destruct (H' bid eq_refl); lia|].
  destruct (Z.ltb_spec 100 (str_len (dsp_paid bid))); [split; [done|]; intros [_ H']; destruct (H' bid eq_refl) as (_ & ? & _); lia|].
  destruct request as [r|]; cbn; [|naive_solver].
  destruct (dsr_pubrender r) as [p|], (dsp_adrender bid) as [a|] eqn:Ha; cbn; try naive_solver lia.
  split.
  - intros Hok. split; [done|]. intros b [= <-]. split; [lia|]. split; [lia|]. intros p' a' [= <-] Ha'.
    rewrite Ha in Ha'. injection Ha' as <-.
    destruct (Z.eqb_spec p 0), (Z.eqb_spec p 2), (Z.eqb_spec a 1); cbn in Hok; done || lia.
  - intros [_ H']. destruct (H' bid eq_refl) as (_ & _ & H3). specialize (H3 p a eq_refl Ha).
    destruct (Z.eqb_spec p 0), (Z.eqb_spec p 2), (Z.eqb_spec a 1); cbn; done || lia.
Qed.

(** An extension that lacks a readable object gets the account's default, and only
    that: what is read back is the default, and writing again changes nothing. *)
Lemma dsa_write_spec w ext : value_wf ext →
  (∀ d v, dsa_to_value d = Ok v → dsa_from_value v = Some d) →
  let '(r, ext') := dsa_write w ext in
  match r with
  | Ok true => get_request_dsa ext = None ∧ ∃ config, dsw_config w = Some config ∧
      get_request_dsa ext' = dac_default config ∧ is_Some (dac_default config) ∧
      (dac_gdpr_only config = true → dsw_gdpr_in_scope w = true) ∧
      (∀ k, k ≠ "regs" → get k ext' = get k ext) ∧ dsa_write w ext' = (Ok false, ext')
  | _ => ext' = ext
  end.
Proof.
  intros Hwf Hcodec. unfold dsa_write at 1. destruct (get_request_dsa ext) eqn:Hg; [done|].
  destruct (dsw_config w) as [config|] eqn:Hc; [|done]. destruct (dac_default config) as [d|] eqn:Hd; [|done].
  destruct (dac_gdpr_only config && negb (dsw_gdpr_in_scope w)) eqn:Hs; [done|].
  destruct (dsa_to_value d) as [v|e|] eqn:Hv; cbn [map_err]; [|done..].
  destruct (insert_dsa v ext) as [ext'|e|] eqn:Hi; [|done..].
  assert (Hg' : get_request_dsa ext' = Some d ∧ ∀ k, k ≠ "regs" → get k ext' = get k ext).
  { unfold insert_dsa in Hi. destruct ext as [| | | | |m]; try done.
    pose proof Hwf as [Hm _]. destruct (default _ (obj_get "regs" m)) as [| | | | |regs] eqn:Hr; try done.
    destruct (default _ (obj_get "ext" regs)) as [| | | | |e] eqn:He; try done. injection Hi as <-.
    assert (Hrs : obj_sorted regs).
    { destruct (obj_get "regs" m) eqn:Hrm; cbn in Hr; [|by injection Hr as <-].
      subst. by destruct (value_wf_get "regs" _ _ Hwf Hrm). }
    assert (Hes : obj_sorted e).
    { destruct (obj_get "ext" regs) as [x|] eqn:Hre; cbn in He; [|by injection He as <-]. subst.
      destruct (obj_get "regs" m) eqn:Hrm; cbn in Hr; [|injection Hr as <-; done]. subst.
      by destruct (value_wf_get "ext" _ _ (value_wf_get "regs" _ _ Hwf Hrm) Hre). }
    split.
    - unfold get_request_dsa. unfold json_path. cbn. rewrite obj_get_insert by done. rewrite bool_decide_true by done. cbn.
      rewrite obj_get_insert by done. rewrite bool_decide_true by done. cbn.
      rewrite obj_get_insert by done. rewrite bool_decide_true by done. cbn. eauto.
    - intros k Hk. cbn. by rewrite obj_get_insert, bool_decide_false by done. }
  destruct Hg' as [Hg' Hk]. split; [done|]. exists config. rewrite Hd. split_and!; try done.
  - intros Ho. rewrite Ho in Hs. by destruct (dsw_gdpr_in_scope w).
  - unfold dsa_write. by rewrite Hg'.
Qed.
End Codec.
(** Sixty letters of two bytes are too long for a limit documented in characters. *)
Fixpoint repeat_string (n : nat) (s : string) : string :=
  match n with O => "" | S n => s +:+ repeat_string n s end.
Lemma limit_counts_bytes : let behalf := repeat_string 60 "é" in
  length (str_chars behalf) = 60%nat ∧
  validate_dsa None (Some {| dsp_behalf := behalf; dsp_paid := ""; dsp_transparency := [];
                             dsp_adrender := None |}) = Err BehalfTooLong.
Proof. by vm_compute. Qed.
