(* ===== verification/FloatText.v ===== *)
(** Reading a float: Rust's [str::parse::<f64>], to the nearest double. *)
From S2P Require Import Prelude Json.

(** [num / den] rounded once, to nearest even: the quotient with at least 66
    bits, and a last bit that tells whether anything is left. *)
Definition f64_of_ratio (num den : Z) : f64 :=
  let shift := Z.max 0 (67 + Z.log2 den - Z.log2 num) in
  let scaled := num * 2 ^ shift in
  binary_normalize f64_prec f64_emax
    (2 * (scaled / den) + (if scaled mod den =? 0 then 0 else 1)) (- (shift + 1)) false.
(** The float nearest to [n * 10^k]. *)
Definition f64_of_decimal (n k : Z) : f64 :=
  if 0 <=? k then f64_of_ratio (n * 10 ^ k) 1 else f64_of_ratio n (10 ^ (- k)).

Definition is_digit (a : Ascii.ascii) : bool :=
  let n := Ascii.N_of_ascii a in (48 <=? n)%N && (n <=? 57)%N.
Fixpoint span_digits (s : string) : string * string :=
  match s with
  | String a s' => if is_digit a then (String a (span_digits s').1, (span_digits s').2) else ("", s)
  | "" => ("", "")
  end.
Definition split_sign (s : string) : bool * string :=
  match s with
  | String a s' =>
      if bool_decide (a = ch "-") then (true, s') else if bool_decide (a = ch "+") then (false, s') else (false, s)
  | "" => (false, "")
  end.
(** [e], a sign and digits, to the end. *)
Definition parse_exponent (s : string) : option Z :=
  match s with
  | "" => Some 0
  | String a s' =>
      if bool_decide (ascii_lower a = ch "e") then
        let '(negative, s') := split_sign s' in
        match span_digits s' with
        | (String _ _ as ds, "") => e ← digits_value 0 ds; Some (if negative : bool then - e else e)
        | _ => None
        end
      else None
  end.
Definition parse_decimal (s : string) : option f64 :=
  let '(int, rest) := span_digits s in
  let '(frac, rest) :=
    match rest with
    | String a rest' => if bool_decide (a = ch ".") then span_digits rest' else ("", rest)
    | "" => ("", "")
    end in
  if str_is_empty (int +:+ frac) then None
  else e ← parse_exponent rest; n ← digits_value 0 (int +:+ frac);
       Some (f64_of_decimal n (e - str_len frac)).
Definition parse_f64 (s : string) : option f64 :=
  let '(negative, body) := split_sign s in
  let lower := to_ascii_lowercase body in
  x ← (if bool_decide (lower = "nan") then Some S754_nan
       else if bool_decide (lower = "inf") || bool_decide (lower = "infinity") then Some (S754_infinity false)
       else parse_decimal body);
  Some (if negative : bool then SFopp x else x).

Example parse_f64_values :
  parse_f64 "0.1" = Some (f64_of_dec 1 1) ∧ parse_f64 "15.00" = Some (f64_of_Z 15) ∧
  parse_f64 ".5e1" = Some (f64_of_Z 5) ∧ parse_f64 "2." = Some (f64_of_Z 2) ∧ parse_f64 "-Inf" = Some (S754_infinity true) ∧
  parse_f64 "1e400" = Some (S754_infinity false) ∧ parse_f64 "1e-400" = Some f64_zero ∧
  parse_f64 "" = None ∧ parse_f64 "." = None ∧ parse_f64 "1e" = None ∧ parse_f64 "1 " = None ∧
  parse_f64 "9007199254740993" = Some (f64_of_Z 9007199254740992).
Proof. by vm_compute. Qed.
