(* ===== verification/CategoryMapping.v ===== *)
(** Category mapping with competitive exclusion (exchange/src/category_mapping.rs).

    The bids of all seats compete for keys of category and duration.  The order in
    which the map of seats iterates and the outcomes of the coin that breaks ties
    are parameters, and the theorem holds for all of them. *)
From S2P Require Import Prelude Json FloatText.

Record CategoryBid : Type := {
  cb_bid_id : string; cb_category : string; cb_duration : Z; cb_price_bucket : string;
}.
Record BidDedupe : Type := {
  bd_bidder_name : string; bd_bid_index : Z; bd_bid_id : string; bd_bid_price : string;
}.
Record CategoryMappingResult : Type := {
  cmr_bid_category_map : gmap string string;
  cmr_rejections : list string;
  cmr_removed_bid_ids : list string;
}.

(** The loop over the ranges, from the selection made so far: an early return, or
    the selection. *)
Fixpoint duration_range_loop (dur : Z) (ranges : list Z) (new_dur : Z) (made_selection : bool)
    : Z + Z * bool :=
  match ranges with
  | [] => inr (new_dur, made_selection)
  | range :: ranges' =>
      if range <? dur then duration_range_loop dur ranges' new_dur made_selection
      else if dur =? range then inl range
      else if (range <? new_dur) || negb made_selection then duration_range_loop dur ranges' range true
      else duration_range_loop dur ranges' new_dur made_selection
  end.
Definition find_duration_range (dur : Z) (ranges : list Z) : outcome string Z :=
  match duration_range_loop dur ranges dur false with
  | inl range => Ok range
  | inr (new_dur, made_selection) =>
      if negb made_selection && negb (bool_decide (ranges = []))
      then Err "bid duration exceeds maximum allowed" else Ok new_dur
  end.

Definition get_primary_ad_server (id : Z) : outcome string string :=
  if id =? 1 then Ok "freewheel" else if id =? 2 then Ok "dfp"
  else Err ("Primary ad server " +:+ pretty id +:+ " not recognized").

Definition rejection_message (bid_id reason : string) : string :=
  "bid rejected [bid ID: " +:+ bid_id +:+ "] reason: " +:+ reason.
Definition update_rejections (rejections : list string) (bid_id reason : string) : list string :=
  rejections ++ [rejection_message bid_id reason].

Definition f64_epsilon : f64 := S754_finite false 4503599627370496 (-104).
Definition price_of (bucket : string) : f64 := default f64_zero (parse_f64 bucket).
Definition prices_tie (a b : f64) : bool := f64_ltb (SFabs (f64_sub a b)) f64_epsilon.
Definition category_duration (bid : CategoryBid) (new_dur : Z) : string :=
  cb_price_bucket bid +:+ "_" +:+ cb_category bid +:+ "_" +:+ pretty new_dur +:+ "s".
Definition dupe_key (bid : CategoryBid) (new_dur : Z) : string :=
  cb_category bid +:+ "_" +:+ pretty new_dur +:+ "s".

(** The local variables of [apply_category_mapping], with the number of coins
    tossed so far. *)
Record MappingState : Type := {
  ms_map : gmap string string; ms_rejections : list string; ms_removed : list string;
  ms_dedupe : gmap string BidDedupe; ms_tossed : nat;
}.
Definition mapping_start : MappingState :=
  {| ms_map := ∅; ms_rejections := []; ms_removed := []; ms_dedupe := ∅; ms_tossed := 0 |}.
(** Report and remove a bid. *)
Definition reject_bid (bid_id reason : string) (st : MappingState) : MappingState :=
  {| ms_map := ms_map st; ms_rejections := update_rejections (ms_rejections st) bid_id reason;
     ms_removed := ms_removed st ++ [bid_id]; ms_dedupe := ms_dedupe st; ms_tossed := ms_tossed st |}.
Definition unmap_bid (bid_id : string) (st : MappingState) : MappingState :=
  {| ms_map := delete bid_id (ms_map st); ms_rejections := ms_rejections st;
     ms_removed := ms_removed st; ms_dedupe := ms_dedupe st; ms_tossed := ms_tossed st |}.
Definition map_bid (bidder_name : string) (bid_index : Z) (bid : CategoryBid) (new_dur : Z)
    (st : MappingState) : MappingState :=
  {| ms_map := <[cb_bid_id bid := category_duration bid new_dur]> (ms_map st);
     ms_rejections := ms_rejections st; ms_removed := ms_removed st;
     ms_dedupe := <[dupe_key bid new_dur := {| bd_bidder_name := bidder_name;
        bd_bid_index := bid_index; bd_bid_id := cb_bid_id bid;
        bd_bid_price := cb_price_bucket bid |}]> (ms_dedupe st);
     ms_tossed := ms_tossed st |}.
Definition toss (st : MappingState) : MappingState :=
  {| ms_map := ms_map st; ms_rejections := ms_rejections st; ms_removed := ms_removed st;
     ms_dedupe := ms_dedupe st; ms_tossed := S (ms_tossed st) |}.

Section Mapping.
(** [gen_bool(0.5)], by the number of earlier calls. *)
Context (coin : nat → bool).
Context (duration_ranges : list Z).

(** Whether the current bid wins over the bid that holds its key. *)
Definition current_wins (dupe : BidDedupe) (bid : CategoryBid) (st : MappingState)
    : bool * MappingState :=
  let dupe_price := price_of (bd_bid_price dupe) in
  let curr_price := price_of (cb_price_bucket bid) in
  if prices_tie dupe_price curr_price then (coin (ms_tossed st), toss st)
  else (f64_gtb curr_price dupe_price, st).
(** The body of the loops. *)
Definition category_step (st : MappingState) (entry : string * Z * CategoryBid) : MappingState :=
  let '(bidder_name, bid_index, bid) := entry in
  if str_is_empty (cb_category bid)
  then reject_bid (cb_bid_id bid) "Bid did not contain a category" st
  else
    match find_duration_range (cb_duration bid) duration_ranges with
    | Ok new_dur =>
        match ms_dedupe st !! dupe_key bid new_dur with
        | Some dupe =>
            let '(wins, st) := current_wins dupe bid st in
            if wins : bool
            then map_bid bidder_name bid_index bid new_dur
                   (unmap_bid (bd_bid_id dupe) (reject_bid (bd_bid_id dupe) "Bid was deduplicated" st))
            else reject_bid (cb_bid_id bid) "Bid was deduplicated" st
        | None => map_bid bidder_name bid_index bid new_dur st
        end
    | Err e => reject_bid (cb_bid_id bid) e st
    | Panic => st
    end.
(** The bids in the order of the loops. *)
Definition entries_of (seat : string * list CategoryBid) : list (string * Z * CategoryBid) :=
  imap (λ i bid, (seat.1, Z.of_nat i, bid)) seat.2.
Definition mapping_result (st : MappingState) : CategoryMappingResult :=
  {| cmr_bid_category_map := ms_map st; cmr_rejections := ms_rejections st;
     cmr_removed_bid_ids := ms_removed st |}.
Definition apply_category_mapping `{MI : MapIter} (seat_bids : gmap string (list CategoryBid))
    : CategoryMappingResult :=
  mapping_result (fold_left category_step (flat_map entries_of (map_iter seat_bids)) mapping_start).
End Mapping.

(** ** What is promised *)

(** The key a bid competes for, what it is mapped to, and why it would be
    rejected. *)
Definition bid_range (ranges : list Z) (bid : CategoryBid) : outcome string Z :=
  if str_is_empty (cb_category bid) then Err "Bid did not contain a category"
  else find_duration_range (cb_duration bid) ranges.
Definition bid_key (ranges : list Z) (bid : CategoryBid) : option string :=
  match bid_range ranges bid with Ok d => Some (dupe_key bid d) | _ => None end.
Definition bid_entry (ranges : list Z) (bid : CategoryBid) : string * string :=
  (cb_bid_id bid, match bid_range ranges bid with Ok d => category_duration bid d | _ => "" end).
Definition bid_rejection (ranges : list Z) (bid : CategoryBid) : string :=
  rejection_message (cb_bid_id bid)
    match bid_range ranges bid with Err e => e | _ => "Bid was deduplicated" end.
Definition bid_price (bid : CategoryBid) : f64 := price_of (cb_price_bucket bid).
(** Prices that are numbers, and equal when they are within the tie's epsilon:
    true of any two multiples of a cent up to a hundred million. *)
Definition well_spaced (bids : list CategoryBid) : Prop :=
  ∀ b c, b ∈ bids → c ∈ bids → f64_is_nan (bid_price b) = false ∧
    (prices_tie (bid_price b) (bid_price c) = true → f64_eqb (bid_price b) (bid_price c) = true).
Definition seat_list `{MI : MapIter} (seat_bids : gmap string (list CategoryBid)) : list CategoryBid :=
  flat_map snd (map_iter seat_bids).

(** ** Duration ranges *)

Lemma duration_range_loop_spec dur ranges new_dur made :
  (made = true → dur < new_dur) →
  match duration_range_loop dur ranges new_dur made with
  | inl r => r = dur ∧ dur ∈ ranges
  | inr (n, true) => dur < n ∧ (n ∈ ranges ∨ (made = true ∧ n = new_dur)) ∧
      (made = true → n ≤ new_dur) ∧ ∀ r, r ∈ ranges → dur ≤ r → n ≤ r
  | inr (n, false) => made = false ∧ n = new_dur ∧ ∀ r, r ∈ ranges → r < dur
  end.
Proof.
  revert new_dur made. induction ranges as [|r ranges IH]; intros n made Hn; cbn.
  { destruct made; [|by repeat split; try intros ? ?%elem_of_nil].
    split; [auto|]. split; [by right|]. split; [lia|]. by intros ? ?%elem_of_nil. }
  assert (Hstep : ∀ n' made', (made' = true → dur < n') →
    (n' = n ∧ made' = made ∧ (dur ≤ r → made = true ∧ n ≤ r) ∨
     n' = r ∧ made' = true ∧ dur < r ∧ (made = true → r ≤ n)) →
    match duration_range_loop dur ranges n' made' with
    | inl r' => r' = dur ∧ dur ∈ r :: ranges
    | inr (n', true) => dur < n' ∧ (n' ∈ r :: ranges ∨ (made = true ∧ n' = n)) ∧
        (made = true → n' ≤ n) ∧ ∀ r', r' ∈ r :: ranges → dur ≤ r' → n' ≤ r'
    | inr (n', false) => made = false ∧ n' = n ∧ ∀ r', r' ∈ r :: ranges → r' < dur
    end).
  { intros n' made' Hn' Hcase. specialize (IH n' made' Hn').
    destruct (duration_range_loop dur ranges n' made') as [r'|[n'' []]].
    - destruct IH as [-> ?]. split; [done|by right].
    - destruct IH as (Hd & Hin & Hle & Hall). destruct Hcase as [(-> & -> & Hc)|(-> & -> & Hdr & Hc)].
      + split; [done|]. split; [destruct Hin as [?|?]; [left; by right|by right]|]. split; [done|].
        intros r' [->|?]%elem_of_cons Hr'; [destruct (Hc Hr'); specialize (Hle ltac:(done)); lia|auto].
      + split; [done|]. specialize (Hle eq_refl). split; [|split].
        * destruct Hin as [?|[_ ->]]; left; [by right|by left].
        * intros Hm. specialize (Hc Hm). lia.
        * intros r' [->|?]%elem_of_cons Hr'; [done|auto].
    - destruct IH as (-> & -> & Hall). destruct Hcase as [(-> & <- & Hc)|(_ & [=] & _)].
      split; [done|]. split; [done|]. intros r' [->|?]%elem_of_cons; [|auto].
      destruct (decide (dur ≤ r)) as [Hd|]; [by destruct (Hc Hd)|lia]. }
  destruct (Z.ltb_spec r dur); [apply Hstep; [done|left; repeat split; lia]|].
  destruct (Z.eqb_spec dur r) as [->|]; [split; [done|by left]|].
  destruct ((r <? n) || negb made) eqn:Hb; apply Hstep; try done.
  - intros _. lia.
  - right. destruct made; cbn in Hb; [|repeat split; [lia|done]]. rewrite orb_false_r in Hb. bools. repeat split; intros; lia.
  - left. apply orb_false_iff in Hb as [Hb Hm]. bools. destruct made; [|done]. split; [done|]. split; [done|]. intros _. split; [done|lia].
Qed.
(** The smallest range that holds the duration; without ranges the duration. *)
Lemma find_duration_range_spec dur ranges :
  match find_duration_range dur ranges with
  | Ok d => (ranges = [] ∧ d = dur) ∨ (d ∈ ranges ∧ dur ≤ d ∧ ∀ r, r ∈ ranges → dur ≤ r → d ≤ r)
  | Err e => e = "bid duration exceeds maximum allowed" ∧ ranges ≠ [] ∧ ∀ r, r ∈ ranges → r < dur
  | Panic => False
  end.
Proof.
  unfold find_duration_range. pose proof (duration_range_loop_spec dur ranges dur false ltac:(done)) as H.
  destruct (duration_range_loop _ _ _ _) as [r|[n []]]; cbn.
  - destruct H as [-> H]. right. split; [done|]. split; [lia|]. auto.
  - destruct H as (Hd & [Hin|[[=] _]] & _ & Hall). right. split; [done|]. split; [lia|done].
  - destruct H as (_ & -> & H). case_bool_decide as Hr; cbn; [by left|done].
Qed.

(** ** The loop *)

Section Invariant.
Context (coin : nat → bool) (ranges : list Z) (all : list CategoryBid).

Record mapped (bids kept removed : list CategoryBid) (st : MappingState) : Prop := {
  mapped_split : kept ++ removed ≡ₚ bids;
  mapped_map : ms_map st = list_to_map (bid_entry ranges <$> kept);
  mapped_removed : ms_removed st = cb_bid_id <$> removed;
  mapped_rejections : ms_rejections st = bid_rejection ranges <$> removed;
  mapped_keys : NoDup (bid_key ranges <$> kept);
  mapped_dedupe k d : ms_dedupe st !! k = Some d → ∃ b, b ∈ kept ∧ bid_key ranges b = Some k ∧
    bd_bid_id d = cb_bid_id b ∧ bd_bid_price d = cb_price_bucket b;
  mapped_kept b : b ∈ kept → ∃ k, bid_key ranges b = Some k ∧ is_Some (ms_dedupe st !! k);
  mapped_best b k : b ∈ bids → bid_key ranges b = Some k → ∃ c, c ∈ kept ∧ bid_key ranges c = Some k ∧
    (well_spaced all → f64_leb (bid_price b) (bid_price c) = true);
}.

Lemma mapped_start : mapped [] [] [] mapping_start.
Proof.
  split; try done; [constructor|..].
  - by intros ? ?%elem_of_nil.
  - by intros ? ? ?%elem_of_nil.
Qed.
Lemma mapped_toss bids kept removed st : mapped bids kept removed st → mapped bids kept removed (toss st).
Proof. intros []. by split. Qed.
(** A rejected bid that is not the best of its key. *)
Lemma mapped_reject bids kept removed st b reason :
  mapped bids kept removed st →
  bid_rejection ranges b = rejection_message (cb_bid_id b) reason →
  (∀ k, bid_key ranges b = Some k → ∃ c, c ∈ kept ∧ bid_key ranges c = Some k ∧
    (well_spaced all → f64_leb (bid_price b) (bid_price c) = true)) →
  mapped (bids ++ [b]) kept (removed ++ [b]) (reject_bid (cb_bid_id b) reason st).
Proof.
  intros [] Hr Hbest. split; cbn; try done.
  - by rewrite app_assoc, mapped_split0.
  - by rewrite fmap_app, mapped_removed0.
  - unfold update_rejections. by rewrite fmap_app, mapped_rejections0, <-Hr.
  - intros c k [Hc| ->%list_elem_of_singleton]%elem_of_app Hk; [by apply mapped_best0|auto].
Qed.
Lemma bid_entry_keys (l : list CategoryBid) : (bid_entry ranges <$> l).*1 = cb_bid_id <$> l.
Proof. by rewrite <-list_fmap_compose. Qed.
Lemma ids_of_kept bids kept removed st : mapped bids kept removed st →
  NoDup (cb_bid_id <$> bids) → NoDup (cb_bid_id <$> kept).
Proof. intros Hm. rewrite <-(mapped_split _ _ _ _ Hm), fmap_app. by intros [? _]%NoDup_app. Qed.
(** A bid takes a free key. *)
Lemma mapped_new bids kept removed st b d seat i :
  mapped bids kept removed st → bid_range ranges b = Ok d → ms_dedupe st !! dupe_key b d = None →
  f64_leb (bid_price b) (bid_price b) = true ∨ ¬ well_spaced all →
  mapped (bids ++ [b]) (b :: kept) removed (map_bid seat i b d st).
Proof.
  intros [] Hd Hfree Hrefl.
  assert (Hk : bid_key ranges b = Some (dupe_key b d)) by (unfold bid_key; by rewrite Hd).
  assert (Hnew : bid_key ranges b ∉ bid_key ranges <$> kept).
  { intros (c & Hc & Hin)%list_elem_of_fmap. destruct (mapped_kept0 c Hin) as (k & Hck & [? Hs]).
    rewrite Hk, Hck in Hc. injection Hc as <-. by rewrite Hfree in Hs. }
  split; cbn; try done.
  - by rewrite mapped_split0, Permutation_cons_append.
  - rewrite mapped_map0. unfold bid_entry at 1. by rewrite Hd.
  - by apply NoDup_cons.
  - intros k e He. apply lookup_insert_Some in He as [[<- <-]|[Hne He]].
    + exists b. split; [by left|]. done.
    + destruct (mapped_dedupe0 k e He) as (c & ? & ?). exists c. split; [by right|done].
  - intros c [->|Hc]%elem_of_cons.
    + exists (dupe_key b d). split; [done|]. rewrite lookup_insert_eq. by eexists.
    + destruct (mapped_kept0 c Hc) as (k & Hck & ?). exists k. split; [done|].
      destruct (decide (dupe_key b d = k)) as [->|]; [rewrite lookup_insert_eq; by eexists|by rewrite lookup_insert_ne].
  - intros c k [Hc| ->%list_elem_of_singleton]%elem_of_app Hck.
    + destruct (mapped_best0 c k Hc Hck) as (e & ? & ?). exists e. split; [by right|done].
    + exists b. split; [by left|]. split; [done|]. intros Hw. by destruct Hrefl.
Qed.
(** A bid takes the key of one it beats. *)
Lemma mapped_replace bids kept removed st b c d dupe seat i :
  mapped bids kept removed st → NoDup (cb_bid_id <$> bids ++ [b]) → bid_range ranges b = Ok d →
  ms_dedupe st !! dupe_key b d = Some dupe → c ∈ kept → bid_key ranges c = Some (dupe_key b d) →
  (well_spaced all → f64_leb (bid_price c) (bid_price b) = true ∧ f64_leb (bid_price b) (bid_price b) = true) →
  ∃ kept' removed', mapped (bids ++ [b]) kept' removed'
    (map_bid seat i b d (unmap_bid (cb_bid_id c) (reject_bid (cb_bid_id c) "Bid was deduplicated" st))).
Proof.
  intros Hm Hnd Hd Hdupe Hc Hck Hbeats. rewrite fmap_app in Hnd. apply NoDup_app in Hnd as (Hnd & _ & _).
  pose proof (ids_of_kept _ _ _ _ Hm Hnd) as Hids. destruct Hm.
  apply list_elem_of_split in Hc as (k1 & k2 & ->).
  assert (Hp : k1 ++ c :: k2 ≡ₚ c :: k1 ++ k2) by by rewrite <-Permutation_middle.
  assert (Hk : bid_key ranges b = Some (dupe_key b d)) by (unfold bid_key; by rewrite Hd).
  rewrite Hp in mapped_keys0, Hids. cbn in mapped_keys0, Hids.
  apply NoDup_cons in mapped_keys0 as [Hknew Hknd]. apply NoDup_cons in Hids as [Hinew Hind].
  exists (b :: k1 ++ k2), (removed ++ [c]). split; cbn.
  - rewrite app_assoc, <-mapped_split0, Hp. cbn. solve_Permutation.
  - rewrite mapped_map0. unfold bid_entry at 2. rewrite Hd. f_equal.
    assert (Hlm : (list_to_map (bid_entry ranges <$> k1 ++ c :: k2) : gmap string string) =
      list_to_map (bid_entry ranges <$> c :: k1 ++ k2)).
    { apply list_to_map_proper; [|by rewrite Hp]. rewrite bid_entry_keys, Hp. by apply NoDup_cons. }
    rewrite Hlm. cbn. apply delete_insert_id, not_elem_of_list_to_map_1. by rewrite bid_entry_keys.
  - by rewrite fmap_app, mapped_removed0.
  - unfold update_rejections. rewrite fmap_app, mapped_rejections0. cbn. unfold bid_rejection at 3.
    unfold bid_key in Hck. by destruct (bid_range ranges c).
  - rewrite <-Hck in Hk. rewrite Hk. by apply NoDup_cons.
  - intros k e He. apply lookup_insert_Some in He as [[<- <-]|[Hne He]].
    + exists b. split; [by left|]. done.
    + destruct (mapped_dedupe0 k e He) as (f & Hf & Hfk & ?). exists f. split; [|done].
      rewrite Hp in Hf. apply elem_of_cons in Hf as [->|Hf]; [congruence|by right].
  - intros f [->|Hf]%elem_of_cons.
    + exists (dupe_key b d). split; [done|]. rewrite lookup_insert_eq. by eexists.
    + destruct (mapped_kept0 f) as (k & Hfk & ?); [rewrite Hp; by right|]. exists k. split; [done|].
      destruct (decide (dupe_key b d = k)) as [->|]; [rewrite lookup_insert_eq; by eexists|by rewrite lookup_insert_ne].
  - intros f k [Hf| ->%list_elem_of_singleton]%elem_of_app Hfk.
    + destruct (mapped_best0 f k Hf Hfk) as (e & He & Hek & Hle). rewrite Hp in He.
      apply elem_of_cons in He as [->|He]; [|exists e; split; [by right|done]].
      exists b. split; [by left|]. split; [congruence|]. intros Hw. destruct (Hbeats Hw) as [H1 _].
      eapply f64_leb_trans; [by apply Hle|done].
    + exists b. split; [by left|]. split; [done|]. intros Hw. by apply Hbeats.
Qed.

Lemma prices_refl b : b ∈ all → f64_leb (bid_price b) (bid_price b) = true ∨ ¬ well_spaced all.
Proof.
  intros Hb. destruct (f64_is_nan (bid_price b)) eqn:Hn.
  - right. intros Hw. destruct (Hw b b Hb Hb). congruence.
  - left. by apply f64_leb_refl.
Qed.
Lemma eqb_leb x y : f64_is_nan x = false → f64_is_nan y = false → f64_eqb x y = true →
  f64_leb x y = true ∧ f64_leb y x = true.
Proof.
  intros Hx Hy. destruct (f64_compare_spec x y Hx Hy) as (c & H1 & H2).
  unfold f64_eqb, f64_leb, SFeqb, SFleb. rewrite H1, H2. by destruct c.
Qed.

Lemma category_step_mapped bids kept removed st seat i b :
  mapped bids kept removed st → NoDup (cb_bid_id <$> bids ++ [b]) → (∀ c, c ∈ bids ++ [b] → c ∈ all) →
  ∃ kept' removed', mapped (bids ++ [b]) kept' removed' (category_step coin ranges st (seat, i, b)).
Proof.
  intros Hm Hnd Hall. assert (Hb : b ∈ all) by (apply Hall; set_solver).
  pose proof (prices_refl b Hb) as Hrefl.
  pose proof (find_duration_range_spec (cb_duration b) ranges) as Hfind. cbn -[find_duration_range].
  assert (Hrange : bid_range ranges b = if str_is_empty (cb_category b)
    then Err "Bid did not contain a category" else find_duration_range (cb_duration b) ranges) by done.
  destruct (str_is_empty (cb_category b)).
  { eexists _, _. apply mapped_reject; [done|unfold bid_rejection; by rewrite Hrange|].
    unfold bid_key. by rewrite Hrange. }
  destruct (find_duration_range (cb_duration b) ranges) as [d|e|]; [| |done].
  2: { eexists _, _. apply mapped_reject; [done|unfold bid_rejection; by rewrite Hrange|].
       unfold bid_key. by rewrite Hrange. }
  destruct (ms_dedupe st !! dupe_key b d) as [dupe|] eqn:Hd.
  2: { eexists _, _. by apply mapped_new. }
  destruct (mapped_dedupe _ _ _ _ Hm _ _ Hd) as (c & Hc & Hck & Hid & Hpr).
  assert (Hca : c ∈ all).
  { apply Hall. rewrite elem_of_app. left. rewrite <-(mapped_split _ _ _ _ Hm). set_solver. }
  unfold current_wins. rewrite Hpr, Hid. fold (bid_price b) (bid_price c).
  assert (Hkey : bid_key ranges b = Some (dupe_key b d)) by (unfold bid_key; by rewrite Hrange).
  assert (Hreject : ∀ st, mapped bids kept removed st →
    (well_spaced all → f64_leb (bid_price b) (bid_price c) = true) →
    ∃ kept' removed', mapped (bids ++ [b]) kept' removed'
      (reject_bid (cb_bid_id b) "Bid was deduplicated" st)).
  { intros st' Hm' Hle. eexists _, _. apply mapped_reject; [done|unfold bid_rejection; by rewrite Hrange|].
    intros k Hk. rewrite Hkey in Hk. injection Hk as <-. by exists c. }
  destruct (prices_tie (bid_price c) (bid_price b)) eqn:Htie.
  - assert (Heq : well_spaced all → f64_leb (bid_price c) (bid_price b) = true ∧ f64_leb (bid_price b) (bid_price c) = true).
    { intros Hw. destruct (Hw c b Hca Hb) as [Hn Ht], (Hw b b Hb Hb) as [Hn' _]. by apply eqb_leb, Ht. }
    destruct (coin (ms_tossed st)).
    + apply (mapped_replace bids kept removed (toss st) b c d dupe); try done; [by apply mapped_toss|].
      intros Hw. split; [by apply Heq|]. by destruct Hrefl.
    + apply Hreject; [by apply mapped_toss|]. intros Hw. by apply Heq.
  - destruct (f64_gtb (bid_price b) (bid_price c)) eqn:Hgt.
    + apply (mapped_replace bids kept removed st b c d dupe); try done. intros Hw. split; [by apply f64_ltb_leb|]. by destruct Hrefl.
    + apply Hreject; [done|]. intros Hw. destruct (Hw c b Hca Hb) as [Hn _], (Hw b b Hb Hb) as [Hn' _].
      rewrite f64_leb_ltb by done. unfold f64_gtb in Hgt. by rewrite Hgt.
Qed.
Lemma category_loop_mapped l bids kept removed st :
  mapped bids kept removed st → NoDup (cb_bid_id <$> bids ++ l.*2) → (∀ c, c ∈ bids ++ l.*2 → c ∈ all) →
  ∃ kept' removed', mapped (bids ++ l.*2) kept' removed' (fold_left (category_step coin ranges) l st).
Proof.
  revert bids kept removed st. induction l as [|[[seat i] b] l IH]; intros bids kept removed st Hm Hnd Hall; cbn.
  { rewrite app_nil_r. eauto. }
  cbn in Hnd, Hall. rewrite cons_middle, app_assoc in Hnd, Hall |- *.
  destruct (category_step_mapped bids kept removed st seat i b) as (k & r & Hm'); [done|..].
  - rewrite fmap_app in Hnd. by apply NoDup_app in Hnd as (? & _).
  - intros c Hc. apply Hall. set_solver.
  - by apply (IH _ k r).
Qed.
End Invariant.

Lemma entries_of_bids l : (flat_map entries_of l).*2 = flat_map snd l.
Proof.
  induction l as [|[s bs] l IH]; [done|]. cbn. rewrite fmap_app, IH. f_equal. unfold entries_of. cbn.
  rewrite fmap_imap. transitivity (imap (λ _ b, b) bs); [done|].
  rewrite <-(list_fmap_id bs) at 2. apply (imap_const (λ b, b)).
Qed.

(** C25: Competitive exclusion, for bids with distinct ids: whatever the order of
    the seats and the coin, each bid is either kept, mapped to its price, category
    and duration range, or removed with one message that gives the reason; the kept
    bids have a category and a range and hold different keys, and each bid with a
    key loses only to a kept bid of that key whose price is not lower (for prices
    that are far enough apart for the tie test to see). *)
Theorem category_mapping_spec `{MI : MapIter} coin seat_bids ranges :
  let bids := seat_list seat_bids in
  let result := apply_category_mapping coin ranges seat_bids in
  NoDup (cb_bid_id <$> bids) →
  ∃ kept removed, kept ++ removed ≡ₚ bids ∧
    cmr_bid_category_map result = list_to_map (bid_entry ranges <$> kept) ∧
    cmr_removed_bid_ids result = cb_bid_id <$> removed ∧
    cmr_rejections result = bid_rejection ranges <$> removed ∧
    NoDup (bid_key ranges <$> kept) ∧ (∀ b, b ∈ kept → is_Some (bid_key ranges b)) ∧
    ∀ b k, b ∈ bids → bid_key ranges b = Some k → ∃ c, c ∈ kept ∧ bid_key ranges c = Some k ∧
      (well_spaced bids → f64_leb (bid_price b) (bid_price c) = true).
Proof.
  intros bids result Hnd. unfold result, apply_category_mapping.
  assert (Hl : (flat_map entries_of (map_iter seat_bids)).*2 = bids) by apply entries_of_bids.
  destruct (category_loop_mapped coin ranges bids (flat_map entries_of (map_iter seat_bids)) [] [] [] mapping_start)
    as (kept & removed & Hm); [apply mapped_start|by rewrite Hl|by rewrite Hl|].
  cbn [app] in Hm. rewrite Hl in Hm. exists kept, removed. destruct Hm. cbn.
  split_and!; try done. intros b Hb. destruct (mapped_kept0 b Hb) as (k & ? & _). by eexists.
Qed.
#[local] Existing Instance map_iter_to_list.
Definition sample_seats : gmap string (list CategoryBid) := {[
  "a" := [{| cb_bid_id := "1"; cb_category := "Sports"; cb_duration := 17; cb_price_bucket := "10.00" |};
          {| cb_bid_id := "2"; cb_category := ""; cb_duration := 17; cb_price_bucket := "9.00" |}];
  "b" := [{| cb_bid_id := "3"; cb_category := "Sports"; cb_duration := 30; cb_price_bucket := "12.00" |}] ]}.
Lemma category_mapping_spec_witness :
  let result := apply_category_mapping (λ _, true) [15; 30] sample_seats in
  cmr_bid_category_map result = {[ "3" := "12.00_Sports_30s" ]} ∧
  ∃ kept removed, kept ++ removed ≡ₚ seat_list sample_seats ∧
    cmr_removed_bid_ids result = cb_bid_id <$> removed ∧ NoDup (bid_key [15; 30] <$> kept).
Proof.
  split; [by vm_compute|].
  destruct (category_mapping_spec (λ _, true) sample_seats [15; 30]) as (k & r & H1 & _ & H2 & _ & H3 & _).
  - apply (bool_decide_unpack _). by vm_compute.
  - eauto.
Defined.
