(* ===== verification/BidAdjustment.v ===== *)
(** Bid adjustment rules: exchange/src/bidadjustment.rs and the bidadjustment
    crate, two ports of one package.

    The rules, nested by media type, bidder and deal, are flattened into one map
    whose keys join the three names; the map's iteration order is a parameter, and
    so are serde and the currency conversion. *)
From S2P Require Import Prelude Json.

Definition ADJUSTMENT_TYPE_CPM : string := "cpm".
Definition ADJUSTMENT_TYPE_MULTIPLIER : string := "multiplier".
Definition ADJUSTMENT_TYPE_STATIC : string := "static".
Definition ADJ_WILDCARD : string := "*".
Definition VIDEO_INSTREAM : string := "video-instream".
Definition VIDEO_OUTSTREAM : string := "video-outstream".
Definition PRICE_PRECISION : f64 := f64_of_Z 10000.
Definition MIN_BID : f64 := f64_of_dec 1 1.
(** [f64::MAX] *)
Definition f64_max_value : f64 := S754_finite false 9007199254740991 971.

Inductive AdjustmentType : Type := Multiplier | CPM | Static.
Definition adjustment_type_as_str (t : AdjustmentType) : string :=
  match t with
  | Multiplier => ADJUSTMENT_TYPE_MULTIPLIER | CPM => ADJUSTMENT_TYPE_CPM | Static => ADJUSTMENT_TYPE_STATIC
  end.
Definition adjustment_type_from_str (s : string) : option AdjustmentType :=
  if bool_decide (s = ADJUSTMENT_TYPE_MULTIPLIER) then Some Multiplier
  else if bool_decide (s = ADJUSTMENT_TYPE_CPM) then Some CPM
  else if bool_decide (s = ADJUSTMENT_TYPE_STATIC) then Some Static else None.

(** The exchange's [AdjustmentRule]; the crate's [Adjustment] has the same fields. *)
Record AdjustmentRule : Type := { ar_type : string; ar_value : f64; ar_currency : string }.
Definition AdjustmentsByDealId : Type := gmap string (list AdjustmentRule).
Definition AdjustmentsByBidder : Type := gmap string AdjustmentsByDealId.
Record AdjMediaType : Type := {
  amt_banner : AdjustmentsByBidder; amt_video_instream : AdjustmentsByBidder;
  amt_video_outstream : AdjustmentsByBidder; amt_audio : AdjustmentsByBidder;
  amt_native : AdjustmentsByBidder; amt_wildcard : AdjustmentsByBidder;
}.
Record BidAdjustmentRules : Type := { bar_mediatype : AdjMediaType }.
Definition FlatRules : Type := gmap string (list AdjustmentRule).

(** ** Building and looking up *)

Definition rule_key (media_type bidder deal_id : string) : string :=
  media_type +:+ "|" +:+ bidder +:+ "|" +:+ deal_id.

Section Build.
Context `{MI : MapIter}.
Definition build_rules_for_media_type (media_type : string) (rules_by_bidder : AdjustmentsByBidder)
    (rules : FlatRules) : FlatRules :=
  fold_left (λ rules '(bidder_name, deal_map),
    fold_left (λ rules '(deal_id, adjustments), <[rule_key media_type bidder_name deal_id := adjustments]> rules)
      (map_iter deal_map) rules) (map_iter rules_by_bidder) rules.
Definition build_rules (bid_adjustments : BidAdjustmentRules) : FlatRules :=
  let mt := bar_mediatype bid_adjustments in
  build_rules_for_media_type ADJ_WILDCARD (amt_wildcard mt)
    (build_rules_for_media_type VIDEO_OUTSTREAM (amt_video_outstream mt)
      (build_rules_for_media_type VIDEO_INSTREAM (amt_video_instream mt)
        (build_rules_for_media_type "native" (amt_native mt)
          (build_rules_for_media_type "audio" (amt_audio mt)
            (build_rules_for_media_type "banner" (amt_banner mt) ∅))))).
(** The crate's, which inserts into the map it is given. *)
Definition crate_build_rules_for_mediatype (media_type : string) (by_bidder : AdjustmentsByBidder)
    (out : FlatRules) : FlatRules :=
  fold_left (λ out bidder,
    fold_left (λ out deal,
      let key := media_type +:+ "|" +:+ bidder.1 +:+ "|" +:+ deal.1 in
      <[key := deal.2]> out) (map_iter bidder.2) out) (map_iter by_bidder) out.
Definition crate_build_rules (adj : option BidAdjustmentRules) : FlatRules :=
  match adj with
  | None => ∅
  | Some adj =>
      let mt := bar_mediatype adj in
      let rules := crate_build_rules_for_mediatype "banner" (amt_banner mt) ∅ in
      let rules := crate_build_rules_for_mediatype "audio" (amt_audio mt) rules in
      let rules := crate_build_rules_for_mediatype "native" (amt_native mt) rules in
      let rules := crate_build_rules_for_mediatype "video-instream" (amt_video_instream mt) rules in
      let rules := crate_build_rules_for_mediatype "video-outstream" (amt_video_outstream mt) rules in
      crate_build_rules_for_mediatype "*" (amt_wildcard mt) rules
  end.
End Build.

Definition priority_names (bid_type bidder_name deal_id : string) : list (string * string * string) :=
  if negb (str_is_empty deal_id) then
    [(bid_type, bidder_name, deal_id); (bid_type, bidder_name, "*"); (bid_type, "*", deal_id);
     ("*", bidder_name, deal_id); (bid_type, "*", "*"); ("*", bidder_name, "*"); ("*", "*", deal_id);
     ("*", "*", "*")]
  else [(bid_type, bidder_name, "*"); (bid_type, "*", "*"); ("*", bidder_name, "*"); ("*", "*", "*")].
Definition join_names (names : string * string * string) : string := rule_key names.1.1 names.1.2 names.2.
(** [for rule_key in &priority_rules { if let Some(..) = rules.get(rule_key) ..}] *)
Fixpoint first_rule (rules : FlatRules) (keys : list string) : option (list AdjustmentRule) :=
  match keys with
  | [] => None
  | key :: keys' => match rules !! key with Some adjustments => Some adjustments | None => first_rule rules keys' end
  end.
Definition get_adjustment (rules : FlatRules) (bid_type bidder_name deal_id : string)
    : option (list AdjustmentRule) :=
  first_rule rules (join_names <$> priority_names bid_type bidder_name deal_id).
(** The crate's, for a deal that may be absent: an array of up to eight keys, of which
    those that are set are tried. *)
Definition crate_priority (bid_type bidder : string) (deal_id : option string) : list (option string) :=
  let key a b c := Some (a +:+ "|" +:+ b +:+ "|" +:+ c) in
  match (match deal_id with Some deal => if str_is_empty deal then None else Some deal | None => None end) with
  | Some deal =>
      [key bid_type bidder deal; key bid_type bidder "*"; key bid_type "*" deal; key "*" bidder deal;
       key bid_type "*" "*"; key "*" bidder "*"; key "*" "*" deal; Some "*|*|*"]
  | None =>
      [key bid_type bidder "*"; key bid_type "*" "*"; key "*" bidder "*"; Some "*|*|*"; None; None; None; None]
  end.
Definition get_priority_adjustments (rules : FlatRules) (bid_type bidder : string) (deal_id : option string)
    : option (list AdjustmentRule) :=
  fold_right (λ p later,
    match p ≫= λ key, rules !! key with Some adjustments => Some adjustments | None => later end)
    None (crate_priority bid_type bidder deal_id).

(** ** Applying *)

Section Apply.
(** Conversion of an amount between currencies, where there is a rate. *)
Context (convert : f64 → string → string → option f64).
(** The loop; [None] is the early return on a failed conversion. *)
Fixpoint adjust_loop (adjustments : list AdjustmentRule) (price : f64) (cur : string) : option (f64 * string) :=
  match adjustments with
  | [] => Some (price, cur)
  | a :: adjustments' =>
      if bool_decide (ar_type a = ADJUSTMENT_TYPE_MULTIPLIER)
      then adjust_loop adjustments' (f64_mul price (ar_value a)) cur
      else if bool_decide (ar_type a = ADJUSTMENT_TYPE_CPM) then
        match convert (ar_value a) (ar_currency a) cur with
        | Some converted => adjust_loop adjustments' (f64_sub price converted) cur
        | None => None
        end
      else if bool_decide (ar_type a = ADJUSTMENT_TYPE_STATIC)
      then adjust_loop adjustments' (ar_value a) (ar_currency a)
      else adjust_loop adjustments' price cur
  end.
Definition apply_adjustment_list (adjustments : list AdjustmentRule) (bid_price : f64) (currency : string)
    : f64 * string :=
  match adjustments with
  | [] => (bid_price, currency)
  | _ =>
      match adjust_loop adjustments bid_price currency with
      | Some (price, cur) => (f64_div (f64_round (f64_mul price PRICE_PRECISION)) PRICE_PRECISION, cur)
      | None => (bid_price, currency)
      end
  end.
Definition adjust_bid (rules : FlatRules) (bid_price : f64)
    (bid_type bidder_name deal_id currency : string) : f64 * string :=
  if bool_decide (rules = ∅) then (bid_price, currency)
  else match get_adjustment rules bid_type bidder_name deal_id with
  | None => (bid_price, currency)
  | Some adjustments =>
      let '(adjusted_price, adjusted_currency) := apply_adjustment_list adjustments bid_price currency in
      if negb (str_is_empty deal_id) && f64_ltb adjusted_price f64_zero then (f64_zero, currency)
      else if str_is_empty deal_id && f64_leb adjusted_price f64_zero then (MIN_BID, currency)
      else (adjusted_price, adjusted_currency)
  end.
(** The crate's loop over a mutable price and currency. *)
Definition crate_apply_step (st : option (f64 * string)) (a : AdjustmentRule) : option (f64 * string) :=
  '(bid_price, currency) ← st;
  if bool_decide (ar_type a = "multiplier") then Some (f64_mul bid_price (ar_value a), currency)
  else if bool_decide (ar_type a = "cpm") then
    converted ← convert (ar_value a) (ar_currency a) currency;
    Some (f64_sub bid_price converted, currency)
  else if bool_decide (ar_type a = "static") then Some (ar_value a, ar_currency a)
  else Some (bid_price, currency).
Definition crate_apply (adjustments : list AdjustmentRule) (bid_price : f64) (currency : string)
    : f64 * string :=
  if bool_decide (adjustments = []) then (bid_price, currency)
  else match fold_left crate_apply_step adjustments (Some (bid_price, currency)) with
       | None => (bid_price, currency)
       | Some (price, cur) =>
           (f64_div (f64_round (f64_mul price (f64_of_Z 10000))) (f64_of_Z 10000), cur)
       end.
(** The crate's: an empty deal id is a deal here, and none in the lookup. *)
Definition crate_apply_adjustments (rules : FlatRules) (bid_type bidder : string) (deal_id : option string)
    (bid_price : f64) (currency : string) : f64 * string :=
  if bool_decide (rules = ∅) then (bid_price, currency)
  else match get_priority_adjustments rules bid_type bidder deal_id with
  | None => (bid_price, currency)
  | Some adjustments =>
      let '(new_price, new_currency) := crate_apply adjustments bid_price currency in
      if bool_decide (is_Some deal_id) && f64_ltb new_price f64_zero then (f64_zero, currency)
      else if bool_decide (deal_id = None) && f64_leb new_price f64_zero then (f64_of_dec 1 1, currency)
      else (new_price, new_currency)
  end.
End Apply.

(** ** Validating *)

Definition validate_adjustment (a : AdjustmentRule) : bool :=
  if bool_decide (ar_type a = ADJUSTMENT_TYPE_CPM) || bool_decide (ar_type a = ADJUSTMENT_TYPE_STATIC)
  then negb (str_is_empty (ar_currency a)) && f64_geb (ar_value a) f64_zero && f64_ltb (ar_value a) f64_max_value
  else if bool_decide (ar_type a = ADJUSTMENT_TYPE_MULTIPLIER)
  then f64_geb (ar_value a) f64_zero && f64_ltb (ar_value a) (f64_of_Z 100)
  else false.
Definition crate_validate_adjustment (a : AdjustmentRule) : bool :=
  if bool_decide (ar_type a = ADJUSTMENT_TYPE_CPM) || bool_decide (ar_type a = ADJUSTMENT_TYPE_STATIC)
  then negb (str_is_empty (ar_currency a)) && f64_geb (ar_value a) f64_zero && f64_is_finite (ar_value a)
  else if bool_decide (ar_type a = ADJUSTMENT_TYPE_MULTIPLIER)
  then f64_geb (ar_value a) f64_zero && f64_ltb (ar_value a) (f64_of_Z 100)
  else false.
Inductive AdjustmentError : Type :=
| NilBidderMap (bidder : string) | NilDealSlice (bidder deal : string) | InvalidAdjustment.
Definition adjustment_error_to_string (e : AdjustmentError) : string :=
  match e with
  | NilBidderMap bidder => "invalid adjustment for bidder " +:+ bidder +:+ ": nil adjustments map"
  | NilDealSlice bidder deal => "invalid adjustment: nil adjustment slice for bidder " +:+ bidder +:+ ", deal " +:+ deal
  | InvalidAdjustment => "invalid adjustment value/type/currency combination"
  end.
Section Validate.
Context `{MI : MapIter}.
Definition validate_for_media_type (bid_adj : AdjustmentsByBidder) : bool :=
  forallb (λ bidder, forallb (λ deal, forallb validate_adjustment deal.2) (map_iter bidder.2)) (map_iter bid_adj).
Definition validate_adjustment_rules (bid_adjustments : BidAdjustmentRules) : bool :=
  let mt := bar_mediatype bid_adjustments in
  validate_for_media_type (amt_banner mt) && validate_for_media_type (amt_audio mt) &&
  validate_for_media_type (amt_video_instream mt) && validate_for_media_type (amt_video_outstream mt) &&
  validate_for_media_type (amt_native mt) && validate_for_media_type (amt_wildcard mt).
Definition check_adjustments (bidder deal : string) (adjustments : list AdjustmentRule)
    : outcome AdjustmentError () :=
  match adjustments with
  | [] => Err (NilDealSlice bidder deal)
  | _ => foldM (λ _ a, if crate_validate_adjustment a then Ok () else Err InvalidAdjustment) () adjustments
  end.
Definition validate_for_mediatype (by_bidder : AdjustmentsByBidder) : outcome AdjustmentError () :=
  foldM (λ _ bidder, foldM (λ _ deal, check_adjustments bidder.1 deal.1 deal.2) () (map_iter bidder.2))
    () (map_iter by_bidder).
Definition crate_validate (adj : option BidAdjustmentRules) : outcome AdjustmentError () :=
  match adj with
  | None => Ok ()
  | Some adj =>
      let mt := bar_mediatype adj in
      _ ← validate_for_mediatype (amt_banner mt); _ ← validate_for_mediatype (amt_audio mt);
      _ ← validate_for_mediatype (amt_video_instream mt); _ ← validate_for_mediatype (amt_video_outstream mt);
      _ ← validate_for_mediatype (amt_native mt); validate_for_mediatype (amt_wildcard mt)
  end.
End Validate.
(** [from_value] is serde's. *)
Definition parse_from_request_ext (from_value : Value → option BidAdjustmentRules) (ext : Value)
    : option BidAdjustmentRules :=
  ba ← get "prebid" ext ≫= get "bidadjustments"; from_value ba.

(** ** Specification *)

Definition media_tables (adj : BidAdjustmentRules) : list (string * AdjustmentsByBidder) :=
  let mt := bar_mediatype adj in
  [("banner", amt_banner mt); ("audio", amt_audio mt); ("native", amt_native mt);
   (VIDEO_INSTREAM, amt_video_instream mt); (VIDEO_OUTSTREAM, amt_video_outstream mt); (ADJ_WILDCARD, amt_wildcard mt)].
(** What the rules hold for three names, any of which may be the wildcard. *)
Definition nested_rule (adj : BidAdjustmentRules) (names : string * string * string)
    : option (list AdjustmentRule) :=
  by_bidder ← obj_get names.1.1 (media_tables adj); deals ← by_bidder !! names.1.2; deals !! names.2.
(** A key names the media type, bidder and deal of a bid, or has the wildcard for any
    of them. *)
Record Named : Type := { nm_media : bool; nm_bidder : bool; nm_deal : bool }.
Definition names_of (bid_type bidder deal : string) (n : Named) : string * string * string :=
  (if nm_media n then bid_type else "*", if nm_bidder n then bidder else "*", if nm_deal n then deal else "*").
Definition named_count (n : Named) : Z := Z.b2z (nm_media n) + Z.b2z (nm_bidder n) + Z.b2z (nm_deal n).
(** Priority: the key that names more; of two that name as many, the one that names
    the media type, then the one that names the bidder. *)
Definition outranks (n n' : Named) : Prop :=
  named_count n' < named_count n ∨
  named_count n' = named_count n ∧
    (nm_media n = true ∧ nm_media n' = false ∨
     nm_media n = nm_media n' ∧ nm_bidder n = true ∧ nm_bidder n' = false).
(** The adjustments of a bid: those of the key of highest priority that has some. *)
Definition rule_for (adj : BidAdjustmentRules) (bid_type bidder deal : string) (l : list AdjustmentRule) : Prop :=
  ∃ n, (deal = "" → nm_deal n = false) ∧ nested_rule adj (names_of bid_type bidder deal n) = Some l ∧
    ∀ n', (deal = "" → nm_deal n' = false) → outranks n' n →
      nested_rule adj (names_of bid_type bidder deal n') = None.
(** Adjustments, one after the other; a missing rate leaves no result. *)
Inductive adjusts (convert : f64 → string → string → option f64) :
    list AdjustmentRule → f64 → string → f64 → string → Prop :=
| adjusts_done p c : adjusts convert [] p c p c
| adjusts_multiplier a l p c p' c' :
    ar_type a = "multiplier" → adjusts convert l (f64_mul p (ar_value a)) c p' c' →
    adjusts convert (a :: l) p c p' c'
| adjusts_cpm a l p c x p' c' :
    ar_type a = "cpm" → convert (ar_value a) (ar_currency a) c = Some x →
    adjusts convert l (f64_sub p x) c p' c' → adjusts convert (a :: l) p c p' c'
| adjusts_static a l p c p' c' :
    ar_type a = "static" → adjusts convert l (ar_value a) (ar_currency a) p' c' →
    adjusts convert (a :: l) p c p' c'
| adjusts_unknown a l p c p' c' :
    ar_type a ∉ ["multiplier"; "cpm"; "static"] → adjusts convert l p c p' c' →
    adjusts convert (a :: l) p c p' c'.
(** What they make of a price: rounded to four digits; unchanged where there are none
    or a rate is missing. *)
Inductive adjusted (convert : f64 → string → string → option f64) (l : list AdjustmentRule)
    (p : f64) (c : string) : f64 * string → Prop :=
| adjusted_none : l = [] → adjusted convert l p c (p, c)
| adjusted_all p' c' :
    l ≠ [] → adjusts convert l p c p' c' →
    adjusted convert l p c (f64_div (f64_round (f64_mul p' (f64_of_Z 10000))) (f64_of_Z 10000), c')
| adjusted_failed : l ≠ [] → (∀ p' c', ¬ adjusts convert l p c p' c') → adjusted convert l p c (p, c).
(** A valid adjustment, of a value that is no NaN, below a bound. *)
Definition valid_adjustment (bounded : f64 → Prop) (a : AdjustmentRule) : Prop :=
  (ar_type a = "cpm" ∨ ar_type a = "static") ∧ ar_currency a ≠ "" ∧
    f64_leb f64_zero (ar_value a) = true ∧ bounded (ar_value a) ∨
  ar_type a = "multiplier" ∧ f64_leb f64_zero (ar_value a) = true ∧
    f64_ltb (ar_value a) (f64_of_Z 100) = true.
Definition bidders_plain (adj : BidAdjustmentRules) : Prop :=
  Forall (λ t : string * AdjustmentsByBidder, map_Forall (λ b _, no_char (ch "|") b) t.2) (media_tables adj).
Definition all_adjustments (P : list AdjustmentRule → Prop) (adj : BidAdjustmentRules) : Prop :=
  Forall (λ t : string * AdjustmentsByBidder, map_Forall (λ _ deals, map_Forall (λ _ l, P l) deals) t.2) (media_tables adj).

(** ** Keys *)

Lemma no_char_split_inj c s s' t t' : no_char c s → no_char c s' →
  s +:+ String c t = s' +:+ String c t' → s = s' ∧ t = t'.
Proof.
  unfold no_char. revert s'. induction s as [|a s IH]; intros [|a' s'] Hs Hs' H; cbn in *; simplify_eq; try set_solver.
  apply not_elem_of_cons in Hs as [_ Hs], Hs' as [_ Hs']. destruct (IH s') as [-> ->]; done.
Qed.
Lemma rule_key_inj m b d m' b' d' : no_char (ch "|") m → no_char (ch "|") b →
  no_char (ch "|") m' → no_char (ch "|") b' → rule_key m b d = rule_key m' b' d' → m = m' ∧ b = b' ∧ d = d'.
Proof.
  intros Hm Hb Hm' Hb' [-> H]%no_char_split_inj; [|done..]. split; [done|].
  by apply no_char_split_inj in H.
Qed.

(** ** The flat map holds the nested rules *)

Definition insert_all (l : list (string * list AdjustmentRule)) (rules : FlatRules) : FlatRules :=
  fold_left (λ rules p, <[p.1 := p.2]> rules) l rules.
Lemma insert_all_absent l rules k : k ∉ l.*1 → insert_all l rules !! k = rules !! k.
Proof.
  revert rules. induction l as [|[k' v] l IH]; intros rules; cbn; [done|].
  intros [Hk Hl]%not_elem_of_cons. etrans; [by apply IH|by apply lookup_insert_ne].
Qed.
Lemma insert_all_present l rules k v : (k, v) ∈ l → (∀ v', (k, v') ∈ l → v' = v) →
  insert_all l rules !! k = Some v.
Proof.
  revert rules. induction l as [|[k' v'] l IH]; intros rules; cbn; [by intros ?%elem_of_nil|].
  intros Hin Hf. destruct (decide (k ∈ l.*1)) as [Hl|Hl].
  - apply list_elem_of_fmap in Hl as ([k1 v1] & -> & Hl). cbn in *.
    rewrite (Hf v1) in Hl by (by right). apply IH; [done|]. intros v2 H2. apply Hf. by right.
  - apply elem_of_cons in Hin as [[= -> ->]|Hin].
    + etrans; [by apply insert_all_absent|apply lookup_insert_eq].
    + destruct Hl. apply list_elem_of_fmap. by exists (k, v).
Qed.

Section Flat.
Context `{MI : MapIter}.
Definition flat_entries (t : string * AdjustmentsByBidder) : list (string * list AdjustmentRule) :=
  flat_map (λ bidder, (λ deal, (rule_key t.1 bidder.1 deal.1, deal.2)) <$> map_iter bidder.2) (map_iter t.2).
Lemma insert_all_app l1 l2 rules : insert_all (l1 ++ l2) rules = insert_all l2 (insert_all l1 rules).
Proof. apply fold_left_app. Qed.
Lemma build_media_type_flat mt t rules :
  build_rules_for_media_type mt t rules = insert_all (flat_entries (mt, t)) rules.
Proof.
  unfold build_rules_for_media_type, flat_entries. cbn. generalize (map_iter t) as l. intros l. revert rules.
  induction l as [|[b deals] l IH]; intros rules; [done|]. cbn. rewrite insert_all_app, IH. f_equal.
  generalize (map_iter deals) as k. intros k. revert rules.
  induction k as [|[d a] k IHk]; intros rules; [done|]. cbn. apply IHk.
Qed.
Lemma build_rules_flat adj : build_rules adj = insert_all (flat_map flat_entries (media_tables adj)) ∅.
Proof. unfold build_rules. rewrite !build_media_type_flat. cbn. rewrite app_nil_r. by rewrite !insert_all_app. Qed.
Lemma elem_of_flat_entries t k v : (k, v) ∈ flat_entries t ↔
  ∃ b deals d, k = rule_key t.1 b d ∧ t.2 !! b = Some deals ∧ deals !! d = Some v.
Proof.
  unfold flat_entries. rewrite list_elem_of_In, in_flat_map. split.
  - intros ([b deals] & Hb%list_elem_of_In & ([d a] & [= -> ->] & Hd)%list_elem_of_In%list_elem_of_fmap).
    apply map_iter_elem in Hb, Hd. by exists b, deals, d.
  - intros (b & deals & d & -> & Hb & Hd). exists (b, deals). split; [by apply list_elem_of_In, map_iter_elem|].
    apply list_elem_of_In, list_elem_of_fmap. exists (d, v). split; [done|]. by apply map_iter_elem.
Qed.
Lemma media_tables_plain adj t : t ∈ media_tables adj →
  no_char (ch "|") t.1 ∧ obj_get t.1 (media_tables adj) = Some t.2.
Proof.
  unfold media_tables. rewrite !elem_of_cons. unfold no_char.
  intros [->|[->|[->|[->|[->|[->|[]%elem_of_nil]]]]]]; (split; [by apply (bool_decide_unpack _); vm_compute|done]).
Qed.
Lemma build_rules_lookup adj names : bidders_plain adj →
  no_char (ch "|") names.1.1 → no_char (ch "|") names.1.2 →
  build_rules adj !! join_names names = nested_rule adj names.
Proof.
  destruct names as [[m b] d]. unfold join_names. cbn [fst snd]. intros Hp Hm Hb. rewrite build_rules_flat.
  assert (Hin : ∀ v, (rule_key m b d, v) ∈ flat_map flat_entries (media_tables adj) ↔ nested_rule adj (m, b, d) = Some v).
  { intros v. rewrite list_elem_of_In, in_flat_map. unfold nested_rule. cbn -[media_tables]. split.
    - intros (t & Ht%list_elem_of_In & Hv%list_elem_of_In).
      apply elem_of_flat_entries in Hv as (b' & deals & d' & Hk & Hb' & Hd').
      destruct (media_tables_plain _ _ Ht) as [Hpl Hget].
      unfold bidders_plain in Hp. rewrite Forall_forall in Hp.
      apply rule_key_inj in Hk as (-> & -> & ->); [|done..|by apply (Hp t Ht b' deals)].
      by rewrite Hget; cbn; rewrite Hb'.
    - intros (t & Ht & (deals & Hd & Hv)%bind_Some)%bind_Some. exists (m, t). split.
      + by apply list_elem_of_In, obj_get_elem_of.
      + apply list_elem_of_In, elem_of_flat_entries. by exists b, deals, d. }
  destruct (nested_rule adj (m, b, d)) as [v|] eqn:Hn.
  - apply insert_all_present; [by apply Hin|]. intros v' Hv'. apply Hin in Hv'. congruence.
  - rewrite insert_all_absent; [done|]. intros ([k v] & Hk & Hv)%list_elem_of_fmap. cbn in Hk. subst k.
    apply Hin in Hv. congruence.
Qed.
Lemma first_rule_lookup adj bt b l : bidders_plain adj →
  (∀ n, n ∈ l → n.1.1 = bt ∨ n.1.1 = "*") → (∀ n, n ∈ l → n.1.2 = b ∨ n.1.2 = "*") →
  no_char (ch "|") bt → no_char (ch "|") b →
  first_rule (build_rules adj) (join_names <$> l) = head (omap (nested_rule adj) l).
Proof.
  intros Hp H1 H2 Hbt Hb.
  assert (Hstar : no_char (ch "|") "*") by by apply (bool_decide_unpack _); vm_compute.
  induction l as [|n l IH]; [done|]. cbn [fmap list_fmap first_rule].
  rewrite build_rules_lookup; [|done|by destruct (H1 n) as [-> | ->]; [by left|..]|by destruct (H2 n) as [-> | ->]; [by left|..]].
  cbn [omap list_omap]. destruct (nested_rule adj n); [done|].
  apply IH; intros n' Hn'; [apply H1|apply H2]; by right.
Qed.
Lemma get_adjustment_nested adj bt b d : bidders_plain adj → no_char (ch "|") bt → no_char (ch "|") b →
  get_adjustment (build_rules adj) bt b d = head (omap (nested_rule adj) (priority_names bt b d)).
Proof.
  intros Hp Hbt Hb. apply (first_rule_lookup _ bt b); try done; unfold priority_names;
    destruct (negb _); intros n Hn; set_unfold; naive_solver.
Qed.
(** *** Priority *)

Definition named_all : list Named :=
  [Build_Named true true true; Build_Named true true false; Build_Named true false true;
   Build_Named false true true; Build_Named true false false; Build_Named false true false;
   Build_Named false false true; Build_Named false false false].
Definition named_for (d : string) : list Named :=
  List.filter (λ n, negb (str_is_empty d) || negb (nm_deal n)) named_all.
Lemma priority_names_of bt b d : priority_names bt b d = names_of bt b d <$> named_for d.
Proof. unfold priority_names, named_for. by destruct (str_is_empty d). Qed.
Lemma named_for_elem d n : n ∈ named_for d ↔ (d = "" → nm_deal n = false).
Proof.
  unfold named_for. rewrite list_elem_of_In, List.filter_In, <-list_elem_of_In.
  unfold str_is_empty. destruct n as [m b k].
  assert (Build_Named m b k ∈ named_all) by (destruct m, b, k; unfold named_all; set_solver).
  case_bool_decide; destruct k; cbn; naive_solver.
Qed.
Lemma outranks_asym n n' : outranks n n' → ¬ outranks n' n.
Proof.
  unfold outranks. intros [H|[H1 H2]] [K|[K1 K2]]; try lia.
  destruct H2 as [[? ?]|(?&?&?)], K2 as [[? ?]|(?&?&?)]; congruence.
Qed.
(** The keys are listed by priority. *)
Lemma named_for_sorted d : StronglySorted outranks (named_for d).
Proof.
  unfold named_for. destruct (str_is_empty d); cbn [List.filter negb orb nm_deal named_all];
    repeat first [apply SSorted_cons | apply SSorted_nil | apply Forall_cons; split | apply Forall_nil; done];
    unfold outranks, named_count; cbn; first [by left; lia | by right; auto].
Qed.
(** Of a list ordered by [R], the first value is that of the least element with one. *)
Lemma head_omap_sorted {A B} (R : A → A → Prop) (f : A → option B) l y :
  (∀ x x', R x x' → ¬ R x' x) → StronglySorted R l →
  head (omap f l) = Some y ↔ ∃ x, x ∈ l ∧ f x = Some y ∧ ∀ x', x' ∈ l → R x' x → f x' = None.
Proof.
  intros Has. induction 1 as [|x l Hl IH Hx]; csimpl.
  { split; [done|]. by intros (x&?%elem_of_nil&_). }
  rewrite Forall_forall in Hx. destruct (f x) as [y'|] eqn:Hf; csimpl.
  - split.
    + intros [= ->]. exists x. split; [by left|]. split; [done|].
      intros x1 [->|Hx1]%elem_of_cons Hr; [by destruct (Has x x Hr)|by destruct (Has x x1 (Hx x1 Hx1))].
    + intros (z&[->|Hz]%elem_of_cons&Hy&Hall); [congruence|].
      rewrite (Hall x) in Hf; [done|by left|by apply Hx].
  - rewrite IH. split; intros (z&Hz&Hy&Hall).
    + exists z. split; [by right|]. split; [done|]. by intros x' [->|Hx']%elem_of_cons; [|auto].
    + apply elem_of_cons in Hz as [->|Hz]; [congruence|]. exists z. split; [done|]. split; [done|].
      intros x' Hx'. apply Hall. by right.
Qed.
Lemma rule_for_iff adj bt b d l : rule_for adj bt b d l ↔
  head (omap (nested_rule adj) (priority_names bt b d)) = Some l.
Proof.
  rewrite priority_names_of.
  assert (Ho : omap (nested_rule adj) (names_of bt b d <$> named_for d) =
    omap (λ n, nested_rule adj (names_of bt b d n)) (named_for d)).
  { induction (named_for d) as [|n ns IH]; [done|]. csimpl. by rewrite IH. }
  rewrite Ho, (head_omap_sorted outranks) by first [exact outranks_asym | apply named_for_sorted].
  unfold rule_for. by setoid_rewrite named_for_elem.
Qed.

(** *** Application *)

Lemma adjusts_loop convert l p c p' c' :
  adjusts convert l p c p' c' ↔ adjust_loop convert l p c = Some (p', c').
Proof.
  split.
  - induction 1 as [|? ? ? ? ? ? Ht ? IH|? ? ? ? ? ? ? Ht Hx ? IH|? ? ? ? ? ? Ht ? IH|? ? ? ? ? ? Ht ? IH]; cbn.
    + done.
    + by rewrite Ht.
    + rewrite Ht. cbn. by rewrite Hx.
    + by rewrite Ht.
    + rewrite !bool_decide_false by (intros E; apply Ht; rewrite E; unfold ADJUSTMENT_TYPE_STATIC,
        ADJUSTMENT_TYPE_CPM, ADJUSTMENT_TYPE_MULTIPLIER; set_solver). done.
  - revert p c. induction l as [|a l IH]; intros p c; cbn; [intros [= <- <-]; constructor|].
    case_bool_decide as H1; [by intros ?%IH; apply adjusts_multiplier|].
    case_bool_decide as H2; [destruct (convert _ _ _) eqn:Hx; [|done]; by intros ?%IH; eapply adjusts_cpm|].
    case_bool_decide as H3; [by intros ?%IH; apply adjusts_static|].
    intros ?%IH. apply adjusts_unknown; [|done]. rewrite !elem_of_cons, elem_of_nil. tauto.
Qed.
Lemma apply_list_adjusted convert l p c : adjusted convert l p c (apply_adjustment_list convert l p c).
Proof.
  unfold apply_adjustment_list. destruct l as [|a l]; [by constructor|].
  destruct (adjust_loop convert (a :: l) p c) as [[p' c']|] eqn:Hl.
  - apply adjusted_all; [done|]. by apply adjusts_loop.
  - apply adjusted_failed; [done|]. intros p' c' H%adjusts_loop. congruence.
Qed.

(** *** The crate *)

Lemma crate_build_agrees adj : crate_build_rules (Some adj) = build_rules adj.
Proof.
  assert (H : ∀ mt t rules, crate_build_rules_for_mediatype mt t rules = build_rules_for_media_type mt t rules).
  { intros mt t rules. unfold crate_build_rules_for_mediatype, build_rules_for_media_type.
    revert rules. induction (map_iter t) as [|[b deals] l IH]; intros rules; [done|]. cbn. rewrite IH. f_equal.
    clear IH. revert rules. induction (map_iter deals) as [|[d a] k IH]; intros rules; [done|]. cbn. apply IH. }
  unfold crate_build_rules, build_rules. by rewrite !H.
Qed.
Lemma crate_lookup rules bt b d :
  get_priority_adjustments rules bt b (if str_is_empty d then None else Some d) = get_adjustment rules bt b d.
Proof.
  unfold get_priority_adjustments, get_adjustment, crate_priority, priority_names.
  destruct (str_is_empty d) eqn:Hd; rewrite ?Hd; done.
Qed.
Lemma crate_fold_none convert l : fold_left (crate_apply_step convert) l None = None.
Proof. by induction l. Qed.
Lemma crate_loop_agrees convert l p c :
  fold_left (crate_apply_step convert) l (Some (p, c)) = adjust_loop convert l p c.
Proof.
  revert p c. induction l as [|a l IH]; intros p c; [done|]. cbn.
  unfold ADJUSTMENT_TYPE_STATIC, ADJUSTMENT_TYPE_CPM, ADJUSTMENT_TYPE_MULTIPLIER.
  repeat case_bool_decide; try apply IH.
  destruct (convert (ar_value a) (ar_currency a) c); cbn; [apply IH|apply crate_fold_none].
Qed.
Lemma crate_apply_list convert l p c : crate_apply convert l p c = apply_adjustment_list convert l p c.
Proof.
  unfold crate_apply, apply_adjustment_list. destruct l as [|a l]; [done|].
  rewrite bool_decide_false by done. by rewrite crate_loop_agrees.
Qed.
Lemma crate_apply_agrees convert rules bt b d price cur :
  crate_apply_adjustments convert rules bt b (if str_is_empty d then None else Some d) price cur =
  adjust_bid convert rules price bt b d cur.
Proof.
  unfold crate_apply_adjustments, adjust_bid. rewrite crate_lookup.
  case_bool_decide; [done|]. destruct (get_adjustment _ _ _ _); [|done]. rewrite crate_apply_list.
  destruct (apply_adjustment_list _ _ _ _). by destruct (str_is_empty d).
Qed.
Lemma get_adjustment_empty bt b d : get_adjustment ∅ bt b d = None.
Proof.
  unfold get_adjustment. generalize (join_names <$> priority_names bt b d). intros l.
  induction l as [|k l IH]; [done|]. cbn [first_rule]. etrans; [|exact IH]. by destruct (lookup_empty (M:=gmap string) (A:=list AdjustmentRule) k).
Qed.
(** ** Validation accepts exactly tables of valid adjustments *)

Lemma forallb_map_iter {A} (f : A → bool) (m : gmap string A) :
  forallb (λ p, f p.2) (map_iter m) = true ↔ map_Forall (λ _ a, f a = true) m.
Proof.
  rewrite forallb_forall. split.
  - intros H k a Hk. apply (H (k, a)), list_elem_of_In. by apply map_iter_elem.
  - intros H [k a] Hk%list_elem_of_In%map_iter_elem. by apply (H k a).
Qed.
Lemma map_Forall_equiv {A} (P Q : A → Prop) (m : gmap string A) : (∀ a, P a ↔ Q a) →
  map_Forall (λ _, P) m ↔ map_Forall (λ _, Q) m.
Proof. intros H. split; intros Hm k a Hk; apply H; by apply (Hm k). Qed.
Lemma validate_for_media_type_spec t : validate_for_media_type t = true ↔
  map_Forall (λ _ deals, map_Forall (λ _ l, Forall (λ a, validate_adjustment a = true) l) deals) t.
Proof.
  unfold validate_for_media_type.
  rewrite (forallb_map_iter (λ deals : AdjustmentsByDealId, forallb (λ deal, forallb validate_adjustment deal.2) (map_iter deals)) t).
  apply map_Forall_equiv. intros deals.
  rewrite (forallb_map_iter (forallb validate_adjustment)). apply map_Forall_equiv.
  intros l. rewrite forallb_forall, Forall_forall. by setoid_rewrite list_elem_of_In.
Qed.
Lemma validate_spec adj : validate_adjustment_rules adj = true ↔
  all_adjustments (Forall (λ a, validate_adjustment a = true)) adj.
Proof.
  unfold validate_adjustment_rules, all_adjustments, media_tables.
  rewrite !andb_true_iff, !validate_for_media_type_spec, !Forall_cons, Forall_nil. cbn. tauto.
Qed.

Lemma validate_adjustment_spec a :
  validate_adjustment a = true ↔ valid_adjustment (λ v, f64_ltb v f64_max_value = true) a.
Proof.
  unfold validate_adjustment, valid_adjustment, ADJUSTMENT_TYPE_STATIC, ADJUSTMENT_TYPE_CPM,
    ADJUSTMENT_TYPE_MULTIPLIER, str_is_empty, f64_geb.
  destruct (decide (ar_type a = "cpm")) as [->|]; [|destruct (decide (ar_type a = "static")) as [->|]];
    rewrite ?(bool_decide_true (_ = _)), ?(bool_decide_false (ar_type a = _)) by done; cbn [orb].
  - rewrite !andb_true_iff, negb_true_iff, bool_decide_eq_false. naive_solver.
  - rewrite orb_true_r, !andb_true_iff, negb_true_iff, bool_decide_eq_false. naive_solver.
  - case_bool_decide; rewrite ?andb_true_iff; naive_solver.
Qed.
Lemma crate_validate_adjustment_spec a :
  crate_validate_adjustment a = true ↔ valid_adjustment (λ v, f64_is_finite v = true) a.
Proof.
  unfold crate_validate_adjustment, valid_adjustment, ADJUSTMENT_TYPE_STATIC, ADJUSTMENT_TYPE_CPM,
    ADJUSTMENT_TYPE_MULTIPLIER, str_is_empty, f64_geb.
  destruct (decide (ar_type a = "cpm")) as [->|]; [|destruct (decide (ar_type a = "static")) as [->|]];
    rewrite ?(bool_decide_true (_ = _)), ?(bool_decide_false (ar_type a = _)) by done; cbn [orb].
  - rewrite !andb_true_iff, negb_true_iff, bool_decide_eq_false. naive_solver.
  - rewrite orb_true_r, !andb_true_iff, negb_true_iff, bool_decide_eq_false. naive_solver.
  - case_bool_decide; rewrite ?andb_true_iff; naive_solver.
Qed.
Lemma all_adjustments_iff (P Q : list AdjustmentRule → Prop) adj : (∀ l, P l ↔ Q l) →
  all_adjustments P adj ↔ all_adjustments Q adj.
Proof.
  intros H. unfold all_adjustments. apply Forall_iff. intros t.
  apply map_Forall_equiv. intros deals. by apply map_Forall_equiv.
Qed.
Lemma foldM_ok {A E} (f : A → outcome E ()) l :
  foldM (λ _ a, f a) () l = Ok () ↔ ∀ a, a ∈ l → f a = Ok ().
Proof.
  induction l as [|a l IH]; cbn; [split; [by intros _ a ?%elem_of_nil|done]|].
  destruct (f a) as [[]| |] eqn:Hf; cbn.
  - rewrite IH. split; [intros H x [->|Hx]%elem_of_cons; auto|intros H x Hx; apply H; by right].
  - split; [done|]. intros H. rewrite <-Hf. apply H. by left.
  - split; [done|]. intros H. rewrite <-Hf. apply H. by left.
Qed.
Lemma foldM_map_ok {A E} (f : string → A → outcome E ()) (P : A → Prop) (m : gmap string A) :
  (∀ k a, f k a = Ok () ↔ P a) →
  foldM (λ _ p, f p.1 p.2) () (map_iter m) = Ok () ↔ map_Forall (λ _, P) m.
Proof.
  intros Hf. rewrite (foldM_ok (λ p, f p.1 p.2)). split.
  - intros H k a Hk. apply (Hf k), (H (k, a)). by apply map_iter_elem.
  - intros H [k a] Hk%map_iter_elem. apply Hf. by apply (H k).
Qed.
Lemma check_adjustments_ok b d l : check_adjustments b d l = Ok () ↔
  l ≠ [] ∧ Forall (valid_adjustment (λ v, f64_is_finite v = true)) l.
Proof.
  unfold check_adjustments. destruct l as [|a l]; [naive_solver|].
  rewrite (foldM_ok (λ a, if crate_validate_adjustment a then Ok () else Err InvalidAdjustment)), Forall_forall.
  split.
  - intros H. split; [done|]. intros x Hx. apply crate_validate_adjustment_spec. specialize (H x Hx).
    by destruct (crate_validate_adjustment x).
  - intros [_ H] x Hx. by rewrite (proj2 (crate_validate_adjustment_spec x)) by auto.
Qed.
Lemma crate_validate_spec adj : crate_validate (Some adj) = Ok () ↔
  all_adjustments (λ l, l ≠ [] ∧ Forall (valid_adjustment (λ v, f64_is_finite v = true)) l) adj.
Proof.
  assert (Ht : ∀ t, validate_for_mediatype t = Ok () ↔ map_Forall (λ _ deals, map_Forall (λ _ l,
    l ≠ [] ∧ Forall (valid_adjustment (λ v, f64_is_finite v = true)) l) deals) t).
  { intros t. unfold validate_for_mediatype.
    apply (foldM_map_ok (λ b deals, foldM (λ _ deal, check_adjustments b deal.1 deal.2) () (map_iter deals))).
    intros b deals. apply (foldM_map_ok (check_adjustments b)). apply check_adjustments_ok. }
  assert (Hb : ∀ (x y : outcome AdjustmentError ()), (_ ← x; y) = Ok () ↔ x = Ok () ∧ y = Ok ()).
  { intros [[]| |] y; cbn; naive_solver. }
  unfold all_adjustments, media_tables. cbn [crate_validate].
  rewrite !Hb, !Ht, !Forall_cons, Forall_nil. cbn. tauto.
Qed.

(** C26: Bid adjustments, for names without the separator, whatever the order of the
    maps.  A bid's adjustments are those of the key of highest priority for which the
    nested rules hold some: a key names the bid's media type, bidder and deal (if it
    has one) or has a wildcard for any of them, the one that names more goes first,
    and of two that name as many the one that names the media type, then the
    bidder.  Without any, price and currency stay.  Otherwise the adjustments are
    applied in order, multiplying the price, taking a converted amount off it or
    replacing price and currency, and the price is rounded to four digits; where a
    rate is missing they change nothing.  A price that is then not above zero becomes
    0.1, and for a deal one below zero becomes zero, in the bid's currency.  The
    bidadjustment crate, a port of its own, answers the same.  Validation accepts
    exactly rules of valid adjustments; the crate's also refuses empty lists. *)
Theorem bid_adjustment_spec convert adj price bid_type bidder deal cur :
  bidders_plain adj → no_char (ch "|") bid_type → no_char (ch "|") bidder →
  let result := adjust_bid convert (build_rules adj) price bid_type bidder deal cur in
  (∀ l, rule_for adj bid_type bidder deal l → ∃ p c, adjusted convert l price cur (p, c) ∧
     result = if bool_decide (deal = "")
              then (if f64_leb p f64_zero then (f64_of_dec 1 1, cur) else (p, c))
              else (if f64_ltb p f64_zero then (f64_zero, cur) else (p, c))) ∧
  ((∀ l, ¬ rule_for adj bid_type bidder deal l) → result = (price, cur)) ∧
  crate_apply_adjustments convert (crate_build_rules (Some adj)) bid_type bidder
    (if bool_decide (deal = "") then None else Some deal) price cur = result ∧
  (validate_adjustment_rules adj = true ↔
     all_adjustments (Forall (valid_adjustment (λ v, f64_ltb v f64_max_value = true))) adj) ∧
  (crate_validate (Some adj) = Ok () ↔
     all_adjustments (λ l, l ≠ [] ∧ Forall (valid_adjustment (λ v, f64_is_finite v = true)) l) adj).
Proof.
  intros Hp Ht Hb result. setoid_rewrite rule_for_iff.
  rewrite <-(get_adjustment_nested adj bid_type bidder deal Hp Ht Hb). split_and!.
  - intros l Hl. exists (apply_adjustment_list convert l price cur).1, (apply_adjustment_list convert l price cur).2.
    rewrite <-surjective_pairing. split; [apply apply_list_adjusted|]. unfold result, adjust_bid. rewrite Hl.
    rewrite bool_decide_false by (intros Hr; rewrite Hr, get_adjustment_empty in Hl; done).
    unfold str_is_empty, MIN_BID. destruct (apply_adjustment_list convert l price cur) as [p c]. cbn.
    by case_bool_decide; cbn; [destruct (f64_leb p _)|destruct (f64_ltb p _)].
  - intros Hn. unfold result, adjust_bid. case_bool_decide; [done|].
    destruct (get_adjustment _ _ _ _) as [l|]; [by destruct (Hn l)|done].
  - rewrite crate_build_agrees. apply crate_apply_agrees.
  - rewrite validate_spec. apply all_adjustments_iff. intros l. rewrite !Forall_forall.
    by setoid_rewrite validate_adjustment_spec.
  - apply crate_validate_spec.
Qed.
End Flat.

#[local] Existing Instance map_iter_to_list.
Definition sample_adjustments : BidAdjustmentRules := {| bar_mediatype := {|
  amt_banner := {[ "rubicon" := {[ "*" := [{| ar_type := "multiplier"; ar_value := f64_of_dec 5 1; ar_currency := "" |}] ]} ]};
  amt_video_instream := ∅; amt_video_outstream := ∅; amt_audio := ∅; amt_native := ∅;
  amt_wildcard := {[ "*" := {[ "*" := [{| ar_type := "cpm"; ar_value := f64_of_Z 9; ar_currency := "USD" |}] ]} ]} |} |}.
Lemma bid_adjustment_spec_witness :
  adjust_bid (λ x _ _, Some x) (build_rules sample_adjustments) (f64_of_Z 4) "banner" "rubicon" "" "USD"
    = (f64_of_Z 2, "USD") ∧
  adjust_bid (λ x _ _, Some x) (build_rules sample_adjustments) (f64_of_Z 4) "audio" "rubicon" "d1" "USD"
    = (f64_zero, "USD") ∧
  crate_apply_adjustments (λ x _ _, Some x) (crate_build_rules (Some sample_adjustments)) "banner" "rubicon" None (f64_of_Z 4) "USD"
    = (f64_of_Z 2, "USD").
Proof.
  assert (Hp : bidders_plain sample_adjustments).
  { apply (bool_decide_unpack _). vm_compute. reflexivity. }
  split; [by vm_compute|]. split; [by vm_compute|].
  destruct (bid_adjustment_spec (λ x _ _, Some x) sample_adjustments (f64_of_Z 4) "banner" "rubicon" "" "USD" Hp)
    as (_ & _ & H & _); [apply (bool_decide_unpack _); vm_compute; reflexivity..|].
  etrans; [exact H|]. by vm_compute.
Defined.
(** Two bidders whose names hold the separator share a key. *)
Lemma separator_in_name_collides : rule_key "banner" "a|b" "c" = rule_key "banner" "a" "b|c".
Proof. done. Qed.
(** The comment says prices without a deal are floored at 0.1; only those at or below
    zero are. *)
Lemma small_price_stays :
  adjust_bid (λ x _ _, Some x) (build_rules sample_adjustments) (f64_of_dec 1 1) "banner" "rubicon" "" "USD" =
    (f64_of_dec 5 2, "USD").
Proof. by vm_compute. Qed.
