(* ===== verification/JsonMerge.v ===== *)
(** JSON merge patches (exchange/src/json_merge.rs, exchange/src/default_request.rs).

    [rfc_merge] is the algorithm of RFC 7386, which the source names as what it
    implements; they agree on patches without nulls.  Reading and printing JSON,
    the file system and serde are parameters. *)
From S2P Require Import Prelude Json.

Section Fields.
Context (merge : Value → Value → Value).
(** What becomes of a field, absent or present, that the patch mentions. *)
Definition patch_field (base_val : option Value) (patch_val : Value) : option Value :=
  if is_null patch_val then None
  else match base_val with
       | Some base_val => Some (merge base_val patch_val)
       | None => Some patch_val
       end.
(** [for (key, patch_val) in patch_obj], on [result_obj]. *)
Fixpoint patch_fields (patch_obj result_obj : list (string * Value)) : list (string * Value) :=
  match patch_obj with
  | [] => result_obj
  | (key, patch_val) :: patch_obj' =>
      patch_fields patch_obj'
        (match patch_field (obj_get key result_obj) patch_val with
         | Some v => obj_insert key v result_obj
         | None => obj_remove key result_obj
         end)
  end.
End Fields.

Definition object_or_empty (v : Value) : list (string * Value) :=
  match v with VObject m => m | _ => [] end.
Fixpoint merge_patch (base patch : Value) {struct patch} : Value :=
  match patch with
  | VObject patch_obj =>
      VObject (patch_fields (λ b p, merge_patch b p) patch_obj (object_or_empty base))
  | _ => patch
  end.

Definition is_empty_value (v : Value) : bool :=
  match v with VNull | VObject [] => true | _ => false end.
Definition merge_clone_json (existing incoming : Value) : Value :=
  if is_empty_value existing then incoming
  else if is_empty_value incoming then existing
  else merge_patch incoming existing.

Section Bytes.
(** serde_json on bytes and on a type [T]. *)
Context {Bytes T : Type}.
Context (from_slice : Bytes → outcome string Value) (to_vec : Value → outcome string Bytes).
Context (to_value : T → outcome string Value) (from_value : Value → outcome string T).

Definition failed {A} (what : string) (m : outcome string A) : outcome string A :=
  map_err (λ e, what +:+ ": " +:+ e) m.
Definition merge_clone (target : T) (overlay : Bytes) : outcome string T :=
  base_json ← failed "failed to serialize base" (to_value target);
  overlay_json ← failed "failed to parse overlay JSON" (from_slice overlay);
  failed "failed to unmarshal merged result" (from_value (merge_patch base_json overlay_json)).
Definition apply_stored_request (request_json stored_json : Bytes) : outcome string Bytes :=
  req ← failed "bad request JSON" (from_slice request_json);
  stored ← failed "bad stored JSON" (from_slice stored_json);
  failed "failed to marshal merged request" (to_vec (merge_patch stored req)).
Definition apply_stored_imp (imp_json stored_json : Bytes) : outcome string Bytes :=
  apply_stored_request imp_json stored_json.
End Bytes.

(** ** exchange/src/default_request.rs *)

Inductive DefaultRequestType : Type := DrtNone | DrtFile.
Record DefaultRequestConfig : Type := {
  drc_source_type : DefaultRequestType; drc_file_name : option string;
}.
Inductive DefaultRequestError : Type :=
| DreReadFile (path source : string) | DreInvalidJson (path source : string) | DreNotAnObject.
Definition default_request_error_to_string (e : DefaultRequestError) : string :=
  match e with
  | DreReadFile path source => "failed to read default request from file " +:+ path +:+ ": " +:+ source
  | DreInvalidJson path source => "invalid JSON in default request from file " +:+ path +:+ ": " +:+ source
  | DreNotAnObject => "default request JSON is not an object (must be a valid BidRequest shape)"
  end.
Section Files.
Context (read_to_string : string → outcome string string).
Context (from_str : string → outcome string Value).
Definition load_from_file (path : string) : outcome DefaultRequestError Value :=
  content ← map_err (DreReadFile path) (read_to_string path);
  value ← map_err (DreInvalidJson path) (from_str content);
  if is_object value then Ok value else Err DreNotAnObject.
Definition load_default_request (cfg : DefaultRequestConfig)
    : outcome DefaultRequestError (option Value) :=
  match drc_source_type cfg with
  | DrtNone => Ok None
  | DrtFile =>
      match drc_file_name cfg with
      | Some path =>
          if str_is_empty path then Ok None else v ← load_from_file path; Ok (Some v)
      | None => Ok None
      end
  end.
End Files.
Definition apply_default_request (dflt incoming : Value) : Value := merge_patch dflt incoming.

(** ** RFC 7386 *)

Section RfcFields.
Context (merge : Value → Value → Value).
Definition rfc_field (base_val : option Value) (patch_val : Value) : option Value :=
  if is_null patch_val then None else Some (merge (default VNull base_val) patch_val).
Fixpoint rfc_fields (patch_obj result_obj : list (string * Value)) : list (string * Value) :=
  match patch_obj with
  | [] => result_obj
  | (key, patch_val) :: patch_obj' =>
      rfc_fields patch_obj'
        (match rfc_field (obj_get key result_obj) patch_val with
         | Some v => obj_insert key v result_obj
         | None => obj_remove key result_obj
         end)
  end.
End RfcFields.
Fixpoint rfc_merge (target patch : Value) {struct patch} : Value :=
  match patch with
  | VObject patch_obj =>
      VObject (rfc_fields (λ b p, rfc_merge b p) patch_obj (object_or_empty target))
  | _ => patch
  end.
(** No null in the objects of a value, at any depth. *)
Fixpoint null_free (v : Value) : Prop :=
  match v with
  | VObject m => (fix go (m : list (string * Value)) : Prop :=
      match m with [] => True | p :: m' => is_null p.2 = false ∧ null_free p.2 ∧ go m' end) m
  | _ => True
  end.

(** ** Fields *)

Lemma null_free_object m : null_free (VObject m) ↔ Forall (λ p, is_null p.2 = false ∧ null_free p.2) m.
Proof. induction m as [|p m IH]; cbn in *; [done|]. rewrite Forall_cons, <-IH. tauto. Qed.
Lemma object_or_empty_sorted v : value_wf v → obj_sorted (object_or_empty v).
Proof. by destruct v; cbn; try done; intros []. Qed.

Section PatchFields.
Context (field : option Value → Value → option Value).
(** Both loops: a field of the patch decides, every other stays. *)
Fixpoint fields (patch_obj result_obj : list (string * Value)) : list (string * Value) :=
  match patch_obj with
  | [] => result_obj
  | (key, patch_val) :: patch_obj' =>
      fields patch_obj'
        (match field (obj_get key result_obj) patch_val with
         | Some v => obj_insert key v result_obj
         | None => obj_remove key result_obj
         end)
  end.
Lemma fields_sorted p m : obj_sorted m → obj_sorted (fields p m).
Proof.
  revert m. induction p as [|[k v] p IH]; intros m Hm; cbn; [done|]. apply IH.
  destruct (field _ _); [by apply obj_sorted_insert|by apply obj_sorted_remove].
Qed.
Lemma fields_get p m k : obj_sorted m → obj_sorted p →
  obj_get k (fields p m) = match obj_get k p with
    | Some v => field (obj_get k m) v
    | None => obj_get k m
    end.
Proof.
  revert m. induction p as [|[k' v] p IH]; intros m Hm Hp; cbn; [done|].
  pose proof (obj_sorted_NoDup _ Hp) as Hnd. destruct Hp as [_ Hp]. apply NoDup_cons in Hnd as [Hk' _].
  set (m' := match field _ _ with Some _ => _ | None => _ end).
  assert (Hm' : obj_sorted m') by (unfold m'; destruct (field _ _);
    [by apply obj_sorted_insert|by apply obj_sorted_remove]).
  assert (Hg : obj_get k m' = if bool_decide (k' = k) then field (obj_get k' m) v else obj_get k m).
  { unfold m'. destruct (field _ _); [by rewrite obj_get_insert|by rewrite obj_get_remove]. }
  rewrite IH, Hg by done. destruct (decide (k' = k)) as [->|Hk].
  - rewrite !bool_decide_true by done. by rewrite obj_get_not_in.
  - by rewrite !bool_decide_false by done.
Qed.
End PatchFields.
Lemma patch_fields_fields f p m : patch_fields f p m = fields (patch_field f) p m.
Proof. revert m. induction p as [|[k v] p IH]; intros m; [done|]. cbn. apply IH. Qed.
Lemma rfc_fields_fields f p m : rfc_fields f p m = fields (rfc_field f) p m.
Proof. revert m. induction p as [|[k v] p IH]; intros m; [done|]. cbn. apply IH. Qed.

(** ** Merging *)

Lemma merge_patch_fields m b : merge_patch b (VObject m) =
  VObject (fields (patch_field merge_patch) m (object_or_empty b)).
Proof. by rewrite <-patch_fields_fields. Qed.
Lemma rfc_merge_fields m b : rfc_merge b (VObject m) =
  VObject (fields (rfc_field rfc_merge) m (object_or_empty b)).
Proof. by rewrite <-rfc_fields_fields. Qed.
Lemma merge_patch_leaf b p : is_object p = false → merge_patch b p = p.
Proof. by destruct p. Qed.
Lemma get_object_or_empty k v : get k v = obj_get k (object_or_empty v).
Proof. by destruct v. Qed.

(** A key of the patch is decided by it; the other keys are those of the base. *)
Lemma merge_patch_get k b p : value_wf b → value_wf p → is_object p = true →
  get k (merge_patch b p) = match get k p with
    | Some v => patch_field merge_patch (get k b) v
    | None => get k b
    end.
Proof.
  intros Hb Hp Ho. destruct p as [| | | | |m]; try done. rewrite merge_patch_fields, !get_object_or_empty.
  cbn. apply fields_get; [by apply object_or_empty_sorted|by destruct Hp].
Qed.
Lemma merge_patch_wf p : value_wf p → ∀ b, value_wf b → value_wf (merge_patch b p).
Proof.
  induction p as [|bo|nu|st|li ?|m IH] using Value_nested_ind; intros Hp b Hb; try done.
  assert (Hm : obj_sorted (fields (patch_field merge_patch) m (object_or_empty b)))
    by by apply fields_sorted, object_or_empty_sorted.
  pose proof Hp as [Hs Hp']%value_wf_object. rewrite merge_patch_fields. apply value_wf_object. split; [done|].
  intros k v. rewrite fields_get by (done || by apply object_or_empty_sorted).
  destruct (obj_get k m) as [w|] eqn:Hw.
  - unfold patch_field. destruct (is_null w); [done|].
    pose proof (Hp' _ _ Hw). rewrite Forall_forall in IH. pose proof (obj_get_elem_of _ _ _ Hw) as Hin.
    destruct (obj_get k (object_or_empty b)) as [u|] eqn:Hu; intros [= <-]; [|done].
    apply (IH _ Hin); [done|]. apply (value_wf_get k b); [done|by rewrite get_object_or_empty].
  - rewrite <-get_object_or_empty. by apply value_wf_get.
Qed.

Lemma null_free_get k m v : null_free (VObject m) → obj_get k m = Some v → is_null v = false ∧ null_free v.
Proof. rewrite null_free_object, Forall_forall. intros H Hv. by apply (H (k, v)), obj_get_elem_of. Qed.
(** A value without nulls is what it patches nothing into. *)
Lemma rfc_merge_fresh p : value_wf p → null_free p → ∀ b, is_object b = false → rfc_merge b p = p.
Proof.
  induction p as [|bo|nu|st|li ?|m IH] using Value_nested_ind; intros Hp Hn b Hb; try done.
  pose proof Hp as [Hs Hp']%value_wf_object. rewrite rfc_merge_fields. f_equal.
  assert (object_or_empty b = []) as -> by by destruct b.
  apply obj_sorted_ext; [by apply fields_sorted|done|]. intros k. rewrite fields_get by done.
  cbn. destruct (obj_get k m) as [v|] eqn:Hv; [|done].
  destruct (null_free_get k m v Hn Hv) as [Hv1 Hv2]. unfold rfc_field. rewrite Hv1. cbn. f_equal.
  rewrite Forall_forall in IH. by apply (IH _ (obj_get_elem_of _ _ _ Hv)); eauto.
Qed.
Lemma merge_patch_rfc p : value_wf p → null_free p → ∀ b, value_wf b → merge_patch b p = rfc_merge b p.
Proof.
  induction p as [|bo|nu|st|li ?|m IH] using Value_nested_ind; intros Hp Hn b Hb; try done.
  pose proof Hp as [Hs Hp']%value_wf_object. rewrite rfc_merge_fields, merge_patch_fields. f_equal.
  pose proof (object_or_empty_sorted _ Hb) as Hob.
  apply obj_sorted_ext; [by apply fields_sorted..|]. intros k. rewrite !fields_get by done.
  destruct (obj_get k m) as [v|] eqn:Hv; [|done].
  destruct (null_free_get k m v Hn Hv) as [Hv1 Hv2]. unfold patch_field, rfc_field. rewrite Hv1.
  destruct (obj_get k (object_or_empty b)) as [u|] eqn:Hu; cbn; f_equal.
  - rewrite Forall_forall in IH. apply (IH _ (obj_get_elem_of _ _ _ Hv)); eauto.
    apply (value_wf_get k b); [done|by rewrite get_object_or_empty].
  - by rewrite rfc_merge_fresh by eauto.
Qed.
(** A patch that is already applied changes nothing. *)
Lemma merge_patch_self p : value_wf p → null_free p → merge_patch p p = p.
Proof.
  induction p as [|bo|nu|st|li ?|m IH] using Value_nested_ind; intros Hp Hn; try done.
  pose proof Hp as [Hs Hp']%value_wf_object. rewrite merge_patch_fields. f_equal.
  apply obj_sorted_ext; [by apply fields_sorted|done|]. intros k. rewrite fields_get by done. cbn.
  destruct (obj_get k m) as [v|] eqn:Hv; [|done].
  destruct (null_free_get k m v Hn Hv) as [Hv1 Hv2]. unfold patch_field. rewrite Hv1. f_equal.
  rewrite Forall_forall in IH. apply (IH _ (obj_get_elem_of _ _ _ Hv)); eauto.
Qed.
Lemma merge_patch_idem p : value_wf p → null_free p → ∀ b, value_wf b →
  merge_patch (merge_patch b p) p = merge_patch b p.
Proof.
  induction p as [|bo|nu|st|li ?|m IH] using Value_nested_ind; intros Hp Hn b Hb; try done.
  pose proof Hp as [Hs Hp']%value_wf_object. rewrite (merge_patch_fields m b), merge_patch_fields. cbn.
  pose proof (object_or_empty_sorted _ Hb) as Hob. f_equal.
  apply obj_sorted_ext; [by repeat apply fields_sorted|by apply fields_sorted|]. intros k.
  rewrite !fields_get by eauto using fields_sorted.
  destruct (obj_get k m) as [v|] eqn:Hv; [|done].
  destruct (null_free_get k m v Hn Hv) as [Hv1 Hv2]. unfold patch_field. rewrite Hv1.
  destruct (obj_get k (object_or_empty b)) as [u|] eqn:Hu; f_equal.
  - rewrite Forall_forall in IH. apply (IH _ (obj_get_elem_of _ _ _ Hv)); eauto.
    apply (value_wf_get k b); [done|by rewrite get_object_or_empty].
  - by apply merge_patch_self; eauto.
Qed.

(** A null below a key the base lacks is kept, where RFC 7386 drops it: the
    source patches the keys the base has and copies the others. *)
Definition nested_null : Value := VObject [("a", VObject [("b", VNull)])].
Lemma nested_null_is_kept :
  merge_patch (VObject []) nested_null = nested_null ∧
  rfc_merge (VObject []) nested_null = VObject [("a", VObject [])] ∧
  merge_patch (merge_patch (VObject []) nested_null) nested_null = VObject [("a", VObject [])].
Proof. by vm_compute. Qed.

(** C30: [merge_patch], on well-formed objects, gives a well-formed value; each
    key of the patch is dropped where the patch is null, merged where the base
    has it and copied where not, and each other key is the base's.  On patches
    without nulls it is the algorithm of RFC 7386, and applying a patch twice is
    applying it once. *)
Theorem merge_patch_spec b p : value_wf b → value_wf p →
  value_wf (merge_patch b p) ∧
  (is_object p = false → merge_patch b p = p) ∧
  (is_object p = true → ∀ k, get k (merge_patch b p) = match get k p with
    | Some VNull => None
    | Some v => Some (match get k b with Some u => merge_patch u v | None => v end)
    | None => get k b
    end) ∧
  (null_free p → merge_patch b p = rfc_merge b p ∧ merge_patch (merge_patch b p) p = merge_patch b p).
Proof.
  intros Hb Hp. split; [by apply merge_patch_wf|]. split; [apply merge_patch_leaf|]. split.
  - intros Ho k. rewrite merge_patch_get by done. unfold patch_field.
    destruct (get k p) as [[]|]; cbn; by destruct (get k b).
  - intros Hn. split; [by apply merge_patch_rfc|by apply merge_patch_idem].
Qed.
Definition witness_base : Value := VObject [("a", VObject [("b", number 1); ("c", number 2)]); ("d", VBool true)].
Definition witness_patch : Value := VObject [("a", VObject [("b", number 5)]); ("e", VString "x")].
Lemma merge_patch_spec_witness :
  merge_patch witness_base witness_patch =
    VObject [("a", VObject [("b", number 5); ("c", number 2)]); ("d", VBool true); ("e", VString "x")] ∧
  merge_patch (merge_patch witness_base witness_patch) witness_patch = merge_patch witness_base witness_patch.
Proof.
  split; [by vm_compute|]. apply (merge_patch_spec witness_base witness_patch); vm_compute; naive_solver.
Defined.
