(* ===== verification/RulesEngine.v ===== *)
(** The rules engine: the decision trees of the [rules] crate
    (rules/src/lib.rs, schema_functions.rs, result_functions.rs) and the module
    that compiles rule tables into them (modules/src/rulesengine.rs).

    A tree's children are a hash map, a [gmap]; the order in which the map
    iterates is the class [MapIter] and no result depends on it.  A rule table is
    read by [select], the reference: keep the rows whose condition equals the
    value, or, when there are none, the rows with the wildcard, one column after
    the other; the last row left wins. *)
From S2P Require Import Prelude Json.

Section Tree.
Context {Ctx Out : Type}.

(** ** rules/src/lib.rs *)

Inductive RulesError : Type :=
| NilRoot | NilSchemaFunction | Unbalanced
| ReSchemaFunction (s : string) | ReResultFunction (s : string).
Definition rules_error_to_string (e : RulesError) : string :=
  match e with
  | NilRoot => "tree root is nil"
  | NilSchemaFunction => "schema function is nil"
  | Unbalanced => "tree is malformed: leaves found at different depths"
  | ReSchemaFunction s => "schema function error: " +:+ s
  | ReResultFunction s => "result function error: " +:+ s
  end.

Record SchemaFunctionStep : Type := { sfs_func_name : string; sfs_func_result : string }.
Record ResultFunctionMeta : Type := {
  rfm_schema_function_results : list SchemaFunctionStep; rfm_analytics_key : string;
  rfm_rule_fired : string; rfm_model_version : string;
}.
Definition set_schema_function_results l (m : ResultFunctionMeta) : ResultFunctionMeta := {|
  rfm_schema_function_results := l; rfm_analytics_key := rfm_analytics_key m;
  rfm_rule_fired := rfm_rule_fired m; rfm_model_version := rfm_model_version m;
|}.
Definition set_rule_fired s (m : ResultFunctionMeta) : ResultFunctionMeta := {|
  rfm_schema_function_results := rfm_schema_function_results m;
  rfm_analytics_key := rfm_analytics_key m;
  rfm_rule_fired := s; rfm_model_version := rfm_model_version m;
|}.
Definition append_schema_result (name value : string) (m : ResultFunctionMeta)
    : ResultFunctionMeta :=
  set_schema_function_results (rfm_schema_function_results m ++
    [{| sfs_func_name := name; sfs_func_result := value |}]) m.
Definition append_rule_fired (value : string) (m : ResultFunctionMeta) : ResultFunctionMeta :=
  if str_is_empty (rfm_rule_fired m) then set_rule_fired value m
  else set_rule_fired (rfm_rule_fired m +:+ "|" +:+ value) m.

(** The traits; a result function writes to its [&mut Out]. *)
Record SchemaFunction : Type := {
  sf_name : string; sf_call : Ctx → outcome RulesError string;
}.
Record ResultFunction : Type := {
  rf_name : string; rf_call : Ctx → ResultFunctionMeta → M Out RulesError ();
}.

#[local] Unset Elimination Schemes.
Inductive Node : Type := MkNode {
  schema_function : option SchemaFunction;
  result_functions : list ResultFunction;
  children : gmap string Node;
}.
#[local] Set Elimination Schemes.
Definition node_new : Node := MkNode None [] ∅.
Definition is_leaf (node : Node) : bool := bool_decide (children node = ∅).
(** On the map of children, or of what is computed from each of them. *)
Definition match_in {A} (children : gmap string A) (value : string) : option (string * A) :=
  match children !! value with
  | Some child => Some (value, child)
  | None =>
      match children !! "*" with
      | Some child => Some ("*", child)
      | None => None
      end
  end.
Definition match_child (node : Node) (value : string) : option (string * Node) :=
  match_in (children node) value.

Record Tree : Type := {
  root : option Node; default_functions : list ResultFunction;
  analytics_key : string; model_version : string;
}.

(** [for child in node.children.values()], from the first leaf depth met so far. *)
Fixpoint validate_children (cs : list (Z → Z → bool * Z)) (depth first_leaf_depth : Z)
    : bool * Z :=
  match cs with
  | [] => (true, first_leaf_depth)
  | validate_child :: cs' =>
      match validate_child depth first_leaf_depth with
      | (false, first_leaf_depth') => (false, first_leaf_depth')
      | (true, first_leaf_depth') => validate_children cs' depth first_leaf_depth'
      end
  end.
Fixpoint validate_node `{MI : MapIter} (node : Node) (depth first_leaf_depth : Z) : bool * Z :=
  if is_leaf node && (first_leaf_depth =? -1) then (true, depth)
  else if is_leaf node && negb (depth =? first_leaf_depth) then (false, first_leaf_depth)
  else validate_children ((map_iter (validate_node <$> children node)).*2)
         (i32 (depth + 1)) first_leaf_depth.
Definition validate_tree `{MI : MapIter} (tree : Tree) : outcome RulesError () :=
  match root tree with
  | None => Ok ()
  | Some root => if (validate_node root 0 (-1)).1 then Ok () else Err Unbalanced
  end.

(** The [while let] loop: the result functions of the leaf, [None] when no child
    matched. *)
Fixpoint walk (node : Node) (payload : Ctx) (meta : ResultFunctionMeta)
    : outcome RulesError (option (list ResultFunction) * ResultFunctionMeta) :=
  if is_leaf node then Ok (Some (result_functions node), meta)
  else
    match schema_function node with
    | None => Err NilSchemaFunction
    | Some sf =>
        res ← sf_call sf payload;
        let meta := append_schema_result (sf_name sf) res meta in
        match match_in (walk <$> children node) res with
        | Some (key, walk_child) => walk_child payload (append_rule_fired key meta)
        | None => Ok (None, set_rule_fired "default" meta)
        end
    end.
Definition run_functions (payload : Ctx) (meta : ResultFunctionMeta)
    : list ResultFunction → M Out RulesError () :=
  foldr (λ rf rest, _ ← rf_call rf payload meta; rest) (mret ()).
Definition run (tree : Tree) (payload : Ctx) : M Out RulesError ResultFunctionMeta := λ out,
  match root tree with
  | None => (Err NilRoot, out)
  | Some root =>
      let meta := {| rfm_schema_function_results := []; rfm_analytics_key := analytics_key tree;
                     rfm_rule_fired := ""; rfm_model_version := model_version tree |} in
      match walk root payload meta with
      | Ok (funcs, meta) =>
          (_ ← run_functions payload meta (default (default_functions tree) funcs);
           mret meta) out
      | Err e => (Err e, out)
      | Panic => (Panic, out)
      end
  end.

Record Rules : Type := Rules_new { tree : Tree }.
Definition rules_list_evaluate (r : Rules) (ctx : Ctx) : M Out RulesError ResultFunctionMeta :=
  run (tree r) ctx.
End Tree.
Arguments SchemaFunction : clear implicits.
Arguments ResultFunction : clear implicits.
Arguments Node : clear implicits.
Arguments Tree : clear implicits.
Arguments Rules : clear implicits.

(** ** rules/src/schema_functions.rs and result_functions.rs *)

Record RequestCtx : Type := {
  rc_device_country : string; rc_channel : string; rc_device_type : string;
}.
Definition known_or_unknown (s : string) : string := if str_is_empty s then "unknown" else s.
Definition DeviceCountry : SchemaFunction RequestCtx := {|
  sf_name := "deviceCountry"; sf_call ctx := Ok (known_or_unknown (rc_device_country ctx));
|}.
Definition Channel : SchemaFunction RequestCtx := {|
  sf_name := "channel"; sf_call ctx := Ok (known_or_unknown (rc_channel ctx));
|}.
Definition DeviceType : SchemaFunction RequestCtx := {|
  sf_name := "deviceType"; sf_call ctx := Ok (known_or_unknown (rc_device_type ctx));
|}.

Record BidderCtx : Type := {
  bc_excluded_bidders : list string; bc_included_bidders : list string; bc_rule_fired : string;
}.
Definition default_bidder_ctx : BidderCtx := {|
  bc_excluded_bidders := []; bc_included_bidders := []; bc_rule_fired := "";
|}.
Definition ExcludeBidders (bidders : list string) : ResultFunction RequestCtx BidderCtx := {|
  rf_name := "excludeBidders";
  rf_call _ meta out := (Ok (), {|
    bc_excluded_bidders := bc_excluded_bidders out ++ bidders;
    bc_included_bidders := bc_included_bidders out; bc_rule_fired := rfm_rule_fired meta |});
|}.
Definition IncludeBidders (bidders : list string) : ResultFunction RequestCtx BidderCtx := {|
  rf_name := "includeBidders";
  rf_call _ meta out := (Ok (), {|
    bc_excluded_bidders := bc_excluded_bidders out;
    bc_included_bidders := bc_included_bidders out ++ bidders;
    bc_rule_fired := rfm_rule_fired meta |});
|}.

(** ** modules/src/rulesengine.rs *)

Inductive RulesEngineError : Type := ReeInvalidConfig (s : string) | ReeEvaluation (s : string).
Definition rules_engine_error_to_string (e : RulesEngineError) : string :=
  match e with
  | ReeInvalidConfig s => "invalid rules config: " +:+ s
  | ReeEvaluation s => "rule evaluation failed: " +:+ s
  end.
Record SchemaEntry : Type := { se_function : string; se_args : Value }.
Record ResultEntry : Type := { re_function : string; re_args : Value }.
Record RuleEntry : Type := { rule_conditions : list string; rule_results : list ResultEntry }.
Record ModelGroup : Type := {
  mg_weight : Z; mg_analytics_key : string; mg_version : string; mg_schema : list SchemaEntry;
  mg_rules : list RuleEntry; mg_default : list ResultEntry;
}.
Record RuleSet : Type := {
  rs_stage : string; rs_name : string; rs_version : string; rs_model_groups : list ModelGroup;
}.
Record RulesEngineConfig : Type := {
  rec_enabled : bool; rec_timestamp : string; rec_rulesets : list RuleSet;
}.
Definition default_rules_engine_config : RulesEngineConfig := {|
  rec_enabled := false; rec_timestamp := ""; rec_rulesets := [];
|}.
Record AuctionSnapshot : Type := {
  as_device_country : string; as_channel : string; as_bidders : list string;
  as_device_type : string;
}.
Record RulesEngineOutcome : Type := {
  reo_excluded_bidders : list string; reo_included_bidders : list string;
  reo_rules_fired : list string;
}.
Definition default_rules_engine_outcome : RulesEngineOutcome := {|
  reo_excluded_bidders := []; reo_included_bidders := []; reo_rules_fired := [];
|}.
Record CompiledRuleset : Type := {
  cr_name : string; cr_version : string; cr_groups : list (Rules RequestCtx BidderCtx);
}.
Record RulesEngineModule : Type := {
  rem_config : RulesEngineConfig; rem_rulesets : list CompiledRuleset;
}.

Definition build_schema_function (name : string)
    : outcome RulesEngineError (SchemaFunction RequestCtx) :=
  if bool_decide (name = "deviceCountry") then Ok DeviceCountry
  else if bool_decide (name = "channel") then Ok Channel
  else if bool_decide (name = "deviceType") then Ok DeviceType
  else Err (ReeInvalidConfig ("unknown schema function: " +:+ name)).
Definition entry_bidders (entry : ResultEntry) : list string :=
  match get "bidders" (re_args entry) ≫= as_array with
  | Some arr => omap as_str arr
  | None => []
  end.
Definition build_result_function (entry : ResultEntry)
    : outcome RulesEngineError (ResultFunction RequestCtx BidderCtx) :=
  let bidders := entry_bidders entry in
  if bool_decide (re_function entry = "excludeBidders") then Ok (ExcludeBidders bidders)
  else if bool_decide (re_function entry = "includeBidders") then Ok (IncludeBidders bidders)
  else Err (ReeInvalidConfig ("unknown result function: " +:+ re_function entry)).

#[local] Notation RNode := (Node RequestCtx BidderCtx) (only parsing).
#[local] Notation RTree := (Tree RequestCtx BidderCtx) (only parsing).

(** [schema_fns[idx]], rebuilt from its name. *)
Definition take_boxed (schema_fns : list (SchemaFunction RequestCtx)) (idx : nat)
    : outcome RulesEngineError (SchemaFunction RequestCtx) :=
  match schema_fns !! idx with
  | None => Panic
  | Some f => match build_schema_function (sf_name f) with Ok f => Ok f | _ => Panic end
  end.

Definition set_node_schema (node : RNode) f : RNode :=
  MkNode (Some f) (result_functions node) (children node).
Definition set_node_children (node : RNode) c : RNode :=
  MkNode (schema_function node) (result_functions node) c.
Definition set_node_results (node : RNode) r : RNode :=
  MkNode (schema_function node) r (children node).

(** One level of conditions per unit of fuel. *)
Fixpoint insert_rule (fuel : nat) (node : RNode) (schema_fns : list (SchemaFunction RequestCtx))
    (conditions : list string) (depth : nat)
    (leaf_funcs : list (ResultFunction RequestCtx BidderCtx)) : outcome RulesEngineError RNode :=
  match fuel with
  | O => Panic
  | S fuel =>
      node ← match schema_function node with
             | None => f ← take_boxed schema_fns depth; Ok (set_node_schema node f)
             | Some _ => Ok node
             end;
      match conditions !! depth with
      | None => Panic
      | Some key =>
          let is_last := bool_decide (S depth = length conditions) in
          let child := default node_new (children node !! key) in
          child ← if is_last then Ok (set_node_results child leaf_funcs)
                  else insert_rule fuel child schema_fns conditions (S depth) leaf_funcs;
          Ok (set_node_children node (<[key := child]> (children node)))
      end
  end.

Definition length_error (n m : nat) : RulesEngineError :=
  ReeInvalidConfig ("rule conditions length (" +:+ pretty n +:+
    ") does not match schema length (" +:+ pretty m +:+ ")").
Definition add_rule (schema_fns : list (SchemaFunction RequestCtx)) (root : RNode)
    (rule : RuleEntry) : outcome RulesEngineError RNode :=
  if bool_decide (length (rule_conditions rule) ≠ length schema_fns) then
    Err (length_error (length (rule_conditions rule)) (length schema_fns))
  else
    leaf_funcs ← mapM build_result_function (rule_results rule);
    insert_rule (S (length (rule_conditions rule))) root schema_fns (rule_conditions rule) 0
      leaf_funcs.
Definition build_tree `{MI : MapIter} (group : ModelGroup) : outcome RulesEngineError RTree :=
  schema_fns ← mapM (λ e, build_schema_function (se_function e)) (mg_schema group);
  default_fns ← mapM build_result_function (mg_default group);
  let tree (root : RNode) : RTree := {|
    root := Some root; default_functions := default_fns;
    analytics_key := mg_analytics_key group; model_version := mg_version group |} in
  match schema_fns with
  | [] => Ok (tree node_new)
  | _ :: _ =>
      f ← take_boxed schema_fns 0;
      root ← foldM (add_rule schema_fns) (set_node_schema node_new f) (mg_rules group);
      let root := if bool_decide (children root = ∅) then node_new else root in
      _ ← map_err (ReeInvalidConfig ∘ rules_error_to_string) (validate_tree (tree root));
      Ok (tree root)
  end.

Definition compile_group `{MI : MapIter} (mg : ModelGroup)
    : outcome RulesEngineError (Rules RequestCtx BidderCtx) :=
  tree ← build_tree mg; Ok (Rules_new tree).
Definition compile_ruleset `{MI : MapIter} (rs : RuleSet)
    : outcome RulesEngineError CompiledRuleset :=
  groups ← mapM compile_group (rs_model_groups rs);
  Ok {| cr_name := rs_name rs; cr_version := rs_version rs; cr_groups := groups |}.
Definition from_config `{MI : MapIter} (config : RulesEngineConfig)
    : outcome RulesEngineError RulesEngineModule :=
  rulesets ← mapM compile_ruleset (rec_rulesets config);
  Ok {| rem_config := config; rem_rulesets := rulesets |}.
(** serde's deserialisation of the configuration is a parameter. *)
Definition from_json `{MI : MapIter}
    (config_from_value : Value → outcome string RulesEngineConfig) (raw : Value)
    : outcome RulesEngineError RulesEngineModule :=
  config ← map_err ReeInvalidConfig (config_from_value raw);
  from_config config.
Definition from_rules (rules : Rules RequestCtx BidderCtx) : RulesEngineModule := {|
  rem_config := {| rec_enabled := true; rec_timestamp := ""; rec_rulesets := [] |};
  rem_rulesets := [{| cr_name := "inline"; cr_version := "inline"; cr_groups := [rules] |}];
|}.
Definition module_new `{MI : MapIter} (config : RulesEngineConfig)
    : outcome RulesEngineError RulesEngineModule :=
  match from_config config with
  | Err _ => Ok {| rem_config := default_rules_engine_config; rem_rulesets := [] |}
  | r => r
  end.

Definition snapshot_ctx (snapshot : AuctionSnapshot) : RequestCtx := {|
  rc_device_country := as_device_country snapshot; rc_channel := as_channel snapshot;
  rc_device_type := as_device_type snapshot;
|}.
Definition apply_rules (ctx : RequestCtx) (compiled : CompiledRuleset)
    (acc : RulesEngineOutcome) (rules : Rules RequestCtx BidderCtx)
    : outcome RulesEngineError RulesEngineOutcome :=
  match rules_list_evaluate rules ctx default_bidder_ctx with
  | (Ok meta, out) => Ok {|
      reo_excluded_bidders := reo_excluded_bidders acc ++ bc_excluded_bidders out;
      reo_included_bidders := reo_included_bidders acc ++ bc_included_bidders out;
      reo_rules_fired := reo_rules_fired acc ++
        [cr_name compiled +:+ ":" +:+ cr_version compiled +:+ ":" +:+ rfm_rule_fired meta] |}
  | (Err e, _) => Err (ReeEvaluation (rules_error_to_string e))
  | (Panic, _) => Panic
  end.
Definition apply_to_auction (m : RulesEngineModule) (snapshot : AuctionSnapshot)
    : outcome RulesEngineError RulesEngineOutcome :=
  if negb (rec_enabled (rem_config m)) then Ok default_rules_engine_outcome
  else
    foldM (λ acc compiled, foldM (apply_rules (snapshot_ctx snapshot) compiled) acc
      (cr_groups compiled)) default_rules_engine_outcome (rem_rulesets m).
Definition known_result_functions : gmap string string :=
  <["includeBidders" := "restrict the auction to a list of bidders"]>
  (<["excludeBidders" := "exclude a list of bidders from the auction"]> ∅).
Definition rules_build `{MI : MapIter}
    (config_from_value : Value → outcome string RulesEngineConfig) (config : Value)
    : outcome string RulesEngineModule :=
  map_err rules_engine_error_to_string (from_json config_from_value config).

(** ** The reference: a rule table read column by column *)

Section Select.
Context {R : Type}.
Implicit Types rows : list (list string * R).

Definition row_tail (k : string) (row : list string * R) : option (list string * R) :=
  match row.1 with k' :: ks => if bool_decide (k' = k) then Some (ks, row.2) else None | [] => None end.
Definition tails (k : string) rows : list (list string * R) := omap (row_tail k) rows.
(** The conditions met and the results of the row they lead to. *)
Fixpoint select rows (vals : list string) : option (list string * R) :=
  match vals with
  | [] => row ← last rows; Some ([], row.2)
  | v :: vals' =>
      let k := if bool_decide (tails v rows = []) then "*" else v in
      '(path, r) ← select (tails k rows) vals';
      Some (k :: path, r)
  end.
End Select.

(** What a group is meant to do with a request. *)
Definition schema_value (ctx : RequestCtx) (function : string) : string :=
  known_or_unknown
    (if bool_decide (function = "deviceCountry") then rc_device_country ctx
     else if bool_decide (function = "channel") then rc_channel ctx else rc_device_type ctx).
Definition bidders_of (function : string) (entries : list ResultEntry) : list string :=
  flat_map (λ e, if bool_decide (re_function e = function) then entry_bidders e else []) entries.
(** The rule fired and the entries that act. *)
Definition group_reference (ctx : RequestCtx) (group : ModelGroup) : string * list ResultEntry :=
  match mg_schema group, mg_rules group with
  | [], _ | _, [] => ("", [])
  | _, _ =>
      match select ((λ r, (rule_conditions r, rule_results r)) <$> mg_rules group)
              ((schema_value ctx ∘ se_function) <$> mg_schema group) with
      | Some (path, results) => (join "|" path, results)
      | None => ("default", mg_default group)
      end
  end.
Definition outcome_of (fired : list (RuleSet * (string * list ResultEntry)))
    : RulesEngineOutcome := {|
  reo_excluded_bidders := flat_map (λ '(_, (_, es)), bidders_of "excludeBidders" es) fired;
  reo_included_bidders := flat_map (λ '(_, (_, es)), bidders_of "includeBidders" es) fired;
  reo_rules_fired := (λ '(rs, (rule, _)),
    rs_name rs +:+ ":" +:+ rs_version rs +:+ ":" +:+ rule) <$> fired;
|}.
Definition ruleset_fired (ctx : RequestCtx) (rs : RuleSet) :=
  (λ g, (rs, group_reference ctx g)) <$> rs_model_groups rs.
Definition rules_reference (config : RulesEngineConfig) (ctx : RequestCtx) : RulesEngineOutcome :=
  if rec_enabled config then outcome_of (flat_map (ruleset_fired ctx) (rec_rulesets config))
  else default_rules_engine_outcome.
(** The configurations that can be compiled. *)
Definition known_result (e : ResultEntry) : bool :=
  bool_decide (re_function e ∈ ["excludeBidders"; "includeBidders"]).
Definition known_schema (e : SchemaEntry) : bool :=
  bool_decide (se_function e ∈ ["deviceCountry"; "channel"; "deviceType"]).
Definition valid_group (group : ModelGroup) : bool :=
  forallb known_schema (mg_schema group) &&
  forallb known_result (mg_default group) &&
  (bool_decide (mg_schema group = []) ||
   forallb (λ r, bool_decide (length (rule_conditions r) = length (mg_schema group)) &&
                 forallb known_result (rule_results r)) (mg_rules group)).
Definition valid_config (config : RulesEngineConfig) : bool :=
  forallb (λ rs, forallb valid_group (rs_model_groups rs)) (rec_rulesets config).

(** ** The representation of a table by a tree *)

Definition known_fn (f : SchemaFunction RequestCtx) : Prop :=
  build_schema_function (sf_name f) = Ok f.
(** A node that holds the rows of a table. *)
Fixpoint built (fns : list (SchemaFunction RequestCtx)) (node : Node RequestCtx BidderCtx)
    (rows : list (list string * list (ResultFunction RequestCtx BidderCtx))) : Prop :=
  match fns with
  | [] => children node = ∅ ∧ result_functions node = default [] (snd <$> last rows)
  | f :: fns' =>
      (schema_function node = None ∧ rows = [] ∨ schema_function node = Some f) ∧
      ∀ k, match children node !! k with
           | Some c => tails k rows ≠ [] ∧ built fns' c (tails k rows)
           | None => tails k rows = []
           end
  end.
Definition fired (s k : string) : string := if str_is_empty s then k else s +:+ "|" +:+ k.
Definition meta0 (t : Tree RequestCtx BidderCtx) : ResultFunctionMeta := {|
  rfm_schema_function_results := []; rfm_analytics_key := analytics_key t;
  rfm_rule_fired := ""; rfm_model_version := model_version t |}.
(** A run does what [rule] and [entries] say. *)
Definition runs (t : Tree RequestCtx BidderCtx) ctx (ref : string * list ResultEntry) : Prop :=
  ∃ meta out, run t ctx default_bidder_ctx = (Ok meta, out) ∧ rfm_rule_fired meta = ref.1 ∧
    bc_excluded_bidders out = bidders_of "excludeBidders" ref.2 ∧
    bc_included_bidders out = bidders_of "includeBidders" ref.2.
(** A compiled ruleset runs as its source says. *)
Definition compiled_as (rs : RuleSet) (c : CompiledRuleset) : Prop :=
  cr_name c = rs_name rs ∧ cr_version c = rs_version rs ∧
  Forall2 (λ g r, ∀ ctx, runs (tree r) ctx (group_reference ctx g)) (rs_model_groups rs) (cr_groups c).

(** ** Compilation *)

Lemma build_schema_known name f : build_schema_function name = Ok f →
  known_fn f ∧ name ∈ ["deviceCountry"; "channel"; "deviceType"] ∧
  ∀ ctx, sf_call f ctx = Ok (schema_value ctx name).
Proof.
  unfold build_schema_function, known_fn, schema_value. intros H.
  repeat case_bool_decide; simplify_eq; (split; [done|split; [set_solver|done]]).
Qed.
Lemma build_schema_unknown name :
  match build_schema_function name with
  | Ok _ => True | Err (ReeInvalidConfig _) => name ∉ ["deviceCountry"; "channel"; "deviceType"]
  | _ => False
  end.
Proof. unfold build_schema_function. repeat case_bool_decide; set_solver. Qed.
Lemma build_result_cases e :
  match build_result_function e with
  | Ok f => known_result e = true
  | Err (ReeInvalidConfig _) => known_result e = false
  | _ => False
  end.
Proof.
  unfold build_result_function, known_result.
  repeat case_bool_decide; set_solver.
Qed.

(** ** Trees that represent a table *)

Section Built.
Notation row := (list string * list (ResultFunction RequestCtx BidderCtx))%type.
Implicit Types (fns schema_fns : list (SchemaFunction RequestCtx)) (rows : list row)
  (node : Node RequestCtx BidderCtx).

Lemma built_new fns : built fns node_new [].
Proof. destruct fns; cbn; [done|]. split; [by left|]. intros k. by rewrite lookup_empty. Qed.

Lemma tails_app {R} k (rows1 rows2 : list (list string * R)) :
  tails k (rows1 ++ rows2) = tails k rows1 ++ tails k rows2.
Proof. apply omap_app. Qed.

Lemma tails_one {R} k key conds (r : R) :
  tails k [(key :: conds, r)] = if bool_decide (key = k) then [(conds, r)] else [].
Proof. unfold tails, row_tail. cbn. by case_bool_decide. Qed.

Lemma built_step f fns node rows key conds leaf child :
  built (f :: fns) node rows → schema_function node = Some f →
  built fns child (tails key rows ++ [(conds, leaf)]) →
  built (f :: fns) (set_node_children node (<[key := child]> (children node)))
    (rows ++ [(key :: conds, leaf)]).
Proof.
  intros [_ Hc] Hf Hchild. split; [by right|]. intros k. cbn [children set_node_children].
  rewrite tails_app, tails_one. destruct (decide (k = key)) as [->|Hk].
  - rewrite lookup_insert_eq, bool_decide_true by done. split; [by intros [_ [=]]%app_eq_nil|done].
  - rewrite lookup_insert_ne by done. rewrite bool_decide_false by congruence. rewrite app_nil_r. apply Hc.
Qed.

Lemma built_child f fns node rows key : built (f :: fns) node rows →
  built fns (default node_new (children node !! key)) (tails key rows).
Proof.
  intros [_ Hc]. specialize (Hc key). destruct (_ !! _) as [c|]; [apply Hc|].
  rewrite Hc. apply built_new.
Qed.

(** Inserting a rule appends its row. *)
Lemma insert_rule_ok pre fns node rows cpre conds leaf fuel :
  fns ≠ [] → Forall known_fn fns → length conds = length fns → length cpre = length pre →
  (length fns < fuel)%nat → built fns node rows →
  ∃ node', insert_rule fuel node (pre ++ fns) (cpre ++ conds) (length pre) leaf = Ok node' ∧
    built fns node' (rows ++ [(conds, leaf)]).
Proof.
  revert pre node rows cpre conds fuel.
  induction fns as [|f fns IH]; intros pre node rows cpre conds fuel Hne Hk Hl Hp Hfuel Hb; [done|].
  destruct conds as [|key conds]; [done|]. destruct fuel as [|fuel]; [cbn in Hfuel; lia|].
  apply Forall_cons in Hk as [Hf Hk]. injection Hl as Hl.
  assert (∃ node1, (match schema_function node with
            | None => f ← take_boxed (pre ++ f :: fns) (length pre); Ok (set_node_schema node f)
            | Some _ => Ok node end) = Ok node1 ∧ schema_function node1 = Some f ∧
            children node1 = children node ∧ built (f :: fns) node1 rows)
    as (node1 & Hn1 & Hs1 & Hc1 & Hb1).
  { pose proof Hb as [[[Hs Hr]|Hs] Hc]; rewrite Hs; [|by exists node].
    unfold take_boxed. rewrite list_lookup_middle by done. unfold known_fn in Hf. rewrite Hf. cbn.
    eexists. split; [done|]. split; [done|]. split; [done|]. split; [by right|exact Hc]. }
  cbn [insert_rule]. rewrite Hn1. cbn [mbind outcome_bind].
  rewrite list_lookup_middle by done. rewrite length_app, Hp. cbn [length].
  pose proof (built_child _ _ _ _ key Hb1) as Hchild. rewrite Hc1 in Hchild |- *.
  destruct fns as [|f' fns].
  - destruct conds; [|done]. rewrite bool_decide_true by (cbn; lia). cbn [mbind outcome_bind].
    eexists. split; [done|]. rewrite <-Hc1. apply built_step; [done..|]. destruct Hchild as [Hch _].
    split; [rewrite <-Hc1 in Hch; done|]. cbn. by rewrite last_snoc.
  - rewrite bool_decide_false by (destruct conds; cbn in *; lia).
    destruct (IH (pre ++ [f]) _ _ (cpre ++ [key]) conds fuel (ltac:(done)) Hk Hl
      (ltac:(rewrite !length_app; cbn; lia)) (ltac:(cbn in *; lia)) Hchild)
      as (child & Hi & Hbc).
    rewrite <-!app_assoc in Hi. cbn in Hi. rewrite length_app in Hi. cbn in Hi.
    rewrite Nat.add_1_r in Hi. rewrite Hi. cbn [mbind outcome_bind].
    eexists. split; [done|]. rewrite <-Hc1. by apply built_step.
Qed.
Lemma tails_length n k rows : Forall (λ r, length r.1 = S n) rows →
  Forall (λ r, length r.1 = n) (tails k rows).
Proof.
  intros H. apply Forall_forall. intros r Hr. apply list_elem_of_omap in Hr as ([ks x] & Hin & Hr).
  rewrite Forall_forall in H. specialize (H _ Hin). unfold row_tail in Hr.
  destruct ks; cbn in *; [done|]. case_bool_decide; [|done]. injection Hr as <-. cbn. lia.
Qed.
Lemma tails_of_row {R} k ks (r : R) (t : list (list string * R)) : (k :: ks, r) ∈ t → tails k t ≠ [].
Proof.
  intros Hin Hn. eapply not_elem_of_nil. rewrite <-Hn. apply list_elem_of_omap.
  exists (k :: ks, r). split; [done|]. unfold row_tail. cbn. by rewrite bool_decide_true.
Qed.
Lemma select_nil {R} vals : select ([] : list (list string * R)) vals = None.
Proof. induction vals as [|v vals IH]; [done|]. cbn. by rewrite IH. Qed.

(** A node with rows has children, and one child per first condition. *)
Lemma built_inner f fns node rows n : rows ≠ [] → Forall (λ r, length r.1 = S n) rows →
  built (f :: fns) node rows →
  schema_function node = Some f ∧ is_leaf node = false ∧
  ∀ k c, children node !! k = Some c → tails k rows ≠ [] ∧ built fns c (tails k rows).
Proof.
  intros Hne Hl [[[_ ?]|Hs] Hc]; [done|]. split; [done|]. split.
  - destruct rows as [|[[|k ks] r] rows]; [done|by apply Forall_cons in Hl as [? _]|].
    apply bool_decide_eq_false. intros He. specialize (Hc k). rewrite He, lookup_empty in Hc.
    by eapply tails_of_row in Hc; [|left].
  - intros k c Hk. specialize (Hc k). by rewrite Hk in Hc.
Qed.

Lemma append_rule_fired_fired k m : rfm_rule_fired (append_rule_fired k m) = fired (rfm_rule_fired m) k.
Proof. unfold append_rule_fired, fired. by destruct (str_is_empty _). Qed.

(** Walking a tree reads the table. *)
Lemma walk_built ctx fns node rows vals meta :
  rows ≠ [] → built fns node rows → Forall (λ r, length r.1 = length fns) rows →
  Forall2 (λ f v, sf_call f ctx = Ok v) fns vals →
  ∃ meta', walk node ctx meta = Ok (snd <$> select rows vals, meta') ∧
    rfm_rule_fired meta' = match select rows vals with
      | Some (path, _) => foldl fired (rfm_rule_fired meta) path
      | None => "default"
      end.
Proof.
  intros Hne Hb Hl Hv. revert node rows meta Hne Hb Hl.
  induction Hv as [|f v fns vals Hfv Hv IH]; intros node rows meta Hne Hb Hl.
  - destruct Hb as [Hc Hr]. destruct node as [sf rf cs]. cbn in Hc, Hr. subst cs. cbn.
    destruct (last rows) as [[ks r]|] eqn:Hlast; [|by apply last_None in Hlast].
    cbn in Hr. subst rf. by exists meta.
  - destruct (built_inner _ _ _ _ _ Hne Hl Hb) as (Hs & Hleaf & Hc).
    destruct Hb as [_ Hnone]. destruct node as [sf rf cs]. cbn in Hs, Hc, Hnone. subst sf.
    cbn [walk schema_function children]. rewrite Hleaf. cbn [mbind outcome_bind].
    rewrite Hfv. cbn [mbind outcome_bind select]. unfold match_in. rewrite !lookup_fmap.
    set (meta1 := append_schema_result (sf_name f) v meta).
    assert (Hgo : ∀ k c, cs !! k = Some c → ∃ meta',
      walk c ctx (append_rule_fired k meta1) = Ok (snd <$> select (tails k rows) vals, meta') ∧
      rfm_rule_fired meta' = match select (tails k rows) vals with
        | Some (path, _) => foldl fired (rfm_rule_fired meta) (k :: path)
        | None => "default" end).
    { intros k c Hk. destruct (Hc _ _ Hk) as [Ht Hbc].
      destruct (IH c _ (append_rule_fired k meta1) Ht Hbc (tails_length _ _ _ Hl)) as (m' & -> & Hm).
      exists m'. split; [done|]. rewrite Hm. destruct (select _ _) as [[path r]|]; [|done].
      by rewrite append_rule_fired_fired. }
    pose proof (Hnone v) as Hnv. destruct (cs !! v) as [c|] eqn:Hcv; cbn [fmap option_fmap option_map].
    + rewrite bool_decide_false by apply Hnv. destruct (Hgo _ _ Hcv) as (m' & -> & Hm).
      exists m'. destruct (select (tails v rows) vals) as [[path r]|]; done.
    + rewrite bool_decide_true by done. pose proof (Hnone "*") as Hns.
      destruct (cs !! "*") as [c|] eqn:Hcs; cbn [fmap option_fmap option_map].
      * destruct (Hgo _ _ Hcs) as (m' & -> & Hm).
        exists m'. destruct (select (tails "*" rows) vals) as [[path r]|]; done.
      * rewrite Hns, select_nil. eexists. split; [done|]. done.
Qed.

(** Every leaf of such a tree is at the depth of the last condition. *)
Lemma validate_built `{MI : MapIter} fns node rows depth first :
  rows ≠ [] → built fns node rows → Forall (λ r, length r.1 = length fns) rows →
  i32 depth = depth → first = -1 ∨ first = i32 (depth + zlen fns) →
  ∃ first', validate_node node depth first = (true, first') ∧
    (first' = -1 ∨ first' = i32 (depth + zlen fns)).
Proof.
  revert node rows depth first. induction fns as [|f fns IH]; intros node rows depth first Hne Hb Hl Hd Hf.
  - destruct Hb as [Hc _]. destruct node as [sf rf cs]. cbn in Hc. subst cs. cbn in Hf |- *.
    unfold zlen in *. cbn in Hf |- *. rewrite Z.add_0_r, Hd in Hf |- *.
    destruct (first =? -1) eqn:H1; [eauto|]. apply Z.eqb_neq in H1.
    destruct Hf as [?| ->]; [done|]. rewrite Z.eqb_refl. cbn. rewrite fmap_empty.
    rewrite map_iter_empty. cbn. eauto.
  - destruct (built_inner _ _ _ _ _ Hne Hl Hb) as (_ & Hleaf & Hc).
    destruct node as [sf rf cs]. cbn [validate_node]. rewrite Hleaf. cbn [andb].
    cbn [children] in Hc |- *.
    assert (Hcs : Forall (λ g, ∀ fi, fi = -1 ∨ fi = i32 (depth + zlen (f :: fns)) →
      ∃ fi', g (i32 (depth + 1)) fi = (true, fi') ∧ (fi' = -1 ∨ fi' = i32 (depth + zlen (f :: fns))))
      (map_iter (validate_node <$> cs)).*2).
    { apply Forall_fmap, Forall_forall. intros [k g] Hg%map_iter_elem fi Hfi.
      apply lookup_fmap_Some in Hg as (c & <- & Hk). destruct (Hc _ _ Hk) as [Ht Hbc]. cbn.
      rewrite zlen_cons, Z.add_assoc, <-(i32_add (depth + 1) (zlen fns)) in Hfi |- *.
      eapply IH; eauto; [by eapply tails_length|].
      pose proof (i32_add (depth + 1) 0) as E. by rewrite !Z.add_0_r in E. }
    revert first Hf. induction Hcs as [|g cs' Hg _ IHc]; intros first Hf; cbn; [eauto|].
    destruct (Hg _ Hf) as (fi' & -> & Hfi'). by apply IHc.
Qed.
End Built.

(** ** Groups, rulesets, configurations *)

Lemma select_Forall2 {R R'} (Q : R → R' → Prop) (rows : list (list string * R))
    (rows' : list (list string * R')) vals :
  Forall2 (λ a b, a.1 = b.1 ∧ Q a.2 b.2) rows rows' →
  match select rows vals, select rows' vals with
  | Some (p, r), Some (p', r') => p = p' ∧ Q r r'
  | None, None => True
  | _, _ => False
  end.
Proof.
  revert rows rows'. induction vals as [|v vals IH]; intros rows rows' H.
  - cbn. apply Forall2_reverse in H. rewrite <-!head_reverse.
    destruct H as [|[? ?] [? ?] ? ? [? ?]]; cbn in *; done.
  - cbn. assert (Ht : ∀ k, Forall2 (λ a b, a.1 = b.1 ∧ Q a.2 b.2) (tails k rows) (tails k rows')).
    { intros k. clear -H. induction H as [|[ks r] [ks' r'] rows rows' [He Hq] H IH]; [done|].
      cbn in He, Hq. subst ks'. unfold tails. cbn. destruct ks as [|k' ks]; [done|].
      unfold row_tail. cbn. case_bool_decide; [by constructor|done]. }
    assert (bool_decide (tails v rows = []) = bool_decide (tails v rows' = [])) as ->.
    { pose proof (Ht v) as Hv. apply bool_decide_ext. by destruct Hv. }
    specialize (IH _ _ (Ht (if bool_decide (tails v rows' = []) then "*" else v))).
    destruct (select _ vals) as [[p r]|], (select _ vals) as [[p' r']|]; cbn; naive_solver.
Qed.

Lemma run_functions_cons {Ctx Out} (ctx : Ctx) meta (f : ResultFunction Ctx Out) fs out out' :
  rf_call f ctx meta out = (Ok (), out') →
  run_functions ctx meta (f :: fs) out = run_functions ctx meta fs out'.
Proof. intros H. cbn. unfold mbind, M_bind. by rewrite H. Qed.
Lemma run_functions_spec ctx meta entries fs out :
  Forall2 (λ e f, build_result_function e = Ok f) entries fs →
  ∃ fired, run_functions ctx meta fs out = (Ok (), {|
    bc_excluded_bidders := bc_excluded_bidders out ++ bidders_of "excludeBidders" entries;
    bc_included_bidders := bc_included_bidders out ++ bidders_of "includeBidders" entries;
    bc_rule_fired := fired |}).
Proof.
  intros H. revert out. induction H as [|e f entries fs He H IH]; intros [ex inc fd].
  - exists fd. cbn. by rewrite !app_nil_r.
  - unfold bidders_of. cbn [flat_map]. unfold build_result_function in He.
    case_bool_decide as H1; [|case_bool_decide as H2; [|done]]; injection He as <-;
      (erewrite run_functions_cons by done);
      match goal with |- ∃ _, run_functions _ _ _ ?o = _ => destruct (IH o) as [fd' ->] end;
      exists fd'; rewrite ?H1, ?H2; cbn; by rewrite <-app_assoc.
Qed.

(** A path of non-empty keys, as the trace shows it. *)
Lemma fired_join s path : s ≠ "" → foldl fired s path = join "|" (s :: path).
Proof.
  revert s. induction path as [|k path IH]; intros s Hs; [done|]. cbn [foldl].
  unfold fired at 2. unfold str_is_empty. rewrite bool_decide_false by done.
  rewrite IH by (by destruct s). cbn. destruct path; cbn; rewrite ?str_app_assoc; done.
Qed.
Lemma select_path {R} (rows : list (list string * R)) vals path r :
  Forall (λ v, v ≠ "") vals → select rows vals = Some (path, r) → Forall (λ v, v ≠ "") path.
Proof.
  intros Hv. revert rows path. induction Hv as [|v vals Hv _ IH]; intros rows path; cbn.
  - destruct (last rows); [|done]. cbn. by intros [= <- _].
  - destruct (select _ vals) as [[p r']|] eqn:Hs; [|done]. cbn. intros [= <- <-].
    constructor; [by case_bool_decide|]. by eapply IH.
Qed.
Lemma known_or_unknown_ne s : known_or_unknown s ≠ "".
Proof. unfold known_or_unknown, str_is_empty. by case_bool_decide. Qed.

Lemma take_boxed_0 f fns : known_fn f → take_boxed (f :: fns) 0 = Ok f.
Proof. unfold take_boxed, known_fn. cbn. by intros ->. Qed.

Lemma forallb_elem {A} (p : A → bool) l : forallb p l = true ↔ ∀ x, x ∈ l → p x = true.
Proof. rewrite forallb_forall. by setoid_rewrite list_elem_of_In. Qed.
Lemma forallb_elem_false {A} (p : A → bool) l x : x ∈ l → p x = false → forallb p l = false.
Proof.
  intros Hx Hp. apply not_true_iff_false. rewrite forallb_elem. intros Hall.
  by rewrite (Hall x Hx) in Hp.
Qed.
Lemma build_results_spec entries :
  match mapM build_result_function entries with
  | Ok fs => Forall2 (λ e f, build_result_function e = Ok f) entries fs ∧
      forallb known_result entries = true
  | Err (ReeInvalidConfig _) => forallb known_result entries = false
  | _ => False
  end.
Proof.
  pose proof (mapM_spec build_result_function entries) as Hm. destruct (mapM _ _) as [fs|e|].
  - split; [done|]. apply forallb_elem. intros e [i He]%list_elem_of_lookup.
    destruct (Forall2_lookup_l _ _ _ _ _ Hm He) as (f & _ & Hf).
    pose proof (build_result_cases e) as Hc. by rewrite Hf in Hc.
  - destruct Hm as (x & Hx & He). pose proof (build_result_cases x) as Hc. rewrite He in Hc.
    destruct e; [|done]. by eapply forallb_elem_false.
  - destruct Hm as (x & _ & He). pose proof (build_result_cases x) as Hc. by rewrite He in Hc.
Qed.
Lemma build_schema_spec entries :
  match mapM (λ e, build_schema_function (se_function e)) entries with
  | Ok fns => Forall known_fn fns ∧ length fns = length entries ∧
      (∀ ctx, Forall2 (λ f v, sf_call f ctx = Ok v) fns ((schema_value ctx ∘ se_function) <$> entries)) ∧
      forallb known_schema entries = true
  | Err (ReeInvalidConfig _) => forallb known_schema entries = false
  | _ => False
  end.
Proof.
  pose proof (mapM_spec (λ e, build_schema_function (se_function e)) entries) as Hm.
  destruct (mapM _ _) as [fns|e|].
  - split; [|split; [by symmetry; eapply Forall2_length|split]].
    + induction Hm as [|e f es fs He Hm IH]; constructor; [|done]. by apply build_schema_known in He as [He _].
    + intros ctx. induction Hm as [|e f es fs He Hm IH]; constructor; [|done].
      by apply build_schema_known in He as (_ & _ & ->).
    + apply forallb_elem. intros e [i He]%list_elem_of_lookup.
      destruct (Forall2_lookup_l _ _ _ _ _ Hm He) as (f & _ & Hf).
      apply bool_decide_eq_true. by apply build_schema_known in Hf as (_ & Hf & _).
  - destruct Hm as (x & Hx & He). pose proof (build_schema_unknown (se_function x)) as Hc.
    rewrite He in Hc. destruct e; [|done]. eapply forallb_elem_false; [done|]. by apply bool_decide_eq_false.
  - destruct Hm as (x & _ & He). pose proof (build_schema_unknown (se_function x)) as Hc. by rewrite He in Hc.
Qed.

(** The rules of a group, inserted one after the other. *)
Lemma add_rules_spec fns node rows rules :
  fns ≠ [] → Forall known_fn fns → built fns node rows →
  match foldM (add_rule fns) node rules with
  | Ok node' => ∃ rows', built fns node' (rows ++ rows') ∧
      Forall2 (λ r row, (rule_conditions r = row.1 ∧
        Forall2 (λ e f, build_result_function e = Ok f) (rule_results r) row.2) ∧
        length row.1 = length fns ∧ forallb known_result (rule_results r) = true) rules rows'
  | Err (ReeInvalidConfig _) => ∃ r, r ∈ rules ∧
      bool_decide (length (rule_conditions r) = length fns) &&
      forallb known_result (rule_results r) = false
  | _ => False
  end.
Proof.
  intros Hne Hk. revert node rows. induction rules as [|r rules IH]; intros node rows Hb; cbn [foldM].
  { exists []. by rewrite app_nil_r. }
  unfold add_rule at 2. destruct (decide (length (rule_conditions r) = length fns)) as [Hlen|Hlen].
  2: { rewrite bool_decide_true by done. exists r. split; [by left|]. by rewrite bool_decide_false. }
  rewrite bool_decide_false by (intros Hl; by apply Hl).
  pose proof (build_results_spec (rule_results r)) as Hm.
  destruct (mapM build_result_function (rule_results r)) as [leaf|[]|]; cbn [mbind outcome_bind]; [|..|done].
  - destruct Hm as [Hm Hknown].
    destruct (insert_rule_ok [] fns node rows [] (rule_conditions r) leaf (S (length (rule_conditions r))))
      as (node' & Hi & Hb'); [done..|lia|done|]. cbn [app length] in Hi. rewrite Hi. cbn [mbind outcome_bind].
    specialize (IH node' _ Hb'). destruct (foldM (add_rule fns) node' rules) as [node''|[]|];
      [|destruct IH as (x & ? & ?); exists x; split; [by right|done]|done..].
    destruct IH as (rows' & Hb'' & Hf). exists ((rule_conditions r, leaf) :: rows').
    rewrite <-app_assoc in Hb''. split; [done|]. by constructor.
  - exists r. split; [by left|]. by rewrite Hm, andb_false_r.
  - done.
Qed.

Lemma run_walk t ctx r funcs meta entries : root t = Some r →
  walk r ctx (meta0 t) = Ok (funcs, meta) →
  Forall2 (λ e f, build_result_function e = Ok f) entries (default (default_functions t) funcs) →
  runs t ctx (rfm_rule_fired meta, entries).
Proof.
  intros Hr Hw Hf. unfold runs, run. rewrite Hr. unfold meta0 in Hw. rewrite Hw.
  destruct (run_functions_spec ctx meta entries _ default_bidder_ctx Hf) as [fd Hrun].
  rewrite (M_bind_Ok _ _ _ _ _ Hrun). by do 2 eexists.
Qed.

Lemma run_leaf t ctx : root t = Some node_new → runs t ctx ("", []).
Proof. intros Hr. by apply (run_walk t ctx node_new (Some []) (meta0 t) []). Qed.

(** A tree that represents a table runs the entries the table selects. *)
Lemma run_built ctx fns t rt rows (rules : list (list string * list ResultEntry)) vals dflt :
  root t = Some rt → built fns rt rows → rows ≠ [] →
  Forall (λ r, length r.1 = length fns) rows →
  Forall2 (λ f v, sf_call f ctx = Ok v) fns vals → Forall (λ v, v ≠ "") vals →
  Forall2 (λ a b, a.1 = b.1 ∧ Forall2 (λ e f, build_result_function e = Ok f) a.2 b.2) rules rows →
  Forall2 (λ e f, build_result_function e = Ok f) dflt (default_functions t) →
  runs t ctx match select rules vals with
    | Some (path, results) => (join "|" path, results)
    | None => ("default", dflt)
    end.
Proof.
  intros Ht Hb Hne Hl Hv Hvals Hrows Hd.
  destruct (walk_built ctx fns rt rows vals (meta0 t) Hne Hb Hl Hv) as (meta & Hw & Hm).
  apply (select_Forall2 _ _ _ vals) in Hrows.
  destruct (select rows vals) as [[path fs]|] eqn:Hsel.
  - destruct (select rules vals) as [[path' es]|]; [|done]. destruct Hrows as [-> Hes].
    pose proof (run_walk _ _ _ _ _ es Ht Hw Hes) as Hrun. rewrite Hm in Hrun.
    apply select_path in Hsel; [|done]. cbn in Hrun. destruct path as [|k path]; [done|].
    apply Forall_cons in Hsel as [Hk _]. cbn [foldl] in Hrun. change (fired "" k) with k in Hrun.
    by rewrite fired_join in Hrun.
  - destruct (select rules vals) as [[? ?]|]; [done|].
    pose proof (run_walk _ _ _ _ _ dflt Ht Hw Hd) as Hrun. by rewrite Hm in Hrun.
Qed.

(** What [add_rules_spec] says of the rows, for the lemmas above. *)
Lemma added_rows fns rules rows :
  Forall2 (λ r row, (rule_conditions r = row.1 ∧
    Forall2 (λ e f, build_result_function e = Ok f) (rule_results r) row.2) ∧
    length row.1 = length fns ∧ forallb known_result (rule_results r) = true) rules rows →
  Forall (λ row : list string * list (ResultFunction RequestCtx BidderCtx),
    length row.1 = length (fns : list (SchemaFunction RequestCtx))) rows ∧
  Forall2 (λ a b, a.1 = b.1 ∧ Forall2 (λ e f, build_result_function e = Ok f) a.2 b.2)
    ((λ r, (rule_conditions r, rule_results r)) <$> rules) rows ∧
  forallb (λ r, bool_decide (length (rule_conditions r) = length fns) &&
    forallb known_result (rule_results r)) rules = true.
Proof.
  induction 1 as [|r row rules rows [[Hc Hf] [Hl Hkn]] _ (IH1 & IH2 & IH3)]; [by repeat constructor|].
  split; [by constructor|]. split; [by constructor|]. cbn. rewrite Hc, Hl, Hkn, IH3.
  by rewrite bool_decide_true.
Qed.

Lemma build_tree_spec `{MI : MapIter} group :
  match build_tree group with
  | Ok t => valid_group group = true ∧ ∀ ctx, runs t ctx (group_reference ctx group)
  | Err (ReeInvalidConfig _) => valid_group group = false
  | _ => False
  end.
Proof.
  unfold build_tree, valid_group, group_reference. pose proof (build_schema_spec (mg_schema group)) as Hs.
  destruct (mapM _ (mg_schema group)) as [fns|[]|]; cbn [mbind outcome_bind]; [|by rewrite Hs|done..].
  destruct Hs as (Hk & Hlen & Hv & ->).
  pose proof (build_results_spec (mg_default group)) as Hd.
  destruct (mapM _ (mg_default group)) as [dfs|[]|]; cbn [mbind outcome_bind]; [|by rewrite Hd|done..].
  destruct Hd as [Hd ->]. destruct fns as [|f fns], (mg_schema group) as [|s ss] eqn:Hsc; [|done..|].
  { split; [done|]. intros ctx. by apply run_leaf. }
  rewrite bool_decide_false by done. rewrite <-Hlen. cbn [orb andb].
  rewrite take_boxed_0 by (by apply Forall_cons in Hk as [? _]). cbn [mbind outcome_bind].
  assert (Hb0 : built (f :: fns) (set_node_schema node_new f) []).
  { split; [by right|]. intros k. cbn. by rewrite lookup_empty. }
  pose proof (add_rules_spec (f :: fns) _ _ (mg_rules group) ltac:(done) Hk Hb0) as Hr.
  destruct (foldM _ _ (mg_rules group)) as [rt|[]|]; cbn [mbind outcome_bind]; [|..|done|done].
  2: { destruct Hr as (r & Hr & Hf). by eapply forallb_elem_false. }
  destruct Hr as (rows & Hb & Hrows). cbn [app] in Hb.
  destruct (added_rows _ _ _ Hrows) as (Hl & Hrules & ->).
  destruct rows as [|row rows].
  { apply Forall2_nil_inv_r in Hrows as Hnil. rewrite Hnil. destruct Hb as [_ Hb].
    rewrite bool_decide_true by (apply map_empty; intros k; specialize (Hb k);
      by destruct (children rt !! k) as [c|]; [destruct Hb|]).
    split; [done|]. intros ctx. by apply run_leaf. }
  assert (Hne : row :: rows ≠ []) by done.
  destruct (built_inner _ _ _ _ _ Hne Hl Hb) as (_ & Hleaf & _). unfold is_leaf in Hleaf.
  rewrite Hleaf. unfold validate_tree. cbn [root].
  destruct (validate_built (f :: fns) rt (row :: rows) 0 (-1)) as (fi & -> & _); [done..|by left|].
  split; [done|]. intros ctx. destruct (mg_rules group) as [|r0 rs0]; [by inversion Hrows|].
  eapply run_built; [done|exact Hb|done|exact Hl|apply Hv| |exact Hrules|exact Hd].
  apply Forall_fmap, Forall_true. intros e. apply known_or_unknown_ne.
Qed.

Lemma compile_ruleset_spec `{MI : MapIter} rs :
  match compile_ruleset rs with
  | Ok c => compiled_as rs c ∧ forallb valid_group (rs_model_groups rs) = true
  | Err (ReeInvalidConfig _) => forallb valid_group (rs_model_groups rs) = false
  | _ => False
  end.
Proof.
  unfold compile_ruleset. set (f := compile_group).
  assert (Hf : ∀ g, match f g with
    | Ok r => valid_group g = true ∧ ∀ ctx, runs (tree r) ctx (group_reference ctx g)
    | Err (ReeInvalidConfig _) => valid_group g = false | _ => False end).
  { intros g. unfold f, compile_group. pose proof (build_tree_spec g) as Hg. by destruct (build_tree g) as [t|[]|]. }
  pose proof (mapM_spec f (rs_model_groups rs)) as Hm.
  destruct (mapM f _) as [rules|e|]; cbn [mbind outcome_bind].
  - split; [split; [done|split; [done|]]|].
    + eapply Forall2_impl; [exact Hm|]. intros g r Hg. specialize (Hf g). rewrite Hg in Hf. apply Hf.
    + apply forallb_elem. intros g [i Hi]%list_elem_of_lookup.
      destruct (Forall2_lookup_l _ _ _ _ _ Hm Hi) as (r & _ & Hr). specialize (Hf g).
      rewrite Hr in Hf. apply Hf.
  - destruct Hm as (g & Hg & He). specialize (Hf g). rewrite He in Hf. destruct e; [|done].
    by eapply forallb_elem_false.
  - destruct Hm as (g & Hg & He). specialize (Hf g). by rewrite He in Hf.
Qed.
Lemma from_config_spec `{MI : MapIter} config :
  match from_config config with
  | Ok m => rem_config m = config ∧ Forall2 compiled_as (rec_rulesets config) (rem_rulesets m) ∧
      valid_config config = true
  | Err (ReeInvalidConfig _) => valid_config config = false
  | _ => False
  end.
Proof.
  unfold from_config, valid_config. pose proof (mapM_spec compile_ruleset (rec_rulesets config)) as Hm.
  destruct (mapM _ _) as [cs|e|]; cbn [mbind outcome_bind].
  - split; [done|]. split.
    + eapply Forall2_impl; [exact Hm|]. intros rs c Hc. pose proof (compile_ruleset_spec rs) as H.
      rewrite Hc in H. apply H.
    + apply forallb_elem. intros rs [i Hi]%list_elem_of_lookup.
      destruct (Forall2_lookup_l _ _ _ _ _ Hm Hi) as (c & _ & Hc).
      pose proof (compile_ruleset_spec rs) as H. rewrite Hc in H. apply H.
  - destruct Hm as (rs & Hrs & He). pose proof (compile_ruleset_spec rs) as H. rewrite He in H.
    destruct e; [|done]. by eapply forallb_elem_false.
  - destruct Hm as (rs & Hrs & He). pose proof (compile_ruleset_spec rs) as H. by rewrite He in H.
Qed.

Lemma apply_rules_ok ctx rs c l g r :
  cr_name c = rs_name rs → cr_version c = rs_version rs → runs (tree r) ctx (group_reference ctx g) →
  apply_rules ctx c (outcome_of l) r = Ok (outcome_of (l ++ [(rs, group_reference ctx g)])).
Proof.
  intros Hn Hv (meta & out & Hrun & Hfd & Hex & Hin). unfold apply_rules, rules_list_evaluate.
  rewrite Hrun. unfold outcome_of. cbn. rewrite !flat_map_app, fmap_app. cbn.
  destruct (group_reference ctx g) as [rule es]. cbn in *.
  by rewrite Hn, Hv, Hfd, Hex, Hin, !app_nil_r.
Qed.
Lemma apply_ruleset_ok ctx rs c l : compiled_as rs c →
  foldM (apply_rules ctx c) (outcome_of l) (cr_groups c) = Ok (outcome_of (l ++ ruleset_fired ctx rs)).
Proof.
  intros (Hn & Hv & Hg). unfold ruleset_fired. revert l.
  induction Hg as [|g r gs rs' Hr _ IH]; intros l; cbn; [by rewrite app_nil_r|].
  rewrite (apply_rules_ok ctx rs c l g r Hn Hv (Hr ctx)). cbn. rewrite IH. by rewrite <-app_assoc.
Qed.

(** C27: The rules engine is its rule table.  A configuration compiles exactly
    when its schema and result functions are known and, in groups with a schema,
    every rule has one condition per schema function; anything else is an
    InvalidConfig error, never a panic.  A compiled module never fails on a
    request: the outcome gathers, ruleset by ruleset and group by group, the
    bidders named by the row that reading the table column by column selects
    (equal conditions before wildcards, the last such row), or by the defaults
    when none is, and the fired rule is the path of conditions; a group without a
    schema or without rules does nothing.  No map order matters. *)
Theorem rules_engine_spec `{MI : MapIter} config snapshot :
  match from_config config with
  | Ok m => valid_config config = true ∧
      apply_to_auction m snapshot = Ok (rules_reference config (snapshot_ctx snapshot))
  | Err (ReeInvalidConfig _) => valid_config config = false
  | _ => False
  end.
Proof.
  pose proof (from_config_spec config) as H. destruct (from_config config) as [m|[]|]; [|done..].
  destruct H as (Hc & Hr & Hv). split; [done|]. unfold apply_to_auction, rules_reference. rewrite Hc.
  destruct (rec_enabled config); [|done]. cbn [negb].
  change default_rules_engine_outcome with (outcome_of []).
  rewrite <-(app_nil_l (flat_map _ _)). generalize ([] : list (RuleSet * (string * list ResultEntry))) as l.
  induction Hr as [|rs c rss cs Hrc _ IH]; intros l; cbn; [by rewrite app_nil_r|].
  rewrite (apply_ruleset_ok _ _ _ _ Hrc). cbn. rewrite IH. by rewrite <-app_assoc.
Qed.

(** A group without rules does nothing: its defaults never run. *)
Lemma empty_group_ignores_defaults ctx group :
  mg_schema group = [] ∨ mg_rules group = [] → (group_reference ctx group).2 = [].
Proof. unfold group_reference. intros [-> | ->]; [done|]. by destruct (mg_schema group). Qed.
(** An exact first condition hides the wildcard rows, whatever comes after. *)
Example exact_hides_wildcard :
  select [(["US"; "web"], 1); (["*"; "app"], 2)] ["US"; "app"] = None ∧
  select [(["US"; "web"], 1); (["*"; "app"], 2)] ["FR"; "app"] = Some (["*"; "app"], 2).
Proof. by vm_compute. Qed.
(** [new] falls back to the disabled module. *)
Lemma module_new_total `{MI : MapIter} config : ∃ m, module_new config = Ok m ∧
  (valid_config config = false → ∀ s, apply_to_auction m s = Ok default_rules_engine_outcome).
Proof.
  unfold module_new. pose proof (from_config_spec config) as H.
  destruct (from_config config) as [m|[]|]; [|eauto..|done].
  destruct H as (_ & _ & Hv). exists m. split; [done|]. by rewrite Hv.
Qed.
