(* ===== verification/ModulesCrate.v ===== *)
(** * The modules crate

    modules/src: the stages and the modules built from a configuration (lib.rs), the
    plans of hooks (plan.rs), changesets (hookstage.rs), their sequential execution
    (execution.rs), and the modules ortb2blocking, fiftyonedegrees and scope3.  The
    rules engine is the file RulesEngine.

    A module and a hook are parameters; the times an execution takes are left out. *)

From S2P Require Import Prelude Json.

(** ** lib.rs *)

Inductive ModStage : Type :=
| MsEntrypoint | MsRawAuctionRequest | MsProcessedAuctionRequest | MsBidderRequest
| MsRawBidderResponse | MsAllProcessedBidResponses | MsAuctionResponse | MsExitpoint.
#[export] Instance ModStage_eq_dec : EqDecision ModStage.
Proof. solve_decision. Defined.
Definition mod_stage_as_str (s : ModStage) : string :=
  match s with
  | MsEntrypoint => "entrypoint" | MsRawAuctionRequest => "raw_auction_request"
  | MsProcessedAuctionRequest => "processed_auction_request" | MsBidderRequest => "bidder_request"
  | MsRawBidderResponse => "raw_bidder_response" | MsAllProcessedBidResponses => "all_processed_bid_responses"
  | MsAuctionResponse => "auction_response" | MsExitpoint => "exitpoint"
  end.
Definition mod_stage_is_rejectable (s : ModStage) : bool :=
  match s with MsAllProcessedBidResponses | MsAuctionResponse | MsExitpoint => false | _ => true end.
Record ModHookID : Type := { mh_module_code : string; mh_hook_impl_code : string }.
Definition mod_hook_id_to_string (h : ModHookID) : string := mh_module_code h +:+ "." +:+ mh_hook_impl_code h.

Section Build.
Context `{MI : MapIter} {Module : Type} (stages : Module → list ModStage).
Notation Builder := (Value → string + Module).
Notation Built := (gmap string Module * gmap string (list string))%type.
Definition module_cfg (cfg : gmap string (gmap string Value)) (vendor module_name : string) : Value :=
  default VNull (cfg !! vendor ≫= λ v, v !! module_name).
Definition cfg_enabled (module_cfg : Value) : bool := default false (json_path ["enabled"] (Some module_cfg) ≫= as_bool).
Definition build_module (cfg : gmap string (gmap string Value)) (vendor : string) (acc : Built)
    (entry : string * Builder) : outcome string Built :=
  let '(module_name, builder) := entry in
  let id := vendor +:+ "." +:+ module_name in
  let c := module_cfg cfg vendor module_name in
  if negb (cfg_enabled c) then Ok acc else
  match builder c with
  | inl e => Err ("failed to init " +:+ dq +:+ id +:+ dq +:+ ": " +:+ e)
  | inr m => Ok (<[id := m]> acc.1, <[id := mod_stage_as_str <$> stages m]> acc.2)
  end.
Definition build_modules (cfg : gmap string (gmap string Value)) (builders : gmap string (gmap string Builder))
    : outcome string Built :=
  foldM (λ acc '(vendor, module_builders), foldM (build_module cfg vendor) acc (map_iter module_builders))
    (∅, ∅) (map_iter builders).
End Build.

(** ** plan.rs *)

Record ModHookWrapper (H : Type) : Type := MkModHookWrapper { mhw_module : string; mhw_code : string; mhw_hook : H }.
Arguments MkModHookWrapper {H}.
Arguments mhw_module {H}.
Arguments mhw_code {H}.
Arguments mhw_hook {H}.
(** A group's timeout is in milliseconds. *)
Record ModGroup (H : Type) : Type := MkModGroup { mg_timeout : Z; mg_hooks : list (ModHookWrapper H) }.
Arguments MkModGroup {H}.
Arguments mg_timeout {H}.
Arguments mg_hooks {H}.
Abbreviation ModPlan H := (list (ModGroup H)).
Record ModHookSequenceConfig : Type := { mhs_module_code : string; mhs_hook_impl_code : string }.
Record ModHookExecutionGroup : Type := { mheg_timeout : Z; mheg_hook_sequence : list ModHookSequenceConfig }.
Record ModStageConfig : Type := { msc_groups : list ModHookExecutionGroup }.
Record ModEndpointConfig : Type := { mec_stages : gmap string ModStageConfig }.
Record ModHookExecutionPlan : Type := { mhp_endpoints : gmap string ModEndpointConfig }.
Record ModHooksConfig : Type := {
  mhc_enabled : bool; mhc_host_execution_plan : ModHookExecutionPlan;
  mhc_default_account_execution_plan : ModHookExecutionPlan }.
Section Plan.
Context {H : Type} (get_hook : string → option H).
(** The configured hooks that exist. *)
Definition wrap_hook (c : ModHookSequenceConfig) : option (ModHookWrapper H) :=
  (λ hook, MkModHookWrapper (mhs_module_code c) (mhs_hook_impl_code c) hook) <$> get_hook (mhs_module_code c).
Definition plan_group (g : ModHookExecutionGroup) : option (ModGroup H) :=
  match omap wrap_hook (mheg_hook_sequence g) with
  | [] => None
  | hooks => Some (MkModGroup (mheg_timeout g) hooks)
  end.
Definition get_plan_for_stage (endpoint : string) (stage : ModStage) (plan_cfg : ModHookExecutionPlan) : ModPlan H :=
  match mhp_endpoints plan_cfg !! endpoint with
  | None => []
  | Some endpoint_cfg =>
      match mec_stages endpoint_cfg !! mod_stage_as_str stage with
      | None => []
      | Some stage_cfg => omap plan_group (msc_groups stage_cfg)
      end
  end.
Definition get_merged_plan (endpoint : string) (stage : ModStage) (host_plan account_plan : ModHookExecutionPlan)
    : ModPlan H :=
  get_plan_for_stage endpoint stage host_plan ++ get_plan_for_stage endpoint stage account_plan.
End Plan.

(** ** hookstage.rs *)

Inductive ModMutationType : Type := MmAdd | MmUpdate | MmDelete.
Definition mod_mutation_type_to_string (t : ModMutationType) : string :=
  match t with MmAdd => "add" | MmUpdate => "update" | MmDelete => "delete" end.
(** A mutation that fails gives the payload back. *)
Record ModMutation (T : Type) : Type := MkModMutation {
  mm_mut_type : ModMutationType; mm_key : list string; mm_func : T → (T * string) + T }.
Arguments MkModMutation {T}.
Arguments mm_mut_type {T}.
Arguments mm_key {T}.
Arguments mm_func {T}.
Abbreviation ModChangeSet T := (list (ModMutation T)).
Definition mod_add_mutation {T} (func : T → (T * string) + T) (mut_type : ModMutationType) (key : list string)
    (cs : ModChangeSet T) : ModChangeSet T := cs ++ [MkModMutation mut_type key func].
Record ModInvocationContext : Type := {
  mic_account_id : string; mic_account_config : option Value; mic_endpoint : string;
  mic_module_context : gmap string Value; mic_hook_impl_code : string }.
Record ModHookResult (T : Type) : Type := MkModHookResult {
  mhr_reject : bool; mhr_nbr_code : Z; mhr_message : string; mhr_change_set : ModChangeSet T;
  mhr_errors : list string; mhr_warnings : list string; mhr_debug_messages : list string;
  mhr_module_context : gmap string Value }.
Arguments MkModHookResult {T}.
Arguments mhr_reject {T}.
Arguments mhr_nbr_code {T}.
Arguments mhr_message {T}.
Arguments mhr_change_set {T}.
Arguments mhr_errors {T}.
Arguments mhr_warnings {T}.
Arguments mhr_debug_messages {T}.
Arguments mhr_module_context {T}.
Definition default_mod_hook_result {T} : ModHookResult T := MkModHookResult false 0 "" [] [] [] [] ∅.

(** ** execution.rs *)

Inductive ModAction : Type := MaNone | MaUpdate | MaReject.
Inductive ModStatus : Type := MsuSuccess | MsuExecutionFailure | MsuTimeout.
Record ModHookOutcome : Type := {
  mho_hook_id : ModHookID; mho_status : ModStatus; mho_action : ModAction; mho_message : string;
  mho_errors : list string; mho_warnings : list string; mho_debug_messages : list string;
  mho_execution_time : Z }.
Record ModRejectError : Type := { mre_nbr_code : Z; mre_hook_id : ModHookID; mre_message : string }.
Definition mod_reject_error_to_string (e : ModRejectError) : string :=
  "rejected by " +:+ mod_hook_id_to_string (mre_hook_id e) +:+ ": " +:+ mre_message e
  +:+ " (nbr=" +:+ pretty (mre_nbr_code e) +:+ ")".

Section Execution.
Context {T : Type}.
(** The payload, the warnings and debug messages, and the number of successes. *)
Record MutationRun : Type := {
  mr_current : T; mr_warnings : list string; mr_debug_messages : list string; mr_success_count : Z }.
Definition run_mutation (r : MutationRun) (m : ModMutation T) : MutationRun :=
  match mm_func m (mr_current r) with
  | inr updated => {| mr_current := updated; mr_warnings := mr_warnings r;
      mr_debug_messages := mr_debug_messages r ++
        ["Hook mutation successfully applied, affected key: " +:+ join "." (mm_key m) +:+ ", mutation type: "
         +:+ mod_mutation_type_to_string (mm_mut_type m)];
      mr_success_count := mr_success_count r + 1 |}
  | inl (returned, e) => {| mr_current := returned;
      mr_warnings := mr_warnings r ++ ["failed to apply hook mutation: " +:+ e];
      mr_debug_messages := mr_debug_messages r; mr_success_count := mr_success_count r |}
  end.
Definition mod_hook_outcome (hook_id : ModHookID) (status : ModStatus) (action : ModAction) (result : ModHookResult T)
    (warnings debug_messages : list string) (execution_time : Z) : ModHookOutcome := {|
  mho_hook_id := hook_id; mho_status := status; mho_action := action; mho_message := mhr_message result;
  mho_errors := mhr_errors result; mho_warnings := warnings; mho_debug_messages := debug_messages;
  mho_execution_time := execution_time |}.
Definition apply_hook_mutations (payload : T) (result : ModHookResult T) (hook_id : ModHookID) (execution_time : Z)
    : T * ModHookOutcome :=
  let plain action := mod_hook_outcome hook_id MsuSuccess action result (mhr_warnings result) (mhr_debug_messages result) execution_time in
  if mhr_reject result then (payload, plain MaReject) else
  match mhr_change_set result with
  | [] => (payload, plain MaNone)
  | change_set =>
      let r := fold_left run_mutation change_set {| mr_current := payload; mr_warnings := mhr_warnings result;
        mr_debug_messages := mhr_debug_messages result; mr_success_count := 0 |} in
      (mr_current r, mod_hook_outcome hook_id (if mr_success_count r =? 0 then MsuExecutionFailure else MsuSuccess) MaUpdate
         result (mr_warnings r) (mr_debug_messages r) execution_time)
  end.
(** The handler of a hook takes the payload and gives it back with the result. *)
Context {H : Type} (handler : H → T → ModHookResult T * T * Z * ModHookID).
(** The hooks of a group: the outcomes so far, the payload and the rejection. *)
Fixpoint execute_hooks (hooks : list (ModHookWrapper H)) (payload : T) : list ModHookOutcome * T * option ModRejectError :=
  match hooks with
  | [] => ([], payload, None)
  | hw :: hooks' =>
      let '(result, payload, exec_time, hook_id) := handler (mhw_hook hw) payload in
      if mhr_reject result then
        ([mod_hook_outcome hook_id MsuSuccess MaReject result (mhr_warnings result) (mhr_debug_messages result) exec_time], payload,
         Some {| mre_nbr_code := mhr_nbr_code result; mre_hook_id := hook_id; mre_message := mhr_message result |})
      else
        let '(payload, outcome) := apply_hook_mutations payload result hook_id exec_time in
        let '(outcomes, payload, reject) := execute_hooks hooks' payload in
        (outcome :: outcomes, payload, reject)
  end.
(** The outcomes of each group that ran. *)
Fixpoint execute_plan_sync (plan : ModPlan H) (payload : T) : list (list ModHookOutcome) * T * option ModRejectError :=
  match plan with
  | [] => ([], payload, None)
  | group :: plan' =>
      match execute_hooks (mg_hooks group) payload with
      | (outcomes, payload, Some e) => ([outcomes], payload, Some e)
      | (outcomes, payload, None) =>
          let '(groups, payload, reject) := execute_plan_sync plan' payload in
          (outcomes :: groups, payload, reject)
      end
  end.
End Execution.
Arguments MutationRun : clear implicits.

(** ** ortb2blocking.rs *)

Inductive OverrideValue : Type :=
| OvNone | OvBool (b : bool) | OvStrings (l : list string) | OvInts (l : list Z).
Record BlkConditions : Type := { bc_bidders : list string; bc_media_types : list string; bc_deal_ids : list string }.
Record ActionOverride : Type := { ao_conditions : BlkConditions; ao_override : OverrideValue }.
Record BadvActionOverride : Type := {
  bvo_blocked_adomain : list ActionOverride; bvo_allowed_adomain_for_deals : list ActionOverride;
  bvo_block_unknown_adomain : list ActionOverride; bvo_enforce_blocks : list ActionOverride }.
Record Badv : Type := {
  badv_blocked_adomain : list string; badv_allowed_adomain_for_deals : list string;
  badv_block_unknown_adomain : bool; badv_enforce_blocks : bool; badv_action_overrides : BadvActionOverride }.
Record BcatActionOverride : Type := {
  bto_blocked_adv_cat : list ActionOverride; bto_allowed_adv_cat_for_deals : list ActionOverride;
  bto_block_unknown_adv_cat : list ActionOverride; bto_enforce_blocks : list ActionOverride }.
Record Bcat : Type := {
  bcat_blocked_adv_cat : list string; bcat_allowed_adv_cat_for_deals : list string;
  bcat_block_unknown_adv_cat : bool; bcat_category_taxonomy : Z; bcat_enforce_blocks : bool;
  bcat_action_overrides : BcatActionOverride }.
Record BappActionOverride : Type := {
  bpo_blocked_app : list ActionOverride; bpo_allowed_app_for_deals : list ActionOverride; bpo_enforce_blocks : list ActionOverride }.
Record Bapp : Type := {
  bapp_blocked_app : list string; bapp_allowed_app_for_deals : list string; bapp_enforce_blocks : bool;
  bapp_action_overrides : BappActionOverride }.
Record BtypeActionOverride : Type := { byo_blocked_banner_type : list ActionOverride }.
Record Btype : Type := {
  btype_blocked_banner_type : list Z; btype_action_overrides : BtypeActionOverride }.
Record BattrActionOverride : Type := {
  bao_blocked_banner_attr : list ActionOverride; bao_blocked_video_attr : list ActionOverride;
  bao_blocked_audio_attr : list ActionOverride; bao_enforce_blocks : list ActionOverride }.
Record Battr : Type := {
  battr_blocked_banner_attr : list Z; battr_blocked_video_attr : list Z; battr_blocked_audio_attr : list Z;
  battr_enforce_blocks : bool; battr_action_overrides : BattrActionOverride }.
Record BlkAttributes : Type := {
  blk_badv : Badv; blk_bcat : Bcat; blk_bapp : Bapp; blk_btype : Btype; blk_battr : Battr }.
Definition ortb2blocking_stages : list ModStage := [MsBidderRequest; MsRawBidderResponse].
(** The loop over a bid's names. *)
Definition names_blocked (names blocked allowed_for_deals : list string) (is_deal : bool) : bool :=
  existsb (λ name,
    negb (is_deal && existsb (λ a, eq_ignore_ascii_case a name) allowed_for_deals)
    && existsb (λ b, eq_ignore_ascii_case b name) blocked) names.
Definition should_block_badv (bid_adomains blocked allowed_for_deals : list string) (block_unknown is_deal : bool) : bool :=
  if bool_decide (bid_adomains = []) && block_unknown then true
  else names_blocked bid_adomains blocked allowed_for_deals is_deal.
Definition should_block_bcat (bid_cats blocked allowed_for_deals : list string) (block_unknown is_deal : bool) : bool :=
  if bool_decide (bid_cats = []) && block_unknown then true
  else names_blocked bid_cats blocked allowed_for_deals is_deal.
Definition should_block_bapp (bid_bundle : string) (blocked allowed_for_deals : list string) (is_deal : bool) : bool :=
  if str_is_empty bid_bundle then false
  else if is_deal && existsb (λ a, eq_ignore_ascii_case a bid_bundle) allowed_for_deals then false
  else existsb (λ b, eq_ignore_ascii_case b bid_bundle) blocked.

(** ** fiftyonedegrees.rs *)

Inductive DeviceClass : Type := DcUnknown | DcPhone | DcTablet | DcDesktop | DcTv | DcBot.
Record DeviceInfo : Type := {
  di_device_class : DeviceClass; di_make : string; di_model : string; di_os : string; di_os_version : string;
  di_browser : string; di_is_mobile : bool }.
Definition default_device_info : DeviceInfo := {|
  di_device_class := DcUnknown; di_make := ""; di_model := ""; di_os := ""; di_os_version := "";
  di_browser := ""; di_is_mobile := false |}.
Record FiftyOneDegreesConfig : Type := { fod_enabled : bool; fod_data_file : string; fod_account_id : string }.
Definition device_class_of (lower : string) : DeviceClass * bool :=
  if str_contains "ipad" lower || str_contains "tablet" lower then (DcTablet, true)
  else if str_contains "iphone" lower || str_contains "android" lower || str_contains "mobile" lower then (DcPhone, true)
  else if str_contains "smart-tv" lower || str_contains "smarttv" lower then (DcTv, false)
  else if negb (str_is_empty lower) then (DcDesktop, false) else (DcUnknown, false).
(** Make, model and operating system. *)
Definition device_of (lower : string) : string * string * string :=
  if str_contains "iphone" lower then ("Apple", "iPhone", "iOS")
  else if str_contains "ipad" lower then ("Apple", "iPad", "iPadOS")
  else if str_contains "android" lower then ("", "", "Android")
  else if str_contains "windows" lower then ("", "", "Windows")
  else if str_contains "mac os" lower || str_contains "macintosh" lower then ("", "", "macOS")
  else ("", "", "").
Definition browser_of (lower : string) : string :=
  if str_contains "chrome" lower then "Chrome"
  else if str_contains "firefox" lower then "Firefox"
  else if str_contains "safari" lower then "Safari"
  else if str_contains "edge" lower then "Edge" else "".
Definition detect_device (ua : string) : DeviceInfo :=
  let lower := to_ascii_lowercase ua in
  if str_contains "bot" lower || str_contains "crawler" lower || str_contains "spider" lower then
    {| di_device_class := DcBot; di_make := ""; di_model := ""; di_os := ""; di_os_version := "";
       di_browser := ""; di_is_mobile := false |}
  else
    let '(class, is_mobile) := device_class_of lower in
    let '(make, model, os) := device_of lower in
    {| di_device_class := class; di_make := make; di_model := model; di_os := os; di_os_version := "";
       di_browser := browser_of lower; di_is_mobile := is_mobile |}.
Definition fod_detect (config : FiftyOneDegreesConfig) (ua : string) : DeviceInfo :=
  if negb (fod_enabled config) then default_device_info else detect_device ua.

(** ** scope3.rs *)

Record Scope3Config : Type := {
  s3_enabled : bool; s3_endpoint : string; s3_auth_token : string; s3_timeout_ms : Z }.
Definition default_timeout_ms : Z := 200.
Record Scope3Request : Type := {
  s3_publisher_id : string; s3_site_domain : string; s3_ad_slot : string; s3_bidders : list string }.
Record RtdData : Type := {
  rtd_emissions_grams_co2 : f64; rtd_gpp_category : string; rtd_segments : list string;
  rtd_per_bidder_scores : gmap string f64 }.
Definition default_rtd_data : RtdData := {|
  rtd_emissions_grams_co2 := f64_zero; rtd_gpp_category := ""; rtd_segments := []; rtd_per_bidder_scores := ∅ |}.
Definition bidder_scores (bidders : list string) : gmap string f64 :=
  fold_left (λ m '(i, b), <[b := f64_mul (f64_of_Z (Z.of_nat i)) (f64_of_dec 25 2)]> m) (imap pair bidders) ∅.
Definition fetch_rtd (req : Scope3Request) : RtdData := {|
  rtd_emissions_grams_co2 := f64_of_dec 123 2; rtd_gpp_category := "low"; rtd_segments := ["eco_friendly"];
  rtd_per_bidder_scores := bidder_scores (s3_bidders req) |}.
Definition scope3_fetch (config : Scope3Config) (req : Scope3Request) : RtdData :=
  if negb (s3_enabled config) then default_rtd_data else fetch_rtd req.

(** ** Modules built *)

Section BuildSpec.
Context `{MI : MapIter} {Module : Type} (stages : Module → list ModStage).
Notation Builder := (Value → string + Module).
Notation Built := (gmap string Module * gmap string (list string))%type.
(** The stages listed are those of the modules; each is of an enabled builder. *)
Definition built_ok (cfg : gmap string (gmap string Value)) (builders : gmap string (gmap string Builder)) (acc : Built) : Prop :=
  (∀ id, acc.2 !! id = option_map (λ m, mod_stage_as_str <$> stages m) (acc.1 !! id)) ∧
  ∀ id m, acc.1 !! id = Some m → ∃ vendor name ms builder,
    id = vendor +:+ "." +:+ name ∧ builders !! vendor = Some ms ∧ ms !! name = Some builder ∧
    cfg_enabled (module_cfg cfg vendor name) = true ∧ builder (module_cfg cfg vendor name) = inr m.
Lemma build_module_ok cfg builders vendor ms acc entry acc' :
  builders !! vendor = Some ms → ms !! entry.1 = Some entry.2 → built_ok cfg builders acc →
  build_module stages cfg vendor acc entry = Ok acc' → built_ok cfg builders acc'.
Proof.
  intros Hv He [Hs Hm]. destruct entry as [name builder]. unfold build_module.
  destruct (cfg_enabled _) eqn:Hen; cbn [negb]; [|by intros [= <-]].
  destruct (builder _) as [e|m] eqn:Hb; [done|]. intros [= <-]. split; cbn.
  - intros id. destruct (decide (vendor +:+ "." +:+ name = id)) as [<-|Hne]; rewrite ?lookup_insert_eq, ?lookup_insert_ne by done; [done|apply Hs].
  - intros id m' Hid. destruct (decide (vendor +:+ "." +:+ name = id)) as [<-|Hne].
    + rewrite lookup_insert_eq in Hid. injection Hid as <-. by exists vendor, name, ms, builder.
    + rewrite lookup_insert_ne in Hid by done. by apply Hm.
Qed.
Lemma build_modules_ok cfg builders acc : build_modules stages cfg builders = Ok acc → built_ok cfg builders acc.
Proof.
  unfold build_modules. assert (built_ok cfg builders (∅, ∅)) as H0.
  { split; intros id; [|intros m]; cbn; by rewrite !lookup_empty. }
  assert (∀ e, e ∈ map_iter builders → builders !! e.1 = Some e.2) as Hin by (intros [] ?%map_iter_elem; done).
  revert H0 Hin. generalize (∅ : gmap string Module, ∅ : gmap string (list string)) as a.
  induction (map_iter builders) as [|[vendor ms] l IH]; intros a H0 Hin Hb; cbn in Hb; [by injection Hb as <-|].
  apply bind_Ok in Hb as (a'&Ha&Hb). apply (IH a'); [|intros e He; apply Hin; by right|done].
  assert (builders !! vendor = Some ms) as Hv by (apply (Hin (vendor, ms)); left). clear -H0 Hv Ha.
  assert (∀ e, e ∈ map_iter ms → ms !! e.1 = Some e.2) as Hin by (intros [] ?%map_iter_elem; done).
  revert a H0 Ha Hin. induction (map_iter ms) as [|e l IH]; intros a H0 Ha Hin; cbn in Ha; [by injection Ha as <-|].
  apply bind_Ok in Ha as (a1&Ha1&Ha). apply (IH a1); [|done|intros; apply Hin; by right].
  eapply build_module_ok; try done. apply Hin. left.
Qed.
End BuildSpec.

(** ** Plans *)

Section PlanSpec.
Context {H : Type} (get_hook : string → option H).
(** No group of a plan is empty, and its hooks are the configured ones that exist, in
    their order. *)
Lemma plan_groups_spec groups :
  Forall (λ g, mg_hooks g ≠ []) (omap (plan_group get_hook) groups) ∧
  omap (plan_group get_hook) groups ≫= mg_hooks = groups ≫= (λ g, omap (wrap_hook get_hook) (mheg_hook_sequence g)).
Proof.
  induction groups as [|g groups [IHf IHb]]; [split; [constructor|done]|]. csimpl.
  assert (∀ g, plan_group get_hook g = match omap (wrap_hook get_hook) (mheg_hook_sequence g) with
    | [] => None | hooks => Some (MkModGroup (mheg_timeout g) hooks) end) as Heq by done. rewrite !Heq.
  destruct (omap (wrap_hook get_hook) (mheg_hook_sequence g)) as [|h hs] eqn:Hg; csimpl; [done|].
  split; [by constructor|]. by rewrite IHb.
Qed.
Lemma merged_plan_nonempty endpoint stage host account g :
  g ∈ get_merged_plan get_hook endpoint stage host account → mg_hooks g ≠ [].
Proof.
  unfold get_merged_plan. assert (∀ p, g ∈ get_plan_for_stage get_hook endpoint stage p → mg_hooks g ≠ []) as Hp.
  { intros p. unfold get_plan_for_stage. destruct (_ !! endpoint); [|by intros ?%not_elem_of_nil].
    destruct (_ !! _) as [sc|]; [|by intros ?%not_elem_of_nil]. intros Hg.
    destruct (plan_groups_spec (msc_groups sc)) as [Hf _]. rewrite Forall_forall in Hf. by apply Hf. }
  intros [?|?]%elem_of_app; eauto.
Qed.
End PlanSpec.

(** ** Execution *)

Section ExecutionSpec.
Context {T : Type}.
(** The payload after the mutations that succeed, the others leaving what they give
    back. *)
Definition mutate (payload : T) (m : ModMutation T) : T :=
  match mm_func m payload with inr p => p | inl (p, _) => p end.
Lemma run_mutations_payload cs (r : MutationRun T) : mr_current (fold_left run_mutation cs r) = fold_left mutate cs (mr_current r).
Proof.
  revert r. induction cs as [|m cs IH]; intros r; [done|]. cbn. rewrite IH. f_equal.
  unfold run_mutation, mutate. by destruct (mm_func m (mr_current r)) as [[]|].
Qed.
Lemma run_mutations_count cs (r : MutationRun T) :
  mr_success_count r ≤ mr_success_count (fold_left run_mutation cs r) ∧
  Z.of_nat (length (mr_debug_messages (fold_left run_mutation cs r))) - Z.of_nat (length (mr_debug_messages r)) =
  mr_success_count (fold_left run_mutation cs r) - mr_success_count r ∧
  Z.of_nat (length (mr_warnings (fold_left run_mutation cs r))) - Z.of_nat (length (mr_warnings r)) +
  (mr_success_count (fold_left run_mutation cs r) - mr_success_count r) = Z.of_nat (length cs).
Proof.
  revert r. induction cs as [|m cs IH]; intros r; [cbn; lia|]. cbn [fold_left length].
  specialize (IH (run_mutation r m)). revert IH. generalize (fold_left run_mutation cs (run_mutation r m)) as r'. intros r'.
  unfold run_mutation. destruct (mm_func m (mr_current r)) as [[p e]|p]; cbn; rewrite length_app; cbn; lia.
Qed.
(** A rejection or an empty changeset leaves the payload; else every mutation leaves
    a message or a warning, and the run failed when no mutation succeeded. *)
Lemma apply_hook_mutations_spec payload (result : ModHookResult T) hook_id time :
  let '(payload', outcome) := apply_hook_mutations payload result hook_id time in
  let successes := Z.of_nat (length (mho_debug_messages outcome)) - Z.of_nat (length (mhr_debug_messages result)) in
  let failures := Z.of_nat (length (mho_warnings outcome)) - Z.of_nat (length (mhr_warnings result)) in
  if mhr_reject result then payload' = payload ∧ mho_action outcome = MaReject ∧ mho_status outcome = MsuSuccess
  else payload' = fold_left mutate (mhr_change_set result) payload ∧
    mho_action outcome = (if bool_decide (length (mhr_change_set result) = 0%nat) then MaNone else MaUpdate) ∧
    successes + failures = Z.of_nat (length (mhr_change_set result)) ∧
    (mho_status outcome = MsuExecutionFailure ↔ mhr_change_set result ≠ [] ∧ successes = 0).
Proof.
  unfold apply_hook_mutations. destruct (mhr_reject result); [done|].
  destruct (mhr_change_set result) as [|m cs] eqn:Hc; [cbn; split_and!; try done; [lia|by split; [|intros []]]|].
  set (r0 := {| mr_current := payload; mr_warnings := _; mr_debug_messages := _; mr_success_count := 0 |}).
  pose proof (run_mutations_count (m :: cs) r0) as (Hge&Hd&Hw). pose proof (run_mutations_payload (m :: cs) r0) as Hp.
  cbn [mr_debug_messages mr_warnings mr_success_count r0] in Hd, Hw, Hge.
  generalize dependent (fold_left run_mutation (m :: cs) r0). intros r Hge Hd Hw Hp. cbn -[length].
  split_and!; [done|done|lia|]. destruct (mr_success_count r =? 0) eqn:Hz; split; try done; [intros _; split; [done|lia]|].
  intros [_ ?]. lia.
Qed.
Context {H : Type} (handler : H → T → ModHookResult T * T * Z * ModHookID).
(** Groups run their hooks one after the other: a plan runs as the sequence of all its
    hooks, and a rejection ends it. *)
Lemma execute_plan_flat plan payload groups payload' reject :
  execute_plan_sync handler plan payload = (groups, payload', reject) →
  execute_hooks handler (plan ≫= mg_hooks) payload = (concat groups, payload', reject).
Proof.
  assert (∀ hs hs' p, execute_hooks handler (hs ++ hs') p =
    match execute_hooks handler hs p with
    | (os, p', Some e) => (os, p', Some e)
    | (os, p', None) => let '(os', p'', r) := execute_hooks handler hs' p' in (os ++ os', p'', r)
    end) as Happ.
  { induction hs as [|h hs IH]; intros hs' p; cbn; [by destruct (execute_hooks handler hs' p) as [[]]|].
    destruct (handler (mhw_hook h) p) as [[[result p1] time] id]. destruct (mhr_reject result); [done|].
    destruct (apply_hook_mutations p1 result id time) as [p2 o]. rewrite IH.
    destruct (execute_hooks handler hs p2) as [[os p3] [e|]]; [done|].
    by destruct (execute_hooks handler hs' p3) as [[os' p4] r]. }
  revert payload groups payload' reject. induction plan as [|g plan IH]; intros payload groups payload' reject; cbn.
  { by intros [= <- <- <-]. }
  rewrite Happ. destruct (execute_hooks handler (mg_hooks g) payload) as [[os p1] [e|]].
  - intros [= <- <- <-]. cbn. by rewrite app_nil_r.
  - destruct (execute_plan_sync handler plan p1) as [[gs p2] r] eqn:Hp. intros [= <- <- <-].
    by rewrite (IH _ _ _ _ Hp).
Qed.
(** Without a rejection every hook has an outcome and none rejects; with one the last
    outcome, and it alone, does. *)
Lemma execute_hooks_spec hooks payload outcomes payload' reject :
  execute_hooks handler hooks payload = (outcomes, payload', reject) →
  match reject with
  | None => length outcomes = length hooks ∧ Forall (λ o, mho_action o ≠ MaReject) outcomes
  | Some e => ∃ os o, outcomes = os ++ [o] ∧ mho_action o = MaReject ∧ mho_hook_id o = mre_hook_id e
      ∧ Forall (λ o, mho_action o ≠ MaReject) os ∧ (length outcomes ≤ length hooks)%nat
  end.
Proof.
  revert payload outcomes payload' reject. induction hooks as [|h hooks IH]; intros payload outcomes payload' reject; cbn.
  { by intros [= <- <- <-]. }
  destruct (handler (mhw_hook h) payload) as [[[result p1] time] id]. destruct (mhr_reject result) eqn:Hr.
  { intros [= <- <- <-]. eexists [], _. split; [done|]. split_and!; try done. cbn. lia. }
  assert (mho_action (apply_hook_mutations p1 result id time).2 ≠ MaReject) as Ha.
  { unfold apply_hook_mutations. rewrite Hr. by destruct (mhr_change_set result). }
  destruct (apply_hook_mutations p1 result id time) as [p2 o]. cbn in Ha.
  destruct (execute_hooks handler hooks p2) as [[os p3] r] eqn:He. intros [= <- <- <-]. specialize (IH _ _ _ _ He).
  destruct r as [e|].
  - destruct IH as (os'&o'&->&?&?&?&?). eexists (o :: os'), o'. split; [done|]. split_and!; try done; [by constructor|].
    cbn in *. lia.
  - destruct IH as [Hl Hf]. split; [cbn; lia|by constructor].
Qed.
End ExecutionSpec.

(** ** Blocking *)

(** A name is exempt when the bid is a deal and the name allowed for deals. *)
Definition exempt (allowed_for_deals : list string) (is_deal : bool) (name : string) : Prop :=
  is_deal = true ∧ ∃ a, a ∈ allowed_for_deals ∧ eq_ignore_ascii_case a name = true.
Lemma existsb_elem (f : string → bool) l : existsb f l = true ↔ ∃ x, x ∈ l ∧ f x = true.
Proof. rewrite existsb_exists. setoid_rewrite <-list_elem_of_In. done. Qed.
Lemma exempt_iff allowed is_deal name : is_deal && existsb (λ a, eq_ignore_ascii_case a name) allowed = true ↔ exempt allowed is_deal name.
Proof. unfold exempt. by rewrite andb_true_iff, existsb_elem. Qed.
Lemma names_blocked_iff names blocked allowed is_deal : names_blocked names blocked allowed is_deal = true ↔
  ∃ name, name ∈ names ∧ ¬ exempt allowed is_deal name ∧ ∃ b, b ∈ blocked ∧ eq_ignore_ascii_case b name = true.
Proof.
  unfold names_blocked. rewrite existsb_elem. f_equiv. intros name.
  by rewrite andb_true_iff, negb_true_iff, <-not_true_iff_false, exempt_iff, existsb_elem.
Qed.
(** A bid is blocked for a blocked domain that is not exempt, or for having none where
    that is blocked; an allowed domain does not save another. *)
Lemma should_block_badv_iff adomains blocked allowed unknown is_deal :
  should_block_badv adomains blocked allowed unknown is_deal = true ↔
  (adomains = [] ∧ unknown = true) ∨
  ∃ name, name ∈ adomains ∧ ¬ exempt allowed is_deal name ∧ ∃ b, b ∈ blocked ∧ eq_ignore_ascii_case b name = true.
Proof.
  unfold should_block_badv. rewrite <-names_blocked_iff. destruct (bool_decide (adomains = []) && unknown) eqn:Hu.
  - apply andb_true_iff in Hu as [?%bool_decide_eq_true ?]. tauto.
  - split; [tauto|]. intros [[-> ->]|?]; [by cbn in Hu|done].
Qed.

(** ** Devices *)

(** Browsers built on Chromium, Edge among them, name Chrome and are taken for it. *)
Lemma chrome_hides_edge ua : str_contains "chrome" (to_ascii_lowercase ua) = true → di_browser (detect_device ua) ∈ ["Chrome"; ""].
Proof.
  intros Hc. unfold detect_device. destruct (_ || _); [right; left|].
  destruct (device_class_of _), (device_of _) as [[]]. cbn. unfold browser_of. rewrite Hc. left.
Qed.
Example edge_is_chrome : di_browser (detect_device "Mozilla/5.0 AppleWebKit/537.36 Chrome/58.0 Safari/537.36 Edge/16.16299") = "Chrome".
Proof. by vm_compute. Qed.
