(* ===== verification/UserSync.v ===== *)
(** * User sync in the exchange

    exchange/src/usersync.rs: the uids cookie, the sync URLs of a syncer, the
    choice of the bidders to sync, filters, ejection from a full cookie, the
    cooperative order and the construction of the syncers from the bidders'
    configuration.  The base64 and regex crates, serde_json and the random
    shuffle are parameters, as is the order in which a map iterates. *)

From S2P Require Import Prelude Json.

(** ** The cookie *)

Inductive SyncType : Type := Iframe | Redirect | Both.
#[export] Instance SyncType_eq_dec : EqDecision SyncType.
Proof. solve_decision. Defined.

Record UidEntry : Type := { ue_uid : string; ue_expires : option string }.
#[export] Instance UidEntry_eq_dec : EqDecision UidEntry.
Proof. solve_decision. Defined.
Record PrebidCookie : Type := { pc_uids : gmap string UidEntry; pc_opt_out : bool }.
#[export] Instance PrebidCookie_eq_dec : EqDecision PrebidCookie.
Proof. solve_decision. Defined.

Definition prebid_cookie_new : PrebidCookie := {| pc_uids := ∅; pc_opt_out := false |}.
Definition get_uid (bidder : string) (c : PrebidCookie) : option UidEntry := pc_uids c !! bidder.
Definition set_uid (bidder uid : string) (c : PrebidCookie) : PrebidCookie := {|
  pc_uids := <[ bidder := {| ue_uid := uid; ue_expires := None |} ]> (pc_uids c);
  pc_opt_out := pc_opt_out c |}.

Section CookieCodec.
(** base64 with the standard and the URL-safe alphabet, and the cookie's JSON. *)
Context (std_encode url_encode : string → string) (std_decode url_decode : string → option string).
Context (to_json : PrebidCookie → option string) (from_json : string → option PrebidCookie).

Definition from_cookie (cookie_val : string) : PrebidCookie :=
  let decoded := match std_decode cookie_val with
                 | Some b => Some b
                 | None => url_decode cookie_val
                 end in
  match decoded ≫= from_json with
  | Some cookie => cookie
  | None => default prebid_cookie_new (from_json cookie_val)
  end.
Definition to_cookie_string (c : PrebidCookie) : string := std_encode (default "" (to_json c)).

(** [Err] carries serde_json's message. *)
Definition encode_cookie (json_error : string) (c : PrebidCookie) : outcome string string :=
  match to_json c with Some json => Ok (url_encode json) | None => Err json_error end.
Definition decode_cookie (encoded : string) : PrebidCookie :=
  match url_decode encoded with
  | Some b => default prebid_cookie_new (from_json b)
  | None => prebid_cookie_new
  end.
End CookieCodec.

(** ** Syncers *)

Record Syncer : Type := {
  sy_bidder : string; sy_iframe_url : option string; sy_redirect_url : option string;
}.
Definition syncer_key (s : Syncer) : string := sy_bidder s.
Definition default_response_format (s : Syncer) : SyncType :=
  match sy_iframe_url s with Some _ => Iframe | None => Redirect end.
Definition supports_type (sync_types : list SyncType) (s : Syncer) : bool :=
  existsb (λ st, match st with
                 | Iframe => bool_decide (is_Some (sy_iframe_url s))
                 | Redirect => bool_decide (is_Some (sy_redirect_url s))
                 | Both => false
                 end) sync_types.
Definition get_sync_url (sync_type : SyncType) (gdpr : Z) (consent : string) (s : Syncer)
    : option string :=
  base ← match sync_type with
         | Iframe => sy_iframe_url s
         | Redirect | Both => sy_redirect_url s
         end;
  Some (str_replace "{{gdpr_consent}}" consent
         (str_replace "{{gdpr}}" (pretty gdpr)
           (str_replace "{gdpr_consent}" consent
             (str_replace "{gdpr}" (pretty gdpr) base)))).

(** ** The choice of the bidders to sync *)

Record ChooserConfig : Type := {
  cc_max_syncs_per_request : Z; cc_cooperative_sync_enabled : bool;
  cc_cooperative_sync_priority : list string;
}.
Definition default_chooser_config : ChooserConfig := {|
  cc_max_syncs_per_request := 8; cc_cooperative_sync_enabled := true;
  cc_cooperative_sync_priority := [] |}.

Inductive RejectionReason : Type :=
| AlreadySynced | OptedOut | GdprBlocked | TypeNotSupported | MaxSyncsReached | BidderDisabled.
#[export] Instance RejectionReason_eq_dec : EqDecision RejectionReason.
Proof. solve_decision. Defined.
Definition rejection_reason_to_string (r : RejectionReason) : string :=
  match r with
  | AlreadySynced => "already synced"
  | OptedOut => "user opted out"
  | GdprBlocked => "blocked by GDPR"
  | TypeNotSupported => "sync type not supported"
  | MaxSyncsReached => "max syncs reached"
  | BidderDisabled => "bidder disabled"
  end.

Record SyncerChoice : Type := { sc_bidder : string; sc_sync_type : SyncType; sc_url : string }.
Record RejectedSyncer : Type := { rs_bidder : string; rs_reason : RejectionReason }.
Record ChooseResult : Type := { cr_syncs : list SyncerChoice; cr_rejected : list RejectedSyncer }.
Definition push_sync (s : SyncerChoice) (r : ChooseResult) : ChooseResult := {|
  cr_syncs := cr_syncs r ++ [s]; cr_rejected := cr_rejected r |}.
Definition push_rejected (bidder : string) (reason : RejectionReason) (r : ChooseResult)
    : ChooseResult := {|
  cr_syncs := cr_syncs r;
  cr_rejected := cr_rejected r ++ [{| rs_bidder := bidder; rs_reason := reason |}] |}.

Section Choose.
Context (cookie : PrebidCookie) (available_syncers : gmap string Syncer).
Context (gdpr_applies : bool) (consent_string : string) (config : ChooserConfig).

(** The checks after the limit, in order. *)
Definition bidder_choice (bidder : string) : RejectionReason + SyncerChoice :=
  let gdpr := if gdpr_applies then 1 else 0 in
  match get_uid bidder cookie with
  | Some _ => inl AlreadySynced
  | None =>
      if gdpr_applies && str_is_empty consent_string then inl GdprBlocked
      else
        match available_syncers !! bidder with
        | None => inl BidderDisabled
        | Some syncer =>
            match get_sync_url Iframe gdpr consent_string syncer with
            | Some url => inr {| sc_bidder := bidder; sc_sync_type := Iframe; sc_url := url |}
            | None =>
                match get_sync_url Redirect gdpr consent_string syncer with
                | Some url => inr {| sc_bidder := bidder; sc_sync_type := Redirect; sc_url := url |}
                | None => inl TypeNotSupported
                end
            end
        end
  end.
Definition choose_step (result : ChooseResult) (bidder : string) : ChooseResult :=
  if cc_max_syncs_per_request config <=? zlen (cr_syncs result)
  then push_rejected bidder MaxSyncsReached result
  else
    match bidder_choice bidder with
    | inl reason => push_rejected bidder reason result
    | inr choice => push_sync choice result
    end.
(** [available_keys]: the keys of the syncers in the order the map iterates. *)
Definition bidders_to_check (available_keys requested_bidders : list string) : list string :=
  match requested_bidders with
  | [] => if cc_cooperative_sync_enabled config then available_keys else []
  | _ => requested_bidders
  end.
Definition choose_bidders (available_keys requested_bidders : list string) : ChooseResult :=
  if pc_opt_out cookie
  then fold_left (λ r bidder, push_rejected bidder OptedOut r) requested_bidders
         {| cr_syncs := []; cr_rejected := [] |}
  else fold_left choose_step (bidders_to_check available_keys requested_bidders)
         {| cr_syncs := []; cr_rejected := [] |}.
End Choose.

Inductive CookieSyncStatus : Type := StatusOk | StatusNoCookie | StatusOptOut.
Record UsersyncInfo : Type := { ui_url : string; ui_sync_type : string; ui_support_cors : bool }.
Record BidderSyncStatus : Type := {
  bss_bidder : string; bss_usersync : option UsersyncInfo; bss_error : option string;
  bss_no_cookie : bool;
}.
Record CookieSyncResponse : Type := {
  csr_status : CookieSyncStatus; csr_bidder_status : list BidderSyncStatus;
}.
Definition sync_type_name (t : SyncType) : string :=
  match t with Iframe => "iframe" | Redirect => "redirect" | Both => "redirect" end.
Definition bidder_sync_status (s : SyncerChoice) : BidderSyncStatus := {|
  bss_bidder := sc_bidder s;
  bss_usersync := Some {| ui_url := sc_url s; ui_sync_type := sync_type_name (sc_sync_type s);
                          ui_support_cors := true |};
  bss_error := None; bss_no_cookie := true |}.
Definition build_sync_response (cookie : PrebidCookie) (choose_result : ChooseResult)
    : CookieSyncResponse := {|
  csr_status := if pc_opt_out cookie then StatusOptOut
                else if bool_decide (pc_uids cookie = ∅) then StatusNoCookie else StatusOk;
  csr_bidder_status := bidder_sync_status <$> cr_syncs choose_result |}.

(** ** Filters *)

Inductive BidderFilterMode : Type := Include | Exclude.
#[export] Instance BidderFilterMode_eq_dec : EqDecision BidderFilterMode.
Proof. solve_decision. Defined.
Class BidderFilter (F : Type) : Type := allowed : string → F → bool.

Section Filters.
(** [str::to_lowercase]. *)
Context (to_lowercase : string → string).
Record SpecificBidderFilter : Type := {
  sbf_bidders_lookup : gset string; sbf_mode : BidderFilterMode;
}.
Definition specific_filter_new (bidders : list string) (mode : BidderFilterMode)
    : SpecificBidderFilter := {|
  sbf_bidders_lookup := list_to_set (to_lowercase <$> bidders); sbf_mode := mode |}.
Definition specific_allowed : BidderFilter SpecificBidderFilter := λ bidder f,
  let exists_ := bool_decide (to_lowercase bidder ∈ sbf_bidders_lookup f) in
  match sbf_mode f with Include => exists_ | Exclude => negb exists_ end.
End Filters.

Record UniformBidderFilter : Type := { ubf_mode : BidderFilterMode }.
Definition uniform_allowed : BidderFilter UniformBidderFilter := λ _ f,
  bool_decide (ubf_mode f = Include).

(** Two boxed filters, which may be of different types. *)
Record SyncTypeFilter (F G : Type) : Type := { stf_iframe : F; stf_redirect : G }.
Arguments stf_iframe {F G}.
Arguments stf_redirect {F G}.
Definition for_bidder `{!BidderFilter F, !BidderFilter G} (bidder : string)
    (f : SyncTypeFilter F G) : list SyncType :=
  (if allowed bidder (stf_iframe f) then [Iframe] else []) ++
  (if allowed bidder (stf_redirect f) then [Redirect] else []).

(** ** Ejection from a full cookie *)

(** [&mut self]: an ejector may change when it chooses. *)
Class Ejector (E : Type) : Type := eject : gmap string UidEntry → M E string string.

(** The order of two [&str]. *)
Definition str_ltb (a b : string) : bool :=
  match String.compare a b with Lt => true | _ => false end.

Definition is_older (oldest_expires : option (option string)) (entry_exp : option string) : bool :=
  match oldest_expires, entry_exp with
  | None, _ => true
  | Some (Some _), None => true
  | Some None, Some _ => false
  | Some None, None => false
  | Some (Some cur), Some new => str_ltb new cur
  end.
(** The key and the expiry of the oldest entry so far. *)
Definition oldest_step (st : option string * option (option string)) (kv : string * UidEntry)
    : option string * option (option string) :=
  let entry_exp := ue_expires kv.2 in
  if is_older st.2 entry_exp then (Some kv.1, Some entry_exp) else st.

Record OldestEjector : Type := OldestEjector_new {}.
Definition oldest_choose `{MI : MapIter} (uids : gmap string UidEntry) : outcome string string :=
  if bool_decide (uids = ∅) then Err "no uids to eject"
  else
    match (fold_left oldest_step (map_iter uids) (None, None)).1 with
    | Some k => Ok k
    | None => Err "no uids to eject"
    end.
#[export] Instance oldest_ejector `{MI : MapIter} : Ejector OldestEjector := λ uids e,
  (oldest_choose uids, e).

Record PriorityBidderEjector (E : Type) : Type := {
  pbe_priority_groups : list (list string); pbe_syncer_keys_by_bidder : gmap string string;
  pbe_is_syncer_priority : bool; pbe_tie_ejector : E;
}.
Arguments Build_PriorityBidderEjector {E}.
Arguments pbe_priority_groups {E}.
Arguments pbe_syncer_keys_by_bidder {E}.
Arguments pbe_is_syncer_priority {E}.
Arguments pbe_tie_ejector {E}.

Section PriorityEjector.
Context {E : Type} `{!Ejector E}.

Definition set_groups (groups : list (list string)) (e : PriorityBidderEjector E)
    : PriorityBidderEjector E := {|
  pbe_priority_groups := groups; pbe_syncer_keys_by_bidder := pbe_syncer_keys_by_bidder e;
  pbe_is_syncer_priority := pbe_is_syncer_priority e; pbe_tie_ejector := pbe_tie_ejector e |}.
Definition set_tie (tie : E) (e : PriorityBidderEjector E) : PriorityBidderEjector E := {|
  pbe_priority_groups := pbe_priority_groups e;
  pbe_syncer_keys_by_bidder := pbe_syncer_keys_by_bidder e;
  pbe_is_syncer_priority := pbe_is_syncer_priority e; pbe_tie_ejector := tie |}.

Definition priority_keys (e : PriorityBidderEjector E) : gset string :=
  list_to_set (group ← pbe_priority_groups e; bidder ← group;
    match pbe_syncer_keys_by_bidder e !! bidder with Some key => [key] | None => [] end).
Definition non_priority_uids (uids : gmap string UidEntry) (e : PriorityBidderEjector E)
    : gmap string UidEntry :=
  match pbe_priority_groups e with
  | [] => uids
  | _ => filter (λ '(k, _), k ∉ priority_keys e) uids
  end.
Definition remove_from_lowest_group (element : string) (e : PriorityBidderEjector E)
    : PriorityBidderEjector E :=
  match last (pbe_priority_groups e) with
  | None => e
  | Some group =>
      let others := removelast (pbe_priority_groups e) in
      if zlen group <=? 1 then set_groups others e
      else set_groups (others ++ [List.filter (λ b, negb (bool_decide (b = element))) group]) e
  end.

(** The uids of the bidders of the lowest group. *)
Definition lowest_uids (uids : gmap string UidEntry) (lowest_group : list string)
    (e : PriorityBidderEjector E) : gmap string UidEntry :=
  fold_left (λ m bidder,
    match key ← pbe_syncer_keys_by_bidder e !! bidder; entry ← uids !! key; Some (key, entry) with
    | Some (key, entry) => <[ key := entry ]> m
    | None => m
    end) lowest_group ∅.

(** Runs the tie ejector in place. *)
Definition eject_tie (uids : gmap string UidEntry) : M (PriorityBidderEjector E) string string :=
  λ e, let '(r, tie) := eject uids (pbe_tie_ejector e) in (r, set_tie tie e).

Definition only_priority_left : string :=
  "syncer key is not a priority, and there are only priority elements left".
Definition priority_choose (uids : gmap string UidEntry) : M (PriorityBidderEjector E) string string :=
  λ e,
  let non_priority := non_priority_uids uids e in
  if bool_decide (size non_priority = 1%nat) && negb (pbe_is_syncer_priority e) &&
     negb (bool_decide (pbe_priority_groups e = []))
  then (Err only_priority_left, e)
  else if negb (bool_decide (non_priority = ∅)) then eject_tie non_priority e
  else
    match last (pbe_priority_groups e) with
    | None => (Err "no priority groups", e)
    | Some [uid_to_delete] => (Ok uid_to_delete, remove_from_lowest_group uid_to_delete e)
    | Some lowest_group =>
        match eject_tie (lowest_uids uids lowest_group e) e with
        | (Ok uid_to_delete, e) => (Ok uid_to_delete, remove_from_lowest_group uid_to_delete e)
        | failed => failed
        end
    end.
#[export] Instance priority_ejector : Ejector (PriorityBidderEjector E) := priority_choose.
End PriorityEjector.

(** ** The cooperative order *)

Record Cooperative : Type := { co_enabled : bool; co_priority_groups : list (list string) }.
Definition default_cooperative : Cooperative := {| co_enabled := false; co_priority_groups := [] |}.

Section Order.
(** [rand]'s shuffle, with the state of the generator. *)
Context {R : Type} (shuffle : list string → R → list string * R).

Definition shuffled_copy (src : list string) (rng : R) : list string * R := shuffle src rng.
Definition shuffled_append (dest src : list string) (rng : R) : list string * R :=
  let '(shuffled, rng) := shuffle src rng in (dest ++ shuffled, rng).
Definition choose_bidder_order (requested available : list string) (cooperative : Cooperative)
    (rng : R) : list string :=
  if co_enabled cooperative then
    let '(bidders, rng) := shuffled_append [] requested rng in
    let '(bidders, rng) := fold_left (λ '(bidders, rng) group, shuffled_append bidders group rng)
                             (co_priority_groups cooperative) (bidders, rng) in
    (shuffled_append bidders available rng).1
  else if bool_decide (requested = []) then (shuffled_copy available rng).1
  else (shuffled_copy requested rng).1.
End Order.

(** ** Construction of the syncers *)

(** The fields of config/src's configuration types that are read here. *)
Record SyncerEndpointConfig : Type := {
  sec_url : string; sec_redirect_url : string; sec_external_url : string; sec_user_macro : string;
}.
#[export] Instance SyncerEndpointConfig_eq_dec : EqDecision SyncerEndpointConfig.
Proof. solve_decision. Defined.
Record BidderSyncerConfig : Type := {
  bsc_key : string; bsc_supports : list string; bsc_iframe : option SyncerEndpointConfig;
  bsc_redirect : option SyncerEndpointConfig; bsc_external_url : string;
  bsc_format_override : string; bsc_enabled : option bool;
}.
#[export] Instance BidderSyncerConfig_eq_dec : EqDecision BidderSyncerConfig.
Proof. solve_decision. Defined.
Record BidderInfo : Type := { bi_disabled : bool; bi_user_sync : option BidderSyncerConfig }.
Record UserSyncConfig : Type := { usc_redirect_url : string; usc_external_url : string }.
Record Configuration : Type := { cfg_external_url : string; cfg_user_sync : UserSyncConfig }.

Definition is_enabled (info : BidderInfo) : bool := negb (bi_disabled info).
Definition syncer_defined (info : BidderInfo) : bool :=
  match bi_user_sync info with
  | None => false
  | Some s =>
      negb (str_is_empty (bsc_key s)) || bool_decide (is_Some (bsc_iframe s)) ||
      bool_decide (is_Some (bsc_redirect s)) || negb (str_is_empty (bsc_external_url s)) ||
      negb (str_is_empty (bsc_format_override s))
  end.

Record NamedSyncerConfig : Type := { nsc_name : string; nsc_cfg : BidderSyncerConfig }.
Record SyncerBuildError : Type := {
  sbe_bidder : string; sbe_syncer_key : string; sbe_err : string;
}.
Definition syncer_build_error_to_string (e : SyncerBuildError) : string :=
  "cannot create syncer for bidder " +:+ sbe_bidder e +:+ " with key " +:+ sbe_syncer_key e +:+
  ": " +:+ sbe_err e.

Definition should_create_syncer (info : BidderInfo) : bool :=
  if negb (is_enabled info) then false else syncer_defined info.

Definition str_leb (a b : string) : bool :=
  match String.compare a b with Gt => false | _ => true end.
Definition sort_strings (l : list string) : list string := sort_by str_leb l.

Definition defines_endpoints (named : NamedSyncerConfig) : bool :=
  bool_decide (is_Some (bsc_iframe (nsc_cfg named))) ||
  bool_decide (is_Some (bsc_redirect (nsc_cfg named))).
Definition no_endpoints_error (names : list string) : string :=
  "bidders " +:+ join ", " (sort_strings names) +:+
  " share the same syncer key, but none define endpoints (iframe and/or redirect)".
Definition endpoints_differ_error (names : list string) : string :=
  "bidders " +:+ join ", " (sort_strings names) +:+
  " define endpoints (iframe and/or redirect) for the same syncer key, but only one bidder is " +:+
  "permitted to define endpoints unless the configs are identical".
Definition choose_syncer_config (group : list NamedSyncerConfig)
    : outcome string NamedSyncerConfig :=
  match group with
  | [named] => Ok named
  | _ =>
      match List.filter defines_endpoints group with
      | [] => Err (no_endpoints_error (nsc_name <$> group))
      | first :: others =>
          if forallb (λ other, bool_decide (nsc_cfg first = nsc_cfg other)) others
          then Ok first
          else Err (endpoints_differ_error (nsc_name <$> first :: others))
      end
  end.

Definition choose_external_url (syncer_endpoint_url syncer_url host_config_url : string) : string :=
  if negb (str_is_empty syncer_endpoint_url) then syncer_endpoint_url
  else if negb (str_is_empty syncer_url) then syncer_url else host_config_url.

Section Build.
(** The regex crate's [replace_all]: the pattern, the replacement, the text. *)
Context (replace_all : string → string → string → string).

Definition macro_replace (name value s : string) : string :=
  replace_all ("\{\{\s*\." +:+ name +:+ "\s*\}\}") value s.
Definition build_syncer_url (bidder_name sync_type_value : string) (host_config : UserSyncConfig)
    (syncer_external_url : string) (endpoint : SyncerEndpointConfig) (format_override : string)
    : outcome string string :=
  let redirect_template := if str_is_empty (sec_redirect_url endpoint)
                           then usc_redirect_url host_config else sec_redirect_url endpoint in
  let effective_sync_type := if str_is_empty format_override then sync_type_value
                             else format_override in
  let external_url := choose_external_url (sec_external_url endpoint) syncer_external_url
                        (usc_external_url host_config) in
  let redirect_url := macro_replace "SyncerKey" bidder_name redirect_template in
  let redirect_url := macro_replace "BidderName" bidder_name redirect_url in
  let redirect_url := macro_replace "SyncType" effective_sync_type redirect_url in
  let redirect_url := macro_replace "UserMacro" (sec_user_macro endpoint) redirect_url in
  let redirect_url := macro_replace "ExternalURL" external_url redirect_url in
  Ok (macro_replace "RedirectURL" redirect_url (sec_url endpoint)).

Definition build_endpoint (bidder sync_type_value : string) (host_config : UserSyncConfig)
    (cfg : BidderSyncerConfig) (endpoint : option SyncerEndpointConfig)
    : outcome string (option string) :=
  match endpoint with
  | Some endpoint =>
      url ← build_syncer_url bidder sync_type_value host_config (bsc_external_url cfg) endpoint
              (bsc_format_override cfg);
      Ok (Some url)
  | None => Ok None
  end.
Definition new_syncer_from_config (host_config : UserSyncConfig) (syncer_config : BidderSyncerConfig)
    (bidder : string) : outcome string Syncer :=
  if str_is_empty (bsc_key syncer_config) then Err "key is required"
  else
    match bsc_iframe syncer_config, bsc_redirect syncer_config with
    | None, None => Err "at least one endpoint (iframe and/or redirect) is required"
    | _, _ =>
        iframe_url ← build_endpoint bidder "i" host_config syncer_config (bsc_iframe syncer_config);
        redirect_url ← build_endpoint bidder "b" host_config syncer_config
                         (bsc_redirect syncer_config);
        Ok {| sy_bidder := bsc_key syncer_config; sy_iframe_url := iframe_url;
              sy_redirect_url := redirect_url |}
    end.

Section BuildSyncers.
Context `{MI : MapIter}.

Definition cfg_by_bidder (bidder_infos : gmap string BidderInfo) : gmap string BidderSyncerConfig :=
  fold_left (λ m '(bidder, info),
    if should_create_syncer info then
      match bi_user_sync info with Some cfg => <[ bidder := cfg ]> m | None => m end
    else m) (map_iter bidder_infos) ∅.
(** A config without key gets the bidder's name. *)
Definition keyed_config (bidder : string) (cfg : BidderSyncerConfig) : BidderSyncerConfig :=
  if str_is_empty (bsc_key cfg) then {|
    bsc_key := bidder; bsc_supports := bsc_supports cfg; bsc_iframe := bsc_iframe cfg;
    bsc_redirect := bsc_redirect cfg; bsc_external_url := bsc_external_url cfg;
    bsc_format_override := bsc_format_override cfg; bsc_enabled := bsc_enabled cfg |}
  else cfg.
Definition push_config (m : gmap string (list NamedSyncerConfig)) (kv : string * BidderSyncerConfig)
    : gmap string (list NamedSyncerConfig) :=
  let cfg := keyed_config kv.1 kv.2 in
  <[ bsc_key cfg := default [] (m !! bsc_key cfg) ++ [{| nsc_name := kv.1; nsc_cfg := cfg |}] ]> m.
Definition cfg_by_syncer_key (cfgs : gmap string BidderSyncerConfig)
    : gmap string (list NamedSyncerConfig) :=
  fold_left push_config (map_iter cfgs) ∅.
Definition host_user_sync (host_config : Configuration) : UserSyncConfig :=
  let h := cfg_user_sync host_config in
  if str_is_empty (usc_external_url h)
  then {| usc_redirect_url := usc_redirect_url h; usc_external_url := cfg_external_url host_config |}
  else h.

(** The errors and the syncers so far. *)
Definition named_step (host : UserSyncConfig) (key : string) (primary_cfg : NamedSyncerConfig)
    (st : list string * gmap string Syncer) (named : NamedSyncerConfig)
    : list string * gmap string Syncer :=
  match new_syncer_from_config host (nsc_cfg primary_cfg) (nsc_name named) with
  | Ok syncer => (st.1, <[ nsc_name named := syncer ]> st.2)
  | Err e => (st.1 ++ [syncer_build_error_to_string {| sbe_bidder := nsc_name primary_cfg;
                 sbe_syncer_key := key; sbe_err := e |}], st.2)
  | Panic => st
  end.
Definition key_group_step (host : UserSyncConfig) (st : list string * gmap string Syncer)
    (kv : string * list NamedSyncerConfig) : list string * gmap string Syncer :=
  match choose_syncer_config kv.2 with
  | Ok primary_cfg => fold_left (named_step host kv.1 primary_cfg) kv.2 st
  | Err e => (st.1 ++ [e], st.2)
  | Panic => st
  end.
Definition build_syncers (host_config : Configuration) (bidder_infos : gmap string BidderInfo)
    : outcome (list string) (gmap string Syncer) :=
  let '(errs, syncers) :=
    fold_left (key_group_step (host_user_sync host_config))
      (map_iter (cfg_by_syncer_key (cfg_by_bidder bidder_infos))) ([], ∅) in
  match errs with [] => Ok syncers | _ => Err errs end.
End BuildSyncers.
End Build.

(** ** Specification *)

Section ChooseSpec.
Context (cookie : PrebidCookie) (available_syncers : gmap string Syncer).
Context (gdpr_applies : bool) (consent_string : string) (config : ChooserConfig).
(** The verdict on a bidder when [synced] syncs are chosen before it: of the checks
    in this order, the first that fails rejects it. *)
Inductive verdict (synced : Z) (bidder : string) : RejectionReason + SyncerChoice → Prop :=
| verdict_limit :
    cc_max_syncs_per_request config ≤ synced → verdict synced bidder (inl MaxSyncsReached)
| verdict_already :
    synced < cc_max_syncs_per_request config → is_Some (pc_uids cookie !! bidder) →
    verdict synced bidder (inl AlreadySynced)
| verdict_gdpr :
    synced < cc_max_syncs_per_request config → pc_uids cookie !! bidder = None →
    gdpr_applies = true → consent_string = "" → verdict synced bidder (inl GdprBlocked)
| verdict_disabled :
    synced < cc_max_syncs_per_request config → pc_uids cookie !! bidder = None →
    (gdpr_applies = true → consent_string ≠ "") → available_syncers !! bidder = None →
    verdict synced bidder (inl BidderDisabled)
| verdict_type syncer :
    synced < cc_max_syncs_per_request config → pc_uids cookie !! bidder = None →
    (gdpr_applies = true → consent_string ≠ "") → available_syncers !! bidder = Some syncer →
    get_sync_url Iframe (Z.b2z gdpr_applies) consent_string syncer = None →
    get_sync_url Redirect (Z.b2z gdpr_applies) consent_string syncer = None →
    verdict synced bidder (inl TypeNotSupported)
| verdict_iframe syncer url :
    synced < cc_max_syncs_per_request config → pc_uids cookie !! bidder = None →
    (gdpr_applies = true → consent_string ≠ "") → available_syncers !! bidder = Some syncer →
    get_sync_url Iframe (Z.b2z gdpr_applies) consent_string syncer = Some url →
    verdict synced bidder (inr {| sc_bidder := bidder; sc_sync_type := Iframe; sc_url := url |})
| verdict_redirect syncer url :
    synced < cc_max_syncs_per_request config → pc_uids cookie !! bidder = None →
    (gdpr_applies = true → consent_string ≠ "") → available_syncers !! bidder = Some syncer →
    get_sync_url Iframe (Z.b2z gdpr_applies) consent_string syncer = None →
    get_sync_url Redirect (Z.b2z gdpr_applies) consent_string syncer = Some url →
    verdict synced bidder (inr {| sc_bidder := bidder; sc_sync_type := Redirect; sc_url := url |}).
(** The syncs and rejections of bidders checked one after the other. *)
Inductive verdicts : list string → list SyncerChoice → list RejectedSyncer → Prop :=
| verdicts_nil : verdicts [] [] []
| verdicts_sync bidders syncs rejected bidder choice :
    verdicts bidders syncs rejected → verdict (zlen syncs) bidder (inr choice) →
    verdicts (bidders ++ [bidder]) (syncs ++ [choice]) rejected
| verdicts_reject bidders syncs rejected bidder reason :
    verdicts bidders syncs rejected → verdict (zlen syncs) bidder (inl reason) →
    verdicts (bidders ++ [bidder]) syncs
      (rejected ++ [{| rs_bidder := bidder; rs_reason := reason |}]).
End ChooseSpec.

(** An ejector chooses one of the uids it is given, if there is one. *)
Class EjectorContract (E : Type) `{!Ejector E} : Prop :=
  eject_contract uids e : match (eject uids e).1 with
                          | Ok k => is_Some (uids !! k)
                          | Err _ => uids = ∅
                          | Panic => False
                          end.

(** A key some bidder of the groups syncs under. *)
Definition has_priority {E} (e : PriorityBidderEjector E) (k : string) : Prop :=
  ∃ group b, group ∈ pbe_priority_groups e ∧ b ∈ group ∧ pbe_syncer_keys_by_bidder e !! b = Some k.
(** The two ways a priority ejector may choose. *)
Definition ejected_well {E} `{!Ejector E} (uids : gmap string UidEntry) (e : PriorityBidderEjector E)
    (k : string) (e' : PriorityBidderEjector E) : Prop :=
  (is_Some (uids !! k) ∧ ¬ has_priority e k ∧ pbe_priority_groups e' = pbe_priority_groups e) ∨
  ((∀ k', is_Some (uids !! k') → has_priority e k') ∧
   ∃ others group, pbe_priority_groups e = others ++ [group] ∧
     ((group = [k] ∧ pbe_priority_groups e' = others) ∨
      (zlen group ≠ 1 ∧ is_Some (uids !! k) ∧
       (∃ b, b ∈ group ∧ pbe_syncer_keys_by_bidder e !! b = Some k) ∧
       pbe_priority_groups e' = others ++ [List.filter (λ b, negb (bool_decide (b = k))) group]))).

(** The two reasons to refuse: the uid being added is the only one besides the
    priorities and has none itself; or every uid has priority and the groups, or the
    uids of the lowest one's bidders, are none. *)
Definition only_new_besides {E} (uids : gmap string UidEntry) (e : PriorityBidderEjector E) : Prop :=
  pbe_is_syncer_priority e = false ∧ pbe_priority_groups e ≠ [] ∧
  ∃ k, is_Some (uids !! k) ∧ ¬ has_priority e k ∧
       ∀ k', is_Some (uids !! k') → ¬ has_priority e k' → k' = k.
Definition nothing_to_eject {E} (uids : gmap string UidEntry) (e : PriorityBidderEjector E) : Prop :=
  (∀ k, is_Some (uids !! k) → has_priority e k) ∧
  (pbe_priority_groups e = [] ∨
   ∃ others group, pbe_priority_groups e = others ++ [group] ∧ zlen group ≠ 1 ∧
     ∀ b k, b ∈ group → pbe_syncer_keys_by_bidder e !! b = Some k → uids !! k = None).

(** The config a syncer of the bidder is grouped by. *)
Definition bidder_cfg (infos : gmap string BidderInfo) (bidder : string)
    : option BidderSyncerConfig :=
  info ← infos !! bidder;
  if should_create_syncer info then keyed_config bidder <$> bi_user_sync info else None.
Definition endpoints_config (infos : gmap string BidderInfo) (key : string)
    (cfg : BidderSyncerConfig) : Prop :=
  ∃ bidder, bidder_cfg infos bidder = Some cfg ∧ bsc_key cfg = key ∧
            (is_Some (bsc_iframe cfg) ∨ is_Some (bsc_redirect cfg)).
(** The bidders that share the key define the endpoints once. *)
Definition key_ok (infos : gmap string BidderInfo) (key : string) : Prop :=
  key ≠ "" ∧ ∃ cfg, endpoints_config infos key cfg ∧
                    ∀ cfg', endpoints_config infos key cfg' → cfg' = cfg.

(** The syncer the configurations give a bidder: made from the endpoints of its key. *)
Definition syncer_of (replace_all : string → string → string → string)
    (infos : gmap string BidderInfo) (host : UserSyncConfig) (b : string) (s : Syncer) : Prop :=
  ∃ cfg pcfg, bidder_cfg infos b = Some cfg ∧ endpoints_config infos (bsc_key cfg) pcfg ∧
              new_syncer_from_config replace_all host pcfg b = Ok s.

Definition sample_uids : gmap string UidEntry := {[
  "a" := {| ue_uid := "1"; ue_expires := Some "2024" |};
  "b" := {| ue_uid := "2"; ue_expires := Some "2023" |} ]}.
Definition sample_ejector : PriorityBidderEjector OldestEjector := {|
  pbe_priority_groups := [["a"; "b"]];
  pbe_syncer_keys_by_bidder := {[ "a" := "a"; "b" := "b" ]};
  pbe_is_syncer_priority := true; pbe_tie_ejector := OldestEjector_new |}.
Definition sample_endpoint : SyncerEndpointConfig := {|
  sec_url := "https://sync"; sec_redirect_url := ""; sec_external_url := ""; sec_user_macro := "" |}.
Definition sample_syncer_cfg (iframe : option SyncerEndpointConfig) : BidderSyncerConfig := {|
  bsc_key := "adnxs"; bsc_supports := []; bsc_iframe := iframe; bsc_redirect := None;
  bsc_external_url := ""; bsc_format_override := ""; bsc_enabled := None |}.
Definition sample_infos : gmap string BidderInfo := {[
  "appnexus" := {| bi_disabled := false; bi_user_sync := Some (sample_syncer_cfg (Some sample_endpoint)) |};
  "groupm" := {| bi_disabled := false; bi_user_sync := Some (sample_syncer_cfg None) |} ]}.

(** ** Proofs *)

Section ChooseProofs.
Context (cookie : PrebidCookie) (available_syncers : gmap string Syncer).
Context (gdpr_applies : bool) (consent_string : string) (config : ChooserConfig).
Local Abbreviation decides :=
  (verdict cookie available_syncers gdpr_applies consent_string config).
Local Abbreviation decided :=
  (verdicts cookie available_syncers gdpr_applies consent_string config).
Local Abbreviation step :=
  (choose_step cookie available_syncers gdpr_applies consent_string config).

Lemma opted_out_fold requested r :
  fold_left (λ r bidder, push_rejected bidder OptedOut r) requested r =
  {| cr_syncs := cr_syncs r; cr_rejected := cr_rejected r ++
       ((λ b, {| rs_bidder := b; rs_reason := OptedOut |}) <$> requested) |}.
Proof.
  revert r. induction requested as [|b l IH]; intros [ss rs]; simpl; [by rewrite app_nil_r|].
  rewrite IH. simpl. by rewrite <-app_assoc.
Qed.

Lemma decides_iff n b v : decides n b v ↔
  v = if cc_max_syncs_per_request config <=? n then inl MaxSyncsReached
      else bidder_choice cookie available_syncers gdpr_applies consent_string b.
Proof.
  unfold bidder_choice, get_uid, str_is_empty. change (if gdpr_applies then 1 else 0) with (Z.b2z gdpr_applies).
  split.
  - intros Hv. destruct Hv as [Hl|Hl [e He]|Hl Hu Hg Hc|Hl Hu Hg Hs|sy Hl Hu Hg Hs Hi Hr|sy url Hl Hu Hg Hs Hi|
        sy url Hl Hu Hg Hs Hi Hr];
      rewrite ?(proj2 (Z.leb_le _ _) Hl), ?(proj2 (Z.leb_gt _ _) Hl), ?He, ?Hu; try done;
      [by rewrite Hg, bool_decide_true|..].
    all: assert (Hgc : gdpr_applies && bool_decide (consent_string = "") = false)
      by (destruct gdpr_applies; [rewrite bool_decide_false by auto|]; done); rewrite Hgc, Hs, ?Hi, ?Hr; done.
  - intros ->. destruct (Z.leb_spec (cc_max_syncs_per_request config) n); [by constructor|].
    destruct (pc_uids cookie !! b) eqn:Hu; [constructor; [done|by rewrite Hu]|].
    destruct (gdpr_applies && bool_decide (consent_string = "")) eqn:Hg.
    { apply andb_true_iff in Hg as [? ?%bool_decide_eq_true]. by constructor. }
    assert (gdpr_applies = true → consent_string ≠ "").
    { intros -> Hc. by rewrite bool_decide_true in Hg. }
    destruct (available_syncers !! b) as [sy|] eqn:Hs; [|by constructor].
    destruct (get_sync_url Iframe _ _ sy) eqn:Hi; [by econstructor|].
    destruct (get_sync_url Redirect _ _ sy) eqn:Hr; by econstructor.
Qed.
Lemma decided_iff bidders syncs rejected : decided bidders syncs rejected ↔
  fold_left step bidders {| cr_syncs := []; cr_rejected := [] |} =
    {| cr_syncs := syncs; cr_rejected := rejected |}.
Proof.
  split.
  - induction 1 as [|bs ss rs b c Hbs IH Hv|bs ss rs b reason Hbs IH Hv]; [done|..];
      rewrite fold_left_app, IH; cbn [fold_left]; unfold choose_step; cbn [cr_syncs];
      apply decides_iff in Hv; destruct (_ <=? _); [done|by rewrite <-Hv|by injection Hv as ->|by rewrite <-Hv].
  - revert syncs rejected. induction bidders as [|b bs IH] using rev_ind; intros syncs rejected.
    { intros [= <- <-]. constructor. }
    rewrite fold_left_app. destruct (fold_left step bs _) as [ss rs] eqn:Hf.
    specialize (IH ss rs eq_refl). cbn [fold_left]. unfold choose_step. cbn [cr_syncs].
    pose proof (proj2 (decides_iff (zlen ss) b _) eq_refl) as Hv. destruct (_ <=? _).
    { intros [= <- <-]. by constructor. }
    destruct (bidder_choice _ _ _ _ b); intros [= <- <-]; by constructor.
Qed.
Lemma decided_counts bidders syncs rejected : decided bidders syncs rejected →
  length bidders = (length syncs + length rejected)%nat ∧
  zlen syncs ≤ Z.max 0 (cc_max_syncs_per_request config).
Proof.
  induction 1 as [|bs ss rs b c Hbs [IH IHl] Hv|bs ss rs b reason Hbs [IH IHl] Hv].
  - split; [done|]. unfold zlen. simpl. lia.
  - rewrite !length_app. simpl. split; [lia|]. unfold zlen in *. rewrite length_app. simpl.
    inversion Hv; lia.
  - rewrite !length_app. simpl. split; [lia|done].
Qed.

(** C8: Whom a chooser syncs, and why not the others.  After an opt-out every
    requested bidder is rejected for it.  Otherwise the bidders checked are the
    requested ones or, if there are none and syncing is cooperative, the available
    ones; the syncs and rejections are exactly those of the rules [verdict] applied
    to them one after the other.  These reject a bidder for the first of these that
    holds: the limit is reached, the cookie has a uid for it, GDPR applies without a
    consent string, it has no syncer, its syncer has no URL; else they sync it, with
    the iframe's URL before the redirect's.  Every bidder checked is synced or
    rejected, and no more are synced than the limit. *)
Theorem choose_bidders_spec available_keys requested :
  let out := choose_bidders cookie available_syncers gdpr_applies consent_string config
               available_keys requested in
  let bidders := if bool_decide (requested = []) && cc_cooperative_sync_enabled config
                 then available_keys else requested in
  (pc_opt_out cookie = true → cr_syncs out = [] ∧
     cr_rejected out = (λ b, {| rs_bidder := b; rs_reason := OptedOut |}) <$> requested) ∧
  (pc_opt_out cookie = false →
    (∀ syncs rejected, verdicts cookie available_syncers gdpr_applies consent_string config
       bidders syncs rejected ↔ syncs = cr_syncs out ∧ rejected = cr_rejected out) ∧
    length bidders = (length (cr_syncs out) + length (cr_rejected out))%nat ∧
    zlen (cr_syncs out) ≤ Z.max 0 (cc_max_syncs_per_request config)).
Proof.
  intros out bidders. subst out. unfold choose_bidders. split; intros ->.
  { by rewrite opted_out_fold. }
  replace (bidders_to_check config available_keys requested) with bidders.
  2: { subst bidders. unfold bidders_to_check. destruct requested; [|done]. cbn.
       by destruct (cc_cooperative_sync_enabled config). }
  destruct (fold_left step bidders _) as [ss rs] eqn:Hf. cbn [cr_syncs cr_rejected].
  split; [|by apply decided_counts, decided_iff].
  intros syncs rejected. rewrite decided_iff, Hf. split; [by intros [= <- <-]|by intros [-> ->]].
Qed.
End ChooseProofs.

(** *** Ejectors *)

Lemma str_ltb_trans a b c : str_ltb a b = true → str_ltb b c = true → str_ltb a c = true.
Proof.
  unfold str_ltb. destruct (String.compare a b) eqn:Hab; [done| |done].
  destruct (String.compare b c) eqn:Hbc; [done| |done]. by rewrite (compare_lt_trans a b c).
Qed.
Lemma str_ltb_irrefl a : str_ltb a a = false.
Proof. unfold str_ltb. by rewrite compare_refl. Qed.
Lemma is_older_trans x y z :
  is_older (Some x) y = true → is_older (Some y) z = true → is_older (Some x) z = true.
Proof. destruct x, y, z; simpl; try done. eauto using str_ltb_trans. Qed.
Lemma is_older_irrefl x : is_older (Some x) x = false.
Proof. destruct x; [apply str_ltb_irrefl|done]. Qed.

Lemma oldest_fold_from l k x (m : list (string * UidEntry)) :
  (∃ e, (k, e) ∈ m ∧ ue_expires e = x) →
  (∀ k' e', (k', e') ∈ m → is_older (Some x) (ue_expires e') = false) →
  ∃ k1 x1, fold_left oldest_step l (Some k, Some x) = (Some k1, Some x1) ∧
    (∃ e, (k1, e) ∈ m ++ l ∧ ue_expires e = x1) ∧
    ∀ k' e', (k', e') ∈ m ++ l → is_older (Some x1) (ue_expires e') = false.
Proof.
  revert k x m. induction l as [|[k2 e2] l IH]; intros k x m Hk Hmin; simpl.
  { exists k, x. by rewrite app_nil_r. }
  unfold oldest_step at 2. cbn [fst snd]. setoid_rewrite (cons_middle (k2, e2) m l).
  setoid_rewrite (assoc_L (++)).
  destruct (is_older (Some x) (ue_expires e2)) eqn:Ho; apply IH.
  - exists e2. split; [|done]. rewrite elem_of_app, list_elem_of_singleton. by right.
  - intros k' e'. rewrite elem_of_app, list_elem_of_singleton. intros [Hin|[= -> ->]];
      [|apply is_older_irrefl].
    destruct (is_older (Some (ue_expires e2)) (ue_expires e')) eqn:Ho'; [|done].
    apply Hmin in Hin. by rewrite (is_older_trans _ _ _ Ho Ho') in Hin.
  - destruct Hk as (e&?&?). exists e. rewrite elem_of_app. auto.
  - intros k' e'. rewrite elem_of_app, list_elem_of_singleton. intros [Hin|[= -> ->]]; [|done].
    by apply Hmin in Hin.
Qed.

(** The oldest ejector takes an entry than which none is older. *)
Lemma oldest_choose_spec `{MI : MapIter} (uids : gmap string UidEntry) :
  uids ≠ ∅ → ∃ k entry, oldest_choose uids = Ok k ∧ uids !! k = Some entry ∧
    ∀ k' entry', uids !! k' = Some entry' →
      is_older (Some (ue_expires entry)) (ue_expires entry') = false.
Proof.
  intros Hne. unfold oldest_choose. rewrite bool_decide_false by done.
  destruct (map_iter uids) as [|[k e] l] eqn:Hl.
  { destruct Hne. apply map_eq. intros k. rewrite lookup_empty.
    destruct (uids !! k) as [v|] eqn:Hk; [|done]. apply map_iter_elem in Hk.
    rewrite Hl in Hk. by apply elem_of_nil in Hk. }
  simpl. change (oldest_step (None, None) (k, e)) with (Some k, Some (ue_expires e)).
  destruct (oldest_fold_from l k (ue_expires e) [(k, e)]) as (k1&x1&->&(e1&He1&<-)&Hmin).
  - exists e. by rewrite list_elem_of_singleton.
  - intros k' e'. rewrite list_elem_of_singleton. intros [= -> ->]. apply is_older_irrefl.
  - exists k1, e1. simpl. split; [done|]. rewrite <-map_iter_elem, Hl. split; [done|].
    intros k' e' Hk'. apply map_iter_elem in Hk'. rewrite Hl in Hk'. by apply (Hmin k' e').
Qed.
#[export] Instance oldest_contract `{MI : MapIter} : EjectorContract OldestEjector.
Proof.
  intros uids e. unfold eject, oldest_ejector. simpl. destruct (decide (uids = ∅)) as [->|Hne].
  - unfold oldest_choose. by rewrite bool_decide_true by done.
  - destruct (oldest_choose_spec uids Hne) as (k&x&->&Hk&_). by rewrite Hk.
Qed.

Section PriorityProofs.
Context {E : Type} `{!Ejector E, !EjectorContract E}.
Implicit Types e : PriorityBidderEjector E.

Lemma non_priority_lookup uids e k entry :
  non_priority_uids uids e !! k = Some entry ↔
  uids !! k = Some entry ∧ k ∉ priority_keys e.
Proof.
  unfold non_priority_uids. destruct (pbe_priority_groups e) as [|g gs] eqn:Hg.
  - unfold priority_keys. rewrite Hg. simpl. set_solver.
  - rewrite map_lookup_filter_Some. done.
Qed.
Lemma priority_keys_spec e k : k ∈ priority_keys e ↔ has_priority e k.
Proof.
  unfold priority_keys, has_priority. rewrite elem_of_list_to_set. split.
  - intros (group&Hk&Hg)%list_elem_of_bind. apply list_elem_of_bind in Hk as (b&Hk&Hb).
    exists group, b. destruct (pbe_syncer_keys_by_bidder e !! b); [|by apply elem_of_nil in Hk].
    by apply list_elem_of_singleton in Hk as ->.
  - intros (group&b&Hg&Hb&Hk). apply list_elem_of_bind. exists group. split; [|done].
    apply list_elem_of_bind. exists b. rewrite Hk. split; [by left|done].
Qed.
Lemma non_priority_empty uids e :
  non_priority_uids uids e = ∅ ↔ ∀ k, is_Some (uids !! k) → has_priority e k.
Proof.
  split.
  - intros Hn k [x Hx]. apply priority_keys_spec. destruct (decide (k ∈ priority_keys e)) as [|Hk]; [done|].
    assert (Hl : non_priority_uids uids e !! k = Some x) by by apply non_priority_lookup.
    by rewrite Hn in Hl.
  - intros Hall. apply map_eq. intros k. rewrite lookup_empty. apply eq_None_not_Some. intros [x Hx].
    apply non_priority_lookup in Hx as [Hx Hk]. apply Hk, priority_keys_spec, Hall. eauto.
Qed.
Lemma map_size_one {A} (m : gmap string A) : size m = 1%nat → ∃ k x, m = {[ k := x ]}.
Proof.
  intros Hm. destruct (map_choose m) as (k&x&Hk); [by intros ->|]. exists k, x.
  rewrite <-(insert_delete_id m k x) in Hm |- * by done.
  rewrite map_size_insert_None in Hm by apply lookup_delete_eq.
  assert (H0 : delete k m = ∅) by (apply map_size_empty_iff; lia). by rewrite H0.
Qed.
Lemma non_priority_one uids e : size (non_priority_uids uids e) = 1%nat ↔
  ∃ k, is_Some (uids !! k) ∧ ¬ has_priority e k ∧
       ∀ k', is_Some (uids !! k') → ¬ has_priority e k' → k' = k.
Proof.
  setoid_rewrite <-priority_keys_spec. split.
  - intros (k&x&Hk)%map_size_one. exists k.
    assert (Hl : non_priority_uids uids e !! k = Some x) by by rewrite Hk, lookup_singleton_eq.
    apply non_priority_lookup in Hl as [Hu Hn]. split_and!; [by eexists|done|].
    intros k' [x' Hx'] Hk'. assert (Hl : non_priority_uids uids e !! k' = Some x') by by apply non_priority_lookup.
    rewrite Hk in Hl. by apply lookup_singleton_Some in Hl as [-> _].
  - intros (k&[x Hx]&Hk&Hall). replace (non_priority_uids uids e) with ({[ k := x ]} : gmap string UidEntry).
    { apply map_size_singleton. }
    apply map_eq. intros k'. destruct (decide (k = k')) as [<-|Hne].
    + rewrite lookup_singleton_eq. symmetry. by apply non_priority_lookup.
    + rewrite lookup_singleton_ne by done. symmetry. apply eq_None_not_Some. intros [x' Hx'].
      apply non_priority_lookup in Hx' as [Hx' Hk']. destruct Hne. symmetry. apply Hall; [by eexists|done].
Qed.
Lemma lowest_uids_sub uids group e k entry :
  lowest_uids uids group e !! k = Some entry →
  uids !! k = Some entry ∧ ∃ b, b ∈ group ∧ pbe_syncer_keys_by_bidder e !! b = Some k.
Proof.
  unfold lowest_uids. set (f := λ (m : gmap string UidEntry) bidder, _).
  assert (H : ∀ l m, (∀ k x, m !! k = Some x → uids !! k = Some x ∧
      ∃ b, b ∈ group ∧ pbe_syncer_keys_by_bidder e !! b = Some k) →
    (∀ b, b ∈ l → b ∈ group) → fold_left f l m !! k = Some entry → uids !! k = Some entry ∧
      ∃ b, b ∈ group ∧ pbe_syncer_keys_by_bidder e !! b = Some k).
  { induction l as [|b l IH]; intros m Hm Hl; simpl; [apply Hm|].
    apply IH; [|intros; apply Hl; by right]. intros k' x. unfold f.
    destruct (pbe_syncer_keys_by_bidder e !! b) as [key|] eqn:Hb; simpl; [|apply Hm].
    destruct (uids !! key) as [ent|] eqn:Hk; simpl; [|apply Hm].
    intros [[<- <-]|[_ Hx]]%lookup_insert_Some; [|by apply Hm].
    split; [done|]. exists b. split; [apply Hl; by left|done]. }
  apply (H group ∅); [by intros ? ? ?%lookup_empty_Some|done].
Qed.

Lemma lowest_uids_in uids group e b k :
  b ∈ group → pbe_syncer_keys_by_bidder e !! b = Some k → is_Some (uids !! k) →
  is_Some (lowest_uids uids group e !! k).
Proof.
  intros Hb Hk [x Hx]. unfold lowest_uids. set (f := λ (m : gmap string UidEntry) bidder, _).
  assert (Hf : ∀ m c, is_Some (m !! k) → is_Some (f m c !! k)).
  { intros m c Hm. unfold f. destruct (_ ≫= _) as [[k' x']|]; [|done].
    destruct (decide (k' = k)) as [->|]; [rewrite lookup_insert_eq|rewrite lookup_insert_ne];
      by eauto. }
  assert (Hkeep : ∀ l m, is_Some (m !! k) → is_Some (fold_left f l m !! k)).
  { induction l as [|c l IH]; intros m Hm; [done|]. apply IH, Hf, Hm. }
  generalize (∅ : gmap string UidEntry). induction Hb as [c group|c c' group Hb IH]; intros m; simpl.
  - apply Hkeep. unfold f. rewrite Hk. simpl. rewrite Hx. simpl. rewrite lookup_insert_eq. eauto.
  - by apply IH.
Qed.

Lemma eject_tie_ok uids e k e' : eject_tie uids e = (Ok k, e') →
  is_Some (uids !! k) ∧ pbe_priority_groups e' = pbe_priority_groups e.
Proof.
  unfold eject_tie. pose proof (eject_contract uids (pbe_tie_ejector e)) as Hc.
  destruct (eject uids (pbe_tie_ejector e)) as [r tie]. by intros [= -> <-].
Qed.
Lemma eject_tie_err uids e s e' : eject_tie uids e = (Err s, e') → uids = ∅.
Proof.
  unfold eject_tie. pose proof (eject_contract uids (pbe_tie_ejector e)) as Hc.
  destruct (eject uids (pbe_tie_ejector e)) as [r tie]. by intros [= -> <-].
Qed.
Lemma eject_tie_panic uids e e' : eject_tie uids e ≠ (Panic, e').
Proof.
  unfold eject_tie. pose proof (eject_contract uids (pbe_tie_ejector e)) as Hc.
  destruct (eject uids (pbe_tie_ejector e)) as [[] tie]; done.
Qed.

Lemma priority_eject_ok uids e k e' :
  eject uids e = (Ok k, e') →
  ejected_well uids e k e'.
Proof.
  unfold eject, priority_ejector, priority_choose, ejected_well.
  destruct (bool_decide _ && _ && _); [done|].
  destruct (decide (non_priority_uids uids e = ∅)) as [Hnp|Hnp].
  - rewrite (bool_decide_true _ Hnp). simpl. intros H. right. split.
    { by apply non_priority_empty. }
    destruct (last (pbe_priority_groups e)) as [group|] eqn:Hlast; [|done].
    apply last_Some in Hlast as [others Ho]. exists others, group. split; [done|].
    assert (Hrl : ∀ g, removelast (others ++ [g]) = others).
    { intros g. rewrite removelast_app by done. by rewrite app_nil_r. }
    destruct group as [|b [|b' group]].
    + destruct (eject_tie _ e) as [[k1|?|] e1] eqn:Ht; try done.
      apply eject_tie_ok in Ht as [[x Hx] _]. apply lowest_uids_sub in Hx as [_ (b&Hb&_)].
      by apply elem_of_nil in Hb.
    + injection H as <- <-. left. split; [done|].
      unfold remove_from_lowest_group. rewrite Ho, last_snoc. simpl. apply Hrl.
    + right. destruct (eject_tie _ e) as [[k1|?|] e1] eqn:Ht; try done.
      apply eject_tie_ok in Ht as [[x Hx] Hg]. apply lowest_uids_sub in Hx as [Hu Hb].
      injection H as <- <-. split; [rewrite !zlen_cons; pose proof (zlen_nonneg group); lia|].
      split; [by rewrite Hu|]. split; [done|].
      unfold remove_from_lowest_group. rewrite Hg, Ho, last_snoc.
      replace (_ <=? 1) with false; [|symmetry; apply Z.leb_gt; rewrite !zlen_cons;
        pose proof (zlen_nonneg group); lia].
      unfold set_groups. cbn [pbe_priority_groups]. by rewrite Hrl.
  - rewrite (bool_decide_false _ Hnp). simpl. intros H. left.
    apply eject_tie_ok in H as [[x Hx] Hg]. apply non_priority_lookup in Hx as [Hu Hk].
    rewrite priority_keys_spec in Hk. by rewrite Hu.
Qed.

Lemma priority_eject_panic uids e e' : eject uids e ≠ (Panic, e').
Proof.
  unfold eject, priority_ejector, priority_choose. destruct (bool_decide _ && _ && _); [done|].
  destruct (negb _); [apply eject_tie_panic|].
  destruct (last (pbe_priority_groups e)) as [[|b [|b' group]]|]; try done;
    destruct (eject_tie _ e) as [[k1|?|] e1] eqn:Ht; try done; by apply eject_tie_panic in Ht.
Qed.
Lemma lowest_uids_empty uids group e : lowest_uids uids group e = ∅ ↔
  ∀ b k, b ∈ group → pbe_syncer_keys_by_bidder e !! b = Some k → uids !! k = None.
Proof.
  split.
  - intros Hl b k Hb Hk. apply eq_None_not_Some. intros Hu.
    pose proof (lowest_uids_in uids group e b k Hb Hk Hu) as [x Hx]. by rewrite Hl in Hx.
  - intros H. apply map_eq. intros k. rewrite lookup_empty. apply eq_None_not_Some. intros [x Hx].
    apply lowest_uids_sub in Hx as [Hu (b&Hb&Hk)]. by rewrite (H b k) in Hu.
Qed.
Lemma eject_tie_none e : ∃ s e', eject_tie ∅ e = (Err s, e').
Proof.
  destruct (eject_tie ∅ e) as [[k|s|] e'] eqn:Ht; [|by eauto|by apply eject_tie_panic in Ht].
  by apply eject_tie_ok in Ht as [[] _].
Qed.
Lemma priority_eject_new uids e : only_new_besides uids e → eject uids e = (Err only_priority_left, e).
Proof.
  intros (Hp&Hg&H1%non_priority_one). unfold eject, priority_ejector, priority_choose.
  by rewrite bool_decide_true, Hp, (bool_decide_false (_ = [])).
Qed.
Lemma priority_eject_err uids e s e' :
  eject uids e = (Err s, e') →
  (only_new_besides uids e ∧ s = only_priority_left) ∨ nothing_to_eject uids e.
Proof.
  unfold eject, priority_ejector, priority_choose, only_new_besides, nothing_to_eject.
  rewrite <-non_priority_one, <-non_priority_empty.
  destruct (bool_decide (size _ = 1%nat)) eqn:H1, (pbe_is_syncer_priority e) eqn:Hp,
    (bool_decide (pbe_priority_groups e = [])) eqn:Hg; cbn [negb andb]; bools;
    try (intros [= <- _]; by left).
  all: destruct (decide (non_priority_uids uids e = ∅)) as [Hnp|Hnp];
    [rewrite (bool_decide_true _ Hnp)|rewrite (bool_decide_false _ Hnp)]; cbn [negb];
    [|intros H; by apply eject_tie_err in H].
  all: intros H; right; split; [done|];
    destruct (last (pbe_priority_groups e)) as [group|] eqn:Hlast; [|by apply last_None in Hlast; left];
    apply last_Some in Hlast as [others Ho]; right; exists others, group; split; [done|];
    rewrite <-lowest_uids_empty.
  all: destruct group as [|b [|b' group]]; [split; [done|]| |
    split; [rewrite !zlen_cons; pose proof (zlen_nonneg group); lia|]]; [|done|];
    destruct (eject_tie _ e) as [[k1|?|] e1] eqn:Ht; try done; by apply eject_tie_err in Ht.
Qed.
Lemma priority_eject_nothing uids e : nothing_to_eject uids e → ∃ s e', eject uids e = (Err s, e').
Proof.
  intros [Hnp%non_priority_empty Hl]. unfold eject, priority_ejector, priority_choose. rewrite Hnp.
  rewrite (bool_decide_false (size _ = _)) by by rewrite map_size_empty. cbn [andb].
  rewrite bool_decide_true by done. cbn [negb]. destruct Hl as [->|(others&group&->&Hz&Hl)]; [by eauto|].
  rewrite last_snoc. apply lowest_uids_empty in Hl.
  destruct (eject_tie_none e) as (s&e'&He). destruct group as [|b [|b' group]]; [|done|]; rewrite Hl, He; eauto.
Qed.

(** C7: A priority ejector ejects a uid of the cookie that no bidder of its groups
    syncs under while there is one, as its tie ejector chooses, and then keeps its
    groups.  Otherwise it names the one bidder of the lowest group, which is
    dropped, or the key under which a bidder of the larger lowest group has a uid;
    then exactly the bidders whose name is that key leave the group, so a bidder
    that syncs under another key stays.  It refuses exactly when the uid being added
    has no priority, there are groups, and it is the only uid without priority; or
    when every uid has priority and there is no group, or the lowest one is not a
    single bidder and none of its bidders has a uid; and it never panics.  When every
    priority bidder has a uid under its own name and no group is empty, it chooses a
    uid of the cookie whenever there is one it may eject. *)
Theorem priority_ejector_spec uids e :
  (∀ k e', eject uids e = (Ok k, e') → ejected_well uids e k e') ∧
  ((∃ s e', eject uids e = (Err s, e')) ↔ only_new_besides uids e ∨ nothing_to_eject uids e) ∧
  (only_new_besides uids e → eject uids e = (Err only_priority_left, e)) ∧
  (∀ e', eject uids e ≠ (Panic, e')) ∧
  ((∀ group b, group ∈ pbe_priority_groups e → b ∈ group →
      pbe_syncer_keys_by_bidder e !! b = Some b ∧ is_Some (uids !! b)) →
   [] ∉ pbe_priority_groups e → ∀ out e', eject uids e = (out, e') →
   match out with
   | Ok k => is_Some (uids !! k)
   | Err s => uids = ∅ ∨ only_new_besides uids e
   | Panic => False
   end).
Proof.
  split; [apply priority_eject_ok|]. split.
  { split; [intros (s&e'&[[H _]|H]%priority_eject_err); auto|].
    intros [H|H]; [rewrite priority_eject_new by done; eauto|by apply priority_eject_nothing]. }
  split; [apply priority_eject_new|].
  split; [apply priority_eject_panic|]. intros Hkeys Hempty [k|s|] e' Hout.
  - apply priority_eject_ok in Hout as [(?&_)|(_&others&group&Hg&[[-> _]|(_&?&_)])]; [done| |done].
    apply (Hkeys [k] k); [|by left]. rewrite Hg, elem_of_app. right. by left.
  - apply priority_eject_err in Hout as [[? _]|[Hall [Hg|(others&group&Hg&_&Hl)]]]; [by right| |].
    + left. apply map_eq. intros k. rewrite lookup_empty. apply eq_None_not_Some. intros Hk.
      destruct (Hall k Hk) as (group&b&Hin&_). rewrite Hg in Hin. by apply elem_of_nil in Hin.
    + exfalso. assert (Hin : group ∈ pbe_priority_groups e).
      { rewrite Hg, elem_of_app. right. by left. }
      destruct group as [|b group]; [done|].
      destruct (Hkeys _ b Hin) as [Hk [x Hx]]; [by left|]. by rewrite (Hl b b) in Hx by (done || by left).
  - by apply priority_eject_panic in Hout.
Qed.
End PriorityProofs.

(** *** Construction *)

(** Inserting what [f] gives for each entry of a list with distinct keys. *)
Lemma fold_insert_lookup {A B} (f : string → A → option B) (l : list (string * A))
    (m : gmap string B) k w :
  NoDup l.*1 → (∀ v, (k, v) ∈ l → m !! k = None) →
  fold_left (λ m '(k, v), match f k v with Some w => <[ k := w ]> m | None => m end) l m !! k =
    Some w ↔ (∃ v, (k, v) ∈ l ∧ f k v = Some w) ∨ m !! k = Some w.
Proof.
  revert m. induction l as [|[k1 v1] l IH]; intros m Hnd Hm; simpl.
  { split; [by right|]. intros [(?&?%elem_of_nil&_)|?]; done. }
  apply NoDup_cons in Hnd as [Hk1 Hnd].
  assert (Hnot : ∀ v, (k1, v) ∉ l) by (intros v Hv; apply Hk1; by apply (list_elem_of_fmap_2 fst _ (k1, v))).
  rewrite IH; [|done|].
  - setoid_rewrite elem_of_cons. split.
    + intros [(v&?&?)|Hl]; [left; eauto|].
      destruct (f k1 v1) as [w1|] eqn:Hf; [|by right].
      apply lookup_insert_Some in Hl as [[<- <-]|[_ ?]]; [left; eauto|by right].
    + intros [(v&[[= -> ->]|Hv]&Hf)|Hl].
      * right. by rewrite Hf, lookup_insert_eq.
      * left. eauto.
      * right. destruct (f k1 v1) as [w1|] eqn:Hf; [|done].
        destruct (decide (k1 = k)) as [->|]; [|by rewrite lookup_insert_ne].
        rewrite (Hm v1) in Hl; [done|by left].
  - intros v Hv. assert (Hne : k1 ≠ k) by (intros ->; by eapply Hnot).
    assert (Hn : m !! k = None) by (apply (Hm v); by right).
    destruct (f k1 v1); [by rewrite lookup_insert_ne|done].
Qed.

Section BuildProofs.
Context (replace_all : string → string → string → string) `{MI : MapIter}.

Lemma cfg_by_bidder_lookup infos b cfg :
  cfg_by_bidder infos !! b = Some cfg ↔
  ∃ info, infos !! b = Some info ∧ should_create_syncer info = true ∧ bi_user_sync info = Some cfg.
Proof.
  unfold cfg_by_bidder.
  assert (Heq : ∀ l m, fold_left (λ m '(bidder, info), if should_create_syncer info then
      match bi_user_sync info with Some cfg => <[ bidder := cfg ]> m | None => m end else m) l m =
    fold_left (λ m '(k, v), match (if should_create_syncer v then bi_user_sync v else None)
      with Some w => <[ k := w ]> m | None => m end) l (m : gmap string BidderSyncerConfig)).
  { induction l as [|[k v] l IH]; intros m; simpl; [done|]. rewrite IH.
    by destruct (should_create_syncer v). }
  rewrite Heq, (fold_insert_lookup (λ (_ : string) info, if should_create_syncer info
    then bi_user_sync info else None)); [|apply map_iter_nodup|by intros; apply lookup_empty].
  split.
  - intros [(info&Hi%map_iter_elem&Hc)|Hn]; [|by rewrite lookup_empty in Hn].
    exists info. by destruct (should_create_syncer info).
  - intros (info&Hi&Hc&Hu). left. exists info. rewrite Hc. by rewrite map_iter_elem.
Qed.
Lemma bidder_cfg_Some infos b cfg :
  bidder_cfg infos b = Some cfg ↔
  ∃ raw, cfg_by_bidder infos !! b = Some raw ∧ cfg = keyed_config b raw.
Proof.
  unfold bidder_cfg. setoid_rewrite cfg_by_bidder_lookup.
  destruct (infos !! b) as [info|]; simpl; [|split; [done|by intros (?&(?&?&_)&_)]].
  destruct (should_create_syncer info) eqn:Hc.
  - destruct (bi_user_sync info) as [u|] eqn:Hu; simpl.
    + split; [intros [= <-]; eauto 6|]. intros (raw&(info'&[= <-]&_&Hu')&->). congruence.
    + split; [done|]. intros (raw&(info'&[= <-]&_&Hu')&_). congruence.
  - split; [done|]. intros (raw&(info'&[= <-]&?&_)&_). congruence.
Qed.

Notation named kv := {| nsc_name := kv.1; nsc_cfg := keyed_config kv.1 kv.2 |}.
Lemma push_config_group l m key :
  default [] (fold_left push_config l m !! key) =
  default [] (m !! key) ++ ((λ kv, named kv) <$>
    List.filter (λ kv, bool_decide (bsc_key (keyed_config kv.1 kv.2) = key)) l).
Proof.
  revert m. induction l as [|kv l IH]; intros m; simpl; [by rewrite app_nil_r|].
  rewrite IH. unfold push_config at 1. case_bool_decide as Hk.
  - rewrite Hk, lookup_insert_eq. simpl. by rewrite <-app_assoc.
  - by rewrite lookup_insert_ne by done.
Qed.
Lemma push_config_nonempty l m key : m !! key ≠ Some [] → fold_left push_config l m !! key ≠ Some [].
Proof.
  revert m. induction l as [|kv l IH]; intros m Hm; simpl; [done|]. apply IH. unfold push_config.
  intros [[_ Hn]|[_ ?]]%lookup_insert_Some; [|done]. by destruct (default [] _).
Qed.

(** The group of a key: the bidders whose config has it. *)
Lemma group_elem infos key group : cfg_by_syncer_key (cfg_by_bidder infos) !! key = Some group →
  group ≠ [] ∧ ∀ n, n ∈ group ↔ bidder_cfg infos (nsc_name n) = Some (nsc_cfg n) ∧
                                bsc_key (nsc_cfg n) = key.
Proof.
  unfold cfg_by_syncer_key. intros Hg. split.
  { intros ->. by apply push_config_nonempty in Hg. }
  pose proof (push_config_group (map_iter (cfg_by_bidder infos)) ∅ key) as H.
  rewrite Hg, lookup_empty in H. simpl in H. intros n. rewrite H, list_elem_of_fmap.
  setoid_rewrite list_elem_of_In. setoid_rewrite filter_In. setoid_rewrite <-list_elem_of_In.
  setoid_rewrite bool_decide_eq_true. rewrite bidder_cfg_Some. split.
  - intros ([b raw]&->&Hin&Hk). simpl in *. apply map_iter_elem in Hin. eauto.
  - intros [(raw&Hraw&Hc) Hk]. exists (nsc_name n, raw). simpl. rewrite map_iter_elem.
    rewrite <-Hc. split; [by destruct n|done].
Qed.
Lemma group_exists infos b cfg : bidder_cfg infos b = Some cfg →
  ∃ group, cfg_by_syncer_key (cfg_by_bidder infos) !! bsc_key cfg = Some group ∧
           {| nsc_name := b; nsc_cfg := cfg |} ∈ group.
Proof.
  intros Hb. pose proof (push_config_group (map_iter (cfg_by_bidder infos)) ∅ (bsc_key cfg)) as H.
  apply bidder_cfg_Some in Hb as (raw&Hraw&Hc). rewrite lookup_empty in H. simpl in H.
  assert (Hin : {| nsc_name := b; nsc_cfg := cfg |} ∈
    default [] (cfg_by_syncer_key (cfg_by_bidder infos) !! bsc_key cfg)).
  { unfold cfg_by_syncer_key. rewrite H. apply list_elem_of_fmap. exists (b, raw). simpl.
    rewrite <-Hc. split; [done|]. apply list_elem_of_In, filter_In. simpl. rewrite <-Hc.
    rewrite bool_decide_true by done. split; [|done]. by apply list_elem_of_In, map_iter_elem. }
  destruct (cfg_by_syncer_key (cfg_by_bidder infos) !! bsc_key cfg) as [group|]; simpl in Hin;
    [eauto|by apply elem_of_nil in Hin].
Qed.

Lemma defines_endpoints_iff n :
  defines_endpoints n = true ↔ is_Some (bsc_iframe (nsc_cfg n)) ∨ is_Some (bsc_redirect (nsc_cfg n)).
Proof. unfold defines_endpoints. by rewrite orb_true_iff, !bool_decide_eq_true. Qed.

(** A syncer can be built from any config with a key and an endpoint. *)
Lemma new_syncer_ok host cfg b :
  (∃ s, new_syncer_from_config replace_all host cfg b = Ok s) ↔
  bsc_key cfg ≠ "" ∧ (is_Some (bsc_iframe cfg) ∨ is_Some (bsc_redirect cfg)).
Proof.
  unfold new_syncer_from_config, str_is_empty, build_endpoint, build_syncer_url.
  case_bool_decide; [split; [by intros []|by intros []]|].
  destruct (bsc_iframe cfg), (bsc_redirect cfg); simpl; split; eauto;
    [by intros []|by intros [_ [[]|[]]]].
Qed.
Lemma new_syncer_cases host cfg b :
  (∃ s, new_syncer_from_config replace_all host cfg b = Ok s) ∨
  ∃ e, new_syncer_from_config replace_all host cfg b = Err e.
Proof.
  unfold new_syncer_from_config, build_endpoint, build_syncer_url. destruct (str_is_empty _); [eauto|].
  destruct (bsc_iframe cfg), (bsc_redirect cfg); simpl; eauto.
Qed.

Lemma choose_config_elem group p : choose_syncer_config group = Ok p → p ∈ group.
Proof.
  assert (H : ∀ first others, List.filter defines_endpoints group = first :: others → first ∈ group).
  { intros first others Hf. assert (Hin : first ∈ List.filter defines_endpoints group)
      by (rewrite Hf; by left). by apply list_elem_of_In, filter_In, proj1, list_elem_of_In in Hin. }
  unfold choose_syncer_config. destruct group as [|n [|n' group]]; [done|intros [= ->]; by left|].
  destruct (List.filter _ _) as [|first others] eqn:Hf; [done|].
  destruct (forallb _ _); [|done]. intros [= <-]. by eapply H.
Qed.

(** The config chosen for a group, and when every syncer of it can be built. *)
Lemma choose_config_spec infos key group :
  cfg_by_syncer_key (cfg_by_bidder infos) !! key = Some group →
  (key_ok infos key ↔ ∃ p, choose_syncer_config group = Ok p ∧ bsc_key (nsc_cfg p) = key ∧
     ∀ host b, ∃ s, new_syncer_from_config replace_all host (nsc_cfg p) b = Ok s) ∧
  (∀ p cfg, choose_syncer_config group = Ok p → key_ok infos key →
     endpoints_config infos key cfg → nsc_cfg p = cfg) ∧
  choose_syncer_config group ≠ Panic.
Proof.
  intros Hg. destruct (group_elem _ _ _ Hg) as [Hne Hin].
  assert (Hend : ∀ cfg, endpoints_config infos key cfg ↔
    ∃ n, n ∈ List.filter defines_endpoints group ∧ nsc_cfg n = cfg).
  { intros cfg. unfold endpoints_config. setoid_rewrite list_elem_of_In. setoid_rewrite filter_In.
    setoid_rewrite <-list_elem_of_In. setoid_rewrite defines_endpoints_iff. split.
    - intros (b&Hb&Hk&He). exists {| nsc_name := b; nsc_cfg := cfg |}. simpl.
      split; [|done]. split; [|done]. by apply Hin.
    - intros (n&[Hn He]&<-). apply Hin in Hn as [Hb Hk]. eauto. }
  assert (Hkey : ∀ n, n ∈ group → bsc_key (nsc_cfg n) = key) by (intros n Hn; by apply Hin).
  assert (Hok : ∀ p, p ∈ List.filter defines_endpoints group → key ≠ "" →
    bsc_key (nsc_cfg p) = key ∧
    ∀ host b, ∃ s, new_syncer_from_config replace_all host (nsc_cfg p) b = Ok s).
  { intros p Hp Hk. apply list_elem_of_In, filter_In in Hp as [Hp%list_elem_of_In He].
    rewrite (Hkey p Hp). split; [done|]. intros host b. apply new_syncer_ok.
    by rewrite (Hkey p Hp), <-defines_endpoints_iff. }
  assert (Hbuild : ∀ p, p ∈ group →
    (∀ host b, ∃ s, new_syncer_from_config replace_all host (nsc_cfg p) b = Ok s) →
    key ≠ "" ∧ p ∈ List.filter defines_endpoints group).
  { intros p Hp Hb. destruct (Hb {| usc_redirect_url := ""; usc_external_url := "" |} "") as [s Hs].
    assert (H : ∃ s, new_syncer_from_config replace_all
      {| usc_redirect_url := ""; usc_external_url := "" |} (nsc_cfg p) "" = Ok s) by eauto.
    apply new_syncer_ok in H as [Hk He]. rewrite (Hkey p Hp) in Hk. split; [done|].
    apply list_elem_of_In, filter_In. rewrite defines_endpoints_iff, <-list_elem_of_In. done. }
  unfold key_ok. setoid_rewrite Hend.
  assert (Hchoose : match group with [n] => choose_syncer_config group = Ok n | _ =>
    choose_syncer_config group = match List.filter defines_endpoints group with
    | [] => Err (no_endpoints_error (nsc_name <$> group))
    | first :: others => if forallb (λ other, bool_decide (nsc_cfg first = nsc_cfg other)) others
        then Ok first else Err (endpoints_differ_error (nsc_name <$> first :: others)) end end)
    by (by destruct group as [|? [|? ?]]).
  destruct group as [|n [|n' group]]; [done| |].
  - rewrite Hchoose. split; [|split; [|done]].
    + split.
      * intros [Hk (cfg&(n1&Hn1&<-)&_)]. exists n. split; [done|].
        assert (n1 = n) as ->; [|by apply Hok].
        apply list_elem_of_In, filter_In in Hn1 as [[->|[]] _]. done.
      * intros (p&[= <-]&Hk&Hb). destruct (Hbuild n) as [Hk' Hn]; [by left|done|]. split; [done|].
        exists (nsc_cfg n). split; [eauto|]. intros cfg' (n1&Hn1&<-).
        apply list_elem_of_In, filter_In in Hn1 as [[->|[]] _]. done.
    + intros p cfg [= <-] _ (n1&Hn1&<-). apply list_elem_of_In, filter_In in Hn1 as [[->|[]] _]. done.
  - rewrite Hchoose. clear Hchoose Hin. set (g := n :: n' :: group) in *. clearbody g.
    destruct (List.filter defines_endpoints g) as [|first others] eqn:Hf.
    { split; [|split; [done|done]]. split; [|by intros (?&?&_)].
      by intros [_ (?&(?&?%elem_of_nil&_)&_)]. }
    assert (Hall : forallb (λ other, bool_decide (nsc_cfg first = nsc_cfg other)) others = true ↔
      ∀ other, other ∈ first :: others → nsc_cfg other = nsc_cfg first).
    { rewrite forallb_forall. setoid_rewrite <-list_elem_of_In. setoid_rewrite bool_decide_eq_true.
      split; intros H other Ho; [apply elem_of_cons in Ho as [->|Ho]; [done|by symmetry; apply H]|].
      symmetry. apply H. by right. }
    destruct (forallb _ others) eqn:Hfa.
    + destruct Hall as [Hall _]. specialize (Hall eq_refl). split; [|split; [|done]].
      * split.
        -- intros [Hk _]. exists first. split; [done|]. apply Hok; [by left|done].
        -- intros (p&[= <-]&Hk&Hb). destruct (Hbuild first) as [Hk' _]; [|done|].
           { assert (Hin : first ∈ List.filter defines_endpoints g) by (rewrite Hf; by left).
             by apply list_elem_of_In, filter_In, proj1, list_elem_of_In in Hin. }
           split; [done|]. exists (nsc_cfg first). split; [exists first; split; [by left|done]|].
           intros cfg' (o&Ho&<-). by apply Hall.
      * intros p cfg [= <-] _ (o&Ho&<-). symmetry. by apply Hall.
    + split; [|split; [done|done]]. split; [|by intros (?&?&_)].
      intros [_ (cfg&(o&Ho&<-)&Hu)]. assert (Hno : false = true); [|done]. apply Hall.
      intros o' Ho'. rewrite (Hu (nsc_cfg o')), (Hu (nsc_cfg first)); [done| |];
        eexists; (split; [|done]); [by left|done].
Qed.

Context (infos : gmap string BidderInfo) (host : UserSyncConfig).
Notation new_syncer p := (new_syncer_from_config replace_all host (nsc_cfg p)).

Lemma named_fold_ok key p l st :
  (∀ b, ∃ s, new_syncer p b = Ok s) →
  let st' := fold_left (named_step replace_all host key p) l st in
  st'.1 = st.1 ∧
  (∀ b s, st'.2 !! b = Some s → st.2 !! b = Some s ∨ b ∈ nsc_name <$> l ∧ new_syncer p b = Ok s) ∧
  ∀ b, b ∈ nsc_name <$> l ∨ is_Some (st.2 !! b) → is_Some (st'.2 !! b).
Proof.
  intros Hp. revert st. induction l as [|n l IH]; intros st; simpl.
  { split; [done|]. split; [by left|]. by intros b [?%elem_of_nil|?]. }
  destruct (IH (named_step replace_all host key p st n)) as (Herr&Hin&Hall).
  destruct (Hp (nsc_name n)) as [s Hs]. unfold named_step in *. rewrite Hs in *. simpl in *.
  split; [done|]. setoid_rewrite elem_of_cons. split.
  - intros b s' [[[<- <-]|[_ ?]]%lookup_insert_Some|[? ?]]%Hin; auto.
  - intros b [[->|?]|Hb]; apply Hall; [right; rewrite lookup_insert_eq; eauto|by left|right].
    destruct (decide (nsc_name n = b)) as [->|]; [rewrite lookup_insert_eq; eauto|].
    by rewrite lookup_insert_ne.
Qed.
Lemma named_fold_errs key p l st : st.1 ≠ [] →
  (fold_left (named_step replace_all host key p) l st).1 ≠ [].
Proof.
  revert st. induction l as [|n l IH]; intros st Hst; simpl; [done|]. apply IH. unfold named_step.
  destruct (new_syncer p (nsc_name n)); simpl; [done| |done]. by destruct st.1.
Qed.
Lemma named_fold_err key p l st : l ≠ [] → (∀ b, ∃ e, new_syncer p b = Err e) →
  (fold_left (named_step replace_all host key p) l st).1 ≠ [].
Proof.
  intros Hl Hp. destruct l as [|n l]; [done|]. simpl. apply named_fold_errs.
  unfold named_step. destruct (Hp (nsc_name n)) as [e ->]. simpl. by destruct st.1.
Qed.
Lemma group_step_errs kv st : st.1 ≠ [] → (key_group_step replace_all host st kv).1 ≠ [].
Proof.
  intros Hst. unfold key_group_step. destruct (choose_syncer_config kv.2) as [p|e|]; simpl; [|by destruct st.1|done].
  by apply named_fold_errs.
Qed.

Notation built := (syncer_of replace_all infos host).
Lemma group_step_spec key group st :
  cfg_by_syncer_key (cfg_by_bidder infos) !! key = Some group →
  let st' := key_group_step replace_all host st (key, group) in
  (st'.1 = [] ↔ st.1 = [] ∧ key_ok infos key) ∧
  (key_ok infos key →
    (∀ b s, st'.2 !! b = Some s → st.2 !! b = Some s ∨ built b s) ∧
    ∀ b, (∃ cfg, bidder_cfg infos b = Some cfg ∧ bsc_key cfg = key) ∨ is_Some (st.2 !! b) →
         is_Some (st'.2 !! b)).
Proof.
  intros Hg. destruct (choose_config_spec _ _ _ Hg) as (Hok&Hun&Hnp).
  destruct (group_elem _ _ _ Hg) as [Hne Hin]. unfold key_group_step. cbn [fst snd].
  destruct (choose_syncer_config group) as [p|e|] eqn:Hp; [|simpl|done].
  - assert (Hkp : bsc_key (nsc_cfg p) = key) by by apply Hin, choose_config_elem.
    assert (Hdec : key_ok infos key ∨ ∀ b, ∃ e, new_syncer p b = Err e).
    { destruct (new_syncer_cases host (nsc_cfg p) "") as [Hs|[e He]].
      - left. apply Hok. exists p. split; [done|]. split; [done|]. intros h b.
        apply new_syncer_ok in Hs. by apply new_syncer_ok.
      - right. intros b. destruct (new_syncer_cases host (nsc_cfg p) b) as [Hs|?]; [|done].
        apply new_syncer_ok in Hs. assert (H : ∃ s, new_syncer p "" = Ok s) by by apply new_syncer_ok.
        destruct H as [s Hs']. congruence. }
    assert (Hbuilds : key_ok infos key → ∀ b, ∃ s, new_syncer p b = Ok s).
    { intros Hk b. apply Hok in Hk as (p'&[= <-]&_&Hb). apply Hb. }
    split.
    + split.
      * intros He. destruct Hdec as [Hk|Hb]; [|by apply (named_fold_err key p group st Hne) in He].
        split; [|done]. by rewrite <-(proj1 (named_fold_ok key p group st (Hbuilds Hk))).
      * intros [He Hk]. by rewrite (proj1 (named_fold_ok key p group st (Hbuilds Hk))).
    + intros Hk. destruct (named_fold_ok key p group st (Hbuilds Hk)) as (_&Hfrom&Hto). split.
      * intros b s [?|[Hb Hs]]%Hfrom; [by left|]. right.
        apply list_elem_of_fmap in Hb as (n&->&Hn). apply Hin in Hn as [Hn Hkn].
        destruct (proj2 Hk) as (pcfg&Hend&_). exists (nsc_cfg n), pcfg. rewrite Hkn.
        split; [done|]. split; [done|]. by rewrite <-(Hun p pcfg eq_refl Hk Hend).
      * intros b [(cfg&Hb&Hc)|?]; apply Hto; [left|by right]. apply list_elem_of_fmap.
        exists {| nsc_name := b; nsc_cfg := cfg |}. split; [done|]. by apply Hin.
  - assert (Hnk : ¬ key_ok infos key) by (intros (?&?&_)%Hok; done).
    split; [|done]. split; [by destruct st.1|by intros [_ ?]].
Qed.

Lemma groups_fold l st :
  (∀ key group, (key, group) ∈ l → cfg_by_syncer_key (cfg_by_bidder infos) !! key = Some group) →
  let st' := fold_left (key_group_step replace_all host) l st in
  (st'.1 = [] ↔ st.1 = [] ∧ ∀ key, key ∈ l.*1 → key_ok infos key) ∧
  ((∀ key, key ∈ l.*1 → key_ok infos key) →
    (∀ b s, st'.2 !! b = Some s → st.2 !! b = Some s ∨ built b s) ∧
    ∀ b, (∃ cfg, bidder_cfg infos b = Some cfg ∧ bsc_key cfg ∈ l.*1) ∨ is_Some (st.2 !! b) →
         is_Some (st'.2 !! b)).
Proof.
  revert st. induction l as [|[key group] l IH]; intros st Hl; simpl.
  { split; [split; [by split; [|intros ? ?%elem_of_nil]|by intros [? _]]|]. intros _.
    split; [by left|]. by intros b [(?&_&?%elem_of_nil)|?]. }
  destruct (group_step_spec key group st) as [He Hs]; [apply Hl; by left|].
  destruct (IH (key_group_step replace_all host st (key, group))) as [He' Hs'];
    [intros; apply Hl; by right|].
  split.
  - rewrite He', He. setoid_rewrite elem_of_cons. split.
    + intros [[? ?] ?]. split; [done|]. intros k [->|?]; auto.
    + intros [? Hk]. split; [split; [done|]|]; auto.
  - intros Hk. destruct Hs as [Hs1 Hs2]; [apply Hk; by left|].
    destruct Hs' as [Hs1' Hs2']; [intros; apply Hk; by right|]. split.
    + intros b s [[?|?]%Hs1|?]%Hs1'; auto.
    + intros b [(cfg&Hb&[Hc|?]%elem_of_cons)|?]; apply Hs2'; [right; apply Hs2; left; eauto|left; eauto|].
      right. apply Hs2. by right.
Qed.
End BuildProofs.

(** C37: Syncers are built exactly when every syncer key is sound: it is not empty
    and the bidders that share it define its endpoints once (or identically).  Then
    every enabled bidder with a syncer configuration gets a syncer, and nobody else:
    the one made from its key's endpoints for its own name.  So neither the result
    nor its success depends on the order in which the maps iterate. *)
Theorem build_syncers_spec (replace_all : string → string → string → string) `{MI : MapIter}
    host_config infos :
  let host := host_user_sync host_config in
  ((∃ syncers, build_syncers replace_all host_config infos = Ok syncers) ↔
     ∀ b cfg, bidder_cfg infos b = Some cfg → key_ok infos (bsc_key cfg)) ∧
  ∀ syncers, build_syncers replace_all host_config infos = Ok syncers →
    ∀ b s, syncers !! b = Some s ↔ syncer_of replace_all infos host b s.
Proof.
  intros host. set (groups := map_iter (cfg_by_syncer_key (cfg_by_bidder infos))).
  assert (Hgroups : ∀ key group, (key, group) ∈ groups →
    cfg_by_syncer_key (cfg_by_bidder infos) !! key = Some group) by (intros ? ?; apply map_iter_elem).
  assert (Hkeys : ∀ key, key ∈ groups.*1 ↔ ∃ b cfg, bidder_cfg infos b = Some cfg ∧ bsc_key cfg = key).
  { intros key. rewrite list_elem_of_fmap. split.
    - intros ([k g]&->&Hg%Hgroups). apply group_elem in Hg as [Hne Hin]. destruct g as [|n g]; [done|].
      exists (nsc_name n), (nsc_cfg n). apply Hin. by left.
    - intros (b&cfg&Hb&<-). apply group_exists in Hb as (g&Hg&_).
      exists (bsc_key cfg, g). split; [done|]. by apply map_iter_elem. }
  destruct (groups_fold replace_all infos host groups ([], ∅) Hgroups) as [Herr Hs].
  assert (Hb : build_syncers replace_all host_config infos =
    let st := fold_left (key_group_step replace_all host) groups ([], ∅) in
    match st.1 with [] => Ok st.2 | _ => Err st.1 end).
  { unfold build_syncers. fold groups host. by destruct (fold_left _ _ _). }
  rewrite Hb. simpl in *. set (st := fold_left _ _ _) in *.
  assert (Hok : st.1 = [] ↔ ∀ b cfg, bidder_cfg infos b = Some cfg → key_ok infos (bsc_key cfg)).
  { rewrite Herr. split; [intros [_ Hk] b cfg Hc; apply Hk, Hkeys; eauto|].
    intros Hk. split; [done|]. intros key (b&cfg&Hc&<-)%Hkeys. by eapply Hk. }
  rewrite <-Hok. split.
  - destruct st.1; [split; eauto|]. split; [by intros [? ?]|done].
  - intros syncers Hst. assert (He : st.1 = []) by (by destruct st.1).
    rewrite He in Hst. injection Hst as <-.
    destruct Hs as [Hs1 Hs2]; [by apply Herr in He as [_ ?]|]. intros b s. split.
    + intros [Hl|?]%Hs1; [by rewrite lookup_empty in Hl|done].
    + intros (cfg&pcfg&Hc&Hend&Hnew). destruct (Hs2 b) as [s' Hs'].
      { left. exists cfg. split; [done|]. apply Hkeys. eauto. }
      rewrite Hs'. destruct (Hs1 _ _ Hs') as [Hl|(cfg'&pcfg'&Hc'&Hend'&Hnew')];
        [by rewrite lookup_empty in Hl|].
      assert (Hk : key_ok infos (bsc_key cfg)) by by eapply (proj1 Hok).
      assert (cfg' = cfg) as -> by congruence. destruct Hk as (_&u&_&Hu).
      rewrite (Hu pcfg'), <-(Hu pcfg) in Hnew' by done. congruence.
Qed.

(** ** The order of the bidders *)

Section OrderProofs.
Context {R : Type} (shuffle : list string → R → list string * R).
Context (Hshuffle : ∀ l r, (shuffle l r).1 ≡ₚ l).

Lemma shuffled_groups groups bidders r :
  ∃ l, (fold_left (λ '(bidders, rng) group, shuffled_append shuffle bidders group rng) groups
         (bidders, r)).1 = bidders ++ l ∧ l ≡ₚ concat groups.
Proof.
  revert bidders r. induction groups as [|g groups IH]; intros bidders r; simpl.
  { exists []. by rewrite app_nil_r. }
  unfold shuffled_append at 2. pose proof (Hshuffle g r) as Hg.
  destruct (shuffle g r) as [g' r']. simpl in Hg.
  destruct (IH (bidders ++ g') r') as (l&Hl&Hp). exists (g' ++ l).
  split; [by rewrite Hl, <-app_assoc|]. by rewrite Hg, Hp.
Qed.
(** The cooperative order tries the requested bidders first, then the priority
    groups and then all the others; no bidder is lost or invented. *)
Lemma choose_bidder_order_spec requested available coop r :
  if co_enabled coop then
    ∃ l1 l2 l3, choose_bidder_order shuffle requested available coop r = l1 ++ l2 ++ l3 ∧
      l1 ≡ₚ requested ∧ l2 ≡ₚ concat (co_priority_groups coop) ∧ l3 ≡ₚ available
  else choose_bidder_order shuffle requested available coop r ≡ₚ
    (if bool_decide (requested = []) then available else requested).
Proof.
  unfold choose_bidder_order, shuffled_copy. destruct (co_enabled coop).
  - unfold shuffled_append at 1. pose proof (Hshuffle requested r) as H1.
    destruct (shuffle requested r) as [l1 r1]. simpl in H1.
    destruct (shuffled_groups (co_priority_groups coop) ([] ++ l1) r1) as (l2&Hl2&H2).
    destruct (fold_left _ _ _) as [bidders r2]. simpl in Hl2. subst bidders.
    unfold shuffled_append. pose proof (Hshuffle available r2) as H3.
    destruct (shuffle available r2) as [l3 r3]. simpl in *.
    exists l1, l2, l3. by rewrite <-app_assoc.
  - case_bool_decide; apply Hshuffle.
Qed.
End OrderProofs.

(** ** Cookies *)

Section CookieProofs.
Context (std_encode url_encode : string → string) (std_decode url_decode : string → option string).
Context (to_json : PrebidCookie → option string) (from_json : string → option PrebidCookie).
Context (Hstd : ∀ b, std_decode (std_encode b) = Some b) (Hurl : ∀ b, url_decode (url_encode b) = Some b).
(** Where both alphabets read a text they agree. *)
Context (Hagree : ∀ t b b', std_decode t = Some b → url_decode t = Some b' → b = b').

(** A cookie that can be written is read back, from either alphabet. *)
Lemma cookie_roundtrip json_error c json : to_json c = Some json → from_json json = Some c →
  from_cookie std_decode url_decode from_json (to_cookie_string std_encode to_json c) = c ∧
  ∀ t, encode_cookie url_encode to_json json_error c = Ok t →
    decode_cookie url_decode from_json t = c ∧ from_cookie std_decode url_decode from_json t = c.
Proof.
  intros Hto Hfrom. unfold from_cookie, to_cookie_string, encode_cookie, decode_cookie.
  rewrite Hto. simpl. rewrite Hstd. simpl. rewrite Hfrom. split; [done|]. intros t [= <-].
  rewrite Hurl. simpl. rewrite Hfrom. split; [done|].
  destruct (std_decode (url_encode json)) as [b|] eqn:Hb; simpl; [|by rewrite Hfrom].
  rewrite (Hagree _ _ _ Hb (Hurl json)). simpl. by rewrite Hfrom.
Qed.
End CookieProofs.

(** ** Examples and witnesses *)

#[local] Existing Instance map_iter_to_list.

(** The documented double-brace macros keep a pair of braces: [{gdpr}] inside
    them is replaced first. *)
Lemma double_braces_stay consent :
  get_sync_url Redirect 1 consent {| sy_bidder := "b"; sy_iframe_url := None;
    sy_redirect_url := Some "https://s?gdpr={{gdpr}}" |} = Some "https://s?gdpr={1}".
Proof. reflexivity. Qed.

(** The only bidder of the lowest group is ejected by its name, not its key. *)
Lemma lone_bidder_ejected_by_name :
  let uids := {[ "adnxs" := {| ue_uid := "1"; ue_expires := None |} ]} in
  let e := {| pbe_priority_groups := [["appnexus"]];
              pbe_syncer_keys_by_bidder := {[ "appnexus" := "adnxs" ]};
              pbe_is_syncer_priority := true; pbe_tie_ejector := OldestEjector_new |} in
  (eject uids e).1 = Ok "appnexus" ∧ uids !! "appnexus" = None.
Proof. by vm_compute. Qed.

Example sample_syncers : ∃ syncers,
  build_syncers (λ _ _ s, s) {| cfg_external_url := ""; cfg_user_sync :=
    {| usc_redirect_url := ""; usc_external_url := "" |} |} sample_infos = Ok syncers ∧
  (sy_bidder <$> syncers !! "groupm") = Some "adnxs".
Proof. eexists. split; vm_compute; reflexivity. Qed.

Lemma priority_ejector_spec_witness :
  (eject sample_uids sample_ejector).1 = Ok "b" ∧ is_Some (sample_uids !! "b").
Proof.
  destruct (priority_ejector_spec sample_uids sample_ejector) as (_&_&_&_&H).
  split; [by vm_compute|]. apply (H) with (out := Ok "b") (e' := (eject sample_uids sample_ejector).2).
  - intros group b Hg Hb. apply list_elem_of_singleton in Hg as ->.
    apply elem_of_cons in Hb as [->|[->|Hb%elem_of_nil]%elem_of_cons]; [..|done]; by vm_compute; eauto.
  - intros Hn%list_elem_of_singleton. done.
  - by vm_compute.
Defined.
