(* ===== verification/SyncRequests.v ===== *)
(** * Sync requests

    exchange/src/cookie_sync.rs and exchange/src/setuid.rs: the requests of
    /cookie_sync and /setuid as the exchange parses them, their checks and
    responses.  serde_json, [str::to_lowercase] and the order in which a map
    iterates are parameters.  Names [UserSync] has too are prefixed with [Cs]. *)

From S2P Require Import Prelude Json UserSync.

(** ** cookie_sync.rs *)

Definition ERR_COOKIE_SYNC_OPT_OUT : string := "User has opted out".
Definition ERR_COOKIE_SYNC_BODY : string := "Failed to read request body".
Definition ERR_COOKIE_SYNC_GDPR_CONSENT_MISSING : string :=
  "gdpr_consent is required if gdpr=1".
Definition ERR_COOKIE_SYNC_GDPR_CONSENT_MISSING_SIGNAL_AMBIGUOUS : string :=
  "gdpr_consent is required. gdpr is not specified and is assumed to be 1 by the server. set gdpr=0 to exempt this request".

Inductive FilterMode : Type := FmInclude | FmExclude.
(** An untagged enum: a string or a list. *)
Inductive FilterBidders : Type := FbAll (s : string) | FbList (l : list string).
Definition default_filter_mode : FilterMode := FmInclude.
Definition default_filter_bidders : FilterBidders := FbAll "*".
Record FilterConfig : Type := { fco_bidders : FilterBidders; fco_mode : FilterMode }.
Record FilterSettings : Type := { fse_iframe : option FilterConfig; fse_image : option FilterConfig }.
Record CookieSyncRequest : Type := {
  csq_bidders : list string; csq_gdpr : option Z; csq_gdpr_consent : string;
  csq_us_privacy : string; csq_limit : option Z; csq_cooperative_sync : option bool;
  csq_filter_settings : option FilterSettings; csq_account : string; csq_debug : bool;
}.
Inductive CsStatus : Type := CsOk | CsNoCookie.
Record CsResponse : Type := { csp_status : CsStatus; csp_bidder_status : list BidderSyncStatus }.
Record UsersyncPrivacyConfig : Type := {
  upc_gdpr_default_value : string; upc_ccpa_enforce : bool; upc_bidder_hash_set : gset string;
}.

Definition parse_cookie_sync_request (from_slice : list Z → string + CookieSyncRequest)
    (body : list Z) : outcome string CookieSyncRequest :=
  match body with
  | [] => Err ERR_COOKIE_SYNC_BODY
  | _ => match from_slice body with
         | inl e => Err ("JSON parsing failed: " +:+ e)
         | inr req => Ok req
         end
  end.
Definition validate_gdpr_consent (req : CookieSyncRequest) : outcome string unit :=
  match csq_gdpr req with
  | Some g =>
      if g =? 1 then
        if str_is_empty (csq_gdpr_consent req) then Err ERR_COOKIE_SYNC_GDPR_CONSENT_MISSING else Ok tt
      else Ok tt
  | None =>
      if str_is_empty (csq_gdpr_consent req)
      then Err ERR_COOKIE_SYNC_GDPR_CONSENT_MISSING_SIGNAL_AMBIGUOUS else Ok tt
  end.
(** [bidder_sync_status] is the same construction in both files. *)
Definition build_cookie_sync_response (syncer_results : list SyncerChoice) (cookie : PrebidCookie)
    (limit : option Z) : CsResponse :=
  let entries := bidder_sync_status <$> syncer_results in
  {| csp_status := if bool_decide (pc_uids cookie = ∅) then CsNoCookie else CsOk;
     csp_bidder_status :=
       match limit with
       | Some n => if 0 <=? n then take (Z.to_nat n) entries else entries
       | None => entries
       end |}.

(** ** setuid.rs *)

Definition CHROME_MIN_VER : Z := 67.
Definition CHROME_STR : string := "Chrome/".
Definition CHROME_IOS_STR : string := "CriOS/".
Record SetUidRequest : Type := {
  sur_bidder : string; sur_uid : string; sur_gdpr : option Z; sur_gdpr_consent : string;
  sur_account : string; sur_format : string;
}.
Inductive SetUidResponse : Type :=
| SuSuccess | SuOptOut | SuBadRequest (e : string) | SuUnauthorized.

(** A double quote, for the messages. *)
Definition dquote : string := String (Ascii.ascii_of_N 34) "".
Definition bidder_required_error : string :=
  dquote +:+ "bidder" +:+ dquote +:+ " query param is required".
(** The bidder parameter, which must be present and not empty. *)
Definition required_bidder (query_params : gmap string string) : outcome string string :=
  match query_params !! "bidder" with
  | Some v => if str_is_empty v then Err bidder_required_error else Ok v
  | None => Err bidder_required_error
  end.
Definition parse_setuid_request (query_params : gmap string string)
    : outcome string SetUidRequest :=
  bidder ← required_bidder query_params;
  gdpr ← match query_params !! "gdpr" with
         | Some v =>
             if str_is_empty v then Ok None
             else match parse_int (- 2 ^ 31) (2 ^ 31 - 1) v with
                  | Some g => Ok (Some g)
                  | None => Err ("invalid gdpr value " +:+ dquote +:+ v +:+ dquote +:+
                                 ", must be 0 or 1")
                  end
         | None => Ok None
         end;
  let param k := default "" (query_params !! k) in
  Ok {| sur_bidder := bidder; sur_uid := param "uid"; sur_gdpr := gdpr;
        sur_gdpr_consent := param "gdpr_consent"; sur_account := param "account";
        sur_format := param "f" |}.

Section SetUid.
Context (to_lowercase : string → string).
Definition get_response_format (query : gmap string string) (default_format : string)
    : outcome string string :=
  let raw := default "" (query !! "f") in
  if str_is_empty raw then Ok default_format
  else
    let lower := to_lowercase raw in
    if bool_decide (lower = "b") || bool_decide (lower = "i") then Ok lower
    else Err (dquote +:+ "f" +:+ dquote +:+ " query param is invalid. must be " +:+ dquote +:+ "b" +:+
              dquote +:+ " or " +:+ dquote +:+ "i" +:+ dquote).
(** The syncer key and the bidder: the name as given, else the first key the map
    yields that equals it in lower case. *)
Definition get_syncer `{MI : MapIter} (query syncers : gmap string string)
    : outcome string (string * string) :=
  bidder ← required_bidder query;
  match syncers !! bidder with
  | Some syncer_key => Ok (syncer_key, bidder)
  | None =>
      let bidder_lower := to_lowercase bidder in
      match List.find (λ kv, bool_decide (to_lowercase kv.1 = bidder_lower)) (map_iter syncers) with
      | Some (_, syncer_key) => Ok (syncer_key, bidder)
      | None => Err "The bidder name provided is not supported by Prebid Server"
      end
  end.
End SetUid.

(** [s.find(pat)], as the text after the first occurrence. *)
Fixpoint text_after (pat s : string) : option string :=
  if String.prefix pat s
  then Some (String.substring (String.length pat) (String.length s - String.length pat) s)
  else match s with "" => None | String _ s' => text_after pat s' end.
Definition check_chrome_browser_version (rest : string) : bool :=
  match parse_int 0 (2 ^ 32 - 1) (split_first (ch ".") rest) with
  | Some v => CHROME_MIN_VER <=? v
  | None => false
  end.
Definition site_cookie_check (user_agent : string) : bool :=
  match text_after CHROME_STR user_agent with
  | Some rest => check_chrome_browser_version rest
  | None =>
      match text_after CHROME_IOS_STR user_agent with
      | Some rest => check_chrome_browser_version rest
      | None => false
      end
  end.

(** ** Proofs *)

(** Consent is asked for exactly where GDPR applies or may apply. *)
Lemma validate_gdpr_consent_iff req :
  validate_gdpr_consent req = Ok tt ↔
  csq_gdpr_consent req ≠ "" ∨ ∃ g, csq_gdpr req = Some g ∧ g ≠ 1.
Proof.
  unfold validate_gdpr_consent, str_is_empty. destruct (csq_gdpr req) as [g|].
  - destruct (Z.eqb_spec g 1) as [->|Hg]; cbn.
    + case_bool_decide as He; split; [done| |by eauto|done].
      intros [?|(? & [= <-] & ?)]; done.
    + split; [eauto|done].
  - cbn. case_bool_decide as He; split; [done| |by eauto|done].
    intros [?|(? & ? & _)]; done.
Qed.

(** A name is found exactly when some key equals it up to case; an exact key wins,
    and among keys that differ in case only the map's order decides. *)
Lemma get_syncer_found to_lowercase `{MI : MapIter} query syncers bidder :
  required_bidder query = Ok bidder →
  match get_syncer to_lowercase query syncers with
  | Ok (syncer_key, b) => b = bidder ∧
      ∃ k, syncers !! k = Some syncer_key ∧ to_lowercase k = to_lowercase bidder ∧
           (is_Some (syncers !! bidder) → k = bidder)
  | Err _ => ∀ k, is_Some (syncers !! k) → to_lowercase k ≠ to_lowercase bidder
  | Panic => False
  end.
Proof.
  intros Hb. unfold get_syncer. rewrite Hb. cbn [mbind outcome_bind].
  destruct (syncers !! bidder) as [sk|] eqn:Hs; [by eauto 6|].
  destruct (List.find _ _) as [[k sk]|] eqn:Hf.
  - apply find_some in Hf as [Hin%list_elem_of_In Hk]. bools. apply map_iter_elem in Hin.
    split; [done|]. exists k. split; [done|]. split; [done|]. by intros [? ?].
  - intros k [v Hk] He. apply map_iter_elem in Hk.
    apply list_elem_of_In in Hk. apply (find_none _ _ Hf) in Hk.
    by apply bool_decide_eq_false in Hk.
Qed.

Example chrome_new : site_cookie_check "Mozilla/5.0 Chrome/80.0.3987 Safari" = true.
Proof. by vm_compute. Qed.
Example chrome_old : site_cookie_check "Mozilla/5.0 CriOS/66.1" = false.
Proof. by vm_compute. Qed.
