(* ===== verification/Hooks.v ===== *)
(** * Hook execution

    exchange/src/hooks.rs: the repository modules register their hooks in, the
    plan of a stage, and the executor the auction calls at every stage.  The
    hooks of a group run concurrently on tokio, each on its own copy of the
    payload, and their handles are awaited in the order of the hooks:
    [execute_group] takes their results in that order.  Durations are
    milliseconds. *)

From S2P Require Import Prelude Json.

(** ** Stages, mutations, results *)

Inductive Stage : Type :=
| EntrypointRaw | RawAuctionRequest | ProcessedAuctionRequest | BidderRequestStage
| RawBidderResponse | AllProcessedBidResponses | AuctionResponseStage.
#[export] Instance Stage_eq_dec : EqDecision Stage.
Proof. solve_decision. Defined.
Definition all_stages : list Stage :=
  [EntrypointRaw; RawAuctionRequest; ProcessedAuctionRequest; BidderRequestStage;
   RawBidderResponse; AllProcessedBidResponses; AuctionResponseStage].
#[export] Instance Stage_countable : Countable Stage.
Proof.
  apply (inj_countable' (λ s, match s with
    | EntrypointRaw => 0 | RawAuctionRequest => 1 | ProcessedAuctionRequest => 2
    | BidderRequestStage => 3 | RawBidderResponse => 4 | AllProcessedBidResponses => 5
    | AuctionResponseStage => 6 end%nat)
    (λ n, nth n all_stages EntrypointRaw)).
  by intros [].
Defined.

Definition stage_as_str (s : Stage) : string :=
  match s with
  | EntrypointRaw => "entrypoint"
  | RawAuctionRequest => "raw_auction_request"
  | ProcessedAuctionRequest => "processed_auction_request"
  | BidderRequestStage => "bidder_request"
  | RawBidderResponse => "raw_bidder_response"
  | AllProcessedBidResponses => "all_processed_bid_responses"
  | AuctionResponseStage => "auction_response"
  end.
Definition is_rejectable (s : Stage) : bool :=
  match s with AllProcessedBidResponses | AuctionResponseStage => false | _ => true end.

Inductive MutationAction : Type := MutationAdd | MutationUpdate | MutationDelete.
Definition mutation_action_to_string (a : MutationAction) : string :=
  match a with MutationAdd => "add" | MutationUpdate => "update" | MutationDelete => "delete" end.
(** [MutationFn] is a closure; one that panics is not modelled. *)
Record Mutation : Type := {
  mut_action : MutationAction; mut_key : list string; mut_apply : Value → string + Value;
}.
Definition ChangeSet : Type := list Mutation.
Definition add_mutation (mutation : Mutation) (c : ChangeSet) : ChangeSet := c ++ [mutation].

Abbreviation ModuleContext := (gmap string Value).
Record HookResult : Type := {
  hr_reject : bool; hr_nbr_code : Z; hr_message : string; hr_change_set : ChangeSet;
  hr_errors : list string; hr_warnings : list string; hr_debug_messages : list string;
  hr_module_context : ModuleContext;
}.
Definition hook_noop : HookResult := {|
  hr_reject := false; hr_nbr_code := 0; hr_message := ""; hr_change_set := []; hr_errors := [];
  hr_warnings := []; hr_debug_messages := []; hr_module_context := ∅ |}.
Definition hook_rejection (nbr_code : Z) (message : string) : HookResult := {|
  hr_reject := true; hr_nbr_code := nbr_code; hr_message := message; hr_change_set := [];
  hr_errors := []; hr_warnings := []; hr_debug_messages := []; hr_module_context := ∅ |}.

Record InvocationContext : Type := {
  ic_account_id : string; ic_account_config : option Value; ic_endpoint : string;
  ic_module_context : ModuleContext; ic_hook_impl_code : string;
}.

Inductive HookError : Type := HookTimeout | HookFailure (e : string) | HookInternal (e : string).
Definition hook_error_to_string (e : HookError) : string :=
  match e with
  | HookTimeout => "hook execution timeout"
  | HookFailure e => "hook execution failed: " +:+ e
  | HookInternal e => "hook execution error: " +:+ e
  end.
Record RejectError : Type := {
  rej_nbr : Z; rej_module : string; rej_hook_impl_code : string; rej_stage : string;
}.
Definition reject_error_to_string (e : RejectError) : string :=
  "module " +:+ rej_module e +:+ " (hook: " +:+ rej_hook_impl_code e +:+
  ") rejected request with code " +:+ pretty (rej_nbr e) +:+ " at " +:+ rej_stage e +:+ " stage".

(** What a call of a hook does: it returns after a while, or panics. *)
Inductive HookRun : Type :=
| HookReturns (after : Z) (r : HookError + HookResult)
| HookPanics (after : Z).
(** The trait [Hook], as the record of its methods. *)
Record Hook : Type := {
  hk_id : string; hk_stages : list Stage; hk_handle : InvocationContext → Value → HookRun;
}.

Inductive InvocationStatus : Type := StSuccess | StTimeout | StFailure | StExecutionFailure.
Inductive InvocationAction : Type := ActUpdate | ActReject | ActNone.
Record HookId : Type := { hid_module_code : string; hid_hook_impl_code : string }.
Record HookOutcome : Type := {
  ho_hook_id : HookId; ho_status : InvocationStatus; ho_action : InvocationAction;
  ho_message : string; ho_errors : list string; ho_warnings : list string;
  ho_debug_messages : list string; ho_execution_time : Z;
}.
Record GroupOutcome : Type := {
  go_invocation_results : list HookOutcome; go_execution_time : Z;
}.
Record StageOutcome : Type := {
  so_stage : string; so_entity : string; so_groups : list GroupOutcome; so_execution_time : Z;
}.

(** ** The repository and the plan *)

Definition quoted (s : string) : string :=
  let quote := String (ascii_of_byte 34) "" in quote +:+ s +:+ quote.
Abbreviation HookRepository := (gmap Stage (list (string * Hook))).

Definition register_at (hook : Hook) (stage : Stage) : M HookRepository string unit := λ repo,
  let entry := default [] (repo !! stage) in
  if existsb (λ e, bool_decide (e.1 = hk_id hook)) entry
  then (Err ("hook " +:+ quoted (hk_id hook) +:+ " already registered for stage " +:+ stage_as_str stage),
        <[ stage := entry ]> repo)
  else (Ok tt, <[ stage := entry ++ [(hk_id hook, hook)] ]> repo).
Fixpoint register_stages (hook : Hook) (stages : list Stage) : M HookRepository string unit :=
  match stages with
  | [] => mret tt
  | stage :: stages' => register_at hook stage ;; register_stages hook stages'
  end.
Definition register (hook : Hook) : M HookRepository string unit :=
  match hk_stages hook with
  | [] => M_err ("hook " +:+ quoted (hk_id hook) +:+ " does not declare any stages")
  | stages => register_stages hook stages
  end.
Definition get_hooks (stage : Stage) (repo : HookRepository) : list (string * Hook) :=
  default [] (repo !! stage).

Record HookWrapper : Type := { hw_module : string; hw_code : string; hw_hook : Hook }.
Record HookGroup : Type := { hg_timeout : Z; hg_hooks : list HookWrapper }.
Record PlanBuilder : Type := {
  pb_repo : HookRepository; pb_enabled : bool; pb_default_group_timeout : Z;
}.
Definition plan_builder_new (repo : HookRepository) (enabled : bool) : PlanBuilder := {|
  pb_repo := repo; pb_enabled := enabled; pb_default_group_timeout := 5000 |}.
Definition plan_for_stage (stage : Stage) (_endpoint : string) (pb : PlanBuilder) : list HookGroup :=
  if negb (pb_enabled pb) then []
  else match get_hooks stage (pb_repo pb) with
  | [] => []
  | hooks =>
      [{| hg_timeout := pb_default_group_timeout pb;
          hg_hooks := (λ e, {| hw_module := e.1; hw_code := ""; hw_hook := e.2 |}) <$> hooks |}]
  end.

(** ** The executor *)

(** [ModuleContextStore]: its lock is held for one call only. *)
Abbreviation ModuleContextStore := (gmap string ModuleContext).
Definition store_put (module : string) (ctx : ModuleContext) (s : ModuleContextStore)
    : ModuleContextStore := <[ module := ctx ∪ default ∅ (s !! module) ]> s.

Record HookExecutor : Type := {
  ex_plan_builder : PlanBuilder; ex_endpoint : string; ex_account_id : string;
}.
(** What the executor keeps behind its locks. *)
Record ExecutorState : Type := {
  ex_module_contexts : ModuleContextStore; ex_stage_outcomes : list StageOutcome;
}.

(** What a spawned task of a group gives its handle; [None] when it panicked. *)
Definition Joined : Type := option (HookId * (HookError + HookResult) * Z).

Definition run_hook (ex : HookExecutor) (contexts : ModuleContextStore) (timeout : Z)
    (payload : Value) (hw : HookWrapper) : Joined :=
  let id := {| hid_module_code := hw_module hw; hid_hook_impl_code := hw_code hw |} in
  let inv_ctx := {|
    ic_account_id := ex_account_id ex; ic_account_config := None; ic_endpoint := ex_endpoint ex;
    ic_module_context := default ∅ (contexts !! hw_module hw); ic_hook_impl_code := hw_code hw |} in
  match hk_handle (hw_hook hw) inv_ctx payload with
  | HookReturns after r =>
      if after <=? timeout then Some (id, r, after) else Some (id, inl HookTimeout, timeout)
  | HookPanics after => if after <=? timeout then None else Some (id, inl HookTimeout, timeout)
  end.

(** The mutations of a change set, on the payload, the warnings, the debug
    messages and the number of successes. *)
Definition mutation_step (st : Value * list string * list string * nat) (m : Mutation)
    : Value * list string * list string * nat :=
  let '(payload, warnings, debug, successful) := st in
  match mut_apply m payload with
  | inr p =>
      (p, warnings,
       debug ++ ["mutation applied: key=" +:+ join "." (mut_key m) +:+ ", type=" +:+
                 mutation_action_to_string (mut_action m)], S successful)
  | inl e => (payload, warnings ++ ["failed to apply hook mutation: " +:+ e], debug, successful)
  end.

Record GroupState : Type := {
  gs_outcome : GroupOutcome; gs_payload : Value; gs_reject : option RejectError;
  gs_contexts : ModuleContextStore;
}.

(** The outcome of one result, the payload after it, and the rejection. *)
Definition hook_outcome (stage : Stage) (payload : Value) (id : HookId)
    (result : HookError + HookResult) (elapsed : Z)
    : HookOutcome * Value * option RejectError :=
  match result with
  | inr hr =>
      let outcome status action errors warnings debug := {|
        ho_hook_id := id; ho_status := status; ho_action := action; ho_message := hr_message hr;
        ho_errors := errors; ho_warnings := warnings; ho_debug_messages := debug;
        ho_execution_time := elapsed |} in
      if hr_reject hr then
        if is_rejectable stage then
          (outcome StSuccess ActReject (hr_errors hr) (hr_warnings hr) (hr_debug_messages hr), payload,
           Some {| rej_nbr := hr_nbr_code hr; rej_module := hid_module_code id;
                   rej_hook_impl_code := hid_hook_impl_code id; rej_stage := stage_as_str stage |})
        else
          (outcome StExecutionFailure ActNone
             (hr_errors hr ++ ["module " +:+ hid_module_code id +:+
                " tried to reject at non-rejectable stage " +:+ stage_as_str stage])
             (hr_warnings hr) (hr_debug_messages hr), payload, None)
      else match hr_change_set hr with
      | [] => (outcome StSuccess ActNone (hr_errors hr) (hr_warnings hr) (hr_debug_messages hr),
               payload, None)
      | mutations =>
          let '(payload, warnings, debug, successful) :=
            fold_left mutation_step mutations
              (payload, hr_warnings hr, hr_debug_messages hr, 0%nat) in
          (outcome (if (0 <? successful)%nat then StSuccess else StExecutionFailure) ActUpdate
             (hr_errors hr) warnings debug, payload, None)
      end
  | inl e =>
      let status := match e with
                    | HookTimeout => StTimeout
                    | HookFailure _ => StFailure
                    | HookInternal _ => StExecutionFailure
                    end in
      ({| ho_hook_id := id; ho_status := status; ho_action := ActNone; ho_message := "";
          ho_errors := [hook_error_to_string e]; ho_warnings := []; ho_debug_messages := [];
          ho_execution_time := elapsed |}, payload, None)
  end.

(** The body of the loop over the handles. *)
Definition collect_hook (stage : Stage) (st : GroupState) (j : Joined) : GroupState :=
  match j with
  | None => st
  | Some (id, result, elapsed) =>
      let contexts :=
        match result with
        | inr hr =>
            if bool_decide (hr_module_context hr = ∅) then gs_contexts st
            else store_put (hid_module_code id) (hr_module_context hr) (gs_contexts st)
        | inl _ => gs_contexts st
        end in
      let '(outcome, payload, reject) := hook_outcome stage (gs_payload st) id result elapsed in
      {| gs_outcome := {|
           go_invocation_results := go_invocation_results (gs_outcome st) ++ [outcome];
           go_execution_time := Z.max (go_execution_time (gs_outcome st)) elapsed |};
         gs_payload := payload; gs_reject := reject; gs_contexts := contexts |}
  end.
(** ... left when a rejection is set. *)
Fixpoint collect_hooks (stage : Stage) (st : GroupState) (joins : list Joined) : GroupState :=
  match joins with
  | [] => st
  | j :: joins' =>
      let st' := collect_hook stage st j in
      match gs_reject st' with
      | Some _ => st'
      | None => collect_hooks stage st' joins'
      end
  end.

Definition group_start (payload : Value) (contexts : ModuleContextStore) : GroupState := {|
  gs_outcome := {| go_invocation_results := []; go_execution_time := 0 |};
  gs_payload := payload; gs_reject := None; gs_contexts := contexts |}.
Definition execute_group (ex : HookExecutor) (stage : Stage) (group : HookGroup) (payload : Value)
    (contexts : ModuleContextStore) : GroupState :=
  collect_hooks stage (group_start payload contexts)
    (run_hook ex contexts (hg_timeout group) payload <$> hg_hooks group).

Definition push_outcome (outcome : StageOutcome) (contexts : ModuleContextStore)
    (s : ExecutorState) : ExecutorState := {|
  ex_module_contexts := contexts; ex_stage_outcomes := ex_stage_outcomes s ++ [outcome] |}.
(** The loop over the groups; the outcome is pushed at its end or at the
    first rejection. *)
Fixpoint execute_groups (ex : HookExecutor) (stage : Stage) (groups : list HookGroup)
    (payload : Value) (so : StageOutcome) (contexts : ModuleContextStore)
    : M ExecutorState RejectError Value := λ s,
  match groups with
  | [] => (Ok payload, push_outcome so contexts s)
  | group :: groups' =>
      let st := execute_group ex stage group payload contexts in
      let so := {|
        so_stage := so_stage so; so_entity := so_entity so;
        so_groups := so_groups so ++ [gs_outcome st];
        so_execution_time := so_execution_time so + go_execution_time (gs_outcome st) |} in
      match gs_reject st with
      | Some e => (Err e, push_outcome so (gs_contexts st) s)
      | None => execute_groups ex stage groups' (gs_payload st) so (gs_contexts st) s
      end
  end.
Definition execute_stage (ex : HookExecutor) (stage : Stage) (payload : Value)
    : M ExecutorState RejectError Value := λ s,
  match plan_for_stage stage (ex_endpoint ex) (ex_plan_builder ex) with
  | [] => (Ok payload, s)
  | plan =>
      execute_groups ex stage plan payload
        {| so_stage := stage_as_str stage; so_entity := ""; so_groups := [];
           so_execution_time := 0 |} (ex_module_contexts s) s
  end.
(** [EmptyHookExecutor] *)
Definition empty_execute_stage {S} (_stage : Stage) (payload : Value)
    : M S RejectError Value := mret payload.

(** ** Specification *)

(** What a group does, in words: the results up to the first that rejects. *)
Definition rejects (stage : Stage) (j : Joined) : bool :=
  match j with Some (_, inr hr, _) => hr_reject hr && is_rejectable stage | _ => false end.
Fixpoint up_to_reject (stage : Stage) (joins : list Joined) : list Joined :=
  match joins with
  | [] => []
  | j :: joins' => if rejects stage j then [j] else j :: up_to_reject stage joins'
  end.
Definition first_reject (stage : Stage) (joins : list Joined) : option RejectError :=
  match List.find (rejects stage) joins with
  | Some (Some (id, inr hr, _)) =>
      Some {| rej_nbr := hr_nbr_code hr; rej_module := hid_module_code id;
              rej_hook_impl_code := hid_hook_impl_code id; rej_stage := stage_as_str stage |}
  | _ => None
  end.
(** The mutations of a result; a rejecting one has none, at any stage. *)
Definition mutations_of (j : Joined) : ChangeSet :=
  match j with Some (_, inr hr, _) => if hr_reject hr then [] else hr_change_set hr | _ => [] end.
(** A mutation that fails leaves the payload alone. *)
Definition mutate (payload : Value) (m : Mutation) : Value :=
  match mut_apply m payload with inr p => p | inl _ => payload end.
Definition mutate_all (payload : Value) (ms : ChangeSet) : Value := fold_left mutate ms payload.
(** The contexts a result leaves for later stages. *)
Definition keep_context (s : ModuleContextStore) (j : Joined) : ModuleContextStore :=
  match j with
  | Some (id, inr hr, _) =>
      if bool_decide (hr_module_context hr = ∅) then s
      else store_put (hid_module_code id) (hr_module_context hr) s
  | _ => s
  end.
(** One entry per hook that ran, in order. *)
Definition outcome_of (j : Joined) : option (HookId * Z) :=
  match j with Some (id, _, elapsed) => Some (id, elapsed) | None => None end.

(** The tasks of a stage: every hook registered for it gets the payload the
    stage started with. *)
Definition stage_runs (ex : HookExecutor) (contexts : ModuleContextStore) (stage : Stage)
    (payload : Value) : list Joined :=
  let pb := ex_plan_builder ex in
  if pb_enabled pb then
    (λ e, run_hook ex contexts (pb_default_group_timeout pb) payload
            {| hw_module := e.1; hw_code := ""; hw_hook := e.2 |}) <$> get_hooks stage (pb_repo pb)
  else [].

(** Every hook is filed under the stages it declares, once, by its id. *)
Definition repo_ok (repo : HookRepository) : Prop := ∀ stage,
  NoDup (get_hooks stage repo).*1 ∧
  ∀ id hook, (id, hook) ∈ get_hooks stage repo → hk_id hook = id ∧ stage ∈ hk_stages hook.

(** Hooks for the examples: one that rejects, one that replaces the payload. *)
Definition sample_hook (id : string) (r : HookError + HookResult) (after : Z) : Hook := {|
  hk_id := id; hk_stages := [RawAuctionRequest]; hk_handle := λ _ _, HookReturns after r |}.
Definition replace_by (v : Value) : HookResult := {|
  hr_reject := false; hr_nbr_code := 0; hr_message := "";
  hr_change_set := [{| mut_action := MutationUpdate; mut_key := ["id"]; mut_apply := λ _, inr v |}];
  hr_errors := []; hr_warnings := []; hr_debug_messages := []; hr_module_context := ∅ |}.
Definition sample_executor (hooks : list Hook) : HookExecutor := {|
  ex_plan_builder := plan_builder_new (fold_left (λ r h, (register h r).2) hooks ∅) true;
  ex_endpoint := "/openrtb2/auction"; ex_account_id := "" |}.
Definition executor_start : ExecutorState := {| ex_module_contexts := ∅; ex_stage_outcomes := [] |}.

(** ** Proofs: a stage *)

Lemma mutation_steps ms : ∀ payload warnings debug n,
  (fold_left mutation_step ms (payload, warnings, debug, n)).1.1.1 = mutate_all payload ms.
Proof.
  induction ms as [|m ms IH]; intros payload warnings debug n; [done|]. simpl.
  unfold mutate. destruct (mut_apply m payload); apply IH.
Qed.

Lemma hook_outcome_spec stage payload id result elapsed :
  let '(o, payload', reject) := hook_outcome stage payload id result elapsed in
  (ho_hook_id o, ho_execution_time o) = (id, elapsed) ∧
  payload' = mutate_all payload (mutations_of (Some (id, result, elapsed))) ∧
  reject = first_reject stage [Some (id, result, elapsed)].
Proof.
  unfold hook_outcome, first_reject. destruct result as [e|hr]; [done|]. simpl.
  destruct (hr_reject hr); simpl; [by destruct (is_rejectable stage)|].
  destruct (hr_change_set hr) as [|m ms] eqn:Hms; [done|].
  pose proof (mutation_steps (m :: ms) payload (hr_warnings hr) (hr_debug_messages hr) 0) as Hm.
  simpl in Hm. destruct (fold_left mutation_step ms _) as [[[p w] d] n]. by split_and!.
Qed.

Abbreviation records := (λ st, (λ o, (ho_hook_id o, ho_execution_time o)) <$>
  go_invocation_results (gs_outcome st)).

Lemma collect_hook_spec stage st j :
  gs_reject st = None →
  let st' := collect_hook stage st j in
  gs_reject st' = first_reject stage [j] ∧ gs_payload st' = mutate_all (gs_payload st) (mutations_of j) ∧
  gs_contexts st' = keep_context (gs_contexts st) j ∧
  records st' = records st ++ omap outcome_of [j].
Proof.
  intros Hr. destruct j as [[[id result] elapsed]|]; simpl; [|by rewrite app_nil_r].
  pose proof (hook_outcome_spec stage (gs_payload st) id result elapsed) as Ho.
  destruct (hook_outcome _ _ _ _ _) as [[o p] r]. destruct Ho as (Ho&->&->). simpl.
  split_and!; [done|done|by destruct result|]. by rewrite fmap_app, <-Ho.
Qed.

Lemma rejects_first stage j : rejects stage j = bool_decide (is_Some (first_reject stage [j])).
Proof.
  unfold first_reject. simpl. destruct j as [[[id [e|hr]] elapsed]|]; [done| |done].
  destruct (rejects _ _) eqn:Hr; symmetry; [by apply bool_decide_true; eauto|].
  apply bool_decide_false. by intros [? ?].
Qed.

Lemma first_reject_cons stage j joins : first_reject stage (j :: joins) =
  match first_reject stage [j] with Some e => Some e | None => first_reject stage joins end.
Proof.
  unfold first_reject. simpl. destruct (rejects stage j) eqn:Hr; [|done].
  destruct j as [[[id [e|hr]] elapsed]|]; [discriminate|done|discriminate].
Qed.

Lemma collect_hooks_spec stage joins : ∀ st, gs_reject st = None →
  let st' := collect_hooks stage st joins in
  gs_reject st' = first_reject stage joins ∧
  gs_payload st' = mutate_all (gs_payload st) (flat_map mutations_of (up_to_reject stage joins)) ∧
  gs_contexts st' = fold_left keep_context (up_to_reject stage joins) (gs_contexts st) ∧
  records st' = records st ++ omap outcome_of (up_to_reject stage joins).
Proof.
  induction joins as [|j joins IH]; intros st Hr; [by rewrite app_nil_r|].
  cbn [collect_hooks up_to_reject]. rewrite first_reject_cons, rejects_first.
  destruct (collect_hook_spec stage st j Hr) as (H1&H2&H3&H4). rewrite H1.
  destruct (first_reject stage [j]) as [e|] eqn:Hfirst.
  - rewrite bool_decide_true by eauto. cbn [flat_map fold_left]. rewrite app_nil_r. auto.
  - rewrite bool_decide_false by by intros [? ?].
    destruct (IH _ H1) as (I1&I2&I3&I4). cbn [flat_map fold_left]. split_and!; [done| | |].
    + rewrite I2, H2. unfold mutate_all. by rewrite fold_left_app.
    + by rewrite I3, H3.
    + rewrite I4, H4, <-(assoc_L (++)). f_equal. by destruct (outcome_of j) eqn:Ho; simpl; rewrite Ho.
Qed.

Lemma up_to_reject_none stage joins : first_reject stage joins = None → up_to_reject stage joins = joins.
Proof.
  induction joins as [|j joins IH]; [done|]. rewrite first_reject_cons. simpl.
  rewrite rejects_first. destruct (first_reject stage [j]); [done|].
  rewrite bool_decide_false by by intros [? ?]. intros H. by rewrite IH.
Qed.

Lemma first_reject_rejectable stage joins :
  is_rejectable stage = false → first_reject stage joins = None.
Proof.
  intros Hs. unfold first_reject. destruct (List.find _ _) as [j|] eqn:Hf; [|done].
  apply find_some in Hf as [_ Hj]. unfold rejects in Hj.
  destruct j as [[[id [e|hr]] el]|]; [done| |done]. by rewrite Hs, andb_false_r in Hj.
Qed.

Lemma execute_stage_eq ex stage payload s :
  let runs := stage_runs ex (ex_module_contexts s) stage payload in
  let out := execute_stage ex stage payload s in
  runs = [] ∧ out = (Ok payload, s) ∨
  runs ≠ [] ∧
  out.1 = match first_reject stage runs with
          | Some e => Err e
          | None => Ok (mutate_all payload (flat_map mutations_of runs))
          end ∧
  ex_module_contexts out.2 =
    fold_left keep_context (up_to_reject stage runs) (ex_module_contexts s) ∧
  ∃ so, ex_stage_outcomes out.2 = ex_stage_outcomes s ++ [so] ∧ so_stage so = stage_as_str stage ∧
    (λ o, (ho_hook_id o, ho_execution_time o)) <$> flat_map go_invocation_results (so_groups so) =
    omap outcome_of (up_to_reject stage runs).
Proof.
  intros runs out. subst runs out. unfold stage_runs, execute_stage, plan_for_stage.
  destruct (pb_enabled (ex_plan_builder ex)); [|by left]. cbn [negb].
  destruct (get_hooks stage (pb_repo (ex_plan_builder ex))) as [|h hs]; [by left|]. right.
  cbn [execute_groups]. unfold execute_group. cbn [hg_timeout hg_hooks].
  rewrite <-list_fmap_compose. set (runs := _ <$> h :: hs).
  destruct (collect_hooks_spec stage runs (group_start payload (ex_module_contexts s)) eq_refl)
    as (H1&H2&H3&H4).
  set (st := collect_hooks stage _ runs) in *. rewrite H1. split; [done|].
  destruct (first_reject stage runs) as [e|] eqn:Hf; cbn [fst snd].
  - split_and!; [done|exact H3|]. eexists. split_and!; [done|done|]. simpl. by rewrite app_nil_r.
  - split_and!; [|exact H3|].
    + by rewrite H2, (up_to_reject_none _ _ Hf).
    + eexists. split_and!; [done|done|]. simpl. by rewrite app_nil_r.
Qed.

(** C9: What a stage does.  Without a hook (or with hooks disabled) the payload
    comes back untouched.  Otherwise every hook gets the payload the stage
    started with; their mutations are applied in registration order, each to
    the payload the one before left, a failing one skipped; the first hook that
    rejects decides the error, and the contexts and records of the hooks up to
    it, and of no other, are kept; one stage outcome is recorded.  A hook that
    times out, fails or panics changes nothing, and at a stage that cannot
    reject nothing does. *)
Theorem execute_stage_spec ex stage payload s :
  let runs := stage_runs ex (ex_module_contexts s) stage payload in
  let out := execute_stage ex stage payload s in
  (runs = [] → out = (Ok payload, s)) ∧
  (runs ≠ [] →
    out.1 = match first_reject stage runs with
            | Some e => Err e
            | None => Ok (mutate_all payload (flat_map mutations_of runs))
            end ∧
    ex_module_contexts out.2 =
      fold_left keep_context (up_to_reject stage runs) (ex_module_contexts s) ∧
    ∃ so, ex_stage_outcomes out.2 = ex_stage_outcomes s ++ [so] ∧ so_stage so = stage_as_str stage ∧
      (λ o, (ho_hook_id o, ho_execution_time o)) <$> flat_map go_invocation_results (so_groups so) =
      omap outcome_of (up_to_reject stage runs)) ∧
  (is_rejectable stage = false → is_Ok out.1 = true).
Proof.
  intros runs out. split_and!.
  - intros Hr. by destruct (execute_stage_eq ex stage payload s) as [[_ H]|[Hne _]].
  - intros Hne. by destruct (execute_stage_eq ex stage payload s) as [[Hr _]|[_ H]].
  - intros Hs. destruct (execute_stage_eq ex stage payload s) as [[_ H]|(_&H&_)]; fold out in H;
      rewrite H; [done|]. by rewrite (first_reject_rejectable _ _ Hs).
Qed.

(** A stage ends in a payload or a rejection, and cannot reject where it may not. *)
Lemma execute_stage_safe ex stage payload s :
  (execute_stage ex stage payload s).1 ≠ Panic ∧
  (is_rejectable stage = false → is_Ok (execute_stage ex stage payload s).1 = true).
Proof.
  destruct (execute_stage_eq ex stage payload s) as [[_ ->]|(Hne&H&_)]; [done|]. rewrite H.
  split; [by destruct (first_reject _ _)|]. intros Hs. by rewrite (first_reject_rejectable _ _ Hs).
Qed.

(** The repository keeps its invariant, also when a registration fails half way. *)
Lemma get_hooks_insert stage stage' l repo : get_hooks stage' (<[ stage := l ]> repo) =
  if decide (stage = stage') then l else get_hooks stage' repo.
Proof.
  unfold get_hooks. destruct (decide (stage = stage')) as [<-|Hne];
    [by rewrite lookup_insert_eq|by rewrite lookup_insert_ne].
Qed.
Lemma register_at_ok hook stage repo :
  stage ∈ hk_stages hook → repo_ok repo → repo_ok (register_at hook stage repo).2.
Proof.
  intros Hs Hok. unfold register_at. fold (get_hooks stage repo).
  destruct (existsb _ _) eqn:He; cbn [snd]; intros stage'; rewrite get_hooks_insert;
    destruct (decide (stage = stage')) as [<-|Hne]; try apply Hok.
  destruct (Hok stage) as [Hnd Hin]. split.
  - rewrite fmap_app. apply NoDup_app. split_and!; [done| |apply NoDup_singleton].
    intros id Hid ->%list_elem_of_singleton. apply list_elem_of_fmap in Hid as (e&He'&Hin').
    assert (existsb (λ e, bool_decide (e.1 = hk_id hook)) (get_hooks stage repo) = true); [|congruence].
    apply existsb_exists. exists e. rewrite <-list_elem_of_In. split; [done|]. by apply bool_decide_true.
  - intros id h [Hh|[= -> ->]%list_elem_of_singleton]%elem_of_app; [by apply Hin|done].
Qed.
Lemma register_ok hook repo : repo_ok repo → repo_ok (register hook repo).2.
Proof.
  unfold register. destruct (hk_stages hook) as [|stage stages] eqn:Hs; [done|]. rewrite <-Hs.
  assert (H : ∀ l repo, l ⊆ hk_stages hook → repo_ok repo → repo_ok (register_stages hook l repo).2).
  { induction l as [|x l IH]; intros r Hl Hok; [done|]. simpl. unfold mbind, M_bind.
    pose proof (register_at_ok hook x r ltac:(set_solver) Hok) as Hok'.
    destruct (register_at hook x r) as [[u|e|] r']; [|done|done]. apply IH; [set_solver|done]. }
  intros Hok. by apply H.
Qed.

(** ** Examples *)

Example reject_wins : (execute_stage (sample_executor [
    sample_hook "a" (inr (replace_by VNull)) 10; sample_hook "b" (inr (hook_rejection 7 "no")) 1;
    sample_hook "c" (inr (hook_rejection 8 "no")) 1]) RawAuctionRequest (VBool true) executor_start).1 =
  Err {| rej_nbr := 7; rej_module := "b"; rej_hook_impl_code := ""; rej_stage := "raw_auction_request" |}.
Proof. vm_compute. reflexivity. Qed.
Example slow_hook_is_ignored : (execute_stage (sample_executor [
    sample_hook "a" (inr (replace_by VNull)) 5001; sample_hook "b" (inr (replace_by (VBool false))) 1])
    RawAuctionRequest (VBool true) executor_start).1 = Ok (VBool false).
Proof. vm_compute. reflexivity. Qed.
(** A hook declared for a stage twice is refused, and stays registered. *)
Example failed_registration_stays :
  let h := {| hk_id := "a"; hk_stages := [RawAuctionRequest; RawAuctionRequest];
              hk_handle := λ _ _, HookPanics 0 |} in
  is_Ok (register h ∅).1 = false ∧ length (get_hooks RawAuctionRequest (register h ∅).2) = 1%nat.
Proof. vm_compute. split; reflexivity. Qed.
