(* ===== verification/HooksCrate.v ===== *)
(** * HooksCrate

    The hooks crate (hooks/src): stages, change sets over any payload type, plans,
    and an executor that spawns a group's hooks as tasks, waits for all of them and
    folds their results in the order of declaration.  What a hook does is a
    parameter; durations are milliseconds. *)

From S2P Require Import Prelude Json.

(** ** Data *)

Inductive CrateStage : Type :=
| CsEntrypoint | CsRawAuction | CsProcessedAuction | CsBidderRequest | CsRawBidderResponse
| CsAllProcessedBidResponses | CsAuctionResponse.
Definition crate_stage_as_str (s : CrateStage) : string :=
  match s with
  | CsEntrypoint => "entrypoint" | CsRawAuction => "raw_auction_request"
  | CsProcessedAuction => "processed_auction_request" | CsBidderRequest => "bidder_request"
  | CsRawBidderResponse => "raw_bidder_response"
  | CsAllProcessedBidResponses => "all_processed_bid_responses" | CsAuctionResponse => "auction_response"
  end.
Definition crate_is_rejectable (s : CrateStage) : bool :=
  match s with CsAllProcessedBidResponses | CsAuctionResponse => false | _ => true end.

Record CrateHookId : Type := { chi_module_code : string; chi_hook_impl_code : string }.
Record Reject : Type := { rj_stage : CrateStage; rj_hook : CrateHookId; rj_nbr : Z; rj_message : string }.
Definition reject_new (stage : CrateStage) (hook : CrateHookId) (nbr : Z) : Reject :=
  {| rj_stage := stage; rj_hook := hook; rj_nbr := nbr; rj_message := "" |}.
Definition with_message (msg : string) (r : Reject) : Reject :=
  {| rj_stage := rj_stage r; rj_hook := rj_hook r; rj_nbr := rj_nbr r; rj_message := msg |}.
Definition reject_to_string (r : Reject) : string :=
  "module " +:+ chi_module_code (rj_hook r) +:+ " (hook " +:+ chi_hook_impl_code (rj_hook r) +:+
  ") rejected the request at stage " +:+ crate_stage_as_str (rj_stage r) +:+ " with nbr " +:+ pretty (rj_nbr r).
Inductive CrateHookError : Type :=
| HeRejected (r : Reject) | HeTimeout | HeFailure (e : string) | HeOther (e : string).
Definition is_reject (e : CrateHookError) : bool := match e with HeRejected _ => true | _ => false end.
Definition crate_hook_error_to_string (e : CrateHookError) : string :=
  match e with
  | HeRejected r => reject_to_string r
  | HeTimeout => "hook timed out"
  | HeFailure e => "hook failed: " +:+ e
  | HeOther e => "hook execution error: " +:+ e
  end.

Inductive CrateMutationType : Type := CmAdd | CmUpdate | CmDelete.
Definition mutation_type_to_string (t : CrateMutationType) : string :=
  match t with CmAdd => "add" | CmUpdate => "update" | CmDelete => "delete" end.

Record CrateInvocationContext : Type := {
  cic_account_id : option string; cic_account_config : option Value; cic_endpoint : string;
  cic_module_context : gmap string Value; cic_hook_impl_code : string;
}.
Record StageExecutionSummary : Type := {
  ses_successful_hooks : nat; ses_hooks_with_warnings : nat; ses_hooks_with_errors : nat;
  ses_timed_out_hooks : nat; ses_mutations_applied : nat; ses_rejected : bool;
}.
Definition default_summary : StageExecutionSummary := {|
  ses_successful_hooks := 0; ses_hooks_with_warnings := 0; ses_hooks_with_errors := 0;
  ses_timed_out_hooks := 0; ses_mutations_applied := 0; ses_rejected := false |}.
(** What is added to a summary. *)
Definition count (success warnings errors timed_out mutations : nat) (rejected : bool)
    (s : StageExecutionSummary) : StageExecutionSummary := {|
  ses_successful_hooks := ses_successful_hooks s + success;
  ses_hooks_with_warnings := ses_hooks_with_warnings s + warnings;
  ses_hooks_with_errors := ses_hooks_with_errors s + errors;
  ses_timed_out_hooks := ses_timed_out_hooks s + timed_out;
  ses_mutations_applied := ses_mutations_applied s + mutations;
  ses_rejected := ses_rejected s || rejected |}.

Section HooksCrate.
Context {P : Type}.

Record CrateMutation : Type := {
  cm_type : CrateMutationType; cm_key : list string; cm_func : P → CrateHookError + P;
}.
Record CrateHookResult : Type := {
  chr_reject : bool; chr_nbr_code : Z; chr_message : string; chr_changeset : list CrateMutation;
  chr_errors : list string; chr_warnings : list string; chr_debug_messages : list string;
  chr_module_context : gmap string Value;
}.
Definition hook_result_new : CrateHookResult := {|
  chr_reject := false; chr_nbr_code := 0; chr_message := ""; chr_changeset := []; chr_errors := [];
  chr_warnings := []; chr_debug_messages := []; chr_module_context := ∅ |}.
Definition hook_result_rejected (nbr_code : Z) (message : string) : CrateHookResult := {|
  chr_reject := true; chr_nbr_code := nbr_code; chr_message := message; chr_changeset := [];
  chr_errors := []; chr_warnings := []; chr_debug_messages := []; chr_module_context := ∅ |}.

(** A call returns after a while, or panics. *)
Inductive HookBehaviour : Type :=
| HbReturns (after : Z) (r : CrateHookError + CrateHookResult)
| HbPanics (after : Z).
Record CrateHookWrapper : Type := {
  chw_module : string; chw_code : string; chw_handle : CrateInvocationContext → P → HookBehaviour;
}.
Record CrateGroup : Type := { cg_timeout : Z; cg_hooks : list CrateHookWrapper }.
Definition HookExecutionPlan : Type := list CrateGroup.
Definition push_hook (hook : CrateHookWrapper) (g : CrateGroup) : CrateGroup :=
  {| cg_timeout := cg_timeout g; cg_hooks := cg_hooks g ++ [hook] |}.
Definition push_group (group : CrateGroup) (plan : HookExecutionPlan) : HookExecutionPlan := plan ++ [group].
Definition plan_len (plan : HookExecutionPlan) : nat := sum_list_with (length ∘ cg_hooks) plan.

Definition changeset_add (m : CrateMutation) (c : list CrateMutation) : list CrateMutation := c ++ [m].
(** [ChangeSet::apply_all]: a mutation that fails is skipped. *)
Definition apply_mutation (st : P * list CrateHookError) (m : CrateMutation) : P * list CrateHookError :=
  match cm_func m st.1 with inr updated => (updated, st.2) | inl e => (st.1, st.2 ++ [e]) end.
Definition apply_all (c : list CrateMutation) (payload : P) : P * list CrateHookError :=
  fold_left apply_mutation c (payload, []).

(** ** The executor *)

Record CrateHookExecutor : Type := {
  che_stage : CrateStage; che_account_id : option string; che_endpoint : string;
}.
Context (ex : CrateHookExecutor).

Definition invocation_context (hook : CrateHookWrapper) : CrateInvocationContext := {|
  cic_account_id := che_account_id ex; cic_account_config := None; cic_endpoint := che_endpoint ex;
  cic_module_context := ∅; cic_hook_impl_code := chw_code hook |}.
(** What joining a task gives: the hook's answer, the elapsed timeout, or a join
    error. *)
Inductive JoinResult : Type := JoinAnswer (r : CrateHookError + CrateHookResult) | JoinElapsed | JoinError.
Definition run_task (timeout : Z) (payload : P) (hook : CrateHookWrapper) : JoinResult :=
  match chw_handle hook (invocation_context hook) payload with
  | HbReturns after r => if after <=? timeout then JoinAnswer r else JoinElapsed
  | HbPanics after => if after <=? timeout then JoinError else JoinElapsed
  end.

Definition crate_apply_result (result : CrateHookResult) (payload : P) (summary : StageExecutionSummary)
    : P * StageExecutionSummary :=
  let summary := if bool_decide (chr_errors result = []) then summary else count 0 0 1 0 0 false summary in
  let summary := if bool_decide (chr_warnings result = []) then summary else count 0 1 0 0 0 false summary in
  if chr_reject result && crate_is_rejectable (che_stage ex)
  then (payload, count 0 0 0 0 0 true summary)
  else
    let '(updated, errs) := apply_all (chr_changeset result) payload in
    let summary := count 0 0 0 0 (length (chr_changeset result) - length errs) false summary in
    (updated, if bool_decide (errs = []) then count 1 0 0 0 0 false summary
              else count 0 0 1 0 0 false summary).

(** One turn of the fold over the joined results; an error ends it. *)
Definition fold_result (hook : CrateHookWrapper) (join_res : JoinResult) (current : P)
    (summary : StageExecutionSummary) : P * StageExecutionSummary * option CrateHookError :=
  match join_res with
  | JoinElapsed => (current, count 0 0 0 1 0 false summary, None)
  | JoinError => (current, count 0 0 1 0 0 false summary, None)
  | JoinAnswer (inl e) =>
      let summary := match e with
                     | HeTimeout => count 0 0 0 1 0 false summary
                     | _ => count 0 0 1 0 0 false summary
                     end in
      if is_reject e && crate_is_rejectable (che_stage ex) then (current, summary, Some e)
      else (current, summary, None)
  | JoinAnswer (inr result) =>
      let '(current, summary) := crate_apply_result result current summary in
      if ses_rejected summary then
        (current, summary, Some (HeRejected (reject_new (che_stage ex)
           {| chi_module_code := chw_module hook; chi_hook_impl_code := chw_code hook |} 0)))
      else (current, summary, None)
  end.
Fixpoint fold_results (joined : list (CrateHookWrapper * JoinResult)) (current : P)
    (summary : StageExecutionSummary) : P * StageExecutionSummary * option CrateHookError :=
  match joined with
  | [] => (current, summary, None)
  | (hook, join_res) :: joined' =>
      match fold_result hook join_res current summary with
      | (current, summary, None) => fold_results joined' current summary
      | stop => stop
      end
  end.
(** Every task gets the payload the group began with. *)
Definition crate_execute_group (group : CrateGroup) (payload : P) (summary : StageExecutionSummary)
    : P * StageExecutionSummary * option CrateHookError :=
  fold_results ((λ hook, (hook, run_task (cg_timeout group) payload hook)) <$> cg_hooks group) payload summary.
Fixpoint execute_plan (plan : HookExecutionPlan) (payload : P) (summary : StageExecutionSummary)
    : P * StageExecutionSummary * option CrateHookError :=
  match plan with
  | [] => (payload, summary, None)
  | group :: plan' =>
      match crate_execute_group group payload summary with
      | (payload, summary, None) => execute_plan plan' payload summary
      | (payload, summary, Some err) => (payload, count 0 0 0 0 0 true summary, Some err)
      end
  end.
Definition crate_execute (plan : HookExecutionPlan) (payload : P)
    : P * StageExecutionSummary * option CrateHookError := execute_plan plan payload default_summary.

(** *** The tasks, run concurrently *)

(** [tokio::spawn] and [join_all]: the tasks end one by one, in any order; each
    result is kept at the task's own place. *)
Local Notation Tasks := (list (option JoinResult)).
Inductive task_step (group : CrateGroup) (payload : P) : Tasks → Tasks → Prop :=
| task_ends tasks i hook :
    cg_hooks group !! i = Some hook → tasks !! i = Some None →
    task_step group payload tasks (<[i := Some (run_task (cg_timeout group) payload hook)]> tasks).
Definition spawned (group : CrateGroup) : Tasks := replicate (length (cg_hooks group)) None.
Definition all_joined (tasks : Tasks) : option (list JoinResult) := mapM id tasks.
End HooksCrate.
Arguments CrateMutation : clear implicits.
Arguments CrateHookResult : clear implicits.
Arguments CrateHookWrapper : clear implicits.
Arguments CrateGroup : clear implicits.
Arguments HookExecutionPlan : clear implicits.
Arguments HookBehaviour : clear implicits.
Arguments JoinResult : clear implicits.

(** ** Specification *)

Section Promise.
Context {P : Type} (ex : CrateHookExecutor).

Definition mutate (payload : P) (m : CrateMutation P) : P :=
  match cm_func m payload with inr updated => updated | inl _ => payload end.
(** A result that ends the plan, and what it ends with. *)
Definition stop_of (hook : CrateHookWrapper P) (j : JoinResult P) : option CrateHookError :=
  match j with
  | JoinAnswer (inl e) => if is_reject e && crate_is_rejectable (che_stage ex) then Some e else None
  | JoinAnswer (inr r) =>
      if chr_reject r && crate_is_rejectable (che_stage ex) then
        Some (HeRejected (reject_new (che_stage ex)
          {| chi_module_code := chw_module hook; chi_hook_impl_code := chw_code hook |} 0))
      else None
  | _ => None
  end.
Definition effect_of (j : JoinResult P) (payload : P) : P :=
  match j with JoinAnswer (inr r) => fold_left mutate (chr_changeset r) payload | _ => payload end.
Fixpoint group_promise (joined : list (CrateHookWrapper P * JoinResult P)) (payload : P)
    : P * option CrateHookError :=
  match joined with
  | [] => (payload, None)
  | (hook, j) :: joined' =>
      match stop_of hook j with
      | Some e => (payload, Some e)
      | None => group_promise joined' (effect_of j payload)
      end
  end.
Definition joined_of (group : CrateGroup P) (payload : P) : list (CrateHookWrapper P * JoinResult P) :=
  (λ hook, (hook, run_task ex (cg_timeout group) payload hook)) <$> cg_hooks group.
Fixpoint plan_promise (plan : HookExecutionPlan P) (payload : P) : P * option CrateHookError :=
  match plan with
  | [] => (payload, None)
  | group :: plan' =>
      match group_promise (joined_of group payload) payload with
      | (payload, None) => plan_promise plan' payload
      | stop => stop
      end
  end.

(** ** Theorems *)

Lemma apply_all_spec (c : list (CrateMutation P)) payload :
  (apply_all c payload).1 = fold_left mutate c payload ∧
  (length (apply_all c payload).2 ≤ length c)%nat.
Proof.
  unfold apply_all. assert (H : ∀ p errs,
    (fold_left apply_mutation c (p, errs)).1 = fold_left mutate c p ∧
    (length (fold_left apply_mutation c (p, errs)).2 ≤ length errs + length c)%nat).
  { induction c as [|m c IH]; intros p errs; cbn; [split; [done|lia]|].
    unfold apply_mutation at 2 4, mutate at 2. cbn.
    destruct (cm_func m p) as [e|p']; destruct (IH p (errs ++ [e])) as [H1 H2] || destruct (IH p' errs) as [H1 H2];
      rewrite ?length_app in *; cbn in *; (split; [done|lia]). }
  apply (H payload []).
Qed.

(** One result does what the promise says of it, rejects exactly where it stops,
    and is counted as a success or a timeout at most once. *)
Lemma fold_result_spec hook j payload s : ses_rejected s = false →
  let '(p, s', err) := fold_result ex hook j payload s in
  err = stop_of hook j ∧ (err = None → p = effect_of j payload ∧ ses_rejected s' = false) ∧
  (is_Some err → p = payload) ∧
  (ses_successful_hooks s' + ses_timed_out_hooks s' ≤ S (ses_successful_hooks s + ses_timed_out_hooks s))%nat.
Proof.
  intros Hs. destruct j as [[e|r]| |]; cbn.
  - destruct (is_reject e && crate_is_rejectable (che_stage ex)); destruct e; cbn; rewrite ?orb_false_r;
      split_and!; try done; try lia; naive_solver.
  - unfold crate_apply_result. destruct (apply_all_spec (chr_changeset r) payload) as [Ha _].
    destruct (apply_all (chr_changeset r) payload) as [p errs]. cbn in Ha. subst p.
    destruct (chr_reject r && crate_is_rejectable (che_stage ex));
      repeat case_bool_decide; cbn; rewrite ?Hs; cbn; rewrite ?Hs; cbn;
      split_and!; try done; try lia; naive_solver.
  - rewrite orb_false_r. split_and!; try done; lia.
  - rewrite orb_false_r. split_and!; try done; lia.
Qed.
Lemma fold_results_spec joined : ∀ payload s, ses_rejected s = false →
  let '(p, s', err) := fold_results ex joined payload s in
  (p, err) = group_promise joined payload ∧ (err = None → ses_rejected s' = false) ∧
  (ses_successful_hooks s' + ses_timed_out_hooks s' ≤
   length joined + (ses_successful_hooks s + ses_timed_out_hooks s))%nat.
Proof.
  induction joined as [|[hook j] joined IH]; intros payload s Hs; cbn; [split_and!; done|].
  pose proof (fold_result_spec hook j payload s Hs) as Hf.
  destruct (fold_result ex hook j payload s) as [[p s'] [e|]]; destruct Hf as (<-&Hnone&Hsome&Hcount).
  - rewrite (Hsome ltac:(done)). split_and!; [done|done|lia].
  - destruct (Hnone eq_refl) as [-> Hs']. specialize (IH (effect_of j payload) s' Hs').
    destruct (fold_results ex joined _ s') as [[p' s''] err]. destruct IH as (H1&H2&H3).
    split_and!; [done|done|lia].
Qed.
Lemma execute_plan_spec plan : ∀ payload s, ses_rejected s = false →
  let '(p, s', err) := execute_plan ex plan payload s in
  (p, err) = plan_promise plan payload ∧ ses_rejected s' = bool_decide (is_Some err) ∧
  (ses_successful_hooks s' + ses_timed_out_hooks s' ≤
   plan_len plan + (ses_successful_hooks s + ses_timed_out_hooks s))%nat.
Proof.
  induction plan as [|group plan IH]; intros payload s Hs; cbn.
  { split_and!; done. }
  unfold crate_execute_group. fold (joined_of group payload).
  pose proof (fold_results_spec (joined_of group payload) payload s Hs) as Hf.
  assert (Hlen : length (joined_of group payload) = length (cg_hooks group)) by apply length_fmap.
  destruct (fold_results _ _ _ _) as [[p s'] [e|]]; destruct Hf as (<-&Hrej&Hc); cbn.
  - rewrite orb_true_r. split_and!; [done|done|]. unfold plan_len. cbn. lia.
  - specialize (IH p s' (Hrej eq_refl)). destruct (execute_plan _ _ _ _) as [[p' s''] err].
    destruct IH as (H1&H2&H3). split_and!; [done|done|]. unfold plan_len in *. cbn in *. lia.
Qed.
Lemma group_promise_stop joined payload e : (group_promise joined payload).2 = Some e →
  crate_is_rejectable (che_stage ex) = true ∧ is_reject e = true.
Proof.
  revert payload. induction joined as [|[hook j] joined IH]; intros payload; cbn; [done|].
  destruct (stop_of hook j) as [e'|] eqn:Hs; [|apply IH]. cbn. intros [= ->].
  destruct j as [[e'|r]| |]; cbn in Hs; try done.
  - destruct (is_reject e') eqn:Hr, (crate_is_rejectable _); cbn in Hs; simplify_eq. done.
  - destruct (chr_reject r), (crate_is_rejectable _); cbn in Hs; simplify_eq. done.
Qed.
Lemma plan_promise_stop plan payload e : (plan_promise plan payload).2 = Some e →
  crate_is_rejectable (che_stage ex) = true ∧ is_reject e = true.
Proof.
  revert payload. induction plan as [|group plan IH]; intros payload; cbn; [done|].
  pose proof (group_promise_stop (joined_of group payload) payload) as Hg.
  destruct (group_promise _ payload) as [p [e'|]]; [|apply IH]. cbn in *. intros [= ->]. by apply Hg.
Qed.

(** The executor keeps the promise of the sequential fold: the payload with the
    mutations of every result before the first rejection, and that rejection.  Only
    a stage that may be rejected ends early, and then with a rejection; the summary
    says so, and counts no hook twice. *)
Theorem crate_execute_spec plan payload :
  let '(p, s, err) := crate_execute ex plan payload in
  (p, err) = plan_promise plan payload ∧ ses_rejected s = bool_decide (is_Some err) ∧
  (ses_successful_hooks s + ses_timed_out_hooks s ≤ plan_len plan)%nat ∧
  match err with
  | Some e => crate_is_rejectable (che_stage ex) = true ∧ is_reject e = true
  | None => True
  end.
Proof.
  unfold crate_execute. pose proof (execute_plan_spec plan payload default_summary eq_refl) as H.
  pose proof (plan_promise_stop plan payload) as Hstop.
  destruct (execute_plan _ _ _ _) as [[p s] err]. destruct H as (H1&H2&H3). cbn in H3.
  split_and!; [done|done|lia|]. destruct err as [e|]; [|done]. apply Hstop. by rewrite <-H1.
Qed.

(** *** Concurrent runs *)

Section Runs.
Context (group : CrateGroup P) (payload : P).
Notation answers := (run_task ex (cg_timeout group) payload <$> cg_hooks group).

(** A task is pending or has its hook's answer. *)
Definition tasks_ok (tasks : list (option (JoinResult P))) : Prop :=
  Forall2 (λ t a, t = None ∨ t = Some a) tasks answers.
Definition pending (tasks : list (option (JoinResult P))) : nat := length (List.filter (λ t, bool_decide (t = None)) tasks).
Lemma spawned_ok : tasks_ok (spawned group).
Proof.
  unfold tasks_ok, spawned. induction (cg_hooks group) as [|h hs IH]; constructor; [by left|done].
Qed.
Lemma task_step_ok tasks tasks' : task_step ex group payload tasks tasks' → tasks_ok tasks → tasks_ok tasks'.
Proof.
  intros [ts i hook Hh Ht] Hok. unfold tasks_ok in *. apply Forall2_lookup. intros k.
  rewrite Forall2_lookup in Hok. specialize (Hok k). destruct (decide (i = k)) as [->|Hne].
  - rewrite list_lookup_insert_eq by (by apply lookup_lt_Some in Ht).
    rewrite list_lookup_fmap, Hh. constructor. by right.
  - by rewrite list_lookup_insert_ne.
Qed.
Lemma task_step_pending tasks tasks' : task_step ex group payload tasks tasks' →
  pending tasks = S (pending tasks').
Proof.
  intros [ts i hook Hh Ht]. unfold pending. clear Hh. revert i Ht.
  induction ts as [|t ts IH]; intros [|i] Ht; cbn in Ht; try done.
  - injection Ht as ->. done.
  - cbn. specialize (IH i Ht). destruct (bool_decide (t = None)); cbn; by rewrite IH.
Qed.
Lemma task_progress tasks : tasks_ok tasks → pending tasks ≠ 0%nat → ∃ tasks', task_step ex group payload tasks tasks'.
Proof.
  intros Hok Hp. assert (Hex : ∃ i, tasks !! i = Some None).
  { unfold pending in Hp. clear Hok. induction tasks as [|t tasks IH]; [done|]. cbn in Hp.
    destruct t as [a|]; [|by exists 0%nat]. destruct IH as [i Hi]; [done|]. by exists (S i). }
  destruct Hex as [i Hi]. pose proof (Forall2_lookup_l _ _ _ _ _ Hok Hi) as (a&Ha&_).
  apply list_lookup_fmap_Some in Ha as (hook&_&Hh). eexists. by econstructor.
Qed.
Lemma all_joined_ok tasks : tasks_ok tasks → pending tasks = 0%nat → all_joined tasks = Some answers.
Proof.
  unfold tasks_ok, pending, all_joined. generalize answers. intros l Hok.
  induction Hok as [|t a tasks l [->| ->] Hok IH]; [done|by cbn|]. cbn. intros Hp. by rewrite (IH Hp).
Qed.

(** A group of hooks always finishes.  However its tasks are interleaved, a run
    takes as many steps as there are hooks, can go on until all are joined, and
    then yields their answers in the order of declaration, whatever the order they
    came in; so what the executor folds over is the same in every run. *)
Theorem group_tasks_finish :
  (∀ k tasks, nsteps (task_step ex group payload) k (spawned group) tasks →
     (k + pending tasks = length (cg_hooks group))%nat ∧
     (pending tasks ≠ 0%nat → ∃ tasks', task_step ex group payload tasks tasks') ∧
     (pending tasks = 0%nat → all_joined tasks = Some answers)) ∧
  (∃ tasks, rtc (task_step ex group payload) (spawned group) tasks ∧ all_joined tasks = Some answers) ∧
  ∀ summary, crate_execute_group ex group payload summary =
    fold_results ex (zip (cg_hooks group) answers) payload summary.
Proof.
  assert (Hinv : ∀ k ts ts', nsteps (task_step ex group payload) k ts ts' → tasks_ok ts →
    tasks_ok ts' ∧ (k + pending ts' = pending ts)%nat).
  { induction 1 as [ts|k ts1 ts2 ts3 Hstep _ IH]; intros Hok; [done|].
    destruct (IH (task_step_ok _ _ Hstep Hok)) as [H1 H2]. split; [done|].
    rewrite (task_step_pending _ _ Hstep). lia. }
  assert (Hlen : pending (spawned group) = length (cg_hooks group)).
  { unfold pending, spawned. induction (cg_hooks group); cbn; congruence. }
  split_and!.
  - intros k tasks Hk. destruct (Hinv _ _ _ Hk spawned_ok) as [Hok Hc]. rewrite Hlen in Hc.
    split_and!; [done|by apply task_progress|by apply all_joined_ok].
  - assert (Hrun : ∀ n ts, pending ts = n → tasks_ok ts →
      ∃ ts', rtc (task_step ex group payload) ts ts' ∧ pending ts' = 0%nat ∧ tasks_ok ts').
    { induction n as [|n IH]; intros ts Hp Hok; [by exists ts|].
      destruct (task_progress ts Hok ltac:(lia)) as [ts1 Hstep].
      pose proof (task_step_pending _ _ Hstep) as Hp1.
      destruct (IH ts1 ltac:(lia) (task_step_ok _ _ Hstep Hok)) as (ts'&Hr&H0&Hok').
      exists ts'. split; [by eapply rtc_l|done]. }
    destruct (Hrun _ _ eq_refl spawned_ok) as (ts&Hr&H0&Hok). exists ts. split; [done|]. by apply all_joined_ok.
  - intros summary. unfold crate_execute_group. f_equal. clear Hlen. induction (cg_hooks group) as [|h hs IH]; [done|].
    cbn. f_equal. exact IH.
Qed.
End Runs.
End Promise.

(** *** Findings *)

(** The code and the message a hook rejects with are lost. *)
Lemma rejection_code_is_lost {P} (payload : P) nbr msg :
  let hook := {| chw_module := "m"; chw_code := "h";
                 chw_handle := λ _ _, HbReturns 0 (inr (hook_result_rejected nbr msg)) |} in
  let ex := {| che_stage := CsEntrypoint; che_account_id := None; che_endpoint := "" |} in
  (crate_execute ex [{| cg_timeout := 1; cg_hooks := [hook] |}] payload).2 =
  Some (HeRejected {| rj_stage := CsEntrypoint;
    rj_hook := {| chi_module_code := "m"; chi_hook_impl_code := "h" |}; rj_nbr := 0; rj_message := "" |}).
Proof. done. Qed.
(** No hook is ever told what an earlier stage of its module stored, nor its
    account's configuration. *)
Lemma module_state_is_never_passed {P} ex (hook : CrateHookWrapper P) :
  cic_module_context (invocation_context ex hook) = ∅ ∧ cic_account_config (invocation_context ex hook) = None.
Proof. done. Qed.
