(* ===== verification/OpenRtb.v ===== *)
(** * OpenRTB 2.x data

    openrtb/src/lib.rs: the request and response objects, every struct with all
    its fields and its derived [Default].  Integers are [Z] (their Rust width is
    in the source), [f64] and [serde_json::Value] are those of [Json].  A field
    [f] of a struct is named with the struct's prefix ([req_imp], [bid_price]);
    [set_...] replaces one field, as an assignment through [&mut] does. *)

From S2P Require Import Prelude Json.

Record Format : Type := {
  fmt_w : option Z;
  fmt_h : option Z;
  fmt_wratio : option Z;
  fmt_hratio : option Z;
  fmt_wmin : option Z;
  fmt_ext : option Value;
}.
Definition default_fmt : Format := {|
  fmt_w := None; fmt_h := None; fmt_wratio := None; fmt_hratio := None; fmt_wmin := None;
  fmt_ext := None |}.

Record Banner : Type := {
  ban_format : option (list Format);
  ban_w : option Z;
  ban_h : option Z;
  ban_wmax : option Z;
  ban_hmax : option Z;
  ban_wmin : option Z;
  ban_hmin : option Z;
  ban_btype : option (list Z);
  ban_battr : option (list Z);
  ban_pos : option Z;
  ban_mimes : option (list string);
  ban_topframe : option Z;
  ban_expdir : option (list Z);
  ban_api : option (list Z);
  ban_id : option string;
  ban_vcm : option Z;
  ban_ext : option Value;
}.
Definition default_ban : Banner := {|
  ban_format := None; ban_w := None; ban_h := None; ban_wmax := None; ban_hmax := None;
  ban_wmin := None; ban_hmin := None; ban_btype := None; ban_battr := None; ban_pos := None;
  ban_mimes := None; ban_topframe := None; ban_expdir := None; ban_api := None;
  ban_id := None; ban_vcm := None; ban_ext := None |}.
Definition set_ban_format (x : option (list Format)) (r : Banner) : Banner := {|
  ban_format := x; ban_w := ban_w r; ban_h := ban_h r; ban_wmax := ban_wmax r;
  ban_hmax := ban_hmax r; ban_wmin := ban_wmin r; ban_hmin := ban_hmin r;
  ban_btype := ban_btype r; ban_battr := ban_battr r; ban_pos := ban_pos r;
  ban_mimes := ban_mimes r; ban_topframe := ban_topframe r; ban_expdir := ban_expdir r;
  ban_api := ban_api r; ban_id := ban_id r; ban_vcm := ban_vcm r; ban_ext := ban_ext r |}.
Definition set_ban_w (x : option Z) (r : Banner) : Banner := {|
  ban_format := ban_format r; ban_w := x; ban_h := ban_h r; ban_wmax := ban_wmax r;
  ban_hmax := ban_hmax r; ban_wmin := ban_wmin r; ban_hmin := ban_hmin r;
  ban_btype := ban_btype r; ban_battr := ban_battr r; ban_pos := ban_pos r;
  ban_mimes := ban_mimes r; ban_topframe := ban_topframe r; ban_expdir := ban_expdir r;
  ban_api := ban_api r; ban_id := ban_id r; ban_vcm := ban_vcm r; ban_ext := ban_ext r |}.
Definition set_ban_h (x : option Z) (r : Banner) : Banner := {|
  ban_format := ban_format r; ban_w := ban_w r; ban_h := x; ban_wmax := ban_wmax r;
  ban_hmax := ban_hmax r; ban_wmin := ban_wmin r; ban_hmin := ban_hmin r;
  ban_btype := ban_btype r; ban_battr := ban_battr r; ban_pos := ban_pos r;
  ban_mimes := ban_mimes r; ban_topframe := ban_topframe r; ban_expdir := ban_expdir r;
  ban_api := ban_api r; ban_id := ban_id r; ban_vcm := ban_vcm r; ban_ext := ban_ext r |}.
Definition set_ban_pos (x : option Z) (r : Banner) : Banner := {|
  ban_format := ban_format r; ban_w := ban_w r; ban_h := ban_h r; ban_wmax := ban_wmax r;
  ban_hmax := ban_hmax r; ban_wmin := ban_wmin r; ban_hmin := ban_hmin r;
  ban_btype := ban_btype r; ban_battr := ban_battr r; ban_pos := x;
  ban_mimes := ban_mimes r; ban_topframe := ban_topframe r; ban_expdir := ban_expdir r;
  ban_api := ban_api r; ban_id := ban_id r; ban_vcm := ban_vcm r; ban_ext := ban_ext r |}.
Definition set_ban_api (x : option (list Z)) (r : Banner) : Banner := {|
  ban_format := ban_format r; ban_w := ban_w r; ban_h := ban_h r; ban_wmax := ban_wmax r;
  ban_hmax := ban_hmax r; ban_wmin := ban_wmin r; ban_hmin := ban_hmin r;
  ban_btype := ban_btype r; ban_battr := ban_battr r; ban_pos := ban_pos r;
  ban_mimes := ban_mimes r; ban_topframe := ban_topframe r; ban_expdir := ban_expdir r;
  ban_api := x; ban_id := ban_id r; ban_vcm := ban_vcm r; ban_ext := ban_ext r |}.
Definition set_ban_ext (x : option Value) (r : Banner) : Banner := {|
  ban_format := ban_format r; ban_w := ban_w r; ban_h := ban_h r; ban_wmax := ban_wmax r;
  ban_hmax := ban_hmax r; ban_wmin := ban_wmin r; ban_hmin := ban_hmin r;
  ban_btype := ban_btype r; ban_battr := ban_battr r; ban_pos := ban_pos r;
  ban_mimes := ban_mimes r; ban_topframe := ban_topframe r; ban_expdir := ban_expdir r;
  ban_api := ban_api r; ban_id := ban_id r; ban_vcm := ban_vcm r; ban_ext := x |}.

Record Video : Type := {
  vid_mimes : option (list string);
  vid_minduration : option Z;
  vid_maxduration : option Z;
  vid_protocols : option (list Z);
  vid_protocol : option Z;
  vid_w : option Z;
  vid_h : option Z;
  vid_startdelay : option Z;
  vid_placement : option Z;
  vid_plcmt : option Z;
  vid_linearity : option Z;
  vid_skip : option Z;
  vid_skipmin : option Z;
  vid_skipafter : option Z;
  vid_sequence : option Z;
  vid_battr : option (list Z);
  vid_maxextended : option Z;
  vid_minbitrate : option Z;
  vid_maxbitrate : option Z;
  vid_boxingallowed : option Z;
  vid_playbackmethod : option (list Z);
  vid_playbackend : option Z;
  vid_delivery : option (list Z);
  vid_pos : option Z;
  vid_companionad : option (list Banner);
  vid_api : option (list Z);
  vid_companiontype : option (list Z);
  vid_ext : option Value;
}.
Definition default_vid : Video := {|
  vid_mimes := None; vid_minduration := None; vid_maxduration := None;
  vid_protocols := None; vid_protocol := None; vid_w := None; vid_h := None;
  vid_startdelay := None; vid_placement := None; vid_plcmt := None; vid_linearity := None;
  vid_skip := None; vid_skipmin := None; vid_skipafter := None; vid_sequence := None;
  vid_battr := None; vid_maxextended := None; vid_minbitrate := None;
  vid_maxbitrate := None; vid_boxingallowed := None; vid_playbackmethod := None;
  vid_playbackend := None; vid_delivery := None; vid_pos := None; vid_companionad := None;
  vid_api := None; vid_companiontype := None; vid_ext := None |}.
Definition set_vid_mimes (x : option (list string)) (r : Video) : Video := {|
  vid_mimes := x; vid_minduration := vid_minduration r;
  vid_maxduration := vid_maxduration r; vid_protocols := vid_protocols r;
  vid_protocol := vid_protocol r; vid_w := vid_w r; vid_h := vid_h r;
  vid_startdelay := vid_startdelay r; vid_placement := vid_placement r;
  vid_plcmt := vid_plcmt r; vid_linearity := vid_linearity r; vid_skip := vid_skip r;
  vid_skipmin := vid_skipmin r; vid_skipafter := vid_skipafter r;
  vid_sequence := vid_sequence r; vid_battr := vid_battr r;
  vid_maxextended := vid_maxextended r; vid_minbitrate := vid_minbitrate r;
  vid_maxbitrate := vid_maxbitrate r; vid_boxingallowed := vid_boxingallowed r;
  vid_playbackmethod := vid_playbackmethod r; vid_playbackend := vid_playbackend r;
  vid_delivery := vid_delivery r; vid_pos := vid_pos r;
  vid_companionad := vid_companionad r; vid_api := vid_api r;
  vid_companiontype := vid_companiontype r; vid_ext := vid_ext r |}.
Definition set_vid_minduration (x : option Z) (r : Video) : Video := {|
  vid_mimes := vid_mimes r; vid_minduration := x; vid_maxduration := vid_maxduration r;
  vid_protocols := vid_protocols r; vid_protocol := vid_protocol r; vid_w := vid_w r;
  vid_h := vid_h r; vid_startdelay := vid_startdelay r; vid_placement := vid_placement r;
  vid_plcmt := vid_plcmt r; vid_linearity := vid_linearity r; vid_skip := vid_skip r;
  vid_skipmin := vid_skipmin r; vid_skipafter := vid_skipafter r;
  vid_sequence := vid_sequence r; vid_battr := vid_battr r;
  vid_maxextended := vid_maxextended r; vid_minbitrate := vid_minbitrate r;
  vid_maxbitrate := vid_maxbitrate r; vid_boxingallowed := vid_boxingallowed r;
  vid_playbackmethod := vid_playbackmethod r; vid_playbackend := vid_playbackend r;
  vid_delivery := vid_delivery r; vid_pos := vid_pos r;
  vid_companionad := vid_companionad r; vid_api := vid_api r;
  vid_companiontype := vid_companiontype r; vid_ext := vid_ext r |}.
Definition set_vid_maxduration (x : option Z) (r : Video) : Video := {|
  vid_mimes := vid_mimes r; vid_minduration := vid_minduration r; vid_maxduration := x;
  vid_protocols := vid_protocols r; vid_protocol := vid_protocol r; vid_w := vid_w r;
  vid_h := vid_h r; vid_startdelay := vid_startdelay r; vid_placement := vid_placement r;
  vid_plcmt := vid_plcmt r; vid_linearity := vid_linearity r; vid_skip := vid_skip r;
  vid_skipmin := vid_skipmin r; vid_skipafter := vid_skipafter r;
  vid_sequence := vid_sequence r; vid_battr := vid_battr r;
  vid_maxextended := vid_maxextended r; vid_minbitrate := vid_minbitrate r;
  vid_maxbitrate := vid_maxbitrate r; vid_boxingallowed := vid_boxingallowed r;
  vid_playbackmethod := vid_playbackmethod r; vid_playbackend := vid_playbackend r;
  vid_delivery := vid_delivery r; vid_pos := vid_pos r;
  vid_companionad := vid_companionad r; vid_api := vid_api r;
  vid_companiontype := vid_companiontype r; vid_ext := vid_ext r |}.
Definition set_vid_protocols (x : option (list Z)) (r : Video) : Video := {|
  vid_mimes := vid_mimes r; vid_minduration := vid_minduration r;
  vid_maxduration := vid_maxduration r; vid_protocols := x; vid_protocol := vid_protocol r;
  vid_w := vid_w r; vid_h := vid_h r; vid_startdelay := vid_startdelay r;
  vid_placement := vid_placement r; vid_plcmt := vid_plcmt r;
  vid_linearity := vid_linearity r; vid_skip := vid_skip r; vid_skipmin := vid_skipmin r;
  vid_skipafter := vid_skipafter r; vid_sequence := vid_sequence r;
  vid_battr := vid_battr r; vid_maxextended := vid_maxextended r;
  vid_minbitrate := vid_minbitrate r; vid_maxbitrate := vid_maxbitrate r;
  vid_boxingallowed := vid_boxingallowed r; vid_playbackmethod := vid_playbackmethod r;
  vid_playbackend := vid_playbackend r; vid_delivery := vid_delivery r;
  vid_pos := vid_pos r; vid_companionad := vid_companionad r; vid_api := vid_api r;
  vid_companiontype := vid_companiontype r; vid_ext := vid_ext r |}.
Definition set_vid_w (x : option Z) (r : Video) : Video := {|
  vid_mimes := vid_mimes r; vid_minduration := vid_minduration r;
  vid_maxduration := vid_maxduration r; vid_protocols := vid_protocols r;
  vid_protocol := vid_protocol r; vid_w := x; vid_h := vid_h r;
  vid_startdelay := vid_startdelay r; vid_placement := vid_placement r;
  vid_plcmt := vid_plcmt r; vid_linearity := vid_linearity r; vid_skip := vid_skip r;
  vid_skipmin := vid_skipmin r; vid_skipafter := vid_skipafter r;
  vid_sequence := vid_sequence r; vid_battr := vid_battr r;
  vid_maxextended := vid_maxextended r; vid_minbitrate := vid_minbitrate r;
  vid_maxbitrate := vid_maxbitrate r; vid_boxingallowed := vid_boxingallowed r;
  vid_playbackmethod := vid_playbackmethod r; vid_playbackend := vid_playbackend r;
  vid_delivery := vid_delivery r; vid_pos := vid_pos r;
  vid_companionad := vid_companionad r; vid_api := vid_api r;
  vid_companiontype := vid_companiontype r; vid_ext := vid_ext r |}.
Definition set_vid_h (x : option Z) (r : Video) : Video := {|
  vid_mimes := vid_mimes r; vid_minduration := vid_minduration r;
  vid_maxduration := vid_maxduration r; vid_protocols := vid_protocols r;
  vid_protocol := vid_protocol r; vid_w := vid_w r; vid_h := x;
  vid_startdelay := vid_startdelay r; vid_placement := vid_placement r;
  vid_plcmt := vid_plcmt r; vid_linearity := vid_linearity r; vid_skip := vid_skip r;
  vid_skipmin := vid_skipmin r; vid_skipafter := vid_skipafter r;
  vid_sequence := vid_sequence r; vid_battr := vid_battr r;
  vid_maxextended := vid_maxextended r; vid_minbitrate := vid_minbitrate r;
  vid_maxbitrate := vid_maxbitrate r; vid_boxingallowed := vid_boxingallowed r;
  vid_playbackmethod := vid_playbackmethod r; vid_playbackend := vid_playbackend r;
  vid_delivery := vid_delivery r; vid_pos := vid_pos r;
  vid_companionad := vid_companionad r; vid_api := vid_api r;
  vid_companiontype := vid_companiontype r; vid_ext := vid_ext r |}.
Definition set_vid_startdelay (x : option Z) (r : Video) : Video := {|
  vid_mimes := vid_mimes r; vid_minduration := vid_minduration r;
  vid_maxduration := vid_maxduration r; vid_protocols := vid_protocols r;
  vid_protocol := vid_protocol r; vid_w := vid_w r; vid_h := vid_h r; vid_startdelay := x;
  vid_placement := vid_placement r; vid_plcmt := vid_plcmt r;
  vid_linearity := vid_linearity r; vid_skip := vid_skip r; vid_skipmin := vid_skipmin r;
  vid_skipafter := vid_skipafter r; vid_sequence := vid_sequence r;
  vid_battr := vid_battr r; vid_maxextended := vid_maxextended r;
  vid_minbitrate := vid_minbitrate r; vid_maxbitrate := vid_maxbitrate r;
  vid_boxingallowed := vid_boxingallowed r; vid_playbackmethod := vid_playbackmethod r;
  vid_playbackend := vid_playbackend r; vid_delivery := vid_delivery r;
  vid_pos := vid_pos r; vid_companionad := vid_companionad r; vid_api := vid_api r;
  vid_companiontype := vid_companiontype r; vid_ext := vid_ext r |}.
Definition set_vid_pos (x : option Z) (r : Video) : Video := {|
  vid_mimes := vid_mimes r; vid_minduration := vid_minduration r;
  vid_maxduration := vid_maxduration r; vid_protocols := vid_protocols r;
  vid_protocol := vid_protocol r; vid_w := vid_w r; vid_h := vid_h r;
  vid_startdelay := vid_startdelay r; vid_placement := vid_placement r;
  vid_plcmt := vid_plcmt r; vid_linearity := vid_linearity r; vid_skip := vid_skip r;
  vid_skipmin := vid_skipmin r; vid_skipafter := vid_skipafter r;
  vid_sequence := vid_sequence r; vid_battr := vid_battr r;
  vid_maxextended := vid_maxextended r; vid_minbitrate := vid_minbitrate r;
  vid_maxbitrate := vid_maxbitrate r; vid_boxingallowed := vid_boxingallowed r;
  vid_playbackmethod := vid_playbackmethod r; vid_playbackend := vid_playbackend r;
  vid_delivery := vid_delivery r; vid_pos := x; vid_companionad := vid_companionad r;
  vid_api := vid_api r; vid_companiontype := vid_companiontype r; vid_ext := vid_ext r |}.
Definition set_vid_api (x : option (list Z)) (r : Video) : Video := {|
  vid_mimes := vid_mimes r; vid_minduration := vid_minduration r;
  vid_maxduration := vid_maxduration r; vid_protocols := vid_protocols r;
  vid_protocol := vid_protocol r; vid_w := vid_w r; vid_h := vid_h r;
  vid_startdelay := vid_startdelay r; vid_placement := vid_placement r;
  vid_plcmt := vid_plcmt r; vid_linearity := vid_linearity r; vid_skip := vid_skip r;
  vid_skipmin := vid_skipmin r; vid_skipafter := vid_skipafter r;
  vid_sequence := vid_sequence r; vid_battr := vid_battr r;
  vid_maxextended := vid_maxextended r; vid_minbitrate := vid_minbitrate r;
  vid_maxbitrate := vid_maxbitrate r; vid_boxingallowed := vid_boxingallowed r;
  vid_playbackmethod := vid_playbackmethod r; vid_playbackend := vid_playbackend r;
  vid_delivery := vid_delivery r; vid_pos := vid_pos r;
  vid_companionad := vid_companionad r; vid_api := x;
  vid_companiontype := vid_companiontype r; vid_ext := vid_ext r |}.
Definition set_vid_ext (x : option Value) (r : Video) : Video := {|
  vid_mimes := vid_mimes r; vid_minduration := vid_minduration r;
  vid_maxduration := vid_maxduration r; vid_protocols := vid_protocols r;
  vid_protocol := vid_protocol r; vid_w := vid_w r; vid_h := vid_h r;
  vid_startdelay := vid_startdelay r; vid_placement := vid_placement r;
  vid_plcmt := vid_plcmt r; vid_linearity := vid_linearity r; vid_skip := vid_skip r;
  vid_skipmin := vid_skipmin r; vid_skipafter := vid_skipafter r;
  vid_sequence := vid_sequence r; vid_battr := vid_battr r;
  vid_maxextended := vid_maxextended r; vid_minbitrate := vid_minbitrate r;
  vid_maxbitrate := vid_maxbitrate r; vid_boxingallowed := vid_boxingallowed r;
  vid_playbackmethod := vid_playbackmethod r; vid_playbackend := vid_playbackend r;
  vid_delivery := vid_delivery r; vid_pos := vid_pos r;
  vid_companionad := vid_companionad r; vid_api := vid_api r;
  vid_companiontype := vid_companiontype r; vid_ext := x |}.

Record Audio : Type := {
  aud_mimes : option (list string);
  aud_minduration : option Z;
  aud_maxduration : option Z;
  aud_protocols : option (list Z);
  aud_startdelay : option Z;
  aud_sequence : option Z;
  aud_battr : option (list Z);
  aud_maxextended : option Z;
  aud_minbitrate : option Z;
  aud_maxbitrate : option Z;
  aud_delivery : option (list Z);
  aud_companionad : option (list Banner);
  aud_api : option (list Z);
  aud_companiontype : option (list Z);
  aud_maxseq : option Z;
  aud_feed : option Z;
  aud_stitched : option Z;
  aud_nvol : option Z;
  aud_ext : option Value;
}.
Definition default_aud : Audio := {|
  aud_mimes := None; aud_minduration := None; aud_maxduration := None;
  aud_protocols := None; aud_startdelay := None; aud_sequence := None; aud_battr := None;
  aud_maxextended := None; aud_minbitrate := None; aud_maxbitrate := None;
  aud_delivery := None; aud_companionad := None; aud_api := None; aud_companiontype := None;
  aud_maxseq := None; aud_feed := None; aud_stitched := None; aud_nvol := None;
  aud_ext := None |}.

Record Native : Type := {
  ntv_request : option string;
  ntv_ver : option string;
  ntv_api : option (list Z);
  ntv_battr : option (list Z);
  ntv_ext : option Value;
}.
Definition default_ntv : Native := {|
  ntv_request := None; ntv_ver := None; ntv_api := None; ntv_battr := None; ntv_ext := None |}.
Definition set_ntv_request (x : option string) (r : Native) : Native := {|
  ntv_request := x; ntv_ver := ntv_ver r; ntv_api := ntv_api r; ntv_battr := ntv_battr r;
  ntv_ext := ntv_ext r |}.

Record Deal : Type := {
  deal_id : string;
  deal_bidfloor : option f64;
  deal_bidfloorcur : option string;
  deal_at : option Z;
  deal_wseat : option (list string);
  deal_wadomain : option (list string);
  deal_ext : option Value;
}.
Definition default_deal : Deal := {|
  deal_id := ""; deal_bidfloor := None; deal_bidfloorcur := None; deal_at := None;
  deal_wseat := None; deal_wadomain := None; deal_ext := None |}.

Record Pmp : Type := {
  pmp_private_auction : option Z;
  pmp_deals : list Deal;
  pmp_ext : option Value;
}.
Definition default_pmp : Pmp := {|
  pmp_private_auction := None; pmp_deals := []; pmp_ext := None |}.

Record Qty : Type := {
  qty_multiplier : option f64;
  qty_sourcetype : option Z;
  qty_vendor : option string;
  qty_ext : option Value;
}.
Definition default_qty : Qty := {|
  qty_multiplier := None; qty_sourcetype := None; qty_vendor := None; qty_ext := None |}.

Record RefSettings : Type := {
  rset_reftype : option Z;
  rset_minint : option Z;
  rset_ext : option Value;
}.
Definition default_rset : RefSettings := {|
  rset_reftype := None; rset_minint := None; rset_ext := None |}.

Record Refresh : Type := {
  refr_refsettings : option (list RefSettings);
  refr_count : option Z;
  refr_ext : option Value;
}.
Definition default_refr : Refresh := {|
  refr_refsettings := None; refr_count := None; refr_ext := None |}.

Record Metric : Type := {
  met_metric_type : string;
  met_value : f64;
  met_vendor : option string;
  met_ext : option Value;
}.
Definition default_met : Metric := {|
  met_metric_type := ""; met_value := f64_zero; met_vendor := None; met_ext := None |}.

Record Imp : Type := {
  imp_id : string;
  imp_banner : option Banner;
  imp_video : option Video;
  imp_audio : option Audio;
  imp_native : option Native;
  imp_pmp : option Pmp;
  imp_displaymanager : option string;
  imp_displaymanagerver : option string;
  imp_instl : option Z;
  imp_tagid : option string;
  imp_bidfloor : option f64;
  imp_bidfloorcur : option string;
  imp_clickbrowser : option Z;
  imp_secure : option Z;
  imp_iframebuster : option (list string);
  imp_rwdd : option Z;
  imp_ssai : option Z;
  imp_exp : option Z;
  imp_qty : option Qty;
  imp_dt : option f64;
  imp_refresh : option Refresh;
  imp_metric : option (list Metric);
  imp_ext : option Value;
}.
Definition default_imp : Imp := {|
  imp_id := ""; imp_banner := None; imp_video := None; imp_audio := None;
  imp_native := None; imp_pmp := None; imp_displaymanager := None;
  imp_displaymanagerver := None; imp_instl := None; imp_tagid := None; imp_bidfloor := None;
  imp_bidfloorcur := None; imp_clickbrowser := None; imp_secure := None;
  imp_iframebuster := None; imp_rwdd := None; imp_ssai := None; imp_exp := None;
  imp_qty := None; imp_dt := None; imp_refresh := None; imp_metric := None; imp_ext := None |}.
Definition set_imp_id (x : string) (r : Imp) : Imp := {|
  imp_id := x; imp_banner := imp_banner r; imp_video := imp_video r;
  imp_audio := imp_audio r; imp_native := imp_native r; imp_pmp := imp_pmp r;
  imp_displaymanager := imp_displaymanager r;
  imp_displaymanagerver := imp_displaymanagerver r; imp_instl := imp_instl r;
  imp_tagid := imp_tagid r; imp_bidfloor := imp_bidfloor r;
  imp_bidfloorcur := imp_bidfloorcur r; imp_clickbrowser := imp_clickbrowser r;
  imp_secure := imp_secure r; imp_iframebuster := imp_iframebuster r;
  imp_rwdd := imp_rwdd r; imp_ssai := imp_ssai r; imp_exp := imp_exp r;
  imp_qty := imp_qty r; imp_dt := imp_dt r; imp_refresh := imp_refresh r;
  imp_metric := imp_metric r; imp_ext := imp_ext r |}.
Definition set_imp_banner (x : option Banner) (r : Imp) : Imp := {|
  imp_id := imp_id r; imp_banner := x; imp_video := imp_video r; imp_audio := imp_audio r;
  imp_native := imp_native r; imp_pmp := imp_pmp r;
  imp_displaymanager := imp_displaymanager r;
  imp_displaymanagerver := imp_displaymanagerver r; imp_instl := imp_instl r;
  imp_tagid := imp_tagid r; imp_bidfloor := imp_bidfloor r;
  imp_bidfloorcur := imp_bidfloorcur r; imp_clickbrowser := imp_clickbrowser r;
  imp_secure := imp_secure r; imp_iframebuster := imp_iframebuster r;
  imp_rwdd := imp_rwdd r; imp_ssai := imp_ssai r; imp_exp := imp_exp r;
  imp_qty := imp_qty r; imp_dt := imp_dt r; imp_refresh := imp_refresh r;
  imp_metric := imp_metric r; imp_ext := imp_ext r |}.
Definition set_imp_video (x : option Video) (r : Imp) : Imp := {|
  imp_id := imp_id r; imp_banner := imp_banner r; imp_video := x; imp_audio := imp_audio r;
  imp_native := imp_native r; imp_pmp := imp_pmp r;
  imp_displaymanager := imp_displaymanager r;
  imp_displaymanagerver := imp_displaymanagerver r; imp_instl := imp_instl r;
  imp_tagid := imp_tagid r; imp_bidfloor := imp_bidfloor r;
  imp_bidfloorcur := imp_bidfloorcur r; imp_clickbrowser := imp_clickbrowser r;
  imp_secure := imp_secure r; imp_iframebuster := imp_iframebuster r;
  imp_rwdd := imp_rwdd r; imp_ssai := imp_ssai r; imp_exp := imp_exp r;
  imp_qty := imp_qty r; imp_dt := imp_dt r; imp_refresh := imp_refresh r;
  imp_metric := imp_metric r; imp_ext := imp_ext r |}.
Definition set_imp_audio (x : option Audio) (r : Imp) : Imp := {|
  imp_id := imp_id r; imp_banner := imp_banner r; imp_video := imp_video r; imp_audio := x;
  imp_native := imp_native r; imp_pmp := imp_pmp r;
  imp_displaymanager := imp_displaymanager r;
  imp_displaymanagerver := imp_displaymanagerver r; imp_instl := imp_instl r;
  imp_tagid := imp_tagid r; imp_bidfloor := imp_bidfloor r;
  imp_bidfloorcur := imp_bidfloorcur r; imp_clickbrowser := imp_clickbrowser r;
  imp_secure := imp_secure r; imp_iframebuster := imp_iframebuster r;
  imp_rwdd := imp_rwdd r; imp_ssai := imp_ssai r; imp_exp := imp_exp r;
  imp_qty := imp_qty r; imp_dt := imp_dt r; imp_refresh := imp_refresh r;
  imp_metric := imp_metric r; imp_ext := imp_ext r |}.
Definition set_imp_native (x : option Native) (r : Imp) : Imp := {|
  imp_id := imp_id r; imp_banner := imp_banner r; imp_video := imp_video r;
  imp_audio := imp_audio r; imp_native := x; imp_pmp := imp_pmp r;
  imp_displaymanager := imp_displaymanager r;
  imp_displaymanagerver := imp_displaymanagerver r; imp_instl := imp_instl r;
  imp_tagid := imp_tagid r; imp_bidfloor := imp_bidfloor r;
  imp_bidfloorcur := imp_bidfloorcur r; imp_clickbrowser := imp_clickbrowser r;
  imp_secure := imp_secure r; imp_iframebuster := imp_iframebuster r;
  imp_rwdd := imp_rwdd r; imp_ssai := imp_ssai r; imp_exp := imp_exp r;
  imp_qty := imp_qty r; imp_dt := imp_dt r; imp_refresh := imp_refresh r;
  imp_metric := imp_metric r; imp_ext := imp_ext r |}.
Definition set_imp_pmp (x : option Pmp) (r : Imp) : Imp := {|
  imp_id := imp_id r; imp_banner := imp_banner r; imp_video := imp_video r;
  imp_audio := imp_audio r; imp_native := imp_native r; imp_pmp := x;
  imp_displaymanager := imp_displaymanager r;
  imp_displaymanagerver := imp_displaymanagerver r; imp_instl := imp_instl r;
  imp_tagid := imp_tagid r; imp_bidfloor := imp_bidfloor r;
  imp_bidfloorcur := imp_bidfloorcur r; imp_clickbrowser := imp_clickbrowser r;
  imp_secure := imp_secure r; imp_iframebuster := imp_iframebuster r;
  imp_rwdd := imp_rwdd r; imp_ssai := imp_ssai r; imp_exp := imp_exp r;
  imp_qty := imp_qty r; imp_dt := imp_dt r; imp_refresh := imp_refresh r;
  imp_metric := imp_metric r; imp_ext := imp_ext r |}.
Definition set_imp_displaymanager (x : option string) (r : Imp) : Imp := {|
  imp_id := imp_id r; imp_banner := imp_banner r; imp_video := imp_video r;
  imp_audio := imp_audio r; imp_native := imp_native r; imp_pmp := imp_pmp r;
  imp_displaymanager := x; imp_displaymanagerver := imp_displaymanagerver r;
  imp_instl := imp_instl r; imp_tagid := imp_tagid r; imp_bidfloor := imp_bidfloor r;
  imp_bidfloorcur := imp_bidfloorcur r; imp_clickbrowser := imp_clickbrowser r;
  imp_secure := imp_secure r; imp_iframebuster := imp_iframebuster r;
  imp_rwdd := imp_rwdd r; imp_ssai := imp_ssai r; imp_exp := imp_exp r;
  imp_qty := imp_qty r; imp_dt := imp_dt r; imp_refresh := imp_refresh r;
  imp_metric := imp_metric r; imp_ext := imp_ext r |}.
Definition set_imp_displaymanagerver (x : option string) (r : Imp) : Imp := {|
  imp_id := imp_id r; imp_banner := imp_banner r; imp_video := imp_video r;
  imp_audio := imp_audio r; imp_native := imp_native r; imp_pmp := imp_pmp r;
  imp_displaymanager := imp_displaymanager r; imp_displaymanagerver := x;
  imp_instl := imp_instl r; imp_tagid := imp_tagid r; imp_bidfloor := imp_bidfloor r;
  imp_bidfloorcur := imp_bidfloorcur r; imp_clickbrowser := imp_clickbrowser r;
  imp_secure := imp_secure r; imp_iframebuster := imp_iframebuster r;
  imp_rwdd := imp_rwdd r; imp_ssai := imp_ssai r; imp_exp := imp_exp r;
  imp_qty := imp_qty r; imp_dt := imp_dt r; imp_refresh := imp_refresh r;
  imp_metric := imp_metric r; imp_ext := imp_ext r |}.
Definition set_imp_instl (x : option Z) (r : Imp) : Imp := {|
  imp_id := imp_id r; imp_banner := imp_banner r; imp_video := imp_video r;
  imp_audio := imp_audio r; imp_native := imp_native r; imp_pmp := imp_pmp r;
  imp_displaymanager := imp_displaymanager r;
  imp_displaymanagerver := imp_displaymanagerver r; imp_instl := x;
  imp_tagid := imp_tagid r; imp_bidfloor := imp_bidfloor r;
  imp_bidfloorcur := imp_bidfloorcur r; imp_clickbrowser := imp_clickbrowser r;
  imp_secure := imp_secure r; imp_iframebuster := imp_iframebuster r;
  imp_rwdd := imp_rwdd r; imp_ssai := imp_ssai r; imp_exp := imp_exp r;
  imp_qty := imp_qty r; imp_dt := imp_dt r; imp_refresh := imp_refresh r;
  imp_metric := imp_metric r; imp_ext := imp_ext r |}.
Definition set_imp_tagid (x : option string) (r : Imp) : Imp := {|
  imp_id := imp_id r; imp_banner := imp_banner r; imp_video := imp_video r;
  imp_audio := imp_audio r; imp_native := imp_native r; imp_pmp := imp_pmp r;
  imp_displaymanager := imp_displaymanager r;
  imp_displaymanagerver := imp_displaymanagerver r; imp_instl := imp_instl r;
  imp_tagid := x; imp_bidfloor := imp_bidfloor r; imp_bidfloorcur := imp_bidfloorcur r;
  imp_clickbrowser := imp_clickbrowser r; imp_secure := imp_secure r;
  imp_iframebuster := imp_iframebuster r; imp_rwdd := imp_rwdd r; imp_ssai := imp_ssai r;
  imp_exp := imp_exp r; imp_qty := imp_qty r; imp_dt := imp_dt r;
  imp_refresh := imp_refresh r; imp_metric := imp_metric r; imp_ext := imp_ext r |}.
Definition set_imp_bidfloor (x : option f64) (r : Imp) : Imp := {|
  imp_id := imp_id r; imp_banner := imp_banner r; imp_video := imp_video r;
  imp_audio := imp_audio r; imp_native := imp_native r; imp_pmp := imp_pmp r;
  imp_displaymanager := imp_displaymanager r;
  imp_displaymanagerver := imp_displaymanagerver r; imp_instl := imp_instl r;
  imp_tagid := imp_tagid r; imp_bidfloor := x; imp_bidfloorcur := imp_bidfloorcur r;
  imp_clickbrowser := imp_clickbrowser r; imp_secure := imp_secure r;
  imp_iframebuster := imp_iframebuster r; imp_rwdd := imp_rwdd r; imp_ssai := imp_ssai r;
  imp_exp := imp_exp r; imp_qty := imp_qty r; imp_dt := imp_dt r;
  imp_refresh := imp_refresh r; imp_metric := imp_metric r; imp_ext := imp_ext r |}.
Definition set_imp_bidfloorcur (x : option string) (r : Imp) : Imp := {|
  imp_id := imp_id r; imp_banner := imp_banner r; imp_video := imp_video r;
  imp_audio := imp_audio r; imp_native := imp_native r; imp_pmp := imp_pmp r;
  imp_displaymanager := imp_displaymanager r;
  imp_displaymanagerver := imp_displaymanagerver r; imp_instl := imp_instl r;
  imp_tagid := imp_tagid r; imp_bidfloor := imp_bidfloor r; imp_bidfloorcur := x;
  imp_clickbrowser := imp_clickbrowser r; imp_secure := imp_secure r;
  imp_iframebuster := imp_iframebuster r; imp_rwdd := imp_rwdd r; imp_ssai := imp_ssai r;
  imp_exp := imp_exp r; imp_qty := imp_qty r; imp_dt := imp_dt r;
  imp_refresh := imp_refresh r; imp_metric := imp_metric r; imp_ext := imp_ext r |}.
Definition set_imp_secure (x : option Z) (r : Imp) : Imp := {|
  imp_id := imp_id r; imp_banner := imp_banner r; imp_video := imp_video r;
  imp_audio := imp_audio r; imp_native := imp_native r; imp_pmp := imp_pmp r;
  imp_displaymanager := imp_displaymanager r;
  imp_displaymanagerver := imp_displaymanagerver r; imp_instl := imp_instl r;
  imp_tagid := imp_tagid r; imp_bidfloor := imp_bidfloor r;
  imp_bidfloorcur := imp_bidfloorcur r; imp_clickbrowser := imp_clickbrowser r;
  imp_secure := x; imp_iframebuster := imp_iframebuster r; imp_rwdd := imp_rwdd r;
  imp_ssai := imp_ssai r; imp_exp := imp_exp r; imp_qty := imp_qty r; imp_dt := imp_dt r;
  imp_refresh := imp_refresh r; imp_metric := imp_metric r; imp_ext := imp_ext r |}.
Definition set_imp_rwdd (x : option Z) (r : Imp) : Imp := {|
  imp_id := imp_id r; imp_banner := imp_banner r; imp_video := imp_video r;
  imp_audio := imp_audio r; imp_native := imp_native r; imp_pmp := imp_pmp r;
  imp_displaymanager := imp_displaymanager r;
  imp_displaymanagerver := imp_displaymanagerver r; imp_instl := imp_instl r;
  imp_tagid := imp_tagid r; imp_bidfloor := imp_bidfloor r;
  imp_bidfloorcur := imp_bidfloorcur r; imp_clickbrowser := imp_clickbrowser r;
  imp_secure := imp_secure r; imp_iframebuster := imp_iframebuster r; imp_rwdd := x;
  imp_ssai := imp_ssai r; imp_exp := imp_exp r; imp_qty := imp_qty r; imp_dt := imp_dt r;
  imp_refresh := imp_refresh r; imp_metric := imp_metric r; imp_ext := imp_ext r |}.
Definition set_imp_ext (x : option Value) (r : Imp) : Imp := {|
  imp_id := imp_id r; imp_banner := imp_banner r; imp_video := imp_video r;
  imp_audio := imp_audio r; imp_native := imp_native r; imp_pmp := imp_pmp r;
  imp_displaymanager := imp_displaymanager r;
  imp_displaymanagerver := imp_displaymanagerver r; imp_instl := imp_instl r;
  imp_tagid := imp_tagid r; imp_bidfloor := imp_bidfloor r;
  imp_bidfloorcur := imp_bidfloorcur r; imp_clickbrowser := imp_clickbrowser r;
  imp_secure := imp_secure r; imp_iframebuster := imp_iframebuster r;
  imp_rwdd := imp_rwdd r; imp_ssai := imp_ssai r; imp_exp := imp_exp r;
  imp_qty := imp_qty r; imp_dt := imp_dt r; imp_refresh := imp_refresh r;
  imp_metric := imp_metric r; imp_ext := x |}.

Record Publisher : Type := {
  pub_id : option string;
  pub_name : option string;
  pub_cattax : option Z;
  pub_cat : option (list string);
  pub_domain : option string;
  pub_ext : option Value;
}.
Definition default_pub : Publisher := {|
  pub_id := None; pub_name := None; pub_cattax := None; pub_cat := None; pub_domain := None;
  pub_ext := None |}.
Definition set_pub_id (x : option string) (r : Publisher) : Publisher := {|
  pub_id := x; pub_name := pub_name r; pub_cattax := pub_cattax r; pub_cat := pub_cat r;
  pub_domain := pub_domain r; pub_ext := pub_ext r |}.
Definition set_pub_name (x : option string) (r : Publisher) : Publisher := {|
  pub_id := pub_id r; pub_name := x; pub_cattax := pub_cattax r; pub_cat := pub_cat r;
  pub_domain := pub_domain r; pub_ext := pub_ext r |}.
Definition set_pub_ext (x : option Value) (r : Publisher) : Publisher := {|
  pub_id := pub_id r; pub_name := pub_name r; pub_cattax := pub_cattax r;
  pub_cat := pub_cat r; pub_domain := pub_domain r; pub_ext := x |}.

Record Producer : Type := {
  prod_id : option string;
  prod_name : option string;
  prod_cattax : option Z;
  prod_cat : option (list string);
  prod_domain : option string;
  prod_ext : option Value;
}.
Definition default_prod : Producer := {|
  prod_id := None; prod_name := None; prod_cattax := None; prod_cat := None;
  prod_domain := None; prod_ext := None |}.

Record Segment : Type := {
  seg_id : option string;
  seg_name : option string;
  seg_value : option string;
  seg_ext : option Value;
}.
Definition default_seg : Segment := {|
  seg_id := None; seg_name := None; seg_value := None; seg_ext := None |}.

Record Data : Type := {
  data_id : option string;
  data_name : option string;
  data_segment : list Segment;
  data_ext : option Value;
}.
Definition default_data : Data := {|
  data_id := None; data_name := None; data_segment := []; data_ext := None |}.

Record Content : Type := {
  cnt_id : option string;
  cnt_episode : option Z;
  cnt_title : option string;
  cnt_series : option string;
  cnt_season : option string;
  cnt_artist : option string;
  cnt_genre : option string;
  cnt_album : option string;
  cnt_isrc : option string;
  cnt_producer : option Producer;
  cnt_url : option string;
  cnt_cat : option (list string);
  cnt_cattax : option Z;
  cnt_prodq : option Z;
  cnt_videoquality : option Z;
  cnt_context : option Z;
  cnt_contentrating : option string;
  cnt_userrating : option string;
  cnt_qagmediarating : option Z;
  cnt_keywords : option string;
  cnt_livestream : option Z;
  cnt_sourcerelationship : option Z;
  cnt_len : option Z;
  cnt_language : option string;
  cnt_langb : option string;
  cnt_embeddable : option Z;
  cnt_data : list Data;
  cnt_ext : option Value;
}.
Definition default_cnt : Content := {|
  cnt_id := None; cnt_episode := None; cnt_title := None; cnt_series := None;
  cnt_season := None; cnt_artist := None; cnt_genre := None; cnt_album := None;
  cnt_isrc := None; cnt_producer := None; cnt_url := None; cnt_cat := None;
  cnt_cattax := None; cnt_prodq := None; cnt_videoquality := None; cnt_context := None;
  cnt_contentrating := None; cnt_userrating := None; cnt_qagmediarating := None;
  cnt_keywords := None; cnt_livestream := None; cnt_sourcerelationship := None;
  cnt_len := None; cnt_language := None; cnt_langb := None; cnt_embeddable := None;
  cnt_data := []; cnt_ext := None |}.
Definition set_cnt_data (x : list Data) (r : Content) : Content := {|
  cnt_id := cnt_id r; cnt_episode := cnt_episode r; cnt_title := cnt_title r;
  cnt_series := cnt_series r; cnt_season := cnt_season r; cnt_artist := cnt_artist r;
  cnt_genre := cnt_genre r; cnt_album := cnt_album r; cnt_isrc := cnt_isrc r;
  cnt_producer := cnt_producer r; cnt_url := cnt_url r; cnt_cat := cnt_cat r;
  cnt_cattax := cnt_cattax r; cnt_prodq := cnt_prodq r;
  cnt_videoquality := cnt_videoquality r; cnt_context := cnt_context r;
  cnt_contentrating := cnt_contentrating r; cnt_userrating := cnt_userrating r;
  cnt_qagmediarating := cnt_qagmediarating r; cnt_keywords := cnt_keywords r;
  cnt_livestream := cnt_livestream r; cnt_sourcerelationship := cnt_sourcerelationship r;
  cnt_len := cnt_len r; cnt_language := cnt_language r; cnt_langb := cnt_langb r;
  cnt_embeddable := cnt_embeddable r; cnt_data := x; cnt_ext := cnt_ext r |}.

Record Site : Type := {
  site_id : option string;
  site_name : option string;
  site_domain : option string;
  site_cattax : option Z;
  site_cat : option (list string);
  site_sectioncat : option (list string);
  site_pagecat : option (list string);
  site_page : option string;
  site_ref_ : option string;
  site_search : option string;
  site_mobile : option Z;
  site_privacypolicy : option Z;
  site_publisher : option Publisher;
  site_content : option Content;
  site_keywords : option string;
  site_ext : option Value;
}.
Definition default_site : Site := {|
  site_id := None; site_name := None; site_domain := None; site_cattax := None;
  site_cat := None; site_sectioncat := None; site_pagecat := None; site_page := None;
  site_ref_ := None; site_search := None; site_mobile := None; site_privacypolicy := None;
  site_publisher := None; site_content := None; site_keywords := None; site_ext := None |}.
Definition set_site_id (x : option string) (r : Site) : Site := {|
  site_id := x; site_name := site_name r; site_domain := site_domain r;
  site_cattax := site_cattax r; site_cat := site_cat r;
  site_sectioncat := site_sectioncat r; site_pagecat := site_pagecat r;
  site_page := site_page r; site_ref_ := site_ref_ r; site_search := site_search r;
  site_mobile := site_mobile r; site_privacypolicy := site_privacypolicy r;
  site_publisher := site_publisher r; site_content := site_content r;
  site_keywords := site_keywords r; site_ext := site_ext r |}.
Definition set_site_page (x : option string) (r : Site) : Site := {|
  site_id := site_id r; site_name := site_name r; site_domain := site_domain r;
  site_cattax := site_cattax r; site_cat := site_cat r;
  site_sectioncat := site_sectioncat r; site_pagecat := site_pagecat r; site_page := x;
  site_ref_ := site_ref_ r; site_search := site_search r; site_mobile := site_mobile r;
  site_privacypolicy := site_privacypolicy r; site_publisher := site_publisher r;
  site_content := site_content r; site_keywords := site_keywords r; site_ext := site_ext r |}.
Definition set_site_domain (x : option string) (r : Site) : Site := {|
  site_id := site_id r; site_name := site_name r; site_domain := x;
  site_cattax := site_cattax r; site_cat := site_cat r;
  site_sectioncat := site_sectioncat r; site_pagecat := site_pagecat r;
  site_page := site_page r; site_ref_ := site_ref_ r; site_search := site_search r;
  site_mobile := site_mobile r; site_privacypolicy := site_privacypolicy r;
  site_publisher := site_publisher r; site_content := site_content r;
  site_keywords := site_keywords r; site_ext := site_ext r |}.
Definition set_site_publisher (x : option Publisher) (r : Site) : Site := {|
  site_id := site_id r; site_name := site_name r; site_domain := site_domain r;
  site_cattax := site_cattax r; site_cat := site_cat r;
  site_sectioncat := site_sectioncat r; site_pagecat := site_pagecat r;
  site_page := site_page r; site_ref_ := site_ref_ r; site_search := site_search r;
  site_mobile := site_mobile r; site_privacypolicy := site_privacypolicy r;
  site_publisher := x; site_content := site_content r; site_keywords := site_keywords r;
  site_ext := site_ext r |}.
Definition set_site_ref_ (x : option string) (r : Site) : Site := {|
  site_id := site_id r; site_name := site_name r; site_domain := site_domain r;
  site_cattax := site_cattax r; site_cat := site_cat r;
  site_sectioncat := site_sectioncat r; site_pagecat := site_pagecat r;
  site_page := site_page r; site_ref_ := x; site_search := site_search r;
  site_mobile := site_mobile r; site_privacypolicy := site_privacypolicy r;
  site_publisher := site_publisher r; site_content := site_content r;
  site_keywords := site_keywords r; site_ext := site_ext r |}.
Definition set_site_search (x : option string) (r : Site) : Site := {|
  site_id := site_id r; site_name := site_name r; site_domain := site_domain r;
  site_cattax := site_cattax r; site_cat := site_cat r;
  site_sectioncat := site_sectioncat r; site_pagecat := site_pagecat r;
  site_page := site_page r; site_ref_ := site_ref_ r; site_search := x;
  site_mobile := site_mobile r; site_privacypolicy := site_privacypolicy r;
  site_publisher := site_publisher r; site_content := site_content r;
  site_keywords := site_keywords r; site_ext := site_ext r |}.
Definition set_site_cat (x : option (list string)) (r : Site) : Site := {|
  site_id := site_id r; site_name := site_name r; site_domain := site_domain r;
  site_cattax := site_cattax r; site_cat := x; site_sectioncat := site_sectioncat r;
  site_pagecat := site_pagecat r; site_page := site_page r; site_ref_ := site_ref_ r;
  site_search := site_search r; site_mobile := site_mobile r;
  site_privacypolicy := site_privacypolicy r; site_publisher := site_publisher r;
  site_content := site_content r; site_keywords := site_keywords r; site_ext := site_ext r |}.
Definition set_site_sectioncat (x : option (list string)) (r : Site) : Site := {|
  site_id := site_id r; site_name := site_name r; site_domain := site_domain r;
  site_cattax := site_cattax r; site_cat := site_cat r; site_sectioncat := x;
  site_pagecat := site_pagecat r; site_page := site_page r; site_ref_ := site_ref_ r;
  site_search := site_search r; site_mobile := site_mobile r;
  site_privacypolicy := site_privacypolicy r; site_publisher := site_publisher r;
  site_content := site_content r; site_keywords := site_keywords r; site_ext := site_ext r |}.
Definition set_site_pagecat (x : option (list string)) (r : Site) : Site := {|
  site_id := site_id r; site_name := site_name r; site_domain := site_domain r;
  site_cattax := site_cattax r; site_cat := site_cat r;
  site_sectioncat := site_sectioncat r; site_pagecat := x; site_page := site_page r;
  site_ref_ := site_ref_ r; site_search := site_search r; site_mobile := site_mobile r;
  site_privacypolicy := site_privacypolicy r; site_publisher := site_publisher r;
  site_content := site_content r; site_keywords := site_keywords r; site_ext := site_ext r |}.
Definition set_site_keywords (x : option string) (r : Site) : Site := {|
  site_id := site_id r; site_name := site_name r; site_domain := site_domain r;
  site_cattax := site_cattax r; site_cat := site_cat r;
  site_sectioncat := site_sectioncat r; site_pagecat := site_pagecat r;
  site_page := site_page r; site_ref_ := site_ref_ r; site_search := site_search r;
  site_mobile := site_mobile r; site_privacypolicy := site_privacypolicy r;
  site_publisher := site_publisher r; site_content := site_content r; site_keywords := x;
  site_ext := site_ext r |}.
Definition set_site_content (x : option Content) (r : Site) : Site := {|
  site_id := site_id r; site_name := site_name r; site_domain := site_domain r;
  site_cattax := site_cattax r; site_cat := site_cat r;
  site_sectioncat := site_sectioncat r; site_pagecat := site_pagecat r;
  site_page := site_page r; site_ref_ := site_ref_ r; site_search := site_search r;
  site_mobile := site_mobile r; site_privacypolicy := site_privacypolicy r;
  site_publisher := site_publisher r; site_content := x; site_keywords := site_keywords r;
  site_ext := site_ext r |}.
Definition set_site_ext (x : option Value) (r : Site) : Site := {|
  site_id := site_id r; site_name := site_name r; site_domain := site_domain r;
  site_cattax := site_cattax r; site_cat := site_cat r;
  site_sectioncat := site_sectioncat r; site_pagecat := site_pagecat r;
  site_page := site_page r; site_ref_ := site_ref_ r; site_search := site_search r;
  site_mobile := site_mobile r; site_privacypolicy := site_privacypolicy r;
  site_publisher := site_publisher r; site_content := site_content r;
  site_keywords := site_keywords r; site_ext := x |}.

Record App : Type := {
  app_id : option string;
  app_name : option string;
  app_bundle : option string;
  app_domain : option string;
  app_storeurl : option string;
  app_cattax : option Z;
  app_cat : option (list string);
  app_sectioncat : option (list string);
  app_pagecat : option (list string);
  app_ver : option string;
  app_privacypolicy : option Z;
  app_paid : option Z;
  app_publisher : option Publisher;
  app_content : option Content;
  app_keywords : option string;
  app_ext : option Value;
}.
Definition default_app : App := {|
  app_id := None; app_name := None; app_bundle := None; app_domain := None;
  app_storeurl := None; app_cattax := None; app_cat := None; app_sectioncat := None;
  app_pagecat := None; app_ver := None; app_privacypolicy := None; app_paid := None;
  app_publisher := None; app_content := None; app_keywords := None; app_ext := None |}.
Definition set_app_id (x : option string) (r : App) : App := {|
  app_id := x; app_name := app_name r; app_bundle := app_bundle r;
  app_domain := app_domain r; app_storeurl := app_storeurl r; app_cattax := app_cattax r;
  app_cat := app_cat r; app_sectioncat := app_sectioncat r; app_pagecat := app_pagecat r;
  app_ver := app_ver r; app_privacypolicy := app_privacypolicy r; app_paid := app_paid r;
  app_publisher := app_publisher r; app_content := app_content r;
  app_keywords := app_keywords r; app_ext := app_ext r |}.
Definition set_app_publisher (x : option Publisher) (r : App) : App := {|
  app_id := app_id r; app_name := app_name r; app_bundle := app_bundle r;
  app_domain := app_domain r; app_storeurl := app_storeurl r; app_cattax := app_cattax r;
  app_cat := app_cat r; app_sectioncat := app_sectioncat r; app_pagecat := app_pagecat r;
  app_ver := app_ver r; app_privacypolicy := app_privacypolicy r; app_paid := app_paid r;
  app_publisher := x; app_content := app_content r; app_keywords := app_keywords r;
  app_ext := app_ext r |}.
Definition set_app_bundle (x : option string) (r : App) : App := {|
  app_id := app_id r; app_name := app_name r; app_bundle := x; app_domain := app_domain r;
  app_storeurl := app_storeurl r; app_cattax := app_cattax r; app_cat := app_cat r;
  app_sectioncat := app_sectioncat r; app_pagecat := app_pagecat r; app_ver := app_ver r;
  app_privacypolicy := app_privacypolicy r; app_paid := app_paid r;
  app_publisher := app_publisher r; app_content := app_content r;
  app_keywords := app_keywords r; app_ext := app_ext r |}.
Definition set_app_domain (x : option string) (r : App) : App := {|
  app_id := app_id r; app_name := app_name r; app_bundle := app_bundle r; app_domain := x;
  app_storeurl := app_storeurl r; app_cattax := app_cattax r; app_cat := app_cat r;
  app_sectioncat := app_sectioncat r; app_pagecat := app_pagecat r; app_ver := app_ver r;
  app_privacypolicy := app_privacypolicy r; app_paid := app_paid r;
  app_publisher := app_publisher r; app_content := app_content r;
  app_keywords := app_keywords r; app_ext := app_ext r |}.
Definition set_app_cat (x : option (list string)) (r : App) : App := {|
  app_id := app_id r; app_name := app_name r; app_bundle := app_bundle r;
  app_domain := app_domain r; app_storeurl := app_storeurl r; app_cattax := app_cattax r;
  app_cat := x; app_sectioncat := app_sectioncat r; app_pagecat := app_pagecat r;
  app_ver := app_ver r; app_privacypolicy := app_privacypolicy r; app_paid := app_paid r;
  app_publisher := app_publisher r; app_content := app_content r;
  app_keywords := app_keywords r; app_ext := app_ext r |}.
Definition set_app_content (x : option Content) (r : App) : App := {|
  app_id := app_id r; app_name := app_name r; app_bundle := app_bundle r;
  app_domain := app_domain r; app_storeurl := app_storeurl r; app_cattax := app_cattax r;
  app_cat := app_cat r; app_sectioncat := app_sectioncat r; app_pagecat := app_pagecat r;
  app_ver := app_ver r; app_privacypolicy := app_privacypolicy r; app_paid := app_paid r;
  app_publisher := app_publisher r; app_content := x; app_keywords := app_keywords r;
  app_ext := app_ext r |}.
Definition set_app_ext (x : option Value) (r : App) : App := {|
  app_id := app_id r; app_name := app_name r; app_bundle := app_bundle r;
  app_domain := app_domain r; app_storeurl := app_storeurl r; app_cattax := app_cattax r;
  app_cat := app_cat r; app_sectioncat := app_sectioncat r; app_pagecat := app_pagecat r;
  app_ver := app_ver r; app_privacypolicy := app_privacypolicy r; app_paid := app_paid r;
  app_publisher := app_publisher r; app_content := app_content r;
  app_keywords := app_keywords r; app_ext := x |}.

Record DOOH : Type := {
  dooh_id : option string;
  dooh_name : option string;
  dooh_venuetype : option (list string);
  dooh_venuetypetax : option Z;
  dooh_publisher : option Publisher;
  dooh_domain : option string;
  dooh_keywords : option string;
  dooh_content : option Content;
  dooh_ext : option Value;
}.
Definition default_dooh : DOOH := {|
  dooh_id := None; dooh_name := None; dooh_venuetype := None; dooh_venuetypetax := None;
  dooh_publisher := None; dooh_domain := None; dooh_keywords := None; dooh_content := None;
  dooh_ext := None |}.

Record BrandVersion : Type := {
  bv_brand : option string;
  bv_version : option (list string);
  bv_ext : option Value;
}.
Definition default_bv : BrandVersion := {|
  bv_brand := None; bv_version := None; bv_ext := None |}.

Record UserAgent : Type := {
  sua_browsers : option (list BrandVersion);
  sua_platform : option BrandVersion;
  sua_mobile : option Z;
  sua_architecture : option string;
  sua_bitness : option string;
  sua_model : option string;
  sua_source : option Z;
  sua_ext : option Value;
}.
Definition default_sua : UserAgent := {|
  sua_browsers := None; sua_platform := None; sua_mobile := None; sua_architecture := None;
  sua_bitness := None; sua_model := None; sua_source := None; sua_ext := None |}.

Record Geo : Type := {
  geo_lat : option f64;
  geo_lon : option f64;
  geo_geo_type : option Z;
  geo_accuracy : option Z;
  geo_lastfix : option Z;
  geo_ipservice : option Z;
  geo_country : option string;
  geo_region : option string;
  geo_regionfips104 : option string;
  geo_metro : option string;
  geo_city : option string;
  geo_zip : option string;
  geo_utcoffset : option Z;
  geo_ext : option Value;
}.
Definition default_geo : Geo := {|
  geo_lat := None; geo_lon := None; geo_geo_type := None; geo_accuracy := None;
  geo_lastfix := None; geo_ipservice := None; geo_country := None; geo_region := None;
  geo_regionfips104 := None; geo_metro := None; geo_city := None; geo_zip := None;
  geo_utcoffset := None; geo_ext := None |}.
Definition set_geo_lat (x : option f64) (r : Geo) : Geo := {|
  geo_lat := x; geo_lon := geo_lon r; geo_geo_type := geo_geo_type r;
  geo_accuracy := geo_accuracy r; geo_lastfix := geo_lastfix r;
  geo_ipservice := geo_ipservice r; geo_country := geo_country r;
  geo_region := geo_region r; geo_regionfips104 := geo_regionfips104 r;
  geo_metro := geo_metro r; geo_city := geo_city r; geo_zip := geo_zip r;
  geo_utcoffset := geo_utcoffset r; geo_ext := geo_ext r |}.
Definition set_geo_lon (x : option f64) (r : Geo) : Geo := {|
  geo_lat := geo_lat r; geo_lon := x; geo_geo_type := geo_geo_type r;
  geo_accuracy := geo_accuracy r; geo_lastfix := geo_lastfix r;
  geo_ipservice := geo_ipservice r; geo_country := geo_country r;
  geo_region := geo_region r; geo_regionfips104 := geo_regionfips104 r;
  geo_metro := geo_metro r; geo_city := geo_city r; geo_zip := geo_zip r;
  geo_utcoffset := geo_utcoffset r; geo_ext := geo_ext r |}.
Definition set_geo_metro (x : option string) (r : Geo) : Geo := {|
  geo_lat := geo_lat r; geo_lon := geo_lon r; geo_geo_type := geo_geo_type r;
  geo_accuracy := geo_accuracy r; geo_lastfix := geo_lastfix r;
  geo_ipservice := geo_ipservice r; geo_country := geo_country r;
  geo_region := geo_region r; geo_regionfips104 := geo_regionfips104 r; geo_metro := x;
  geo_city := geo_city r; geo_zip := geo_zip r; geo_utcoffset := geo_utcoffset r;
  geo_ext := geo_ext r |}.
Definition set_geo_city (x : option string) (r : Geo) : Geo := {|
  geo_lat := geo_lat r; geo_lon := geo_lon r; geo_geo_type := geo_geo_type r;
  geo_accuracy := geo_accuracy r; geo_lastfix := geo_lastfix r;
  geo_ipservice := geo_ipservice r; geo_country := geo_country r;
  geo_region := geo_region r; geo_regionfips104 := geo_regionfips104 r;
  geo_metro := geo_metro r; geo_city := x; geo_zip := geo_zip r;
  geo_utcoffset := geo_utcoffset r; geo_ext := geo_ext r |}.
Definition set_geo_zip (x : option string) (r : Geo) : Geo := {|
  geo_lat := geo_lat r; geo_lon := geo_lon r; geo_geo_type := geo_geo_type r;
  geo_accuracy := geo_accuracy r; geo_lastfix := geo_lastfix r;
  geo_ipservice := geo_ipservice r; geo_country := geo_country r;
  geo_region := geo_region r; geo_regionfips104 := geo_regionfips104 r;
  geo_metro := geo_metro r; geo_city := geo_city r; geo_zip := x;
  geo_utcoffset := geo_utcoffset r; geo_ext := geo_ext r |}.

Record Device : Type := {
  dev_ua : option string;
  dev_sua : option UserAgent;
  dev_geo : option Geo;
  dev_dnt : option Z;
  dev_lmt : option Z;
  dev_ip : option string;
  dev_ipv6 : option string;
  dev_devicetype : option Z;
  dev_make : option string;
  dev_model : option string;
  dev_os : option string;
  dev_osv : option string;
  dev_hwv : option string;
  dev_h : option Z;
  dev_w : option Z;
  dev_ppi : option Z;
  dev_pxratio : option f64;
  dev_js : option Z;
  dev_geofetch : option Z;
  dev_flashver : option string;
  dev_language : option string;
  dev_langb : option string;
  dev_carrier : option string;
  dev_mccmnc : option string;
  dev_connectiontype : option Z;
  dev_ifa : option string;
  dev_didsha1 : option string;
  dev_didmd5 : option string;
  dev_dpidsha1 : option string;
  dev_dpidmd5 : option string;
  dev_macsha1 : option string;
  dev_macmd5 : option string;
  dev_ext : option Value;
}.
Definition default_dev : Device := {|
  dev_ua := None; dev_sua := None; dev_geo := None; dev_dnt := None; dev_lmt := None;
  dev_ip := None; dev_ipv6 := None; dev_devicetype := None; dev_make := None;
  dev_model := None; dev_os := None; dev_osv := None; dev_hwv := None; dev_h := None;
  dev_w := None; dev_ppi := None; dev_pxratio := None; dev_js := None; dev_geofetch := None;
  dev_flashver := None; dev_language := None; dev_langb := None; dev_carrier := None;
  dev_mccmnc := None; dev_connectiontype := None; dev_ifa := None; dev_didsha1 := None;
  dev_didmd5 := None; dev_dpidsha1 := None; dev_dpidmd5 := None; dev_macsha1 := None;
  dev_macmd5 := None; dev_ext := None |}.
Definition set_dev_geo (x : option Geo) (r : Device) : Device := {|
  dev_ua := dev_ua r; dev_sua := dev_sua r; dev_geo := x; dev_dnt := dev_dnt r;
  dev_lmt := dev_lmt r; dev_ip := dev_ip r; dev_ipv6 := dev_ipv6 r;
  dev_devicetype := dev_devicetype r; dev_make := dev_make r; dev_model := dev_model r;
  dev_os := dev_os r; dev_osv := dev_osv r; dev_hwv := dev_hwv r; dev_h := dev_h r;
  dev_w := dev_w r; dev_ppi := dev_ppi r; dev_pxratio := dev_pxratio r; dev_js := dev_js r;
  dev_geofetch := dev_geofetch r; dev_flashver := dev_flashver r;
  dev_language := dev_language r; dev_langb := dev_langb r; dev_carrier := dev_carrier r;
  dev_mccmnc := dev_mccmnc r; dev_connectiontype := dev_connectiontype r;
  dev_ifa := dev_ifa r; dev_didsha1 := dev_didsha1 r; dev_didmd5 := dev_didmd5 r;
  dev_dpidsha1 := dev_dpidsha1 r; dev_dpidmd5 := dev_dpidmd5 r;
  dev_macsha1 := dev_macsha1 r; dev_macmd5 := dev_macmd5 r; dev_ext := dev_ext r |}.
Definition set_dev_os (x : option string) (r : Device) : Device := {|
  dev_ua := dev_ua r; dev_sua := dev_sua r; dev_geo := dev_geo r; dev_dnt := dev_dnt r;
  dev_lmt := dev_lmt r; dev_ip := dev_ip r; dev_ipv6 := dev_ipv6 r;
  dev_devicetype := dev_devicetype r; dev_make := dev_make r; dev_model := dev_model r;
  dev_os := x; dev_osv := dev_osv r; dev_hwv := dev_hwv r; dev_h := dev_h r;
  dev_w := dev_w r; dev_ppi := dev_ppi r; dev_pxratio := dev_pxratio r; dev_js := dev_js r;
  dev_geofetch := dev_geofetch r; dev_flashver := dev_flashver r;
  dev_language := dev_language r; dev_langb := dev_langb r; dev_carrier := dev_carrier r;
  dev_mccmnc := dev_mccmnc r; dev_connectiontype := dev_connectiontype r;
  dev_ifa := dev_ifa r; dev_didsha1 := dev_didsha1 r; dev_didmd5 := dev_didmd5 r;
  dev_dpidsha1 := dev_dpidsha1 r; dev_dpidmd5 := dev_dpidmd5 r;
  dev_macsha1 := dev_macsha1 r; dev_macmd5 := dev_macmd5 r; dev_ext := dev_ext r |}.
Definition set_dev_devicetype (x : option Z) (r : Device) : Device := {|
  dev_ua := dev_ua r; dev_sua := dev_sua r; dev_geo := dev_geo r; dev_dnt := dev_dnt r;
  dev_lmt := dev_lmt r; dev_ip := dev_ip r; dev_ipv6 := dev_ipv6 r; dev_devicetype := x;
  dev_make := dev_make r; dev_model := dev_model r; dev_os := dev_os r;
  dev_osv := dev_osv r; dev_hwv := dev_hwv r; dev_h := dev_h r; dev_w := dev_w r;
  dev_ppi := dev_ppi r; dev_pxratio := dev_pxratio r; dev_js := dev_js r;
  dev_geofetch := dev_geofetch r; dev_flashver := dev_flashver r;
  dev_language := dev_language r; dev_langb := dev_langb r; dev_carrier := dev_carrier r;
  dev_mccmnc := dev_mccmnc r; dev_connectiontype := dev_connectiontype r;
  dev_ifa := dev_ifa r; dev_didsha1 := dev_didsha1 r; dev_didmd5 := dev_didmd5 r;
  dev_dpidsha1 := dev_dpidsha1 r; dev_dpidmd5 := dev_dpidmd5 r;
  dev_macsha1 := dev_macsha1 r; dev_macmd5 := dev_macmd5 r; dev_ext := dev_ext r |}.
Definition set_dev_lmt (x : option Z) (r : Device) : Device := {|
  dev_ua := dev_ua r; dev_sua := dev_sua r; dev_geo := dev_geo r; dev_dnt := dev_dnt r;
  dev_lmt := x; dev_ip := dev_ip r; dev_ipv6 := dev_ipv6 r;
  dev_devicetype := dev_devicetype r; dev_make := dev_make r; dev_model := dev_model r;
  dev_os := dev_os r; dev_osv := dev_osv r; dev_hwv := dev_hwv r; dev_h := dev_h r;
  dev_w := dev_w r; dev_ppi := dev_ppi r; dev_pxratio := dev_pxratio r; dev_js := dev_js r;
  dev_geofetch := dev_geofetch r; dev_flashver := dev_flashver r;
  dev_language := dev_language r; dev_langb := dev_langb r; dev_carrier := dev_carrier r;
  dev_mccmnc := dev_mccmnc r; dev_connectiontype := dev_connectiontype r;
  dev_ifa := dev_ifa r; dev_didsha1 := dev_didsha1 r; dev_didmd5 := dev_didmd5 r;
  dev_dpidsha1 := dev_dpidsha1 r; dev_dpidmd5 := dev_dpidmd5 r;
  dev_macsha1 := dev_macsha1 r; dev_macmd5 := dev_macmd5 r; dev_ext := dev_ext r |}.
Definition set_dev_ip (x : option string) (r : Device) : Device := {|
  dev_ua := dev_ua r; dev_sua := dev_sua r; dev_geo := dev_geo r; dev_dnt := dev_dnt r;
  dev_lmt := dev_lmt r; dev_ip := x; dev_ipv6 := dev_ipv6 r;
  dev_devicetype := dev_devicetype r; dev_make := dev_make r; dev_model := dev_model r;
  dev_os := dev_os r; dev_osv := dev_osv r; dev_hwv := dev_hwv r; dev_h := dev_h r;
  dev_w := dev_w r; dev_ppi := dev_ppi r; dev_pxratio := dev_pxratio r; dev_js := dev_js r;
  dev_geofetch := dev_geofetch r; dev_flashver := dev_flashver r;
  dev_language := dev_language r; dev_langb := dev_langb r; dev_carrier := dev_carrier r;
  dev_mccmnc := dev_mccmnc r; dev_connectiontype := dev_connectiontype r;
  dev_ifa := dev_ifa r; dev_didsha1 := dev_didsha1 r; dev_didmd5 := dev_didmd5 r;
  dev_dpidsha1 := dev_dpidsha1 r; dev_dpidmd5 := dev_dpidmd5 r;
  dev_macsha1 := dev_macsha1 r; dev_macmd5 := dev_macmd5 r; dev_ext := dev_ext r |}.
Definition set_dev_ipv6 (x : option string) (r : Device) : Device := {|
  dev_ua := dev_ua r; dev_sua := dev_sua r; dev_geo := dev_geo r; dev_dnt := dev_dnt r;
  dev_lmt := dev_lmt r; dev_ip := dev_ip r; dev_ipv6 := x;
  dev_devicetype := dev_devicetype r; dev_make := dev_make r; dev_model := dev_model r;
  dev_os := dev_os r; dev_osv := dev_osv r; dev_hwv := dev_hwv r; dev_h := dev_h r;
  dev_w := dev_w r; dev_ppi := dev_ppi r; dev_pxratio := dev_pxratio r; dev_js := dev_js r;
  dev_geofetch := dev_geofetch r; dev_flashver := dev_flashver r;
  dev_language := dev_language r; dev_langb := dev_langb r; dev_carrier := dev_carrier r;
  dev_mccmnc := dev_mccmnc r; dev_connectiontype := dev_connectiontype r;
  dev_ifa := dev_ifa r; dev_didsha1 := dev_didsha1 r; dev_didmd5 := dev_didmd5 r;
  dev_dpidsha1 := dev_dpidsha1 r; dev_dpidmd5 := dev_dpidmd5 r;
  dev_macsha1 := dev_macsha1 r; dev_macmd5 := dev_macmd5 r; dev_ext := dev_ext r |}.
Definition set_dev_ifa (x : option string) (r : Device) : Device := {|
  dev_ua := dev_ua r; dev_sua := dev_sua r; dev_geo := dev_geo r; dev_dnt := dev_dnt r;
  dev_lmt := dev_lmt r; dev_ip := dev_ip r; dev_ipv6 := dev_ipv6 r;
  dev_devicetype := dev_devicetype r; dev_make := dev_make r; dev_model := dev_model r;
  dev_os := dev_os r; dev_osv := dev_osv r; dev_hwv := dev_hwv r; dev_h := dev_h r;
  dev_w := dev_w r; dev_ppi := dev_ppi r; dev_pxratio := dev_pxratio r; dev_js := dev_js r;
  dev_geofetch := dev_geofetch r; dev_flashver := dev_flashver r;
  dev_language := dev_language r; dev_langb := dev_langb r; dev_carrier := dev_carrier r;
  dev_mccmnc := dev_mccmnc r; dev_connectiontype := dev_connectiontype r; dev_ifa := x;
  dev_didsha1 := dev_didsha1 r; dev_didmd5 := dev_didmd5 r; dev_dpidsha1 := dev_dpidsha1 r;
  dev_dpidmd5 := dev_dpidmd5 r; dev_macsha1 := dev_macsha1 r; dev_macmd5 := dev_macmd5 r;
  dev_ext := dev_ext r |}.
Definition set_dev_didsha1 (x : option string) (r : Device) : Device := {|
  dev_ua := dev_ua r; dev_sua := dev_sua r; dev_geo := dev_geo r; dev_dnt := dev_dnt r;
  dev_lmt := dev_lmt r; dev_ip := dev_ip r; dev_ipv6 := dev_ipv6 r;
  dev_devicetype := dev_devicetype r; dev_make := dev_make r; dev_model := dev_model r;
  dev_os := dev_os r; dev_osv := dev_osv r; dev_hwv := dev_hwv r; dev_h := dev_h r;
  dev_w := dev_w r; dev_ppi := dev_ppi r; dev_pxratio := dev_pxratio r; dev_js := dev_js r;
  dev_geofetch := dev_geofetch r; dev_flashver := dev_flashver r;
  dev_language := dev_language r; dev_langb := dev_langb r; dev_carrier := dev_carrier r;
  dev_mccmnc := dev_mccmnc r; dev_connectiontype := dev_connectiontype r;
  dev_ifa := dev_ifa r; dev_didsha1 := x; dev_didmd5 := dev_didmd5 r;
  dev_dpidsha1 := dev_dpidsha1 r; dev_dpidmd5 := dev_dpidmd5 r;
  dev_macsha1 := dev_macsha1 r; dev_macmd5 := dev_macmd5 r; dev_ext := dev_ext r |}.
Definition set_dev_didmd5 (x : option string) (r : Device) : Device := {|
  dev_ua := dev_ua r; dev_sua := dev_sua r; dev_geo := dev_geo r; dev_dnt := dev_dnt r;
  dev_lmt := dev_lmt r; dev_ip := dev_ip r; dev_ipv6 := dev_ipv6 r;
  dev_devicetype := dev_devicetype r; dev_make := dev_make r; dev_model := dev_model r;
  dev_os := dev_os r; dev_osv := dev_osv r; dev_hwv := dev_hwv r; dev_h := dev_h r;
  dev_w := dev_w r; dev_ppi := dev_ppi r; dev_pxratio := dev_pxratio r; dev_js := dev_js r;
  dev_geofetch := dev_geofetch r; dev_flashver := dev_flashver r;
  dev_language := dev_language r; dev_langb := dev_langb r; dev_carrier := dev_carrier r;
  dev_mccmnc := dev_mccmnc r; dev_connectiontype := dev_connectiontype r;
  dev_ifa := dev_ifa r; dev_didsha1 := dev_didsha1 r; dev_didmd5 := x;
  dev_dpidsha1 := dev_dpidsha1 r; dev_dpidmd5 := dev_dpidmd5 r;
  dev_macsha1 := dev_macsha1 r; dev_macmd5 := dev_macmd5 r; dev_ext := dev_ext r |}.
Definition set_dev_dpidsha1 (x : option string) (r : Device) : Device := {|
  dev_ua := dev_ua r; dev_sua := dev_sua r; dev_geo := dev_geo r; dev_dnt := dev_dnt r;
  dev_lmt := dev_lmt r; dev_ip := dev_ip r; dev_ipv6 := dev_ipv6 r;
  dev_devicetype := dev_devicetype r; dev_make := dev_make r; dev_model := dev_model r;
  dev_os := dev_os r; dev_osv := dev_osv r; dev_hwv := dev_hwv r; dev_h := dev_h r;
  dev_w := dev_w r; dev_ppi := dev_ppi r; dev_pxratio := dev_pxratio r; dev_js := dev_js r;
  dev_geofetch := dev_geofetch r; dev_flashver := dev_flashver r;
  dev_language := dev_language r; dev_langb := dev_langb r; dev_carrier := dev_carrier r;
  dev_mccmnc := dev_mccmnc r; dev_connectiontype := dev_connectiontype r;
  dev_ifa := dev_ifa r; dev_didsha1 := dev_didsha1 r; dev_didmd5 := dev_didmd5 r;
  dev_dpidsha1 := x; dev_dpidmd5 := dev_dpidmd5 r; dev_macsha1 := dev_macsha1 r;
  dev_macmd5 := dev_macmd5 r; dev_ext := dev_ext r |}.
Definition set_dev_dpidmd5 (x : option string) (r : Device) : Device := {|
  dev_ua := dev_ua r; dev_sua := dev_sua r; dev_geo := dev_geo r; dev_dnt := dev_dnt r;
  dev_lmt := dev_lmt r; dev_ip := dev_ip r; dev_ipv6 := dev_ipv6 r;
  dev_devicetype := dev_devicetype r; dev_make := dev_make r; dev_model := dev_model r;
  dev_os := dev_os r; dev_osv := dev_osv r; dev_hwv := dev_hwv r; dev_h := dev_h r;
  dev_w := dev_w r; dev_ppi := dev_ppi r; dev_pxratio := dev_pxratio r; dev_js := dev_js r;
  dev_geofetch := dev_geofetch r; dev_flashver := dev_flashver r;
  dev_language := dev_language r; dev_langb := dev_langb r; dev_carrier := dev_carrier r;
  dev_mccmnc := dev_mccmnc r; dev_connectiontype := dev_connectiontype r;
  dev_ifa := dev_ifa r; dev_didsha1 := dev_didsha1 r; dev_didmd5 := dev_didmd5 r;
  dev_dpidsha1 := dev_dpidsha1 r; dev_dpidmd5 := x; dev_macsha1 := dev_macsha1 r;
  dev_macmd5 := dev_macmd5 r; dev_ext := dev_ext r |}.
Definition set_dev_macsha1 (x : option string) (r : Device) : Device := {|
  dev_ua := dev_ua r; dev_sua := dev_sua r; dev_geo := dev_geo r; dev_dnt := dev_dnt r;
  dev_lmt := dev_lmt r; dev_ip := dev_ip r; dev_ipv6 := dev_ipv6 r;
  dev_devicetype := dev_devicetype r; dev_make := dev_make r; dev_model := dev_model r;
  dev_os := dev_os r; dev_osv := dev_osv r; dev_hwv := dev_hwv r; dev_h := dev_h r;
  dev_w := dev_w r; dev_ppi := dev_ppi r; dev_pxratio := dev_pxratio r; dev_js := dev_js r;
  dev_geofetch := dev_geofetch r; dev_flashver := dev_flashver r;
  dev_language := dev_language r; dev_langb := dev_langb r; dev_carrier := dev_carrier r;
  dev_mccmnc := dev_mccmnc r; dev_connectiontype := dev_connectiontype r;
  dev_ifa := dev_ifa r; dev_didsha1 := dev_didsha1 r; dev_didmd5 := dev_didmd5 r;
  dev_dpidsha1 := dev_dpidsha1 r; dev_dpidmd5 := dev_dpidmd5 r; dev_macsha1 := x;
  dev_macmd5 := dev_macmd5 r; dev_ext := dev_ext r |}.
Definition set_dev_macmd5 (x : option string) (r : Device) : Device := {|
  dev_ua := dev_ua r; dev_sua := dev_sua r; dev_geo := dev_geo r; dev_dnt := dev_dnt r;
  dev_lmt := dev_lmt r; dev_ip := dev_ip r; dev_ipv6 := dev_ipv6 r;
  dev_devicetype := dev_devicetype r; dev_make := dev_make r; dev_model := dev_model r;
  dev_os := dev_os r; dev_osv := dev_osv r; dev_hwv := dev_hwv r; dev_h := dev_h r;
  dev_w := dev_w r; dev_ppi := dev_ppi r; dev_pxratio := dev_pxratio r; dev_js := dev_js r;
  dev_geofetch := dev_geofetch r; dev_flashver := dev_flashver r;
  dev_language := dev_language r; dev_langb := dev_langb r; dev_carrier := dev_carrier r;
  dev_mccmnc := dev_mccmnc r; dev_connectiontype := dev_connectiontype r;
  dev_ifa := dev_ifa r; dev_didsha1 := dev_didsha1 r; dev_didmd5 := dev_didmd5 r;
  dev_dpidsha1 := dev_dpidsha1 r; dev_dpidmd5 := dev_dpidmd5 r;
  dev_macsha1 := dev_macsha1 r; dev_macmd5 := x; dev_ext := dev_ext r |}.
Definition set_dev_ext (x : option Value) (r : Device) : Device := {|
  dev_ua := dev_ua r; dev_sua := dev_sua r; dev_geo := dev_geo r; dev_dnt := dev_dnt r;
  dev_lmt := dev_lmt r; dev_ip := dev_ip r; dev_ipv6 := dev_ipv6 r;
  dev_devicetype := dev_devicetype r; dev_make := dev_make r; dev_model := dev_model r;
  dev_os := dev_os r; dev_osv := dev_osv r; dev_hwv := dev_hwv r; dev_h := dev_h r;
  dev_w := dev_w r; dev_ppi := dev_ppi r; dev_pxratio := dev_pxratio r; dev_js := dev_js r;
  dev_geofetch := dev_geofetch r; dev_flashver := dev_flashver r;
  dev_language := dev_language r; dev_langb := dev_langb r; dev_carrier := dev_carrier r;
  dev_mccmnc := dev_mccmnc r; dev_connectiontype := dev_connectiontype r;
  dev_ifa := dev_ifa r; dev_didsha1 := dev_didsha1 r; dev_didmd5 := dev_didmd5 r;
  dev_dpidsha1 := dev_dpidsha1 r; dev_dpidmd5 := dev_dpidmd5 r;
  dev_macsha1 := dev_macsha1 r; dev_macmd5 := dev_macmd5 r; dev_ext := x |}.

Record Uid : Type := {
  uid_id : option string;
  uid_atype : option Z;
  uid_ext : option Value;
}.
Definition default_uid : Uid := {|
  uid_id := None; uid_atype := None; uid_ext := None |}.

Record Eid : Type := {
  eid_source : option string;
  eid_uids : option (list Uid);
  eid_ext : option Value;
}.
Definition default_eid : Eid := {|
  eid_source := None; eid_uids := None; eid_ext := None |}.

Record User : Type := {
  user_id : option string;
  user_buyeruid : option string;
  user_yob : option Z;
  user_gender : option string;
  user_keywords : option string;
  user_consent : option string;
  user_customdata : option string;
  user_geo : option Geo;
  user_data : list Data;
  user_eids : option (list Eid);
  user_ext : option Value;
}.
Definition default_user : User := {|
  user_id := None; user_buyeruid := None; user_yob := None; user_gender := None;
  user_keywords := None; user_consent := None; user_customdata := None; user_geo := None;
  user_data := []; user_eids := None; user_ext := None |}.
Definition set_user_id (x : option string) (r : User) : User := {|
  user_id := x; user_buyeruid := user_buyeruid r; user_yob := user_yob r;
  user_gender := user_gender r; user_keywords := user_keywords r;
  user_consent := user_consent r; user_customdata := user_customdata r;
  user_geo := user_geo r; user_data := user_data r; user_eids := user_eids r;
  user_ext := user_ext r |}.
Definition set_user_buyeruid (x : option string) (r : User) : User := {|
  user_id := user_id r; user_buyeruid := x; user_yob := user_yob r;
  user_gender := user_gender r; user_keywords := user_keywords r;
  user_consent := user_consent r; user_customdata := user_customdata r;
  user_geo := user_geo r; user_data := user_data r; user_eids := user_eids r;
  user_ext := user_ext r |}.
Definition set_user_yob (x : option Z) (r : User) : User := {|
  user_id := user_id r; user_buyeruid := user_buyeruid r; user_yob := x;
  user_gender := user_gender r; user_keywords := user_keywords r;
  user_consent := user_consent r; user_customdata := user_customdata r;
  user_geo := user_geo r; user_data := user_data r; user_eids := user_eids r;
  user_ext := user_ext r |}.
Definition set_user_gender (x : option string) (r : User) : User := {|
  user_id := user_id r; user_buyeruid := user_buyeruid r; user_yob := user_yob r;
  user_gender := x; user_keywords := user_keywords r; user_consent := user_consent r;
  user_customdata := user_customdata r; user_geo := user_geo r; user_data := user_data r;
  user_eids := user_eids r; user_ext := user_ext r |}.
Definition set_user_keywords (x : option string) (r : User) : User := {|
  user_id := user_id r; user_buyeruid := user_buyeruid r; user_yob := user_yob r;
  user_gender := user_gender r; user_keywords := x; user_consent := user_consent r;
  user_customdata := user_customdata r; user_geo := user_geo r; user_data := user_data r;
  user_eids := user_eids r; user_ext := user_ext r |}.
Definition set_user_consent (x : option string) (r : User) : User := {|
  user_id := user_id r; user_buyeruid := user_buyeruid r; user_yob := user_yob r;
  user_gender := user_gender r; user_keywords := user_keywords r; user_consent := x;
  user_customdata := user_customdata r; user_geo := user_geo r; user_data := user_data r;
  user_eids := user_eids r; user_ext := user_ext r |}.
Definition set_user_geo (x : option Geo) (r : User) : User := {|
  user_id := user_id r; user_buyeruid := user_buyeruid r; user_yob := user_yob r;
  user_gender := user_gender r; user_keywords := user_keywords r;
  user_consent := user_consent r; user_customdata := user_customdata r; user_geo := x;
  user_data := user_data r; user_eids := user_eids r; user_ext := user_ext r |}.
Definition set_user_data (x : list Data) (r : User) : User := {|
  user_id := user_id r; user_buyeruid := user_buyeruid r; user_yob := user_yob r;
  user_gender := user_gender r; user_keywords := user_keywords r;
  user_consent := user_consent r; user_customdata := user_customdata r;
  user_geo := user_geo r; user_data := x; user_eids := user_eids r; user_ext := user_ext r |}.
Definition set_user_eids (x : option (list Eid)) (r : User) : User := {|
  user_id := user_id r; user_buyeruid := user_buyeruid r; user_yob := user_yob r;
  user_gender := user_gender r; user_keywords := user_keywords r;
  user_consent := user_consent r; user_customdata := user_customdata r;
  user_geo := user_geo r; user_data := user_data r; user_eids := x; user_ext := user_ext r |}.
Definition set_user_ext (x : option Value) (r : User) : User := {|
  user_id := user_id r; user_buyeruid := user_buyeruid r; user_yob := user_yob r;
  user_gender := user_gender r; user_keywords := user_keywords r;
  user_consent := user_consent r; user_customdata := user_customdata r;
  user_geo := user_geo r; user_data := user_data r; user_eids := user_eids r; user_ext := x |}.
Definition set_user_customdata (x : option string) (r : User) : User := {|
  user_id := user_id r; user_buyeruid := user_buyeruid r; user_yob := user_yob r;
  user_gender := user_gender r; user_keywords := user_keywords r;
  user_consent := user_consent r; user_customdata := x; user_geo := user_geo r;
  user_data := user_data r; user_eids := user_eids r; user_ext := user_ext r |}.

Record SupplyChainNode : Type := {
  scn_asi : string;
  scn_sid : string;
  scn_rid : option string;
  scn_name : option string;
  scn_domain : option string;
  scn_hp : Z;
  scn_ext : option Value;
}.
Definition default_scn : SupplyChainNode := {|
  scn_asi := ""; scn_sid := ""; scn_rid := None; scn_name := None; scn_domain := None;
  scn_hp := 0; scn_ext := None |}.

Record SupplyChain : Type := {
  sc_complete : Z;
  sc_nodes : list SupplyChainNode;
  sc_ver : string;
  sc_ext : option Value;
}.
Definition default_sc : SupplyChain := {|
  sc_complete := 0; sc_nodes := []; sc_ver := ""; sc_ext := None |}.

Record Source : Type := {
  src_fd : option Z;
  src_tid : option string;
  src_pchain : option string;
  src_schain : option SupplyChain;
  src_ext : option Value;
}.
Definition default_src : Source := {|
  src_fd := None; src_tid := None; src_pchain := None; src_schain := None; src_ext := None |}.
Definition set_src_tid (x : option string) (r : Source) : Source := {|
  src_fd := src_fd r; src_tid := x; src_pchain := src_pchain r; src_schain := src_schain r;
  src_ext := src_ext r |}.
Definition set_src_schain (x : option SupplyChain) (r : Source) : Source := {|
  src_fd := src_fd r; src_tid := src_tid r; src_pchain := src_pchain r; src_schain := x;
  src_ext := src_ext r |}.
Definition set_src_ext (x : option Value) (r : Source) : Source := {|
  src_fd := src_fd r; src_tid := src_tid r; src_pchain := src_pchain r;
  src_schain := src_schain r; src_ext := x |}.

Record DsaTransparency : Type := {
  dsat_domain : option string;
  dsat_dsaparams : option (list Z);
}.
Definition default_dsat : DsaTransparency := {|
  dsat_domain := None; dsat_dsaparams := None |}.

Record Dsa : Type := {
  dsa_dsarequired : option Z;
  dsa_pubrender : option Z;
  dsa_datatopub : option Z;
  dsa_transparency : option (list DsaTransparency);
}.
Definition default_dsa : Dsa := {|
  dsa_dsarequired := None; dsa_pubrender := None; dsa_datatopub := None;
  dsa_transparency := None |}.

Record Regs : Type := {
  regs_coppa : option Z;
  regs_gdpr : option Z;
  regs_us_privacy : option string;
  regs_gpp : option string;
  regs_gpp_sid : option (list Z);
  regs_dsa : option Dsa;
  regs_ext : option Value;
}.
Definition default_regs : Regs := {|
  regs_coppa := None; regs_gdpr := None; regs_us_privacy := None; regs_gpp := None;
  regs_gpp_sid := None; regs_dsa := None; regs_ext := None |}.
Definition set_regs_coppa (x : option Z) (r : Regs) : Regs := {|
  regs_coppa := x; regs_gdpr := regs_gdpr r; regs_us_privacy := regs_us_privacy r;
  regs_gpp := regs_gpp r; regs_gpp_sid := regs_gpp_sid r; regs_dsa := regs_dsa r;
  regs_ext := regs_ext r |}.
Definition set_regs_gdpr (x : option Z) (r : Regs) : Regs := {|
  regs_coppa := regs_coppa r; regs_gdpr := x; regs_us_privacy := regs_us_privacy r;
  regs_gpp := regs_gpp r; regs_gpp_sid := regs_gpp_sid r; regs_dsa := regs_dsa r;
  regs_ext := regs_ext r |}.
Definition set_regs_us_privacy (x : option string) (r : Regs) : Regs := {|
  regs_coppa := regs_coppa r; regs_gdpr := regs_gdpr r; regs_us_privacy := x;
  regs_gpp := regs_gpp r; regs_gpp_sid := regs_gpp_sid r; regs_dsa := regs_dsa r;
  regs_ext := regs_ext r |}.
Definition set_regs_gpp (x : option string) (r : Regs) : Regs := {|
  regs_coppa := regs_coppa r; regs_gdpr := regs_gdpr r;
  regs_us_privacy := regs_us_privacy r; regs_gpp := x; regs_gpp_sid := regs_gpp_sid r;
  regs_dsa := regs_dsa r; regs_ext := regs_ext r |}.
Definition set_regs_gpp_sid (x : option (list Z)) (r : Regs) : Regs := {|
  regs_coppa := regs_coppa r; regs_gdpr := regs_gdpr r;
  regs_us_privacy := regs_us_privacy r; regs_gpp := regs_gpp r; regs_gpp_sid := x;
  regs_dsa := regs_dsa r; regs_ext := regs_ext r |}.
Definition set_regs_ext (x : option Value) (r : Regs) : Regs := {|
  regs_coppa := regs_coppa r; regs_gdpr := regs_gdpr r;
  regs_us_privacy := regs_us_privacy r; regs_gpp := regs_gpp r;
  regs_gpp_sid := regs_gpp_sid r; regs_dsa := regs_dsa r; regs_ext := x |}.

Record BidRequest : Type := {
  req_id : string;
  req_imp : list Imp;
  req_site : option Site;
  req_app : option App;
  req_dooh : option DOOH;
  req_device : option Device;
  req_user : option User;
  req_test : option Z;
  req_at : option Z;
  req_tmax : option Z;
  req_allimps : option Z;
  req_wseat : option (list string);
  req_bseat : option (list string);
  req_cur : option (list string);
  req_wlang : option (list string);
  req_wlangb : option (list string);
  req_acat : option (list string);
  req_bcat : option (list string);
  req_cattax : option Z;
  req_badv : option (list string);
  req_bapp : option (list string);
  req_source : option Source;
  req_regs : option Regs;
  req_ext : option Value;
}.
Definition default_req : BidRequest := {|
  req_id := ""; req_imp := []; req_site := None; req_app := None; req_dooh := None;
  req_device := None; req_user := None; req_test := None; req_at := None; req_tmax := None;
  req_allimps := None; req_wseat := None; req_bseat := None; req_cur := None;
  req_wlang := None; req_wlangb := None; req_acat := None; req_bcat := None;
  req_cattax := None; req_badv := None; req_bapp := None; req_source := None;
  req_regs := None; req_ext := None |}.
Definition set_req_id (x : string) (r : BidRequest) : BidRequest := {|
  req_id := x; req_imp := req_imp r; req_site := req_site r; req_app := req_app r;
  req_dooh := req_dooh r; req_device := req_device r; req_user := req_user r;
  req_test := req_test r; req_at := req_at r; req_tmax := req_tmax r;
  req_allimps := req_allimps r; req_wseat := req_wseat r; req_bseat := req_bseat r;
  req_cur := req_cur r; req_wlang := req_wlang r; req_wlangb := req_wlangb r;
  req_acat := req_acat r; req_bcat := req_bcat r; req_cattax := req_cattax r;
  req_badv := req_badv r; req_bapp := req_bapp r; req_source := req_source r;
  req_regs := req_regs r; req_ext := req_ext r |}.
Definition set_req_imp (x : list Imp) (r : BidRequest) : BidRequest := {|
  req_id := req_id r; req_imp := x; req_site := req_site r; req_app := req_app r;
  req_dooh := req_dooh r; req_device := req_device r; req_user := req_user r;
  req_test := req_test r; req_at := req_at r; req_tmax := req_tmax r;
  req_allimps := req_allimps r; req_wseat := req_wseat r; req_bseat := req_bseat r;
  req_cur := req_cur r; req_wlang := req_wlang r; req_wlangb := req_wlangb r;
  req_acat := req_acat r; req_bcat := req_bcat r; req_cattax := req_cattax r;
  req_badv := req_badv r; req_bapp := req_bapp r; req_source := req_source r;
  req_regs := req_regs r; req_ext := req_ext r |}.
Definition set_req_site (x : option Site) (r : BidRequest) : BidRequest := {|
  req_id := req_id r; req_imp := req_imp r; req_site := x; req_app := req_app r;
  req_dooh := req_dooh r; req_device := req_device r; req_user := req_user r;
  req_test := req_test r; req_at := req_at r; req_tmax := req_tmax r;
  req_allimps := req_allimps r; req_wseat := req_wseat r; req_bseat := req_bseat r;
  req_cur := req_cur r; req_wlang := req_wlang r; req_wlangb := req_wlangb r;
  req_acat := req_acat r; req_bcat := req_bcat r; req_cattax := req_cattax r;
  req_badv := req_badv r; req_bapp := req_bapp r; req_source := req_source r;
  req_regs := req_regs r; req_ext := req_ext r |}.
Definition set_req_app (x : option App) (r : BidRequest) : BidRequest := {|
  req_id := req_id r; req_imp := req_imp r; req_site := req_site r; req_app := x;
  req_dooh := req_dooh r; req_device := req_device r; req_user := req_user r;
  req_test := req_test r; req_at := req_at r; req_tmax := req_tmax r;
  req_allimps := req_allimps r; req_wseat := req_wseat r; req_bseat := req_bseat r;
  req_cur := req_cur r; req_wlang := req_wlang r; req_wlangb := req_wlangb r;
  req_acat := req_acat r; req_bcat := req_bcat r; req_cattax := req_cattax r;
  req_badv := req_badv r; req_bapp := req_bapp r; req_source := req_source r;
  req_regs := req_regs r; req_ext := req_ext r |}.
Definition set_req_device (x : option Device) (r : BidRequest) : BidRequest := {|
  req_id := req_id r; req_imp := req_imp r; req_site := req_site r; req_app := req_app r;
  req_dooh := req_dooh r; req_device := x; req_user := req_user r; req_test := req_test r;
  req_at := req_at r; req_tmax := req_tmax r; req_allimps := req_allimps r;
  req_wseat := req_wseat r; req_bseat := req_bseat r; req_cur := req_cur r;
  req_wlang := req_wlang r; req_wlangb := req_wlangb r; req_acat := req_acat r;
  req_bcat := req_bcat r; req_cattax := req_cattax r; req_badv := req_badv r;
  req_bapp := req_bapp r; req_source := req_source r; req_regs := req_regs r;
  req_ext := req_ext r |}.
Definition set_req_user (x : option User) (r : BidRequest) : BidRequest := {|
  req_id := req_id r; req_imp := req_imp r; req_site := req_site r; req_app := req_app r;
  req_dooh := req_dooh r; req_device := req_device r; req_user := x; req_test := req_test r;
  req_at := req_at r; req_tmax := req_tmax r; req_allimps := req_allimps r;
  req_wseat := req_wseat r; req_bseat := req_bseat r; req_cur := req_cur r;
  req_wlang := req_wlang r; req_wlangb := req_wlangb r; req_acat := req_acat r;
  req_bcat := req_bcat r; req_cattax := req_cattax r; req_badv := req_badv r;
  req_bapp := req_bapp r; req_source := req_source r; req_regs := req_regs r;
  req_ext := req_ext r |}.
Definition set_req_regs (x : option Regs) (r : BidRequest) : BidRequest := {|
  req_id := req_id r; req_imp := req_imp r; req_site := req_site r; req_app := req_app r;
  req_dooh := req_dooh r; req_device := req_device r; req_user := req_user r;
  req_test := req_test r; req_at := req_at r; req_tmax := req_tmax r;
  req_allimps := req_allimps r; req_wseat := req_wseat r; req_bseat := req_bseat r;
  req_cur := req_cur r; req_wlang := req_wlang r; req_wlangb := req_wlangb r;
  req_acat := req_acat r; req_bcat := req_bcat r; req_cattax := req_cattax r;
  req_badv := req_badv r; req_bapp := req_bapp r; req_source := req_source r; req_regs := x;
  req_ext := req_ext r |}.
Definition set_req_source (x : option Source) (r : BidRequest) : BidRequest := {|
  req_id := req_id r; req_imp := req_imp r; req_site := req_site r; req_app := req_app r;
  req_dooh := req_dooh r; req_device := req_device r; req_user := req_user r;
  req_test := req_test r; req_at := req_at r; req_tmax := req_tmax r;
  req_allimps := req_allimps r; req_wseat := req_wseat r; req_bseat := req_bseat r;
  req_cur := req_cur r; req_wlang := req_wlang r; req_wlangb := req_wlangb r;
  req_acat := req_acat r; req_bcat := req_bcat r; req_cattax := req_cattax r;
  req_badv := req_badv r; req_bapp := req_bapp r; req_source := x; req_regs := req_regs r;
  req_ext := req_ext r |}.
Definition set_req_ext (x : option Value) (r : BidRequest) : BidRequest := {|
  req_id := req_id r; req_imp := req_imp r; req_site := req_site r; req_app := req_app r;
  req_dooh := req_dooh r; req_device := req_device r; req_user := req_user r;
  req_test := req_test r; req_at := req_at r; req_tmax := req_tmax r;
  req_allimps := req_allimps r; req_wseat := req_wseat r; req_bseat := req_bseat r;
  req_cur := req_cur r; req_wlang := req_wlang r; req_wlangb := req_wlangb r;
  req_acat := req_acat r; req_bcat := req_bcat r; req_cattax := req_cattax r;
  req_badv := req_badv r; req_bapp := req_bapp r; req_source := req_source r;
  req_regs := req_regs r; req_ext := x |}.
Definition set_req_tmax (x : option Z) (r : BidRequest) : BidRequest := {|
  req_id := req_id r; req_imp := req_imp r; req_site := req_site r; req_app := req_app r;
  req_dooh := req_dooh r; req_device := req_device r; req_user := req_user r;
  req_test := req_test r; req_at := req_at r; req_tmax := x; req_allimps := req_allimps r;
  req_wseat := req_wseat r; req_bseat := req_bseat r; req_cur := req_cur r;
  req_wlang := req_wlang r; req_wlangb := req_wlangb r; req_acat := req_acat r;
  req_bcat := req_bcat r; req_cattax := req_cattax r; req_badv := req_badv r;
  req_bapp := req_bapp r; req_source := req_source r; req_regs := req_regs r;
  req_ext := req_ext r |}.
Definition set_req_test (x : option Z) (r : BidRequest) : BidRequest := {|
  req_id := req_id r; req_imp := req_imp r; req_site := req_site r; req_app := req_app r;
  req_dooh := req_dooh r; req_device := req_device r; req_user := req_user r; req_test := x;
  req_at := req_at r; req_tmax := req_tmax r; req_allimps := req_allimps r;
  req_wseat := req_wseat r; req_bseat := req_bseat r; req_cur := req_cur r;
  req_wlang := req_wlang r; req_wlangb := req_wlangb r; req_acat := req_acat r;
  req_bcat := req_bcat r; req_cattax := req_cattax r; req_badv := req_badv r;
  req_bapp := req_bapp r; req_source := req_source r; req_regs := req_regs r;
  req_ext := req_ext r |}.
Definition set_req_at (x : option Z) (r : BidRequest) : BidRequest := {|
  req_id := req_id r; req_imp := req_imp r; req_site := req_site r; req_app := req_app r;
  req_dooh := req_dooh r; req_device := req_device r; req_user := req_user r;
  req_test := req_test r; req_at := x; req_tmax := req_tmax r; req_allimps := req_allimps r;
  req_wseat := req_wseat r; req_bseat := req_bseat r; req_cur := req_cur r;
  req_wlang := req_wlang r; req_wlangb := req_wlangb r; req_acat := req_acat r;
  req_bcat := req_bcat r; req_cattax := req_cattax r; req_badv := req_badv r;
  req_bapp := req_bapp r; req_source := req_source r; req_regs := req_regs r;
  req_ext := req_ext r |}.
Definition set_req_cur (x : option (list string)) (r : BidRequest) : BidRequest := {|
  req_id := req_id r; req_imp := req_imp r; req_site := req_site r; req_app := req_app r;
  req_dooh := req_dooh r; req_device := req_device r; req_user := req_user r;
  req_test := req_test r; req_at := req_at r; req_tmax := req_tmax r;
  req_allimps := req_allimps r; req_wseat := req_wseat r; req_bseat := req_bseat r;
  req_cur := x; req_wlang := req_wlang r; req_wlangb := req_wlangb r;
  req_acat := req_acat r; req_bcat := req_bcat r; req_cattax := req_cattax r;
  req_badv := req_badv r; req_bapp := req_bapp r; req_source := req_source r;
  req_regs := req_regs r; req_ext := req_ext r |}.
Definition set_req_bcat (x : option (list string)) (r : BidRequest) : BidRequest := {|
  req_id := req_id r; req_imp := req_imp r; req_site := req_site r; req_app := req_app r;
  req_dooh := req_dooh r; req_device := req_device r; req_user := req_user r;
  req_test := req_test r; req_at := req_at r; req_tmax := req_tmax r;
  req_allimps := req_allimps r; req_wseat := req_wseat r; req_bseat := req_bseat r;
  req_cur := req_cur r; req_wlang := req_wlang r; req_wlangb := req_wlangb r;
  req_acat := req_acat r; req_bcat := x; req_cattax := req_cattax r; req_badv := req_badv r;
  req_bapp := req_bapp r; req_source := req_source r; req_regs := req_regs r;
  req_ext := req_ext r |}.
Definition set_req_badv (x : option (list string)) (r : BidRequest) : BidRequest := {|
  req_id := req_id r; req_imp := req_imp r; req_site := req_site r; req_app := req_app r;
  req_dooh := req_dooh r; req_device := req_device r; req_user := req_user r;
  req_test := req_test r; req_at := req_at r; req_tmax := req_tmax r;
  req_allimps := req_allimps r; req_wseat := req_wseat r; req_bseat := req_bseat r;
  req_cur := req_cur r; req_wlang := req_wlang r; req_wlangb := req_wlangb r;
  req_acat := req_acat r; req_bcat := req_bcat r; req_cattax := req_cattax r; req_badv := x;
  req_bapp := req_bapp r; req_source := req_source r; req_regs := req_regs r;
  req_ext := req_ext r |}.

Record Bid : Type := {
  bid_id : string;
  bid_impid : string;
  bid_price : f64;
  bid_adid : option string;
  bid_nurl : option string;
  bid_adm : option string;
  bid_adomain : option (list string);
  bid_bundle : option string;
  bid_iurl : option string;
  bid_cid : option string;
  bid_crid : option string;
  bid_cattax : option Z;
  bid_cat : option (list string);
  bid_attr : option (list Z);
  bid_apis : option (list Z);
  bid_api : option Z;
  bid_protocol : option Z;
  bid_qagmediarating : option Z;
  bid_language : option string;
  bid_langb : option string;
  bid_dealid : option string;
  bid_w : option Z;
  bid_h : option Z;
  bid_wratio : option Z;
  bid_hratio : option Z;
  bid_exp : option Z;
  bid_burl : option string;
  bid_lurl : option string;
  bid_tactic : option string;
  bid_purl : option string;
  bid_mtype : option Z;
  bid_dur : option f64;
  bid_slotinpod : option Z;
  bid_ext : option Value;
}.
Definition default_bid : Bid := {|
  bid_id := ""; bid_impid := ""; bid_price := f64_zero; bid_adid := None; bid_nurl := None;
  bid_adm := None; bid_adomain := None; bid_bundle := None; bid_iurl := None;
  bid_cid := None; bid_crid := None; bid_cattax := None; bid_cat := None; bid_attr := None;
  bid_apis := None; bid_api := None; bid_protocol := None; bid_qagmediarating := None;
  bid_language := None; bid_langb := None; bid_dealid := None; bid_w := None; bid_h := None;
  bid_wratio := None; bid_hratio := None; bid_exp := None; bid_burl := None;
  bid_lurl := None; bid_tactic := None; bid_purl := None; bid_mtype := None;
  bid_dur := None; bid_slotinpod := None; bid_ext := None |}.
Definition set_bid_id (x : string) (r : Bid) : Bid := {|
  bid_id := x; bid_impid := bid_impid r; bid_price := bid_price r; bid_adid := bid_adid r;
  bid_nurl := bid_nurl r; bid_adm := bid_adm r; bid_adomain := bid_adomain r;
  bid_bundle := bid_bundle r; bid_iurl := bid_iurl r; bid_cid := bid_cid r;
  bid_crid := bid_crid r; bid_cattax := bid_cattax r; bid_cat := bid_cat r;
  bid_attr := bid_attr r; bid_apis := bid_apis r; bid_api := bid_api r;
  bid_protocol := bid_protocol r; bid_qagmediarating := bid_qagmediarating r;
  bid_language := bid_language r; bid_langb := bid_langb r; bid_dealid := bid_dealid r;
  bid_w := bid_w r; bid_h := bid_h r; bid_wratio := bid_wratio r;
  bid_hratio := bid_hratio r; bid_exp := bid_exp r; bid_burl := bid_burl r;
  bid_lurl := bid_lurl r; bid_tactic := bid_tactic r; bid_purl := bid_purl r;
  bid_mtype := bid_mtype r; bid_dur := bid_dur r; bid_slotinpod := bid_slotinpod r;
  bid_ext := bid_ext r |}.
Definition set_bid_impid (x : string) (r : Bid) : Bid := {|
  bid_id := bid_id r; bid_impid := x; bid_price := bid_price r; bid_adid := bid_adid r;
  bid_nurl := bid_nurl r; bid_adm := bid_adm r; bid_adomain := bid_adomain r;
  bid_bundle := bid_bundle r; bid_iurl := bid_iurl r; bid_cid := bid_cid r;
  bid_crid := bid_crid r; bid_cattax := bid_cattax r; bid_cat := bid_cat r;
  bid_attr := bid_attr r; bid_apis := bid_apis r; bid_api := bid_api r;
  bid_protocol := bid_protocol r; bid_qagmediarating := bid_qagmediarating r;
  bid_language := bid_language r; bid_langb := bid_langb r; bid_dealid := bid_dealid r;
  bid_w := bid_w r; bid_h := bid_h r; bid_wratio := bid_wratio r;
  bid_hratio := bid_hratio r; bid_exp := bid_exp r; bid_burl := bid_burl r;
  bid_lurl := bid_lurl r; bid_tactic := bid_tactic r; bid_purl := bid_purl r;
  bid_mtype := bid_mtype r; bid_dur := bid_dur r; bid_slotinpod := bid_slotinpod r;
  bid_ext := bid_ext r |}.
Definition set_bid_crid (x : option string) (r : Bid) : Bid := {|
  bid_id := bid_id r; bid_impid := bid_impid r; bid_price := bid_price r;
  bid_adid := bid_adid r; bid_nurl := bid_nurl r; bid_adm := bid_adm r;
  bid_adomain := bid_adomain r; bid_bundle := bid_bundle r; bid_iurl := bid_iurl r;
  bid_cid := bid_cid r; bid_crid := x; bid_cattax := bid_cattax r; bid_cat := bid_cat r;
  bid_attr := bid_attr r; bid_apis := bid_apis r; bid_api := bid_api r;
  bid_protocol := bid_protocol r; bid_qagmediarating := bid_qagmediarating r;
  bid_language := bid_language r; bid_langb := bid_langb r; bid_dealid := bid_dealid r;
  bid_w := bid_w r; bid_h := bid_h r; bid_wratio := bid_wratio r;
  bid_hratio := bid_hratio r; bid_exp := bid_exp r; bid_burl := bid_burl r;
  bid_lurl := bid_lurl r; bid_tactic := bid_tactic r; bid_purl := bid_purl r;
  bid_mtype := bid_mtype r; bid_dur := bid_dur r; bid_slotinpod := bid_slotinpod r;
  bid_ext := bid_ext r |}.
Definition set_bid_nurl (x : option string) (r : Bid) : Bid := {|
  bid_id := bid_id r; bid_impid := bid_impid r; bid_price := bid_price r;
  bid_adid := bid_adid r; bid_nurl := x; bid_adm := bid_adm r; bid_adomain := bid_adomain r;
  bid_bundle := bid_bundle r; bid_iurl := bid_iurl r; bid_cid := bid_cid r;
  bid_crid := bid_crid r; bid_cattax := bid_cattax r; bid_cat := bid_cat r;
  bid_attr := bid_attr r; bid_apis := bid_apis r; bid_api := bid_api r;
  bid_protocol := bid_protocol r; bid_qagmediarating := bid_qagmediarating r;
  bid_language := bid_language r; bid_langb := bid_langb r; bid_dealid := bid_dealid r;
  bid_w := bid_w r; bid_h := bid_h r; bid_wratio := bid_wratio r;
  bid_hratio := bid_hratio r; bid_exp := bid_exp r; bid_burl := bid_burl r;
  bid_lurl := bid_lurl r; bid_tactic := bid_tactic r; bid_purl := bid_purl r;
  bid_mtype := bid_mtype r; bid_dur := bid_dur r; bid_slotinpod := bid_slotinpod r;
  bid_ext := bid_ext r |}.
Definition set_bid_burl (x : option string) (r : Bid) : Bid := {|
  bid_id := bid_id r; bid_impid := bid_impid r; bid_price := bid_price r;
  bid_adid := bid_adid r; bid_nurl := bid_nurl r; bid_adm := bid_adm r;
  bid_adomain := bid_adomain r; bid_bundle := bid_bundle r; bid_iurl := bid_iurl r;
  bid_cid := bid_cid r; bid_crid := bid_crid r; bid_cattax := bid_cattax r;
  bid_cat := bid_cat r; bid_attr := bid_attr r; bid_apis := bid_apis r;
  bid_api := bid_api r; bid_protocol := bid_protocol r;
  bid_qagmediarating := bid_qagmediarating r; bid_language := bid_language r;
  bid_langb := bid_langb r; bid_dealid := bid_dealid r; bid_w := bid_w r; bid_h := bid_h r;
  bid_wratio := bid_wratio r; bid_hratio := bid_hratio r; bid_exp := bid_exp r;
  bid_burl := x; bid_lurl := bid_lurl r; bid_tactic := bid_tactic r; bid_purl := bid_purl r;
  bid_mtype := bid_mtype r; bid_dur := bid_dur r; bid_slotinpod := bid_slotinpod r;
  bid_ext := bid_ext r |}.
Definition set_bid_price (x : f64) (r : Bid) : Bid := {|
  bid_id := bid_id r; bid_impid := bid_impid r; bid_price := x; bid_adid := bid_adid r;
  bid_nurl := bid_nurl r; bid_adm := bid_adm r; bid_adomain := bid_adomain r;
  bid_bundle := bid_bundle r; bid_iurl := bid_iurl r; bid_cid := bid_cid r;
  bid_crid := bid_crid r; bid_cattax := bid_cattax r; bid_cat := bid_cat r;
  bid_attr := bid_attr r; bid_apis := bid_apis r; bid_api := bid_api r;
  bid_protocol := bid_protocol r; bid_qagmediarating := bid_qagmediarating r;
  bid_language := bid_language r; bid_langb := bid_langb r; bid_dealid := bid_dealid r;
  bid_w := bid_w r; bid_h := bid_h r; bid_wratio := bid_wratio r;
  bid_hratio := bid_hratio r; bid_exp := bid_exp r; bid_burl := bid_burl r;
  bid_lurl := bid_lurl r; bid_tactic := bid_tactic r; bid_purl := bid_purl r;
  bid_mtype := bid_mtype r; bid_dur := bid_dur r; bid_slotinpod := bid_slotinpod r;
  bid_ext := bid_ext r |}.
Definition set_bid_ext (x : option Value) (r : Bid) : Bid := {|
  bid_id := bid_id r; bid_impid := bid_impid r; bid_price := bid_price r;
  bid_adid := bid_adid r; bid_nurl := bid_nurl r; bid_adm := bid_adm r;
  bid_adomain := bid_adomain r; bid_bundle := bid_bundle r; bid_iurl := bid_iurl r;
  bid_cid := bid_cid r; bid_crid := bid_crid r; bid_cattax := bid_cattax r;
  bid_cat := bid_cat r; bid_attr := bid_attr r; bid_apis := bid_apis r;
  bid_api := bid_api r; bid_protocol := bid_protocol r;
  bid_qagmediarating := bid_qagmediarating r; bid_language := bid_language r;
  bid_langb := bid_langb r; bid_dealid := bid_dealid r; bid_w := bid_w r; bid_h := bid_h r;
  bid_wratio := bid_wratio r; bid_hratio := bid_hratio r; bid_exp := bid_exp r;
  bid_burl := bid_burl r; bid_lurl := bid_lurl r; bid_tactic := bid_tactic r;
  bid_purl := bid_purl r; bid_mtype := bid_mtype r; bid_dur := bid_dur r;
  bid_slotinpod := bid_slotinpod r; bid_ext := x |}.
Definition set_bid_dealid (x : option string) (r : Bid) : Bid := {|
  bid_id := bid_id r; bid_impid := bid_impid r; bid_price := bid_price r;
  bid_adid := bid_adid r; bid_nurl := bid_nurl r; bid_adm := bid_adm r;
  bid_adomain := bid_adomain r; bid_bundle := bid_bundle r; bid_iurl := bid_iurl r;
  bid_cid := bid_cid r; bid_crid := bid_crid r; bid_cattax := bid_cattax r;
  bid_cat := bid_cat r; bid_attr := bid_attr r; bid_apis := bid_apis r;
  bid_api := bid_api r; bid_protocol := bid_protocol r;
  bid_qagmediarating := bid_qagmediarating r; bid_language := bid_language r;
  bid_langb := bid_langb r; bid_dealid := x; bid_w := bid_w r; bid_h := bid_h r;
  bid_wratio := bid_wratio r; bid_hratio := bid_hratio r; bid_exp := bid_exp r;
  bid_burl := bid_burl r; bid_lurl := bid_lurl r; bid_tactic := bid_tactic r;
  bid_purl := bid_purl r; bid_mtype := bid_mtype r; bid_dur := bid_dur r;
  bid_slotinpod := bid_slotinpod r; bid_ext := bid_ext r |}.
Definition set_bid_adm (x : option string) (r : Bid) : Bid := {|
  bid_id := bid_id r; bid_impid := bid_impid r; bid_price := bid_price r;
  bid_adid := bid_adid r; bid_nurl := bid_nurl r; bid_adm := x;
  bid_adomain := bid_adomain r; bid_bundle := bid_bundle r; bid_iurl := bid_iurl r;
  bid_cid := bid_cid r; bid_crid := bid_crid r; bid_cattax := bid_cattax r;
  bid_cat := bid_cat r; bid_attr := bid_attr r; bid_apis := bid_apis r;
  bid_api := bid_api r; bid_protocol := bid_protocol r;
  bid_qagmediarating := bid_qagmediarating r; bid_language := bid_language r;
  bid_langb := bid_langb r; bid_dealid := bid_dealid r; bid_w := bid_w r; bid_h := bid_h r;
  bid_wratio := bid_wratio r; bid_hratio := bid_hratio r; bid_exp := bid_exp r;
  bid_burl := bid_burl r; bid_lurl := bid_lurl r; bid_tactic := bid_tactic r;
  bid_purl := bid_purl r; bid_mtype := bid_mtype r; bid_dur := bid_dur r;
  bid_slotinpod := bid_slotinpod r; bid_ext := bid_ext r |}.
Definition set_bid_cat (x : option (list string)) (r : Bid) : Bid := {|
  bid_id := bid_id r; bid_impid := bid_impid r; bid_price := bid_price r;
  bid_adid := bid_adid r; bid_nurl := bid_nurl r; bid_adm := bid_adm r;
  bid_adomain := bid_adomain r; bid_bundle := bid_bundle r; bid_iurl := bid_iurl r;
  bid_cid := bid_cid r; bid_crid := bid_crid r; bid_cattax := bid_cattax r; bid_cat := x;
  bid_attr := bid_attr r; bid_apis := bid_apis r; bid_api := bid_api r;
  bid_protocol := bid_protocol r; bid_qagmediarating := bid_qagmediarating r;
  bid_language := bid_language r; bid_langb := bid_langb r; bid_dealid := bid_dealid r;
  bid_w := bid_w r; bid_h := bid_h r; bid_wratio := bid_wratio r;
  bid_hratio := bid_hratio r; bid_exp := bid_exp r; bid_burl := bid_burl r;
  bid_lurl := bid_lurl r; bid_tactic := bid_tactic r; bid_purl := bid_purl r;
  bid_mtype := bid_mtype r; bid_dur := bid_dur r; bid_slotinpod := bid_slotinpod r;
  bid_ext := bid_ext r |}.
Definition set_bid_adid (x : option string) (r : Bid) : Bid := {|
  bid_id := bid_id r; bid_impid := bid_impid r; bid_price := bid_price r; bid_adid := x;
  bid_nurl := bid_nurl r; bid_adm := bid_adm r; bid_adomain := bid_adomain r;
  bid_bundle := bid_bundle r; bid_iurl := bid_iurl r; bid_cid := bid_cid r;
  bid_crid := bid_crid r; bid_cattax := bid_cattax r; bid_cat := bid_cat r;
  bid_attr := bid_attr r; bid_apis := bid_apis r; bid_api := bid_api r;
  bid_protocol := bid_protocol r; bid_qagmediarating := bid_qagmediarating r;
  bid_language := bid_language r; bid_langb := bid_langb r; bid_dealid := bid_dealid r;
  bid_w := bid_w r; bid_h := bid_h r; bid_wratio := bid_wratio r;
  bid_hratio := bid_hratio r; bid_exp := bid_exp r; bid_burl := bid_burl r;
  bid_lurl := bid_lurl r; bid_tactic := bid_tactic r; bid_purl := bid_purl r;
  bid_mtype := bid_mtype r; bid_dur := bid_dur r; bid_slotinpod := bid_slotinpod r;
  bid_ext := bid_ext r |}.
Definition set_bid_mtype (x : option Z) (r : Bid) : Bid := {|
  bid_id := bid_id r; bid_impid := bid_impid r; bid_price := bid_price r;
  bid_adid := bid_adid r; bid_nurl := bid_nurl r; bid_adm := bid_adm r;
  bid_adomain := bid_adomain r; bid_bundle := bid_bundle r; bid_iurl := bid_iurl r;
  bid_cid := bid_cid r; bid_crid := bid_crid r; bid_cattax := bid_cattax r;
  bid_cat := bid_cat r; bid_attr := bid_attr r; bid_apis := bid_apis r;
  bid_api := bid_api r; bid_protocol := bid_protocol r;
  bid_qagmediarating := bid_qagmediarating r; bid_language := bid_language r;
  bid_langb := bid_langb r; bid_dealid := bid_dealid r; bid_w := bid_w r; bid_h := bid_h r;
  bid_wratio := bid_wratio r; bid_hratio := bid_hratio r; bid_exp := bid_exp r;
  bid_burl := bid_burl r; bid_lurl := bid_lurl r; bid_tactic := bid_tactic r;
  bid_purl := bid_purl r; bid_mtype := x; bid_dur := bid_dur r;
  bid_slotinpod := bid_slotinpod r; bid_ext := bid_ext r |}.
Definition set_bid_w (x : option Z) (r : Bid) : Bid := {|
  bid_id := bid_id r; bid_impid := bid_impid r; bid_price := bid_price r;
  bid_adid := bid_adid r; bid_nurl := bid_nurl r; bid_adm := bid_adm r;
  bid_adomain := bid_adomain r; bid_bundle := bid_bundle r; bid_iurl := bid_iurl r;
  bid_cid := bid_cid r; bid_crid := bid_crid r; bid_cattax := bid_cattax r;
  bid_cat := bid_cat r; bid_attr := bid_attr r; bid_apis := bid_apis r;
  bid_api := bid_api r; bid_protocol := bid_protocol r;
  bid_qagmediarating := bid_qagmediarating r; bid_language := bid_language r;
  bid_langb := bid_langb r; bid_dealid := bid_dealid r; bid_w := x; bid_h := bid_h r;
  bid_wratio := bid_wratio r; bid_hratio := bid_hratio r; bid_exp := bid_exp r;
  bid_burl := bid_burl r; bid_lurl := bid_lurl r; bid_tactic := bid_tactic r;
  bid_purl := bid_purl r; bid_mtype := bid_mtype r; bid_dur := bid_dur r;
  bid_slotinpod := bid_slotinpod r; bid_ext := bid_ext r |}.
Definition set_bid_h (x : option Z) (r : Bid) : Bid := {|
  bid_id := bid_id r; bid_impid := bid_impid r; bid_price := bid_price r;
  bid_adid := bid_adid r; bid_nurl := bid_nurl r; bid_adm := bid_adm r;
  bid_adomain := bid_adomain r; bid_bundle := bid_bundle r; bid_iurl := bid_iurl r;
  bid_cid := bid_cid r; bid_crid := bid_crid r; bid_cattax := bid_cattax r;
  bid_cat := bid_cat r; bid_attr := bid_attr r; bid_apis := bid_apis r;
  bid_api := bid_api r; bid_protocol := bid_protocol r;
  bid_qagmediarating := bid_qagmediarating r; bid_language := bid_language r;
  bid_langb := bid_langb r; bid_dealid := bid_dealid r; bid_w := bid_w r; bid_h := x;
  bid_wratio := bid_wratio r; bid_hratio := bid_hratio r; bid_exp := bid_exp r;
  bid_burl := bid_burl r; bid_lurl := bid_lurl r; bid_tactic := bid_tactic r;
  bid_purl := bid_purl r; bid_mtype := bid_mtype r; bid_dur := bid_dur r;
  bid_slotinpod := bid_slotinpod r; bid_ext := bid_ext r |}.
Definition set_bid_adomain (x : option (list string)) (r : Bid) : Bid := {|
  bid_id := bid_id r; bid_impid := bid_impid r; bid_price := bid_price r;
  bid_adid := bid_adid r; bid_nurl := bid_nurl r; bid_adm := bid_adm r; bid_adomain := x;
  bid_bundle := bid_bundle r; bid_iurl := bid_iurl r; bid_cid := bid_cid r;
  bid_crid := bid_crid r; bid_cattax := bid_cattax r; bid_cat := bid_cat r;
  bid_attr := bid_attr r; bid_apis := bid_apis r; bid_api := bid_api r;
  bid_protocol := bid_protocol r; bid_qagmediarating := bid_qagmediarating r;
  bid_language := bid_language r; bid_langb := bid_langb r; bid_dealid := bid_dealid r;
  bid_w := bid_w r; bid_h := bid_h r; bid_wratio := bid_wratio r;
  bid_hratio := bid_hratio r; bid_exp := bid_exp r; bid_burl := bid_burl r;
  bid_lurl := bid_lurl r; bid_tactic := bid_tactic r; bid_purl := bid_purl r;
  bid_mtype := bid_mtype r; bid_dur := bid_dur r; bid_slotinpod := bid_slotinpod r;
  bid_ext := bid_ext r |}.

Record SeatBid : Type := {
  sb_bid : list Bid;
  sb_seat : option string;
  sb_group : option Z;
  sb_ext : option Value;
}.
Definition default_sb : SeatBid := {|
  sb_bid := []; sb_seat := None; sb_group := None; sb_ext := None |}.
Definition set_sb_bid (x : list Bid) (r : SeatBid) : SeatBid := {|
  sb_bid := x; sb_seat := sb_seat r; sb_group := sb_group r; sb_ext := sb_ext r |}.

Record BidResponse : Type := {
  resp_id : string;
  resp_seatbid : list SeatBid;
  resp_bidid : option string;
  resp_cur : option string;
  resp_customdata : option string;
  resp_nbr : option Z;
  resp_ext : option Value;
}.
Definition default_resp : BidResponse := {|
  resp_id := ""; resp_seatbid := []; resp_bidid := None; resp_cur := None;
  resp_customdata := None; resp_nbr := None; resp_ext := None |}.
Definition set_resp_seatbid (x : list SeatBid) (r : BidResponse) : BidResponse := {|
  resp_id := resp_id r; resp_seatbid := x; resp_bidid := resp_bidid r;
  resp_cur := resp_cur r; resp_customdata := resp_customdata r; resp_nbr := resp_nbr r;
  resp_ext := resp_ext r |}.
Definition set_resp_ext (x : option Value) (r : BidResponse) : BidResponse := {|
  resp_id := resp_id r; resp_seatbid := resp_seatbid r; resp_bidid := resp_bidid r;
  resp_cur := resp_cur r; resp_customdata := resp_customdata r; resp_nbr := resp_nbr r;
  resp_ext := x |}.

Record DurFloors : Type := {
  durf_mindur : option Z;
  durf_maxdur : option Z;
  durf_bidfloor : option f64;
  durf_ext : option Value;
}.
Definition default_durf : DurFloors := {|
  durf_mindur := None; durf_maxdur := None; durf_bidfloor := None; durf_ext := None |}.
