(* ===== verification/StoredResponses.v ===== *)
(** * Stored responses

    The responses a request asks to be answered with instead of a bidder's: the
    exchange's maps between impressions, bidders and stored responses
    (exchange/src/stored_responses.rs), and the crate that walks the JSON request,
    fetches and resolves them (stored_responses/src).

    serde_json's parser is a parameter; [MapIter] is the order of the hash maps. *)

From S2P Require Import Prelude Json OpenRtb.

(** ** The extension of an impression, openrtb-ext/src/lib.rs *)

Record ExtStoredRequest : Type := { esr_id : string }.
Record ExtStoredAuctionResponse : Type := { esar_id : string }.
Record ExtStoredBidResponse : Type := {
  esbr_id : string; esbr_bidder : string; esbr_replaceimpid : option bool }.
Record ExtImpPrebidOptions : Type := { eipo_echovideoattrs : bool }.
Record ExtImpPrebidFloors : Type := {
  eipf_floorrule : option string; eipf_floorrulevalue : option f64; eipf_floorvalue : option f64;
  eipf_floormin : option f64; eipf_floormin_cur : option string }.
Record ExtImpPrebid : Type := {
  eip_storedrequest : option ExtStoredRequest;
  eip_storedauctionresponse : option ExtStoredAuctionResponse;
  eip_storedbidresponse : option (list ExtStoredBidResponse);
  eip_is_rewarded_inventory : option Z;
  eip_bidder : option (gmap string Value);
  eip_options : option ExtImpPrebidOptions;
  eip_adunitcode : option string;
  eip_passthrough : option Value;
  eip_floors : option ExtImpPrebidFloors;
  eip_imp : option (gmap string Value);
}.
Definition default_ExtImpPrebid : ExtImpPrebid := {|
  eip_storedrequest := None; eip_storedauctionresponse := None; eip_storedbidresponse := None;
  eip_is_rewarded_inventory := None; eip_bidder := None; eip_options := None; eip_adunitcode := None;
  eip_passthrough := None; eip_floors := None; eip_imp := None |}.

(** A map of maps, its look-up, and an insertion that makes the inner map
    ([entry(a).or_insert_with(HashMap::new).insert(b, x)]). *)
Notation nested A := (gmap string (gmap string A)).
Definition lookup2 {A} (a b : string) (m : nested A) : option A := m !! a ≫= (.!! b).
Definition insert2 {A} (a b : string) (x : A) (m : nested A) : nested A :=
  <[ a := <[ b := x ]> (default ∅ (m !! a)) ]> m.
Lemma lookup2_insert2 {A} a b (x : A) m a' b' :
  lookup2 a' b' (insert2 a b x m) = if bool_decide (a' = a ∧ b' = b) then Some x else lookup2 a' b' m.
Proof.
  unfold lookup2, insert2. destruct (decide (a' = a)) as [->|Ha].
  - rewrite lookup_insert_eq. cbn. destruct (decide (b' = b)) as [->|Hb].
    + by rewrite lookup_insert_eq, bool_decide_eq_true_2.
    + rewrite lookup_insert_ne, bool_decide_eq_false_2 by naive_solver. by destruct (m !! a).
  - by rewrite lookup_insert_ne, bool_decide_eq_false_2 by naive_solver.
Qed.
(** No entry without an inner entry. *)
Definition no_empty {A} (m : nested A) : Prop := map_Forall (λ _ inner, inner ≠ ∅) m.
Lemma no_empty_insert2 {A} a b (x : A) m : no_empty m → no_empty (insert2 a b x m).
Proof. intros Hm. apply map_Forall_insert_2; [apply insert_non_empty|done]. Qed.
(** Such maps are what their look-ups are. *)
Lemma nested_eq {A} (m1 m2 : nested A) : no_empty m1 → no_empty m2 →
  (∀ a b, lookup2 a b m1 = lookup2 a b m2) → m1 = m2.
Proof.
  intros H1 H2 Hl. apply map_eq. intros a. specialize (Hl a). unfold lookup2 in Hl.
  destruct (m1 !! a) as [x|] eqn:Hx, (m2 !! a) as [y|] eqn:Hy; cbn in Hl; [| | |done].
  - apply (f_equal Some), map_eq. exact Hl.
  - destruct (H1 a x Hx). apply map_eq. intros b. by rewrite lookup_empty.
  - destruct (H2 a y Hy). apply map_eq. intros b. by rewrite lookup_empty, <-Hl.
Qed.

Section Maps.
Context `{MapIter}.

(** [for (imp_id, data) in m { for (bidder, x) in data { .. } }] *)
Definition flip_inner {A} (imp_id : string) (acc : nested A) (e : string * A) : nested A :=
  insert2 e.1 imp_id e.2 acc.
Definition flip_outer {A} (acc : nested A) (e : string * gmap string A) : nested A :=
  fold_left (flip_inner e.1) (map_iter e.2) acc.
Definition build_stored_resp (stored_bid_responses : nested Value) : nested Value :=
  fold_left flip_outer (map_iter stored_bid_responses) ∅.
Definition init_stored_bid_responses (stored_bid_responses : nested Value) : nested Value :=
  build_stored_resp stored_bid_responses.
Definition flip_map (imp_bidder_replace : nested bool) : nested bool :=
  fold_left flip_outer (map_iter imp_bidder_replace) ∅.

End Maps.

Section Flip.
Context `{MapIter} {A : Type}.

(** Among entries of distinct keys, a look-up finds the one that is there. *)
Definition find_entry {B} (k : string) (l : list (string * B)) : option B :=
  (list_to_map l : gmap string B) !! k.
Lemma find_entry_iter {B} (m : gmap string B) k : find_entry k (map_iter m) = m !! k.
Proof.
  unfold find_entry. rewrite (list_to_map_proper _ (map_to_list m)).
  - by rewrite list_to_map_to_list.
  - apply map_iter_nodup.
  - apply map_iter_perm.
Qed.
Lemma find_entry_cons {B} k e (l : list (string * B)) :
  find_entry k (e :: l) = if bool_decide (k = e.1) then Some e.2 else find_entry k l.
Proof.
  unfold find_entry. destruct e as [k' x]. cbn. case_bool_decide as Hk.
  - subst. by rewrite lookup_insert_eq.
  - by rewrite lookup_insert_ne.
Qed.
Lemma find_entry_not_in {B} k (l : list (string * B)) : k ∉ l.*1 → find_entry k l = None.
Proof. intros Hk. by apply not_elem_of_list_to_map. Qed.

Lemma flip_inner_fold i (l : list (string * A)) acc b i' : NoDup l.*1 →
  lookup2 b i' (fold_left (flip_inner i) l acc) =
    match (if bool_decide (i' = i) then find_entry b l else None) with
    | Some x => Some x | None => lookup2 b i' acc end.
Proof.
  revert acc. induction l as [|[b' x] l IH]; intros acc Hnd.
  { cbn. by destruct (bool_decide _). }
  cbn [fold_left]. cbn in Hnd. apply NoDup_cons in Hnd as [Hb Hnd]. rewrite IH by done.
  unfold flip_inner. cbn [fst snd]. rewrite lookup2_insert2, find_entry_cons. cbn [fst snd].
  destruct (decide (i' = i)) as [->|Hi].
  - rewrite bool_decide_eq_true_2 by done. destruct (decide (b = b')) as [->|Hne].
    + by rewrite find_entry_not_in, !bool_decide_eq_true_2.
    + by rewrite !bool_decide_eq_false_2 by naive_solver.
  - by rewrite !bool_decide_eq_false_2 by naive_solver.
Qed.
Lemma flip_outer_fold (l : list (string * gmap string A)) acc b i : NoDup l.*1 →
  lookup2 b i (fold_left flip_outer l acc) =
    match find_entry i l ≫= (.!! b) with Some x => Some x | None => lookup2 b i acc end.
Proof.
  revert acc. induction l as [|[i' m] l IH]; intros acc Hnd; [done|].
  cbn [fold_left]. cbn in Hnd. apply NoDup_cons in Hnd as [Hi Hnd]. rewrite IH by done.
  unfold flip_outer. rewrite find_entry_cons, flip_inner_fold, find_entry_iter by apply map_iter_nodup.
  cbn [fst snd]. destruct (decide (i = i')) as [->|Hne].
  - by rewrite find_entry_not_in, !bool_decide_eq_true_2.
  - by rewrite !bool_decide_eq_false_2.
Qed.
Lemma flip_outer_no_empty (l : list (string * gmap string A)) acc :
  no_empty acc → no_empty (fold_left flip_outer l acc).
Proof.
  revert acc. induction l as [|e l IH]; intros acc Hacc; [done|]. cbn [fold_left]. apply IH.
  unfold flip_outer. revert acc Hacc. induction (map_iter e.2) as [|e' l' IH']; intros acc Hacc; [done|].
  by apply IH', no_empty_insert2.
Qed.
Lemma flip_lookup (m : nested A) b i : lookup2 b i (fold_left flip_outer (map_iter m) ∅) = lookup2 i b m.
Proof.
  rewrite flip_outer_fold, find_entry_iter by apply map_iter_nodup. unfold lookup2.
  rewrite lookup_empty. cbn. by destruct (m !! i ≫= _).
Qed.
Lemma flip_no_empty (m : nested A) : no_empty (fold_left flip_outer (map_iter m) ∅).
Proof. apply flip_outer_no_empty, map_Forall_empty. Qed.
Lemma flip_flip (m : nested A) : no_empty m →
  fold_left flip_outer (map_iter (fold_left flip_outer (map_iter m) ∅)) ∅ = m.
Proof.
  intros Hm. apply nested_eq; [apply flip_no_empty|done|]. intros a b. by rewrite !flip_lookup.
Qed.
End Flip.

(** [init_stored_bid_responses] turns the responses by impression and bidder
    into the same responses by bidder and impression, whatever the order of the
    hash maps, and makes no bidder without a response: doing it twice gives back
    a map that has no impression without a response. *)
Theorem init_stored_bid_responses_flips `{MapIter} (m : nested Value) :
  (∀ bidder imp_id, lookup2 bidder imp_id (init_stored_bid_responses m) = lookup2 imp_id bidder m) ∧
  no_empty (init_stored_bid_responses m) ∧
  (no_empty m → init_stored_bid_responses (init_stored_bid_responses m) = m).
Proof. split_and!; [intros; apply flip_lookup|apply flip_no_empty|apply flip_flip]. Qed.

(** ** extract_stored_responses_ids *)

Record StoredRespIds : Type := {
  sri_all : list string;
  sri_bids : nested string;
  sri_auctions : gmap string string;
  sri_replace : nested bool;
}.
Definition empty_ids : StoredRespIds := {| sri_all := []; sri_bids := ∅; sri_auctions := ∅; sri_replace := ∅ |}.
Definition auction_id_missing (index : nat) : string :=
  "request.imp[" +:+ pretty index +:+ "] has ext.prebid.storedauctionresponse specified, but " +:+
  dq +:+ "id" +:+ dq +:+ " field is missing".
Definition bid_ids_missing (index : nat) : string :=
  "request.imp[" +:+ pretty index +:+ "] has ext.prebid.storedbidresponse specified, but " +:+
  dq +:+ "id" +:+ dq +:+ " or/and " +:+ dq +:+ "bidder" +:+ dq +:+ " fields are missing".

Section Extract.
Context (prebid_from_value : Value → option ExtImpPrebid).

Definition imp_prebid (imp : Imp) : option ExtImpPrebid :=
  (imp_ext imp ≫= get "prebid") ≫= prebid_from_value.
(** The stored auction response of an impression. *)
Definition extract_auction (index : nat) (imp : Imp) (prebid : ExtImpPrebid) (acc : StoredRespIds)
    : outcome string StoredRespIds :=
  match eip_storedauctionresponse prebid with
  | None => Ok acc
  | Some sar =>
      if str_is_empty (esar_id sar) then Err (auction_id_missing index) else
      Ok {| sri_all := sri_all acc ++ [esar_id sar]; sri_bids := sri_bids acc;
            sri_auctions := <[ imp_id imp := esar_id sar ]> (sri_auctions acc); sri_replace := sri_replace acc |}
  end.
(** Its stored bid responses: [bidder_stored_resp_id], [bidder_replace_imp_id] and
    [all_stored_response_ids]. *)
Definition extract_bid (index : nat) (acc : gmap string string * gmap string bool * list string)
    (sbr : ExtStoredBidResponse) : outcome string (gmap string string * gmap string bool * list string) :=
  let '(resp_ids, replace, all) := acc in
  if str_is_empty (esbr_id sbr) || str_is_empty (esbr_bidder sbr) then Err (bid_ids_missing index) else
  Ok (<[ esbr_bidder sbr := esbr_id sbr ]> resp_ids,
      <[ esbr_bidder sbr := default true (esbr_replaceimpid sbr) ]> replace, all ++ [esbr_id sbr]).
Definition extract_bids (index : nat) (imp : Imp) (prebid : ExtImpPrebid) (acc : StoredRespIds)
    : outcome string StoredRespIds :=
  match eip_storedbidresponse prebid with
  | None | Some [] => Ok acc
  | Some sbrs =>
      r ← foldM (extract_bid index) (∅, ∅, sri_all acc) sbrs;
      Ok {| sri_all := r.2; sri_bids := <[ imp_id imp := r.1.1 ]> (sri_bids acc);
            sri_auctions := sri_auctions acc; sri_replace := <[ imp_id imp := r.1.2 ]> (sri_replace acc) |}
  end.
Definition extract_imp (acc : StoredRespIds) (e : nat * Imp) : outcome string StoredRespIds :=
  match imp_prebid e.2 with
  | None => Ok acc
  | Some prebid => acc ← extract_auction e.1 e.2 prebid acc; extract_bids e.1 e.2 prebid acc
  end.
Definition extract_stored_responses_ids (imps : list Imp) : outcome string StoredRespIds :=
  foldM extract_imp empty_ids (imap pair imps).

(** What an impression asks for, and what is wrong with it. *)
Definition asked_auction (imp : Imp) : option string :=
  esar_id <$> (imp_prebid imp ≫= eip_storedauctionresponse).
Definition asked_bids (imp : Imp) : list ExtStoredBidResponse :=
  default [] (imp_prebid imp ≫= eip_storedbidresponse).
Definition asked_ids (imp : Imp) : list string :=
  option_list (asked_auction imp) ++ (esbr_id <$> asked_bids imp).
Definition bid_complete (sbr : ExtStoredBidResponse) : bool :=
  negb (str_is_empty (esbr_id sbr) || str_is_empty (esbr_bidder sbr)).
Definition imp_error (index : nat) (imp : Imp) : option string :=
  if match asked_auction imp with Some id => str_is_empty id | None => false end
  then Some (auction_id_missing index)
  else if forallb bid_complete (asked_bids imp) then None else Some (bid_ids_missing index).
(** The last impression of an id, or the last bidder, wins. *)
Definition bid_map (sbrs : list ExtStoredBidResponse) : gmap string string :=
  list_to_map (reverse ((λ s, (esbr_bidder s, esbr_id s)) <$> sbrs)).
Definition replace_map (sbrs : list ExtStoredBidResponse) : gmap string bool :=
  list_to_map (reverse ((λ s, (esbr_bidder s, default true (esbr_replaceimpid s))) <$> sbrs)).
Definition asked_bid_maps (imp : Imp) : option (gmap string string * gmap string bool) :=
  match asked_bids imp with [] => None | sbrs => Some (bid_map sbrs, replace_map sbrs) end.
Definition last_of {A} (f : Imp → option A) (imps : list Imp) : gmap string A :=
  list_to_map (reverse (omap (λ imp, pair (imp_id imp) <$> f imp) imps)).
Definition asked (imps : list Imp) : StoredRespIds := {|
  sri_all := imps ≫= asked_ids; sri_bids := last_of (λ imp, fst <$> asked_bid_maps imp) imps;
  sri_auctions := last_of asked_auction imps; sri_replace := last_of (λ imp, snd <$> asked_bid_maps imp) imps |}.

Lemma extract_bid_fold index sbrs all : foldM (extract_bid index) (∅, ∅, all) sbrs =
  if forallb bid_complete sbrs then Ok (bid_map sbrs, replace_map sbrs, all ++ (esbr_id <$> sbrs))
  else Err (bid_ids_missing index).
Proof.
  induction sbrs as [|s sbrs IH] using rev_ind; [cbn; by rewrite app_nil_r|].
  rewrite foldM_app, IH, forallb_app. destruct (forallb _ _); [|done]. cbn.
  unfold bid_complete. destruct (_ || _); [done|]. cbn.
  unfold bid_map, replace_map. by rewrite !fmap_app, !reverse_app, <-app_assoc.
Qed.
Lemma last_of_snoc {A} (f : Imp → option A) imps imp : last_of f (imps ++ [imp]) =
  match f imp with Some x => <[ imp_id imp := x ]> (last_of f imps) | None => last_of f imps end.
Proof.
  unfold last_of. rewrite omap_app. cbn [omap list_omap]. destruct (f imp) as [x|]; cbn.
  - by rewrite reverse_app.
  - by rewrite app_nil_r.
Qed.
Lemma asked_snoc imps imp : asked (imps ++ [imp]) =
  let a := asked imps in
  {| sri_all := sri_all a ++ asked_ids imp;
     sri_bids := match asked_bid_maps imp with Some m => <[ imp_id imp := m.1 ]> (sri_bids a) | None => sri_bids a end;
     sri_auctions := match asked_auction imp with Some id => <[ imp_id imp := id ]> (sri_auctions a) | None => sri_auctions a end;
     sri_replace := match asked_bid_maps imp with Some m => <[ imp_id imp := m.2 ]> (sri_replace a) | None => sri_replace a end |}.
Proof.
  unfold asked. rewrite !last_of_snoc, bind_app. cbn. rewrite app_nil_r. by destruct (asked_bid_maps imp).
Qed.
(** One impression, added to what those before it gave. *)
Lemma extract_imp_asked index imps imp : extract_imp (asked imps) (index, imp) =
  match imp_error index imp with Some e => Err e | None => Ok (asked (imps ++ [imp])) end.
Proof.
  rewrite asked_snoc. generalize (asked imps) as a. intros [all bids auctions replace].
  unfold extract_imp, imp_error, asked_ids, asked_bid_maps, asked_bids, asked_auction. cbn [fst snd].
  destruct (imp_prebid imp) as [[sr sar sbrs rw bd op au pt fl im]|]; cbn; [|by rewrite app_nil_r].
  unfold extract_auction, extract_bids. cbn [eip_storedauctionresponse eip_storedbidresponse].
  destruct sar as [sar|]; cbn; [destruct (str_is_empty (esar_id sar)); [done|]|]; cbn.
  all: destruct sbrs as [[|sbr sbrs]|]; cbn [default]; [cbn; by rewrite ?app_nil_r| |cbn; by rewrite ?app_nil_r].
  all: rewrite extract_bid_fold; destruct (forallb _ _); cbn; by rewrite <-?app_assoc.
Qed.
(** The first impression with an error, if any. *)
Fixpoint first_error (index : nat) (imps : list Imp) : option string :=
  match imps with
  | [] => None
  | imp :: imps' => match imp_error index imp with Some e => Some e | None => first_error (S index) imps' end
  end.
Lemma extract_from (imps before : list Imp) :
  foldM extract_imp (asked before) (imap (λ i, pair (length before + i)%nat) imps) =
    match first_error (length before) imps with Some e => Err e | None => Ok (asked (before ++ imps)) end.
Proof.
  revert before. induction imps as [|imp imps IH]; intros before; cbn; [by rewrite app_nil_r|].
  rewrite Nat.add_0_r, extract_imp_asked. destruct (imp_error _ imp); [done|]. cbn.
  rewrite (imap_ext _ (λ i, pair (length (before ++ [imp]) + i)%nat)).
  - rewrite IH, length_app, Nat.add_1_r, <-app_assoc. done.
  - intros i x _. cbn. rewrite length_app. cbn. f_equal. lia.
Qed.
Lemma extract_asked imps : extract_stored_responses_ids imps =
  match first_error 0 imps with Some e => Err e | None => Ok (asked imps) end.
Proof. apply (extract_from imps []). Qed.
(** Everything the maps name is in the list to fetch. *)
Lemma last_of_Some {A} (f : Imp → option A) imps i x : last_of f imps !! i = Some x →
  ∃ imp, imp ∈ imps ∧ imp_id imp = i ∧ f imp = Some x.
Proof.
  unfold last_of. intros H%elem_of_list_to_map_2. rewrite elem_of_reverse, list_elem_of_omap in H.
  destruct H as (imp&Himp&Hf). destruct (f imp) eqn:Hx; [|done]. cbn in Hf. exists imp. naive_solver.
Qed.
Lemma bid_map_Some sbrs b id : bid_map sbrs !! b = Some id → id ∈ esbr_id <$> sbrs.
Proof.
  unfold bid_map. intros H%elem_of_list_to_map_2. rewrite elem_of_reverse, list_elem_of_fmap in H.
  destruct H as (s&[= -> ->]&Hs). by apply list_elem_of_fmap_2.
Qed.
Lemma asked_auction_in imps i id : sri_auctions (asked imps) !! i = Some id → id ∈ sri_all (asked imps).
Proof.
  cbn. intros (imp&Himp&_&Ha)%last_of_Some. apply list_elem_of_bind. exists imp. split; [|done].
  unfold asked_ids. rewrite Ha. cbn. by left.
Qed.
Lemma asked_bid_in imps i b id : lookup2 i b (sri_bids (asked imps)) = Some id → id ∈ sri_all (asked imps).
Proof.
  unfold lookup2. intros (m&Hm&Hb)%bind_Some. cbn in Hm. apply last_of_Some in Hm as (imp&Himp&_&Ha).
  unfold asked_bid_maps in Ha. destruct (asked_bids imp) eqn:He; [done|]. injection Ha as <-.
  apply bid_map_Some in Hb. apply list_elem_of_bind. exists imp. split; [|done].
  unfold asked_ids. rewrite He. set_solver.
Qed.
End Extract.

(** the extraction is refused at the first impression that names no id (or,
    for a bid, no bidder), with that impression's index; otherwise it gives the
    ids asked for, in the order of the impressions, and for an impression's id the
    response of the last impression of that id; what the maps name is fetched. *)
Theorem extract_stored_responses_ids_spec prebid_from_value (imps : list Imp) :
  extract_stored_responses_ids prebid_from_value imps =
    match first_error prebid_from_value 0 imps with
    | Some e => Err e
    | None => Ok (asked prebid_from_value imps)
    end ∧
  (∀ i id, sri_auctions (asked prebid_from_value imps) !! i = Some id → id ∈ sri_all (asked prebid_from_value imps)) ∧
  (∀ i b id, lookup2 i b (sri_bids (asked prebid_from_value imps)) = Some id →
    id ∈ sri_all (asked prebid_from_value imps)).
Proof. split_and!; [apply extract_asked|apply asked_auction_in|apply asked_bid_in]. Qed.

(** ** build_stored_responses_maps *)

(** [Some(resp) if !resp.is_null()] *)
Definition usable (stored_responses : gmap string Value) (id : string) : option Value :=
  match stored_responses !! id with
  | Some resp => if is_null resp then None else Some resp
  | None => None
  end.
Definition auction_fetch_error (imp_id resp_id : string) : string :=
  "failed to fetch stored auction response for impId = " +:+ imp_id +:+
  " and storedAuctionResponse id = " +:+ resp_id.
Definition bid_fetch_error (imp_id bidder id : string) : string :=
  "failed to fetch stored bid response for impId = " +:+ imp_id +:+ ", bidder = " +:+ bidder +:+
  " and storedBidResponse id = " +:+ id.

(** A map resolved, entry by entry, with the errors of what is missing. *)
Definition resolve_entry {A} (error : string → string → string) (get : string → option A)
    (acc : gmap string A * list string) (e : string * string) : gmap string A * list string :=
  match get e.2 with
  | Some resp => (<[ e.1 := resp ]> acc.1, acc.2)
  | None => (acc.1, acc.2 ++ [error e.1 e.2])
  end.
Section Build.
Context `{MapIter}.
Definition resolve (error : string → string → string) (stored_responses : gmap string Value)
    (ids : gmap string string) (errors : list string) : gmap string Value * list string :=
  fold_left (resolve_entry error (usable stored_responses)) (map_iter ids) (∅, errors).
Definition build_bidder (stored_responses : gmap string Value) (acc : nested Value * list string)
    (e : string * gmap string string) : nested Value * list string :=
  let '(bidder_stored_responses, errors) :=
    resolve (bid_fetch_error e.1) stored_responses e.2 acc.2 in
  (<[ e.1 := bidder_stored_responses ]> acc.1, errors).
Definition build_stored_responses_maps (stored_responses : gmap string Value) (bid_ids : nested string)
    (auction_ids : gmap string string) : gmap string Value * nested Value * list string :=
  let '(auctions, errors) := resolve auction_fetch_error stored_responses auction_ids [] in
  let '(bids, errors) := fold_left (build_bidder stored_responses) (map_iter bid_ids) (∅, errors) in
  (auctions, bids, errors).

(** The errors of a map, in its order. *)
Definition missing (error : string → string → string) (stored_responses : gmap string Value)
    (e : string * string) : option string :=
  match usable stored_responses e.2 with Some _ => None | None => Some (error e.1 e.2) end.

Definition found (stored_responses : gmap string Value) (ids : gmap string string) : gmap string Value :=
  omap (usable stored_responses) ids.
Definition bids_missing (stored_responses : gmap string Value) (e : string * gmap string string) : list string :=
  omap (missing (bid_fetch_error e.1) stored_responses) (map_iter e.2).

Lemma resolve_fold error stored (l : list (string * string)) m errors : NoDup l.*1 →
  (fold_left (resolve_entry error (usable stored)) l (m, errors)).2 = errors ++ omap (missing error stored) l ∧
  ∀ k, (fold_left (resolve_entry error (usable stored)) l (m, errors)).1 !! k =
    match find_entry k l ≫= usable stored with Some x => Some x | None => m !! k end.
Proof.
  revert m errors. induction l as [|[k0 id] l IH]; intros m errors Hnd.
  { cbn. by rewrite app_nil_r. }
  cbn in Hnd. apply NoDup_cons in Hnd as [Hk0 Hnd]. cbn [fold_left]. unfold resolve_entry at 2 4. cbn [fst snd].
  cbn [omap list_omap]. unfold missing at 1. cbn [fst snd].
  destruct (usable stored id) as [resp|] eqn:Hu.
  - destruct (IH (<[k0:=resp]> m) errors Hnd) as [He Hl]. split; [done|]. intros k. rewrite Hl, find_entry_cons. cbn [fst snd].
    case_bool_decide as Hk.
    + subst. rewrite find_entry_not_in by done. cbn. by rewrite lookup_insert_eq, Hu.
    + by rewrite lookup_insert_ne.
  - destruct (IH m (errors ++ [error k0 id]) Hnd) as [He Hl]. split; [by rewrite He, <-app_assoc|].
    intros k. rewrite Hl, find_entry_cons. cbn [fst snd]. case_bool_decide as Hk; [|done].
    subst. rewrite find_entry_not_in by done. cbn. by rewrite Hu.
Qed.
Lemma resolve_spec error stored ids errors :
  (resolve error stored ids errors).2 = errors ++ omap (missing error stored) (map_iter ids) ∧
  (resolve error stored ids errors).1 = found stored ids.
Proof.
  destruct (resolve_fold error stored (map_iter ids) ∅ errors (map_iter_nodup ids)) as [He Hl].
  split; [done|]. apply map_eq. intros k. unfold resolve. rewrite Hl, find_entry_iter; unfold found; rewrite lookup_omap, lookup_empty.
  by destruct (ids !! k ≫= _).
Qed.
Lemma build_bidder_fold stored (l : list (string * gmap string string)) m errors : NoDup l.*1 →
  (fold_left (build_bidder stored) l (m, errors)).2 =
    errors ++ (l ≫= bids_missing stored) ∧
  ∀ k, (fold_left (build_bidder stored) l (m, errors)).1 !! k =
    match found stored <$> find_entry k l with Some x => Some x | None => m !! k end.
Proof.
  revert m errors. induction l as [|[k0 ids] l IH]; intros m errors Hnd.
  { cbn. by rewrite app_nil_r. }
  cbn in Hnd. apply NoDup_cons in Hnd as [Hk0 Hnd]. cbn [fold_left]. unfold build_bidder at 2 4. cbn [fst snd].
  destruct (resolve_spec (bid_fetch_error k0) stored ids errors) as [He Hm]. destruct (resolve _ _ _ _) as [m' errors'].
  cbn in He, Hm. subst m' errors'.
  destruct (IH (<[k0:=found stored ids]> m) (errors ++ omap (missing (bid_fetch_error k0) stored) (map_iter ids)) Hnd)
    as [He Hl]. split; [rewrite He, <-app_assoc; done|].
  intros k. rewrite Hl, find_entry_cons. cbn [fst snd]. case_bool_decide as Hk.
  - subst. by rewrite find_entry_not_in, lookup_insert_eq.
  - by rewrite lookup_insert_ne.
Qed.
End Build.

(** What [build_stored_responses_maps] gives: every id resolved that can be, and an
    error for each other one. *)
Definition build_errors `{MapIter} (stored : gmap string Value) (bid_ids : nested string)
    (auction_ids : gmap string string) : list string :=
  omap (missing auction_fetch_error stored) (map_iter auction_ids)
  ++ (map_iter bid_ids ≫= bids_missing stored).
Lemma build_spec `{MapIter} stored bid_ids auction_ids :
  build_stored_responses_maps stored bid_ids auction_ids =
    (found stored auction_ids, found stored <$> bid_ids, build_errors stored bid_ids auction_ids).
Proof.
  unfold build_stored_responses_maps, build_errors.
  destruct (resolve_spec auction_fetch_error stored auction_ids []) as [He Hm].
  destruct (resolve auction_fetch_error _ _ _) as [auctions errors]. cbn in He, Hm. subst.
  destruct (build_bidder_fold stored (map_iter bid_ids) ∅ (omap (missing auction_fetch_error stored) (map_iter auction_ids))
    (map_iter_nodup _)) as [He Hl]. destruct (fold_left _ _ _) as [bids errors]. cbn in He, Hl. subst.
  apply (f_equal (λ b, (_, b, _))), map_eq. intros k. rewrite Hl, find_entry_iter, lookup_fmap, lookup_empty. by destruct (_ <$> _).
Qed.
Lemma missing_None `{MapIter} error stored (ids : gmap string string) :
  omap (missing error stored) (map_iter ids) = [] ↔ ∀ k id, ids !! k = Some id → is_Some (usable stored id).
Proof.
  rewrite omap_nil, Forall_forall. unfold missing. setoid_rewrite <-map_iter_elem. split.
  - intros H1 k id Hk. specialize (H1 (k, id) Hk). cbn in H1. destruct (usable stored id); [eauto|done].
  - intros H1 [k id] Hk. cbn. by destruct (H1 k id Hk) as [v ->].
Qed.
Lemma no_errors `{MapIter} stored bid_ids auction_ids : build_errors stored bid_ids auction_ids = [] ↔
  (∀ i id, auction_ids !! i = Some id → is_Some (usable stored id)) ∧
  (∀ i b id, lookup2 i b bid_ids = Some id → is_Some (usable stored id)).
Proof.
  unfold build_errors. rewrite app_nil, missing_None. apply and_iff_compat_l.
  assert (Hb : ∀ l : list (string * gmap string string),
    (l ≫= bids_missing stored) = [] ↔
    ∀ e, e ∈ l → ∀ b id, e.2 !! b = Some id → is_Some (usable stored id)).
  { induction l as [|e l IH]; [set_solver|]. cbn. unfold bids_missing at 1. rewrite app_nil, missing_None.
    rewrite IH. setoid_rewrite elem_of_cons. naive_solver. }
  rewrite Hb. unfold lookup2. split.
  - intros Hall i b id (m&Hm&Hl)%bind_Some. apply (Hall (i, m)) with b; [by apply map_iter_elem|done].
  - intros Hall [i m] Hm b id Hl. apply map_iter_elem in Hm. apply (Hall i b). by rewrite Hm.
Qed.

(** what a request asks for is there after the ids of the extraction are
    fetched: when the fetcher knows all of them, [build_stored_responses_maps] has
    no error and gives every impression, and every bidder of an impression, its own
    response; and an error means that an id asked for was not fetched. *)
Theorem stored_responses_resolved `{MapIter} prebid_from_value (imps : list Imp) (ids : StoredRespIds)
    (stored : gmap string Value) :
  extract_stored_responses_ids prebid_from_value imps = Ok ids →
  let '(auctions, bids, errors) := build_stored_responses_maps stored (sri_bids ids) (sri_auctions ids) in
  ((∀ id, id ∈ sri_all ids → is_Some (usable stored id)) → errors = []) ∧
  (errors = [] →
    (∀ i id, sri_auctions ids !! i = Some id → is_Some (auctions !! i) ∧ auctions !! i = usable stored id) ∧
    (∀ i b id, lookup2 i b (sri_bids ids) = Some id →
      is_Some (lookup2 i b bids) ∧ lookup2 i b bids = usable stored id)).
Proof.
  intros Hids. rewrite build_spec.
  rewrite extract_asked in Hids. destruct (first_error _ _ _); [done|]. injection Hids as <-.
  split.
  - intros Hall. apply no_errors. split; intros; eapply Hall; [by eapply asked_auction_in|by eapply asked_bid_in].
  - intros [Ha Hb]%no_errors. split.
    + intros i id Hi. destruct (Ha i id Hi) as [v Hv]. unfold found; rewrite lookup_omap, Hi. cbn. rewrite Hv. by eauto.
    + intros i b id Hi. destruct (Hb i b id Hi) as [v Hv]. unfold lookup2 in *.
      apply bind_Some in Hi as (m&Hm&Hl). rewrite lookup_fmap, Hm. cbn. unfold found; rewrite lookup_omap, Hl. cbn. rewrite Hv. by eauto.
Qed.

(** ** The crate: stored_responses/src *)

Inductive StoredRespError : Type :=
| SrpNotFound (s : string)
| SrpMalformed (s : string)
| SrpBackend (s : string)
| SrpInvalidImp (index : Z) (message : string).
Definition stored_resp_error_to_string (e : StoredRespError) : string :=
  match e with
  | SrpNotFound s => "stored response id not found: " +:+ s
  | SrpMalformed s => "malformed stored response request: " +:+ s
  | SrpBackend s => "stored response backend error: " +:+ s
  | SrpInvalidImp index message => "invalid imp[" +:+ pretty index +:+ "]: " +:+ message
  end.
(** The trait, and the fetcher in memory. *)
Class StoredResponsesFetcher (F : Type) : Type :=
  fetch_responses : F → list string → outcome StoredRespError (gmap string Value).
Record InMemoryStoredResponsesFetcher : Type := { imf_responses : gmap string Value }.
Definition in_memory_fetch (f : InMemoryStoredResponsesFetcher) (ids : list string) : gmap string Value :=
  fold_left (λ out id, match imf_responses f !! id with Some body => <[ id := body ]> out | None => out end) ids ∅.
#[export] Instance in_memory_fetcher : StoredResponsesFetcher InMemoryStoredResponsesFetcher :=
  λ f ids, Ok (in_memory_fetch f ids).
(** filter.rs *)
Definition keep_imp {A} (imps_with : gmap string A) (imp : Value) : bool :=
  match get "id" imp ≫= as_str with
  | Some id => bool_decide (imps_with !! id = None)
  | None => true
  end.
Definition remove_imps_with_stored_responses (imps_with : gmap string Value) (bid_request : Value) : Value :=
  if bool_decide (imps_with = ∅) then bid_request else
  match bid_request, get "imp" bid_request with
  | VObject o, Some (VArray imps) =>
      VObject (obj_insert "imp" (VArray (List.filter (keep_imp imps_with) imps)) o)
  | _, _ => bid_request
  end.
(** video.rs *)
Definition flush_stored_video_responses (stored : nested Value) : () := ().

(** process.rs *)
Definition str_field (key : string) (v : Value) : string := default "" (get key v ≫= as_str).
Definition keys_of (v : Value) : list string := match as_object v with Some o => o.*1 | None => [] end.
(** The bidders of an impression: [ext.prebid.bidder], and the keys of [ext]. *)
Definition stored_bidder_names (ext prebid : Value) : list string :=
  default [] (keys_of <$> get "bidder" prebid)
  ++ List.filter (λ key, negb (bool_decide (key = "prebid"))) (keys_of ext).
Definition no_id_for_auction : string :=
  "has ext.prebid.storedauctionresponse specified, but " +:+ dq +:+ "id" +:+ dq +:+ " field is missing".
Definition no_ids_for_bid : string :=
  "has ext.prebid.storedbidresponse specified, but " +:+ dq +:+ "id" +:+ dq +:+ " or/and " +:+
  dq +:+ "bidder" +:+ dq +:+ " fields are missing".
Definition take_auction (index : Z) (imp_id : string) (prebid : Value) (out : StoredRespIds)
    : outcome StoredRespError StoredRespIds :=
  match get "storedauctionresponse" prebid with
  | None => Ok out
  | Some sar =>
      let id := str_field "id" sar in
      if str_is_empty id then Err (SrpInvalidImp index no_id_for_auction) else
      Ok {| sri_all := sri_all out ++ [id]; sri_bids := sri_bids out;
            sri_auctions := <[ imp_id := id ]> (sri_auctions out); sri_replace := sri_replace out |}
  end.
(** [bidder_resp_id], [bidder_replace_imp] and [out.all_ids]. *)
Definition BidAcc : Type := gmap string string * gmap string bool * list string.
Definition take_bidder (id target_bidder : string) (replace_imp_id : bool) (acc : BidAcc) (bidder_name : string) : BidAcc :=
  match acc.1.1 !! bidder_name with
  | Some _ => acc
  | None =>
      if eq_ignore_ascii_case bidder_name target_bidder
      then (<[ bidder_name := id ]> acc.1.1, <[ bidder_name := replace_imp_id ]> acc.1.2, acc.2 ++ [id])
      else acc
  end.
Definition take_bid (index : Z) (names : list string) (acc : BidAcc) (bidder_resp : Value) : outcome StoredRespError BidAcc :=
  let id := str_field "id" bidder_resp in
  let target_bidder := str_field "bidder" bidder_resp in
  if str_is_empty id || str_is_empty target_bidder then Err (SrpInvalidImp index no_ids_for_bid) else
  let replace_imp_id := default true (get "replaceimpid" bidder_resp ≫= as_bool) in
  Ok (fold_left (take_bidder id target_bidder replace_imp_id) names acc).
Definition take_bids (index : Z) (imp_id : string) (ext prebid : Value) (out : StoredRespIds)
    : outcome StoredRespError StoredRespIds :=
  match get "storedbidresponse" prebid ≫= as_array with
  | None => Ok out
  | Some sbr_arr =>
      r ← foldM (take_bid index (stored_bidder_names ext prebid)) (∅, ∅, sri_all out) sbr_arr;
      Ok (if bool_decide (r.1.1 = ∅)
          then {| sri_all := r.2; sri_bids := sri_bids out; sri_auctions := sri_auctions out; sri_replace := sri_replace out |}
          else {| sri_all := r.2; sri_bids := <[ imp_id := r.1.1 ]> (sri_bids out);
                  sri_auctions := sri_auctions out; sri_replace := <[ imp_id := r.1.2 ]> (sri_replace out) |})
  end.
Definition take_imp (out : StoredRespIds) (e : nat * Value) : outcome StoredRespError StoredRespIds :=
  let index := Z.of_nat e.1 in
  match get "id" e.2 ≫= as_str with
  | None => Err (SrpInvalidImp index "imp.id is required")
  | Some imp_id =>
      match get "ext" e.2 with
      | None => Ok out
      | Some ext =>
          match get "prebid" ext with
          | None => Ok out
          | Some prebid => out ← take_auction index imp_id prebid out; take_bids index imp_id ext prebid out
          end
      end
  end.
Definition extract_stored_response_ids (bid_request : Value) : outcome StoredRespError StoredRespIds :=
  match get "imp" bid_request ≫= as_array with
  | None => Ok empty_ids
  | Some imps => foldM take_imp empty_ids (imap pair imps)
  end.

Section Process.
Context `{MapIter}.
(** [match fetched.get(id) { Some(body) if !body.is_null() => .., _ => return Err(..) }] *)
Definition resolve_or (error : string → string → string) (fetched : gmap string Value)
    (acc : gmap string Value) (e : string * string) : outcome StoredRespError (gmap string Value) :=
  match usable fetched e.2 with
  | Some body => Ok (<[ e.1 := body ]> acc)
  | None => Err (SrpNotFound (error e.1 e.2))
  end.
Definition resolve_bidder_or (fetched : gmap string Value) (acc : nested Value)
    (e : string * gmap string string) : outcome StoredRespError (nested Value) :=
  bodies ← foldM (resolve_or (bid_fetch_error e.1) fetched) ∅ (map_iter e.2);
  Ok (<[ e.1 := bodies ]> acc).
Definition process_stored_responses {F} `{StoredResponsesFetcher F} (bid_request : Value) (fetcher : F)
    : outcome StoredRespError (gmap string Value * nested Value * nested bool) :=
  extracted ← extract_stored_response_ids bid_request;
  if bool_decide (sri_all extracted = []) then Ok (∅, ∅, ∅) else
  fetched ← fetch_responses fetcher (sri_all extracted);
  auctions ← foldM (resolve_or auction_fetch_error fetched) ∅ (map_iter (sri_auctions extracted));
  bids ← foldM (resolve_bidder_or fetched) ∅ (map_iter (sri_bids extracted));
  Ok (auctions, bids, sri_replace extracted).

Lemma foldM_resolve error fetched l m :
  foldM (resolve_or error fetched) m l =
    match omap (missing error fetched) l with
    | [] => Ok (fold_left (resolve_entry error (usable fetched)) l (m, [])).1
    | e :: _ => Err (SrpNotFound e)
    end.
Proof.
  revert m. induction l as [|[k id] l IH]; intros m; [done|]. cbn [foldM omap list_omap fold_left].
  change (missing error fetched (k, id)) with (match usable fetched id with Some _ => None | None => Some (error k id) end).
  change (resolve_or error fetched m (k, id)) with
    (match usable fetched id with Some body => Ok (<[ k := body ]> m) | None => Err (SrpNotFound (error k id)) end).
  unfold resolve_entry at 2. cbn [fst snd]. destruct (usable fetched id); [apply IH|done].
Qed.
Lemma resolve_or_spec error fetched ids : foldM (resolve_or error fetched) ∅ (map_iter ids) =
  match omap (missing error fetched) (map_iter ids) with
  | [] => Ok (found fetched ids) | e :: _ => Err (SrpNotFound e) end.
Proof. rewrite foldM_resolve. by rewrite <-(proj2 (resolve_spec error fetched ids [])). Qed.
Lemma foldM_bidders fetched l m errors :
  foldM (resolve_bidder_or fetched) m l =
    match l ≫= bids_missing fetched with
    | [] => Ok (fold_left (build_bidder fetched) l (m, errors)).1
    | e :: _ => Err (SrpNotFound e)
    end.
Proof.
  revert m errors. induction l as [|[k ids] l IH]; intros m errors; [done|]. cbn [foldM fold_left].
  rewrite bind_cons. change (bids_missing fetched (k, ids)) with (omap (missing (bid_fetch_error k) fetched) (map_iter ids)).
  change (resolve_bidder_or fetched m (k, ids)) with
    (bodies ← foldM (resolve_or (bid_fetch_error k) fetched) ∅ (map_iter ids); Ok (<[ k := bodies ]> m)).
  rewrite resolve_or_spec. destruct (omap _ _) as [|e es] eqn:He; [|done]. cbn [mbind outcome_bind app].
  unfold build_bidder at 2. cbn [fst snd]. pose proof (resolve_spec (bid_fetch_error k) fetched ids errors) as [Hr Hm].
  destruct (resolve _ _ _ _) as [m' errors']. cbn in Hm. subst m'. apply IH.
Qed.
(** The crate's resolution against the exchange's. *)
Lemma process_build {F} `{StoredResponsesFetcher F} bid_request (fetcher : F) :
  process_stored_responses bid_request fetcher =
    (extracted ← extract_stored_response_ids bid_request;
     if bool_decide (sri_all extracted = []) then Ok (∅, ∅, ∅) else
     fetched ← fetch_responses fetcher (sri_all extracted);
     match build_stored_responses_maps fetched (sri_bids extracted) (sri_auctions extracted) with
     | (auctions, bids, []) => Ok (auctions, bids, sri_replace extracted)
     | (_, _, e :: _) => Err (SrpNotFound e)
     end).
Proof.
  unfold process_stored_responses. destruct (extract_stored_response_ids _) as [ids| |]; [|done..]. cbn.
  case_bool_decide; [done|]. destruct (fetch_responses _ _) as [fetched| |]; [|done..]. cbn.
  rewrite build_spec. unfold build_errors. rewrite resolve_or_spec, (foldM_bidders fetched _ _ []).
  destruct (omap _ _); [|done]. cbn [app mbind outcome_bind]. destruct (map_iter _ ≫= bids_missing fetched) eqn:He; [|done]. cbn [mbind outcome_bind].
  destruct (build_bidder_fold fetched (map_iter (sri_bids ids)) ∅ [] (map_iter_nodup _)) as [_ Hl].
  apply (f_equal (λ b, Ok (_, b, _))), map_eq. intros k. rewrite Hl, find_entry_iter, lookup_fmap, lookup_empty.
  by destruct (_ <$> _).
Qed.
End Process.

(** *** The bidders of an impression *)

(** The first stored bid response for a bidder, its name matched without case. *)
Definition first_for (sbrs : list Value) (name : string) : option Value :=
  List.find (λ s, eq_ignore_ascii_case name (str_field "bidder" s)) sbrs.
Definition stored_complete (s : Value) : bool :=
  negb (str_is_empty (str_field "id" s) || str_is_empty (str_field "bidder" s)).
Definition stored_replace (s : Value) : bool := default true (get "replaceimpid" s ≫= as_bool).
(** What a name is given: [b] for a bidder the target is, if it has nothing yet. *)
Definition given {A B} (held : option A) (b : bool) (kept : option B) (x : B) : option B :=
  match held with Some _ => kept | None => if b then Some x else kept end.
Lemma take_bidder_one id target rep n acc name :
  let r := take_bidder id target rep acc n in
  let b := bool_decide (name = n) && eq_ignore_ascii_case name target in
  r.1.1 !! name = given (acc.1.1 !! name) b (acc.1.1 !! name) id ∧
  r.1.2 !! name = given (acc.1.1 !! name) b (acc.1.2 !! name) rep.
Proof.
  cbn zeta. unfold take_bidder, given. destruct (decide (name = n)) as [->|Hne].
  - rewrite bool_decide_eq_true_2 by done. cbn [andb]. destruct (acc.1.1 !! n) eqn:Hn; [done|].
    destruct (eq_ignore_ascii_case n target); cbn; [by rewrite !lookup_insert_eq|done].
  - rewrite bool_decide_eq_false_2 by done. cbn [andb].
    destruct (acc.1.1 !! n) eqn:Hn; [by destruct (acc.1.1 !! name)|].
    destruct (eq_ignore_ascii_case n target); cbn; [rewrite !lookup_insert_ne by done|]; by destruct (acc.1.1 !! name).
Qed.
Lemma take_bidder_fold id target rep names acc name :
  let r := fold_left (take_bidder id target rep) names acc in
  let b := bool_decide (name ∈ names) && eq_ignore_ascii_case name target in
  r.1.1 !! name = given (acc.1.1 !! name) b (acc.1.1 !! name) id ∧
  r.1.2 !! name = given (acc.1.1 !! name) b (acc.1.2 !! name) rep.
Proof.
  cbn zeta. revert acc. induction names as [|n names IH]; intros acc.
  { cbn [fold_left]. rewrite bool_decide_eq_false_2 by set_solver. by destruct (acc.1.1 !! name). }
  cbn [fold_left]. destruct (IH (take_bidder id target rep acc n)) as [-> ->].
  destruct (take_bidder_one id target rep n acc name) as [-> ->].
  rewrite (bool_decide_ext (name ∈ n :: names) (name = n ∨ name ∈ names)) by set_solver.
  rewrite bool_decide_or. unfold given. destruct (acc.1.1 !! name); [done|].
  destruct (eq_ignore_ascii_case name target); rewrite ?andb_true_r, ?andb_false_r; [|done].
  destruct (bool_decide (name = n)); [done|]. by destruct (bool_decide (name ∈ names)).
Qed.
Lemma take_bids_fold index names sbrs acc : acc.1.1 = ∅ → acc.1.2 = ∅ →
  match foldM (take_bid index names) acc sbrs with
  | Ok r => forallb stored_complete sbrs = true ∧ ∀ name,
      r.1.1 !! name = (if bool_decide (name ∈ names) then str_field "id" <$> first_for sbrs name else None) ∧
      r.1.2 !! name = (if bool_decide (name ∈ names) then stored_replace <$> first_for sbrs name else None)
  | Err e => forallb stored_complete sbrs = false ∧ e = SrpInvalidImp index no_ids_for_bid
  | Panic => False
  end.
Proof.
  intros H1 H2. induction sbrs as [|s sbrs IH] using rev_ind.
  { cbn. split; [done|]. intros name. rewrite H1, H2, !lookup_empty. by destruct (bool_decide _). }
  rewrite foldM_app, forallb_app. destruct (foldM _ _ _) as [r|e|]; cbn [mbind outcome_bind]; [| |done].
  2:{ destruct IH as [-> ->]. done. }
  destruct IH as [-> IH]. cbn [foldM forallb andb].
  change (take_bid index names r s) with (if str_is_empty (str_field "id" s) || str_is_empty (str_field "bidder" s)
    then Err (SrpInvalidImp index no_ids_for_bid)
    else Ok (fold_left (take_bidder (str_field "id" s) (str_field "bidder" s) (default true (get "replaceimpid" s ≫= as_bool))) names r)).
  unfold stored_complete. destruct (_ || _); cbn [negb andb]; [done|].
  cbn [mbind outcome_bind]. split; [done|]. intros name.
  destruct (take_bidder_fold (str_field "id" s) (str_field "bidder" s) (default true (get "replaceimpid" s ≫= as_bool)) names r name)
    as [-> ->]. destruct (IH name) as [-> ->].
  assert (Hf : first_for (sbrs ++ [s]) name = match first_for sbrs name with Some x => Some x
    | None => if eq_ignore_ascii_case name (str_field "bidder" s) then Some s else None end).
  { unfold first_for. clear. induction sbrs as [|s' sbrs IHs]; [done|]. cbn [List.find app].
    destruct (eq_ignore_ascii_case name (str_field "bidder" s')); [done|apply IHs]. }
  rewrite Hf. clear Hf. destruct (bool_decide (name ∈ names)); [|done]. cbn [andb].
  destruct (first_for sbrs name) as [x|]; [done|]. cbn. by destruct (eq_ignore_ascii_case _ _).
Qed.

(** What the maps name is among the ids to fetch, and without an id there is nothing. *)
Definition named (out : StoredRespIds) : Prop :=
  (∀ i id, sri_auctions out !! i = Some id → id ∈ sri_all out) ∧
  (∀ i b id, lookup2 i b (sri_bids out) = Some id → id ∈ sri_all out) ∧
  (sri_all out = [] → out = empty_ids).
Definition acc_named (all : list string) (acc : BidAcc) : Prop :=
  (∀ b id, acc.1.1 !! b = Some id → id ∈ acc.2) ∧ all ⊆ acc.2.
Lemma named_empty : named empty_ids.
Proof.
  split_and!; [by intros i id|..|done]. intros i b id. unfold lookup2. cbn. by rewrite lookup_empty.
Qed.
Lemma take_bidder_named all id target rep names acc :
  acc_named all acc → acc_named all (fold_left (take_bidder id target rep) names acc).
Proof.
  revert acc. induction names as [|n names IH]; intros acc Hacc; [done|]. cbn [fold_left]. apply IH.
  unfold take_bidder. destruct (acc.1.1 !! n); [done|]. destruct (eq_ignore_ascii_case _ _); [|done].
  destruct Hacc as [H1 H2]. split; cbn; [|set_solver]. intros b id'. rewrite lookup_insert_Some. set_solver.
Qed.
Lemma take_auction_named index i prebid out out' :
  named out → take_auction index i prebid out = Ok out' → named out'.
Proof.
  intros (H1&H2&H3). unfold take_auction. destruct (get _ _) as [sar|]; [|by intros [= <-]].
  destruct (str_is_empty _); [done|]. intros [= <-]. split_and!; cbn.
  - intros i' id. rewrite lookup_insert_Some. set_solver.
  - set_solver.
  - by destruct (sri_all out).
Qed.
Lemma take_bids_named index i ext prebid out out' :
  named out → take_bids index i ext prebid out = Ok out' → named out'.
Proof.
  intros (H1&H2&H3). unfold take_bids. destruct (_ ≫= as_array) as [sbrs|]; [|by intros [= <-]].
  destruct (foldM _ _ _) as [r| |] eqn:Hr; cbn; [|done..]. intros [= <-].
  assert (acc_named (sri_all out) r) as [Hb Hall].
  { eapply foldM_inv, Hr; [|by split].
    intros acc s r' _ Hacc. unfold take_bid. destruct (_ || _); [done|]. intros [= <-]. by apply take_bidder_named. }
  assert (Hauctions : ∀ i id, sri_auctions out !! i = Some id → id ∈ r.2) by (intros; by eapply Hall, H1).
  assert (Hbids : ∀ i b id, lookup2 i b (sri_bids out) = Some id → id ∈ r.2) by (intros; by eapply Hall, H2).
  case_bool_decide as He.
  - split_and!; cbn; [done|done|]. intros Hn. rewrite Hn in Hall |- *.
    by rewrite H3 by by apply list_nil_subseteq.
  - split_and!; cbn; [done| |].
    + intros i' b id. unfold lookup2. rewrite bind_Some. intros (m&Hm&Hid).
      apply lookup_insert_Some in Hm as [[<- <-]|[_ Hm]]; [by eapply Hb|].
      apply (Hbids i' b). unfold lookup2. by rewrite Hm.
    + intros Hn. destruct He. apply map_empty. intros b. destruct (r.1.1 !! b) eqn:Hl; [|done].
      apply Hb in Hl. rewrite Hn in Hl. by apply not_elem_of_nil in Hl.
Qed.
Lemma extract_named bid_request out : extract_stored_response_ids bid_request = Ok out → named out.
Proof.
  unfold extract_stored_response_ids. destruct (_ ≫= as_array) as [imps|]; [|intros [= <-]; apply named_empty].
  apply foldM_inv; [|apply named_empty]. intros acc [index imp] r _ Hacc. unfold take_imp. cbn [fst snd].
  destruct (_ ≫= as_str) as [i|]; [|done]. destruct (get "ext" imp) as [ext|]; [|by intros [= <-]].
  destruct (get "prebid" ext) as [prebid|]; [|by intros [= <-]].
  destruct (take_auction _ _ _ _) as [out'| |] eqn:Ha; cbn; [|done..].
  apply take_bids_named. by eapply take_auction_named.
Qed.
Lemma in_memory_lookup f ids id :
  in_memory_fetch f ids !! id = if bool_decide (id ∈ ids) then imf_responses f !! id else None.
Proof.
  unfold in_memory_fetch. induction ids as [|id' ids IH] using rev_ind; [by rewrite bool_decide_eq_false_2 by set_solver|].
  rewrite fold_left_app. cbn [fold_left].
  rewrite (bool_decide_ext (id ∈ ids ++ [id']) (id ∈ ids ∨ id = id')) by set_solver. rewrite bool_decide_or.
  destruct (decide (id = id')) as [->|Hne].
  - rewrite (bool_decide_eq_true_2 (id' = id')), orb_true_r by done.
    destruct (imf_responses f !! id') eqn:Hid; [by rewrite lookup_insert_eq|]. rewrite IH. by destruct (bool_decide _).
  - rewrite (bool_decide_eq_false_2 (id = id')), orb_false_r by done.
    destruct (imf_responses f !! id'); [rewrite lookup_insert_ne by done|]; apply IH.
Qed.
Lemma in_memory_usable f ids id : id ∈ ids → usable (in_memory_fetch f ids) id = usable (imf_responses f) id.
Proof. intros Hid. unfold usable. by rewrite in_memory_lookup, bool_decide_eq_true_2. Qed.
Lemma found_ext s1 s2 (ids : gmap string string) :
  (∀ k id, ids !! k = Some id → usable s1 id = usable s2 id) → found s1 ids = found s2 ids.
Proof.
  intros He. apply map_eq. intros k. unfold found. rewrite !lookup_omap. destruct (ids !! k) eqn:Hk; [|done]. cbn. by eapply He.
Qed.
Lemma missing_ext `{MapIter} error s1 s2 (ids : gmap string string) :
  (∀ k id, ids !! k = Some id → usable s1 id = usable s2 id) →
  omap (missing error s1) (map_iter ids) = omap (missing error s2) (map_iter ids).
Proof.
  intros He. apply omap_ext_in. intros [k id] Hk%map_iter_elem. unfold missing. cbn. by rewrite (He k id Hk).
Qed.
Lemma build_ext `{MapIter} s1 s2 bids auctions :
  (∀ k id, auctions !! k = Some id → usable s1 id = usable s2 id) →
  (∀ i b id, lookup2 i b bids = Some id → usable s1 id = usable s2 id) →
  build_stored_responses_maps s1 bids auctions = build_stored_responses_maps s2 bids auctions.
Proof.
  intros Ha Hb. rewrite !build_spec. unfold build_errors. rewrite (found_ext s1 s2 auctions Ha), (missing_ext _ s1 s2 auctions Ha).
  assert (Hi : ∀ i m, bids !! i = Some m → ∀ b id, m !! b = Some id → usable s1 id = usable s2 id).
  { intros i m Hm b id Hl. apply (Hb i b). unfold lookup2. by rewrite Hm. }
  assert (He : found s1 <$> bids = found s2 <$> bids).
  { apply map_fmap_ext. intros i m Hm. apply found_ext. by eapply Hi. }
  rewrite He. do 2 f_equal. assert (Hl : ∀ i m, (i, m) ∈ map_iter bids → bids !! i = Some m) by (intros; by apply map_iter_elem).
  revert Hl. induction (map_iter bids) as [|[i m] l IH]; intros Hl; [done|].
  rewrite !bind_cons, IH by set_solver. f_equal. apply missing_ext. cbn. eapply Hi, Hl. by left.
Qed.

(** with its own fetcher in memory the crate gives every impression, and every
    bidder of an impression, the response its id names, or is refused: at an
    impression whose ids are missing, or for a response that is not known (or is
    null), the first in the maps' order.  It is the exchange's resolution, made to
    stop at the first error, over all the responses there are. *)
Theorem process_in_memory_spec `{MapIter} bid_request (f : InMemoryStoredResponsesFetcher) :
  process_stored_responses bid_request f =
    (extracted ← extract_stored_response_ids bid_request;
     match build_stored_responses_maps (imf_responses f) (sri_bids extracted) (sri_auctions extracted) with
     | (auctions, bids, []) => Ok (auctions, bids, sri_replace extracted)
     | (_, _, e :: _) => Err (SrpNotFound e)
     end).
Proof.
  rewrite process_build. destruct (extract_stored_response_ids _) as [ids| |] eqn:Hx; [|done..]. cbn [mbind outcome_bind].
  apply extract_named in Hx as (Ha&Hb&Hn). case_bool_decide as He.
  { rewrite (Hn He), build_spec. cbn [sri_bids sri_auctions sri_replace empty_ids].
    unfold build_errors.
    by rewrite !map_iter_empty. }
  cbn. rewrite (build_ext _ (imf_responses f)); [done|..].
  - intros k id Hk. apply in_memory_usable. by eapply Ha.
  - intros i b id Hi. apply in_memory_usable. by eapply Hb.
Qed.
(** The stored bid responses of an impression: a bidder it names, in any case, is
    given the first of them that is for it, and no other bidder is given any. *)
Theorem take_bids_first index names sbrs all :
  match foldM (take_bid index names) (∅, ∅, all) sbrs with
  | Ok r => forallb stored_complete sbrs = true ∧ ∀ name,
      r.1.1 !! name = (if bool_decide (name ∈ names) then str_field "id" <$> first_for sbrs name else None) ∧
      r.1.2 !! name = (if bool_decide (name ∈ names) then stored_replace <$> first_for sbrs name else None)
  | Err e => forallb stored_complete sbrs = false ∧ e = SrpInvalidImp index no_ids_for_bid
  | Panic => False
  end.
Proof. by apply take_bids_fold. Qed.
(** What is left to send to bidders has no stored auction response; nothing else of
    the request changes. *)
Theorem remove_imps_spec imps_with o imps :
  imps_with ≠ ∅ → obj_get "imp" o = Some (VArray imps) →
  ∃ o', remove_imps_with_stored_responses imps_with (VObject o) = VObject o' ∧
    obj_get "imp" o' = Some (VArray (List.filter (keep_imp imps_with) imps)) ∧
    (∀ key, key ≠ "imp" → obj_get key o' = obj_get key o) ∧
    (∀ imp, In imp (List.filter (keep_imp imps_with) imps) →
      ∀ id, get "id" imp ≫= as_str = Some id → imps_with !! id = None).
Proof.
  intros Hne Hi. unfold remove_imps_with_stored_responses. rewrite bool_decide_eq_false_2 by done. cbn [get]. rewrite Hi.
  eexists. split_and!; [done|by rewrite obj_get_insert_same|..].
  - intros key Hk. by rewrite obj_get_insert_other.
  - intros imp [_ Hk]%filter_In id Hid. unfold keep_imp in Hk. rewrite Hid in Hk. by apply bool_decide_eq_true in Hk.
Qed.
(** The two extractions differ on what they are given twice: the exchange keeps the
    last stored response of a bidder, under the name it is written with; the crate
    the first, under the impression's name for the bidder. *)
Definition twice : Value := VArray [
  VObject [("bidder", VString "Appnexus"); ("id", VString "1")];
  VObject [("bidder", VString "appnexus"); ("id", VString "2")]].
Definition twice_imp : Value := VObject [("ext", VObject [("appnexus", VObject []);
  ("prebid", VObject [("storedbidresponse", twice)])]); ("id", VString "i")].
Example extractions_differ :
  bid_map [{| esbr_id := "1"; esbr_bidder := "Appnexus"; esbr_replaceimpid := None |};
           {| esbr_id := "2"; esbr_bidder := "appnexus"; esbr_replaceimpid := None |}] !! "appnexus" = Some "2" ∧
  (match extract_stored_response_ids (VObject [("imp", VArray [twice_imp])]) with
   | Ok out => lookup2 "i" "appnexus" (sri_bids out) | _ => None end) = Some "1".
Proof. by vm_compute. Qed.
