(* ===== verification/PrivacySandbox.v ===== *)
(** * Privacy Sandbox

    The topics of the Sec-Browsing-Topics header and their merge into the user's
    data (exchange/src/privacysandbox.rs), the crate's own parser of the header
    and its types for FLEDGE (privacysandbox/src).

    serde_json's conversions are parameters, and so are the orders in which hash
    maps and sets iterate. *)

From S2P Require Import Prelude Json IpUtil Text OpenRtb.

Record Topic : Type := { tp_segtax : option Z; tp_segclass : option string; tp_segids : option (list Z) }.

(** ** The header *)

Definition format_warning (msg : string) : string := "Invalid field in Sec-Browsing-Topics header: " +:+ msg.
Definition last_char (s : string) : option Ascii.ascii := last (String.list_ascii_of_string s).
Definition first_char (s : string) : option Ascii.ascii := head (String.list_ascii_of_string s).
Definition parse_seg_tax_seg_class (seg : string) : Z * string :=
  match split_char (ch ":") seg with
  | [_; taxonomy_ver; class] =>
      match parse_int (- 2 ^ 31) (2 ^ 31 - 1) (trim taxonomy_ver) with
      | Some v => if (1 <=? v) && (v <=? 10) then (600 + (v - 1), trim class) else (0, "")
      | None => (0, "")
      end
  | _ => (0, "")
  end.
Definition parse_segment_ids (segments_ids : string) : string + list Z :=
  foldr (λ id_str rest,
    match parse_int (- 2 ^ 31) (2 ^ 31 - 1) (trim id_str) with
    | None => inl "invalid segment id"
    | Some id => if id <=? 0 then inl "invalid segment id"
        else match rest with inr ids => inr (id :: ids) | inl e => inl e end
    end) (inr []) (split_whitespace segments_ids).
(** [segment_ids_str.len() < 3 || !starts_with('(') || !ends_with(')')] *)
Definition in_parens (s : string) : bool :=
  negb ((String.length s <? 3)%nat || negb (bool_decide (first_char s = Some (ch "("))) ||
        negb (bool_decide (last_char s = Some (ch ")")))).
(** [&s[1..s.len() - 1]] *)
Definition inside (s : string) : string := String.substring 1 (String.length s - 2) s.
Definition parse_topic_segment (field : string) : option Topic :=
  match split_once (ch ";") field with
  | None => None
  | Some (ids, seg) =>
      let segment_ids_str := trim ids in
      if negb (in_parens segment_ids_str) then None else
      let '(segtax, segclass) := parse_seg_tax_seg_class seg in
      if (segtax =? 0) || str_is_empty segclass then None else
      match parse_segment_ids (inside segment_ids_str) with
      | inl _ => None
      | inr seg_ids => Some {| tp_segtax := Some segtax; tp_segclass := Some segclass; tp_segids := Some seg_ids |}
      end
  end.
(** The loop over the fields, with the topics and warnings so far. *)
Definition skipped (field : string) : bool := str_is_empty field || String.prefix "();p=" field.
Definition parse_field (acc : list Topic * list string) (field : string) : list Topic * list string :=
  let field := trim field in
  if skipped field then acc else
  if (length acc.1 <? 10)%nat then
    match parse_topic_segment field with
    | Some topic => (acc.1 ++ [topic], acc.2)
    | None => (acc.1, acc.2 ++ [format_warning field])
    end
  else (acc.1, acc.2 ++ [format_warning (field +:+ " discarded due to limit reached.")]).
Definition parse_topics_from_header (sec_browsing_topics : string) : list Topic * list string :=
  fold_left parse_field (split_char (ch ",") sec_browsing_topics) ([], []).

(** ** The user's data *)

(** [HashMap<i32, HashMap<String, HashSet<i32>>>] and the orders of its parts. *)
Notation ClassMap := (gmap string (gset Z)).
Notation HeaderDataMap := (gmap Z ClassMap).
Class TopicIter : Type := {
  tax_iter : HeaderDataMap → list (Z * ClassMap);
  tax_iter_perm m : tax_iter m ≡ₚ map_to_list m;
  ids_iter : gset Z → list Z;
  ids_iter_perm s : ids_iter s ≡ₚ elements s;
}.
Definition topic_iter_elements : TopicIter := {|
  tax_iter m := map_to_list m; tax_iter_perm m := Permutation_refl _;
  ids_iter s := elements s; ids_iter_perm s := Permutation_refl _ |}.
(** serde_json: a topic read out of a value, and written as one. *)
Class TopicSerde : Type := { topic_from_value : Value → option Topic; topic_to_value : Topic → option Value }.

Definition add_topic (map : HeaderDataMap) (topic : Topic) : HeaderDataMap :=
  let segtax := default 0 (tp_segtax topic) in
  let segclass := default "" (tp_segclass topic) in
  let seg_ids := default [] (tp_segids topic) in
  let seg_class_map := default ∅ (map !! segtax) in
  let seg_ids_set := default ∅ (seg_class_map !! segclass) in
  <[ segtax := <[ segclass := seg_ids_set ∪ list_to_set seg_ids ]> seg_class_map ]> map.
Definition create_header_data_map (header_data : list Topic) : HeaderDataMap := fold_left add_topic header_data ∅.

Section Update.
Context `{MapIter, TopicIter, TopicSerde}.
Definition existing_ids (segments : list Segment) : gset Z :=
  list_to_set (omap (λ s, seg_id s ≫= parse_int (- 2 ^ 31) (2 ^ 31 - 1)) segments).
Definition find_new_seg_ids (data_name : option string) (topics_domain : string) (segtax : Z) (segclass : string)
    (user_data_segments : list Segment) (header_data_map : HeaderDataMap) : option (list Z) :=
  if negb (bool_decide (data_name = Some topics_domain)) then None else
  seg_class_map ← header_data_map !! segtax;
  seg_ids_map ← seg_class_map !! segclass;
  let existing := existing_ids user_data_segments in
  match List.filter (λ id, negb (bool_decide (id ∈ existing))) (ids_iter seg_ids_map) with
  | [] => None
  | new_ids => Some new_ids
  end.
Definition id_segment (id : Z) : Segment := {| seg_id := Some (pretty id); seg_name := None; seg_value := None; seg_ext := None |}.
(** The taxonomy and class an entry of the user's data declares. *)
Definition declared (data : Data) : option (Z * string) :=
  topic ← data_ext data ≫= topic_from_value;
  segtax ← tp_segtax topic;
  segclass ← tp_segclass topic;
  if (segtax =? 0) || str_is_empty segclass then None else Some (segtax, segclass).
Definition remove_class (segtax : Z) (segclass : string) (map : HeaderDataMap) : HeaderDataMap :=
  alter (delete segclass) segtax map.
Definition add_segments (ids : list Z) (data : Data) : Data := {|
  data_id := data_id data; data_name := data_name data;
  data_segment := data_segment data ++ (id_segment <$> ids); data_ext := data_ext data |}.
Definition merge_data_entry (topics_domain : string) (map : HeaderDataMap) (data : Data) : Data * HeaderDataMap :=
  match declared data with
  | None => (data, map)
  | Some (segtax, segclass) =>
      match find_new_seg_ids (data_name data) topics_domain segtax segclass (data_segment data) map with
      | None => (data, map)
      | Some new_seg_ids => (add_segments new_seg_ids data, remove_class segtax segclass map)
      end
  end.
Fixpoint merge_user_data (topics_domain : string) (map : HeaderDataMap) (user_data : list Data) : list Data * HeaderDataMap :=
  match user_data with
  | [] => ([], map)
  | data :: rest =>
      let '(data, map) := merge_data_entry topics_domain map data in
      let '(rest, map) := merge_user_data topics_domain map rest in
      (data :: rest, map)
  end.
(** The entry a class left in the map makes. *)
Definition class_entry (topics_domain : string) (segtax : Z) (e : string * gset Z) : list Data :=
  if bool_decide (e.2 = ∅) then [] else
  match topic_to_value {| tp_segtax := Some segtax; tp_segclass := Some e.1; tp_segids := None |} with
  | None => []
  | Some ext => [{| data_id := None; data_name := Some topics_domain;
      data_segment := id_segment <$> ids_iter e.2; data_ext := Some ext |}]
  end.
Definition tax_entries (topics_domain : string) (e : Z * ClassMap) : list Data :=
  flat_map (class_entry topics_domain e.1) (map_iter e.2).
Definition update_user_data_with_topics (user_data : list Data) (header_data : list Topic) (topics_domain : string)
    : list Data :=
  if str_is_empty topics_domain then user_data else
  let '(user_data, map) := merge_user_data topics_domain (create_header_data_map header_data) user_data in
  user_data ++ flat_map (tax_entries topics_domain) (tax_iter map).
End Update.

(** ** The crate *)

Record CrateTopic : Type := { seg_tax : Z; seg_class : string; seg_ids : list Z }.
Definition seg_tax_is_zero (v : Z) : bool := v =? 0.
Record ParseWarning : Type := { tw_message : string }.
Definition parse_warning_new (field : string) : ParseWarning := {| tw_message := "Invalid field in Sec-Browsing-Topics header: " +:+ field |}.
Record TopicsParseResult : Type := { tpr_topics : list CrateTopic; tpr_warnings : list ParseWarning }.
Definition MAX_TOPICS : Z := 10.
Definition crate_parse_seg_tax_seg_class (seg : string) : option (Z * string) :=
  match split_char (ch ":") seg with
  | [_; p1; p2] =>
      taxonomy ← parse_int (- 2 ^ 31) (2 ^ 31 - 1) (trim p1);
      if (1 <=? taxonomy) && (taxonomy <=? 10) then Some (600 + (taxonomy - 1), trim p2) else None
  | _ => None
  end.
Definition crate_parse_segment_ids (ids : string) : option (list Z) :=
  foldr (λ tok rest,
    n ← parse_int (- 2 ^ 31) (2 ^ 31 - 1) tok;
    if n <=? 0 then None else ns ← rest; Some (n :: ns)) (Some []) (split_whitespace ids).
Definition crate_parse_topic_segment (field : string) : option CrateTopic :=
  '(ids_part, meta_part) ← split_once (ch ";") field;
  let ids_part := trim ids_part in
  let meta_part := trim meta_part in
  if negb (in_parens ids_part) then None else
  '(seg_tax, seg_class) ← crate_parse_seg_tax_seg_class meta_part;
  if (seg_tax =? 0) || str_is_empty seg_class then None else
  seg_ids ← crate_parse_segment_ids (inside ids_part);
  Some {| seg_tax := seg_tax; seg_class := seg_class; seg_ids := seg_ids |}.
Definition crate_parse_field (acc : TopicsParseResult) (field : string) : TopicsParseResult :=
  let field := trim field in
  if skipped field then acc else
  if zlen (tpr_topics acc) <? MAX_TOPICS then
    match crate_parse_topic_segment field with
    | Some t => {| tpr_topics := tpr_topics acc ++ [t]; tpr_warnings := tpr_warnings acc |}
    | None => {| tpr_topics := tpr_topics acc; tpr_warnings := tpr_warnings acc ++ [parse_warning_new field] |}
    end
  else {| tpr_topics := tpr_topics acc; tpr_warnings := tpr_warnings acc ++ [parse_warning_new (field +:+ " discarded due to limit reached.")] |}.
Definition crate_parse_topics_from_header (sec_browsing_topics : string) : TopicsParseResult :=
  fold_left crate_parse_field (split_char (ch ",") sec_browsing_topics) {| tpr_topics := []; tpr_warnings := [] |}.
(** *** fledge.rs *)
Record InterestGroupAuctionBuyers : Type := { igb_bidder : string; igb_origin : string; igb_allowed : bool }.
Record FledgeConfig : Type := { flc_enabled : bool; interest_group_auction_buyers : list InterestGroupAuctionBuyers }.
Record AuctionSignals : Type := {
  per_buyer_signals : gmap string Value; per_buyer_timeouts : gmap string Z; seller_signals : option Value }.
Record PsFledgeAuctionConfig : Type := { fac_bidder : string; fac_imp_id : string; fac_config : option Value }.

(** ** What is parsed *)

Lemma parse_int_range lo hi s v : parse_int lo hi s = Some v → lo ≤ v ≤ hi.
Proof.
  unfold parse_int. intros (x&_&Hx)%bind_Some. destruct (_ && _) eqn:Hb; [|done]. injection Hx as <-. by bools.
Qed.
Definition well_formed (t : Topic) : Prop := ∃ tax class ids,
  t = {| tp_segtax := Some tax; tp_segclass := Some class; tp_segids := Some ids |} ∧
  600 ≤ tax ≤ 609 ∧ class ≠ "" ∧ Forall (λ id, 0 < id < 2 ^ 31) ids.
Lemma seg_tax_range seg tax class : parse_seg_tax_seg_class seg = (tax, class) → tax = 0 ∨ 600 ≤ tax ≤ 609.
Proof.
  unfold parse_seg_tax_seg_class. destruct (split_char _ _) as [|a [|b [|c [|]]]]; try (intros [= <- _]; by left).
  destruct (parse_int _ _ _) as [v|]; [|intros [= <- _]; by left].
  destruct (_ && _) eqn:Hb; [|intros [= <- _]; by left]. intros [= <- _]. bools. right. lia.
Qed.
Lemma segment_ids_positive s ids : parse_segment_ids s = inr ids → Forall (λ id, 0 < id < 2 ^ 31) ids.
Proof.
  unfold parse_segment_ids. revert ids. induction (split_whitespace s) as [|w ws IH]; intros ids; cbn [foldr].
  { by intros [= <-]. }
  destruct (parse_int _ _ _) as [id|] eqn:Hid; [|done]. apply parse_int_range in Hid.
  destruct (Z.leb_spec id 0); [done|]. destruct (foldr _ _ _) as [|rest]; [done|].
  intros [= <-]. constructor; [lia|by apply IH].
Qed.
Lemma segment_well_formed field t : parse_topic_segment field = Some t → well_formed t.
Proof.
  unfold parse_topic_segment. destruct (split_once _ _) as [[ids seg]|]; [|done]. cbn zeta.
  destruct (negb _); [done|]. destruct (parse_seg_tax_seg_class seg) as [tax class] eqn:Ht.
  destruct ((tax =? 0) || str_is_empty class) eqn:Hz; [done|].
  destruct (parse_segment_ids _) as [|seg_ids] eqn:Hids; [done|]. intros [= <-].
  apply orb_false_iff in Hz as [Hz Hc]. apply bool_decide_eq_false in Hc. apply Z.eqb_neq in Hz.
  apply seg_tax_range in Ht. exists tax, class, seg_ids. split_and!; [done|lia|lia|done|].
  by eapply segment_ids_positive.
Qed.
Lemma parse_field_inv acc field : (length acc.1 ≤ 10)%nat → Forall well_formed acc.1 →
  let r := parse_field acc field in
  (length r.1 ≤ 10)%nat ∧ Forall well_formed r.1 ∧
  (length r.1 + length r.2 = length acc.1 + length acc.2 + if skipped (trim field) then 0 else 1)%nat.
Proof.
  intros Hl Hw. unfold parse_field. destruct (skipped _); [cbn; by rewrite Nat.add_0_r|].
  destruct (Nat.ltb_spec (length acc.1) 10); [destruct (parse_topic_segment _) eqn:Ht|];
    cbn; rewrite ?length_app; cbn; rewrite ?Forall_app; split_and!; try lia; try done.
  repeat constructor. by eapply segment_well_formed.
Qed.
(** whatever the header says, at most ten topics come out of it, each with a
    taxonomy of 600 to 609, a class and positive segment ids, and every field that
    is not blank or padding gives one topic or one warning. *)
Theorem parse_topics_safe header :
  let '(topics, warnings) := parse_topics_from_header header in
  (length topics ≤ 10)%nat ∧ Forall well_formed topics ∧
  (length topics + length warnings =
    length (List.filter (λ f, negb (skipped (trim f))) (split_char (ch ",") header)))%nat.
Proof.
  unfold parse_topics_from_header.
  assert (Hf : ∀ fields acc, (length acc.1 ≤ 10)%nat → Forall well_formed acc.1 →
    let r := fold_left parse_field fields acc in (length r.1 ≤ 10)%nat ∧ Forall well_formed r.1 ∧
    (length r.1 + length r.2 = length acc.1 + length acc.2 + length (List.filter (λ f, negb (skipped (trim f))) fields))%nat).
  { induction fields as [|f fields IH]; intros acc Hl Hw; cbn; [by rewrite Nat.add_0_r|].
    destruct (parse_field_inv acc f Hl Hw) as (Hl'&Hw'&Hn). destruct (IH _ Hl' Hw') as (H1&H2&H3).
    split_and!; [done..|]. rewrite H3, Hn. destruct (skipped _); cbn; lia. }
  specialize (Hf (split_char (ch ",") header) ([], []) ltac:(cbn; lia) ltac:(constructor)).
  by destruct (fold_left _ _ _).
Qed.

(** ** Headers as browsers write them *)

Definition print_topic (t : CrateTopic) : string :=
  "(" +:+ join " " (pretty <$> seg_ids t) +:+ ");v=chrome.1:" +:+
  pretty (seg_tax t - 599) +:+ ":" +:+ seg_class t.
Definition printable (t : CrateTopic) : Prop :=
  600 ≤ seg_tax t ≤ 609 ∧ plain (seg_class t) ∧ seg_class t ≠ "" ∧
  no_char (ch ",") (seg_class t) ∧ no_char (ch ":") (seg_class t) ∧
  Forall (λ id, 0 < id < 2 ^ 31) (seg_ids t) ∧ seg_ids t ≠ [].
Definition topic_of (t : CrateTopic) : Topic := {|
  tp_segtax := Some (seg_tax t); tp_segclass := Some (seg_class t);
  tp_segids := Some (seg_ids t) |}.
Lemma digit_no_char c s : (Z.of_N (Ascii.N_of_ascii c) < 48 ∨ 57 < Z.of_N (Ascii.N_of_ascii c)) → c ≠ ch "-" →
  digit_text s → no_char c s.
Proof.
  intros Hc Hne Hs Hin. unfold digit_text in Hs. rewrite Forall_forall in Hs. destruct (Hs c Hin); [done|lia].
Qed.
Definition ids_text (ids : list Z) : string := join " " (pretty <$> ids).
Lemma ids_text_chars (P : Ascii.ascii → Prop) ids : P (ch " ") → (∀ s, digit_text s → Forall P (String.list_ascii_of_string s)) →
  Forall P (String.list_ascii_of_string (ids_text ids)).
Proof.
  intros Hsp Hd. induction ids as [|id ids IH]; [constructor|]. unfold ids_text in *. destruct ids as [|id' ids].
  { apply Hd, pretty_text. }
  change (join " " (pretty <$> id :: id' :: ids)) with (pretty id +:+ " " +:+ join " " (pretty <$> id' :: ids)).
  rewrite !list_ascii_app, !Forall_app. split_and!; [apply Hd, pretty_text|by repeat constructor|done].
Qed.
Lemma ids_text_no_char c ids : (Z.of_N (Ascii.N_of_ascii c) < 48 ∨ 57 < Z.of_N (Ascii.N_of_ascii c)) → c ≠ ch "-" →
  c ≠ ch " " → no_char c (ids_text ids).
Proof.
  intros H1 H2 H3 Hin. pose proof (ids_text_chars (λ a, a ≠ c) ids) as Hf.
  rewrite Forall_forall in Hf. apply (Hf (not_eq_sym H3)) in Hin; [done|].
  intros s Hs. apply Forall_forall. intros a Ha ->. by eapply digit_no_char.
Qed.
Lemma ids_text_ascii ids : ascii_text (ids_text ids).
Proof.
  apply ids_text_chars; [by vm_compute|]. intros s Hs. by apply plain_ascii, digit_text_plain.
Qed.
Lemma pretty_not_empty (z : Z) : pretty z ≠ "".
Proof.
  destruct z as [|p|p]; [done| |done]. destruct (pretty_N_first (Npos p)) as (a&s&Hp&_). change (pretty (N.pos p) ≠ ""). by rewrite Hp.
Qed.
Lemma parse_ids_text ids : Forall (λ id, 0 < id < 2 ^ 31) ids → parse_segment_ids (ids_text ids) = inr ids.
Proof.
  intros Hids. unfold parse_segment_ids, ids_text. rewrite split_whitespace_join.
  - induction Hids as [|id ids Hid Hids IH]; [done|]. cbn [fmap list_fmap foldr].
    rewrite trim_plain, parse_pretty by (try apply pretty_plain; lia). rewrite (proj2 (Z.leb_gt id 0)) by lia. by rewrite IH.
  - apply Forall_fmap, Forall_true. intros id. cbn. split; [apply pretty_plain|apply pretty_not_empty].
Qed.
Lemma parens_edged s : ascii_text s → edged ("(" +:+ s +:+ ")").
Proof.
  intros Hs. unfold edged. rewrite !ascii_text_app, !list_ascii_app, !reverse_app. cbn. split_and!; try done; by repeat constructor.
Qed.
Lemma parens_in s : s ≠ "" → in_parens ("(" +:+ s +:+ ")") = true.
Proof.
  intros Hs. unfold in_parens, first_char, last_char. rewrite !list_ascii_app, !str_length_app, !last_app.
  rewrite (proj2 (Nat.ltb_ge _ 3)); [done|]. destruct s; [done|]. cbn. lia.
Qed.
Lemma parens_inside s : inside ("(" +:+ s +:+ ")") = s.
Proof.
  unfold inside. rewrite !str_length_app. cbn [String.length]. replace (_ - 2)%nat with (String.length s) by lia.
  apply (substring_app_l s ")").
Qed.
Lemma ids_text_not_empty ids : ids ≠ [] → ids_text ids ≠ "".
Proof.
  destruct ids as [|id [|id' ids]]; [done|..]; intros _; unfold ids_text.
  - apply pretty_not_empty.
  - change (join " " (pretty <$> id :: id' :: ids)) with (pretty id +:+ " " +:+ join " " (pretty <$> id' :: ids)).
    pose proof (pretty_not_empty id). by destruct (pretty id).
Qed.
Definition meta_text (t : CrateTopic) : string :=
  "v=chrome.1:" +:+ pretty (seg_tax t - 599) +:+ ":" +:+ seg_class t.
Lemma print_topic_split t : print_topic t = ("(" +:+ ids_text (seg_ids t) +:+ ")") +:+ String (ch ";") (meta_text t).
Proof. unfold print_topic, meta_text. fold (ids_text (seg_ids t)). by rewrite !str_app_assoc. Qed.
Lemma parse_meta t : printable t → parse_seg_tax_seg_class (meta_text t) = (seg_tax t, seg_class t).
Proof.
  intros (Ht&Hp&Hne&_&Hc&_). unfold parse_seg_tax_seg_class, meta_text.
  change ("v=chrome.1:" +:+ ?x) with ("v=chrome.1" +:+ String (ch ":") x).
  rewrite split_char_app by by vm_compute; set_solver.
  change (":" +:+ seg_class t) with (String (ch ":") (seg_class t)).
  rewrite split_char_app, split_char_no_char; [|done|].
  - rewrite (trim_plain (pretty _)), trim_plain, parse_pretty by (try apply pretty_plain; try done; lia).
    rewrite (proj2 (Z.leb_le 1 _)), (proj2 (Z.leb_le _ 10)) by lia. cbn [andb]. f_equal. lia.
  - apply digit_no_char; [right; by vm_compute|done|apply pretty_text].
Qed.
Lemma parse_print_topic t : printable t → parse_topic_segment (print_topic t) = Some (topic_of t).
Proof.
  intros Hp. pose proof Hp as (Ht&_&Hne&_&_&Hids&Hn). rewrite print_topic_split. unfold parse_topic_segment.
  rewrite split_once_app.
  2:{ rewrite !no_char_app. split_and!; [|apply ids_text_no_char; [right; by vm_compute|done|done]|]; unfold no_char; cbn; set_solver. }
  pose proof (trim_edges "" _ "" ltac:(constructor) ltac:(constructor) (parens_edged _ (ids_text_ascii (seg_ids t)))) as Htr.
  rewrite str_app_nil_r in Htr. change ("" +:+ ?x) with x in Htr. rewrite Htr, parens_in, parens_inside, parse_meta by (try apply ids_text_not_empty; done).
  rewrite (proj2 (Z.eqb_neq _ 0)) by lia. unfold str_is_empty. rewrite bool_decide_eq_false_2 by done.
  cbn. by rewrite parse_ids_text.
Qed.
Lemma print_topic_edged t : printable t → edged (print_topic t) ∧ no_char (ch ",") (print_topic t).
Proof.
  intros (Ht&Hp&Hne&Hcomma&_). unfold print_topic. fold (ids_text (seg_ids t)). split.
  - unfold edged. rewrite !ascii_text_app, !list_ascii_app, !reverse_app. split_and!.
    + by repeat constructor.
    + apply ids_text_ascii.
    + by repeat constructor.
    + apply plain_ascii, pretty_plain.
    + by repeat constructor.
    + by apply plain_ascii.
    + by vm_compute.
    + destruct (plain_edged _ Hp Hne) as (_&_&Hr). rewrite <-!app_assoc. by destruct (reverse _).
  - rewrite !no_char_app. split_and!; [| |..|done]; try (unfold no_char; cbn; set_solver).
    + apply ids_text_no_char; [left; by vm_compute|done|done].
    + apply digit_no_char; [left; by vm_compute|done|apply pretty_text].
Qed.
Lemma print_topic_not_skipped t : printable t → skipped (print_topic t) = false.
Proof.
  intros (_&_&_&_&_&_&Hn). rewrite print_topic_split. unfold skipped.
  pose proof (ids_text_no_char (ch ")") (seg_ids t)) as Hnc. unfold no_char in Hnc.
  destruct (ids_text (seg_ids t)) as [|a s] eqn:Hids; [by apply ids_text_not_empty in Hn|].
  change (String.prefix "();p=" (String (ch "(") (String a (s +:+ ")") +:+ String (ch ";") (meta_text t))) = false).
  rewrite prefix_cons. change (String.prefix ");p=" (String a ((s +:+ ")") +:+ String (ch ";") (meta_text t))) = false). rewrite prefix_cons.
  rewrite bool_decide_eq_false_2; [done|]. intros <-. apply Hnc; [left; by vm_compute|done|done|by left].
Qed.
(** A header: topics, each after blanks, and the padding. *)
Definition print_header (ts : list (string * CrateTopic)) (padding : list string) : string :=
  join "," (((λ e, e.1 +:+ print_topic e.2) <$> ts) ++ ((λ p, " ();p=" +:+ p) <$> padding)).
(** a header as browsers write it, of at most ten topics with any blanks
    before them and any padding after, is read back as those topics, without a
    warning. *)
Theorem parse_print_header ts padding :
  Forall (λ e, blank e.1 ∧ printable e.2) ts → (length ts ≤ 10)%nat →
  Forall (λ p, plain p ∧ no_char (ch ",") p) padding →
  parse_topics_from_header (print_header ts padding) = (topic_of ∘ snd <$> ts, []).
Proof.
  intros Hts Hl Hpad. unfold parse_topics_from_header, print_header.
  set (fields := _ ++ _). assert (Hsplit : split_char (ch ",") (join "," fields) = match fields with [] => [""] | _ => fields end).
  { destruct fields as [|f fields'] eqn:Hf; [done|]. change "," with (String (ch ",") "") at 2. apply split_char_join.
    rewrite <-Hf. unfold fields. apply Forall_app. split; apply Forall_fmap; eapply Forall_impl; [exact Hts| |exact Hpad|].
    - intros e [Hb Hp]. cbn. apply no_char_app. split; [|by apply print_topic_edged].
      unfold no_char. intros Hin. unfold blank in Hb. rewrite Forall_forall in Hb. by apply Hb in Hin.
    - intros p [_ Hp]. cbn. change (no_char (ch ",") (" ();p=" +:+ p)). apply no_char_app. split; [|done]. unfold no_char; cbn; set_solver. }
  rewrite Hsplit. clear Hsplit.
  assert (Hfold : fold_left parse_field fields ([], []) = (topic_of ∘ snd <$> ts, [])).
  { unfold fields. rewrite fold_left_app.
    assert (Hfirst : ∀ acc : list Topic, (length acc + length ts ≤ 10)%nat →
      fold_left parse_field ((λ e, e.1 +:+ print_topic e.2) <$> ts) (acc, []) = (acc ++ (topic_of ∘ snd <$> ts), [])).
    { clear Hl Hpad fields. induction Hts as [|[b t] ts [Hb Hp] Hts IH]; intros acc Hlen; cbn [fmap list_fmap fold_left].
      { by rewrite app_nil_r. }
      cbn in Hb, Hp, Hlen. unfold parse_field at 2. cbn [fst snd].
      pose proof (trim_edges b (print_topic t) "" Hb ltac:(constructor) (proj1 (print_topic_edged t Hp))) as Htr.
      rewrite str_app_nil_r in Htr. rewrite Htr.
      rewrite print_topic_not_skipped by done.
      rewrite (proj2 (Nat.ltb_lt _ 10)) by lia. rewrite parse_print_topic by done.
      rewrite IH by (rewrite length_app; cbn; lia). by rewrite <-app_assoc. }
    rewrite Hfirst by done. cbn [app].
    generalize (topic_of ∘ snd <$> ts) as acc. intros acc. clear -Hpad. induction Hpad as [|p padding [Hp _] Hpad IH]; [done|].
    cbn [fmap list_fmap fold_left]. unfold parse_field at 2.
    assert (trim (" ();p=" +:+ p) = "();p=" +:+ p) as ->.
    { pose proof (trim_edges " " ("();p=" +:+ p) "" ltac:(by repeat constructor) ltac:(constructor)) as Htr.
      rewrite str_app_nil_r in Htr. apply Htr, plain_edged; [|done]. apply plain_app. split; [by repeat constructor; vm_compute|done]. }
    assert (skipped ("();p=" +:+ p) = true) as -> by (by destruct p). done. }
  destruct fields as [|f fields']; [|done]. injection Hfold as <-. done.
Qed.

(** ** The crate's parser is the exchange's *)

Definition space (a : Ascii.ascii) : bool := is_whitespace (String a "").
Notation trim_list l := (reverse (drop_while space (reverse (drop_while space l)))).
Lemma drop_while_fmap {A B} (p : B → bool) (f : A → B) l : drop_while p (f <$> l) = f <$> drop_while (p ∘ f) l.
Proof. induction l as [|x l IH]; [done|]. cbn. by destruct (p (f x)). Qed.
Lemma trim_ascii s : ascii_text s → trim s = String.string_of_list_ascii (trim_list (String.list_ascii_of_string s)).
Proof.
  intros Hs. unfold trim. rewrite ascii_chars by done. rewrite drop_while_fmap, <-fmap_reverse, drop_while_fmap, <-fmap_reverse.
  apply concat_chars.
Qed.
Lemma drop_while_split l : ∃ b, l = b ++ drop_while space l ∧ Forall (λ a, space a = true) b.
Proof.
  induction l as [|a l (b&Hl&Hb)]; [by exists []|]. cbn. destruct (space a) eqn:Ha; [|by exists []].
  exists (a :: b). cbn. split; [by rewrite <-Hl|by constructor].
Qed.
Lemma drop_while_all l rest : Forall (λ a, space a = true) l → drop_while space (l ++ rest) = drop_while space rest.
Proof. induction 1 as [|a l Ha Hl IH]; [done|]. cbn. by rewrite Ha. Qed.
Lemma drop_while_app l rest : drop_while space l ≠ [] → drop_while space (l ++ rest) = drop_while space l ++ rest.
Proof. induction l as [|a l IH]; [done|]. cbn. by destruct (space a); [apply IH|]. Qed.
Lemma drop_while_nil l : drop_while space l = [] ↔ Forall (λ a, space a = true) l.
Proof.
  split.
  - intros Hl. destruct (drop_while_split l) as (b&He&Hb). rewrite Hl, app_nil_r in He. by subst.
  - intros Hl. rewrite <-(app_nil_r l), drop_while_all; done.
Qed.
Lemma trim_list_right l after : Forall (λ a, space a = true) after → trim_list (l ++ after) = trim_list l.
Proof.
  intros Ha. destruct (decide (drop_while space l = [])) as [Hn|Hn].
  - apply drop_while_nil in Hn. by rewrite (proj2 (drop_while_nil (l ++ after))), (proj2 (drop_while_nil l)) by (rewrite ?Forall_app; done).
  - rewrite drop_while_app, reverse_app, drop_while_all; [done|by apply Forall_reverse|done].
Qed.
(** What trimming takes away is blank. *)
Lemma trim_list_split l : ∃ b a, l = b ++ trim_list l ++ a ∧ Forall (λ a, space a = true) b ∧ Forall (λ a, space a = true) a.
Proof.
  destruct (drop_while_split l) as (b&Hl&Hb). destruct (drop_while_split (reverse (drop_while space l))) as (a&Hr&Ha).
  exists b, (reverse a). split_and!; [|done|by apply Forall_reverse].
  rewrite Hl at 1. f_equal. rewrite <-(reverse_involutive (drop_while space l)) at 1. rewrite Hr at 1. by rewrite reverse_app.
Qed.
Lemma split_char_ne c s : split_char c s ≠ [].
Proof. destruct s as [|a s]; [done|]. cbn. case_bool_decide; [done|]. by destruct (split_char c s). Qed.
(** The last of the parts of a text loses what follows it; the first what is before. *)
Lemma split_char_prefix c b s : no_char c b →
  split_char c (b +:+ s) = match split_char c s with p :: ps => (b +:+ p) :: ps | [] => [] end.
Proof.
  unfold no_char. induction b as [|a b IH]; intros Hb.
  { change ("" +:+ s) with s. by destruct (split_char c s). }
  cbn in Hb. apply not_elem_of_cons in Hb as [Ha Hb].
  change (String a b +:+ s) with (String a (b +:+ s)). cbn [split_char].
  rewrite bool_decide_eq_false_2 by done. rewrite IH by done.
  pose proof (split_char_ne c s). by destruct (split_char c s).
Qed.
Fixpoint on_last (f : string → string) (l : list string) : list string :=
  match l with [] => [] | [p] => [f p] | p :: ps => p :: on_last f ps end.
Lemma split_char_suffix c s after : no_char c after →
  split_char c (s +:+ after) = on_last (λ p, p +:+ after) (split_char c s).
Proof.
  intros Ha. induction s as [|a s IH]; [by apply split_char_no_char|].
  change (String a s +:+ after) with (String a (s +:+ after)). cbn [split_char]. rewrite IH.
  pose proof (split_char_ne c s) as Hne. destruct (split_char c s) as [|p [|p' ps]]; [done|..]; by case_bool_decide.
Qed.
Lemma ascii_string l : String.list_ascii_of_string (String.string_of_list_ascii l) = l.
Proof. apply String.list_ascii_of_string_of_list_ascii. Qed.
Lemma string_of_app l1 l2 : String.string_of_list_ascii (l1 ++ l2) = String.string_of_list_ascii l1 +:+ String.string_of_list_ascii l2.
Proof. induction l1 as [|a l1 IH]; [done|]. cbn. by rewrite IH. Qed.
Lemma space_no_char c l : space c = false → Forall (λ a, space a = true) l → no_char c (String.string_of_list_ascii l).
Proof.
  intros Hc Hl. unfold no_char. rewrite ascii_string. intros Hin. rewrite Forall_forall in Hl. apply Hl in Hin. congruence.
Qed.
Lemma split_ascii c s : ascii_text s → Forall ascii_text (split_char c s).
Proof.
  induction s as [|a s IH]; [by repeat constructor|]. intros [Ha Hs]%Forall_cons. cbn. specialize (IH Hs).
  case_bool_decide; [constructor; [constructor|done]|].
  destruct (split_char c s) as [|p ps]; [by repeat constructor|].
  apply Forall_cons in IH as [Hp Hps]. by repeat constructor.
Qed.
Lemma trim_suffix s after : ascii_text s → ascii_text after → Forall (λ a, space a = true) (String.list_ascii_of_string after) →
  trim (s +:+ after) = trim s.
Proof.
  intros Hs Ha Hsp. rewrite !trim_ascii by (rewrite ?ascii_text_app; done). by rewrite list_ascii_app, trim_list_right.
Qed.
(** Trimming before splitting at colons changes neither the middle part nor the
    trimmed last one. *)
Lemma parse_meta_trim seg : ascii_text seg → parse_seg_tax_seg_class (trim seg) = parse_seg_tax_seg_class seg.
Proof.
  intros Hs. pose proof Hs as Hs'. unfold ascii_text in Hs'.
  destruct (trim_list_split (String.list_ascii_of_string seg)) as (b&a&Hl&Hb&Ha).
  assert (Hseg : seg = String.string_of_list_ascii b +:+ trim seg +:+ String.string_of_list_ascii a).
  { rewrite trim_ascii by done. by rewrite <-!string_of_app, <-Hl, String.string_of_list_ascii_of_string. }
  rewrite Hl, !Forall_app in Hs'. destruct Hs' as (_&_&Ha').
  assert (Hat : ascii_text (trim seg)). { rewrite Hseg in Hs. apply ascii_text_app in Hs as [_ Hs]. by apply ascii_text_app in Hs as [Hs _]. }
  unfold parse_seg_tax_seg_class. rewrite Hseg at 2.
  rewrite split_char_prefix, split_char_suffix by by apply space_no_char.
  pose proof (split_ascii (ch ":") (trim seg) Hat) as Hp.
  destruct (split_char (ch ":") (trim seg)) as [|p0 [|p1 [|p2 [|p3 ps]]]]; [done..| |]; cbn [on_last].
  - rewrite !Forall_cons in Hp. destruct Hp as (_&_&Hp&_). rewrite trim_suffix; [done|done|..];
      unfold ascii_text; by rewrite ascii_string.
  - destruct ps as [|p4 ps]; done.
Qed.
(** A word has no blank to trim. *)
Lemma trim_unspaced w : ascii_text w → Forall (λ a, space a = false) (String.list_ascii_of_string w) → trim w = w.
Proof.
  intros Ha Hw. assert (Hd : ∀ l, Forall (λ a, space a = false) l → drop_while space l = l).
  { intros l Hl. destruct Hl as [|a l Hx _]; [done|]. cbn. by rewrite Hx. }
  rewrite trim_ascii, (Hd _ Hw), Hd by (done || by apply Forall_reverse).
  by rewrite reverse_involutive, String.string_of_list_ascii_of_string.
Qed.
Lemma words_unspaced s : ascii_text s →
  Forall (λ w, ascii_text w ∧ Forall (λ a, space a = false) (String.list_ascii_of_string w)) (split_whitespace s).
Proof.
  intros Hs. unfold split_whitespace. rewrite ascii_chars by done. unfold ascii_text in Hs.
  assert (Hgo : ∀ l cur, Forall is_ascii_char l →
    ascii_text cur ∧ Forall (λ a, space a = false) (String.list_ascii_of_string cur) →
    Forall (λ w, ascii_text w ∧ Forall (λ a, space a = false) (String.list_ascii_of_string w))
      (words_go cur ((λ a, String a "") <$> l))); [|by apply Hgo; [|split; constructor]].
  clear s Hs. induction l as [|a l IH]; intros cur Hl Hcur; cbn [fmap list_fmap words_go].
  { destruct (str_is_empty cur); [constructor|by apply Forall_singleton]. }
  apply Forall_cons in Hl as [Ha Hl]. destruct (is_whitespace _) eqn:Hw.
  - destruct (str_is_empty cur); [|constructor; [done|]]; (apply IH; [done|split; constructor]).
  - apply IH; [done|]. destruct Hcur as [H1 H2]. rewrite ascii_text_app, list_ascii_app, Forall_app. split_and!; try done; by repeat constructor.
Qed.
Lemma segment_ids_crate s : ascii_text s →
  crate_parse_segment_ids s = match parse_segment_ids s with inr ids => Some ids | inl _ => None end.
Proof.
  intros Hs. unfold crate_parse_segment_ids, parse_segment_ids.
  induction (words_unspaced s Hs) as [|w ws [Ha Hw] Hws IH]; [done|]. cbn [foldr]. rewrite trim_unspaced by done.
  destruct (parse_int _ _ w) as [n|]; [|done]. cbn. destruct (n <=? 0); [done|]. rewrite IH. by destruct (foldr _ (inr []) ws).
Qed.
Definition of_crate (r : TopicsParseResult) : list Topic * list string :=
  (topic_of <$> tpr_topics r, tw_message <$> tpr_warnings r).
Lemma split_once_ascii c s a b : ascii_text s → split_once c s = Some (a, b) → ascii_text a ∧ ascii_text b.
Proof.
  revert a b. induction s as [|x s IH]; intros a b Hs; [done|]. apply Forall_cons in Hs as [Hx Hs]. cbn.
  case_bool_decide.
  - intros [= <- <-]. by split; [constructor|].
  - destruct (split_once c s) as [[k v]|]; [|done]. intros [= <- <-]. destruct (IH k v Hs eq_refl). split; [by constructor|done].
Qed.
Lemma substring_ascii s i n : ascii_text s → ascii_text (String.substring i n s).
Proof.
  revert i n. induction s as [|a s IH]; intros i n Hs; [by destruct i, n|].
  apply Forall_cons in Hs as [Ha Hs]. destruct i as [|i]; cbn; [|by apply IH].
  destruct n; [constructor|]. constructor; [done|by apply IH].
Qed.
Lemma trim_ascii_text s : ascii_text s → ascii_text (trim s).
Proof.
  intros Hs. rewrite trim_ascii by done. unfold ascii_text. rewrite ascii_string.
  destruct (trim_list_split (String.list_ascii_of_string s)) as (b&a&Hl&_). unfold ascii_text in Hs.
  rewrite Hl, !Forall_app in Hs. tauto.
Qed.
Lemma segment_crate field : ascii_text field →
  topic_of <$> crate_parse_topic_segment field = parse_topic_segment field.
Proof.
  intros Hs. unfold crate_parse_topic_segment, parse_topic_segment.
  destruct (split_once _ _) as [[ids meta]|] eqn:Hsp; [|done]. apply split_once_ascii in Hsp as [Hi Hm]; [|done].
  cbn. destruct (negb _); [done|].
  rewrite <-(parse_meta_trim meta) by done.
  assert (Hmeta : crate_parse_seg_tax_seg_class (trim meta) =
    let r := parse_seg_tax_seg_class (trim meta) in if r.1 =? 0 then None else Some r).
  { unfold crate_parse_seg_tax_seg_class, parse_seg_tax_seg_class.
    destruct (split_char _ _) as [|p0 [|p1 [|p2 [|]]]]; try done. destruct (parse_int _ _ _) as [v|]; [|done]. cbn.
    destruct (_ && _) eqn:Hb; [|done]. bools. cbn. by rewrite (proj2 (Z.eqb_neq _ 0)) by lia. }
  rewrite Hmeta. destruct (parse_seg_tax_seg_class (trim meta)) as [tax class]. cbn.
  destruct (tax =? 0) eqn:Ht; [done|]. cbn. rewrite Ht. cbn. destruct (str_is_empty class); [done|].
  rewrite segment_ids_crate by by apply substring_ascii, trim_ascii_text. by destruct (parse_segment_ids _).
Qed.
(** on ASCII headers, which are all a server accepts as text, the crate's
    parser gives the same topics and warnings as the exchange's. *)
Theorem parsers_agree header : ascii_text header →
  of_crate (crate_parse_topics_from_header header) = parse_topics_from_header header.
Proof.
  intros Hs. unfold crate_parse_topics_from_header, parse_topics_from_header.
  change (@nil Topic, @nil string) with (of_crate {| tpr_topics := []; tpr_warnings := [] |}).
  generalize {| tpr_topics := []; tpr_warnings := [] |} as acc.
  induction (split_ascii (ch ",") header Hs) as [|f fields Hf Hfields IH]; intros acc; [done|].
  cbn [fold_left]. rewrite IH. f_equal. unfold crate_parse_field, parse_field. cbn zeta.
  destruct (skipped _); [done|]. unfold zlen, MAX_TOPICS, of_crate. cbn [fst]. rewrite length_fmap.
  rewrite <-segment_crate by by apply trim_ascii_text.
  destruct (Z.ltb_spec (Z.of_nat (length (tpr_topics acc))) 10), (Nat.ltb_spec (length (tpr_topics acc)) 10); try lia.
  - destruct (crate_parse_topic_segment _); cbn; by rewrite fmap_app.
  - cbn. by rewrite fmap_app.
Qed.

(** ** The merge into the user's data *)

Definition map_ids (map : HeaderDataMap) (tax : Z) (class : string) : gset Z :=
  default ∅ (map !! tax ≫= (.!! class)).
(** The ids the header gives a class of a taxonomy. *)
Definition in_header (header : list Topic) (tax : Z) (class : string) (id : Z) : Prop :=
  ∃ t, t ∈ header ∧ default 0 (tp_segtax t) = tax ∧ default "" (tp_segclass t) = class ∧ id ∈ default [] (tp_segids t).
Lemma map_ids_insert map tax class ids tax' class' :
  map_ids (<[ tax := <[ class := ids ]> (default ∅ (map !! tax)) ]> map) tax' class' =
    if bool_decide (tax' = tax ∧ class' = class) then ids else map_ids map tax' class'.
Proof.
  unfold map_ids. destruct (decide (tax' = tax)) as [->|Ht].
  - rewrite lookup_insert_eq. cbn. destruct (decide (class' = class)) as [->|Hc].
    + by rewrite lookup_insert_eq, bool_decide_eq_true_2.
    + rewrite lookup_insert_ne, bool_decide_eq_false_2 by naive_solver. by destruct (map !! tax).
  - by rewrite lookup_insert_ne, bool_decide_eq_false_2 by naive_solver.
Qed.
Lemma header_map_ids header tax class id :
  id ∈ map_ids (create_header_data_map header) tax class ↔ in_header header tax class id.
Proof.
  unfold create_header_data_map. induction header as [|t header IH] using rev_ind.
  { cbn [fold_left]. unfold map_ids, in_header. rewrite lookup_empty. cbn. set_solver. }
  rewrite fold_left_app. cbn [fold_left]. set (map := fold_left add_topic header ∅) in *.
  unfold add_topic. rewrite map_ids_insert.
  assert (He : default ∅ (default ∅ (map !! default 0 (tp_segtax t)) !! default "" (tp_segclass t)) =
    map_ids map (default 0 (tp_segtax t)) (default "" (tp_segclass t))).
  { unfold map_ids. destruct (map !! _); [done|]. cbn. by rewrite lookup_empty. }
  rewrite He. clear He. unfold in_header in *. setoid_rewrite elem_of_app. setoid_rewrite list_elem_of_singleton.
  case_bool_decide as Hk.
  - destruct Hk as [-> ->]. rewrite elem_of_union, elem_of_list_to_set, IH. split.
    + intros [(t'&?&?&?&?)|?]; [exists t'|exists t]; tauto.
    + intros (t'&[?| ->]&?&?&?); [left; exists t'; tauto|by right].
  - rewrite IH. split; intros (t'&?&?&?&?); exists t'; [tauto|]. destruct_or?; [tauto|]. by subst; destruct Hk.
Qed.

Section UpdateProofs.
Context `{MapIter, TopicIter, TopicSerde}.
Context (domain : string).

Definition ids_in_range (map : HeaderDataMap) : Prop :=
  ∀ tax class id, id ∈ map_ids map tax class → - 2 ^ 31 ≤ id < 2 ^ 31.
(** The entry [d'] is [d] with new ids of its class, each once. *)
Definition extends (map : HeaderDataMap) (d d' : Data) : Prop :=
  ∃ new, d' = add_segments new d ∧ NoDup new ∧
    (new ≠ [] → data_name d = Some domain ∧ ∃ tax class, declared d = Some (tax, class) ∧
      ∀ id, id ∈ new → id ∈ map_ids map tax class ∧ id ∉ existing_ids (data_segment d)).
(** An entry of the topics' domain, for a class, has an id. *)
Definition holds (d : Data) (tax : Z) (class : string) (id : Z) : Prop :=
  data_name d = Some domain ∧ declared d = Some (tax, class) ∧ id ∈ existing_ids (data_segment d).

Lemma existing_app s1 s2 : existing_ids (s1 ++ s2) = existing_ids s1 ∪ existing_ids s2.
Proof. unfold existing_ids. by rewrite omap_app, list_to_set_app_L. Qed.
Lemma existing_id_segments ids : Forall (λ id, - 2 ^ 31 ≤ id < 2 ^ 31) ids →
  existing_ids (id_segment <$> ids) = list_to_set ids.
Proof.
  unfold existing_ids. induction 1 as [|id ids Hid Hids IH]; [done|]. cbn [fmap list_fmap omap list_omap id_segment seg_id].
  cbn [mbind option_bind]. rewrite parse_pretty by lia. cbn [list_to_set]. by rewrite IH.
Qed.
Lemma ids_elem s id : id ∈ ids_iter s ↔ id ∈ s.
Proof. by rewrite ids_iter_perm, elem_of_elements. Qed.
Lemma ids_nodup s : NoDup (ids_iter s).
Proof. rewrite ids_iter_perm. apply NoDup_elements. Qed.
Lemma declared_add ids d : declared (add_segments ids d) = declared d.
Proof. done. Qed.
Lemma map_ids_remove map tax class tax' class' :
  map_ids (remove_class tax class map) tax' class' =
    if bool_decide (tax' = tax ∧ class' = class) then ∅ else map_ids map tax' class'.
Proof.
  unfold map_ids, remove_class. destruct (decide (tax' = tax)) as [->|Ht].
  - rewrite lookup_alter_eq. destruct (map !! tax) as [m|]; cbn; [|by case_bool_decide].
    destruct (decide (class' = class)) as [->|Hc].
    + by rewrite lookup_delete_eq, bool_decide_eq_true_2.
    + by rewrite lookup_delete_ne, bool_decide_eq_false_2 by naive_solver.
  - by rewrite lookup_alter_ne, bool_decide_eq_false_2 by naive_solver.
Qed.
Lemma find_new_Some d tax class map new :
  find_new_seg_ids (data_name d) domain tax class (data_segment d) map = Some new →
  data_name d = Some domain ∧ NoDup new ∧
  ∀ id, id ∈ new ↔ id ∈ map_ids map tax class ∧ id ∉ existing_ids (data_segment d).
Proof.
  unfold find_new_seg_ids, map_ids. case_bool_decide as Hn; [|done]. cbn [negb].
  destruct (map !! tax) as [m|]; [|done]. cbn. destruct (m !! class) as [ids|]; [|done]. cbn.
  destruct (List.filter _ _) as [|id0 new0] eqn:Hf; [done|]. intros [= <-]. rewrite <-Hf. split_and!; [done|..].
  - apply NoDup_ListNoDup, List.NoDup_filter, NoDup_ListNoDup, ids_nodup.
  - intros id. rewrite list_elem_of_In, filter_In, <-list_elem_of_In, ids_elem. by rewrite negb_true_iff, bool_decide_eq_false.
Qed.
(** An entry of the domain that has nothing to be given already has everything. *)
Lemma merge_entry_spec map d d' map' : ids_in_range map → merge_data_entry domain map d = (d', map') →
  extends map d d' ∧
  (∀ tax class, map_ids map' tax class ⊆ map_ids map tax class) ∧
  (∀ tax class id, id ∈ map_ids map tax class → id ∈ map_ids map' tax class ∨ holds d' tax class id).
Proof.
  intros Hr. unfold merge_data_entry.
  assert (Hid : extends map d d). { exists []. split_and!; [destruct d; unfold add_segments; cbn; by rewrite app_nil_r|constructor|done]. }
  destruct (declared d) as [[tax class]|] eqn:Hd; [|intros [= <- <-]; split_and!; [done|done|by left]].
  destruct (find_new_seg_ids _ _ _ _ _ _) as [new|] eqn:Hf; [|intros [= <- <-]; split_and!; [done|done|by left]].
  intros [= <- <-]. apply find_new_Some in Hf as (Hn&Hnd&Hnew). split_and!.
  - exists new. split_and!; [done|done|]. intros _. split; [done|]. exists tax, class. split; [done|]. intros id. by rewrite Hnew.
  - intros tax' class'. rewrite map_ids_remove. case_bool_decide; set_solver.
  - intros tax' class' id Hid'. rewrite map_ids_remove. case_bool_decide as Hk; [|by left]. destruct Hk as [-> ->].
    right. split_and!; [done|by rewrite declared_add|]. cbn [add_segments data_segment].
    rewrite existing_app, existing_id_segments.
    + rewrite elem_of_union, elem_of_list_to_set, Hnew. destruct (decide (id ∈ existing_ids (data_segment d))); [by left|by right].
    + apply Forall_forall. intros id' [Hid'' _]%Hnew. by eapply Hr.
Qed.
Lemma merge_user_data_spec map ds ds' map' : ids_in_range map → merge_user_data domain map ds = (ds', map') →
  Forall2 (extends map) ds ds' ∧
  (∀ tax class, map_ids map' tax class ⊆ map_ids map tax class) ∧
  (∀ tax class id, id ∈ map_ids map tax class → id ∈ map_ids map' tax class ∨ ∃ d, d ∈ ds' ∧ holds d tax class id).
Proof.
  revert map ds' map'. induction ds as [|d ds IH]; intros map ds' map' Hr; cbn [merge_user_data].
  { intros [= <- <-]. split_and!; [constructor|done|by left]. }
  destruct (merge_data_entry domain map d) as [d1 map1] eqn:He. apply merge_entry_spec in He as (Hx&Hsub&Hkeep); [|done].
  destruct (merge_user_data domain map1 ds) as [ds1 map2] eqn:Hm. intros [= <- <-].
  apply IH in Hm as (Hall&Hsub'&Hkeep'); [|intros tax class id Hid; by eapply Hr, Hsub]. split_and!.
  - constructor; [done|]. eapply Forall2_impl; [exact Hall|]. intros x y (new&->&Hnd&Hne). exists new. split_and!; [done|done|].
    intros Hn. destruct (Hne Hn) as (?&tax&class&Hdx&Hnew). split; [done|]. exists tax, class. split; [done|].
    intros id Hid. destruct (Hnew id Hid). split; [by apply Hsub|done].
  - intros tax class. etrans; [apply Hsub'|apply Hsub].
  - intros tax class id Hid. destruct (Hkeep tax class id Hid) as [Hin|Hh].
    + destruct (Hkeep' tax class id Hin) as [Hin'|(d'&Hd'&Hh)]; [by left|right]. exists d'. split; [by right|done].
    + right. exists d1. split; [by left|done].
Qed.
(** What is left in the map makes an entry for each class. *)
Definition fresh_entry (header : list Topic) (d : Data) : Prop :=
  ∃ tax class ids, data_name d = Some domain ∧ data_segment d = id_segment <$> ids ∧ NoDup ids ∧ ids ≠ [] ∧
    (tax ≠ 0 → class ≠ "" → declared d = Some (tax, class)) ∧ ∀ id, id ∈ ids → in_header header tax class id.
(** serde writes a topic that it reads back. *)
Context (serde_roundtrip : ∀ t, ∃ v, topic_to_value t = Some v ∧ topic_from_value v = Some t).
Lemma class_entry_declared tax class ids d : d ∈ class_entry domain tax (class, ids) →
  data_name d = Some domain ∧ data_segment d = id_segment <$> ids_iter ids ∧ ids ≠ ∅ ∧
  (tax ≠ 0 → class ≠ "" → declared d = Some (tax, class)).
Proof.
  unfold class_entry. cbn [fst snd]. case_bool_decide as He; [set_solver|].
  destruct (serde_roundtrip {| tp_segtax := Some tax; tp_segclass := Some class; tp_segids := None |}) as (v&Hv&Hr).
  rewrite Hv, list_elem_of_singleton. intros ->. split_and!; [done..|]. intros Ht Hc.
  unfold declared. cbn [data_ext]. cbn. rewrite Hr. cbn. unfold str_is_empty.
  by rewrite (proj2 (Z.eqb_neq _ _) Ht), bool_decide_eq_false_2.
Qed.
Lemma class_entry_exists tax class ids : ids ≠ ∅ → ∃ d, d ∈ class_entry domain tax (class, ids).
Proof.
  intros Hne. unfold class_entry. cbn [fst snd]. rewrite bool_decide_eq_false_2 by done.
  destruct (serde_roundtrip {| tp_segtax := Some tax; tp_segclass := Some class; tp_segids := None |}) as (v&->&_).
  eexists. by apply list_elem_of_singleton.
Qed.
Lemma entries_elem map d : d ∈ flat_map (tax_entries domain) (tax_iter map) ↔
  ∃ tax m class ids, map !! tax = Some m ∧ m !! class = Some ids ∧ d ∈ class_entry domain tax (class, ids).
Proof.
  rewrite list_elem_of_In, in_flat_map. unfold tax_entries. setoid_rewrite in_flat_map. setoid_rewrite <-list_elem_of_In. split.
  - intros ([tax m]&Ht&[class ids]&Hc&Hd). rewrite tax_iter_perm, elem_of_map_to_list in Ht. apply map_iter_elem in Hc. eauto 10.
  - intros (tax&m&class&ids&Ht&Hc&Hd). exists (tax, m). rewrite tax_iter_perm, elem_of_map_to_list. split; [done|].
    exists (class, ids). by rewrite map_iter_elem.
Qed.
End UpdateProofs.

(** merging well-formed topics into the user's data keeps every entry, with
    new segments at the end of entries of the topics' domain for the class of the
    header only, none given twice or already there; adds entries of that domain
    with the header's ids; and every id of the header is then in an entry of the
    domain that declares its taxonomy and class, whatever the iteration order. *)
Theorem update_user_data_spec `{MapIter, TopicIter, TopicSerde}
  (serde_roundtrip : ∀ t, ∃ v, topic_to_value t = Some v ∧ topic_from_value v = Some t)
  (user_data : list Data) (header : list Topic) (domain : string) :
  domain ≠ "" → Forall well_formed header →
  ∃ kept added, update_user_data_with_topics user_data header domain = kept ++ added ∧
    Forall2 (extends domain (create_header_data_map header)) user_data kept ∧
    Forall (fresh_entry domain header) added ∧
    ∀ tax class id, in_header header tax class id → ∃ d, d ∈ kept ++ added ∧ holds domain d tax class id.
Proof.
  intros Hdom Hwf. unfold update_user_data_with_topics. unfold str_is_empty. rewrite bool_decide_eq_false_2 by done.
  assert (Hin : ∀ tax class id, in_header header tax class id → 600 ≤ tax ≤ 609 ∧ class ≠ "" ∧ 0 < id < 2 ^ 31).
  { intros tax class id (t&Ht&<-&<-&Hid). rewrite Forall_forall in Hwf.
    destruct (Hwf t Ht) as (tax&class&ids&->&Htax&Hc&Hids). cbn in *. rewrite Forall_forall in Hids. split; [done|]. split; [done|by apply Hids]. }
  assert (Hr : ids_in_range (create_header_data_map header)).
  { intros tax class id Hid%header_map_ids. apply Hin in Hid. lia. }
  destruct (merge_user_data domain _ user_data) as [kept map] eqn:Hm.
  apply merge_user_data_spec in Hm as (Hext&Hsub&Hkeep); [|done].
  exists kept, (flat_map (tax_entries domain) (tax_iter map)). split; [done|]. split; [done|]. split.
  - apply Forall_forall. intros d (tax&m&class&ids&Ht&Hc&Hd)%entries_elem.
    apply class_entry_declared in Hd as (Hn&Hs&Hne&Hdecl); [|done].
    exists tax, class, (ids_iter ids). split_and!; [done|done|apply ids_nodup| |done|].
    + intros Hnil. apply Hne. apply set_eq. intros id. rewrite <-ids_elem, Hnil. set_solver.
    + intros id Hid%ids_elem. apply header_map_ids, Hsub. unfold map_ids. by rewrite Ht; cbn; rewrite Hc.
  - intros tax class id Hid. pose proof (Hin _ _ _ Hid) as (Htax&Hclass&Hrange).
    destruct (Hkeep tax class id) as [Hleft|(d&Hd&Hh)]; [by apply header_map_ids| |].
    + unfold map_ids in Hleft. destruct (map !! tax) as [m|] eqn:Ht; [|set_solver]. cbn in Hleft.
      destruct (m !! class) as [ids|] eqn:Hc; [|set_solver]. cbn in Hleft.
      destruct (class_entry_exists domain serde_roundtrip tax class ids) as [d Hd]; [set_solver|].
      pose proof (class_entry_declared domain serde_roundtrip tax class ids d Hd) as (Hn&Hs&_&Hdecl).
      exists d. split; [apply elem_of_app; right; apply entries_elem; eauto 10|]. split_and!; [done|apply Hdecl; [lia|done]|].
      rewrite Hs, existing_id_segments; [by rewrite elem_of_list_to_set, ids_elem|].
      apply Forall_forall. intros id' Hid'%ids_elem. apply (Hr tax class), Hsub. unfold map_ids. rewrite Ht. cbn. by rewrite Hc.
    + exists d. split; [apply elem_of_app; by left|done].
Qed.

(** A codec that keeps what is assumed of serde. *)
Definition topic_tuple (t : Topic) := (tp_segtax t, tp_segclass t, tp_segids t).
Definition bits_serde : TopicSerde := {|
  topic_to_value t := Some (VString (pos_bits (encode (topic_tuple t))));
  topic_from_value v := s ← as_str v; p ← bits_pos s;
    '(tax, class, ids) ← decode p; Some {| tp_segtax := tax; tp_segclass := class; tp_segids := ids |} |}.
Lemma bits_serde_roundtrip t : ∃ v, topic_to_value (TopicSerde := bits_serde) t = Some v ∧
  topic_from_value (TopicSerde := bits_serde) v = Some t.
Proof.
  eexists. split; [done|]. cbn. rewrite bits_pos_bits. cbn. rewrite decode_encode. by destruct t.
Qed.
Lemma parse_print_header_witness :
  parse_topics_from_header "(1 22);v=chrome.1:1:2, (3);v=chrome.1:10:4, ();p=P00" =
    ([{| tp_segtax := Some 600; tp_segclass := Some "2"; tp_segids := Some [1; 22] |};
      {| tp_segtax := Some 609; tp_segclass := Some "4"; tp_segids := Some [3] |}], []).
Proof.
  apply (parse_print_header
    [("", {| seg_tax := 600; seg_class := "2"; seg_ids := [1; 22] |});
     (" ", {| seg_tax := 609; seg_class := "4"; seg_ids := [3] |})] ["P00"]).
  - repeat constructor; vm_compute; try done; set_solver.
  - cbn. lia.
  - repeat constructor; vm_compute; try done; set_solver.
Defined.
(** With the topic already among the user's segments, a second entry is added. *)
Definition one_topic : Topic := {| tp_segtax := Some 600; tp_segclass := Some "2"; tp_segids := Some [1] |}.
Definition entry_of (t : Topic) (ids : list Z) : Data := {|
  data_id := None; data_name := Some "ads"; data_segment := id_segment <$> ids;
  data_ext := topic_to_value (TopicSerde := bits_serde) t |}.
Example merge_repeats :
  update_user_data_with_topics (H := map_iter_to_list) (H0 := topic_iter_elements) (H1 := bits_serde)
    [entry_of one_topic [1]] [one_topic] "ads" =
  [entry_of one_topic [1]; entry_of {| tp_segtax := Some 600; tp_segclass := Some "2"; tp_segids := None |} [1]].
Proof. by vm_compute. Qed.
Lemma update_user_data_spec_witness : ∃ kept added,
  update_user_data_with_topics (H := map_iter_to_list) (H0 := topic_iter_elements) (H1 := bits_serde)
    [entry_of one_topic [7]] [one_topic] "ads" = kept ++ added.
Proof.
  destruct (update_user_data_spec (H := map_iter_to_list) (H0 := topic_iter_elements) (H1 := bits_serde)
    bits_serde_roundtrip [entry_of one_topic [7]] [one_topic] "ads") as (kept&added&He&_).
  - done.
  - apply Forall_singleton. exists 600, "2", [1]. split; [done|]. split; [lia|]. split; [done|]. apply Forall_singleton. lia.
  - by exists kept, added.
Defined.
