(* ===== verification/OrtbVersion.v ===== *)
(** Requests between OpenRTB 2.5 and 2.6 (exchange/src/ortb_version.rs): six
    signals live in an [ext] object in 2.5 and in a field of their own in 2.6.

    serde's conversions of supply chains and extended ids are the class
    [VersionCodec]; the round trip assumes what the derived implementations
    document, that the request's values read back as themselves. *)
From S2P Require Import Prelude Json OpenRtb.

Class VersionCodec : Type := {
  schain_from_value : Value → option SupplyChain;
  schain_to_value : SupplyChain → option Value;
  eids_from_value : Value → option (list Eid);
  eids_to_value : list Eid → option Value;
}.
(** [x as i8] of an [i64]. *)
Definition i8 (z : Z) : Z := (z + 2 ^ 7) mod 2 ^ 8 - 2 ^ 7.

(** [ext.as_mut().and_then(|e| e.as_object_mut()).and_then(|m| m.remove(key))]:
    what was removed, and what is left. *)
Definition remove_key (key : string) (ext : option Value) : option Value * option Value :=
  match ext with
  | Some (VObject m) => (obj_get key m, Some (VObject (obj_remove key m)))
  | _ => (None, ext)
  end.
(** [map.entry(key).or_insert(v)] on the map of [v'], if it is one. *)
Definition or_insert (key : string) (v v' : Value) : Value :=
  match v' with
  | VObject m => VObject (match obj_get key m with Some _ => m | None => obj_insert key v m end)
  | _ => v'
  end.
(** The same through [ext.get_or_insert_with(|| json!({}))]. *)
Definition insert_key (key : string) (v : Value) (ext : option Value) : option Value :=
  Some (or_insert key v (default (VObject []) ext)).

Section Convert.
Context {VC : VersionCodec}.

(** ** Up: 2.5 to 2.6 *)

Definition schain_up (source : Source) : Source :=
  let '(schain_val, ext) := remove_key "schain" (src_ext source) in
  let source := set_src_ext ext source in
  match schain_val, src_schain source with
  | Some v, None =>
      match schain_from_value v with
      | Some schain => set_src_schain (Some schain) source
      | None => source
      end
  | _, _ => source
  end.
Definition move_supply_chain_from_25_to_26 (req : BidRequest) : BidRequest :=
  set_req_source (schain_up <$> req_source req) req.

Definition gdpr_up (regs : Regs) : Regs :=
  let '(gdpr_val, ext) := remove_key "gdpr" (regs_ext regs) in
  let regs := set_regs_ext ext regs in
  match gdpr_val, regs_gdpr regs with
  | Some v, None => set_regs_gdpr (i8 <$> as_i64 v) regs
  | _, _ => regs
  end.
Definition move_gdpr_from_25_to_26 (req : BidRequest) : BidRequest :=
  set_req_regs (gdpr_up <$> req_regs req) req.

Definition consent_up (user : User) : User :=
  let '(consent_val, ext) := remove_key "consent" (user_ext user) in
  let user := set_user_ext ext user in
  match consent_val, user_consent user with
  | Some v, None => set_user_consent (as_str v) user
  | _, _ => user
  end.
Definition move_consent_from_25_to_26 (req : BidRequest) : BidRequest :=
  set_req_user (consent_up <$> req_user req) req.

Definition us_privacy_up (regs : Regs) : Regs :=
  let '(usp_val, ext) := remove_key "us_privacy" (regs_ext regs) in
  let regs := set_regs_ext ext regs in
  match usp_val, regs_us_privacy regs with
  | Some v, None => set_regs_us_privacy (as_str v) regs
  | _, _ => regs
  end.
Definition move_us_privacy_from_25_to_26 (req : BidRequest) : BidRequest :=
  set_req_regs (us_privacy_up <$> req_regs req) req.

Definition eids_up (user : User) : User :=
  let '(eids_val, ext) := remove_key "eids" (user_ext user) in
  let user := set_user_ext ext user in
  match eids_val, user_eids user with
  | Some v, None =>
      match eids_from_value v with
      | Some eids => set_user_eids (Some eids) user
      | None => user
      end
  | _, _ => user
  end.
Definition move_eid_from_25_to_26 (req : BidRequest) : BidRequest :=
  set_req_user (eids_up <$> req_user req) req.

(** [imp.ext.prebid], through [get_mut]. *)
Definition remove_rewarded (ext : option Value) : option Value * option Value :=
  match ext with
  | Some (VObject m) =>
      match obj_get "prebid" m with
      | Some prebid =>
          let '(rewarded, prebid) := remove_key "is_rewarded_inventory" (Some prebid) in
          (rewarded, Some (VObject (obj_insert "prebid" (default VNull prebid) m)))
      | None => (None, ext)
      end
  | _ => (None, ext)
  end.
Definition rewarded_up (imp : Imp) : Imp :=
  let '(rewarded, ext) := remove_rewarded (imp_ext imp) in
  let imp := set_imp_ext ext imp in
  match rewarded, imp_rwdd imp with
  | Some v, None => set_imp_rwdd (i32 <$> as_i64 v) imp
  | _, _ => imp
  end.
Definition move_rewarded_from_ext_to_26 (req : BidRequest) : BidRequest :=
  set_req_imp (rewarded_up <$> req_imp req) req.

Definition convert_up_to_26 (req : BidRequest) : BidRequest :=
  move_rewarded_from_ext_to_26 (move_eid_from_25_to_26 (move_us_privacy_from_25_to_26
    (move_consent_from_25_to_26 (move_gdpr_from_25_to_26 (move_supply_chain_from_25_to_26 req))))).

(** ** Down: 2.6 to 2.5 *)

Definition schain_down (source : Source) : Source :=
  match src_schain source with
  | Some schain =>
      let source := set_src_schain None source in
      match schain_to_value schain with
      | Some v => set_src_ext (insert_key "schain" v (src_ext source)) source
      | None => source
      end
  | None => source
  end.
Definition move_supply_chain_from_26_to_25 (req : BidRequest) : BidRequest :=
  set_req_source (schain_down <$> req_source req) req.
Definition gdpr_down (regs : Regs) : Regs :=
  match regs_gdpr regs with
  | Some gdpr =>
      set_regs_ext (insert_key "gdpr" (number gdpr) (regs_ext regs)) (set_regs_gdpr None regs)
  | None => regs
  end.
Definition move_gdpr_from_26_to_25 (req : BidRequest) : BidRequest :=
  set_req_regs (gdpr_down <$> req_regs req) req.
Definition consent_down (user : User) : User :=
  match user_consent user with
  | Some consent =>
      set_user_ext (insert_key "consent" (VString consent) (user_ext user))
        (set_user_consent None user)
  | None => user
  end.
Definition move_consent_from_26_to_25 (req : BidRequest) : BidRequest :=
  set_req_user (consent_down <$> req_user req) req.
Definition us_privacy_down (regs : Regs) : Regs :=
  match regs_us_privacy regs with
  | Some usp =>
      set_regs_ext (insert_key "us_privacy" (VString usp) (regs_ext regs))
        (set_regs_us_privacy None regs)
  | None => regs
  end.
Definition move_us_privacy_from_26_to_25 (req : BidRequest) : BidRequest :=
  set_req_regs (us_privacy_down <$> req_regs req) req.
Definition eids_down (user : User) : User :=
  match user_eids user with
  | Some eids =>
      let user := set_user_eids None user in
      match eids_to_value eids with
      | Some v => set_user_ext (insert_key "eids" v (user_ext user)) user
      | None => user
      end
  | None => user
  end.
Definition move_eid_from_26_to_25 (req : BidRequest) : BidRequest :=
  set_req_user (eids_down <$> req_user req) req.
Definition insert_rewarded (rwdd : Z) (ext : option Value) : option Value :=
  match default (VObject []) ext with
  | VObject m =>
      let prebid := default (VObject []) (obj_get "prebid" m) in
      Some (VObject (obj_insert "prebid"
        (or_insert "is_rewarded_inventory" (number rwdd) prebid) m))
  | v => Some v
  end.
Definition rewarded_down (imp : Imp) : Imp :=
  match imp_rwdd imp with
  | Some rwdd => set_imp_ext (insert_rewarded rwdd (imp_ext imp)) (set_imp_rwdd None imp)
  | None => imp
  end.
Definition move_rewarded_from_26_to_ext (req : BidRequest) : BidRequest :=
  set_req_imp (rewarded_down <$> req_imp req) req.
Definition clear_source (source : Source) : Source := set_src_schain None source.
Definition clear_regs (regs : Regs) : Regs := set_regs_us_privacy None (set_regs_gdpr None regs).
Definition clear_user (user : User) : User := set_user_eids None (set_user_consent None user).
Definition clear_imp (imp : Imp) : Imp := set_imp_rwdd None imp.
Definition clear_26_fields (req : BidRequest) : BidRequest :=
  set_req_imp (clear_imp <$> req_imp req) (set_req_user (clear_user <$> req_user req)
    (set_req_regs (clear_regs <$> req_regs req) (set_req_source (clear_source <$> req_source req) req))).
Definition convert_down_to_25 (req : BidRequest) : BidRequest :=
  clear_26_fields (move_rewarded_from_26_to_ext (move_eid_from_26_to_25
    (move_us_privacy_from_26_to_25 (move_consent_from_26_to_25 (move_gdpr_from_26_to_25
      (move_supply_chain_from_26_to_25 req)))))).
End Convert.

(** ** What the conversions promise *)

(** Requests are compared up to empty objects: an absent [ext] is an empty one,
    and so is an impression's absent [prebid]. *)
Definition norm_ext (ext : option Value) : option Value := Some (default (VObject []) ext).
Definition norm_source (s : Source) : Source := set_src_ext (norm_ext (src_ext s)) s.
Definition norm_regs (r : Regs) : Regs := set_regs_ext (norm_ext (regs_ext r)) r.
Definition norm_user (u : User) : User := set_user_ext (norm_ext (user_ext u)) u.
Definition norm_imp (i : Imp) : Imp :=
  set_imp_ext (insert_key "prebid" (VObject []) (imp_ext i)) i.
Definition with_parts (imp : list Imp) (user : option User) (regs : option Regs)
    (source : option Source) (req : BidRequest) : BidRequest :=
  set_req_imp imp (set_req_user user (set_req_regs regs (set_req_source source req))).
Definition norm_req (req : BidRequest) : BidRequest :=
  with_parts (norm_imp <$> req_imp req) (norm_user <$> req_user req)
    (norm_regs <$> req_regs req) (norm_source <$> req_source req) req.

(** An [ext] that is absent or an object without these keys. *)
Definition lacks (keys : list string) (ext : option Value) : Prop :=
  match ext with
  | None => True
  | Some (VObject m) => obj_sorted m ∧ Forall (λ k, obj_get k m = None) keys
  | Some _ => False
  end.
Definition in_i8 (z : Z) : Prop := - 2 ^ 7 ≤ z < 2 ^ 7.
Definition in_i32 (z : Z) : Prop := - 2 ^ 31 ≤ z < 2 ^ 31.
Definition opt_all {A} (P : A → Prop) (o : option A) : Prop :=
  match o with Some a => P a | None => True end.
Definition clean_regs (r : Regs) : Prop :=
  lacks ["gdpr"; "us_privacy"] (regs_ext r) ∧ opt_all in_i8 (regs_gdpr r).
Definition clean_imp (i : Imp) : Prop :=
  match imp_ext i with
  | None => True
  | Some (VObject m) => obj_sorted m ∧ lacks ["is_rewarded_inventory"] (obj_get "prebid" m)
  | Some _ => False
  end ∧ opt_all in_i32 (imp_rwdd i).
(** Values that serde writes and reads back. *)
Definition readable_schain `{VersionCodec} (x : SupplyChain) : Prop :=
  ∃ v, schain_to_value x = Some v ∧ schain_from_value v = Some x.
Definition readable_eids `{VersionCodec} (x : list Eid) : Prop :=
  ∃ v, eids_to_value x = Some v ∧ eids_from_value v = Some x.
Definition clean_source `{VersionCodec} (s : Source) : Prop :=
  lacks ["schain"] (src_ext s) ∧ opt_all readable_schain (src_schain s).
Definition clean_user `{VersionCodec} (u : User) : Prop :=
  lacks ["consent"; "eids"] (user_ext u) ∧ opt_all readable_eids (user_eids u).
(** A 2.6 request: the 2.5 places of the six signals are free. *)
Definition clean_26 `{VersionCodec} (req : BidRequest) : Prop :=
  opt_all clean_source (req_source req) ∧
  opt_all clean_regs (req_regs req) ∧
  opt_all clean_user (req_user req) ∧
  Forall clean_imp (req_imp req).

(** The signals of a request, wherever they are: a field of 2.6 comes first. *)
Definition schain_of `{VersionCodec} (s : Source) : option SupplyChain :=
  match src_schain s with Some x => Some x | None => json_path ["schain"] (src_ext s) ≫= schain_from_value end.
Definition gdpr_of (r : Regs) : option Z :=
  match regs_gdpr r with Some x => Some x | None => i8 <$> (json_path ["gdpr"] (regs_ext r) ≫= as_i64) end.
Definition us_privacy_of (r : Regs) : option string :=
  match regs_us_privacy r with Some x => Some x | None => json_path ["us_privacy"] (regs_ext r) ≫= as_str end.
Definition consent_of (u : User) : option string :=
  match user_consent u with Some x => Some x | None => json_path ["consent"] (user_ext u) ≫= as_str end.
Definition eids_of `{VersionCodec} (u : User) : option (list Eid) :=
  match user_eids u with Some x => Some x | None => json_path ["eids"] (user_ext u) ≫= eids_from_value end.
Definition rewarded_of (i : Imp) : option Z :=
  match imp_rwdd i with
  | Some x => Some x
  | None => i32 <$> (json_path ["prebid"; "is_rewarded_inventory"] (imp_ext i) ≫= as_i64)
  end.
(** All of them in their 2.6 fields. *)
Definition signals_26 `{VersionCodec} (req : BidRequest) :=
  (src_schain <$> req_source req, (λ r, (regs_gdpr r, regs_us_privacy r)) <$> req_regs req,
   (λ u, (user_consent u, user_eids u)) <$> req_user req, imp_rwdd <$> req_imp req).
Definition signals `{VersionCodec} (req : BidRequest) :=
  (schain_of <$> req_source req, (λ r, (gdpr_of r, us_privacy_of r)) <$> req_regs req,
   (λ u, (consent_of u, eids_of u)) <$> req_user req, rewarded_of <$> req_imp req).

Section Laws.
Context {VC : VersionCodec}.

(** *** Down never leaves a 2.6 field, so the last pass changes nothing *)

Lemma schain_down_none s : src_schain (schain_down s) = None.
Proof. unfold schain_down. destruct (src_schain s) eqn:E; [by destruct (schain_to_value _)|done]. Qed.
Lemma regs_down_none r : regs_gdpr (us_privacy_down (gdpr_down r)) = None ∧
  regs_us_privacy (us_privacy_down (gdpr_down r)) = None.
Proof. destruct r as [? [g|] [u|] ? ? ? ?]; done. Qed.
Lemma user_down_none u : user_consent (eids_down (consent_down u)) = None ∧
  user_eids (eids_down (consent_down u)) = None.
Proof.
  unfold eids_down, consent_down. destruct (user_consent u) eqn:E; cbn;
    (destruct (user_eids u) eqn:E'; [destruct (eids_to_value _)|]; by cbn).
Qed.
Lemma rewarded_down_none i : imp_rwdd (rewarded_down i) = None.
Proof. unfold rewarded_down. by destruct (imp_rwdd i) eqn:E. Qed.

(** Evaluates the moves of a request that is a constructor. *)
Ltac unfold_moves req :=
  destruct req; cbv -[fmap option_fmap list_fmap schain_up gdpr_up consent_up us_privacy_up eids_up
    rewarded_up schain_down gdpr_down consent_down us_privacy_down eids_down rewarded_down
    clear_source clear_regs clear_user clear_imp]; f_equal.
Lemma parts_imp i u r s req : req_imp (with_parts i u r s req) = i.
Proof. done. Qed.
Lemma parts_user i u r s req : req_user (with_parts i u r s req) = u.
Proof. done. Qed.
Lemma parts_regs i u r s req : req_regs (with_parts i u r s req) = r.
Proof. done. Qed.
Lemma parts_source i u r s req : req_source (with_parts i u r s req) = s.
Proof. done. Qed.
Lemma parts_parts i u r s i' u' r' s' req :
  with_parts i' u' r' s' (with_parts i u r s req) = with_parts i' u' r' s' req.
Proof. destruct req. by cbv. Qed.
Lemma convert_up_parts req : convert_up_to_26 req =
  with_parts (rewarded_up <$> req_imp req) ((eids_up ∘ consent_up) <$> req_user req)
    ((us_privacy_up ∘ gdpr_up) <$> req_regs req) (schain_up <$> req_source req) req.
Proof. unfold_moves req; by match goal with |- _ <$> (_ <$> ?o) = _ => destruct o end. Qed.
Lemma clear_regs_down r : clear_regs (us_privacy_down (gdpr_down r)) = us_privacy_down (gdpr_down r).
Proof. by destruct r as [? [g|] [u|] ? ? ? ?]. Qed.
Lemma clear_source_down s : clear_source (schain_down s) = schain_down s.
Proof. pose proof (schain_down_none s). destruct (schain_down s). cbn in *. by subst. Qed.
Lemma clear_user_down u : clear_user (eids_down (consent_down u)) = eids_down (consent_down u).
Proof. pose proof (user_down_none u). destruct (eids_down _). cbn in *. by destruct_and!; subst. Qed.
Lemma clear_imp_down i : clear_imp (rewarded_down i) = rewarded_down i.
Proof. pose proof (rewarded_down_none i). destruct (rewarded_down i). cbn in *. by subst. Qed.
Lemma convert_down_parts req : convert_down_to_25 req =
  with_parts (rewarded_down <$> req_imp req) ((eids_down ∘ consent_down) <$> req_user req)
    ((us_privacy_down ∘ gdpr_down) <$> req_regs req) (schain_down <$> req_source req) req.
Proof.
  unfold_moves req.
  - rewrite <-list_fmap_compose. apply list_fmap_ext. intros _ i _. apply clear_imp_down.
  - destruct req_user; cbn; [|done]. f_equal. apply clear_user_down.
  - destruct req_source; cbn; [|done]. f_equal. apply clear_source_down.
  - destruct req_regs; cbn; [|done]. f_equal. apply clear_regs_down.
Qed.

(** *** The round trip *)

Lemma remove_inserted key v ext : lacks [key] ext →
  remove_key key (insert_key key v ext) = (Some v, norm_ext ext).
Proof.
  unfold insert_key, norm_ext. destruct ext as [[]|]; try done.
  - intros [Hs [Hk _]%Forall_cons]. cbn. rewrite Hk.
    by rewrite obj_get_insert, bool_decide_true, obj_remove_insert, obj_remove_absent.
  - intros _. cbn. by rewrite bool_decide_true.
Qed.
Lemma remove_absent key ext : lacks [key] ext → remove_key key ext = (None, ext).
Proof.
  destruct ext as [[]|]; try done. intros [Hs [Hk _]%Forall_cons]. cbn.
  by rewrite Hk, obj_remove_absent.
Qed.
Lemma norm_idem ext : norm_ext (norm_ext ext) = norm_ext ext.
Proof. done. Qed.
Lemma lacks_other key keys v ext : key ∉ keys → lacks keys ext → lacks keys (insert_key key v ext).
Proof.
  intros Hne. unfold insert_key. destruct ext as [[]|]; try done.
  - intros [Hs Hk]. cbn. destruct (obj_get key m); [done|]. split; [by apply obj_sorted_insert|].
    apply Forall_forall. intros k Hin. rewrite obj_get_insert by done.
    rewrite Forall_forall in Hk. rewrite bool_decide_false by (by intros ->). by apply Hk.
  - intros _. cbn. split; [by split|]. apply Forall_forall. intros k Hin.
    by rewrite bool_decide_false by (by intros ->).
Qed.
Lemma lacks_norm keys ext : lacks keys ext → lacks keys (norm_ext ext).
Proof. destruct ext; [done|]. intros _. split; [done|]. by apply Forall_true. Qed.
Lemma lacks_mono keys keys' ext : keys ⊆ keys' → lacks keys' ext → lacks keys ext.
Proof.
  intros Hk. destruct ext as [[]|]; try done. intros [? H]. split; [done|].
  rewrite Forall_forall in *. auto.
Qed.

Lemma i8_small z : in_i8 z → i8 z = z.
Proof. unfold in_i8, i8. intros H. rewrite Z.mod_small; lia. Qed.
Lemma i32_small z : in_i32 z → i32 z = z.
Proof. unfold in_i32, i32. intros H. rewrite Z.mod_small; lia. Qed.
Lemma i8_number z : in_i8 z → i8 <$> as_i64 (number z) = Some z.
Proof. intros H. rewrite as_i64_number by (unfold in_i8 in H; lia). cbn. by rewrite i8_small. Qed.
Lemma i32_number z : in_i32 z → i32 <$> as_i64 (number z) = Some z.
Proof. intros H. rewrite as_i64_number by (unfold in_i32 in H; lia). cbn. by rewrite i32_small. Qed.

Lemma source_roundtrip s : clean_source s →
  norm_source (schain_up (schain_down s)) = norm_source s.
Proof.
  intros [Hl Hr]. unfold schain_down. destruct (src_schain s) as [x|] eqn:Hs.
  - destruct Hr as (v & -> & Hv). unfold schain_up. cbn [src_ext set_src_ext set_src_schain].
    rewrite remove_inserted by done. cbn. rewrite Hv. destruct s. cbn in *. by subst.
  - unfold schain_up. rewrite remove_absent by done. by destruct s.
Qed.
Lemma obj_remove_insert_ne {A} k k' (v : A) m : obj_sorted m → k ≠ k' →
  obj_remove k (obj_insert k' v m) = obj_insert k' v (obj_remove k m).
Proof.
  intros Hs Hk. apply obj_sorted_ext.
  - by apply obj_sorted_remove, obj_sorted_insert.
  - by apply obj_sorted_insert, obj_sorted_remove.
  - intros j. rewrite obj_get_remove, !obj_get_insert, obj_get_remove
      by eauto using obj_sorted_insert, obj_sorted_remove.
    by repeat case_bool_decide; subst.
Qed.
Lemma remove_insert_ne k k' v ext : k ≠ k' → lacks [k'] ext →
  remove_key k (insert_key k' v ext) = ((remove_key k ext).1, insert_key k' v (remove_key k ext).2).
Proof.
  intros Hk. unfold insert_key. destruct ext as [[]|]; try done.
  - intros [Hs [Hk' _]%Forall_cons]. cbn. rewrite Hk', obj_get_remove by done.
    rewrite bool_decide_false by done. rewrite Hk'. rewrite obj_get_insert by done.
    rewrite bool_decide_false by done. by rewrite obj_remove_insert_ne.
  - intros _. cbn. by rewrite bool_decide_false.
Qed.
(** Two keys, inserted one after the other and removed in the same order. *)
Lemma remove_first_inserted k k' v v' ext : k ≠ k' → lacks [k; k'] ext →
  remove_key k (insert_key k' v' (insert_key k v ext)) = (Some v, insert_key k' v' ext).
Proof.
  intros Hk Hl. assert (lacks [k] ext ∧ lacks [k'] ext) as [Hl1 Hl2]
    by (split; apply (lacks_mono _ [k; k']); [set_solver|done|set_solver|done]).
  rewrite remove_insert_ne; [|done|apply lacks_other; [set_solver|done]].
  rewrite remove_inserted by done.
  done.
Qed.

Lemma regs_roundtrip r : clean_regs r →
  norm_regs (us_privacy_up (gdpr_up (us_privacy_down (gdpr_down r)))) = norm_regs r.
Proof.
  destruct r as [coppa gdpr usp gpp sid dsa ext]. intros [Hl Hg]. cbn in Hl, Hg.
  assert (lacks ["gdpr"] ext ∧ lacks ["us_privacy"] ext) as [Hl1 Hl2]
    by (split; apply (lacks_mono _ ["gdpr"; "us_privacy"]); [set_solver|done|set_solver|done]).
  unfold norm_regs, gdpr_down, us_privacy_down, gdpr_up, us_privacy_up.
  destruct gdpr as [g|], usp as [u|]; cbn [regs_gdpr regs_ext regs_us_privacy set_regs_ext set_regs_gdpr
    set_regs_us_privacy].
  - rewrite remove_first_inserted by done. cbn [regs_gdpr regs_ext regs_us_privacy set_regs_ext set_regs_gdpr
    set_regs_us_privacy]. rewrite i8_number by done. rewrite remove_inserted by done. done.
  - rewrite remove_inserted by done. cbn -[remove_key number]. rewrite i8_number by done.
    rewrite remove_absent by (by apply lacks_norm). done.
  - rewrite (remove_absent "gdpr") by (apply lacks_other; [set_solver|done]). cbn -[remove_key insert_key].
    by rewrite remove_inserted.
  - rewrite (remove_absent "gdpr") by done. cbn -[remove_key]. by rewrite remove_absent.
Qed.
Lemma user_roundtrip u : clean_user u →
  norm_user (eids_up (consent_up (eids_down (consent_down u)))) = norm_user u.
Proof.
  intros [Hl Hr]. assert (lacks ["consent"] (user_ext u) ∧ lacks ["eids"] (user_ext u)) as [Hl1 Hl2]
    by (split; apply (lacks_mono _ ["consent"; "eids"]); [set_solver|done|set_solver|done]).
  unfold norm_user, consent_down, eids_down, consent_up, eids_up.
  destruct (user_consent u) as [c|] eqn:Hc; cbn [user_ext set_user_ext user_eids set_user_consent];
    (destruct (user_eids u) as [x|] eqn:Hx; [destruct Hr as (v & -> & Hv)|]).
  - cbn [user_ext set_user_ext set_user_eids set_user_consent].
    rewrite remove_first_inserted by done. cbn -[remove_key insert_key]. rewrite remove_inserted by done.
    cbn. rewrite Hv. destruct u. cbn in *. by subst.
  - cbn [user_ext set_user_ext set_user_eids set_user_consent]. rewrite remove_inserted by done.
    cbn -[remove_key]. rewrite remove_absent by (by apply lacks_norm). destruct u. cbn in *. by subst.
  - cbn [user_ext set_user_ext set_user_eids set_user_consent].
    rewrite (remove_absent "consent") by (apply lacks_other; [set_solver|done]). cbn -[remove_key insert_key].
    rewrite remove_inserted by done. cbn. rewrite Hv. destruct u. cbn in *. by subst.
  - rewrite (remove_absent "consent") by done. cbn -[remove_key]. rewrite remove_absent by done.
    destruct u. cbn in *. by subst.
Qed.
Lemma rewarded_roundtrip i : clean_imp i → norm_imp (rewarded_up (rewarded_down i)) = norm_imp i.
Proof.
  intros [Hl Hr]. unfold rewarded_down. destruct (imp_rwdd i) as [z|] eqn:Hz.
  - unfold rewarded_up. cbn [imp_ext set_imp_ext].
    assert (∃ ext, remove_rewarded (insert_rewarded z (imp_ext i)) = (Some (number z), ext) ∧
      insert_key "prebid" (VObject []) ext = insert_key "prebid" (VObject []) (imp_ext i)) as (ext & -> & He).
    { destruct (imp_ext i) as [[]|]; try done; [destruct Hl as [Hs Hp]|by eexists]. unfold insert_key. cbn.
      destruct (obj_get "prebid" m) as [[]|] eqn:Hm; try done; cbn.
      - destruct Hp as [Hs' [Hp _]%Forall_cons]. rewrite Hp.
        rewrite obj_get_insert, bool_decide_true by done. cbn.
        rewrite obj_get_insert, bool_decide_true by done. eexists. split; [done|]. cbn.
        rewrite obj_remove_insert, obj_remove_absent, obj_insert_insert, obj_insert_same by done.
        by rewrite Hm.
      - rewrite obj_get_insert, bool_decide_true by done. cbn. eexists. split; [done|]. cbn.
        rewrite obj_insert_insert, obj_get_insert, bool_decide_true by done. done. }
    cbn -[as_i64 number i32]. rewrite i32_number by done. unfold norm_imp. cbn -[insert_key]. rewrite He.
    destruct i. cbn -[insert_key] in *. by subst.
  - unfold rewarded_up. assert (remove_rewarded (imp_ext i) = (None, imp_ext i)) as ->.
    { destruct (imp_ext i) as [[]|]; try done. destruct Hl as [Hs Hp]. cbn.
      destruct (obj_get "prebid" m) as [p|] eqn:Hm; [|done].
      destruct p; try done. destruct Hp as [Hs' [Hp _]%Forall_cons]. cbn.
      by rewrite Hp, obj_remove_absent, obj_insert_same. }
    by destruct i.
Qed.

(** *** Up reads every signal *)

Lemma obj_get_remove_ne {A} k k' (m : list (string * A)) : k ≠ k' →
  obj_get k' (obj_remove k m) = obj_get k' m.
Proof.
  intros Hk. induction m as [|[k1 v1] m IH]; [done|]. simpl.
  destruct (decide (k1 = k)) as [->|Hne].
  - rewrite !bool_decide_true by done. by rewrite bool_decide_false.
  - rewrite bool_decide_false by done. simpl. by rewrite IH.
Qed.
Lemma remove_key_get key ext : (remove_key key ext).1 = json_path [key] ext.
Proof. by destruct ext as [[]|]. Qed.
Lemma remove_key_other key key' ext : key ≠ key' →
  json_path [key'] (remove_key key ext).2 = json_path [key'] ext.
Proof. intros Hk. destruct ext as [[]|]; try done. cbn. by apply obj_get_remove_ne. Qed.
Lemma schain_up_signal s : src_schain (schain_up s) = schain_of s.
Proof.
  unfold schain_up, schain_of. pose proof (remove_key_get "schain" (src_ext s)) as Hk.
  destruct (remove_key _ _) as [v ext]. cbn [fst] in Hk. subst v.
  destruct s as [? ? ? [x|] ?]; cbn -[json_path]; destruct (json_path _ _) as [v|]; cbn;
    try destruct (schain_from_value v); by cbn.
Qed.
Lemma regs_up_signal r : regs_gdpr (us_privacy_up (gdpr_up r)) = gdpr_of r ∧
  regs_us_privacy (us_privacy_up (gdpr_up r)) = us_privacy_of r.
Proof.
  unfold gdpr_of, us_privacy_of, gdpr_up.
  pose proof (remove_key_get "gdpr" (regs_ext r)) as Hk.
  pose proof (remove_key_other "gdpr" "us_privacy" (regs_ext r) ltac:(done)) as Ho.
  destruct (remove_key "gdpr" _) as [v ext]. cbn [fst snd] in Hk, Ho. subst v.
  match goal with |- regs_gdpr (us_privacy_up ?r1) = _ ∧ _ => set (r' := r1) end.
  assert (regs_ext r' = ext ∧ regs_us_privacy r' = regs_us_privacy r ∧ regs_gdpr r' = match regs_gdpr r with
    | Some x => Some x | None => i8 <$> (json_path ["gdpr"] (regs_ext r) ≫= as_i64) end) as (He & Hu & Hg).
  { unfold r'. clear Ho r'. destruct r as [? [g|] ? ? ? ? ?]; cbn -[json_path]; by destruct (json_path _ _). }
  clearbody r'. destruct r' as [c' g' u' gpp' sid' dsa' e'], r as [c g u gpp sid dsa e].
  cbn -[json_path] in *. subst. unfold us_privacy_up. cbn -[json_path remove_key].
  pose proof (remove_key_get "us_privacy" ext) as Hk. destruct (remove_key _ ext) as [v ext'].
  cbn [fst] in Hk. subst v. rewrite Ho. by destruct (json_path ["us_privacy"] e), u.
Qed.
Lemma user_up_signal u : user_consent (eids_up (consent_up u)) = consent_of u ∧
  user_eids (eids_up (consent_up u)) = eids_of u.
Proof.
  unfold consent_of, eids_of, consent_up.
  pose proof (remove_key_get "consent" (user_ext u)) as Hk.
  pose proof (remove_key_other "consent" "eids" (user_ext u) ltac:(done)) as Ho.
  destruct (remove_key "consent" _) as [v ext]. cbn [fst snd] in Hk, Ho. subst v.
  match goal with |- user_consent (eids_up ?u1) = _ ∧ _ => set (u' := u1) end.
  assert (user_ext u' = ext ∧ user_eids u' = user_eids u ∧ user_consent u' = match user_consent u with
    | Some x => Some x | None => json_path ["consent"] (user_ext u) ≫= as_str end) as (He & Hu & Hg).
  { unfold u'. clear Ho u'. destruct u. cbn -[json_path]. by destruct (json_path _ _), user_consent. }
  clearbody u'. destruct u', u. cbn -[json_path] in *. subst. unfold eids_up. cbn -[json_path remove_key].
  pose proof (remove_key_get "eids" ext) as Hk. destruct (remove_key _ ext) as [v ext'].
  cbn [fst] in Hk. subst v. rewrite Ho. clear Ho.
  destruct (json_path ["eids"] _) as [v|], user_eids0; cbn; try done. by destruct (eids_from_value v).
Qed.
Lemma rewarded_up_signal i : imp_rwdd (rewarded_up i) = rewarded_of i.
Proof.
  unfold rewarded_up, rewarded_of.
  assert (Hk : (remove_rewarded (imp_ext i)).1 = json_path ["prebid"; "is_rewarded_inventory"] (imp_ext i)).
  { destruct (imp_ext i) as [[]|]; try done. cbn. destruct (obj_get "prebid" m) as [[]|]; done. }
  destruct (remove_rewarded _) as [v ext]. cbn [fst] in Hk. subst v.
  destruct i. cbn -[json_path]. by destruct (json_path _ _), imp_rwdd.
Qed.

Ltac parts := rewrite ?parts_imp, ?parts_user, ?parts_regs, ?parts_source.

(** C28: Moving a request between OpenRTB 2.5 and 2.6 keeps its signals.  Going
    up fills every 2.6 field with the request's signal (the field itself where it
    is set, else the value in [ext]); going down leaves no 2.6 field set; and a
    2.6 request whose 2.5 places are free comes back unchanged from the way down
    and up, but for empty objects. *)
Theorem version_conversion_spec req :
  signals_26 (convert_up_to_26 req) = signals req ∧
  signals_26 (convert_down_to_25 req) =
    ((λ _, None) <$> req_source req, (λ _, (None, None)) <$> req_regs req,
     (λ _, (None, None)) <$> req_user req, (λ _, None) <$> req_imp req) ∧
  (clean_26 req → norm_req (convert_up_to_26 (convert_down_to_25 req)) = norm_req req).
Proof.
  split; [|split].
  - rewrite convert_up_parts. unfold signals_26, signals. parts.
    rewrite <-!list_fmap_compose. f_equal; [f_equal; [f_equal|]|].
    + destruct (req_source req); cbn; [|done]. by rewrite schain_up_signal.
    + destruct (req_regs req) as [r|]; cbn; [|done]. destruct (regs_up_signal r). by do 2 f_equal.
    + destruct (req_user req) as [u|]; cbn; [|done]. destruct (user_up_signal u). by do 2 f_equal.
    + apply list_fmap_ext. intros _ i _. apply rewarded_up_signal.
  - rewrite convert_down_parts. unfold signals_26. parts.
    rewrite <-!list_fmap_compose. f_equal; [f_equal; [f_equal|]|].
    + destruct (req_source req); cbn; [|done]. by rewrite schain_down_none.
    + destruct (req_regs req) as [r|]; cbn; [|done]. destruct (regs_down_none r). by do 2 f_equal.
    + destruct (req_user req) as [u|]; cbn; [|done]. destruct (user_down_none u). by do 2 f_equal.
    + apply list_fmap_ext. intros _ i _. apply rewarded_down_none.
  - intros (Hs & Hr & Hu & Hi). rewrite convert_down_parts, convert_up_parts.
    unfold norm_req. parts. rewrite !parts_parts. f_equal.
    + rewrite <-!list_fmap_compose. apply list_fmap_ext. intros k i Hk. apply rewarded_roundtrip.
      rewrite Forall_forall in Hi. apply Hi. by eapply list_elem_of_lookup_2.
    + destruct (req_user req); cbn; [|done]. f_equal. by apply user_roundtrip.
    + destruct (req_regs req); cbn; [|done]. f_equal. by apply regs_roundtrip.
    + destruct (req_source req); cbn; [|done]. f_equal. by apply source_roundtrip.
Qed.

(** A second conversion down changes nothing. *)
Lemma convert_down_idem req : convert_down_to_25 (convert_down_to_25 req) = convert_down_to_25 req.
Proof.
  assert (Hs : ∀ s, src_schain s = None → schain_down s = s) by (unfold schain_down; by intros s ->).
  assert (Hr : ∀ r, regs_gdpr r = None → regs_us_privacy r = None → us_privacy_down (gdpr_down r) = r)
    by (unfold us_privacy_down, gdpr_down; intros r ->; by intros ->).
  assert (Hu : ∀ u, user_consent u = None → user_eids u = None → eids_down (consent_down u) = u)
    by (unfold eids_down, consent_down; intros u ->; by intros ->).
  assert (Hi : ∀ i, imp_rwdd i = None → rewarded_down i = i) by (unfold rewarded_down; by intros i ->).
  rewrite (convert_down_parts (convert_down_to_25 req)), (convert_down_parts req). parts.
  rewrite parts_parts. f_equal.
  - rewrite <-!list_fmap_compose. apply list_fmap_ext. intros _ i _. apply Hi, rewarded_down_none.
  - destruct (req_user req) as [u|]; cbn; [|done]. f_equal. apply Hu; apply user_down_none.
  - destruct (req_regs req) as [r|]; cbn; [|done]. f_equal. apply Hr; apply regs_down_none.
  - destruct (req_source req) as [s|]; cbn; [|done]. f_equal. apply Hs, schain_down_none.
Qed.
End Laws.

(** With a signal in both places the ways disagree: up keeps the field, down
    keeps what was in [ext]. *)
Lemma down_keeps_stale_ext : let r := set_regs_gdpr (Some 1)
    (set_regs_ext (Some (VObject [("gdpr", VNumber (PosInt 0))])) default_regs) in
  gdpr_of r = Some 1 ∧ gdpr_of (gdpr_down r) = Some 0 ∧ regs_gdpr (gdpr_up r) = Some 1.
Proof. by vm_compute. Qed.
(** An [ext] that is no object loses the signal on the way down. *)
Lemma down_loses_consent : let u := set_user_consent (Some "CPX")
    (set_user_ext (Some (VString "x")) default_user) in
  consent_of u = Some "CPX" ∧ consent_of (consent_down u) = None.
Proof. by vm_compute. Qed.
(** So does the way up, for a value of another type: [true] for a rewarded
    impression, which is removed and not understood. *)
Lemma up_drops_boolean_reward : let i := set_imp_ext (Some (VObject [("prebid",
    VObject [("is_rewarded_inventory", VBool true)])])) default_imp in
  rewarded_up i = set_imp_ext (Some (VObject [("prebid", VObject [])])) default_imp.
Proof. by vm_compute. Qed.

(** *** Witness *)

Definition sample_schain : SupplyChain := default_sc.
Definition sample_codec : VersionCodec := {|
  schain_from_value v := Some sample_schain; schain_to_value x := Some VNull;
  eids_from_value v := Some []; eids_to_value x := Some (VArray []) |}.
Definition sample_26_request : BidRequest :=
  set_req_source (Some (set_src_schain (Some sample_schain) default_src))
    (set_req_regs (Some (set_regs_gdpr (Some 1) (set_regs_us_privacy (Some "1YNN")
      (set_regs_ext (Some (VObject [("dsa", VNull)])) default_regs))))
      (set_req_user (Some (set_user_consent (Some "CPX") (set_user_eids (Some []) default_user)))
        (set_req_imp [set_imp_rwdd (Some 1) default_imp] default_req))).
Lemma version_conversion_spec_witness :
  let req := sample_26_request in
  convert_down_to_25 (VC := sample_codec) req ≠ req ∧
  norm_req (convert_up_to_26 (VC := sample_codec) (convert_down_to_25 (VC := sample_codec) req)) = norm_req req.
Proof.
  split; [vm_compute; by intros [=]|].
  apply (version_conversion_spec (VC := sample_codec) sample_26_request).
  repeat first [split | constructor | by eexists | by vm_compute].
Defined.
