(* ===== verification/SupplyChains.v ===== *)
(** Supply chains (exchange/src/schain.rs): the chain of [ext.prebid.schains] a
    bidder gets, with the host's node appended.  Reading the entries from JSON is
    serde's. *)
From S2P Require Import Prelude Json OpenRtb.

(** Unlike a pair, an entry serves many bidders. *)
Record ExtRequestPrebidSChain : Type := { eps_bidders : list string; eps_schain : SupplyChain }.
Definition SCHAIN_WILDCARD : string := "*".
Definition multiple_schains (bidder : string) : string :=
  "request.ext.prebid.schains contains multiple schains for bidder " +:+ bidder +:+
  "; it must contain no more than one per bidder.".

(** One turn of the inner loop, and the two loops. *)
Definition add_schain (chain : SupplyChain) (map : gmap string SupplyChain) (bidder : string)
    : outcome string (gmap string SupplyChain) :=
  match map !! bidder with
  | Some _ => Err (multiple_schains bidder)
  | None => Ok (<[bidder := chain]> map)
  end.
Definition bidder_to_prebid_schains (schains : list ExtRequestPrebidSChain)
    : outcome string (gmap string SupplyChain) :=
  foldM (λ map wrapper, foldM (add_schain (eps_schain wrapper)) map (eps_bidders wrapper)) ∅ schains.

Record SChainWriter : Type := {
  schains_by_bidder : gmap string SupplyChain; host_schain_node : option SupplyChainNode;
}.
Definition schain_writer_new (schains : option (list ExtRequestPrebidSChain))
    (host_node : option SupplyChainNode) : outcome string SChainWriter :=
  by_bidder ← match schains with
              | Some ((_ :: _) as s) => bidder_to_prebid_schains s
              | _ => Ok ∅
              end;
  Ok {| schains_by_bidder := by_bidder; host_schain_node := host_node |}.
Definition fresh_chain : SupplyChain :=
  {| sc_complete := 0; sc_ver := "1.0"; sc_nodes := []; sc_ext := None |}.
Definition push_node (node : SupplyChainNode) (c : SupplyChain) : SupplyChain :=
  {| sc_complete := sc_complete c; sc_ver := sc_ver c; sc_nodes := sc_nodes c ++ [node];
     sc_ext := sc_ext c |}.
Definition schain_write (w : SChainWriter) (request : BidRequest) (bidder : string) : BidRequest :=
  let wildcard := schains_by_bidder w !! SCHAIN_WILDCARD in
  let bidder_chain := schains_by_bidder w !! bidder in
  match bidder_chain, wildcard, host_schain_node w with
  | None, None, None => request
  | _, _, _ =>
      let selected :=
        match bidder_chain with
        | Some chain => chain
        | None => match wildcard with Some chain => chain | None => fresh_chain end
        end in
      let selected :=
        match host_schain_node w with Some node => push_node node selected | None => selected end in
      let source := default default_src (req_source request) in
      set_req_source (Some (set_src_schain (Some selected) source)) request
  end.

Section Parsed.
(** [serde_json::from_value::<Vec<ExtRequestPrebidSChain>>] *)
Context (schains_from_value : Value → option (list ExtRequestPrebidSChain)).
Definition parse_schains_from_ext (ext : option Value) : option (list ExtRequestPrebidSChain) :=
  ext ← ext; prebid ← get "prebid" ext; v ← get "schains" prebid; schains_from_value v.
Definition apply_schain_to_request (request : BidRequest) (bidder : string)
    (host_node : option SupplyChainNode) : outcome string BidRequest :=
  writer ← schain_writer_new (parse_schains_from_ext (req_ext request)) host_node;
  Ok (schain_write writer request bidder).
End Parsed.

(** ** What is promised *)

(** Each bidder named, with its entry's chain. *)
Definition named_chains (schains : list ExtRequestPrebidSChain) : list (string * SupplyChain) :=
  flat_map (λ e, (λ b, (b, eps_schain e)) <$> eps_bidders e) schains.
(** The chain for a bidder: the one that names it, else the one for all, else
    none, or an empty one when there is a host's node to carry. *)
Definition chain_for (schains : list ExtRequestPrebidSChain) (host_node : option SupplyChainNode)
    (bidder : string) : option SupplyChain :=
  let chosen := match obj_get bidder (named_chains schains) with
                | Some c => Some c
                | None => obj_get SCHAIN_WILDCARD (named_chains schains)
                end in
  match host_node with
  | Some node => Some (push_node node (default fresh_chain chosen))
  | None => chosen
  end.

(** ** Proofs *)

Lemma foldM_flat_map {E A B C} (f : A → C → outcome E A) (g : B → list C) l a :
  foldM (λ a x, foldM f a (g x)) a l = foldM f a (flat_map g l).
Proof.
  revert a. induction l as [|x l IH]; intros a; [done|]. cbn. rewrite foldM_app.
  destruct (foldM f a (g x)); cbn; auto.
Qed.
Lemma foldM_fmap {E A B C} (f : A → C → outcome E A) (g : B → C) l a :
  foldM f a (g <$> l) = foldM (λ a x, f a (g x)) a l.
Proof. revert a. induction l as [|x l IH]; intros a; [done|]. cbn. destruct (f a (g x)); cbn; auto. Qed.
Lemma foldM_ext {E A B} (f g : A → B → outcome E A) l a : (∀ a x, f a x = g a x) → foldM f a l = foldM g a l.
Proof. intros H. revert a. induction l as [|x l IH]; intros a; [done|]. cbn. rewrite H. destruct (g a x); cbn; auto. Qed.

Lemma bidder_to_prebid_schains_named schains :
  bidder_to_prebid_schains schains = foldM (λ m p, add_schain p.2 m p.1) ∅ (named_chains schains).
Proof.
  unfold bidder_to_prebid_schains, named_chains. rewrite <-foldM_flat_map. apply foldM_ext. intros a e.
  by rewrite foldM_fmap.
Qed.
(** Adding pairs one by one: all when no name comes twice, else the error of one
    that does. *)
Lemma add_schains_spec l m :
  match foldM (λ m p, add_schain p.2 m p.1) m l with
  | Ok m' => NoDup l.*1 ∧ (∀ b, b ∈ l.*1 → m !! b = None) ∧
      ∀ b, m' !! b = match m !! b with Some c => Some c | None => obj_get b l end
  | Err e => ∃ b, e = multiple_schains b ∧ b ∈ l.*1 ∧ (is_Some (m !! b) ∨ ¬ NoDup l.*1)
  | Panic => False
  end.
Proof.
  revert m. induction l as [|[b c] l IH]; intros m; cbn.
  { split; [constructor|]. split; [by intros ? ?%elem_of_nil|]. intros b. by destruct (m !! b). }
  destruct (m !! b) as [c'|] eqn:Hb; (assert (Ha : add_schain c m b = _) by (unfold add_schain; by rewrite Hb)); rewrite Ha; cbn.
  { exists b. split; [done|]. split; [by left|]. left. by eexists. }
  specialize (IH (<[b := c]> m)). destruct (foldM _ _ l) as [m'|e|]; [| |done].
  - destruct IH as (Hnd & Hm & Hm'). split.
    { apply NoDup_cons. split; [|done]. intros Hin. specialize (Hm _ Hin). by rewrite lookup_insert_eq in Hm. }
    split.
    + intros b' [->|Hin]%elem_of_cons; [done|]. specialize (Hm _ Hin). by apply lookup_insert_None in Hm as [? _].
    + intros b'. rewrite Hm'. case_bool_decide as Hbb.
      * subst b'. by rewrite lookup_insert_eq, Hb.
      * by rewrite lookup_insert_ne by done.
  - destruct IH as (b' & -> & Hin & H). exists b'. split; [done|]. split; [by right|].
    destruct (decide (b' = b)) as [->|Hne].
    { right. intros [Hni _]%NoDup_cons. done. }
    rewrite lookup_insert_ne in H by done. destruct H as [?|H]; [by left|right].
    intros [_ Hnd]%NoDup_cons. done.
Qed.

(** A request's supply chains are applied exactly when no bidder is named
    twice in [ext.prebid.schains]; otherwise the error names one that is.  Applied
    for a bidder, the request's [source.schain] becomes the chain that names it,
    else the wildcard's, with the host's node at its end, and nothing else in the
    request changes; without a chain and a host's node the request stays. *)
Theorem schain_spec from_value request bidder host_node :
  let schains := default [] (parse_schains_from_ext from_value (req_ext request)) in
  match apply_schain_to_request from_value request bidder host_node with
  | Ok request' =>
      NoDup (named_chains schains).*1 ∧
      request' = match chain_for schains host_node bidder with
                 | Some chain => set_req_source (Some (set_src_schain (Some chain)
                     (default default_src (req_source request)))) request
                 | None => request
                 end
  | Err e => ¬ NoDup (named_chains schains).*1 ∧
      ∃ b, b ∈ (named_chains schains).*1 ∧ e = multiple_schains b
  | Panic => False
  end.
Proof.
  intros schains. unfold apply_schain_to_request, schain_writer_new.
  assert (∀ o, match o with Some ((_ :: _) as s) => bidder_to_prebid_schains s | _ => Ok ∅ end =
    bidder_to_prebid_schains (default [] o)) as -> by by intros [[]|].
  fold schains. rewrite bidder_to_prebid_schains_named.
  pose proof (add_schains_spec (named_chains schains) ∅) as H.
  destruct (foldM _ _ _) as [m|e|]; cbn; [| |done].
  - destruct H as (Hnd & _ & Hm). split; [done|]. unfold schain_write, chain_for. cbn.
    rewrite !Hm, !lookup_empty. by destruct (obj_get bidder (named_chains schains)), (obj_get SCHAIN_WILDCARD (named_chains schains)), host_node.
  - destruct H as (b & -> & Hin & [[? ?%lookup_empty_Some]|Hnd]); [done|]. eauto.
Qed.
Example schain_applied : ∃ r,
  apply_schain_to_request (λ _, Some [{| eps_bidders := ["a"; "b"]; eps_schain := default_sc |}])
    (set_req_ext (Some (VObject [("prebid", VObject [("schains", VArray [])])])) default_req) "b"
    (Some default_scn) = Ok r ∧ (req_source r ≫= src_schain) = Some (push_node default_scn default_sc).
Proof. eexists. split; vm_compute; reflexivity. Qed.
