(* ===== verification/RequestValidator.v ===== *)
(** The impression validator (exchange/src/request_validator.rs): the checks of
    [StandardRequestValidator], in order, each with its message; and what they
    accept, as predicates.

    Native validation and the check of [imp.ext] are placeholders in the source. *)
From S2P Require Import Prelude Json OpenRtb.

Record ValidationConfig : Type := { vc_skip_bidder_params : bool; vc_skip_native : bool }.

(** [if cond { return Err(msg) }] *)
Definition reject_if (cond : bool) (msg : string) : outcome string () :=
  if cond then Err msg else Ok ().
(** [if let Some(z) = o { if z < 0 { return Err(msg) } }] *)
Definition negative (o : option Z) : bool :=
  match o with Some z => z <? 0 | None => false end.
Definition in_imp (i : Z) : string := "request.imp[" +:+ pretty i +:+ "]".
Definition unsupported (i : Z) (prop : string) : string :=
  in_imp i +:+ ".banner uses unsupported property: " +:+ dq +:+ prop +:+ dq +:+ ". Use the " +:+
    dq +:+ "format" +:+ dq +:+ " array instead.".
Definition not_positive (i : Z) (field : string) : string :=
  in_imp i +:+ field +:+ " must be a positive number".

Definition in_format (i j : Z) : string :=
  "imp[" +:+ pretty i +:+ "].banner.format[" +:+ pretty j +:+ "]".
Definition validate_format (format : Format) (imp_index format_index : Z) : outcome string () :=
  let w := default 0 (fmt_w format) in
  let h := default 0 (fmt_h format) in
  let wratio := default 0 (fmt_wratio format) in
  let hratio := default 0 (fmt_hratio format) in
  let wmin := default 0 (fmt_wmin format) in
  let uses_hw := negb (w =? 0) || negb (h =? 0) in
  let uses_ratios := negb (wmin =? 0) || negb (wratio =? 0) || negb (hratio =? 0) in
  let positive (field : string) :=
    "request." +:+ in_format imp_index format_index +:+ "." +:+ field +:+ " must be a positive number" in
  let must := "Request " +:+ in_format imp_index format_index in
  _ ← reject_if (w <? 0) (positive "w");
  _ ← reject_if (h <? 0) (positive "h");
  _ ← reject_if (wratio <? 0) (positive "wratio");
  _ ← reject_if (hratio <? 0) (positive "hratio");
  _ ← reject_if (wmin <? 0) (positive "wmin");
  _ ← reject_if (uses_hw && uses_ratios) (must +:+
        " should define *either* {w, h} *or* {wmin, wratio, hratio}, but not both. If both are valid, send two " +:+
        dq +:+ "format" +:+ dq +:+ " objects in the request.");
  _ ← reject_if (negb uses_hw && negb uses_ratios) (must +:+
        " should define *either* {w, h} (for static size requirements) *or* {wmin, wratio, hratio} (for flexible sizes) to be non-zero.");
  _ ← reject_if (uses_hw && ((w =? 0) || (h =? 0))) (must +:+ " must define non-zero " +:+ dq +:+
        "h" +:+ dq +:+ " and " +:+ dq +:+ "w" +:+ dq +:+ " properties.");
  reject_if (uses_ratios && ((wmin =? 0) || (wratio =? 0) || (hratio =? 0))) (must +:+
    " must define non-zero " +:+ dq +:+ "wmin" +:+ dq +:+ ", " +:+ dq +:+ "wratio" +:+ dq +:+
    ", and " +:+ dq +:+ "hratio" +:+ dq +:+ " properties.").

(** [for (i, x) in l.iter().enumerate() { check(x, i)? }] *)
Fixpoint check_all {A} (check : A → Z → outcome string ()) (l : list A) (i : Z) : outcome string () :=
  match l with
  | [] => Ok ()
  | x :: l' => _ ← check x i; check_all check l' (i + 1)
  end.

Definition has_root_size (banner : Banner) : bool :=
  match ban_w banner, ban_h banner with
  | Some w, Some h => (0 <? w) && (0 <? h)
  | _, _ => false
  end.
Definition rv_validate_banner (banner : Banner) (imp_index : Z) (is_interstitial : bool)
    : outcome string () :=
  let formats := default [] (ban_format banner) in
  let nonzero (o : option Z) := negb (default 0 o =? 0) in
  _ ← reject_if (negative (ban_w banner)) (not_positive imp_index ".banner.w");
  _ ← reject_if (negative (ban_h banner)) (not_positive imp_index ".banner.h");
  _ ← reject_if (nonzero (ban_wmin banner)) (unsupported imp_index "wmin");
  _ ← reject_if (nonzero (ban_wmax banner)) (unsupported imp_index "wmax");
  _ ← reject_if (nonzero (ban_hmin banner)) (unsupported imp_index "hmin");
  _ ← reject_if (nonzero (ban_hmax banner)) (unsupported imp_index "hmax");
  _ ← reject_if (negb (has_root_size banner) && bool_decide (formats = []) && negb is_interstitial)
        (in_imp imp_index +:+ ".banner has no sizes. Define " +:+ dq +:+ "w" +:+ dq +:+ " and " +:+
         dq +:+ "h" +:+ dq +:+ ", or include " +:+ dq +:+ "format" +:+ dq +:+ " elements.");
  check_all (λ fmt i, validate_format fmt imp_index i) formats 0.

Definition has_mimes (mimes : option (list string)) : bool :=
  match mimes with Some (_ :: _) => true | _ => false end.
Definition rv_validate_video (video : Video) (imp_index : Z) : outcome string () :=
  _ ← reject_if (negb (has_mimes (vid_mimes video)))
        (in_imp imp_index +:+ ".video.mimes must contain at least one supported MIME type");
  _ ← reject_if (negative (vid_w video)) (not_positive imp_index ".video.w");
  _ ← reject_if (negative (vid_h video)) (not_positive imp_index ".video.h");
  _ ← reject_if (negative (vid_minbitrate video)) (not_positive imp_index ".video.minbitrate");
  reject_if (negative (vid_maxbitrate video)) (not_positive imp_index ".video.maxbitrate").
Definition rv_validate_audio (audio : Audio) (imp_index : Z) : outcome string () :=
  _ ← reject_if (negb (has_mimes (aud_mimes audio)))
        (in_imp imp_index +:+ ".audio.mimes must contain at least one supported MIME type");
  _ ← reject_if (negative (aud_sequence audio)) (not_positive imp_index ".audio.sequence");
  _ ← reject_if (negative (aud_maxseq audio)) (not_positive imp_index ".audio.maxseq");
  _ ← reject_if (negative (aud_minbitrate audio)) (not_positive imp_index ".audio.minbitrate");
  reject_if (negative (aud_maxbitrate audio)) (not_positive imp_index ".audio.maxbitrate").
Definition validate_pmp (pmp : Pmp) (imp_index : Z) : outcome string () :=
  check_all (λ deal i, reject_if (str_is_empty (deal_id deal))
    (in_imp imp_index +:+ ".pmp.deals[" +:+ pretty i +:+ "] missing required field: " +:+ dq +:+
     "id" +:+ dq)) (pmp_deals pmp) 0.
Definition fill_and_validate_native (imp_index : Z) : outcome string () := Ok ().
Definition validate_imp_ext_placeholder (imp : Imp) (imp_index : Z) : list string := [].

Definition on_some {A} (check : A → outcome string ()) (o : option A) : outcome string () :=
  match o with Some a => check a | None => Ok () end.
Definition imp_checks (imp : Imp) (cfg : ValidationConfig) (index : Z) : outcome string () :=
  _ ← reject_if (str_is_empty (imp_id imp))
        (in_imp index +:+ " missing required field: " +:+ dq +:+ "id" +:+ dq);
  _ ← reject_if (match imp_metric imp with Some (_ :: _) => true | _ => false end)
        (in_imp index +:+
         ".metric is not yet supported by prebid-server. Support may be added in the future");
  _ ← reject_if (bool_decide (imp_banner imp = None) && bool_decide (imp_video imp = None) &&
                 bool_decide (imp_audio imp = None) && bool_decide (imp_native imp = None))
        (in_imp index +:+ " must contain at least one of " +:+ dq +:+ "banner" +:+ dq +:+ ", " +:+
         dq +:+ "video" +:+ dq +:+ ", " +:+ dq +:+ "audio" +:+ dq +:+ ", or " +:+ dq +:+ "native" +:+ dq);
  _ ← on_some (λ b, rv_validate_banner b index (bool_decide (imp_instl imp = Some 1))) (imp_banner imp);
  _ ← on_some (λ v, rv_validate_video v index) (imp_video imp);
  _ ← on_some (λ a, rv_validate_audio a index) (imp_audio imp);
  _ ← (if vc_skip_native cfg then Ok ()
       else on_some (λ _, fill_and_validate_native index) (imp_native imp));
  on_some (λ p, validate_pmp p index) (imp_pmp imp).
Definition validate_imp (imp : Imp) (cfg : ValidationConfig) (index : Z) : list string :=
  match imp_checks imp cfg index with
  | Err e => [e]
  | _ =>
      match validate_imp_ext_placeholder imp index with
      | [] => []
      | ext_errors => ext_errors
      end
  end.

(** ** What is accepted *)

Definition nonneg (o : option Z) : Prop := match o with Some z => 0 ≤ z | None => True end.
Definition zero_or_absent (o : option Z) : Prop := o = None ∨ o = Some 0.
(** Either a fixed size or a flexible one. *)
Definition valid_format (f : Format) : Prop :=
  (0 < default 0 (fmt_w f) ∧ 0 < default 0 (fmt_h f) ∧
     zero_or_absent (fmt_wmin f) ∧ zero_or_absent (fmt_wratio f) ∧ zero_or_absent (fmt_hratio f)) ∨
  (zero_or_absent (fmt_w f) ∧ zero_or_absent (fmt_h f) ∧
     0 < default 0 (fmt_wmin f) ∧ 0 < default 0 (fmt_wratio f) ∧ 0 < default 0 (fmt_hratio f)).
Definition valid_banner (b : Banner) (interstitial : Prop) : Prop :=
  nonneg (ban_w b) ∧ nonneg (ban_h b) ∧ zero_or_absent (ban_wmin b) ∧ zero_or_absent (ban_wmax b) ∧
  zero_or_absent (ban_hmin b) ∧ zero_or_absent (ban_hmax b) ∧
  ((∃ w h, ban_w b = Some w ∧ ban_h b = Some h ∧ 0 < w ∧ 0 < h) ∨
     default [] (ban_format b) ≠ [] ∨ interstitial) ∧
  Forall valid_format (default [] (ban_format b)).
Definition valid_video (v : Video) : Prop :=
  default [] (vid_mimes v) ≠ [] ∧ nonneg (vid_w v) ∧ nonneg (vid_h v) ∧
  nonneg (vid_minbitrate v) ∧ nonneg (vid_maxbitrate v).
Definition valid_audio (a : Audio) : Prop :=
  default [] (aud_mimes a) ≠ [] ∧ nonneg (aud_sequence a) ∧ nonneg (aud_maxseq a) ∧
  nonneg (aud_minbitrate a) ∧ nonneg (aud_maxbitrate a).
Definition some_all {A} (P : A → Prop) (o : option A) : Prop :=
  match o with Some a => P a | None => True end.
Definition valid_imp (imp : Imp) : Prop :=
  imp_id imp ≠ "" ∧ default [] (imp_metric imp) = [] ∧
  (is_Some (imp_banner imp) ∨ is_Some (imp_video imp) ∨ is_Some (imp_audio imp) ∨
     is_Some (imp_native imp)) ∧
  some_all (λ b, valid_banner b (imp_instl imp = Some 1)) (imp_banner imp) ∧
  some_all valid_video (imp_video imp) ∧ some_all valid_audio (imp_audio imp) ∧
  some_all (λ p, Forall (λ d, deal_id d ≠ "") (pmp_deals p)) (imp_pmp imp).

(** ** The checks *)

Lemma reject_bind cond msg k : (_ ← reject_if cond msg; k) = Ok () ↔ cond = false ∧ k = Ok ().
Proof. unfold reject_if. destruct cond; cbn; naive_solver. Qed.
Lemma reject_ok cond msg : reject_if cond msg = Ok () ↔ cond = false.
Proof. unfold reject_if. destruct cond; naive_solver. Qed.
Lemma bind_unit_ok {E} (m k : outcome E ()) : (_ ← m; k) = Ok () ↔ m = Ok () ∧ k = Ok ().
Proof. destruct m as [[]|e|]; cbn; naive_solver. Qed.
Lemma check_all_ok {A} (check : A → Z → outcome string ()) (P : A → Prop) l i :
  (∀ x j, check x j = Ok () ↔ P x) → check_all check l i = Ok () ↔ Forall P l.
Proof.
  intros Hc. revert i. induction l as [|x l IH]; intros i; cbn [check_all]; [done|].
  by rewrite bind_unit_ok, Hc, IH, Forall_cons.
Qed.
Lemma on_some_ok {A} (check : A → outcome string ()) (P : A → Prop) o :
  (∀ a, check a = Ok () ↔ P a) → on_some check o = Ok () ↔ some_all P o.
Proof. intros H. destruct o; cbn; [apply H|done]. Qed.

Lemma negative_ok o : negative o = false ↔ nonneg o.
Proof. destruct o as [z|]; cbn; [|done]. by rewrite Z.ltb_ge. Qed.
Lemma nonzero_ok o : negb (default 0 o =? 0) = false ↔ zero_or_absent o.
Proof.
  unfold zero_or_absent. rewrite negb_false_iff, Z.eqb_eq. destruct o as [z|]; cbn; [|naive_solver].
  split; [intros ->; by right|]. intros [?|[= ->]]; done.
Qed.
Lemma zero_default o : zero_or_absent o ↔ default 0 o = 0.
Proof. by rewrite <-nonzero_ok, negb_false_iff, Z.eqb_eq. Qed.
Lemma has_mimes_ok o : negb (has_mimes o) = false ↔ default [] o ≠ [].
Proof. by destruct o as [[|? ?]|]. Qed.

Lemma validate_format_ok f i j : validate_format f i j = Ok () ↔ valid_format f.
Proof.
  unfold validate_format, valid_format. rewrite !zero_default.
  generalize (default 0 (fmt_w f)) (default 0 (fmt_h f)) (default 0 (fmt_wmin f))
    (default 0 (fmt_wratio f)) (default 0 (fmt_hratio f)). intros w h wmin wr hr.
  rewrite !reject_bind, reject_ok. rewrite !andb_false_iff, !orb_false_iff, !negb_false_iff.
  rewrite !Z.ltb_ge, !Z.eqb_eq, !Z.eqb_neq. rewrite ?negb_false_iff, ?orb_true_iff, !negb_true_iff, !Z.eqb_neq. lia.
Qed.

Lemma validate_banner_ok b i interstitial (P : Prop) : (interstitial = true ↔ P) →
  rv_validate_banner b i interstitial = Ok () ↔ valid_banner b P.
Proof.
  intros HP. unfold rv_validate_banner, valid_banner.
  rewrite !reject_bind, !negative_ok, !nonzero_ok.
  rewrite (check_all_ok _ valid_format) by (intros; apply validate_format_ok).
  rewrite !andb_false_iff, !negb_false_iff, bool_decide_eq_false, HP.
  assert (has_root_size b = true ↔ ∃ w h, ban_w b = Some w ∧ ban_h b = Some h ∧ 0 < w ∧ 0 < h) as ->;
    [|tauto].
  unfold has_root_size. destruct (ban_w b) as [w|], (ban_h b) as [h|];
    [rewrite andb_true_iff, !Z.ltb_lt|..]; naive_solver.
Qed.
Lemma validate_video_ok v i : rv_validate_video v i = Ok () ↔ valid_video v.
Proof. unfold rv_validate_video. by rewrite !reject_bind, reject_ok, has_mimes_ok, !negative_ok. Qed.
Lemma validate_audio_ok a i : rv_validate_audio a i = Ok () ↔ valid_audio a.
Proof. unfold rv_validate_audio. by rewrite !reject_bind, reject_ok, has_mimes_ok, !negative_ok. Qed.
Lemma validate_pmp_ok p i : validate_pmp p i = Ok () ↔ Forall (λ d, deal_id d ≠ "") (pmp_deals p).
Proof.
  apply check_all_ok. intros d j. rewrite reject_ok. apply bool_decide_eq_false.
Qed.
Lemma imp_checks_ok imp cfg i : imp_checks imp cfg i = Ok () ↔ valid_imp imp.
Proof.
  unfold imp_checks, valid_imp. rewrite !reject_bind, !bind_unit_ok.
  rewrite (on_some_ok _ (λ b, valid_banner b (imp_instl imp = Some 1)))
    by (intros; apply validate_banner_ok, bool_decide_eq_true).
  rewrite (on_some_ok _ valid_video) by (intros; apply validate_video_ok).
  rewrite (on_some_ok _ valid_audio) by (intros; apply validate_audio_ok).
  rewrite (on_some_ok _ (λ p, Forall (λ d, deal_id d ≠ "") (pmp_deals p)))
    by (intros; apply validate_pmp_ok).
  assert (H1 : str_is_empty (imp_id imp) = false ↔ imp_id imp ≠ "") by apply bool_decide_eq_false.
  assert (H2 : match imp_metric imp with Some (_ :: _) => true | _ => false end = false ↔
    default [] (imp_metric imp) = []) by (by destruct (imp_metric imp) as [[|? ?]|]).
  assert (H3 : (if vc_skip_native cfg then Ok () else
    on_some (λ _ : Native, fill_and_validate_native i) (imp_native imp)) = Ok ())
    by (by destruct (vc_skip_native cfg), (imp_native imp)).
  rewrite H1, H2, !andb_false_iff, !bool_decide_eq_false, <-!not_eq_None_Some. tauto.
Qed.

(** A check that does not panic; its errors are messages. *)
Definition messages (m : outcome string ()) : Prop := m ≠ Panic.
Lemma bind_messages m k : messages m → messages k → messages (_ ← m; k).
Proof. destruct m as [[]|e|]; cbn; auto. Qed.
Lemma reject_messages c msg : messages (reject_if c msg).
Proof. by destruct c. Qed.
Lemma on_some_messages {A} (check : A → outcome string ()) o :
  (∀ a, messages (check a)) → messages (on_some check o).
Proof. destruct o; cbn; [auto|done]. Qed.
Lemma check_all_messages {A} (check : A → Z → outcome string ()) l i :
  (∀ x j, messages (check x j)) → messages (check_all check l i).
Proof.
  intros Hc. revert i. induction l as [|x l IH]; intros i; [done|]. by apply bind_messages.
Qed.
Ltac messages := repeat first [apply bind_messages | apply reject_messages
  | apply on_some_messages; intros | apply check_all_messages; intros | done].
Lemma imp_checks_messages imp cfg i : messages (imp_checks imp cfg i).
Proof.
  unfold imp_checks, rv_validate_banner, rv_validate_video, rv_validate_audio, validate_pmp, validate_format.
  messages. destruct (vc_skip_native cfg); messages.
Qed.

(** The validator accepts exactly the well-formed impressions: an id, no
    metrics, some medium, each with its mandatory fields and no negative sizes, a
    banner that has a size (or is interstitial) and formats that are each fixed or
    flexible but not both, and deals with ids; for any other it reports one
    message.  The configuration and the position change only the message. *)
Theorem validate_imp_spec imp cfg index :
  (validate_imp imp cfg index = [] ↔ valid_imp imp) ∧
  (¬ valid_imp imp → ∃ msg, validate_imp imp cfg index = [msg]).
Proof.
  pose proof (imp_checks_ok imp cfg index) as Hok. pose proof (imp_checks_messages imp cfg index) as Hm.
  unfold validate_imp. rewrite <-Hok. destruct (imp_checks imp cfg index) as [[]|e|]; cbn; [..|done].
  - split; [done|]. intros H. by destruct H.
  - split; [done|]. intros _. by eexists.
Qed.
