(* ===== verification/Interstitial.v ===== *)
(** * Interstitial sizes

    The formats an interstitial banner may be filled with: the code of
    exchange/src/interstitial.rs, with its table of sizes, and the
    transformation of endpoints/src/lib.rs ([ep_] names), with its own, which
    the auction and AMP handlers apply.  Multiplications wrap as in a release
    build. *)

From S2P Require Import Prelude Json OpenRtb.

(** ** exchange/src/interstitial.rs *)

Record InterstitialSize : Type := { isz_width : Z; isz_height : Z }.
Definition RESOLVED_INTERSTITIAL_SIZES : list InterstitialSize :=
  (λ '(w, h), {| isz_width := w; isz_height := h |}) <$>
  [(300, 250); (728, 90); (160, 600); (320, 50); (300, 600); (970, 250); (2000, 1400);
   (1920, 1200); (1800, 1000); (1920, 1080); (1600, 1150); (1696, 900); (1600, 900);
   (1270, 800); (970, 1000); (1920, 480); (320, 320); (1600, 500); (768, 1024); (1024, 768);
   (828, 910); (728, 970); (120, 600); (640, 960); (980, 600); (620, 891); (930, 600);
   (980, 552); (1272, 328); (300, 50); (500, 1000); (900, 550); (980, 500); (970, 500);
   (800, 600); (336, 280); (1250, 360); (980, 400); (320, 250); (320, 480); (980, 240);
   (580, 400); (970, 415); (480, 820); (620, 620); (980, 300); (970, 90); (600, 600);
   (1800, 200); (970, 310); (720, 480); (1295, 250); (300, 1050); (1272, 250); (300, 300);
   (640, 480); (320, 100); (580, 500); (1000, 300); (1250, 240); (600, 500); (300, 1000);
   (728, 410); (800, 250); (970, 300); (950, 300); (994, 250); (940, 300); (640, 320);
   (468, 600); (970, 200); (930, 180); (250, 600); (491, 555); (550, 480); (750, 300);
   (980, 250); (1000, 260); (980, 150); (350, 240); (970, 210); (640, 360); (580, 415);
   (480, 300); (750, 200); (360, 640); (624, 368); (900, 250); (468, 400); (608, 226);
   (690, 300); (605, 340); (320, 640); (450, 450); (300, 480); (250, 800); (640, 300);
   (320, 160); (980, 200); (950, 200); (480, 400); (740, 250); (336, 544); (303, 603);
   (320, 568); (301, 601); (300, 601); (600, 300); (180, 500); (980, 120); (950, 180);
   (935, 180); (994, 170); (468, 360); (320, 400); (320, 240); (320, 500); (316, 513);
   (630, 250); (480, 320); (320, 481); (520, 290); (250, 250); (300, 500); (1000, 150);
   (320, 460); (970, 150); (800, 180); (468, 60); (482, 282); (680, 200); (320, 416);
   (480, 280); (300, 431); (728, 180); (300, 430); (180, 701); (840, 150); (600, 200);
   (768, 150); (200, 600); (350, 350); (202, 600); (400, 300); (414, 286); (656, 180);
   (994, 118); (638, 180); (650, 170); (1000, 90); (300, 360); (600, 180); (240, 400);
   (161, 601); (610, 138); (164, 601); (980, 100); (970, 100); (468, 200); (250, 360);
   (320, 180); (605, 150); (600, 150); (980, 90); (750, 100); (150, 600); (630, 140);
   (696, 120); (307, 254); (303, 253); (703, 110); (550, 140); (300, 251); (298, 250);
   (500, 150); (413, 180); (728, 100); (269, 269); (640, 106); (768, 90); (320, 200);
   (728, 93); (729, 90); (727, 90); (640, 100); (720, 90); (300, 100); (970, 66);
   (480, 110); (300, 200); (707, 83); (900, 65); (467, 120); (200, 200); (450, 121);
   (320, 150); (600, 90); (300, 170); (468, 100); (300, 169); (500, 100); (300, 150);
   (990, 50); (140, 350); (160, 300); (300, 158); (190, 240); (180, 150); (300, 145);
   (310, 122); (468, 90); (594, 70); (480, 80); (600, 65); (484, 80); (320, 75); (335, 100);
   (375, 80); (300, 75); (120, 240); (480, 60); (300, 90); (120, 60); (100, 200); (320, 80);
   (160, 160); (400, 63); (300, 81); (1, 1); (300, 80); (375, 58); (232, 90); (321, 51);
   (320, 63); (319, 49); (300, 65); (360, 50); (125, 125); (298, 60); (300, 60); (299, 60);
   (301, 50); (234, 60); (280, 47); (120, 90); (13, 13); (17, 17); (168, 50); (140, 50);
   (120, 20)].

Record InterstitialConfig : Type := { ic_min_width_perc : Z; ic_min_height_perc : Z }.
Definition config_from_device (device : Device) : option InterstitialConfig :=
  interstitial ← json_path ["prebid"; "interstitial"] (dev_ext device);
  w ← get "minwidthperc" interstitial;
  h ← get "minheightperc" interstitial;
  Some {| ic_min_width_perc := default 0 (as_i64 w); ic_min_height_perc := default 0 (as_i64 h) |}.

Definition size_format (w h : Z) : Format := {|
  fmt_w := Some w; fmt_h := Some h; fmt_wratio := None; fmt_hratio := None;
  fmt_wmin := None; fmt_ext := None |}.
Definition size_fits (min_width max_width min_height max_height w h : Z) : bool :=
  (min_width <=? w) && (w <=? max_width) && (min_height <=? h) && (h <=? max_height).
(** The loop over the sizes, with the formats so far; the tenth ends it. *)
Fixpoint gen_formats (min_width max_width min_height max_height : Z) (formats : list Format)
    (sizes : list (Z * Z)) : list Format :=
  match sizes with
  | [] => formats
  | (w, h) :: sizes' =>
      if size_fits min_width max_width min_height max_height w h then
        let formats := formats ++ [size_format w h] in
        if 10 <=? zlen formats then formats
        else gen_formats min_width max_width min_height max_height formats sizes'
      else gen_formats min_width max_width min_height max_height formats sizes'
  end.
Definition gen_interstitial_format (min_width max_width min_height max_height : Z) : list Format :=
  gen_formats min_width max_width min_height max_height []
    ((λ s, (isz_width s, isz_height s)) <$> RESOLVED_INTERSTITIAL_SIZES).

(** The size of the first format. *)
Definition first_format_size (banner : Banner) : Z * Z :=
  match ban_format banner ≫= head with
  | Some first => (default 0 (fmt_w first), default 0 (fmt_h first))
  | None => (0, 0)
  end.
Definition process_interstitials_for_imp (config : InterstitialConfig) (device : option Device)
    : M Imp string unit := λ imp,
  match imp_banner imp with
  | None => (Ok tt, imp)
  | Some banner =>
      let '(max_width, max_height) := first_format_size banner in
      let max := if (max_width <? 2) && (max_height <? 2) then
                   match device with
                   | Some d => Some (default 0 (dev_w d), default 0 (dev_h d))
                   | None => None
                   end
                 else Some (max_width, max_height) in
      match max with
      | None => (Err ("Unable to read max interstitial size for Imp id=" +:+ imp_id imp +:+
                      " (No Device and no Format objects)"), imp)
      | Some (max_width, max_height) =>
          let min_width := Z.quot (i64 (max_width * ic_min_width_perc config)) 100 in
          let min_height := Z.quot (i64 (max_height * ic_min_height_perc config)) 100 in
          match gen_interstitial_format min_width max_width min_height max_height with
          | [] => (Err ("Unable to set interstitial size list for Imp id=" +:+ imp_id imp +:+
                        " (No valid sizes between " +:+ pretty min_width +:+ "x" +:+
                        pretty min_height +:+ " and " +:+ pretty max_width +:+ "x" +:+
                        pretty max_height +:+ ")"), imp)
          | formats => (Ok tt, set_imp_banner (Some (set_ban_format (Some formats) banner)) imp)
          end
      end
  end.
(** The imps in order; the first failure ends the loop. *)
Fixpoint process_imps (config : InterstitialConfig) (device : option Device) (imps : list Imp)
    : outcome string unit * list Imp :=
  match imps with
  | [] => (Ok tt, [])
  | imp :: imps' =>
      let '(r, imp') := if bool_decide (imp_instl imp = Some 1)
                        then process_interstitials_for_imp config device imp else (Ok tt, imp) in
      match r with
      | Ok _ => let '(r, imps') := process_imps config device imps' in (r, imp' :: imps')
      | _ => (r, imp' :: imps')
      end
  end.
Definition process_interstitials : M BidRequest string unit := λ req,
  match req_device req ≫= config_from_device with
  | None => (Ok tt, req)
  | Some config =>
      let '(r, imps) := process_imps config (req_device req) (req_imp req) in
      (r, set_req_imp imps req)
  end.

(** ** endpoints/src/lib.rs *)

Definition INTERSTITIAL_SIZES : list (Z * Z) :=
  [(300, 250); (728, 90); (160, 600); (320, 50); (300, 600);
   (320, 480); (336, 280); (120, 600); (468, 60); (970, 90);
   (970, 250); (320, 100); (300, 50); (300, 100); (768, 1024);
   (1024, 768); (480, 320); (300, 1050); (320, 250); (250, 250)].

(** The largest size: the first format's, or the device's where that is 1x1 or
    there is none. *)
Definition ep_max_size (device_w device_h : Z) (banner : Banner) : Z * Z :=
  match ban_format banner ≫= head with
  | Some first =>
      let '(fw, fh) := (default 0 (fmt_w first), default 0 (fmt_h first)) in
      if (fw <? 2) && (fh <? 2) then (device_w, device_h) else (fw, fh)
  | None => (device_w, device_h)
  end.
Definition ep_expand_imp (min_width_perc min_height_perc device_w device_h : Z) (imp : Imp) : Imp :=
  if negb (bool_decide (imp_instl imp = Some 1)) then imp
  else
    match imp_banner imp with
    | None => imp
    | Some banner =>
        let '(max_w, max_h) := ep_max_size device_w device_h banner in
        if (max_w <=? 0) || (max_h <=? 0) then imp
        else
          let min_w := Z.quot (i32 (max_w * min_width_perc)) 100 in
          let min_h := Z.quot (i32 (max_h * min_height_perc)) 100 in
          match gen_formats min_w max_w min_h max_h [] INTERSTITIAL_SIZES with
          | [] => imp
          | formats => set_imp_banner (Some (set_ban_format (Some formats) banner)) imp
          end
    end.
Definition ep_process_interstitials (req : BidRequest) : BidRequest :=
  match json_path ["prebid"; "interstitial"] (req_device req ≫= dev_ext) with
  | None => req
  | Some interstitial =>
      let perc key := i32 (default 0 (get key interstitial ≫= as_i64)) in
      let min_width_perc := perc "minwidthperc" in
      let min_height_perc := perc "minheightperc" in
      if (min_width_perc <=? 0) || (min_height_perc <=? 0) then req
      else
        let device_w := default 0 (req_device req ≫= dev_w) in
        let device_h := default 0 (req_device req ≫= dev_h) in
        set_req_imp (ep_expand_imp min_width_perc min_height_perc device_w device_h <$> req_imp req)
          req
  end.

(** ** Specification *)

(** The sizes of a table within the bounds, the first ten. *)
Definition fitting_formats (min_width max_width min_height max_height : Z) (sizes : list (Z * Z))
    : list Format :=
  (λ '(w, h), size_format w h) <$>
    take 10 (List.filter (λ '(w, h), size_fits min_width max_width min_height max_height w h) sizes).
(** An imp that kept everything but its banner's formats, which are up to ten
    sizes of the table, none larger than the size that was asked for. *)
Definition expanded (sizes : list (Z * Z)) (max_size : Banner → Z * Z) (imp imp' : Imp) : Prop :=
  ∃ banner formats, imp_instl imp = Some 1 ∧ imp_banner imp = Some banner ∧
    imp' = set_imp_banner (Some (set_ban_format (Some formats) banner)) imp ∧
    formats ≠ [] ∧ (length formats ≤ 10)%nat ∧
    ∀ f, f ∈ formats → ∃ w h, f = size_format w h ∧ (w, h) ∈ sizes ∧
      w ≤ (max_size banner).1 ∧ h ≤ (max_size banner).2.

(** A device that asks for interstitial sizes, and a request with one banner. *)
Definition sample_device (wperc hperc : Z) : Device :=
  set_dev_ext (Some (VObject [("prebid", VObject [("interstitial", VObject [
    ("minheightperc", VNumber (PosInt hperc)); ("minwidthperc", VNumber (PosInt wperc))])])]))
    default_dev.
Definition sample_interstitial (wperc hperc w h : Z) : BidRequest :=
  set_req_device (Some (sample_device wperc hperc)) (set_req_imp [
    set_imp_instl (Some 1) (set_imp_banner
      (Some (set_ban_format (Some [size_format w h]) default_ban)) default_imp)] default_req).
Definition formats_of (req : BidRequest) : list (list Format) :=
  omap (λ imp, imp_banner imp ≫= ban_format) (req_imp req).

(** ** Proofs *)

Lemma gen_formats_acc mw Mw mh Mh sizes acc : (length acc < 10)%nat →
  gen_formats mw Mw mh Mh acc sizes =
    acc ++ ((λ '(w, h), size_format w h) <$> take (10 - length acc)
      (List.filter (λ '(w, h), size_fits mw Mw mh Mh w h) sizes)).
Proof.
  revert acc. induction sizes as [|[w h] sizes IH]; intros acc Hacc.
  { cbn [gen_formats List.filter]. by rewrite take_nil, app_nil_r. }
  cbn [gen_formats List.filter].
  destruct (size_fits mw Mw mh Mh w h); [|by apply IH].
  unfold zlen. rewrite length_app. cbn [length].
  destruct (Z.leb_spec 10 (Z.of_nat (length acc + 1))).
  - replace (10 - length acc)%nat with 1%nat by lia. cbn. by rewrite take_0.
  - rewrite IH by (rewrite length_app; cbn; lia). rewrite length_app, <-app_assoc. cbn [length].
    by replace (10 - length acc)%nat with (S (10 - (length acc + 1))) by lia.
Qed.
(** The loop yields the first ten sizes that fit. *)
Lemma gen_formats_spec mw Mw mh Mh sizes :
  gen_formats mw Mw mh Mh [] sizes = fitting_formats mw Mw mh Mh sizes.
Proof. by rewrite gen_formats_acc by (cbn; lia). Qed.
Lemma fitting_formats_elem mw Mw mh Mh sizes f : f ∈ fitting_formats mw Mw mh Mh sizes →
  ∃ w h, f = size_format w h ∧ (w, h) ∈ sizes ∧ mw ≤ w ≤ Mw ∧ mh ≤ h ≤ Mh.
Proof.
  intros ([w h] & -> & Hin)%list_elem_of_fmap. apply elem_of_take in Hin as (i & Hi & _).
  apply list_elem_of_lookup_2, list_elem_of_In, filter_In in Hi as [Hin Hf].
  exists w, h. split; [done|]. split; [by apply list_elem_of_In|]. unfold size_fits in Hf. lia.
Qed.
Lemma fitting_formats_length mw Mw mh Mh sizes :
  (length (fitting_formats mw Mw mh Mh sizes) ≤ 10)%nat.
Proof. unfold fitting_formats. rewrite length_fmap, length_take. lia. Qed.
Lemma fitting_expanded mw Mw mh Mh sizes max_size imp banner :
  imp_instl imp = Some 1 → imp_banner imp = Some banner → max_size banner = (Mw, Mh) →
  fitting_formats mw Mw mh Mh sizes ≠ [] →
  expanded sizes max_size imp (set_imp_banner
    (Some (set_ban_format (Some (fitting_formats mw Mw mh Mh sizes)) banner)) imp).
Proof.
  intros Hi Hb Hm Hne. exists banner, (fitting_formats mw Mw mh Mh sizes). repeat split; try done.
  - apply fitting_formats_length.
  - intros f (w & h & -> & ? & ? & ?)%fitting_formats_elem. exists w, h. rewrite Hm. cbn. naive_solver lia.
Qed.

(** What the endpoints do to an impression. *)
Lemma ep_expand_imp_spec pw ph dw dh imp :
  ep_expand_imp pw ph dw dh imp = imp ∨
  expanded INTERSTITIAL_SIZES (ep_max_size dw dh) imp (ep_expand_imp pw ph dw dh imp).
Proof.
  unfold ep_expand_imp. case_bool_decide as Hi; cbn [negb]; [|by left].
  destruct (imp_banner imp) as [banner|] eqn:Hb; [|by left].
  destruct (ep_max_size dw dh banner) as [Mw Mh] eqn:Hm.
  destruct (_ || _); [by left|]. rewrite gen_formats_spec.
  destruct (fitting_formats _ _ _ _ _) as [|f l] eqn:Hf; [by left|right].
  rewrite <-Hf. apply fitting_expanded; [done..|]. by rewrite Hf.
Qed.

(** The endpoints change nothing but the formats of interstitial banners, to
    sizes of the table no larger than the first format (or the device), and
    nothing at all without positive percentages in the device's extension. *)
Lemma ep_interstitials_spec req :
  set_req_imp (req_imp req) (ep_process_interstitials req) = req ∧
  Forall2 (λ imp imp', imp' = imp ∨ expanded INTERSTITIAL_SIZES
      (ep_max_size (default 0 (req_device req ≫= dev_w)) (default 0 (req_device req ≫= dev_h))) imp imp')
    (req_imp req) (req_imp (ep_process_interstitials req)) ∧
  (json_path ["prebid"; "interstitial"] (req_device req ≫= dev_ext) = None →
   ep_process_interstitials req = req).
Proof.
  assert (Hid : set_req_imp (req_imp req) req = req) by by destruct req.
  assert (Hsame : Forall2 (λ imp imp', imp' = imp ∨ expanded INTERSTITIAL_SIZES
      (ep_max_size (default 0 (req_device req ≫= dev_w)) (default 0 (req_device req ≫= dev_h))) imp imp')
    (req_imp req) (req_imp req)).
  { apply Forall2_same_length_lookup_2; [done|]. intros i x y -> [= ->]. by left. }
  unfold ep_process_interstitials. destruct (json_path _ _) as [v|]; [|done].
  destruct (_ || _); [done|]. split; [done|]. split; [|done].
  cbn [req_imp set_req_imp]. apply Forall2_fmap_r.
  eapply Forall2_impl; [apply Forall2_same_length_lookup_2; [done|]|].
  - intros i x y Hx Hy. assert (y = x) as -> by congruence. exact (eq_refl x).
  - cbn. intros imp _ <-. apply ep_expand_imp_spec.
Qed.

(** The exchange's processing fails on an interstitial banner that no size fits;
    the impressions before it stay expanded, those after it untouched. *)
Lemma process_imps_spec config device imps r imps' :
  process_imps config device imps = (r, imps') →
  ∃ n, take n imps' = (λ imp, if bool_decide (imp_instl imp = Some 1)
         then (process_interstitials_for_imp config device imp).2 else imp) <$> take n imps ∧
       drop n imps' = drop n imps ∧
       match r with
       | Ok _ => n = length imps
       | Err e => ∃ imp, imps !! n = Some imp ∧ imp_instl imp = Some 1 ∧
           (process_interstitials_for_imp config device imp).1 = Err e
       | Panic => False
       end.
Proof.
  assert (Hp : ∀ imp r imp', process_interstitials_for_imp config device imp = (r, imp') →
    match r with Ok _ => True | Err _ => imp' = imp | Panic => False end).
  { intros imp ? ?. unfold process_interstitials_for_imp.
    destruct (imp_banner imp) as [b|]; [|by intros [= <- <-]].
    destruct (first_format_size b) as [w h].
    destruct (_ && _); [destruct device as [d|]; [|by intros [= <- <-]]|];
      destruct (gen_interstitial_format _ _ _ _); by intros [= <- <-]. }
  revert r imps'. induction imps as [|imp imps IH]; intros r imps'; cbn [process_imps].
  { intros [= <- <-]. by exists 0%nat. }
  case_bool_decide as Hi.
  - destruct (process_interstitials_for_imp config device imp) as [[[]|e|] imp'] eqn:Hf.
    + destruct (process_imps config device imps) as [r1 l1] eqn:Hr. intros [= <- <-].
      destruct (IH _ _ eq_refl) as (n & Ht & Hd & Hr1). exists (S n). cbn.
      rewrite bool_decide_true by done. rewrite Hf, Ht. split; [done|]. split; [done|].
      by destruct r1; cbn; [f_equal| |].
    + intros [= <- <-]. apply Hp in Hf as Heq. subst imp'. exists 0%nat. split; [done|]. split; [done|].
      exists imp. by rewrite Hf.
    + by apply Hp in Hf.
  - destruct (process_imps config device imps) as [r1 l1] eqn:Hr. intros [= <- <-].
    destruct (IH _ _ eq_refl) as (n & Ht & Hd & Hr1). exists (S n). cbn.
    rewrite bool_decide_false by done. rewrite Ht. split; [done|]. split; [done|].
    by destruct r1; cbn; [f_equal| |].
Qed.

(** ** Findings *)

(** The endpoints' table is not the exchange's: where one size fits in the former,
    nine do in the latter. *)
Lemma interstitial_tables_disagree :
  let req := sample_interstitial 80 80 980 300 in
  formats_of (ep_process_interstitials req) = [[size_format 970 250]] ∧
  is_Ok (process_interstitials req).1 = true ∧
  head (formats_of (process_interstitials req).2) = Some ((λ '(w, h), size_format w h) <$>
    [(970, 250); (980, 240); (980, 300); (800, 250); (970, 300); (950, 300); (940, 300); (980, 250);
     (900, 250)]).
Proof. by vm_compute. Qed.
(** The endpoints cut percentages to 32 bits: 2^32 + 1 percent is one percent. *)
Lemma percentage_wraps :
  formats_of (ep_process_interstitials (sample_interstitial (2 ^ 32 + 1) (2 ^ 32 + 1) 320 50)) =
  formats_of (ep_process_interstitials (sample_interstitial 1 1 320 50)).
Proof. by vm_compute. Qed.
