(* ===== verification/Validation.v ===== *)
(** * Request validation

    exchange/src/validation.rs: the check every auction starts with, the deep
    validation of the media types, and the reading of an impression's bidder
    parameters.  Two parameters: whether a text is JSON
    ([serde_json::from_str]) and how Rust prints an [f64] with [{}]. *)

From S2P Require Import Prelude Json OpenRtb.

Inductive ValidationError : Type :=
| MissingField (field : string)
| InvalidValue (field reason : string)
| TooManyImps (n : Z)
| NoImps
| BothSiteAndApp
| InvalidImp (index : Z) (reason : string)
| NoBidders.
#[export] Instance ValidationError_eq_dec : EqDecision ValidationError.
Proof. solve_decision. Defined.

Definition validation_error_to_string (e : ValidationError) : string :=
  match e with
  | MissingField field => "request missing required field: " +:+ field
  | InvalidValue field reason => "invalid value for " +:+ field +:+ ": " +:+ reason
  | TooManyImps n => "request.imp is too large: " +:+ pretty n +:+ " > 500"
  | NoImps => "request.imp must contain at least one element"
  | BothSiteAndApp => "request.site and request.app are mutually exclusive"
  | InvalidImp index reason => "request.imp[" +:+ pretty index +:+ "]: " +:+ reason
  | NoBidders => "request.imp[x].ext must have at least one bidder"
  end.

(** [if c { errors.push(e) }] *)
Definition push_if (c : bool) (e : ValidationError) : list ValidationError :=
  if c then [e] else [].
Definition is_some {A} (x : option A) : bool := match x with Some _ => true | None => false end.
(** [o.as_ref().map(|l| !l.is_empty()).unwrap_or(false)] *)
Definition non_empty_list {A} (o : option (list A)) : bool :=
  match o with Some (_ :: _) => true | _ => false end.

Definition no_media (imp : Imp) : bool :=
  negb (is_some (imp_banner imp)) && negb (is_some (imp_video imp)) &&
  negb (is_some (imp_native imp)) && negb (is_some (imp_audio imp)).

(** A dimension that must be positive. *)
Definition check_positive (index : Z) (name : string) (v : option Z) : list ValidationError :=
  match v with
  | Some w => push_if (w <=? 0) (InvalidImp index (name +:+ " must be positive, got " +:+ pretty w))
  | None => []
  end.
(** [min <= max], when both are given. *)
Definition check_durations (index : Z) (medium : string) (min max : option Z)
    : list ValidationError :=
  match min, max with
  | Some min_d, Some max_d =>
      push_if (max_d <? min_d)
        (InvalidImp index (medium +:+ ".minduration (" +:+ pretty min_d +:+ ") > " +:+
           medium +:+ ".maxduration (" +:+ pretty max_d +:+ ")"))
  | _, _ => []
  end.

Definition validate_banner (banner : Banner) (imp_index : Z) : list ValidationError :=
  let has_formats := non_empty_list (ban_format banner) in
  let has_wh := is_some (ban_w banner) && is_some (ban_h banner) in
  push_if (negb has_formats && negb has_wh)
    (InvalidImp imp_index "banner must have at least one format element or w/h") ++
  concat (imap (λ fi fmt,
    check_positive imp_index ("banner.format[" +:+ pretty (Z.of_nat fi) +:+ "].w") (fmt_w fmt) ++
    check_positive imp_index ("banner.format[" +:+ pretty (Z.of_nat fi) +:+ "].h") (fmt_h fmt))
    (default [] (ban_format banner))) ++
  check_positive imp_index "banner.w" (ban_w banner) ++
  check_positive imp_index "banner.h" (ban_h banner).

Definition validate_video (video : Video) (imp_index : Z) : list ValidationError :=
  push_if (negb (non_empty_list (vid_mimes video)))
    (InvalidImp imp_index "video.mimes must contain at least one MIME type") ++
  push_if (negb (non_empty_list (vid_protocols video)) &&
           negb (is_some (vid_w video) && is_some (vid_h video)))
    (InvalidImp imp_index "video must have protocols or w/h") ++
  check_durations imp_index "video" (vid_minduration video) (vid_maxduration video).

Definition validate_audio (audio : Audio) (imp_index : Z) : list ValidationError :=
  push_if (negb (non_empty_list (aud_mimes audio)))
    (InvalidImp imp_index "audio.mimes must contain at least one MIME type") ++
  check_durations imp_index "audio" (aud_minduration audio) (aud_maxduration audio).

Section Parsers.
Context (is_json : string → bool) (display_f64 : f64 → string).

Definition imp_errors (i : nat) (imp : Imp) : list ValidationError :=
  let index := Z.of_nat i in
  push_if (str_is_empty (imp_id imp)) (InvalidImp index "imp.id is required") ++
  push_if (no_media imp)
    (InvalidImp index "imp must have at least one of banner/video/native/audio") ++
  match imp_bidfloor imp with
  | Some f => push_if (f64_ltb f f64_zero)
                (InvalidImp index ("bidfloor must be non-negative, got " +:+ display_f64 f))
  | None => []
  end.

Definition validate_request (req : BidRequest) : list ValidationError :=
  match req_imp req with
  | [] => [NoImps]
  | imps =>
      push_if (500 <? zlen imps) (TooManyImps (zlen imps)) ++
      push_if (is_some (req_site req) && is_some (req_app req)) BothSiteAndApp ++
      match req_tmax req with
      | Some tmax => push_if (tmax <? 0)
          (InvalidValue "request.tmax" ("must be non-negative, got " +:+ pretty tmax))
      | None => []
      end ++
      concat (imap imp_errors imps)
  end.
Definition has_fatal_errors (errors : list ValidationError) : bool :=
  existsb (λ e, bool_decide (e = NoImps) || bool_decide (e = BothSiteAndApp)) errors.

Definition sanitize_request (req : BidRequest) : BidRequest :=
  match req_ext req with
  | Some (VObject obj) =>
      match obj_get "prebid" obj with
      | Some (VObject prebid) =>
          let prebid := obj_remove "server" (obj_remove "storedbidresponse"
                          (obj_remove "storedauctionresponse" prebid)) in
          set_req_ext (Some (VObject (obj_insert "prebid" (VObject prebid) obj))) req
      | _ => req
      end
  | _ => req
  end.

Definition validate_native (native : Native) (imp_index : Z) : list ValidationError :=
  let request := default "" (ntv_request native) in
  if str_is_empty request
  then [InvalidImp imp_index "native.request must be a non-empty JSON string"]
  else push_if (negb (is_json request)) (InvalidImp imp_index "native.request must be valid JSON").

Definition reserved_ext_keys : list string :=
  ["prebid"; "context"; "data"; "gpid"; "tid"; "skadn"; "ae"].
Definition extract_top_level_bidders (obj : list (string * Value)) : list (string * Value) :=
  fold_left (λ bidders e,
    if negb (bool_decide (e.1 ∈ reserved_ext_keys)) && is_object e.2
    then obj_insert e.1 e.2 bidders else bidders) obj [].
(** The bidder parameters of an impression, from imp.ext.prebid.bidder, from
    imp.ext.bidder or from the keys of imp.ext. *)
Definition validate_bidder_ext (imp : Imp) (imp_index : Z)
    : outcome (list ValidationError) (gmap string Value) :=
  match imp_ext imp with
  | None => Err [InvalidImp imp_index "imp.ext is required"]
  | Some ext =>
      match as_object ext with
      | None => Err [InvalidImp imp_index "imp.ext must be a JSON object"]
      | Some obj =>
          let bidder_map :=
            match obj_get "prebid" obj ≫= as_object with
            | Some prebid =>
                match obj_get "bidder" prebid ≫= as_object with
                | Some bidder => bidder
                | None => extract_top_level_bidders obj
                end
            | None =>
                match obj_get "bidder" obj ≫= as_object with
                | Some bidder => bidder
                | None => extract_top_level_bidders obj
                end
            end in
          match bidder_map with
          | [] => Err [NoBidders]
          | _ => Ok (list_to_map bidder_map)
          end
      end
  end.

Definition media_errors (i : nat) (imp : Imp) : list ValidationError :=
  let index := Z.of_nat i in
  match imp_banner imp with Some banner => validate_banner banner index | None => [] end ++
  match imp_video imp with Some video => validate_video video index | None => [] end ++
  match imp_audio imp with Some audio => validate_audio audio index | None => [] end ++
  match imp_native imp with Some native => validate_native native index | None => [] end.
Definition validate_impressions_deep (req : BidRequest) : list ValidationError :=
  concat (imap media_errors (req_imp req)).
End Parsers.

(** ** Specification *)

Definition positive (v : option Z) : Prop := ∀ w, v = Some w → 0 < w.
Definition ordered (min max : option Z) : Prop := ∀ a b, min = Some a → max = Some b → a ≤ b.
Definition some_of {A} (o : option (list A)) : Prop := ∃ x l, o = Some (x :: l).
(** What deep validation asks of the media of an impression. *)
Definition banner_ok (b : Banner) : Prop :=
  (some_of (ban_format b) ∨ is_Some (ban_w b) ∧ is_Some (ban_h b)) ∧
  (∀ fmt, fmt ∈ default [] (ban_format b) → positive (fmt_w fmt) ∧ positive (fmt_h fmt)) ∧
  positive (ban_w b) ∧ positive (ban_h b).
Definition video_ok (v : Video) : Prop :=
  some_of (vid_mimes v) ∧
  (some_of (vid_protocols v) ∨ is_Some (vid_w v) ∧ is_Some (vid_h v)) ∧
  ordered (vid_minduration v) (vid_maxduration v).
Definition audio_ok (a : Audio) : Prop :=
  some_of (aud_mimes a) ∧ ordered (aud_minduration a) (aud_maxduration a).
Definition native_ok (is_json : string → bool) (n : Native) : Prop :=
  ∃ request, ntv_request n = Some request ∧ request ≠ "" ∧ is_json request = true.
Definition media_ok (is_json : string → bool) (imp : Imp) : Prop :=
  (∀ b, imp_banner imp = Some b → banner_ok b) ∧ (∀ v, imp_video imp = Some v → video_ok v) ∧
  (∀ a, imp_audio imp = Some a → audio_ok a) ∧
  (∀ n, imp_native imp = Some n → native_ok is_json n).
(** What a request is refused for. *)
Definition refused (req : BidRequest) : Prop :=
  req_imp req = [] ∨ is_Some (req_site req) ∧ is_Some (req_app req).
(** What is only reported. *)
Definition reported (req : BidRequest) : Prop :=
  500 < zlen (req_imp req) ∨ (∃ t, req_tmax req = Some t ∧ t < 0) ∨
  ∃ imp, imp ∈ req_imp req ∧
    (imp_id imp = "" ∨ no_media imp = true ∨
     ∃ f, imp_bidfloor imp = Some f ∧ f64_ltb f f64_zero = true).

(** ** Proofs *)

Lemma push_if_nil c e : push_if c e = [] ↔ c = false.
Proof. by destruct c. Qed.
Lemma app_nil_iff {A} (l k : list A) : l ++ k = [] ↔ l = [] ∧ k = [].
Proof. split; [apply app_eq_nil|by intros [-> ->]]. Qed.
Lemma concat_nil_iff {A} (ls : list (list A)) : concat ls = [] ↔ ∀ l, l ∈ ls → l = [].
Proof. rewrite concat_nil_Forall. apply Forall_forall. Qed.
Lemma concat_imap_nil {A B} (f : nat → A → list B) l :
  concat (imap f l) = [] ↔ ∀ i x, l !! i = Some x → f i x = [].
Proof.
  rewrite concat_nil_iff. split.
  - intros H i x Hx. apply H. apply elem_of_lookup_imap. eauto.
  - intros H k (i&x&->&Hx)%elem_of_lookup_imap. by apply H.
Qed.
Lemma is_some_iff {A} (o : option A) : is_some o = true ↔ is_Some o.
Proof. destruct o; split; [eauto|done|done|by intros []]. Qed.
Lemma non_empty_iff {A} (o : option (list A)) : non_empty_list o = true ↔ some_of o.
Proof.
  unfold some_of. destruct o as [[|x l]|]; split; try done; try (by intros (?&?&?)); eauto.
Qed.
Lemma check_positive_nil i n v : check_positive i n v = [] ↔ positive v.
Proof.
  unfold check_positive, positive. destruct v as [w|]; [|by split].
  rewrite push_if_nil, Z.leb_gt. split; [by intros ? ? [= <-]|auto].
Qed.
Lemma check_durations_nil i n a b : check_durations i n a b = [] ↔ ordered a b.
Proof.
  unfold check_durations, ordered. destruct a as [a|], b as [b|]; try (by split).
  rewrite push_if_nil, Z.ltb_ge. split; [by intros ? ? ? [= <-] [= <-]|auto].
Qed.
Lemma or_false_iff (a b : bool) (P Q : Prop) : (a = true ↔ P) → (b = true ↔ Q) →
  negb a && negb b = false ↔ P ∨ Q.
Proof. intros <- <-. destruct a, b; naive_solver. Qed.
Lemma both_iff {A B} (a : option A) (b : option B) :
  is_some a && is_some b = true ↔ is_Some a ∧ is_Some b.
Proof. by rewrite andb_true_iff, !is_some_iff. Qed.

Lemma validate_banner_nil b i : validate_banner b i = [] ↔ banner_ok b.
Proof.
  unfold validate_banner, banner_ok. rewrite !app_nil_iff, push_if_nil, !check_positive_nil.
  rewrite (or_false_iff _ _ _ _ (non_empty_iff _) (both_iff _ _)), concat_imap_nil.
  assert (Hf : (∀ j fmt, default [] (ban_format b) !! j = Some fmt →
     check_positive i ("banner.format[" +:+ pretty (Z.of_nat j) +:+ "].w") (fmt_w fmt) ++
     check_positive i ("banner.format[" +:+ pretty (Z.of_nat j) +:+ "].h") (fmt_h fmt) = []) ↔
     ∀ fmt, fmt ∈ default [] (ban_format b) → positive (fmt_w fmt) ∧ positive (fmt_h fmt)).
  { split.
    - intros H fmt [j Hj]%list_elem_of_lookup. specialize (H j fmt Hj).
      by rewrite app_nil_iff, !check_positive_nil in H.
    - intros H j fmt Hj. rewrite app_nil_iff, !check_positive_nil. apply H.
      by eapply list_elem_of_lookup_2. }
  rewrite Hf. tauto.
Qed.
Lemma validate_video_nil v i : validate_video v i = [] ↔ video_ok v.
Proof.
  unfold validate_video, video_ok. rewrite !app_nil_iff, !push_if_nil, check_durations_nil.
  rewrite (or_false_iff _ _ _ _ (non_empty_iff _) (both_iff _ _)), negb_false_iff, non_empty_iff. tauto.
Qed.
Lemma validate_audio_nil a i : validate_audio a i = [] ↔ audio_ok a.
Proof.
  unfold validate_audio, audio_ok.
  by rewrite !app_nil_iff, push_if_nil, check_durations_nil, negb_false_iff, non_empty_iff.
Qed.
Lemma validate_native_nil is_json n i : validate_native is_json n i = [] ↔ native_ok is_json n.
Proof.
  unfold validate_native, native_ok, str_is_empty. destruct (ntv_request n) as [r|]; simpl.
  - case_bool_decide as Hr; [split; [done|naive_solver]|].
    rewrite push_if_nil, negb_false_iff. naive_solver.
  - split; [done|naive_solver].
Qed.

Lemma opt_nil_iff {A B} (o : option A) (f : A → list B) (P : A → Prop) :
  (∀ x, f x = [] ↔ P x) →
  match o with Some x => f x | None => [] end = [] ↔ ∀ x, o = Some x → P x.
Proof. intros H. destruct o as [x|]; [rewrite H|]; naive_solver. Qed.

Lemma has_fatal_iff display_f64 req :
  has_fatal_errors (validate_request display_f64 req) = true ↔ refused req.
Proof.
  unfold has_fatal_errors, refused. rewrite existsb_exists. unfold validate_request.
  destruct (req_imp req) as [|imp imps] eqn:Himp.
  { split; [by left|]. intros _. exists NoImps. by split; [left|]. }
  split.
  - intros (e&He&Hf). rewrite <-list_elem_of_In, !elem_of_app in He.
    apply orb_true_iff in Hf. rewrite !bool_decide_eq_true in Hf. right. rewrite <-both_iff.
    destruct He as [He|[He|[He|He]]].
    + unfold push_if in He. destruct (500 <? _); set_solver.
    + unfold push_if in He. by destruct (_ && _); [|set_solver].
    + destruct (req_tmax req) as [t|]; [|set_solver]. unfold push_if in He. destruct (t <? 0); set_solver.
    + apply list_elem_of_In, in_concat in He as (l&(i&x&->&_)%list_elem_of_In%elem_of_lookup_imap&He%list_elem_of_In).
      exfalso.
      unfold imp_errors in He. rewrite !elem_of_app in He. unfold push_if in He.
      destruct He as [He|[He|He]]; [|..|destruct (imp_bidfloor x)];
        repeat case_match; set_solver.
  - intros [|Hb%both_iff]; [done|]. exists BothSiteAndApp. rewrite Hb. split; [|done].
    rewrite <-list_elem_of_In, !elem_of_app. right. left. simpl. by left.
Qed.
Lemma reported_iff display_f64 req :
  validate_request display_f64 req = [] ↔ ¬ refused req ∧ ¬ reported req.
Proof.
  unfold validate_request, refused, reported. destruct (req_imp req) as [|imp imps] eqn:Himp; [naive_solver|].
  rewrite !app_nil_iff, !push_if_nil, Z.ltb_ge, concat_imap_nil, <-not_true_iff_false, both_iff.
  rewrite (opt_nil_iff _ _ (λ t, 0 ≤ t)) by (intros t; rewrite push_if_nil; lia).
  assert (Himps : (∀ i x, (imp :: imps) !! i = Some x → imp_errors display_f64 i x = []) ↔
    ∀ x, x ∈ imp :: imps → imp_id x ≠ "" ∧ no_media x = false ∧
      ∀ f, imp_bidfloor x = Some f → f64_ltb f f64_zero = false).
  { assert (He : ∀ i x, imp_errors display_f64 i x = [] ↔ imp_id x ≠ "" ∧ no_media x = false ∧
      ∀ f, imp_bidfloor x = Some f → f64_ltb f f64_zero = false).
    { intros i x. unfold imp_errors, str_is_empty. rewrite !app_nil_iff, !push_if_nil, bool_decide_eq_false.
      by rewrite (opt_nil_iff _ _ (λ f, f64_ltb f f64_zero = false)) by (intros f; apply push_if_nil). }
    split.
    - intros H x [i Hi]%list_elem_of_lookup. by apply (He i), H.
    - intros H i x Hx. apply He, H. by eapply list_elem_of_lookup_2. }
  rewrite Himps. split.
  - intros (Hn&Hb&Ht&Hi). split; [naive_solver|]. intros [?|[(t&Ht'&?)|(x&Hx&H)]]; [lia|specialize (Ht t Ht'); lia|].
    destruct (Hi x Hx) as (H1&H2&H3). destruct H as [?|[?|(f&Hf&H)]]; [done|congruence|].
    rewrite (H3 f Hf) in H. done.
  - intros [Hr Hp]. split_and!.
    + apply Z.nlt_ge. naive_solver.
    + naive_solver.
    + intros t Ht. apply Z.nlt_ge. naive_solver.
    + intros x Hx. split_and!; [naive_solver|apply not_true_iff_false; naive_solver|].
      intros f Hf. apply not_true_iff_false. naive_solver.
Qed.

(** What validation refuses.  A request is refused exactly when it has no
    impression or both a site and an app; nothing at all is reported exactly
    when moreover it has at most 500 impressions, no negative tmax, and every
    impression has an id, a medium and no negative floor.  Deep validation
    reports nothing exactly when every medium present is well formed: sizes
    given and positive, MIME types, protocols or size for video, ordered
    durations, a native request that is JSON. *)
Theorem validation_spec is_json display_f64 req :
  (has_fatal_errors (validate_request display_f64 req) = true ↔ refused req) ∧
  (validate_request display_f64 req = [] ↔ ¬ refused req ∧ ¬ reported req) ∧
  (validate_impressions_deep is_json req = [] ↔
     ∀ imp, imp ∈ req_imp req → media_ok is_json imp).
Proof.
  split; [apply has_fatal_iff|]. split; [apply reported_iff|].
  unfold validate_impressions_deep. rewrite concat_imap_nil.
  assert (He : ∀ i imp, media_errors is_json i imp = [] ↔ media_ok is_json imp); [|split].
  { intros i imp. unfold media_ok, media_errors.
    rewrite <-(opt_nil_iff _ _ _ (λ b, validate_banner_nil b (Z.of_nat i))),
      <-(opt_nil_iff _ _ _ (λ v, validate_video_nil v (Z.of_nat i))),
      <-(opt_nil_iff _ _ _ (λ a, validate_audio_nil a (Z.of_nat i))),
      <-(opt_nil_iff _ _ _ (λ n, validate_native_nil is_json n (Z.of_nat i))), <-!app_nil_iff.
    reflexivity. }
  - intros H imp [i Hi]%list_elem_of_lookup. by apply (He i), H.
  - intros H i imp Hi. apply He, H. by eapply list_elem_of_lookup_2.
Qed.
