(* ===== verification/ConfigData.v ===== *)
(** * Configuration data

    config/src/lib.rs: the structs of the host's, the accounts' and the bidders'
    configuration, every field, with their [Default]s and the functions serde
    calls for a field that is missing.  A field [f] is named with its struct's
    prefix; an unsigned or signed integer is a [Z], [f32] the float it denotes.
    [Cfg] marks a struct of which another file models some fields only. *)

From S2P Require Import Prelude Json.

Definition default_host : string := "0.0.0.0".
Definition default_port : Z := 8000.
Definition default_admin_port : Z := 6060.
Definition default_static_dir : string := "./static".
Definition default_max_request_size : Z := 1572864.
Definition default_stored_requests_timeout_ms : Z := 50.
Definition default_ads_cert_dns_check_interval : Z := 30.
Definition default_ads_cert_dns_renewal_interval : Z := 30.
Definition default_ads_cert_signing_timeout : Z := 5.
Definition default_host_cookie_ttl_days : Z := 90.
Definition default_vtrack_timeout : Z := 2000.
Definition default_event_timeout : Z := 1000.
Definition default_cookie_deprecation_ttl : Z := 604800.
Definition default_true : bool := true.
Definition default_prometheus_port : Z := 8080.
Definition default_prometheus_namespace : string := "prebid".
Definition default_prometheus_path : string := "/metrics".
Definition default_prometheus_timeout : Z := 10000.
Definition default_gdpr_timeout_ms : Z := 200.
Definition default_gdpr_host_vendor_list_url : string := "https://vendor-list.consensu.org/v2/vendor-list.json".
Definition default_gdpr_default_value : string := "1".
Definition default_auction_timeout_default : Z := 1000.
Definition default_auction_timeout_max : Z := 5000.
Definition default_currency_fetch_url : string := "https://cdn.jsdelivr.net/gh/prebid/currency-file@1/latest.json".
Definition default_currency_fetch_interval_seconds : Z := 1800.

Record AdapterConfig : Type := {
  adp_endpoint : string; adp_extra_info : option string; adp_enabled : bool; adp_timeout_ms : option Z }.
Definition default_AdapterConfig : AdapterConfig := {|
  adp_endpoint := ""; adp_extra_info := None; adp_enabled := false; adp_timeout_ms := None |}.

Record VastEventConfig : Type := {
  vec_create_element : string; vec_event_type : string; vec_exclude_default_url : bool; vec_urls : list string }.
Definition default_VastEventConfig : VastEventConfig := {|
  vec_create_element := ""; vec_event_type := ""; vec_exclude_default_url := false; vec_urls := [] |}.

Record AccountEventsConfig : Type := {
  aec_enabled : bool; aec_default_url : string; aec_vast_events : list VastEventConfig }.
Definition default_AccountEventsConfig : AccountEventsConfig := {|
  aec_enabled := false; aec_default_url := ""; aec_vast_events := [] |}.

Record ChannelEnabledConfig : Type := {
  chan_amp : option bool; chan_app : option bool; chan_video : option bool; chan_web : option bool;
  chan_dooh : option bool }.
Definition default_ChannelEnabledConfig : ChannelEnabledConfig := {|
  chan_amp := None; chan_app := None; chan_video := None; chan_web := None; chan_dooh := None |}.

Record AccountGdprPurposeConfig : Type := {
  agp_enforce_algo : string; agp_enforce_purpose : bool; agp_enforce_vendors : bool;
  agp_vendor_exceptions : list string }.
Definition default_AccountGdprPurposeConfig : AccountGdprPurposeConfig := {|
  agp_enforce_algo := ""; agp_enforce_purpose := false; agp_enforce_vendors := false;
  agp_vendor_exceptions := [] |}.

Record AccountGdprConfig : Type := {
  agdpr_enabled : option bool; agdpr_channel_enabled : ChannelEnabledConfig;
  agdpr_purpose1 : AccountGdprPurposeConfig; agdpr_purpose2 : AccountGdprPurposeConfig;
  agdpr_purpose3 : AccountGdprPurposeConfig; agdpr_purpose4 : AccountGdprPurposeConfig;
  agdpr_purpose5 : AccountGdprPurposeConfig; agdpr_purpose6 : AccountGdprPurposeConfig;
  agdpr_purpose7 : AccountGdprPurposeConfig; agdpr_purpose8 : AccountGdprPurposeConfig;
  agdpr_purpose9 : AccountGdprPurposeConfig; agdpr_purpose10 : AccountGdprPurposeConfig }.
Definition default_AccountGdprConfig : AccountGdprConfig := {|
  agdpr_enabled := None; agdpr_channel_enabled := default_ChannelEnabledConfig;
  agdpr_purpose1 := default_AccountGdprPurposeConfig; agdpr_purpose2 := default_AccountGdprPurposeConfig;
  agdpr_purpose3 := default_AccountGdprPurposeConfig; agdpr_purpose4 := default_AccountGdprPurposeConfig;
  agdpr_purpose5 := default_AccountGdprPurposeConfig; agdpr_purpose6 := default_AccountGdprPurposeConfig;
  agdpr_purpose7 := default_AccountGdprPurposeConfig; agdpr_purpose8 := default_AccountGdprPurposeConfig;
  agdpr_purpose9 := default_AccountGdprPurposeConfig; agdpr_purpose10 := default_AccountGdprPurposeConfig |}.

Record AccountCcpaConfig : Type := {
  accpa_enabled : option bool; accpa_channel_enabled : ChannelEnabledConfig }.
Definition default_AccountCcpaConfig : AccountCcpaConfig := {|
  accpa_enabled := None; accpa_channel_enabled := default_ChannelEnabledConfig |}.

Record AccountCoppaConfig : Type := { acoppa_enabled : bool }.
Definition default_AccountCoppaConfig : AccountCoppaConfig := {| acoppa_enabled := false |}.

Record AccountLmtConfig : Type := { almt_enforce : bool }.
Definition default_AccountLmtConfig : AccountLmtConfig := {| almt_enforce := false |}.

Record IpAnonymisationConfig : Type := { iac_anon_keep_bits : Z }.
Definition default_IpAnonymisationConfig : IpAnonymisationConfig := {| iac_anon_keep_bits := 0 |}.

Record AccountDsaConfig : Type := { adc_default : string; adc_gdpr_only : bool }.
Definition default_AccountDsaConfig : AccountDsaConfig := {| adc_default := ""; adc_gdpr_only := false |}.

Record ActivityConditionConfig : Type := { acc_component_name : list string; acc_component_type : list string }.
Definition default_ActivityConditionConfig : ActivityConditionConfig := {|
  acc_component_name := []; acc_component_type := [] |}.

Record ActivityRuleConfig : Type := { arc_condition : ActivityConditionConfig; arc_allow : bool }.
Definition default_ActivityRuleConfig : ActivityRuleConfig := {|
  arc_condition := default_ActivityConditionConfig; arc_allow := false |}.

Record CfgActivityConfig : Type := { actv_default : option bool; actv_rules : list ActivityRuleConfig }.
Definition default_CfgActivityConfig : CfgActivityConfig := {| actv_default := None; actv_rules := [] |}.

Record AllowActivitiesConfig : Type := {
  aac_sync_user : CfgActivityConfig; aac_fetch_bids : CfgActivityConfig; aac_enrich_ufpd : CfgActivityConfig;
  aac_report_analytics : CfgActivityConfig; aac_transmit_ufpd : CfgActivityConfig;
  aac_transmit_precise_geo : CfgActivityConfig; aac_transmit_unique_request_ids : CfgActivityConfig;
  aac_transmit_tids : CfgActivityConfig }.
Definition default_AllowActivitiesConfig : AllowActivitiesConfig := {|
  aac_sync_user := default_CfgActivityConfig; aac_fetch_bids := default_CfgActivityConfig;
  aac_enrich_ufpd := default_CfgActivityConfig; aac_report_analytics := default_CfgActivityConfig;
  aac_transmit_ufpd := default_CfgActivityConfig; aac_transmit_precise_geo := default_CfgActivityConfig;
  aac_transmit_unique_request_ids := default_CfgActivityConfig; aac_transmit_tids := default_CfgActivityConfig |}.

Record CookieDeprecationConfig : Type := { cdc_enabled : bool; cdc_ttl_sec : Z }.
Definition default_CookieDeprecationConfig : CookieDeprecationConfig := {|
  cdc_enabled := false; cdc_ttl_sec := 0 |}.

Record PrivacySandboxConfig : Type := {
  psc_topicsdomain : string; psc_cookiedeprecation : CookieDeprecationConfig }.
Definition default_PrivacySandboxConfig : PrivacySandboxConfig := {|
  psc_topicsdomain := ""; psc_cookiedeprecation := default_CookieDeprecationConfig |}.

Record AccountPrivacyConfig : Type := {
  apc_gdpr : AccountGdprConfig; apc_ccpa : AccountCcpaConfig; apc_coppa : AccountCoppaConfig;
  apc_lmt : AccountLmtConfig; apc_ipv4 : IpAnonymisationConfig; apc_ipv6 : IpAnonymisationConfig;
  apc_dsa : option AccountDsaConfig; apc_allowactivities : option AllowActivitiesConfig;
  apc_privacysandbox : PrivacySandboxConfig }.
Definition default_AccountPrivacyConfig : AccountPrivacyConfig := {|
  apc_gdpr := default_AccountGdprConfig; apc_ccpa := default_AccountCcpaConfig;
  apc_coppa := default_AccountCoppaConfig; apc_lmt := default_AccountLmtConfig;
  apc_ipv4 := default_IpAnonymisationConfig; apc_ipv6 := default_IpAnonymisationConfig; apc_dsa := None;
  apc_allowactivities := None; apc_privacysandbox := default_PrivacySandboxConfig |}.

Record AccountFloorFetchConfig : Type := {
  aff_enabled : bool; aff_url : string; aff_timeout_ms : Z; aff_max_file_size_kb : Z; aff_max_rules : Z;
  aff_max_age_sec : Z; aff_period_sec : Z; aff_max_schema_dims : Z }.
Definition default_AccountFloorFetchConfig : AccountFloorFetchConfig := {|
  aff_enabled := false; aff_url := ""; aff_timeout_ms := 0; aff_max_file_size_kb := 0; aff_max_rules := 0;
  aff_max_age_sec := 0; aff_period_sec := 0; aff_max_schema_dims := 0 |}.

Record AccountPriceFloorsConfig : Type := {
  apf_enabled : bool; apf_enforce_floors_rate : Z; apf_adjust_for_bid_adjustment : bool;
  apf_enforce_deal_floors : bool; apf_use_dynamic_data : bool; apf_max_rules : Z; apf_max_schema_dims : Z;
  apf_fetch : AccountFloorFetchConfig }.
Definition default_AccountPriceFloorsConfig : AccountPriceFloorsConfig := {|
  apf_enabled := false; apf_enforce_floors_rate := 0; apf_adjust_for_bid_adjustment := false;
  apf_enforce_deal_floors := false; apf_use_dynamic_data := false; apf_max_rules := 0;
  apf_max_schema_dims := 0; apf_fetch := default_AccountFloorFetchConfig |}.

Record CfgBidAdjustmentRule : Type := { bar_adj_type : string; bar_value : f64; bar_currency : string }.
Definition default_CfgBidAdjustmentRule : CfgBidAdjustmentRule := {|
  bar_adj_type := ""; bar_value := f64_zero; bar_currency := "" |}.

Record BidAdjustmentsConfig : Type := {
  bac_media_type : gmap string (gmap string (list CfgBidAdjustmentRule)) }.
Definition default_BidAdjustmentsConfig : BidAdjustmentsConfig := {| bac_media_type := ∅ |}.

Record CacheTTL : Type := {
  cttl_banner_ttl_secs : Z; cttl_video_ttl_secs : Z; cttl_native_ttl_secs : Z; cttl_audio_ttl_secs : Z }.
Definition default_CacheTTL : CacheTTL := {|
  cttl_banner_ttl_secs := 0; cttl_video_ttl_secs := 0; cttl_native_ttl_secs := 0; cttl_audio_ttl_secs := 0 |}.

Record CfgAccountCookieSyncConfig : Type := {
  acsync_default_limit : option Z; acsync_max_limit : option Z; acsync_default_coop_sync : option bool;
  acsync_priority_groups : list (list string) }.
Definition default_CfgAccountCookieSyncConfig : CfgAccountCookieSyncConfig := {|
  acsync_default_limit := None; acsync_max_limit := None; acsync_default_coop_sync := None;
  acsync_priority_groups := [] |}.

Record HookSequenceEntry : Type := { hse_module_code : string; hse_hook_impl_code : string }.
Definition default_HookSequenceEntry : HookSequenceEntry := {|
  hse_module_code := ""; hse_hook_impl_code := "" |}.

Record HookExecutionGroup : Type := { heg_timeout : Z; heg_hook_sequence : list HookSequenceEntry }.
Definition default_HookExecutionGroup : HookExecutionGroup := {| heg_timeout := 0; heg_hook_sequence := [] |}.

Record HookStagePlan : Type := { hsp_groups : list HookExecutionGroup }.
Definition default_HookStagePlan : HookStagePlan := {| hsp_groups := [] |}.

Record HookEndpointPlan : Type := { hep_stages : gmap string HookStagePlan }.
Definition default_HookEndpointPlan : HookEndpointPlan := {| hep_stages := ∅ |}.

Record CfgHookExecutionPlan : Type := { hplan_endpoints : gmap string HookEndpointPlan }.
Definition default_CfgHookExecutionPlan : CfgHookExecutionPlan := {| hplan_endpoints := ∅ |}.

Record AccountHooksConfig : Type := {
  ahc_modules : gmap string (gmap string Value); ahc_execution_plan : CfgHookExecutionPlan }.
Definition default_AccountHooksConfig : AccountHooksConfig := {|
  ahc_modules := ∅; ahc_execution_plan := default_CfgHookExecutionPlan |}.

Record ValidationsConfig : Type := {
  valid_banner_creative_max_size : string; valid_secure_markup : string; valid_max_creative_width : Z;
  valid_max_creative_height : Z }.
Definition default_ValidationsConfig : ValidationsConfig := {|
  valid_banner_creative_max_size := ""; valid_secure_markup := ""; valid_max_creative_width := 0;
  valid_max_creative_height := 0 |}.

Record AccountConfig : Type := {
  acct_id : string; acct_disabled : bool; acct_price_granularity : option string;
  acct_default_integration : string; acct_events : AccountEventsConfig; acct_events_enabled : option bool;
  acct_privacy : AccountPrivacyConfig; acct_price_floors : AccountPriceFloorsConfig;
  acct_bid_adjustments : option BidAdjustmentsConfig; acct_auction_timeout_ms : option Z;
  acct_debug_allow : bool; acct_cache_ttl : CacheTTL; acct_cookie_sync : CfgAccountCookieSyncConfig;
  acct_truncate_target_attr : option Z; acct_hooks : AccountHooksConfig; acct_validations : ValidationsConfig;
  acct_default_bid_limit : Z; acct_bid_rounding : string; acct_targeting_prefix : option string;
  acct_modules : gmap string (gmap string Value) }.
Definition default_AccountConfig : AccountConfig := {|
  acct_id := ""; acct_disabled := false; acct_price_granularity := None; acct_default_integration := "";
  acct_events := default_AccountEventsConfig; acct_events_enabled := None;
  acct_privacy := default_AccountPrivacyConfig; acct_price_floors := default_AccountPriceFloorsConfig;
  acct_bid_adjustments := None; acct_auction_timeout_ms := None; acct_debug_allow := false;
  acct_cache_ttl := default_CacheTTL; acct_cookie_sync := default_CfgAccountCookieSyncConfig;
  acct_truncate_target_attr := None; acct_hooks := default_AccountHooksConfig;
  acct_validations := default_ValidationsConfig; acct_default_bid_limit := 0; acct_bid_rounding := "";
  acct_targeting_prefix := None; acct_modules := ∅ |}.

Record InfluxDBConfig : Type := {
  idbc_host : string; idbc_port : Z; idbc_database : string; idbc_username : string; idbc_password : string }.
Definition default_InfluxDBConfig : InfluxDBConfig := {|
  idbc_host := ""; idbc_port := 0; idbc_database := ""; idbc_username := ""; idbc_password := "" |}.

Record PrometheusConfig : Type := {
  prom_port : Z; prom_namespace : string; prom_subsystem : string; prom_path : string; prom_timeout_ms : Z }.
Definition default_PrometheusConfig : PrometheusConfig := {|
  prom_port := 0; prom_namespace := ""; prom_subsystem := ""; prom_path := ""; prom_timeout_ms := 0 |}.

Record DisabledMetricsConfig : Type := {
  dmc_account_adapter_details : bool; dmc_account_debug : bool; dmc_account_stored_responses : bool;
  dmc_adapter_connections_metrics : bool; dmc_adapter_gdpr_request_blocked : bool }.
Definition default_DisabledMetricsConfig : DisabledMetricsConfig := {|
  dmc_account_adapter_details := false; dmc_account_debug := false; dmc_account_stored_responses := false;
  dmc_adapter_connections_metrics := false; dmc_adapter_gdpr_request_blocked := false |}.

Record MetricsConfig : Type := {
  metr_influxdb : option InfluxDBConfig; metr_prometheus : option PrometheusConfig;
  metr_disabled_metrics : DisabledMetricsConfig }.
Definition default_MetricsConfig : MetricsConfig := {|
  metr_influxdb := None; metr_prometheus := None; metr_disabled_metrics := default_DisabledMetricsConfig |}.

Record CacheConfig : Type := {
  cache_scheme : string; cache_host : string; cache_port : Z; cache_path : string; cache_query : string;
  cache_expected_millis : Z; cache_default_ttl_secs : CacheTTL }.
Definition default_CacheConfig : CacheConfig := {|
  cache_scheme := ""; cache_host := ""; cache_port := 0; cache_path := ""; cache_query := "";
  cache_expected_millis := 0; cache_default_ttl_secs := default_CacheTTL |}.

Record FilesystemConfig : Type := { fc_enabled : bool; fc_directory_path : string }.
Definition default_FilesystemConfig : FilesystemConfig := {| fc_enabled := false; fc_directory_path := "" |}.

Record StoredRequestsHttpConfig : Type := { srhc_endpoint : string; srhc_amp_endpoint : string }.
Definition default_StoredRequestsHttpConfig : StoredRequestsHttpConfig := {|
  srhc_endpoint := ""; srhc_amp_endpoint := "" |}.

Record StoredRequestsDatabaseConfig : Type := {
  srdc_driver : string; srdc_connection_string : string; srdc_fetch_query : string;
  srdc_amp_fetch_query : string }.
Definition default_StoredRequestsDatabaseConfig : StoredRequestsDatabaseConfig := {|
  srdc_driver := ""; srdc_connection_string := ""; srdc_fetch_query := ""; srdc_amp_fetch_query := "" |}.

Record InMemoryCacheConfig : Type := {
  imcc_cache_type : string; imcc_ttl_seconds : Z; imcc_request_cache_size_bytes : Z;
  imcc_imp_cache_size_bytes : Z; imcc_size_bytes : Z }.
Definition default_InMemoryCacheConfig : InMemoryCacheConfig := {|
  imcc_cache_type := ""; imcc_ttl_seconds := 0; imcc_request_cache_size_bytes := 0;
  imcc_imp_cache_size_bytes := 0; imcc_size_bytes := 0 |}.

Record CacheEventsConfig : Type := { cec_enabled : bool; cec_endpoint : string }.
Definition default_CacheEventsConfig : CacheEventsConfig := {| cec_enabled := false; cec_endpoint := "" |}.

Record HttpEventsConfig : Type := {
  hec_endpoint : string; hec_refresh_rate_seconds : Z; hec_timeout_ms : Z; hec_amp_endpoint : string }.
Definition default_HttpEventsConfig : HttpEventsConfig := {|
  hec_endpoint := ""; hec_refresh_rate_seconds := 0; hec_timeout_ms := 0; hec_amp_endpoint := "" |}.

Record StoredRequestConfig : Type := {
  src_filesystem : option FilesystemConfig; src_http : option StoredRequestsHttpConfig;
  src_database : option StoredRequestsDatabaseConfig; src_in_memory_cache : InMemoryCacheConfig;
  src_cache_events : CacheEventsConfig; src_http_events : HttpEventsConfig }.
Definition default_StoredRequestConfig : StoredRequestConfig := {|
  src_filesystem := None; src_http := None; src_database := None;
  src_in_memory_cache := default_InMemoryCacheConfig; src_cache_events := default_CacheEventsConfig;
  src_http_events := default_HttpEventsConfig |}.

Record Tcf2PurposeConfig : Type := {
  tp_enforce_algo : string; tp_enforce_purpose : bool; tp_enforce_vendors : bool;
  tp_vendor_exceptions : list string }.
Definition default_Tcf2PurposeConfig : Tcf2PurposeConfig := {|
  tp_enforce_algo := ""; tp_enforce_purpose := false; tp_enforce_vendors := false; tp_vendor_exceptions := [] |}.

Record Tcf2SpecialFeatureConfig : Type := { tsfc_enforce : bool; tsfc_vendor_exceptions : list string }.
Definition default_Tcf2SpecialFeatureConfig : Tcf2SpecialFeatureConfig := {|
  tsfc_enforce := false; tsfc_vendor_exceptions := [] |}.

Record Tcf2PurposeOneTreatmentConfig : Type := { tpotc_enabled : bool; tpotc_access_allowed : bool }.
Definition default_Tcf2PurposeOneTreatmentConfig : Tcf2PurposeOneTreatmentConfig := {|
  tpotc_enabled := false; tpotc_access_allowed := false |}.

Record Tcf2Config : Type := {
  tcf2_enabled : bool; tcf2_purpose1 : Tcf2PurposeConfig; tcf2_purpose2 : Tcf2PurposeConfig;
  tcf2_purpose3 : Tcf2PurposeConfig; tcf2_purpose4 : Tcf2PurposeConfig; tcf2_purpose5 : Tcf2PurposeConfig;
  tcf2_purpose6 : Tcf2PurposeConfig; tcf2_purpose7 : Tcf2PurposeConfig; tcf2_purpose8 : Tcf2PurposeConfig;
  tcf2_purpose9 : Tcf2PurposeConfig; tcf2_purpose10 : Tcf2PurposeConfig;
  tcf2_special_feature1 : Tcf2SpecialFeatureConfig; tcf2_purpose_one_treatment : Tcf2PurposeOneTreatmentConfig }.
Definition default_Tcf2Config : Tcf2Config := {|
  tcf2_enabled := false; tcf2_purpose1 := default_Tcf2PurposeConfig;
  tcf2_purpose2 := default_Tcf2PurposeConfig; tcf2_purpose3 := default_Tcf2PurposeConfig;
  tcf2_purpose4 := default_Tcf2PurposeConfig; tcf2_purpose5 := default_Tcf2PurposeConfig;
  tcf2_purpose6 := default_Tcf2PurposeConfig; tcf2_purpose7 := default_Tcf2PurposeConfig;
  tcf2_purpose8 := default_Tcf2PurposeConfig; tcf2_purpose9 := default_Tcf2PurposeConfig;
  tcf2_purpose10 := default_Tcf2PurposeConfig; tcf2_special_feature1 := default_Tcf2SpecialFeatureConfig;
  tcf2_purpose_one_treatment := default_Tcf2PurposeOneTreatmentConfig |}.

Record GdprTimeoutsConfig : Type := { gtc_active_vendor_list_fetch_ms : Z }.
Definition default_GdprTimeoutsConfig : GdprTimeoutsConfig := {|
  gtc_active_vendor_list_fetch_ms := default_gdpr_timeout_ms |}.

Record GDPRConfig : Type := {
  gdpr_enabled : bool; gdpr_host_vendor_id : Z; gdpr_default_value : string;
  gdpr_host_vendor_list_url : string; gdpr_enforce_vendor_list : bool; gdpr_eea_countries : list string;
  gdpr_send_all_cookies : bool; gdpr_purpose1_vendor_exceptions : list string; gdpr_tcf2 : Tcf2Config;
  gdpr_non_standard_publishers : list string; gdpr_live_gvl_refresh_interval_seconds : Z;
  gdpr_timeouts_ms : GdprTimeoutsConfig }.
Definition default_GDPRConfig : GDPRConfig := {|
  gdpr_enabled := false; gdpr_host_vendor_id := 0; gdpr_default_value := default_gdpr_default_value;
  gdpr_host_vendor_list_url := default_gdpr_host_vendor_list_url; gdpr_enforce_vendor_list := false;
  gdpr_eea_countries := []; gdpr_send_all_cookies := false; gdpr_purpose1_vendor_exceptions := [];
  gdpr_tcf2 := default_Tcf2Config; gdpr_non_standard_publishers := [];
  gdpr_live_gvl_refresh_interval_seconds := 0; gdpr_timeouts_ms := default_GdprTimeoutsConfig |}.

Record CCPAConfig : Type := { ccpa_enforce : bool }.
Definition default_CCPAConfig : CCPAConfig := {| ccpa_enforce := false |}.

Record AuctionTimeouts : Type := { tmo_default : Z; tmo_max : Z }.
Definition default_AuctionTimeouts : AuctionTimeouts := {| tmo_default := 0; tmo_max := 0 |}.

Record CurrencyConfig : Type := {
  cc_rates : gmap string (gmap string f64); cc_fetch_url : string; cc_fetch_interval_seconds : Z }.
Definition default_CurrencyConfig : CurrencyConfig := {|
  cc_rates := ∅; cc_fetch_url := default_currency_fetch_url;
  cc_fetch_interval_seconds := default_currency_fetch_interval_seconds |}.

Record SchainNode : Type := {
  sn_asi : string; sn_sid : string; sn_rid : option string; sn_name : option string; sn_domain : option string;
  sn_hp : Z }.
Definition default_SchainNode : SchainNode := {|
  sn_asi := ""; sn_sid := ""; sn_rid := None; sn_name := None; sn_domain := None; sn_hp := 0 |}.

Record HTTPClientConfig : Type := {
  httpcc_max_connections_per_host : Z; httpcc_max_idle_connections : Z;
  httpcc_idle_connection_timeout_seconds : Z; httpcc_request_timeout_milliseconds : Z }.
Definition default_HTTPClientConfig : HTTPClientConfig := {|
  httpcc_max_connections_per_host := 50; httpcc_max_idle_connections := 50;
  httpcc_idle_connection_timeout_seconds := 60; httpcc_request_timeout_milliseconds := 5000 |}.

Record CfgUserSyncConfig : Type := {
  usync_timeout_ms : Z; usync_redirect_url : string; usync_external_url : string; usync_cookie_name : string;
  usync_coop_sync : bool; usync_default_sync_types : list string }.
Definition default_CfgUserSyncConfig : CfgUserSyncConfig := {|
  usync_timeout_ms := 0; usync_redirect_url := ""; usync_external_url := ""; usync_cookie_name := "";
  usync_coop_sync := false; usync_default_sync_types := [] |}.

Record FileAnalyticsConfig : Type := { fac_filename : string; fac_enabled : bool }.
Definition default_FileAnalyticsConfig : FileAnalyticsConfig := {| fac_filename := ""; fac_enabled := false |}.

Record PubstackAnalyticsConfig : Type := { pac_endpoint : string; pac_scope_id : string; pac_enabled : bool }.
Definition default_PubstackAnalyticsConfig : PubstackAnalyticsConfig := {|
  pac_endpoint := ""; pac_scope_id := ""; pac_enabled := false |}.

Record AnalyticsConfig : Type := {
  analyt_file : FileAnalyticsConfig; analyt_pubstack : PubstackAnalyticsConfig }.
Definition default_AnalyticsConfig : AnalyticsConfig := {|
  analyt_file := default_FileAnalyticsConfig; analyt_pubstack := default_PubstackAnalyticsConfig |}.

Record CfgFloorFetchConfig : Type := {
  ffetch_enabled : bool; ffetch_url : string; ffetch_max_rules : Z; ffetch_max_file_size_kb : Z }.
Definition default_CfgFloorFetchConfig : CfgFloorFetchConfig := {|
  ffetch_enabled := false; ffetch_url := ""; ffetch_max_rules := 0; ffetch_max_file_size_kb := 0 |}.

Record PriceFloorsConfig : Type := {
  pfloors_enabled : bool; pfloors_enforce_floors_rate : f64; pfloors_adjust_for_bid_adjustment : bool;
  pfloors_enforce_deal_floors : bool; pfloors_fetch : CfgFloorFetchConfig }.
Definition default_PriceFloorsConfig : PriceFloorsConfig := {|
  pfloors_enabled := false; pfloors_enforce_floors_rate := f64_zero;
  pfloors_adjust_for_bid_adjustment := false; pfloors_enforce_deal_floors := false;
  pfloors_fetch := default_CfgFloorFetchConfig |}.

Record LmtConfig : Type := { lmt_enforce : bool }.
Definition default_LmtConfig : LmtConfig := {| lmt_enforce := false |}.

Record CfgTmaxAdjustments : Type := {
  tmax_enabled : bool; tmax_bidder_response_duration_min_ms : Z; tmax_bidder_network_latency_buffer_ms : Z;
  tmax_pbs_response_preparation_duration_ms : Z }.
Definition default_CfgTmaxAdjustments : CfgTmaxAdjustments := {|
  tmax_enabled := false; tmax_bidder_response_duration_min_ms := 0; tmax_bidder_network_latency_buffer_ms := 0;
  tmax_pbs_response_preparation_duration_ms := 0 |}.

Record VideoConfig : Type := { video_enable_deprecated_endpoint : bool }.
Definition default_VideoConfig : VideoConfig := {| video_enable_deprecated_endpoint := false |}.

Record HooksConfig : Type := {
  hooks_enabled : bool; hooks_modules : gmap string (gmap string Value);
  hooks_host_execution_plan : CfgHookExecutionPlan; hooks_default_account_execution_plan : CfgHookExecutionPlan }.
Definition default_HooksConfig : HooksConfig := {|
  hooks_enabled := false; hooks_modules := ∅; hooks_host_execution_plan := default_CfgHookExecutionPlan;
  hooks_default_account_execution_plan := default_CfgHookExecutionPlan |}.

Record AdsCertInProcessConfig : Type := {
  acipc_origin : string; acipc_key : string; acipc_domain_check_interval_seconds : Z;
  acipc_domain_renewal_interval_seconds : Z }.
Definition default_AdsCertInProcessConfig : AdsCertInProcessConfig := {|
  acipc_origin := ""; acipc_key := ""; acipc_domain_check_interval_seconds := 0;
  acipc_domain_renewal_interval_seconds := 0 |}.

Record AdsCertRemoteConfig : Type := { acrc_url : string; acrc_signing_timeout_ms : Z }.
Definition default_AdsCertRemoteConfig : AdsCertRemoteConfig := {|
  acrc_url := ""; acrc_signing_timeout_ms := 0 |}.

Record AdsCertConfig : Type := {
  acc2_mode : string; acc2_inprocess : AdsCertInProcessConfig; acc2_remote : AdsCertRemoteConfig }.
Definition default_AdsCertConfig : AdsCertConfig := {|
  acc2_mode := ""; acc2_inprocess := default_AdsCertInProcessConfig; acc2_remote := default_AdsCertRemoteConfig |}.

Record ExperimentConfig : Type := { exper_adscert : AdsCertConfig }.
Definition default_ExperimentConfig : ExperimentConfig := {| exper_adscert := default_AdsCertConfig |}.

Record DefReqFiles : Type := { drf_name : string }.
Definition default_DefReqFiles : DefReqFiles := {| drf_name := "" |}.

Record DefReqConfig : Type := { drc_req_type : string; drc_file : DefReqFiles; drc_alias_info : bool }.
Definition default_DefReqConfig : DefReqConfig := {|
  drc_req_type := ""; drc_file := default_DefReqFiles; drc_alias_info := false |}.

Record CookieConfig : Type := { cookie_name : string; cookie_value : string }.
Definition default_CookieConfig : CookieConfig := {| cookie_name := ""; cookie_value := "" |}.

Record CfgHostCookieConfig : Type := {
  hcookie_domain : string; hcookie_family : string; hcookie_cookie_name : string; hcookie_opt_out_url : string;
  hcookie_opt_in_url : string; hcookie_max_cookie_size_bytes : Z; hcookie_optout_cookie : CookieConfig;
  hcookie_ttl_days : Z }.
Definition default_CfgHostCookieConfig : CfgHostCookieConfig := {|
  hcookie_domain := ""; hcookie_family := ""; hcookie_cookie_name := ""; hcookie_opt_out_url := "";
  hcookie_opt_in_url := ""; hcookie_max_cookie_size_bytes := 0; hcookie_optout_cookie := default_CookieConfig;
  hcookie_ttl_days := 0 |}.

Record ExternalCacheConfig : Type := { xc_scheme : string; xc_host : string; xc_path : string }.
Definition default_ExternalCacheConfig : ExternalCacheConfig := {|
  xc_scheme := ""; xc_host := ""; xc_path := "" |}.

Record TimeoutNotificationConfig : Type := { tnot_log : bool; tnot_sampling_rate : f64; tnot_fail_only : bool }.
Definition default_TimeoutNotificationConfig : TimeoutNotificationConfig := {|
  tnot_log := false; tnot_sampling_rate := f64_zero; tnot_fail_only := false |}.

Record DebugConfig : Type := {
  dbg_timeout_notification : TimeoutNotificationConfig; dbg_override_token : string }.
Definition default_DebugConfig : DebugConfig := {|
  dbg_timeout_notification := default_TimeoutNotificationConfig; dbg_override_token := "" |}.

Record RequestValidationConfig : Type := {
  rvc_ipv4_private_networks : list string; rvc_ipv6_private_networks : list string }.
Definition default_RequestValidationConfig : RequestValidationConfig := {|
  rvc_ipv4_private_networks := []; rvc_ipv6_private_networks := [] |}.

Record RequestTimeoutHeaders : Type := {
  rth_request_time_in_queue : string; rth_request_timeout_in_queue : string }.
Definition default_RequestTimeoutHeaders : RequestTimeoutHeaders := {|
  rth_request_time_in_queue := ""; rth_request_timeout_in_queue := "" |}.

Record CompressionInfoConfig : Type := { cic_enable_gzip : bool }.
Definition default_CompressionInfoConfig : CompressionInfoConfig := {| cic_enable_gzip := false |}.

Record CompressionConfig : Type := {
  compr_request : CompressionInfoConfig; compr_response : CompressionInfoConfig }.
Definition default_CompressionConfig : CompressionConfig := {|
  compr_request := default_CompressionInfoConfig; compr_response := default_CompressionInfoConfig |}.

Record AdminConfig : Type := { admin_enabled : bool }.
Definition default_AdminConfig : AdminConfig := {| admin_enabled := false |}.

Record VTrackConfig : Type := {
  vtrack_timeout_ms : Z; vtrack_allow_unknown_bidder : bool; vtrack_enabled : bool }.
Definition default_VTrackConfig : VTrackConfig := {|
  vtrack_timeout_ms := 0; vtrack_allow_unknown_bidder := false; vtrack_enabled := false |}.

Record EventConfig : Type := { event_timeout_ms : Z }.
Definition default_EventConfig : EventConfig := {| event_timeout_ms := 0 |}.

Record CfgConfiguration : Type := {
  cfg_host : string; cfg_port : Z; cfg_admin_port : Z; cfg_enable_cors : bool; cfg_external_url : string;
  cfg_adapters : gmap string AdapterConfig; cfg_accounts : gmap string AccountConfig;
  cfg_metrics : MetricsConfig; cfg_cache : CacheConfig; cfg_stored_requests : StoredRequestConfig;
  cfg_gdpr : GDPRConfig; cfg_ccpa : CCPAConfig; cfg_auction_timeouts : AuctionTimeouts;
  cfg_currency : CurrencyConfig; cfg_max_request_size : Z; cfg_auto_gen_source_tid : bool;
  cfg_generate_bid_id : bool; cfg_account_required : bool; cfg_static_dir : string;
  cfg_stored_requests_dir : string; cfg_gdpr_enabled : bool; cfg_ccpa_enforce : bool;
  cfg_schain_node : option SchainNode; cfg_aliases : gmap string string; cfg_http_client : HTTPClientConfig;
  cfg_http_client_cache : HTTPClientConfig; cfg_user_sync : CfgUserSyncConfig; cfg_analytics : AnalyticsConfig;
  cfg_price_floors : PriceFloorsConfig; cfg_lmt : LmtConfig; cfg_tmax_adjustments : CfgTmaxAdjustments;
  cfg_tmax_default : Z; cfg_video : VideoConfig; cfg_hooks : HooksConfig; cfg_validations : ValidationsConfig;
  cfg_experiment : ExperimentConfig; cfg_default_request : DefReqConfig; cfg_host_cookie : CfgHostCookieConfig;
  cfg_external_cache : ExternalCacheConfig; cfg_debug : DebugConfig;
  cfg_request_validation : RequestValidationConfig; cfg_request_timeout_headers : RequestTimeoutHeaders;
  cfg_compression : CompressionConfig; cfg_admin : AdminConfig; cfg_vtrack : VTrackConfig;
  cfg_event : EventConfig; cfg_unix_socket_enable : bool; cfg_unix_socket_name : string;
  cfg_status_response : string; cfg_recaptcha_secret : string; cfg_amp_timeout_adjustment_ms : Z;
  cfg_video_stored_request_required : bool; cfg_blocked_apps : list string;
  cfg_account_defaults : AccountConfig; cfg_certificates_file : string; cfg_generate_request_id : bool;
  cfg_datacenter : string; cfg_stored_amp_req : StoredRequestConfig;
  cfg_category_mapping : StoredRequestConfig; cfg_stored_video_req : StoredRequestConfig;
  cfg_stored_responses : StoredRequestConfig; cfg_stored_requests_timeout_ms : Z;
  cfg_garbage_collector_threshold : Z; cfg_debug_override_token : option string }.
Definition default_CfgConfiguration : CfgConfiguration := {|
  cfg_host := ""; cfg_port := 0; cfg_admin_port := 0; cfg_enable_cors := false; cfg_external_url := "";
  cfg_adapters := ∅; cfg_accounts := ∅; cfg_metrics := default_MetricsConfig; cfg_cache := default_CacheConfig;
  cfg_stored_requests := default_StoredRequestConfig; cfg_gdpr := default_GDPRConfig;
  cfg_ccpa := default_CCPAConfig; cfg_auction_timeouts := default_AuctionTimeouts;
  cfg_currency := default_CurrencyConfig; cfg_max_request_size := 0; cfg_auto_gen_source_tid := false;
  cfg_generate_bid_id := false; cfg_account_required := false; cfg_static_dir := "";
  cfg_stored_requests_dir := ""; cfg_gdpr_enabled := false; cfg_ccpa_enforce := false; cfg_schain_node := None;
  cfg_aliases := ∅; cfg_http_client := default_HTTPClientConfig;
  cfg_http_client_cache := default_HTTPClientConfig; cfg_user_sync := default_CfgUserSyncConfig;
  cfg_analytics := default_AnalyticsConfig; cfg_price_floors := default_PriceFloorsConfig;
  cfg_lmt := default_LmtConfig; cfg_tmax_adjustments := default_CfgTmaxAdjustments; cfg_tmax_default := 0;
  cfg_video := default_VideoConfig; cfg_hooks := default_HooksConfig;
  cfg_validations := default_ValidationsConfig; cfg_experiment := default_ExperimentConfig;
  cfg_default_request := default_DefReqConfig; cfg_host_cookie := default_CfgHostCookieConfig;
  cfg_external_cache := default_ExternalCacheConfig; cfg_debug := default_DebugConfig;
  cfg_request_validation := default_RequestValidationConfig;
  cfg_request_timeout_headers := default_RequestTimeoutHeaders; cfg_compression := default_CompressionConfig;
  cfg_admin := default_AdminConfig; cfg_vtrack := default_VTrackConfig; cfg_event := default_EventConfig;
  cfg_unix_socket_enable := false; cfg_unix_socket_name := ""; cfg_status_response := "";
  cfg_recaptcha_secret := ""; cfg_amp_timeout_adjustment_ms := 0; cfg_video_stored_request_required := false;
  cfg_blocked_apps := []; cfg_account_defaults := default_AccountConfig; cfg_certificates_file := "";
  cfg_generate_request_id := false; cfg_datacenter := ""; cfg_stored_amp_req := default_StoredRequestConfig;
  cfg_category_mapping := default_StoredRequestConfig; cfg_stored_video_req := default_StoredRequestConfig;
  cfg_stored_responses := default_StoredRequestConfig; cfg_stored_requests_timeout_ms := 0;
  cfg_garbage_collector_threshold := 0; cfg_debug_override_token := None |}.

Record MaintainerInfo : Type := { maint_email : string }.
Definition default_MaintainerInfo : MaintainerInfo := {| maint_email := "" |}.

Record PlatformInfo : Type := { plat_media_types : list string }.
Definition default_PlatformInfo : PlatformInfo := {| plat_media_types := [] |}.

Record CapabilitiesInfo : Type := {
  caps_app : option PlatformInfo; caps_site : option PlatformInfo; caps_dooh : option PlatformInfo }.
Definition default_CapabilitiesInfo : CapabilitiesInfo := {|
  caps_app := None; caps_site := None; caps_dooh := None |}.

Record BidderDebugInfo : Type := { bdi_allow : bool }.
Definition default_BidderDebugInfo : BidderDebugInfo := {| bdi_allow := false |}.

Record CfgSyncerEndpointConfig : Type := {
  sep_url : string; sep_redirect_url : string; sep_external_url : string; sep_user_macro : string }.
Definition default_CfgSyncerEndpointConfig : CfgSyncerEndpointConfig := {|
  sep_url := ""; sep_redirect_url := ""; sep_external_url := ""; sep_user_macro := "" |}.

Record CfgBidderSyncerConfig : Type := {
  sync_key : string; sync_supports : list string; sync_iframe : option CfgSyncerEndpointConfig;
  sync_redirect : option CfgSyncerEndpointConfig; sync_external_url : string; sync_format_override : string;
  sync_enabled : option bool }.
Definition default_CfgBidderSyncerConfig : CfgBidderSyncerConfig := {|
  sync_key := ""; sync_supports := []; sync_iframe := None; sync_redirect := None; sync_external_url := "";
  sync_format_override := ""; sync_enabled := None |}.

Record BidderAdsCertConfig : Type := { bacc_enabled : bool }.
Definition default_BidderAdsCertConfig : BidderAdsCertConfig := {| bacc_enabled := false |}.

Record BidderExperimentConfig : Type := { bec_ads_cert : BidderAdsCertConfig }.
Definition default_BidderExperimentConfig : BidderExperimentConfig := {|
  bec_ads_cert := default_BidderAdsCertConfig |}.

Record BidderOpenRTBInfo : Type := {
  bortbi_version : string; bortbi_gpp_supported : bool; bortbi_multiformat_supported : option bool }.
Definition default_BidderOpenRTBInfo : BidderOpenRTBInfo := {|
  bortbi_version := ""; bortbi_gpp_supported := false; bortbi_multiformat_supported := None |}.

Record BidderXAPIConfig : Type := {
  bxapic_username : string; bxapic_password : string; bxapic_tracker : string }.
Definition default_BidderXAPIConfig : BidderXAPIConfig := {|
  bxapic_username := ""; bxapic_password := ""; bxapic_tracker := "" |}.

Record CfgBidderInfo : Type := {
  info_alias_of : string; info_disabled : bool; info_endpoint : string; info_extra_info : string;
  info_maintainer : option MaintainerInfo; info_capabilities : option CapabilitiesInfo; info_gvl_vendor_id : Z;
  info_modifying_vast_xml_allowed : bool; info_debug : option BidderDebugInfo; info_geoscope : list string;
  info_user_sync : option CfgBidderSyncerConfig; info_experiment : BidderExperimentConfig;
  info_openrtb : option BidderOpenRTBInfo; info_endpoint_compression : string; info_xapi : BidderXAPIConfig;
  info_platform_id : string; info_app_secret : string }.
Definition default_CfgBidderInfo : CfgBidderInfo := {|
  info_alias_of := ""; info_disabled := false; info_endpoint := ""; info_extra_info := "";
  info_maintainer := None; info_capabilities := None; info_gvl_vendor_id := 0;
  info_modifying_vast_xml_allowed := false; info_debug := None; info_geoscope := []; info_user_sync := None;
  info_experiment := default_BidderExperimentConfig; info_openrtb := None; info_endpoint_compression := "";
  info_xapi := default_BidderXAPIConfig; info_platform_id := ""; info_app_secret := "" |}.

(** Assignments to a field. *)
Definition set_cfg_host (x : string) (r : CfgConfiguration) : CfgConfiguration := {|
  cfg_host := x; cfg_port := cfg_port r; cfg_admin_port := cfg_admin_port r;
  cfg_enable_cors := cfg_enable_cors r; cfg_external_url := cfg_external_url r; cfg_adapters := cfg_adapters r;
  cfg_accounts := cfg_accounts r; cfg_metrics := cfg_metrics r; cfg_cache := cfg_cache r;
  cfg_stored_requests := cfg_stored_requests r; cfg_gdpr := cfg_gdpr r; cfg_ccpa := cfg_ccpa r;
  cfg_auction_timeouts := cfg_auction_timeouts r; cfg_currency := cfg_currency r;
  cfg_max_request_size := cfg_max_request_size r; cfg_auto_gen_source_tid := cfg_auto_gen_source_tid r;
  cfg_generate_bid_id := cfg_generate_bid_id r; cfg_account_required := cfg_account_required r;
  cfg_static_dir := cfg_static_dir r; cfg_stored_requests_dir := cfg_stored_requests_dir r;
  cfg_gdpr_enabled := cfg_gdpr_enabled r; cfg_ccpa_enforce := cfg_ccpa_enforce r;
  cfg_schain_node := cfg_schain_node r; cfg_aliases := cfg_aliases r; cfg_http_client := cfg_http_client r;
  cfg_http_client_cache := cfg_http_client_cache r; cfg_user_sync := cfg_user_sync r;
  cfg_analytics := cfg_analytics r; cfg_price_floors := cfg_price_floors r; cfg_lmt := cfg_lmt r;
  cfg_tmax_adjustments := cfg_tmax_adjustments r; cfg_tmax_default := cfg_tmax_default r;
  cfg_video := cfg_video r; cfg_hooks := cfg_hooks r; cfg_validations := cfg_validations r;
  cfg_experiment := cfg_experiment r; cfg_default_request := cfg_default_request r;
  cfg_host_cookie := cfg_host_cookie r; cfg_external_cache := cfg_external_cache r; cfg_debug := cfg_debug r;
  cfg_request_validation := cfg_request_validation r;
  cfg_request_timeout_headers := cfg_request_timeout_headers r; cfg_compression := cfg_compression r;
  cfg_admin := cfg_admin r; cfg_vtrack := cfg_vtrack r; cfg_event := cfg_event r;
  cfg_unix_socket_enable := cfg_unix_socket_enable r; cfg_unix_socket_name := cfg_unix_socket_name r;
  cfg_status_response := cfg_status_response r; cfg_recaptcha_secret := cfg_recaptcha_secret r;
  cfg_amp_timeout_adjustment_ms := cfg_amp_timeout_adjustment_ms r;
  cfg_video_stored_request_required := cfg_video_stored_request_required r;
  cfg_blocked_apps := cfg_blocked_apps r; cfg_account_defaults := cfg_account_defaults r;
  cfg_certificates_file := cfg_certificates_file r; cfg_generate_request_id := cfg_generate_request_id r;
  cfg_datacenter := cfg_datacenter r; cfg_stored_amp_req := cfg_stored_amp_req r;
  cfg_category_mapping := cfg_category_mapping r; cfg_stored_video_req := cfg_stored_video_req r;
  cfg_stored_responses := cfg_stored_responses r;
  cfg_stored_requests_timeout_ms := cfg_stored_requests_timeout_ms r;
  cfg_garbage_collector_threshold := cfg_garbage_collector_threshold r;
  cfg_debug_override_token := cfg_debug_override_token r |}.
Definition set_cfg_port (x : Z) (r : CfgConfiguration) : CfgConfiguration := {|
  cfg_host := cfg_host r; cfg_port := x; cfg_admin_port := cfg_admin_port r;
  cfg_enable_cors := cfg_enable_cors r; cfg_external_url := cfg_external_url r; cfg_adapters := cfg_adapters r;
  cfg_accounts := cfg_accounts r; cfg_metrics := cfg_metrics r; cfg_cache := cfg_cache r;
  cfg_stored_requests := cfg_stored_requests r; cfg_gdpr := cfg_gdpr r; cfg_ccpa := cfg_ccpa r;
  cfg_auction_timeouts := cfg_auction_timeouts r; cfg_currency := cfg_currency r;
  cfg_max_request_size := cfg_max_request_size r; cfg_auto_gen_source_tid := cfg_auto_gen_source_tid r;
  cfg_generate_bid_id := cfg_generate_bid_id r; cfg_account_required := cfg_account_required r;
  cfg_static_dir := cfg_static_dir r; cfg_stored_requests_dir := cfg_stored_requests_dir r;
  cfg_gdpr_enabled := cfg_gdpr_enabled r; cfg_ccpa_enforce := cfg_ccpa_enforce r;
  cfg_schain_node := cfg_schain_node r; cfg_aliases := cfg_aliases r; cfg_http_client := cfg_http_client r;
  cfg_http_client_cache := cfg_http_client_cache r; cfg_user_sync := cfg_user_sync r;
  cfg_analytics := cfg_analytics r; cfg_price_floors := cfg_price_floors r; cfg_lmt := cfg_lmt r;
  cfg_tmax_adjustments := cfg_tmax_adjustments r; cfg_tmax_default := cfg_tmax_default r;
  cfg_video := cfg_video r; cfg_hooks := cfg_hooks r; cfg_validations := cfg_validations r;
  cfg_experiment := cfg_experiment r; cfg_default_request := cfg_default_request r;
  cfg_host_cookie := cfg_host_cookie r; cfg_external_cache := cfg_external_cache r; cfg_debug := cfg_debug r;
  cfg_request_validation := cfg_request_validation r;
  cfg_request_timeout_headers := cfg_request_timeout_headers r; cfg_compression := cfg_compression r;
  cfg_admin := cfg_admin r; cfg_vtrack := cfg_vtrack r; cfg_event := cfg_event r;
  cfg_unix_socket_enable := cfg_unix_socket_enable r; cfg_unix_socket_name := cfg_unix_socket_name r;
  cfg_status_response := cfg_status_response r; cfg_recaptcha_secret := cfg_recaptcha_secret r;
  cfg_amp_timeout_adjustment_ms := cfg_amp_timeout_adjustment_ms r;
  cfg_video_stored_request_required := cfg_video_stored_request_required r;
  cfg_blocked_apps := cfg_blocked_apps r; cfg_account_defaults := cfg_account_defaults r;
  cfg_certificates_file := cfg_certificates_file r; cfg_generate_request_id := cfg_generate_request_id r;
  cfg_datacenter := cfg_datacenter r; cfg_stored_amp_req := cfg_stored_amp_req r;
  cfg_category_mapping := cfg_category_mapping r; cfg_stored_video_req := cfg_stored_video_req r;
  cfg_stored_responses := cfg_stored_responses r;
  cfg_stored_requests_timeout_ms := cfg_stored_requests_timeout_ms r;
  cfg_garbage_collector_threshold := cfg_garbage_collector_threshold r;
  cfg_debug_override_token := cfg_debug_override_token r |}.
Definition set_cfg_static_dir (x : string) (r : CfgConfiguration) : CfgConfiguration := {|
  cfg_host := cfg_host r; cfg_port := cfg_port r; cfg_admin_port := cfg_admin_port r;
  cfg_enable_cors := cfg_enable_cors r; cfg_external_url := cfg_external_url r; cfg_adapters := cfg_adapters r;
  cfg_accounts := cfg_accounts r; cfg_metrics := cfg_metrics r; cfg_cache := cfg_cache r;
  cfg_stored_requests := cfg_stored_requests r; cfg_gdpr := cfg_gdpr r; cfg_ccpa := cfg_ccpa r;
  cfg_auction_timeouts := cfg_auction_timeouts r; cfg_currency := cfg_currency r;
  cfg_max_request_size := cfg_max_request_size r; cfg_auto_gen_source_tid := cfg_auto_gen_source_tid r;
  cfg_generate_bid_id := cfg_generate_bid_id r; cfg_account_required := cfg_account_required r;
  cfg_static_dir := x; cfg_stored_requests_dir := cfg_stored_requests_dir r;
  cfg_gdpr_enabled := cfg_gdpr_enabled r; cfg_ccpa_enforce := cfg_ccpa_enforce r;
  cfg_schain_node := cfg_schain_node r; cfg_aliases := cfg_aliases r; cfg_http_client := cfg_http_client r;
  cfg_http_client_cache := cfg_http_client_cache r; cfg_user_sync := cfg_user_sync r;
  cfg_analytics := cfg_analytics r; cfg_price_floors := cfg_price_floors r; cfg_lmt := cfg_lmt r;
  cfg_tmax_adjustments := cfg_tmax_adjustments r; cfg_tmax_default := cfg_tmax_default r;
  cfg_video := cfg_video r; cfg_hooks := cfg_hooks r; cfg_validations := cfg_validations r;
  cfg_experiment := cfg_experiment r; cfg_default_request := cfg_default_request r;
  cfg_host_cookie := cfg_host_cookie r; cfg_external_cache := cfg_external_cache r; cfg_debug := cfg_debug r;
  cfg_request_validation := cfg_request_validation r;
  cfg_request_timeout_headers := cfg_request_timeout_headers r; cfg_compression := cfg_compression r;
  cfg_admin := cfg_admin r; cfg_vtrack := cfg_vtrack r; cfg_event := cfg_event r;
  cfg_unix_socket_enable := cfg_unix_socket_enable r; cfg_unix_socket_name := cfg_unix_socket_name r;
  cfg_status_response := cfg_status_response r; cfg_recaptcha_secret := cfg_recaptcha_secret r;
  cfg_amp_timeout_adjustment_ms := cfg_amp_timeout_adjustment_ms r;
  cfg_video_stored_request_required := cfg_video_stored_request_required r;
  cfg_blocked_apps := cfg_blocked_apps r; cfg_account_defaults := cfg_account_defaults r;
  cfg_certificates_file := cfg_certificates_file r; cfg_generate_request_id := cfg_generate_request_id r;
  cfg_datacenter := cfg_datacenter r; cfg_stored_amp_req := cfg_stored_amp_req r;
  cfg_category_mapping := cfg_category_mapping r; cfg_stored_video_req := cfg_stored_video_req r;
  cfg_stored_responses := cfg_stored_responses r;
  cfg_stored_requests_timeout_ms := cfg_stored_requests_timeout_ms r;
  cfg_garbage_collector_threshold := cfg_garbage_collector_threshold r;
  cfg_debug_override_token := cfg_debug_override_token r |}.
Definition set_cfg_stored_requests_dir (x : string) (r : CfgConfiguration) : CfgConfiguration := {|
  cfg_host := cfg_host r; cfg_port := cfg_port r; cfg_admin_port := cfg_admin_port r;
  cfg_enable_cors := cfg_enable_cors r; cfg_external_url := cfg_external_url r; cfg_adapters := cfg_adapters r;
  cfg_accounts := cfg_accounts r; cfg_metrics := cfg_metrics r; cfg_cache := cfg_cache r;
  cfg_stored_requests := cfg_stored_requests r; cfg_gdpr := cfg_gdpr r; cfg_ccpa := cfg_ccpa r;
  cfg_auction_timeouts := cfg_auction_timeouts r; cfg_currency := cfg_currency r;
  cfg_max_request_size := cfg_max_request_size r; cfg_auto_gen_source_tid := cfg_auto_gen_source_tid r;
  cfg_generate_bid_id := cfg_generate_bid_id r; cfg_account_required := cfg_account_required r;
  cfg_static_dir := cfg_static_dir r; cfg_stored_requests_dir := x; cfg_gdpr_enabled := cfg_gdpr_enabled r;
  cfg_ccpa_enforce := cfg_ccpa_enforce r; cfg_schain_node := cfg_schain_node r; cfg_aliases := cfg_aliases r;
  cfg_http_client := cfg_http_client r; cfg_http_client_cache := cfg_http_client_cache r;
  cfg_user_sync := cfg_user_sync r; cfg_analytics := cfg_analytics r; cfg_price_floors := cfg_price_floors r;
  cfg_lmt := cfg_lmt r; cfg_tmax_adjustments := cfg_tmax_adjustments r; cfg_tmax_default := cfg_tmax_default r;
  cfg_video := cfg_video r; cfg_hooks := cfg_hooks r; cfg_validations := cfg_validations r;
  cfg_experiment := cfg_experiment r; cfg_default_request := cfg_default_request r;
  cfg_host_cookie := cfg_host_cookie r; cfg_external_cache := cfg_external_cache r; cfg_debug := cfg_debug r;
  cfg_request_validation := cfg_request_validation r;
  cfg_request_timeout_headers := cfg_request_timeout_headers r; cfg_compression := cfg_compression r;
  cfg_admin := cfg_admin r; cfg_vtrack := cfg_vtrack r; cfg_event := cfg_event r;
  cfg_unix_socket_enable := cfg_unix_socket_enable r; cfg_unix_socket_name := cfg_unix_socket_name r;
  cfg_status_response := cfg_status_response r; cfg_recaptcha_secret := cfg_recaptcha_secret r;
  cfg_amp_timeout_adjustment_ms := cfg_amp_timeout_adjustment_ms r;
  cfg_video_stored_request_required := cfg_video_stored_request_required r;
  cfg_blocked_apps := cfg_blocked_apps r; cfg_account_defaults := cfg_account_defaults r;
  cfg_certificates_file := cfg_certificates_file r; cfg_generate_request_id := cfg_generate_request_id r;
  cfg_datacenter := cfg_datacenter r; cfg_stored_amp_req := cfg_stored_amp_req r;
  cfg_category_mapping := cfg_category_mapping r; cfg_stored_video_req := cfg_stored_video_req r;
  cfg_stored_responses := cfg_stored_responses r;
  cfg_stored_requests_timeout_ms := cfg_stored_requests_timeout_ms r;
  cfg_garbage_collector_threshold := cfg_garbage_collector_threshold r;
  cfg_debug_override_token := cfg_debug_override_token r |}.
Definition set_cfg_max_request_size (x : Z) (r : CfgConfiguration) : CfgConfiguration := {|
  cfg_host := cfg_host r; cfg_port := cfg_port r; cfg_admin_port := cfg_admin_port r;
  cfg_enable_cors := cfg_enable_cors r; cfg_external_url := cfg_external_url r; cfg_adapters := cfg_adapters r;
  cfg_accounts := cfg_accounts r; cfg_metrics := cfg_metrics r; cfg_cache := cfg_cache r;
  cfg_stored_requests := cfg_stored_requests r; cfg_gdpr := cfg_gdpr r; cfg_ccpa := cfg_ccpa r;
  cfg_auction_timeouts := cfg_auction_timeouts r; cfg_currency := cfg_currency r; cfg_max_request_size := x;
  cfg_auto_gen_source_tid := cfg_auto_gen_source_tid r; cfg_generate_bid_id := cfg_generate_bid_id r;
  cfg_account_required := cfg_account_required r; cfg_static_dir := cfg_static_dir r;
  cfg_stored_requests_dir := cfg_stored_requests_dir r; cfg_gdpr_enabled := cfg_gdpr_enabled r;
  cfg_ccpa_enforce := cfg_ccpa_enforce r; cfg_schain_node := cfg_schain_node r; cfg_aliases := cfg_aliases r;
  cfg_http_client := cfg_http_client r; cfg_http_client_cache := cfg_http_client_cache r;
  cfg_user_sync := cfg_user_sync r; cfg_analytics := cfg_analytics r; cfg_price_floors := cfg_price_floors r;
  cfg_lmt := cfg_lmt r; cfg_tmax_adjustments := cfg_tmax_adjustments r; cfg_tmax_default := cfg_tmax_default r;
  cfg_video := cfg_video r; cfg_hooks := cfg_hooks r; cfg_validations := cfg_validations r;
  cfg_experiment := cfg_experiment r; cfg_default_request := cfg_default_request r;
  cfg_host_cookie := cfg_host_cookie r; cfg_external_cache := cfg_external_cache r; cfg_debug := cfg_debug r;
  cfg_request_validation := cfg_request_validation r;
  cfg_request_timeout_headers := cfg_request_timeout_headers r; cfg_compression := cfg_compression r;
  cfg_admin := cfg_admin r; cfg_vtrack := cfg_vtrack r; cfg_event := cfg_event r;
  cfg_unix_socket_enable := cfg_unix_socket_enable r; cfg_unix_socket_name := cfg_unix_socket_name r;
  cfg_status_response := cfg_status_response r; cfg_recaptcha_secret := cfg_recaptcha_secret r;
  cfg_amp_timeout_adjustment_ms := cfg_amp_timeout_adjustment_ms r;
  cfg_video_stored_request_required := cfg_video_stored_request_required r;
  cfg_blocked_apps := cfg_blocked_apps r; cfg_account_defaults := cfg_account_defaults r;
  cfg_certificates_file := cfg_certificates_file r; cfg_generate_request_id := cfg_generate_request_id r;
  cfg_datacenter := cfg_datacenter r; cfg_stored_amp_req := cfg_stored_amp_req r;
  cfg_category_mapping := cfg_category_mapping r; cfg_stored_video_req := cfg_stored_video_req r;
  cfg_stored_responses := cfg_stored_responses r;
  cfg_stored_requests_timeout_ms := cfg_stored_requests_timeout_ms r;
  cfg_garbage_collector_threshold := cfg_garbage_collector_threshold r;
  cfg_debug_override_token := cfg_debug_override_token r |}.
Definition set_cfg_gdpr_enabled (x : bool) (r : CfgConfiguration) : CfgConfiguration := {|
  cfg_host := cfg_host r; cfg_port := cfg_port r; cfg_admin_port := cfg_admin_port r;
  cfg_enable_cors := cfg_enable_cors r; cfg_external_url := cfg_external_url r; cfg_adapters := cfg_adapters r;
  cfg_accounts := cfg_accounts r; cfg_metrics := cfg_metrics r; cfg_cache := cfg_cache r;
  cfg_stored_requests := cfg_stored_requests r; cfg_gdpr := cfg_gdpr r; cfg_ccpa := cfg_ccpa r;
  cfg_auction_timeouts := cfg_auction_timeouts r; cfg_currency := cfg_currency r;
  cfg_max_request_size := cfg_max_request_size r; cfg_auto_gen_source_tid := cfg_auto_gen_source_tid r;
  cfg_generate_bid_id := cfg_generate_bid_id r; cfg_account_required := cfg_account_required r;
  cfg_static_dir := cfg_static_dir r; cfg_stored_requests_dir := cfg_stored_requests_dir r;
  cfg_gdpr_enabled := x; cfg_ccpa_enforce := cfg_ccpa_enforce r; cfg_schain_node := cfg_schain_node r;
  cfg_aliases := cfg_aliases r; cfg_http_client := cfg_http_client r;
  cfg_http_client_cache := cfg_http_client_cache r; cfg_user_sync := cfg_user_sync r;
  cfg_analytics := cfg_analytics r; cfg_price_floors := cfg_price_floors r; cfg_lmt := cfg_lmt r;
  cfg_tmax_adjustments := cfg_tmax_adjustments r; cfg_tmax_default := cfg_tmax_default r;
  cfg_video := cfg_video r; cfg_hooks := cfg_hooks r; cfg_validations := cfg_validations r;
  cfg_experiment := cfg_experiment r; cfg_default_request := cfg_default_request r;
  cfg_host_cookie := cfg_host_cookie r; cfg_external_cache := cfg_external_cache r; cfg_debug := cfg_debug r;
  cfg_request_validation := cfg_request_validation r;
  cfg_request_timeout_headers := cfg_request_timeout_headers r; cfg_compression := cfg_compression r;
  cfg_admin := cfg_admin r; cfg_vtrack := cfg_vtrack r; cfg_event := cfg_event r;
  cfg_unix_socket_enable := cfg_unix_socket_enable r; cfg_unix_socket_name := cfg_unix_socket_name r;
  cfg_status_response := cfg_status_response r; cfg_recaptcha_secret := cfg_recaptcha_secret r;
  cfg_amp_timeout_adjustment_ms := cfg_amp_timeout_adjustment_ms r;
  cfg_video_stored_request_required := cfg_video_stored_request_required r;
  cfg_blocked_apps := cfg_blocked_apps r; cfg_account_defaults := cfg_account_defaults r;
  cfg_certificates_file := cfg_certificates_file r; cfg_generate_request_id := cfg_generate_request_id r;
  cfg_datacenter := cfg_datacenter r; cfg_stored_amp_req := cfg_stored_amp_req r;
  cfg_category_mapping := cfg_category_mapping r; cfg_stored_video_req := cfg_stored_video_req r;
  cfg_stored_responses := cfg_stored_responses r;
  cfg_stored_requests_timeout_ms := cfg_stored_requests_timeout_ms r;
  cfg_garbage_collector_threshold := cfg_garbage_collector_threshold r;
  cfg_debug_override_token := cfg_debug_override_token r |}.
Definition set_cfg_gdpr (x : GDPRConfig) (r : CfgConfiguration) : CfgConfiguration := {|
  cfg_host := cfg_host r; cfg_port := cfg_port r; cfg_admin_port := cfg_admin_port r;
  cfg_enable_cors := cfg_enable_cors r; cfg_external_url := cfg_external_url r; cfg_adapters := cfg_adapters r;
  cfg_accounts := cfg_accounts r; cfg_metrics := cfg_metrics r; cfg_cache := cfg_cache r;
  cfg_stored_requests := cfg_stored_requests r; cfg_gdpr := x; cfg_ccpa := cfg_ccpa r;
  cfg_auction_timeouts := cfg_auction_timeouts r; cfg_currency := cfg_currency r;
  cfg_max_request_size := cfg_max_request_size r; cfg_auto_gen_source_tid := cfg_auto_gen_source_tid r;
  cfg_generate_bid_id := cfg_generate_bid_id r; cfg_account_required := cfg_account_required r;
  cfg_static_dir := cfg_static_dir r; cfg_stored_requests_dir := cfg_stored_requests_dir r;
  cfg_gdpr_enabled := cfg_gdpr_enabled r; cfg_ccpa_enforce := cfg_ccpa_enforce r;
  cfg_schain_node := cfg_schain_node r; cfg_aliases := cfg_aliases r; cfg_http_client := cfg_http_client r;
  cfg_http_client_cache := cfg_http_client_cache r; cfg_user_sync := cfg_user_sync r;
  cfg_analytics := cfg_analytics r; cfg_price_floors := cfg_price_floors r; cfg_lmt := cfg_lmt r;
  cfg_tmax_adjustments := cfg_tmax_adjustments r; cfg_tmax_default := cfg_tmax_default r;
  cfg_video := cfg_video r; cfg_hooks := cfg_hooks r; cfg_validations := cfg_validations r;
  cfg_experiment := cfg_experiment r; cfg_default_request := cfg_default_request r;
  cfg_host_cookie := cfg_host_cookie r; cfg_external_cache := cfg_external_cache r; cfg_debug := cfg_debug r;
  cfg_request_validation := cfg_request_validation r;
  cfg_request_timeout_headers := cfg_request_timeout_headers r; cfg_compression := cfg_compression r;
  cfg_admin := cfg_admin r; cfg_vtrack := cfg_vtrack r; cfg_event := cfg_event r;
  cfg_unix_socket_enable := cfg_unix_socket_enable r; cfg_unix_socket_name := cfg_unix_socket_name r;
  cfg_status_response := cfg_status_response r; cfg_recaptcha_secret := cfg_recaptcha_secret r;
  cfg_amp_timeout_adjustment_ms := cfg_amp_timeout_adjustment_ms r;
  cfg_video_stored_request_required := cfg_video_stored_request_required r;
  cfg_blocked_apps := cfg_blocked_apps r; cfg_account_defaults := cfg_account_defaults r;
  cfg_certificates_file := cfg_certificates_file r; cfg_generate_request_id := cfg_generate_request_id r;
  cfg_datacenter := cfg_datacenter r; cfg_stored_amp_req := cfg_stored_amp_req r;
  cfg_category_mapping := cfg_category_mapping r; cfg_stored_video_req := cfg_stored_video_req r;
  cfg_stored_responses := cfg_stored_responses r;
  cfg_stored_requests_timeout_ms := cfg_stored_requests_timeout_ms r;
  cfg_garbage_collector_threshold := cfg_garbage_collector_threshold r;
  cfg_debug_override_token := cfg_debug_override_token r |}.
Definition set_cfg_ccpa_enforce (x : bool) (r : CfgConfiguration) : CfgConfiguration := {|
  cfg_host := cfg_host r; cfg_port := cfg_port r; cfg_admin_port := cfg_admin_port r;
  cfg_enable_cors := cfg_enable_cors r; cfg_external_url := cfg_external_url r; cfg_adapters := cfg_adapters r;
  cfg_accounts := cfg_accounts r; cfg_metrics := cfg_metrics r; cfg_cache := cfg_cache r;
  cfg_stored_requests := cfg_stored_requests r; cfg_gdpr := cfg_gdpr r; cfg_ccpa := cfg_ccpa r;
  cfg_auction_timeouts := cfg_auction_timeouts r; cfg_currency := cfg_currency r;
  cfg_max_request_size := cfg_max_request_size r; cfg_auto_gen_source_tid := cfg_auto_gen_source_tid r;
  cfg_generate_bid_id := cfg_generate_bid_id r; cfg_account_required := cfg_account_required r;
  cfg_static_dir := cfg_static_dir r; cfg_stored_requests_dir := cfg_stored_requests_dir r;
  cfg_gdpr_enabled := cfg_gdpr_enabled r; cfg_ccpa_enforce := x; cfg_schain_node := cfg_schain_node r;
  cfg_aliases := cfg_aliases r; cfg_http_client := cfg_http_client r;
  cfg_http_client_cache := cfg_http_client_cache r; cfg_user_sync := cfg_user_sync r;
  cfg_analytics := cfg_analytics r; cfg_price_floors := cfg_price_floors r; cfg_lmt := cfg_lmt r;
  cfg_tmax_adjustments := cfg_tmax_adjustments r; cfg_tmax_default := cfg_tmax_default r;
  cfg_video := cfg_video r; cfg_hooks := cfg_hooks r; cfg_validations := cfg_validations r;
  cfg_experiment := cfg_experiment r; cfg_default_request := cfg_default_request r;
  cfg_host_cookie := cfg_host_cookie r; cfg_external_cache := cfg_external_cache r; cfg_debug := cfg_debug r;
  cfg_request_validation := cfg_request_validation r;
  cfg_request_timeout_headers := cfg_request_timeout_headers r; cfg_compression := cfg_compression r;
  cfg_admin := cfg_admin r; cfg_vtrack := cfg_vtrack r; cfg_event := cfg_event r;
  cfg_unix_socket_enable := cfg_unix_socket_enable r; cfg_unix_socket_name := cfg_unix_socket_name r;
  cfg_status_response := cfg_status_response r; cfg_recaptcha_secret := cfg_recaptcha_secret r;
  cfg_amp_timeout_adjustment_ms := cfg_amp_timeout_adjustment_ms r;
  cfg_video_stored_request_required := cfg_video_stored_request_required r;
  cfg_blocked_apps := cfg_blocked_apps r; cfg_account_defaults := cfg_account_defaults r;
  cfg_certificates_file := cfg_certificates_file r; cfg_generate_request_id := cfg_generate_request_id r;
  cfg_datacenter := cfg_datacenter r; cfg_stored_amp_req := cfg_stored_amp_req r;
  cfg_category_mapping := cfg_category_mapping r; cfg_stored_video_req := cfg_stored_video_req r;
  cfg_stored_responses := cfg_stored_responses r;
  cfg_stored_requests_timeout_ms := cfg_stored_requests_timeout_ms r;
  cfg_garbage_collector_threshold := cfg_garbage_collector_threshold r;
  cfg_debug_override_token := cfg_debug_override_token r |}.
Definition set_cfg_ccpa (x : CCPAConfig) (r : CfgConfiguration) : CfgConfiguration := {|
  cfg_host := cfg_host r; cfg_port := cfg_port r; cfg_admin_port := cfg_admin_port r;
  cfg_enable_cors := cfg_enable_cors r; cfg_external_url := cfg_external_url r; cfg_adapters := cfg_adapters r;
  cfg_accounts := cfg_accounts r; cfg_metrics := cfg_metrics r; cfg_cache := cfg_cache r;
  cfg_stored_requests := cfg_stored_requests r; cfg_gdpr := cfg_gdpr r; cfg_ccpa := x;
  cfg_auction_timeouts := cfg_auction_timeouts r; cfg_currency := cfg_currency r;
  cfg_max_request_size := cfg_max_request_size r; cfg_auto_gen_source_tid := cfg_auto_gen_source_tid r;
  cfg_generate_bid_id := cfg_generate_bid_id r; cfg_account_required := cfg_account_required r;
  cfg_static_dir := cfg_static_dir r; cfg_stored_requests_dir := cfg_stored_requests_dir r;
  cfg_gdpr_enabled := cfg_gdpr_enabled r; cfg_ccpa_enforce := cfg_ccpa_enforce r;
  cfg_schain_node := cfg_schain_node r; cfg_aliases := cfg_aliases r; cfg_http_client := cfg_http_client r;
  cfg_http_client_cache := cfg_http_client_cache r; cfg_user_sync := cfg_user_sync r;
  cfg_analytics := cfg_analytics r; cfg_price_floors := cfg_price_floors r; cfg_lmt := cfg_lmt r;
  cfg_tmax_adjustments := cfg_tmax_adjustments r; cfg_tmax_default := cfg_tmax_default r;
  cfg_video := cfg_video r; cfg_hooks := cfg_hooks r; cfg_validations := cfg_validations r;
  cfg_experiment := cfg_experiment r; cfg_default_request := cfg_default_request r;
  cfg_host_cookie := cfg_host_cookie r; cfg_external_cache := cfg_external_cache r; cfg_debug := cfg_debug r;
  cfg_request_validation := cfg_request_validation r;
  cfg_request_timeout_headers := cfg_request_timeout_headers r; cfg_compression := cfg_compression r;
  cfg_admin := cfg_admin r; cfg_vtrack := cfg_vtrack r; cfg_event := cfg_event r;
  cfg_unix_socket_enable := cfg_unix_socket_enable r; cfg_unix_socket_name := cfg_unix_socket_name r;
  cfg_status_response := cfg_status_response r; cfg_recaptcha_secret := cfg_recaptcha_secret r;
  cfg_amp_timeout_adjustment_ms := cfg_amp_timeout_adjustment_ms r;
  cfg_video_stored_request_required := cfg_video_stored_request_required r;
  cfg_blocked_apps := cfg_blocked_apps r; cfg_account_defaults := cfg_account_defaults r;
  cfg_certificates_file := cfg_certificates_file r; cfg_generate_request_id := cfg_generate_request_id r;
  cfg_datacenter := cfg_datacenter r; cfg_stored_amp_req := cfg_stored_amp_req r;
  cfg_category_mapping := cfg_category_mapping r; cfg_stored_video_req := cfg_stored_video_req r;
  cfg_stored_responses := cfg_stored_responses r;
  cfg_stored_requests_timeout_ms := cfg_stored_requests_timeout_ms r;
  cfg_garbage_collector_threshold := cfg_garbage_collector_threshold r;
  cfg_debug_override_token := cfg_debug_override_token r |}.
Definition set_cfg_adapters (x : gmap string AdapterConfig) (r : CfgConfiguration) : CfgConfiguration := {|
  cfg_host := cfg_host r; cfg_port := cfg_port r; cfg_admin_port := cfg_admin_port r;
  cfg_enable_cors := cfg_enable_cors r; cfg_external_url := cfg_external_url r; cfg_adapters := x;
  cfg_accounts := cfg_accounts r; cfg_metrics := cfg_metrics r; cfg_cache := cfg_cache r;
  cfg_stored_requests := cfg_stored_requests r; cfg_gdpr := cfg_gdpr r; cfg_ccpa := cfg_ccpa r;
  cfg_auction_timeouts := cfg_auction_timeouts r; cfg_currency := cfg_currency r;
  cfg_max_request_size := cfg_max_request_size r; cfg_auto_gen_source_tid := cfg_auto_gen_source_tid r;
  cfg_generate_bid_id := cfg_generate_bid_id r; cfg_account_required := cfg_account_required r;
  cfg_static_dir := cfg_static_dir r; cfg_stored_requests_dir := cfg_stored_requests_dir r;
  cfg_gdpr_enabled := cfg_gdpr_enabled r; cfg_ccpa_enforce := cfg_ccpa_enforce r;
  cfg_schain_node := cfg_schain_node r; cfg_aliases := cfg_aliases r; cfg_http_client := cfg_http_client r;
  cfg_http_client_cache := cfg_http_client_cache r; cfg_user_sync := cfg_user_sync r;
  cfg_analytics := cfg_analytics r; cfg_price_floors := cfg_price_floors r; cfg_lmt := cfg_lmt r;
  cfg_tmax_adjustments := cfg_tmax_adjustments r; cfg_tmax_default := cfg_tmax_default r;
  cfg_video := cfg_video r; cfg_hooks := cfg_hooks r; cfg_validations := cfg_validations r;
  cfg_experiment := cfg_experiment r; cfg_default_request := cfg_default_request r;
  cfg_host_cookie := cfg_host_cookie r; cfg_external_cache := cfg_external_cache r; cfg_debug := cfg_debug r;
  cfg_request_validation := cfg_request_validation r;
  cfg_request_timeout_headers := cfg_request_timeout_headers r; cfg_compression := cfg_compression r;
  cfg_admin := cfg_admin r; cfg_vtrack := cfg_vtrack r; cfg_event := cfg_event r;
  cfg_unix_socket_enable := cfg_unix_socket_enable r; cfg_unix_socket_name := cfg_unix_socket_name r;
  cfg_status_response := cfg_status_response r; cfg_recaptcha_secret := cfg_recaptcha_secret r;
  cfg_amp_timeout_adjustment_ms := cfg_amp_timeout_adjustment_ms r;
  cfg_video_stored_request_required := cfg_video_stored_request_required r;
  cfg_blocked_apps := cfg_blocked_apps r; cfg_account_defaults := cfg_account_defaults r;
  cfg_certificates_file := cfg_certificates_file r; cfg_generate_request_id := cfg_generate_request_id r;
  cfg_datacenter := cfg_datacenter r; cfg_stored_amp_req := cfg_stored_amp_req r;
  cfg_category_mapping := cfg_category_mapping r; cfg_stored_video_req := cfg_stored_video_req r;
  cfg_stored_responses := cfg_stored_responses r;
  cfg_stored_requests_timeout_ms := cfg_stored_requests_timeout_ms r;
  cfg_garbage_collector_threshold := cfg_garbage_collector_threshold r;
  cfg_debug_override_token := cfg_debug_override_token r |}.
Definition set_cfg_auction_timeouts (x : AuctionTimeouts) (r : CfgConfiguration) : CfgConfiguration := {|
  cfg_host := cfg_host r; cfg_port := cfg_port r; cfg_admin_port := cfg_admin_port r;
  cfg_enable_cors := cfg_enable_cors r; cfg_external_url := cfg_external_url r; cfg_adapters := cfg_adapters r;
  cfg_accounts := cfg_accounts r; cfg_metrics := cfg_metrics r; cfg_cache := cfg_cache r;
  cfg_stored_requests := cfg_stored_requests r; cfg_gdpr := cfg_gdpr r; cfg_ccpa := cfg_ccpa r;
  cfg_auction_timeouts := x; cfg_currency := cfg_currency r; cfg_max_request_size := cfg_max_request_size r;
  cfg_auto_gen_source_tid := cfg_auto_gen_source_tid r; cfg_generate_bid_id := cfg_generate_bid_id r;
  cfg_account_required := cfg_account_required r; cfg_static_dir := cfg_static_dir r;
  cfg_stored_requests_dir := cfg_stored_requests_dir r; cfg_gdpr_enabled := cfg_gdpr_enabled r;
  cfg_ccpa_enforce := cfg_ccpa_enforce r; cfg_schain_node := cfg_schain_node r; cfg_aliases := cfg_aliases r;
  cfg_http_client := cfg_http_client r; cfg_http_client_cache := cfg_http_client_cache r;
  cfg_user_sync := cfg_user_sync r; cfg_analytics := cfg_analytics r; cfg_price_floors := cfg_price_floors r;
  cfg_lmt := cfg_lmt r; cfg_tmax_adjustments := cfg_tmax_adjustments r; cfg_tmax_default := cfg_tmax_default r;
  cfg_video := cfg_video r; cfg_hooks := cfg_hooks r; cfg_validations := cfg_validations r;
  cfg_experiment := cfg_experiment r; cfg_default_request := cfg_default_request r;
  cfg_host_cookie := cfg_host_cookie r; cfg_external_cache := cfg_external_cache r; cfg_debug := cfg_debug r;
  cfg_request_validation := cfg_request_validation r;
  cfg_request_timeout_headers := cfg_request_timeout_headers r; cfg_compression := cfg_compression r;
  cfg_admin := cfg_admin r; cfg_vtrack := cfg_vtrack r; cfg_event := cfg_event r;
  cfg_unix_socket_enable := cfg_unix_socket_enable r; cfg_unix_socket_name := cfg_unix_socket_name r;
  cfg_status_response := cfg_status_response r; cfg_recaptcha_secret := cfg_recaptcha_secret r;
  cfg_amp_timeout_adjustment_ms := cfg_amp_timeout_adjustment_ms r;
  cfg_video_stored_request_required := cfg_video_stored_request_required r;
  cfg_blocked_apps := cfg_blocked_apps r; cfg_account_defaults := cfg_account_defaults r;
  cfg_certificates_file := cfg_certificates_file r; cfg_generate_request_id := cfg_generate_request_id r;
  cfg_datacenter := cfg_datacenter r; cfg_stored_amp_req := cfg_stored_amp_req r;
  cfg_category_mapping := cfg_category_mapping r; cfg_stored_video_req := cfg_stored_video_req r;
  cfg_stored_responses := cfg_stored_responses r;
  cfg_stored_requests_timeout_ms := cfg_stored_requests_timeout_ms r;
  cfg_garbage_collector_threshold := cfg_garbage_collector_threshold r;
  cfg_debug_override_token := cfg_debug_override_token r |}.
Definition set_gdpr_enabled (x : bool) (r : GDPRConfig) : GDPRConfig := {|
  gdpr_enabled := x; gdpr_host_vendor_id := gdpr_host_vendor_id r; gdpr_default_value := gdpr_default_value r;
  gdpr_host_vendor_list_url := gdpr_host_vendor_list_url r;
  gdpr_enforce_vendor_list := gdpr_enforce_vendor_list r; gdpr_eea_countries := gdpr_eea_countries r;
  gdpr_send_all_cookies := gdpr_send_all_cookies r;
  gdpr_purpose1_vendor_exceptions := gdpr_purpose1_vendor_exceptions r; gdpr_tcf2 := gdpr_tcf2 r;
  gdpr_non_standard_publishers := gdpr_non_standard_publishers r;
  gdpr_live_gvl_refresh_interval_seconds := gdpr_live_gvl_refresh_interval_seconds r;
  gdpr_timeouts_ms := gdpr_timeouts_ms r |}.
Definition set_ccpa_enforce (x : bool) (r : CCPAConfig) : CCPAConfig := {|
  ccpa_enforce := x |}.
Definition set_adp_endpoint (x : string) (r : AdapterConfig) : AdapterConfig := {|
  adp_endpoint := x; adp_extra_info := adp_extra_info r; adp_enabled := adp_enabled r;
  adp_timeout_ms := adp_timeout_ms r |}.
Definition set_acct_id (x : string) (r : AccountConfig) : AccountConfig := {|
  acct_id := x; acct_disabled := acct_disabled r; acct_price_granularity := acct_price_granularity r;
  acct_default_integration := acct_default_integration r; acct_events := acct_events r;
  acct_events_enabled := acct_events_enabled r; acct_privacy := acct_privacy r;
  acct_price_floors := acct_price_floors r; acct_bid_adjustments := acct_bid_adjustments r;
  acct_auction_timeout_ms := acct_auction_timeout_ms r; acct_debug_allow := acct_debug_allow r;
  acct_cache_ttl := acct_cache_ttl r; acct_cookie_sync := acct_cookie_sync r;
  acct_truncate_target_attr := acct_truncate_target_attr r; acct_hooks := acct_hooks r;
  acct_validations := acct_validations r; acct_default_bid_limit := acct_default_bid_limit r;
  acct_bid_rounding := acct_bid_rounding r; acct_targeting_prefix := acct_targeting_prefix r;
  acct_modules := acct_modules r |}.
(** What serde makes of a document without fields. *)
Definition empty_document : CfgConfiguration := {|
  cfg_host := default_host; cfg_port := default_port; cfg_admin_port := default_admin_port;
  cfg_enable_cors := false; cfg_external_url := ""; cfg_adapters := ∅; cfg_accounts := ∅;
  cfg_metrics := default_MetricsConfig; cfg_cache := default_CacheConfig;
  cfg_stored_requests := default_StoredRequestConfig; cfg_gdpr := default_GDPRConfig;
  cfg_ccpa := default_CCPAConfig; cfg_auction_timeouts := default_AuctionTimeouts;
  cfg_currency := default_CurrencyConfig; cfg_max_request_size := default_max_request_size;
  cfg_auto_gen_source_tid := default_true; cfg_generate_bid_id := false; cfg_account_required := false;
  cfg_static_dir := default_static_dir; cfg_stored_requests_dir := ""; cfg_gdpr_enabled := false;
  cfg_ccpa_enforce := default_true; cfg_schain_node := None; cfg_aliases := ∅;
  cfg_http_client := default_HTTPClientConfig; cfg_http_client_cache := default_HTTPClientConfig;
  cfg_user_sync := default_CfgUserSyncConfig; cfg_analytics := default_AnalyticsConfig;
  cfg_price_floors := default_PriceFloorsConfig; cfg_lmt := default_LmtConfig;
  cfg_tmax_adjustments := default_CfgTmaxAdjustments; cfg_tmax_default := 0; cfg_video := default_VideoConfig;
  cfg_hooks := default_HooksConfig; cfg_validations := default_ValidationsConfig;
  cfg_experiment := default_ExperimentConfig; cfg_default_request := default_DefReqConfig;
  cfg_host_cookie := default_CfgHostCookieConfig; cfg_external_cache := default_ExternalCacheConfig;
  cfg_debug := default_DebugConfig; cfg_request_validation := default_RequestValidationConfig;
  cfg_request_timeout_headers := default_RequestTimeoutHeaders; cfg_compression := default_CompressionConfig;
  cfg_admin := default_AdminConfig; cfg_vtrack := default_VTrackConfig; cfg_event := default_EventConfig;
  cfg_unix_socket_enable := false; cfg_unix_socket_name := ""; cfg_status_response := "";
  cfg_recaptcha_secret := ""; cfg_amp_timeout_adjustment_ms := 0; cfg_video_stored_request_required := false;
  cfg_blocked_apps := []; cfg_account_defaults := default_AccountConfig; cfg_certificates_file := "";
  cfg_generate_request_id := false; cfg_datacenter := ""; cfg_stored_amp_req := default_StoredRequestConfig;
  cfg_category_mapping := default_StoredRequestConfig; cfg_stored_video_req := default_StoredRequestConfig;
  cfg_stored_responses := default_StoredRequestConfig;
  cfg_stored_requests_timeout_ms := default_stored_requests_timeout_ms; cfg_garbage_collector_threshold := 0;
  cfg_debug_override_token := None |}.
