(* ===== verification/Config.v ===== *)
(** * The host's and the accounts' configuration

    config/src/lib.rs: [Configuration::validate], the overrides by environment
    variables, the defaults [Configuration::load] starts from, and the synchronous
    account fetchers; config/src/account.rs: what an account's configuration
    answers and its validation; config/src/env_config.rs: the names of the
    variables; config/src/account_fetcher.rs: an account as its file merged onto
    the host's defaults.

    The [config] crate that reads files and the environment, serde and json_patch
    are parameters. *)

From S2P Require Import Prelude Json Text ConfigData.

(** ** Validation *)

(** [s.split("://").next()] and [.nth(1)] *)
Definition scheme_and_rest (s : string) : string * option string :=
  match str_find "://" s with
  | Some i =>
      let rest := str_drop (i + 3) s in
      (String.substring 0 i s,
       Some match str_find "://" rest with Some j => String.substring 0 j rest | None => rest end)
  | None => (s, None)
  end.
Definition is_ascii_alphabetic (a : Ascii.ascii) : bool :=
  let n := Z.of_N (Ascii.N_of_ascii a) in ((65 <=? n) && (n <=? 90)) || ((97 <=? n) && (n <=? 122)).
Definition is_valid_url (s : string) : bool :=
  let '(scheme, rest) := scheme_and_rest s in
  str_contains "://" s && negb (str_is_empty scheme) && forallb is_ascii_alphabetic (String.list_ascii_of_string scheme)
  && match rest with Some r => negb (str_is_empty r) | None => true end.

(** An error where a condition holds. *)
Definition verr_if (b : bool) (msg : string) : list string := if b then [msg] else [].

Definition validate_gdpr (cfg : CfgConfiguration) : list string :=
  let dv := gdpr_default_value (cfg_gdpr cfg) in
  verr_if (negb (bool_decide (dv ∈ ["0"; "1"])))
    ("gdpr.default_value must be " +:+ dq +:+ "0" +:+ dq +:+ " or " +:+ dq +:+ "1" +:+ dq +:+ ". Got " +:+ dq +:+ dv +:+ dq)
  ++ verr_if (65535 <? gdpr_host_vendor_id (cfg_gdpr cfg))
    ("gdpr.host_vendor_id must be in the range [0, 65535]. Got " +:+ pretty (gdpr_host_vendor_id (cfg_gdpr cfg))).
Definition validate_external_cache (cfg : CfgConfiguration) : list string :=
  let ec := cfg_external_cache cfg in
  if str_is_empty (xc_host ec) && str_is_empty (xc_path ec) then [] else
  verr_if (negb (bool_decide (xc_scheme ec ∈ [""; "http"; "https"])))
    "external cache scheme must be http or https if specified"
  ++ verr_if (negb (eqb (str_is_empty (xc_host ec)) (str_is_empty (xc_path ec))))
    "external cache host and path must both be specified"
  ++ verr_if (bool_decide (last (String.list_ascii_of_string (xc_host ec)) = Some (ch "/")))
    ("external cache host '" +:+ xc_host ec +:+ "' must not end with a path separator")
  ++ verr_if (str_contains "://" (xc_host ec))
    ("external cache host must not specify a protocol. '" +:+ xc_host ec +:+ "'")
  ++ verr_if (negb (str_is_empty (xc_path ec)) && negb (String.prefix "/" (xc_path ec)))
    ("external cache path '" +:+ xc_path ec +:+ "' must begin with a path separator").
Definition validate_price_floors (cfg : CfgConfiguration) : list string :=
  let pf := acct_price_floors (cfg_account_defaults cfg) in
  verr_if (100 <? apf_enforce_floors_rate pf)
    "account_defaults.price_floors.enforce_floors_rate should be between 0 and 100"
  ++ verr_if (20 <? apf_max_schema_dims pf)
    "account_defaults.price_floors.max_schema_dims should be between 0 and 20".
Definition tcf2_purposes (t : Tcf2Config) : list Tcf2PurposeConfig :=
  [tcf2_purpose1 t; tcf2_purpose2 t; tcf2_purpose3 t; tcf2_purpose4 t; tcf2_purpose5 t;
   tcf2_purpose6 t; tcf2_purpose7 t; tcf2_purpose8 t; tcf2_purpose9 t; tcf2_purpose10 t].
Definition validate_tcf2_purposes (cfg : CfgConfiguration) : list string :=
  concat (imap (λ i p,
    verr_if (negb (bool_decide (tp_enforce_algo p ∈ [""; "basic"; "full"])))
      ("gdpr.tcf2.purpose" +:+ pretty (Z.of_nat i + 1) +:+ ".enforce_algo must be " +:+ dq +:+ "basic" +:+ dq +:+ " or "
       +:+ dq +:+ "full" +:+ dq +:+ ". Got " +:+ dq +:+ tp_enforce_algo p +:+ dq)) (tcf2_purposes (gdpr_tcf2 (cfg_gdpr cfg)))).

Section Validate.
Context `{MI : MapIter} (f32_to_string : f64 → string).
Definition validate_adapters (cfg : CfgConfiguration) : list string :=
  map_iter (cfg_adapters cfg) ≫= λ '(name, adapter),
    verr_if (negb (str_is_empty (adp_endpoint adapter)) && negb (is_valid_url (adp_endpoint adapter)))
      ("adapters." +:+ name +:+ ".endpoint '" +:+ adp_endpoint adapter +:+ "' is not a valid URL").
(** The errors in the order they are pushed; none means [Ok]. *)
Definition validate_config (cfg : CfgConfiguration) : list string :=
  let tmo := cfg_auction_timeouts cfg in
  let rate := tnot_sampling_rate (dbg_timeout_notification (cfg_debug cfg)) in
  verr_if (str_is_empty (cfg_host cfg)) "host must not be empty"
  ++ verr_if (cfg_port cfg =? 0) "port must be greater than 0"
  ++ verr_if ((0 <? tmo_max tmo) && (0 <? tmo_default tmo) && (tmo_max tmo <? tmo_default tmo))
      ("auction_timeouts.max (" +:+ pretty (tmo_max tmo) +:+ ") cannot be less than auction_timeouts.default ("
       +:+ pretty (tmo_default tmo) +:+ ")")
  ++ verr_if (cfg_stored_requests_timeout_ms cfg =? 0) "stored_requests_timeout_ms must be > 0"
  ++ validate_gdpr cfg
  ++ validate_external_cache cfg
  ++ validate_adapters cfg
  ++ match metr_prometheus (cfg_metrics cfg) with
     | Some prom => verr_if ((0 <? prom_port prom) && (prom_timeout_ms prom =? 0))
         ("metrics.prometheus.timeout_ms must be positive if metrics.prometheus.port is defined. Got timeout="
          +:+ pretty (prom_timeout_ms prom) +:+ " and port=" +:+ pretty (prom_port prom))
     | None => []
     end
  ++ verr_if (f64_ltb rate f64_zero || f64_gtb rate (f64_of_Z 1))
      ("debug.timeout_notification.sampling_rate must be between 0.0 and 1.0. Got " +:+ f32_to_string rate)
  ++ validate_price_floors cfg
  ++ validate_tcf2_purposes cfg
  ++ verr_if (60000 <? tmo_max tmo)
      ("auction_timeouts.max (" +:+ pretty (tmo_max tmo) +:+ ") exceeds 60000ms, which is unreasonably large")
  ++ verr_if (60000 <? cfg_tmax_default cfg)
      ("tmax_default (" +:+ pretty (cfg_tmax_default cfg) +:+ ") exceeds 60000ms, which is unreasonably large").
End Validate.

(** ** Environment variables *)

Section Env.
Context (to_lowercase to_uppercase : string → string).
(** The variables the process has, in the order [std::env::vars] gives them. *)
Definition env_var (vars : list (string * string)) (key : string) : option string :=
  snd <$> head (filter (λ e : string * string, e.1 = key) vars).
Definition config_key_to_env_var (key : string) : string :=
  "PBS_" +:+ to_uppercase (str_replace "." "_" key).
Definition env_value_for_key (vars : list (string * string)) (key : string) : option string :=
  env_var vars (config_key_to_env_var key).
Definition str_strip_suffix (suffix s : string) : option string :=
  let n := (String.length s - String.length suffix)%nat in
  if bool_decide (String.length suffix ≤ String.length s)%nat && bool_decide (str_drop n s = suffix)
  then Some (String.substring 0 n s) else None.
Definition str_strip_prefix (pre s : string) : option string :=
  if String.prefix pre s then Some (str_drop (String.length pre) s) else None.
(** The bidder a variable names the endpoint of. *)
Definition endpoint_bidder (key : string) : option string :=
  rest ← str_strip_prefix "PBS_ADAPTERS_" key;
  to_lowercase <$> str_strip_suffix "_ENDPOINT" rest.
Definition set_adapter_endpoint (adapters : gmap string AdapterConfig) (e : string * string) : gmap string AdapterConfig :=
  match endpoint_bidder e.1 with
  | Some bidder => <[bidder := set_adp_endpoint e.2 (default default_AdapterConfig (adapters !! bidder))]> adapters
  | None => adapters
  end.
Definition env_flag (val : string) : bool := bool_decide (to_lowercase val ∈ ["true"; "1"; "yes"]).
Definition with_var (vars : list (string * string)) (key : string)
    (f : string → CfgConfiguration → CfgConfiguration) (cfg : CfgConfiguration) : CfgConfiguration :=
  match env_var vars key with Some val => f val cfg | None => cfg end.
Definition apply_env_overrides (vars : list (string * string)) (cfg : CfgConfiguration) : CfgConfiguration :=
  let cfg := with_var vars "PBS_PORT" (λ val cfg,
    match parse_int 0 65535 val with Some port => set_cfg_port port cfg | None => cfg end) cfg in
  let cfg := with_var vars "PBS_HOST" set_cfg_host cfg in
  let cfg := with_var vars "PBS_STATIC_DIR" set_cfg_static_dir cfg in
  let cfg := with_var vars "PBS_STORED_REQUESTS_DIR" set_cfg_stored_requests_dir cfg in
  let cfg := with_var vars "PBS_MAX_REQUEST_SIZE" (λ val cfg,
    match parse_int 0 (2 ^ 64 - 1) val with Some size => set_cfg_max_request_size size cfg | None => cfg end) cfg in
  let cfg := with_var vars "PBS_GDPR_ENABLED" (λ val cfg,
    set_cfg_gdpr (set_gdpr_enabled (env_flag val) (cfg_gdpr cfg)) (set_cfg_gdpr_enabled (env_flag val) cfg)) cfg in
  let cfg := with_var vars "PBS_CCPA_ENFORCE" (λ val cfg,
    set_cfg_ccpa (set_ccpa_enforce (env_flag val) (cfg_ccpa cfg)) (set_cfg_ccpa_enforce (env_flag val) cfg)) cfg in
  set_cfg_adapters (fold_left set_adapter_endpoint vars (cfg_adapters cfg)) cfg.
(** What [Configuration::load] gives without a file or a variable: the defaults it
    sets, and serde's for the rest. *)
Definition load_defaults : CfgConfiguration :=
  set_cfg_auction_timeouts {| tmo_default := 1000; tmo_max := 5000 |}
    (set_cfg_stored_requests_dir "./stored_requests" empty_document).
End Env.

(** ** What an account's configuration answers *)

Inductive CfgChannelType : Type := ChAmp | ChApp | ChVideo | ChWeb | ChDooh.
#[export] Instance CfgChannelType_eq_dec : EqDecision CfgChannelType.
Proof. solve_decision. Defined.
Definition channel_to_string (c : CfgChannelType) : string :=
  match c with ChAmp => "amp" | ChApp => "app" | ChVideo => "video" | ChWeb => "web" | ChDooh => "dooh" end.
Definition get_by_channel_type (c : ChannelEnabledConfig) (channel : CfgChannelType) : option bool :=
  match channel with
  | ChAmp => chan_amp c | ChApp => chan_app c | ChVideo => chan_video c | ChWeb => chan_web c | ChDooh => chan_dooh c
  end.
Definition ccpa_enabled_for_channel_type (a : AccountCcpaConfig) (channel : CfgChannelType) : option bool :=
  match get_by_channel_type (accpa_channel_enabled a) channel with Some v => Some v | None => accpa_enabled a end.
Definition gdpr_enabled_for_channel_type (a : AccountGdprConfig) (channel : CfgChannelType) : option bool :=
  match get_by_channel_type (agdpr_channel_enabled a) channel with Some v => Some v | None => agdpr_enabled a end.

Inductive Tcf2EnforcementAlgo : Type := AlgoUndefined | AlgoBasic | AlgoFull.
Definition purpose_config (a : AccountGdprConfig) (purpose : Z) : option AccountGdprPurposeConfig :=
  match purpose with
  | 1 => Some (agdpr_purpose1 a) | 2 => Some (agdpr_purpose2 a) | 3 => Some (agdpr_purpose3 a)
  | 4 => Some (agdpr_purpose4 a) | 5 => Some (agdpr_purpose5 a) | 6 => Some (agdpr_purpose6 a)
  | 7 => Some (agdpr_purpose7 a) | 8 => Some (agdpr_purpose8 a) | 9 => Some (agdpr_purpose9 a)
  | 10 => Some (agdpr_purpose10 a) | _ => None
  end.
Definition acct_purpose_enforced (a : AccountGdprConfig) (purpose : Z) : bool * bool :=
  match purpose_config a purpose with Some cfg => (agp_enforce_purpose cfg, true) | None => (true, false) end.
Definition acct_purpose_enforcing_vendors (a : AccountGdprConfig) (purpose : Z) : bool * bool :=
  match purpose_config a purpose with Some cfg => (agp_enforce_vendors cfg, true) | None => (true, false) end.
Definition acct_purpose_vendor_exceptions (a : AccountGdprConfig) (purpose : Z) : gset string * bool :=
  match purpose_config a purpose with
  | Some cfg => if bool_decide (agp_vendor_exceptions cfg = []) then (∅, true)
                else (list_to_set (agp_vendor_exceptions cfg), true)
  | None => (∅, false)
  end.
Section Lower.
Context (to_lowercase : string → string).
Definition algo_from_str_opt (s : string) : Tcf2EnforcementAlgo :=
  if bool_decide (to_lowercase s = "basic") then AlgoBasic
  else if bool_decide (to_lowercase s = "full") then AlgoFull else AlgoUndefined.
Definition acct_purpose_enforcement_algo (a : AccountGdprConfig) (purpose : Z) : Tcf2EnforcementAlgo * bool :=
  match purpose_config a purpose with
  | Some cfg =>
      if str_is_empty (agp_enforce_algo cfg) then (AlgoUndefined, false) else
      match algo_from_str_opt (agp_enforce_algo cfg) with
      | AlgoUndefined => (AlgoUndefined, false)
      | algo => (algo, true)
      end
  | None => (AlgoUndefined, false)
  end.
End Lower.

Definition is_adjust_for_bid_adjustment_enabled (pf : AccountPriceFloorsConfig) : bool := apf_adjust_for_bid_adjustment pf.
Definition validate_fetch (f : AccountFloorFetchConfig) : list string :=
  verr_if ((0 <? aff_period_sec f) && (0 <? aff_max_age_sec f) && (aff_max_age_sec f <? aff_period_sec f))
    "account_defaults.price_floors.fetch.period_sec should be less than account_defaults.price_floors.fetch.max_age_sec"
  ++ verr_if ((0 <? aff_period_sec f) && (aff_period_sec f <? 300))
    "account_defaults.price_floors.fetch.period_sec should not be less than 300 seconds"
  ++ verr_if ((0 <? aff_max_age_sec f) && (aff_max_age_sec f <? 600))
    "account_defaults.price_floors.fetch.max_age_sec should not be less than 600 seconds"
  ++ verr_if ((0 <? aff_timeout_ms f) && negb ((10 <? aff_timeout_ms f) && (aff_timeout_ms f <? 10000)))
    "account_defaults.price_floors.fetch.timeout_ms should be between 10 to 10,000 milliseconds"
  ++ verr_if (20 <? aff_max_schema_dims f)
    "account_defaults.price_floors.fetch.max_schema_dims should not be less than 0 and greater than 20".
Definition validate_account_floors (pf : AccountPriceFloorsConfig) : list string :=
  verr_if (100 <? apf_enforce_floors_rate pf)
    "account_defaults.price_floors.enforce_floors_rate should be between 0 and 100"
  ++ verr_if (2 ^ 31 - 1 <? apf_max_rules pf)
    ("account_defaults.price_floors.max_rules should be between 0 and " +:+ pretty (2 ^ 31 - 1))
  ++ verr_if (20 <? apf_max_schema_dims pf)
    "account_defaults.price_floors.max_schema_dims should be between 0 and 20"
  ++ validate_fetch (apf_fetch pf).
Definition module_config (modules : gmap string (gmap string Value)) (id : string) : string + option Value :=
  match split_once (ch ".") id with
  | Some (vendor, module) => inr (modules !! vendor ≫= λ m, m !! module)
  | None => inl ("ID must consist of vendor and module names separated by dot, got: " +:+ id)
  end.
Definition IPV4_BIT_SIZE : Z := 32.
Definition IPV6_BIT_SIZE : Z := 128.
Definition validate_ipv4_keep_bits (bits : Z) : string + () :=
  if IPV4_BIT_SIZE <? bits then inl ("bits cannot exceed " +:+ pretty IPV4_BIT_SIZE +:+ " in ipv4 address, or be less than 0")
  else inr ().
Definition validate_ipv6_keep_bits (bits : Z) : string + () :=
  if IPV6_BIT_SIZE <? bits then inl ("bits cannot exceed " +:+ pretty IPV6_BIT_SIZE +:+ " in ipv6 address, or be less than 0")
  else inr ().

(** ** Account fetchers *)

(** serde_json and json_patch. *)
Class AccountCodec : Type := {
  json_from_slice : list Z → option Value;
  json_to_vec : Value → option (list Z);
  patch_merge : Value → Value → Value;
  account_from_slice : list Z → option AccountConfig;
  account_to_vec : AccountConfig → option (list Z);
}.
Inductive AccountError : Type :=
| AccountNotFound (id : string)
| AccountRequired
| AccountVerificationFailed
| MalformedAccount (id : string)
| AccountDisabled (id : string)
| AccountFetchError (id : string) (source : string).
Definition account_error_to_string (e : AccountError) : string :=
  match e with
  | AccountNotFound id => "Account not found: " +:+ id
  | AccountRequired => "Prebid-server has been configured to discard requests without a valid Account ID. Please reach out to the prebid server host."
  | AccountVerificationFailed => "Prebid-server could not verify the Account ID. Please reach out to the prebid server host."
  | MalformedAccount id => "The prebid-server account config for account id " +:+ dq +:+ id +:+ dq +:+ " is malformed. Please reach out to the prebid server host."
  | AccountDisabled id => "Prebid-server has disabled Account ID: " +:+ id +:+ ", please reach out to the prebid server host."
  | AccountFetchError id source => "Failed to fetch account " +:+ dq +:+ id +:+ dq +:+ ": " +:+ source
  end.
(** The asynchronous trait. *)
Class AccountFetcher (F : Type) : Type :=
  fetch_account : F → option (list Z) → string → AccountError + list Z.

Section Accounts.
Context `{AccountCodec}.
Definition merge_account_json (defaults patch : list Z) : option (list Z) :=
  base ← json_from_slice defaults; overlay ← json_from_slice patch; json_to_vec (patch_merge base overlay).
(** The files of a directory, read when the fetcher is made: no entry is another
    file's, none a file that cannot be read or is not JSON. *)
Record FileAccountFetcher : Type := { faf_accounts : gmap string (list Z) }.
Definition file_fetcher_new (files : list (string * option (list Z))) : option FileAccountFetcher :=
  (λ m, {| faf_accounts := m |}) <$> foldl (λ acc '(stem, data),
    m ← acc; data ← data; _ ← json_from_slice data; Some (<[stem := data]> m)) (Some ∅) files.
Definition file_fetch_account (f : FileAccountFetcher) (defaults : option (list Z)) (account_id : string)
    : AccountError + list Z :=
  if str_is_empty account_id then inl (AccountNotFound "") else
  match faf_accounts f !! account_id with
  | None => inl (AccountNotFound account_id)
  | Some account_json =>
      match defaults with
      | Some d => match merge_account_json d account_json with
                  | Some merged => inr merged
                  | None => inl (MalformedAccount account_id)
                  end
      | None => inr account_json
      end
  end.
#[export] Instance file_account_fetcher : AccountFetcher FileAccountFetcher := file_fetch_account.

Definition not_disabled (account_id : string) (account : AccountConfig) : AccountError + AccountConfig :=
  if acct_disabled account then inl (AccountDisabled account_id) else inr account.
Definition get_account `{AccountFetcher F} (cfg : CfgConfiguration) (fetcher : F) (account_id : string)
    : AccountError + AccountConfig :=
  if cfg_account_required cfg && str_is_empty account_id then inl AccountRequired else
  match fetch_account fetcher (account_to_vec (cfg_account_defaults cfg)) account_id with
  | inr merged_json =>
      match account_from_slice merged_json with
      | None => inl (MalformedAccount account_id)
      | Some account =>
          let account := if str_is_empty (acct_id account) then set_acct_id account_id account else account in
          not_disabled account_id account
      end
  | inl (AccountNotFound _) =>
      if cfg_account_required cfg && acct_disabled (cfg_account_defaults cfg) then inl AccountVerificationFailed
      else not_disabled account_id (set_acct_id account_id (cfg_account_defaults cfg))
  | inl e => inl e
  end.
End Accounts.

(** [base_dir.join(file)] of a name without a separator. *)
Definition path_join (base file : string) : string :=
  if str_is_empty base then file
  else if bool_decide (last (String.list_ascii_of_string base) = Some (ch "/")) then base +:+ file
  else base +:+ "/" +:+ file.

(** The synchronous trait of lib.rs and its three fetchers; an error is its text. *)
Section Sync.
Context (read_to_string : string → string + string) (account_from_str : string → string + AccountConfig).
Definition sync_file_fetch (base_dir id : string) : string + AccountConfig :=
  if str_is_empty id then inl "account ID must not be empty"
  else if str_contains ".." id || str_contains "/" id || str_contains "\" id then inl ("invalid account ID '" +:+ id +:+ "'")
  else
    let path := path_join base_dir (id +:+ ".json") in
    match read_to_string path with
    | inl _ => inl ("failed to read account file '" +:+ path +:+ "'")
    | inr contents =>
        match account_from_str contents with
        | inl _ => inl ("failed to parse account file '" +:+ path +:+ "'")
        | inr account => inr account
        end
    end.
(** The HTTP fetcher's GET always fails. *)
Definition sync_http_fetch (base_url id : string) : string + AccountConfig :=
  if str_is_empty id then inl "account ID must not be empty"
  else inl ("failed to fetch account from '" +:+ trim_end_matches (ch "/") base_url +:+ "/" +:+ id +:+ "'").
Definition sync_memory_fetch (accounts : gmap string AccountConfig) (id : string) : string + AccountConfig :=
  match accounts !! id with Some account => inr account | None => inl ("account '" +:+ id +:+ "' not found") end.
End Sync.

(** ** Validation accepts exactly the valid configurations *)

Lemma verr_if_nil b msg : verr_if b msg = [] ↔ b = false.
Proof. by destruct b. Qed.
(** What [validate_config] asks for, as conditions on the configuration. *)
Definition valid_gdpr (g : GDPRConfig) : Prop :=
  gdpr_default_value g ∈ ["0"; "1"] ∧ gdpr_host_vendor_id g ≤ 65535
  ∧ Forall (λ p, tp_enforce_algo p ∈ [""; "basic"; "full"]) (tcf2_purposes (gdpr_tcf2 g)).
(** Both host and path or neither; the host a name alone, the path absolute. *)
Definition valid_external_cache (ec : ExternalCacheConfig) : Prop :=
  (xc_host ec = "" ∧ xc_path ec = "") ∨
  (xc_scheme ec ∈ [""; "http"; "https"] ∧ xc_host ec ≠ "" ∧ last (String.list_ascii_of_string (xc_host ec)) ≠ Some (ch "/")
   ∧ str_contains "://" (xc_host ec) = false ∧ String.prefix "/" (xc_path ec) = true).
Definition valid_timeouts (cfg : CfgConfiguration) : Prop :=
  let tmo := cfg_auction_timeouts cfg in
  tmo_max tmo ≤ 60000 ∧ (0 < tmo_max tmo → 0 < tmo_default tmo → tmo_default tmo ≤ tmo_max tmo)
  ∧ cfg_tmax_default cfg ≤ 60000 ∧ cfg_stored_requests_timeout_ms cfg ≠ 0.
Definition valid_config (cfg : CfgConfiguration) : Prop :=
  cfg_host cfg ≠ "" ∧ cfg_port cfg ≠ 0 ∧ valid_timeouts cfg ∧ valid_gdpr (cfg_gdpr cfg)
  ∧ valid_external_cache (cfg_external_cache cfg)
  ∧ (∀ name a, cfg_adapters cfg !! name = Some a → adp_endpoint a = "" ∨ is_valid_url (adp_endpoint a) = true)
  ∧ (∀ prom, metr_prometheus (cfg_metrics cfg) = Some prom → 0 < prom_port prom → prom_timeout_ms prom ≠ 0)
  ∧ (let rate := tnot_sampling_rate (dbg_timeout_notification (cfg_debug cfg)) in
     f64_ltb rate f64_zero = false ∧ f64_gtb rate (f64_of_Z 1) = false)
  ∧ apf_enforce_floors_rate (acct_price_floors (cfg_account_defaults cfg)) ≤ 100
  ∧ apf_max_schema_dims (acct_price_floors (cfg_account_defaults cfg)) ≤ 20.

Lemma str_is_empty_iff s : str_is_empty s = true ↔ s = "".
Proof. by destruct s. Qed.
Lemma str_is_empty_false s : str_is_empty s = false ↔ s ≠ "".
Proof. by destruct s. Qed.
Lemma validate_tcf2_nil cfg : validate_tcf2_purposes cfg = [] ↔
  Forall (λ p, tp_enforce_algo p ∈ [""; "basic"; "full"]) (tcf2_purposes (gdpr_tcf2 (cfg_gdpr cfg))).
Proof.
  unfold validate_tcf2_purposes. generalize (tcf2_purposes (gdpr_tcf2 (cfg_gdpr cfg))) as l. intros l.
  assert (∀ (f : nat → Tcf2PurposeConfig → string), concat (imap (λ i p,
    verr_if (negb (bool_decide (tp_enforce_algo p ∈ [""; "basic"; "full"]))) (f i p)) l) = [] ↔
    Forall (λ p, tp_enforce_algo p ∈ [""; "basic"; "full"]) l) as Hl; [|apply Hl].
  induction l as [|p l IH]; intros f; [by split|]. rewrite imap_cons. cbn [concat]. rewrite app_nil, verr_if_nil, Forall_cons.
  rewrite negb_false_iff, bool_decide_eq_true. f_equiv. apply (IH (λ i p, f (S i) p)).
Qed.
Lemma validate_external_cache_nil cfg :
  validate_external_cache cfg = [] ↔ valid_external_cache (cfg_external_cache cfg).
Proof.
  unfold validate_external_cache, valid_external_cache. destruct (cfg_external_cache cfg) as [scheme host path]. cbn.
  destruct (str_is_empty host) eqn:Hh, (str_is_empty path) eqn:Hp;
    rewrite ?str_is_empty_iff, ?str_is_empty_false in Hh; rewrite ?str_is_empty_iff, ?str_is_empty_false in Hp; subst.
  all: cbn [andb]; rewrite ?app_nil, ?verr_if_nil, ?negb_false_iff, ?bool_decide_eq_true, ?bool_decide_eq_false.
  all: cbn; split; [intros Hv; destruct_and?|intros [?|?]; destruct_and?]; subst; try done.
  - by left.
  - right. by rewrite negb_false_iff in *.
  - repeat split; try done. by rewrite negb_false_iff.
Qed.
Lemma bind_nil {A B} (f : A → list B) l : l ≫= f = [] ↔ Forall (λ x, f x = []) l.
Proof. induction l as [|x l IH]; csimpl; [done|]. by rewrite app_nil, Forall_cons, IH. Qed.
Section Validity.
Context `{MI : MapIter} (f32_to_string : f64 → string).
Lemma validate_adapters_nil cfg : validate_adapters cfg = [] ↔
  ∀ name a, cfg_adapters cfg !! name = Some a → adp_endpoint a = "" ∨ is_valid_url (adp_endpoint a) = true.
Proof.
  unfold validate_adapters. rewrite bind_nil. split; intros Ha.
  - intros name a Hn. apply map_iter_elem in Hn. rewrite Forall_forall in Ha. specialize (Ha _ Hn).
    rewrite verr_if_nil, andb_false_iff, !negb_false_iff, str_is_empty_iff in Ha. done.
  - apply Forall_forall. intros [name a] Hn%map_iter_elem. rewrite verr_if_nil, andb_false_iff, !negb_false_iff, str_is_empty_iff.
    eauto.
Qed.
Lemma valid_order_iff max dflt : (0 <? max) && (0 <? dflt) && (max <? dflt) = false ↔
  (0 < max → 0 < dflt → dflt ≤ max).
Proof. destruct (0 <? max) eqn:?, (0 <? dflt) eqn:?, (max <? dflt) eqn:?; cbn; split; intros; try done; lia. Qed.
Lemma valid_prometheus_iff (o : option PrometheusConfig) (f : PrometheusConfig → string) :
  match o with
  | Some prom => verr_if ((0 <? prom_port prom) && (prom_timeout_ms prom =? 0)) (f prom)
  | None => []
  end = [] ↔ ∀ prom, o = Some prom → 0 < prom_port prom → prom_timeout_ms prom ≠ 0.
Proof.
  destruct o as [p|]; [|naive_solver]. rewrite verr_if_nil, andb_false_iff. split.
  - intros Hp ? [= <-] ?. lia.
  - intros Hp. specialize (Hp p eq_refl). lia.
Qed.
(** [Configuration::validate] accepts exactly the valid configurations. *)
Lemma config_validate_spec cfg : validate_config f32_to_string cfg = [] ↔ valid_config cfg.
Proof.
  unfold validate_config, valid_config, valid_timeouts, valid_gdpr, validate_gdpr, validate_price_floors.
  rewrite !app_nil, !verr_if_nil, validate_external_cache_nil, validate_adapters_nil, validate_tcf2_nil.
  rewrite negb_false_iff, bool_decide_eq_true, str_is_empty_false, orb_false_iff, !Z.eqb_neq, !Z.ltb_ge.
  rewrite valid_order_iff.
  rewrite (valid_prometheus_iff _ (λ prom, _)). tauto.
Qed.
End Validity.

(** What the server starts with is valid; [Default::default()] is not. *)
Example load_defaults_valid : valid_config load_defaults.
Proof.
  unfold valid_config. repeat split; try done; cbn.
  - apply elem_of_cons. right. by apply list_elem_of_singleton.
  - repeat constructor.
  - by left.
Qed.
Example default_is_not_valid : ¬ valid_config default_CfgConfiguration.
Proof. by intros [[] _]. Qed.
(** A section that the document leaves out is its [Default], not what the functions
    for its missing fields give: the admin listener is off, the cookie's life zero. *)
Example missing_sections :
  admin_enabled (cfg_admin empty_document) = false ∧ default_true = true
  ∧ hcookie_ttl_days (cfg_host_cookie empty_document) = 0 ∧ default_host_cookie_ttl_days = 90
  ∧ vtrack_timeout_ms (cfg_vtrack empty_document) = 0 ∧ default_vtrack_timeout = 2000
  ∧ event_timeout_ms (cfg_event empty_document) = 0 ∧ default_event_timeout = 1000.
Proof. done. Qed.

(** ** URLs *)

Lemma str_find_letters s t : forallb is_ascii_alphabetic (String.list_ascii_of_string s) = true →
  str_find "://" (s +:+ "://" +:+ t) = Some (String.length s).
Proof.
  induction s as [|a s IH].
  { intros _. change ("" +:+ "://" +:+ t) with ("://" +:+ t). cbn. by destruct t. }
  intros [Ha Hs]%andb_true_iff. change (String a s +:+ "://" +:+ t) with (String a (s +:+ "://" +:+ t)).
  assert (String.prefix "://" (String a (s +:+ "://" +:+ t)) = false) as Hp.
  { cbn. case_match; [subst; by vm_compute in Ha|done]. }
  cbn [str_find]. by rewrite Hp, IH.
Qed.
Lemma str_contains_find pat s : str_contains pat s = bool_decide (is_Some (str_find pat s)).
Proof.
  induction s as [|a s IH]; cbn [str_contains str_find].
  - by destruct (String.prefix pat "").
  - destruct (String.prefix pat (String a s)); [done|]. cbn. rewrite IH. by destruct (str_find pat s).
Qed.
Lemma no_prefix_find pat s i : str_find pat s = Some i → (i = 0%nat ↔ String.prefix pat s = true).
Proof.
  destruct s as [|a s]; cbn [str_find].
  - destruct (String.prefix pat "") eqn:Hp; [|done]. by intros [= <-].
  - destruct (String.prefix pat (String a s)) eqn:Hp; [by intros [= <-]|].
    intros (j&_&->)%fmap_Some. by split.
Qed.
Lemma str_find_prefix pat s : String.prefix pat s = true → str_find pat s = Some 0%nat.
Proof. by destruct s; cbn [str_find]; intros ->. Qed.
(** A URL is letters, the separator and a rest that does not begin with one. *)
Lemma is_valid_url_iff s : is_valid_url s = true ↔ ∃ scheme rest, s = scheme +:+ "://" +:+ rest
  ∧ scheme ≠ "" ∧ forallb is_ascii_alphabetic (String.list_ascii_of_string scheme) = true
  ∧ rest ≠ "" ∧ String.prefix "://" rest = false.
Proof.
  assert (∀ rest, (match str_find "://" rest with Some j => String.substring 0 j rest | None => rest end = "")
    ↔ rest = "" ∨ String.prefix "://" rest = true) as Hrest.
  { intros rest. destruct (str_find "://" rest) as [j|] eqn:Hj.
    - rewrite <-(no_prefix_find _ _ _ Hj). destruct rest as [|a rest]; [by split; [left|destruct j]|].
      destruct j as [|j]; [by split; [right|]|]. by split; [|intros [?|?]].
    - split; [by left|]. intros [?|Hp%str_find_prefix]; congruence. }
  assert (∀ scheme rest, str_drop (String.length scheme + 3) (scheme +:+ "://" +:+ rest) = rest) as Hdrop.
  { intros scheme rest. rewrite <-str_app_assoc. change 3%nat with (String.length "://").
    rewrite <-str_length_app. apply str_drop_app. }
  unfold is_valid_url, scheme_and_rest. split.
  - destruct (str_find "://" s) as [i|] eqn:Hi; rewrite !andb_true_iff, !negb_true_iff.
    + apply str_find_split in Hi as (scheme&rest&->&<-). rewrite substring_app_l, Hdrop.
      intros [[[_ Hs] Hl] Hr]. exists scheme, rest. rewrite !str_is_empty_false in *. rewrite Hrest in Hr.
      destruct (String.prefix "://" rest); naive_solver.
    + intros [[[Hc _] _] _]. by rewrite str_contains_find, Hi in Hc.
  - intros (scheme&rest&->&Hs&Hl&Hr&Hp). rewrite str_find_letters by done. rewrite substring_app_l, Hdrop, Hl.
    rewrite (proj2 (str_is_empty_false scheme)) by done.
    rewrite str_contains_find, str_find_letters by done. cbn.
    apply negb_true_iff, str_is_empty_false. rewrite Hrest. intros [?|?]; congruence.
Qed.

(** ** Environment variables *)

Section EnvSpec.
Context (to_lowercase to_uppercase : string → string).
(** The last variable that names a bidder gives its endpoint; the rest of its
    configuration is what the document says, or the default of a new one. *)
Lemma env_endpoints_lookup vars m b :
  fold_left (set_adapter_endpoint to_lowercase) vars m !! b =
  match last (filter (λ e : string * string, endpoint_bidder to_lowercase e.1 = Some b) vars) with
  | Some e => Some (set_adp_endpoint e.2 (default default_AdapterConfig (m !! b)))
  | None => m !! b
  end.
Proof.
  induction vars as [|e vars IH] using rev_ind; [done|].
  rewrite fold_left_app, filter_app. cbn [fold_left]. unfold set_adapter_endpoint at 1.
  destruct (decide (endpoint_bidder to_lowercase e.1 = Some b)) as [He|He].
  - rewrite He, filter_cons_True, filter_nil, last_snoc, lookup_insert_eq, IH by done.
    by destruct (last (filter _ vars)).
  - rewrite filter_cons_False, filter_nil, app_nil_r, <-IH by done.
    destruct (endpoint_bidder to_lowercase e.1) as [b'|]; [|done]. by rewrite lookup_insert_ne by congruence.
Qed.
Lemma endpoint_fold_twice vars m :
  let f := fold_left (set_adapter_endpoint to_lowercase) vars in f (f m) = f m.
Proof.
  cbn. apply map_eq. intros b. rewrite !env_endpoints_lookup.
  by destruct (last (filter _ vars)); [|rewrite ?env_endpoints_lookup].
Qed.
(** What each variable changes: its field, when its value reads; the last of the endpoint
    variables wins. *)
Lemma apply_env_overrides_spec vars cfg :
  let cfg' := apply_env_overrides to_lowercase vars cfg in
  cfg_port cfg' = default (cfg_port cfg) (env_var vars "PBS_PORT" ≫= parse_int 0 65535)
  ∧ cfg_host cfg' = default (cfg_host cfg) (env_var vars "PBS_HOST")
  ∧ cfg_static_dir cfg' = default (cfg_static_dir cfg) (env_var vars "PBS_STATIC_DIR")
  ∧ cfg_stored_requests_dir cfg' = default (cfg_stored_requests_dir cfg) (env_var vars "PBS_STORED_REQUESTS_DIR")
  ∧ cfg_max_request_size cfg' = default (cfg_max_request_size cfg)
      (env_var vars "PBS_MAX_REQUEST_SIZE" ≫= parse_int 0 (2 ^ 64 - 1))
  ∧ cfg_gdpr_enabled cfg' = default (cfg_gdpr_enabled cfg) (env_flag to_lowercase <$> env_var vars "PBS_GDPR_ENABLED")
  ∧ gdpr_enabled (cfg_gdpr cfg') = default (gdpr_enabled (cfg_gdpr cfg)) (env_flag to_lowercase <$> env_var vars "PBS_GDPR_ENABLED")
  ∧ ccpa_enforce (cfg_ccpa cfg') = default (ccpa_enforce (cfg_ccpa cfg)) (env_flag to_lowercase <$> env_var vars "PBS_CCPA_ENFORCE")
  ∧ cfg_adapters cfg' = fold_left (set_adapter_endpoint to_lowercase) vars (cfg_adapters cfg)
  ∧ cfg_account_defaults cfg' = cfg_account_defaults cfg
  ∧ cfg_account_required cfg' = cfg_account_required cfg.
Proof.
  cbn. unfold apply_env_overrides, with_var.
  repeat (match goal with |- context [env_var vars ?k] => destruct (env_var vars k) end; cbn -[parse_int]).
  all: repeat (match goal with |- context [parse_int ?a ?b ?c] => destruct (parse_int a b c) end; cbn).
  all: done.
Qed.
End EnvSpec.

(** ** The account of a request *)

Section AccountSpec.
Context `{AccountCodec}.
(** The fetcher of files answers what it read: an account's file merged onto the
    host's defaults, or that there is none. *)
Lemma file_fetcher_new_lookup files f id : file_fetcher_new files = Some f →
  faf_accounts f !! id = last (filter (λ e : string * option (list Z), e.1 = id) files) ≫= snd
  ∧ (∀ data, faf_accounts f !! id = Some data → is_Some (json_from_slice data)).
Proof.
  unfold file_fetcher_new. intros (m&Hm&->)%fmap_Some. cbn. revert m Hm.
  induction files as [|[stem data] files IH] using rev_ind; [by intros m [= <-]|].
  intros m. rewrite foldl_app. cbn.
  destruct (foldl _ _ files) as [m'|] eqn:Hf; [|done]. destruct (IH m' eq_refl) as [Hl Hj]. cbn.
  destruct data as [data|]; [|done]. cbn. destruct (json_from_slice data) eqn:Hd; [|done]. intros [= <-].
  rewrite filter_app. destruct (decide (stem = id)) as [->|Hne].
  - rewrite filter_cons_True, filter_nil, last_snoc, lookup_insert_eq by done. split; [done|]. intros ? [= <-]. by rewrite Hd.
  - rewrite filter_cons_False, filter_nil, app_nil_r, lookup_insert_ne by done. done.
Qed.
(** What an account is before the test that it is enabled: the fetched document's,
    or the defaults where there is none; its id is never blank for a named account. *)
Definition account_source {F} `{AccountFetcher F} (cfg : CfgConfiguration) (fetcher : F) (id : string)
    (account : AccountConfig) : Prop :=
  match fetch_account fetcher (account_to_vec (cfg_account_defaults cfg)) id with
  | inr json => ∃ a, account_from_slice json = Some a ∧
      account = if str_is_empty (acct_id a) then set_acct_id id a else a
  | inl (AccountNotFound _) => account = set_acct_id id (cfg_account_defaults cfg)
  | inl _ => False
  end.
Lemma not_disabled_iff id a b : not_disabled id a = inr b ↔ b = a ∧ acct_disabled b = false.
Proof. unfold not_disabled. destruct (acct_disabled a) eqn:?; split; [done|intros [-> ?]; congruence|by intros [= ->]|by intros [-> _]]. Qed.
(** an account is answered exactly when it is what its fetched document reads as,
    its blank id filled in, or the host's defaults under the asked id where there is no
    such account, it is not disabled, and it is named where the configuration requires
    accounts. *)
Theorem get_account_spec {F} `{AccountFetcher F} cfg (fetcher : F) id account :
  get_account cfg fetcher id = inr account ↔
  account_source cfg fetcher id account ∧ acct_disabled account = false
  ∧ (cfg_account_required cfg = true → id ≠ "").
Proof.
  unfold get_account, account_source.
  destruct (cfg_account_required cfg && str_is_empty id) eqn:Hr.
  { apply andb_true_iff in Hr as [-> ->%str_is_empty_iff]. split; [done|]. intros (_&_&Hn). by destruct Hn. }
  assert (cfg_account_required cfg = true → id ≠ "") as Hreq.
  { intros Hc. rewrite Hc in Hr. by apply str_is_empty_false. }
  destruct (fetch_account _ _ _) as [e|json].
  - destruct e; try (by split; [|intros (?&_)]).
    destruct (cfg_account_required cfg && acct_disabled (cfg_account_defaults cfg)) eqn:Hd.
    + apply andb_true_iff in Hd as [_ Hd]. split; [done|]. intros (->&Hf&_). cbn in Hf. congruence.
    + rewrite not_disabled_iff. tauto.
  - destruct (account_from_slice json) as [a|] eqn:Ha; [|split; [done|intros ((?&?&_)&_); congruence]].
    rewrite not_disabled_iff. split; [intros [-> ?]; eauto|]. intros ((a'&[= <-]&->)&?&_). done.
Qed.
Lemma account_source_id {F} `{AccountFetcher F} cfg (fetcher : F) id account :
  account_source cfg fetcher id account → id ≠ "" → acct_id account ≠ "".
Proof.
  unfold account_source. intros Hs Hid. destruct (fetch_account _ _ _) as [[]|json]; subst; try done.
  destruct Hs as (a&_&->). destruct (str_is_empty (acct_id a)) eqn:He; [done|]. by apply str_is_empty_false.
Qed.
(** Every error of an account comes from the rule it names. *)
Lemma get_account_errors {F} `{AccountFetcher F} cfg (fetcher : F) id e :
  get_account cfg fetcher id = inl e →
  match e with
  | AccountRequired => cfg_account_required cfg = true ∧ id = "" 
      ∨ fetch_account fetcher (account_to_vec (cfg_account_defaults cfg)) id = inl e
  | AccountVerificationFailed => (cfg_account_required cfg = true ∧ acct_disabled (cfg_account_defaults cfg) = true)
      ∨ fetch_account fetcher (account_to_vec (cfg_account_defaults cfg)) id = inl e
  | AccountNotFound _ => False
  | _ => True
  end.
Proof.
  unfold get_account, not_disabled. intros Hg.
  destruct (cfg_account_required cfg && str_is_empty id) eqn:Hr.
  { apply andb_true_iff in Hr as [-> ->%str_is_empty_iff]. injection Hg as <-. auto. }
  destruct (fetch_account _ _ _) as [e'|json] eqn:Hf.
  - destruct e'; try (injection Hg as <-; eauto; done).
    destruct (cfg_account_required cfg && acct_disabled (cfg_account_defaults cfg)) eqn:Hd.
    + apply andb_true_iff in Hd. injection Hg as <-. auto.
    + case_match; [by injection Hg as <-|done].
  - repeat case_match; simplify_eq; done.
Qed.
End AccountSpec.

(** A file's account is the one in the directory, whatever the name given: a name
    that could leave it is refused. *)
Lemma sync_file_fetch_confined read_to_string account_from_str base_dir id account :
  sync_file_fetch read_to_string account_from_str base_dir id = inr account →
  id ≠ "" ∧ str_contains "/" id = false ∧ str_contains "\" id = false ∧ str_contains ".." id = false
  ∧ ∃ text, read_to_string (path_join base_dir (id +:+ ".json")) = inr text ∧ account_from_str text = inr account.
Proof.
  unfold sync_file_fetch. destruct (str_is_empty id) eqn:He; [done|]. apply str_is_empty_false in He.
  destruct (str_contains ".." id), (str_contains "/" id), (str_contains "\" id); try done. cbn.
  destruct (read_to_string _) as [|text] eqn:Ht; [done|]. destruct (account_from_str text) eqn:Ha; [done|].
  intros [= <-]. eauto 10.
Qed.
