(* ===== verification/AccountAmp.v ===== *)
(** * Accounts, AMP parameters and disabled bidders

    exchange/src/account.rs: the account of a request out of its JSON or the host's
    defaults; exchange/src/amp.rs: the query parameters of an AMP request;
    exchange/src/adapter_util.rs: the active bidders and the messages for bidders
    that cannot be used.

    serde_json's reading of an account is a parameter; a query is the map of its
    decoded parameters. *)

From S2P Require Import Prelude Text Json ConfigData.
Open Scope Z_scope.

(** ** account.rs *)

Section Account.
Context (from_slice : list Z → option AccountConfig).
Definition ex_get_account (cfg_account_required : bool) (cfg_account_defaults : AccountConfig) (account_json : option (list Z))
    (account_id : string) : outcome (list string) AccountConfig :=
  if cfg_account_required && (str_is_empty account_id || bool_decide (account_id = "unknown"))
  then Err ["Prebid-server has been configured to discard requests without a valid Account ID. Please reach out to the prebid server host."] else
  account ← match account_json with
    | Some json =>
        match from_slice json with
        | Some acct => Ok (if str_is_empty (acct_id acct) then set_acct_id account_id acct else acct)
        | None => Err ["The prebid-server account config for account id " +:+ dq +:+ account_id +:+ dq +:+
            " is malformed. Please reach out to the prebid server host."]
        end
    | None =>
        if cfg_account_required && acct_disabled cfg_account_defaults
        then Err ["Prebid-server could not verify the Account ID. Please reach out to the prebid server host."]
        else Ok (set_acct_id account_id cfg_account_defaults)
    end;
  if acct_disabled account
  then Err ["Prebid-server has disabled Account ID: " +:+ account_id +:+ ", please reach out to the prebid server host."]
  else Ok account.
End Account.
Inductive ExTcf2EnforcementAlgo : Type := EaUndefined | EaBasic | EaFull.
Definition tcf2_enforcements : gmap string ExTcf2EnforcementAlgo := <[ "full" := EaFull ]> (<[ "basic" := EaBasic ]> ∅).

(** ** amp.rs *)

Record AmpSize : Type := {
  as_height : Z; as_multisize : list (Z * Z); as_override_height : Z; as_override_width : Z; as_width : Z }.
Record ExAmpParams : Type := {
  amp_account : string; amp_additional_consent : string; amp_canonical_url : string; amp_consent : string;
  amp_consent_type : Z; amp_debug : bool; amp_gdpr_applies : option bool; amp_origin : string; amp_size : AmpSize;
  amp_slot : string; amp_stored_request_id : string; amp_targeting : string; amp_timeout : option Z; amp_trace : string }.
Definition CONSENT_NONE : Z := 0.
Definition CONSENT_TCF1 : Z := 1.
Definition CONSENT_TCF2 : Z := 2.
Definition CONSENT_US_PRIVACY : Z := 3.
Definition amp_parse_int (value : string) : Z := default 0 (parse_int (- 2 ^ 63) (2 ^ 63 - 1) value).
(** One turn of the loop over [multisize.split(',')]: [None] is the early return. *)
Definition amp_parse_size (size_str : string) : option (Z * Z) :=
  match split_char (ch "x") size_str with
  | [a; b] =>
      let w := amp_parse_int a in let h := amp_parse_int b in
      if (w =? 0) && (h =? 0) then None else Some (w, h)
  | _ => None
  end.
Definition parse_multisize (multisize : string) : list (Z * Z) :=
  if str_is_empty multisize then [] else default [] (mapM amp_parse_size (split_char (ch ",") multisize)).
Definition choose_consent (consent gdpr_consent : string) : string :=
  if negb (str_is_empty consent) then consent else gdpr_consent.
Definition parse_bool (s : string) : string + bool :=
  if bool_decide (s = "true") then inr true else if bool_decide (s = "false") then inr false
  else inl "provided string was not `true` or `false`".
(** [u64::from_str]: the digits from the left, with the error of the first that does
    not fit. *)
Fixpoint parse_u64_digits (acc : Z) (s : string) : string + Z :=
  match s with
  | "" => inr acc
  | String a s' =>
      let d := Z.of_N (Ascii.N_of_ascii a) - 48 in
      if negb ((0 <=? d) && (d <=? 9)) then inl "invalid digit found in string"
      else if 10 * acc + d <? 2 ^ 64 then parse_u64_digits (10 * acc + d) s'
      else inl "number too large to fit in target type"
  end.
Definition parse_u64 (s : string) : string + Z :=
  match s with
  | "" => inl "cannot parse integer from empty string"
  | String a s' =>
      if bool_decide (a = ch "+") then
        if str_is_empty s' then inl "invalid digit found in string" else parse_u64_digits 0 s'
      else parse_u64_digits 0 s
  end.
(** [if let Some(s) = query.get(k) { if !s.is_empty() { .. } }] *)
Definition parse_given {A} (parse : string → string + A) (value : option string) : outcome string (option A) :=
  match value with
  | Some s => if str_is_empty s then Ok None else match parse s with inr v => Ok (Some v) | inl e => Err e end
  | None => Ok None
  end.
Definition parse_params (query : gmap string string) : outcome string ExAmpParams :=
  let q k := default "" (query !! k) in
  let tag_id := q "tag_id" in
  if str_is_empty tag_id then Err "AMP requests require an AMP tag_id" else
  let consent := choose_consent (q "consent_string") (q "gdpr_consent") in
  gdpr_applies ← parse_given parse_bool (query !! "gdpr_applies");
  timeout ← parse_given parse_u64 (query !! "timeout");
  Ok {| amp_account := q "account"; amp_additional_consent := q "addtl_consent"; amp_canonical_url := q "curl";
        amp_consent := consent; amp_consent_type := amp_parse_int (q "consent_type");
        amp_debug := bool_decide (query !! "debug" = Some "1"); amp_gdpr_applies := gdpr_applies;
        amp_origin := q "__amp_source_origin";
        amp_size := {| as_height := amp_parse_int (q "h"); as_multisize := parse_multisize (q "ms");
          as_override_height := amp_parse_int (q "oh"); as_override_width := amp_parse_int (q "ow");
          as_width := amp_parse_int (q "w") |};
        amp_slot := q "slot"; amp_stored_request_id := tag_id; amp_targeting := q "targeting";
        amp_timeout := timeout; amp_trace := q "trace" |}.
Definition parse_gdpr_applies (gdpr_applies : option bool) : Z :=
  match gdpr_applies with Some true => 1 | _ => 0 end.

(** ** adapter_util.rs *)

Record AuBidderInfo : Type := {
  aui_enabled : bool; aui_disabled : bool; aui_white_label_only : bool; aui_alias_of : option string; aui_endpoint : string }.
Definition aui_is_enabled (info : AuBidderInfo) : bool := aui_enabled info && negb (aui_disabled info).
Definition gone (name advice : string) : string * string :=
  (name, "Bidder " +:+ dq +:+ name +:+ dq +:+ " is no longer available in Prebid Server. " +:+ advice).
Definition update_config : string := "Please update your configuration.".
Definition rename_to (adapter name : string) : string :=
  "If you're looking to use the " +:+ adapter +:+ " adapter, please rename it to " +:+ dq +:+ name +:+ dq +:+ " in your configuration.".
Definition removed_bidders : list (string * string) := [
  gone "lifestreet" update_config; gone "somoaudience" update_config; gone "yssp" (rename_to "Yahoo SSP" "yahooAds");
  gone "andbeyondmedia" (rename_to "AndBeyond.Media SSP" "beyondmedia"); gone "oftmedia" update_config; gone "groupm" update_config;
  gone "verizonmedia" update_config; gone "brightroll" update_config; gone "engagebdr" update_config;
  gone "ninthdecimal" update_config; gone "kubient" update_config; gone "applogy" update_config; gone "rhythmone" update_config;
  gone "nanointeractive" update_config;
  gone "bizzclick" (update_config +:+ " " +:+ dq +:+ "bizzclick" +:+ dq +:+ " has been renamed to " +:+ dq +:+ "blasto" +:+ dq +:+ ".");
  gone "liftoff" (rename_to "Vungle Exchange" "vungle");
  gone "gothamads" ("Please rename it to " +:+ dq +:+ "intenze" +:+ dq +:+ " in your configuration.");
  gone "intertech" update_config; gone "adocean" update_config; gone "dxkulture" update_config; gone "mobupps" update_config;
  gone "vimayx" update_config; gone "adoppler" (rename_to "Adoppler" "elementaltv")].
(** [s.ends_with(suffix)] *)
Definition str_ends_with (suffix s : string) : bool :=
  (String.length suffix <=? String.length s)%nat &&
  bool_decide (String.substring (String.length s - String.length suffix) (String.length suffix) s = suffix).
Section AdapterUtil.
Context `{MI : MapIter}.
Definition get_active_bidders (infos : gmap string AuBidderInfo) : gmap string string :=
  fold_left (λ active e, if aui_is_enabled e.2 then <[ e.1 := e.1 ]> active else active) (map_iter infos) ∅.
Definition white_label_message (name : string) : string :=
  "Bidder " +:+ dq +:+ name +:+ dq +:+ " can only be aliased and cannot be used directly.".
Definition disabled_message (name : string) : string :=
  "Bidder " +:+ dq +:+ name +:+ dq +:+ " has been disabled on this instance of Prebid Server. Please work with the PBS host to enable this bidder again.".
Definition merge_bidder (disabled_bidders : gmap string string) (e : string * AuBidderInfo) : gmap string string :=
  if aui_white_label_only e.2 then <[ e.1 := white_label_message e.1 ]> disabled_bidders
  else if aui_disabled e.2 then <[ e.1 := disabled_message e.1 ]> disabled_bidders
  else disabled_bidders.
Definition merge_removed_and_disabled (disabled_bidders : gmap string string) (infos : gmap string AuBidderInfo) : gmap string string :=
  fold_left merge_bidder (map_iter infos) disabled_bidders.
Definition removed : gmap string string := fold_left (λ removed e, <[ e.1 := e.2 ]> removed) removed_bidders ∅.
Definition get_disabled_bidder_warning_messages (infos : gmap string AuBidderInfo) : gmap string string :=
  merge_removed_and_disabled removed infos.
Definition is_bidder_disabled_due_to_white_label_only (message : string) : bool :=
  str_ends_with "can only be aliased and cannot be used directly." message.
End AdapterUtil.

(** ** Accounts *)

(** Where an account comes from: its JSON, its blank id filled in, or the host's
    defaults under the id asked for. *)
Definition ex_account_source (from_slice : list Z → option AccountConfig) (cfg_account_required : bool)
    (defaults : AccountConfig) (account_json : option (list Z)) (id : string) (a : AccountConfig) : Prop :=
  match account_json with
  | Some json => ∃ a0, from_slice json = Some a0 ∧ a = if str_is_empty (acct_id a0) then set_acct_id id a0 else a0
  | None => a = set_acct_id id defaults
  end.
(** An account is answered exactly when it is what the JSON says, or the defaults
    where there is none, it is not disabled, and it is named, and not "unknown",
    where accounts are required; otherwise there is one message. *)
Theorem ex_get_account_spec from_slice required defaults json id a :
  (ex_get_account from_slice required defaults json id = Ok a ↔
   ex_account_source from_slice required defaults json id a ∧ acct_disabled a = false ∧
   (required = true → id ≠ "" ∧ id ≠ "unknown")) ∧
  match ex_get_account from_slice required defaults json id with Ok _ => True | Err e => length e = 1%nat | Panic => False end.
Proof.
  unfold ex_get_account, ex_account_source, str_is_empty.
  assert (Hd : acct_disabled (set_acct_id id defaults) = acct_disabled defaults) by done.
  assert (Hj : ∀ a0, acct_disabled (if bool_decide (acct_id a0 = "") then set_acct_id id a0 else a0) = acct_disabled a0)
    by (intros a0; by destruct (bool_decide _)).
  set (good (r : outcome (list string) AccountConfig) := match r with Ok _ => True | Err e => length e = 1%nat | Panic => False end).
  assert (Herr : ∀ m (P : Prop), ¬ P → (Err (E:=list string) [m] = Ok a ↔ P) ∧ good (Err [m])) by naive_solver.
  assert (Hok : ∀ x (P : Prop), (P ↔ x = a) → (Ok (E:=list string) x = Ok a ↔ P) ∧ good (Ok x)) by naive_solver.
  destruct (required && (bool_decide (id = "") || bool_decide (id = "unknown"))) eqn:Hreq.
  { apply Herr. intros (_&_&Hn). destruct required; [|done]. destruct (Hn eq_refl). by rewrite !bool_decide_eq_false_2 in Hreq. }
  assert (Hn : required = true → id ≠ "" ∧ id ≠ "unknown").
  { intros ->. cbn in Hreq. apply orb_false_iff in Hreq as [H1%bool_decide_eq_false H2%bool_decide_eq_false]. done. }
  clear Hreq. destruct json as [json|].
  - destruct (from_slice json) as [a0|]; cbn [mbind outcome_bind]; [|apply Herr; by intros ((?&?&?)&_)].
    rewrite Hj. destruct (acct_disabled a0) eqn:Ha; [apply Herr|apply Hok].
    + intros ((a1&[= <-]&->)&Hdis&_). by rewrite Hj, Ha in Hdis.
    + split; [by intros ((a1&[= <-]&->)&_)|]. intros <-. split_and!; [by exists a0|by rewrite Hj|done].
  - destruct (required && acct_disabled defaults) eqn:Hrd; cbn [mbind outcome_bind].
    + apply Herr. intros (->&Hdis&_). rewrite Hd in Hdis. by rewrite Hdis, andb_false_r in Hrd.
    + rewrite Hd. destruct (acct_disabled defaults) eqn:Ha; [apply Herr|apply Hok]; [|by naive_solver].
      intros (->&Hdis&_). congruence.
Qed.

(** ** AMP *)

Definition is_i64 (z : Z) : Prop := - 2 ^ 63 ≤ z < 2 ^ 63.
Definition print_size (s : Z * Z) : string := pretty s.1 +:+ "x" +:+ pretty s.2.
Lemma pretty_no_char z c : c ≠ ch "-" → ¬ 48 ≤ Z.of_N (Ascii.N_of_ascii c) ≤ 57 → no_char c (pretty (z : Z)).
Proof.
  intros Hd Hr. pose proof (pretty_text z) as Ht. unfold no_char. intros Hin. unfold digit_text in Ht.
  rewrite Forall_forall in Ht. by apply Ht in Hin as [?|?].
Qed.
Ltac solve_no_char := apply pretty_no_char; [done|vm_compute; by intros [? []]].
Lemma parse_amp_int z : is_i64 z → amp_parse_int (pretty z) = z.
Proof. unfold is_i64, amp_parse_int. intros Hz. by rewrite parse_pretty by lia. Qed.
Lemma amp_int_range s : is_i64 (amp_parse_int s).
Proof.
  unfold amp_parse_int, parse_int, is_i64. destruct (match s with "" => _ | String a s' => _ end) as [v|]; cbn; [|lia].
  destruct ((_ <=? v) && _) eqn:Hv; cbn; lia.
Qed.
Lemma parse_print_size s : is_i64 s.1 → is_i64 s.2 → s ≠ (0, 0) → amp_parse_size (print_size s) = Some s.
Proof.
  intros H1 H2 Hne. unfold amp_parse_size, print_size.
  change (pretty s.1 +:+ "x" +:+ pretty s.2) with (join (String (ch "x") "") [pretty s.1; pretty s.2]).
  rewrite split_char_join by (apply Forall_cons; split; [|apply Forall_cons; split; [|constructor]]; solve_no_char).
  cbn zeta. rewrite !parse_amp_int by done. destruct s as [w h]; cbn in *.
  destruct (Z.eqb_spec w 0), (Z.eqb_spec h 0); cbn; try done. by subst.
Qed.
(** Sizes written as "300x250,728x90" are read back, whatever they are but an empty
    one; what is read of any text are sizes of 64 bits, none of them empty. *)
Theorem multisize_roundtrip sizes text :
  (sizes ≠ [] → Forall (λ s, is_i64 s.1 ∧ is_i64 s.2 ∧ s ≠ (0, 0)) sizes →
    parse_multisize (join "," (print_size <$> sizes)) = sizes) ∧
  Forall (λ s, is_i64 s.1 ∧ is_i64 s.2 ∧ s ≠ (0, 0)) (parse_multisize text).
Proof.
  split.
  - intros Hne Hs. unfold parse_multisize. destruct sizes as [|s sizes]; [done|]. cbn [fmap list_fmap].
    assert (Hnz : str_is_empty (join "," (print_size s :: (print_size <$> sizes))) = false).
    { unfold str_is_empty. apply bool_decide_eq_false.
      destruct (print_size <$> sizes) as [|p ps]; unfold print_size; by destruct (pretty s.1). }
    rewrite Hnz. change "," with (String (ch ",") "") at 2.
    rewrite split_char_join.
    + change (print_size s :: (print_size <$> sizes)) with (print_size <$> (s :: sizes)).
      rewrite (proj2 (mapM_Some _ _ (s :: sizes))); [done|]. clear Hne Hnz.
      induction Hs as [|x l (Hx1&Hx2&Hx) Hl IH]; constructor; [by apply parse_print_size|done].
    + change (print_size s :: (print_size <$> sizes)) with (print_size <$> (s :: sizes)). apply Forall_fmap, Forall_true.
      intros x. unfold compose, print_size. repeat (apply no_char_app; split); try solve_no_char.
      unfold no_char. cbn. set_solver.
  - unfold parse_multisize. destruct (str_is_empty text); [constructor|].
    destruct (mapM amp_parse_size (split_char (ch ",") text)) as [l|] eqn:Hm; cbn; [|constructor].
    apply mapM_Some in Hm. induction Hm as [|p s ps l Hp Hps IH]; constructor; [|done].
    unfold amp_parse_size in Hp. destruct (split_char _ p) as [|a [|b [|? ?]]]; try done. cbn zeta in Hp.
    destruct ((amp_parse_int a =? 0) && (amp_parse_int b =? 0)) eqn:Hz; [done|]. injection Hp as <-. cbn.
    split_and!; [apply amp_int_range..|]. intros [= Ha Hb]. by rewrite Ha, Hb in Hz.
Qed.
(** The parameters are refused exactly without a tag id, with a gdpr_applies that is
    not a boolean or a timeout that is no unsigned 64-bit number; otherwise they are
    those of the query, the first consent given being taken. *)
Theorem parse_params_spec query :
  let q k := default "" (query !! k) in
  match parse_params query with
  | Ok p =>
      amp_stored_request_id p = q "tag_id" ∧ q "tag_id" ≠ "" ∧
      amp_consent p = (if bool_decide (q "consent_string" = "") then q "gdpr_consent" else q "consent_string") ∧
      amp_gdpr_applies p = (if bool_decide (q "gdpr_applies" = "") then None else Some (bool_decide (q "gdpr_applies" = "true"))) ∧
      q "gdpr_applies" ∈ [""; "true"; "false"] ∧
      match amp_timeout p with Some t => parse_u64 (q "timeout") = inr t | None => q "timeout" = "" end
  | Err e => q "tag_id" = "" ∨ q "gdpr_applies" ∉ [""; "true"; "false"] ∨ (q "timeout" ≠ "" ∧ parse_u64 (q "timeout") = inl e)
  | Panic => False
  end.
Proof.
  cbn zeta. unfold parse_params, choose_consent, str_is_empty.
  destruct (bool_decide (default "" (query !! "tag_id") = "")) eqn:Ht; [apply bool_decide_eq_true in Ht; by left|].
  apply bool_decide_eq_false in Ht.
  assert (Hg : match parse_given parse_bool (query !! "gdpr_applies") with
    | Ok o => o = (if bool_decide (default "" (query !! "gdpr_applies") = "") then None
        else Some (bool_decide (default "" (query !! "gdpr_applies") = "true"))) ∧ default "" (query !! "gdpr_applies") ∈ [""; "true"; "false"]
    | Err e => default "" (query !! "gdpr_applies") ∉ [""; "true"; "false"] | Panic => False end).
  { destruct (query !! "gdpr_applies") as [s|]; cbn; [|split; [done|set_solver]]. unfold str_is_empty, parse_bool.
    destruct (decide (s = "")) as [->|Hs]; [split; [done|set_solver]|]. rewrite !(bool_decide_eq_false_2 (s = "")) by done.
    destruct (decide (s = "true")) as [->|Hs']; [split; [done|set_solver]|]. rewrite !(bool_decide_eq_false_2 (s = "true")) by done.
    case_bool_decide; set_solver. }
  assert (Hu : match parse_given parse_u64 (query !! "timeout") with
    | Ok o => match o with Some t => parse_u64 (default "" (query !! "timeout")) = inr t | None => default "" (query !! "timeout") = "" end
    | Err e => default "" (query !! "timeout") ≠ "" ∧ parse_u64 (default "" (query !! "timeout")) = inl e | Panic => False end).
  { destruct (query !! "timeout") as [s|]; cbn [parse_given from_option id]; [|done].
    unfold str_is_empty. destruct (decide (s = "")) as [->|Hs]; [done|]. rewrite bool_decide_eq_false_2 by done.
    by destruct (parse_u64 s) eqn:Hp. }
  destruct (parse_given parse_bool _) as [g|e|]; [|by right; left|done]. cbn [mbind outcome_bind].
  destruct (parse_given parse_u64 _) as [t|e|]; [|by right; right|done]. cbn. destruct Hg as [-> Hg].
  split_and!; try done. by case_bool_decide.
Qed.
(** [parse_u64] reads what is printed, and nothing out of range. *)
Lemma parse_u64_digits_spec s : ∀ acc, 0 ≤ acc < 2 ^ 64 →
  match parse_u64_digits acc s with
  | inr v => digits_value acc s = Some v ∧ 0 ≤ v < 2 ^ 64
  | inl _ => ∀ v, digits_value acc s = Some v → 2 ^ 64 ≤ v
  end.
Proof.
  induction s as [|a s IH]; intros acc Ha; cbn [parse_u64_digits digits_value]; [done|]. cbn zeta.
  set (d := Z.of_N (Ascii.N_of_ascii a) - 48). destruct ((0 <=? d) && (d <=? 9)) eqn:Hd; cbn [negb]; [|done].
  destruct (Z.ltb_spec (10 * acc + d) (2 ^ 64)); [apply IH; lia|]. intros v Hv.
  assert (Hmono : ∀ s acc v, 2 ^ 64 ≤ acc → digits_value acc s = Some v → 2 ^ 64 ≤ v).
  { clear. induction s as [|a s IH]; intros acc v Ha; cbn; [by intros [= <-]|]. destruct (_ && _) eqn:Hd; [|done]. apply IH. lia. }
  by eapply Hmono.
Qed.

(** ** Messages for bidders *)

Lemma ends_with_tail suffix p t : (String.length suffix ≤ String.length t)%nat →
  str_ends_with suffix (p +:+ t) = str_ends_with suffix t.
Proof.
  intros Hl. unfold str_ends_with. rewrite str_length_app.
  rewrite (proj2 (Nat.leb_le (String.length suffix) (String.length p + String.length t))), (proj2 (Nat.leb_le _ _) Hl) by lia.
  cbn [andb]. replace (String.length p + String.length t - String.length suffix)%nat with
    (String.length p + (String.length t - String.length suffix))%nat by lia. by rewrite substring_app_r.
Qed.
Lemma removed_elem name m : removed !! name = Some m → (name, m) ∈ removed_bidders.
Proof.
  unfold removed. induction removed_bidders as [|[k v] l IH] using rev_ind; [cbn; by rewrite lookup_empty|].
  rewrite fold_left_app, elem_of_app. cbn. destruct (decide (name = k)) as [->|Hk].
  - rewrite lookup_insert_eq. intros [= ->]. right. by left.
  - rewrite lookup_insert_ne by done. intros. left. auto.
Qed.
(** A bidder has a warning exactly when it is white-label, disabled, or removed, in
    that order; the test of the message's ending tells the white-label ones; and the
    active bidders are those enabled and not disabled. *)
Theorem bidder_messages_spec `{MI : MapIter} infos name :
  get_disabled_bidder_warning_messages infos !! name =
    match infos !! name with
    | Some info =>
        if aui_white_label_only info then Some (white_label_message name)
        else if aui_disabled info then Some (disabled_message name) else removed !! name
    | None => removed !! name
    end ∧
  (∀ message, get_disabled_bidder_warning_messages infos !! name = Some message →
    is_bidder_disabled_due_to_white_label_only message =
      match infos !! name with Some info => aui_white_label_only info | None => false end) ∧
  get_active_bidders infos !! name = (info ← infos !! name; if aui_is_enabled info then Some name else None).
Proof.
  assert (Hm : get_disabled_bidder_warning_messages infos !! name =
    match infos !! name with
    | Some info =>
        if aui_white_label_only info then Some (white_label_message name)
        else if aui_disabled info then Some (disabled_message name) else removed !! name
    | None => removed !! name
    end).
  { unfold get_disabled_bidder_warning_messages, merge_removed_and_disabled.
    rewrite (map_iter_fold_update merge_bidder (λ k info o, if aui_white_label_only info then Some (white_label_message k)
      else if aui_disabled info then Some (disabled_message k) else o)); [done|].
    intros acc k info. unfold merge_bidder. cbn [fst snd]. apply map_eq. intros k'.
    destruct (decide (k' = k)) as [->|Hk]; [rewrite lookup_partial_alter_eq|rewrite lookup_partial_alter_ne by done];
      destruct (aui_white_label_only info), (aui_disabled info); by rewrite ?lookup_insert_eq, ?lookup_insert_ne. }
  split_and!; [exact Hm| |].
  - intros message. rewrite Hm. unfold is_bidder_disabled_due_to_white_label_only.
    assert (Hrem : ∀ m, removed !! name = Some m →
      str_ends_with "can only be aliased and cannot be used directly." m = false).
    { intros m Hl%removed_elem.
      assert (Ha : Forall (λ e : string * string, str_ends_with "can only be aliased and cannot be used directly." e.2 = false) removed_bidders).
      { apply (bool_decide_unpack _). by vm_compute. }
      rewrite Forall_forall in Ha. by apply (Ha _ Hl). }
    destruct (infos !! name) as [info|]; [|apply Hrem].
    destruct (aui_white_label_only info); [|destruct (aui_disabled info); [|apply Hrem]]; intros [= <-].
    + unfold white_label_message. rewrite !ends_with_tail by (rewrite ?str_length_app; cbn; lia). by vm_compute.
    + unfold disabled_message. rewrite !ends_with_tail by (rewrite ?str_length_app; cbn; lia). by vm_compute.
  - unfold get_active_bidders.
    rewrite (map_iter_fold_update _ (λ k info o, if aui_is_enabled info then Some k else o)).
    + rewrite lookup_empty. by destruct (infos !! name).
    + intros acc k info. cbn [fst snd]. apply map_eq. intros k'.
      destruct (decide (k' = k)) as [->|Hk]; [rewrite lookup_partial_alter_eq|rewrite lookup_partial_alter_ne by done];
        destruct (aui_is_enabled info); by rewrite ?lookup_insert_eq, ?lookup_insert_ne.
Qed.
