(* ===== verification/BidderInfos.v ===== *)
(** * Bidder information

    config/src/bidder_info.rs: what a bidder's YAML file answers, the files of a
    directory with their aliases, and the checks; config/src/bidder_info_loader.rs
    and config/src/lib.rs: the loaders without aliases;
    adapters/src/bidder_info_runtime.rs: the loader of the running server;
    adapters/src/registry.rs: the fill of the registry's own information.

    serde_yaml and the file system are parameters. *)

From S2P Require Import Prelude Json IpUtil ConfigData.

(** ** One bidder *)

Inductive InfoMediaType : Type := IBanner | IVideo | INative | IAudio.
Definition media_type_as_str (m : InfoMediaType) : string :=
  match m with IBanner => "banner" | IVideo => "video" | INative => "native" | IAudio => "audio" end.
Definition info_is_enabled (b : CfgBidderInfo) : bool := negb (info_disabled b).
Definition sync_defined (s : CfgBidderSyncerConfig) : bool :=
  negb (str_is_empty (sync_key s)) || bool_decide (is_Some (sync_iframe s)) || bool_decide (is_Some (sync_redirect s))
  || negb (str_is_empty (sync_external_url s)) || negb (str_is_empty (sync_format_override s)).
Definition info_syncer_defined (b : CfgBidderInfo) : bool :=
  match info_user_sync b with None => false | Some s => sync_defined s end.
Definition parent_syncer_defined (parent : CfgBidderInfo) : bool :=
  match info_user_sync parent with None => false | Some s => sync_defined s end.
Section Case.
Context (to_lowercase : string → string).
Definition media_type_from_str (s : string) : option InfoMediaType :=
  let s := to_lowercase s in
  if bool_decide (s = "banner") then Some IBanner else if bool_decide (s = "video") then Some IVideo
  else if bool_decide (s = "native") then Some INative else if bool_decide (s = "audio") then Some IAudio else None.
Definition platform_info (caps : CapabilitiesInfo) (platform : string) : option PlatformInfo :=
  let p := to_lowercase platform in
  if bool_decide (p = "app") then caps_app caps
  else if bool_decide (p ∈ ["site"; "web"]) then caps_site caps
  else if bool_decide (p = "dooh") then caps_dooh caps else None.
Definition supports_media_type (b : CfgBidderInfo) (platform media_type : string) : bool :=
  match info_capabilities b with
  | None => false
  | Some caps =>
      match platform_info caps platform with
      | Some pi => existsb (λ mt, eq_ignore_ascii_case mt media_type) (plat_media_types pi)
      | None => false
      end
  end.
End Case.

(** ** Aliases *)

Abbreviation BidderInfos := (gmap string CfgBidderInfo).
(** The HashMap filled in any order of the entries. *)
Definition to_gvl_vendor_id_map `{MI : MapIter} (infos : BidderInfos) : gmap string Z :=
  fold_left (λ result '(name, info),
    if info_is_enabled info && negb (info_gvl_vendor_id info =? 0) then <[name := info_gvl_vendor_id info]> result else result)
    (map_iter infos) ∅.
Definition validate_alias (alias : CfgBidderInfo) (infos : BidderInfos) (alias_name : string) : outcome string () :=
  if str_is_empty (info_alias_of alias) then Ok () else
  match infos !! info_alias_of alias with
  | None => Err ("alias '" +:+ alias_name +:+ "' references a nonexistent bidder '" +:+ info_alias_of alias +:+ "'")
  | Some p =>
      if str_is_empty (info_alias_of p) then Ok ()
      else Err ("alias '" +:+ alias_name +:+ "' cannot reference another alias '" +:+ info_alias_of alias +:+ "'")
  end.
(** [if merged.f.is_empty() { merged.f = parent.f.clone() }] and the same of [None]. *)
Definition or_text (s t : string) : string := if str_is_empty s then t else s.
Definition inherited_sync (parent_name : string) (parent alias : CfgBidderInfo) : option CfgBidderSyncerConfig :=
  match info_user_sync alias with
  | Some s => Some s
  | None =>
      if parent_syncer_defined parent then
        let key := match info_user_sync parent with
          | Some ps => if str_is_empty (sync_key ps) then parent_name else sync_key ps
          | None => parent_name
          end in
        Some {| sync_key := key; sync_supports := []; sync_iframe := None; sync_redirect := None;
                sync_external_url := ""; sync_format_override := ""; sync_enabled := None |}
      else None
  end.
Definition merge_alias (parent_name : string) (parent alias : CfgBidderInfo) : CfgBidderInfo := {|
  info_alias_of := info_alias_of alias; info_disabled := info_disabled alias;
  info_endpoint := or_text (info_endpoint alias) (info_endpoint parent);
  info_extra_info := or_text (info_extra_info alias) (info_extra_info parent);
  info_maintainer := option_or (info_maintainer alias) (info_maintainer parent);
  info_capabilities := option_or (info_capabilities alias) (info_capabilities parent);
  info_gvl_vendor_id := info_gvl_vendor_id alias;
  info_modifying_vast_xml_allowed := info_modifying_vast_xml_allowed alias;
  info_debug := option_or (info_debug alias) (info_debug parent); info_geoscope := info_geoscope alias;
  info_user_sync := inherited_sync parent_name parent alias; info_experiment := info_experiment alias;
  info_openrtb := option_or (info_openrtb alias) (info_openrtb parent);
  info_endpoint_compression := or_text (info_endpoint_compression alias) (info_endpoint_compression parent);
  info_xapi := if str_is_empty (bxapic_username (info_xapi alias)) then info_xapi parent else info_xapi alias;
  info_platform_id := or_text (info_platform_id alias) (info_platform_id parent);
  info_app_secret := or_text (info_app_secret alias) (info_app_secret parent) |}.
Definition process_alias (bidders : BidderInfos) (alias_name : string) : outcome string BidderInfos :=
  match bidders !! alias_name with
  | None => Err ("bidder info not found for alias: " +:+ alias_name)
  | Some alias =>
      _ ← validate_alias alias bidders alias_name;
      match bidders !! info_alias_of alias with
      | None => Err ("alias '" +:+ alias_name +:+ "' references nonexistent bidder '" +:+ info_alias_of alias +:+ "'")
      | Some parent => mret (<[alias_name := merge_alias (info_alias_of alias) parent alias]> bidders)
      end
  end.
Definition process_bidder_aliases (bidders : BidderInfos) (alias_bidders : list (string * CfgBidderInfo))
    : outcome string BidderInfos :=
  foldM (λ bidders '(alias_name, _), process_alias bidders alias_name) bidders alias_bidders.

(** ** The files of a directory *)

(** An entry of [read_dir]: its path, stem (when it is text), extension and contents. *)
Record DirEntry : Type := {
  de_path : string; de_stem : option string; de_ext : string; de_text : option string }.
(** A directory as the process sees it: [None] where it cannot be listed, and for an
    entry that cannot be read. *)
Record Dir : Type := { dir_path : string; dir_is_dir : bool; dir_entries : option (list (option DirEntry)) }.
(** The stem of a YAML file. *)
Definition yaml_stem (e : DirEntry) : option string :=
  if bool_decide (de_ext e ∈ ["yaml"; "yml"]) then
    match de_stem e with Some s => if str_is_empty s then None else Some s | None => None end
  else None.

Section Loaders.
Context (from_yaml : string → option CfgBidderInfo) (to_lowercase : string → string).
(** anyhow's contexts. *)
Definition read_info (e : DirEntry) : outcome string CfgBidderInfo :=
  match de_text e with
  | None => Err ("failed to read bidder info file '" +:+ de_path e +:+ "'")
  | Some text =>
      match from_yaml text with
      | None => Err ("failed to parse bidder info file '" +:+ de_path e +:+ "'")
      | Some info => Ok info
      end
  end.
Definition list_dir (d : Dir) : outcome string (list (option DirEntry)) :=
  if negb (dir_is_dir d) then Err ("bidder info directory '" +:+ dir_path d +:+ "' does not exist or is not a directory")
  else match dir_entries d with
  | None => Err ("failed to read bidder info directory '" +:+ dir_path d +:+ "'")
  | Some es => Ok es
  end.
Definition load_bidder_info (d : Dir) : outcome string BidderInfos :=
  entries ← list_dir d;
  foldM (λ bidders entry,
    match entry with
    | None => Err "io error"
    | Some e =>
        match to_lowercase <$> yaml_stem e with
        | None => Ok bidders
        | Some name => if str_is_empty name then Ok bidders else info ← read_info e; mret (<[name := info]> bidders)
        end
    end) ∅ entries.
(** The bidders and, in the order of the directory, the aliases among them. *)
Definition load_entry (acc : BidderInfos * list (string * CfgBidderInfo)) (entry : option DirEntry)
    : outcome string (BidderInfos * list (string * CfgBidderInfo)) :=
  match entry with
  | None => Err "io error"
  | Some e =>
      match yaml_stem e with
      | None => Ok acc
      | Some name =>
          info ← read_info e;
          mret (<[name := info]> acc.1, if str_is_empty (info_alias_of info) then acc.2 else acc.2 ++ [(name, info)])
      end
  end.
Definition load_bidder_info_from_disk (d : Dir) : outcome string BidderInfos :=
  entries ← list_dir d;
  acc ← foldM load_entry (∅, []) entries;
  process_bidder_aliases acc.1 acc.2.

(** The loader's own errors; the underlying error is left out. *)
Inductive InfoLoadError : Type :=
| LoadIo (path : string)
| LoadYaml (bidder : string)
| LoadNotADirectory (path : string).
Definition load_bidder_info_yaml (yaml_text bidder_name : string) : outcome InfoLoadError CfgBidderInfo :=
  match from_yaml yaml_text with Some info => Ok info | None => Err (LoadYaml bidder_name) end.
Definition load_dir_entry (dir : string) (out : BidderInfos) (entry : option DirEntry) : outcome InfoLoadError BidderInfos :=
  match entry with
  | None => Err (LoadIo dir)
  | Some e =>
      match yaml_stem e with
      | None => Ok out
      | Some stem =>
          match de_text e with
          | None => Err (LoadIo (de_path e))
          | Some text => info ← load_bidder_info_yaml text stem; mret (<[stem := info]> out)
          end
      end
  end.
Definition load_bidder_infos_from_dir (d : Dir) : outcome InfoLoadError BidderInfos :=
  if negb (dir_is_dir d) then Err (LoadNotADirectory (dir_path d)) else
  match dir_entries d with
  | None => Err (LoadIo (dir_path d))
  | Some entries => foldM (load_dir_entry (dir_path d)) ∅ entries
  end.
(** What parses; everything else is skipped. *)
Definition tolerant_entry (out : BidderInfos) (entry : option DirEntry) : BidderInfos :=
  match entry with
  | None => out
  | Some e =>
      match yaml_stem e, de_text e ≫= from_yaml with
      | Some stem, Some info => <[stem := info]> out
      | _, _ => out
      end
  end.
Definition tolerant_walk (d : Dir) : option BidderInfos :=
  (λ entries, fold_left tolerant_entry entries ∅) <$> dir_entries d.
Fixpoint load_all_bidder_infos (candidate_dirs : list Dir) : BidderInfos :=
  match candidate_dirs with
  | [] => ∅
  | d :: rest =>
      if negb (dir_is_dir d) then load_all_bidder_infos rest else
      match load_bidder_infos_from_dir d with
      | Ok m => if bool_decide (m = ∅) then load_all_bidder_infos rest else m
      | _ => match tolerant_walk d with Some m => m | None => load_all_bidder_infos rest end
      end
  end.
Definition bidder_info_or_default (m : BidderInfos) (name : string) : CfgBidderInfo := default default_CfgBidderInfo (m !! name).
End Loaders.
(** The fill of what the registry leaves out. *)
Definition fill_info (entry yaml : CfgBidderInfo) : CfgBidderInfo := {|
  info_alias_of := or_text (info_alias_of entry) (info_alias_of yaml); info_disabled := info_disabled entry;
  info_endpoint := or_text (info_endpoint entry) (info_endpoint yaml);
  info_extra_info := or_text (info_extra_info entry) (info_extra_info yaml);
  info_maintainer := option_or (info_maintainer entry) (info_maintainer yaml);
  info_capabilities := option_or (info_capabilities entry) (info_capabilities yaml);
  info_gvl_vendor_id := if info_gvl_vendor_id entry =? 0 then info_gvl_vendor_id yaml else info_gvl_vendor_id entry;
  info_modifying_vast_xml_allowed := info_modifying_vast_xml_allowed entry || info_modifying_vast_xml_allowed yaml;
  info_debug := option_or (info_debug entry) (info_debug yaml);
  info_geoscope := if bool_decide (info_geoscope entry = []) then info_geoscope yaml else info_geoscope entry;
  info_user_sync := option_or (info_user_sync entry) (info_user_sync yaml); info_experiment := info_experiment entry;
  info_openrtb := option_or (info_openrtb entry) (info_openrtb yaml);
  info_endpoint_compression := or_text (info_endpoint_compression entry) (info_endpoint_compression yaml);
  info_xapi := info_xapi entry; info_platform_id := or_text (info_platform_id entry) (info_platform_id yaml);
  info_app_secret := or_text (info_app_secret entry) (info_app_secret yaml) |}.
Definition enrich_registry_with_yaml `{MI : MapIter} (yaml adapter_map : BidderInfos) : BidderInfos :=
  fold_left (λ m '(name, yaml_info), <[name := fill_info (default default_CfgBidderInfo (m !! name)) yaml_info]> m)
    (map_iter yaml) adapter_map.
(** [sort_unstable] of the keys. *)
Definition byte_le (a b : string) : bool := bool_decide (String.compare a b ≠ Gt).
Definition infos_bidder_names `{MI : MapIter} (m : BidderInfos) : list string := sort_by byte_le (map_iter m).*1.

(** ** Checks *)

Definition validate_platform_info (info : PlatformInfo) (platform bidder_name : string) : outcome string () :=
  if bool_decide (plat_media_types info = []) then
    Err ("capabilities." +:+ platform +:+ " failed validation: at least one media type needs to be specified for adapter: "
         +:+ bidder_name)
  else foldM (λ _ '(i, mt),
    if bool_decide (mt ∈ ["banner"; "video"; "native"; "audio"]) then Ok ()
    else Err ("capabilities." +:+ platform +:+ " failed validation: unrecognized media type at index " +:+ pretty (Z.of_nat i)
              +:+ ": " +:+ mt +:+ " for adapter: " +:+ bidder_name)) () (imap pair (plat_media_types info)).
Definition validate_bidder_capabilities (caps : option CapabilitiesInfo) (bidder_name : string) : outcome string () :=
  match caps with
  | None => Err ("missing required field: capabilities for adapter: " +:+ bidder_name)
  | Some c =>
      match caps_app c, caps_site c, caps_dooh c with
      | None, None, None =>
          Err ("at least one of capabilities.site, capabilities.app, or capabilities.dooh must exist for adapter: " +:+ bidder_name)
      | app, site, dooh =>
          _ ← match app with Some p => validate_platform_info p "app" bidder_name | None => Ok () end;
          _ ← match site with Some p => validate_platform_info p "site" bidder_name | None => Ok () end;
          match dooh with Some p => validate_platform_info p "dooh" bidder_name | None => Ok () end
      end
  end.
Definition validate_bidder_maintainer (maintainer : option MaintainerInfo) (bidder_name : string) : outcome string () :=
  match maintainer with
  | Some m => if str_is_empty (maint_email m) then Err ("missing required field: maintainer.email for adapter: " +:+ bidder_name) else Ok ()
  | None => Err ("missing required field: maintainer.email for adapter: " +:+ bidder_name)
  end.
Definition validate_syncer_config (bidder : CfgBidderInfo) : outcome string () :=
  match info_user_sync bidder with
  | None => Ok ()
  | Some s =>
      if negb (bool_decide (sync_format_override s ∈ [""; "b"; "i"])) then
        Err ("syncer could not be created, invalid format override value: " +:+ sync_format_override s)
      else foldM (λ _ e,
        if eq_ignore_ascii_case e "iframe" || eq_ignore_ascii_case e "redirect" then Ok ()
        else Err ("syncer could not be created, invalid supported endpoint: " +:+ e)) () (sync_supports s)
  end.
Definition errors_of (o : outcome string ()) : list string := match o with Err e => [e] | _ => [] end.
Definition validate_bidder_infos `{MI : MapIter} (infos : BidderInfos) : list string :=
  map_iter infos ≫= λ '(name, bidder),
    if info_is_enabled bidder then
      (if str_is_empty (info_endpoint bidder) then
        ["There's no default endpoint available for " +:+ name +:+ ". Calls to this bidder/exchange will fail. Please set adapters."
         +:+ name +:+ ".endpoint in your app config"] else [])
      ++ errors_of (validate_bidder_capabilities (info_capabilities bidder) name)
      ++ errors_of (validate_bidder_maintainer (info_maintainer bidder) name)
      ++ errors_of (validate_syncer_config bidder)
    else [].
Section Geo.
Context (to_uppercase : string → string).
Definition is_ascii_uppercase (a : Ascii.ascii) : bool :=
  let n := Z.of_N (Ascii.N_of_ascii a) in (65 <=? n) && (n <=? 90).
Definition geoscope_code (code_raw : string) : string + () :=
  let code := to_uppercase (trim code_raw) in
  if bool_decide (code ∈ ["GLOBAL"; "EEA"]) then inr () else
  let check := if String.prefix "!" code then str_drop 1 code else code in
  if negb (String.length check =? 3)%nat then inl " - must be a 3-letter ISO 3166-1 alpha-3 country code"
  else if forallb is_ascii_uppercase (String.list_ascii_of_string check) then inr ()
  else inl " - must contain only uppercase letters A-Z".
Definition validate_geoscope (geoscope : list string) (bidder_name : string) : outcome string () :=
  foldM (λ _ '(i, code_raw),
    match geoscope_code code_raw with
    | inr _ => Ok ()
    | inl why => Err ("invalid geoscope entry at index " +:+ pretty (Z.of_nat i) +:+ ": " +:+ code_raw +:+ " for adapter: "
                      +:+ bidder_name +:+ why)
    end) () (imap pair geoscope).
End Geo.

(** ** Aliases take what they lack from their parent *)

Lemma merge_alias_alias_of n p a : info_alias_of (merge_alias n p a) = info_alias_of a.
Proof. done. Qed.
(** A bidder after its parent's information is filled in. *)
Definition resolved (infos : BidderInfos) (info : CfgBidderInfo) : CfgBidderInfo :=
  if str_is_empty (info_alias_of info) then info else
  match infos !! info_alias_of info with Some parent => merge_alias (info_alias_of info) parent info | None => info end.
(** Every alias is of a bidder that is no alias. *)
Definition alias_sound (infos : BidderInfos) (info : CfgBidderInfo) : Prop :=
  info_alias_of info ≠ "" → ∃ parent, infos !! info_alias_of info = Some parent ∧ info_alias_of parent = "".
#[export] Instance alias_sound_dec infos info : Decision (alias_sound infos info).
Proof.
  destruct (decide (info_alias_of info = "")) as [He|He]; [left; by intros []|].
  destruct (infos !! info_alias_of info) as [p|] eqn:Hp.
  - destruct (decide (info_alias_of p = "")) as [Ha|Ha]; [left; intros _; by exists p|].
    right. intros H. destruct (H He) as (p'&Hp'&?). congruence.
  - right. intros H. destruct (H He) as (p'&Hp'&?). congruence.
Defined.
(** One step, where the aliases of [done] are resolved and the others are as read. *)
Definition resolved_some (infos : BidderInfos) (names : list string) : BidderInfos :=
  map_imap (λ name info, Some (if bool_decide (name ∈ names) then resolved infos info else info)) infos.
Lemma resolved_some_lookup infos names n : resolved_some infos names !! n =
  (λ info, if bool_decide (n ∈ names) then resolved infos info else info) <$> infos !! n.
Proof. unfold resolved_some. rewrite map_lookup_imap. by destruct (infos !! n). Qed.
Lemma resolved_alias_of infos info : info_alias_of (resolved infos info) = info_alias_of info.
Proof. unfold resolved. case_match; [done|]. by case_match. Qed.
Lemma resolved_plain infos info : info_alias_of info = "" → resolved infos info = info.
Proof. unfold resolved. by intros ->. Qed.
Lemma resolved_some_parent infos names n p : infos !! n = Some p → info_alias_of p = "" →
  resolved_some infos names !! n = Some p.
Proof. intros Hn Hp. rewrite resolved_some_lookup, Hn. cbn. by rewrite resolved_plain; [case_bool_decide|]. Qed.
Lemma process_alias_ok infos names alias info parent : alias ∉ names → infos !! alias = Some info →
  infos !! info_alias_of info = Some parent → info_alias_of info ≠ "" → info_alias_of parent = "" →
  process_alias (resolved_some infos names) alias = Ok (resolved_some infos (names ++ [alias])).
Proof.
  intros Hnot Hi Hp Ha Hpp. unfold process_alias, validate_alias.
  rewrite (resolved_some_lookup _ _ alias), Hi. cbn. rewrite (bool_decide_eq_false_2 _ Hnot).
  rewrite (resolved_some_parent _ _ _ _ Hp Hpp), Hpp. unfold str_is_empty. rewrite (bool_decide_eq_false_2 _ Ha). cbn.
  apply (f_equal Ok), map_eq. intros n. destruct (decide (n = alias)) as [->|Hn].
  - rewrite lookup_insert_eq, resolved_some_lookup, Hi. cbn. rewrite bool_decide_eq_true_2 by set_solver.
    unfold resolved, str_is_empty. by rewrite (bool_decide_eq_false_2 _ Ha), Hp.
  - rewrite lookup_insert_ne, !resolved_some_lookup by done. destruct (infos !! n); [|done]. cbn. apply (f_equal Some).
    by rewrite (bool_decide_ext (n ∈ names ++ [alias]) (n ∈ names)) by set_solver.
Qed.
Lemma process_alias_err infos names alias info : alias ∉ names → infos !! alias = Some info →
  ¬ alias_sound infos info → ∃ e, process_alias (resolved_some infos names) alias = Err e.
Proof.
  intros Hnot Hi Hs. unfold process_alias, validate_alias.
  assert (info_alias_of info ≠ "") as Ha by (intros He; apply Hs; by intros []).
  rewrite (resolved_some_lookup _ _ alias), Hi. cbn. rewrite (bool_decide_eq_false_2 _ Hnot).
  unfold str_is_empty at 1. rewrite (bool_decide_eq_false_2 _ Ha), resolved_some_lookup.
  destruct (infos !! info_alias_of info) as [p|] eqn:Hp; cbn; [|by eexists].
  assert (info_alias_of p ≠ "") as Hpa by (intros He; apply Hs; intros _; by exists p).
  replace (info_alias_of (if bool_decide _ then resolved infos p else p)) with (info_alias_of p)
    by (case_bool_decide; by rewrite ?resolved_alias_of).
  unfold str_is_empty. rewrite (bool_decide_eq_false_2 _ Hpa). cbn. by eexists.
Qed.
Definition aliases_named (infos : BidderInfos) (aliases : list (string * CfgBidderInfo)) : Prop :=
  NoDup aliases.*1 ∧ ∀ name info, (name, info) ∈ aliases ↔ infos !! name = Some info ∧ info_alias_of info ≠ "".
Lemma foldM_aliases infos aliases names :
  NoDup (names ++ aliases.*1) → (∀ name info, (name, info) ∈ aliases → infos !! name = Some info) →
  (∀ name info, (name, info) ∈ aliases → info_alias_of info ≠ "") →
  let r := process_bidder_aliases (resolved_some infos names) aliases in
  if bool_decide (Forall (λ e, alias_sound infos e.2) aliases) then r = Ok (resolved_some infos (names ++ aliases.*1))
  else ∃ e, r = Err e.
Proof.
  revert names. induction aliases as [|[name info] aliases IH]; intros names Hnd Hin Hal; cbn.
  { by rewrite app_nil_r. }
  assert (infos !! name = Some info) as Hi by (apply Hin; left).
  assert (info_alias_of info ≠ "") as Ha by (eapply Hal; left).
  assert (name ∉ names) as Hnot.
  { apply NoDup_app in Hnd as (_&Hd&_). intros Hn. apply (Hd _ Hn). cbn. left. }
  assert (∀ e, process_alias (resolved_some infos names) name = Err e →
    ∃ e, process_bidder_aliases (resolved_some infos names) ((name, info) :: aliases) = Err e) as Herr.
  { intros e He. exists e. unfold process_bidder_aliases. cbn. by rewrite He. }
  destruct (decide (alias_sound infos info)) as [Hs|Hs].
  - destruct (Hs Ha) as (parent&Hp&Hpa).
    unfold process_bidder_aliases. cbn. rewrite (process_alias_ok _ _ _ _ _ Hnot Hi Hp Ha Hpa). cbn.
    specialize (IH (names ++ [name])). rewrite <-app_assoc in IH. cbn in IH.
    assert (bool_decide (Forall (λ e, alias_sound infos e.2) ((name, info) :: aliases)) =
      bool_decide (Forall (λ e, alias_sound infos e.2) aliases)) as ->.
    { apply bool_decide_ext. rewrite Forall_cons. cbn. naive_solver. }
    apply IH; [done| |]; intros; [apply Hin|eapply Hal]; by right.
  - rewrite bool_decide_eq_false_2; [|by rewrite Forall_cons; intros [? _]].
    destruct (process_alias_err _ _ _ _ Hnot Hi Hs) as (e&He). by eapply Herr.
Qed.
(** The aliases are resolved, whatever the order of the files, exactly when each is
    of a bidder that is no alias; the others stay as they are. *)
Lemma process_bidder_aliases_spec infos aliases : aliases_named infos aliases →
  let r := process_bidder_aliases infos aliases in
  if bool_decide (map_Forall (λ _ info, alias_sound infos info) infos) then r = Ok (resolved infos <$> infos)
  else ∃ e, r = Err e.
Proof.
  intros [Hnd Hin]. cbn. pose proof (foldM_aliases infos aliases []) as Hf. cbn in Hf.
  assert (resolved_some infos [] = infos) as Hnil.
  { apply map_eq. intros n. rewrite resolved_some_lookup. by destruct (infos !! n). }
  assert (resolved_some infos aliases.*1 = resolved infos <$> infos) as Hall.
  { apply map_eq. intros n. rewrite resolved_some_lookup, lookup_fmap. destruct (infos !! n) as [info|] eqn:Hn; [|done]. cbn.
    apply (f_equal Some). destruct (bool_decide (n ∈ aliases.*1)) eqn:He; [done|]. apply bool_decide_eq_false in He.
    symmetry. apply resolved_plain.
    destruct (decide (info_alias_of info = "")) as [|Ha]; [done|]. destruct He. apply list_elem_of_fmap.
    exists (n, info). split; [done|]. by apply Hin. }
  rewrite Hnil, Hall in Hf.
  replace (bool_decide (map_Forall (λ _ info, alias_sound infos info) infos))
    with (bool_decide (Forall (λ e : string * CfgBidderInfo, alias_sound infos e.2) aliases)).
  { apply Hf; [done| |]; intros ? ? ?%Hin; naive_solver. }
  apply bool_decide_ext. rewrite Forall_forall. split.
  - intros Hs n info Hn. destruct (decide (info_alias_of info = "")) as [He|Ha]; [by intros []|].
    apply (Hs (n, info)). by apply Hin.
  - intros Hs [n info] [Hn _]%Hin. by apply (Hs n).
Qed.

(** ** Loading a directory *)

Section Loading.
Context (from_yaml : string → option CfgBidderInfo).
(** The bidders of the files that read. *)
Definition parsed_file (entry : option DirEntry) : option (string * CfgBidderInfo) :=
  e ← entry; stem ← yaml_stem e; text ← de_text e; info ← from_yaml text; Some (stem, info).
Definition parsed_files (entries : list (option DirEntry)) : list (string * CfgBidderInfo) := omap parsed_file entries.
(** Not a YAML file, or one that reads. *)
Definition entry_reads (entry : option DirEntry) : Prop :=
  match entry with None => False | Some e => yaml_stem e = None ∨ is_Some (de_text e ≫= from_yaml) end.
#[export] Instance entry_reads_dec entry : Decision (entry_reads entry).
Proof. destruct entry; apply _. Defined.
Definition is_alias (e : string * CfgBidderInfo) : Prop := info_alias_of e.2 ≠ "".
#[export] Instance is_alias_dec e : Decision (is_alias e).
Proof. unfold is_alias. apply _. Defined.
Definition insert_infos (m : BidderInfos) (l : list (string * CfgBidderInfo)) : BidderInfos :=
  fold_left (λ m e, <[e.1 := e.2]> m) l m.
Lemma insert_infos_to_map m l : NoDup l.*1 → insert_infos m l = list_to_map l ∪ m.
Proof.
  revert m. induction l as [|[k v] l IH]; intros m Hnd; cbn; [by rewrite map_empty_union|].
  apply NoDup_cons in Hnd as [Hk Hnd]. fold (insert_infos (<[k:=v]> m) l). rewrite IH by done.
  rewrite <-insert_union_r by (by apply not_elem_of_list_to_map). by rewrite insert_union_l.
Qed.
(** One entry: skipped, inserted, or the end of the load. *)
Lemma load_entry_spec acc entry :
  match parsed_file entry with
  | Some (stem, info) => entry_reads entry ∧
      load_entry from_yaml acc entry = Ok (<[stem := info]> acc.1, acc.2 ++ filter is_alias [(stem, info)])
  | None => (entry_reads entry ∧ load_entry from_yaml acc entry = Ok acc)
      ∨ (¬ entry_reads entry ∧ ∃ e, load_entry from_yaml acc entry = Err e)
  end.
Proof.
  unfold load_entry, parsed_file, entry_reads, read_info. destruct entry as [e|]; cbn [mbind option_bind]; [|by eauto].
  destruct (yaml_stem e) as [stem|]; cbn [mbind option_bind]; [|by auto].
  destruct (de_text e) as [text|]; cbn [mbind option_bind]; [|right; split; [by intros [?|[]]|by eexists]].
  destruct (from_yaml text) as [info|]; cbn [mbind option_bind]; [|right; split; [by intros [?|[]]|by eexists]].
  split; [by right; eexists|]. cbn -[filter]. unfold str_is_empty.
  destruct (decide (info_alias_of info = "")) as [He|He].
  - rewrite bool_decide_eq_true_2, filter_cons_False, app_nil_r by (unfold is_alias; cbn; auto). done.
  - rewrite bool_decide_eq_false_2, filter_cons_True by (unfold is_alias; cbn; auto). done.
Qed.
Lemma load_entries_spec entries acc : let r := foldM (load_entry from_yaml) acc entries in
  if bool_decide (Forall entry_reads entries)
  then r = Ok (insert_infos acc.1 (parsed_files entries), acc.2 ++ filter is_alias (parsed_files entries))
  else ∃ e, r = Err e.
Proof.
  revert acc. induction entries as [|entry entries IH]; intros acc; cbn -[bool_decide].
  { by rewrite app_nil_r; destruct acc. }
  pose proof (load_entry_spec acc entry) as Heq.
  assert (entry_reads entry → bool_decide (Forall entry_reads (entry :: entries)) = bool_decide (Forall entry_reads entries)) as Hc.
  { intros Hr. apply bool_decide_ext. rewrite Forall_cons. tauto. }
  unfold parsed_files. cbn [omap list_omap]. fold (parsed_files entries).
  destruct (parsed_file entry) as [[stem info]|] eqn:Hp.
  - destruct Heq as [Hr ->]. rewrite Hc by done. specialize (IH (<[stem:=info]> acc.1, acc.2 ++ filter is_alias [(stem, info)])).
    cbn -[filter bool_decide] in IH |- *. destruct (bool_decide _); [|done]. rewrite IH, <-app_assoc, <-filter_app. done.
  - destruct Heq as [[Hr ->]|[Hr (e&->)]]; [rewrite Hc by done; apply IH|].
    rewrite bool_decide_eq_false_2 by (rewrite Forall_cons; tauto). by eexists.
Qed.
(** What a directory's files say, aliases filled in. *)
Definition disk_infos (entries : list (option DirEntry)) : BidderInfos :=
  let infos : BidderInfos := list_to_map (parsed_files entries) in resolved infos <$> infos.
Definition disk_sound (entries : list (option DirEntry)) : Prop :=
  Forall entry_reads entries ∧
  map_Forall (λ _ info, alias_sound (list_to_map (parsed_files entries)) info) (list_to_map (parsed_files entries) : BidderInfos).
#[export] Instance disk_sound_dec entries : Decision (disk_sound entries).
Proof. unfold disk_sound. apply _. Defined.
Lemma aliases_named_filter l : NoDup l.*1 → aliases_named (list_to_map l) (filter is_alias l).
Proof.
  intros Hnd. split.
  - assert ((filter is_alias l).*1 `sublist_of` l.*1) as Hs by (apply fmap_sublist, sublist_filter).
    by eapply sublist_NoDup.
  - intros name info. rewrite list_elem_of_filter, <-elem_of_list_to_map by done. unfold is_alias. cbn. tauto.
Qed.
(** of a directory whose files name different bidders, loading succeeds exactly
    when every YAML file reads and parses and every alias is of a bidder that is no
    alias; the result is each file's bidder, an alias with what it lacks taken from its
    parent. Otherwise loading fails with an error. *)
Theorem load_from_disk_spec d : (∀ entries, dir_entries d = Some entries → NoDup (parsed_files entries).*1) →
  match (if dir_is_dir d then dir_entries d else None) with
  | Some entries =>
      if bool_decide (disk_sound entries) then load_bidder_info_from_disk from_yaml d = Ok (disk_infos entries)
      else ∃ e, load_bidder_info_from_disk from_yaml d = Err e
  | None => ∃ e, load_bidder_info_from_disk from_yaml d = Err e
  end.
Proof.
  intros Hnd. unfold load_bidder_info_from_disk, list_dir.
  destruct (dir_is_dir d); cbn [negb]; [|by eexists]. destruct (dir_entries d) as [entries|]; cbn; [|by eexists].
  specialize (Hnd _ eq_refl). pose proof (load_entries_spec entries (∅, [])) as Hl. cbn in Hl.
  unfold disk_sound. case_bool_decide as Hr; [|rewrite bool_decide_eq_false_2 by tauto; destruct Hl as (e&->); by eexists].
  rewrite Hl. cbn. rewrite insert_infos_to_map, map_union_empty by done.
  pose proof (process_bidder_aliases_spec _ _ (aliases_named_filter _ Hnd)) as Hp. cbn in Hp.
  case_bool_decide as Hs; [rewrite bool_decide_eq_true_2 by done|rewrite bool_decide_eq_false_2 by tauto]; done.
Qed.
(** The order in which the file system lists the files does not matter. *)
Lemma disk_infos_perm es es' : NoDup (parsed_files es).*1 → es ≡ₚ es' → disk_infos es = disk_infos es'.
Proof.
  intros Hnd Hp. unfold disk_infos. rewrite (list_to_map_proper (M := gmap string) (parsed_files es) (parsed_files es')); [done|done|].
  unfold parsed_files. by rewrite Hp.
Qed.
(** The tolerant walk keeps what the strict load reads. *)
Lemma tolerant_walk_extends d m : load_bidder_infos_from_dir from_yaml d = Ok m → tolerant_walk from_yaml d = Some m.
Proof.
  unfold load_bidder_infos_from_dir, tolerant_walk. destruct (dir_is_dir d); [|done]. cbn.
  destruct (dir_entries d) as [entries|]; [|done]. cbn. generalize (∅ : BidderInfos) as m0.
  induction entries as [|entry entries IH]; intros m0; cbn; [by intros [= <-]|].
  destruct entry as [e|]; [|done]. cbn. destruct (yaml_stem e); cbn; [|apply IH].
  destruct (de_text e) as [text|]; [|done]. cbn. unfold load_bidder_info_yaml.
  destruct (from_yaml text); [|done]. cbn. apply IH.
Qed.
End Loading.

(** ** Loops over a map, and the checks *)

(** The ids of the enabled bidders that have one. *)
Lemma to_gvl_vendor_id_map_lookup `{MI : MapIter} infos name : to_gvl_vendor_id_map infos !! name =
  info ← infos !! name; if info_is_enabled info && negb (info_gvl_vendor_id info =? 0) then Some (info_gvl_vendor_id info) else None.
Proof.
  unfold to_gvl_vendor_id_map. rewrite (map_iter_fold_update _ (λ _ info old,
    if info_is_enabled info && negb (info_gvl_vendor_id info =? 0) then Some (info_gvl_vendor_id info) else old)).
  - rewrite lookup_empty. by destruct (infos !! name).
  - intros acc k v. destruct (_ && _); [done|]. apply map_eq. intros i.
    by destruct (decide (k = i)) as [->|]; rewrite ?lookup_partial_alter_eq, ?lookup_partial_alter_ne by done.
Qed.
(** The fill keeps what the registry says and adds the YAML file's for the rest. *)
Lemma enrich_lookup `{MI : MapIter} yaml registry name : enrich_registry_with_yaml yaml registry !! name =
  match yaml !! name with
  | Some info => Some (fill_info (default default_CfgBidderInfo (registry !! name)) info)
  | None => registry !! name
  end.
Proof.
  unfold enrich_registry_with_yaml.
  rewrite (map_iter_fold_update _ (λ _ info old, Some (fill_info (default default_CfgBidderInfo old) info))); [done|].
  intros acc k v. apply map_eq. intros i.
  by destruct (decide (k = i)) as [->|]; rewrite ?lookup_partial_alter_eq, ?lookup_partial_alter_ne, ?lookup_insert_eq, ?lookup_insert_ne.
Qed.
(** A second fill changes nothing. *)
Lemma fill_info_idem a b : fill_info (fill_info a b) b = fill_info a b.
Proof.
  assert (∀ s t, or_text (or_text s t) t = or_text s t) as Ht.
  { intros s t. unfold or_text. destruct (str_is_empty s) eqn:Hs; [by destruct (str_is_empty t)|by rewrite Hs]. }
  assert (∀ A (o p : option A), option_or (option_or o p) p = option_or o p) as Ho by by intros A [] [].
  unfold fill_info. cbn. rewrite !Ht, !Ho, <-orb_assoc, orb_diag. f_equal.
  - destruct (info_gvl_vendor_id a =? 0) eqn:Ha; [by destruct (info_gvl_vendor_id b =? 0)|by rewrite Ha].
  - destruct (bool_decide (info_geoscope a = [])) eqn:Ha; [by destruct (bool_decide (info_geoscope b = []))|by rewrite Ha].
Qed.

(** The information a bidder needs to be called. *)
Definition valid_platform (info : PlatformInfo) : Prop :=
  plat_media_types info ≠ [] ∧ Forall (λ mt, mt ∈ ["banner"; "video"; "native"; "audio"]) (plat_media_types info).
Definition valid_capabilities (caps : option CapabilitiesInfo) : Prop :=
  ∃ c, caps = Some c ∧ (caps_app c ≠ None ∨ caps_site c ≠ None ∨ caps_dooh c ≠ None)
  ∧ ∀ p, p ∈ [caps_app c; caps_site c; caps_dooh c] → ∀ info, p = Some info → valid_platform info.
Definition valid_syncer (b : CfgBidderInfo) : Prop :=
  ∀ s, info_user_sync b = Some s → sync_format_override s ∈ [""; "b"; "i"] ∧
  Forall (λ e, eq_ignore_ascii_case e "iframe" || eq_ignore_ascii_case e "redirect" = true) (sync_supports s).
Definition valid_bidder (b : CfgBidderInfo) : Prop :=
  info_endpoint b ≠ "" ∧ valid_capabilities (info_capabilities b)
  ∧ (∃ m, info_maintainer b = Some m ∧ maint_email m ≠ "") ∧ valid_syncer b.

(** A loop that stops at the first element that fails. *)
Lemma foldM_checks {A} (P : A → Prop) `{∀ x, Decision (P x)} (f : () → A → outcome string ()) l :
  (∀ x, P x → f () x = Ok ()) → (∀ x, ¬ P x → ∃ e, f () x = Err e) →
  foldM f () l = Ok () ↔ Forall P l.
Proof.
  intros Hok Herr. induction l as [|x l IH]; cbn; [by split; [constructor|]|]. rewrite Forall_cons, <-IH.
  destruct (decide (P x)) as [Hp|Hp]; [rewrite Hok by done; cbn; tauto|].
  destruct (Herr _ Hp) as (e&->). cbn. split; [done|by intros []].
Qed.
Lemma Forall_imap_snd {A} (P : A → Prop) (l : list A) : Forall (λ e : nat * A, P e.2) (imap pair l) ↔ Forall P l.
Proof.
  assert (∀ (f : nat → nat), Forall (λ e : nat * A, P e.2) (imap (λ i x, (f i, x)) l) ↔ Forall P l) as H; [|apply (H id)].
  induction l as [|x l IH]; intros f; [by split|]. rewrite imap_cons, !Forall_cons. cbn. f_equiv. apply (IH (f ∘ S)).
Qed.
Lemma validate_platform_iff info platform name : validate_platform_info info platform name = Ok () ↔ valid_platform info.
Proof.
  unfold validate_platform_info, valid_platform. case_bool_decide as He; [naive_solver|].
  rewrite (foldM_checks (λ e, e.2 ∈ ["banner"; "video"; "native"; "audio"])), (Forall_imap_snd (λ mt, mt ∈ _)); [tauto|..].
  - intros [i mt] Hmt. cbn in Hmt. by rewrite bool_decide_eq_true_2.
  - intros [i mt] Hmt. cbn in Hmt. rewrite bool_decide_eq_false_2 by done. by eexists.
Qed.
Lemma errors_of_nil (o : outcome string ()) : o ≠ Panic → errors_of o = [] ↔ o = Ok ().
Proof. by destruct o as [[]| |]. Qed.
Lemma foldM_no_panic {A} (f : () → A → outcome string ()) l : (∀ x, f () x ≠ Panic) → foldM f () l ≠ Panic.
Proof.
  intros Hf. induction l as [|x l IH]; cbn; [done|]. specialize (Hf x). by destruct (f () x) as [[]| |].
Qed.
Lemma validate_platform_no_panic info platform name : validate_platform_info info platform name ≠ Panic.
Proof.
  unfold validate_platform_info. case_bool_decide; [done|]. apply foldM_no_panic. intros [i mt]. by case_bool_decide.
Qed.
Definition platform_check (o : option PlatformInfo) (platform name : string) : outcome string () :=
  match o with Some p => validate_platform_info p platform name | None => Ok () end.
Lemma platform_check_iff o platform name : platform_check o platform name = Ok () ↔ ∀ info, o = Some info → valid_platform info.
Proof. destruct o; cbn; [rewrite validate_platform_iff; naive_solver|naive_solver]. Qed.
Lemma validate_capabilities_eq c name : ¬ (caps_app c = None ∧ caps_site c = None ∧ caps_dooh c = None) →
  validate_bidder_capabilities (Some c) name =
  (_ ← platform_check (caps_app c) "app" name; _ ← platform_check (caps_site c) "site" name; platform_check (caps_dooh c) "dooh" name).
Proof. cbn. intros Hn. destruct (caps_app c), (caps_site c), (caps_dooh c); try done. by destruct Hn. Qed.
Lemma bind_Ok_unit (m k : outcome string ()) : (_ ← m; k) = Ok () ↔ m = Ok () ∧ k = Ok ().
Proof. destruct m as [[]| |]; cbn; [tauto|by split; [|intros [? _]]..]. Qed.
Lemma validate_capabilities_iff caps name : validate_bidder_capabilities caps name = Ok () ↔ valid_capabilities caps.
Proof.
  unfold valid_capabilities. destruct caps as [c|]; [|cbn; split; [done|by intros (?&?&_)]].
  destruct (decide (caps_app c = None ∧ caps_site c = None ∧ caps_dooh c = None)) as [(Ha&Hs&Hd)|Hn].
  { cbn. rewrite Ha, Hs, Hd. split; [done|]. intros (?&[= <-]&[?|[?|?]]&_); congruence. }
  rewrite validate_capabilities_eq, !bind_Ok_unit, !platform_check_iff by done. split.
  - intros (Ha&Hs&Hd). exists c. split; [done|]. split.
    { destruct (decide (caps_app c = None)), (decide (caps_site c = None)), (decide (caps_dooh c = None)); tauto. }
    intros p Hp. rewrite !elem_of_cons in Hp. destruct Hp as [->|[->|[->|[]%not_elem_of_nil]]]; eauto.
  - intros (?&[= <-]&_&Hp). split_and!; apply Hp; set_solver.
Qed.
Lemma capabilities_no_panic caps name : validate_bidder_capabilities caps name ≠ Panic.
Proof.
  destruct caps as [c|]; [|done]. cbn. destruct (caps_app c) as [a|], (caps_site c) as [b|], (caps_dooh c) as [d|]; try done.
  all: repeat match goal with |- context [validate_platform_info ?x ?y ?z] =>
    pose proof (validate_platform_no_panic x y z); destruct (validate_platform_info x y z) as [[]| |]; cbn; try done end.
Qed.
Lemma validate_syncer_iff b : validate_syncer_config b = Ok () ↔ valid_syncer b.
Proof.
  unfold validate_syncer_config, valid_syncer. destruct (info_user_sync b) as [s|]; [|naive_solver].
  case_bool_decide as Hf; cbn [negb]; [|naive_solver].
  rewrite (foldM_checks (λ e, eq_ignore_ascii_case e "iframe" || eq_ignore_ascii_case e "redirect" = true)); [naive_solver|..].
  - by intros x ->.
  - intros x Hx. apply not_true_is_false in Hx. rewrite Hx. by eexists.
Qed.
Lemma syncer_no_panic b : validate_syncer_config b ≠ Panic.
Proof.
  unfold validate_syncer_config. destruct (info_user_sync b); [|done]. destruct (negb _); [done|].
  apply foldM_no_panic. intros x. by destruct (_ || _).
Qed.
Lemma validate_maintainer_iff m name : errors_of (validate_bidder_maintainer m name) = [] ↔ ∃ i, m = Some i ∧ maint_email i ≠ "".
Proof.
  destruct m as [i|]; cbn; [|naive_solver]. unfold str_is_empty. case_bool_decide; cbn; naive_solver.
Qed.
(** The check accepts exactly maps whose enabled bidders can all be called. *)
Lemma validate_bidder_infos_spec `{MI : MapIter} infos : validate_bidder_infos infos = [] ↔
  ∀ name b, infos !! name = Some b → info_is_enabled b = true → valid_bidder b.
Proof.
  unfold validate_bidder_infos.
  assert (∀ name b, (if info_is_enabled b then
      (if str_is_empty (info_endpoint b) then
        ["There's no default endpoint available for " +:+ name +:+ ". Calls to this bidder/exchange will fail. Please set adapters."
         +:+ name +:+ ".endpoint in your app config"] else [])
      ++ errors_of (validate_bidder_capabilities (info_capabilities b) name)
      ++ errors_of (validate_bidder_maintainer (info_maintainer b) name)
      ++ errors_of (validate_syncer_config b) else []) = [] ↔ (info_is_enabled b = true → valid_bidder b)) as Hb.
  { intros name b. destruct (info_is_enabled b); [|naive_solver]. unfold valid_bidder.
    rewrite !app_nil, validate_maintainer_iff, !errors_of_nil, validate_capabilities_iff, validate_syncer_iff
      by (apply capabilities_no_panic || apply syncer_no_panic).
    unfold str_is_empty. case_bool_decide; naive_solver. }
  split.
  - intros Hnil name b Hn. apply (Hb name). apply map_iter_elem in Hn. clear Hb.
    induction (map_iter infos) as [|[n' b'] l IH]; [by apply elem_of_nil in Hn|].
    cbn in Hnil. apply app_nil in Hnil as [Hh Ht]. apply elem_of_cons in Hn as [[= -> ->]|Hn]; [exact Hh|by apply IH].
  - intros Hv. assert (∀ name b, (name, b) ∈ map_iter infos → info_is_enabled b = true → valid_bidder b) as Hl.
    { intros name b Hn%map_iter_elem. by apply (Hv name). }
    clear Hv. induction (map_iter infos) as [|[n b] l IH]; [done|]. cbn. apply app_nil. split.
    + apply (Hb n). apply (Hl n). left.
    + apply IH. intros name b' Hn. apply (Hl name). by right.
Qed.

(** Two files, an alias before its parent. *)
Definition sample_alias : CfgBidderInfo := {|
  info_alias_of := "parent"; info_disabled := false; info_endpoint := ""; info_extra_info := "";
  info_maintainer := None; info_capabilities := None; info_gvl_vendor_id := 7;
  info_modifying_vast_xml_allowed := false; info_debug := None; info_geoscope := []; info_user_sync := None;
  info_experiment := default_BidderExperimentConfig; info_openrtb := None; info_endpoint_compression := "";
  info_xapi := default_BidderXAPIConfig; info_platform_id := ""; info_app_secret := "" |}.
Definition sample_parent : CfgBidderInfo := {|
  info_alias_of := ""; info_disabled := false; info_endpoint := "https://e"; info_extra_info := "";
  info_maintainer := None; info_capabilities := None; info_gvl_vendor_id := 3;
  info_modifying_vast_xml_allowed := false; info_debug := None; info_geoscope := []; info_user_sync := None;
  info_experiment := default_BidderExperimentConfig; info_openrtb := None; info_endpoint_compression := "";
  info_xapi := default_BidderXAPIConfig; info_platform_id := ""; info_app_secret := "" |}.
Definition sample_yaml (text : string) : option CfgBidderInfo :=
  if bool_decide (text = "alias") then Some sample_alias else if bool_decide (text = "parent") then Some sample_parent else None.
Definition sample_dir : Dir := {| dir_path := "d"; dir_is_dir := true; dir_entries := Some
  [Some {| de_path := "d/a.yaml"; de_stem := Some "a"; de_ext := "yaml"; de_text := Some "alias" |};
   Some {| de_path := "d/parent.yaml"; de_stem := Some "parent"; de_ext := "yaml"; de_text := Some "parent" |}] |}.
Lemma load_from_disk_spec_witness :
  match (if dir_is_dir sample_dir then dir_entries sample_dir else None) with
  | Some entries =>
      if bool_decide (disk_sound sample_yaml entries)
      then load_bidder_info_from_disk sample_yaml sample_dir = Ok (disk_infos sample_yaml entries)
      else ∃ e, load_bidder_info_from_disk sample_yaml sample_dir = Err e
  | None => ∃ e, load_bidder_info_from_disk sample_yaml sample_dir = Err e
  end ∧ (info_endpoint <$> disk_infos sample_yaml (default [] (dir_entries sample_dir)) !! "a") = Some "https://e".
Proof.
  split; [|by vm_compute]. apply (load_from_disk_spec sample_yaml sample_dir).
  intros entries [= <-]. apply (bool_decide_unpack _). by vm_compute.
Defined.
