(* ===== verification/OpenRtbExt.v ===== *)
(** * Bid extensions and the adapter interface's data

    openrtb-ext/src/lib.rs and adapters/src/lib.rs: the structs the exchange
    passes to and takes from its bidders, and the objects it reports bids that
    did not compete with. *)

From S2P Require Import Prelude Json OpenRtb.

(** openrtb-ext: [BidType] *)
Inductive BidType : Type := BtBanner | BtVideo | BtAudio | BtNative.
#[export] Instance BidType_eq_dec : EqDecision BidType.
Proof. solve_decision. Defined.
Definition bid_type_from_mtype (mtype : Z) : BidType :=
  match mtype with
  | 1 => BtBanner | 2 => BtVideo | 3 => BtAudio | 4 => BtNative | _ => BtBanner
  end.
Definition bid_type_to_string (t : BidType) : string :=
  match t with
  | BtBanner => "banner" | BtVideo => "video" | BtAudio => "audio" | BtNative => "native"
  end.

(** adapters: [BidderError] *)
Inductive BidderError : Type :=
| BadInput (s : string)
| BadServerResponse (s : string)
| FailedToRequestBids (s : string)
| Timeout
| Unknown (s : string).
Definition bidder_error_to_string (e : BidderError) : string :=
  match e with
  | BadInput s => "bad input: " +:+ s
  | BadServerResponse s => "bad server response: " +:+ s
  | FailedToRequestBids s => "failed to request bids: " +:+ s
  | Timeout => "timeout"
  | Unknown s => s
  end.
Definition is_fatal (e : BidderError) : bool := match e with BadInput _ => true | _ => false end.

Record ExtBidPrebidMeta : Type := {
  meta_adapter_code : option string;
  meta_advertiser_domains : option (list string);
  meta_advertiser_id : option Z;
  meta_advertiser_name : option string;
  meta_agency_id : option Z;
  meta_agency_name : option string;
  meta_brand_id : option Z;
  meta_brand_name : option string;
  meta_dchain : option Value;
  meta_demand_source : option string;
  meta_media_type : option string;
  meta_network_id : option Z;
  meta_network_name : option string;
  meta_primary_category_id : option string;
  meta_renderer_name : option string;
  meta_renderer_version : option string;
  meta_renderer_data : option Value;
  meta_renderer_url : option string;
  meta_secondary_category_ids : option (list string);
  meta_seat : option string;
}.

Record ExtBidPrebidVideo : Type := {
  bvid_duration : Z;
  bvid_primary_category : string;
}.

Record NonBidObject : Type := {
  nbo_price : option f64;
  nbo_adomain : option (list string);
  nbo_cat : option (list string);
  nbo_dealid : option string;
  nbo_w : option Z;
  nbo_h : option Z;
  nbo_dur : option Z;
  nbo_orig_bid_cpm : option f64;
  nbo_orig_bid_cur : option string;
}.

Record ExtResponseNonBidPrebid : Type := {
  nbp_bid : NonBidObject;
}.

Record NonBidExt : Type := {
  nbx_prebid : ExtResponseNonBidPrebid;
}.

Record NonBid : Type := {
  nb_impid : string;
  nb_statuscode : Z;
  nb_ext : option NonBidExt;
}.

Record SeatNonBid : Type := {
  snb_nonbid : list NonBid;
  snb_seat : string;
  snb_ext : option Value;
}.

Record FledgeAuctionConfig : Type := {
  fledge_impid : string;
  fledge_bidder : option string;
  fledge_adapter : option string;
  fledge_config : Value;
}.

Record ExtHttpCall : Type := {
  hc_uri : string;
  hc_request_body : string;
  hc_request_headers : gmap string (list string);
  hc_response_body : string;
  hc_status : Z;
}.

Record MultiBid : Type := {
  mb_bidder : option string;
  mb_bidders : option (list string);
  mb_max_bids : option Z;
  mb_target_bidder_code_prefix : option string;
}.

Record ExtraRequestInfo : Type := {
  eri_pbs_entry_point : string;
  eri_global_privacy_control_header : string;
}.

Record RequestData : Type := {
  rqd_method : string;
  rqd_uri : string;
  rqd_body : list Z;
  rqd_headers : gmap string string;
  rqd_imp_ids : list string;
}.

Record ResponseData : Type := {
  rsd_status_code : Z;
  rsd_body : list Z;
  rsd_headers : gmap string string;
}.

Record TypedBid : Type := {
  tb_bid : Bid;
  tb_bid_meta : option ExtBidPrebidMeta;
  tb_bid_type : BidType;
  tb_bid_video : option ExtBidPrebidVideo;
  tb_deal_priority : Z;
  tb_orig_bid_cpm : f64;
  tb_orig_bid_cur : string;
  tb_orig_bid_cpm_usd : f64;
}.
Definition set_tb_bid (x : Bid) (r : TypedBid) : TypedBid := {|
  tb_bid := x; tb_bid_meta := tb_bid_meta r; tb_bid_type := tb_bid_type r;
  tb_bid_video := tb_bid_video r; tb_deal_priority := tb_deal_priority r;
  tb_orig_bid_cpm := tb_orig_bid_cpm r; tb_orig_bid_cur := tb_orig_bid_cur r;
  tb_orig_bid_cpm_usd := tb_orig_bid_cpm_usd r |}.

Record BidderResponse : Type := {
  br_currency : string;
  br_bids : list TypedBid;
  br_fledge_auction_configs : list FledgeAuctionConfig;
}.
Definition set_br_bids (x : list TypedBid) (r : BidderResponse) : BidderResponse := {|
  br_currency := br_currency r; br_bids := x;
  br_fledge_auction_configs := br_fledge_auction_configs r |}.
Definition set_br_currency (x : string) (r : BidderResponse) : BidderResponse := {|
  br_currency := x; br_bids := br_bids r;
  br_fledge_auction_configs := br_fledge_auction_configs r |}.

(** [TypedBid::new] and [BidderResponse::new] *)
Definition typed_bid_new (bid : Bid) (bid_type : BidType) : TypedBid := {|
  tb_bid := bid; tb_bid_meta := None; tb_bid_type := bid_type; tb_bid_video := None;
  tb_deal_priority := 0; tb_orig_bid_cpm := f64_zero; tb_orig_bid_cur := "USD";
  tb_orig_bid_cpm_usd := f64_zero |}.
Definition bidder_response_new : BidderResponse := {|
  br_currency := "USD"; br_bids := []; br_fledge_auction_configs := [] |}.
