(* ===== verification/PrivacyCrate.v ===== *)
(** * The privacy crate: policies and activities

    privacy/src/lib.rs, ccpa.rs, lmt.rs and activity.rs: the traits
    [PolicyEnforcer] and [PolicyWriter] with their implementations, the CCPA
    string and its no-sale list, the LMT signal, and activity plans. *)

From S2P Require Import Prelude Json OpenRtb.

(** ** lib.rs *)

Inductive Activity : Type :=
| SyncUser | FetchBids | EnrichUserFPD | ReportAnalytics | TransmitUserFPD
| TransmitPreciseGeo | TransmitUniqueRequestIDs | TransmitTIDs.
#[export] Instance Activity_eq_dec : EqDecision Activity.
Proof. solve_decision. Defined.
Definition activity_to_string (a : Activity) : string :=
  match a with
  | SyncUser => "syncUser" | FetchBids => "fetchBids" | EnrichUserFPD => "enrichUfpd"
  | ReportAnalytics => "reportAnalytics" | TransmitUserFPD => "transmitUfpd"
  | TransmitPreciseGeo => "transmitPreciseGeo"
  | TransmitUniqueRequestIDs => "transmitUniqueRequestIds" | TransmitTIDs => "transmitTid"
  end.
Definition all_activities : list Activity :=
  [SyncUser; FetchBids; EnrichUserFPD; ReportAnalytics; TransmitUserFPD; TransmitPreciseGeo;
   TransmitUniqueRequestIDs; TransmitTIDs].
#[export] Instance Activity_countable : Countable Activity.
Proof.
  refine (inj_countable activity_to_string
    (λ s, head (List.filter (λ a, bool_decide (activity_to_string a = s)) all_activities)) _).
  by intros [].
Defined.

Inductive ActivityResult : Type := Abstain | Allow | Deny.
#[export] Instance ActivityResult_eq_dec : EqDecision ActivityResult.
Proof. solve_decision. Defined.

(** [trait PolicyEnforcer]; its law: a policy is enforced only where it was
    given. *)
Class PolicyEnforcer (P : Type) := {
  can_enforce : P → bool;
  should_enforce : P → string → bool;
  enforcer_wf : P → Prop;
  enforce_only_given p bidder :
    enforcer_wf p → should_enforce p bidder = true → can_enforce p = true;
}.

Inductive NilPolicyEnforcer : Type := nil_policy_enforcer.
#[export, program] Instance NilPolicyEnforcer_enforcer : PolicyEnforcer NilPolicyEnforcer := {|
  can_enforce _ := false; should_enforce _ _ := false; enforcer_wf _ := True |}.
Next Obligation. done. Qed.

Record EnabledPolicyEnforcer (P : Type) : Type := { epe_enabled : bool; epe_enforcer : P }.
Arguments epe_enabled {P} _.
Arguments epe_enforcer {P} _.
#[export, program] Instance EnabledPolicyEnforcer_enforcer `{PolicyEnforcer P} :
  PolicyEnforcer (EnabledPolicyEnforcer P) := {|
  can_enforce p := can_enforce (epe_enforcer p);
  should_enforce p bidder :=
    if epe_enabled p then should_enforce (epe_enforcer p) bidder else false;
  enforcer_wf p := enforcer_wf (epe_enforcer p) |}.
Next Obligation.
  intros P HP [[] p] bidder; simpl; [apply enforce_only_given|done].
Qed.

(** A request without the fields that carry policies. *)
Definition without_policy (req : BidRequest) : BidRequest :=
  set_req_regs None (set_req_user None req).
(** [trait PolicyWriter]; its law: nothing but the user and the regs changes. *)
Class PolicyWriter (W : Type) := {
  write_policy : W → M BidRequest string unit;
  writer_frame w req : without_policy (write_policy w req).2 = without_policy req;
}.
Inductive NilPolicyWriter : Type := nil_policy_writer.
#[export, program] Instance NilPolicyWriter_writer : PolicyWriter NilPolicyWriter := {|
  write_policy _ := mret () |}.
Next Obligation. done. Qed.

Record Component : Type := { cmp_component_type : string; cmp_name : string }.
Definition component_new (component_type name : string) : Component :=
  {| cmp_component_type := component_type; cmp_name := name |}.
Definition matches_name (c : Component) (v : string) : bool := eq_ignore_ascii_case (cmp_name c) v.
Definition matches_type (c : Component) (v : string) : bool :=
  eq_ignore_ascii_case (cmp_component_type c) v.

Record Policies : Type := { plc_gpp_sid : list Z }.

(** ** ccpa.rs *)

Record Policy : Type := { pol_consent : string; pol_no_sale_bidders : list string }.
Record ParsedPolicy : Type := {
  pp_consent_specified : bool;
  pp_consent_opt_out_sale : bool;
  pp_no_sale_for_all_bidders : bool;
  pp_no_sale_specific_bidders : gset string;
}.

(** [b'N'], [b'Y'] or [b'-'] *)
Definition ccpa_flag_ok (c : option Z) : bool :=
  match c with Some c => (c =? 78) || (c =? 89) || (c =? 45) | None => false end.
Definition parse_consent (consent : string) : outcome string bool :=
  if str_is_empty consent then Ok false
  else
    let bytes := string_bytes consent in
    if negb (zlen bytes =? 4) then Err "must contain 4 characters"
    else if negb (bool_decide (bytes !! 0%nat = Some 49)) then Err "must specify version 1"
    else if negb (ccpa_flag_ok (bytes !! 1%nat))
    then Err "must specify 'N', 'Y', or '-' for the explicit notice"
    else if negb (ccpa_flag_ok (bytes !! 2%nat))
    then Err "must specify 'N', 'Y', or '-' for the opt-out sale"
    else if negb (ccpa_flag_ok (bytes !! 3%nat))
    then Err "must specify 'N', 'Y', or '-' for the limited service provider agreement"
    else Ok (bool_decide (bytes !! 2%nat = Some 89)).
Definition validate_consent (consent : string) : bool := is_Ok (parse_consent consent).

Definition no_sale_bidder_step (valid_bidders : gset string) (specific : gset string)
    (bidder : string) : outcome string (gset string) :=
  if bool_decide (bidder = "*")
  then Err "can only specify all bidders if no other bidders are provided"
  else if bool_decide (bidder ∈ valid_bidders) then Ok ({[ bidder ]} ∪ specific)
  else Err ("unrecognized bidder '" +:+ bidder +:+ "'").
Definition parse_no_sale_bidders (no_sale_bidders : list string) (valid_bidders : gset string)
    : outcome string (bool * gset string) :=
  if bool_decide (no_sale_bidders = ["*"]) then Ok (true, ∅)
  else specific ← foldM (no_sale_bidder_step valid_bidders) ∅ no_sale_bidders;
       Ok (false, specific).

Definition policy_parse (p : Policy) (valid_bidders : gset string) : outcome string ParsedPolicy :=
  consent_opt_out ← parse_consent (pol_consent p);
  '(no_sale_for_all, no_sale_specific) ←
    parse_no_sale_bidders (pol_no_sale_bidders p) valid_bidders;
  Ok {| pp_consent_specified := negb (str_is_empty (pol_consent p));
        pp_consent_opt_out_sale := consent_opt_out;
        pp_no_sale_for_all_bidders := no_sale_for_all;
        pp_no_sale_specific_bidders := no_sale_specific |}.

Definition is_no_sale_for_bidder (p : ParsedPolicy) (bidder : string) : bool :=
  if pp_no_sale_for_all_bidders p then true
  else bool_decide (bidder ∈ pp_no_sale_specific_bidders p).
Definition pp_should_enforce (p : ParsedPolicy) (bidder : string) : bool :=
  negb (is_no_sale_for_bidder p bidder) && pp_consent_opt_out_sale p.
#[export, program] Instance ParsedPolicy_enforcer : PolicyEnforcer ParsedPolicy := {|
  can_enforce := pp_consent_specified;
  should_enforce := pp_should_enforce;
  enforcer_wf p := pp_consent_opt_out_sale p = true → pp_consent_specified p = true |}.
Next Obligation. intros p bidder Hwf [_ Ho]%andb_true_iff. auto. Qed.

Record ConsentWriter : Type := { cw_consent : string }.
Definition set_us_privacy (consent : string) (req : BidRequest) : BidRequest :=
  set_req_regs (Some (set_regs_us_privacy (Some consent) (default default_regs (req_regs req)))) req.
#[export, program] Instance ConsentWriter_writer : PolicyWriter ConsentWriter := {|
  write_policy w req :=
    (Ok (), if str_is_empty (cw_consent w) then req else set_us_privacy (cw_consent w) req) |}.
Next Obligation. intros [c] req. simpl. by destruct (str_is_empty c). Qed.

(** ** lmt.rs *)

Record LmtSignal : Type := { lmt_signal : Z; lmt_signal_provided : bool }.
Definition lmt_read_from_request (req : BidRequest) : LmtSignal :=
  match req_device req ≫= dev_lmt with
  | Some lmt => {| lmt_signal := lmt; lmt_signal_provided := true |}
  | None => {| lmt_signal := 0; lmt_signal_provided := false |}
  end.
#[export, program] Instance LmtSignal_enforcer : PolicyEnforcer LmtSignal := {|
  can_enforce := lmt_signal_provided;
  should_enforce p _ := lmt_signal_provided p && (lmt_signal p =? 1);
  enforcer_wf _ := True |}.
Next Obligation. by intros p _ _ [H _]%andb_true_iff. Qed.

(** ** activity.rs *)

Record ConditionRule : Type := {
  cr_result : ActivityResult;
  cr_component_name : list string;
  cr_component_type : list string;
  cr_gpp_sid : list Z;
}.
Definition evaluate_component_name (target : Component) (names : list string) : bool :=
  if bool_decide (names = []) then true else existsb (matches_name target) names.
Definition evaluate_component_type (target : Component) (types : list string) : bool :=
  if bool_decide (types = []) then true else existsb (matches_type target) types.
Definition evaluate_gpp_sid (rule_sids request_sids : list Z) : bool :=
  if bool_decide (rule_sids = []) then true
  else existsb (λ x, existsb (λ y, x =? y) rule_sids) request_sids.
Definition rule_evaluate (r : ConditionRule) (target : Component) (gpp_sid : list Z)
    : ActivityResult :=
  if negb (evaluate_component_name target (cr_component_name r)) then Abstain
  else if negb (evaluate_component_type target (cr_component_type r)) then Abstain
  else if negb (evaluate_gpp_sid (cr_gpp_sid r) gpp_sid) then Abstain
  else cr_result r.

Record ActivityPlan : Type := { ap_default_result : bool; ap_rules : list ConditionRule }.
Fixpoint rules_evaluate (default_result : bool) (rules : list ConditionRule)
    (target : Component) (gpp_sid : list Z) : bool :=
  match rules with
  | [] => default_result
  | rule :: rules' =>
      match rule_evaluate rule target gpp_sid with
      | Allow => true
      | Deny => false
      | Abstain => rules_evaluate default_result rules' target gpp_sid
      end
  end.
Definition plan_evaluate (p : ActivityPlan) (target : Component) (gpp_sid : list Z) : bool :=
  rules_evaluate (ap_default_result p) (ap_rules p) target gpp_sid.

Record ActivityControl : Type := { ac_plans : gmap Activity ActivityPlan }.
Definition activity_control_new : ActivityControl := {| ac_plans := ∅ |}.
Definition set_plan (activity : Activity) (plan : ActivityPlan) (c : ActivityControl)
    : ActivityControl := {| ac_plans := <[ activity := plan ]> (ac_plans c) |}.
Definition DEFAULT_ACTIVITY_RESULT : bool := true.
Definition activity_allow (c : ActivityControl) (activity : Activity) (target : Component)
    (policies : Policies) : bool :=
  match ac_plans c !! activity with
  | Some plan => plan_evaluate plan target (plc_gpp_sid policies)
  | None => DEFAULT_ACTIVITY_RESULT
  end.

(** ** Specification *)

Definition ccpa_flags : list string := ["N"; "Y"; "-"].
(** A version-1 US Privacy string, [sale] its opt-out flag. *)
Definition us_privacy_string (c sale : string) : Prop :=
  ∃ notice lspa, notice ∈ ccpa_flags ∧ sale ∈ ccpa_flags ∧ lspa ∈ ccpa_flags ∧
    c = ("1" +:+ notice +:+ sale +:+ lspa).
(** A no-sale list: the marker for all bidders alone, or known bidders. *)
Definition no_sale_ok (no_sale : list string) (valid_bidders : gset string) : Prop :=
  no_sale = ["*"] ∨ ("*" ∉ no_sale) ∧ ∀ b, b ∈ no_sale → b ∈ valid_bidders.
Definition no_sale_covers (no_sale : list string) (bidder : string) : Prop :=
  no_sale = ["*"] ∨ bidder ∈ no_sale.

(** The rule that decides a plan. *)
Definition rule_matches (r : ConditionRule) (target : Component) (gpp_sid : list Z) : Prop :=
  (cr_component_name r = [] ∨ ∃ n, n ∈ cr_component_name r ∧
     to_ascii_lowercase n = to_ascii_lowercase (cmp_name target)) ∧
  (cr_component_type r = [] ∨ ∃ t, t ∈ cr_component_type r ∧
     to_ascii_lowercase t = to_ascii_lowercase (cmp_component_type target)) ∧
  (cr_gpp_sid r = [] ∨ ∃ sid, sid ∈ cr_gpp_sid r ∧ sid ∈ gpp_sid).
Definition decides (r : ConditionRule) (target : Component) (gpp_sid : list Z) : Prop :=
  rule_matches r target gpp_sid ∧ cr_result r ≠ Abstain.

(** *** Example data *)

Definition sample_policy : Policy :=
  {| pol_consent := "1NYN"; pol_no_sale_bidders := ["rubicon"] |}.
Definition sample_rule (result : ActivityResult) (names : list string) : ConditionRule :=
  {| cr_result := result; cr_component_name := names; cr_component_type := [];
     cr_gpp_sid := [] |}.
Definition sample_plan : ActivityPlan :=
  {| ap_default_result := true;
     ap_rules := [sample_rule Allow ["AppNexus"]; sample_rule Deny []] |}.

(** ** Proofs: CCPA *)

Lemma string_bytes_length s : length (string_bytes s) = String.length s.
Proof. induction s; simpl; congruence. Qed.

Lemma byte_of_ascii a n : Z.of_N (Ascii.N_of_ascii a) = Z.of_N n → a = Ascii.ascii_of_N n.
Proof. intros H%N2Z.inj. by rewrite <-H, Ascii.ascii_N_embedding. Qed.

Lemma ccpa_flag_char a : ccpa_flag_ok (Some (Z.of_N (Ascii.N_of_ascii a))) = true →
  String a "" ∈ ccpa_flags.
Proof.
  simpl. rewrite !orb_true_iff, !Z.eqb_eq. intros [[H|H]|H].
  - rewrite (byte_of_ascii a 78 H). by left.
  - rewrite (byte_of_ascii a 89 H). by right; left.
  - rewrite (byte_of_ascii a 45 H). by right; right; left.
Qed.

Lemma ccpa_flag_cases s : s ∈ ccpa_flags → s = "N" ∨ s = "Y" ∨ s = "-".
Proof. unfold ccpa_flags. rewrite !elem_of_cons, elem_of_nil. naive_solver. Qed.

(** The strings the privacy crate accepts. *)
Lemma parse_consent_iff c o :
  parse_consent c = Ok o ↔
  c = "" ∧ o = false ∨ ∃ sale, us_privacy_string c sale ∧ o = bool_decide (sale = "Y").
Proof.
  unfold parse_consent, str_is_empty. split.
  - case_bool_decide as He; [intros [= <-]; by left|]. cbv zeta.
    destruct c as [|a0 [|a1 [|a2 [|a3 [|a4 c]]]]]; try done.
    2:{ assert ((zlen (string_bytes (String a0 (String a1 (String a2 (String a3 (String a4 c))))))
                   =? 4) = false) as ->; [|done].
        apply Z.eqb_neq. unfold zlen. cbn [string_bytes length]. lia. }
    change (zlen _ =? 4) with true. cbv [negb lookup list_lookup string_bytes].
    case_bool_decide as H1; simpl; [|done]. injection H1 as H1.
    apply (byte_of_ascii a0 49) in H1 as ->.
    destruct ((Z.of_N (Ascii.N_of_ascii a1) =? 78) || _ || _) eqn:Hf1; [|done].
    destruct ((Z.of_N (Ascii.N_of_ascii a2) =? 78) || _ || _) eqn:Hf2; [|done].
    destruct ((Z.of_N (Ascii.N_of_ascii a3) =? 78) || _ || _) eqn:Hf3; [|done].
    intros Ho; injection Ho as <-. right.
    exists (String a2 ""). split.
    { exists (String a1 ""), (String a3 ""). split_and!; by try apply ccpa_flag_char. }
    apply bool_decide_ext. split.
    + intros [= H]. by apply (byte_of_ascii a2 89) in H as ->.
    + by intros [= ->].
  - intros [[-> ->]|(s&(n&l&Hn&Hs&Hl&->)&->)]; [done|].
    by destruct (ccpa_flag_cases _ Hn) as [->|[->| ->]],
      (ccpa_flag_cases _ Hs) as [->|[->| ->]], (ccpa_flag_cases _ Hl) as [->|[->| ->]].
Qed.

Lemma no_sale_fold valid ns specific r :
  foldM (no_sale_bidder_step valid) specific ns = Ok r ↔
  (("*" ∉ ns) ∧ ∀ b, b ∈ ns → b ∈ valid) ∧ r = list_to_set ns ∪ specific.
Proof.
  revert specific. induction ns as [|b ns IH]; intros specific; simpl.
  { rewrite (left_id_L ∅ (∪)). split; [|by intros [_ ->]]. intros [= ->].
    split; [|done]. split; [apply not_elem_of_nil|]. by intros ? ?%elem_of_nil. }
  assert (Hstep : no_sale_bidder_step valid specific b =
    if bool_decide (b = "*")
    then Err "can only specify all bidders if no other bidders are provided"
    else if bool_decide (b ∈ valid) then Ok ({[b]} ∪ specific)
    else Err ("unrecognized bidder '" +:+ b +:+ "'")) by done.
  rewrite Hstep. clear Hstep. case_bool_decide as Hs.
  { split; [done|]. intros [[Hn _] _]. destruct Hn. rewrite Hs. by left. }
  case_bool_decide as Hv; last first.
  { split; [done|]. intros [[_ Hn] _]. destruct Hv. apply Hn. by left. }
  simpl. rewrite IH.
  assert (list_to_set ns ∪ ({[b]} ∪ specific) = list_to_set (b :: ns) ∪ specific) as ->
    by set_solver.
  split; intros [[H1 H2] ->]; (split; [split|done]).
  - intros [Hx|Hx]%elem_of_cons; [by rewrite Hx in Hs|done].
  - intros x [->|Hx]%elem_of_cons; auto.
  - intros Hx. apply H1. by right.
  - intros x Hx. apply H2. by right.
Qed.

Lemma parse_no_sale_spec ns valid r :
  parse_no_sale_bidders ns valid = Ok r ↔
  no_sale_ok ns valid ∧ r = (bool_decide (ns = ["*"]), if bool_decide (ns = ["*"]) then ∅
                                                       else list_to_set ns).
Proof.
  unfold parse_no_sale_bidders, no_sale_ok. case_bool_decide as Hs; [naive_solver|].
  destruct (foldM _ ∅ ns) as [sp| |] eqn:Hf; simpl.
  - apply no_sale_fold in Hf as [Hok ->]. rewrite (right_id_L ∅ (∪)). naive_solver.
  - split; [done|]. intros [[?|Hok] _]; [done|].
    assert (foldM (no_sale_bidder_step valid) ∅ ns = Ok (list_to_set ns ∪ ∅)) as Hk
      by by apply no_sale_fold. congruence.
  - split; [done|]. intros [[?|Hok] _]; [done|].
    assert (foldM (no_sale_bidder_step valid) ∅ ns = Ok (list_to_set ns ∪ ∅)) as Hk
      by by apply no_sale_fold. congruence.
Qed.

(** CCPA policies.  Parsing succeeds exactly on an empty or well-formed
    US Privacy string and a no-sale list that is the marker alone or names
    known bidders only; the parsed policy then enforces against a bidder exactly
    when the string opts out of sale and the list does not cover the bidder, and
    never when no string was given. *)
Theorem policy_parse_spec p valid :
  ((∃ pp, policy_parse p valid = Ok pp) ↔
     (pol_consent p = "" ∨ ∃ sale, us_privacy_string (pol_consent p) sale) ∧
     no_sale_ok (pol_no_sale_bidders p) valid) ∧
  ∀ pp, policy_parse p valid = Ok pp →
    enforcer_wf pp ∧
    (can_enforce pp = true ↔ pol_consent p ≠ "") ∧
    ∀ bidder, should_enforce pp bidder = true ↔
      us_privacy_string (pol_consent p) "Y" ∧ ¬ no_sale_covers (pol_no_sale_bidders p) bidder.
Proof.
  destruct p as [c ns]. unfold policy_parse. simpl.
  assert (Hc : ∀ o, parse_consent c = Ok o → (o = true ↔ us_privacy_string c "Y")).
  { intros o [[-> ->]|(sale&Hus&->)]%parse_consent_iff.
    - split; [done|]. by intros (?&?&_&_&_&?).
    - rewrite bool_decide_eq_true. split; [by intros ->|].
      destruct Hus as (n&l&Hn&Hs&Hl&->). intros (n'&l'&Hn'&Hs'&Hl'&Heq).
      destruct (ccpa_flag_cases _ Hn) as [->|[->| ->]], (ccpa_flag_cases _ Hs) as [->|[->| ->]],
        (ccpa_flag_cases _ Hn') as [->|[->| ->]]; done. }
  split.
  - split.
    + intros [pp Hpp]. destruct (parse_consent c) as [o| |] eqn:Hpc; try done.
      destruct (parse_no_sale_bidders ns valid) as [r| |] eqn:Hns; try done.
      apply parse_consent_iff in Hpc. apply parse_no_sale_spec in Hns. naive_solver.
    + intros [Hcons Hns].
      assert (∃ o, parse_consent c = Ok o) as [o Ho].
      { destruct Hcons as [->|[sale Hs]]; [by exists false|].
        exists (bool_decide (sale = "Y")). apply parse_consent_iff. eauto. }
      assert (∃ r, parse_no_sale_bidders ns valid = Ok r) as [[a s] Hr].
      { eexists. apply parse_no_sale_spec. eauto. }
      rewrite Ho, Hr. simpl. eauto.
  - intros pp Hpp. destruct (parse_consent c) as [o| |] eqn:Hpc; try done.
    destruct (parse_no_sale_bidders ns valid) as [r| |] eqn:Hns; try done.
    specialize (Hc o eq_refl). apply parse_no_sale_spec in Hns as [Hok ->].
    injection Hpp as <-. simpl. unfold pp_should_enforce, is_no_sale_for_bidder. simpl.
    assert (Hne : us_privacy_string c "Y" → c ≠ "") by by intros (?&?&_&_&_&->).
    rewrite negb_true_iff. unfold str_is_empty. rewrite bool_decide_eq_false.
    split_and!; [naive_solver|done|].
    intros bidder. rewrite andb_true_iff, negb_true_iff, Hc. unfold no_sale_covers.
    case_bool_decide as Hs; [naive_solver|]. rewrite bool_decide_eq_false.
    rewrite elem_of_list_to_set. naive_solver.
Qed.

(** ** Proofs: activities *)

Lemma eq_ignore_ascii_case_true a b :
  eq_ignore_ascii_case a b = true ↔ to_ascii_lowercase a = to_ascii_lowercase b.
Proof. apply bool_decide_eq_true. Qed.

Lemma any_or_empty {A} (l : list A) (f : A → bool) `{!Decision (l = [])} :
  (if bool_decide (l = []) then true else existsb f l) = true ↔
  l = [] ∨ ∃ x, x ∈ l ∧ f x = true.
Proof.
  case_bool_decide; [naive_solver|]. rewrite existsb_exists.
  setoid_rewrite <-list_elem_of_In. naive_solver.
Qed.

Lemma rule_evaluate_spec r target sid :
  rule_matches r target sid ∧ rule_evaluate r target sid = cr_result r ∨
  ¬ rule_matches r target sid ∧ rule_evaluate r target sid = Abstain.
Proof.
  assert (H : rule_matches r target sid ↔
    evaluate_component_name target (cr_component_name r) = true ∧
    evaluate_component_type target (cr_component_type r) = true ∧
    evaluate_gpp_sid (cr_gpp_sid r) sid = true).
  { unfold rule_matches, evaluate_component_name, evaluate_component_type, evaluate_gpp_sid.
    rewrite !any_or_empty. unfold matches_name, matches_type.
    repeat setoid_rewrite eq_ignore_ascii_case_true.
    assert (Hg : (if bool_decide (cr_gpp_sid r = []) then true
        else existsb (λ x, existsb (λ y, x =? y) (cr_gpp_sid r)) sid) = true ↔
      cr_gpp_sid r = [] ∨ ∃ s, s ∈ cr_gpp_sid r ∧ s ∈ sid).
    { case_bool_decide; [naive_solver|]. rewrite existsb_exists.
      setoid_rewrite existsb_exists. setoid_rewrite Z.eqb_eq.
      setoid_rewrite <-list_elem_of_In. naive_solver. }
    rewrite Hg. naive_solver. }
  rewrite H. unfold rule_evaluate.
  destruct (evaluate_component_name _ _); [|right; split; [by intros [? _]|done]].
  destruct (evaluate_component_type _ _); [|right; split; [by intros (_&?&_)|done]].
  destruct (evaluate_gpp_sid _ _); [by left|right; split; [by intros (_&_&?)|done]].
Qed.

(** Activity plans.  A plan answers with the result of its first rule that
    matches the component (by name, type and GPP section, each clause empty or
    naming it, regardless of ASCII case) and does not abstain; when no rule
    does, with the plan's default. *)
Theorem plan_evaluate_spec plan target sid :
  (∀ pre r post, ap_rules plan = pre ++ r :: post →
     (∀ r', r' ∈ pre → ¬ decides r' target sid) → decides r target sid →
     plan_evaluate plan target sid = bool_decide (cr_result r = Allow)) ∧
  ((∀ r, r ∈ ap_rules plan → ¬ decides r target sid) →
     plan_evaluate plan target sid = ap_default_result plan) ∧
  (∀ activity control policies,
     activity_allow (set_plan activity plan control) activity target policies =
       plan_evaluate plan target (plc_gpp_sid policies) ∧
     ∀ other, other ≠ activity →
       activity_allow (set_plan activity plan control) other target policies =
       activity_allow control other target policies).
Proof.
  assert (Hskip : ∀ d r rules, ¬ decides r target sid →
    rules_evaluate d (r :: rules) target sid = rules_evaluate d rules target sid).
  { intros d r rules Hr. simpl.
    destruct (rule_evaluate_spec r target sid) as [[Hm ->]|[_ ->]]; [|done].
    destruct (cr_result r) eqn:Hres; [done|..]; exfalso; apply Hr; split; congruence. }
  unfold plan_evaluate. destruct plan as [d rules]. simpl. split_and!.
  - intros pre r post -> Hpre [Hm Hres]. induction pre as [|r' pre IH]; simpl app.
    + simpl. destruct (rule_evaluate_spec r target sid) as [[_ ->]|[Hn _]]; [|done].
      by destruct (cr_result r).
    + rewrite Hskip by (apply Hpre; by left). apply IH. intros x Hx. apply Hpre. by right.
  - intros Hno. induction rules as [|r rules IH]; [done|].
    rewrite Hskip by (apply Hno; by left). apply IH. intros x Hx. apply Hno. by right.
  - intros activity control policies. unfold activity_allow, set_plan. simpl.
    split; [by rewrite lookup_insert_eq|]. intros other Hne. by rewrite lookup_insert_ne.
Qed.

(** ** Witnesses *)

Lemma plan_evaluate_spec_witness :
  plan_evaluate sample_plan (component_new "bidder" "appnexus") [] = true ∧
  plan_evaluate sample_plan (component_new "bidder" "rubicon") [] = false.
Proof.
  split.
  - rewrite (proj1 (plan_evaluate_spec sample_plan (component_new "bidder" "appnexus") [])
      [] (sample_rule Allow ["AppNexus"]) [sample_rule Deny []]); [done|done| |].
    + by intros r' ?%elem_of_nil.
    + split; [|done]. split_and!; [right|by left|by left].
      exists "AppNexus". split; [by left|done].
  - rewrite (proj1 (plan_evaluate_spec sample_plan (component_new "bidder" "rubicon") [])
      [sample_rule Allow ["AppNexus"]] (sample_rule Deny []) []); [done|done| |].
    + intros r' ->%list_elem_of_singleton [[[?|(n&->%list_elem_of_singleton&Hn)] _] _]; done.
    + split; [|done]. split_and!; by left.
Defined.

Lemma policy_parse_spec_witness :
  ∃ pp, policy_parse sample_policy {["appnexus"; "rubicon"]} = Ok pp ∧
    should_enforce pp "appnexus" = true ∧ should_enforce pp "rubicon" = false.
Proof.
  destruct (policy_parse_spec sample_policy {["appnexus"; "rubicon"]}) as [Hiff Hall].
  destruct (proj2 Hiff) as [pp Hpp].
  { split.
    - right. exists "Y", "N", "N". unfold ccpa_flags. split_and!; [set_solver..|done].
    - right. simpl. split; [set_solver|]. intros b ->%list_elem_of_singleton. set_solver. }
  exists pp. destruct (Hall pp Hpp) as (_&_&He). split_and!; [done| |].
  - apply He. split; [exists "N", "N"; unfold ccpa_flags; split_and!; [set_solver..|done]|].
    intros [?|?%list_elem_of_singleton]; done.
  - apply not_true_iff_false. rewrite He. intros [_ []]. right. simpl. by left.
Defined.
