(* ===== verification/GdprEnforcement.v ===== *)
(** * GDPR enforcement

    exchange/src/gdpr.rs after the consent decoder ([TcfExchange]): the signal,
    the policy and its enforcer, the per-purpose enforcer, the vendor list and
    its cached fetchers, the [Permissions] implementations, the full
    enforcement algorithm and the request helpers; and gdpr/src/signal.rs.

    A [HashSet] is a [gset], a [HashMap] a [gmap].  Where the source collects a
    set into a [Vec], the order is the hash order: the parameter [iter_set].
    The locks of the fetchers are never poisoned here (nothing panics while
    holding one), so [read()] and [write()] succeed. *)

From S2P Require Import Prelude Bits BitReader Json OpenRtb TcfExchange.

(** ** gdpr/src/signal.rs *)

Inductive Signal : Type := SignalAmbiguous | SignalNo | SignalYes.
#[export] Instance Signal_eq_dec : EqDecision Signal.
Proof. solve_decision. Defined.

(** [SignalError], a unit struct. *)
Inductive SignalError : Type := SignalErr.

Definition signal_from_int (i : Z) : outcome SignalError Signal :=
  match i with 0 => Ok SignalNo | 1 => Ok SignalYes | _ => Err SignalErr end.
Definition signal_parse_str (signal : string) : outcome SignalError Signal :=
  if str_is_empty signal then Ok SignalAmbiguous
  else match parse_int (- 2 ^ 31) (2 ^ 31 - 1) signal with
       | Some v => signal_from_int v
       | None => Err SignalErr
       end.
Definition signal_normalize (s : Signal) (default_value : string) : Signal :=
  if negb (bool_decide (s = SignalAmbiguous)) then s
  else if bool_decide (default_value = "0") then SignalNo else SignalYes.
Definition signal_as_i8 (s : Signal) : Z :=
  match s with SignalAmbiguous => -1 | SignalNo => 0 | SignalYes => 1 end.

(** ** The exchange's signal and policy *)

Inductive GdprSignal : Type := GdprAmbiguous | GdprNo | GdprYes.
#[export] Instance GdprSignal_eq_dec : EqDecision GdprSignal.
Proof. solve_decision. Defined.

Definition gdpr_signal_from_i64 (value : Z) : GdprSignal :=
  match value with 0 => GdprNo | 1 => GdprYes | _ => GdprAmbiguous end.
Definition gdpr_signal_as_opt_i8 (s : GdprSignal) : option Z :=
  match s with GdprAmbiguous => None | GdprNo => Some 0 | GdprYes => Some 1 end.

Record GdprPolicy : Type := {
  pol_enabled : bool;
  pol_default_value : GdprSignal;
  pol_enforce_purposes : gset Z;
  pol_require_vendor_consent : bool;
  pol_bidder_exceptions : gset string;
}.
Definition default_policy : GdprPolicy := {|
  pol_enabled := true; pol_default_value := GdprAmbiguous;
  pol_enforce_purposes := {[ 1; 2 ]}; pol_require_vendor_consent := true;
  pol_bidder_exceptions := ∅ |}.

Definition effective_signal (p : GdprPolicy) (signal : GdprSignal) : GdprSignal :=
  match signal with GdprAmbiguous => pol_default_value p | other => other end.

Record GdprEnforcementResult : Type := {
  ger_allow : bool;
  ger_mask_personal_data : bool;
  ger_denied_purposes : list Z;
}.

Section Enforcer.
Context (b64_standard : string → option (list Z)).
(** The order in which a [HashSet<u32>] is iterated. *)
Context (iter_set : gset Z → list Z).

Definition allowed_result : GdprEnforcementResult :=
  {| ger_allow := true; ger_mask_personal_data := false; ger_denied_purposes := [] |}.

Definition check_bidder (policy : GdprPolicy) (signal : GdprSignal)
    (consent_string : option string) (bidder_name : string) (vendor_id : option Z)
    : GdprEnforcementResult :=
  if negb (pol_enabled policy) then allowed_result
  else if bool_decide (bidder_name ∈ pol_bidder_exceptions policy) then allowed_result
  else if negb (bool_decide (effective_signal policy signal = GdprYes)) then allowed_result
  else match consent_string ≫= tcf_parse b64_standard with
  | None => {| ger_allow := false; ger_mask_personal_data := true;
               ger_denied_purposes := iter_set (pol_enforce_purposes policy) |}
  | Some tcf =>
      let denied := List.filter (λ p, negb (has_purpose_consent tcf p))
                      (iter_set (pol_enforce_purposes policy)) in
      let vendor_ok :=
        if pol_require_vendor_consent policy
        then match vendor_id with Some vid => has_vendor_consent tcf vid | None => true end
        else true in
      let allow := bool_decide (denied = []) && vendor_ok in
      {| ger_allow := allow; ger_mask_personal_data := negb allow;
         ger_denied_purposes := denied |}
  end.

(** [trait GdprPermissions], and the implementation over a parsed consent. *)
Class GdprPermissions (P : Type) := {
  can_enforce : P → bool;
  gp_has_purpose_consent : P → Z → bool;
  gp_has_vendor_consent : P → Z → bool;
  bidder_allowed : P → string → option Z → bool;
}.

Record ConsentPermissions : Type := {
  cp_signal : GdprSignal; cp_consent : option TcfConsent; cp_policy : GdprPolicy;
}.

Definition cp_can_enforce (c : ConsentPermissions) : bool :=
  pol_enabled (cp_policy c)
  && bool_decide (effective_signal (cp_policy c) (cp_signal c) = GdprYes).
Definition cp_has_purpose_consent (c : ConsentPermissions) (purpose_id : Z) : bool :=
  match cp_consent c with Some tcf => has_purpose_consent tcf purpose_id | None => false end.
Definition cp_has_vendor_consent (c : ConsentPermissions) (vendor_id : Z) : bool :=
  match cp_consent c with Some tcf => has_vendor_consent tcf vendor_id | None => false end.
(** The result of [check_bidder] without a consent string is discarded. *)
Definition cp_bidder_allowed (c : ConsentPermissions) (bidder_name : string)
    (vendor_id : option Z) : bool :=
  let _result := check_bidder (cp_policy c) (cp_signal c) None bidder_name vendor_id in
  if negb (cp_can_enforce c) then true
  else if bool_decide (bidder_name ∈ pol_bidder_exceptions (cp_policy c)) then true
  else match cp_consent c with
  | None => false
  | Some tcf =>
      let purposes_ok :=
        forallb (has_purpose_consent tcf) (iter_set (pol_enforce_purposes (cp_policy c))) in
      let vendor_ok :=
        if pol_require_vendor_consent (cp_policy c)
        then match vendor_id with Some vid => has_vendor_consent tcf vid | None => true end
        else true in
      purposes_ok && vendor_ok
  end.
#[export] Instance ConsentPermissions_permissions : GdprPermissions ConsentPermissions := {
  can_enforce := cp_can_enforce;
  gp_has_purpose_consent := cp_has_purpose_consent;
  gp_has_vendor_consent := cp_has_vendor_consent;
  bidder_allowed := cp_bidder_allowed;
}.
End Enforcer.

(** ** Per-purpose enforcement *)

Record PurposeConfig : Type := {
  pc_enforce_purpose : bool;
  pc_enforce_vendors : bool;
  pc_vendor_exceptions : gset Z;
  pc_enforce_algo : string;
}.
Definition default_purpose_config : PurposeConfig := {|
  pc_enforce_purpose := true; pc_enforce_vendors := true; pc_vendor_exceptions := ∅;
  pc_enforce_algo := "basic" |}.

(** [[PurposeConfig; 10]]: ten entries, by [pe_wf]. *)
Record PurposeEnforcer : Type := { pe_purposes : list PurposeConfig }.
Definition pe_wf (pe : PurposeEnforcer) : Prop := length (pe_purposes pe) = 10%nat.
Definition default_purpose_enforcer : PurposeEnforcer :=
  {| pe_purposes := replicate 10 default_purpose_config |}.
(** Indexing the array; the index is in range wherever the source indexes. *)
Definition pe_config (pe : PurposeEnforcer) (i : Z) : PurposeConfig :=
  default default_purpose_config (pe_purposes pe !! Z.to_nat i).

Definition is_allowed (pe : PurposeEnforcer) (purpose_id : Z) (consent : TcfConsent)
    (vendor_id : Z) : bool :=
  if (purpose_id =? 0) || (10 <? purpose_id) then false
  else
    let cfg := pe_config pe (purpose_id - 1) in
    if bool_decide (vendor_id ∈ pc_vendor_exceptions cfg) then true
    else
      let purpose_ok :=
        if pc_enforce_purpose cfg then has_purpose_consent consent purpose_id else true in
      let vendor_ok :=
        if pc_enforce_vendors cfg then has_vendor_consent consent vendor_id else true in
      purpose_ok && vendor_ok.

Definition is_allowed_for_purposes (pe : PurposeEnforcer) (purpose_ids : list Z)
    (consent : TcfConsent) (vendor_id : Z) : bool :=
  forallb (λ pid, is_allowed pe pid consent vendor_id) purpose_ids.

(** ** Vendor lists *)

Record VendorInfo : Type := {
  vi_id : Z;
  vi_purposes : gset Z;
  vi_leg_int_purposes : gset Z;
  vi_special_purposes : gset Z;
  vi_flexible_purposes : gset Z;
}.
Record VendorList : Type := { vl_version : Z; vl_vendors : gmap Z VendorInfo }.

(** The ids of an array field, [as u32]; anything else is skipped. *)
Definition json_id_set (key : string) (v : Value) : gset Z :=
  match get key v ≫= as_array with
  | Some arr => list_to_set (omap (λ x, u32 <$> as_u64 x) arr)
  | None => ∅
  end.
Definition vendor_info_of (id : Z) (v : Value) : VendorInfo := {|
  vi_id := id; vi_purposes := json_id_set "purposes" v;
  vi_leg_int_purposes := json_id_set "legIntPurposes" v;
  vi_special_purposes := json_id_set "specialPurposes" v;
  vi_flexible_purposes := json_id_set "flexiblePurposes" v |}.
Fixpoint vendors_of (obj : list (string * Value)) (vendors : gmap Z VendorInfo)
    : option (gmap Z VendorInfo) :=
  match obj with
  | [] => Some vendors
  | (id_str, vendor_val) :: rest =>
      id ← parse_int 0 (2 ^ 32 - 1) id_str;
      vendors_of rest (<[ id := vendor_info_of id vendor_val ]> vendors)
  end.
Definition vendor_list_of_value (val : Value) : option VendorList :=
  version ← get "vendorListVersion" val ≫= as_u64;
  vendors_obj ← get "vendors" val ≫= as_object;
  vendors ← vendors_of vendors_obj ∅;
  Some {| vl_version := u32 version; vl_vendors := vendors |}.

Definition vendor_has_purpose (vl : VendorList) (vendor_id purpose_id : Z) : bool :=
  match vl_vendors vl !! vendor_id with
  | Some v => bool_decide (purpose_id ∈ vi_purposes v)
  | None => false
  end.

(** ** Vendor-list fetchers *)

Definition DEFAULT_GVL_URL : string :=
  "https://vendor-list.consensu.org/v-{version}/vendor-list.json".
Definition LATEST_GVL_URL : string := "https://vendor-list.consensu.org/v2/vendor-list.json".

(** [url_template.replace("{version}", v).replace("{{version}}", v)] *)
Definition build_url (url_template : string) (version : Z) : string :=
  str_replace "{{version}}" (pretty version)
    (str_replace "{version}" (pretty version) url_template).

Section Fetchers.
(** [VendorList::from_json]'s [serde_json::from_slice(data).ok()]. *)
Context (json_from_slice : list Z → option Value).
(** A GET: [None] when sending or reading the body fails, else whether the
    status is a success, and the body. *)
Context (http_get : string → option (bool * list Z)).

Definition vendor_list_from_json (data : list Z) : option VendorList :=
  json_from_slice data ≫= vendor_list_of_value.

Record HttpVendorListFetcher : Type := {
  hf_url_template : string;
  hf_cache : gmap Z VendorList;
  hf_latest_version : option Z;
}.
Definition hf_new (url_template : option string) : HttpVendorListFetcher := {|
  hf_url_template := default DEFAULT_GVL_URL url_template;
  hf_cache := ∅; hf_latest_version := None |}.

(** The blocking fetch is not implemented in the source: it ignores the url. *)
Definition fetch_from_url (url : string) : option VendorList := None.

Definition hf_preload (f : HttpVendorListFetcher) : option unit * HttpVendorListFetcher :=
  match fetch_from_url LATEST_GVL_URL with
  | None => (None, f)
  | Some vl =>
      (Some tt, {| hf_url_template := hf_url_template f;
                   hf_cache := <[ vl_version vl := vl ]> (hf_cache f);
                   hf_latest_version := Some (vl_version vl) |})
  end.

Definition hf_fetch (tcf_version : Z) (f : HttpVendorListFetcher)
    : option VendorList * HttpVendorListFetcher :=
  match hf_cache f !! tcf_version with
  | Some vl => (Some vl, f)
  | None =>
      match fetch_from_url (build_url (hf_url_template f) tcf_version) with
      | Some vl =>
          (Some vl, {| hf_url_template := hf_url_template f;
                       hf_cache := <[ tcf_version := vl ]> (hf_cache f);
                       hf_latest_version := hf_latest_version f |})
      | None =>
          match hf_latest_version f with
          | Some latest_ver =>
              if negb (latest_ver =? tcf_version) then (hf_cache f !! latest_ver, f)
              else (None, f)
          | None => (None, f)
          end
      end
  end.

Record AsyncVendorListFetcher : Type := {
  af_url_template : string;
  af_cache : gmap Z VendorList;
}.
Definition af_new (url_template : option string) : AsyncVendorListFetcher := {|
  af_url_template := default DEFAULT_GVL_URL url_template; af_cache := ∅ |}.

(** Send, check the status, read and parse the body, cache by the list's own
    version. *)
Definition af_download (url : string) (f : AsyncVendorListFetcher)
    : option VendorList * AsyncVendorListFetcher :=
  match http_get url with
  | Some (true, body) =>
      match vendor_list_from_json body with
      | Some vl => (Some vl, {| af_url_template := af_url_template f;
                                af_cache := <[ vl_version vl := vl ]> (af_cache f) |})
      | None => (None, f)
      end
  | _ => (None, f)
  end.
Definition fetch_async (version : Z) (f : AsyncVendorListFetcher)
    : option VendorList * AsyncVendorListFetcher :=
  match af_cache f !! version with
  | Some vl => (Some vl, f)
  | None => af_download (build_url (af_url_template f) version) f
  end.
Definition preload_latest (f : AsyncVendorListFetcher)
    : option VendorList * AsyncVendorListFetcher :=
  af_download LATEST_GVL_URL f.
End Fetchers.

(** ** Permissions *)

Record AuctionPermissions : Type := {
  ap_allow_bid_request : bool; ap_pass_geo : bool; ap_pass_id : bool;
}.
Definition allow_all : AuctionPermissions :=
  {| ap_allow_bid_request := true; ap_pass_geo := true; ap_pass_id := true |}.
Definition deny_all : AuctionPermissions :=
  {| ap_allow_bid_request := false; ap_pass_geo := false; ap_pass_id := false |}.

(** [trait Permissions]; its law is one that every implementation keeps: a
    bidder that may receive a bid request may also be given user ids. *)
Class Permissions (P : Type) := {
  perms_wf : P → Prop;
  host_cookies_allowed : P → bool;
  bidder_sync_allowed : P → string → bool;
  auction_activities_allowed : P → string → string → AuctionPermissions;
  auction_id_implies_request p core bidder : perms_wf p →
    ap_allow_bid_request (auction_activities_allowed p core bidder) = true →
    ap_pass_id (auction_activities_allowed p core bidder) = true;
}.

Record PermissionsImpl : Type := {
  pi_policy : GdprPolicy;
  pi_consent : option TcfConsent;
  pi_signal : GdprSignal;
  pi_host_vendor_id : option Z;
  pi_vendor_ids : gmap string Z;
  pi_vendor_list : option VendorList;
  pi_purpose_enforcer : PurposeEnforcer;
  pi_non_standard_publishers : gset string;
  pi_publisher_id : string;
  pi_alias_gvl_ids : gmap string Z;
}.

Definition pi_effective_signal (p : PermissionsImpl) : GdprSignal :=
  match pi_signal p with
  | GdprAmbiguous => pol_default_value (pi_policy p)
  | other => other
  end.
Definition resolve_vendor_id (p : PermissionsImpl) (bidder_core_name bidder : string)
    : option Z :=
  match pi_alias_gvl_ids p !! bidder with
  | Some v => Some v
  | None => pi_vendor_ids p !! bidder_core_name
  end.
Definition is_non_standard_publisher (p : PermissionsImpl) : bool :=
  bool_decide (pi_publisher_id p ∈ pi_non_standard_publishers p).

Definition allow_sync (p : PermissionsImpl) (vendor_id : Z) : bool :=
  match pi_consent p with
  | None => false
  | Some consent =>
      let cfg := pe_config (pi_purpose_enforcer p) 0 in
      if bool_decide (vendor_id ∈ pc_vendor_exceptions cfg) then true
      else
        let purpose_ok :=
          if pc_enforce_purpose cfg then has_purpose_consent consent 1 else true in
        let vendor_ok :=
          if pc_enforce_vendors cfg then has_vendor_consent consent vendor_id else true in
        purpose_ok && vendor_ok
  end.

Definition allow_bid_request (p : PermissionsImpl) (bidder : string) (vendor_id : Z) : bool :=
  match pi_consent p with
  | None => false
  | Some consent =>
      if bool_decide (bidder ∈ pol_bidder_exceptions (pi_policy p)) then true
      else is_allowed (pi_purpose_enforcer p) 2 consent vendor_id
  end.

Definition allow_geo (p : PermissionsImpl) (bidder : string) (vendor_id : Z) : bool :=
  match pi_consent p with
  | None => false
  | Some consent =>
      if bool_decide (bidder ∈ pol_bidder_exceptions (pi_policy p)) then true
      else match pi_vendor_list p with
      | Some vl =>
          match vl_vendors vl !! vendor_id with
          | Some vi =>
              if bool_decide (1 ∈ vi_special_purposes vi)
              then has_vendor_consent consent vendor_id
              else has_vendor_consent consent vendor_id
          | None => has_vendor_consent consent vendor_id
          end
      | None => has_vendor_consent consent vendor_id
      end
  end.

Definition allow_id (p : PermissionsImpl) (bidder : string) (vendor_id : Z) : bool :=
  match pi_consent p with
  | None => false
  | Some consent =>
      if bool_decide (bidder ∈ pol_bidder_exceptions (pi_policy p)) then true
      else existsb (λ purpose_id, is_allowed (pi_purpose_enforcer p) purpose_id consent vendor_id)
             [2; 3; 4; 5; 6; 7; 8; 9; 10]
  end.

Definition pi_host_cookies_allowed (p : PermissionsImpl) : bool :=
  if negb (bool_decide (pi_effective_signal p = GdprYes)) then true
  else match pi_host_vendor_id p with Some vid => allow_sync p vid | None => true end.

Definition pi_bidder_sync_allowed (p : PermissionsImpl) (bidder : string) : bool :=
  if negb (bool_decide (pi_effective_signal p = GdprYes)) then true
  else if is_non_standard_publisher p then true
  else match pi_vendor_ids p !! bidder with Some vid => allow_sync p vid | None => true end.

Definition pi_auction_activities_allowed (p : PermissionsImpl)
    (bidder_core_name bidder : string) : AuctionPermissions :=
  if is_non_standard_publisher p then allow_all
  else if negb (bool_decide (pi_effective_signal p = GdprYes)) then allow_all
  else match resolve_vendor_id p bidder_core_name bidder with
  | None => allow_all
  | Some vendor_id => {|
      ap_allow_bid_request := allow_bid_request p bidder vendor_id;
      ap_pass_geo := allow_geo p bidder vendor_id;
      ap_pass_id := allow_id p bidder vendor_id |}
  end.

(** Purpose 2 is one of the purposes that grant ids. *)
Lemma pi_id_implies_request p core bidder :
  ap_allow_bid_request (pi_auction_activities_allowed p core bidder) = true →
  ap_pass_id (pi_auction_activities_allowed p core bidder) = true.
Proof.
  unfold pi_auction_activities_allowed, allow_bid_request, allow_id.
  destruct (is_non_standard_publisher p); [done|].
  destruct (negb _); [done|]. destruct (resolve_vendor_id _ _ _); [|done]. simpl.
  destruct (pi_consent p); [|done]. destruct (bool_decide _); [done|].
  intros H. simpl. by rewrite H.
Qed.

#[export] Instance PermissionsImpl_permissions : Permissions PermissionsImpl := {
  perms_wf p := pe_wf (pi_purpose_enforcer p);
  host_cookies_allowed := pi_host_cookies_allowed;
  bidder_sync_allowed := pi_bidder_sync_allowed;
  auction_activities_allowed := pi_auction_activities_allowed;
  auction_id_implies_request p core bidder _ := pi_id_implies_request p core bidder;
}.

(** [AlwaysAllow], a unit struct. *)
Inductive AlwaysAllow : Type := always_allow.
#[export] Instance AlwaysAllow_permissions : Permissions AlwaysAllow.
Proof.
  refine {| perms_wf _ := True; host_cookies_allowed _ := true;
            bidder_sync_allowed _ _ := true; auction_activities_allowed _ _ _ := allow_all |}.
  done.
Defined.

(** [AllowHostCookies<P>] *)
Record AllowHostCookies (P : Type) : Type := { ahc_inner : P }.
Arguments ahc_inner {P} _.
#[export] Instance AllowHostCookies_permissions {P} `{Permissions P} :
  Permissions (AllowHostCookies P).
Proof.
  refine {| perms_wf p := perms_wf (ahc_inner p); host_cookies_allowed _ := true;
            bidder_sync_allowed p := bidder_sync_allowed (ahc_inner p);
            auction_activities_allowed p := auction_activities_allowed (ahc_inner p) |}.
  intros p core bidder. apply auction_id_implies_request.
Defined.

(** ** Full enforcement *)

Record FullEnforcement : Type := { fe_purpose_id : Z; fe_config : PurposeConfig }.

Definition consent_established (fe : FullEnforcement) (consent : TcfConsent)
    (vendor : VendorInfo) (enforce_purpose enforce_vendors : bool) : bool :=
  let purpose_ok :=
    if enforce_purpose
    then bool_decide (fe_purpose_id fe ∈ vi_purposes vendor)
         && has_purpose_consent consent (fe_purpose_id fe)
    else true in
  let vendor_ok := if enforce_vendors then has_vendor_consent consent (vi_id vendor) else true in
  purpose_ok && vendor_ok.
Definition legit_interest_established (fe : FullEnforcement) (consent : TcfConsent)
    (vendor : VendorInfo) (enforce_purpose enforce_vendors : bool) : bool :=
  let purpose_ok :=
    if enforce_purpose then bool_decide (fe_purpose_id fe ∈ vi_leg_int_purposes vendor)
    else true in
  let vendor_ok := if enforce_vendors then has_vendor_consent consent (vi_id vendor) else true in
  purpose_ok && vendor_ok.
Definition legal_basis (fe : FullEnforcement) (consent : TcfConsent) (vendor : VendorInfo)
    (enforce_purpose_override enforce_vendors_override : option bool) : bool :=
  let enforce_purpose := default (pc_enforce_purpose (fe_config fe)) enforce_purpose_override in
  let enforce_vendors := default (pc_enforce_vendors (fe_config fe)) enforce_vendors_override in
  if bool_decide (vi_id vendor ∈ pc_vendor_exceptions (fe_config fe)) then true
  else if consent_established fe consent vendor enforce_purpose enforce_vendors then true
  else if bool_decide (pc_enforce_algo (fe_config fe) = "full")
  then legit_interest_established fe consent vendor enforce_purpose enforce_vendors
  else false.

(** ** Request helpers *)

Definition GPP_SID_TCF_EU2 : Z := 2.

Definition get_gdpr_signal (req : BidRequest) : outcome string GdprSignal :=
  let from_gdpr (regs : Regs) :=
    match regs_gdpr regs with
    | Some 0 => Ok GdprNo
    | Some 1 => Ok GdprYes
    | Some other => Err ("GDPR signal should be integer 0 or 1, got " +:+ pretty other)
    | None => Ok GdprAmbiguous
    end in
  match req_regs req with
  | None => Ok GdprAmbiguous
  | Some regs =>
      match regs_gpp_sid regs with
      | Some ((_ :: _) as gpp_sid) =>
          if bool_decide (GPP_SID_TCF_EU2 ∈ gpp_sid) then Ok GdprYes else Ok GdprNo
      | _ => from_gdpr regs
      end
  end.

(** The first [Some] wins, as the nested early returns do. *)
Definition get_consent (req : BidRequest) : string :=
  let from_gpp :=
    regs ← req_regs req;
    gpp_sid ← regs_gpp_sid regs;
    if bool_decide (GPP_SID_TCF_EU2 ∈ gpp_sid)
    then gpp ← regs_gpp regs; if str_is_empty gpp then None else Some gpp
    else None in
  match from_gpp with
  | Some gpp => gpp
  | None => default "" (user ← req_user req; user_consent user)
  end.

Definition select_eea_countries (host account : list string) : list string :=
  match account with _ :: _ => account | [] => host end.

Section Countries.
(** [str::to_uppercase], the Unicode tables of the standard library. *)
Context (to_uppercase : string → string).

Definition is_eea_country (country : string) (eea_countries : list string) : bool :=
  match eea_countries with
  | [] => false
  | _ :: _ =>
      let country_upper := to_uppercase country in
      existsb (λ c, bool_decide (to_uppercase c = country_upper)) eea_countries
  end.

Definition parse_gdpr_default_value (req : BidRequest) (cfg_default : string)
    (eea_countries : list string) : GdprSignal :=
  let gdpr_default := if bool_decide (cfg_default = "0") then GdprNo else GdprYes in
  let geo := match req_user req ≫= user_geo with
             | Some g => Some g
             | None => req_device req ≫= dev_geo
             end in
  match geo ≫= geo_country with
  | Some country =>
      if is_eea_country country eea_countries then GdprYes
      else if str_len country =? 3 then GdprNo
      else gdpr_default
  | None => gdpr_default
  end.
End Countries.

(** ** Specification *)

(** [c2] consents to everything [c1] does. *)
Definition consent_le (c1 c2 : TcfConsent) : Prop :=
  (∀ p, has_purpose_consent c1 p = true → has_purpose_consent c2 p = true) ∧
  tcf_vendor_consents c1 ⊆ tcf_vendor_consents c2.
Definition consent_opt_le (c1 c2 : option TcfConsent) : Prop :=
  match c1, c2 with
  | None, _ => True
  | Some c1, Some c2 => consent_le c1 c2
  | Some _, None => False
  end.
Definition with_consent (c : option TcfConsent) (p : PermissionsImpl) : PermissionsImpl := {|
  pi_policy := pi_policy p; pi_consent := c; pi_signal := pi_signal p;
  pi_host_vendor_id := pi_host_vendor_id p; pi_vendor_ids := pi_vendor_ids p;
  pi_vendor_list := pi_vendor_list p; pi_purpose_enforcer := pi_purpose_enforcer p;
  pi_non_standard_publishers := pi_non_standard_publishers p;
  pi_publisher_id := pi_publisher_id p; pi_alias_gvl_ids := pi_alias_gvl_ids p |}.
(** Pointwise: every permission of the first is one of the second. *)
Definition perms_le (a b : AuctionPermissions) : Prop :=
  (ap_allow_bid_request a = true → ap_allow_bid_request b = true) ∧
  (ap_pass_geo a = true → ap_pass_geo b = true) ∧
  (ap_pass_id a = true → ap_pass_id b = true).

(** When GDPR binds a bidder, and what it then has to show. *)
Definition gdpr_binds (policy : GdprPolicy) (signal : GdprSignal) (bidder : string) : Prop :=
  pol_enabled policy = true ∧ (bidder ∉ pol_bidder_exceptions policy) ∧
  effective_signal policy signal = GdprYes.
Definition consent_suffices (policy : GdprPolicy) (tcf : TcfConsent) (vendor_id : option Z) : Prop :=
  (∀ p, p ∈ pol_enforce_purposes policy → has_purpose_consent tcf p = true) ∧
  (pol_require_vendor_consent policy = true →
     ∀ vid, vendor_id = Some vid → has_vendor_consent tcf vid = true).

(** Every cached list is stored under its own version. *)
Definition af_cache_ok (f : AsyncVendorListFetcher) : Prop :=
  ∀ v vl, af_cache f !! v = Some vl → vl_version vl = v.

(** ** Proofs *)

Lemma vendor_consent_mono c1 c2 v : consent_le c1 c2 →
  has_vendor_consent c1 v = true → has_vendor_consent c2 v = true.
Proof.
  intros [_ Hv]. unfold has_vendor_consent. rewrite !bool_decide_eq_true. apply Hv.
Qed.
Lemma purpose_consent_mono c1 c2 p : consent_le c1 c2 →
  has_purpose_consent c1 p = true → has_purpose_consent c2 p = true.
Proof. intros [Hp _]. apply Hp. Qed.
#[export] Hint Resolve vendor_consent_mono purpose_consent_mono : pbs.

(** A test of consents, each behind its switch, is monotone. *)
Lemma switch_mono (e a b : bool) : (a = true → b = true) →
  (if e then a else true) = true → (if e then b else true) = true.
Proof. by destruct e. Qed.
Lemma andb_mono a b a' b' : (a = true → a' = true) → (b = true → b' = true) →
  a && b = true → a' && b' = true.
Proof. rewrite !andb_true_iff. tauto. Qed.
(** Goes through the switches of a monotone test. *)
Ltac consent_mono :=
  repeat first [apply andb_mono | apply switch_mono
               | by apply purpose_consent_mono | by apply vendor_consent_mono | done].

Lemma is_allowed_mono pe p c1 c2 v : consent_le c1 c2 →
  is_allowed pe p c1 v = true → is_allowed pe p c2 v = true.
Proof.
  intros Hc. unfold is_allowed. destruct (_ || _); [done|]. destruct (bool_decide _); [done|].
  cbv zeta. consent_mono.
Qed.

Lemma allow_sync_mono p c1 c2 v : consent_opt_le c1 c2 →
  allow_sync (with_consent c1 p) v = true → allow_sync (with_consent c2 p) v = true.
Proof.
  unfold allow_sync. simpl. destruct c1 as [c1|], c2 as [c2|]; simpl; try done.
  intros Hc. destruct (bool_decide _); [done|]. cbv zeta. consent_mono.
Qed.

Lemma vendor_ok_spec (req : bool) (vendor_id : option Z) tcf :
  ((if req then match vendor_id with Some vid => has_vendor_consent tcf vid | None => true end
   else true) = true) ↔
  (req = true → ∀ vid, vendor_id = Some vid → has_vendor_consent tcf vid = true).
Proof.
  destruct req, vendor_id as [vid|]; split; try done.
  - intros H _ vid' [= <-]. done.
  - intros H. by apply H.
Qed.

(** Collecting the purposes that fail a test, in any order: none fails exactly
    when all pass. *)
Lemma no_denied (f : Z → bool) (l : list Z) :
  bool_decide (List.filter (λ p, negb (f p)) l = []) = forallb f l.
Proof.
  induction l as [|p l IH]; simpl; [done|]. by destruct (f p).
Qed.

#[export] Instance gdpr_binds_dec policy signal bidder : Decision (gdpr_binds policy signal bidder).
Proof. unfold gdpr_binds. apply _. Defined.

Lemma check_bidder_unbound b64_standard iter_set policy signal consent_string parsed bidder vid :
  ¬ gdpr_binds policy signal bidder →
  check_bidder b64_standard iter_set policy signal consent_string bidder vid = allowed_result ∧
  cp_bidder_allowed b64_standard iter_set
    {| cp_signal := signal; cp_consent := parsed; cp_policy := policy |} bidder vid = true.
Proof.
  unfold gdpr_binds, check_bidder, cp_bidder_allowed, cp_can_enforce. simpl. intros Hb.
  destruct (pol_enabled policy); [|done]. simpl.
  destruct (decide (effective_signal policy signal = GdprYes));
    [rewrite (bool_decide_true (effective_signal _ _ = _)) by done
    |rewrite (bool_decide_false (effective_signal _ _ = _)) by done];
  (destruct (decide (bidder ∈ pol_bidder_exceptions policy));
    [rewrite bool_decide_true by done|rewrite bool_decide_false by done]); try done.
  exfalso. by apply Hb.
Qed.

Lemma check_bidder_bound b64_standard iter_set policy signal consent_string bidder vid :
  gdpr_binds policy signal bidder →
  check_bidder b64_standard iter_set policy signal consent_string bidder vid =
  match consent_string ≫= tcf_parse b64_standard with
  | None => {| ger_allow := false; ger_mask_personal_data := true;
               ger_denied_purposes := iter_set (pol_enforce_purposes policy) |}
  | Some tcf =>
      let denied := List.filter (λ p, negb (has_purpose_consent tcf p))
                      (iter_set (pol_enforce_purposes policy)) in
      let allow := bool_decide (denied = []) &&
        (if pol_require_vendor_consent policy
         then match vid with Some vid => has_vendor_consent tcf vid | None => true end
         else true) in
      {| ger_allow := allow; ger_mask_personal_data := negb allow;
         ger_denied_purposes := denied |}
  end.
Proof.
  intros (He&Hx&Hs). unfold check_bidder. by rewrite He, bool_decide_false, Hs by done.
Qed.

Lemma cp_bidder_allowed_bound b64_standard iter_set policy signal parsed bidder vid :
  gdpr_binds policy signal bidder →
  cp_bidder_allowed b64_standard iter_set
    {| cp_signal := signal; cp_consent := parsed; cp_policy := policy |} bidder vid =
  match parsed with
  | None => false
  | Some tcf =>
      forallb (has_purpose_consent tcf) (iter_set (pol_enforce_purposes policy)) &&
      (if pol_require_vendor_consent policy
       then match vid with Some vid => has_vendor_consent tcf vid | None => true end
       else true)
  end.
Proof.
  intros (He&Hx&Hs). unfold cp_bidder_allowed, cp_can_enforce. simpl.
  by rewrite He, Hs, (bool_decide_false (bidder ∈ _)) by done.
Qed.

(** C13: [check_bidder] decides the policy: a bidder is allowed exactly when
    GDPR does not bind it (disabled, exempt, or the effective signal is not
    [Yes]) or a parsed consent covers every enforced purpose and, where
    required, its vendor.  Personal data is masked exactly when it is not
    allowed; an enforced purpose is reported denied exactly when consent is
    absent for it; and the other implementation of the same decision,
    [ConsentPermissions::bidder_allowed], agrees. *)
Theorem check_bidder_spec b64_standard iter_set policy signal consent_string bidder vendor_id :
  (∀ s, iter_set s ≡ₚ elements s) →
  let r := check_bidder b64_standard iter_set policy signal consent_string bidder vendor_id in
  let parsed := consent_string ≫= tcf_parse b64_standard in
  (ger_allow r = true ↔
     ¬ gdpr_binds policy signal bidder ∨
     ∃ tcf, parsed = Some tcf ∧ consent_suffices policy tcf vendor_id) ∧
  ger_mask_personal_data r = negb (ger_allow r) ∧
  (∀ p, p ∈ ger_denied_purposes r ↔
     gdpr_binds policy signal bidder ∧ p ∈ pol_enforce_purposes policy ∧
     ∀ tcf, parsed = Some tcf → has_purpose_consent tcf p = false) ∧
  cp_bidder_allowed b64_standard iter_set
    {| cp_signal := signal; cp_consent := parsed; cp_policy := policy |} bidder vendor_id
    = ger_allow r.
Proof.
  intros Hiter r parsed.
  assert (Hin : ∀ s p, p ∈ iter_set s ↔ p ∈ s) by (intros; by rewrite Hiter, elem_of_elements).
  destruct (decide (gdpr_binds policy signal bidder)) as [Hb|Hb].
  - subst r. rewrite (check_bidder_bound _ _ _ _ _ _ _ Hb), cp_bidder_allowed_bound by done.
    fold parsed. destruct parsed as [tcf|]; simpl.
    + rewrite no_denied. split_and!; [|done| |done].
      * rewrite andb_true_iff, vendor_ok_spec, forallb_forall. unfold consent_suffices.
        split; [intros [H1 H2]; right; exists tcf|intros [Hn|(t&[= <-]&H1&H2)]; [tauto|]];
          split_and!; try done; intros p Hp; apply H1.
        { by apply list_elem_of_In, Hin. }
        by apply Hin, list_elem_of_In.
      * intros p. rewrite list_elem_of_In, List.filter_In, <-list_elem_of_In, Hin, negb_true_iff.
        split; [intros [Hp Hf]; split_and!; try done; by intros t [= <-]|].
        intros (_&Hp&H). split; [done|by apply H].
    + split_and!; [|done| |done].
      * split; [done|]. intros [Hn|(t&?&_)]; [tauto|done].
      * intros p. rewrite Hin. split; [intros Hp; by split_and!|tauto].
  - subst r. destruct (check_bidder_unbound b64_standard iter_set policy signal consent_string
      parsed bidder vendor_id Hb) as [-> ->]. simpl. split_and!; try done; [tauto|].
    intros p. rewrite elem_of_nil. tauto.
Qed.

Lemma allow_id_mono p c1 c2 bidder v : consent_opt_le c1 c2 →
  allow_id (with_consent c1 p) bidder v = true → allow_id (with_consent c2 p) bidder v = true.
Proof.
  unfold allow_id. simpl pi_consent. simpl pi_policy. simpl pi_purpose_enforcer.
  destruct c1 as [c1|], c2 as [c2|]; simpl consent_opt_le; try done.
  intros Hc. destruct (bool_decide _); [done|]. rewrite !existsb_exists.
  intros (q&Hq&Ha). exists q. split; [done|]. by eapply is_allowed_mono.
Qed.

(** Permissions grow with consent: of two requests that differ only in
    their TCF consent, the one that consents to more (or has a consent at all)
    keeps every cookie, sync and auction permission of the other.  Without a
    consent, where GDPR applies to a known vendor, every auction permission is
    denied. *)
Theorem permissions_mono p c1 c2 core bidder :
  consent_opt_le c1 c2 →
  (host_cookies_allowed (with_consent c1 p) = true →
   host_cookies_allowed (with_consent c2 p) = true) ∧
  (bidder_sync_allowed (with_consent c1 p) bidder = true →
   bidder_sync_allowed (with_consent c2 p) bidder = true) ∧
  perms_le (auction_activities_allowed (with_consent c1 p) core bidder)
           (auction_activities_allowed (with_consent c2 p) core bidder) ∧
  (is_non_standard_publisher p = false → pi_effective_signal p = GdprYes →
   is_Some (resolve_vendor_id p core bidder) →
   auction_activities_allowed (with_consent None p) core bidder = deny_all).
Proof.
  intros Hc. simpl.
  unfold pi_host_cookies_allowed, pi_bidder_sync_allowed, pi_auction_activities_allowed.
  change (pi_effective_signal (with_consent ?c p)) with (pi_effective_signal p).
  change (is_non_standard_publisher (with_consent ?c p)) with (is_non_standard_publisher p).
  change (resolve_vendor_id (with_consent ?c p) core bidder) with (resolve_vendor_id p core bidder).
  simpl pi_host_vendor_id. simpl pi_vendor_ids.
  destruct (decide (pi_effective_signal p = GdprYes)) as [Hs|Hs];
    [rewrite (bool_decide_true (pi_effective_signal p = _)) by done
    |rewrite (bool_decide_false (pi_effective_signal p = _)) by done]; simpl.
  2: { unfold perms_le. destruct (is_non_standard_publisher p); tauto. }
  split_and!.
  - destruct (pi_host_vendor_id p); [|done]. by apply allow_sync_mono.
  - destruct (is_non_standard_publisher p); [done|].
    destruct (pi_vendor_ids p !! bidder); [|done]. by apply allow_sync_mono.
  - destruct (is_non_standard_publisher p); [done|].
    destruct (resolve_vendor_id p core bidder) as [v|]; [|done].
    unfold perms_le; simpl. split_and!; [| |by apply allow_id_mono].
    + unfold allow_bid_request. simpl. destruct c1, c2; simpl in *; try done.
      destruct (bool_decide _); [done|]. by apply is_allowed_mono.
    + unfold allow_geo. simpl. destruct c1, c2; simpl in *; try done.
      destruct (bool_decide _); [done|].
      destruct (pi_vendor_list p) as [vl|]; [|by apply vendor_consent_mono].
      destruct (vl_vendors vl !! v); [|by apply vendor_consent_mono].
      destruct (bool_decide _); by apply vendor_consent_mono.
  - intros -> _ [v ->]. done.
Qed.

(** C40: The legal-basis algorithm: it is satisfied exactly by a vendor
    exception, by consent (declared and given, where purposes are enforced), or
    under the ["full"] algorithm by a declared legitimate interest, the latter
    two with the vendor's consent where vendors are enforced; the overrides
    replace the configured switches.  The comments of the code also ask for the
    user's legitimate-interest transparency and the publisher's restrictions, which
    it does not look at. *)
Theorem legal_basis_spec fe consent vendor ep_override ev_override :
  legal_basis fe consent vendor ep_override ev_override = true ↔
  let ep := default (pc_enforce_purpose (fe_config fe)) ep_override in
  let ev := default (pc_enforce_vendors (fe_config fe)) ev_override in
  let p := fe_purpose_id fe in
  vi_id vendor ∈ pc_vendor_exceptions (fe_config fe) ∨
  (ev = true → vi_id vendor ∈ tcf_vendor_consents consent) ∧
  (ep = false ∨
   p ∈ vi_purposes vendor ∧ has_purpose_consent consent p = true ∨
   pc_enforce_algo (fe_config fe) = "full" ∧ p ∈ vi_leg_int_purposes vendor).
Proof.
  unfold legal_basis, consent_established, legit_interest_established, has_vendor_consent.
  cbv zeta. set (ep := default _ ep_override). set (ev := default _ ev_override).
  destruct (decide (vi_id vendor ∈ pc_vendor_exceptions (fe_config fe))) as [Hx|Hx];
    [rewrite (bool_decide_true (_ ∈ pc_vendor_exceptions _)) by done; tauto
    |rewrite (bool_decide_false (_ ∈ pc_vendor_exceptions _)) by done].
  assert (Hev : (if ev then bool_decide (vi_id vendor ∈ tcf_vendor_consents consent) else true)
                = true ↔ (ev = true → vi_id vendor ∈ tcf_vendor_consents consent)).
  { destruct ev; [|done]. rewrite bool_decide_eq_true. tauto. }
  rewrite <-Hev. clear Hev.
  destruct (if ev then _ else true); rewrite ?andb_true_r, ?andb_false_r.
  2: { destruct (bool_decide (pc_enforce_algo _ = _)); split; [done| |done|]; intros [?|[? _]]; done. }
  destruct ep; simpl; [|tauto].
  destruct (has_purpose_consent consent (fe_purpose_id fe));
    rewrite ?andb_true_r, ?andb_false_r;
    repeat match goal with |- context [bool_decide ?P] => destruct (bool_decide_reflect P) end;
    split; try done; try tauto; intros [?|[_ H]]; try done; destruct H as [?|[[? ?]|[? ?]]]; done.
Qed.

Lemma af_download_cache json_from_slice http_get url f :
  let '(r, f') := af_download json_from_slice http_get url f in
  (af_cache_ok f → af_cache_ok f') ∧ (r = None → f' = f) ∧
  ∀ vl, r = Some vl → af_cache f' !! vl_version vl = Some vl.
Proof.
  unfold af_download. destruct (http_get url) as [[[] body]|]; [|done..].
  destruct (vendor_list_from_json _ _) as [vl|]; [|done]. simpl. split_and!; [|done|].
  - intros Hok v vl'. simpl. rewrite lookup_insert. case_decide; [by intros [= <-]|auto].
  - intros vl' [= <-]. by rewrite lookup_insert_eq.
Qed.

(** The fetcher's cache: fetching keeps every list filed under its own
    version; a failed fetch changes nothing; and a list once returned is served
    again from the cache, whatever the network then says. *)
Theorem fetch_async_cached json_from_slice http_get version f :
  af_cache_ok f →
  let '(r, f') := fetch_async json_from_slice http_get version f in
  af_cache_ok f' ∧ (r = None → f' = f) ∧
  ∀ vl http_get', r = Some vl →
    fetch_async json_from_slice http_get' (vl_version vl) f' = (Some vl, f').
Proof.
  intros Hok. unfold fetch_async at 1. destruct (af_cache f !! version) as [vl|] eqn:Hc.
  - split_and!; [done..|]. intros vl' http' [= <-]. unfold fetch_async.
    by rewrite (Hok _ _ Hc), Hc.
  - pose proof (af_download_cache json_from_slice http_get
      (build_url (af_url_template f) version) f) as Hd.
    destruct (af_download _ _ _ _) as [r f']. destruct Hd as (Hok'&Hnone&Hsome).
    split_and!; [auto|done|]. intros vl http' Hr. unfold fetch_async. by rewrite Hsome.
Qed.

(** A template with the documented doubled braces keeps a pair of them. *)
Lemma build_url_double_braces :
  build_url "https://gvl/v-{{version}}.json" 51 = "https://gvl/v-{51}.json".
Proof. by vm_compute. Qed.

(** [allow_geo] does not look at the vendor list. *)
Lemma allow_geo_ignores_vendor_list p bidder v :
  allow_geo p bidder v = true ↔ ∃ consent, pi_consent p = Some consent ∧
    (bidder ∈ pol_bidder_exceptions (pi_policy p) ∨ has_vendor_consent consent v = true).
Proof.
  unfold allow_geo. destruct (pi_consent p) as [c|]; [|split; [done|by intros (?&?&_)]].
  destruct (bool_decide_reflect (bidder ∈ pol_bidder_exceptions (pi_policy p))).
  { split; [|done]. intros _. exists c. tauto. }
  assert (H : (match pi_vendor_list p with
    | Some vl => match vl_vendors vl !! v with
        | Some vi => if bool_decide (1 ∈ vi_special_purposes vi) then has_vendor_consent c v
                     else has_vendor_consent c v
        | None => has_vendor_consent c v end
    | None => has_vendor_consent c v end) = has_vendor_consent c v).
  { by repeat case_match. }
  rewrite H. split; [intros; exists c; tauto|]. by intros (?&[= <-]&[?|?]).
Qed.

Lemma check_bidder_spec_witness :
  (∀ s : gset Z, elements s ≡ₚ elements s) ∧
  ger_allow (check_bidder (λ _, None) elements default_policy GdprYes None "appnexus" (Some 32))
    = false.
Proof.
  split; [done|].
  destruct (check_bidder_spec (λ _, None) elements default_policy GdprYes None "appnexus"
    (Some 32)) as (H&_&_&_); [done|]. simpl in H.
  apply not_true_is_false. rewrite H. intros [Hn|(t&?&_)]; [|done].
  apply Hn. split_and!; [done|apply not_elem_of_empty|done].
Defined.

(** A consent to purposes 1 and 2 for vendor 32, and a request under it. *)
Lemma permissions_mono_witness :
  let c := {| tcf_version := 2; tcf_purpose_consents := 3; tcf_vendor_consents := {[ 32 ]};
              tcf_raw := [] |} in
  let p := {| pi_policy := default_policy; pi_consent := None; pi_signal := GdprYes;
              pi_host_vendor_id := Some 32; pi_vendor_ids := {[ "appnexus" := 32 ]};
              pi_vendor_list := None; pi_purpose_enforcer := default_purpose_enforcer;
              pi_non_standard_publishers := ∅; pi_publisher_id := "p";
              pi_alias_gvl_ids := ∅ |} in
  auction_activities_allowed (with_consent None p) "appnexus" "appnexus" = deny_all ∧
  auction_activities_allowed (with_consent (Some c) p) "appnexus" "appnexus" = allow_all.
Proof.
  intros c p. split; [|by vm_compute].
  apply (permissions_mono p None (Some c) "appnexus" "appnexus"); [done|by vm_compute..|].
  exists 32. by vm_compute.
Defined.

Lemma fetch_async_cached_witness :
  let vl := {| vl_version := 5; vl_vendors := ∅ |} in
  let f := {| af_url_template := "t"; af_cache := {[ 5 := vl ]} |} in
  fetch_async (λ _, None) (λ _, None) 5 f = (Some vl, f).
Proof.
  intros vl f.
  assert (Hok : af_cache_ok f).
  { intros v vl'. simpl. rewrite lookup_singleton. case_decide; [by intros [= <-]|done]. }
  pose proof (fetch_async_cached (λ _, None) (λ _, None) 5 f Hok) as H.
  destruct (fetch_async (λ _, None) (λ _, None) 5 f) as [r f'] eqn:He.
  assert (Hr : r = Some vl ∧ f' = f).
  { vm_compute in He. injection He as <- <-. done. }
  destruct Hr as [-> ->]. destruct H as (_&_&H). exact (H vl (λ _, None) eq_refl).
Defined.
