(* ===== verification/GdprConfig.v ===== *)
(** * GDPR settings, vendor-list caches and consent writers

    exchange/src/gdpr_config.rs: the host's TCF2 settings with an account's overrides;
    exchange/src/vendorlist.rs: the cache of vendor lists and the bidders' vendor ids;
    gdpr/src/permissions.rs and gdpr/src/vendorlist.rs: the permissions that allow or
    deny everything and the vendor list as data; privacy/src/consent_writer.rs and
    privacy/src/policy_enforcer.rs: the writers of consent into a raw request. *)

From S2P Require Import Prelude Json GdprEnforcement.

(** ** gdpr_config.rs *)

Record PurposeEnforcementConfig : Type := {
  pec_enforce_purpose : bool; pec_enforce_vendors : bool; pec_vendor_exceptions : gset string; pec_enforce_algo : string }.
Definition default_PurposeEnforcementConfig : PurposeEnforcementConfig := {|
  pec_enforce_purpose := false; pec_enforce_vendors := false; pec_vendor_exceptions := ∅; pec_enforce_algo := "" |}.
Record HostChannels : Type := { hch_web : bool; hch_amp : bool; hch_app : bool; hch_video : bool; hch_dooh : bool }.
(** The arrays of ten are lists; a purpose outside 1 to 10 is not looked up. *)
Record HostTcf2Config : Type := {
  ht_enabled : bool; ht_special_feature1_enforce : bool; ht_special_feature1_vendor_exceptions : gset string;
  ht_purpose_one_treatment_enabled : bool; ht_purpose_one_treatment_access_allowed : bool;
  ht_purposes : list PurposeEnforcementConfig; ht_channel_enabled : HostChannels }.
Record AccountPurposeOverride : Type := {
  apo_enforce_purpose : option bool; apo_enforce_vendors : option bool; apo_vendor_exceptions : option (gset string) }.
Definition default_AccountPurposeOverride : AccountPurposeOverride := {|
  apo_enforce_purpose := None; apo_enforce_vendors := None; apo_vendor_exceptions := None |}.
Record AccountTcf2Config : Type := {
  at_enabled : option bool; at_purpose_overrides : list AccountPurposeOverride;
  at_special_feature1_vendor_exceptions : option (gset string); at_basic_enforcement_vendors : option (gset string) }.
Record AggregatedTcf2Config : Type := { agg_host : HostTcf2Config; agg_account : AccountTcf2Config }.
Inductive GdprChannel : Type := GcWeb | GcAmp | GcApp | GcVideo | GcDooh.
(** The trait. *)
Class Tcf2ConfigReader (R : Type) : Type := {
  is_enabled : R → bool;
  channel_enabled : R → GdprChannel → bool;
  purpose_enforced : R → Z → bool;
  purpose_enforcement_algo : R → Z → string;
  purpose_enforcing_vendors : R → Z → bool;
  purpose_vendor_exceptions : R → Z → gset string;
  feature_one_enforced : R → bool;
  feature_one_vendor_exception : R → string → bool;
  purpose_one_treatment_enabled : R → bool;
  purpose_one_treatment_access_allowed : R → bool;
  basic_enforcement_vendors : R → gset string;
}.
Definition agg_is_enabled (c : AggregatedTcf2Config) : bool := default (ht_enabled (agg_host c)) (at_enabled (agg_account c)).
Definition agg_channel_enabled (c : AggregatedTcf2Config) (channel : GdprChannel) : bool :=
  if negb (agg_is_enabled c) then false else
  let ch := ht_channel_enabled (agg_host c) in
  match channel with GcWeb => hch_web ch | GcAmp => hch_amp ch | GcApp => hch_app ch | GcVideo => hch_video ch | GcDooh => hch_dooh ch end.
(** The host's and the account's settings of a purpose. *)
Definition purpose_slots (c : AggregatedTcf2Config) (purpose : Z) : option (AccountPurposeOverride * PurposeEnforcementConfig) :=
  if (purpose =? 0) || (10 <? purpose) then None else
  let idx := Z.to_nat (purpose - 1) in
  Some (default default_AccountPurposeOverride (at_purpose_overrides (agg_account c) !! idx),
        default default_PurposeEnforcementConfig (ht_purposes (agg_host c) !! idx)).
Definition agg_purpose_enforced (c : AggregatedTcf2Config) (purpose : Z) : bool :=
  match purpose_slots c purpose with Some (a, h) => default (pec_enforce_purpose h) (apo_enforce_purpose a) | None => false end.
Definition agg_purpose_enforcement_algo (c : AggregatedTcf2Config) (purpose : Z) : string :=
  match purpose_slots c purpose with Some (_, h) => pec_enforce_algo h | None => "basic" end.
Definition agg_purpose_enforcing_vendors (c : AggregatedTcf2Config) (purpose : Z) : bool :=
  match purpose_slots c purpose with Some (a, h) => default (pec_enforce_vendors h) (apo_enforce_vendors a) | None => false end.
Definition agg_purpose_vendor_exceptions (c : AggregatedTcf2Config) (purpose : Z) : gset string :=
  match purpose_slots c purpose with Some (a, h) => default (pec_vendor_exceptions h) (apo_vendor_exceptions a) | None => ∅ end.
Definition agg_feature_one_vendor_exception (c : AggregatedTcf2Config) (bidder : string) : bool :=
  bool_decide (bidder ∈ default (ht_special_feature1_vendor_exceptions (agg_host c)) (at_special_feature1_vendor_exceptions (agg_account c))).
#[export] Instance aggregated_reader : Tcf2ConfigReader AggregatedTcf2Config := {
  is_enabled := agg_is_enabled; channel_enabled := agg_channel_enabled;
  purpose_enforced := agg_purpose_enforced; purpose_enforcement_algo := agg_purpose_enforcement_algo;
  purpose_enforcing_vendors := agg_purpose_enforcing_vendors;
  purpose_vendor_exceptions := agg_purpose_vendor_exceptions;
  feature_one_enforced c := ht_special_feature1_enforce (agg_host c);
  feature_one_vendor_exception := agg_feature_one_vendor_exception;
  purpose_one_treatment_enabled c := ht_purpose_one_treatment_enabled (agg_host c);
  purpose_one_treatment_access_allowed c := ht_purpose_one_treatment_access_allowed (agg_host c);
  basic_enforcement_vendors c := default ∅ (at_basic_enforcement_vendors (agg_account c)) }.

(** ** vendorlist.rs of the exchange *)

Definition LATEST_SPEC_VERSION : Z := 3.
Definition VENDOR_LIST_URL_PATTERN : string := "https://vendor-list.consensu.org/v-{spec}/vendor-list-v{list}.json".
Record VlCacheEntry : Type := { vle_list : VendorList; vle_fetched_at : Z }.
(** The lock never fails: no holder of it panics. Times are those of a monotone clock. *)
Record VendorListCache : Type := { vlc_entries : gmap (Z * Z) VlCacheEntry; vlc_max_age : Z }.
Definition vlc_new (max_age : Z) : VendorListCache := {| vlc_entries := ∅; vlc_max_age := max_age |}.
Definition vlc_save (now spec_version list_version : Z) (list : VendorList) (c : VendorListCache) : VendorListCache := {|
  vlc_entries := <[(spec_version, list_version) := {| vle_list := list; vle_fetched_at := now |}]> (vlc_entries c);
  vlc_max_age := vlc_max_age c |}.
Definition vlc_load (now spec_version list_version : Z) (c : VendorListCache) : option VendorList :=
  entry ← vlc_entries c !! (spec_version, list_version);
  if vlc_max_age c <? now - vle_fetched_at entry then None else Some (vle_list entry).
Definition vlc_contains (spec_version list_version : Z) (c : VendorListCache) : bool :=
  bool_decide (is_Some (vlc_entries c !! (spec_version, list_version))).
Record VendorListFetcherImpl : Type := {
  vlf_cache : VendorListCache; vlf_url_maker : Z → Z → string; vlf_min_fetch_interval : Z; vlf_last_fetch : option Z }.
(** Nothing is fetched: a list that is not in the cache is none. *)
Definition vlf_fetch (now spec_version list_version : Z) (f : VendorListFetcherImpl) : option VendorList :=
  match vlc_load now spec_version list_version (vlf_cache f) with
  | Some list => Some list
  | None =>
      match vlf_last_fetch f with
      | Some last_time => if now - last_time <? vlf_min_fetch_interval f then None else None
      | None => None
      end
  end.
Definition vendor_list_url_maker (spec_version list_version : Z) : string :=
  str_replace "{list}" (pretty list_version) (str_replace "{spec}" (pretty spec_version) VENDOR_LIST_URL_PATTERN).
Definition save_vendor_list (json_from_slice : list Z → option Value) (data : list Z) (now spec_version : Z)
    (c : VendorListCache) : option Z * VendorListCache :=
  match vendor_list_from_json json_from_slice data with
  | None => (None, c)
  | Some list => (Some (vl_version list), vlc_save now spec_version (u16 (vl_version list)) list c)
  end.
Record GvlVendorIds : Type := { gvi_ids : gmap string Z }.
Definition gvi_register (bidder : string) (vendor_id : Z) (g : GvlVendorIds) : GvlVendorIds := {|
  gvi_ids := <[bidder := vendor_id]> (gvi_ids g) |}.
Definition gvi_get (bidder : string) (g : GvlVendorIds) : option Z := gvi_ids g !! bidder.
Definition gvi_is_valid (vendor_id : Z) (g : GvlVendorIds) : bool :=
  existsb (λ e, e.2 =? vendor_id) (map_to_list (gvi_ids g)).

(** ** The gdpr crate *)

Record CrateAuctionPermissions : Type := { cap_allow_bid_request : bool; cap_pass_geo : bool; cap_pass_id : bool }.
Definition CAP_ALLOW_ALL : CrateAuctionPermissions := {| cap_allow_bid_request := true; cap_pass_geo := true; cap_pass_id := true |}.
Definition CAP_DENY_ALL : CrateAuctionPermissions := {| cap_allow_bid_request := false; cap_pass_geo := false; cap_pass_id := false |}.
Definition CAP_ALLOW_BID_REQUEST_ONLY : CrateAuctionPermissions := {|
  cap_allow_bid_request := true; cap_pass_geo := false; cap_pass_id := false |}.
(** An implementation's errors are not named here: those two have none. *)
Class CratePermissions (P : Type) : Type := {
  host_cookies_allowed : P → bool;
  bidder_sync_allowed : P → string → bool;
  auction_activities_allowed : P → string → string → CrateAuctionPermissions;
  personal_info_allowed : P → string → bool;
}.
Inductive CrateAlwaysAllow : Type := MkAlwaysAllow.
#[export] Instance always_allow : CratePermissions CrateAlwaysAllow := {
  host_cookies_allowed _ := true; bidder_sync_allowed _ _ := true;
  auction_activities_allowed _ _ _ := CAP_ALLOW_ALL; personal_info_allowed _ _ := true }.
Inductive AlwaysFail : Type := MkAlwaysFail.
#[export] Instance always_fail : CratePermissions AlwaysFail := {
  host_cookies_allowed _ := false; bidder_sync_allowed _ _ := false;
  auction_activities_allowed _ _ _ := CAP_DENY_ALL; personal_info_allowed _ _ := false }.

Record GvlPurpose : Type := {
  gp_id : Z; gp_name : string; gp_description : string; gp_description_legal : string;
  gp_consentable : bool; gp_right_to_object : bool }.
(** Times are seconds. *)
Record GvlVendor : Type := {
  gv_id : Z; gv_name : string; gv_purposes : list Z; gv_leg_int_purposes : list Z; gv_flexible_purposes : list Z;
  gv_special_purposes : list Z; gv_features : list Z; gv_special_features : list Z; gv_policy_url : string;
  gv_deleted_date : option Z }.
Definition gv_purpose (v : GvlVendor) (id : Z) : bool := bool_decide (id ∈ gv_purposes v).
Definition gv_legitimate_interest_purpose (v : GvlVendor) (id : Z) : bool := bool_decide (id ∈ gv_leg_int_purposes v).
Definition gv_flexible_purpose (v : GvlVendor) (id : Z) : bool := bool_decide (id ∈ gv_flexible_purposes v).
Definition gv_is_deleted (v : GvlVendor) (at_ : Z) : bool :=
  match gv_deleted_date v with Some d => d <=? at_ | None => false end.
Record CrateVendorList : Type := {
  cvl_gvl_specification_version : Z; cvl_vendor_list_version : Z; cvl_tcf_policy_version : Z;
  cvl_last_updated : option Z; cvl_purposes : gmap string GvlPurpose; cvl_vendors : gmap string GvlVendor }.
Definition cvl_vendor (l : CrateVendorList) (id : Z) : option GvlVendor := cvl_vendors l !! pretty id.
Definition cvl_purpose (l : CrateVendorList) (id : Z) : option GvlPurpose := cvl_purposes l !! pretty id.
Definition cvl_vendor_count (l : CrateVendorList) : Z := Z.of_nat (size (cvl_vendors l)).

(** ** Consent writers *)

Inductive PrivacyError : Type := PeInvalidRequest (s : string) | PeSerialize (s : string).
(** A writer changes the request in place, also where it then fails. *)
Abbreviation Writer := (M Value PrivacyError ()).
(** [ensure_object(request, key)], and what is done with the object it gives. *)
Definition in_object (key : string) (write : Writer) : Writer := λ request,
  match request with
  | VObject m =>
      match default (VObject []) (obj_get key m) with
      | VObject sub => let '(r, sub') := write (VObject sub) in (r, VObject (obj_insert key sub' m))
      | _ => (Err (PeInvalidRequest (key +:+ " is not an object")), request)
      end
  | _ => (Err (PeInvalidRequest "bid request is not a JSON object"), request)
  end.
Definition put (key : string) (v : Value) : Writer := λ o, (Ok (), insert_entry key v o).
Definition tcf_write (consent : string) : Writer :=
  in_object "regs" (in_object "ext" (put "gdpr" (number 1)));;
  in_object "user" (in_object "ext" (put "consent" (VString consent))).
Definition ccpa_write (consent : string) : Writer := in_object "regs" (in_object "ext" (put "us_privacy" (VString consent))).
Definition gpp_write (gpp_sid : list Z) (consent : string) : Writer :=
  in_object "regs" (put "gpp" (VString consent);; put "gpp_sid" (VArray (number <$> gpp_sid))).
Definition chained_write (writers : list (string → Writer)) (consent : string) : Writer :=
  fold_right (λ w rest, w consent;; rest) (mret ()) writers.

Record GdprInput : Type := { gi_applies : bool; gi_consent : option string }.
Record GppInput : Type := { gpi_gpp : option string; gpi_gpp_sid : list Z }.
Definition coppa_write : Writer := in_object "regs" (put "coppa" (number 1)).
Definition write_if (o : option string) (w : string → Writer) : Writer :=
  match o with Some s => w s | None => mret () end.
Definition enforce (gdpr : GdprInput) (us_privacy : option string) (gpp : GppInput) (coppa : bool) : Writer := λ request,
  if negb (is_object request) then (Err (PeInvalidRequest "bid request is not a JSON object"), request) else
  ((if gi_applies gdpr then write_if (gi_consent gdpr) tcf_write else mret ());;
   write_if us_privacy ccpa_write;;
   write_if (gpi_gpp gpp) (gpp_write (gpi_gpp_sid gpp));;
   (if coppa then coppa_write else mret ())) request.

(** ** Lemmas *)

(** An account's setting of a purpose wins over the host's, which is what an account
    without one gets; no setting reaches a purpose that does not exist. *)
Lemma purpose_settings c purpose : 1 ≤ purpose ≤ 10 →
  ∃ a h, purpose_slots c purpose = Some (a, h) ∧
  purpose_enforced c purpose = default (pec_enforce_purpose h) (apo_enforce_purpose a) ∧
  purpose_enforcing_vendors c purpose = default (pec_enforce_vendors h) (apo_enforce_vendors a) ∧
  purpose_vendor_exceptions c purpose = default (pec_vendor_exceptions h) (apo_vendor_exceptions a).
Proof.
  intros Hp. cbn. unfold agg_purpose_enforced, agg_purpose_enforcing_vendors, agg_purpose_vendor_exceptions, purpose_slots.
  destruct ((purpose =? 0) || (10 <? purpose)) eqn:Hb; [apply orb_true_iff in Hb; lia|]. eexists _, _. done.
Qed.
Lemma unknown_purpose c purpose : purpose = 0 ∨ 10 < purpose →
  purpose_enforced c purpose = false ∧ purpose_enforcing_vendors c purpose = false
  ∧ purpose_enforcement_algo c purpose = "basic" ∧ purpose_vendor_exceptions c purpose = ∅.
Proof.
  intros Hp. cbn. unfold agg_purpose_enforced, agg_purpose_enforcing_vendors, agg_purpose_vendor_exceptions, agg_purpose_enforcement_algo, purpose_slots.
  replace ((purpose =? 0) || (10 <? purpose)) with true; [done|]. symmetry. apply orb_true_iff. lia.
Qed.

(** *** The cache *)

(** What is saved is loaded for as long as its age allows, and saving leaves the other
    versions alone. *)
Lemma vlc_load_save now then_ spec list_version list c spec' version' :
  vlc_load now spec' version' (vlc_save then_ spec list_version list c) =
  if bool_decide ((spec', version') = (spec, list_version)) then
    if vlc_max_age c <? now - then_ then None else Some list
  else vlc_load now spec' version' c.
Proof.
  unfold vlc_load, vlc_save. cbn. case_bool_decide as He.
  - injection He as -> ->. by rewrite lookup_insert_eq.
  - by rewrite lookup_insert_ne by congruence.
Qed.
(** The fetcher never fetches. *)
Lemma vlf_fetch_load now spec version f : vlf_fetch now spec version f = vlc_load now spec version (vlf_cache f).
Proof. unfold vlf_fetch. destruct (vlc_load _ _ _ _); [done|]. destruct (vlf_last_fetch f); [|done]. by destruct (_ <? _). Qed.
(** A saved list is found under the version returned, unless that has more than 16
    bits: then it is found under another one. *)
Lemma save_vendor_list_found json_from_slice data now spec c version c' : 0 ≤ vlc_max_age c →
  save_vendor_list json_from_slice data now spec c = (Some version, c') →
  ∃ list, vendor_list_from_json json_from_slice data = Some list ∧ vl_version list = version ∧
  vlc_load now spec (u16 version) c' = Some list ∧
  (0 ≤ version < 2 ^ 16 → vlc_load now spec version c' = Some list).
Proof.
  intros Hage. unfold save_vendor_list. destruct (vendor_list_from_json _ _) as [list|]; [|done]. intros [= <- <-].
  assert (vlc_load now spec (u16 (vl_version list)) (vlc_save now spec (u16 (vl_version list)) list c) = Some list) as Hl.
  { rewrite vlc_load_save, bool_decide_eq_true_2 by done. destruct (_ <? _) eqn:?; [lia|done]. }
  exists list. split_and!; try done. intros Hv. by rewrite u16_small in Hl |- *.
Qed.

(** *** Consent writers *)

(** [w] writes [v] under the path [p], or leaves what is under [q] as it was. *)
Definition writes (p : list string) (v : Value) (w : Writer) : Prop :=
  ∀ m s', w (VObject m) = (Ok (), s') → is_object s' = true ∧ json_path p (Some s') = Some v.
Definition frames (q : list string) (w : Writer) : Prop :=
  ∀ m s', w (VObject m) = (Ok (), s') → is_object s' = true ∧ json_path q (Some s') = json_path q (Some (VObject m)).
Lemma json_path_cons k p v : json_path (k :: p) v = json_path p (v ≫= get k).
Proof. done. Qed.
Lemma in_object_ok key w m s' : in_object key w (VObject m) = (Ok (), s') →
  ∃ sub sub', default (VObject []) (obj_get key m) = VObject sub ∧ w (VObject sub) = (Ok (), sub') ∧
    s' = VObject (obj_insert key sub' m).
Proof.
  unfold in_object. destruct (default _ _) as [| | | | |sub] eqn:Hs; try done.
  destruct (w (VObject sub)) as [r sub'] eqn:Hw. intros [= -> <-]. naive_solver.
Qed.
Lemma put_writes key v : writes [key] v (put key v).
Proof. intros m s' [= <-]. split; [done|]. apply obj_get_insert_same. Qed.
Lemma put_frames key v k q : k ≠ key → frames (k :: q) (put key v).
Proof. intros Hk m s' [= <-]. split; [done|]. rewrite !json_path_cons. cbn. by rewrite obj_get_insert_other. Qed.
Lemma in_object_writes key w p v : writes p v w → writes (key :: p) v (in_object key w).
Proof.
  intros Hw m s' (sub&sub'&_&Hs&->)%in_object_ok. split; [done|].
  rewrite json_path_cons. cbn. rewrite obj_get_insert_same. by apply Hw in Hs as [_ ?].
Qed.
Lemma in_object_frames key w k q : k ≠ key → frames (k :: q) (in_object key w).
Proof.
  intros Hk m s' (sub&sub'&_&Hs&->)%in_object_ok. split; [done|]. rewrite !json_path_cons. cbn. by rewrite obj_get_insert_other.
Qed.
Lemma in_object_frames_below key w q : frames q w → q ≠ [] → frames (key :: q) (in_object key w).
Proof.
  intros Hw Hq m s' (sub&sub'&Hd&Hs&->)%in_object_ok. split; [done|]. rewrite !json_path_cons. cbn.
  rewrite obj_get_insert_same. apply Hw in Hs as [_ ->]. destruct (obj_get key m) as [x|]; cbn in Hd; [by rewrite Hd|].
  injection Hd as <-. destruct q as [|k q]; [done|]. rewrite !json_path_cons. cbn. by rewrite json_path_none.
Qed.
Lemma bind_writes p v w1 w2 : frames [] w1 ∨ (∃ q, frames q w1) → writes p v w2 → writes p v (w1;; w2).
Proof.
  intros H1 H2 m s'. unfold mbind, M_bind. destruct (w1 (VObject m)) as [[[]| |] s1] eqn:Hw; try done.
  assert (is_object s1 = true) as Ho by (destruct H1 as [H1|[q H1]]; by apply H1 in Hw as [? _]).
  destruct s1; try done. apply H2.
Qed.
Lemma bind_frames q w1 w2 : frames q w1 → frames q w2 → frames q (w1;; w2).
Proof.
  intros H1 H2 m s'. unfold mbind, M_bind. destruct (w1 (VObject m)) as [[[]| |] s1] eqn:Hw; try done.
  apply H1 in Hw as [Ho Hp]. destruct s1 as [| | | | |m1]; try done. intros [Ho' Hp']%H2. split; [done|]. by rewrite Hp', Hp.
Qed.
Lemma bind_writes_frames p v w1 w2 : writes p v w1 → frames p w2 → writes p v (w1;; w2).
Proof.
  intros H1 H2 m s'. unfold mbind, M_bind. destruct (w1 (VObject m)) as [[[]| |] s1] eqn:Hw; try done.
  apply H1 in Hw as [Ho Hp]. destruct s1 as [| | | | |m1]; try done. intros [Ho' Hp']%H2. split; [done|]. by rewrite Hp', Hp.
Qed.
Lemma ret_frames q : frames q (mret ()).
Proof. by intros m s' [= <-]. Qed.
#[local] Hint Resolve put_writes put_frames in_object_writes in_object_frames in_object_frames_below bind_frames ret_frames : core.
Lemma write_if_frames q o w : (∀ s, frames q (w s)) → frames q (write_if o w).
Proof. destruct o; cbn; eauto. Qed.
Lemma if_frames q (b : bool) w : frames q w → frames q (if b then w else mret ()).
Proof. destruct b; eauto. Qed.
#[local] Hint Resolve write_if_frames if_frames : core.
Ltac solve_frames := repeat first
  [ apply bind_frames | apply if_frames | apply write_if_frames; intros ? | apply in_object_frames; done
  | apply in_object_frames_below; [|done] | apply put_frames; done | apply ret_frames ].
(** Each regime's signals are in the request the enforcer answers, whichever of the
    others apply. *)
Lemma enforce_spec gdpr us_privacy gpp coppa request request' :
  enforce gdpr us_privacy gpp coppa request = (Ok (), request') →
  (gi_applies gdpr = true → ∀ c, gi_consent gdpr = Some c →
    json_path ["regs"; "ext"; "gdpr"] (Some request') = Some (number 1) ∧
    json_path ["user"; "ext"; "consent"] (Some request') = Some (VString c)) ∧
  (∀ us, us_privacy = Some us → json_path ["regs"; "ext"; "us_privacy"] (Some request') = Some (VString us)) ∧
  (∀ s, gpi_gpp gpp = Some s → json_path ["regs"; "gpp"] (Some request') = Some (VString s) ∧
    json_path ["regs"; "gpp_sid"] (Some request') = Some (VArray (number <$> gpi_gpp_sid gpp))) ∧
  (coppa = true → json_path ["regs"; "coppa"] (Some request') = Some (number 1)) ∧
  ∀ k q, k ∉ ["regs"; "user"] → json_path (k :: q) (Some request') = json_path (k :: q) (Some request).
Proof.
  unfold enforce. destruct request as [| | | | |m]; try done. cbn [is_object negb]. intros He.
  assert (∀ p v w, writes p v w → w (VObject m) = (Ok (), request') → json_path p (Some request') = Some v) as Hwr.
  { intros p v w Hw Hs. by apply Hw in Hs as [_ ?]. }
  split_and!.
  - intros Ha c Hc. rewrite Ha, Hc in He. cbn [write_if] in He. split; eapply Hwr; try exact He.
    + apply bind_writes_frames; [|solve_frames]. apply bind_writes_frames; [|solve_frames]. eauto.
    + apply bind_writes_frames; [|solve_frames]. apply bind_writes; [|eauto]. right. exists ["user"]. solve_frames.
  - intros us ->. cbn [write_if] in He. eapply Hwr; try exact He.
    apply bind_writes; [right; exists ["id"]; unfold tcf_write; solve_frames|]. apply bind_writes_frames; [unfold ccpa_write; eauto|unfold gpp_write, coppa_write; solve_frames].
  - intros s Hs. rewrite Hs in He. cbn [write_if] in He. split; eapply Hwr; try exact He.
    + apply bind_writes; [right; exists ["id"]; unfold tcf_write; solve_frames|]. apply bind_writes; [right; exists ["id"]; unfold ccpa_write; solve_frames|].
      apply bind_writes_frames; [|unfold coppa_write; solve_frames]. apply in_object_writes, bind_writes_frames; [eauto|solve_frames].
    + apply bind_writes; [right; exists ["id"]; unfold tcf_write; solve_frames|]. apply bind_writes; [right; exists ["id"]; unfold ccpa_write; solve_frames|].
      apply bind_writes_frames; [|unfold coppa_write; solve_frames]. apply in_object_writes, bind_writes; [right; exists ["id"]; solve_frames|eauto].
  - intros ->. eapply Hwr; try exact He.
    apply bind_writes; [right; exists ["id"]; unfold tcf_write; solve_frames|]. apply bind_writes; [right; exists ["id"]; unfold ccpa_write; solve_frames|].
    apply bind_writes; [right; exists ["id"]; unfold gpp_write; solve_frames|]. apply in_object_writes. eauto.
  - intros k q Hk. assert (k ≠ "regs" ∧ k ≠ "user") as [Hr Hu] by set_solver.
    match type of He with ?w _ = _ => assert (frames (k :: q) w) as Hf end.
    { unfold tcf_write, ccpa_write, gpp_write, coppa_write. solve_frames. }
    by apply Hf in He as [_ ?].
Qed.
(** A writer that fails has changed the request all the same: GDPR applies in it, and
    there is no consent. *)
Example failed_write_stays :
  let request := VObject [("user", VNull)] in
  tcf_write "c" request =
  (Err (PeInvalidRequest "user is not an object"),
   VObject [("regs", VObject [("ext", VObject [("gdpr", number 1)])]); ("user", VNull)]).
Proof. by vm_compute. Qed.
