(* ===== verification/ExchangePrivacy.v ===== *)
(** * The auction's privacy gate

    exchange/src/privacy.rs, lines 1-520 and 710-1001: the privacy signals of a
    request, the gate every bidder passes before it is called, CCPA, LMT and
    activity rules, the policy writers and the iOS rules.  The scrubbing half of
    the file is in [Scrubber]. *)

From S2P Require Import Prelude Json OpenRtb GdprEnforcement PrivacyCrate.

(** ** GPP signals *)

Definition GPP_SID_USP_V1 : Z := 6.

(** The file's own [GppPolicy]. *)
Record RequestGpp : Type := {
  gpp_consent_string : option string;
  gpp_section_ids : list Z;
}.
Definition gpp_is_empty (g : RequestGpp) : bool :=
  match gpp_consent_string g with
  | None => bool_decide (gpp_section_ids g = [])
  | Some _ => false
  end.
Definition has_section (g : RequestGpp) (sid : Z) : bool :=
  bool_decide (sid ∈ gpp_section_ids g).
Definition has_tcf_eu2 (g : RequestGpp) : bool := has_section g GPP_SID_TCF_EU2.
Definition has_usp_v1 (g : RequestGpp) : bool := has_section g GPP_SID_USP_V1.

(** [.filter(|s| !s.is_empty())] *)
Definition non_empty (s : option string) : option string :=
  match s with
  | Some s => if str_is_empty s then None else Some s
  | None => None
  end.
Definition parse_gpp (req : BidRequest) : RequestGpp := {|
  gpp_consent_string := non_empty (req_regs req ≫= regs_gpp);
  gpp_section_ids := default [] (req_regs req ≫= regs_gpp_sid) |}.

Definition derive_gdpr_from_gpp (gdpr_applies : bool) (consent_string : option string)
    (gpp : RequestGpp) (has_legacy_gdpr : bool) : bool * option string :=
  let gdpr :=
    if negb has_legacy_gdpr && negb (bool_decide (gpp_section_ids gpp = []))
    then has_tcf_eu2 gpp else gdpr_applies in
  let consent :=
    match consent_string with
    | None =>
        if has_tcf_eu2 gpp then
          match gpp_consent_string gpp with
          | Some gpp_consent => Some gpp_consent
          | None => None
          end
        else None
    | Some _ => consent_string
    end in
  (gdpr, consent).

Definition derive_usp_from_gpp (us_privacy : option string) (gpp : RequestGpp)
    : option string :=
  match us_privacy with
  | Some _ => us_privacy
  | None =>
      if bool_decide (gpp_section_ids gpp = []) then None
      else if has_usp_v1 gpp then gpp_consent_string gpp
      else None
  end.

(** ** The gate *)

Record AuctionPrivacyConfig : Type := {
  apc_gdpr_applies : bool;
  apc_consent_string : option string;
  apc_us_privacy : option string;
  apc_lmt : option Z;
  apc_coppa : option Z;
  apc_gpp : RequestGpp;
}.

Inductive PrivacyResult : Type := PrAllow | PrBlockGdpr | PrBlockCcpa | PrBlockCoppa | PrBlockLmt.
#[export] Instance PrivacyResult_eq_dec : EqDecision PrivacyResult.
Proof. solve_decision. Defined.

Definition extract_privacy_config (req : BidRequest) : AuctionPrivacyConfig :=
  let legacy_gdpr_value := json_path ["gdpr"] (req_regs req ≫= regs_ext) ≫= as_i64 in
  let has_legacy_gdpr := bool_decide (is_Some legacy_gdpr_value) in
  let gdpr_applies := match legacy_gdpr_value with Some g => g =? 1 | None => false end in
  let consent_string := non_empty (json_path ["consent"] (req_user req ≫= user_ext) ≫= as_str) in
  let us_privacy := req_regs req ≫= regs_us_privacy in
  let lmt := req_device req ≫= dev_lmt in
  let coppa := req_regs req ≫= regs_coppa in
  let gpp := parse_gpp req in
  let '(gdpr_applies, consent_string) :=
    derive_gdpr_from_gpp gdpr_applies consent_string gpp has_legacy_gdpr in
  let us_privacy := derive_usp_from_gpp us_privacy gpp in
  {| apc_gdpr_applies := gdpr_applies; apc_consent_string := consent_string;
     apc_us_privacy := us_privacy; apc_lmt := lmt; apc_coppa := coppa; apc_gpp := gpp |}.

(** [chars.len() >= 3 && chars[2] == 'Y'] *)
Definition third_char_is_Y (s : string) : bool := bool_decide (str_chars s !! 2%nat = Some "Y").

Definition check_privacy_for_bidder (config : AuctionPrivacyConfig) (_bidder : string)
    : PrivacyResult :=
  if bool_decide (apc_coppa config = Some 1) then PrBlockCoppa
  else if bool_decide (apc_lmt config = Some 1) then PrBlockLmt
  else if match apc_us_privacy config with
          | Some us_privacy => third_char_is_Y us_privacy
          | None => false
          end then PrBlockCcpa
  else if apc_gdpr_applies config &&
          match apc_consent_string config with
          | Some s => str_is_empty s
          | None => true
          end then PrBlockGdpr
  else PrAllow.

(** ** CCPA *)

Record CcpaPolicy : Type := { ccpa_consent_string : string; ccpa_opt_out_sale : bool }.
Definition ccpa_parse (us_privacy : string) : CcpaPolicy :=
  {| ccpa_consent_string := us_privacy; ccpa_opt_out_sale := third_char_is_Y us_privacy |}.
Definition ccpa_should_block (p : CcpaPolicy) : bool := ccpa_opt_out_sale p.
Definition ccpa_validate_consent (consent : string) : bool :=
  if str_is_empty consent then true
  else let chars := str_chars consent in
       if negb (length chars =? 4)%nat then false
       else bool_decide (chars !! 0%nat = Some "1").

Record ParsedCcpaPolicy : Type := {
  pcp_consent_specified : bool;
  pcp_consent_opt_out_sale : bool;
  pcp_no_sale_for_all_bidders : bool;
  pcp_no_sale_specific_bidders : gset string;
}.
Definition no_sale_step (st : bool * gset string) (bidder : string) : bool * gset string :=
  if bool_decide (bidder = "*") then (true, st.2) else (st.1, {[ bidder ]} ∪ st.2).
Definition parsed_ccpa_parse (consent : string) (no_sale_bidders : list string)
    : outcome string ParsedCcpaPolicy :=
  '(consent_specified, consent_opt_out_sale) ←
    (if str_is_empty consent then Ok (false, false)
     else if negb (ccpa_validate_consent consent)
     then Err "request.regs.ext.us_privacy must contain 4 characters"
     else Ok (true, third_char_is_Y consent));
  let '(no_sale_for_all, no_sale_specific) :=
    fold_left no_sale_step no_sale_bidders (false, ∅) in
  Ok {| pcp_consent_specified := consent_specified;
        pcp_consent_opt_out_sale := consent_opt_out_sale;
        pcp_no_sale_for_all_bidders := no_sale_for_all;
        pcp_no_sale_specific_bidders := no_sale_specific |}.
Definition pcp_can_enforce (p : ParsedCcpaPolicy) : bool := pcp_consent_specified p.
Definition pcp_is_no_sale_for_bidder (p : ParsedCcpaPolicy) (bidder : string) : bool :=
  pcp_no_sale_for_all_bidders p || bool_decide (bidder ∈ pcp_no_sale_specific_bidders p).
Definition pcp_should_enforce (p : ParsedCcpaPolicy) (bidder : string) : bool :=
  if negb (pcp_consent_opt_out_sale p) then false
  else negb (pcp_is_no_sale_for_bidder p bidder).

(** ** LMT *)

Record LmtPolicy : Type := { lmtp_lmt : option Z }.
Definition lmt_new (lmt : option Z) : LmtPolicy := {| lmtp_lmt := lmt |}.
Definition lmt_is_enabled (p : LmtPolicy) : bool := bool_decide (lmtp_lmt p = Some 1).
Definition lmt_should_block (p : LmtPolicy) : bool := lmt_is_enabled p.

(** ** Activities *)

(** The file's own [Activity] names two of the eight differently
    ([TransmitUniqueIds], [TransmitTid]); [ActivityResult] has the same three
    values. *)

Record ActivityCondition : Type := {
  acd_component_name : list string;
  acd_component_type : list string;
  acd_gpp_sid : list Z;
}.
Record ActivityRule : Type := {
  arl_allow : bool;
  arl_conditions : list ActivityCondition;
}.
Record ActivityRequest : Type := { arq_gpp_sid : list Z }.
Definition default_activity_request : ActivityRequest := {| arq_gpp_sid := [] |}.

Definition matches_with_request (c : ActivityCondition) (component : Component)
    (request : ActivityRequest) : bool :=
  let name_ok := bool_decide (acd_component_name c = []) ||
    existsb (λ n, eq_ignore_ascii_case n (cmp_name component)) (acd_component_name c) in
  if negb name_ok then false
  else
    let type_ok := bool_decide (acd_component_type c = []) ||
      existsb (λ t, eq_ignore_ascii_case t (cmp_component_type component))
        (acd_component_type c) in
    if negb type_ok then false
    else bool_decide (acd_gpp_sid c = []) ||
         existsb (λ sid, bool_decide (sid ∈ arq_gpp_sid request)) (acd_gpp_sid c).
Definition condition_matches (c : ActivityCondition) (component : Component) : bool :=
  matches_with_request c component default_activity_request.

Record ActivityConfig : Type := { acf_default_result : bool; acf_rules : list ActivityRule }.
Fixpoint config_evaluate_rules (default_result : bool) (rules : list ActivityRule)
    (component : Component) : ActivityResult :=
  match rules with
  | [] => if default_result then Allow else Abstain
  | rule :: rules' =>
      if bool_decide (arl_conditions rule = []) ||
         existsb (λ c, condition_matches c component) (arl_conditions rule)
      then if arl_allow rule then Allow else Deny
      else config_evaluate_rules default_result rules' component
  end.
Definition config_evaluate (c : ActivityConfig) (component : Component) : ActivityResult :=
  config_evaluate_rules (acf_default_result c) (acf_rules c) component.
Definition activity_is_allowed (activities : gmap Activity ActivityConfig) (activity : Activity)
    (component : Component) : bool :=
  match activities !! activity with
  | Some config => negb (bool_decide (config_evaluate config component = Deny))
  | None => true
  end.

(** ** Policy writers *)

Record GdprConsentWriter : Type := { gcw_consent : string; gcw_gdpr : option Z }.
#[export, program] Instance GdprConsentWriter_writer : PolicyWriter GdprConsentWriter := {|
  write_policy w req :=
    let req :=
      match gcw_gdpr w with
      | Some gdpr_val =>
          set_req_regs (Some (set_regs_gdpr (Some gdpr_val)
            (default default_regs (req_regs req)))) req
      | None => req
      end in
    let req :=
      if str_is_empty (gcw_consent w) then req
      else set_req_user (Some (set_user_consent (Some (gcw_consent w))
             (default default_user (req_user req)))) req in
    (Ok (), req) |}.
Next Obligation. intros [c g] req. simpl. by destruct g, (str_is_empty c). Qed.

Record CcpaConsentWriter : Type := { ccw_consent : string }.
#[export, program] Instance CcpaConsentWriter_writer : PolicyWriter CcpaConsentWriter := {|
  write_policy w req :=
    (Ok (), if str_is_empty (ccw_consent w) then req else set_us_privacy (ccw_consent w) req) |}.
Next Obligation. intros [c] req. simpl. by destruct (str_is_empty c). Qed.

(** ** LMT on iOS *)

Definition LMT_TRACKING_UNRESTRICTED : Z := 0.
Definition LMT_TRACKING_RESTRICTED : Z := 1.
Inductive IosVersionClass : Type := Version14_0 | Version14_1 | Version14_2OrGreater | OtherVersion.

Definition is_request_for_ios (req : BidRequest) : bool :=
  bool_decide (is_Some (req_app req)) &&
  match req_device req ≫= dev_os with
  | Some os => eq_ignore_ascii_case os "ios"
  | None => false
  end.
Definition detect_ios_version_classification (osv : string) : IosVersionClass :=
  let parts := split_char (ch ".") osv in
  let number (p : option string) : Z := default 0 (p ≫= parse_int 0 (2 ^ 32 - 1)) in
  let major := number (parts !! 0%nat) in
  let minor := number (parts !! 1%nat) in
  if major <? 14 then OtherVersion
  else if 14 <? major then Version14_2OrGreater
  else match minor with
       | 0 => Version14_0
       | 1 => Version14_1
       | _ => Version14_2OrGreater
       end.
(** [if let Some(device) = &mut req.device { .. }] *)
Definition on_device (f : Device → Device) (req : BidRequest) : BidRequest :=
  match req_device req with
  | Some device => set_req_device (Some (f device)) req
  | None => req
  end.
Definition zero_ifa : string := "00000000-0000-0000-0000-000000000000".
Definition modify_for_ios_14x (req : BidRequest) : BidRequest :=
  on_device (λ device,
    let ifa := default "" (dev_ifa device) in
    if str_is_empty ifa || bool_decide (ifa = zero_ifa)
    then set_dev_lmt (Some LMT_TRACKING_RESTRICTED) device
    else set_dev_lmt (Some LMT_TRACKING_UNRESTRICTED) device) req.
Definition modify_for_ios_14_2_or_greater (req : BidRequest) : BidRequest :=
  match json_path ["atts"] (req_device req ≫= dev_ext) ≫= as_i64 with
  | None => req
  | Some atts =>
      on_device (λ device,
        match atts with
        | 0 | 1 | 2 => set_dev_lmt (Some LMT_TRACKING_RESTRICTED) device
        | 3 => set_dev_lmt (Some LMT_TRACKING_UNRESTRICTED) device
        | _ => device
        end) req
  end.
Definition modify_lmt_for_ios (req : BidRequest) : BidRequest :=
  if negb (is_request_for_ios req) then req
  else match req_device req ≫= dev_osv with
  | None => req
  | Some osv =>
      match detect_ios_version_classification osv with
      | Version14_0 | Version14_1 => modify_for_ios_14x req
      | Version14_2OrGreater => modify_for_ios_14_2_or_greater req
      | OtherVersion => req
      end
  end.

(** ** The file's own GDPR signal *)

Inductive PrivacySignal : Type := PsAmbiguous | PsNo | PsYes.
#[export] Instance PrivacySignal_eq_dec : EqDecision PrivacySignal.
Proof. solve_decision. Defined.
Definition ps_error : string := "GDPR signal should be integer 0 or 1".
Definition ps_from_int (i : Z) : outcome string PrivacySignal :=
  match i with 0 => Ok PsNo | 1 => Ok PsYes | _ => Err ps_error end.
Definition ps_from_str_signal (s : string) : outcome string PrivacySignal :=
  if str_is_empty s then Ok PsAmbiguous
  else match parse_int (- 2 ^ 31) (2 ^ 31 - 1) s with
       | Some 0 => Ok PsNo
       | Some 1 => Ok PsYes
       | _ => Err ps_error
       end.
Definition ps_normalize (s : PrivacySignal) (default_value : string) : PrivacySignal :=
  if negb (bool_decide (s = PsAmbiguous)) then s
  else if bool_decide (default_value = "0") then PsNo else PsYes.
Definition enforce_gdpr (signal default_value : PrivacySignal) (channel_enabled : bool) : bool :=
  let gdpr_applies := bool_decide (signal = PsYes) ||
    (bool_decide (signal = PsAmbiguous) && bool_decide (default_value = PsYes)) in
  gdpr_applies && channel_enabled.

(** ** Specification *)

(** The regulations a request declares, where the auction looks for them. *)
Definition gpp_lists (req : BidRequest) (sid : Z) : Prop :=
  sid ∈ default [] (req_regs req ≫= regs_gpp_sid).
Definition gpp_string (req : BidRequest) (s : string) : Prop :=
  req_regs req ≫= regs_gpp = Some s ∧ s ≠ "".
Definition child_directed (req : BidRequest) : Prop := req_regs req ≫= regs_coppa = Some 1.
Definition tracking_limited (req : BidRequest) : Prop := req_device req ≫= dev_lmt = Some 1.
Definition opted_out (req : BidRequest) : Prop :=
  ∃ s, third_char_is_Y s = true ∧
    (req_regs req ≫= regs_us_privacy = Some s ∨
     req_regs req ≫= regs_us_privacy = None ∧ gpp_lists req 6 ∧ gpp_string req s).
Definition legacy_gdpr (req : BidRequest) : option Z :=
  json_path ["gdpr"] (req_regs req ≫= regs_ext) ≫= as_i64.
Definition gdpr_declared (req : BidRequest) : Prop :=
  match legacy_gdpr req with Some g => g = 1 | None => gpp_lists req 2 end.
Definition ext_consent (req : BidRequest) : option string :=
  non_empty (json_path ["consent"] (req_user req ≫= user_ext) ≫= as_str).
Definition consented (req : BidRequest) : Prop :=
  is_Some (ext_consent req) ∨ gpp_lists req 2 ∧ ∃ s, gpp_string req s.

(** What Apple's signals say of tracking, by version of the system. *)
Definition set_lmt (l : option Z) (req : BidRequest) : BidRequest := on_device (set_dev_lmt l) req.
Definition lmt_of (req : BidRequest) : option Z := req_device req ≫= dev_lmt.
Definition ios_version (req : BidRequest) (c : IosVersionClass) : Prop :=
  is_request_for_ios req = true ∧
  ∃ osv, req_device req ≫= dev_osv = Some osv ∧ detect_ios_version_classification osv = c.
Definition has_real_ifa (req : BidRequest) : Prop :=
  ∃ ifa, req_device req ≫= dev_ifa = Some ifa ∧ ifa ≠ "" ∧ ifa ≠ zero_ifa.
Definition att_status (req : BidRequest) : option Z :=
  json_path ["atts"] (req_device req ≫= dev_ext) ≫= as_i64.

(** *** Example data *)

Definition gdpr_request (gdpr : Z) (consent : string) : BidRequest :=
  set_req_user (Some (set_user_ext (Some (VObject [("consent", VString consent)])) default_user))
    (set_req_regs (Some (set_regs_ext (Some (VObject [("gdpr", VNumber (PosInt gdpr))]))
                           default_regs)) default_req).
Definition ios_request (osv : string) (atts : Z) : BidRequest :=
  set_req_app (Some default_app) (set_req_device (Some (set_dev_ext
    (Some (VObject [("atts", VNumber (PosInt atts))]))
    {| dev_ua := None; dev_sua := None; dev_geo := None; dev_dnt := None; dev_lmt := Some 1;
       dev_ip := None; dev_ipv6 := None; dev_devicetype := None; dev_make := None;
       dev_model := None; dev_os := Some "iOS"; dev_osv := Some osv; dev_hwv := None;
       dev_h := None; dev_w := None; dev_ppi := None; dev_pxratio := None; dev_js := None;
       dev_geofetch := None; dev_flashver := None; dev_language := None; dev_langb := None;
       dev_carrier := None; dev_mccmnc := None; dev_connectiontype := None; dev_ifa := None;
       dev_didsha1 := None; dev_didmd5 := None; dev_dpidsha1 := None; dev_dpidmd5 := None;
       dev_macsha1 := None; dev_macmd5 := None; dev_ext := None |})) default_req).

(** ** Proofs *)

Lemma non_empty_Some o s : non_empty o = Some s ↔ o = Some s ∧ s ≠ "".
Proof.
  destruct o as [t|]; simpl; [|naive_solver]. unfold str_is_empty.
  case_bool_decide; naive_solver.
Qed.

Lemma has_section_lists req sid : has_section (parse_gpp req) sid = true ↔ gpp_lists req sid.
Proof. unfold has_section. by rewrite bool_decide_eq_true. Qed.

Lemma gpp_no_section req : gpp_section_ids (parse_gpp req) = [] → ∀ sid, ¬ gpp_lists req sid.
Proof. unfold gpp_lists, parse_gpp. simpl. intros -> sid. apply not_elem_of_nil. Qed.

Lemma extract_gdpr req : apc_gdpr_applies (extract_privacy_config req) = true ↔ gdpr_declared req.
Proof.
  unfold extract_privacy_config, gdpr_declared, derive_gdpr_from_gpp. cbv zeta.
  change (json_path ["gdpr"] (req_regs req ≫= regs_ext) ≫= as_i64) with (legacy_gdpr req).
  destruct (legacy_gdpr req) as [g|]; simpl; [apply Z.eqb_eq|].
  case_bool_decide as He; simpl.
  - split; [done|]. intros H. by apply gpp_no_section in H.
  - apply has_section_lists.
Qed.

Lemma extract_consent req :
  match apc_consent_string (extract_privacy_config req) with
  | Some s => str_is_empty s
  | None => true
  end = false ↔ consented req.
Proof.
  unfold extract_privacy_config, consented, derive_gdpr_from_gpp. cbv zeta.
  change (non_empty (json_path ["consent"] (req_user req ≫= user_ext) ≫= as_str))
    with (ext_consent req).
  assert (Hne : ∀ s : string, str_is_empty s = false ↔ s ≠ "").
  { intros s. unfold str_is_empty. by rewrite bool_decide_eq_false. }
  destruct (ext_consent req) as [s|] eqn:He; simpl.
  { unfold ext_consent in He. apply non_empty_Some in He as [_ Hs]. rewrite Hne. naive_solver. }
  destruct (has_tcf_eu2 (parse_gpp req)) eqn:Ht.
  - apply has_section_lists in Ht. simpl. unfold gpp_string.
    destruct (non_empty (req_regs req ≫= regs_gpp)) as [s|] eqn:Hs.
    + apply non_empty_Some in Hs as [Hs Hn]. rewrite Hne. naive_solver.
    + split; [done|]. intros [[? ?]|[_ [s [H1 H2]]]]; [done|].
      assert (non_empty (req_regs req ≫= regs_gpp) = Some s) by by apply non_empty_Some. congruence.
  - split; [done|]. intros [[? ?]|[H _]]; [done|]. apply has_section_lists in H.
    unfold has_tcf_eu2, GPP_SID_TCF_EU2 in Ht. congruence.
Qed.

Lemma extract_opted_out req :
  match apc_us_privacy (extract_privacy_config req) with
  | Some s => third_char_is_Y s
  | None => false
  end = true ↔ opted_out req.
Proof.
  unfold extract_privacy_config, opted_out, derive_usp_from_gpp. simpl.
  destruct (req_regs req ≫= regs_us_privacy) as [s|]; [naive_solver|].
  case_bool_decide as He.
  { split; [done|].
    intros (s&_&[?|(_&H&_)]); [done|]. by apply gpp_no_section in H. }
  destruct (has_usp_v1 (parse_gpp req)) eqn:Hu; last first.
  { split; [done|]. intros (s&_&[?|(_&H&_)]); [done|]. apply has_section_lists in H.
    unfold has_usp_v1, GPP_SID_USP_V1 in Hu. congruence. }
  apply has_section_lists in Hu. simpl. unfold gpp_string.
  destruct (non_empty (req_regs req ≫= regs_gpp)) as [s|] eqn:Hs.
  - apply non_empty_Some in Hs as [Hs Hn]. naive_solver.
  - split; [done|]. intros (s&_&[?|(_&_&H)]); [done|]. apply non_empty_Some in H. congruence.
Qed.

(** C4: The gate every bidder passes.  A bidder is called exactly when the
    request is not child-directed, tracking is not limited, the user did not
    opt out of sale, and a consent string is there if GDPR is declared; a bidder
    that is not called is refused for the first of these that fails, in that
    order, and every bidder gets the same answer. *)
Theorem privacy_gate_spec req bidder :
  let r := check_privacy_for_bidder (extract_privacy_config req) bidder in
  (r = PrAllow ↔ ¬ child_directed req ∧ ¬ tracking_limited req ∧ ¬ opted_out req ∧
                 (gdpr_declared req → consented req)) ∧
  (r = PrBlockCoppa ↔ child_directed req) ∧
  (r = PrBlockLmt ↔ ¬ child_directed req ∧ tracking_limited req) ∧
  (r = PrBlockCcpa ↔ ¬ child_directed req ∧ ¬ tracking_limited req ∧ opted_out req) ∧
  (∀ bidder', check_privacy_for_bidder (extract_privacy_config req) bidder' = r).
Proof.
  assert (Hc : apc_coppa (extract_privacy_config req) = Some 1 ↔ child_directed req) by done.
  assert (Hl : apc_lmt (extract_privacy_config req) = Some 1 ↔ tracking_limited req) by done.
  unfold check_privacy_for_bidder. rewrite <-extract_opted_out, <-extract_gdpr, <-extract_consent.
  rewrite <-Hc, <-Hl. cbv zeta.
  pose proof (eq_refl true). repeat case_bool_decide; [intuition congruence..|].
  destruct (apc_us_privacy (extract_privacy_config req)) as [u|]; [destruct (third_char_is_Y u)|].
  1: intuition congruence.
  all: destruct (apc_gdpr_applies (extract_privacy_config req)); cbn [andb]; [|intuition congruence].
  all: destruct (apc_consent_string (extract_privacy_config req)) as [s|];
    [destruct (str_is_empty s)|]; intuition congruence.
Qed.

(** The gate and the signal helper of the same crate look in different
    places: whatever [regs.gdpr] and [user.consent] say (the fields of OpenRTB
    2.6), the gate's decision is the same, so that a request which
    [get_gdpr_signal] takes for one under GDPR, with no consent at all, has all
    its bidders called. *)
Theorem gate_misses_openrtb26_gdpr :
  (∀ req regs user g c bidder,
     check_privacy_for_bidder (extract_privacy_config
       (set_req_user (Some (set_user_consent c user))
         (set_req_regs (Some (set_regs_gdpr g regs)) req))) bidder =
     check_privacy_for_bidder (extract_privacy_config
       (set_req_user (Some user) (set_req_regs (Some regs) req))) bidder) ∧
  ∃ req, get_gdpr_signal req = Ok GdprYes ∧ get_consent req = "" ∧
    ∀ bidder, check_privacy_for_bidder (extract_privacy_config req) bidder = PrAllow.
Proof.
  split; [done|].
  by exists (set_req_regs (Some (set_regs_gdpr (Some 1) default_regs)) default_req).
Qed.


(** ** Proofs: CCPA *)

Lemma us_privacy_chars c sale : us_privacy_string c sale →
  c ≠ "" ∧ ccpa_validate_consent c = true ∧ third_char_is_Y c = bool_decide (sale = "Y").
Proof.
  intros (n&l&Hn&Hs&Hl&->).
  by destruct (ccpa_flag_cases _ Hn) as [->|[->| ->]],
    (ccpa_flag_cases _ Hs) as [->|[->| ->]], (ccpa_flag_cases _ Hl) as [->|[->| ->]].
Qed.

Lemma parse_consent_loose c o : parse_consent c = Ok o →
  ccpa_validate_consent c = true ∧ third_char_is_Y c = o.
Proof.
  intros [[-> ->]|(sale&Hus&->)]%parse_consent_iff; [done|].
  by apply us_privacy_chars in Hus as (_&?&?).
Qed.

Lemma no_sale_steps ns st :
  fold_left no_sale_step ns st =
    (bool_decide ("*" ∈ ns) || st.1, list_to_set (List.filter (λ b, negb (bool_decide (b = "*"))) ns)
                                     ∪ st.2).
Proof.
  revert st. induction ns as [|b ns IH]; intros [all sp]; [simpl; f_equal; set_solver|].
  simpl. rewrite IH. unfold no_sale_step. simpl. destruct (decide (b = "*")) as [->|Hb].
  - rewrite (bool_decide_true ("*" ∈ "*" :: ns)) by by left. simpl.
    by rewrite orb_true_r.
  - rewrite (bool_decide_false (b = "*")) by done. simpl. f_equal; [|set_solver]. f_equal. apply bool_decide_ext. set_solver.
Qed.

(** The two CCPA implementations agree where the strict one accepts: a
    policy the privacy crate parses is also parsed by the exchange's parser, and
    the two then enforce against the same bidders. *)
Theorem ccpa_policies_agree p valid pp : policy_parse p valid = Ok pp →
  ∃ pcp, parsed_ccpa_parse (pol_consent p) (pol_no_sale_bidders p) = Ok pcp ∧
    pcp_can_enforce pcp = can_enforce pp ∧
    ∀ bidder, pcp_should_enforce pcp bidder = should_enforce pp bidder.
Proof.
  destruct p as [c ns]. unfold policy_parse, parsed_ccpa_parse. simpl. intros Hpp.
  destruct (parse_consent c) as [o| |] eqn:Hc; try done.
  destruct (parse_no_sale_bidders ns valid) as [r| |] eqn:Hns; try done.
  apply parse_no_sale_spec in Hns as [Hok ->]. injection Hpp as <-.
  destruct (parse_consent_loose c o Hc) as [Hv <-]. rewrite Hv, no_sale_steps. simpl.
  assert (Hempty : str_is_empty c = true → third_char_is_Y c = false).
  { unfold str_is_empty. intros Hs%bool_decide_eq_true. by rewrite Hs. }
  unfold pcp_should_enforce, pcp_is_no_sale_for_bidder, pp_should_enforce, is_no_sale_for_bidder.
  assert (Hcov : ∀ bidder, bool_decide ("*" ∈ ns) ||
      bool_decide (bidder ∈ (list_to_set (List.filter (λ b, negb (bool_decide (b = "*"))) ns)
                              ∪ ∅ : gset string)) =
    if bool_decide (ns = ["*"]) then true
    else bool_decide (bidder ∈ (if bool_decide (ns = ["*"]) then ∅ else list_to_set ns : gset string))).
  { intros bidder. destruct (decide (ns = ["*"])) as [->|Hn]; [done|].
    destruct Hok as [?|[Hno Hall]]; [done|].
    rewrite (bool_decide_false ("*" ∈ ns)), !(bool_decide_false (ns = ["*"])) by done. simpl.
    apply bool_decide_ext. rewrite elem_of_union, !elem_of_list_to_set.
    rewrite (list_elem_of_In (List.filter _ _)), List.filter_In, <-list_elem_of_In.
    rewrite negb_true_iff, bool_decide_eq_false. set_solver. }
  destruct (str_is_empty c) eqn:He.
  - rewrite Hempty by done. simpl. eexists. split; [done|]. split; [done|]. intros bidder.
    simpl. by rewrite andb_false_r.
  - simpl. eexists. split; [done|]. split; [done|]. intros bidder. simpl.
    rewrite orb_false_r, Hcov. by destruct (third_char_is_Y c); simpl; rewrite ?andb_true_r, ?andb_false_r.
Qed.


(** ** Proofs: LMT on iOS *)

Lemma on_device_lmt l req :
  lmt_of (set_lmt l req) = match req_device req with Some _ => l | None => None end.
Proof. unfold set_lmt, on_device, lmt_of. by destruct (req_device req) as [d|] eqn:Hd; simpl; rewrite ?Hd. Qed.
Lemma set_lmt_twice l l' req : set_lmt l (set_lmt l' req) = set_lmt l req.
Proof. unfold set_lmt, on_device. by destruct (req_device req) as [d|] eqn:Hd; simpl; rewrite ?Hd. Qed.

(** The three things the function can do. *)
Lemma modify_lmt_cases req :
  modify_lmt_for_ios req = req ∨
  (ios_version req Version14_0 ∨ ios_version req Version14_1) ∧
    (modify_lmt_for_ios req = set_lmt (Some 1) req ∨
     has_real_ifa req ∧ modify_lmt_for_ios req = set_lmt (Some 0) req) ∨
  ios_version req Version14_2OrGreater ∧
    (is_Some (att_status req) ∧ modify_lmt_for_ios req = set_lmt (Some 1) req ∨
     att_status req = Some 3 ∧ modify_lmt_for_ios req = set_lmt (Some 0) req).
Proof.
  unfold modify_lmt_for_ios, ios_version.
  destruct (is_request_for_ios req) eqn:Hios; [simpl|by left].
  destruct (req_device req ≫= dev_osv) as [osv|] eqn:Hosv; [|by left].
  assert (H14 : modify_for_ios_14x req = set_lmt (Some 1) req ∨
    has_real_ifa req ∧ modify_for_ios_14x req = set_lmt (Some 0) req).
  { unfold modify_for_ios_14x, set_lmt, on_device, has_real_ifa.
    destruct (req_device req) as [d|]; [|by left]. simpl.
    destruct (dev_ifa d) as [ifa|] eqn:Hifa; simpl; [|by left]. unfold str_is_empty.
    case_bool_decide; [by left|]. case_bool_decide; [by left|]. right. simpl. eauto. }
  destruct (detect_ios_version_classification osv) eqn:Hc; [| | |by left].
  1,2: right; left; split; [naive_solver|done].
  unfold modify_for_ios_14_2_or_greater. fold (att_status req).
  destruct (att_status req) as [atts|] eqn:Ha; [|by left].
  destruct (decide (atts = 3)) as [->|H3]; [by do 2 right; split; eauto|].
  destruct (decide (0 ≤ atts ≤ 2)) as [H2|H2].
  - do 2 right. split; [eauto|]. left. split; [eauto|].
    assert (atts = 0 ∨ atts = 1 ∨ atts = 2) as [->|[->| ->]] by lia; done.
  - left. unfold on_device. destruct (req_device req) as [d|] eqn:Hd; [|done].
    transitivity (set_req_device (Some d) req); [|destruct req; simpl in *; by subst].
    do 2 f_equal. destruct atts as [|p|p]; [lia| |done].
    by destruct p as [[p|p|]|[p|p|]|]; try lia.
Qed.

(** LMT on iOS.  Of the whole request only [device.lmt] can change, and
    only for an iOS app at version 14.0 or above; it is lifted (set to 0) only
    where the device gives a real advertising id (14.0 and 14.1) or the user
    authorised tracking (14.2 and above). *)
Theorem ios_lmt_spec req :
  let req' := modify_lmt_for_ios req in
  set_lmt None req' = set_lmt None req ∧
  (lmt_of req' ≠ lmt_of req →
     ∃ c, ios_version req c ∧ c ≠ OtherVersion ∧ (lmt_of req' = Some 0 ∨ lmt_of req' = Some 1)) ∧
  (lmt_of req' = Some 0 → lmt_of req = Some 0 ∨
     (ios_version req Version14_0 ∨ ios_version req Version14_1) ∧ has_real_ifa req ∨
     ios_version req Version14_2OrGreater ∧ att_status req = Some 3).
Proof.
  cbv zeta. assert (Hdev : ∀ c, ios_version req c → is_Some (req_device req)).
  { intros c (_&osv&Hosv&_). destruct (req_device req); [by eexists|done]. }
  destruct (modify_lmt_cases req) as [->|[[Hv H]|[Hv H]]]; [naive_solver| |].
  - assert (is_Some (req_device req)) as [d Hd] by (destruct Hv as [Hv|Hv]; eauto).
    destruct H as [->|[Hifa ->]]; rewrite set_lmt_twice, on_device_lmt, Hd;
      (split_and!; [done| |naive_solver]).
    all: intros _; destruct Hv as [Hv|Hv]; eexists; (split; [exact Hv|]); split; auto; done.
  - destruct (Hdev _ Hv) as [d Hd].
    destruct H as [[_ ->]|[Hatt ->]]; rewrite set_lmt_twice, on_device_lmt, Hd;
      (split_and!; [done| |naive_solver]).
    all: intros _; eexists; (split; [exact Hv|]); split; auto; done.
Qed.

(** ** Findings *)

(** The strict parser refuses what the loose one takes. *)
Lemma ccpa_validation_differs :
  ccpa_validate_consent "1XYX" = true ∧ validate_consent "1XYX" = false.
Proof. done. Qed.

(** A GPP string taken whole for a US Privacy string: its third character is
    no opt-out flag. *)
Lemma gpp_string_taken_for_usp :
  check_privacy_for_bidder (extract_privacy_config (set_req_regs (Some
    (set_regs_gpp (Some "DBABBg~1YYN") (set_regs_gpp_sid (Some [6]) default_regs))) default_req))
    "appnexus" = PrAllow.
Proof. reflexivity. Qed.

(** An activity that is denied by default is allowed: no rule decides, and
    [Abstain] counts as allowed. *)
Lemma default_deny_is_ignored rules d activity component :
  activity_is_allowed {[ activity := {| acf_default_result := d; acf_rules := rules |} ]}
    activity component =
  activity_is_allowed {[ activity := {| acf_default_result := true; acf_rules := rules |} ]}
    activity component.
Proof.
  unfold activity_is_allowed. rewrite !lookup_singleton_eq. f_equal. unfold config_evaluate. simpl.
  induction rules as [|rule rules IH]; simpl; [by destruct d|].
  by destruct (bool_decide (arl_conditions rule = []) || _).
Qed.

(** A condition on GPP sections never holds: it is checked against a default
    request, which has none. *)
Lemma gpp_sid_condition_never_matches c component :
  acd_gpp_sid c ≠ [] → condition_matches c component = false.
Proof.
  intros H. unfold condition_matches, matches_with_request. rewrite (bool_decide_false (acd_gpp_sid c = [])) by done.
  assert (existsb (λ sid, bool_decide (sid ∈ arq_gpp_sid default_activity_request))
            (acd_gpp_sid c) = false) as ->.
  { clear H. induction (acd_gpp_sid c) as [|x l IH]; [done|exact IH]. }
  by repeat case_match.
Qed.

(** What the GDPR writer writes, the gate does not read. *)
Lemma gdpr_writer_unseen_by_gate w req bidder :
  let before := set_req_regs (Some (default default_regs (req_regs req)))
                  (set_req_user (Some (default default_user (req_user req))) req) in
  check_privacy_for_bidder (extract_privacy_config (write_policy (w : GdprConsentWriter) req).2)
    bidder = check_privacy_for_bidder (extract_privacy_config before) bidder.
Proof.
  destruct w as [c [g|]]; simpl; destruct (str_is_empty c); simpl;
    destruct (req_user req) as [u|] eqn:Hu, (req_regs req) as [r|] eqn:Hr; simpl;
    unfold extract_privacy_config, parse_gpp; simpl; by rewrite ?Hu, ?Hr.
Qed.

(** ** Witnesses *)

Lemma ccpa_policies_agree_witness :
  ∃ pcp, parsed_ccpa_parse "1NYN" ["rubicon"] = Ok pcp ∧
    pcp_should_enforce pcp "appnexus" = true ∧ pcp_should_enforce pcp "rubicon" = false.
Proof.
  assert (Hp : policy_parse sample_policy {["appnexus"; "rubicon"]} = Ok
    {| pp_consent_specified := true; pp_consent_opt_out_sale := true;
       pp_no_sale_for_all_bidders := false; pp_no_sale_specific_bidders := {["rubicon"]} |})
    by (vm_compute; reflexivity).
  destruct (ccpa_policies_agree sample_policy _ _ Hp) as (pcp&Hpcp&_&He).
  exists pcp. split_and!; [done|rewrite He; done..].
Defined.

Lemma ios_lmt_spec_witness :
  let req := ios_request "17.1" 3 in
  lmt_of (modify_lmt_for_ios req) = Some 0 ∧
  ios_version req Version14_2OrGreater ∧ att_status req = Some 3.
Proof.
  cbv zeta. split; [reflexivity|].
  destruct (proj2 (proj2 (ios_lmt_spec (ios_request "17.1" 3))) eq_refl)
    as [?|[[_ (ifa&?&_)]|H]]; [done..|exact H].
Defined.

Lemma privacy_gate_spec_witness :
  check_privacy_for_bidder (extract_privacy_config (gdpr_request 1 "CO")) "appnexus" = PrAllow ∧
  gdpr_declared (gdpr_request 1 "CO") ∧
  check_privacy_for_bidder (extract_privacy_config (gdpr_request 1 "")) "appnexus" = PrBlockGdpr.
Proof.
  split_and!; [|done|done].
  apply (proj1 (privacy_gate_spec (gdpr_request 1 "CO") "appnexus")).
  split_and!; [done|done| |].
  - intros (s&_&[?|(_&H&_)]); [done|]. by apply elem_of_nil in H.
  - intros _. left. by eexists.
Defined.
