(* ===== verification/SyncEndpoints.v ===== *)
(** * The user-sync endpoints

    endpoints/src/lib.rs: the uids cookie with expiry times, its transport in the
    Cookie and Set-Cookie headers, and the handlers of /setuid, /getuids and
    /cookie_sync.  base64, serde_json, the header types and the clock are
    parameters; a request's Cookie header is its text, when it has one that is
    text.  Names the exchange has too ([UserSync]) are prefixed with [Ep] here. *)

From S2P Require Import Prelude Json IpUtil Text PrivacyCrate ExchangePrivacy UserSync.

(** ** The cookie *)

Record EpUidEntry : Type := { epu_uid : string; epu_expires : Z }.
#[export] Instance EpUidEntry_eq_dec : EqDecision EpUidEntry.
Proof. solve_decision. Defined.
Record UserSyncCookie : Type := { usk_uids : gmap string EpUidEntry; usk_optout : option bool }.
Definition default_user_sync_cookie : UserSyncCookie := {| usk_uids := ∅; usk_optout := None |}.

Definition UID_TTL_SECS : Z := 14 * 24 * 60 * 60.
Definition DEFAULT_COOKIE_NAME : string := "uids".
Definition cookie_name_or_default (cookie_name : string) : string :=
  if str_is_empty cookie_name then DEFAULT_COOKIE_NAME else cookie_name.

Definition cookie_pair_value (name pair : string) : option string :=
  match split_once (ch "=") (trim pair) with
  | Some (k, v) => if bool_decide (trim k = name) then Some (trim v) else None
  | None => None
  end.
(** [cookie_hdr]: the text of the Cookie header. *)
Definition extract_cookie_value (cookie_hdr : option string) (cookie_name : string) : option string :=
  hdr ← cookie_hdr;
  head (omap (cookie_pair_value (cookie_name_or_default cookie_name)) (split_char (ch ";") hdr)).

Section Cookies.
(** base64's standard alphabet and the JSON of the cookie. *)
Context (std_encode : string → string) (std_decode : string → option string).
Context (cookie_to_json : UserSyncCookie → option string).
Context (cookie_from_json : string → option UserSyncCookie).

Definition usk_decode (value : string) : UserSyncCookie :=
  match std_decode value with
  | Some b => default default_user_sync_cookie (cookie_from_json b)
  | None => default_user_sync_cookie
  end.
Definition usk_encode (c : UserSyncCookie) : string := std_encode (default "" (cookie_to_json c)).
Definition from_request (cookie_hdr : option string) (cookie_name : string) : UserSyncCookie :=
  match extract_cookie_value cookie_hdr cookie_name with
  | Some v => usk_decode v
  | None => default_user_sync_cookie
  end.
(** [now]: the clock in seconds. *)
Definition has_valid_uid (now : Z) (bidder : string) (c : UserSyncCookie) : bool :=
  match usk_uids c !! bidder with Some e => now <? epu_expires e | None => false end.
Definition usk_set_uid (now : Z) (bidder uid : string) (c : UserSyncCookie) : UserSyncCookie := {|
  usk_uids := <[ bidder := {| epu_uid := uid; epu_expires := now + UID_TTL_SECS |} ]> (usk_uids c);
  usk_optout := usk_optout c |}.
Definition build_set_cookie_header (cookie_name : string) (ttl_days : Z) (domain : string)
    (c : UserSyncCookie) : string :=
  let max_age_days := if 0 <? ttl_days then ttl_days else 90 in
  let max_age_secs := i64 (i64 (i64 (max_age_days * 24) * 60) * 60) in
  let hdr := cookie_name_or_default cookie_name +:+ "=" +:+ usk_encode c +:+
             "; Max-Age=" +:+ pretty max_age_secs +:+
             "; Path=/; HttpOnly; SameSite=None; Secure" in
  if str_is_empty domain then hdr else hdr +:+ "; Domain=" +:+ domain.
End Cookies.

(** ** State and responses *)

Record BidderSyncInfo : Type := { bsi_iframe_url : option string; bsi_redirect_url : option string }.
Record HostCookieConfig : Type := {
  hcc_cookie_name : string; hcc_family : string; hcc_domain : string; hcc_opt_out_url : string;
  hcc_opt_in_url : string; hcc_ttl_days : Z;
}.
Record AccountCookieSyncConfig : Type := {
  acs_default_limit : option Z; acs_max_limit : option Z; acs_default_coop_sync : option bool;
  acs_priority_groups : list (list string);
}.
(** The fields of the application state these handlers read; of an account, its
    cookie-sync configuration. *)
Record SyncState : Type := {
  ss_bidder_info : gset string; ss_bidder_sync_info : gmap string BidderSyncInfo;
  ss_host_cookie : HostCookieConfig; ss_gdpr_enabled : bool;
  ss_accounts : gmap string AccountCookieSyncConfig; ss_account_required : bool;
  ss_activity_control : gmap Activity ActivityConfig;
}.

Inductive Body : Type := EmptyBody | TextBody (s : string) | JsonBody (v : Value) | PixelBody.
Record Response : Type := {
  rp_status : Z; rp_body : Body; rp_set_cookie : option string; rp_location : option string;
}.
Definition text_response (status : Z) (s : string) : Response := {|
  rp_status := status; rp_body := TextBody s; rp_set_cookie := None; rp_location := None |}.
Definition json_response (status : Z) (v : Value) : Response := {|
  rp_status := status; rp_body := JsonBody v; rp_set_cookie := None; rp_location := None |}.

(** ** GET /setuid *)

Record SetUidParams : Type := {
  sup_bidder : option string; sup_uid : option string; sup_gdpr : option Z;
  sup_gdpr_consent : option string; sup_us_privacy : option string; sup_account : option string;
  sup_f : option string;
}.
Definition setuid_account_error (state : SyncState) (account : option string) : option Response :=
  if ss_account_required state then
    match account with
    | Some acct_id =>
        if str_is_empty acct_id
        then Some (text_response 400 "Account is required but was not provided")
        else if bool_decide (is_Some (ss_accounts state !! acct_id)) then None
        else Some (text_response 400 ("Invalid account '" +:+ acct_id +:+ "': account not found"))
    | None => Some (text_response 400 "Account is required but was not provided")
    end
  else None.
(** GDPR applies and there is no consent string. *)
Definition consent_missing (gdpr_enabled : bool) (gdpr : option Z) (consent : option string) : bool :=
  gdpr_enabled && (default 0 gdpr =? 1) && str_is_empty (default "" consent).
Definition store_uid (now : Z) (bidder : string) (uid : option string) (c : UserSyncCookie)
    : UserSyncCookie :=
  match uid with
  | Some uid =>
      if str_is_empty uid
      then {| usk_uids := delete bidder (usk_uids c); usk_optout := usk_optout c |}
      else usk_set_uid now bidder uid c
  | None => c
  end.

Section Handlers.
Context (std_encode : string → string) (std_decode : string → option string).
Context (cookie_to_json : UserSyncCookie → option string).
Context (cookie_from_json : string → option UserSyncCookie).
(** [HeaderValue::from_str] accepts the text. *)
Context (header_value_ok : string → bool).

Definition set_uid_handler (state : SyncState) (now : Z) (cookie_hdr : option string)
    (params : SetUidParams) : Response :=
  match sup_bidder params with
  | None => text_response 400 "'bidder' query param is required"
  | Some bidder =>
      if str_is_empty bidder then text_response 400 "'bidder' query param is required"
      else
        match setuid_account_error state (sup_account params) with
        | Some r => r
        | None =>
            if consent_missing (ss_gdpr_enabled state) (sup_gdpr params) (sup_gdpr_consent params)
            then text_response 451 "The gdpr_consent string prevents cookies from being saved"
            else
              let host := ss_host_cookie state in
              let cookie := from_request std_decode cookie_from_json cookie_hdr
                              (hcc_cookie_name host) in
              let cookie := store_uid now bidder (sup_uid params) cookie in
              let set_cookie_val := build_set_cookie_header std_encode cookie_to_json
                                      (hcc_cookie_name host) (hcc_ttl_days host) (hcc_domain host)
                                      cookie in
              if negb (header_value_ok set_cookie_val)
              then {| rp_status := 500; rp_body := EmptyBody; rp_set_cookie := None; rp_location := None |}
              else {| rp_status := 200;
                      rp_body := if bool_decide (default "b" (sup_f params) = "i")
                                 then PixelBody else EmptyBody;
                      rp_set_cookie := Some set_cookie_val; rp_location := None |}
        end
  end.

(** ** GET /getuids *)

(** The buyer uids by bidder; the JSON object sorts its keys. *)
Definition buyeruids (now : Z) (c : UserSyncCookie) : gmap string string :=
  epu_uid <$> filter (λ '(_, entry), now < epu_expires entry) (usk_uids c).
Definition get_uids_handler (state : SyncState) (now : Z) (cookie_hdr : option string)
    : gmap string string :=
  buyeruids now (from_request std_decode cookie_from_json cookie_hdr
                   (hcc_cookie_name (ss_host_cookie state))).
End Handlers.

(** ** POST /cookie_sync *)

Inductive EpBidderFilter : Type :=
| FilterUniform (mode : BidderFilterMode)
| FilterSpecific (bidders : list string) (mode : BidderFilterMode).
Definition filter_allows (bidder : string) (f : EpBidderFilter) : bool :=
  match f with
  | FilterUniform Include => true
  | FilterUniform Exclude => false
  | FilterSpecific bidders mode =>
      let found := existsb (λ b, eq_ignore_ascii_case b bidder) bidders in
      match mode with Include => found | Exclude => negb found end
  end.
Record EpSyncTypeFilter : Type := { esf_iframe : EpBidderFilter; esf_redirect : EpBidderFilter }.
Definition default_sync_type_filter : EpSyncTypeFilter := {|
  esf_iframe := FilterUniform Include; esf_redirect := FilterUniform Include |}.
Definition allowed_types (bidder : string) (f : EpSyncTypeFilter) : list string :=
  (if filter_allows bidder (esf_iframe f) then ["iframe"] else []) ++
  (if filter_allows bidder (esf_redirect f) then ["redirect"] else []).

Definition bidders_type_error : string :=
  "invalid bidders type. must either be a string '*' or a string array of bidders".
Definition parse_filter_bidders (arr : list Value) : outcome string (list string) :=
  foldM (λ bidders v, match as_str v with
                      | Some b => Ok (bidders ++ [b])
                      | None => Err bidders_type_error
                      end) [] arr.
Definition parse_bidder_filter (f : Value) : outcome string EpBidderFilter :=
  let mode_str := default "include" (get "filter" f ≫= as_str) in
  mode ← (if bool_decide (mode_str = "include") then Ok Include
          else if bool_decide (mode_str = "exclude") then Ok Exclude
          else Err ("invalid filter value '" +:+ mode_str +:+
                    "'. must be either 'include' or 'exclude'"));
  match get "bidders" f with
  | None => Ok (FilterUniform mode)
  | Some (VString s) =>
      if bool_decide (s = "*") then Ok (FilterUniform mode)
      else Err ("invalid bidders value `" +:+ s +:+ "`. must either be '*' or a string array")
  | Some (VArray arr) => bidders ← parse_filter_bidders arr; Ok (FilterSpecific bidders mode)
  | Some _ => Err bidders_type_error
  end.
Definition parse_type_filter (filter_settings : option Value) : outcome string EpSyncTypeFilter :=
  match filter_settings with
  | None => Ok default_sync_type_filter
  | Some settings =>
      if negb (is_object settings) then Err "filterSettings must be an object"
      else
        iframe ← match get "iframe" settings with
                 | Some v => map_err (λ e, "error parsing filtersettings.iframe: " +:+ e)
                               (parse_bidder_filter v)
                 | None => Ok (FilterUniform Include)
                 end;
        redirect ← match get "image" settings with
                   | Some v => map_err (λ e, "error parsing filtersettings.image: " +:+ e)
                                 (parse_bidder_filter v)
                   | None => Ok (FilterUniform Include)
                   end;
        Ok {| esf_iframe := iframe; esf_redirect := redirect |}
  end.

Record EpCookieSyncRequest : Type := {
  ecr_bidders : option (list string); ecr_gdpr : option Z; ecr_gdpr_consent : option string;
  ecr_us_privacy : option string; ecr_limit : option Z; ecr_coop_sync : option bool;
  ecr_filter_settings : option Value; ecr_account : option string; ecr_debug : option bool;
  ecr_gpp : option string; ecr_gpp_sid : option string;
}.

Definition KNOWN_SYNC_BIDDERS : list string :=
  ["appnexus"; "openx"; "pubmatic"; "ix"; "sovrn"; "adform"; "33across"; "criteo"; "yieldmo";
   "sharethrough"; "smaato"; "conversant"; "smartadserver"; "yieldlab"; "triplelift"].
Definition bidder_sync_urls : list (string * (string * string)) := [
  ("appnexus", ("redirect", "https://ib.adnxs.com/getuid?{{.RedirectURL}}"));
  ("adnxs", ("redirect", "https://ib.adnxs.com/getuid?{{.RedirectURL}}"));
  ("openx", ("redirect", "https://rtb.openx.net/sync/prebid?r={{.RedirectURL}}"));
  ("pubmatic", ("redirect",
    "https://image8.pubmatic.com/AdServer/ImgSync?p=159706&pu={{.RedirectURL}}"));
  ("ix", ("redirect", "https://ssum.casalemedia.com/usermatchredir?s=194962&cb={{.RedirectURL}}"));
  ("sovrn", ("redirect", "https://ap.lijit.com/pixel?redir={{.RedirectURL}}"));
  ("adform", ("redirect", "https://c1.adform.net/cookie?redirect_url={{.RedirectURL}}"));
  ("33across", ("iframe",
    "https://ssc-cms.33across.com/ps/?m=xch&rt=html&ru={{.RedirectURL}}&id=zzz000000000002zzz"));
  ("criteo", ("redirect",
    "https://ssp-sync.criteo.com/user-sync/redirect?profile=230&redir={{.RedirectURL}}"));
  ("yieldmo", ("redirect", "https://ads.yieldmo.com/pbsync?redirectUri={{.RedirectURL}}"));
  ("sharethrough", ("redirect",
    "https://match.sharethrough.com/FGMrCMMc/v1?redirectUri={{.RedirectURL}}"));
  ("smaato", ("redirect", "https://s.ad.smaato.net/c/?adExInit=p&redir={{.RedirectURL}}"));
  ("conversant", ("redirect",
    "https://prebid-match.dotomi.com/match/bounce/current?version=1&networkId=72582&rurl={{.RedirectURL}}"));
  ("smartadserver", ("redirect",
    "https://ssbsync-global.smartadserver.com/api/sync?callerId=5&redirectUri={{.RedirectURL}}"));
  ("yieldlab", ("redirect", "https://ad.yieldlab.net/mr?t=2&pid=9140838&r={{.RedirectURL}}"));
  ("triplelift", ("iframe", "https://eb2.3lift.com/sync?redir={{.RedirectURL}}"))].
Definition bidder_sync_url (bidder : string) : option (string * string) :=
  obj_get bidder bidder_sync_urls.

(** [usize::MAX] stands for no limit. *)
Definition compute_effective_limit (request_limit account_default_limit account_max_limit : option Z)
    : Z :=
  let positive (l : option Z) : Z :=
    match l with Some l => if 0 <? l then l else usize_max | None => usize_max end in
  let limit := positive (match request_limit with Some l => Some l | None => account_default_limit end) in
  Z.min limit (positive account_max_limit).

Fixpoint str_has_char (c : Ascii.ascii) (s : string) : bool :=
  match s with "" => false | String a s' => bool_decide (a = c) || str_has_char c s' end.
Definition build_sync_url (template : string) (gdpr : option Z) (gdpr_consent : option string)
    : string :=
  let params :=
    match gdpr with Some g => ["gdpr=" +:+ pretty g] | None => [] end ++
    match gdpr_consent with
    | Some gc => if str_is_empty gc then [] else ["gdpr_consent=" +:+ gc]
    | None => []
    end in
  match params with
  | [] => template
  | _ => template +:+ (if str_has_char (ch "?") template then "&" else "?") +:+ join "&" params
  end.

Definition sync_error (status : Z) (msg : string) : Response :=
  json_response status (VObject [("bidder_status", VArray []); ("error", VString msg);
                                 ("status", VString "error")]).
Definition cookie_sync_account_error (state : SyncState) (account_id : string) : option Response :=
  if ss_account_required state then
    if str_is_empty account_id
    then Some (sync_error 400
           "account must be valid if provided, please reach out to the prebid server host")
    else if bool_decide (is_Some (ss_accounts state !! account_id)) then None
    else Some (sync_error 400 "account is disabled, please reach out to the prebid server host")
  else None.

Section Candidates.
Context (state : SyncState).
(** [sync_keys]: the keys of the loaded sync info, in the map's order. *)
Context (sync_keys : list string).

Definition build_all_bidders : list string :=
  sync_keys ++ List.filter (λ b, negb (bool_decide (is_Some (ss_bidder_sync_info state !! b))))
                 KNOWN_SYNC_BIDDERS.
Definition is_known (name : string) : bool :=
  bool_decide (is_Some (ss_bidder_sync_info state !! name)) ||
  bool_decide (name ∈ KNOWN_SYNC_BIDDERS) || bool_decide (name ∈ ss_bidder_info state).
Definition sync_candidates (requested : list string) (coop_sync : bool) : list string :=
  match requested with
  | [] => build_all_bidders
  | _ =>
      let valid := List.filter is_known requested in
      if coop_sync
      then valid ++ List.filter (λ b, negb (bool_decide (b ∈ valid))) build_all_bidders
      else valid
  end.
End Candidates.

(** The type and URL template of a bidder's sync. *)
Definition resolve_sync (state : SyncState) (bidder : string) : option (string * string) :=
  match ss_bidder_sync_info state !! bidder with
  | Some sync_info =>
      match bsi_redirect_url sync_info with
      | Some url => Some ("redirect", url)
      | None => pair "iframe" <$> bsi_iframe_url sync_info
      end
  | None => bidder_sync_url bidder
  end.
Definition sync_url (bidder sync_type_str url_template : string) (gdpr : option Z)
    (gdpr_consent : option string) : string :=
  let sync_type := if bool_decide (sync_type_str = "iframe") then Iframe else Redirect in
  let syncer := {|
    sy_bidder := bidder;
    sy_iframe_url := if bool_decide (sync_type_str = "iframe") then Some url_template else None;
    sy_redirect_url := if bool_decide (sync_type_str = "iframe") then None else Some url_template |} in
  default (build_sync_url url_template gdpr gdpr_consent)
    (get_sync_url sync_type (default 0 gdpr) (default "" gdpr_consent) syncer).

Definition synced_status (bidder : string) : Value :=
  VObject [("bidder", VString bidder); ("no_cookie", VBool false); ("usersync", VObject [])].
Definition unsynced_status (bidder url sync_type_str : string) : Value :=
  VObject [("bidder", VString bidder); ("no_cookie", VBool true);
           ("usersync", VObject [("type", VString sync_type_str); ("url", VString url)])].

Section CookieSync.
Context (state : SyncState) (cookie : UserSyncCookie) (prebid_cookie : PrebidCookie).
Context (gdpr : option Z) (gdpr_consent : option string) (limit : Z).
(** The clock at the n-th look. *)
Context (clock : nat → Z).

Definition sync_allowed (bidder : string) : bool :=
  activity_is_allowed (ss_activity_control state) SyncUser
    {| cmp_component_type := "bidder"; cmp_name := bidder |}.
Definition already_synced (n : nat) (bidder : string) : bool :=
  has_valid_uid (clock n) bidder cookie || bool_decide (is_Some (get_uid bidder prebid_cookie)).
(** The status of a bidder that is not synced and may be. *)
Definition new_sync (bidder : string) : option Value :=
  '(sync_type_str, url_template) ← resolve_sync state bidder;
  Some (unsynced_status bidder (sync_url bidder sync_type_str url_template gdpr gdpr_consent)
          sync_type_str).
(** The loop over the candidates, the [n]-th on; [count] syncs are new so far. *)
Fixpoint sync_statuses (n : nat) (count : Z) (candidates : list string) : list Value :=
  match candidates with
  | [] => []
  | bidder :: candidates' =>
      if negb (sync_allowed bidder) then sync_statuses (S n) count candidates'
      else if already_synced n bidder
      then synced_status bidder :: sync_statuses (S n) count candidates'
      else if limit <=? count then []
      else
        match new_sync bidder with
        | Some status => status :: sync_statuses (S n) (count + 1) candidates'
        | None => sync_statuses (S n) count candidates'
        end
  end.
End CookieSync.

Section CookieSyncHandler.
Context (std_decode : string → option string) (cookie_from_json : string → option UserSyncCookie).
(** [PrebidCookie::from_cookie], whose codecs are parameters of [UserSync]. *)
Context (parse_prebid_cookie : string → PrebidCookie).

Definition cookie_sync_handler (state : SyncState) (sync_keys : list string) (clock : nat → Z)
    (cookie_hdr : option string) (body : EpCookieSyncRequest) : Response :=
  let account_id := default "" (ecr_account body) in
  match cookie_sync_account_error state account_id with
  | Some r => r
  | None =>
      if consent_missing (ss_gdpr_enabled state) (ecr_gdpr body) (ecr_gdpr_consent body)
      then sync_error 451 "gdpr_consent is required if gdpr=1"
      else
        match parse_type_filter (ecr_filter_settings body) with
        | Ok _type_filter =>
            let name := hcc_cookie_name (ss_host_cookie state) in
            let prebid_cookie := from_option parse_prebid_cookie prebid_cookie_new
                                   (extract_cookie_value cookie_hdr name) in
            let cookie := from_request std_decode cookie_from_json cookie_hdr name in
            let account_cfg := if str_is_empty account_id then None
                               else ss_accounts state !! account_id in
            let _limit := compute_effective_limit (ecr_limit body)
                            (account_cfg ≫= acs_default_limit) (account_cfg ≫= acs_max_limit) in
            let _priority_groups := from_option acs_priority_groups [] account_cfg in
            let limit := Z.max (default 10 (ecr_limit body)) 1 in
            let candidates := sync_candidates state sync_keys (default [] (ecr_bidders body))
                                (default false (ecr_coop_sync body)) in
            let bidder_status := sync_statuses state cookie prebid_cookie (ecr_gdpr body)
                                   (ecr_gdpr_consent body) limit clock 0 0 candidates in
            json_response 200 (VObject [
              ("bidder_status", VArray bidder_status);
              ("status", VString (if bool_decide (usk_uids cookie = ∅)
                                  then "no_cookie" else "ok"))])
        | Err e => sync_error 400 e
        | Panic => {| rp_status := 500; rp_body := EmptyBody; rp_set_cookie := None; rp_location := None |}
        end
  end.
End CookieSyncHandler.

(** ** Specification *)

Definition cookie_name_ok (name : string) : Prop :=
  plain name ∧ no_char (ch ";") name ∧ no_char (ch "=") name.
(** The pair a browser stores of a Set-Cookie header, and the Cookie header it
    sends with it among others. *)
Definition stored_pair (set_cookie : string) : string := split_first (ch ";") set_cookie.
Definition cookie_header (before : list string) (pair : string) (after : list string) : string :=
  join "; " (before ++ pair :: after).
Definition other_pair (name pair : string) : Prop :=
  plain pair ∧ no_char (ch ";") pair ∧ cookie_pair_value name pair = None.
(** What base64 and serde_json promise: a text without separators, and round trips. *)
Class CookieCodec (std_encode : string → string) (std_decode : string → option string)
    (cookie_to_json : UserSyncCookie → option string)
    (cookie_from_json : string → option UserSyncCookie) : Prop := {
  codec_base64 b : std_decode (std_encode b) = Some b;
  codec_text b : plain (std_encode b) ∧ no_char (ch ";") (std_encode b);
  codec_json c : ∃ json, cookie_to_json c = Some json ∧ cookie_from_json json = Some c;
}.

(** The status of the [n]-th candidate, the limit aside. *)
Definition candidate_status (state : SyncState) (cookie : UserSyncCookie)
    (prebid_cookie : PrebidCookie) (gdpr : option Z) (gdpr_consent : option string)
    (clock : nat → Z) (n : nat) (bidder : string) : option Value :=
  if negb (sync_allowed state bidder) then None
  else if already_synced cookie prebid_cookie clock n bidder then Some (synced_status bidder)
  else new_sync state gdpr gdpr_consent bidder.
Definition is_new_status (v : Value) : bool :=
  bool_decide ((get "no_cookie" v ≫= as_bool) = Some true).
Definition count_new (statuses : list Value) : Z := zlen (List.filter is_new_status statuses).

(** The codec of [Text] for cookies. *)
Definition cookie_tuple (c : UserSyncCookie) : gmap string (string * Z) * option bool :=
  ((λ e, (epu_uid e, epu_expires e)) <$> usk_uids c, usk_optout c).
Definition cookie_of_tuple (t : gmap string (string * Z) * option bool) : UserSyncCookie := {|
  usk_uids := (λ e, {| epu_uid := e.1; epu_expires := e.2 |}) <$> t.1; usk_optout := t.2 |}.
Definition bits_to_json (c : UserSyncCookie) : option string := Some (pos_bits (encode (cookie_tuple c))).
Definition bits_from_json (s : string) : option UserSyncCookie :=
  cookie_of_tuple <$> (bits_pos s ≫= decode).

Definition sample_sync_state : SyncState := {|
  ss_bidder_info := ∅; ss_bidder_sync_info := ∅;
  ss_host_cookie := {| hcc_cookie_name := ""; hcc_family := ""; hcc_domain := ""; hcc_opt_out_url := "";
                       hcc_opt_in_url := ""; hcc_ttl_days := 90 |};
  ss_gdpr_enabled := true; ss_accounts := ∅; ss_account_required := false; ss_activity_control := ∅ |}.
Definition sample_setuid (uid : string) : SetUidParams := {|
  sup_bidder := Some "appnexus"; sup_uid := Some uid; sup_gdpr := None; sup_gdpr_consent := None;
  sup_us_privacy := None; sup_account := None; sup_f := None |}.
Definition sample_sync_request (filter_settings : option Value) : EpCookieSyncRequest := {|
  ecr_bidders := Some ["appnexus"; "unknown"; "openx"]; ecr_gdpr := None; ecr_gdpr_consent := None;
  ecr_us_privacy := None; ecr_limit := Some 1; ecr_coop_sync := None;
  ecr_filter_settings := filter_settings; ecr_account := None; ecr_debug := None; ecr_gpp := None;
  ecr_gpp_sid := None |}.

(** ** Proofs *)

(** *** Cookie headers *)

Lemma cookie_pair_own name v sp : cookie_name_ok name → plain v → sp = "" ∨ sp = " " →
  cookie_pair_value name (sp +:+ name +:+ "=" +:+ v) = Some v.
Proof.
  intros (Hn&_&He) Hv Hsp. unfold cookie_pair_value.
  assert (Hp : plain (name +:+ "=" +:+ v)).
  { apply plain_app. split; [done|]. apply plain_cons. split; [by vm_compute|done]. }
  replace (trim (sp +:+ name +:+ "=" +:+ v)) with (name +:+ "=" +:+ v);
    [|symmetry; destruct Hsp as [-> | ->]; [exact (trim_plain _ Hp)|exact (trim_space _ Hp)]].
  change ("=" +:+ v) with (String (ch "=") v). rewrite split_once_app by done.
  by rewrite (trim_plain name), (trim_plain v), bool_decide_true by done.
Qed.

Lemma split_char_other c a s p ps : a ≠ c → split_char c s = p :: ps →
  split_char c (String a s) = String a p :: ps.
Proof. intros Ha Hs. simpl. by rewrite bool_decide_false, Hs by done. Qed.
(** A header of several pairs is split into them, each but the first after a space. *)
Lemma split_header p ps : Forall (no_char (ch ";")) (p :: ps) →
  split_char (ch ";") (join "; " (p :: ps)) = p :: ((λ q, " " +:+ q) <$> ps).
Proof.
  revert p. induction ps as [|q ps IH]; intros p Hp; apply Forall_cons in Hp as [Hp Hps].
  - by apply split_char_no_char.
  - change (join "; " (p :: q :: ps)) with (p +:+ String (ch ";") (" " +:+ join "; " (q :: ps))).
    rewrite split_char_app by done. f_equal.
    change (" " +:+ join "; " (q :: ps)) with (String (ch " ") (join "; " (q :: ps))).
    by rewrite (split_char_other _ _ _ q ((λ q, " " +:+ q) <$> ps)) by (done || by apply IH).
Qed.
Lemma stored_pair_app p t : no_char (ch ";") p → stored_pair (p +:+ String (ch ";") t) = p.
Proof. intros Hp. unfold stored_pair, split_first. by rewrite split_char_app. Qed.
Lemma cookie_pair_other name q sp : other_pair name q → sp = "" ∨ sp = " " →
  cookie_pair_value name (sp +:+ q) = None.
Proof.
  intros (Hp&_&Hn) [-> | ->]; [done|]. unfold cookie_pair_value in *.
  by rewrite (trim_space q Hp), <-(trim_plain q Hp) at 1.
Qed.
Lemma no_semicolon_pair name v : cookie_name_ok name → no_char (ch ";") v →
  no_char (ch ";") (name +:+ "=" +:+ v).
Proof. intros (_&Hn&_) Hv. rewrite !no_char_app. split_and!; [done|by vm_compute; set_solver|done]. Qed.

Lemma head_omap_other name qs rest : Forall (other_pair name) qs →
  head (omap (cookie_pair_value name) (((λ q, " " +:+ q) <$> qs) ++ rest)) =
  head (omap (cookie_pair_value name) rest).
Proof.
  induction 1 as [|q qs Hq Hqs IH]; [done|]. rewrite fmap_cons. simpl.
  by rewrite (cookie_pair_other _ _ _ Hq) by by right.
Qed.
(** The first pair with the cookie's name is the cookie. *)
Lemma extract_own cookie_name before v after :
  let name := cookie_name_or_default cookie_name in
  cookie_name_ok name → plain v → no_char (ch ";") v →
  Forall (other_pair name) before → Forall (no_char (ch ";")) after →
  extract_cookie_value (Some (cookie_header before (name +:+ "=" +:+ v) after)) cookie_name = Some v.
Proof.
  intros name Hn Hv Hsc Hb Ha. unfold extract_cookie_value. simpl. fold name.
  assert (Hpair : no_char (ch ";") (name +:+ "=" +:+ v)) by by apply no_semicolon_pair.
  assert (Hbefore : Forall (no_char (ch ";")) before).
  { eapply Forall_impl; [exact Hb|]. by intros q (_&?&_). }
  unfold cookie_header. destruct before as [|q before].
  - change ([] ++ (name +:+ "=" +:+ v) :: after) with ((name +:+ "=" +:+ v) :: after).
    rewrite split_header by (constructor; done). cbn [omap list_omap].
    pose proof (cookie_pair_own name v "" Hn Hv (or_introl eq_refl)) as Hown.
    change ("" +:+ name +:+ "=" +:+ v) with (name +:+ "=" +:+ v) in Hown. by rewrite Hown.
  - change ((q :: before) ++ (name +:+ "=" +:+ v) :: after)
      with (q :: (before ++ (name +:+ "=" +:+ v) :: after)).
    rewrite split_header.
    2: { apply Forall_cons in Hbefore as [? ?]. constructor; [done|]. apply Forall_app.
         split; [done|]. by constructor. }
    apply Forall_cons in Hb as [Hq Hb]. cbn [omap list_omap].
    pose proof (cookie_pair_other _ _ "" Hq (or_introl eq_refl)) as Hq'.
    change ("" +:+ q) with q in Hq'. rewrite Hq'.
    rewrite fmap_app, fmap_cons.
    pose proof (head_omap_other name before ((" " +:+ name +:+ "=" +:+ v) ::
      ((λ q, " " +:+ q) <$> after)) Hb) as Ho. etransitivity; [exact Ho|].
    cbn [omap list_omap]. by rewrite (cookie_pair_own name v " " Hn Hv (or_intror eq_refl)).
Qed.

Section Roundtrip.
Context (std_encode : string → string) (std_decode : string → option string).
Context (cookie_to_json : UserSyncCookie → option string).
Context (cookie_from_json : string → option UserSyncCookie).
Context `{Hcodec : !CookieCodec std_encode std_decode cookie_to_json cookie_from_json}.
Context (header_value_ok : string → bool) (state : SyncState).
Notation name := (cookie_name_or_default (hcc_cookie_name (ss_host_cookie state))).
Notation request_cookie hdr :=
  (from_request std_decode cookie_from_json hdr (hcc_cookie_name (ss_host_cookie state))).

Lemma decode_encode_cookie c : usk_decode std_decode cookie_from_json
  (usk_encode std_encode cookie_to_json c) = c.
Proof.
  unfold usk_decode, usk_encode. destruct (codec_json c) as (json&->&Hj). simpl.
  by rewrite codec_base64, Hj.
Qed.
(** What a browser stores is read back. *)
Lemma set_cookie_read ttl domain c before after : cookie_name_ok name →
  Forall (other_pair name) before → Forall (no_char (ch ";")) after →
  request_cookie (Some (cookie_header before (stored_pair (build_set_cookie_header std_encode
    cookie_to_json (hcc_cookie_name (ss_host_cookie state)) ttl domain c)) after)) = c.
Proof.
  intros Hn Hb Ha. set (v := usk_encode std_encode cookie_to_json c).
  assert (Hv : plain v ∧ no_char (ch ";") v) by exact (codec_text (default "" (cookie_to_json c))).
  assert (Hp : stored_pair (build_set_cookie_header std_encode cookie_to_json
    (hcc_cookie_name (ss_host_cookie state)) ttl domain c) = name +:+ "=" +:+ v).
  { pose proof (no_semicolon_pair name v Hn (proj2 Hv)) as Hsc.
    assert (Ht : ∃ t, build_set_cookie_header std_encode cookie_to_json
      (hcc_cookie_name (ss_host_cookie state)) ttl domain c =
      (name +:+ "=" +:+ v) +:+ String (ch ";") t).
    { unfold build_set_cookie_header. fold v. destruct (str_is_empty domain);
        eexists; rewrite !str_app_assoc; reflexivity. }
    destruct Ht as [t ->]. by apply stored_pair_app. }
  rewrite Hp. unfold from_request. rewrite extract_own by (try done; apply Hv).
  apply decode_encode_cookie.
Qed.

Lemma set_uid_stores now hdr params set_cookie :
  rp_set_cookie (set_uid_handler std_encode std_decode cookie_to_json cookie_from_json
    header_value_ok state now hdr params) = Some set_cookie →
  ∃ bidder, sup_bidder params = Some bidder ∧ bidder ≠ "" ∧
    set_cookie = build_set_cookie_header std_encode cookie_to_json
      (hcc_cookie_name (ss_host_cookie state)) (hcc_ttl_days (ss_host_cookie state))
      (hcc_domain (ss_host_cookie state))
      (store_uid now bidder (sup_uid params) (request_cookie hdr)).
Proof.
  unfold set_uid_handler. destruct (sup_bidder params) as [bidder|]; [|done].
  unfold str_is_empty at 1. case_bool_decide as Hne; [done|].
  unfold setuid_account_error. destruct (ss_account_required state).
  - destruct (sup_account params) as [acct|]; [|done]. destruct (str_is_empty acct); [done|].
    case_bool_decide; [|done]. destruct (consent_missing _ _ _); [done|].
    destruct (negb _); [done|]. simpl. intros [= <-]. eauto.
  - destruct (consent_missing _ _ _); [done|]. destruct (negb _); [done|]. simpl. intros [= <-]. eauto.
Qed.

(** C6: A uid that /setuid stores is the uid /getuids answers.  When /setuid sets
    a cookie and the browser sends it back, among any other cookies, /getuids
    answers the uid for that bidder until it expires (nothing, if the uid set was
    empty), and for every other bidder what it answered before. *)
Theorem setuid_getuids_roundtrip now now' hdr params uid set_cookie before after :
  cookie_name_ok name → sup_uid params = Some uid →
  rp_set_cookie (set_uid_handler std_encode std_decode cookie_to_json cookie_from_json
    header_value_ok state now hdr params) = Some set_cookie →
  Forall (other_pair name) before → Forall (no_char (ch ";")) after →
  let uids hdr := get_uids_handler std_decode cookie_from_json state now' hdr in
  let hdr' := Some (cookie_header before (stored_pair set_cookie) after) in
  ∃ bidder, sup_bidder params = Some bidder ∧
    uids hdr' !! bidder = (if str_is_empty uid then None
                           else if now' <? now + UID_TTL_SECS then Some uid else None) ∧
    ∀ b, b ≠ bidder → uids hdr' !! b = uids hdr !! b.
Proof.
  intros Hn Huid Hset Hb Ha uids hdr'. apply set_uid_stores in Hset as (bidder&Hbid&_&->).
  exists bidder. split; [done|]. subst uids hdr'. unfold get_uids_handler.
  rewrite set_cookie_read by done. rewrite Huid. unfold buyeruids, store_uid.
  assert (Hlk : ∀ c b, (epu_uid <$> filter (λ '(_, e), now' < epu_expires e) (usk_uids c)) !! b =
    e ← usk_uids c !! b; if decide (now' < epu_expires e) then Some (epu_uid e) else None).
  { intros c b. rewrite lookup_fmap, map_lookup_filter.
    destruct (usk_uids c !! b) as [e|]; [|done]. cbn [option_bind mbind]. case_guard; by case_decide. }
  split.
  - rewrite Hlk. destruct (str_is_empty uid); simpl; [by rewrite lookup_delete_eq|].
    rewrite lookup_insert_eq. simpl. destruct (Z.ltb_spec now' (now + UID_TTL_SECS)).
    + by rewrite decide_True by done.
    + rewrite decide_False by lia. done.
  - intros b Hne. rewrite !Hlk. destruct (str_is_empty uid); simpl;
      [by rewrite lookup_delete_ne|by rewrite lookup_insert_ne].
Qed.
End Roundtrip.

(** *** Cookie sync *)

Lemma resolved_url bidder t template gdpr consent :
  sync_url bidder t template gdpr consent =
  str_replace "{{gdpr_consent}}" (default "" consent)
    (str_replace "{{gdpr}}" (pretty (default 0 gdpr))
      (str_replace "{gdpr_consent}" (default "" consent)
        (str_replace "{gdpr}" (pretty (default 0 gdpr)) template))).
Proof. unfold sync_url. by case_bool_decide. Qed.
Lemma new_is_new bidder url t : is_new_status (unsynced_status bidder url t) = true.
Proof. done. Qed.
Lemma synced_not_new bidder : is_new_status (synced_status bidder) = false.
Proof. done. Qed.
Lemma count_new_cons v l : count_new (v :: l) = (if is_new_status v then 1 else 0) + count_new l.
Proof. unfold count_new. simpl. destruct (is_new_status v); [by rewrite zlen_cons|lia]. Qed.

Section StatusProofs.
Context (state : SyncState) (cookie : UserSyncCookie) (prebid_cookie : PrebidCookie).
Context (gdpr : option Z) (gdpr_consent : option string) (limit : Z) (clock : nat → Z).
Notation status_of := (candidate_status state cookie prebid_cookie gdpr gdpr_consent clock).

Lemma new_sync_new b v : new_sync state gdpr gdpr_consent b = Some v → is_new_status v = true.
Proof. unfold new_sync. destruct (resolve_sync state b) as [[t u]|]; [|done]. by intros [= <-]. Qed.

Lemma sync_statuses_spec n count candidates : count ≤ limit →
  ∃ visited rest, candidates = visited ++ rest ∧
    let statuses := sync_statuses state cookie prebid_cookie gdpr gdpr_consent limit clock n count
                      candidates in
    statuses = omap (λ ib, status_of ib.1 ib.2) (zip (seq n (length visited)) visited) ∧
    count + count_new statuses ≤ limit ∧
    (rest = [] ∨ ∃ b rest', rest = b :: rest' ∧ count + count_new statuses = limit ∧
       sync_allowed state b = true ∧
       already_synced cookie prebid_cookie clock (n + length visited) b = false).
Proof.
  revert n count. induction candidates as [|b l IH]; intros n count Hc.
  { exists [], []. split; [done|]. simpl. split; [done|]. change (count_new []) with 0.
    split; [lia|by left]. }
  assert (Hstep : ∀ count' pre, pre = option_list (status_of n b) → count' ≤ limit →
    count' = count + count_new pre →
    ∃ visited rest, b :: l = visited ++ rest ∧
    let statuses := pre ++ sync_statuses state cookie prebid_cookie gdpr gdpr_consent limit clock
                      (S n) count' l in
    statuses = omap (λ ib, status_of ib.1 ib.2) (zip (seq n (length visited)) visited) ∧
    count + count_new statuses ≤ limit ∧
    (rest = [] ∨ ∃ b rest', rest = b :: rest' ∧ count + count_new statuses = limit ∧
       sync_allowed state b = true ∧
       already_synced cookie prebid_cookie clock (n + length visited) b = false)).
  { intros count' pre -> Hc' ->. destruct (IH (S n) _ Hc') as (visited&rest&->&Hs&Hl&Hr).
    exists (b :: visited), rest. split; [done|]. cbv zeta in *.
    assert (Hn : ∀ l, count_new (option_list (status_of n b) ++ l) =
      count_new (option_list (status_of n b)) + count_new l).
    { intros l'. destruct (status_of n b); simpl; rewrite ?count_new_cons; change (count_new []) with 0; lia. }
    rewrite Hn. rewrite Hs at 1. split; [simpl; by destruct (status_of n b)|]. split; [lia|].
    destruct Hr as [->|(b'&rest'&->&Hr&?&?)]; [by left|]. right. exists b', rest'.
    split; [done|]. split; [lia|]. split; [done|].
    replace (n + length (b :: visited))%nat with (S n + length visited)%nat by (simpl; lia). done. }
  unfold candidate_status in Hstep at 1. simpl sync_statuses.
  destruct (sync_allowed state b) eqn:Ha; cbn [negb] in *.
  2: { apply (Hstep count []); [done|done|change (count_new []) with 0; lia]. }
  destruct (already_synced cookie prebid_cookie clock n b) eqn:Hsy.
  { apply (Hstep count [synced_status b]); [done|done|].
    rewrite count_new_cons, synced_not_new. change (count_new []) with 0. lia. }
  destruct (Z.leb_spec limit count).
  { exists [], (b :: l). split; [done|]. cbv zeta. split; [done|]. change (count_new []) with 0.
    split; [lia|]. right. exists b, l. split; [done|]. split; [lia|]. split; [done|].
    by rewrite Nat.add_0_r. }
  destruct (new_sync state gdpr gdpr_consent b) as [v|] eqn:Hv.
  - apply (Hstep (count + 1) [v]); [done|lia|].
    rewrite count_new_cons, (new_sync_new _ _ Hv). change (count_new []) with 0. lia.
  - apply (Hstep count []); [done|done|change (count_new []) with 0; lia].
Qed.
End StatusProofs.

Lemma parse_filter_no_panic v : parse_bidder_filter v ≠ Panic.
Proof.
  unfold parse_bidder_filter, parse_filter_bidders.
  assert (H : ∀ arr acc, foldM (λ bidders v, match as_str v with Some b => Ok (bidders ++ [b])
    | None => Err bidders_type_error end) acc arr ≠ Panic).
  { induction arr as [|x arr IH]; intros acc; simpl; [done|]. destruct (as_str x); simpl; [apply IH|done]. }
  set (mode := default "include" _). clearbody mode.
  destruct (bool_decide (mode = "include")), (bool_decide (mode = "exclude")); simpl; try done;
    (destruct (get "bidders" v) as [[| | |s|arr|]|]; try done; [by case_bool_decide|];
     specialize (H arr []); by destruct (foldM _ _ _)).
Qed.
Lemma parse_type_filter_no_panic v : parse_type_filter v ≠ Panic.
Proof.
  unfold parse_type_filter. destruct v as [v|]; [|done]. destruct (negb _); [done|].
  pose proof (λ x, parse_filter_no_panic x) as Hp.
  destruct (get "iframe" v) as [x|]; simpl;
    [specialize (Hp x) as Hx; destruct (parse_bidder_filter x); simpl; try done|];
    (destruct (get "image" v) as [y|]; simpl; [|done]);
    specialize (Hp y); by destruct (parse_bidder_filter y).
Qed.

Section HandlerProofs.
Context (std_decode : string → option string) (cookie_from_json : string → option UserSyncCookie).
Context (parse_prebid_cookie : string → PrebidCookie).
Context (state : SyncState) (sync_keys : list string) (clock : nat → Z) (cookie_hdr : option string).
Notation handler :=
  (cookie_sync_handler std_decode cookie_from_json parse_prebid_cookie state sync_keys clock cookie_hdr).
Notation cookie :=
  (from_request std_decode cookie_from_json cookie_hdr (hcc_cookie_name (ss_host_cookie state))).
Notation prebid_cookie := (from_option parse_prebid_cookie prebid_cookie_new
  (extract_cookie_value cookie_hdr (hcc_cookie_name (ss_host_cookie state)))).

(** C38: /cookie_sync answers for the candidates in order: the bidders requested
    that are known (all known ones when none is requested, the requested ones
    first when it is cooperative), those denied user syncs left out.  A bidder with
    a uid is reported as synced, any other with its URL if it has one, and the
    answer ends before the first new sync beyond the limit, which is the request's
    (ten by default) and at least one.  It is refused for a missing account,
    missing consent or an unreadable filter; but neither the filter nor the limits
    of the account change an answer that is given. *)
Theorem cookie_sync_spec body :
  let account := cookie_sync_account_error state (default "" (ecr_account body)) in
  let no_consent := consent_missing (ss_gdpr_enabled state) (ecr_gdpr body) (ecr_gdpr_consent body) in
  match account, no_consent, parse_type_filter (ecr_filter_settings body) with
  | Some error, _, _ => handler body = error
  | None, true, _ => handler body = sync_error 451 "gdpr_consent is required if gdpr=1"
  | None, false, Err e => handler body = sync_error 400 e
  | None, false, Panic => False
  | None, false, Ok _ =>
      let limit := Z.max (default 10 (ecr_limit body)) 1 in
      let candidates := sync_candidates state sync_keys (default [] (ecr_bidders body))
                          (default false (ecr_coop_sync body)) in
      ∃ visited rest statuses, candidates = visited ++ rest ∧
        handler body = json_response 200 (VObject [("bidder_status", VArray statuses);
          ("status", VString (if bool_decide (usk_uids cookie = ∅) then "no_cookie" else "ok"))]) ∧
        statuses = omap (λ ib, candidate_status state cookie prebid_cookie (ecr_gdpr body)
                                 (ecr_gdpr_consent body) clock ib.1 ib.2)
                     (zip (seq 0 (length visited)) visited) ∧
        count_new statuses ≤ limit ∧
        (rest = [] ∨ count_new statuses = limit)
  end.
Proof.
  cbv zeta. unfold cookie_sync_handler.
  destruct (cookie_sync_account_error state (default "" (ecr_account body))) as [r|]; [done|].
  destruct (consent_missing _ _ _); [done|].
  pose proof (parse_type_filter_no_panic (ecr_filter_settings body)) as Hp.
  destruct (parse_type_filter (ecr_filter_settings body)) as [tf|e|]; [|done|done].
  destruct (sync_statuses_spec state cookie prebid_cookie (ecr_gdpr body) (ecr_gdpr_consent body)
    (Z.max (default 10 (ecr_limit body)) 1) clock 0 0
    (sync_candidates state sync_keys (default [] (ecr_bidders body))
      (default false (ecr_coop_sync body)))) as (visited&rest&Hc&Hs&Hl&Hr); [lia|].
  exists visited, rest. eexists. split; [exact Hc|]. split; [reflexivity|]. split; [exact Hs|].
  split; [lia|]. destruct Hr as [?|(b&rest'&_&?&_)]; [by left|right; lia].
Qed.
End HandlerProofs.

(** A requested candidate is a requested, known bidder. *)
Lemma requested_candidates state keys requested b : requested ≠ [] →
  b ∈ sync_candidates state keys requested false ↔ b ∈ requested ∧ is_known state b = true.
Proof.
  intros Hr. unfold sync_candidates. destruct requested as [|r requested]; [done|].
  rewrite !list_elem_of_In, filter_In. done.
Qed.

(** ** Examples and witnesses *)

#[export] Instance bits_codec : CookieCodec bits_encode bits_decode bits_to_json bits_from_json.
Proof.
  split.
  - intros b. apply bits_decode_encode.
  - intros b. apply pos_bits_text.
  - intros c. eexists. split; [done|]. unfold bits_from_json. rewrite bits_pos_bits.
    cbn [mbind option_bind]. rewrite decode_encode. cbn [fmap option_fmap option_map]. f_equal.
    unfold cookie_of_tuple, cookie_tuple. destruct c as [uids optout]. simpl. f_equal.
    rewrite <-map_fmap_compose. apply map_eq. intros k. rewrite lookup_fmap.
    destruct (uids !! k) as [[u e]|]; done.
Qed.

(** The filter of a request has no effect: a bidder whose only sync type is
    excluded is answered its URL. *)
Lemma filters_have_no_effect :
  let exclude_all := VObject [("image", VObject [("bidders", VString "*"); ("filter", VString "exclude")])] in
  let handler fs := cookie_sync_handler bits_decode bits_from_json (λ _, prebid_cookie_new)
    sample_sync_state [] (λ _, 0) None (sample_sync_request fs) in
  handler (Some exclude_all) = handler None ∧
  (allowed_types "appnexus" <$> match parse_type_filter (Some exclude_all) with
     Ok f => Some f | _ => None end) = Some ["iframe"] ∧
  resolve_sync sample_sync_state "appnexus" =
    Some ("redirect", "https://ib.adnxs.com/getuid?{{.RedirectURL}}").
Proof. by vm_compute. Qed.

Lemma setuid_getuids_roundtrip_witness :
  ∃ set_cookie,
    rp_set_cookie (set_uid_handler bits_encode bits_decode bits_to_json bits_from_json (λ _, true)
      sample_sync_state 1000 None (sample_setuid "42")) = Some set_cookie ∧
    get_uids_handler bits_decode bits_from_json sample_sync_state 2000
      (Some (cookie_header ["lang=en"] (stored_pair set_cookie) [])) !! "appnexus" = Some "42".
Proof.
  assert (Hr : is_Some (rp_set_cookie (set_uid_handler bits_encode bits_decode bits_to_json
    bits_from_json (λ _, true) sample_sync_state 1000 None (sample_setuid "42")))) by (vm_compute; eauto).
  destruct Hr as [sc Hr]. exists sc. split; [exact Hr|].
  assert (Hn : cookie_name_ok (cookie_name_or_default (hcc_cookie_name (ss_host_cookie sample_sync_state)))).
  { split; [|split]; [by vm_compute; repeat constructor|by vm_compute; set_solver..]. }
  assert (Ho : Forall (other_pair (cookie_name_or_default
    (hcc_cookie_name (ss_host_cookie sample_sync_state)))) ["lang=en"]).
  { repeat constructor; vm_compute; try done; set_solver. }
  destruct (setuid_getuids_roundtrip bits_encode bits_decode bits_to_json bits_from_json (λ _, true)
    sample_sync_state 1000 2000 None (sample_setuid "42") "42" sc ["lang=en"] []
    Hn eq_refl Hr Ho (Forall_nil_2 _)) as (bidder&Hb&H&_).
  injection Hb as <-. exact H.
Defined.
