(* ===== verification/Scrubber.v ===== *)
(** * Scrubbers

    The two privacy scrubbers: exchange/src/privacy.rs (the one the auction has
    in reach) and privacy/src/scrubber.rs, whose functions are prefixed with
    [crate_] here.  Shifts and overflow as in a release build. *)

From S2P Require Import Prelude Json OpenRtb IpUtil ExchangePrivacy.

Definition on_user (f : User → User) (req : BidRequest) : BidRequest :=
  match req_user req with
  | Some user => set_req_user (Some (f user)) req
  | None => req
  end.
Definition on_source (f : Source → Source) (req : BidRequest) : BidRequest :=
  match req_source req with
  | Some source => set_req_source (Some (f source)) req
  | None => req
  end.

(** ** The exchange's scrubber *)

Record IpConf : Type := { ipv4_anon_keep_bits : Z; ipv6_anon_keep_bits : Z }.
Definition default_ip_conf : IpConf := {| ipv4_anon_keep_bits := 24; ipv6_anon_keep_bits := 56 |}.

Definition scrub_ext_field (field : string) (ext : option Value) : option Value :=
  match ext with
  | Some (VObject map) => Some (VObject (obj_remove field map))
  | _ => ext
  end.
Definition scrub_ip (ip : string) (keep_bits total_bits : Z) : string :=
  if str_is_empty ip then ""
  else if total_bits =? 32 then default "" (mask_ipv4 ip keep_bits)
  else default "" (mask_ipv6 ip keep_bits).
(** [(x * 100.0 + 0.5)], and its floor over 100. *)
Definition half_up (x : f64) : f64 := f64_add (f64_mul x (f64_of_Z 100)) (f64_of_dec 5 1).
Definition round_coordinate (x : f64) : f64 := f64_div (f64_floor (half_up x)) (f64_of_Z 100).
Definition round_geo_precision (geo : Geo) : Geo :=
  set_geo_lon (round_coordinate <$> geo_lon geo) (set_geo_lat (round_coordinate <$> geo_lat geo) geo).

Definition clear_device_ids (device : Device) : Device :=
  set_dev_macsha1 None (set_dev_macmd5 None (set_dev_ifa None (set_dev_dpidsha1 None
    (set_dev_dpidmd5 None (set_dev_didsha1 None (set_dev_didmd5 None device)))))).
Definition scrub_device_ids (req : BidRequest) : BidRequest := on_device clear_device_ids req.
Definition clear_user_ids (user : User) : User :=
  set_user_keywords None (set_user_gender None (set_user_yob None (set_user_buyeruid None
    (set_user_id None (set_user_data [] user))))).
Definition scrub_user_ids (req : BidRequest) : BidRequest := on_user clear_user_ids req.
Definition clear_user_demographics (user : User) : User :=
  set_user_gender None (set_user_yob None (set_user_id None (set_user_buyeruid None user))).
Definition scrub_user_demographics (req : BidRequest) : BidRequest :=
  on_user clear_user_demographics req.
Definition scrub_user_ext (field : string) (req : BidRequest) : BidRequest :=
  on_user (λ user, set_user_ext (scrub_ext_field field (user_ext user)) user) req.
Definition scrub_eids (req : BidRequest) : BidRequest :=
  scrub_user_ext "eids" (on_user (set_user_eids None) req).
Definition scrub_tid (req : BidRequest) : BidRequest :=
  let req := on_source (set_src_tid None) req in
  set_req_imp ((λ imp, set_imp_ext (scrub_ext_field "tid" (imp_ext imp)) imp) <$> req_imp req) req.
Definition scrub_geo_precision (req : BidRequest) : BidRequest :=
  on_device (λ device, set_dev_geo (round_geo_precision <$> dev_geo device) device)
    (on_user (λ user, set_user_geo (round_geo_precision <$> user_geo user) user) req).
Definition scrub_geo_full (req : BidRequest) : BidRequest :=
  on_device (λ device, set_dev_geo ((λ _, default_geo) <$> dev_geo device) device)
    (on_user (λ user, set_user_geo ((λ _, default_geo) <$> user_geo user) user) req).
Definition mask_device_ips (ip_conf : IpConf) (device : Device) : Device :=
  let device :=
    match dev_ip device with
    | Some ip => set_dev_ip (Some (scrub_ip ip (ipv4_anon_keep_bits ip_conf) 32)) device
    | None => device
    end in
  match dev_ipv6 device with
  | Some ipv6 => set_dev_ipv6 (Some (scrub_ip ipv6 (ipv6_anon_keep_bits ip_conf) 128)) device
  | None => device
  end.
Definition scrub_device_ip (ip_conf : IpConf) (req : BidRequest) : BidRequest :=
  on_device (mask_device_ips ip_conf) req.

Definition scrub_device_ids_ips_user_demo_ext (ip_conf : IpConf) (ext_field_name : string)
    (full_geo : bool) (req : BidRequest) : BidRequest :=
  let req := scrub_device_ids req in
  let req := scrub_device_ip ip_conf req in
  let req := scrub_user_demographics req in
  let req := scrub_user_ext ext_field_name req in
  if full_geo then scrub_geo_full req else scrub_geo_precision req.
Definition scrub_user_fpd (req : BidRequest) : BidRequest :=
  on_user (set_user_eids None) (scrub_user_ext "data" (scrub_user_ids (scrub_device_ids req))).
Definition scrub_gdpr_id (req : BidRequest) : BidRequest :=
  scrub_user_ext "eids" (scrub_user_demographics (scrub_device_ids req)).
Definition scrub_geo_and_device_ip (ip_conf : IpConf) (req : BidRequest) : BidRequest :=
  scrub_geo_precision (scrub_device_ip ip_conf req).

(** The COPPA sanitisation of the request sent to a bidder. *)
Definition sanitize_request_for_coppa (req : BidRequest) : BidRequest :=
  if negb (bool_decide (req_regs req ≫= regs_coppa = Some 1)) then req
  else
    on_device (λ device, set_dev_dpidsha1 None (set_dev_dpidmd5 None (set_dev_ifa None device)))
      (on_user (λ user, set_user_buyeruid None (set_user_id None user)) req).

(** ** The privacy crate's scrubber *)

Definition crate_scrub_device_ids (req : BidRequest) : BidRequest :=
  on_device (λ device,
    set_dev_macsha1 None (set_dev_macmd5 None (set_dev_dpidsha1 None (set_dev_dpidmd5 None
      (set_dev_didsha1 None (set_dev_didmd5 None (set_dev_ifa None device))))))) req.
Definition crate_scrub_user_ids (req : BidRequest) : BidRequest := on_user clear_user_ids req.
Definition crate_scrub_user_demographics (req : BidRequest) : BidRequest :=
  on_user clear_user_demographics req.
Definition crate_scrub_eids (req : BidRequest) : BidRequest := on_user (set_user_eids (Some [])) req.
Definition crate_scrub_tid (req : BidRequest) : BidRequest := on_source (set_src_tid None) req.
Definition crate_round_coordinate (x : f64) : f64 :=
  f64_div (f64_of_Z (f64_as_i64 (half_up x))) (f64_of_Z 100).
Definition crate_scrub_geo_precision (geo : Geo) : Geo :=
  set_geo_lon (crate_round_coordinate <$> geo_lon geo)
    (set_geo_lat (crate_round_coordinate <$> geo_lat geo) geo).
Definition crate_scrub_geo (req : BidRequest) : BidRequest :=
  on_device (λ device, set_dev_geo (crate_scrub_geo_precision <$> dev_geo device) device)
    (on_user (λ user, set_user_geo (crate_scrub_geo_precision <$> user_geo user) user) req).
Definition crate_scrub_geo_full (req : BidRequest) : BidRequest :=
  on_device (λ device, set_dev_geo ((λ _, default_geo) <$> dev_geo device) device)
    (on_user (λ user, set_user_geo ((λ _, default_geo) <$> user_geo user) user) req).
(** [MAX << (w - keep_bits)] at width [w]: the shift amount is taken modulo
    the width. *)
Definition crate_mask (w keep_bits : Z) : Z :=
  if w <=? keep_bits then 2 ^ w - 1
  else Z.shiftl (2 ^ w - 1) ((w - keep_bits) mod w) mod 2 ^ w.
Definition crate_scrub_ip (ip : string) (keep_bits _total_bits : Z) : string :=
  if str_is_empty ip then ""
  else match parse_ip_addr ip with
  | None => ""
  | Some (AddrV4 bits) => print_ipv4 (Z.land bits (crate_mask 32 keep_bits))
  | Some (AddrV6 bits) => print_ipv6 (Z.land bits (crate_mask 128 keep_bits))
  end.
Definition crate_mask_device_ips (conf : IpConf) (device : Device) : Device :=
  let device :=
    match dev_ip device with
    | Some ip => set_dev_ip (Some (crate_scrub_ip ip (ipv4_anon_keep_bits conf) 32)) device
    | None => device
    end in
  match dev_ipv6 device with
  | Some ipv6 => set_dev_ipv6 (Some (crate_scrub_ip ipv6 (ipv6_anon_keep_bits conf) 128)) device
  | None => device
  end.
Definition crate_scrub_device_ip (conf : IpConf) (req : BidRequest) : BidRequest :=
  on_device (crate_mask_device_ips conf) req.
Definition crate_scrub_device_ids_ips_user_demo (ip_conf : IpConf) (full_geo : bool)
    (req : BidRequest) : BidRequest :=
  let req := crate_scrub_device_ids req in
  let req := crate_scrub_device_ip ip_conf req in
  let req := crate_scrub_user_demographics req in
  if full_geo then crate_scrub_geo_full req else crate_scrub_geo req.
Definition crate_scrub_user_fpd (req : BidRequest) : BidRequest :=
  crate_scrub_eids (crate_scrub_user_ids (crate_scrub_device_ids req)).
Definition crate_scrub_gdpr_id (req : BidRequest) : BidRequest :=
  crate_scrub_eids (crate_scrub_user_demographics (crate_scrub_device_ids req)).
Definition crate_scrub_geo_and_device_ip (ip_conf : IpConf) (req : BidRequest) : BidRequest :=
  crate_scrub_geo (crate_scrub_device_ip ip_conf req).

(** ** Specification *)

(** What identifies a user: other values for every field the full scrub deals
    with, written wherever the request has that field. *)
Record Personal : Type := {
  ps_didmd5 : option string; ps_didsha1 : option string; ps_dpidmd5 : option string;
  ps_dpidsha1 : option string; ps_ifa : option string; ps_macmd5 : option string;
  ps_macsha1 : option string; ps_ip : string; ps_ipv6 : string; ps_device_geo : Geo;
  ps_user_id : option string; ps_buyeruid : option string; ps_yob : option Z;
  ps_gender : option string; ps_user_geo : Geo; ps_ext_field : Value;
}.
Definition with_personal_device (p : Personal) (d : Device) : Device :=
  let d := set_dev_didmd5 (ps_didmd5 p) (set_dev_didsha1 (ps_didsha1 p) d) in
  let d := set_dev_dpidmd5 (ps_dpidmd5 p) (set_dev_dpidsha1 (ps_dpidsha1 p) d) in
  let d := set_dev_ifa (ps_ifa p) (set_dev_macmd5 (ps_macmd5 p) d) in
  let d := set_dev_macsha1 (ps_macsha1 p) d in
  let d := set_dev_ip ((λ _, ps_ip p) <$> dev_ip d) d in
  let d := set_dev_ipv6 ((λ _, ps_ipv6 p) <$> dev_ipv6 d) d in
  set_dev_geo ((λ _, ps_device_geo p) <$> dev_geo d) d.
Definition write_ext_field (field : string) (v : Value) (ext : option Value) : option Value :=
  match ext with Some (VObject m) => Some (VObject (obj_insert field v m)) | _ => ext end.
Definition with_personal_user (field : string) (p : Personal) (u : User) : User :=
  let u := set_user_id (ps_user_id p) (set_user_buyeruid (ps_buyeruid p) u) in
  let u := set_user_yob (ps_yob p) (set_user_gender (ps_gender p) u) in
  let u := set_user_geo ((λ _, ps_user_geo p) <$> user_geo u) u in
  set_user_ext (write_ext_field field (ps_ext_field p) (user_ext u)) u.
Definition with_personal (field : string) (p : Personal) (req : BidRequest) : BidRequest :=
  on_device (with_personal_device p) (on_user (with_personal_user field p) req).

(** Two addresses the mask cannot tell apart, and two positions. *)
Definition ip_hidden (parse : string → option Z) (w k : Z) (a b : string) : Prop :=
  ip_prefix w k <$> parse a = ip_prefix w k <$> parse b.
Definition hidden_from (conf : IpConf) (full_geo : bool) (p : Personal) (req : BidRequest) : Prop :=
  (∀ d, req_device req = Some d →
     (∀ ip, dev_ip d = Some ip → ip_hidden parse_ipv4 32 (ipv4_anon_keep_bits conf) (ps_ip p) ip) ∧
     (∀ ip, dev_ipv6 d = Some ip →
        ip_hidden parse_ipv6 128 (ipv6_anon_keep_bits conf) (ps_ipv6 p) ip) ∧
     (∀ g, dev_geo d = Some g → full_geo = false →
        round_geo_precision (ps_device_geo p) = round_geo_precision g)) ∧
  (∀ u, req_user req = Some u →
     (∀ ext, user_ext u = Some ext → value_wf ext) ∧
     (∀ g, user_geo u = Some g → full_geo = false →
        round_geo_precision (ps_user_geo p) = round_geo_precision g)).

(** The request without any of those fields. *)
Definition redacted_device (d : Device) : Device :=
  set_dev_geo None (set_dev_ip None (set_dev_ipv6 None (clear_device_ids d))).
Definition redact_user (field : string) (u : User) : User :=
  set_user_ext (scrub_ext_field field (user_ext u)) (set_user_geo None (clear_user_demographics u)).
Definition redacted (field : string) (req : BidRequest) : BidRequest :=
  on_device redacted_device (on_user (redact_user field) req).

(** Every composite of this file maps the device and the user separately. *)
Definition on_both (f : Device → Device) (g : User → User) (req : BidRequest) : BidRequest :=
  on_device f (on_user g req).
(** The full scrub on a device and on a user. *)
Definition scrubbed_device (G : Geo → Geo) (I4 I6 : string → string) (d : Device) : Device :=
  let d := clear_device_ids d in
  let d := set_dev_ipv6 (I6 <$> dev_ipv6 d) (set_dev_ip (I4 <$> dev_ip d) d) in
  set_dev_geo (G <$> dev_geo d) d.
Definition scrubbed_user (field : string) (G : Geo → Geo) (u : User) : User :=
  let u := clear_user_demographics u in
  let u := set_user_ext (scrub_ext_field field (user_ext u)) u in
  set_user_geo (G <$> user_geo u) u.
Definition geo_scrub (full : bool) : Geo → Geo := if full then λ _, default_geo else round_geo_precision.
Definition mask_ip4 (conf : IpConf) (ip : string) : string := scrub_ip ip (ipv4_anon_keep_bits conf) 32.
Definition mask_ip6 (conf : IpConf) (ip : string) : string := scrub_ip ip (ipv6_anon_keep_bits conf) 128.

(** Addresses in the fields the two scrubbers expect them in. *)
Definition ips_in_place (req : BidRequest) : Prop := ∀ d, req_device req = Some d →
  (∀ ip, dev_ip d = Some ip → parse_ipv4 ip = None → parse_ipv6 ip = None) ∧
  (∀ ip, dev_ipv6 d = Some ip → parse_ipv4 ip = None).
(** A number of bits a mask can be shifted for. *)
Definition keeps_some (conf : IpConf) : Prop :=
  0 < ipv4_anon_keep_bits conf ∧ 0 < ipv6_anon_keep_bits conf.

(** A request with everything in it, for the witnesses. *)
Definition sample_personal : Personal := {|
  ps_didmd5 := Some "x"; ps_didsha1 := None; ps_dpidmd5 := None; ps_dpidsha1 := None;
  ps_ifa := Some "other-ifa"; ps_macmd5 := None; ps_macsha1 := None; ps_ip := "10.1.2.250";
  ps_ipv6 := ""; ps_device_geo := default_geo; ps_user_id := Some "other"; ps_buyeruid := None;
  ps_yob := Some 1970; ps_gender := None; ps_user_geo := default_geo; ps_ext_field := VNull |}.
Definition scrub_sample : BidRequest :=
  set_req_device (Some (set_dev_ip (Some "10.1.2.3") (set_dev_ifa (Some "ifa") default_dev)))
    (set_req_user (Some (set_user_id (Some "me") (set_user_ext
      (Some (VObject [("eids", VBool true)])) default_user))) default_req).

(** ** Proofs *)

Lemma obj_get_none {A} k (m : list (string * A)) :
  Forall (λ p, String.compare k p.1 = Lt) m → obj_remove k m = m.
Proof.
  induction 1 as [|[k' v] m Hk _ IH]; [done|]. simpl in *. rewrite bool_decide_false; [by rewrite IH|].
  intros ->. by rewrite compare_refl in Hk.
Qed.

Lemma scrub_write_ext field v ext : (∀ e, ext = Some e → value_wf e) →
  scrub_ext_field field (write_ext_field field v ext) = scrub_ext_field field ext.
Proof.
  destruct ext as [[| | | | |m]|]; try done. intros Hwf. simpl.
  specialize (Hwf _ eq_refl). apply value_wf_object in Hwf as [Hs _]. by rewrite obj_remove_insert.
Qed.
Lemma scrub_ext_twice field ext : (∀ e, ext = Some e → value_wf e) →
  scrub_ext_field field (scrub_ext_field field ext) = scrub_ext_field field ext.
Proof.
  destruct ext as [[| | | | |m]|]; try done. intros Hwf. simpl. do 2 f_equal.
  specialize (Hwf _ eq_refl). apply value_wf_object in Hwf as [Hs _].
  induction m as [|[k v] m IH]; [done|]. destruct Hs as [Hk Hs]. simpl.
  destruct (bool_decide (k = field)) eqn:Heq.
  - apply bool_decide_eq_true in Heq as ->. by apply obj_get_none.
  - simpl. rewrite Heq. by rewrite IH.
Qed.

Lemma scrub_ip_v4 ip k : 0 ≤ k →
  scrub_ip ip k 32 = default "" ((λ n, print_ipv4 (ip_prefix 32 k n)) <$> parse_ipv4 ip).
Proof.
  intros Hk. unfold scrub_ip, str_is_empty. case_bool_decide as He; [by rewrite He|].
  by rewrite Z.eqb_refl, mask_ipv4_prefix.
Qed.
Lemma scrub_ip_v6 ip k : 0 ≤ k →
  scrub_ip ip k 128 = default "" ((λ n, print_ipv6 (ip_prefix 128 k n)) <$> parse_ipv6 ip).
Proof.
  intros Hk. unfold scrub_ip, str_is_empty. case_bool_decide as He; [by rewrite He|].
  by rewrite mask_ipv6_prefix.
Qed.
Lemma fmap_prefix {A} (f : Z → A) (g : Z → Z) (o o' : option Z) : g <$> o = g <$> o' →
  (λ n, f (g n)) <$> o = (λ n, f (g n)) <$> o'.
Proof. destruct o, o'; simpl; congruence. Qed.

Lemma scrub_ip_twice parse print w k ip :
  (∀ ip, scrub_ip ip k w = default "" ((λ n, print (ip_prefix w k n)) <$> parse ip)) →
  0 ≤ k → parse "" = None → (∀ n, parse ip = Some n → parse (print (ip_prefix w k n)) = Some (ip_prefix w k n)) →
  scrub_ip (scrub_ip ip k w) k w = scrub_ip ip k w.
Proof.
  intros Heq Hk Hempty Hround. rewrite !Heq. destruct (parse ip) as [n|] eqn:Hn; simpl; [|by rewrite Hempty].
  rewrite Hround by done. simpl. by rewrite ip_prefix_idem.
Qed.
Lemma scrub_ip_idem ip k : 0 ≤ k →
  scrub_ip (scrub_ip ip k 32) k 32 = scrub_ip ip k 32 ∧
  scrub_ip (scrub_ip ip k 128) k 128 = scrub_ip ip k 128.
Proof.
  intros Hk. split.
  - apply (scrub_ip_twice parse_ipv4 print_ipv4); [intros; by apply scrub_ip_v4|done..|].
    intros n Hn%parse_ipv4_range. by apply ipv4_roundtrip, ip_prefix_range.
  - apply (scrub_ip_twice parse_ipv6 print_ipv6); [intros; by apply scrub_ip_v6|done..|].
    intros n Hn%parse_ipv6_range. by apply ipv6_roundtrip, ip_prefix_range.
Qed.

Lemma on_both_compose f g f' g' req :
  on_both f' g' (on_both f g req) = on_both (λ d, f' (f d)) (λ u, g' (g u)) req.
Proof. unfold on_both, on_device, on_user. by destruct req, req_device, req_user. Qed.
Lemma on_device_both f req : on_device f req = on_both f (λ u, u) req.
Proof. unfold on_both, on_device, on_user. by destruct req, req_device, req_user. Qed.
Lemma on_user_both g req : on_user g req = on_both (λ d, d) g req.
Proof. unfold on_both, on_device, on_user. by destruct req, req_device, req_user. Qed.
Lemma on_both_ext f g f' g' req :
  (∀ d, req_device req = Some d → f d = f' d) → (∀ u, req_user req = Some u → g u = g' u) →
  on_both f g req = on_both f' g' req.
Proof.
  intros Hf Hg. unfold on_both, on_device, on_user.
  destruct req, req_device as [d|], req_user as [u|]; simpl in *; rewrite ?Hf, ?Hg by done; done.
Qed.

Lemma scrubbed_overwrite G I4 I6 p d :
  scrubbed_device G I4 I6 (with_personal_device p d) =
  set_dev_geo (G <$> ((λ _, ps_device_geo p) <$> dev_geo d))
    (set_dev_ipv6 (I6 <$> ((λ _, ps_ipv6 p) <$> dev_ipv6 d))
      (set_dev_ip (I4 <$> ((λ _, ps_ip p) <$> dev_ip d)) (clear_device_ids d))).
Proof. destruct d. vm_compute. reflexivity. Qed.
Lemma scrubbed_twice G I4 I6 d :
  scrubbed_device G I4 I6 (scrubbed_device G I4 I6 d) =
  set_dev_geo (G <$> (G <$> dev_geo d)) (set_dev_ipv6 (I6 <$> (I6 <$> dev_ipv6 d))
    (set_dev_ip (I4 <$> (I4 <$> dev_ip d)) (clear_device_ids d))).
Proof. destruct d. vm_compute. reflexivity. Qed.
Lemma scrubbed_redacted G I4 I6 d : redacted_device (scrubbed_device G I4 I6 d) = redacted_device d.
Proof. destruct d. vm_compute. reflexivity. Qed.
Lemma scrubbed_once G I4 I6 d : scrubbed_device G I4 I6 d =
  set_dev_geo (G <$> dev_geo d) (set_dev_ipv6 (I6 <$> dev_ipv6 d)
    (set_dev_ip (I4 <$> dev_ip d) (clear_device_ids d))).
Proof. destruct d. vm_compute. reflexivity. Qed.
Lemma overwrite_user field G p u :
  scrubbed_user field G (with_personal_user field p u) =
  set_user_geo (G <$> ((λ _, ps_user_geo p) <$> user_geo u))
    (set_user_ext (scrub_ext_field field (write_ext_field field (ps_ext_field p) (user_ext u)))
      (clear_user_demographics u)).
Proof. by destruct u. Qed.

Lemma scrub_all_both conf field full req :
  scrub_device_ids_ips_user_demo_ext conf field full req =
  on_both (scrubbed_device (geo_scrub full) (mask_ip4 conf) (mask_ip6 conf))
    (scrubbed_user field (geo_scrub full)) req.
Proof.
  assert (Hm : ∀ d, mask_device_ips conf d =
    set_dev_ipv6 (mask_ip6 conf <$> dev_ipv6 d) (set_dev_ip (mask_ip4 conf <$> dev_ip d) d)).
  { intros d. destruct d. unfold mask_device_ips. simpl. by destruct dev_ip, dev_ipv6. }
  unfold scrub_device_ids_ips_user_demo_ext, scrub_geo_full, scrub_geo_precision, scrub_user_ext,
    scrub_user_demographics, scrub_device_ip, scrub_device_ids.
  destruct full; rewrite ?on_device_both, ?on_user_both, ?on_both_compose;
    (apply on_both_ext; [intros d _; by rewrite Hm|done]).
Qed.

Section Hides.
Context (conf : IpConf) (field : string) (full : bool) (p : Personal).
Context (H4 : 0 ≤ ipv4_anon_keep_bits conf) (H6 : 0 ≤ ipv6_anon_keep_bits conf).

Lemma geo_hidden (o : option Geo) g0 :
  (∀ g, o = Some g → full = false → round_geo_precision g0 = round_geo_precision g) →
  geo_scrub full <$> ((λ _, g0) <$> o) = geo_scrub full <$> o.
Proof. intros Hg. destruct o as [g|]; [|done]. simpl. f_equal. destruct full; [done|]. by apply Hg. Qed.

Lemma scrub_device_hides d :
  (∀ ip, dev_ip d = Some ip → ip_hidden parse_ipv4 32 (ipv4_anon_keep_bits conf) (ps_ip p) ip) →
  (∀ ip, dev_ipv6 d = Some ip → ip_hidden parse_ipv6 128 (ipv6_anon_keep_bits conf) (ps_ipv6 p) ip) →
  (∀ g, dev_geo d = Some g → full = false →
     round_geo_precision (ps_device_geo p) = round_geo_precision g) →
  let scrub := scrubbed_device (geo_scrub full) (mask_ip4 conf) (mask_ip6 conf) in
  scrub (with_personal_device p d) = scrub d.
Proof.
  intros Hip Hip6 Hgeo scrub. subst scrub. rewrite scrubbed_overwrite, scrubbed_once.
  rewrite (geo_hidden _ _ Hgeo). do 2 f_equal; [|f_equal].
  - destruct (dev_ipv6 d) as [ip|]; [|done]. simpl. f_equal. unfold mask_ip6.
    rewrite !scrub_ip_v6 by done. f_equal. by apply fmap_prefix, Hip6.
  - destruct (dev_ip d) as [ip|]; [|done]. simpl. f_equal. unfold mask_ip4.
    rewrite !scrub_ip_v4 by done. f_equal. by apply fmap_prefix, Hip.
Qed.
Lemma scrub_user_hides u :
  (∀ ext, user_ext u = Some ext → value_wf ext) →
  (∀ g, user_geo u = Some g → full = false →
     round_geo_precision (ps_user_geo p) = round_geo_precision g) →
  scrubbed_user field (geo_scrub full) (with_personal_user field p u) =
  scrubbed_user field (geo_scrub full) u.
Proof.
  intros Hext Hgeo. rewrite overwrite_user, (geo_hidden _ _ Hgeo), scrub_write_ext by done.
  by destruct u.
Qed.
Lemma scrub_device_idem d :
  let scrub := scrubbed_device (geo_scrub true) (mask_ip4 conf) (mask_ip6 conf) in
  scrub (scrub d) = scrub d.
Proof.
  intros scrub. subst scrub. rewrite scrubbed_twice, scrubbed_once. f_equal; [|f_equal; [|f_equal]].
  - by destruct (dev_geo d).
  - destruct (dev_ipv6 d) as [ip|]; [|done]. simpl. f_equal. by apply scrub_ip_idem.
  - destruct (dev_ip d) as [ip|]; [|done]. simpl. f_equal. by apply scrub_ip_idem.
Qed.
Lemma scrub_user_idem u : (∀ ext, user_ext u = Some ext → value_wf ext) →
  scrubbed_user field (geo_scrub true) (scrubbed_user field (geo_scrub true) u) =
  scrubbed_user field (geo_scrub true) u.
Proof.
  intros Hext. pose proof (scrub_ext_twice field _ Hext) as He.
  unfold scrubbed_user. destruct u. simpl in *. rewrite He. by destruct user_geo.
Qed.
Lemma redacted_user G u : (∀ ext, user_ext u = Some ext → value_wf ext) →
  redact_user field (scrubbed_user field G u) = redact_user field u.
Proof.
  intros Hext. pose proof (scrub_ext_twice field _ Hext) as He.
  unfold scrubbed_user, redact_user. destruct u. simpl in *. by rewrite He.
Qed.
End Hides.

(** C19: The full scrub hides what it is meant to hide, and nothing else.  Two
    requests that differ only in device and user identifiers, in the scrubbed
    field of user.ext, in addresses with the same kept bits (or none) and in
    positions with the same rounding (any, when geo is removed) become the
    same request; what the scrub leaves of a request is the request outside
    these fields; and with geo removed, scrubbing twice is scrubbing once. *)
Theorem scrub_all_spec conf field full p req :
  0 ≤ ipv4_anon_keep_bits conf → 0 ≤ ipv6_anon_keep_bits conf → hidden_from conf full p req →
  let scrub := scrub_device_ids_ips_user_demo_ext conf field full in
  scrub (with_personal field p req) = scrub req ∧
  redacted field (scrub req) = redacted field req ∧
  (full = true → scrub (scrub req) = scrub req).
Proof.
  intros H4 H6 [Hdev Husr] scrub. unfold scrub, with_personal, redacted. rewrite !scrub_all_both.
  change (on_device ?f (on_user ?g req)) with (on_both f g req).
  change (on_device ?f (on_user ?g (on_both ?f' ?g' req))) with (on_both f g (on_both f' g' req)).
  rewrite !on_both_compose. split_and!.
  - apply on_both_ext.
    + intros d Hd. destruct (Hdev d Hd) as (Hip&Hip6&Hgeo). by apply scrub_device_hides.
    + intros u Hu. destruct (Husr u Hu) as (Hext&Hgeo). by apply scrub_user_hides.
  - apply on_both_ext; [intros d _; apply scrubbed_redacted|].
    intros u Hu. by apply redacted_user, Husr.
  - intros ->. apply on_both_ext; [intros d _; by apply scrub_device_idem|].
    intros u Hu. by apply scrub_user_idem, Husr.
Qed.

Lemma crate_mask_prefix w k n : 0 < k → 0 ≤ n < 2 ^ w → Z.land n (crate_mask w k) = ip_prefix w k n.
Proof.
  intros Hk Hn. unfold crate_mask. destruct (Z.leb_spec w k) as [Hle|Hlt].
  - unfold ip_prefix. rewrite (proj2 (Z.leb_le _ _)) by done.
    destruct (decide (0 ≤ w)) as [Hw|Hw]; [|rewrite Z.pow_neg_r in Hn by lia; lia].
    replace (2 ^ w - 1) with (Z.ones w) by (rewrite Z.ones_equiv; lia).
    by rewrite Z.land_ones, Z.mod_small.
  - rewrite (Z.mod_small (w - k)) by lia. by apply land_prefix.
Qed.

(** ** Proofs: the two scrubbers *)

Lemma crate_scrub_ip_v4 ip k : 0 < k → (parse_ipv4 ip = None → parse_ipv6 ip = None) →
  crate_scrub_ip ip k 32 = scrub_ip ip k 32.
Proof.
  intros Hk Hip. rewrite scrub_ip_v4 by lia. unfold crate_scrub_ip, str_is_empty.
  case_bool_decide as He; [by rewrite He|]. unfold parse_ip_addr.
  destruct (parse_ipv4 ip) as [n|] eqn:Hn; [|by rewrite Hip]. simpl. f_equal.
  by apply crate_mask_prefix; [lia|eapply parse_ipv4_range].
Qed.
Lemma crate_scrub_ip_v6 ip k : 0 < k → parse_ipv4 ip = None →
  crate_scrub_ip ip k 128 = scrub_ip ip k 128.
Proof.
  intros Hk Hip. rewrite scrub_ip_v6 by lia. unfold crate_scrub_ip, str_is_empty.
  case_bool_decide as He; [by rewrite He|]. unfold parse_ip_addr. rewrite Hip.
  destruct (parse_ipv6 ip) as [n|] eqn:Hn; [|done]. simpl. f_equal.
  by apply crate_mask_prefix; [lia|eapply parse_ipv6_range].
Qed.

Lemma crate_all_both conf req :
  crate_scrub_device_ids_ips_user_demo conf true req =
  on_both (λ d, scrubbed_device (geo_scrub true)
                  (λ ip, crate_scrub_ip ip (ipv4_anon_keep_bits conf) 32)
                  (λ ip, crate_scrub_ip ip (ipv6_anon_keep_bits conf) 128) d)
    (λ u, let u := clear_user_demographics u in
          set_user_geo (geo_scrub true <$> user_geo u) u) req.
Proof.
  assert (Hm : ∀ d, crate_mask_device_ips conf d =
    set_dev_ipv6 ((λ ip, crate_scrub_ip ip (ipv6_anon_keep_bits conf) 128) <$> dev_ipv6 d)
      (set_dev_ip ((λ ip, crate_scrub_ip ip (ipv4_anon_keep_bits conf) 32) <$> dev_ip d) d)).
  { intros d. destruct d. unfold crate_mask_device_ips. simpl. by destruct dev_ip, dev_ipv6. }
  unfold crate_scrub_device_ids_ips_user_demo, crate_scrub_geo_full, crate_scrub_user_demographics,
    crate_scrub_device_ip, crate_scrub_device_ids.
  rewrite ?on_device_both, ?on_user_both, ?on_both_compose.
  apply on_both_ext; [intros d _; by rewrite Hm|done].
Qed.

(** The two scrubbers agree where they promise the same.  When at least one
    bit of an address is kept and the addresses are in the fields meant for
    them, the exchange's full scrub with geo removed is the privacy crate's
    plus the removal of the user.ext field; and the exchange's first-party-data
    scrub is the crate's with user.ext.data removed and user.eids absent
    instead of empty. *)
Theorem scrubbers_agree conf field req :
  keeps_some conf → ips_in_place req →
  scrub_device_ids_ips_user_demo_ext conf field true req =
    scrub_user_ext field (crate_scrub_device_ids_ips_user_demo conf true req) ∧
  scrub_user_fpd req = scrub_user_ext "data" (on_user (set_user_eids None) (crate_scrub_user_fpd req)).
Proof.
  intros [H4 H6] Hips. split.
  - rewrite scrub_all_both, crate_all_both.
    unfold scrub_user_ext. rewrite on_user_both, on_both_compose. apply on_both_ext.
    + intros d Hd. destruct (Hips d Hd) as [Hip Hip6]. rewrite !scrubbed_once.
      do 2 f_equal; [|f_equal].
      * destruct (dev_ipv6 d) as [ip|]; [|done]. simpl. f_equal. symmetry. by apply crate_scrub_ip_v6, Hip6.
      * destruct (dev_ip d) as [ip|]; [|done]. simpl. f_equal. symmetry. by apply crate_scrub_ip_v4, Hip.
    + intros u _. by destruct u.
  - unfold scrub_user_fpd, crate_scrub_user_fpd, scrub_user_ext, crate_scrub_eids, scrub_user_ids,
      crate_scrub_user_ids, scrub_device_ids, crate_scrub_device_ids.
    rewrite ?on_device_both, ?on_user_both, ?on_both_compose. apply on_both_ext.
    + intros d _. by destruct d.
    + intros u _. by destruct u.
Qed.

(** ** Findings *)

(** With no bit to keep, the crate's scrubber returns the address. *)
Lemma crate_zero_bits_unmasked :
  crate_scrub_ip "1.2.3.4" 0 32 = "1.2.3.4" ∧ scrub_ip "1.2.3.4" 0 32 = "0.0.0.0".
Proof. vm_compute. split; reflexivity. Qed.
(** West of Greenwich the crate's rounding moves a position by a hundredth
    every time it is applied. *)
Lemma crate_rounding_drifts :
  let x := f64_of_dec (-29) 2 in
  round_coordinate x = x ∧ crate_round_coordinate x = f64_of_dec (-28) 2 ∧
  crate_round_coordinate (crate_round_coordinate x) = f64_of_dec (-27) 2.
Proof. vm_compute. split_and!; reflexivity. Qed.
(** The exchange's GDPR scrub leaves user.eids to the bidder. *)
Lemma gdpr_id_keeps_eids req : user_eids <$> req_user (scrub_gdpr_id req) = user_eids <$> req_user req.
Proof.
  unfold scrub_gdpr_id, scrub_user_ext, scrub_user_demographics, scrub_device_ids, on_device, on_user.
  by destruct req, req_device, req_user.
Qed.

(** ** Witnesses *)

Lemma scrub_all_spec_witness :
  let scrub := scrub_device_ids_ips_user_demo_ext default_ip_conf "eids" true in
  scrub (with_personal "eids" sample_personal scrub_sample) = scrub scrub_sample ∧
  (dev_ip <$> req_device (scrub scrub_sample)) = Some (Some "10.1.2.0").
Proof.
  split; [|vm_compute; reflexivity].
  assert (Hh : hidden_from default_ip_conf true sample_personal scrub_sample).
  { split.
    - intros d [= <-]. split_and!; [|done|done]. intros ip [= <-]. vm_compute. reflexivity.
    - intros u [= <-]. split; [|done]. intros ext [= <-]. simpl. repeat split; constructor. }
  exact (proj1 (scrub_all_spec default_ip_conf "eids" true sample_personal scrub_sample
    ltac:(simpl; lia) ltac:(simpl; lia) Hh)).
Defined.
Lemma scrubbers_agree_witness :
  keeps_some default_ip_conf ∧
  scrub_device_ids_ips_user_demo_ext default_ip_conf "eids" true scrub_sample =
    scrub_user_ext "eids" (crate_scrub_device_ids_ips_user_demo default_ip_conf true scrub_sample).
Proof.
  split; [split; simpl; lia|].
  assert (Hk : keeps_some default_ip_conf) by (split; simpl; lia).
  assert (Hi : ips_in_place scrub_sample) by (intros d [= <-]; split; [by intros ip [= <-]|done]).
  exact (proj1 (scrubbers_agree default_ip_conf "eids" scrub_sample Hk Hi)).
Defined.
