(* ===== verification/ExchangeUtils.v ===== *)
(** The exchange's utilities (exchange/src/exchange_utils.rs): the split of
    impressions by bidder, aliases, extended-id permissions, the per-bidder
    privacy scrub and the multi-bid configuration.

    A [HashMap] that is built is a [gmap]; Unicode lower-casing is a parameter.
    [on_device], [on_user] and the scrubbed fields are those of the other
    scrubbers. *)
From S2P Require Import Prelude Json OpenRtb ExchangePrivacy Scrubber.

Inductive ChannelType : Type := CtWeb | CtApp | CtAmp | CtVideo | CtDooh.
Record BidderLabels : Type := { bl_adapter : string; bl_adapter_bids : string; bl_cookie_flag : string }.
Record EuBidderRequest : Type := {
  eubr_bidder_name : string; eubr_bidder_core_name : string; eubr_is_request_alias : bool;
  eubr_bid_request : BidRequest; eubr_bidder_labels : BidderLabels;
}.
Record PrivacyLabels : Type := {
  pl_ccpa_provided : bool; pl_ccpa_enforced : bool; pl_coppa_enforced : bool;
  pl_gdpr_enforced : bool; pl_gdpr_tcf_version : Z; pl_lmt_enforced : bool;
}.

(** ** Impressions by bidder *)

(** The bidders an [imp.ext] names. *)
Definition ext_bidders (ext : Value) : list string :=
  match get "prebid" ext with
  | Some prebid =>
      match get "bidder" prebid with
      | Some bidder_map => match as_object bidder_map with Some m => m.*1 | None => [] end
      | None => []
      end
  | None =>
      match as_object ext with
      | Some m => List.filter (λ k, negb (bool_decide (k ∈ ["prebid"; "context"; "data"]))) m.*1
      | None => []
      end
  end.
Definition resolve_bidder (bidder : string) (aliases : gmap string string) : string * bool :=
  match aliases !! bidder with
  | Some core => (core, true)
  | None => (bidder, false)
  end.
(** [imps_by_bidder.entry(bidder).or_default().push(imp)] *)
Definition push_bidder_imp (imp : Imp) (m : gmap string (list Imp)) (bidder : string)
    : gmap string (list Imp) :=
  <[bidder := default [] (m !! bidder) ++ [imp]]> m.
Definition split_imp (acc : Z * gmap string (list Imp)) (imp : Imp)
    : outcome string (Z * gmap string (list Imp)) :=
  let '(i, m) := acc in
  match imp_ext imp with
  | None => Err ("request.imp[" +:+ pretty i +:+ "].ext is required")
  | Some ext =>
      match ext_bidders ext with
      | [] => Err ("request.imp[" +:+ pretty i +:+
                   "].ext.prebid.bidder must contain at least one bidder")
      | bidders => Ok (i + 1, fold_left (push_bidder_imp imp) bidders m)
      end
  end.
(** The aliases are resolved and the result is dropped. *)
Definition split_imps (imps : list Imp) (aliases : gmap string string)
    : outcome string (gmap string (list Imp)) :=
  '(_, m) ← foldM split_imp (0, ∅) imps; Ok m.

(** ** What the request's extension says *)

(** [for (k, v) in map { if let Some(x) = f(v) { m.insert(k, x) } }] *)
Definition collect_map {A} (f : Value → option A) (o : option Value) : gmap string A :=
  match o ≫= as_object with
  | Some entries =>
      fold_left (λ m e, match f e.2 with Some x => <[e.1 := x]> m | None => m end) entries ∅
  | None => ∅
  end.
Definition extract_buyer_uids (req : BidRequest) : gmap string string :=
  collect_map as_str (json_path ["prebid"; "buyeruids"] (req_user req ≫= user_ext)).
Definition extract_req_ext_bidder_params (req : BidRequest) : gmap string Value :=
  collect_map Some (json_path ["prebid"; "bidderparams"] (req_ext req)).
Definition get_request_aliases (req : BidRequest) : gmap string string * gmap string Z :=
  (collect_map as_str (json_path ["prebid"; "aliases"] (req_ext req)),
   collect_map (λ v, u16 <$> as_u64 v) (json_path ["prebid"; "aliasgvlids"] (req_ext req))).
Definition is_potential_bidder_field (key : string) : bool :=
  negb (bool_decide (key ∈ ["prebid"; "context"; "data"; "skadn"; "gpid"; "tid"; "ae"])).

(** An impression with the id and no medium is passed over. *)
Fixpoint get_media_type_for_bid (id : string) (imps : list Imp) : option string :=
  match imps with
  | [] => None
  | imp :: imps' =>
      if bool_decide (imp_id imp = id) then
        match imp_banner imp, imp_video imp, imp_native imp, imp_audio imp with
        | Some _, _, _, _ => Some "banner"
        | None, Some _, _, _ => Some "video"
        | None, None, Some _, _ => Some "native"
        | None, None, None, Some _ => Some "audio"
        | None, None, None, None => get_media_type_for_bid id imps'
        end
      else get_media_type_for_bid id imps'
  end.

(** ** Extended ids a bidder may see *)

Definition perm_bidders (perm : Value) : list string :=
  match get "bidders" perm ≫= as_array with Some arr => omap as_str arr | None => [] end.
(** The first permission for the source decides. *)
Fixpoint eid_permitted (permissions : list Value) (source bidder : string) : bool :=
  match permissions with
  | [] => true
  | perm :: permissions' =>
      if bool_decide (default "" (get "source" perm ≫= as_str) = source) then
        match perm_bidders perm with
        | [] => true
        | bidders => bool_decide ("*" ∈ bidders) || bool_decide (bidder ∈ bidders)
        end
      else eid_permitted permissions' source bidder
  end.
Definition keeps_eid (permissions : list Value) (bidder : string) (eid : Eid) : bool :=
  let source := default "" (eid_source eid) in
  if str_is_empty source then true else eid_permitted permissions source bidder.
Definition remove_unpermissioned_eids (req : BidRequest) (bidder : string) : BidRequest :=
  match json_path ["prebid"; "data"; "eidpermissions"] (req_ext req) ≫= as_array with
  | Some ((_ :: _) as permissions) =>
      on_user (λ user, set_user_eids (List.filter (keeps_eid permissions bidder) <$> user_eids user) user) req
  | _ => req
  end.

(** ** Small helpers *)

Definition make_hb_size (w h : Z) : string :=
  if negb (w =? 0) && negb (h =? 0) then pretty w +:+ "x" +:+ pretty h else "".
Definition fpd_user_eid_exists (req : BidRequest) (fpd : option (gmap string Value))
    (bidder : string) : bool :=
  match json_path ["user"; "eids"] (fpd ≫= lookup bidder) ≫= as_array with
  | Some arr => negb (bool_decide (arr = []))
  | None =>
      match req_user req ≫= user_eids with
      | Some eids => negb (bool_decide (eids = []))
      | None => false
      end
  end.

(** ** Privacy per bidder *)

Record PrivacyEnforcement : Type := {
  pen_ccpa : bool; pen_coppa : bool; pen_lmt : bool; pen_gdpr_applies : bool;
  pen_gdpr_consent : option string;
}.
Definition no_consent (e : PrivacyEnforcement) : bool :=
  match pen_gdpr_consent e with Some c => str_is_empty c | None => true end.
Definition is_bidder_blocked_by_privacy (e : PrivacyEnforcement) (bidder : string) : bool :=
  pen_coppa e && pen_gdpr_applies e && no_consent e.
Definition eu_scrub_device (full : bool) (req : BidRequest) : BidRequest :=
  on_device (λ device,
    let device := set_dev_ipv6 None (set_dev_ip None (set_dev_didmd5 None (set_dev_didsha1 None
      (set_dev_dpidmd5 None (set_dev_dpidsha1 None (set_dev_macmd5 None (set_dev_macsha1 None
        (set_dev_ifa None device)))))))) in
    if full then set_dev_geo None device else device) req.
Definition eu_scrub_user (scrub_ids : bool) (req : BidRequest) : BidRequest :=
  on_user (λ user,
    let user := if scrub_ids then set_user_eids None (set_user_buyeruid None (set_user_id None user))
                else user in
    set_user_gender None (set_user_yob None user)) req.
(** [f64::trunc] *)
Definition f64_trunc (x : f64) : f64 :=
  if f64_ltb x f64_zero then SFopp (f64_floor (SFopp x)) else f64_floor x.
Definition eu_truncate (x : f64) : f64 :=
  f64_div (f64_trunc (f64_mul x (f64_of_Z 100))) (f64_of_Z 100).
Definition truncate_geo (geo : Geo) : Geo :=
  set_geo_lon (eu_truncate <$> geo_lon geo) (set_geo_lat (eu_truncate <$> geo_lat geo) geo).
Definition eu_scrub_geo_precision (req : BidRequest) : BidRequest :=
  on_user (λ user, set_user_geo (truncate_geo <$> user_geo user) user)
    (on_device (λ device, set_dev_geo (truncate_geo <$> dev_geo device) device) req).
Definition apply_privacy (req : BidRequest) (e : PrivacyEnforcement) (is_amp : bool) : BidRequest :=
  let amp req := if is_amp then eu_scrub_geo_precision req else req in
  if pen_coppa e then amp (eu_scrub_user true (eu_scrub_device true req))
  else if pen_gdpr_applies e && no_consent e then
    amp (eu_scrub_user true (eu_scrub_device false req))
  else
    let req := if pen_ccpa e then eu_scrub_user false req else req in
    if pen_lmt e then eu_scrub_device false req else req.

(** ** Multi-bid, preferences, ads.cert *)

Record MultiBidConfig : Type := { mbc_max_bids : Z; mbc_target_bidder_code_prefix : string }.
Section MultiBid.
(** [str::to_lowercase] *)
Context (to_lowercase : string → string).
Definition entry_config (entry : Value) : MultiBidConfig := {|
  mbc_max_bids := u32 (default 1 (get "maxBids" entry ≫= as_u64));
  mbc_target_bidder_code_prefix := default "" (get "targetBidderCodePrefix" entry ≫= as_str);
|}.
Definition entry_names (entry : Value) : list string :=
  match get "bidder" entry ≫= as_str with
  | Some bidder => [bidder]
  | None => match get "bidders" entry ≫= as_array with Some l => omap as_str l | None => [] end
  end.
Definition add_entry (m : gmap string MultiBidConfig) (entry : Value) : gmap string MultiBidConfig :=
  fold_left (λ m name, <[to_lowercase name := entry_config entry]> m) (entry_names entry) m.
Definition build_multi_bid_map (ext : option Value) : gmap string MultiBidConfig :=
  match json_path ["prebid"; "multibid"] ext ≫= as_array with
  | Some arr => fold_left add_entry arr ∅
  | None => ∅
  end.
End MultiBid.
Definition get_bidder_preferred_media_type (ext : option Value) : gmap string string :=
  collect_map (λ v, pref ← get "preferredMediaType" v ≫= as_str;
                    if str_is_empty pref then None else Some pref)
    (json_path ["prebid"; "biddercontrols"] ext).
Definition is_ads_cert_enabled (ext : option Value) (bidder_ads_cert : bool) : bool :=
  if negb bidder_ads_cert then false
  else default false (json_path ["prebid"; "experiment"; "adsCert"; "enabled"] ext ≫= as_bool).

(** ** The split *)

Definition imp_names (imp : Imp) : list string := default [] (ext_bidders <$> imp_ext imp).
(** An impression once for each time it names the bidder. *)
Definition naming (b : string) (imp : Imp) : list Imp :=
  (λ _, imp) <$> List.filter (λ n, bool_decide (n = b)) (imp_names imp).
Definition non_nil {A} (l : list A) : option (list A) := match l with [] => None | _ => Some l end.

Lemma non_nil_default {A} (l : list A) : default [] (non_nil l) = l.
Proof. by destruct l. Qed.
Lemma non_nil_snoc {A} (l : list A) x : non_nil (l ++ [x]) = Some (l ++ [x]).
Proof. by destruct l. Qed.
Lemma push_imps imp names m b l : m !! b = non_nil l →
  fold_left (push_bidder_imp imp) names m !! b =
    non_nil (l ++ ((λ _, imp) <$> List.filter (λ n, bool_decide (n = b)) names)).
Proof.
  revert m l. induction names as [|n names IH]; intros m l Hm; cbn; [by rewrite app_nil_r|].
  case_bool_decide as Hn; cbn.
  - subst n. rewrite (IH _ (l ++ [imp])); [by rewrite <-app_assoc|].
    unfold push_bidder_imp. by rewrite lookup_insert_eq, Hm, non_nil_default, non_nil_snoc.
  - apply IH. unfold push_bidder_imp. by rewrite lookup_insert_ne.
Qed.
Lemma split_fold imps i m :
  match foldM split_imp (i, m) imps with
  | Ok (j, m') => Forall (λ imp, imp_names imp ≠ []) imps ∧
      ∀ b l, m !! b = non_nil l → m' !! b = non_nil (l ++ flat_map (naming b) imps)
  | Err msg => ∃ pre imp post, imps = pre ++ imp :: post ∧
      Forall (λ imp, imp_names imp ≠ []) pre ∧
      let path := "request.imp[" +:+ pretty (i + zlen pre) +:+ "]" in
      (imp_ext imp = None ∧ msg = path +:+ ".ext is required" ∨
       is_Some (imp_ext imp) ∧ imp_names imp = [] ∧
       msg = path +:+ ".ext.prebid.bidder must contain at least one bidder")
  | Panic => False
  end.
Proof.
  revert i m. induction imps as [|imp imps IH]; intros i m; cbn [foldM].
  { split; [by constructor|]. intros b l Hm. by rewrite app_nil_r. }
  unfold split_imp at 2. destruct (imp_ext imp) as [ext|] eqn:He.
  2: { cbn [mbind outcome_bind]. exists [], imp, imps. change (zlen []) with 0. rewrite Z.add_0_r. split; [done|]. split; [done|]. left. split; [done|]. by rewrite !str_app_assoc. }
  assert (Hn : imp_names imp = ext_bidders ext) by (unfold imp_names; by rewrite He).
  destruct (ext_bidders ext) as [|n ns] eqn:Hb.
  { cbn [mbind outcome_bind]. exists [], imp, imps. change (zlen []) with 0. rewrite He, Hn, Z.add_0_r.
    split; [done|]. split; [done|]. right. split; [by eexists|]. split; [done|]. by rewrite !str_app_assoc. }
  cbn [mbind outcome_bind]. specialize (IH (i + 1) (fold_left (push_bidder_imp imp) (n :: ns) m)).
  destruct (foldM _ _ imps) as [[j m']|msg|]; [..|done].
  - destruct IH as [Hf Hl]. split; [constructor; [by rewrite Hn|done]|].
    intros b l Hm. cbn [flat_map]. rewrite app_assoc. apply Hl.
    rewrite (push_imps _ _ _ _ l Hm). unfold naming. by rewrite Hn.
  - destruct IH as (pre & imp' & post & -> & Hf & Hm). exists (imp :: pre), imp', post.
    split; [done|]. split; [constructor; [by rewrite Hn|done]|].
    rewrite zlen_cons, Z.add_assoc. exact Hm.
Qed.
(** Every bidder gets the impressions that name it, in order; the first
    impression that names nobody is the error. *)
Lemma split_imps_spec imps aliases :
  match split_imps imps aliases with
  | Ok m => Forall (λ imp, imp_names imp ≠ []) imps ∧
      ∀ b, m !! b = non_nil (flat_map (naming b) imps)
  | Err msg => ∃ pre imp post, imps = pre ++ imp :: post ∧
      Forall (λ imp, imp_names imp ≠ []) pre ∧
      let path := "request.imp[" +:+ pretty (zlen pre) +:+ "]" in
      (imp_ext imp = None ∧ msg = path +:+ ".ext is required" ∨
       is_Some (imp_ext imp) ∧ imp_names imp = [] ∧
       msg = path +:+ ".ext.prebid.bidder must contain at least one bidder")
  | Panic => False
  end.
Proof.
  unfold split_imps. pose proof (split_fold imps 0 ∅) as H.
  destruct (foldM _ _ imps) as [[j m]|msg|]; cbn [mbind outcome_bind]; [|exact H|done].
  destruct H as [Hf H]. split; [done|]. intros b. by apply (H b []).
Qed.
(** In the legacy format other extension fields pass for bidders, although
    [is_potential_bidder_field] knows better. *)
Lemma legacy_gpid_is_bidder :
  ext_bidders (VObject [("appnexus", VObject []); ("gpid", VString "/1/home")]) = ["appnexus"; "gpid"] ∧
  is_potential_bidder_field "gpid" = false.
Proof. by vm_compute. Qed.

(** ** Permissions *)

Lemma eid_permitted_spec permissions source bidder :
  eid_permitted permissions source bidder = true ↔
  match List.find (λ p, bool_decide (default "" (get "source" p ≫= as_str) = source)) permissions with
  | None => True
  | Some p => perm_bidders p = [] ∨ "*" ∈ perm_bidders p ∨ bidder ∈ perm_bidders p
  end.
Proof.
  induction permissions as [|p ps IH]; cbn [eid_permitted List.find]; [done|].
  case_bool_decide; [|done]. destruct (perm_bidders p) as [|b bs]; [naive_solver|].
  rewrite orb_true_iff, !bool_decide_eq_true. naive_solver.
Qed.

(** ** The scrub *)

(** What [apply_privacy] may change. *)
Definition erase_personal (req : BidRequest) : BidRequest :=
  on_user (set_user_geo None) (eu_scrub_user true (eu_scrub_device true req)).
Definition shares_device_ids (req : BidRequest) : Prop :=
  match req_device req with
  | Some d => is_Some (dev_ifa d) ∨ is_Some (dev_ip d) ∨ is_Some (dev_ipv6 d) ∨
      is_Some (dev_didsha1 d) ∨ is_Some (dev_didmd5 d) ∨ is_Some (dev_dpidsha1 d) ∨
      is_Some (dev_dpidmd5 d) ∨ is_Some (dev_macsha1 d) ∨ is_Some (dev_macmd5 d)
  | None => False
  end.
Definition shares_user_ids (req : BidRequest) : Prop :=
  match req_user req with
  | Some u => is_Some (user_id u) ∨ is_Some (user_buyeruid u) ∨ is_Some (user_eids u)
  | None => False
  end.
Definition shares_demographics (req : BidRequest) : Prop :=
  match req_user req with
  | Some u => is_Some (user_yob u) ∨ is_Some (user_gender u)
  | None => False
  end.
(** A scrub of the device and one of the user. *)
Definition scrubbed (f : Device → Device) (g : User → User) (req : BidRequest) : BidRequest :=
  set_req_device (f <$> req_device req) (set_req_user (g <$> req_user req) req).
Lemma scrubbed_id req : scrubbed id id req = req.
Proof. by destruct req as [? ? ? ? ? [d|] [u|] ? ? ? ? ? ? ? ? ? ? ? ? ? ? ? ? ?]. Qed.
Lemma on_device_scrubbed h f g req : on_device h (scrubbed f g req) = scrubbed (h ∘ f) g req.
Proof. by destruct req as [? ? ? ? ? [d|] [u|] ? ? ? ? ? ? ? ? ? ? ? ? ? ? ? ? ?]. Qed.
Lemma on_user_scrubbed h f g req : on_user h (scrubbed f g req) = scrubbed f (h ∘ g) req.
Proof. by destruct req as [? ? ? ? ? [d|] [u|] ? ? ? ? ? ? ? ? ? ? ? ? ? ? ? ? ?]. Qed.
Lemma scrubbed_ext f f' g g' req : (∀ d, f d = f' d) → (∀ u, g u = g' u) →
  scrubbed f g req = scrubbed f' g' req.
Proof.
  intros Hf Hg. unfold scrubbed. by destruct (req_device req), (req_user req); cbn; rewrite ?Hf, ?Hg.
Qed.
Ltac by_signal e is_amp :=
  unfold apply_privacy, erase_personal, eu_scrub_device, eu_scrub_user, eu_scrub_geo_precision;
  destruct (pen_coppa e), (pen_gdpr_applies e && no_consent e), (pen_ccpa e), (pen_lmt e), is_amp;
  repeat first [rewrite on_device_scrubbed | rewrite on_user_scrubbed].

(** What is scrubbed under each signal, that nothing else is touched, and that
    without a signal nothing is. *)
Lemma apply_privacy_spec req e is_amp :
  let out := apply_privacy req e is_amp in
  let gdpr := pen_gdpr_applies e && no_consent e in
  erase_personal out = erase_personal req ∧
  (pen_coppa e || gdpr || pen_lmt e = true → ¬ shares_device_ids out) ∧
  (pen_coppa e || gdpr = true → ¬ shares_user_ids out) ∧
  (pen_coppa e || gdpr || pen_ccpa e = true → ¬ shares_demographics out) ∧
  (pen_coppa e || gdpr || pen_ccpa e || pen_lmt e = false → out = req).
Proof.
  cbn zeta. rewrite <-(scrubbed_id req).
  assert (HN : ∀ A, ¬ is_Some (@None A)) by (intros A [? [=]]).
  split; [|split; [|split; [|split]]].
  - by_signal e is_amp; apply scrubbed_ext; intros []; cbv -[fmap option_fmap truncate_geo]; reflexivity.
  - unfold shares_device_ids. by_signal e is_amp; (intros [=] || intros _); unfold scrubbed; cbn;
      destruct (req_device req); cbn; naive_solver.
  - unfold shares_user_ids. by_signal e is_amp; (intros [=] || intros _); unfold scrubbed; cbn;
      destruct (req_user req); cbn; naive_solver.
  - unfold shares_demographics. by_signal e is_amp; (intros [=] || intros _); unfold scrubbed; cbn;
      destruct (req_user req); cbn; naive_solver.
  - by_signal e is_amp; (intros [=] || intros _); reflexivity.
Qed.

(** Under CCPA the doc has the user's ids scrubbed; the code keeps them and
    clears the year of birth and the gender. *)
Lemma ccpa_keeps_user_ids req e u : req_user req = Some u →
  pen_coppa e = false → pen_gdpr_applies e && no_consent e = false → pen_ccpa e = true →
  ∃ u', req_user (apply_privacy req e false) = Some u' ∧ user_id u' = user_id u ∧
    user_buyeruid u' = user_buyeruid u ∧ user_eids u' = user_eids u ∧ user_yob u' = None.
Proof.
  intros Hu Hc Hg Hp. unfold apply_privacy, eu_scrub_user, eu_scrub_device. rewrite Hc, Hg, Hp.
  rewrite <-(scrubbed_id req). exists (set_user_gender None (set_user_yob None u)). split; [|done].
  destruct (pen_lmt e); rewrite on_user_scrubbed, ?on_device_scrubbed; unfold scrubbed; cbn; by rewrite Hu.
Qed.

(** ** Multi-bid: the last entry that names a bidder, in any case *)

Definition named_configs (to_lowercase : string → string) (entries : list Value)
    : list (string * MultiBidConfig) :=
  flat_map (λ e, (λ n, (to_lowercase n, entry_config e)) <$> entry_names e) entries.
Lemma add_entries to_lowercase entries m :
  fold_left (add_entry to_lowercase) entries m =
    fold_left (λ m e, <[e.1 := e.2]> m) (named_configs to_lowercase entries) m.
Proof.
  revert m. induction entries as [|e es IH]; intros m; [done|]. cbn. rewrite IH, fold_left_app.
  f_equal. unfold add_entry. generalize (entry_names e) as ns. intros ns. revert m.
  induction ns as [|n ns IHn]; intros m; [done|]. cbn. apply IHn.
Qed.
Lemma fold_insert_last {A} (l : list (string * A)) (m : gmap string A) k :
  fold_left (λ m e, <[e.1 := e.2]> m) l m !! k =
    match last (List.filter (λ e, bool_decide (e.1 = k)) l) with
    | Some e => Some e.2
    | None => m !! k
    end.
Proof.
  revert m. induction l as [|[k' a] l IH]; intros m; [done|]. cbn. rewrite IH. clear IH.
  case_bool_decide as Hk; cbn.
  - subst k'. rewrite last_cons. destruct (last _); [done|]. by rewrite lookup_insert_eq.
  - destruct (last _); [done|]. by rewrite lookup_insert_ne.
Qed.
Lemma build_multi_bid_map_spec to_lowercase entries ext bidder :
  json_path ["prebid"; "multibid"] ext ≫= as_array = Some entries →
  build_multi_bid_map to_lowercase ext !! bidder =
    snd <$> last (List.filter (λ e, bool_decide (e.1 = bidder)) (named_configs to_lowercase entries)).
Proof.
  intros He. unfold build_multi_bid_map. rewrite He, add_entries, fold_insert_last.
  by destruct (last _).
Qed.
(** The limit is cut to 32 bits. *)
Lemma max_bids_wraps : mbc_max_bids (entry_config (VObject [("maxBids", VNumber (PosInt (2 ^ 32 + 1)))])) = 1.
Proof. by vm_compute. Qed.
