(* ===== verification/RequestSplitter.v ===== *)
(** Per-bidder requests (exchange/src/request_splitter.rs): the impressions of each
    bidder with only its own parameters, the request's extension a bidder may see,
    and the user ids. *)
From S2P Require Import Prelude Json OpenRtb ExchangePrivacy Scrubber ExchangeUtils.

Record RsBidderRequest : Type := {
  rsb_bid_request : BidRequest; rsb_bidder_name : string; rsb_bidder_core_name : string;
  rsb_is_request_alias : bool; rsb_bidder_stored_responses : gmap string Value;
  rsb_imp_replace_imp_id : gmap string bool;
}.

(** ** Impressions *)

Definition reserved_keys : list string := ["prebid"; "context"; "data"; "skadn"; "gpid"; "tid"; "ae"].
(** The reserved fields of the original extension but for [prebid]. *)
Definition copy_reserved (ext : Value) : list (string * Value) :=
  match ext with
  | VObject obj =>
      fold_left (λ m key, if bool_decide (key = "prebid") then m
                          else match obj_get key obj with Some v => obj_insert key v m | None => m end)
        reserved_keys []
  | _ => []
  end.
Definition or_insert_field (m : list (string * Value)) (field : string * Value) : list (string * Value) :=
  match obj_get field.1 m with Some _ => m | None => obj_insert field.1 field.2 m end.
(** The bidder's own parameters and the other fields of [prebid]. *)
Definition own_prebid (ext : Value) (bidder_name : string) (bidder_params : Value) : list (string * Value) :=
  let prebid := [("bidder", VObject [(bidder_name, bidder_params)])] in
  match get "prebid" ext ≫= as_object with
  | Some orig_prebid =>
      fold_left (λ m field, if negb (bool_decide (field.1 = "bidder")) && negb (bool_decide (field.1 = "bidders"))
                            then or_insert_field m field else m) orig_prebid prebid
  | None => prebid
  end.
Definition copy_ext (ext : Value) (bidder_name : string) (bidder_params : Value) : Value :=
  VObject (obj_insert "prebid" (VObject (own_prebid ext bidder_name bidder_params)) (copy_reserved ext)).
(** [imp.ext.prebid.bidder], or else the whole extension. *)
Definition bidder_map (ext : Value) : option (list (string * Value)) :=
  match json_path ["prebid"; "bidder"] (Some ext) ≫= as_object with
  | Some m => Some m
  | None => as_object ext
  end.

Section SplitImps.
Context (request_aliases : gmap string string).
Definition push_copy (imp : Imp) (ext : Value) (bidder_imps : gmap string (list Imp))
    (bidder : string * Value) : gmap string (list Imp) :=
  let '(bidder_name, bidder_params) := bidder in
  if bool_decide (bidder_name ∈ reserved_keys) then bidder_imps
  else
    let core_name := default bidder_name (request_aliases !! bidder_name) in
    let imp_copy := set_imp_ext (Some (copy_ext ext bidder_name bidder_params)) imp in
    <[core_name := default [] (bidder_imps !! core_name) ++ [imp_copy]]> bidder_imps.
Definition rs_split_imp (bidder_imps : gmap string (list Imp)) (imp : Imp) : gmap string (list Imp) :=
  match imp_ext imp with
  | None => bidder_imps
  | Some ext =>
      match bidder_map ext with
      | None => bidder_imps
      | Some m => fold_left (push_copy imp ext) m bidder_imps
      end
  end.
Definition rs_split_imps (imps : list Imp) : outcome string (gmap string (list Imp)) :=
  Ok (fold_left rs_split_imp imps ∅).
End SplitImps.

(** ** The request's extension and the user's ids *)

Definition rs_get_request_aliases (request : BidRequest) : gmap string string :=
  collect_map as_str (json_path ["prebid"; "aliases"] (req_ext request)).
Definition hide_prebid (bidder_name : string) (bidder_params : option Value)
    (prebid : list (string * Value)) : list (string * Value) :=
  let prebid := obj_remove "bidder" prebid in
  let prebid := match bidder_params with
                | Some params => obj_insert "bidderparams" (VObject [(bidder_name, params)]) prebid
                | None => prebid
                end in
  obj_remove "aliasgvlids" (obj_remove "aliases" (obj_remove "bidderconfig" (obj_remove "data" prebid))).
(** [if let Some(prebid) = obj.get_mut("prebid").and_then(|p| p.as_object_mut())] *)
Definition on_prebid (f : list (string * Value) → list (string * Value)) (ext : Value) : Value :=
  match ext with
  | VObject obj =>
      match obj_get "prebid" obj with
      | Some (VObject prebid) => VObject (obj_insert "prebid" (VObject (f prebid)) obj)
      | _ => ext
      end
  | _ => ext
  end.
Definition build_request_ext_for_bidder (request_ext : Value) (bidder_name : string)
    (bidder_params : option Value) : Value :=
  on_prebid (hide_prebid bidder_name bidder_params) request_ext.
Definition rs_extract_buyer_uids (request : BidRequest) : gmap string string :=
  collect_map as_str (json_path ["prebid"; "buyeruids"] (req_user request ≫= user_ext)).
Definition prepare_user_for_bidder (user : option User) (bidder_syncer_key : string)
    (buyer_uids cookie_uids : gmap string string) : option User :=
  match (match buyer_uids !! bidder_syncer_key with
         | Some uid => Some uid
         | None => cookie_uids !! bidder_syncer_key
         end) with
  | Some uid => Some (set_user_buyeruid (Some uid) (default default_user user))
  | None => user
  end.
Definition clean_buyer_uids (request : BidRequest) : BidRequest :=
  on_user (λ user, match user_ext user with
                   | Some ext => set_user_ext (Some (on_prebid (obj_remove "buyeruids") ext)) user
                   | None => user
                   end) request.

(** ** The split *)

(** The copies of an impression for a core bidder: one for each name that resolves
    to it. *)
Definition copies_for (aliases : gmap string string) (core : string) (imp : Imp) : list Imp :=
  match imp_ext imp with
  | Some ext =>
      (λ e, set_imp_ext (Some (copy_ext ext e.1 e.2)) imp) <$>
        List.filter (λ e : string * Value, negb (bool_decide (e.1 ∈ reserved_keys)) &&
          bool_decide (default e.1 (aliases !! e.1) = core)) (default [] (bidder_map ext))
  | None => []
  end.

Lemma push_copies_spec aliases imp ext entries m core l : m !! core = non_nil l →
  fold_left (push_copy aliases imp ext) entries m !! core = non_nil (l ++
    ((λ e, set_imp_ext (Some (copy_ext ext e.1 e.2)) imp) <$>
      List.filter (λ e : string * Value, negb (bool_decide (e.1 ∈ reserved_keys)) &&
        bool_decide (default e.1 (aliases !! e.1) = core)) entries)).
Proof.
  revert m l. induction entries as [|[b p] entries IH]; intros m l Hm; cbn [fold_left]; [by rewrite app_nil_r|].
  set (copy := set_imp_ext (Some (copy_ext ext b p)) imp).
  assert (Hp : push_copy aliases imp ext m (b, p) = if bool_decide (b ∈ reserved_keys) then m
    else <[default b (aliases !! b) := default [] (m !! default b (aliases !! b)) ++ [copy]]> m) by done.
  rewrite Hp. cbn [List.filter fst snd]. destruct (bool_decide (b ∈ reserved_keys)); cbn [negb andb].
  { by apply IH. }
  case_bool_decide as Hc.
  - rewrite (IH _ (l ++ [copy])); [by rewrite <-app_assoc|].
    by rewrite Hc, lookup_insert_eq, Hm, non_nil_default, non_nil_snoc.
  - apply IH. by rewrite lookup_insert_ne.
Qed.
Lemma split_copies aliases imps m core l : m !! core = non_nil l →
  fold_left (rs_split_imp aliases) imps m !! core = non_nil (l ++ flat_map (copies_for aliases core) imps).
Proof.
  revert m l. induction imps as [|imp imps IH]; intros m l Hm; cbn [fold_left flat_map]; [by rewrite app_nil_r|].
  rewrite app_assoc. apply IH. unfold rs_split_imp, copies_for.
  destruct (imp_ext imp) as [ext|]; [|by rewrite app_nil_r].
  destruct (bidder_map ext) as [entries|]; [by apply push_copies_spec|by rewrite app_nil_r].
Qed.

(** ** What a copy shows *)

Lemma copy_reserved_get ext k : k ≠ "prebid" → value_wf ext →
  obj_sorted (copy_reserved ext) ∧
  obj_get k (copy_reserved ext) = if bool_decide (k ∈ reserved_keys) then get k ext else None.
Proof.
  intros Hk Hwf. destruct ext as [| | | | |obj]; try (split; [done|]; cbn; by case_bool_decide).
  unfold copy_reserved. generalize reserved_keys as keys.
  assert (H : ∀ keys m, obj_sorted m →
    let r := fold_left (λ m key, if bool_decide (key = "prebid") then m
      else match obj_get key obj with Some v => obj_insert key v m | None => m end) keys m in
    obj_sorted r ∧ obj_get k r = if bool_decide (k ∈ keys)
      then match obj_get k obj with Some v => Some v | None => obj_get k m end else obj_get k m).
  { induction keys as [|key keys IH]; intros m Hm; cbn; [done|].
    set (m' := if bool_decide (key = "prebid") then m else _).
    assert (Hm' : obj_sorted m').
    { unfold m'. destruct (bool_decide (key = "prebid")); [done|]. destruct (obj_get key obj); [by apply obj_sorted_insert|done]. }
    destruct (IH m' Hm') as [Hs Hg]. split; [done|]. rewrite Hg.
    assert (Hg' : obj_get k m' = if bool_decide (k = key)
      then match obj_get k obj with Some v => Some v | None => obj_get k m end else obj_get k m).
    { unfold m'. clear IH Hg Hs Hm'. destruct (decide (k = key)) as [->|Hkk].
      - rewrite bool_decide_false, bool_decide_true by done.
        destruct (obj_get key obj); [|done]. by rewrite obj_get_insert, bool_decide_true.
      - rewrite (bool_decide_false (k = key)) by done. destruct (bool_decide (key = "prebid")); [done|].
        destruct (obj_get key obj); [|done]. by rewrite obj_get_insert, bool_decide_false by done. }
    rewrite Hg'. destruct (bool_decide (k ∈ keys)) eqn:Hin; bools.
    - rewrite (bool_decide_true (k ∈ key :: keys)) by by right. by destruct (bool_decide (k = key)), (obj_get k obj).
    - destruct (decide (k = key)) as [->|Hkk].
      + by rewrite (bool_decide_true (key = key)), (bool_decide_true (key ∈ key :: keys)) by (done || by left).
      + by rewrite (bool_decide_false (k = key)), (bool_decide_false (k ∈ key :: keys)) by (done || by apply not_elem_of_cons). }
  intros keys. destruct (H keys [] ltac:(done)) as [Hs Hg]. split; [done|]. rewrite Hg. cbn [get obj_get].
  by destruct (obj_get k obj), (bool_decide (k ∈ keys)).
Qed.
Lemma or_insert_fields_get (keep : string → bool) fields m k : obj_sorted m →
  let r := fold_left (λ m field, if keep field.1 then or_insert_field m field else m) fields m in
  obj_sorted r ∧ obj_get k r = match obj_get k m with
    | Some v => Some v
    | None => if keep k then obj_get k fields else None
    end.
Proof.
  revert m. induction fields as [|[k' v] fields IH]; intros m Hm; cbn.
  { split; [done|]. by destruct (obj_get k m), (keep k). }
  set (m' := if keep k' then or_insert_field m (k', v) else m).
  assert (Hm' : obj_sorted m').
  { unfold m', or_insert_field. cbn. destruct (keep k'); [|done].
    destruct (obj_get k' m); [done|by apply obj_sorted_insert]. }
  destruct (IH m' Hm') as [Hs Hg]. split; [done|]. rewrite Hg. unfold m', or_insert_field. cbn.
  destruct (decide (k' = k)) as [->|Hne].
  - rewrite bool_decide_true by done. destruct (keep k); [|by destruct (obj_get k m)].
    destruct (obj_get k m) eqn:Ho; [by rewrite Ho|]. by rewrite obj_get_insert, bool_decide_true.
  - rewrite bool_decide_false by done. destruct (keep k'); [|done]. destruct (obj_get k' m); [done|].
    by rewrite obj_get_insert, bool_decide_false by done.
Qed.
(** A bidder sees its own parameters, the other fields of [prebid] and the reserved
    fields, and nothing else of the extension. *)
Lemma copy_ext_get ext b p : value_wf ext →
  (∀ k, get k (copy_ext ext b p) =
    if bool_decide (k = "prebid") then Some (VObject (own_prebid ext b p))
    else if bool_decide (k ∈ reserved_keys) then get k ext else None) ∧
  (∀ k, obj_get k (own_prebid ext b p) =
    if bool_decide (k = "bidder") then Some (VObject [(b, p)])
    else if bool_decide (k = "bidders") then None else json_path ["prebid"; k] (Some ext)).
Proof.
  intros Hwf. split.
  - intros k. unfold copy_ext. cbn [get].
    assert (Hs : obj_sorted (copy_reserved ext)) by by destruct (copy_reserved_get ext "data" ltac:(done) Hwf).
    rewrite obj_get_insert by done. case_bool_decide as Hk; [by rewrite bool_decide_true|].
    rewrite bool_decide_false by done. by apply copy_reserved_get.
  - intros k. unfold own_prebid. cbn [json_path foldl].
    assert (Hbase : obj_get k [("bidder", VObject [(b, p)])] =
      if bool_decide (k = "bidder") then Some (VObject [(b, p)]) else None).
    { cbn. repeat case_bool_decide; congruence. }
    assert (Hg : ∀ v, get k v = match as_object v with Some o => obj_get k o | None => None end) by by intros [].
    replace (json_path ["prebid"; k] (Some ext)) with (match get "prebid" ext ≫= as_object with
      Some o => obj_get k o | None => None end).
    2: { unfold json_path. cbn -[get]. destruct (get "prebid" ext) as [v|]; [|done]. cbn -[get]. by rewrite Hg. }
    destruct (get "prebid" ext ≫= as_object) as [orig|].
    2: { rewrite Hbase. by repeat case_bool_decide. }
    pose proof (or_insert_fields_get (λ k, negb (bool_decide (k = "bidder")) && negb (bool_decide (k = "bidders")))
      orig [("bidder", VObject [(b, p)])] k ltac:(done)) as [_ H].
    etrans; [exact H|]. rewrite Hbase. by repeat case_bool_decide.
Qed.
(** The split groups the copies by core bidder in the order of the request; a copy
    differs from its impression in what it shows only. *)
Lemma splitter_spec aliases imps core :
  match rs_split_imps aliases imps with
  | Ok m => m !! core = non_nil (flat_map (copies_for aliases core) imps)
  | _ => False
  end ∧
  ∀ copy, copy ∈ flat_map (copies_for aliases core) imps → ∃ imp ext b p,
    imp ∈ imps ∧ imp_ext imp = Some ext ∧ (b, p) ∈ default [] (bidder_map ext) ∧ b ∉ reserved_keys ∧
    default b (aliases !! b) = core ∧ copy = set_imp_ext (Some (copy_ext ext b p)) imp.
Proof.
  split; [by apply (split_copies aliases imps ∅ core [])|].
  intros copy (imp & Hi%list_elem_of_In & Hc%list_elem_of_In)%list_elem_of_In%in_flat_map.
  unfold copies_for in Hc. destruct (imp_ext imp) as [ext|] eqn:He; [|by apply elem_of_nil in Hc].
  apply list_elem_of_fmap in Hc as ([b p] & -> & [Hb%list_elem_of_In Hr]%list_elem_of_In%filter_In).
  cbn in Hr. bools. by exists imp, ext, b, p.
Qed.
(** An alias and its core bidder share one list, so the core bidder gets the
    impression twice. *)
Definition aliased_imp : Imp := set_imp_ext (Some (VObject [("prebid",
  VObject [("bidder", VObject [("appnexus", VNull); ("districtm", VNull)])])])) default_imp.
Lemma alias_shares_core_list :
  length <$> (match rs_split_imps {[ "districtm" := "appnexus" ]} [aliased_imp] with
              | Ok m => m !! "appnexus" | _ => None end) = Some 2%nat.
Proof. by vm_compute. Qed.

(** ** The request's extension and ids *)

Lemma on_prebid_get f ext k : value_wf ext → k ≠ "prebid" → get k (on_prebid f ext) = get k ext.
Proof.
  intros Hwf Hk. destruct ext as [| | | | |obj]; try done. cbn.
  destruct (obj_get "prebid" obj) as [[]|]; try done. cbn. destruct Hwf as [Hs _].
  by rewrite obj_get_insert, bool_decide_false by done.
Qed.
Lemma on_prebid_prebid f ext m : value_wf ext → get "prebid" ext = Some (VObject m) →
  get "prebid" (on_prebid f ext) = Some (VObject (f m)).
Proof.
  destruct ext as [| | | | |obj]; try done. cbn. intros [Hs _] Hg. rewrite Hg. cbn.
  by rewrite obj_get_insert, bool_decide_true by done.
Qed.
(** Of [prebid] a bidder sees its own [bidderparams], and none of the fields about
    other bidders. *)
Lemma build_request_ext_spec ext b params m : value_wf ext → get "prebid" ext = Some (VObject m) →
  let ext' := build_request_ext_for_bidder ext b params in
  (∀ k, k ≠ "prebid" → get k ext' = get k ext) ∧
  ∃ m', get "prebid" ext' = Some (VObject m') ∧ ∀ k, obj_get k m' =
    if bool_decide (k ∈ ["bidder"; "data"; "bidderconfig"; "aliases"; "aliasgvlids"]) then None
    else match params with
         | Some p => if bool_decide (k = "bidderparams") then Some (VObject [(b, p)]) else obj_get k m
         | None => obj_get k m
         end.
Proof.
  intros Hwf Hg ext'. split; [intros k Hk; by apply on_prebid_get|].
  exists (hide_prebid b params m). split; [by apply on_prebid_prebid|]. intros k.
  assert (Hm : obj_sorted m) by by destruct (value_wf_get _ _ _ Hwf Hg).
  unfold hide_prebid.
  set (m1 := match params with Some _ => _ | None => _ end).
  assert (Hm1 : obj_sorted m1).
  { unfold m1. destruct params; [apply obj_sorted_insert|]; by apply obj_sorted_remove. }
  rewrite !obj_get_remove by (repeat apply obj_sorted_remove; done).
  unfold m1. destruct params as [p|].
  - rewrite obj_get_insert, obj_get_remove by (try apply obj_sorted_remove; done).
    repeat case_bool_decide; subst; try done; set_solver.
  - rewrite obj_get_remove by done. repeat case_bool_decide; subst; try done; set_solver.
Qed.
(** Without parameters of its own, a bidder sees the parameters of all. *)
Lemma missing_params_leak :
  build_request_ext_for_bidder (VObject [("prebid", VObject [("bidderparams", VObject [("other", VBool true)])])]) "me" None =
  VObject [("prebid", VObject [("bidderparams", VObject [("other", VBool true)])])].
Proof. by vm_compute. Qed.

Lemma clean_buyer_uids_spec req : (∀ u e, req_user req = Some u → user_ext u = Some e → value_wf e) →
  rs_extract_buyer_uids (clean_buyer_uids req) = ∅.
Proof.
  intros Hwf. unfold rs_extract_buyer_uids, clean_buyer_uids, on_user.
  destruct (req_user req) as [u|] eqn:Hu; [|by rewrite Hu].
  assert (Hru : ∀ u', req_user (set_req_user (Some u') req) = Some u') by by intros; destruct req.
  rewrite Hru. cbn [mbind option_bind].
  destruct (user_ext u) as [e|] eqn:He; [|by rewrite He].
  assert (Hue : ∀ e', user_ext (set_user_ext (Some e') u) = Some e') by by intros; destruct u.
  rewrite Hue. specialize (Hwf u e eq_refl He). unfold json_path. cbn -[get on_prebid].
  destruct (get "prebid" e) as [v|] eqn:Hp.
  2: { destruct e as [| | | | |obj]; try done. cbn in *. by rewrite Hp; cbn; rewrite Hp. }
  destruct v as [| | | | |m].
  6: { rewrite (on_prebid_prebid _ _ m) by done. cbn. rewrite obj_get_remove by by destruct (value_wf_get _ _ _ Hwf Hp).
       by rewrite bool_decide_true. }
  all: destruct e as [| | | | |obj]; try done; cbn in *; rewrite Hp; cbn; by rewrite Hp.
Qed.
