(* ===== verification/FirstPartyData.v ===== *)
(** First-party data (exchange/src/first_party_data.rs, the firstpartydata crate).

    What the publisher and single bidders configure is taken out of the request and
    merged into each bidder's copy.  Serde's conversions between the OpenRTB structs
    and JSON are the class [FpdCodec]; that reading undoes writing is its law. *)
From S2P Require Import Prelude Json JsonMerge OpenRtb Scrubber.

(** ** Three merges *)

Section CloneFields.
Context (merge : Value → Value → Value).
Definition clone_field (target : option Value) (source_val : Value) : Value :=
  match target with Some target_val => merge target_val source_val | None => source_val end.
Fixpoint clone_fields (source_map merged : list (string * Value)) : list (string * Value) :=
  match source_map with
  | [] => merged
  | (key, source_val) :: source_map' =>
      clone_fields source_map' (obj_insert key (clone_field (obj_get key merged) source_val) merged)
  end.
(** [merge(t.entry(k).or_insert(Null), v)], in the loops of the crate. *)
Fixpoint entry_fields (drop_null : bool) (p t : list (string * Value)) : list (string * Value) :=
  match p with
  | [] => t
  | (k, v) :: p' =>
      entry_fields drop_null p'
        (if drop_null && is_null v then obj_remove k t
         else obj_insert k (merge (default VNull (obj_get k t)) v) t)
  end.
End CloneFields.
(** The exchange's. *)
Fixpoint merge_json_objects (target source : Value) {struct source} : Value :=
  match source with
  | VObject source_map =>
      match target with
      | VObject target_map => VObject (clone_fields (λ t s, merge_json_objects t s) source_map target_map)
      | _ => source
      end
  | _ => source
  end.
(** The crate's two. *)
Fixpoint fpd_merge_patch (target patch : Value) {struct patch} : Value :=
  match patch with
  | VObject p =>
      match target with
      | VObject t => VObject (entry_fields (λ t p, fpd_merge_patch t p) true p t)
      | _ => patch
      end
  | _ => patch
  end.
Fixpoint fpd_merge_clone (target patch : Value) {struct patch} : Value :=
  match patch with
  | VObject p =>
      match target with
      | VObject t => VObject (entry_fields (λ t p, fpd_merge_clone t p) false p t)
      | _ => patch
      end
  | _ => patch
  end.

(** ** exchange/src/first_party_data.rs *)

Record FpdConfig : Type := { fpc_site : option Value; fpc_app : option Value; fpc_user : option Value }.
Definition default_fpc : FpdConfig := {| fpc_site := None; fpc_app := None; fpc_user := None |}.
Definition fpd_config_of (v : Value) : FpdConfig :=
  {| fpc_site := get "site" v; fpc_app := get "app" v; fpc_user := get "user" v |}.
Definition entry_matches (bidder_name : string) (entry : Value) : bool :=
  existsb (λ b, bool_decide (b = bidder_name) || bool_decide (b = "*"))
    (omap as_str (default [] (get "bidders" entry ≫= as_array))).
(** The loop over [bidderconfig]: the first matching entry with a configuration. *)
Fixpoint first_bidder_config (bidder_name : string) (entries : list Value) : option FpdConfig :=
  match entries with
  | [] => None
  | entry :: entries' =>
      if entry_matches bidder_name entry then
        match json_path ["config"; "ortb2"] (Some entry) with
        | Some config => Some (fpd_config_of config)
        | None => first_bidder_config bidder_name entries'
        end
      else first_bidder_config bidder_name entries'
  end.
Definition extract_fpd_for_bidder (request : BidRequest) (bidder_name : string) : FpdConfig :=
  match req_ext request ≫= get "prebid" with
  | None => default_fpc
  | Some prebid =>
      match (match get "bidderconfig" prebid ≫= as_array with
             | Some bidderconfigs => first_bidder_config bidder_name bidderconfigs
             | None => None
             end) with
      | Some config => config
      | None =>
          match json_path ["data"; "bidders"; bidder_name] (Some prebid) with
          | Some bidder_data => fpd_config_of bidder_data
          | None => default_fpc
          end
      end
  end.

Class FpdCodec : Type := {
  fpd_site_to : Site → option Value; fpd_site_from : Value → option Site;
  fpd_app_to : App → option Value; fpd_app_from : Value → option App;
  fpd_user_to : User → option Value; fpd_user_from : Value → option User;
}.
(** [if let Some(fpd) = config { base; merge; if let Ok(x) = from_value { .. } }] *)
Definition merge_section {A} (to : A → option Value) (from : Value → option A)
    (config : option Value) (section : option A) : option A :=
  match config with
  | None => section
  | Some fpd =>
      let base := match section with Some x => default (VObject []) (to x) | None => VObject [] end in
      match from (merge_json_objects base fpd) with Some x => Some x | None => section end
  end.

Section Fpd.
Context `{FC : FpdCodec}.
Definition apply_fpd_to_request (request : BidRequest) (fpd : FpdConfig) : BidRequest :=
  let req := set_req_site (merge_section fpd_site_to fpd_site_from (fpc_site fpd) (req_site request)) request in
  let req := set_req_app (merge_section fpd_app_to fpd_app_from (fpc_app fpd) (req_app req)) req in
  set_req_user (merge_section fpd_user_to fpd_user_from (fpc_user fpd) (req_user req)) req.
Definition resolve_fpd `{MI : MapIter} (request : BidRequest) (fpd_config : gmap string FpdConfig)
    : gmap string BidRequest :=
  fold_left (λ result '(bidder_name, config), <[bidder_name := apply_fpd_to_request request config]> result)
    (map_iter fpd_config) ∅.
Definition resolve_fpd_for_bidders `{MI : MapIter} (request : BidRequest) (bidder_names : list string)
    : gmap string BidRequest :=
  resolve_fpd request
    (fold_left (λ m bidder, <[bidder := extract_fpd_for_bidder request bidder]> m) bidder_names ∅).

(** [data] out of an extension. *)
Definition take_ext_data (ext : option Value) : option Value * option Value :=
  match ext with
  | Some (VObject m) =>
      match obj_get "data" m with
      | Some data => (Some data, Some (VObject (obj_remove "data" m)))
      | None => (None, ext)
      end
  | _ => (None, ext)
  end.
Definition insert_some {A} (k : string) (v : option A) (m : gmap string A) : gmap string A :=
  match v with Some v => <[k := v]> m | None => m end.
Definition extract_global_fpd (request : BidRequest) : gmap string Value * BidRequest :=
  let site_data := req_site request ≫= λ s, (take_ext_data (site_ext s)).1 in
  let request := set_req_site ((λ s, set_site_ext (take_ext_data (site_ext s)).2 s) <$> req_site request) request in
  let app_data := req_app request ≫= λ a, (take_ext_data (app_ext a)).1 in
  let request := set_req_app ((λ a, set_app_ext (take_ext_data (app_ext a)).2 a) <$> req_app request) request in
  let user_data := req_user request ≫= λ u, (take_ext_data (user_ext u)).1 in
  let request := set_req_user ((λ u, set_user_ext (take_ext_data (user_ext u)).2 u) <$> req_user request) request in
  (insert_some "user" user_data (insert_some "app" app_data (insert_some "site" site_data ∅)), request).
(** A list that is not empty, taken. *)
Definition taken {A} (l : list A) : option (list A) := match l with [] => None | _ => Some l end.
Definition take_content_data (c : option Content) : option (list Data) * option Content :=
  (c ≫= λ c, taken (cnt_data c), set_cnt_data [] <$> c).
Definition extract_openrtb_global_fpd (request : BidRequest) : gmap string (list Data) * BidRequest :=
  let user_d := req_user request ≫= λ u, taken (user_data u) in
  let request := set_req_user (set_user_data [] <$> req_user request) request in
  let site_d := req_site request ≫= λ s, (take_content_data (site_content s)).1 in
  let request := set_req_site ((λ s, set_site_content (take_content_data (site_content s)).2 s) <$> req_site request) request in
  let app_d := req_app request ≫= λ a, (take_content_data (app_content a)).1 in
  let request := set_req_app ((λ a, set_app_content (take_content_data (app_content a)).2 a) <$> req_app request) request in
  (insert_some "appContent" app_d (insert_some "siteContent" site_d (insert_some "user" user_d ∅)), request).

Record ResolvedFirstPartyData : Type := {
  rfp_site : option Site; rfp_app : option App; rfp_user : option User;
}.
(** Put [data] into an extension that is, or becomes, an object. *)
Definition put_ext_data (data : Value) (ext : option Value) : option Value :=
  match default (VObject []) ext with
  | VObject m => Some (VObject (obj_insert "data" data m))
  | v => Some v
  end.
Definition resolve_fpd_bidder (global_fpd : gmap string Value) (openrtb_global_fpd : gmap string (list Data))
    (bidder_req : BidRequest) : ResolvedFirstPartyData :=
  let user := match openrtb_global_fpd !! "user" with
              | Some d => let user := default default_user (req_user bidder_req) in
                          Some (set_user_data (user_data user ++ d) user)
              | None => req_user bidder_req
              end in
  let site := match global_fpd !! "site" with
              | Some site_data => let site := default default_site (req_site bidder_req) in
                                  Some (set_site_ext (put_ext_data site_data (site_ext site)) site)
              | None => req_site bidder_req
              end in
  let user := match global_fpd !! "user" with
              | Some d => let user := default default_user user in
                          Some (set_user_ext (put_ext_data d (user_ext user)) user)
              | None => user
              end in
  {| rfp_site := site; rfp_app := req_app bidder_req; rfp_user := user |}.
Definition extract_fpd_for_bidders (request : BidRequest) (bidder_names : list string)
    : gmap string ResolvedFirstPartyData * BidRequest :=
  let '(global_fpd, request) := extract_global_fpd request in
  let '(openrtb_global_fpd, request) := extract_openrtb_global_fpd request in
  (fold_left (λ result bidder,
     let bidder_req := apply_fpd_to_request request (extract_fpd_for_bidder request bidder) in
     <[bidder := resolve_fpd_bidder global_fpd openrtb_global_fpd bidder_req]> result) bidder_names ∅, request).
End Fpd.

(** ** The firstpartydata crate *)

Inductive FpdError : Type := BadRequest | BadFpd | BadInput (bidder message : string).
Definition fpd_error_to_string (e : FpdError) : string :=
  match e with
  | BadRequest => "invalid request ext"
  | BadFpd => "invalid first party data ext"
  | BadInput bidder message => "incorrect First Party Data for bidder " +:+ bidder +:+ ": " +:+ message
  end.
Record BidderFpdConfig : Type := {
  bfc_site : option Value; bfc_app : option Value; bfc_user : option Value; bfc_device : option Value;
}.
Record CrateResolved : Type := {
  crd_site : option Value; crd_app : option Value; crd_user : option Value; crd_device : option Value;
}.
Definition build_ext_data (data : Value) : Value := VObject [("data", data)].

Definition multiple_configs (name : string) : FpdError :=
  BadInput name ("multiple First Party Data bidder configs provided for bidder: " +:+ name).
Definition add_bidder_config (ortb2 : Value) (fpd : gmap string BidderFpdConfig) (bidder : Value)
    : outcome FpdError (gmap string BidderFpdConfig) :=
  match as_str bidder with
  | None => Ok fpd
  | Some name =>
      let normalized := to_ascii_lowercase name in
      match fpd !! normalized with
      | Some _ => Err (multiple_configs name)
      | None => Ok (<[normalized := {| bfc_site := get "site" ortb2; bfc_app := get "app" ortb2;
                      bfc_user := get "user" ortb2; bfc_device := get "device" ortb2 |}]> fpd)
      end
  end.
Definition add_bidder_configs (fpd : gmap string BidderFpdConfig) (bc : Value)
    : outcome FpdError (gmap string BidderFpdConfig) :=
  foldM (add_bidder_config (default VNull (json_path ["config"; "ortb2"] (Some bc)))) fpd
    (default [] (get "bidders" bc ≫= as_array)).
Definition extract_bidder_config_fpd (req_ext : Value) : outcome FpdError (gmap string BidderFpdConfig) :=
  match get "prebid" req_ext with
  | None => Ok ∅
  | Some prebid =>
      match get "bidderconfig" prebid ≫= as_array with
      | None => Ok ∅
      | Some bidder_configs => foldM add_bidder_configs ∅ bidder_configs
      end
  end.

(** [if let Some(m) = v.as_object_mut() { .. }] *)
Definition on_object (f : list (string * Value) → list (string * Value)) (v : Value) : Value :=
  match v with VObject m => VObject (f m) | _ => v end.
Definition apply_global_ext_data (obj data : Value) : Value :=
  on_object (λ m, match obj_get "ext" m with
                  | Some (VObject _ as existing) => obj_insert "ext" (fpd_merge_patch existing (build_ext_data data)) m
                  | _ => obj_insert "ext" (build_ext_data data) m
                  end) obj.
(** [content.entry("content").or_insert({})], with its [data] set. *)
Definition set_content_data (content_data obj : Value) : Value :=
  on_object (λ m, obj_insert "content"
    (on_object (obj_insert "data" content_data) (default (VObject []) (obj_get "content" m))) m) obj.
Definition with_some {A} (f : A → Value → Value) (o : option A) (v : Value) : Value :=
  match o with Some x => f x v | None => v end.

Section CrateResolve.
Context (global_fpd open_rtb_global : gmap string Value).
Definition resolve_user (fpd_config : option BidderFpdConfig) (req_user : option Value) : option Value :=
  let cfg_user := fpd_config ≫= bfc_user in
  match req_user, cfg_user with
  | None, None => None
  | _, _ =>
      let new_user := with_some (λ data u, apply_global_ext_data u data) (global_fpd !! "user")
        (default (VObject []) req_user) in
      let new_user := with_some (λ data, on_object (obj_insert "data" data)) (open_rtb_global !! "userData") new_user in
      Some (with_some (λ cfg u, fpd_merge_clone u cfg) cfg_user new_user)
  end.
Definition site_undefined (bidder_name : string) : FpdError :=
  BadInput bidder_name "Site object is not defined in request, but defined in FPD config".
Definition site_empty (bidder_name : string) : FpdError :=
  BadInput bidder_name "Site object cannot set empty page if req.site.id is empty".
Definition app_undefined (bidder_name : string) : FpdError :=
  BadInput bidder_name "App object is not defined in request, but defined in FPD config".
Definition global_section (section content_key : string) (obj : Value) : Value :=
  with_some set_content_data (open_rtb_global !! content_key)
    (with_some (λ data s, apply_global_ext_data s data) (global_fpd !! section) obj).
Definition resolve_site (fpd_config : option BidderFpdConfig) (req_site : option Value) (bidder_name : string)
    : outcome FpdError (option Value) :=
  match req_site, fpd_config ≫= bfc_site with
  | None, None => Ok None
  | None, Some _ => Err (site_undefined bidder_name)
  | Some site, cfg_site =>
      let new_site := global_section "site" "siteContentData" site in
      match cfg_site with
      | None => Ok (Some new_site)
      | Some cfg =>
          let new_site := fpd_merge_clone new_site cfg in
          let id := default "" (get "id" new_site ≫= as_str) in
          let page := default "" (get "page" new_site ≫= as_str) in
          if str_is_empty id && str_is_empty page then Err (site_empty bidder_name) else Ok (Some new_site)
      end
  end.
Definition resolve_app (fpd_config : option BidderFpdConfig) (req_app : option Value) (bidder_name : string)
    : outcome FpdError (option Value) :=
  match req_app, fpd_config ≫= bfc_app with
  | None, None => Ok None
  | None, Some _ => Err (app_undefined bidder_name)
  | Some app, cfg_app =>
      Ok (Some (with_some (λ cfg a, fpd_merge_clone a cfg) cfg_app (global_section "app" "appContentData" app)))
  end.
Definition resolve_device (fpd_config : option BidderFpdConfig) (req_device : option Value) : option Value :=
  match req_device, fpd_config ≫= bfc_device with
  | None, None => None
  | _, cfg_device => Some (with_some (λ cfg d, fpd_merge_clone d cfg) cfg_device (default (VObject []) req_device))
  end.
(** The sections of a bidder, or its errors: app before site. *)
Definition crate_resolve_bidder (bid_request : Value) (cfg : option BidderFpdConfig) (bidder : string)
    : CrateResolved + list FpdError :=
  let new_user := resolve_user cfg (get "user" bid_request) in
  let new_device := resolve_device cfg (get "device" bid_request) in
  match resolve_app cfg (get "app" bid_request) bidder, resolve_site cfg (get "site" bid_request) bidder with
  | Ok new_app, Ok new_site =>
      inl {| crd_site := new_site; crd_app := new_app; crd_user := new_user; crd_device := new_device |}
  | Err e, Err e' => inr [e; e']
  | Err e, _ | _, Err e => inr [e]
  | _, _ => inr []
  end.
Definition crate_resolve_step (bid_request : Value) (fpd_bidder_config : gmap string BidderFpdConfig)
    (acc : gmap string CrateResolved * list FpdError) (bidder : string)
    : gmap string CrateResolved * list FpdError :=
  match crate_resolve_bidder bid_request (fpd_bidder_config !! bidder) bidder with
  | inl r => (<[bidder := r]> acc.1, acc.2)
  | inr local_errors => (acc.1, acc.2 ++ local_errors)
  end.
Definition crate_resolve_fpd `{MI : MapIter} (bid_request : Value)
    (fpd_bidder_config : gmap string BidderFpdConfig) (bidders_with_global_fpd : option (list string))
    : gmap string CrateResolved * list FpdError :=
  let bidders := match bidders_with_global_fpd with
                 | Some list => to_ascii_lowercase <$> list
                 | None => (map_iter fpd_bidder_config).*1
                 end in
  fold_left (crate_resolve_step bid_request fpd_bidder_config) bidders (∅, []).
End CrateResolve.

(** ** The merges *)

Lemma fields_ext f g p m : (∀ k v o, (k, v) ∈ p → f o v = g o v) → fields f p m = fields g p m.
Proof.
  revert m. induction p as [|[k v] p IH]; intros m H; [done|]. cbn.
  rewrite (H k v) by by left. apply IH. intros k' v' o Hin. apply (H k'). by right.
Qed.
Lemma clone_fields_fields f p m : clone_fields f p m = fields (λ o v, Some (clone_field f o v)) p m.
Proof. revert m. induction p as [|[k v] p IH]; intros m; [done|]. cbn. apply IH. Qed.
Definition entry_field (merge : Value → Value → Value) (drop_null : bool) (o : option Value) (v : Value) : option Value :=
  if drop_null && is_null v then None else Some (merge (default VNull o) v).
Lemma entry_fields_fields f d p m : entry_fields f d p m = fields (entry_field f d) p m.
Proof. revert m. induction p as [|[k v] p IH]; intros m; [done|]. cbn. unfold entry_field. rewrite IH. by destruct (d && is_null v). Qed.

(** The crate's clone is the exchange's merge: an entry that starts as null becomes
    the patch's value. *)
Lemma fpd_merge_clone_json p : ∀ t, fpd_merge_clone t p = merge_json_objects t p.
Proof.
  induction p as [|bo|nu|st|li ?|m IH] using Value_nested_ind; intros t; try done.
  destruct t as [| | | | |tm]; try done. cbn. f_equal.
  rewrite entry_fields_fields, clone_fields_fields. apply fields_ext. intros k v o Hin.
  unfold entry_field, clone_field. cbn. rewrite Forall_forall in IH. specialize (IH _ Hin). cbn in IH.
  destruct o as [u|]; cbn; [by rewrite IH|]. f_equal. rewrite IH. by destruct v.
Qed.
(** Where a patch holds no null the merges agree with [JsonMerge.merge_patch], and
    so with RFC 7386. *)
Lemma merges_agree p : value_wf p → null_free p → ∀ t, value_wf t →
  fpd_merge_patch t p = merge_patch t p ∧ merge_json_objects t p = merge_patch t p.
Proof.
  assert (Hfresh : ∀ p, value_wf p → null_free p → ∀ t, is_object t = false → merge_patch t p = p).
  { intros q Hq Hn t Ht. transitivity (merge_patch VNull q).
    - destruct q; try done. rewrite !merge_patch_fields. by destruct t.
    - rewrite merge_patch_rfc by done. by apply rfc_merge_fresh. }
  induction p as [|bo|nu|st|li ?|m IH] using Value_nested_ind; intros Hp Hn t Ht; try done.
  destruct (is_object t) eqn:Hto; [|rewrite Hfresh by done; by destruct t].
  destruct t as [| | | | |tm]; try done. pose proof Hp as [Hs Hp']%value_wf_object.
  pose proof Ht as [Hts Ht']%value_wf_object. rewrite merge_patch_fields.
  cbn [fpd_merge_patch merge_json_objects object_or_empty].
  assert (Hstep : ∀ k v, obj_get k m = Some v → is_null v = false ∧ ∀ u, value_wf u →
    fpd_merge_patch u v = merge_patch u v ∧ merge_json_objects u v = merge_patch u v).
  { intros k v Hv. destruct (null_free_get k m v Hn Hv) as [H1 H2]. split; [done|].
    rewrite Forall_forall in IH. apply (IH _ (obj_get_elem_of _ _ _ Hv)); eauto. }
  split; f_equal; [rewrite entry_fields_fields|rewrite clone_fields_fields];
    (apply obj_sorted_ext; [by apply fields_sorted..|]); intros k; rewrite !fields_get by done;
    (destruct (obj_get k m) as [v|] eqn:Hv; [|done]); destruct (Hstep k v Hv) as [H1 H2];
    unfold entry_field, clone_field, patch_field; rewrite H1; cbn;
    (destruct (obj_get k tm) as [u|] eqn:Hu; cbn; [f_equal; apply H2; eauto|]); [|done].
  f_equal. destruct (H2 VNull) as [-> _]; [done|]. apply Hfresh; [..|done]; eauto.
  by destruct (null_free_get k m v Hn Hv).
Qed.

(** ** The exchange's pipeline *)

Lemma insert_some_lookup {A} k (v : option A) m k' :
  insert_some k v m !! k' = if bool_decide (k = k') then match v with Some v => Some v | None => m !! k' end else m !! k'.
Proof.
  case_bool_decide as H; [subst|]; destruct v; cbn; try done; [apply lookup_insert_eq|by apply lookup_insert_ne].
Qed.
Lemma fold_insert_each {A} (f : string → A) names (m : gmap string A) b :
  fold_left (λ (m : gmap string A) b, <[b := f b]> m) names m !! b = if bool_decide (b ∈ names) then Some (f b) else m !! b.
Proof.
  revert m. induction names as [|n names IH]; intros m; cbn [fold_left]; [done|]. rewrite IH.
  destruct (decide (b ∈ names)) as [H|H].
  - by rewrite !bool_decide_true by (try right; done).
  - rewrite bool_decide_false by done. destruct (decide (b = n)) as [->|Hne].
    + rewrite bool_decide_true by by left. by rewrite lookup_insert_eq.
    + rewrite bool_decide_false by by apply not_elem_of_cons. by rewrite lookup_insert_ne.
Qed.
Lemma resolve_fpd_fmap `{FpdCodec, MI : MapIter} request configs :
  resolve_fpd request configs = apply_fpd_to_request request <$> configs.
Proof.
  unfold resolve_fpd. apply map_eq. intros b. rewrite lookup_fmap.
  assert (Hg : ∀ l (m : gmap string BidRequest), NoDup l.*1 → fold_left (λ result '(bidder_name, config),
      <[bidder_name := apply_fpd_to_request request config]> result) l m !! b =
    match (list_to_map l : gmap string FpdConfig) !! b with
    | Some c => Some (apply_fpd_to_request request c) | None => m !! b end).
  { induction l as [|[b' c] l IH]; intros m; cbn; [by rewrite lookup_empty|].
    intros [Hb Hl]%NoDup_cons. rewrite IH by done. destruct (decide (b' = b)) as [->|Hne].
    - rewrite not_elem_of_list_to_map_1 by done. by rewrite !lookup_insert_eq.
    - by rewrite !lookup_insert_ne. }
  pose proof (map_iter_perm _ configs) as Hperm.
  assert (Hnd : NoDup (map_iter configs).*1) by (rewrite Hperm; apply NoDup_fst_map_to_list).
  rewrite Hg by done. rewrite (list_to_map_proper _ _ Hnd Hperm), list_to_map_to_list.
  destruct (configs !! b); cbn; [done|]. by rewrite lookup_empty.
Qed.

Lemma take_put ext : (∀ v, ext = Some v → value_wf v) →
  match (take_ext_data ext).1 with
  | Some data => put_ext_data data (take_ext_data ext).2 = ext
  | None => (take_ext_data ext).2 = ext
  end.
Proof.
  intros Hwf. destruct ext as [[| | | | |m]|]; try done. cbn.
  destruct (obj_get "data" m) as [d|] eqn:Hd; [|done]. cbn. do 2 f_equal.
  destruct (Hwf _ eq_refl) as [Hs _].
  apply obj_sorted_ext; [by apply obj_sorted_insert, obj_sorted_remove|done|]. intros k.
  rewrite obj_get_insert, obj_get_remove by (try apply obj_sorted_remove; done).
  repeat case_bool_decide; by subst.
Qed.

(** What the pipeline loses: [data] of the contents, and of the app's extension. *)
Definition without_content_data (s : Site) : Site := set_site_content (set_cnt_data [] <$> site_content s) s.
Definition app_without_data (a : App) : App :=
  let a := set_app_ext (take_ext_data (app_ext a)).2 a in
  set_app_content (set_cnt_data [] <$> app_content a) a.
Definition exts_wf (req : BidRequest) : Prop :=
  (∀ s v, req_site req = Some s → site_ext s = Some v → value_wf v) ∧
  (∀ a v, req_app req = Some a → app_ext a = Some v → value_wf v) ∧
  (∀ u v, req_user req = Some u → user_ext u = Some v → value_wf v).
(** Sections without the first-party data they had: an extension without its [data]
    and otherwise as it was, contents and a user without their list of data. *)
Definition ext_stripped (ext ext' : option Value) : Prop :=
  match ext with
  | Some (VObject m) => ∃ m', ext' = Some (VObject m') ∧ obj_get "data" m' = None ∧
      ∀ k, k ≠ "data" → obj_get k m' = obj_get k m
  | _ => ext' = ext
  end.
Definition site_stripped (s s' : Site) : Prop :=
  ext_stripped (site_ext s) (site_ext s') ∧ site_content s' = set_cnt_data [] <$> site_content s ∧
  set_site_content (site_content s) (set_site_ext (site_ext s) s') = s.
Definition app_stripped (a a' : App) : Prop :=
  ext_stripped (app_ext a) (app_ext a') ∧ app_content a' = set_cnt_data [] <$> app_content a ∧
  set_app_content (app_content a) (set_app_ext (app_ext a) a') = a.
Definition user_stripped (u u' : User) : Prop :=
  ext_stripped (user_ext u) (user_ext u') ∧ user_data u' = [] ∧
  set_user_data (user_data u) (set_user_ext (user_ext u) u') = u.
Lemma take_stripped ext : (∀ v, ext = Some v → value_wf v) → ext_stripped ext (take_ext_data ext).2.
Proof.
  intros Hwf. destruct ext as [[| | | | |m]|]; try done. destruct (Hwf _ eq_refl) as [Hs _]. cbn.
  destruct (obj_get "data" m) as [d|] eqn:Hd; cbn; eexists; (split; [done|]); [|done].
  split; [by rewrite obj_get_remove, bool_decide_true by done|].
  intros k Hk. by rewrite obj_get_remove, bool_decide_false by done.
Qed.
Lemma app_without_data_stripped a : (∀ v, app_ext a = Some v → value_wf v) → app_stripped a (app_without_data a).
Proof.
  intros Hwf. apply take_stripped in Hwf. unfold app_stripped, app_without_data. by destruct a.
Qed.
Lemma set_user_same_ext u : set_user_ext (user_ext u) u = u.
Proof. by destruct u. Qed.
Lemma set_user_same_data u : set_user_data (user_data u) u = u.
Proof. by destruct u. Qed.
Lemma restored_user u : (∀ v, user_ext u = Some v → value_wf v) →
  let u' := set_user_data [] (set_user_ext (take_ext_data (user_ext u)).2 u) in
  let u' := match taken (user_data u) with Some d => set_user_data (user_data u' ++ d) u' | None => u' end in
  match (take_ext_data (user_ext u)).1 with
  | Some d => set_user_ext (put_ext_data d (user_ext u')) u' | None => u'
  end = u.
Proof.
  intros Hwf. pose proof (take_put _ Hwf) as H. destruct u. cbn in *.
  destruct user_data as [|x l]; cbn; (destruct (take_ext_data user_ext) as [[d|] e]; cbn in *; [by rewrite H|by subst]).
Qed.
Lemma restored_site s : (∀ v, site_ext s = Some v → value_wf v) →
  let s' := set_site_content (take_content_data (site_content s)).2 (set_site_ext (take_ext_data (site_ext s)).2 s) in
  match (take_ext_data (site_ext s)).1 with
  | Some d => set_site_ext (put_ext_data d (site_ext s')) s' | None => s'
  end = without_content_data s.
Proof.
  intros Hwf. pose proof (take_put _ Hwf) as H. destruct s. cbn in *.
  destruct (take_ext_data site_ext) as [[d|] e]; cbn in *; [by rewrite H|by subst].
Qed.

Lemma set_site_ext_ext e s : site_ext (set_site_ext e s) = e.
Proof. by destruct s. Qed.

Section Pipeline.
Context `{FC : FpdCodec} (request : BidRequest).
(** The request without its first-party data. *)
Definition stripped : BidRequest := (extract_openrtb_global_fpd (extract_global_fpd request).2).2.
Lemma stripped_parts :
  req_user stripped = (λ u, set_user_data [] (set_user_ext (take_ext_data (user_ext u)).2 u)) <$> req_user request ∧
  req_site stripped = (λ s, set_site_content (take_content_data (site_content s)).2
    (set_site_ext (take_ext_data (site_ext s)).2 s)) <$> req_site request ∧
  req_app stripped = app_without_data <$> req_app request ∧ req_ext stripped = req_ext request.
Proof.
  unfold stripped. destruct request. cbn -[take_ext_data take_content_data set_user_data set_user_ext set_site_content set_site_ext set_app_ext set_app_content].
  rewrite <-!option_fmap_compose. repeat split; by apply option_fmap_ext.
Qed.
Lemma globals_lookup :
  (extract_global_fpd request).1 !! "user" = (req_user request ≫= λ u, (take_ext_data (user_ext u)).1) ∧
  (extract_global_fpd request).1 !! "site" = (req_site request ≫= λ s, (take_ext_data (site_ext s)).1) ∧
  (extract_openrtb_global_fpd (extract_global_fpd request).2).1 !! "user" = (req_user request ≫= λ u, taken (user_data u)).
Proof.
  unfold extract_global_fpd, extract_openrtb_global_fpd. cbn [fst snd].
  rewrite !insert_some_lookup, !lookup_empty.
  rewrite !(bool_decide_true ("user" = "user")), !(bool_decide_true ("site" = "site")), !(bool_decide_false ("user" = "site")), !(bool_decide_false ("app" = _)),
    !(bool_decide_false ("appContent" = _)), !(bool_decide_false ("siteContent" = _)) by done.
  destruct request. cbn -[take_ext_data take_content_data]. split_and!.
  - by destruct (req_user ≫= _).
  - by destruct (req_site ≫= _).
  - destruct req_user as [u|]; [|done]. cbn. destruct u. cbn. by destruct (taken _).
Qed.
Lemma fpd_for_bidder bidders b : b ∈ bidders →
  (extract_fpd_for_bidders request bidders).1 !! b = Some (resolve_fpd_bidder (extract_global_fpd request).1
    (extract_openrtb_global_fpd (extract_global_fpd request).2).1
    (apply_fpd_to_request stripped (extract_fpd_for_bidder request b))).
Proof.
  intros Hb. unfold extract_fpd_for_bidders, stripped.
  assert (He : ∀ b, extract_fpd_for_bidder (extract_openrtb_global_fpd (extract_global_fpd request).2).2 b =
    extract_fpd_for_bidder request b).
  { intros b'. unfold extract_fpd_for_bidder. destruct stripped_parts as (_ & _ & _ & Hx). unfold stripped in Hx. by rewrite Hx. }
  destruct (extract_global_fpd request) as [g r1]. cbn [snd fst] in *.
  destruct (extract_openrtb_global_fpd r1) as [o r2]. cbn [snd fst] in *.
  rewrite (fold_insert_each (λ b, resolve_fpd_bidder g o (apply_fpd_to_request r2 (extract_fpd_for_bidder r2 b)))).
  by rewrite bool_decide_true, He.
Qed.

Lemma stripped_sections : exts_wf request →
  option_Forall2 site_stripped (req_site request) (req_site stripped) ∧
  option_Forall2 app_stripped (req_app request) (req_app stripped) ∧
  option_Forall2 user_stripped (req_user request) (req_user stripped) ∧
  set_req_user (req_user request) (set_req_app (req_app request)
    (set_req_site (req_site request) stripped)) = request.
Proof.
  intros (Hs&Ha&Hu). destruct stripped_parts as (->&->&->&_). split_and!.
  - destruct (req_site request) as [s|]; constructor. pose proof (take_stripped _ (λ v, Hs s v eq_refl)).
    unfold site_stripped, take_content_data. by destruct s.
  - destruct (req_app request) as [a|]; constructor. apply app_without_data_stripped. eauto.
  - destruct (req_user request) as [u|]; constructor. pose proof (take_stripped _ (λ v, Hu u v eq_refl)).
    unfold user_stripped. by destruct u.
  - unfold stripped. by destruct request.
Qed.

(** C24: First-party data is taken out of a request and only partly given back.  For
    a request with well-formed extensions: bidders that are not asked for get
    nothing.  A bidder without a configuration of its own gets the request's user
    whole and its site but for [content.data]; of the app neither the [data] of its
    extension nor [content.data] comes back, only the rest.  Whatever a
    bidder's configuration, the [data] of its site's extension, if that is an object, is
    the request's where it had any, never the bidder's own.  What is left of
    the request has none of that data in its site, app and user, and all the
    rest. *)
Theorem fpd_for_bidders_spec bidders b : exts_wf request →
  let '(resolved, remaining) := extract_fpd_for_bidders request bidders in
  let r := resolved !! b in
  (b ∉ bidders → r = None) ∧
  (b ∈ bidders → extract_fpd_for_bidder request b = default_fpc → ∃ r', r = Some r' ∧
     rfp_user r' = req_user request ∧
     rfp_site r' = (λ s, set_site_content (set_cnt_data [] <$> site_content s) s) <$> req_site request ∧
     option_Forall2 app_stripped (req_app request) (rfp_app r')) ∧
  (∀ s m d, b ∈ bidders → req_site request = Some s → site_ext s = Some (VObject m) →
     obj_get "data" m = Some d →
     ∃ r' s', r = Some r' ∧ rfp_site r' = Some s' ∧
       ∀ v, site_ext s' = Some v → is_object v = true → get "data" v = Some d) ∧
  option_Forall2 site_stripped (req_site request) (req_site remaining) ∧
  option_Forall2 app_stripped (req_app request) (req_app remaining) ∧
  option_Forall2 user_stripped (req_user request) (req_user remaining) ∧
  set_req_user (req_user request) (set_req_app (req_app request)
    (set_req_site (req_site request) remaining)) = request.
Proof.
  intros Hwf. pose proof Hwf as (Hs&Ha&Hu). pose proof (stripped_sections Hwf) as Hleft.
  assert (Hst : (extract_fpd_for_bidders request bidders).2 = stripped).
  { unfold stripped, extract_fpd_for_bidders. destruct (extract_global_fpd request) as [g r1]. cbn [snd].
    by destruct (extract_openrtb_global_fpd r1). }
  rewrite <-Hst in Hleft. rewrite (surjective_pairing (extract_fpd_for_bidders request bidders)).
  set (r := (extract_fpd_for_bidders request bidders).1 !! b). cbn zeta. clear Hst.
  split; [|split; [|split; [|exact Hleft]]]; clear Hleft.
  - intros Hb. unfold r, extract_fpd_for_bidders. destruct (extract_global_fpd request) as [g r1].
    destruct (extract_openrtb_global_fpd r1) as [o r2]. cbn [fst].
    by rewrite (fold_insert_each (λ b, resolve_fpd_bidder g o (apply_fpd_to_request r2 (extract_fpd_for_bidder r2 b)))), bool_decide_false.
  - intros Hb Hd. unfold r. rewrite fpd_for_bidder, Hd by done. eexists. split; [done|].
    destruct stripped_parts as (Hpu & Hps & Hpa & _), globals_lookup as (Hgu & Hgs & Hgd).
    unfold resolve_fpd_bidder. rewrite Hgu, Hgs, Hgd. unfold apply_fpd_to_request, merge_section. cbn [fpc_site fpc_app fpc_user default_fpc].
    generalize (extract_fpd_for_bidder request b). intros _. revert Hpu Hps Hpa. generalize stripped. intros st Hpu Hps Hpa.
    assert (Hst : ∀ x y z, x = req_site st → y = req_app st → z = req_user st →
      set_req_user z (set_req_app y (set_req_site x st)) = st) by (intros ??? -> -> ->; by destruct st).
    replace (set_req_user _ _) with st by (destruct st; done).
    rewrite Hpu, Hps, Hpa. cbn [rfp_user rfp_site rfp_app]. split; [|split].
    + destruct (req_user request) as [u|] eqn:Hru; [|done]. cbn [mbind option_bind fmap option_fmap option_map default].
      etrans; [|apply (f_equal Some), (restored_user u); eauto]. by destruct (taken (user_data u)), (take_ext_data (user_ext u)).1.
    + destruct (req_site request) as [s|] eqn:Hrs; [|done]. cbn [mbind option_bind fmap option_fmap option_map default].
      change (set_site_content _ s) with (without_content_data s).
      rewrite <-(restored_site s) by eauto. by destruct (take_ext_data (site_ext s)).1.
    + destruct (req_app request) as [a|] eqn:Hra; constructor. apply app_without_data_stripped. eauto.
  - intros s m d Hb Hrs Hext Hd. unfold r. rewrite fpd_for_bidder by done. destruct globals_lookup as (_ & Hgs & _).
    eexists _, _. split; [done|]. unfold resolve_fpd_bidder. rewrite Hgs, Hrs. cbn [mbind option_bind].
    rewrite Hext. cbn [take_ext_data]. rewrite Hd. cbn [fst rfp_site]. split; [done|].
    intros v. rewrite set_site_ext_ext. unfold put_ext_data. destruct (default _ _); intros [= <-]; try done.
    intros _. apply obj_get_insert_same.
Qed.
End Pipeline.


(** A codec whose reading undoes its writing, for the user; the other sections have
    no JSON. *)
Definition sample_fpd_codec : FpdCodec := {|
  fpd_site_to _ := None; fpd_site_from _ := None; fpd_app_to _ := None; fpd_app_from _ := None;
  fpd_user_to u := user_ext u; fpd_user_from v := Some (set_user_ext (Some v) default_user) |}.
Definition sample_fpd_request : BidRequest :=
  set_req_user (Some (set_user_data [default_data] (set_user_ext (Some (VObject [("data", VBool true)])) default_user)))
    (set_req_site (Some (set_site_ext (Some (VObject [("data", VNull); ("x", VNull)])) default_site)) default_req).
Lemma fpd_for_bidders_spec_witness :
  let '(resolved, remaining) :=
    extract_fpd_for_bidders (FC := sample_fpd_codec) sample_fpd_request ["a"; "b"] in
  exts_wf sample_fpd_request ∧
  (rfp_user <$> resolved !! "b") = Some (req_user sample_fpd_request) ∧
  option_Forall2 user_stripped (req_user sample_fpd_request) (req_user remaining).
Proof.
  assert (Hwf : exts_wf sample_fpd_request).
  { split_and!; intros x v Hx Hv; vm_compute in Hx; simplify_eq; vm_compute in Hv; simplify_eq; by vm_compute; repeat constructor. }
  pose proof (fpd_for_bidders_spec (FC := sample_fpd_codec) sample_fpd_request ["a"; "b"] "b" Hwf) as H.
  destruct (extract_fpd_for_bidders sample_fpd_request ["a"; "b"]) as [resolved remaining].
  destruct H as (_ & H & _ & _ & _ & Hu & _). split; [exact Hwf|]. split; [|exact Hu].
  destruct H as (r' & -> & Hr & _); [right; left|vm_compute; reflexivity|]. cbn. by rewrite Hr.
Defined.

(** ** The crate's resolution *)

(** Why a bidder gets nothing: a configured section the request lacks, or a site
    left without id and page. *)
Definition fpd_refused (global open_rtb : gmap string Value) (bid_request : Value)
    (cfg : option BidderFpdConfig) (bidder : string) : list FpdError :=
  (if bool_decide (is_Some (cfg ≫= bfc_app)) && bool_decide (get "app" bid_request = None)
   then [app_undefined bidder] else []) ++
  match cfg ≫= bfc_site, get "site" bid_request with
  | Some _, None => [site_undefined bidder]
  | Some c, Some s =>
      let site := fpd_merge_clone (global_section global open_rtb "site" "siteContentData" s) c in
      if str_is_empty (default "" (get "id" site ≫= as_str)) && str_is_empty (default "" (get "page" site ≫= as_str))
      then [site_empty bidder] else []
  | None, _ => []
  end.
Lemma crate_resolve_bidder_spec global open_rtb bid_request cfg bidder :
  match crate_resolve_bidder global open_rtb bid_request cfg bidder with
  | inl _ => fpd_refused global open_rtb bid_request cfg bidder = []
  | inr errors => errors ≠ [] ∧ errors = fpd_refused global open_rtb bid_request cfg bidder
  end.
Proof.
  unfold crate_resolve_bidder, fpd_refused, resolve_app, resolve_site.
  destruct (get "app" bid_request), (cfg ≫= bfc_app), (get "site" bid_request), (cfg ≫= bfc_site); cbn;
    try done; by destruct (str_is_empty _ && _).
Qed.
(** A bidder that is asked for is resolved exactly when it is not refused, and the
    errors are the refusals, in the order of the bidders. *)
Lemma crate_resolve_fpd_spec `{MI : MapIter} global open_rtb bid_request configs (bidders : list string) :
  let r := crate_resolve_fpd global open_rtb bid_request configs (Some bidders) in
  (∀ b, r.1 !! b = if bool_decide (b ∈ to_ascii_lowercase <$> bidders) then
     match crate_resolve_bidder global open_rtb bid_request (configs !! b) b with inl x => Some x | inr _ => None end
     else None) ∧
  r.2 = flat_map (λ b, fpd_refused global open_rtb bid_request (configs !! b) b) (to_ascii_lowercase <$> bidders).
Proof.
  cbn. generalize (to_ascii_lowercase <$> bidders) as l. intros l.
  assert (H : ∀ acc, let r := fold_left (crate_resolve_step global open_rtb bid_request configs) l acc in
    (∀ b, r.1 !! b = match (if bool_decide (b ∈ l) then
       match crate_resolve_bidder global open_rtb bid_request (configs !! b) b with inl x => Some x | inr _ => None end
       else None) with Some x => Some x | None => acc.1 !! b end) ∧
    r.2 = acc.2 ++ flat_map (λ b, fpd_refused global open_rtb bid_request (configs !! b) b) l).
  { induction l as [|n l IH]; intros acc; cbn [fold_left flat_map]; [by rewrite app_nil_r|].
    destruct (IH (crate_resolve_step global open_rtb bid_request configs acc n)) as [H1 H2].
    split; [|rewrite H2]; unfold crate_resolve_step;
      pose proof (crate_resolve_bidder_spec global open_rtb bid_request (configs !! n) n) as Hn.
    - intros b. rewrite H1. unfold crate_resolve_step.
      destruct (decide (b = n)) as [->|Hne].
      + rewrite (bool_decide_true (n ∈ n :: l)) by by left.
        destruct (crate_resolve_bidder _ _ _ (configs !! n) n) as [x|es]; cbn.
        * rewrite lookup_insert_eq. by destruct (bool_decide (n ∈ l)).
        * by destruct (bool_decide (n ∈ l)).
      + rewrite (bool_decide_ext (b ∈ n :: l) (b ∈ l)) by set_solver.
        destruct (crate_resolve_bidder _ _ _ (configs !! n) n); cbn; by rewrite ?lookup_insert_ne by done.
    - destruct (crate_resolve_bidder _ _ _ (configs !! n) n) as [x|es]; cbn.
      + by rewrite Hn.
      + destruct Hn as [_ <-]. by rewrite <-app_assoc. }
  destruct (H (∅, [])) as [H1 H2]. split; [|done]. intros b. rewrite H1. cbn. rewrite lookup_empty. by break_match.
Qed.
(** Two entries for one bidder, in any case of letters, are refused. *)
Lemma bidder_configs_unique name bc fpd : is_Some (fpd !! to_ascii_lowercase name) →
  get "bidders" bc = Some (VArray [VString name]) → add_bidder_configs fpd bc = Err (multiple_configs name).
Proof. intros [c Hc] Hb. unfold add_bidder_configs. rewrite Hb. cbn. unfold add_bidder_config. cbn. by rewrite Hc. Qed.
