(* ===== verification/Util.v ===== *)
(** * The util crate

    util/src: JSON merging, search and removal (jsonutil.rs), reads of JSON objects
    (maputil.rs), lists (sliceutil.rs), strings (stringutil.rs), iOS versions
    (iosutil.rs), and the client's address out of a request (httputil.rs).  serde_json's
    reading and printing, and the printer of [f64], are parameters; URLs, random
    numbers, clocks and uuids belong to libraries.  [IpUtil] models iputil.rs. *)

From S2P Require Import Prelude IpUtil Text Json JsonMerge OpenRtb Scrubber FirstPartyData.
Open Scope Z_scope.

(** ** jsonutil.rs *)

Fixpoint util_deep_merge (target source : Value) {struct source} : Value :=
  match target, source with
  | VObject t, VObject s =>
      VObject ((fix go (s t : list (string * Value)) : list (string * Value) :=
        match s with
        | [] => t
        | (key, src_val) :: s' =>
            go s' (obj_insert key (util_deep_merge (default VNull (obj_get key t)) src_val) t)
        end) s t)
  | _, _ => source
  end.

(** Bytes are characters of a string. *)
Definition is_json_space (a : Ascii.ascii) : bool :=
  bool_decide (a = ch " ") || bool_decide (a = Ascii.ascii_of_nat 10) ||
  bool_decide (a = Ascii.ascii_of_nat 13) || bool_decide (a = Ascii.ascii_of_nat 9).
(** [while pos < raw.len() && p(raw[pos]) { pos += 1 }] *)
Fixpoint count_while (p : Ascii.ascii → bool) (s : string) : nat :=
  match s with
  | String a s' => if p a then S (count_while p s') else 0
  | "" => 0
  end.
Definition skip_while (p : Ascii.ascii → bool) (raw : string) (pos : nat) : nat :=
  (pos + count_while p (str_drop pos raw))%nat.
(** [while check > 0 && p(raw[check]) { check -= 1 }] *)
Fixpoint skip_back (p : Ascii.ascii → bool) (raw : string) (check : nat) : nat :=
  match check with
  | O => O
  | S check' =>
      match String.get check raw with
      | Some a => if p a then skip_back p raw check' else check
      | None => check
      end
  end.
Definition byte_is (c : Ascii.ascii) (raw : string) (pos : nat) : bool :=
  bool_decide (String.get pos raw = Some c).

Section FindElement.
Context {E : Type} (from_slice : string → outcome E Value) (to_vec : Value → outcome E string).
(** The key and its value in the raw bytes, with the commas around them. *)
Definition locate_entry (raw element_name : string) (found_value : Value) : outcome E (bool * nat * nat) :=
  let search_key := dq +:+ element_name +:+ dq in
  match str_find search_key raw with
  | None => Ok (false, 0%nat, 0%nat)
  | Some key_pos =>
      let colon_pos := skip_while (λ a, negb (bool_decide (a = ch ":"))) raw (key_pos + String.length search_key) in
      let value_start := S colon_pos in
      value_bytes ← to_vec found_value;
      let end_pos := skip_while is_json_space raw value_start in
      let end_pos := (end_pos + String.length value_bytes)%nat in
      let end_pos := skip_while is_json_space raw end_pos in
      let start :=
        if (0 <? key_pos)%nat then
          let check := skip_back is_json_space raw (key_pos - 1) in
          if byte_is (ch ",") raw check then check else key_pos
        else key_pos in
      let end_pos := if byte_is (ch ",") raw end_pos then S end_pos else end_pos in
      Ok (true, start, end_pos)
  end.
Fixpoint find_element (extension : string) (element_names : list string) : outcome E (bool * nat * nat) :=
  match element_names with
  | [] => Ok (false, 0%nat, 0%nat)
  | element_name :: rest =>
      value ← from_slice extension;
      match value with
      | VObject map =>
          match obj_get element_name map with
          | Some found_value =>
              match rest with
              | [] => locate_entry extension element_name found_value
              | _ :: _ =>
                  nested_bytes ← to_vec found_value;
                  '(found, s, e) ← find_element nested_bytes rest;
                  Ok (if (found : bool) then (true, s, e) else (false, 0%nat, 0%nat))
              end
          | None => Ok (false, 0%nat, 0%nat)
          end
      | _ => Ok (false, 0%nat, 0%nat)
      end
  end.

(** Whether something was dropped, and the value. *)
Fixpoint drop_element_from_value (element_names : list string) (value : Value) : bool * Value :=
  match element_names, value with
  | name :: rest, VObject map =>
      match rest with
      | [] => (bool_decide (is_Some (obj_get name map)), VObject (obj_remove name map))
      | _ :: _ =>
          match obj_get name map with
          | Some nested =>
              let '(dropped, nested) := drop_element_from_value rest nested in
              (dropped, VObject (obj_insert name nested map))
          | None => (false, value)
          end
      end
  | _, _ => (false, value)
  end.
Definition drop_element (extension : string) (element_names : list string) : outcome E Value :=
  value ← from_slice extension; Ok (drop_element_from_value element_names value).2.

Definition util_merge_clone {T} (to_value : T → outcome E Value) (from_value : Value → outcome E T)
    (existing : T) (incoming : string) : outcome E T :=
  existing_value ← to_value existing;
  incoming_value ← from_slice incoming;
  from_value (util_deep_merge existing_value incoming_value).
End FindElement.

(** The visitors, by the value they are given. *)
Definition string_int (v : Value) : option Z :=
  match v with
  | VNumber (NegInt n) => Some n
  | VNumber (PosInt n) => Some (i64 n)
  | VString s => parse_int (- 2 ^ 63) (2 ^ 63 - 1) s
  | _ => None
  end.
Definition int_string (print_f64 : f64 → string) (v : Value) : option string :=
  match v with
  | VNumber (NegInt n) | VNumber (PosInt n) => Some (pretty n)
  | VNumber (Float x) => Some (print_f64 x)
  | VString s => Some s
  | _ => None
  end.

(** ** maputil.rs *)

Definition read_embedded_map (m : Value) (k : string) : option (list (string * Value)) := get k m ≫= as_object.
Definition read_embedded_slice (m : Value) (k : string) : option (list Value) := get k m ≫= as_array.
Definition read_embedded_string (m : Value) (k : string) : option string := get k m ≫= as_str.
Fixpoint has_element (current : Value) (keys : list string) : bool :=
  match keys with
  | [] => false
  | key :: keys' =>
      match get key current with
      | Some v => match keys' with [] => true | _ :: _ => has_element v keys' end
      | None => false
      end
  end.

(** ** sliceutil.rs *)

Definition unique_step {A} `{Countable A} (st : gset A * list A) (item : A) : gset A * list A :=
  if bool_decide (item ∈ st.1) then st else ({[ item ]} ∪ st.1, st.2 ++ [item]).
Definition unique_strings (items : list string) : list string :=
  (fold_left unique_step items (∅, [])).2.
Definition contains_string (items : list string) (target : string) : bool :=
  existsb (λ s, bool_decide (s = target)) items.
Definition contains_string_ignore_case (items : list string) (target : string) : bool :=
  existsb (λ s, eq_ignore_ascii_case s target) items.
Fixpoint index_func {A} (f : A → bool) (s : list A) : option nat :=
  match s with
  | [] => None
  | item :: s' => if f item then Some 0%nat else S <$> index_func f s'
  end.
Definition delete_func {A} (f : A → bool) (s : list A) : list A := List.filter (λ item, negb (f item)) s.
(** [*counts.entry(item).or_insert(0) += 1], at [i32]. *)
Definition count_item {A} `{Countable A} (counts : gmap A Z) (item : A) : gmap A Z :=
  <[ item := i32 (default 0 (counts !! item) + 1) ]> counts.
Definition count_items {A} `{Countable A} (s : list A) : gmap A Z := fold_left count_item s ∅.
Definition equal_ignore_order {A} `{Countable A} (s1 s2 : list A) : bool :=
  if (length s1 =? length s2)%nat then bool_decide (count_items s1 = count_items s2) else false.

(** ** stringutil.rs *)

Fixpoint all_some {A} (l : list (option A)) : option (list A) :=
  match l with
  | [] => Some []
  | x :: l' => a ← x; l ← all_some l'; Some (a :: l)
  end.
Definition str_to_int8_slice (s : string) : option (list Z) :=
  if str_is_empty s then Some []
  else all_some ((λ part, parse_int (- 128) 127 (trim part)) <$> split_char (ch ",") s).
(** [while end > 0 && !s.is_char_boundary(end) { end -= 1; }] *)
Fixpoint boundary_before (s : string) (e : nat) : nat :=
  match e with
  | O => O
  | S e' => if is_char_boundary e s then e else boundary_before s e'
  end.
Definition truncate_utf8 (s : string) (max_len : nat) : string :=
  if (String.length s <=? max_len)%nat then s
  else String.substring 0 (boundary_before s max_len) s.

(** ** iosutil.rs *)

Record IosVersion : Type := { ios_major : Z; ios_minor : Z }.
Definition ios_version_parse (v : string) : outcome string IosVersion :=
  match split_char (ch ".") v with
  | major :: minor :: patch =>
      if (1 <? length patch)%nat then Err "expected either major.minor or major.minor.patch format"
      else match parse_int (- 2 ^ 31) (2 ^ 31 - 1) major with
      | None => Err "major version is not an integer"
      | Some major =>
          match parse_int (- 2 ^ 31) (2 ^ 31 - 1) minor with
          | None => Err "minor version is not an integer"
          | Some minor => Ok {| ios_major := major; ios_minor := minor |}
          end
      end
  | _ => Err "expected either major.minor or major.minor.patch format"
  end.
Definition ios_equal (v : IosVersion) (major minor : Z) : bool := (ios_major v =? major) && (ios_minor v =? minor).
Definition ios_equal_or_greater (v : IosVersion) (major minor : Z) : bool :=
  if ios_major v =? major then minor <=? ios_minor v else major <? ios_major v.
Inductive VersionClassification : Type := VcUnknown | Version140 | Version141 | Version142OrGreater.
Definition detect_version_classification (v : string) : VersionClassification :=
  match ios_version_parse v with
  | Ok ios_version =>
      if ios_equal ios_version 14 0 then Version140
      else if ios_equal ios_version 14 1 then Version141
      else if ios_equal_or_greater ios_version 14 2 then Version142OrGreater
      else VcUnknown
  | _ => VcUnknown
  end.

(** ** mathutil.rs *)

Definition round_to_4_decimals (amount : f64) : f64 :=
  f64_div (f64_round (f64_mul amount (f64_of_Z 10000))) (f64_of_Z 10000).

(** ** httputil.rs *)

Inductive ContentEncoding : Type := Gzip | OtherEncoding (s : string).
Definition content_encoding_normalize (to_lowercase : string → string) (e : ContentEncoding) : ContentEncoding :=
  match e with
  | Gzip => Gzip
  | OtherEncoding s =>
      let lower := to_lowercase s in
      if bool_decide (lower = "gzip") then Gzip else OtherEncoding lower
  end.
Record RequestHeaders : Type := { rh_headers : gmap string (list string); rh_remote_addr : string }.

Section FindIp.
Context (is_valid : IpAddr → IpVersion → bool).
(** One address: [parse_ip] and the validator. *)
Definition valid_ip (text : string) : option (IpAddr * IpVersion) :=
  match parse_ip text with
  | (Some ip, ver) => if is_valid ip ver then Some (ip, ver) else None
  | (None, _) => None
  end.
Fixpoint first_valid (texts : list string) : option (IpAddr * IpVersion) :=
  match texts with
  | [] => None
  | t :: texts' => match valid_ip t with Some r => Some r | None => first_valid texts' end
  end.
(** The texts a header offers. *)
Definition header_texts (split : string → list string) (name : string) (req : RequestHeaders) : list string :=
  match rh_headers req !! name with
  | Some (value :: _) => trim <$> split value
  | _ => []
  end.
(** The host of [host:port]; a bracket at the start of the text makes the slice
    [1..0], which panics, as does one into a character. *)
Definition remote_host (remote_addr : string) : outcome string string :=
  match str_find "]" remote_addr with
  | Some bracket_end =>
      if (1 <=? bracket_end)%nat && is_char_boundary 1 remote_addr
      then Ok (String.substring 1 (bracket_end - 1) remote_addr) else Panic
  | None =>
      match str_rfind ":" remote_addr with
      | Some colon_pos => Ok (String.substring 0 colon_pos remote_addr)
      | None => Ok remote_addr
      end
  end.
Definition answer_ip (r : option (IpAddr * IpVersion)) : option IpAddr * IpVersion :=
  match r with Some (ip, ver) => (Some ip, ver) | None => (None, IpUnknown) end.
Definition find_ip (req : RequestHeaders) : outcome string (option IpAddr * IpVersion) :=
  match first_valid (header_texts (λ v, [v]) "true-client-ip" req) with
  | Some r => Ok (answer_ip (Some r))
  | None =>
  match first_valid (header_texts (split_char (ch ",")) "x-forwarded-for" req) with
  | Some r => Ok (answer_ip (Some r))
  | None =>
  match first_valid (header_texts (λ v, [v]) "x-real-ip" req) with
  | Some r => Ok (answer_ip (Some r))
  | None =>
      if str_is_empty (rh_remote_addr req) then Ok (answer_ip None)
      else host ← remote_host (rh_remote_addr req); Ok (answer_ip (valid_ip host))
  end end end.
End FindIp.

(** ** Theorems: JSON *)

Lemma util_deep_merge_obj t s :
  util_deep_merge (VObject t) (VObject s) = VObject (entry_fields (λ t p, util_deep_merge t p) false s t).
Proof. simpl. f_equal. revert t. induction s as [|[k v] s IH]; intros t; [done|]. simpl. by rewrite IH. Qed.
Lemma entry_fields_ext f g d s : Forall (λ p, ∀ t, f t p.2 = g t p.2) s →
  ∀ t, entry_fields f d s t = entry_fields g d s t.
Proof.
  induction 1 as [|[k v] s Hk Hs IH]; intros t; [done|]. simpl in *. rewrite IH.
  destruct (d && is_null v); [done|]. by rewrite Hk.
Qed.
(** util's merge is the first-party data crate's [merge_clone]. *)
Theorem deep_merges_agree source : ∀ target, util_deep_merge target source = fpd_merge_clone target source.
Proof.
  induction source as [| | | | |m IH] using Value_nested_ind; intros target; try by destruct target.
  destruct target as [| | | | |t]; try done. rewrite util_deep_merge_obj. simpl. f_equal.
  apply entry_fields_ext. exact IH.
Qed.

(** A path read out of a value after a step of it. *)
Lemma path_step k p v : json_path (k :: p) (Some v) = json_path p (get k v).
Proof. done. Qed.
Theorem has_element_spec keys : ∀ v, has_element v keys = true ↔ keys ≠ [] ∧ is_Some (json_path keys (Some v)).
Proof.
  induction keys as [|k keys IH]; intros v; [naive_solver|]. cbn [has_element]. rewrite path_step.
  destruct (get k v) as [w|]; cbn.
  - destruct keys as [|k' keys]; [split; [by eauto|done]|]. rewrite IH. naive_solver.
  - rewrite json_path_none. split; [done|]. by intros [_ [? ?]].
Qed.
Lemma has_element_step k k' names v : has_element v (k :: k' :: names) =
  match get k v with Some w => has_element w (k' :: names) | None => false end.
Proof. done. Qed.
Lemma drop_step k k' names m : drop_element_from_value (k :: k' :: names) (VObject m) =
  match obj_get k m with
  | Some nested =>
      let '(dropped, nested) := drop_element_from_value (k' :: names) nested in
      (dropped, VObject (obj_insert k nested m))
  | None => (false, VObject m)
  end.
Proof. done. Qed.
(** What is dropped is gone, it was there, and a value without it stays as it was. *)
Theorem drop_element_spec names : ∀ v, value_wf v → names ≠ [] →
  (drop_element_from_value names v).1 = has_element v names ∧
  has_element (drop_element_from_value names v).2 names = false ∧
  (has_element v names = false → (drop_element_from_value names v).2 = v).
Proof.
  induction names as [|k names IH]; intros v Hwf Hne; [done|]. clear Hne.
  destruct v as [| | | | |m]; try done. pose proof (proj1 (value_wf_object m) Hwf) as [Hs _].
  destruct names as [|k' names].
  - cbn. destruct (obj_get k m) as [w|] eqn:Hk.
    + rewrite obj_get_remove, bool_decide_true, bool_decide_true by done. done.
    + rewrite obj_remove_absent, Hk by done. done.
  - rewrite has_element_step, drop_step. cbn [get]. destruct (obj_get k m) as [w|] eqn:Hk.
    2: { rewrite has_element_step. cbn [fst snd get]. by rewrite Hk. }
    destruct (IH w) as (H1 & H2 & H3); [by apply (value_wf_get k (VObject m))|done|].
    destruct (drop_element_from_value (k' :: names) w) as [dropped w'].
    rewrite has_element_step. cbn [fst snd get] in *. rewrite obj_get_insert_same.
    split; [done|]. split; [done|]. intros Hn. rewrite (H3 Hn). by rewrite obj_insert_same.
Qed.

(** ** Theorems: lists *)

Section Unique.
Context {A : Type} `{Countable A}.
Lemma unique_fold l : ∀ st : gset A * list A, (∀ x, x ∈ st.1 ↔ x ∈ st.2) → NoDup st.2 →
  let r := fold_left unique_step l st in
  (∀ x, x ∈ r.1 ↔ x ∈ r.2) ∧ NoDup r.2 ∧ (∀ x, x ∈ r.2 ↔ x ∈ st.2 ∨ x ∈ l) ∧
  ∃ new, r.2 = st.2 ++ new ∧ new `sublist_of` l.
Proof.
  induction l as [|y l IH]; intros st Hst Hnd; cbn zeta in *; cbn [fold_left].
  - split; [done|]. split; [done|]. split; [set_solver|]. exists []. by rewrite app_nil_r.
  - destruct (decide (y ∈ st.1)) as [Hy|Hy].
    + assert (unique_step st y = st) as -> by (unfold unique_step; by rewrite bool_decide_true).
      destruct (IH st Hst Hnd) as (H1&H2&H3&new&H4&H5). split; [done|]. split; [done|].
      split; [set_solver|]. exists new. split; [done|]. by apply sublist_cons.
    + assert (unique_step st y = ({[ y ]} ∪ st.1, st.2 ++ [y])) as ->
        by (unfold unique_step; by rewrite bool_decide_false).
      destruct (IH ({[ y ]} ∪ st.1, st.2 ++ [y])) as (H1&H2&H3&new&H4&H5); cbn [fst snd].
      * set_solver.
      * apply NoDup_app. split_and!; [done| |apply NoDup_singleton]. set_solver.
      * split; [done|]. split; [done|]. split; [set_solver|]. exists (y :: new).
        rewrite H4. cbn [fst snd]. rewrite <-app_assoc. split; [done|]. by apply sublist_skip.
Qed.
End Unique.
(** Each string once, all of them, in the order given. *)
Theorem unique_strings_spec items :
  NoDup (unique_strings items) ∧ (∀ s, s ∈ unique_strings items ↔ s ∈ items) ∧
  unique_strings items `sublist_of` items.
Proof.
  destruct (unique_fold items (∅, [])) as (_&Hn&Hin&new&Hnew&Hsub); [set_solver|apply NoDup_nil_2|].
  unfold unique_strings. split; [done|]. split; [set_solver|]. by rewrite Hnew.
Qed.
Lemma index_func_spec {A} (f : A → bool) s : match index_func f s with
  | Some i => ∃ x, s !! i = Some x ∧ f x = true ∧ ∀ j y, (j < i)%nat → s !! j = Some y → f y = false
  | None => Forall (λ x, f x = false) s
  end.
Proof.
  induction s as [|x s IH]; [by constructor|]. cbn. destruct (f x) eqn:Hx.
  - exists x. split; [done|]. split; [done|]. intros j y Hj. lia.
  - destruct (index_func f s) as [i|]; cbn.
    + destruct IH as (y & Hy & Hf & Hlt). exists y. split; [done|]. split; [done|].
      intros [|j] z Hj Hz; [by injection Hz as <-|]. apply (Hlt j); [lia|done].
    + by constructor.
Qed.

Section Counting.
Context {A : Type} `{Countable A}.
Definition occurrences (x : A) (l : list A) : Z := zlen (filter (λ y, y = x) l).
Lemma occurrences_cons x y l : occurrences x (y :: l) = (if decide (y = x) then 1 else 0) + occurrences x l.
Proof. unfold occurrences, zlen. rewrite filter_cons. destruct (decide (y = x)); cbn [length]; lia. Qed.
Lemma occurrences_bound x l : 0 ≤ occurrences x l ≤ zlen l.
Proof. unfold occurrences, zlen. pose proof (length_filter (λ y, y = x) l). lia. Qed.
Lemma occurrences_not_in x l : x ∉ l → occurrences x l = 0.
Proof.
  induction l as [|y l IH]; intros Hx; [done|]. apply not_elem_of_cons in Hx as [Hxy Hx].
  rewrite occurrences_cons, IH by done. destruct (decide (y = x)); [by subst|done].
Qed.
Lemma count_i32_small z : 0 ≤ z < 2 ^ 31 → i32 z = z.
Proof. intros Hz. unfold i32. rewrite Z.mod_small; lia. Qed.
Lemma count_fold l : ∀ (m : gmap A Z), (∀ x, 0 ≤ default 0 (m !! x) ∧ default 0 (m !! x) + zlen l < 2 ^ 31) →
  ∀ x, fold_left count_item l m !! x =
    if decide (x ∈ l) then Some (default 0 (m !! x) + occurrences x l) else m !! x.
Proof.
  induction l as [|y l IH]; intros m Hm x; cbn [fold_left].
  { by rewrite decide_False by apply not_elem_of_nil. }
  assert (Hstep : ∀ z, default 0 (count_item m y !! z) = default 0 (m !! z) + (if decide (y = z) then 1 else 0)).
  { intros z. unfold count_item. pose proof (Hm y) as Hy. unfold zlen in Hy. cbn [length] in Hy.
    destruct (decide (y = z)) as [<-|Hyz].
    - rewrite lookup_insert_eq. cbn. apply count_i32_small. lia.
    - rewrite lookup_insert_ne by done. lia. }
  rewrite IH.
  - rewrite occurrences_cons, Hstep.
    destruct (decide (x ∈ l)) as [Hx|Hx], (decide (x ∈ y :: l)) as [Hin|Hin]; try set_solver.
    + f_equal; lia.
    + assert (y = x) as -> by set_solver. rewrite decide_True by done. unfold count_item. rewrite lookup_insert_eq.
      pose proof (Hm x) as Hy. unfold zlen in Hy. cbn [length] in Hy.
      rewrite count_i32_small, (occurrences_not_in x l) by (done || lia). f_equal; lia.
    + unfold count_item. rewrite lookup_insert_ne; [done|]. set_solver.
  - intros z. rewrite Hstep. specialize (Hm z). unfold zlen in *. cbn [length] in Hm.
    destruct (decide (y = z)); lia.
Qed.
Lemma count_items_lookup l x : zlen l < 2 ^ 31 →
  count_items l !! x = if decide (x ∈ l) then Some (occurrences x l) else None.
Proof.
  intros Hl. unfold count_items. rewrite count_fold.
  - rewrite !lookup_empty. done.
  - intros y. rewrite lookup_empty. cbn. lia.
Qed.
Lemma occurrences_perm l : ∀ l', (∀ x, occurrences x l = occurrences x l') → l ≡ₚ l'.
Proof.
  induction l as [|y l IH]; intros l' Ho.
  - destruct l' as [|y l']; [done|]. specialize (Ho y). rewrite occurrences_cons, decide_True in Ho by done.
    pose proof (occurrences_bound y l'). change (occurrences y []) with 0 in Ho. lia.
  - assert (Hy : y ∈ l').
    { destruct (decide (y ∈ l')); [done|]. specialize (Ho y).
      rewrite (occurrences_not_in y l'), occurrences_cons, decide_True in Ho by done.
      pose proof (occurrences_bound y l). lia. }
    apply list_elem_of_split in Hy as (l1 & l2 & ->). rewrite <-Permutation_middle. constructor. apply IH.
    intros x. specialize (Ho x). rewrite occurrences_cons in Ho.
    assert (Hp : occurrences x (l1 ++ y :: l2) = occurrences x (y :: (l1 ++ l2))).
    { unfold occurrences, zlen. f_equal. apply Permutation_length. by rewrite <-Permutation_middle. }
    rewrite Hp, occurrences_cons in Ho. lia.
Qed.
(** Lists short enough for their counts are equal up to order exactly as the name says. *)
Theorem equal_ignore_order_spec (s1 s2 : list A) : zlen s1 < 2 ^ 31 →
  equal_ignore_order s1 s2 = true ↔ s1 ≡ₚ s2.
Proof.
  intros H1. unfold equal_ignore_order. destruct (Nat.eqb_spec (length s1) (length s2)) as [Hl|Hl].
  2: { split; [done|]. intros Hp%Permutation_length. done. }
  assert (H2 : zlen s2 < 2 ^ 31) by (unfold zlen in *; lia).
  rewrite bool_decide_eq_true. split.
  - intros Hc. apply occurrences_perm. intros x. apply (f_equal (lookup x)) in Hc.
    rewrite !count_items_lookup in Hc by done.
    destruct (decide (x ∈ s1)), (decide (x ∈ s2)); try discriminate Hc; [by injection Hc|].
    by rewrite !occurrences_not_in.
  - intros Hp. apply map_eq. intros x. rewrite !count_items_lookup by done.
    assert (Ho : occurrences x s1 = occurrences x s2).
    { unfold occurrences, zlen. f_equal. apply Permutation_length. by rewrite Hp. }
    rewrite Ho. destruct (decide (x ∈ s1)) as [Hx|Hx]; rewrite Hp in Hx.
    + by rewrite decide_True.
    + by rewrite decide_False.
Qed.
End Counting.

(** ** Theorems: strings *)

Lemma all_some_fmap {A B} (f : A → option B) l r : Forall2 (λ a b, f a = Some b) l r → all_some (f <$> l) = Some r.
Proof. induction 1 as [|a b l r Hf Hl IH]; [done|]. cbn in *. by rewrite Hf, IH. Qed.
Lemma pretty_no_comma (z : Z) : no_char (ch ",") (pretty z).
Proof.
  intros Hin. pose proof (pretty_text z) as Hp. unfold digit_text in Hp. rewrite Forall_forall in Hp.
  destruct (Hp _ Hin) as [Hd|[Hd _]]; [discriminate Hd|]. by vm_compute in Hd.
Qed.
(** A printed list of bytes is read back. *)
Theorem int8_slice_roundtrip (l : list Z) : Forall (λ z, - 128 ≤ z ≤ 127) l →
  str_to_int8_slice (join "," (pretty <$> l)) = Some l.
Proof.
  intros Hl. destruct l as [|z l]; [done|]. unfold str_to_int8_slice.
  assert (Hs : split_char (ch ",") (join "," (pretty <$> z :: l)) = pretty <$> z :: l).
  { cbn [fmap list_fmap]. apply (split_char_join (ch ",")). change (Forall (no_char (ch ",")) (pretty <$> z :: l)). apply Forall_fmap.
    apply Forall_true. apply pretty_no_comma. }
  rewrite Hs. destruct (str_is_empty _) eqn:He.
  { apply bool_decide_eq_true in He. rewrite He in Hs. change ([""] = pretty z :: (pretty <$> l)) in Hs.
    assert (Hz : pretty z = "") by congruence. apply Forall_cons in Hl as [Hl _].
    pose proof (parse_pretty z (- 128) 127 Hl) as Hp. rewrite Hz in Hp. discriminate Hp. lia. }
  rewrite <-list_fmap_compose. apply all_some_fmap. apply Forall2_same_length_lookup_2; [done|].
  intros i x y Hx Hy. rewrite Hx in Hy. injection Hy as <-. unfold compose.
  rewrite trim_plain by apply pretty_plain. rewrite Forall_lookup in Hl. specialize (Hl _ _ Hx).
  apply parse_pretty; lia.
Qed.

Lemma boundary_before_spec s e : (boundary_before s e ≤ e)%nat ∧
  (boundary_before s e = 0%nat ∨ is_char_boundary (boundary_before s e) s = true) ∧
  ∀ i, (boundary_before s e < i ≤ e)%nat → is_char_boundary i s = false.
Proof.
  induction e as [|e IH]; cbn [boundary_before].
  { split; [lia|]. split; [by left|]. intros i. lia. }
  destruct (is_char_boundary (S e) s) eqn:Hb.
  - split; [lia|]. split; [by right|]. intros i. lia.
  - destruct IH as (H1 & H2 & H3). split; [lia|]. split; [done|]. intros i Hi.
    destruct (decide (i = S e)) as [->|]; [done|]. apply H3. lia.
Qed.
(** The longest prefix of whole characters that fits. *)
Theorem truncate_utf8_spec s max_len : ∃ n,
  truncate_utf8 s max_len = String.substring 0 n s ∧
  (n ≤ max_len)%nat ∧ (n ≤ String.length s)%nat ∧
  (n = 0%nat ∨ is_char_boundary n s = true) ∧
  (∀ i, (n < i ≤ max_len)%nat → (i ≤ String.length s)%nat → is_char_boundary i s = false).
Proof.
  unfold truncate_utf8. destruct (Nat.leb_spec (String.length s) max_len) as [Hl|Hl].
  - exists (String.length s). rewrite substring_whole_text. split_and!; try done; [|lia].
    right. unfold is_char_boundary. replace (String.get (String.length s) s) with (@None Ascii.ascii).
    + by apply bool_decide_true.
    + clear. induction s as [|a s IH]; done.
  - destruct (boundary_before_spec s max_len) as (H1 & H2 & H3). exists (boundary_before s max_len).
    split_and!; [done|lia|lia|done|]. intros i Hi _. by apply H3.
Qed.

(** ** Theorems: the client's address *)

Section FindIpTheorems.
Context (is_valid : IpAddr → IpVersion → bool).
Lemma first_valid_app l l' : first_valid is_valid (l ++ l') =
  match first_valid is_valid l with Some r => Some r | None => first_valid is_valid l' end.
Proof. induction l as [|t l IH]; [done|]. cbn. destruct (valid_ip is_valid t); [done|]. exact IH. Qed.
(** The addresses of a request, in the order the code tries them. *)
Definition candidates (req : RequestHeaders) (host : list string) : list string :=
  header_texts (λ v, [v]) "true-client-ip" req ++
  header_texts (split_char (ch ",")) "x-forwarded-for" req ++
  header_texts (λ v, [v]) "x-real-ip" req ++ host.
(** The address found is the first valid one of the headers and the peer, unless the
    headers have none and the peer's text begins with a closing bracket. *)
Theorem find_ip_spec req host : (if str_is_empty (rh_remote_addr req) then host = []
    else ∃ h, remote_host (rh_remote_addr req) = Ok h ∧ host = [h]) →
  find_ip is_valid req = Ok (answer_ip (first_valid is_valid (candidates req host))).
Proof.
  intros Hh. unfold find_ip, candidates. rewrite !first_valid_app.
  destruct (first_valid _ (header_texts _ "true-client-ip" req)); [done|].
  destruct (first_valid _ (header_texts _ "x-forwarded-for" req)); [done|].
  destruct (first_valid _ (header_texts _ "x-real-ip" req)); [done|].
  destruct (str_is_empty _); [by rewrite Hh|]. destruct Hh as (h & -> & ->). cbn.
  by destruct (valid_ip is_valid h).
Qed.
Lemma valid_ip_is_valid t ip ver : valid_ip is_valid t = Some (ip, ver) →
  parse_ip t = (Some ip, ver) ∧ is_valid ip ver = true.
Proof. unfold valid_ip. destruct (parse_ip t) as [[ip'|] ver']; [|done]. destruct (is_valid ip' ver') eqn:Hv; [|done]. by intros [= <- <-]. Qed.
(** Whatever it answers was parsed from one of the candidates, and the validator accepts it. *)
Lemma first_valid_sound l ip ver : first_valid is_valid l = Some (ip, ver) →
  is_valid ip ver = true ∧ ∃ t, t ∈ l ∧ parse_ip t = (Some ip, ver).
Proof.
  induction l as [|t l IH]; [done|]. cbn. destruct (valid_ip is_valid t) as [r|] eqn:Ht.
  - intros [= ->]. apply valid_ip_is_valid in Ht as [Hp Hv]. split; [done|]. exists t. split; [by left|done].
  - intros (Hv & u & Hu & Hp)%IH. split; [done|]. exists u. split; [by right|done].
Qed.
End FindIpTheorems.

Lemma find_ip_spec_witness :
  find_ip (λ _ _, true) {| rh_headers := {[ "x-forwarded-for" := ["nothing, 1.2.3.4"] ]}; rh_remote_addr := "[::1]:80" |} =
    Ok (Some (AddrV4 16909060), IpV4).
Proof.
  rewrite (find_ip_spec (λ _ _, true) _ ["::1"]); [vm_compute; reflexivity|].
  cbn. by exists "::1".
Defined.

(** ** Findings *)

(** [find_ip] panics on a peer address that begins with a closing bracket. *)
Lemma find_ip_panics : find_ip (λ _ _, true) {| rh_headers := ∅; rh_remote_addr := "]:80" |} = Panic.
Proof. reflexivity. Qed.

(** [find_element] looks for the key anywhere in the bytes: of
    [{"a":{"b":1},"b":2}] it answers the inner [b] for the path [b].  The object and
    its members' values are printed as they stand. *)
Definition key_text (k : string) : string := dq +:+ k +:+ dq +:+ ":".
Definition sample_text : string := "{" +:+ key_text "a" +:+ "{" +:+ key_text "b" +:+ "1}," +:+ key_text "b" +:+ "2}".
Definition sample_value : Value := VObject [("a", VObject [("b", number 1)]); ("b", number 2)].
Lemma find_element_inner :
  find_element (E := ()) (λ _, Ok sample_value) (λ v, Ok match v with VNumber (PosInt n) => pretty n | _ => "" end)
    sample_text ["b"] = Ok (true, 6%nat, 11%nat) ∧
  String.substring 6 5 sample_text = key_text "b" +:+ "1".
Proof. split; vm_compute; reflexivity. Qed.
