(* ===== verification/PriceBucket.v ===== *)
(** * Price granularity

    exchange/src/lib.rs: [PriceGranularity] and [price_granularity_bucket],
    which turn a bid price into the bucket string of the targeting keys.  Floats
    are computed exactly ([Json]); the standard library's [floor], [min], [max]
    and [format!("{:.n$}")] are defined here. *)

From S2P Require Import Prelude Json.

(** ** Float functions of the standard library *)

(** [f64::min] and [f64::max]: a NaN loses. *)
Definition f64_min (x y : f64) : f64 :=
  if f64_is_nan x then y else if f64_is_nan y then x else if f64_ltb y x then y else x.
Definition f64_max (x y : f64) : f64 :=
  if f64_is_nan x then y else if f64_is_nan y then x else if f64_ltb x y then y else x.
Definition f64_neg_infinity : f64 := S754_infinity true.

(** [n / d] rounded half to even. *)
Definition div_half_even (n d : Z) : Z :=
  let q := n / d in
  match 2 * (n mod d) ?= d with
  | Lt => q
  | Gt => q + 1
  | Eq => if Z.even q then q else q + 1
  end.

Definition zeros (n : nat) : string :=
  String.string_of_list_ascii (replicate n (ch "0")).
(** [n / 10^prec] with [prec] decimals. *)
Definition fixed_digits (prec : nat) (n : Z) : string :=
  let d := pretty n in
  let d := zeros (S prec - String.length d) +:+ d in
  let int := String.substring 0 (String.length d - prec) d in
  if (prec =? 0)%nat then int
  else int +:+ "." +:+ String.substring (String.length d - prec) prec d.
(** [format!("{:.prec$}", x)]: the exact value, rounded half to even.  A
    precision is any [usize] of the toolchain the server is built with (Rust 1.82,
    src/Dockerfile.rust), so every [u32] of a granularity is one; newer toolchains
    (from 1.87) panic above 65535. *)
Definition format_f64 (prec : nat) (x : f64) : string :=
  let sign (s : bool) : string := if s then "-" else "" in
  match x with
  | S754_nan => "NaN"
  | S754_infinity s => sign s +:+ "inf"
  | S754_zero s => sign s +:+ fixed_digits prec 0
  | S754_finite s m e =>
      let scaled :=
        if 0 <=? e then Z.pos m * 2 ^ e * 10 ^ Z.of_nat prec
        else div_half_even (Z.pos m * 10 ^ Z.of_nat prec) (2 ^ (- e)) in
      sign s +:+ fixed_digits prec scaled
  end.

(** ** The granularity *)

Record PriceRange : Type := { pr_max : f64; pr_increment : f64 }.
Record PriceGranularity : Type := { pg_precision : option Z; pg_ranges : list PriceRange }.

(** [PriceGranularity::from_json] *)
Definition price_range_of_json (entry : Value) : option PriceRange :=
  max ← get "max" entry ≫= as_f64;
  increment ← get "increment" entry ≫= as_f64;
  if f64_leb increment f64_zero then None
  else Some {| pr_max := max; pr_increment := increment |}.
Definition price_granularity_from_json (v : Value) : option PriceGranularity :=
  obj ← as_object v;
  let precision := u32 <$> (obj_get "precision" obj ≫= as_u64) in
  let ranges := match obj_get "ranges" obj ≫= as_array with
                | Some arr => omap price_range_of_json arr
                | None => []
                end in
  if bool_decide (length ranges = 0%nat) && bool_decide (precision = None) then None
  else Some {| pg_precision := precision; pg_ranges := ranges |}.

(** [a.max.partial_cmp(&b.max).unwrap_or(Equal)], not Greater. *)
Definition range_le (a b : PriceRange) : bool := negb (f64_ltb (pr_max b) (pr_max a)).

(** The loop over the sorted ranges. *)
Fixpoint bucket_in (price bucket_min : f64) (ranges : list PriceRange) : option f64 :=
  match ranges with
  | [] => None
  | range :: rest =>
      if f64_leb price (pr_max range) then
        let increment := pr_increment range in
        let steps := f64_floor (f64_div (f64_sub price bucket_min) increment) in
        Some (f64_add (f64_mul steps increment) bucket_min)
      else bucket_in price (pr_max range) rest
  end.

Definition price_granularity_bucket (price : f64) (granularity : option PriceGranularity)
    : string :=
  let medium :=
    let capped := f64_min price (f64_of_Z 20) in
    let bucket := f64_div (f64_floor (f64_mul capped (f64_of_Z 100))) (f64_of_Z 100) in
    format_f64 2 bucket in
  match granularity with
  | None => medium
  | Some gran =>
      match pg_ranges gran with
      | [] => medium
      | _ :: _ =>
          let precision := Z.to_nat (default 2 (pg_precision gran)) in
          let bucket_max := fold_left f64_max (pr_max <$> pg_ranges gran) f64_neg_infinity in
          if f64_gtb price bucket_max then format_f64 precision bucket_max
          else
            match bucket_in price f64_zero (sort_by range_le (pg_ranges gran)) with
            | Some rounded => format_f64 precision rounded
            | None => format_f64 precision bucket_max
            end
      end
  end.

(** ** Specification *)

(** [r] is the band of [price] in [ranges], starting at [lower]: the tightest
    upper limit that holds [price], and the next limit below it (0 if none). *)
Definition price_band (ranges : list PriceRange) (price : f64) (r : PriceRange) (lower : f64) : Prop :=
  r ∈ ranges ∧ f64_leb price (pr_max r) = true ∧
  (∀ r', r' ∈ ranges → f64_leb price (pr_max r') = true →
     f64_leb (pr_max r) (pr_max r') = true) ∧
  ((lower = f64_zero ∧ ∀ r', r' ∈ ranges → f64_leb price (pr_max r') = true) ∨
   ∃ r0, r0 ∈ ranges ∧ lower = pr_max r0 ∧ f64_leb price lower = false ∧
     ∀ r', r' ∈ ranges → f64_leb price (pr_max r') = false →
       f64_leb (pr_max r') lower = true).

(** ** Proofs *)

Lemma range_le_sorted ranges : Forall (λ r, f64_is_nan (pr_max r) = false) ranges →
  StronglySorted (λ a b, f64_leb (pr_max a) (pr_max b) = true) (sort_by range_le ranges).
Proof.
  intros Hr.
  assert (Hle : ∀ a b, f64_is_nan (pr_max a) = false → f64_is_nan (pr_max b) = false →
    range_le a b = f64_leb (pr_max a) (pr_max b)).
  { intros a b Ha Hb. unfold range_le. by rewrite f64_leb_ltb. }
  assert (Hs : StronglySorted (λ a b, range_le a b = true) (sort_by range_le ranges)).
  { apply (sort_by_sorted (λ r, f64_is_nan (pr_max r) = false)); [| |done].
    - intros a b Ha Hb. rewrite !Hle by done.
      destruct (f64_leb_total _ _ Ha Hb) as [->| ->]; done.
    - intros a b c Ha Hb Hc. rewrite !Hle by done. apply f64_leb_trans. }
  assert (Hn : Forall (λ r, f64_is_nan (pr_max r) = false) (sort_by range_le ranges)).
  { by rewrite sort_by_perm. }
  induction Hs as [|a l Hs IH Ha]; [constructor|].
  apply Forall_cons in Hn as [Hna Hn]. constructor; [auto|].
  rewrite Forall_forall in *. intros b Hb. rewrite <-Hle by auto. auto.
Qed.

Lemma f64_neg_infinity_least x : f64_is_nan x = false → f64_leb f64_neg_infinity x = true.
Proof. destruct x as [[]|[]| |[] m e]; done. Qed.
Lemma f64_leb_neg_infinity x : f64_leb x f64_neg_infinity = true → x = f64_neg_infinity.
Proof. destruct x as [[]|[]| |[] m e]; intros H; vm_compute in H; done. Qed.

Lemma fold_max_spec l acc :
  f64_is_nan acc = false → Forall (λ x, f64_is_nan x = false) l →
  let m := fold_left f64_max l acc in
  f64_is_nan m = false ∧ (m = acc ∨ m ∈ l) ∧ f64_leb acc m = true ∧
  ∀ x, x ∈ l → f64_leb x m = true.
Proof.
  revert acc. induction l as [|x l IH]; intros acc Hacc Hl; simpl.
  { split_and!; [done|by left|by apply f64_leb_refl|]. intros x Hx. by apply elem_of_nil in Hx. }
  apply Forall_cons in Hl as [Hx Hl].
  assert (Hstep : ∃ a, f64_max acc x = a ∧ f64_is_nan a = false ∧
    (a = acc ∨ a = x) ∧ f64_leb acc a = true ∧ f64_leb x a = true).
  { unfold f64_max. rewrite Hacc, Hx. destruct (f64_ltb acc x) eqn:Hlt; eexists; (split; [done|]).
    - split_and!; [done|by right|by apply f64_ltb_leb|by apply f64_leb_refl].
    - split_and!; [done|by left|by apply f64_leb_refl|]. by rewrite f64_leb_ltb, Hlt. }
  destruct Hstep as (a&->&Ha&Hor&Hacca&Hxa).
  destruct (IH a Ha Hl) as (Hm&Hin&Ham&Hall).
  split_and!; [done| |exact (f64_leb_trans _ _ _ Hacca Ham)|].
  - rewrite elem_of_cons. destruct Hin as [Hin|Hin]; [|by right; right].
    rewrite Hin. destruct Hor as [Hor|Hor]; rewrite Hor; [by left|by right; left].
  - intros y [->|Hy]%elem_of_cons; [exact (f64_leb_trans _ _ _ Hxa Ham)|auto].
Qed.

(** The loop stops in the band of the price. *)
Lemma bucket_in_spec price lower (pre l : list PriceRange) :
  f64_is_nan price = false → Forall (λ r, f64_is_nan (pr_max r) = false) (pre ++ l) →
  StronglySorted (λ a b, f64_leb (pr_max a) (pr_max b) = true) (pre ++ l) →
  (∀ r, r ∈ pre → f64_leb price (pr_max r) = false) →
  (pre = [] ∧ lower = f64_zero ∨ ∃ r0, r0 ∈ pre ∧ lower = pr_max r0 ∧
     ∀ r, r ∈ pre → f64_leb (pr_max r) lower = true) →
  match bucket_in price lower l with
  | Some x => ∃ r lo, price_band (pre ++ l) price r lo ∧
      x = f64_add (f64_mul (f64_floor (f64_div (f64_sub price lo) (pr_increment r)))
                           (pr_increment r)) lo
  | None => ∀ r, r ∈ pre ++ l → f64_leb price (pr_max r) = false
  end.
Proof.
  intros Hp. revert pre lower. induction l as [|r l IH]; intros pre lower Hn Hs Hpre Hlo; simpl.
  { by rewrite app_nil_r. }
  assert (Hle : ∀ r', r' ∈ pre ++ [r] → f64_leb (pr_max r') (pr_max r) = true).
  { intros r' [Hr'| ->%list_elem_of_singleton]%elem_of_app.
    - apply (elem_of_StronglySorted_app _ _ _ _ _ Hs Hr'). by left.
    - apply f64_leb_refl. rewrite Forall_forall in Hn. apply Hn.
      rewrite elem_of_app. right. by left. }
  assert (Hge : ∀ r', r' ∈ l → f64_leb (pr_max r) (pr_max r') = true).
  { intros r' Hr'. change (r :: l) with ([r] ++ l) in Hs. rewrite app_assoc in Hs.
    apply (elem_of_StronglySorted_app _ _ _ _ _ Hs); [|done].
    rewrite elem_of_app. right. by left. }
  destruct (f64_leb price (pr_max r)) eqn:Hr.
  - exists r, lower. split; [|done]. split_and!.
    + rewrite elem_of_app. right. by left.
    + done.
    + intros r' [Hr'|[->|Hr']%elem_of_cons]%elem_of_app Hpr'.
      * by rewrite Hpre in Hpr'.
      * apply Hle. rewrite elem_of_app. right. by left.
      * auto.
    + assert (Hpl : ∀ r', r' ∈ r :: l → f64_leb price (pr_max r') = true).
      { intros r' [->|Hr']%elem_of_cons; [done|]. eapply f64_leb_trans; [exact Hr|auto]. }
      destruct Hlo as [[-> ->]|(r0&Hr0&->&Hmax)]; [by left|right].
      exists r0. split_and!; [rewrite elem_of_app; by left|done|by apply Hpre|].
      intros r' [Hr'|Hr']%elem_of_app Hf; [by apply Hmax|]. by rewrite Hpl in Hf.
  - specialize (IH (pre ++ [r]) (pr_max r)). rewrite <-app_assoc in IH. apply IH; [done..| |].
    + intros r' [Hr'| ->%list_elem_of_singleton]%elem_of_app; [by apply Hpre|done].
    + right. exists r. split_and!; [rewrite elem_of_app; right; by left|done|exact Hle].
Qed.

Lemma f64_leb_ltb_trans x y z : f64_leb x y = true → f64_ltb y z = true → f64_ltb x z = true.
Proof.
  intros Hxy Hyz. destruct (f64_leb_not_nan _ _ Hxy), (f64_ltb_not_nan _ _ Hyz).
  apply not_false_is_true. intros Hzx. rewrite <-negb_true_iff, <-f64_leb_ltb in Hzx by done.
  pose proof (f64_leb_trans _ _ _ Hzx Hxy) as Hyx.
  rewrite f64_leb_ltb, negb_true_iff in Hyx by done. congruence.
Qed.

(** Equal but for the sign of zero. *)
Lemma f64_compare_eq s m e y : f64_is_nan y = false →
  f64_leb (S754_finite s m e) y = true → f64_ltb (S754_finite s m e) y = false →
  y = S754_finite s m e.
Proof.
  unfold f64_leb, f64_ltb, SFleb, SFltb.
  destruct y as [sy|sy| |sy my ey]; try done; [by destruct s|by destruct sy|].
  simpl. change (Pos.compare_cont Eq) with Pos.compare.
  destruct s, sy; try done; destruct (Z.compare_spec e ey), (Pos.compare_spec m my); try done;
    by subst.
Qed.

Lemma medium_cap price : f64_is_nan price = false → f64_leb (f64_of_Z 20) price = true →
  price_granularity_bucket price None = "20.00".
Proof.
  intros Hp H20. unfold price_granularity_bucket, f64_min. rewrite Hp.
  change (f64_is_nan (f64_of_Z 20)) with false. cbv iota.
  destruct (f64_ltb (f64_of_Z 20) price) eqn:Hlt; [by vm_compute|].
  assert (price = f64_of_Z 20) as ->; [|by vm_compute].
  by apply f64_compare_eq.
Qed.

(** C31: The bucket of a price.  With custom ranges, a price some range holds is
    rounded down in increments of its band (the tightest range above it,
    starting at the next limit below), and a price above every range becomes
    the largest limit; without ranges the price is capped at "20.00".  Every
    result is printed with the configured decimals, two by default. *)
Theorem price_granularity_bucket_spec price gran :
  f64_is_nan price = false →
  Forall (λ r, f64_is_nan (pr_max r) = false) (pg_ranges gran) →
  let prec := Z.to_nat (default 2 (pg_precision gran)) in
  let bucket := price_granularity_bucket price (Some gran) in
  match pg_ranges gran with
  | [] => f64_leb (f64_of_Z 20) price = true → bucket = "20.00"
  | ranges =>
      (∃ r lower, price_band ranges price r lower ∧
         bucket = format_f64 prec
           (f64_add (f64_mul (f64_floor (f64_div (f64_sub price lower) (pr_increment r)))
                             (pr_increment r)) lower)) ∨
      (∃ r, r ∈ ranges ∧ (∀ r', r' ∈ ranges → f64_leb (pr_max r') (pr_max r) = true ∧
                            f64_ltb (pr_max r') price = true) ∧
         bucket = format_f64 prec (pr_max r))
  end.
Proof.
  intros Hp Hn. unfold price_granularity_bucket.
  destruct (pg_ranges gran) as [|r1 rest] eqn:Hr; [by apply medium_cap|].
  cbv zeta. rewrite <-Hr in *. set (ranges := pg_ranges gran) in *.
  assert (Hnan : Forall (λ x, f64_is_nan x = false) (pr_max <$> ranges)).
  { apply Forall_fmap. eapply Forall_impl; [exact Hn|]. done. }
  destruct (fold_max_spec (pr_max <$> ranges) f64_neg_infinity eq_refl Hnan)
    as (HM&Hin&_&Hall). cbv zeta in *.
  set (M := fold_left f64_max (pr_max <$> ranges) f64_neg_infinity) in *.
  assert (HMr : ∃ r, r ∈ ranges ∧ pr_max r = M).
  { destruct Hin as [HMinf|(r&->&Hin)%list_elem_of_fmap]; [|by exists r].
    exists r1. assert (Hr1 : r1 ∈ ranges) by (rewrite Hr; by left). split; [done|].
    rewrite HMinf. apply f64_leb_neg_infinity. rewrite <-HMinf. apply Hall.
    apply list_elem_of_fmap. by exists r1. }
  assert (Hle : ∀ r, r ∈ ranges → f64_leb (pr_max r) M = true).
  { intros r ?. apply Hall, list_elem_of_fmap. by exists r. }
  unfold f64_gtb. destruct (f64_ltb M price) eqn:Hgt.
  - right. destruct HMr as (r&Hrin&HrM). exists r. split_and!; [done| |by rewrite HrM].
    intros r' Hr'. rewrite HrM. split; [auto|].
    apply f64_leb_ltb_trans with M; auto.
  - left. pose proof (bucket_in_spec price f64_zero [] (sort_by range_le ranges)) as Hb.
    simpl in Hb. specialize (Hb Hp). rewrite sort_by_perm in Hb at 1.
    specialize (Hb Hn (range_le_sorted _ Hn)).
    destruct (bucket_in price f64_zero (sort_by range_le ranges)) as [x|].
    + destruct Hb as (r&lo&Hband&->); [by intros ? ?%elem_of_nil|by left|].
      exists r, lo. split; [|done]. unfold price_band in *.
      by setoid_rewrite (sort_by_perm range_le ranges) in Hband.
    + exfalso. destruct HMr as (r&Hrin&HrM).
      assert (Hno : f64_leb price (pr_max r) = false).
      { apply Hb; [by intros ? ?%elem_of_nil|by left|by rewrite sort_by_perm]. }
      rewrite HrM, f64_leb_ltb, Hgt in Hno by done. done.
Qed.

(** A price of 29 cents falls into the 28-cent bucket: [0.29 * 100.0] is just
    below 29 in binary64. *)
Lemma medium_bucket_loses_a_cent : price_granularity_bucket (f64_of_dec 29 2) None = "0.28".
Proof. by vm_compute. Qed.

Lemma price_granularity_bucket_spec_witness :
  let gran := {| pg_precision := None;
    pg_ranges := [ {| pr_max := f64_of_Z 20; pr_increment := f64_of_dec 5 1 |};
                   {| pr_max := f64_of_Z 3; pr_increment := f64_of_dec 1 1 |} ] |} in
  price_granularity_bucket (f64_of_dec 25 0) (Some gran) = "20.00".
Proof.
  intros gran.
  destruct (price_granularity_bucket_spec (f64_of_dec 25 0) gran) as
    [(r&lo&(Hin&Hle&_)&_)|(r&Hin&Hall&Hb)].
  - by vm_compute.
  - repeat constructor.
  - exfalso. apply elem_of_cons in Hin as [->|[->|Hin%elem_of_nil]%elem_of_cons];
      [by vm_compute in Hle..|done].
  - rewrite Hb. apply elem_of_cons in Hin as [->|[->|Hin%elem_of_nil]%elem_of_cons];
      [by vm_compute| |done].
    destruct (Hall {| pr_max := f64_of_Z 20; pr_increment := f64_of_dec 5 1 |}) as [Hf _];
      [by left|]. by vm_compute in Hf.
Defined.
