(* ===== verification/AuctionHelpers.v ===== *)
(** Helpers of an auction: exchange/src/auction.rs, exchange/src/seat_non_bids.rs and
    exchange/src/tmax.rs.

    The winner among bids, cache life times, checks of single bids, the book of
    rejected bids and the time a bidder is given. *)
From S2P Require Import Prelude Json OpenRtb OpenRtbExt PriceBucket.

(** ** Reasons *)

Inductive NonBidReason : Type :=
| NoBidUnknown | ErrorGeneral | ErrorTimeout | ErrorBidderUnreachable | ErrorBadInput
| ErrorBadServerResponse | ErrorFailedToMarshal | ResponseRejectedGeneral
| ResponseRejectedBelowFloor | ResponseRejectedCategoryMappingInvalid
| ResponseRejectedBelowDealFloor | ResponseRejectedCreativeSizeNotAllowed
| ResponseRejectedNotQualifiedAdSlot | ResponseRejectedInvalidCreative
| ResponseRejectedBidPriceCurrencyConversionError | ResponseRejectedBidPriceBelowMinimum
| ResponseRejectedBidPriceNotPositive.
Definition reason_code (r : NonBidReason) : Z :=
  match r with
  | NoBidUnknown => 0 | ErrorGeneral => 100 | ErrorTimeout => 101 | ErrorBidderUnreachable => 102
  | ErrorBadInput => 103 | ErrorBadServerResponse => 104 | ErrorFailedToMarshal => 105
  | ResponseRejectedGeneral => 200 | ResponseRejectedBelowFloor => 201
  | ResponseRejectedCategoryMappingInvalid => 202 | ResponseRejectedBelowDealFloor => 204
  | ResponseRejectedCreativeSizeNotAllowed => 205 | ResponseRejectedNotQualifiedAdSlot => 206
  | ResponseRejectedInvalidCreative => 300 | ResponseRejectedBidPriceCurrencyConversionError => 301
  | ResponseRejectedBidPriceBelowMinimum => 302 | ResponseRejectedBidPriceNotPositive => 303
  end.
Definition reason_from_i32 (value : Z) : NonBidReason :=
  if value =? 0 then NoBidUnknown else if value =? 100 then ErrorGeneral
  else if value =? 101 then ErrorTimeout else if value =? 102 then ErrorBidderUnreachable
  else if value =? 103 then ErrorBadInput else if value =? 104 then ErrorBadServerResponse
  else if value =? 105 then ErrorFailedToMarshal else if value =? 200 then ResponseRejectedGeneral
  else if value =? 201 then ResponseRejectedBelowFloor
  else if value =? 202 then ResponseRejectedCategoryMappingInvalid
  else if value =? 204 then ResponseRejectedBelowDealFloor
  else if value =? 205 then ResponseRejectedCreativeSizeNotAllowed
  else if value =? 206 then ResponseRejectedNotQualifiedAdSlot
  else if value =? 300 then ResponseRejectedInvalidCreative
  else if value =? 301 then ResponseRejectedBidPriceCurrencyConversionError
  else if value =? 302 then ResponseRejectedBidPriceBelowMinimum
  else if value =? 303 then ResponseRejectedBidPriceNotPositive else NoBidUnknown.
(** The second table, of seat_non_bids.rs. *)
Inductive SeatReason : Type :=
| SrErrorGeneral | SrErrorTimeout | SrErrorBidderUnreachable | SrRejectedGeneral | SrBelowFloor
| SrCategoryMappingInvalid | SrBelowDealFloor | SrCreativeSizeNotAllowed | SrCreativeNotSecure.
Definition seat_reason_code (r : SeatReason) : Z :=
  match r with
  | SrErrorGeneral => 100 | SrErrorTimeout => 101 | SrErrorBidderUnreachable => 103
  | SrRejectedGeneral => 300 | SrBelowFloor => 301 | SrCategoryMappingInvalid => 303
  | SrBelowDealFloor => 304 | SrCreativeSizeNotAllowed => 351 | SrCreativeNotSecure => 352
  end.
Definition error_to_non_bid_reason (is_timeout : bool) : SeatReason :=
  if is_timeout then SrErrorTimeout else SrErrorGeneral.

(** ** The auction's data *)

Record AuctionBid : Type := { acb_bidder : string; acb_imp_id : string; acb_price : f64; acb_deal_id : string }.
Record AuctionData : Type := {
  acd_winning_bids : gmap string AuctionBid; acd_all_bids_by_bidder : gmap string (list AuctionBid);
  acd_rounded_prices : gmap string string; acd_cache_ids : gmap string string;
  acd_vast_cache_ids : gmap string string;
}.
Record DebugData : Type := {
  dbd_request_uri : string; dbd_headers : gmap string string; dbd_body : string; dbd_status_code : Z;
}.
Record DebugLog : Type := {
  dbl_enabled : bool; dbl_cache_type : string; dbl_data : DebugData; dbl_ttl : Z; dbl_regexp : string;
  dbl_debug_override_header : string;
}.

Definition is_new_winning_bid (bid_price : f64) (bid_deal : string) (winning_price : f64)
    (winning_deal : string) (prefer_deals : bool) : bool :=
  let new_has_deal := negb (str_is_empty bid_deal) in
  let old_has_deal := negb (str_is_empty winning_deal) in
  if prefer_deals && new_has_deal && negb old_has_deal then true
  else if prefer_deals && negb new_has_deal && old_has_deal then false
  else f64_gtb bid_price winning_price.
Definition make_vast (adm nurl : string) : string :=
  if negb (str_is_empty adm) then adm
  else if negb (str_is_empty nurl) then
    "<VAST version=" +:+ dq +:+ "3.0" +:+ dq +:+
    "><Ad><Wrapper><AdSystem>prebid.org wrapper</AdSystem><VASTAdTagURI><![CDATA[" +:+ nurl +:+
    "]]></VASTAdTagURI><Impression></Impression><Creatives></Creatives></Wrapper></Ad></VAST>"
  else "".
Definition cache_ttl (imp_ttl bid_ttl def_ttl buffer : Z) : Z :=
  let base := if 0 <? bid_ttl then bid_ttl else if 0 <? imp_ttl then imp_ttl else def_ttl in
  let total := i64 (base + buffer) in
  if total <=? 0 then i64 (def_ttl + buffer) else total.
Definition is_debug_override_enabled (debug_header config_override_token : string) : bool :=
  negb (str_is_empty config_override_token) && bool_decide (debug_header = config_override_token).
Definition validate_auction_bid (id imp_id : string) (price : f64) (deal_id cr_id : string) : outcome string () :=
  if str_is_empty id then Err ("bid missing required field: " +:+ dq +:+ "id" +:+ dq)
  else if str_is_empty imp_id
  then Err ("bid " +:+ dq +:+ id +:+ dq +:+ " missing required field: " +:+ dq +:+ "impid" +:+ dq)
  else if f64_leb price f64_zero && str_is_empty deal_id
  then Err ("bid " +:+ dq +:+ id +:+ dq +:+ " has non-positive price " +:+ format_f64 4 price +:+ " without a deal")
  else if str_is_empty cr_id
  then Err ("bid " +:+ dq +:+ id +:+ dq +:+ " missing required field: " +:+ dq +:+ "crid" +:+ dq)
  else Ok ().
(** [debug_strings] is [{:?}] of a vector of strings. *)
Definition validate_currency (debug_strings : list string → string) (request_currencies : list string)
    (bid_currency : string) : outcome string () :=
  match request_currencies with
  | [] => Ok ()
  | _ =>
      let effective := if str_is_empty bid_currency then "USD" else bid_currency in
      if bool_decide (effective ∈ request_currencies) then Ok ()
      else Err ("bid currency " +:+ dq +:+ effective +:+ dq +:+ " is not in the list of request currencies: " +:+
                debug_strings request_currencies)
  end.

(** ** SeatNonBidBuilder *)

Notation SeatNonBidBuilder := (gmap string (list NonBid)).
(** [self.inner.entry(seat).or_default().extend(non_bids)] *)
Definition extend_seat (seat : string) (non_bids : list NonBid) (b : SeatNonBidBuilder) : SeatNonBidBuilder :=
  <[seat := default [] (b !! seat) ++ non_bids]> b.
Definition rejected_bid (typed_bid : TypedBid) (reason : SeatReason) : NonBid :=
  let bid := tb_bid typed_bid in
  {| nb_impid := bid_impid bid; nb_statuscode := seat_reason_code reason;
     nb_ext := Some {| nbx_prebid := {| nbp_bid := {|
       nbo_price := Some (bid_price bid); nbo_adomain := bid_adomain bid; nbo_cat := bid_cat bid;
       nbo_dealid := bid_dealid bid; nbo_w := bid_w bid; nbo_h := bid_h bid; nbo_dur := f64_as_i64 <$> bid_dur bid;
       nbo_orig_bid_cpm := Some (tb_orig_bid_cpm typed_bid);
       nbo_orig_bid_cur := Some (tb_orig_bid_cur typed_bid) |} |} |} |}.
Definition builder_reject_bid (typed_bid : TypedBid) (reason : SeatReason) (seat : string)
    (b : SeatNonBidBuilder) : SeatNonBidBuilder :=
  extend_seat seat [rejected_bid typed_bid reason] b.
Definition reject_imps (imp_ids : list string) (reason : SeatReason) (seat : string) (b : SeatNonBidBuilder)
    : SeatNonBidBuilder :=
  match imp_ids with
  | [] => b
  | _ => extend_seat seat ((λ imp_id, {| nb_impid := imp_id; nb_statuscode := seat_reason_code reason;
                                         nb_ext := None |}) <$> imp_ids) b
  end.
Section Builder.
Context `{MI : MapIter}.
Definition builder_append (b other : SeatNonBidBuilder) : SeatNonBidBuilder :=
  fold_left (λ b '(seat, non_bids), extend_seat seat non_bids b) (map_iter other) b.
Definition to_seat_non_bids (b : SeatNonBidBuilder) : list SeatNonBid :=
  (λ '(seat, non_bids), {| snb_nonbid := non_bids; snb_seat := seat; snb_ext := None |}) <$> map_iter b.
Definition builder_is_empty (b : SeatNonBidBuilder) : bool := bool_decide (b = ∅).
Definition builder_len (b : SeatNonBidBuilder) : nat := sum_list (length <$> (map_iter b).*2).
End Builder.

(** ** exchange/src/tmax.rs *)

Record TmaxAdjustmentsConfig : Type := {
  txc_enabled : bool; txc_bidder_network_latency_buffer_ms : Z;
  txc_pbs_response_preparation_duration_ms : Z; txc_bidder_response_duration_min_ms : Z;
}.
Record TmaxAdjustments : Type := {
  tmx_bidder_network_latency_buffer : Z; tmx_pbs_response_preparation_duration : Z;
  tmx_bidder_response_duration_min : Z;
}.
Definition tmax_from_config (config : TmaxAdjustmentsConfig) : option TmaxAdjustments :=
  if negb (txc_enabled config) then None
  else
    let is_enforced := (0 <? txc_bidder_response_duration_min_ms config) &&
      ((0 <? txc_bidder_network_latency_buffer_ms config) || (0 <? txc_pbs_response_preparation_duration_ms config)) in
    if negb is_enforced then None
    else Some {| tmx_bidder_network_latency_buffer := txc_bidder_network_latency_buffer_ms config;
                 tmx_pbs_response_preparation_duration := txc_pbs_response_preparation_duration_ms config;
                 tmx_bidder_response_duration_min := txc_bidder_response_duration_min_ms config |}.
(** Instants are nanoseconds of a monotonic clock. *)
Definition get_bidder_tmax (deadline : option Z) (start request_tmax_ms : Z)
    (adjustments : option TmaxAdjustments) : Z :=
  match adjustments, deadline with
  | Some adj, Some dl =>
      if start <? dl then
        let remaining_ms := i64 ((dl - start) / 1000000) in
        let adjusted := i64 (i64 (remaining_ms - i64 (tmx_bidder_network_latency_buffer adj)) -
                             i64 (tmx_pbs_response_preparation_duration adj)) in
        if i64 (tmx_bidder_response_duration_min adj) <=? adjusted then adjusted else request_tmax_ms
      else request_tmax_ms
  | _, _ => request_tmax_ms
  end.

(** ** Reasons: codes read back, and the two tables disagree *)

Lemma reason_code_roundtrip r : reason_from_i32 (reason_code r) = r.
Proof. by destruct r. Qed.
Lemma reason_from_i32_known value : reason_from_i32 value ≠ NoBidUnknown → reason_code (reason_from_i32 value) = value.
Proof.
  unfold reason_from_i32.
  repeat match goal with |- context [value =? ?n] => destruct (Z.eqb_spec value n) as [->|]; [done|] end. done.
Qed.
(** "Bidder unreachable" is 102 in one table and 103, which is the other's bad input,
    in the other; "below floor" is 201 and 301. *)
Lemma reason_tables_disagree :
  reason_code ErrorBidderUnreachable ≠ seat_reason_code SrErrorBidderUnreachable ∧
  reason_from_i32 (seat_reason_code SrErrorBidderUnreachable) = ErrorBadInput ∧
  reason_from_i32 (seat_reason_code SrBelowFloor) = ResponseRejectedBidPriceCurrencyConversionError.
Proof. done. Qed.

(** ** The winner *)

(** The loop the function is for: the incumbent stays unless beaten. *)
Definition elect (prefer_deals : bool) (winner bid : AuctionBid) : AuctionBid :=
  if is_new_winning_bid (acb_price bid) (acb_deal_id bid) (acb_price winner) (acb_deal_id winner) prefer_deals
  then bid else winner.
Definition beats (prefer_deals : bool) (a b : AuctionBid) : Prop :=
  is_new_winning_bid (acb_price a) (acb_deal_id a) (acb_price b) (acb_deal_id b) prefer_deals = true.
Lemma not_beats_trans pd a b c : f64_is_nan (acb_price a) = false → f64_is_nan (acb_price b) = false →
  f64_is_nan (acb_price c) = false → ¬ beats pd a b → ¬ beats pd b c → ¬ beats pd a c.
Proof.
  unfold beats, is_new_winning_bid, f64_gtb. intros Ha Hb Hc.
  assert (Hp : f64_ltb (acb_price b) (acb_price a) = false → f64_ltb (acb_price c) (acb_price b) = false →
    f64_ltb (acb_price c) (acb_price a) = false).
  { intros H1 H2. apply negb_true_iff. rewrite <-f64_leb_ltb by done.
    apply (f64_leb_trans _ (acb_price b)); by rewrite f64_leb_ltb, ?H1, ?H2. }
  destruct pd, (str_is_empty (acb_deal_id a)), (str_is_empty (acb_deal_id b)), (str_is_empty (acb_deal_id c));
    cbn; try done; rewrite !not_true_iff_false; auto.
Qed.
Lemma f64_ltb_irrefl x : f64_is_nan x = false → f64_ltb x x = false.
Proof. intros Hx. rewrite <-(negb_involutive (f64_ltb x x)), <-f64_leb_ltb by done. by rewrite f64_leb_refl. Qed.
Lemma not_beats_self pd x : f64_is_nan (acb_price x) = false → ¬ beats pd x x.
Proof.
  intros Hx. unfold beats, is_new_winning_bid, f64_gtb. rewrite f64_ltb_irrefl by done.
  by destruct pd, (str_is_empty (acb_deal_id x)).
Qed.
(** The bid elected from a list is in it, no other beats it, and of equal bids the
    first wins. *)
Lemma elect_spec pd l w : Forall (λ b, f64_is_nan (acb_price b) = false) (w :: l) →
  let r := fold_left (elect pd) l w in
  r ∈ w :: l ∧ (∀ b, b ∈ w :: l → ¬ beats pd b r).
Proof.
  revert w. induction l as [|b l IH]; intros w Hn; cbn.
  { split; [by left|]. intros b ->%list_elem_of_singleton. apply Forall_inv in Hn. by apply not_beats_self. }
  apply Forall_cons in Hn as [Hw Hn]. pose proof Hn as [Hb Hl]%Forall_cons.
  pose proof (not_beats_self pd) as Hrefl.
  assert (Hew : f64_is_nan (acb_price (elect pd w b)) = false) by (unfold elect; by destruct (is_new_winning_bid _ _ _ _ _)).
  destruct (IH (elect pd w b)) as [Hin Hmax]; [by constructor|].
  set (r := fold_left (elect pd) l (elect pd w b)) in *.
  assert (Hr : f64_is_nan (acb_price r) = false).
  { apply elem_of_cons in Hin as [->|Hin]; [done|]. rewrite Forall_forall in Hl. auto. }
  split.
  { apply elem_of_cons in Hin as [->|Hin]; [|by right; right]. unfold elect.
    destruct (is_new_winning_bid _ _ _ _ _); [right; by left|by left]. }
  assert (Hwb : ¬ beats pd w (elect pd w b) ∧ ¬ beats pd b (elect pd w b)).
  { unfold elect. destruct (is_new_winning_bid _ _ _ _ _) eqn:He.
    - split; [|by apply Hrefl]. intros Hbw. unfold beats in Hbw. revert He Hbw. unfold is_new_winning_bid, f64_gtb.
      destruct pd, (str_is_empty (acb_deal_id b)), (str_is_empty (acb_deal_id w)); cbn; try done;
        intros H1%f64_ltb_leb; rewrite f64_leb_ltb in H1 by done; apply negb_true_iff in H1; congruence.
    - split; [by apply Hrefl|]. unfold beats. by rewrite He. }
  assert (He : ¬ beats pd (elect pd w b) r) by (apply Hmax; by left).
  intros x [->|[->|Hx]%elem_of_cons]%elem_of_cons.
  - by apply (not_beats_trans pd _ (elect pd w b)); [..|apply Hwb|].
  - by apply (not_beats_trans pd _ (elect pd w b)); [..|apply Hwb|].
  - apply Hmax. by right.
Qed.

(** ** Life times and checks *)

(** A cached bid lives as long as it says, else as its impression says, else the
    default, and the buffer. *)
Lemma cache_ttl_spec imp_ttl bid_ttl def_ttl buffer :
  0 ≤ buffer < 2 ^ 62 → - 2 ^ 62 ≤ def_ttl < 2 ^ 62 → imp_ttl < 2 ^ 62 → bid_ttl < 2 ^ 62 →
  cache_ttl imp_ttl bid_ttl def_ttl buffer =
    (if 0 <? bid_ttl then bid_ttl else if 0 <? imp_ttl then imp_ttl else def_ttl) + buffer.
Proof.
  intros. unfold cache_ttl. set (base := if 0 <? bid_ttl then _ else _).
  assert (Hb : - 2 ^ 62 ≤ base < 2 ^ 62 ∧ (base = def_ttl ∨ 0 < base)).
  { unfold base. destruct (Z.ltb_spec 0 bid_ttl); [lia|]. destruct (Z.ltb_spec 0 imp_ttl); lia. }
  clearbody base. rewrite !i64_small by lia. destruct (Z.leb_spec (base + buffer) 0); lia.
Qed.
Lemma validate_auction_bid_ok id imp_id price deal_id cr_id :
  is_Ok (validate_auction_bid id imp_id price deal_id cr_id) = true ↔
  id ≠ "" ∧ imp_id ≠ "" ∧ (f64_leb price f64_zero = false ∨ deal_id ≠ "") ∧ cr_id ≠ "".
Proof.
  unfold validate_auction_bid, str_is_empty. destruct (decide (id = "")), (decide (imp_id = "")), (decide (deal_id = "")), (decide (cr_id = ""));
    rewrite ?(bool_decide_true (id = "")), ?(bool_decide_false (id = "")), ?(bool_decide_true (imp_id = "")), ?(bool_decide_false (imp_id = "")),
      ?(bool_decide_true (deal_id = "")), ?(bool_decide_false (deal_id = "")), ?(bool_decide_true (cr_id = "")), ?(bool_decide_false (cr_id = "")) by done;
    destruct (f64_leb price f64_zero); cbn; naive_solver.
Qed.

(** ** The book of rejected bids *)

(** What was rejected for a seat, in order. *)
Definition seat_events (seat : string) (events : list (string * NonBid)) : list NonBid :=
  snd <$> List.filter (λ e, bool_decide (e.1 = seat)) events.
Definition non_empty_list {A} (l : list A) : option (list A) := match l with [] => None | _ => Some l end.
(** The book of a list of rejections. *)
Definition book_of (events : list (string * NonBid)) (b : SeatNonBidBuilder) : Prop :=
  ∀ seat, b !! seat = non_empty_list (seat_events seat events).

Lemma extend_seat_book events b seat non_bids : non_bids ≠ [] → book_of events b →
  book_of (events ++ ((λ n, (seat, n)) <$> non_bids)) (extend_seat seat non_bids b).
Proof.
  intros Hn Hb s. unfold seat_events, extend_seat. rewrite List.filter_app, fmap_app.
  assert (Hs : snd <$> List.filter (λ e : string * NonBid, bool_decide (e.1 = s)) ((λ n, (seat, n)) <$> non_bids) =
    if bool_decide (seat = s) then non_bids else []).
  { induction non_bids as [|n l IH] in Hn |- *; [done|]. clear Hn. cbn. case_bool_decide as Hss; cbn.
    - f_equal. destruct l; [done|]. by apply IH.
    - destruct l; [done|]. by apply IH. }
  rewrite Hs, Hb. destruct (decide (seat = s)) as [->|Hne].
  - rewrite bool_decide_true, lookup_insert_eq by done. unfold seat_events.
    generalize (snd <$> List.filter (λ e : string * NonBid, bool_decide (e.1 = s)) events) as k. intros k.
    destruct k; [by destruct non_bids|done].
  - rewrite bool_decide_false, lookup_insert_ne, app_nil_r, Hb by done. done.
Qed.
Lemma reject_imps_book events b ids reason seat : book_of events b →
  book_of (events ++ ((λ id, (seat, {| nb_impid := id; nb_statuscode := seat_reason_code reason; nb_ext := None |})) <$> ids))
    (reject_imps ids reason seat b).
Proof.
  intros Hb. unfold reject_imps. destruct ids as [|id ids]; [by rewrite app_nil_r|].
  set (f := λ id, {| nb_impid := id; nb_statuscode := seat_reason_code reason; nb_ext := None |}).
  assert (Hne : f <$> id :: ids ≠ []) by by cbn.
  pose proof (extend_seat_book events b seat _ Hne Hb) as H. by rewrite <-list_fmap_compose in H.
Qed.
(** Appending a book appends, seat by seat, its rejections, whatever the order of
    its map. *)
Lemma builder_append_lookup `{MI : MapIter} b other seat :
  builder_append b other !! seat = match other !! seat with
    | Some l => Some (default [] (b !! seat) ++ l) | None => b !! seat end.
Proof.
  unfold builder_append.
  assert (Hg : ∀ l b, NoDup l.*1 → fold_left (λ b '(s, n), extend_seat s n b) l b !! seat =
    match (list_to_map l : SeatNonBidBuilder) !! seat with
    | Some n => Some (default [] (b !! seat) ++ n) | None => b !! seat end).
  { induction l as [|[s n] l IH]; intros b0; cbn; [by rewrite lookup_empty|].
    intros [Hs Hl]%NoDup_cons. rewrite IH by done. unfold extend_seat. destruct (decide (s = seat)) as [->|Hne].
    - rewrite not_elem_of_list_to_map_1 by done. by rewrite !lookup_insert_eq.
    - by rewrite !lookup_insert_ne. }
  pose proof (map_iter_perm _ other) as Hperm.
  assert (Hnd : NoDup (map_iter other).*1) by (rewrite Hperm; apply NoDup_fst_map_to_list).
  by rewrite Hg, (list_to_map_proper _ _ Hnd Hperm), list_to_map_to_list.
Qed.
Lemma builder_append_book `{MI : MapIter} e1 e2 b1 b2 : book_of e1 b1 → book_of e2 b2 →
  book_of (e1 ++ e2) (builder_append b1 b2).
Proof.
  intros H1 H2 seat. rewrite builder_append_lookup, H1, H2. unfold seat_events. rewrite List.filter_app, fmap_app.
  generalize (snd <$> List.filter (λ e : string * NonBid, bool_decide (e.1 = seat)) e1) as k1.
  generalize (snd <$> List.filter (λ e : string * NonBid, bool_decide (e.1 = seat)) e2) as k2.
  intros [] []; cbn; by rewrite ?app_nil_r.
Qed.

(** ** The bidder's time *)

(** With adjustments, a bidder gets what is left of the auction but for the network
    and the response, when that is at least the configured minimum; otherwise, and
    even when less is left, the request's own [tmax]. *)
Lemma bidder_tmax_spec deadline start tmax adj :
  0 ≤ tmx_bidder_network_latency_buffer adj < 2 ^ 61 → 0 ≤ tmx_pbs_response_preparation_duration adj < 2 ^ 61 →
  0 ≤ tmx_bidder_response_duration_min adj < 2 ^ 61 → deadline - start < 2 ^ 61 →
  let left := (deadline - start) / 1000000 - tmx_bidder_network_latency_buffer adj
              - tmx_pbs_response_preparation_duration adj in
  get_bidder_tmax (Some deadline) start tmax (Some adj) =
    if (start <? deadline) && (tmx_bidder_response_duration_min adj <=? left) then left else tmax.
Proof.
  intros H1 H2 H3 H4 left. unfold get_bidder_tmax. destruct (Z.ltb_spec start deadline); cbn [andb]; [|done].
  assert (0 ≤ (deadline - start) / 1000000 < 2 ^ 61) by (split; [apply Z.div_pos; lia|apply Z.div_lt_upper_bound; lia]).
  subst left. rewrite !(i64_small (tmx_bidder_network_latency_buffer adj)), (i64_small (tmx_pbs_response_preparation_duration adj)),
    (i64_small (tmx_bidder_response_duration_min adj)), (i64_small ((deadline - start) / 1000000)) by lia.
  by rewrite !i64_small by (rewrite ?i64_small; lia).
Qed.
(** A bidder can be given more time than the auction has left. *)
Lemma tmax_outlives_auction : get_bidder_tmax (Some 50000000) 0 1000
  (Some {| tmx_bidder_network_latency_buffer := 10; tmx_pbs_response_preparation_duration := 10;
           tmx_bidder_response_duration_min := 100 |}) = 1000.
Proof. done. Qed.
