(* ===== verification/Currency.v ===== *)
(** * Currency conversion

    exchange/src/currency.rs: the rates table and its conversions.  A [HashMap]
    of rates is a [gmap]; the generated deserialiser of the request's rates is a
    parameter. *)

From S2P Require Import Prelude Json OpenRtb.

Abbreviation Rates := (gmap string (gmap string f64)).

Record CurrencyConverter : Type := {
  cc_rates : Rates;
  cc_source : option string;
  cc_last_updated : option Z;
}.

Definition currency_new (rates : Rates) : CurrencyConverter :=
  {| cc_rates := rates; cc_source := None; cc_last_updated := None |}.
Definition currency_empty : CurrencyConverter :=
  {| cc_rates := ∅; cc_source := None; cc_last_updated := None |}.
Definition currency_with_info (rates : Rates) (source : option string) (last_updated : option Z)
    : CurrencyConverter :=
  {| cc_rates := rates; cc_source := source; cc_last_updated := last_updated |}.

(** [rates.get(from).and_then(|m| m.get(to))] *)
Definition rate_of (rates : Rates) (from to : string) : option f64 :=
  m ← rates !! from; m !! to.

Definition convert (c : CurrencyConverter) (amount : f64) (from to : string) : option f64 :=
  if bool_decide (from = to) then Some amount
  else match rate_of (cc_rates c) from to with
  | Some rate => Some (f64_mul amount rate)
  | None =>
      match rate_of (cc_rates c) to from with
      | Some rate => Some (f64_div amount rate)
      | None =>
          if negb (bool_decide (from = "USD")) && negb (bool_decide (to = "USD")) then
            to_usd ← rate_of (cc_rates c) from "USD";
            from_usd ← rate_of (cc_rates c) "USD" to;
            Some (f64_mul (f64_mul amount to_usd) from_usd)
          else None
      end
  end.

Definition convert_with_overrides (c : CurrencyConverter) (amount : f64) (from to : string)
    (request_rates : Rates) : option f64 :=
  if bool_decide (from = to) then Some amount
  else match rate_of request_rates from to with
  | Some rate => Some (f64_mul amount rate)
  | None =>
      match rate_of request_rates to from with
      | Some rate => Some (f64_div amount rate)
      | None => convert c amount from to
      end
  end.

Definition get_rate (c : CurrencyConverter) (from to : string) : option f64 :=
  convert c (f64_of_Z 1) from to.

(** Each additional table is inserted into the one already there, entry by
    entry; the order of the maps does not matter, their keys are distinct. *)
Definition with_additional_rates (c : CurrencyConverter) (additional : Rates)
    : CurrencyConverter :=
  let rates := union_with (λ old new : gmap string f64, Some (new ∪ old))
                 (cc_rates c) additional in
  {| cc_rates := rates; cc_source := cc_source c; cc_last_updated := cc_last_updated c |}.

Definition extract_request_rates (from_value : Value → option Rates) (bid_request : BidRequest)
    : Rates :=
  default ∅ (json_path ["prebid"; "currency"; "rates"] (req_ext bid_request) ≫= from_value).

(** ** Lemmas *)

(** After a merge, an additional rate wins and the others stay. *)
Lemma rate_of_additional c additional from to :
  rate_of (cc_rates (with_additional_rates c additional)) from to =
    match rate_of additional from to with
    | Some r => Some r
    | None => rate_of (cc_rates c) from to
    end.
Proof.
  unfold rate_of, with_additional_rates. cbn [cc_rates]. rewrite lookup_union_with.
  destruct (cc_rates c !! from) as [m|], (additional !! from) as [m'|]; simpl; try done.
  - rewrite lookup_union. by destruct (m' !! to), (m !! to).
  - by destruct (m' !! to).
Qed.

(** A conversion through USD that has both rates succeeds. *)
Lemma convert_is_Some c amount from to :
  is_Some (convert c amount from to) ↔
    from = to ∨ is_Some (rate_of (cc_rates c) from to) ∨ is_Some (rate_of (cc_rates c) to from) ∨
    (from ≠ "USD" ∧ to ≠ "USD" ∧ is_Some (rate_of (cc_rates c) from "USD") ∧
       is_Some (rate_of (cc_rates c) "USD" to)).
Proof.
  unfold convert. case_bool_decide; [split; eauto|].
  destruct (rate_of (cc_rates c) from to); [split; eauto|].
  destruct (rate_of (cc_rates c) to from); [split; eauto|].
  rewrite !is_Some_alt.
  destruct (decide (from = "USD")) as [->|Hf]; simpl; [split; [done|naive_solver]|].
  rewrite bool_decide_false by done. simpl.
  destruct (decide (to = "USD")) as [->|Ht]; simpl; [split; [done|naive_solver]|].
  rewrite bool_decide_false by done. simpl.
  destruct (rate_of (cc_rates c) from "USD"), (rate_of (cc_rates c) "USD" to); simpl; naive_solver.
Qed.
