(* ===== verification/CurrencyCrate.v ===== *)
(** * CurrencyCrate

    The currency crate (currency/src/lib.rs): rate tables with their lookup by
    direct rate, reciprocal and triangulation, the trait every source of rates
    implements as a type class, the layering of two sources, and the converter
    that fetches rates, keeps them and drops them when stale.  reqwest's fetch and
    the clock are parameters. *)

From S2P Require Import Prelude Json IpUtil Text Currency.

Inductive ConversionError : Type :=
| NotFound (from to : string)
| InvalidCurrency (code : string)
| RatesUnavailable
| RateBadServerResponse (status : Z)
| RateTransport (e : string)
| RateParse (e : string).
Definition conversion_error_to_string (e : ConversionError) : string :=
  match e with
  | NotFound from to => "Currency conversion rate not found: '" +:+ from +:+ "' => '" +:+ to +:+ "'"
  | InvalidCurrency code => "invalid currency code: '" +:+ code +:+ "'"
  | RatesUnavailable => "rates are not available"
  | RateBadServerResponse status => "the currency rates request failed with status code " +:+ pretty status
  | RateTransport e => "the currency rates request failed: " +:+ e
  | RateParse e => "the currency rates request failed to parse json: " +:+ e
  end.

(** [trait ConversionRates] *)
Class ConversionRates (T : Type) : Type := {
  conv_rate : T → string → string → outcome ConversionError f64;
  conv_rates : T → option Rates;
}.

Definition ascii_alphabetic (a : Ascii.ascii) : bool :=
  let n := Z.of_N (Ascii.N_of_ascii a) in ((65 <=? n) && (n <=? 90)) || ((97 <=? n) && (n <=? 122)).
Definition ascii_upper_char (a : Ascii.ascii) : Ascii.ascii :=
  let n := Z.of_N (Ascii.N_of_ascii a) in if (97 <=? n) && (n <=? 122) then ascii_of_byte (n - 32) else a.
Fixpoint to_ascii_uppercase (s : string) : string :=
  match s with "" => "" | String a s' => String (ascii_upper_char a) (to_ascii_uppercase s') end.
Definition validate_iso (code : string) : outcome ConversionError string :=
  let trimmed := trim code in
  if negb (str_len trimmed =? 3) || negb (forallb ascii_alphabetic (String.list_ascii_of_string trimmed))
  then Err (InvalidCurrency code) else Ok (to_ascii_uppercase trimmed).

(** ** Rates *)

Definition f64_nonzero (x : f64) : bool := negb (f64_eqb x f64_zero).
(** [to / from] in the table of one base. *)
Definition pivot_rate (rates : gmap string f64) (from to : string) : option f64 :=
  match rates !! to, rates !! from with
  | Some to_rate, Some from_rate => if f64_nonzero from_rate then Some (f64_div to_rate from_rate) else None
  | _, _ => None
  end.
Definition reciprocal_rate (conversions : Rates) (from to : string) : option f64 :=
  rate ← rate_of conversions to from;
  if f64_nonzero rate then Some (f64_div (f64_of_Z 1) rate) else None.
Definition usd_rate (conversions : Rates) (from to : string) : option f64 :=
  if negb (bool_decide (from = "USD")) && negb (bool_decide (to = "USD"))
  then usd ← conversions !! "USD"; pivot_rate usd from to else None.
(** The first base, in the order the map iterates, that knows both. *)
Definition any_pivot `{MapIter} (conversions : Rates) (from to : string) : option f64 :=
  head (omap (λ '(_, rates), pivot_rate rates from to) (map_iter conversions)).
Definition rates_get_rate `{MapIter} (conversions : Rates) (from to : string) : outcome ConversionError f64 :=
  from ← validate_iso from;
  to ← validate_iso to;
  if bool_decide (from = to) then Ok (f64_of_Z 1)
  else match rate_of conversions from to with
  | Some rate => Ok rate
  | None =>
      match reciprocal_rate conversions from to with
      | Some rate => Ok rate
      | None =>
          match usd_rate conversions from to with
          | Some rate => Ok rate
          | None =>
              match any_pivot conversions from to with
              | Some rate => Ok rate
              | None => Err (NotFound from to)
              end
          end
      end
  end.
Record RateTable : Type := { rt_conversions : Rates }.
#[export] Instance table_rates `{MapIter} : ConversionRates RateTable := {
  conv_rate t := rates_get_rate (rt_conversions t); conv_rates t := Some (rt_conversions t) }.

Inductive ConstantRates : Type := constant_rates.
Definition constant_get_rate (from to : string) : outcome ConversionError f64 :=
  from ← validate_iso from;
  to ← validate_iso to;
  if bool_decide (from = to) then Ok (f64_of_Z 1) else Err (NotFound from to).
#[export] Instance constant_rates_rates : ConversionRates ConstantRates := {
  conv_rate _ := constant_get_rate; conv_rates _ := None }.

Record AggregateConversions (A B : Type) : Type := { ag_custom : A; ag_primary : B }.
Arguments ag_custom {A B} _.
Arguments ag_primary {A B} _.
Definition aggregate_get_rate `{ConversionRates A, ConversionRates B} (c : AggregateConversions A B)
    (from to : string) : outcome ConversionError f64 :=
  match conv_rate (ag_custom c) from to with
  | Ok rate => Ok rate
  | Err (NotFound _ _) => conv_rate (ag_primary c) from to
  | other => other
  end.
#[export] Instance aggregate_rates `{ConversionRates A, ConversionRates B} :
  ConversionRates (AggregateConversions A B) := {
  conv_rate := aggregate_get_rate; conv_rates _ := None }.

(** ** RateConverter *)

(** Durations and times in nanoseconds. *)
Record RateConverterConfig : Type := {
  rcc_sync_source_url : string; rcc_http_timeout : Z; rcc_fetch_interval : Z; rcc_stale_rates_threshold : Z;
}.
Definition default_rate_converter_config : RateConverterConfig := {|
  rcc_sync_source_url := ""; rcc_http_timeout := 30 * 10 ^ 9; rcc_fetch_interval := 3600 * 10 ^ 9;
  rcc_stale_rates_threshold := 0 |}.
Record RateConverterState : Type := { rcs_rates : option Rates; rcs_last_updated : option Z }.
Record RateConverter : Type := { rc_config : RateConverterConfig; rc_state : RateConverterState }.
Definition rate_converter_new (config : RateConverterConfig) : RateConverter :=
  {| rc_config := config; rc_state := {| rcs_rates := None; rcs_last_updated := None |} |}.

(** What reqwest answers: a transport error, or a status and, below 400, a body
    that may fail to arrive. *)
Definition fetch_rates (rates_from_slice : list Z → string + Rates) (answer : string + Z * (string + list Z))
    : ConversionError + Rates :=
  match answer with
  | inl e => inl (RateTransport e)
  | inr (status, body) =>
      if 400 <=? status then inl (RateBadServerResponse status)
      else match body with
           | inl e => inl (RateTransport e)
           | inr bytes => match rates_from_slice bytes with inl e => inl (RateParse e) | inr rates => inr rates end
           end
  end.
(** [chrono::Duration::from_std]: at most [i64::MAX] milliseconds. *)
Definition duration_from_std (d : Z) : option Z := if d <=? (2 ^ 63 - 1) * 10 ^ 6 then Some d else None.
Definition check_and_clear_stale (config : RateConverterConfig) (now : Z) (state : RateConverterState)
    : bool * RateConverterState :=
  if rcc_stale_rates_threshold config =? 0 then (false, state)
  else match duration_from_std (rcc_stale_rates_threshold config) with
  | None => (false, state)
  | Some threshold =>
      match rcs_last_updated state with
      | Some last =>
          if threshold <? now - last
          then (true, {| rcs_rates := None; rcs_last_updated := Some last |}) else (false, state)
      | None => (false, state)
      end
  end.
(** [update], for the fetch's result and the time it is written. *)
Definition rc_update (fetched : ConversionError + Rates) (now : Z) (c : RateConverter)
    : outcome ConversionError () * RateConverter :=
  match fetched with
  | inr rates => (Ok (), {| rc_config := rc_config c;
                            rc_state := {| rcs_rates := Some rates; rcs_last_updated := Some now |} |})
  | inl e => (Err e, {| rc_config := rc_config c;
                        rc_state := (check_and_clear_stale (rc_config c) now (rc_state c)).2 |})
  end.
(** The ticks of [start] and any other calls of [update]: the lock makes each
    write one step, so they come in some order. *)
Definition rc_updates (events : list ((ConversionError + Rates) * Z)) (c : RateConverter) : RateConverter :=
  fold_left (λ c '(fetched, now), (rc_update fetched now c).2) events c.

Definition converter_get_rate `{MapIter} (c : RateConverter) (from to : string) : outcome ConversionError f64 :=
  match rcs_rates (rc_state c) with
  | Some rates => rates_get_rate rates from to
  | None => constant_get_rate from to
  end.
#[export] Instance converter_rates `{MapIter} : ConversionRates RateConverter := {
  conv_rate := converter_get_rate; conv_rates c := rcs_rates (rc_state c) }.

(** ** Specification *)

(** What every source of rates promises: codes are trimmed and upper-cased, a bad
    one is refused, a currency converts to itself at one, and any other pair at
    the rate the source knows, or not at all. *)
Class RatesContract (T : Type) `{ConversionRates T} : Type := {
  known_rate : T → string → string → option f64;
  conv_rate_spec c from to : conv_rate c from to =
    from ← validate_iso from;
    to ← validate_iso to;
    if bool_decide (from = to) then Ok (f64_of_Z 1)
    else match known_rate c from to with Some rate => Ok rate | None => Err (NotFound from to) end;
}.

(** In order: the direct rate, the reciprocal, through USD, through any base. *)
Definition table_rate `{MapIter} (conversions : Rates) (from to : string) : option f64 :=
  option_or (rate_of conversions from to) (option_or (reciprocal_rate conversions from to)
    (option_or (usd_rate conversions from to) (any_pivot conversions from to))).

(** A failure at [now] finds the rates of [t] stale. *)
Definition stale (config : RateConverterConfig) (t now : Z) : bool :=
  negb (rcc_stale_rates_threshold config =? 0) &&
  match duration_from_std (rcc_stale_rates_threshold config) with
  | Some threshold => threshold <? now - t
  | None => false
  end.

(** ** Theorems *)

Lemma rates_get_rate_spec `{MapIter} conversions from to : rates_get_rate conversions from to =
  from ← validate_iso from;
  to ← validate_iso to;
  if bool_decide (from = to) then Ok (f64_of_Z 1)
  else match table_rate conversions from to with Some rate => Ok rate | None => Err (NotFound from to) end.
Proof.
  unfold rates_get_rate. destruct (validate_iso from) as [f| |]; [|done..]. cbn [mbind outcome_bind].
  destruct (validate_iso to) as [t| |]; [|done..]. cbn [mbind outcome_bind]. case_bool_decide; [done|].
  unfold table_rate, option_or. by repeat case_match; simplify_eq.
Qed.
#[export, refine] Instance table_contract `{MapIter} : RatesContract RateTable := {
  known_rate t := table_rate (rt_conversions t); conv_rate_spec := _ }.
Proof. intros c from to. apply rates_get_rate_spec. Defined.
#[export, refine] Instance constant_contract : RatesContract ConstantRates := { known_rate _ _ _ := None; conv_rate_spec := _ }.
Proof. intros c from to. done. Defined.
(** Custom rates win, the primary source fills in what they lack. *)
#[export, refine] Instance aggregate_contract `{RatesContract A, RatesContract B} :
  RatesContract (AggregateConversions A B) := {
  known_rate c from to := option_or (known_rate (ag_custom c) from to) (known_rate (ag_primary c) from to); conv_rate_spec := _ }.
Proof.
  intros c from to. cbn. unfold aggregate_get_rate. rewrite !conv_rate_spec.
  destruct (validate_iso from) as [f|e|] eqn:Hf; [|unfold validate_iso in Hf; by destruct (_ || _); simplify_eq|done].
  cbn. destruct (validate_iso to) as [t|e|] eqn:Ht; [|unfold validate_iso in Ht; by destruct (_ || _); simplify_eq|done].
  cbn. case_bool_decide; [done|]. unfold option_or. by destruct (known_rate (ag_custom c) f t).
Defined.
#[export, refine] Instance converter_contract `{MapIter} : RatesContract RateConverter := {
  known_rate c from to := rates ← rcs_rates (rc_state c); table_rate rates from to; conv_rate_spec := _ }.
Proof.
  intros c from to. cbn [conv_rate converter_rates]. unfold converter_get_rate.
  destruct (rcs_rates (rc_state c)) as [rates|]; [|done]. apply rates_get_rate_spec.
Defined.

Lemma head_omap_some {A B} (f : A → option B) l : is_Some (head (omap f l)) ↔ ∃ x, x ∈ l ∧ is_Some (f x).
Proof.
  split.
  - intros [y Hy]. assert (Hin : y ∈ omap f l) by (destruct (omap f l); simplify_eq/=; by left).
    apply list_elem_of_omap in Hin as (x&Hx&Hf). by eauto.
  - intros (x&Hx&y&Hy). destruct (omap f l) as [|z m] eqn:Hm; [|by eexists].
    assert (Hin : y ∈ omap f l) by (apply list_elem_of_omap; eauto). rewrite Hm in Hin. by apply elem_of_nil in Hin.
Qed.
(** Whether a rate is known does not depend on the order of the map. *)
Lemma any_pivot_some `{MI : MapIter} conversions from to :
  is_Some (any_pivot conversions from to) ↔
  ∃ base rates, conversions !! base = Some rates ∧ is_Some (pivot_rate rates from to).
Proof.
  unfold any_pivot. rewrite head_omap_some. split.
  - intros ([base rates]&Hin&Hp). exists base, rates. by rewrite <-map_iter_elem.
  - intros (base&rates&Hin&Hp). exists (base, rates). by rewrite map_iter_elem.
Qed.

Section Converter.
Context (config : RateConverterConfig).
Notation failed := (λ e : (ConversionError + Rates) * Z, ∃ err, e.1 = inl err).

(** The last fetch that succeeded is unique. *)
Lemma last_success_unique (before before' after after' : list ((ConversionError + Rates) * Z)) r r' t t' :
  before ++ (inr r, t) :: after = before' ++ (inr r', t') :: after' →
  Forall failed after → Forall failed after' → r = r' ∧ t = t' ∧ after = after'.
Proof.
  revert before'. induction before as [|e before IH]; intros [|e' before']; cbn; intros He Ha Ha'.
  - by simplify_eq.
  - injection He as <- ->. rewrite Forall_app, Forall_cons in Ha. destruct Ha as (_&[err Hf]&_). done.
  - injection He as -> <-. rewrite Forall_app, Forall_cons in Ha'. destruct Ha' as (_&[err Hf]&_). done.
  - injection He as -> He. by eapply IH.
Qed.
Lemma rc_update_config fetched now c : rc_config (rc_update fetched now c).2 = rc_config c.
Proof. by destruct fetched. Qed.
Lemma clear_stale now state t : rcs_last_updated state = Some t →
  (check_and_clear_stale config now state).2 =
    {| rcs_rates := if stale config t now then None else rcs_rates state; rcs_last_updated := Some t |}.
Proof.
  intros Ht. unfold check_and_clear_stale, stale. rewrite Ht. destruct state as [rates last]. cbn in *. subst last.
  destruct (_ =? 0); [done|]. destruct (duration_from_std _); [|done]. by destruct (_ <? _).
Qed.
Lemma clear_nothing now state : rcs_last_updated state = None →
  (check_and_clear_stale config now state).2 = state.
Proof.
  intros Ht. unfold check_and_clear_stale. rewrite Ht. destruct (_ =? 0); [done|]. by destruct (duration_from_std _).
Qed.
Lemma rc_updates_state events :
  let c := rc_updates events (rate_converter_new config) in
  rc_config c = config ∧
  (Forall failed events ∧ rc_state c = {| rcs_rates := None; rcs_last_updated := None |} ∨
   ∃ before r t after, events = before ++ (inr r, t) :: after ∧ Forall failed after ∧
     rc_state c = {| rcs_rates := if existsb (λ e, stale config t e.2) after then None else Some r;
                     rcs_last_updated := Some t |}).
Proof.
  cbn zeta. induction events as [|[fetched now] events IH] using rev_ind; [split; [done|by left]|].
  unfold rc_updates in *. rewrite fold_left_app. cbn [fold_left].
  set (c := fold_left _ events _) in *. destruct IH as [Hcfg IH]. rewrite rc_update_config. split; [done|].
  destruct fetched as [e|r].
  - cbn [rc_update snd rc_state]. rewrite Hcfg. destruct IH as [[Hf Hs]|(before&r&t&after&->&Hf&Hs)].
    + left. split; [rewrite Forall_app; split; [done|]; constructor; [by exists e|done]|].
      by rewrite clear_nothing, Hs by by rewrite Hs.
    + right. exists before, r, t, (after ++ [(inl e, now)]). split_and!.
      * by rewrite <-app_assoc.
      * rewrite Forall_app. split; [done|]. constructor; [by exists e|done].
      * rewrite (clear_stale now _ t) by by rewrite Hs. rewrite Hs, existsb_app. cbn.
        rewrite orb_false_r. by destruct (existsb _ _), (stale _ _ _).
  - right. by exists events, r, now, [].
Qed.
End Converter.

(** The converter of fetched rates.  After any sequence of fetches, successful
    or not, readers are given a table exactly when some fetch brought it, none
    brought another since, and no failure since found it stale; with it they see
    its direct, reciprocal, USD or other cross rates in that order, and else only
    identity.  So a successful fetch is served at once, and one failure later than
    the threshold takes the rates away until the next success. *)
Theorem rate_converter_spec `{MI : MapIter} config events rates :
  let c := rc_updates events (rate_converter_new config) in
  (rcs_rates (rc_state c) = Some rates ↔
   ∃ before t after, events = before ++ (inr rates, t) :: after ∧
     Forall (λ e, ∃ err, e.1 = inl err ∧ stale config t e.2 = false) after) ∧
  ∀ from to f t, validate_iso from = Ok f → validate_iso to = Ok t → f ≠ t →
    conv_rate c from to =
      match rcs_rates (rc_state c) with
      | Some rates =>
          match table_rate rates f t with Some rate => Ok rate | None => Err (NotFound f t) end
      | None => Err (NotFound f t)
      end.
Proof.
  intros c. split; [|intros from to f t Hf Ht Hne].
  - pose proof (rc_updates_state config events) as [_ Hs]. fold c in Hs. split.
    + intros Hr. destruct Hs as [[_ Hs]|(before&r&t&after&He&Hf&Hs)]; rewrite Hs in Hr; [done|]. cbn in Hr.
      destruct (existsb _ after) eqn:Hst; [done|]. injection Hr as <-. exists before, t, after. split; [done|].
      apply Forall_forall. intros e Hin. rewrite Forall_forall in Hf. destruct (Hf e Hin) as [err Herr].
      exists err. split; [done|]. apply not_true_is_false. intros Hx. apply not_true_iff_false in Hst.
      apply Hst, existsb_exists. exists e. by rewrite <-list_elem_of_In.
    + intros (before&t&after&He&Hf).
      assert (Hf' : Forall (λ e, ∃ err, e.1 = inl err) after) by (eapply Forall_impl; [exact Hf|naive_solver]).
      destruct Hs as [[Hall _]|(before'&r'&t'&after'&He'&Hf''&Hs)].
      { rewrite He, Forall_app, Forall_cons in Hall. by destruct Hall as (_&[]&_). }
      rewrite He in He'. apply last_success_unique in He' as (->&->&->); [|done..]. rewrite Hs. cbn.
      destruct (existsb _ after') eqn:Hst; [|done]. apply existsb_exists in Hst as (e&Hin&Hx).
      rewrite <-list_elem_of_In in Hin. rewrite Forall_forall in Hf. destruct (Hf e Hin) as (?&?&?). congruence.
  - rewrite conv_rate_spec, Hf, Ht. cbn [mbind outcome_bind]. rewrite bool_decide_false by done.
    cbn [known_rate converter_contract]. by destruct (rcs_rates (rc_state c)).
Qed.

(** *** Findings *)

(** Before the first fetch a pair is not found; no path ever answers that rates are
    not available. *)
Lemma never_unavailable `{MI : MapIter} c from to : conv_rate (T := RateConverter) c from to ≠ Err RatesUnavailable.
Proof.
  rewrite conv_rate_spec. destruct (validate_iso from) as [f|e|] eqn:Hf; cbn [mbind outcome_bind]; [| |done].
  2: { unfold validate_iso in Hf. destruct (_ || _); by simplify_eq. }
  destruct (validate_iso to) as [t|e|] eqn:Ht; cbn [mbind outcome_bind]; [| |done].
  2: { unfold validate_iso in Ht. destruct (_ || _); by simplify_eq. }
  case_bool_decide; [done|]. by destruct (known_rate _ _ _).
Qed.
(** Three upper-case letters, says the comment; blanks and lower case pass. *)
Lemma iso_accepts_lower_case : validate_iso " usd " = Ok "USD".
Proof. done. Qed.

#[local] Existing Instance map_iter_to_list.
Definition sample_config : RateConverterConfig := {|
  rcc_sync_source_url := "http://rates"; rcc_http_timeout := 1; rcc_fetch_interval := 1;
  rcc_stale_rates_threshold := 10 |}.
Definition sample_table : Rates := {[ "USD" := {[ "EUR" := f64_of_Z 2; "GBP" := f64_of_Z 4 ]} ]}.
Definition sample_events : list ((ConversionError + Rates) * Z) :=
  [(inr sample_table, 0); (inl (RateTransport "down"), 5)].
(** Served while fresh, and gone after a late failure. *)
Lemma rate_converter_spec_witness :
  (let c := rc_updates sample_events (rate_converter_new sample_config) in
   rcs_rates (rc_state c) = Some sample_table ∧ conv_rate c "eur" "GBP" = Ok (f64_of_Z 2)) ∧
  rcs_rates (rc_state (rc_updates (sample_events ++ [(inl (RateTransport "down"), 11)])
    (rate_converter_new sample_config))) = None.
Proof.
  split; [|by vm_compute].
  destruct (rate_converter_spec sample_config sample_events sample_table) as [H1 H2].
  assert (Hr : rcs_rates (rc_state (rc_updates sample_events (rate_converter_new sample_config))) = Some sample_table).
  { apply H1. exists [], 0, [(inl (RateTransport "down"), 5)]. split; [done|].
    constructor; [|constructor]. exists (RateTransport "down"). split; vm_compute; reflexivity. }
  split; [exact Hr|]. rewrite (H2 "eur" "GBP" "EUR" "GBP" eq_refl eq_refl ltac:(done)), Hr.
  vm_compute. reflexivity.
Defined.
