(* ===== verification/TargetingCrate.v ===== *)
(** * The ad server targeting crate

    adservertargeting/src/lib.rs: the check of the configured entries, the look-up of
    dotted paths in a request or a bid, and the targeting of every impression.

    The printer of JSON numbers and values is a parameter. *)

From S2P Require Import Prelude Json CurrencyCrate.

Inductive DataSource : Type := DsBidRequest | DsStatic | DsBidResponse.
Definition data_source_parse (s : string) : option DataSource :=
  let s := to_ascii_lowercase s in
  if bool_decide (s = "bidrequest") then Some DsBidRequest
  else if bool_decide (s = "static") then Some DsStatic
  else if bool_decide (s = "bidresponse") then Some DsBidResponse else None.
Record TargetingConfig : Type := { tgc_key : string; tgc_source : string; tgc_value : string }.
(** A warning is its text. *)
Record TargetingResult : Type := {
  tgr_targeting_by_imp : gmap string (gmap string string); tgr_warnings : list string }.
Definition BIDDER_MACRO : string := "{{BIDDER}}".
Definition entry_warnings (i : nat) (t : TargetingConfig) : list string :=
  (if str_is_empty (tgc_key t) then ["Key is empty for the ad server targeting object at index " +:+ pretty (Z.of_nat i)] else [])
  ++ (if str_is_empty (tgc_value t) then ["Value is empty for the ad server targeting object at index " +:+ pretty (Z.of_nat i)] else [])
  ++ (if bool_decide (data_source_parse (tgc_source t) = None)
      then ["Incorrect source for the ad server targeting object at index " +:+ pretty (Z.of_nat i)] else []).
Definition validate_targeting (configs : list TargetingConfig) : list TargetingConfig * list string :=
  (omap (λ '(i, t), if bool_decide (entry_warnings i t = []) then Some t else None) (imap pair configs),
   concat (imap entry_warnings configs)).
Definition is_scalar (v : Value) : bool := match v with VString _ | VNumber _ => true | _ => false end.
Definition segment_of (segment : string) (current : Value) : option Value :=
  if str_is_empty segment then None else
  match current with
  | VObject m => obj_get segment m
  | VArray a => idx ← parse_int 0 (2 ^ 64 - 1) segment; a !! Z.to_nat idx
  | _ => None
  end.
Definition typed_lookup (data : Value) (path : string) : option Value :=
  v ← fold_left (λ current segment, current ≫= segment_of segment) (split_char (ch ".") path) (Some data);
  if is_scalar v then Some v else None.
Definition verify_prefix_and_trim (path pre : string) : option string :=
  if String.prefix pre path then Some (str_drop (String.length pre) path) else None.

Inductive ResolvedRequestValue : Type := RvSingle (v : Value) | RvPerImp (m : gmap string string).
Section Process.
Context (number_to_string : Number → string) (value_to_string : Value → string).
Definition value_as_targeting_string (v : Value) : string :=
  match v with VString s => s | VNumber n => number_to_string n | other => value_to_string other end.
Definition imp_value (path imp_path : string) (by_imp : gmap string string) (imp : Value) : outcome string (gmap string string) :=
  match get "id" imp ≫= as_str with
  | None => Err ("imp missing id while resolving path: " +:+ path)
  | Some id =>
      match typed_lookup imp imp_path with
      | None => Err ("incorrect value type for path: " +:+ path +:+ ", value can only be string or number")
      | Some v => Ok (<[id := value_as_targeting_string v]> by_imp)
      end
  end.
Definition resolve_bid_request_value (bid_request : Value) (path : string) (query_params : gmap string string)
    : outcome string ResolvedRequestValue :=
  match verify_prefix_and_trim path "ext.prebid.amp.data." with
  | Some param =>
      match query_params !! param with
      | Some v => if str_is_empty v then Err ("value not found for path: " +:+ path) else Ok (RvSingle (VString v))
      | None => Err ("value not found for path: " +:+ path)
      end
  | None =>
      match verify_prefix_and_trim path "imp." with
      | Some imp_path =>
          match get "imp" bid_request ≫= as_array with
          | None => Err ("value not found for path: " +:+ path)
          | Some imps => m ← foldM (imp_value path imp_path) ∅ imps; mret (RvPerImp m)
          end
      | None =>
          match typed_lookup bid_request path with
          | Some v => Ok (RvSingle v)
          | None => Err ("value not found for path: " +:+ path)
          end
      end
  end.
(** What is known before the response is read: values for every bid, values by
    impression, the entries read from each bid, and the warnings. *)
Record Precomputed : Type := {
  pre_single : gmap string string; pre_per_imp : gmap string (gmap string string);
  pre_response : list (string * string * bool); pre_warnings : list string }.
Definition precompute (bid_request : Value) (query_params : gmap string string) (p : Precomputed) (cfg : TargetingConfig)
    : Precomputed :=
  match data_source_parse (tgc_source cfg) with
  | Some DsStatic => {| pre_single := <[tgc_key cfg := tgc_value cfg]> (pre_single p); pre_per_imp := pre_per_imp p;
      pre_response := pre_response p; pre_warnings := pre_warnings p |}
  | Some DsBidRequest =>
      match resolve_bid_request_value bid_request (tgc_value cfg) query_params with
      | Ok (RvSingle v) => {| pre_single := <[tgc_key cfg := value_as_targeting_string v]> (pre_single p);
          pre_per_imp := pre_per_imp p; pre_response := pre_response p; pre_warnings := pre_warnings p |}
      | Ok (RvPerImp m) => {| pre_single := pre_single p; pre_per_imp := <[tgc_key cfg := m]> (pre_per_imp p);
          pre_response := pre_response p; pre_warnings := pre_warnings p |}
      | Err e => {| pre_single := pre_single p; pre_per_imp := pre_per_imp p; pre_response := pre_response p;
          pre_warnings := pre_warnings p ++ [e] |}
      | Panic => p
      end
  | Some DsBidResponse => {| pre_single := pre_single p; pre_per_imp := pre_per_imp p;
      pre_response := pre_response p ++
        [(tgc_key cfg, tgc_value cfg, str_contains BIDDER_MACRO (to_ascii_uppercase (tgc_key cfg)))];
      pre_warnings := pre_warnings p |}
  | None => p
  end.
Definition effective_key (bidder key : string) (has_macro : bool) : string :=
  if has_macro then str_replace BIDDER_MACRO bidder key else key.
Definition response_entry (bidder : string) (bid : Value) (acc : gmap string string * list string)
    (cfg : string * string * bool) : gmap string string * list string :=
  let '(key, path, has_macro) := cfg in
  match typed_lookup bid path with
  | Some v => (<[effective_key bidder key has_macro := value_as_targeting_string v]> acc.1, acc.2)
  | None => (acc.1, acc.2 ++ ["value not found for path: " +:+ path])
  end.
(** The maps are read in some order; their keys are distinct, so it does not matter. *)
Definition request_targeting (p : Precomputed) (impid : string) : gmap string string :=
  omap (λ by_imp : gmap string string, by_imp !! impid) (pre_per_imp p) ∪ pre_single p.
Definition bid_targeting (p : Precomputed) (bidder : string) (bid : Value) : gmap string string * list string :=
  fold_left (response_entry bidder bid) (pre_response p)
    (request_targeting p (default "" (get "impid" bid ≫= as_str)), []).
Definition process_bid (p : Precomputed) (bidder : string) (r : TargetingResult) (bid : Value) : TargetingResult :=
  let impid := default "" (get "impid" bid ≫= as_str) in
  let '(targeting, warnings) := bid_targeting p bidder bid in
  {| tgr_targeting_by_imp := <[impid := targeting ∪ default ∅ (tgr_targeting_by_imp r !! impid)]> (tgr_targeting_by_imp r);
     tgr_warnings := tgr_warnings r ++ warnings |}.
Definition process_seat (p : Precomputed) (r : TargetingResult) (seat : Value) : TargetingResult :=
  let bidder := default "" (get "seat" seat ≫= as_str) in
  match get "bid" seat ≫= as_array with
  | Some bids => fold_left (process_bid p bidder) bids r
  | None => r
  end.
Definition process (bid_request bid_response : Value) (configs : list TargetingConfig) (query_params : gmap string string)
    : TargetingResult :=
  let '(validated, validation_warnings) := validate_targeting configs in
  let p := fold_left (precompute bid_request query_params) validated
    {| pre_single := ∅; pre_per_imp := ∅; pre_response := []; pre_warnings := validation_warnings |} in
  let r := {| tgr_targeting_by_imp := ∅; tgr_warnings := pre_warnings p |} in
  match get "seatbid" bid_response ≫= as_array with
  | Some seatbids => fold_left (process_seat p) seatbids r
  | None => r
  end.
End Process.

(** ** Lemmas *)

(** An entry is kept when it has a key, a value and a known source, and each thing it
    lacks leaves a warning. *)
Lemma entry_kept i t : entry_warnings i t = [] ↔
  tgc_key t ≠ "" ∧ tgc_value t ≠ "" ∧ is_Some (data_source_parse (tgc_source t)).
Proof.
  unfold entry_warnings. rewrite !app_nil, <-not_eq_None_Some. unfold str_is_empty.
  repeat case_bool_decide; naive_solver.
Qed.
Lemma validate_targeting_kept configs t : t ∈ (validate_targeting configs).1 ↔
  t ∈ configs ∧ tgc_key t ≠ "" ∧ tgc_value t ≠ "" ∧ is_Some (data_source_parse (tgc_source t)).
Proof.
  unfold validate_targeting. cbn. rewrite list_elem_of_omap. split.
  - intros ([i t']&Hin&Ht). case_bool_decide as Hw; [|done]. injection Ht as <-. apply entry_kept in Hw. split; [|done].
    apply elem_of_lookup_imap in Hin as (j&y&[= -> <-]&Hj). by eapply list_elem_of_lookup_2.
  - intros [Hin Hok]. apply list_elem_of_lookup in Hin as [i Hi]. exists (i, t). split.
    + apply elem_of_lookup_imap. by exists i, t.
    + rewrite bool_decide_eq_true_2; [done|]. by apply entry_kept.
Qed.
Section Lemmas.
Context (number_to_string : Number → string) (value_to_string : Value → string).
Notation as_text := (value_as_targeting_string number_to_string value_to_string).
(** A path is the concatenation of its segments' look-ups. *)
Lemma typed_lookup_scalar data path v : typed_lookup data path = Some v → is_scalar v = true.
Proof. unfold typed_lookup. intros (x&_&Hs)%bind_Some. destruct (is_scalar x) eqn:Hx; [|done]. by injection Hs as <-. Qed.
(** For each bid the last of the entries read from it that is found under a key
    decides; then what the request says of the impression; then of every bid. *)
Definition response_value (p : Precomputed) (bidder : string) (bid : Value) (key : string) : option string :=
  last (omap (λ '(k, path, has_macro), if bool_decide (effective_key bidder k has_macro = key)
    then as_text <$> typed_lookup bid path else None) (pre_response p)).
Lemma bid_targeting_lookup p bidder bid key :
  (bid_targeting number_to_string value_to_string p bidder bid).1 !! key =
  match response_value p bidder bid key with
  | Some v => Some v
  | None =>
      match pre_per_imp p !! key ≫= (λ by_imp : gmap string string, by_imp !! default "" (get "impid" bid ≫= as_str)) with
      | Some v => Some v
      | None => pre_single p !! key
      end
  end.
Proof.
  unfold bid_targeting, response_value. induction (pre_response p) as [|[[k path] mac] l IH] using rev_ind; cbn [fold_left omap].
  - cbn. unfold request_targeting. rewrite lookup_union, lookup_omap. by destruct (_ ≫= _), (pre_single p !! key).
  - rewrite fold_left_app, omap_app, last_app. cbn. unfold response_entry at 1.
    destruct (typed_lookup bid path) as [v|]; cbn.
    + case_bool_decide as Hk; cbn; [subst; by rewrite lookup_insert_eq|]. by rewrite lookup_insert_ne.
    + by case_bool_decide.
Qed.
(** The bids of one impression share its targeting: a later bid's keys win. *)
Lemma process_bid_lookup p bidder r bid impid :
  tgr_targeting_by_imp (process_bid number_to_string value_to_string p bidder r bid) !! impid =
  if bool_decide (impid = default "" (get "impid" bid ≫= as_str))
  then Some ((bid_targeting number_to_string value_to_string p bidder bid).1 ∪ default ∅ (tgr_targeting_by_imp r !! impid))
  else tgr_targeting_by_imp r !! impid.
Proof.
  unfold process_bid. destruct (bid_targeting _ _ _ _ _) as [t w]. cbn. case_bool_decide as He.
  - subst. by rewrite lookup_insert_eq.
  - by rewrite lookup_insert_ne.
Qed.
(** The macro is looked for in any case but replaced in capitals only. *)
Example lower_case_macro_stays :
  (bid_targeting number_to_string value_to_string
    (precompute number_to_string value_to_string VNull ∅ {| pre_single := ∅; pre_per_imp := ∅; pre_response := []; pre_warnings := [] |}
      {| tgc_key := "k_{{bidder}}"; tgc_source := "bidresponse"; tgc_value := "id" |})
    "appnexus" (VObject [("id", VString "x")])).1 = {["k_{{bidder}}" := "x"]}.
Proof. by vm_compute. Qed.
End Lemmas.
