(* ===== verification/BidPipeline.v ===== *)
(** * The bids of one bidder

    exchange/src/lib.rs, the part of [hold_auction_with_timeouts] that runs on
    every bidder's response: currency check and conversion, adjustment factor,
    floor filter, [validate_bids], deduplication by bid id and the per-imp bid
    limit, and the loop that collects the results.

    Logging, metrics and the [RawBidderResponse] hook (whose rejection is only
    logged) change no state of the auction and are left out.  A [HashMap] is a
    [gmap]; where the source iterates one, [iter_map] is its order. *)

From S2P Require Import Prelude Json OpenRtb OpenRtbExt Currency.

Abbreviation tb_price tb := (bid_price (tb_bid tb)).
Abbreviation tb_impid tb := (bid_impid (tb_bid tb)).
Abbreviation tb_id tb := (bid_id (tb_bid tb)).
Definition set_tb_price (p : f64) (tb : TypedBid) : TypedBid :=
  set_tb_bid (set_bid_price p (tb_bid tb)) tb.

(** ** validate_bids *)

Definition valid_bid (imp_ids : list string) (tb : TypedBid) : bool :=
  let bid := tb_bid tb in
  if str_is_empty (bid_id bid) then false
  else if str_is_empty (bid_impid bid) then false
  else if negb (bool_decide (bid_impid bid ∈ imp_ids)) then false
  else if f64_ltb (bid_price bid) f64_zero then false
  else if f64_eqb (bid_price bid) f64_zero && bool_decide (bid_dealid bid = None) then false
  else if str_is_empty (default "" (bid_crid bid)) then false
  else true.
Definition validate_bids (bids : list TypedBid) (imps : list Imp) : list TypedBid :=
  List.filter (valid_bid (imp_id <$> imps)) bids.

(** ** The floor filter *)

(** [.iter().find(|imp| imp.id == impid)] *)
Definition find_imp (imps : list Imp) (impid : string) : option Imp :=
  List.find (λ imp, bool_decide (imp_id imp = impid)) imps.
(** [.and_then(|imp| imp.bidfloor.filter(|&f| f > 0.0))] *)
Definition floor_of (imps : list Imp) (impid : string) : option f64 :=
  imp ← find_imp imps impid;
  f ← imp_bidfloor imp;
  if f64_gtb f f64_zero then Some f else None.
Definition below_floor (imps : list Imp) (tb : TypedBid) : bool :=
  match floor_of imps (tb_impid tb) with
  | Some floor => f64_ltb (tb_price tb) floor
  | None => false
  end.
Definition non_bid (statuscode : Z) (impid : string) : NonBid :=
  {| nb_impid := impid; nb_statuscode := statuscode; nb_ext := None |}.
(** The accepted bids, and a non-bid for each one rejected, in order. *)
Fixpoint floor_filter (imps : list Imp) (bids : list TypedBid) : list TypedBid * list NonBid :=
  match bids with
  | [] => ([], [])
  | tb :: rest =>
      let '(accepted, floor_non_bids) := floor_filter imps rest in
      if below_floor imps tb then (accepted, non_bid 300 (tb_impid tb) :: floor_non_bids)
      else (tb :: accepted, floor_non_bids)
  end.

(** ** Deduplication *)

(** One turn over [deduped] and [seen_ids]; the index is always in range. *)
Definition dedup_step (st : list TypedBid * gmap string nat) (tb : TypedBid)
    : list TypedBid * gmap string nat :=
  let '(deduped, seen_ids) := st in
  match seen_ids !! tb_id tb with
  | Some idx =>
      match deduped !! idx with
      | Some old =>
          if f64_gtb (tb_price tb) (tb_price old) then (<[ idx := tb ]> deduped, seen_ids)
          else (deduped, seen_ids)
      | None => (deduped, seen_ids)
      end
  | None => (deduped ++ [tb], <[ tb_id tb := length deduped ]> seen_ids)
  end.
Definition dedup (validated : list TypedBid) : list TypedBid :=
  (fold_left dedup_step validated ([], ∅)).1.

(** ** The bid limit *)

Definition best_step (best_per_imp : gmap string TypedBid) (tb : TypedBid)
    : gmap string TypedBid :=
  match best_per_imp !! tb_impid tb with
  | Some existing =>
      if f64_geb (tb_price existing) (tb_price tb) then best_per_imp
      else <[ tb_impid tb := tb ]> best_per_imp
  | None => <[ tb_impid tb := tb ]> best_per_imp
  end.
Definition group_step (bids_per_imp : gmap string (list TypedBid)) (tb : TypedBid)
    : gmap string (list TypedBid) :=
  <[ tb_impid tb := default [] (bids_per_imp !! tb_impid tb) ++ [tb] ]> bids_per_imp.
(** [b.bid.price.partial_cmp(&a.bid.price).unwrap_or(Equal)], not Greater. *)
Definition price_desc (a b : TypedBid) : bool := negb (f64_ltb (tb_price a) (tb_price b)).

Section Limit.
Context (iter_map : ∀ A : Type, gmap string A → list (string * A)).

Definition limit_bids (max_bids_per_imp : Z) (deduped : list TypedBid) : list TypedBid :=
  if max_bids_per_imp <=? 1 then
    snd <$> iter_map _ (fold_left best_step deduped ∅)
  else
    flat_map (λ e, take (Z.to_nat max_bids_per_imp) (sort_by price_desc e.2))
      (iter_map _ (fold_left group_step deduped ∅)).
End Limit.

(** [multi_bid_limits]: the later entry wins. *)
Definition multi_bid_limit_step (limits : gmap string Z) (entry : MultiBid) : gmap string Z :=
  let max := Z.max (default 1 (mb_max_bids entry)) 1 in
  let limits := match mb_bidder entry with
                | Some bidder => <[ bidder := max ]> limits
                | None => limits
                end in
  fold_left (λ limits b, <[ b := max ]> limits) (default [] (mb_bidders entry)) limits.
Definition multi_bid_limits (from_value : Value → option (list MultiBid)) (req : BidRequest)
    : gmap string Z :=
  let entries := default [] (json_path ["prebid"; "multibid"] (req_ext req) ≫= from_value) in
  fold_left multi_bid_limit_step entries ∅.

(** ** One response *)

Section Pipeline.
Context (iter_map : ∀ A : Type, gmap string A → list (string * A)).
(** [str::to_uppercase]. *)
Context (to_uppercase : string → string).
(** [serde_json::from_value::<HashMap<String, f64>>(..).ok()]. *)
Context (from_value_factors : Value → option (gmap string f64)).

Definition is_ascii_uppercase (a : Ascii.ascii) : bool :=
  (65 <=? Z.of_N (Ascii.N_of_ascii a)) && (Z.of_N (Ascii.N_of_ascii a) <=? 90).
Definition validate_bid_currency (_request_currencies : list string) (bid_currency : string)
    : outcome string unit :=
  if str_is_empty bid_currency then Ok tt
  else
    let upper := to_uppercase bid_currency in
    if negb (str_len upper =? 3)
       || negb (forallb is_ascii_uppercase (String.list_ascii_of_string upper))
    then Err ("Invalid currency code: '" +:+ bid_currency +:+ "'")
    else Ok tt.

Definition convert_bids (rates : option CurrencyConverter) (response : BidderResponse)
    : list TypedBid :=
  if negb (bool_decide (br_currency response = "USD")) then
    match rates with
    | Some converter =>
        (λ tb, match convert converter (tb_price tb) (br_currency response) "USD" with
               | Some converted => set_tb_price converted tb
               | None => tb
               end) <$> br_bids response
    | None => br_bids response
    end
  else br_bids response.

Definition adjustment_factors (req : BidRequest) : gmap string f64 :=
  default ∅ (json_path ["prebid"; "bidadjustmentfactors"] (req_ext req) ≫= from_value_factors).
Definition adjust_bids (req : BidRequest) (bidder : string) (bids : list TypedBid)
    : list TypedBid :=
  match adjustment_factors req !! bidder with
  | Some factor => (λ tb, set_tb_price (f64_mul (tb_price tb) factor) tb) <$> bids
  | None => bids
  end.

(** What a response adds to the auction. *)
Record BidderOutcome : Type := {
  bo_errors : list string; bo_non_bids : list SeatNonBid; bo_bids : list TypedBid;
}.

Definition process_bids (req : BidRequest) (rates : option CurrencyConverter)
    (limits : gmap string Z) (bidder : string) (response : BidderResponse) : BidderOutcome :=
  match br_bids response with
  | [] => {| bo_errors := []; bo_non_bids := []; bo_bids := [] |}
  | _ :: _ =>
      match validate_bid_currency (default [] (req_cur req)) (br_currency response) with
      | Err currency_err =>
          {| bo_errors := [currency_err]; bo_non_bids := []; bo_bids := [] |}
      | _ =>
          let bids := adjust_bids req bidder (convert_bids rates response) in
          let '(accepted, floor_non_bids) := floor_filter (req_imp req) bids in
          let non_bids :=
            match floor_non_bids with
            | [] => []
            | _ :: _ => [{| snb_nonbid := floor_non_bids; snb_seat := bidder; snb_ext := None |}]
            end in
          let validated := validate_bids accepted (req_imp req) in
          let deduped := dedup validated in
          let max_bids_per_imp := default 1 (limits !! bidder) in
          {| bo_errors := []; bo_non_bids := non_bids;
             bo_bids := limit_bids iter_map max_bids_per_imp deduped |}
      end
  end.

(** ** The collection loop *)

Record BidderResult : Type := {
  bres_bidder_name : string;
  bres_response : list BidderError + BidderResponse;
  bres_duration_ms : Z;
  bres_http_calls : list ExtHttpCall;
  bres_timed_out : bool;
}.

Record AuctionState : Type := {
  st_bidder_results : list (string * list TypedBid);
  st_timed_out_bidders : list string;
  st_collected_non_bids : list SeatNonBid;
  st_bidder_errors : gmap string (list string);
  st_all_bidder_timing : gmap string Z;
  st_debug_http_calls : gmap string (list ExtHttpCall);
  st_debug_bidder_timing : gmap string Z;
}.

(** [map.entry(k).or_default().extend(l)] *)
Definition entry_extend {A} (k : string) (l : list A) (m : gmap string (list A))
    : gmap string (list A) := <[ k := default [] (m !! k) ++ l ]> m.

(** [Ok(bidder_result)] of [join_next]; a task that panicked is only logged. *)
Definition collect_result (req : BidRequest) (rates : option CurrencyConverter)
    (limits : gmap string Z) (st : AuctionState) (r : BidderResult) : AuctionState :=
  let name := bres_bidder_name r in
  let is_test := bool_decide (req_test req = Some 1) in
  let out :=
    match bres_response r with
    | inr response => process_bids req rates limits name response
    | inl errs =>
        {| bo_errors := bidder_error_to_string <$> errs;
           bo_non_bids :=
             match non_bid 200 ∘ imp_id <$> req_imp req with
             | [] => []
             | non_bids => [{| snb_nonbid := non_bids; snb_seat := name; snb_ext := None |}]
             end;
           bo_bids := [] |}
    end in
  {| st_bidder_results :=
       match bo_bids out with
       | [] => st_bidder_results st
       | bids => st_bidder_results st ++ [(name, bids)]
       end;
     st_timed_out_bidders :=
       if bres_timed_out r then st_timed_out_bidders st ++ [name]
       else st_timed_out_bidders st;
     st_collected_non_bids := st_collected_non_bids st ++ bo_non_bids out;
     st_bidder_errors :=
       match bo_errors out with
       | [] => st_bidder_errors st
       | errs => entry_extend name errs (st_bidder_errors st)
       end;
     st_all_bidder_timing := <[ name := bres_duration_ms r ]> (st_all_bidder_timing st);
     st_debug_http_calls :=
       if is_test then
         match bres_http_calls r with
         | [] => st_debug_http_calls st
         | calls => entry_extend name calls (st_debug_http_calls st)
         end
       else st_debug_http_calls st;
     st_debug_bidder_timing :=
       if is_test then <[ name := bres_duration_ms r ]> (st_debug_bidder_timing st)
       else st_debug_bidder_timing st |}.

(** The results in the order the tasks finish, from the non-bids of the
    bidders skipped for privacy. *)
Definition collect_results (req : BidRequest) (rates : option CurrencyConverter)
    (limits : gmap string Z) (skipped : list SeatNonBid) (results : list BidderResult)
    : AuctionState :=
  fold_left (collect_result req rates limits) results
    {| st_bidder_results := []; st_timed_out_bidders := [];
       st_collected_non_bids := skipped; st_bidder_errors := ∅;
       st_all_bidder_timing := ∅; st_debug_http_calls := ∅; st_debug_bidder_timing := ∅ |}.
End Pipeline.

(** ** Specification *)

(** [out] keeps [n] bids per imp of [l]: part of [l], as many per imp as there
    are up to [n], and none left out beats one kept. *)
Definition top_n (n : nat) (l out : list TypedBid) : Prop :=
  out ⊆+ l ∧
  (∀ i, length (List.filter (λ tb, bool_decide (tb_impid tb = i)) out)
        = Nat.min n (length (List.filter (λ tb, bool_decide (tb_impid tb = i)) l))) ∧
  ∀ x, x ∈ l → x ∈ out ∨
    ∀ y, y ∈ out → tb_impid y = tb_impid x → f64_leb (tb_price x) (tb_price y) = true.

(** The bids of a response at their final price, before any is dropped. *)
Definition priced_bids (from_value_factors : Value → option (gmap string f64)) (req : BidRequest)
    (rates : option CurrencyConverter) (bidder : string) (response : BidderResponse)
    : list TypedBid :=
  adjust_bids from_value_factors req bidder (convert_bids rates response).
(** The bids that compete: valid and not below their floor. *)
Definition competes (req : BidRequest) (tb : TypedBid) : bool :=
  valid_bid (imp_id <$> req_imp req) tb && negb (below_floor (req_imp req) tb).
(** The same in words. *)
Definition bid_ok (req : BidRequest) (tb : TypedBid) : Prop :=
  tb_id tb ≠ "" ∧ tb_impid tb ≠ "" ∧
  tb_impid tb ∈ (imp_id <$> req_imp req) ∧
  f64_ltb (tb_price tb) f64_zero = false ∧
  (f64_eqb (tb_price tb) f64_zero = true → is_Some (bid_dealid (tb_bid tb))) ∧
  default "" (bid_crid (tb_bid tb)) ≠ "" ∧
  ∀ floor, floor_of (req_imp req) (tb_impid tb) = Some floor →
    f64_ltb (tb_price tb) floor = false.

Abbreviation no_nan := (Forall (λ tb, f64_is_nan (tb_price tb) = false)).

Abbreviation of_imp i := (List.filter (λ tb, bool_decide (tb_impid tb = i))).

(** Every bidder that is in the results of an auction, and what its bids are. *)
Definition results_ok (req : BidRequest) (limits : gmap string Z) (st : AuctionState) : Prop :=
  ∀ name bids, (name, bids) ∈ st_bidder_results st →
    bids ≠ [] ∧ NoDup (bid_id ∘ tb_bid <$> bids) ∧ (∀ tb, tb ∈ bids → bid_ok req tb) ∧
    ∀ i, Z.of_nat (length (of_imp i bids)) ≤ default 1 (limits !! name).

(** The invariants of the two loops: what is kept of the bids [seen]. *)
Definition dedup_inv (seen : list TypedBid) (st : list TypedBid * gmap string nat) : Prop :=
  (∀ id i, st.2 !! id = Some i ↔ ∃ tb, st.1 !! i = Some tb ∧ tb_id tb = id) ∧
  (∀ d, d ∈ st.1 → d ∈ seen) ∧
  ∀ x, x ∈ seen → ∃ d, d ∈ st.1 ∧ tb_id d = tb_id x ∧ f64_leb (tb_price x) (tb_price d) = true.
Definition best_inv (seen : list TypedBid) (m : gmap string TypedBid) : Prop :=
  (∀ i tb, m !! i = Some tb → tb_impid tb = i ∧ tb ∈ seen) ∧
  ∀ x, x ∈ seen → ∃ tb, m !! tb_impid x = Some tb ∧ f64_leb (tb_price x) (tb_price tb) = true.

(** A request with one imp and a floor of 2, and bids on it, for the witnesses. *)
Definition sample_req : BidRequest :=
  set_req_imp [set_imp_id "imp-1" (set_imp_bidfloor (Some (f64_of_Z 2)) default_imp)] default_req.
Definition sample_bid (id : string) (price : Z) : TypedBid :=
  typed_bid_new (set_bid_id id (set_bid_impid "imp-1" (set_bid_crid (Some "c")
    (set_bid_price (f64_of_Z price) default_bid)))) BtBanner.
Definition sample_response : BidderResponse :=
  set_br_bids [sample_bid "a" 3; sample_bid "b" 1; sample_bid "c" 5; sample_bid "a" 4]
    bidder_response_new.
Definition sample_result : BidderResult := {|
  bres_bidder_name := "appnexus"; bres_response := inr sample_response;
  bres_duration_ms := 12; bres_http_calls := []; bres_timed_out := false |}.

(** ** Proofs: deduplication *)

Lemma dedup_step_inv seen st tb : no_nan (seen ++ [tb]) →
  dedup_inv seen st → dedup_inv (seen ++ [tb]) (dedup_step st tb).
Proof.
  intros Hnan (Hmap&Hsub&Hbest). destruct st as [deduped ids]. simpl in *.
  rewrite Forall_forall in Hnan.
  assert (Htb : f64_is_nan (tb_price tb) = false).
  { apply Hnan. rewrite elem_of_app. right. by left. }
  unfold dedup_step. destruct (ids !! tb_id tb) as [idx|] eqn:Hid.
  - destruct (proj1 (Hmap _ _) Hid) as (old&Hold&Hidold). rewrite Hold.
    assert (Hon : f64_is_nan (tb_price old) = false).
    { apply Hnan. rewrite elem_of_app. left. apply Hsub. by eapply list_elem_of_lookup_2. }
    unfold f64_gtb. destruct (f64_ltb (tb_price old) (tb_price tb)) eqn:Hgt.
    + split_and!; simpl.
      * intros id i. rewrite Hmap. destruct (decide (i = idx)) as [->|Hne].
        -- rewrite list_lookup_insert_eq by by eapply lookup_lt_Some. split.
           ++ intros (x&Hx&<-). exists tb. split; [done|]. congruence.
           ++ intros (x&[= <-]&<-). by exists old.
        -- by rewrite list_lookup_insert_ne by done.
      * intros d Hd. apply elem_of_app. apply list_elem_of_lookup in Hd as [i Hi].
        apply list_lookup_insert_Some in Hi as [(_&<-&_)|[_ Hi]]; [right; by left|].
        left. apply Hsub. by eapply list_elem_of_lookup_2.
      * intros x [Hx| ->%list_elem_of_singleton]%elem_of_app.
        -- destruct (Hbest x Hx) as (d&Hd&Hdid&Hle).
           apply list_elem_of_lookup in Hd as [i Hi].
           destruct (decide (i = idx)) as [->|Hne].
           ++ exists tb. simplify_eq. split_and!; [|congruence|].
              { eapply list_elem_of_lookup_2, list_lookup_insert_eq. by eapply lookup_lt_Some. }
              eapply f64_leb_trans; [exact Hle|by apply f64_ltb_leb].
           ++ exists d. split; [|done]. eapply list_elem_of_lookup_2.
              rewrite list_lookup_insert_ne; [exact Hi|done].
        -- exists tb. split_and!; [|done|by apply f64_leb_refl].
           eapply list_elem_of_lookup_2, list_lookup_insert_eq. by eapply lookup_lt_Some.
    + split_and!; simpl; [done| |].
      * intros d Hd. rewrite elem_of_app. left. by apply Hsub.
      * intros x [Hx| ->%list_elem_of_singleton]%elem_of_app; [by apply Hbest|].
        exists old. split_and!; [by eapply list_elem_of_lookup_2|done|].
        by rewrite f64_leb_ltb, Hgt.
  - split_and!; simpl.
    + intros id i. destruct (decide (id = tb_id tb)) as [->|Hne].
      * rewrite lookup_insert_eq. split.
        -- intros [= <-]. exists tb. by rewrite list_lookup_middle by done.
        -- intros (x&Hx&Hxid). apply lookup_app_Some in Hx as [Hx|[Hge Hx]].
           { rewrite (proj2 (Hmap (tb_id tb) i)) in Hid by eauto. done. }
           apply list_lookup_singleton_Some in Hx as [Hx _]. f_equal. lia.
      * rewrite lookup_insert_ne by done. rewrite Hmap. split.
        -- intros (x&Hx&Hxid). exists x. split; [by apply lookup_app_l_Some|done].
        -- intros (x&Hx&Hxid). apply lookup_app_Some in Hx as [Hx|[Hge Hx]]; [by exists x|].
           apply list_lookup_singleton_Some in Hx as [_ <-]. done.
    + intros d [Hd| ->%list_elem_of_singleton]%elem_of_app; rewrite elem_of_app;
        [left; auto|right; by left].
    + intros x [Hx| ->%list_elem_of_singleton]%elem_of_app.
      * destruct (Hbest x Hx) as (d&Hd&?&?). exists d. rewrite elem_of_app. auto.
      * exists tb. rewrite elem_of_app. split_and!; [right; by left|done|by apply f64_leb_refl].
Qed.

Lemma dedup_spec validated : no_nan validated →
  NoDup (bid_id ∘ tb_bid <$> dedup validated) ∧
  (∀ d, d ∈ dedup validated → d ∈ validated) ∧
  ∀ x, x ∈ validated → ∃ d, d ∈ dedup validated ∧ tb_id d = tb_id x ∧
    f64_leb (tb_price x) (tb_price d) = true.
Proof.
  intros Hnan.
  assert (Hinv : ∀ l seen st, no_nan (seen ++ l) → dedup_inv seen st →
    dedup_inv (seen ++ l) (fold_left dedup_step l st)).
  { induction l as [|tb l IH]; intros seen st Hn Hi; simpl; [by rewrite app_nil_r|].
    specialize (IH (seen ++ [tb]) (dedup_step st tb)). rewrite <-app_assoc in IH.
    apply IH; [done|]. apply dedup_step_inv; [|done].
    change (tb :: l) with ([tb] ++ l) in Hn. rewrite app_assoc in Hn.
    by apply Forall_app in Hn as [? _]. }
  specialize (Hinv validated [] ([], ∅)). simpl in Hinv.
  destruct Hinv as (Hmap&Hsub&Hbest); [done| |].
  { split_and!; simpl.
    - intros id i. rewrite lookup_empty. split; [done|]. by intros (?&?&_).
    - by intros d ?%elem_of_nil.
    - by intros d ?%elem_of_nil. }
  split_and!; [|done..]. unfold dedup. apply NoDup_alt. intros i j id Hi Hj.
  rewrite list_lookup_fmap in Hi, Hj.
  destruct (_ !! i) as [ti|] eqn:Hti; [|done]. destruct (_ !! j) as [tj|] eqn:Htj; [|done].
  simplify_eq/=. assert (Hs : Some i = Some j); [|by injection Hs].
  rewrite <-(proj2 (Hmap (tb_id ti) i)) by eauto. apply Hmap. by exists tj.
Qed.

(** ** Proofs: the bid limit *)

Lemma elem_of_of_imp i l tb : tb ∈ of_imp i l ↔ tb ∈ l ∧ tb_impid tb = i.
Proof.
  rewrite list_elem_of_In, List.filter_In, <-list_elem_of_In.
  by rewrite bool_decide_eq_true.
Qed.

Lemma of_imp_app i l1 l2 : of_imp i (l1 ++ l2) = of_imp i l1 ++ of_imp i l2.
Proof. apply List.filter_app. Qed.

Lemma of_imp_all i l : (∀ tb, tb ∈ l → tb_impid tb = i) → of_imp i l = l.
Proof.
  induction l as [|tb l IH]; intros H; [done|]. simpl.
  rewrite bool_decide_true by (apply H; by left). f_equal. apply IH.
  intros x Hx. apply H. by right.
Qed.
Lemma of_imp_none i l : (∀ tb, tb ∈ l → tb_impid tb ≠ i) → of_imp i l = [].
Proof.
  induction l as [|tb l IH]; intros H; [done|]. simpl.
  rewrite bool_decide_false by (apply H; by left). apply IH. intros x Hx. apply H. by right.
Qed.

Lemma list_filter_perm {A} (f : A → bool) l1 l2 : l1 ≡ₚ l2 → List.filter f l1 ≡ₚ List.filter f l2.
Proof.
  induction 1 as [|x l1 l2 ? IH|x y l|l1 l2 l3 ? IH1 ? IH2]; simpl; [done| | |by etrans].
  - destruct (f x); by rewrite ?IH.
  - destruct (f x), (f y); by rewrite 1?Permutation_swap.
Qed.

Lemma flat_map_perm {A B} (g : A → list B) l1 l2 : l1 ≡ₚ l2 → flat_map g l1 ≡ₚ flat_map g l2.
Proof.
  induction 1 as [|x l1 l2 ? IH|x y l|l1 l2 l3 ? IH1 ? IH2]; simpl; [done| | |by etrans].
  - by rewrite IH.
  - rewrite !app_assoc. by rewrite (Permutation_app_comm (g y)).
Qed.

Lemma flat_map_submseteq {A B} (g h : A → list B) l :
  (∀ x, x ∈ l → g x ⊆+ h x) → flat_map g l ⊆+ flat_map h l.
Proof.
  induction l as [|x l IH]; intros H; [done|]. simpl. apply submseteq_app.
  - apply H. by left.
  - apply IH. intros y Hy. apply H. by right.
Qed.

(** The bids a map from imps yields for one imp. *)
Lemma of_imp_flat_map {A} (g : string * A → list TypedBid) (m : gmap string A) i :
  (∀ k a tb, m !! k = Some a → tb ∈ g (k, a) → tb_impid tb = k) →
  of_imp i (flat_map g (map_to_list m)) ≡ₚ match m !! i with Some a => g (i, a) | None => [] end.
Proof.
  induction m as [|k a m Hk IH] using map_ind; intros Hg.
  { by rewrite map_to_list_empty, lookup_empty. }
  etrans; [apply list_filter_perm, flat_map_perm, map_to_list_insert; exact Hk|].
  simpl. rewrite of_imp_app, IH.
  2: { intros k' a' tb Hk' Htb. apply (Hg k' a'); [|done].
       rewrite lookup_insert_ne; [done|]. intros ->. congruence. }
  destruct (decide (k = i)) as [->|Hne].
  - rewrite lookup_insert_eq, Hk, app_nil_r, of_imp_all; [done|].
    intros tb Htb. apply (Hg i a); [by rewrite lookup_insert_eq|done].
  - rewrite lookup_insert_ne by done. rewrite of_imp_none; [done|].
    intros tb Htb. rewrite (Hg k a); [done|by rewrite lookup_insert_eq|done].
Qed.

(** *** One bid per imp *)

Lemma best_step_inv seen m tb : no_nan (seen ++ [tb]) →
  best_inv seen m → best_inv (seen ++ [tb]) (best_step m tb).
Proof.
  intros Hnan [Hm Hbest]. rewrite Forall_forall in Hnan.
  assert (Hn : ∀ x, x ∈ seen → f64_is_nan (tb_price x) = false).
  { intros x Hx. apply Hnan. rewrite elem_of_app. by left. }
  assert (Htb : f64_is_nan (tb_price tb) = false).
  { apply Hnan. rewrite elem_of_app. right. by left. }
  assert (Hkeep : best_inv seen m → (∃ old, m !! tb_impid tb = Some old ∧
            f64_leb (tb_price tb) (tb_price old) = true) → best_inv (seen ++ [tb]) m).
  { intros _ (old&Hold&Hle). split.
    - intros i x Hx. destruct (Hm i x Hx). rewrite elem_of_app. auto.
    - intros x [Hx| ->%list_elem_of_singleton]%elem_of_app; [auto|by exists old]. }
  assert (Hput : (∀ old, m !! tb_impid tb = Some old →
            f64_leb (tb_price old) (tb_price tb) = true) →
            best_inv (seen ++ [tb]) (<[ tb_impid tb := tb ]> m)).
  { intros Hold. split.
    - intros i x. rewrite lookup_insert_Some. rewrite elem_of_app.
      intros [[<- <-]|[_ Hx]]; [split; [done|right; by left]|]. destruct (Hm i x Hx). auto.
    - intros x [Hx| ->%list_elem_of_singleton]%elem_of_app.
      2: { exists tb. by rewrite lookup_insert_eq, f64_leb_refl. }
      destruct (Hbest x Hx) as (d&Hd&Hle). destruct (decide (tb_impid x = tb_impid tb)) as [He|He].
      + exists tb. rewrite He in *. rewrite lookup_insert_eq. split; [done|].
        eapply f64_leb_trans; [exact Hle|by apply Hold].
      + exists d. by rewrite lookup_insert_ne. }
  unfold best_step, f64_geb. destruct (m !! tb_impid tb) as [old|] eqn:Hold; [|by apply Hput].
  destruct (Hm _ _ Hold) as [_ Hin].
  destruct (f64_leb (tb_price tb) (tb_price old)) eqn:Hle.
  - apply Hkeep; [done|]. by exists old.
  - apply Hput. intros ? [= <-]. destruct (f64_leb_total _ _ Htb (Hn _ Hin)); congruence.
Qed.

Lemma best_spec l : no_nan l → best_inv l (fold_left best_step l ∅).
Proof.
  assert (Hinv : ∀ l seen m, no_nan (seen ++ l) → best_inv seen m →
    best_inv (seen ++ l) (fold_left best_step l m)).
  { clear l. induction l as [|tb l IH]; intros seen m Hn Hi; simpl; [by rewrite app_nil_r|].
    specialize (IH (seen ++ [tb]) (best_step m tb)). rewrite <-app_assoc in IH.
    apply IH; [done|]. apply best_step_inv; [|done].
    change (tb :: l) with ([tb] ++ l) in Hn. rewrite app_assoc in Hn.
    by apply Forall_app in Hn as [? _]. }
  intros Hn. apply (Hinv l [] ∅); [done|]. split.
  - intros i tb. by rewrite lookup_empty.
  - by intros x ?%elem_of_nil.
Qed.

(** *** Groups *)

Lemma group_spec l i :
  fold_left group_step l ∅ !! i =
    match of_imp i l with [] => None | g => Some g end.
Proof.
  induction l as [|tb l IH] using rev_ind; [done|].
  rewrite fold_left_app, of_imp_app. simpl. unfold group_step at 1.
  destruct (decide (tb_impid tb = i)) as [<-|Hne].
  - rewrite lookup_insert_eq, IH, bool_decide_true by done.
    by destruct (of_imp (tb_impid tb) l).
  - rewrite lookup_insert_ne, IH, bool_decide_false, app_nil_r by done. done.
Qed.

Lemma group_perm l : flat_map snd (map_to_list (fold_left group_step l ∅)) ≡ₚ l.
Proof.
  induction l as [|tb l IH] using rev_ind; [done|].
  rewrite fold_left_app. simpl. rewrite <-IH at 2. clear IH.
  set (m := fold_left group_step l ∅). unfold group_step. set (k := tb_impid tb).
  destruct (m !! k) as [g|] eqn:Hk; simpl.
  - etrans; [apply flat_map_perm|].
    { rewrite <-insert_delete_eq. apply map_to_list_insert. apply lookup_delete_eq. }
    etrans; [|apply Permutation_app_tail, flat_map_perm, (map_to_list_delete m k g Hk)].
    simpl. rewrite <-!app_assoc. apply Permutation_app_head, Permutation_app_comm.
  - etrans; [apply flat_map_perm, map_to_list_insert; exact Hk|]. simpl.
    by rewrite Permutation_cons_append.
Qed.

(** *** The limit *)

Section LimitSpec.
Context (iter_map : ∀ A : Type, gmap string A → list (string * A)).
Context (Hiter : ∀ A (m : gmap string A), iter_map A m ≡ₚ map_to_list m).

Lemma limit_one l : no_nan l → top_n 1 l (snd <$> iter_map _ (fold_left best_step l ∅)).
Proof.
  intros Hn. destruct (best_spec l Hn) as [Hm Hbest].
  set (m := fold_left best_step l ∅) in *.
  assert (Hout : snd <$> iter_map _ m ≡ₚ flat_map (λ e, [e.2]) (map_to_list m)).
  { rewrite Hiter. induction (map_to_list m) as [|e k IH]; [done|]. simpl. by rewrite <-IH. }
  assert (Hin : ∀ y, y ∈ snd <$> iter_map _ m → m !! tb_impid y = Some y ∧ y ∈ l).
  { intros y. rewrite Hiter, list_elem_of_fmap. intros ([k a]&->&Hk).
    apply elem_of_map_to_list in Hk. destruct (Hm _ _ Hk) as [Hk' Hl]. simpl in *.
    by rewrite Hk'. }
  split_and!.
  - apply NoDup_submseteq; [|intros y Hy; by apply Hin].
    apply (NoDup_fmap_1 (bid_impid ∘ tb_bid)). rewrite Hiter.
    assert (Hk : bid_impid ∘ tb_bid <$> (snd <$> map_to_list m) = fst <$> map_to_list m).
    { rewrite <-list_fmap_compose. apply list_fmap_ext. intros j [k a] Hj.
      apply list_elem_of_lookup_2, elem_of_map_to_list in Hj. simpl. by apply (Hm k a). }
    rewrite Hk. apply NoDup_fst_map_to_list.
  - intros i. rewrite (Permutation_length (list_filter_perm _ _ _ Hout)).
    rewrite (Permutation_length (of_imp_flat_map (λ e, [e.2]) m i
      ltac:(intros k a tb Hk ->%list_elem_of_singleton; by apply (Hm k a)))).
    destruct (of_imp i l) as [|x g] eqn:Hg.
    + destruct (m !! i) as [a|] eqn:Ha; [|done]. destruct (Hm _ _ Ha) as [Hi Hl].
      assert (Hx : a ∈ of_imp i l) by by apply elem_of_of_imp. rewrite Hg in Hx.
      by apply elem_of_nil in Hx.
    + assert (Hx : x ∈ of_imp i l) by (rewrite Hg; by left).
      apply elem_of_of_imp in Hx as [Hx <-]. destruct (Hbest x Hx) as (a&->&_). simpl. lia.
  - intros x Hx. right. intros y Hy Hi. destruct (Hin y Hy) as [Hmy _].
    destruct (Hbest x Hx) as (a&Ha&Hle). rewrite Hi in Hmy. congruence.
Qed.

Lemma price_desc_sorted l : no_nan l →
  StronglySorted (λ a b, price_desc a b = true) (sort_by price_desc l).
Proof.
  intros Hn. apply (sort_by_sorted (λ tb, f64_is_nan (tb_price tb) = false)); [| |done].
  - intros x y Hx Hy. unfold price_desc. rewrite <-!f64_leb_ltb by done.
    destruct (f64_leb_total _ _ Hx Hy); congruence.
  - intros x y z Hx Hy Hz. unfold price_desc. rewrite <-!f64_leb_ltb by done.
    intros H1 H2. by eapply f64_leb_trans.
Qed.

Lemma limit_many n l : no_nan l →
  top_n n l (flat_map (λ e, take n (sort_by price_desc e.2))
               (iter_map _ (fold_left group_step l ∅))).
Proof.
  intros Hn. set (m := fold_left group_step l ∅).
  assert (Hgrp : ∀ k g tb, m !! k = Some g → tb ∈ take n (sort_by price_desc g) →
    tb_impid tb = k).
  { intros k g tb Hk Htb. apply elem_of_take in Htb as (j&Hj&_).
    apply list_elem_of_lookup_2 in Hj. rewrite sort_by_perm in Hj.
    subst m. rewrite group_spec in Hk.
    assert (Hg : tb ∈ of_imp k l) by (destruct (of_imp k l); by simplify_eq).
    by apply elem_of_of_imp in Hg as [_ ?]. }
  assert (Hout : ∀ i, of_imp i (flat_map (λ e, take n (sort_by price_desc e.2)) (iter_map _ m))
    ≡ₚ take n (sort_by price_desc (of_imp i l))).
  { intros i. etrans; [apply list_filter_perm, flat_map_perm, Hiter|].
    rewrite (of_imp_flat_map (λ e, take n (sort_by price_desc e.2)) m i Hgrp).
    subst m. rewrite group_spec. destruct (of_imp i l); [by destruct n|done]. }
  split_and!.
  - rewrite <-(group_perm l). fold m. rewrite (flat_map_perm _ _ _ (Hiter _ m)).
    apply flat_map_submseteq. intros e _. trans (sort_by price_desc e.2).
    + apply sublist_submseteq, sublist_take.
    + by rewrite sort_by_perm.
  - intros i. rewrite (Permutation_length (Hout i)), length_take.
    by rewrite (Permutation_length (sort_by_perm _ _)).
  - intros x Hx.
    assert (Hxi : x ∈ sort_by price_desc (of_imp (tb_impid x) l)).
    { rewrite sort_by_perm. by apply elem_of_of_imp. }
    rewrite <-(take_drop n (sort_by price_desc (of_imp (tb_impid x) l))) in Hxi.
    apply elem_of_app in Hxi as [Hxi|Hxi].
    + left. rewrite <-(Hout (tb_impid x)) in Hxi. by apply elem_of_of_imp in Hxi as [? _].
    + right. intros y Hy Hi.
      assert (Hyi : y ∈ take n (sort_by price_desc (of_imp (tb_impid x) l))).
      { rewrite <-Hout. by apply elem_of_of_imp. }
      assert (Hnl : no_nan (of_imp (tb_impid x) l)).
      { rewrite Forall_forall in *. intros z Hz. apply elem_of_of_imp in Hz as [? _]. auto. }
      pose proof (price_desc_sorted _ Hnl) as Hs.
      rewrite <-(take_drop n (sort_by _ _)) in Hs.
      pose proof (elem_of_StronglySorted_app _ _ _ _ _ Hs Hyi Hxi) as Hle.
      assert (Hf : ∀ z, z ∈ sort_by price_desc (of_imp (tb_impid x) l) →
        f64_is_nan (tb_price z) = false).
      { rewrite Forall_forall in Hnl. intros z. rewrite sort_by_perm. apply Hnl. }
      unfold price_desc in Hle. rewrite <-f64_leb_ltb in Hle; [done|..]; apply Hf;
        rewrite <-(take_drop n (sort_by _ _)), elem_of_app; auto.
Qed.

Lemma limit_bids_spec n l : 1 ≤ n → no_nan l →
  top_n (Z.to_nat n) l (limit_bids iter_map n l).
Proof.
  intros H1 Hn. unfold limit_bids. destruct (Z.leb_spec n 1).
  - replace (Z.to_nat n) with 1%nat by lia. by apply limit_one.
  - by apply limit_many.
Qed.
End LimitSpec.

(** ** Proofs: one response *)

Lemma floor_filter_eq imps bids :
  floor_filter imps bids =
    (List.filter (λ tb, negb (below_floor imps tb)) bids,
     non_bid 300 ∘ bid_impid ∘ tb_bid <$> List.filter (below_floor imps) bids).
Proof.
  induction bids as [|tb bids IH]; simpl; [done|]. rewrite IH. by destruct (below_floor imps tb).
Qed.

Lemma filter_filter {A} (f g : A → bool) l :
  List.filter f (List.filter g l) = List.filter (λ x, f x && g x) l.
Proof.
  induction l as [|x l IH]; simpl; [done|]. destruct (g x); simpl; rewrite IH.
  - by rewrite andb_true_r.
  - by rewrite andb_false_r.
Qed.

Lemma competes_ok req tb : competes req tb = true ↔ bid_ok req tb.
Proof.
  unfold competes, bid_ok, valid_bid, below_floor, str_is_empty. cbv zeta.
  destruct (decide (tb_id tb = "")); [rewrite bool_decide_true by done; naive_solver|].
  rewrite (bool_decide_false (tb_id tb = "")) by done.
  destruct (decide (tb_impid tb = "")); [rewrite bool_decide_true by done; naive_solver|].
  rewrite (bool_decide_false (tb_impid tb = "")) by done.
  destruct (decide (tb_impid tb ∈ imp_id <$> req_imp req)) as [Hi|Hi].
  2: { rewrite (bool_decide_false (_ ∈ _)) by done. naive_solver. }
  rewrite (bool_decide_true (_ ∈ _)) by done. simpl.
  destruct (f64_ltb (tb_price tb) f64_zero) eqn:Hneg; [naive_solver|].
  assert (Hz : f64_eqb (tb_price tb) f64_zero && bool_decide (bid_dealid (tb_bid tb) = None) = false
    ↔ (f64_eqb (tb_price tb) f64_zero = true → is_Some (bid_dealid (tb_bid tb)))).
  { destruct (f64_eqb _ _), (bid_dealid (tb_bid tb)) as [d|]; simpl.
    all: split; eauto; try done. intros H. by destruct (H eq_refl). }
  destruct (f64_eqb _ _ && _); [split; [done|]; intros (_&_&_&_&Hd&_); by apply Hz in Hd|].
  destruct (decide (default "" (bid_crid (tb_bid tb)) = "")) as [Hc|Hc];
    [rewrite (bool_decide_true (default _ _ = _)) by done; naive_solver
    |rewrite (bool_decide_false (default _ _ = _)) by done].
  destruct (floor_of (req_imp req) (tb_impid tb)) as [f|]; simpl;
    rewrite ?negb_true_iff; naive_solver.
Qed.

Section PipelineSpec.
Context (iter_map : ∀ A : Type, gmap string A → list (string * A)).
Context (to_uppercase : string → string).
Context (from_value_factors : Value → option (gmap string f64)).
Context (Hiter : ∀ A (m : gmap string A), iter_map A m ≡ₚ map_to_list m).

Lemma process_bids_eq req rates limits bidder response cur_ok :
  br_bids response ≠ [] →
  validate_bid_currency to_uppercase (default [] (req_cur req)) (br_currency response) = Ok cur_ok →
  let priced := priced_bids from_value_factors req rates bidder response in
  process_bids iter_map to_uppercase from_value_factors req rates limits bidder response =
    {| bo_errors := [];
       bo_non_bids :=
         match non_bid 300 ∘ bid_impid ∘ tb_bid
                 <$> List.filter (below_floor (req_imp req)) priced with
         | [] => []
         | nbs => [{| snb_nonbid := nbs; snb_seat := bidder; snb_ext := None |}]
         end;
       bo_bids := limit_bids iter_map (default 1 (limits !! bidder))
                    (dedup (List.filter (competes req) priced)) |}.
Proof.
  intros Hne Hcur priced. unfold process_bids. destruct (br_bids response); [done|].
  rewrite Hcur, floor_filter_eq. fold (priced_bids from_value_factors req rates bidder response).
  fold priced. unfold validate_bids. rewrite filter_filter.
  by destruct (_ <$> _).
Qed.

(** C5: What a bidder's response contributes, where it has bids, in a currency the
    request accepts, at prices that are not NaN once converted and adjusted, and the
    bidder's limit is at least one (the limits the auction reads always are).  At
    those prices, the bids that compete are deduplicated by id, each kept one at
    least as dear as every bid of its id; of these the auction keeps, per imp, as
    many as the bidder's limit (one by default), and never drops a bid dearer than
    one it keeps.  Every bid below its floor is reported as a non-bid with code
    300, in order, and nothing else is; the tables of the exchange name 300 a
    general rejection and have 301 for a bid below its floor. *)
Theorem process_bids_spec req rates limits bidder response cur_ok :
  br_bids response ≠ [] →
  validate_bid_currency to_uppercase (default [] (req_cur req)) (br_currency response) = Ok cur_ok →
  let priced := priced_bids from_value_factors req rates bidder response in
  let limit := default 1 (limits !! bidder) in
  let out := process_bids iter_map to_uppercase from_value_factors req rates limits bidder response in
  no_nan priced → 1 ≤ limit →
  (∃ deduped, NoDup (bid_id ∘ tb_bid <$> deduped) ∧
     (∀ d, d ∈ deduped → d ∈ priced ∧ bid_ok req d) ∧
     (∀ x, x ∈ priced → bid_ok req x → ∃ d, d ∈ deduped ∧ tb_id d = tb_id x ∧
        f64_leb (tb_price x) (tb_price d) = true) ∧
     top_n (Z.to_nat limit) deduped (bo_bids out)) ∧
  flat_map snb_nonbid (bo_non_bids out) =
    non_bid 300 ∘ bid_impid ∘ tb_bid <$> List.filter (below_floor (req_imp req)) priced ∧
  bo_errors out = [].
Proof.
  intros Hne Hcur priced limit out Hnan Hlim. subst out.
  rewrite (process_bids_eq _ _ _ _ _ _ Hne Hcur). fold priced limit. simpl.
  assert (Hin : ∀ d, d ∈ List.filter (competes req) priced ↔ d ∈ priced ∧ bid_ok req d).
  { intros d. by rewrite list_elem_of_In, List.filter_In, <-list_elem_of_In, competes_ok. }
  assert (Hnc : no_nan (List.filter (competes req) priced)).
  { rewrite Forall_forall in *. intros d Hd. apply Hin in Hd as [Hd _]. auto. }
  destruct (dedup_spec _ Hnc) as (Hnd&Hsub&Hbest).
  assert (Hnd' : no_nan (dedup (List.filter (competes req) priced))).
  { rewrite Forall_forall in *. auto. }
  split_and!; [| |done].
  2: { match goal with |- _ = ?L => destruct L end; [done|]. simpl. by rewrite app_nil_r. }
  exists (dedup (List.filter (competes req) priced)). split_and!; [done| | |].
  - intros d Hd. by apply Hin, Hsub.
  - intros x Hx Hok. apply Hbest. by apply Hin.
  - by apply limit_bids_spec.
Qed.

Lemma process_bids_safe req rates limits bidder response :
  no_nan (priced_bids from_value_factors req rates bidder response) →
  1 ≤ default 1 (limits !! bidder) →
  let bids := bo_bids (process_bids iter_map to_uppercase from_value_factors req rates limits
                         bidder response) in
  NoDup (bid_id ∘ tb_bid <$> bids) ∧ (∀ tb, tb ∈ bids → bid_ok req tb) ∧
  ∀ i, Z.of_nat (length (of_imp i bids)) ≤ default 1 (limits !! bidder).
Proof.
  intros Hnan Hlim bids.
  assert (Hnil : bids = [] → NoDup (bid_id ∘ tb_bid <$> bids) ∧
    (∀ tb, tb ∈ bids → bid_ok req tb) ∧
    ∀ i, Z.of_nat (length (of_imp i bids)) ≤ default 1 (limits !! bidder)).
  { intros ->. split_and!; [constructor|by intros tb ?%elem_of_nil|]. intros i. simpl. lia. }
  destruct (decide (length (br_bids response) = 0%nat)) as [He|He].
  { apply Hnil. subst bids. unfold process_bids. by destruct (br_bids response). }
  destruct (validate_bid_currency to_uppercase (default [] (req_cur req)) (br_currency response))
    as [u|e|] eqn:Hcur.
  - subst bids. rewrite (process_bids_eq _ _ _ _ _ u); [|by destruct (br_bids response)|done].
    cbn [bo_bids]. set (priced := priced_bids _ _ _ _ _) in *.
    assert (Hin : ∀ d, d ∈ List.filter (competes req) priced → bid_ok req d).
    { intros d. rewrite list_elem_of_In, List.filter_In, competes_ok. tauto. }
    assert (Hnc : no_nan (List.filter (competes req) priced)).
    { rewrite Forall_forall in *. intros d Hd. apply Hnan.
      rewrite list_elem_of_In, List.filter_In, <-list_elem_of_In in Hd. tauto. }
    destruct (dedup_spec _ Hnc) as (Hnd&Hsub&_).
    assert (Hnd' : no_nan (dedup (List.filter (competes req) priced))).
    { rewrite Forall_forall in *. auto. }
    destruct (limit_bids_spec iter_map Hiter (default 1 (limits !! bidder)) _ Hlim Hnd')
      as (Hm&Hlen&_).
    split_and!.
    + apply (fmap_submseteq (bid_id ∘ tb_bid)), submseteq_Permutation in Hm as [k Hk].
      rewrite Hk in Hnd. by apply NoDup_app in Hnd as [? _].
    + intros tb Htb. apply Hin, Hsub. by eapply elem_of_submseteq.
    + intros i. rewrite Hlen. lia.
  - apply Hnil. subst bids. unfold process_bids. destruct (br_bids response); [done|].
    by rewrite Hcur.
  - unfold validate_bid_currency in Hcur. repeat break_match_hyp Hcur; done.
Qed.

(** What holds after any number of results. *)
Lemma collect_results_inv req rates limits skipped results :
  map_Forall (λ _ n, 1 ≤ n) limits →
  (∀ r response, r ∈ results → bres_response r = inr response →
     no_nan (priced_bids from_value_factors req rates (bres_bidder_name r) response)) →
  let st := collect_results iter_map to_uppercase from_value_factors req rates limits
              skipped results in
  results_ok req limits st ∧
  st_timed_out_bidders st = bres_bidder_name <$> List.filter bres_timed_out results ∧
  ∀ r, r ∈ results → is_Some (st_all_bidder_timing st !! bres_bidder_name r).
Proof.
  intros Hlims Hnan. induction results as [|r results IH] using rev_ind.
  { split_and!; [|done|by intros r ?%elem_of_nil].
    intros name bids. by rewrite elem_of_nil. }
  destruct IH as (Hok&Hto&Htime).
  { intros r' resp Hr'. apply Hnan. rewrite elem_of_app. by left. }
  unfold collect_results in *. rewrite fold_left_app. simpl.
  set (st := fold_left _ results _) in *. split_and!.
  - intros name bids. unfold collect_result. cbn [st_bidder_results].
    set (out := match bres_response r with inr _ => _ | inl _ => _ end).
    destruct (bo_bids out) as [|tb tbs] eqn:Hbids; [apply Hok|].
    intros [Hin|[= -> ->]%list_elem_of_singleton]%elem_of_app; [by apply Hok|].
    split; [done|]. subst out. destruct (bres_response r) as [errs|resp] eqn:Hr; [done|].
    rewrite <-Hbids. apply process_bids_safe.
    + apply Hnan; [|done]. rewrite elem_of_app. right. by left.
    + destruct (limits !! bres_bidder_name r) as [n|] eqn:Hl; [|done]. simpl.
      by apply (Hlims _ _ Hl).
  - unfold collect_result. cbn [st_timed_out_bidders]. rewrite List.filter_app. simpl.
    rewrite fmap_app, <-Hto. destruct (bres_timed_out r); [done|]. by rewrite app_nil_r.
  - intros r' Hr'. unfold collect_result. cbn [st_all_bidder_timing].
    destruct (decide (bres_bidder_name r = bres_bidder_name r')) as [->|Hne].
    { rewrite lookup_insert_eq. eauto. }
    rewrite lookup_insert_ne by done.
    apply elem_of_app in Hr' as [Hr'| ->%list_elem_of_singleton]; [by apply Htime|done].
Qed.
(** C33: C17: The results of an auction are safe, whatever the bidders answer and
    in whatever order: in every state the collection loop reaches, each
    bidder in the results has at least one bid, distinct bid ids, no more
    bids per imp than its limit, and only bids for imps of the request that
    have an id, a creative id, a non-negative price (zero only with a deal)
    and are not below their floor.  Timed-out bidders are recorded in order
    and every bidder that answered has a response time. *)
Theorem collect_results_safe req rates limits skipped results :
  map_Forall (λ _ n, 1 ≤ n) limits →
  (∀ r response, r ∈ results → bres_response r = inr response →
     no_nan (priced_bids from_value_factors req rates (bres_bidder_name r) response)) →
  let st := collect_results iter_map to_uppercase from_value_factors req rates limits
              skipped results in
  results_ok req limits st ∧
  st_timed_out_bidders st = bres_bidder_name <$> List.filter bres_timed_out results ∧
  ∀ r, r ∈ results → is_Some (st_all_bidder_timing st !! bres_bidder_name r).
Proof. apply collect_results_inv. Qed.
End PipelineSpec.

Lemma process_bids_spec_witness :
  let out := process_bids (λ A, map_to_list) (λ s, s) (λ _, None) sample_req None ∅ "appnexus"
               sample_response in
  flat_map snb_nonbid (bo_non_bids out) = [non_bid 300 "imp-1"] ∧
  (∃ deduped, top_n 1 deduped (bo_bids out)) ∧
  bid_id ∘ tb_bid <$> bo_bids out = ["c"].
Proof.
  intros out.
  destruct (process_bids_spec (λ A, map_to_list) (λ s, s) (λ _, None) (λ A m, reflexivity _)
    sample_req None ∅ "appnexus" sample_response tt) as ((d&_&_&_&Htop)&Hnb&_);
    [done|by vm_compute|by repeat constructor|by vm_compute|].
  split_and!.
  - etrans; [exact Hnb|]. by vm_compute.
  - exists d. exact Htop.
  - by vm_compute.
Defined.

Lemma collect_results_safe_witness :
  let st := collect_results (λ A, map_to_list) (λ s, s) (λ _, None) sample_req None ∅ []
              [sample_result] in
  results_ok sample_req ∅ st ∧ st_timed_out_bidders st = [].
Proof.
  intros st.
  destruct (collect_results_safe (λ A, map_to_list) (λ s, s) (λ _, None) (λ A m, reflexivity _)
    sample_req None ∅ [] [sample_result]) as (Hok&Hto&_).
  - apply map_Forall_empty.
  - intros r resp ->%list_elem_of_singleton [= <-]. by repeat constructor.
  - split; [exact Hok|]. etrans; [exact Hto|reflexivity].
Defined.
