(* ===== verification/Floors.v ===== *)
(** * Price floors of the exchange

    exchange/src/floors.rs: the floor of an impression, looked up in the rules of
    [ext.prebid.floors]; enforcement against bids; and the fetchers of dynamic
    floors, over an interface to the cache they share.  serde, HTTP, the clock,
    the random numbers and the order of a hash map are parameters. *)

From S2P Require Import Prelude Json OpenRtb PriceBucket OpenRtbExt BidPipeline Cache.

(** ** Rules *)

Record FloorSchema : Type := { fs_fields : list string; fs_delimiter : option string }.
Record FloorModelGroup : Type := {
  fmg_schema : option FloorSchema; fmg_values : option (gmap string f64);
  fmg_model_weight : Z; fmg_skip_rate : Z;
}.
Record FloorData : Type := {
  fd_currency : option string; fd_schema : option FloorSchema;
  fd_values : option (gmap string f64); fd_modelgroups : option (list FloorModelGroup);
}.
Record FloorEnforcement : Type := {
  fe_enforce_pbs : bool; fe_floor_deals : bool; fe_enforce_rate : Z;
}.
Record PriceFloors : Type := {
  pf_floor_min : f64; pf_floor_min_cur : string; pf_data : option FloorData;
  pf_enforcement : FloorEnforcement; pf_skipped : bool;
}.

(** ** The floor of an impression *)

(** The part of a rule key for one field. *)
Definition floor_field (imp : Imp) (request : BidRequest) (field : string) : string :=
  if bool_decide (field ∈ ["siteDomain"; "pubDomain"; "domain"])
  then default "*" (req_site request ≫= site_domain)
  else if bool_decide (field = "bundle") then default "*" (req_app request ≫= app_bundle)
  else if bool_decide (field = "channel") then default "*" (req_site request ≫= site_name)
  else if bool_decide (field = "mediaType") then
    match imp_banner imp, imp_video imp, imp_native imp with
    | Some _, _, _ => "banner"
    | None, Some _, _ => "video"
    | None, None, Some _ => "native"
    | None, None, None => "*"
    end
  else if bool_decide (field = "size") then
    match imp_banner imp ≫= (λ b, ban_format b ≫= head) with
    | Some f => pretty (default 0 (fmt_w f)) +:+ "x" +:+ pretty (default 0 (fmt_h f))
    | None => "*"
    end
  else if bool_decide (field = "gptSlot")
  then default "*" (json_path ["data"; "adserver"; "adslot"] (imp_ext imp) ≫= as_str)
  else "*".
Definition build_floor_key (fields : list string) (delimiter : string) (imp : Imp)
    (request : BidRequest) : string :=
  join delimiter (floor_field imp request <$> fields).
(** The impression's own key, then the key of wildcards. *)
Definition lookup_values (imp : Imp) (request : BidRequest) (schema : FloorSchema)
    (values : gmap string f64) : option f64 :=
  let delimiter := default "|" (fs_delimiter schema) in
  match values !! build_floor_key (fs_fields schema) delimiter imp request with
  | Some floor => Some floor
  | None => values !! join delimiter ((λ _, "*") <$> fs_fields schema)
  end.
(** A group without a schema or values, of its own or the data's, ends the
    whole lookup: [Some None].  [None] goes on after the groups. *)
Fixpoint lookup_groups (imp : Imp) (request : BidRequest) (data : FloorData)
    (groups : list FloorModelGroup) : option (option f64) :=
  match groups with
  | [] => None
  | group :: groups =>
      match option_or (fmg_schema group) (fd_schema data),
            option_or (fmg_values group) (fd_values data) with
      | Some schema, Some values =>
          match lookup_values imp request schema values with
          | Some floor => Some (Some floor)
          | None => lookup_groups imp request data groups
          end
      | _, _ => Some None
      end
  end.
Definition lookup_schema_floor (imp : Imp) (request : BidRequest) (data : FloorData)
    : option f64 :=
  match lookup_groups imp request data (default [] (fd_modelgroups data)) with
  | Some r => r
  | None =>
      values ← fd_values data;
      schema ← fd_schema data;
      lookup_values imp request schema values
  end.

(** A floor raised to [floorMin]. *)
Definition at_least_min (floors : PriceFloors) (floor : f64) : f64 :=
  if f64_gtb (pf_floor_min floors) f64_zero then f64_max floor (pf_floor_min floors) else floor.
Definition get_floor_for_imp (imp : Imp) (request : BidRequest) (floors : PriceFloors)
    : option f64 :=
  if pf_skipped floors then None
  else
    match f ← imp_bidfloor imp; if f64_gtb f f64_zero then Some f else None with
    | Some f => Some (at_least_min floors f)
    | None =>
        match data ← pf_data floors; lookup_schema_floor imp request data with
        | Some floor => Some (at_least_min floors floor)
        | None =>
            if f64_gtb (pf_floor_min floors) f64_zero then Some (pf_floor_min floors) else None
        end
    end.

(** ** Enforcement *)

Definition bid_meets_floor (bid_price floor : f64) (is_deal enforce_deals : bool) : bool :=
  if f64_leb bid_price f64_zero then false
  else if is_deal && negb enforce_deals then true
  else f64_geb bid_price floor.

(** [roll]: [rand::random::<i32>()]. *)
Definition should_skip_enforcement (roll skip_rate : Z) : bool :=
  if skip_rate <=? 0 then false
  else if 100 <=? skip_rate then true
  else roll mod 100 <? skip_rate.
Definition is_satisfied_by_enforce_rate (roll request_rate config_rate : Z) : bool :=
  let effective_rate :=
    if (0 <? request_rate) && (0 <? config_rate) then Some (Z.min request_rate config_rate)
    else if 0 <? request_rate then Some request_rate
    else if 0 <? config_rate then Some config_rate
    else None in
  match effective_rate with
  | None => true
  | Some rate =>
      if 100 <=? rate then true else if rate <=? 0 then false else roll mod 100 <? rate
  end.

(** A bid of the enforcement: impression, price, deal. *)
Definition FloorBid : Type := string * f64 * option string.
Definition floor_for_bid (request : BidRequest) (floors : PriceFloors) (imp_id : string) : f64 :=
  default f64_zero (imp ← find_imp (req_imp request) imp_id; get_floor_for_imp imp request floors).
Definition accepts_bid (request : BidRequest) (floors : PriceFloors) (enforce_deals : bool)
    (b : FloorBid) : bool :=
  let '(imp_id, price, deal_id) := b in
  let floor := floor_for_bid request floors imp_id in
  if f64_leb floor f64_zero then true
  else
    let is_deal := match deal_id with Some d => negb (str_is_empty d) | None => false end in
    bid_meets_floor price floor is_deal enforce_deals.
Definition floor_error (request : BidRequest) (floors : PriceFloors) (b : FloorBid) : string :=
  let '(imp_id, price, _) := b in
  "bid rejected: price " +:+ format_f64 4 price +:+ " below floor " +:+
    format_f64 4 (floor_for_bid request floors imp_id) +:+ " for imp " +:+ imp_id.
(** Accepted indices, errors, rejected indices. *)
Definition enforce_step (request : BidRequest) (floors : PriceFloors) (enforce_deals : bool)
    (st : list nat * list string * list nat) (e : nat * FloorBid)
    : list nat * list string * list nat :=
  let '(accepted, errors, rejected) := st in
  if accepts_bid request floors enforce_deals e.2 then (accepted ++ [e.1], errors, rejected)
  else (accepted, errors ++ [floor_error request floors e.2], rejected ++ [e.1]).
Definition enforce_floor_to_bids (request : BidRequest) (floors : PriceFloors)
    (bids : list FloorBid) (enforce_deals : bool) : list nat * list string * list nat :=
  fold_left (enforce_step request floors enforce_deals) (imap pair bids) ([], [], []).

(** Writes the floor into the impressions. *)
Definition apply_floor_to_imp (request : BidRequest) (floors : PriceFloors) (imp : Imp) : Imp :=
  match get_floor_for_imp imp request floors with
  | Some floor =>
      let imp := set_imp_bidfloor (Some floor) imp in
      if negb (str_is_empty (pf_floor_min_cur floors))
      then set_imp_bidfloorcur (Some (pf_floor_min_cur floors)) imp
      else
        match pf_data floors ≫= fd_currency with
        | Some cur => set_imp_bidfloorcur (Some cur) imp
        | None => imp
        end
  | None => imp
  end.
Definition apply_floors_to_request (floors : PriceFloors) (request : BidRequest) : BidRequest :=
  if pf_skipped floors then request
  else set_req_imp (apply_floor_to_imp request floors <$> req_imp request) request.
Definition extract_floors_from_request (from_value : Value → option PriceFloors)
    (req : BidRequest) : option PriceFloors :=
  json_path ["prebid"; "floors"] (req_ext req) ≫= from_value.

(** ** Fetching *)

Record FloorFetchConfig : Type := {
  ffc_url : string; ffc_period_secs : Z; ffc_max_rules : Z; ffc_timeout_ms : Z;
  ffc_max_age_secs : Z; ffc_enabled : bool;
}.
(** [default_period], [default_max_rules], [default_fetch_timeout], [default_max_age] *)
Definition default_fetch_config : FloorFetchConfig := {|
  ffc_url := ""; ffc_period_secs := 300; ffc_max_rules := 1000; ffc_timeout_ms := 5000;
  ffc_max_age_secs := 86400; ffc_enabled := false |}.

(** Rules and the second they were fetched at. *)
Record CachedFloorData : Type := { cfd_rules : PriceFloors; cfd_fetched_at : Z }.
Record FloorFetcher : Type := { ff_config : FloorFetchConfig; ff_cached : option CachedFloorData }.
Definition get_cached (now : Z) (f : FloorFetcher) : option PriceFloors :=
  cached ← ff_cached f;
  if ffc_max_age_secs (ff_config f) <? now - cfd_fetched_at cached then None
  else Some (cfd_rules cached).
Definition set_cached (now : Z) (rules : PriceFloors) (f : FloorFetcher) : FloorFetcher :=
  {| ff_config := ff_config f;
     ff_cached := Some {| cfd_rules := rules; cfd_fetched_at := now |} |}.

Inductive FetchError : Type :=
| FeHttp (e : string)
| FeStatus (code : Z)
| FeTooLarge (size max : Z)
| FeParse (e : string)
| FeEmptyData
| FeValidation (e : string).

(** The trait [FloorDataFetcher], on a state [S]. *)
Class FloorDataFetcher (F S : Type) : Type :=
  fetch_floor_data : F → string → M S FetchError FloorData.

Section Trim.
Context (iter_map : ∀ A : Type, gmap string A → list (string * A)).
(** At most [max_rules] entries, the first the map yields. *)
Definition trim_values (max_rules : Z) (values : gmap string f64) : gmap string f64 :=
  if max_rules <? Z.of_nat (size values)
  then list_to_map (take (Z.to_nat max_rules) (iter_map _ values)) else values.
Definition trim_group (max_rules : Z) (group : FloorModelGroup) : FloorModelGroup := {|
  fmg_schema := fmg_schema group; fmg_values := trim_values max_rules <$> fmg_values group;
  fmg_model_weight := fmg_model_weight group; fmg_skip_rate := fmg_skip_rate group |}.
Definition trim_groups (max_rules : Z) (data : FloorData) : FloorData := {|
  fd_currency := fd_currency data; fd_schema := fd_schema data; fd_values := fd_values data;
  fd_modelgroups := (λ groups : list _, trim_group max_rules <$> groups) <$> fd_modelgroups data |}.
(** Zero stands for no limit here ... *)
Definition trim_floor_rules (max_rules : Z) (data : FloorData) : FloorData :=
  if max_rules =? 0 then data else trim_groups max_rules data.
(** ... and not in [FloorFetcher::parse_response]. *)
Definition parse_floor_response (from_slice : list Z → option PriceFloors) (body : list Z)
    (max_rules : Z) : option PriceFloors :=
  floors ← from_slice body;
  Some {| pf_floor_min := pf_floor_min floors; pf_floor_min_cur := pf_floor_min_cur floors;
          pf_data := trim_groups max_rules <$> pf_data floors;
          pf_enforcement := pf_enforcement floors; pf_skipped := pf_skipped floors |}.

Record HttpFloorFetcher : Type := { hff_max_body_bytes : Z; hff_max_rules : Z }.
Definition http_from_config (config : FloorFetchConfig) : HttpFloorFetcher :=
  {| hff_max_body_bytes := 0; hff_max_rules := ffc_max_rules config |}.
(** The network: an error, or a status and the body (or its error). *)
Context {S : Type} (http_get : string → S → (string + Z * (string + list Z)) * S).
Context (data_from_slice : list Z → string + FloorData).
Definition read_floor_body (f : HttpFloorFetcher) (status : Z) (body : string + list Z)
    : outcome FetchError FloorData :=
  if negb ((200 <=? status) && (status <? 300)) then Err (FeStatus status)
  else
    match body with
    | inl e => Err (FeHttp e)
    | inr bytes =>
        if (0 <? hff_max_body_bytes f) && (hff_max_body_bytes f <? zlen bytes)
        then Err (FeTooLarge (zlen bytes) (hff_max_body_bytes f))
        else
          match data_from_slice bytes with
          | inl e => Err (FeParse e)
          | inr data => Ok (trim_floor_rules (hff_max_rules f) data)
          end
    end.
Definition http_fetch_floor_data (f : HttpFloorFetcher) (url : string) : M S FetchError FloorData := λ s,
  match http_get url s with
  | (inl e, s) => (Err (FeHttp e), s)
  | (inr (status, body), s) => (read_floor_body f status body, s)
  end.
Definition http_floor_fetcher : FloorDataFetcher HttpFloorFetcher S := http_fetch_floor_data.
End Trim.

(** The fetcher that keeps the answers of another. *)
Record CachedFloorFetcher (F : Type) : Type := { cff_inner : F }.
Arguments cff_inner {F} _.
Section Cached.
Context {F S C : Type} `{!FloorDataFetcher F S} `{!Cache C FloorData}.
Definition cached_fetch_floor_data (f : CachedFloorFetcher F) (url : string)
    : M (C * S) FetchError FloorData := λ '(c, s),
  match cache_get url c with
  | (Some data, c) => (Ok data, (c, s))
  | (None, c) =>
      match fetch_floor_data (cff_inner f) url s with
      | (Ok data, s) => (Ok data, (cache_insert url data c, s))
      | (out, s) => (out, (c, s))
      end
  end.
#[export] Instance cached_floor_fetcher : FloorDataFetcher (CachedFloorFetcher F) (C * S) :=
  cached_fetch_floor_data.
End Cached.

(** ** Specification *)

(** Where a lookup reads its rules: schema and values, of the groups in order
    and then of the data, up to a group that lacks one. *)
Definition source_of (data : FloorData) (group : FloorModelGroup)
    : option (FloorSchema * gmap string f64) :=
  schema ← option_or (fmg_schema group) (fd_schema data);
  values ← option_or (fmg_values group) (fd_values data);
  Some (schema, values).
Fixpoint rule_sources (data : FloorData) (groups : list FloorModelGroup)
    : list (FloorSchema * gmap string f64) :=
  match groups with
  | [] => match fd_schema data, fd_values data with Some s, Some v => [(s, v)] | _, _ => [] end
  | group :: groups =>
      match source_of data group with
      | Some source => source :: rule_sources data groups
      | None => []
      end
  end.
Definition rule_floor (imp : Imp) (request : BidRequest) (floors : PriceFloors) : option f64 :=
  data ← pf_data floors;
  head (omap (λ e, lookup_values imp request e.1 e.2)
          (rule_sources data (default [] (fd_modelgroups data)))).
(** What a request says of an impression for a field of a schema. *)
Inductive field_says (imp : Imp) (request : BidRequest) : string → string → Prop :=
| says_domain field site v :
    field = "siteDomain" ∨ field = "pubDomain" ∨ field = "domain" →
    req_site request = Some site → site_domain site = Some v → field_says imp request field v
| says_bundle app v :
    req_app request = Some app → app_bundle app = Some v → field_says imp request "bundle" v
| says_channel site v :
    req_site request = Some site → site_name site = Some v → field_says imp request "channel" v
| says_banner b : imp_banner imp = Some b → field_says imp request "mediaType" "banner"
| says_video v :
    imp_banner imp = None → imp_video imp = Some v → field_says imp request "mediaType" "video"
| says_native n :
    imp_banner imp = None → imp_video imp = None → imp_native imp = Some n →
    field_says imp request "mediaType" "native"
| says_size b f formats :
    imp_banner imp = Some b → ban_format b = Some (f :: formats) →
    field_says imp request "size" (pretty (default 0 (fmt_w f)) +:+ "x" +:+ pretty (default 0 (fmt_h f)))
| says_slot v :
    json_path ["data"; "adserver"; "adslot"] (imp_ext imp) = Some (VString v) →
    field_says imp request "gptSlot" v.
(** The impression's key in a schema: what is said of each field, a star for nothing. *)
Definition own_key (imp : Imp) (request : BidRequest) (schema : FloorSchema) (key : string) : Prop :=
  ∃ parts, key = join (default "|" (fs_delimiter schema)) parts ∧
    Forall2 (λ field part, field_says imp request field part ∨
      part = "*" ∧ ∀ v, ¬ field_says imp request field v) (fs_fields schema) parts.
Definition wildcard_key (schema : FloorSchema) : string :=
  join (default "|" (fs_delimiter schema)) (replicate (length (fs_fields schema)) "*").
(** The value a table has for an impression: under its own key or, without one, the
    key of stars. *)
Inductive table_says (imp : Imp) (request : BidRequest) (schema : FloorSchema)
    (values : gmap string f64) : f64 → Prop :=
| table_own key f :
    own_key imp request schema key → values !! key = Some f → table_says imp request schema values f
| table_wildcard key f :
    own_key imp request schema key → values !! key = None →
    values !! wildcard_key schema = Some f → table_says imp request schema values f.
(** The first of the tables that has a value gives the rule's floor. *)
Definition rule_says (imp : Imp) (request : BidRequest) (floors : PriceFloors) (f : f64) : Prop :=
  ∃ data before schema values after, pf_data floors = Some data ∧
    rule_sources data (default [] (fd_modelgroups data)) = before ++ (schema, values) :: after ∧
    (∀ e, e ∈ before → ∀ f', ¬ table_says imp request e.1 e.2 f') ∧
    table_says imp request schema values f.
Definition positive_floor (imp : Imp) (f : f64) : Prop :=
  imp_bidfloor imp = Some f ∧ f64_gtb f f64_zero = true.
(** What a fetcher promises: its state keeps [I], its answers are [P]. *)
Class FetcherContract {F S} (fetcher : FloorDataFetcher F S) (f : F) (I : S → Prop)
    (P : string → FloorData → Prop) : Prop :=
  fetcher_ok url s : I s → I (fetch_floor_data f url s).2 ∧
    ∀ data, (fetch_floor_data f url s).1 = Ok data → P url data.
(** No model group has more than [n] rules. *)
Definition rules_bounded (n : Z) (data : FloorData) : Prop :=
  ∀ groups group values, fd_modelgroups data = Some groups → group ∈ groups →
    fmg_values group = Some values → Z.of_nat (size values) ≤ n.

Definition sample_rule_floors : PriceFloors := {|
  pf_floor_min := f64_of_Z 1; pf_floor_min_cur := "USD";
  pf_data := Some {| fd_currency := None;
    fd_schema := Some {| fs_fields := ["mediaType"; "siteDomain"]; fs_delimiter := None |};
    fd_values := Some {[ "banner|*" := f64_of_Z 2; "*|*" := f64_of_dec 5 1 ]};
    fd_modelgroups := None |};
  pf_enforcement := {| fe_enforce_pbs := true; fe_floor_deals := false; fe_enforce_rate := 0 |};
  pf_skipped := false |}.
Definition floor_imp (id : string) (banner : option Banner) : Imp :=
  set_imp_id id (set_imp_banner banner default_imp).
Definition floor_req : BidRequest :=
  set_req_imp [floor_imp "a" (Some default_ban); floor_imp "b" None] default_req.

(** ** Proofs *)

Lemma at_least_min_ge floors f : f64_gtb (pf_floor_min floors) f64_zero = true →
  f64_leb (pf_floor_min floors) (at_least_min floors f) = true.
Proof.
  intros Hm. unfold at_least_min. rewrite Hm. unfold f64_gtb in Hm.
  destruct (f64_ltb_not_nan _ _ Hm) as [_ Hn]. unfold f64_max. rewrite Hn.
  destruct (f64_is_nan f) eqn:Hf; [by apply f64_leb_refl|].
  destruct (f64_ltb f (pf_floor_min floors)) eqn:Hlt; [by apply f64_leb_refl|].
  by rewrite f64_leb_ltb, Hlt.
Qed.
Lemma at_least_min_or floors f :
  at_least_min floors f = f ∨
  f64_gtb (pf_floor_min floors) f64_zero = true ∧ at_least_min floors f = pf_floor_min floors.
Proof.
  unfold at_least_min. destruct (f64_gtb (pf_floor_min floors) f64_zero) eqn:Hm; [|by left].
  unfold f64_max. unfold f64_gtb in Hm. destruct (f64_ltb_not_nan _ _ Hm) as [_ Hn]. rewrite Hn.
  destruct (f64_is_nan f); [by right|]. destruct (f64_ltb f _); [by right|by left].
Qed.
Lemma at_least_min_min floors : at_least_min floors (pf_floor_min floors) = pf_floor_min floors.
Proof. by destruct (at_least_min_or floors (pf_floor_min floors)) as [?|[_ ?]]. Qed.
Lemma at_least_min_idem floors f :
  at_least_min floors (at_least_min floors f) = at_least_min floors f.
Proof.
  destruct (at_least_min_or floors f) as [H|[_ H]]; rewrite !H; [done|apply at_least_min_min].
Qed.
Lemma at_least_min_pos floors f :
  f64_gtb f f64_zero = true → f64_gtb (at_least_min floors f) f64_zero = true.
Proof. by destruct (at_least_min_or floors f) as [->|[? ->]]. Qed.

(** The explicit floor, when it counts. *)
Lemma explicit_floor imp f :
  (g ← imp_bidfloor imp; if f64_gtb g f64_zero then Some g else None) = Some f ↔
  positive_floor imp f.
Proof.
  unfold positive_floor. destruct (imp_bidfloor imp) as [g|]; simpl; [|by split; [|intros [? _]]].
  destruct (f64_gtb g f64_zero) eqn:Hg; split; [by intros [= <-]|by intros [? _]|done|].
  intros [[= <-] ?]. congruence.
Qed.
Lemma no_explicit_floor imp :
  (g ← imp_bidfloor imp; if f64_gtb g f64_zero then Some g else None) = None ↔
  ∀ f, ¬ positive_floor imp f.
Proof. rewrite eq_None_not_Some. unfold is_Some. setoid_rewrite explicit_floor. naive_solver. Qed.

Lemma lookup_rule_floor imp request floors :
  (data ← pf_data floors; lookup_schema_floor imp request data) = rule_floor imp request floors.
Proof.
  unfold rule_floor. destruct (pf_data floors) as [data|]; [|done]. simpl.
  unfold lookup_schema_floor. induction (default [] (fd_modelgroups data)) as [|g groups IH]; simpl.
  - destruct (fd_values data), (fd_schema data); csimpl; [|done..].
    by destruct (lookup_values imp request _ _).
  - unfold source_of. destruct (option_or (fmg_schema g) _) as [s|]; [|done]. simpl.
    destruct (option_or (fmg_values g) _) as [v|]; [|done]. csimpl.
    by destruct (lookup_values imp request s v).
Qed.

Lemma field_says_floor_field imp request field v :
  field_says imp request field v → v = floor_field imp request field.
Proof.
  destruct 1 as [field site v Hn Hs Hd|? ? H1 H2|? ? H1 H2|? H1|? H1 H2|? H1 H2 H3|b f fs H1 H2|? H1];
    unfold floor_field.
  - rewrite bool_decide_true by set_solver. by rewrite Hs; cbn; rewrite Hd.
  - cbn. by rewrite H1; cbn; rewrite H2.
  - cbn. by rewrite H1; cbn; rewrite H2.
  - cbn. by rewrite H1.
  - cbn. by rewrite H1, H2.
  - cbn. by rewrite H1, H2, H3.
  - cbn. by rewrite H1; cbn; rewrite H2.
  - cbn -[json_path]. by rewrite H1.
Qed.
Ltac unsaid :=
  right; split; [done|]; intros v Hv; inversion Hv; destruct_or?; simplify_eq; set_solver.
Lemma floor_field_says imp request field :
  field_says imp request field (floor_field imp request field) ∨
  floor_field imp request field = "*" ∧ ∀ v, ¬ field_says imp request field v.
Proof.
  unfold floor_field. case_bool_decide as Hd.
  { destruct (req_site request) as [site|] eqn:Hs; [|unsaid]. cbn.
    destruct (site_domain site) eqn:Hsd; [|unsaid]. left. eapply says_domain; [|done|done].
    rewrite !elem_of_cons, elem_of_nil in Hd. tauto. }
  case_bool_decide; [subst|].
  { destruct (req_app request) as [app|] eqn:Hs; [|unsaid]. cbn.
    destruct (app_bundle app) eqn:?; [left; by eapply says_bundle|unsaid]. }
  case_bool_decide; [subst|].
  { destruct (req_site request) as [site|] eqn:Hs; [|unsaid]. cbn.
    destruct (site_name site) eqn:?; [left; by eapply says_channel|unsaid]. }
  case_bool_decide; [subst|].
  { destruct (imp_banner imp) eqn:?; [left; by eapply says_banner|].
    destruct (imp_video imp) eqn:?; [left; by eapply says_video|].
    destruct (imp_native imp) eqn:?; [left; by eapply says_native|unsaid]. }
  case_bool_decide; [subst|].
  { destruct (imp_banner imp) as [b|] eqn:?; [|unsaid]. cbn.
    destruct (ban_format b) as [[|f fs]|] eqn:?; [unsaid| |unsaid]. left. by eapply says_size. }
  case_bool_decide; [subst|unsaid].
  destruct (json_path _ _) as [[]|] eqn:?; try unsaid. left. by eapply says_slot.
Qed.
Lemma field_says_iff imp request field v :
  field_says imp request field v ∨ v = "*" ∧ (∀ v', ¬ field_says imp request field v') ↔
  v = floor_field imp request field.
Proof.
  destruct (floor_field_says imp request field) as [Hs|[Hs Hn]].
  - split; [intros [H|[_ H]]; [by apply field_says_floor_field|by apply H in Hs]|]. intros ->. by left.
  - rewrite Hs. split; [intros [H%Hn|[-> _]]; done|]. intros ->. by right.
Qed.
Lemma own_key_iff imp request schema key : own_key imp request schema key ↔
  key = build_floor_key (fs_fields schema) (default "|" (fs_delimiter schema)) imp request.
Proof.
  unfold own_key, build_floor_key. split.
  - intros (parts&->&H). f_equal. induction H as [|f v fs vs Hv H IH]; [done|].
    apply field_says_iff in Hv as ->. cbn. by rewrite IH.
  - intros ->. eexists. split; [done|]. apply Forall2_fmap_r.
    induction (fs_fields schema) as [|f fs IH]; constructor; [by apply field_says_iff|done].
Qed.
Lemma wildcard_key_eq schema :
  wildcard_key schema = join (default "|" (fs_delimiter schema)) ((λ _, "*") <$> fs_fields schema).
Proof. unfold wildcard_key. f_equal. induction (fs_fields schema); [done|]. cbn. by f_equal. Qed.
Lemma table_says_iff imp request schema values f :
  table_says imp request schema values f ↔ lookup_values imp request schema values = Some f.
Proof.
  unfold lookup_values. rewrite <-wildcard_key_eq. split.
  - destruct 1 as [key f Hk%own_key_iff Hf|key f Hk%own_key_iff Hn Hf]; rewrite <-Hk; [by rewrite Hf|by rewrite Hn].
  - set (key := build_floor_key _ _ _ _). assert (Hk : own_key imp request schema key) by by apply own_key_iff.
    destruct (values !! key) eqn:Hv; [intros [= ->]; by eapply table_own|by eapply table_wildcard].
Qed.
Lemma head_omap_Some {A B} (g : A → option B) l y : head (omap g l) = Some y ↔
  ∃ before x after, l = before ++ x :: after ∧ (∀ e, e ∈ before → g e = None) ∧ g x = Some y.
Proof.
  induction l as [|x l IH]; csimpl.
  { split; [done|]. by intros ([]&?&?&?&?). }
  destruct (g x) as [y'|] eqn:Hx.
  - split.
    + intros [= ->]. exists [], x, l. split; [done|]. split; [by intros e ?%elem_of_nil|done].
    + intros ([|e before]&x'&after&[= -> ->]&Hb&Hy); [cbn; congruence|].
      by rewrite (Hb e) in Hx by left.
  - rewrite IH. split.
    + intros (before&x'&after&->&Hb&Hy). exists (x :: before), x', after. split; [done|].
      split; [|done]. by intros e [->|He]%elem_of_cons; [|apply Hb].
    + intros ([|e before]&x'&after&[= -> ->]&Hb&Hy); [by rewrite Hx in Hy|].
      exists before, x', after. split; [done|]. split; [|done]. intros e' He. apply Hb. by right.
Qed.
Lemma rule_says_iff imp request floors f :
  rule_says imp request floors f ↔ rule_floor imp request floors = Some f.
Proof.
  unfold rule_says, rule_floor. setoid_rewrite table_says_iff. destruct (pf_data floors) as [data|]; cbn.
  2: { split; [|done]. by intros (?&?&?&?&?&?&_). }
  rewrite head_omap_Some. split.
  - intros (data'&before&schema&values&after&[= <-]&He&Hb&Hf). exists before, (schema, values), after.
    split; [done|]. split; [|done]. intros e Hin. apply eq_None_not_Some. intros [f' Hf']. by eapply Hb.
  - intros (before&[schema values]&after&He&Hb&Hf). exists data, before, schema, values, after.
    split_and!; [done..| |done]. intros e Hin f' Hf'. by rewrite Hb in Hf'.
Qed.

(** C10: The floor of an impression.  Skipped floors give none.  Otherwise the floor
    is the impression's own positive floor, else that of the first table of rules
    (the model groups' in order, up to one without a schema or values, then the
    data's) with a value under the impression's key or, without one, under the key
    of stars; where the minimum is positive it is raised to it, and the minimum is
    the floor without any other.  The key joins, for each field of the schema, what
    the request says of it or a star.  So there is no floor exactly when floors are
    skipped or none of the three exists, and a positive minimum is a lower bound. *)
Theorem floor_for_imp_spec imp request floors :
  let floor := get_floor_for_imp imp request floors in
  let has_min := f64_gtb (pf_floor_min floors) f64_zero = true in
  let raised f := if f64_gtb (pf_floor_min floors) f64_zero
                  then f64_max f (pf_floor_min floors) else f in
  (pf_skipped floors = true → floor = None) ∧
  (pf_skipped floors = false →
    (∀ f, positive_floor imp f → floor = Some (raised f)) ∧
    ((∀ f, ¬ positive_floor imp f) →
       (∀ f, rule_says imp request floors f → floor = Some (raised f)) ∧
       ((∀ f, ¬ rule_says imp request floors f) → has_min → floor = Some (pf_floor_min floors))) ∧
    (floor = None ↔ (∀ f, ¬ positive_floor imp f) ∧ (∀ f, ¬ rule_says imp request floors f) ∧ ¬ has_min) ∧
    (∀ f, floor = Some f → has_min → f64_leb (pf_floor_min floors) f = true)).
Proof.
  intros floor has_min raised. subst floor has_min. change raised with (at_least_min floors).
  unfold get_floor_for_imp. split; [by intros ->|]. intros ->.
  setoid_rewrite rule_says_iff.
  setoid_rewrite <-no_explicit_floor. setoid_rewrite <-explicit_floor.
  rewrite lookup_rule_floor.
  destruct (g ← imp_bidfloor imp; _) as [e|].
  - split_and!; [naive_solver|done|naive_solver|]. intros f [= <-]. apply at_least_min_ge.
  - destruct (rule_floor imp request floors) as [r|].
    + split_and!; [done|naive_solver|naive_solver|]. intros f [= <-]. apply at_least_min_ge.
    + destruct (f64_gtb (pf_floor_min floors) f64_zero) eqn:Hm;
        split_and!; try naive_solver. intros f [= <-] _. rewrite <-(at_least_min_min floors) at 2.
      by apply at_least_min_ge.
Qed.

(** *** Applying the floors *)

Lemma apply_floor_fields imp request floors :
  let imp' := apply_floor_to_imp request floors imp in
  imp_id imp' = imp_id imp ∧ (∀ req' : BidRequest,
    req_site req' = req_site request → req_app req' = req_app request →
    ∀ field, floor_field imp' req' field = floor_field imp request field).
Proof.
  intros imp'. assert (H : imp_id imp' = imp_id imp ∧ imp_banner imp' = imp_banner imp ∧
    imp_video imp' = imp_video imp ∧ imp_native imp' = imp_native imp ∧ imp_ext imp' = imp_ext imp).
  { subst imp'. unfold apply_floor_to_imp. repeat break_match; done. }
  destruct H as (Hi&Hb&Hv&Hn&He). split; [done|]. intros req' Hs Ha field.
  unfold floor_field. by rewrite Hs, Ha, Hb, Hv, Hn, He.
Qed.

Lemma rule_floor_ext imp imp' request request' floors :
  (∀ field, floor_field imp' request' field = floor_field imp request field) →
  rule_floor imp' request' floors = rule_floor imp request floors.
Proof.
  intros Hf. unfold rule_floor. destruct (pf_data floors) as [data|]; [|done]. simpl. f_equal.
  apply list_omap_ext, Forall2_same_length_lookup. split; [done|]. intros i [s v] e' ? He'.
  simplify_eq/=. unfold lookup_values, build_floor_key.
  assert (E : floor_field imp' request' <$> fs_fields s = floor_field imp request <$> fs_fields s)
    by (apply list_fmap_ext; intros; apply Hf).
  by rewrite E.
Qed.

Lemma apply_floor_bidfloor imp request floors :
  imp_bidfloor (apply_floor_to_imp request floors imp) =
  match get_floor_for_imp imp request floors with Some f => Some f | None => imp_bidfloor imp end.
Proof. unfold apply_floor_to_imp. repeat break_match; done. Qed.

(** The impression's floor, once written, is its floor. *)
Lemma apply_floor_stable imp request request' floors :
  pf_skipped floors = false → req_site request' = req_site request →
  req_app request' = req_app request →
  get_floor_for_imp (apply_floor_to_imp request floors imp) request' floors =
  get_floor_for_imp imp request floors.
Proof.
  intros Hs Hsite Happ. set (imp' := apply_floor_to_imp request floors imp).
  assert (Hrule : rule_floor imp' request' floors = rule_floor imp request floors).
  { apply rule_floor_ext. intros field. by apply apply_floor_fields. }
  pose proof (apply_floor_bidfloor imp request floors : imp_bidfloor imp' = _) as Hfl.
  unfold get_floor_for_imp in *. rewrite Hs in *. rewrite !lookup_rule_floor in *. rewrite Hrule, Hfl.
  destruct (g ← imp_bidfloor imp; _) as [e|] eqn:He.
  - apply explicit_floor in He as [He Hp]. simpl. rewrite at_least_min_pos by done.
    by rewrite at_least_min_idem.
  - destruct (rule_floor imp request floors) as [r|].
    + simpl. destruct (f64_gtb (at_least_min floors r) f64_zero); [|done].
      by rewrite at_least_min_idem.
    + destruct (f64_gtb (pf_floor_min floors) f64_zero) eqn:Hm; [|by rewrite He].
      simpl. by rewrite Hm, at_least_min_min.
Qed.

Lemma apply_floor_twice imp request request' floors :
  pf_skipped floors = false → req_site request' = req_site request →
  req_app request' = req_app request →
  apply_floor_to_imp request' floors (apply_floor_to_imp request floors imp) =
  apply_floor_to_imp request floors imp.
Proof.
  intros Hs Hsite Happ. unfold apply_floor_to_imp at 1. rewrite apply_floor_stable by done.
  unfold apply_floor_to_imp. destruct (get_floor_for_imp imp request floors) as [f|]; [|done].
  repeat break_match; reflexivity.
Qed.

Lemma find_imp_apply imps request floors i :
  find_imp (apply_floor_to_imp request floors <$> imps) i =
  apply_floor_to_imp request floors <$> find_imp imps i.
Proof.
  unfold find_imp. induction imps as [|imp imps IH]; [done|]. csimpl.
  destruct (apply_floor_fields imp request floors) as [-> _]. by destruct (bool_decide _).
Qed.

(** The pipeline's floor of an impression is the floor written there. *)
Lemma floor_of_apply request floors i : pf_skipped floors = false →
  floor_of (req_imp (apply_floors_to_request floors request)) i =
    f ← (imp ← find_imp (req_imp request) i; get_floor_for_imp imp request floors);
    if f64_gtb f f64_zero then Some f else None.
Proof.
  intros Hs. unfold apply_floors_to_request, floor_of. rewrite Hs. cbn [req_imp set_req_imp].
  rewrite find_imp_apply. destruct (find_imp (req_imp request) i) as [imp|]; [|done]. simpl.
  rewrite apply_floor_bidfloor.
  destruct (get_floor_for_imp imp request floors) as [f|] eqn:Hf; [done|].
  unfold get_floor_for_imp in Hf. rewrite Hs in Hf.
  by destruct (g ← imp_bidfloor imp; _) as [e|].
Qed.

Lemma imap_pair_fst {A} (l : list A) : (imap pair l).*1 = seq 0 (length l).
Proof. rewrite fmap_imap. etrans; [apply (imap_seq_0 l id)|apply list_fmap_id]. Qed.
Lemma imap_pair_snd {A} (l : list A) : (imap pair l).*2 = l.
Proof. rewrite fmap_imap. induction l as [|x l IH]; [done|]. simpl. f_equal. exact IH. Qed.
Lemma filter_fmap_comm {A B} (f : B → bool) (g : A → B) l :
  List.filter f (g <$> l) = g <$> List.filter (λ x, f (g x)) l.
Proof. induction l as [|x l IH]; [done|]. csimpl. rewrite IH. by destruct (f (g x)). Qed.

Lemma enforce_eq request floors enforce_deals bids :
  let ok := accepts_bid request floors enforce_deals in
  enforce_floor_to_bids request floors bids enforce_deals =
    (fst <$> List.filter (λ e, ok e.2) (imap pair bids),
     floor_error request floors <$> List.filter (λ b, negb (ok b)) bids,
     fst <$> List.filter (λ e, negb (ok e.2)) (imap pair bids)).
Proof.
  intros ok. unfold enforce_floor_to_bids.
  assert (H : ∀ (l : list (nat * FloorBid)) a e r,
    fold_left (enforce_step request floors enforce_deals) l (a, e, r) =
      (a ++ (fst <$> List.filter (λ x, ok x.2) l),
       e ++ (floor_error request floors <$> List.filter (λ b, negb (ok b)) l.*2),
       r ++ (fst <$> List.filter (λ x, negb (ok x.2)) l))).
  { induction l as [|[n b] l IH]; intros a e r; csimpl; [by rewrite !app_nil_r|].
    unfold enforce_step at 1. cbn [fst snd]. fold (ok b).
    destruct (ok b); simpl; rewrite IH, <-!app_assoc; done. }
  rewrite H. simpl. by rewrite imap_pair_snd.
Qed.

Lemma filter_negb_perm {A} (f : A → bool) l :
  List.filter f l ++ List.filter (λ x, negb (f x)) l ≡ₚ l.
Proof.
  induction l as [|x l IH]; [done|]. simpl. destruct (f x); simpl; [by rewrite IH|].
  by rewrite <-Permutation_middle, IH.
Qed.

(** One bid: the pipeline's filter and the enforcement agree. *)
Lemma below_floor_accepts request floors tb : pf_skipped floors = false →
  (∀ imp f, imp ∈ req_imp request → get_floor_for_imp imp request floors = Some f →
     f64_is_nan f = false) →
  f64_gtb (tb_price tb) f64_zero = true →
  below_floor (req_imp (apply_floors_to_request floors request)) tb =
  negb (accepts_bid request floors true (tb_impid tb, tb_price tb, bid_dealid (tb_bid tb))).
Proof.
  intros Hs Hnan Hpos. unfold below_floor, accepts_bid, floor_for_bid.
  rewrite floor_of_apply by done.
  destruct (find_imp (req_imp request) (tb_impid tb)) as [imp|] eqn:Hfind; simpl; [|done].
  assert (Hin : imp ∈ req_imp request).
  { apply List.find_some in Hfind as [? _]. by apply list_elem_of_In. }
  destruct (get_floor_for_imp imp request floors) as [f|] eqn:Hf; simpl; [|done].
  specialize (Hnan _ _ Hin Hf). unfold f64_gtb in *.
  destruct (f64_ltb_not_nan _ _ Hpos) as [_ Hp]. rewrite (f64_leb_ltb f f64_zero) by done.
  destruct (f64_ltb f64_zero f); [|done]. simpl. unfold bid_meets_floor.
  rewrite (f64_leb_ltb _ f64_zero) by done. rewrite Hpos. simpl. rewrite andb_false_r.
  unfold f64_geb. by rewrite f64_leb_ltb, negb_involutive.
Qed.

(** C11: Floors written into a request are the floors enforced.  Applying them
    again changes nothing.  Enforcement gives each bid one verdict, with one
    error for each bid it rejects; and, for positive prices and floors that are
    numbers, the bids it rejects with deals enforced are those the auction's own
    floor filter drops on the request the floors were written into. *)
Theorem floors_enforced_agree request floors :
  pf_skipped floors = false →
  let applied := apply_floors_to_request floors request in
  apply_floors_to_request floors applied = applied ∧
  (∀ bids enforce_deals, let '(accepted, errors, rejected) :=
     enforce_floor_to_bids request floors bids enforce_deals in
     accepted ++ rejected ≡ₚ seq 0 (length bids) ∧ length errors = length rejected) ∧
  ∀ tbs, (∀ imp f, imp ∈ req_imp request → get_floor_for_imp imp request floors = Some f →
            f64_is_nan f = false) →
    Forall (λ tb, f64_gtb (tb_price tb) f64_zero = true) tbs →
    (enforce_floor_to_bids request floors
       ((λ tb, (tb_impid tb, tb_price tb, bid_dealid (tb_bid tb))) <$> tbs) true).2 =
    fst <$> List.filter (λ e, below_floor (req_imp applied) e.2) (imap pair tbs).
Proof.
  intros Hs applied. split_and!.
  - subst applied. unfold apply_floors_to_request. rewrite Hs. cbn [req_imp set_req_imp].
    assert (H : apply_floor_to_imp (set_req_imp (apply_floor_to_imp request floors <$>
        req_imp request) request) floors <$> (apply_floor_to_imp request floors <$> req_imp request)
      = apply_floor_to_imp request floors <$> req_imp request).
    { rewrite <-list_fmap_compose. apply list_fmap_ext. intros ? imp _. by apply apply_floor_twice. }
    by rewrite H.
  - intros bids deals. rewrite enforce_eq. split.
    + by rewrite <-fmap_app, filter_negb_perm, imap_pair_fst.
    + rewrite !length_fmap. rewrite <-(imap_pair_snd bids) at 1.
      by rewrite filter_fmap_comm, length_fmap.
  - intros tbs Hnan Hpos. subst applied. rewrite enforce_eq. cbn [snd]. rewrite imap_fmap.
    set (as_bid := λ tb, (tb_impid tb, tb_price tb, bid_dealid (tb_bid tb))).
    change (imap ((λ f, f ∘ as_bid) ∘ pair) tbs) with (imap (λ n tb, (n, as_bid tb)) tbs).
    rewrite <-(fmap_imap pair (λ e : nat * TypedBid, (e.1, as_bid e.2))).
    rewrite filter_fmap_comm, <-list_fmap_compose.
    assert (Hall : ∀ e, e ∈ imap pair tbs → f64_gtb (tb_price e.2) f64_zero = true).
    { intros e He. rewrite Forall_forall in Hpos. apply Hpos. rewrite <-(imap_pair_snd tbs).
      by apply list_elem_of_fmap_2. }
    clear Hpos. induction (imap pair tbs) as [|e l IH]; [done|]. csimpl.
    rewrite (below_floor_accepts request floors e.2 Hs).
    + destruct (negb _); csimpl; [f_equal|]; apply IH; intros; apply Hall; by right.
    + apply Hnan.
    + apply Hall. by left.
Qed.

(** *** Fetching *)

Lemma list_to_map_size {A} (l : list (string * A)) :
  (size (list_to_map l : gmap string A) ≤ length l)%nat.
Proof.
  induction l as [|[k v] l IH]; [simpl; by rewrite map_size_empty|]. simpl.
  rewrite map_size_insert. destruct (_ !! k); simpl; lia.
Qed.

Lemma trim_groups_bounded iter_map n data : 0 ≤ n → rules_bounded n (trim_groups iter_map n data).
Proof.
  intros Hn groups group values Hg Hin Hv. simpl in Hg.
  destruct (fd_modelgroups data) as [gs|]; [|done]. injection Hg as <-.
  apply list_elem_of_fmap in Hin as (g&->&_). simpl in Hv.
  destruct (fmg_values g) as [vs|]; [|done]. injection Hv as <-. unfold trim_values.
  destruct (n <? Z.of_nat (size vs)) eqn:Hlt; bools; [|done].
  pose proof (list_to_map_size (take (Z.to_nat n) (iter_map f64 vs))) as Hs.
  rewrite length_take in Hs. lia.
Qed.

Section FetchSpec.
Context (iter_map : ∀ A : Type, gmap string A → list (string * A)).
Context {S : Type} (http_get : string → S → (string + Z * (string + list Z)) * S).
Context (data_from_slice : list Z → string + FloorData).

(** Over HTTP: only successful answers, trimmed. *)
#[export] Instance http_fetcher_contract f (I : S → Prop) :
  (∀ url s, I s → I (http_get url s).2) → 0 < hff_max_rules f →
  FetcherContract (http_floor_fetcher iter_map http_get data_from_slice) f I
    (λ _, rules_bounded (hff_max_rules f)).
Proof.
  intros HI Hn url s Hs. unfold fetch_floor_data, http_floor_fetcher, http_fetch_floor_data.
  specialize (HI url s Hs). destruct (http_get url s) as [[e|[status body]] s']; [done|].
  split; [done|]. intros data. unfold read_floor_body.
  destruct (negb _); [done|]. destruct body as [e|bytes]; [done|]. destruct (_ && _); [done|].
  destruct (data_from_slice bytes) as [e|d]; [done|]. intros [= <-]. unfold trim_floor_rules.
  destruct (hff_max_rules f =? 0) eqn:H0; bools; [lia|]. apply trim_groups_bounded. lia.
Qed.
End FetchSpec.

Section CachedSpec.
Context {F S C : Type} `{!FloorDataFetcher F S} `{!Cache C FloorData}.
Context (f : CachedFloorFetcher F) (I : S → Prop) (P : string → FloorData → Prop).
Context `{Hinner : !FetcherContract _ (cff_inner f) I P}.

Lemma cached_fetch_ok url c s :
  cache_all P c → I s →
  let '(out, (c', s')) := fetch_floor_data f url (c, s) in
  cache_all P c' ∧ I s' ∧ (∀ data, out = Ok data → P url data) ∧
  match (cache_get url c).1 with
  | Some data => out = Ok data ∧ s' = s
  | None => (out, s') = fetch_floor_data (cff_inner f) url s ∧
            (is_Ok out = false → c' = (cache_get url c).2)
  end.
Proof.
  intros Hc Hs. unfold fetch_floor_data at 1, cached_floor_fetcher, cached_fetch_floor_data.
  pose proof (cache_all_get P url c) as Hget. pose proof (cache_all_keep P url c Hc) as Hkeep.
  destruct (cache_get url c) as [[data|] c1]; simpl in *.
  - split_and!; [done|done|intros d [= <-]; by apply Hget|done..].
  - destruct (Hinner url s Hs) as [HI HP].
    destruct (fetch_floor_data (cff_inner f) url s) as [[data|e|] s1]; simpl in *;
      split_and!; try done; auto with pbs.
Qed.
(** Caching keeps a fetcher's promise, whatever the cache forgets.  If all
    the fetcher answers is as [P] says, so is all the cached fetcher answers and
    all its cache holds.  A hit is answered without a fetch; a miss is exactly the
    inner fetcher's answer; a failure stores nothing. *)
Theorem cached_fetch_spec url c s :
  cache_all P c → I s →
  let '(out, (c', s')) := cached_fetch_floor_data f url (c, s) in
  cache_all P c' ∧ I s' ∧ (∀ data, out = Ok data → P url data) ∧
  match (cache_get url c).1 with
  | Some data => out = Ok data ∧ s' = s
  | None => (out, s') = fetch_floor_data (cff_inner f) url s ∧
            (is_Ok out = false → c' = (cache_get url c).2)
  end.
Proof. apply cached_fetch_ok. Qed.
#[export] Instance cached_fetcher_contract :
  FetcherContract cached_floor_fetcher f (λ cs, cache_all P cs.1 ∧ I cs.2) P.
Proof.
  intros url [c s] [Hc Hs]. simpl in *. pose proof (cached_fetch_ok url c s Hc Hs) as H.
  destruct (fetch_floor_data f url (c, s)) as [out [c' s']]. simpl. by destruct H as (?&?&?&_).
Qed.
End CachedSpec.

(** A limit of zero drops every rule in [parse_floor_response], and none over HTTP. *)
Lemma zero_limit_disagrees iter_map values data :
  trim_values iter_map 0 values = ∅ ∧ trim_floor_rules iter_map 0 data = data.
Proof.
  split; [|done]. unfold trim_values. destruct (0 <? Z.of_nat (size values)) eqn:Hs; [done|].
  bools. apply map_size_empty_iff. lia.
Qed.

(** A model group without values ends the lookup: the data's own rules, which
    have the floor, are not consulted. *)
Lemma incomplete_group_hides_rules :
  let schema := {| fs_fields := ["mediaType"]; fs_delimiter := None |} in
  let data groups := {|
    fd_currency := None; fd_schema := None; fd_values := Some {[ "*" := f64_of_Z 2 ]};
    fd_modelgroups := Some groups |} in
  let group s := {| fmg_schema := s; fmg_values := None; fmg_model_weight := 0;
                    fmg_skip_rate := 0 |} in
  lookup_schema_floor default_imp default_req (data [group (Some schema)]) = Some (f64_of_Z 2) ∧
  lookup_schema_floor default_imp default_req (data [group None; group (Some schema)]) = None.
Proof. done. Qed.

Example sample_floors_of : get_floor_for_imp (floor_imp "a" (Some default_ban)) floor_req
  sample_rule_floors = Some (f64_of_Z 2).
Proof. reflexivity. Qed.

(** *** Witnesses *)

Lemma floor_for_imp_spec_witness :
  get_floor_for_imp (floor_imp "b" None) floor_req sample_rule_floors = Some (f64_of_Z 1).
Proof.
  destruct (floor_for_imp_spec (floor_imp "b" None) floor_req sample_rule_floors) as [_ H].
  destruct (H eq_refl) as (_&Hno&_). destruct Hno as [Hrule _]; [intros f [? _]; done|].
  rewrite (Hrule (f64_of_dec 5 1)); [reflexivity|]. apply rule_says_iff. reflexivity.
Defined.

Lemma floors_enforced_agree_witness :
  let applied := apply_floors_to_request sample_rule_floors floor_req in
  apply_floors_to_request sample_rule_floors applied = applied ∧
  imp_bidfloor <$> req_imp applied = [Some (f64_of_Z 2); Some (f64_of_Z 1)].
Proof.
  intros applied.
  destruct (floors_enforced_agree floor_req sample_rule_floors) as [H _]; [reflexivity|].
  split; [exact H|reflexivity].
Defined.

Lemma cached_fetch_spec_witness :
  let fetcher := http_floor_fetcher (λ A, map_to_list) (λ _ s, (inr (500, inl "none"), S s))
    (λ _, inl "unused") in
  let f := {| cff_inner := {| hff_max_body_bytes := 0; hff_max_rules := 1000 |} |} in
  (cached_fetch_floor_data (FloorDataFetcher0 := fetcher) f "u" ((∅ : gmap string FloorData), 0%nat)).2.2 = 1%nat.
Proof.
  intros fetcher f.
  assert (Hin : FetcherContract fetcher (cff_inner f) (λ _, True) (λ _, rules_bounded 1000)).
  { by apply http_fetcher_contract. }
  pose proof (cached_fetch_spec (FloorDataFetcher0 := fetcher) f (λ _, True)
    (λ _, rules_bounded 1000) "u" (∅ : gmap string FloorData) 0%nat) as Hc.
  destruct Hc as (_&_&_&Hm&_); [intros k v Hk; done|done|].
  apply (f_equal snd) in Hm. exact Hm.
Defined.
