(* ===== verification/FloorsCrate.v ===== *)
(** * The floors crate

    floors/src: the data model of price floors, rule keys and their
    normalisation, validation, enforcement against seat bids and the fetcher
    with its cache.  The exchange has its own version ([Floors]); names the two
    share are prefixed with [Crate] here.  Lower-casing, HTTP, JSON and the clock
    (milliseconds) are parameters.  A [BTreeMap] is its sorted list of entries. *)

From S2P Require Import Prelude Json Cache.

(** ** Types *)

Definition DEFAULT_DELIMITER : string := "|".
Definition CATCH_ALL : string := "*".
Definition RATE_MIN : Z := 0.
Definition RATE_MAX : Z := 100.
Definition MODEL_WEIGHT_MIN : Z := 1.
Definition MODEL_WEIGHT_MAX : Z := 100.
Definition FLOOR_PRECISION : f64 := f64_of_dec 1 2.

Record PriceFloorEndpoint : Type := { pfe_url : string }.
Record PriceFloorSchema : Type := { pfs_fields : list string; pfs_delimiter : string }.
Record PriceFloorModelGroup : Type := {
  pmg_currency : string; pmg_model_weight : option Z; pmg_model_version : string;
  pmg_skip_rate : Z; pmg_schema : PriceFloorSchema; pmg_values : list (string * f64);
  pmg_default : f64;
}.
Record PriceFloorData : Type := {
  pfd_currency : string; pfd_skip_rate : Z; pfd_floors_schema_version : Z;
  pfd_model_timestamp : Z; pfd_model_groups : list PriceFloorModelGroup;
  pfd_floor_provider : string; pfd_use_fetch_data_rate : option Z;
}.
Record PriceFloorEnforcement : Type := {
  enf_enforce_js : option bool; enf_enforce_pbs : option bool; enf_floor_deals : option bool;
  enf_bid_adjustment : option bool; enf_enforce_rate : Z;
}.
Record PriceFloorRules : Type := {
  pfr_floor_min : f64; pfr_floor_min_cur : string; pfr_skip_rate : Z;
  pfr_location : option PriceFloorEndpoint; pfr_data : option PriceFloorData;
  pfr_enforcement : option PriceFloorEnforcement; pfr_enabled : option bool;
  pfr_skipped : option bool; pfr_floor_provider : string; pfr_fetch_status : string;
  pfr_price_floor_location : string;
}.
Record CratePriceFloors : Type := { cpf_enabled : bool; cpf_rules : option PriceFloorRules }.

Definition get_enabled (rules : PriceFloorRules) : bool := default true (pfr_enabled rules).
Definition get_enforce_pbs (rules : PriceFloorRules) : bool :=
  default true (pfr_enforcement rules ≫= enf_enforce_pbs).
Definition get_enforce_rate (rules : PriceFloorRules) : Z :=
  default 0 (enf_enforce_rate <$> pfr_enforcement rules).
Definition get_enforce_deals_flag (rules : PriceFloorRules) : bool :=
  default false (pfr_enforcement rules ≫= enf_floor_deals).

Inductive SchemaDimension : Type :=
| SiteDomain | PubDomain | Domain | Bundle | Channel | MediaType | SizeDim | GptSlot | AdUnitCode
| Country | DeviceType.
#[export] Instance SchemaDimension_eq_dec : EqDecision SchemaDimension.
Proof. solve_decision. Defined.
Definition all_dimensions : list SchemaDimension :=
  [SiteDomain; PubDomain; Domain; Bundle; Channel; MediaType; SizeDim; GptSlot; AdUnitCode; Country;
   DeviceType].
Definition dimension_as_str (d : SchemaDimension) : string :=
  match d with
  | SiteDomain => "siteDomain" | PubDomain => "pubDomain" | Domain => "domain"
  | Bundle => "bundle" | Channel => "channel" | MediaType => "mediaType" | SizeDim => "size"
  | GptSlot => "gptSlot" | AdUnitCode => "adUnitCode" | Country => "country"
  | DeviceType => "deviceType"
  end.
(** The same table, read the other way. *)
Definition dimension_parse (s : string) : option SchemaDimension :=
  List.find (λ d, bool_decide (dimension_as_str d = s)) all_dimensions.

(** ** Rule keys *)

Record RuleContext : Type := {
  rc_site_domain : option string; rc_pub_domain : option string; rc_domain : option string;
  rc_bundle : option string; rc_channel : option string; rc_media_type : option string;
  rc_size : option string; rc_gpt_slot : option string; rc_ad_unit_code : option string;
  rc_country : option string; rc_device_type : option string;
}.

Definition round_to_four_decimals (v : f64) : f64 :=
  f64_div (f64_round (f64_mul v (f64_of_Z 10000))) (f64_of_Z 10000).

Definition dimension_value (ctx : RuleContext) (d : SchemaDimension) : option string :=
  match d with
  | SiteDomain => rc_site_domain ctx | PubDomain => rc_pub_domain ctx | Domain => rc_domain ctx
  | Bundle => rc_bundle ctx | Channel => rc_channel ctx | MediaType => rc_media_type ctx
  | SizeDim => rc_size ctx | GptSlot => rc_gpt_slot ctx | AdUnitCode => rc_ad_unit_code ctx
  | Country => rc_country ctx | DeviceType => rc_device_type ctx
  end.
Definition lookup_dimension (field : string) (ctx : RuleContext) : option string :=
  d ← dimension_parse field; dimension_value ctx d.
Definition create_rule_key (schema : PriceFloorSchema) (ctx : RuleContext) : string :=
  let delim := if str_is_empty (pfs_delimiter schema) then DEFAULT_DELIMITER
               else pfs_delimiter schema in
  join delim ((λ field, default CATCH_ALL (lookup_dimension field ctx)) <$> pfs_fields schema).

(** [s.split(pat)]: never empty; the matches do not overlap. *)
Fixpoint split_go (pat : string) (skip : nat) (s : string) : list string :=
  match s with
  | "" => [""]
  | String a s' =>
      match skip with
      | S skip' => split_go pat skip' s'
      | O =>
          if String.prefix pat s then "" :: split_go pat (pred (String.length pat)) s'
          else match split_go pat 0 s' with
               | [] => [String a ""]
               | p :: ps => String a p :: ps
               end
      end
  end.
(** An empty pattern matches around every character. *)
Definition str_split (pat s : string) : list string :=
  if str_is_empty pat then "" :: str_chars s ++ [""] else split_go pat 0 s.

(** ** Validation *)

Inductive FloorsError : Type :=
| InvalidSchemaDimension (field : string)
| InvalidFloorRule (key : string) (fields : list string)
| InvalidSchemaVersion (version : Z)
| InvalidSkipRate (rate : Z)
| InvalidFloorMin (min : f64)
| NoModelGroups
| TooManySchemaFields (model : string) (fields limit : Z)
| TooManyRules (model : string) (rules limit : Z)
| InvalidModelWeight (model : string) (weight : Z)
| InvalidDefault (model : string) (dflt : f64).

Definition validate_schema_dimensions (fields : list string) : outcome FloorsError unit :=
  foldM (λ _ field,
    match dimension_parse field with
    | Some _ => Ok tt
    | None => Err (InvalidSchemaDimension field)
    end) tt fields.

Section Rules.
(** [str::to_lowercase] *)
Context (to_lowercase : string → string).

Definition lower_key_step (schema : PriceFloorSchema) (delimiter : string)
    (st : list FloorsError * list (string * f64)) (key : string)
    : list FloorsError * list (string * f64) :=
  let '(errs, rule_values) := st in
  if negb (zlen (str_split delimiter key) =? zlen (pfs_fields schema))
  then (errs ++ [InvalidFloorRule key (pfs_fields schema)], obj_remove key rule_values)
  else
    let lower := to_lowercase key in
    if bool_decide (lower = key) then (errs, rule_values)
    else
      match obj_get key rule_values with
      | Some v => (errs, obj_insert lower v (obj_remove key rule_values))
      | None => (errs, rule_values)
      end.
Definition validate_floor_rules_and_lower_key (schema : PriceFloorSchema) (delimiter : string)
    (rule_values : list (string * f64)) : list FloorsError * list (string * f64) :=
  fold_left (lower_key_step schema delimiter) rule_values.*1 ([], rule_values).

(** The stored key, and whether there is one. *)
Definition find_rule (values : list (string * f64)) (_delimiter desired_key : string)
    : option string * bool :=
  let key := to_lowercase desired_key in
  match obj_get key values with
  | Some _ => (List.find (λ k, bool_decide (k = key)) values.*1, true)
  | None => (None, false)
  end.
End Rules.

Definition out_of_range (rate : Z) : bool := (rate <? RATE_MIN) || (RATE_MAX <? rate).
Definition validate_floor_params (extr : PriceFloorRules) : outcome FloorsError unit :=
  _ ← match pfr_data extr with
      | Some data =>
          if negb (pfd_floors_schema_version data =? 0) && negb (pfd_floors_schema_version data =? 2)
          then Err (InvalidSchemaVersion (pfd_floors_schema_version data))
          else if out_of_range (pfd_skip_rate data) then Err (InvalidSkipRate (pfd_skip_rate data))
          else Ok tt
      | None => Ok tt
      end;
  if out_of_range (pfr_skip_rate extr) then Err (InvalidSkipRate (pfr_skip_rate extr))
  else if f64_ltb (pfr_floor_min extr) f64_zero then Err (InvalidFloorMin (pfr_floor_min extr))
  else Ok tt.

Record AccountFloorLimits : Type := { afl_max_schema_dims : Z; afl_max_rules : Z }.
(** The first reason a group is dropped for. *)
Definition check_model_group (limits : AccountFloorLimits) (mg : PriceFloorModelGroup)
    : outcome FloorsError unit :=
  let model := pmg_model_version mg in
  let fields := zlen (pfs_fields (pmg_schema mg)) in
  let rules := zlen (pmg_values mg) in
  _ ← validate_schema_dimensions (pfs_fields (pmg_schema mg));
  if (0 <? afl_max_schema_dims limits) && (afl_max_schema_dims limits <? fields)
  then Err (TooManySchemaFields model fields (afl_max_schema_dims limits))
  else if (0 <? afl_max_rules limits) && (afl_max_rules limits <? rules)
  then Err (TooManyRules model rules (afl_max_rules limits))
  else if out_of_range (pmg_skip_rate mg) then Err (InvalidSkipRate (pmg_skip_rate mg))
  else
    match pmg_model_weight mg with
    | Some weight =>
        if negb ((MODEL_WEIGHT_MIN <=? weight) && (weight <=? MODEL_WEIGHT_MAX))
        then Err (InvalidModelWeight model weight)
        else if f64_ltb (pmg_default mg) f64_zero then Err (InvalidDefault model (pmg_default mg))
        else Ok tt
    | None =>
        if f64_ltb (pmg_default mg) f64_zero then Err (InvalidDefault model (pmg_default mg))
        else Ok tt
    end.
Definition select_step (limits : AccountFloorLimits)
    (st : list PriceFloorModelGroup * list FloorsError) (mg : PriceFloorModelGroup)
    : list PriceFloorModelGroup * list FloorsError :=
  match check_model_group limits mg with
  | Err e => (st.1, st.2 ++ [e])
  | _ => (st.1 ++ [mg], st.2)
  end.
Definition select_valid_model_groups (groups : list PriceFloorModelGroup)
    (limits : AccountFloorLimits) : list PriceFloorModelGroup * list FloorsError :=
  match groups with
  | [] => ([], [NoModelGroups])
  | _ => fold_left (select_step limits) groups ([], [])
  end.
Definition validate (rules : PriceFloorRules) : outcome FloorsError unit :=
  _ ← validate_floor_params rules;
  match pfr_data rules with
  | Some data =>
      foldM (λ _ mg, validate_schema_dimensions (pfs_fields (pmg_schema mg))) tt
        (pfd_model_groups data)
  | None => Ok tt
  end.

(** ** Enforcement *)

Record CrateBid : Type := {
  cb_id : string; cb_imp_id : string; cb_price : f64; cb_deal_id : option string;
}.
Record CrateSeatBid : Type := { csb_seat : string; csb_currency : string; csb_bids : list CrateBid }.
Record RejectedBid : Type := { rb_seat : string; rb_currency : string; rb_bid : CrateBid }.
Record ImpFloor : Type := { if_id : string; if_bid_floor : f64; if_bid_floor_cur : string }.
Record EnforceOutcome : Type := {
  eo_seatbids : list CrateSeatBid; eo_rejected : list RejectedBid; eo_errors : list string;
}.

Section Enforce.
(** The conversion rate between two currencies. *)
Context (convert : string → string → option f64).

(** What happens to a bid. *)
Inductive BidVerdict : Type := Keep | KeepWithError (e : string) | Reject.
Definition crate_is_deal (bid : CrateBid) : bool :=
  match cb_deal_id bid with Some d => negb (str_is_empty d) | None => false end.
Definition bid_verdict (imp_map : gmap string ImpFloor) (enforce_deal_floors : bool)
    (seat : CrateSeatBid) (bid : CrateBid) : BidVerdict :=
  match imp_map !! cb_imp_id bid with
  | None => Keep
  | Some imp =>
      if crate_is_deal bid && negb enforce_deal_floors then Keep
      else
        let rate :=
          if bool_decide (csb_currency seat = if_bid_floor_cur imp) ||
             str_is_empty (if_bid_floor_cur imp)
          then Some (f64_of_Z 1) else convert (csb_currency seat) (if_bid_floor_cur imp) in
        match rate with
        | None => KeepWithError ("rate conversion failed for seat=" +:+ csb_seat seat +:+ " from=" +:+
                                 csb_currency seat +:+ " to=" +:+ if_bid_floor_cur imp)
        | Some rate =>
            let effective_price := f64_mul rate (cb_price bid) in
            if f64_ltb (f64_add effective_price FLOOR_PRECISION) (if_bid_floor imp)
            then Reject else Keep
        end
  end.
(** Eligible bids, rejected bids and errors. *)
Definition crate_bid_step (imp_map : gmap string ImpFloor) (enforce_deal_floors : bool)
    (seat : CrateSeatBid) (st : list CrateBid * list RejectedBid * list string) (bid : CrateBid)
    : list CrateBid * list RejectedBid * list string :=
  let '(eligible, rejected, errors) := st in
  match bid_verdict imp_map enforce_deal_floors seat bid with
  | Keep => (eligible ++ [bid], rejected, errors)
  | KeepWithError e => (eligible ++ [bid], rejected, errors ++ [e])
  | Reject => (eligible, rejected ++ [{| rb_seat := csb_seat seat;
                 rb_currency := csb_currency seat; rb_bid := bid |}], errors)
  end.
Definition seat_step (imp_map : gmap string ImpFloor) (enforce_deal_floors : bool)
    (outcome : EnforceOutcome) (seat : CrateSeatBid) : EnforceOutcome :=
  let '(eligible, rejected, errors) :=
    fold_left (crate_bid_step imp_map enforce_deal_floors seat) (csb_bids seat)
      ([], eo_rejected outcome, eo_errors outcome) in
  {| eo_seatbids := eo_seatbids outcome ++ [{| csb_seat := csb_seat seat;
       csb_currency := csb_currency seat; csb_bids := eligible |}];
     eo_rejected := rejected; eo_errors := errors |}.
Definition imp_floor_map (imps : list ImpFloor) : gmap string ImpFloor :=
  fold_left (λ m i, <[ if_id i := i ]> m) imps ∅.
Definition enforce_floors_rules (rules : PriceFloorRules) (imps : list ImpFloor)
    (seatbids : list CrateSeatBid) (enforce_deal_floors : bool) : EnforceOutcome :=
  if negb (get_enforce_pbs rules)
  then {| eo_seatbids := seatbids; eo_rejected := []; eo_errors := [] |}
  else fold_left (seat_step (imp_floor_map imps) enforce_deal_floors) seatbids
         {| eo_seatbids := []; eo_rejected := []; eo_errors := [] |}.
End Enforce.

(** ** Fetching *)

Inductive FetchStatus : Type := FsSuccess | FsTimeout | FsError | FsInProgress | FsNone.
Definition fetch_status_as_str (s : FetchStatus) : string :=
  match s with
  | FsSuccess => "success" | FsTimeout => "timeout" | FsError => "error"
  | FsInProgress => "inprogress" | FsNone => "none"
  end.
Record FloorFetcherConfig : Type := {
  fcfg_enabled : bool; fcfg_url : string; fcfg_account_id : string; fcfg_timeout_ms : Z;
  fcfg_max_file_size_kb : Z; fcfg_max_age_sec : Z; fcfg_period_sec : Z; fcfg_max_schema_dims : Z;
}.
Record FetchResult : Type := { fr_rules : option PriceFloorRules; fr_status : option FetchStatus }.
Inductive CrateFetchError : Type :=
| CfHttp (e : string) | CfBadStatus (code : Z) | CfParse (e : string) | CfTimeout.
Definition fetch_error_status (e : CrateFetchError) : FetchStatus :=
  match e with CfTimeout => FsTimeout | _ => FsError end.
Record FetchedFloors : Type := {
  fet_endpoint : string; fet_fetched_at : Z; fet_rules : PriceFloorRules;
}.
(** Durations in milliseconds. *)
Record CrateFloorFetcher : Type := { cf_refresh_period : Z; cf_max_age : Z }.
Definition floor_fetcher_new (config : FloorFetcherConfig) : CrateFloorFetcher := {|
  cf_refresh_period := 1000 * (if fcfg_period_sec config =? 0 then 300 else fcfg_period_sec config);
  cf_max_age := 1000 * (if fcfg_max_age_sec config =? 0 then 600 else fcfg_max_age_sec config) |}.
(** An entry from the future counts as fresh. *)
Definition is_stale (f : CrateFloorFetcher) (now : Z) (entry : FetchedFloors) : bool :=
  let age := now - fet_fetched_at entry in (0 <=? age) && (cf_max_age f <? age).

Section Fetcher.
Context {C S : Type} `{!Cache C FetchedFloors}.
(** HTTP: an error (and whether it is a timeout), or a status and the body. *)
Context (http_get : string → S → (bool * string + Z * (string + list Z)) * S).
Context (rules_from_slice : list Z → string + PriceFloorRules) (now : S → Z).

Definition fetch_uncached (endpoint : string) : M S CrateFetchError FetchedFloors := λ s,
  match http_get endpoint s with
  | (inl (true, _), s) => (Err CfTimeout, s)
  | (inl (false, e), s) => (Err (CfHttp e), s)
  | (inr (status, body), s) =>
      if negb ((200 <=? status) && (status <? 300)) then (Err (CfBadStatus status), s)
      else
        match body with
        | inl e => (Err (CfHttp e), s)
        | inr bytes =>
            match rules_from_slice bytes with
            | inl e => (Err (CfParse e), s)
            | inr rules => (Ok {| fet_endpoint := endpoint; fet_fetched_at := now s;
                                  fet_rules := rules |}, s)
            end
        end
  end.
Definition fetcher_refresh (endpoint : string) : M (C * S) CrateFetchError FetchedFloors :=
  λ '(c, s),
  match fetch_uncached endpoint s with
  | (Ok fetched, s) => (Ok fetched, (cache_insert endpoint fetched c, s))
  | (out, s) => (out, (c, s))
  end.
Definition fetcher_fetch (f : CrateFloorFetcher) (endpoint : string)
    : M (C * S) CrateFetchError FetchedFloors := λ '(c, s),
  match cache_get endpoint c with
  | (Some existing, c) =>
      if is_stale f (now s) existing then fetcher_refresh endpoint (c, s) else (Ok existing, (c, s))
  | (None, c) => fetcher_refresh endpoint (c, s)
  end.
(** Over the endpoints the cache lists; failures are logged. *)
Definition refresh_all (endpoints : list string) (cs : C * S) : C * S :=
  fold_left (λ cs ep, (fetcher_refresh ep cs).2) endpoints cs.

Definition fetch_price_floor_rules_with (f : CrateFloorFetcher) (endpoint : string) (cs : C * S)
    : FetchResult * (C * S) :=
  match fetcher_fetch f endpoint cs with
  | (Ok fetched, cs) => ({| fr_rules := Some (fet_rules fetched); fr_status := Some FsSuccess |}, cs)
  | (Err e, cs) => ({| fr_rules := None; fr_status := Some (fetch_error_status e) |}, cs)
  | (Panic, cs) => ({| fr_rules := None; fr_status := None |}, cs)
  end.
Definition fetch_price_floor_rules (cfg : FloorFetcherConfig) (empty : C) (s : S)
    : FetchResult * S :=
  if negb (fcfg_enabled cfg) || str_is_empty (fcfg_url cfg)
  then ({| fr_rules := None; fr_status := Some FsNone |}, s)
  else
    let '(r, (_, s)) := fetch_price_floor_rules_with (floor_fetcher_new cfg) (fcfg_url cfg) (empty, s) in
    (r, s).
End Fetcher.

(** ** Specification *)

(** A rule key with as many parts as the schema has fields. *)
Definition key_fits (schema : PriceFloorSchema) (delimiter key : string) : bool :=
  zlen (str_split delimiter key) =? zlen (pfs_fields schema).
(** The price of a bid in the currency of its impression's floor. *)
Definition floor_price (convert : string → string → option f64) (seat : CrateSeatBid)
    (imp : ImpFloor) (bid : CrateBid) : option f64 :=
  if decide (csb_currency seat = if_bid_floor_cur imp ∨ if_bid_floor_cur imp = "")
  then Some (f64_mul (f64_of_Z 1) (cb_price bid))
  else (λ rate, f64_mul rate (cb_price bid)) <$> convert (csb_currency seat) (if_bid_floor_cur imp).
(** A bid is below its floor by more than a cent. *)
Definition too_cheap (convert : string → string → option f64) (imps : list ImpFloor)
    (enforce_deals : bool) (seat : CrateSeatBid) (bid : CrateBid) : Prop :=
  (crate_is_deal bid = true → enforce_deals = true) ∧
  ∃ imp price, last (List.filter (λ i, bool_decide (if_id i = cb_imp_id bid)) imps) = Some imp ∧
    floor_price convert seat imp bid = Some price ∧
    f64_ltb (f64_add price FLOOR_PRECISION) (if_bid_floor imp) = true.
Definition rejects (convert : string → string → option f64) (imps : list ImpFloor)
    (enforce_deals : bool) (seat : CrateSeatBid) (bid : CrateBid) : bool :=
  match bid_verdict convert (imp_floor_map imps) enforce_deals seat bid with
  | Reject => true
  | _ => false
  end.

Definition crate_bid (id : string) (cents : Z) : CrateBid := {|
  cb_id := id; cb_imp_id := "imp1"; cb_price := f64_of_dec cents 2; cb_deal_id := None |}.
Definition sample_crate_rules : PriceFloorRules := {|
  pfr_floor_min := f64_zero; pfr_floor_min_cur := ""; pfr_skip_rate := 0; pfr_location := None;
  pfr_data := None; pfr_enforcement := None; pfr_enabled := None; pfr_skipped := None;
  pfr_floor_provider := ""; pfr_fetch_status := ""; pfr_price_floor_location := "" |}.
Definition sample_values : list (string * f64) :=
  [("Banner|US", f64_of_dec 11 1); ("video", f64_of_dec 9 1); ("video|us", f64_of_Z 2)].

(** ** Proofs *)

Lemma dimension_roundtrip d : dimension_parse (dimension_as_str d) = Some d.
Proof. by destruct d. Qed.
Lemma dimension_parse_as_str s d : dimension_parse s = Some d → dimension_as_str d = s.
Proof. unfold dimension_parse. intros [_ H]%List.find_some. by bools. Qed.


Lemma find_key (k : string) l : k ∈ l → List.find (λ k', bool_decide (k' = k)) l = Some k.
Proof.
  induction l as [|k' l IH]; simpl; [by intros ?%elem_of_nil|].
  case_bool_decide; [by subst|]. intros [->|Hk]%elem_of_cons; [done|auto].
Qed.

Section RulesSpec.
Context (to_lowercase : string → string).
Context (Hlower : ∀ s, to_lowercase (to_lowercase s) = to_lowercase s).
Context (schema : PriceFloorSchema) (delimiter : string) (values : list (string * f64)).
Context (Hsorted : obj_sorted values).
(** No two rules differ in case only. *)
Context (Hdistinct : ∀ k1 k2, k1 ∈ values.*1 → k2 ∈ values.*1 →
  to_lowercase k1 = to_lowercase k2 → k1 = k2).

(** After the keys [done], with [rest] to go. *)
Definition lower_inv (done rest : list string) (st : list FloorsError * list (string * f64)) : Prop :=
  st.1 = (λ k, InvalidFloorRule k (pfs_fields schema)) <$>
           List.filter (λ k, negb (key_fits schema delimiter k)) done ∧
  obj_sorted st.2 ∧
  ∀ x v, obj_get x st.2 = Some v ↔
    (∃ k, k ∈ done ∧ key_fits schema delimiter k = true ∧ obj_get k values = Some v ∧
          x = to_lowercase k) ∨
    (x ∈ rest ∧ obj_get x values = Some v).

Lemma lower_key_inv done key rest st :
  values.*1 = done ++ key :: rest → lower_inv done (key :: rest) st →
  lower_inv (done ++ [key]) rest (lower_key_step to_lowercase schema delimiter st key).
Proof.
  intros Hkeys (Herr&Hs&Hget). destruct st as [errs m]. simpl in *.
  pose proof (obj_sorted_NoDup _ Hsorted) as Hnd. rewrite Hkeys in Hnd, Hdistinct.
  apply NoDup_app in Hnd as (_&Hdisj&[Hni Hndr]%NoDup_cons).
  assert (Hnd : ∀ k, k ∈ done → to_lowercase k ≠ to_lowercase key).
  { intros k Hk He. apply (Hdisj k Hk). rewrite (Hdistinct k key); [by left| | |done].
    - rewrite elem_of_app. by left.
    - rewrite elem_of_app. right. by left. }
  assert (Hkey : obj_get key m = obj_get key values).
  { apply option_eq. intros v. rewrite Hget. split; [|intros; right; split; [by left|done]].
    intros [(k&Hk&_&_&He)|[_ ?]]; [|done]. destruct (Hnd k Hk). by rewrite He, Hlower. }
  assert (Hrest : ∀ x, x ∈ rest → to_lowercase x ≠ to_lowercase key).
  { intros x Hx He. apply Hni. rewrite <-(Hdistinct x key); [done| | |done].
    - rewrite elem_of_app. right. by right.
    - rewrite elem_of_app. right. by left. }
  unfold lower_key_step. fold (key_fits schema delimiter key).
  unfold lower_inv. rewrite List.filter_app, fmap_app. simpl.
  destruct (key_fits schema delimiter key) eqn:Hfit; simpl.
  2: { split; [by rewrite Herr|]. split; [by apply obj_sorted_remove|].
       intros x v. rewrite obj_get_remove by done. setoid_rewrite elem_of_app.
       setoid_rewrite list_elem_of_singleton. case_bool_decide as Hx.
       - subst x. split; [done|]. intros [(k&[Hk| ->]&Hf&_&He)|[Hin _]]; [|congruence|done].
         destruct (Hnd k Hk). by rewrite He, Hlower.
       - rewrite Hget, elem_of_cons. split.
         + intros [(k&Hk&?&?&?)|[[?|?] ?]]; [left; eauto 6|congruence|by right].
         + intros [(k&[Hk| ->]&Hf&?&?)|[? ?]]; [left; eauto|congruence|by right; auto]. }
  rewrite app_nil_r.
  destruct (bool_decide (to_lowercase key = key)) eqn:Hl; bools; simpl.
  - split_and!; [done|done|]. intros x v. rewrite Hget. setoid_rewrite elem_of_app.
    setoid_rewrite list_elem_of_singleton. rewrite elem_of_cons. split.
    + intros [(k&Hk&Hf&Hv&->)|[[->|Hx] Hv]]; [left; eauto 6| |right; done].
      left. exists key. eauto 6.
    + intros [(k&[Hk| ->]&Hf&Hv&->)|[Hx Hv]]; [left; eauto 6| |right; eauto].
      right. rewrite Hl. eauto.
  - rewrite Hkey. destruct (obj_get key values) as [w|] eqn:Hw.
    2: { exfalso. destruct (obj_get_elem key values) as [? ?]; [|congruence].
         rewrite Hkeys, elem_of_app. right. by left. }
    simpl. split; [done|].
    assert (Hs' : obj_sorted (obj_remove key m)) by by apply obj_sorted_remove.
    split; [by apply obj_sorted_insert|]. intros x v.
    rewrite obj_get_insert, obj_get_remove by done. setoid_rewrite elem_of_app.
    setoid_rewrite list_elem_of_singleton. repeat case_bool_decide; subst.
    + split.
      * intros [= <-]. left. exists key. eauto.
      * intros [(k&[Hk| ->]&_&Hv&He)|[Hx _]]; [by destruct (Hnd k Hk)|congruence|].
        destruct (Hrest _ Hx). by rewrite Hlower.
    + split; [done|]. intros [(k&[Hk| ->]&_&_&He)|[Hin _]]; [|done|done].
      destruct (Hnd k Hk). by rewrite He, Hlower.
    + rewrite Hget, elem_of_cons. split.
      * intros [(k&Hk&?&?&?)|[[?|?] ?]]; [left; eauto 6|congruence|by right].
      * intros [(k&[Hk| ->]&Hf&?&?)|[? ?]]; [left; eauto|congruence|by right; auto].
Qed.

Lemma lower_keys_inv : lower_inv values.*1 []
  (validate_floor_rules_and_lower_key to_lowercase schema delimiter values).
Proof.
  unfold validate_floor_rules_and_lower_key.
  assert (H : ∀ rest done st, values.*1 = done ++ rest → lower_inv done rest st →
    lower_inv values.*1 [] (fold_left (lower_key_step to_lowercase schema delimiter) rest st)).
  { induction rest as [|key rest IH]; intros done st Hk Hinv; simpl.
    - rewrite app_nil_r in Hk. by rewrite Hk.
    - apply (IH (done ++ [key])); [by rewrite <-app_assoc|]. by apply lower_key_inv. }
  apply (H _ []); [done|]. split; [done|]. split; [done|]. intros x v. simpl. split.
  - intros Hv. right. split; [|done]. apply obj_get_elem_of in Hv.
    by apply (list_elem_of_fmap_2 fst) in Hv.
  - intros [(k&?%elem_of_nil&_)|[_ ?]]; done.
Qed.

(** Normalised rules are found whatever the case.  When no two rule keys
    differ in case only, normalisation reports exactly the keys with the wrong
    number of parts, in order, and drops them; and a rule is then found for a key
    exactly when one of the remaining original keys equals it up to case, with
    that rule's value under the lower-case key. *)
Theorem floor_rules_found :
  let '(errs, m) := validate_floor_rules_and_lower_key to_lowercase schema delimiter values in
  errs = (λ k, InvalidFloorRule k (pfs_fields schema)) <$>
           List.filter (λ k, negb (key_fits schema delimiter k)) values.*1 ∧
  ∀ desired,
    ((find_rule to_lowercase m delimiter desired).2 = true ↔
       ∃ k, k ∈ values.*1 ∧ key_fits schema delimiter k = true ∧
            to_lowercase k = to_lowercase desired) ∧
    ∀ k v, obj_get k values = Some v → key_fits schema delimiter k = true →
      to_lowercase k = to_lowercase desired →
      find_rule to_lowercase m delimiter desired = (Some (to_lowercase desired), true) ∧
      obj_get (to_lowercase desired) m = Some v.
Proof.
  pose proof lower_keys_inv as Hinv.
  destruct (validate_floor_rules_and_lower_key _ _ _ _) as [errs m].
  destruct Hinv as (Herr&Hs&Hget). simpl in *. split; [done|]. intros desired.
  assert (Hfound : ∀ v, obj_get (to_lowercase desired) m = Some v →
    find_rule to_lowercase m delimiter desired = (Some (to_lowercase desired), true)).
  { intros v Hv. unfold find_rule. rewrite Hv. f_equal. apply find_key.
    apply obj_get_elem_of in Hv. by apply (list_elem_of_fmap_2 fst) in Hv. }
  split.
  - split.
    + unfold find_rule. destruct (obj_get (to_lowercase desired) m) as [v|] eqn:Hv; [|done].
      intros _. apply Hget in Hv as [(k&Hk&Hf&_&He)|[Hin%elem_of_nil _]]; [|done]. eauto.
    + intros (k&Hk&Hf&He). destruct (obj_get_elem _ _ Hk) as [v Hv].
      rewrite (Hfound v); [done|]. apply Hget. left. eauto 6.
  - intros k v Hv Hf He. assert (Hm : obj_get (to_lowercase desired) m = Some v); [|by split; [eapply Hfound|]].
    apply Hget. left. exists k. split_and!; [|done..].
    apply obj_get_elem_of in Hv. by apply (list_elem_of_fmap_2 fst) in Hv.
Qed.
End RulesSpec.

Lemma imp_floor_map_lookup imps i :
  imp_floor_map imps !! i = last (List.filter (λ x, bool_decide (if_id x = i)) imps).
Proof.
  unfold imp_floor_map. induction imps as [|x imps IH] using rev_ind; [done|].
  rewrite fold_left_app, List.filter_app. simpl. case_bool_decide as Hx.
  - by rewrite Hx, lookup_insert_eq, last_snoc.
  - by rewrite lookup_insert_ne, IH, app_nil_r.
Qed.

Section EnforceSpec.
Context (convert : string → string → option f64) (imps : list ImpFloor) (deals : bool).

Lemma rejects_eq seat bid :
  rejects convert imps deals seat bid =
  match last (List.filter (λ i, bool_decide (if_id i = cb_imp_id bid)) imps) with
  | None => false
  | Some imp =>
      negb (crate_is_deal bid && negb deals) &&
      match floor_price convert seat imp bid with
      | Some price => f64_ltb (f64_add price FLOOR_PRECISION) (if_bid_floor imp)
      | None => false
      end
  end.
Proof.
  unfold rejects, bid_verdict, floor_price. rewrite imp_floor_map_lookup.
  destruct (last _) as [imp|]; [|done]. destruct (crate_is_deal bid && negb deals); [done|].
  cbn [negb andb]. unfold str_is_empty. rewrite <-bool_decide_or.
  assert (Hone : ∀ r, match
      match r with
      | Some rate => if f64_ltb (f64_add (f64_mul rate (cb_price bid)) FLOOR_PRECISION)
          (if_bid_floor imp) then Reject else Keep
      | None => KeepWithError ("rate conversion failed for seat=" +:+ csb_seat seat +:+
          " from=" +:+ csb_currency seat +:+ " to=" +:+ if_bid_floor_cur imp)
      end with Reject => true | _ => false end =
    match (λ rate, f64_mul rate (cb_price bid)) <$> r with
    | Some price => f64_ltb (f64_add price FLOOR_PRECISION) (if_bid_floor imp)
    | None => false
    end).
  { intros [r|]; cbn [fmap option_fmap option_map]; [by destruct (f64_ltb _ _)|done]. }
  pose proof (Hone (Some (f64_of_Z 1))) as H1. pose proof (Hone (convert (csb_currency seat)
    (if_bid_floor_cur imp))) as H2. clear Hone.
  case_bool_decide; [rewrite decide_True by done; exact H1|rewrite decide_False by done; exact H2].
Qed.
Lemma rejects_iff seat bid :
  rejects convert imps deals seat bid = true ↔ too_cheap convert imps deals seat bid.
Proof.
  rewrite rejects_eq. unfold too_cheap. destruct (last _) as [imp|]; [|by split; [|intros (_&?&?&?&_)]].
  rewrite andb_true_iff. assert (Hd : negb (crate_is_deal bid && negb deals) = true ↔
    (crate_is_deal bid = true → deals = true)) by by destruct (crate_is_deal bid), deals; simpl; intuition.
  rewrite Hd. destruct (floor_price convert seat imp bid) as [p|] eqn:Hp; simpl.
  - split; [intros [? ?]; split; eauto|]. intros (?&i&p'&?&?&?). split; [done|]. congruence.
  - split; [by intros [_ ?]|]. intros (_&i&p'&?&?&_). congruence.
Qed.

Lemma crate_bids_eq seat bids eligible rejected errors :
  (fold_left (crate_bid_step convert (imp_floor_map imps) deals seat) bids
    (eligible, rejected, errors)).1 =
  (eligible ++ List.filter (λ b, negb (rejects convert imps deals seat b)) bids,
   rejected ++ ((λ b, {| rb_seat := csb_seat seat; rb_currency := csb_currency seat; rb_bid := b |})
     <$> List.filter (rejects convert imps deals seat) bids)).
Proof.
  revert eligible rejected errors. induction bids as [|b bids IH]; intros eligible rejected errors.
  { simpl. by rewrite !app_nil_r. }
  simpl. unfold crate_bid_step at 1. 
  assert (Hr : rejects convert imps deals seat b = match bid_verdict convert (imp_floor_map imps)
    deals seat b with Reject => true | _ => false end) by done. rewrite Hr.
  destruct (bid_verdict _ _ _ seat b); cbn [negb]; rewrite IH; cbn [fmap list_fmap map]; by rewrite <-?app_assoc.
Qed.

(** Enforcement splits the bids and nothing else.  Switched off, it returns
    the seat bids as they are.  Switched on, every seat keeps its place and, in
    order, the bids that are not too cheap; the others are listed as rejected
    with their seat.  A bid is too cheap when, deals aside unless they are
    enforced, its price in the currency of the last impression with its id is
    more than a cent below that impression's floor; a missing rate keeps it. *)
Theorem enforce_floors_rules_spec rules seatbids :
  let out := enforce_floors_rules convert rules imps seatbids deals in
  (get_enforce_pbs rules = false → eo_seatbids out = seatbids ∧ eo_rejected out = []) ∧
  (get_enforce_pbs rules = true →
     eo_seatbids out = (λ seat, {| csb_seat := csb_seat seat; csb_currency := csb_currency seat;
       csb_bids := List.filter (λ b, negb (rejects convert imps deals seat b)) (csb_bids seat) |})
       <$> seatbids ∧
     eo_rejected out = flat_map (λ seat, (λ b, {| rb_seat := csb_seat seat;
       rb_currency := csb_currency seat; rb_bid := b |}) <$>
       List.filter (rejects convert imps deals seat) (csb_bids seat)) seatbids) ∧
  ∀ seat bid, rejects convert imps deals seat bid = true ↔ too_cheap convert imps deals seat bid.
Proof.
  cbv zeta. unfold enforce_floors_rules. split_and!; [by intros ->| |apply rejects_iff].
  intros ->. simpl.
  assert (H : ∀ out, let out' := fold_left (seat_step convert (imp_floor_map imps) deals) seatbids out in
    eo_seatbids out' = eo_seatbids out ++ ((λ seat, {| csb_seat := csb_seat seat;
       csb_currency := csb_currency seat;
       csb_bids := List.filter (λ b, negb (rejects convert imps deals seat b)) (csb_bids seat) |})
       <$> seatbids) ∧
    eo_rejected out' = eo_rejected out ++ flat_map (λ seat, (λ b, {| rb_seat := csb_seat seat;
       rb_currency := csb_currency seat; rb_bid := b |}) <$>
       List.filter (rejects convert imps deals seat) (csb_bids seat)) seatbids); [|apply H].
  induction seatbids as [|seat seats IH]; intros out out'; subst out'; simpl.
  { by rewrite !app_nil_r. }
  destruct (IH (seat_step convert (imp_floor_map imps) deals out seat)) as [-> ->].
  unfold seat_step. pose proof (crate_bids_eq seat (csb_bids seat) [] (eo_rejected out)
    (eo_errors out)) as Hb.
  destruct (fold_left _ (csb_bids seat) _) as [[el rej] errs]. simpl in *. injection Hb as -> ->.
  by rewrite <-!app_assoc.
Qed.
End EnforceSpec.

(** *** The fetcher *)

Section FetcherSpec.
Context {C S : Type} `{!Cache C FetchedFloors}.
Context (http_get : string → S → (bool * string + Z * (string + list Z)) * S).
Context (rules_from_slice : list Z → string + PriceFloorRules) (now : S → Z).

Lemma fetch_uncached_ok endpoint s e s' :
  fetch_uncached http_get rules_from_slice now endpoint s = (Ok e, s') →
  fet_endpoint e = endpoint ∧ fet_fetched_at e = now s'.
Proof.
  unfold fetch_uncached. destruct (http_get endpoint s) as [[[[] ?]|[status body]] s1]; [done..|].
  destruct (negb _); [done|]. destruct body as [?|bytes]; [done|].
  destruct (rules_from_slice bytes); [done|]. by intros [= <- <-].
Qed.

(** What the fetcher answers is for the endpoint asked, and fresh: either it was
    cached and is not stale, or it has just been fetched. *)
Lemma fetcher_fetch_fresh f endpoint c s e cs' :
  0 ≤ cf_max_age f → cache_all (λ k e, fet_endpoint e = k) c →
  fetcher_fetch http_get rules_from_slice now f endpoint (c, s) = (Ok e, cs') →
  fet_endpoint e = endpoint ∧ is_stale f (now cs'.2) e = false ∧
  cache_all (λ k e, fet_endpoint e = k) cs'.1.
Proof.
  intros Hmax Hc. unfold fetcher_fetch.
  pose proof (cache_all_get (λ k e, fet_endpoint e = k) endpoint c) as Hget.
  pose proof (cache_all_keep (λ k e, fet_endpoint e = k) endpoint c Hc) as Hkeep.
  destruct (cache_get endpoint c) as [existing c1]. simpl in *.
  assert (Hrefresh : fetcher_refresh http_get rules_from_slice now endpoint (c1, s) = (Ok e, cs') →
    fet_endpoint e = endpoint ∧ is_stale f (now cs'.2) e = false ∧
    cache_all (λ k e, fet_endpoint e = k) cs'.1).
  { unfold fetcher_refresh. destruct (fetch_uncached _ _ _ endpoint s) as [[x|?|] s1] eqn:Hf; try done.
    intros [= -> <-]. apply fetch_uncached_ok in Hf as [He Ht]. simpl. split_and!; [done| |].
    - unfold is_stale. rewrite Ht, Z.sub_diag. simpl. apply Z.ltb_ge. lia.
    - by apply cache_all_insert. }
  destruct existing as [x|]; [|done]. destruct (is_stale f (now s) x) eqn:Hst; [done|].
  intros [= -> <-]. simpl. split_and!; [|done..]. by apply (Hget e).
Qed.
End FetcherSpec.

(** A bid a cent below its floor passes here; the exchange's own check is exact. *)
Lemma cent_below_floor_passes : bid_verdict (λ _ _, None)
  (imp_floor_map [{| if_id := "imp1"; if_bid_floor := f64_of_Z 1; if_bid_floor_cur := "" |}]) true
  {| csb_seat := "s"; csb_currency := "USD"; csb_bids := [] |} (crate_bid "b" 99) = Keep.
Proof. by vm_compute. Qed.

(** Keys that differ in case only: the first in byte order wins. *)
Lemma case_collision_overwrites :
  validate_floor_rules_and_lower_key to_ascii_lowercase
    {| pfs_fields := ["mediaType"]; pfs_delimiter := "|" |} "|"
    [("Banner", f64_of_Z 1); ("banner", f64_of_Z 2)] = ([], [("banner", f64_of_Z 1)]).
Proof. by vm_compute. Qed.

(** *** Witnesses *)

Lemma lowercase_idem s : to_ascii_lowercase (to_ascii_lowercase s) = to_ascii_lowercase s.
Proof.
  induction s as [|a s IH]; [done|]. simpl. rewrite IH. f_equal.
  destruct a as [[] [] [] [] [] [] [] []]; reflexivity.
Qed.
Lemma floor_rules_found_witness :
  find_rule to_ascii_lowercase
    (validate_floor_rules_and_lower_key to_ascii_lowercase
      {| pfs_fields := ["mediaType"; "country"]; pfs_delimiter := "|" |} "|" sample_values).2
    "|" "BANNER|us" = (Some "banner|us", true).
Proof.
  pose proof (floor_rules_found to_ascii_lowercase lowercase_idem
    {| pfs_fields := ["mediaType"; "country"]; pfs_delimiter := "|" |} "|" sample_values) as H.
  destruct H as [_ H].
  - simpl. split_and!; repeat constructor; by vm_compute.
  - intros k1 k2. unfold sample_values. simpl. rewrite !elem_of_cons, !elem_of_nil.
    intros [->|[->|[->|[]]]] [->|[->|[->|[]]]]; by vm_compute.
  - destruct (H "BANNER|us") as [_ Hk].
    by destruct (Hk "Banner|US" (f64_of_dec 11 1)) as [Hf _]; [reflexivity..|].
Defined.
