(* ===== verification/AuctionTargeting.v ===== *)
(** * Targeting and response assembly

    exchange/src/lib.rs, the part of [hold_auction_with_timeouts] after the
    bidders' bids are collected: the targeting keys (per bidder, winner, category
    and deal keys), the bid adjustment rules and the seat bids, with the macros
    of exchange/src/macros.rs.  The rules of ad-server targeting are in
    [AdServerTargeting], the cache's keys in [Auction].  The generated deserialisers of the request's
    extensions are parameters. *)

From S2P Require Import Prelude Json OpenRtb OpenRtbExt Currency BidPipeline PriceBucket.

(** Imp id to targeting keys. *)
Abbreviation Targeting := (gmap string (gmap string string)).
(** The bidders' bids, in the order collected. *)
Abbreviation BidderResults := (list (string * list TypedBid)).

(** [targeting.entry(imp).or_default().insert(k, v)] *)
Definition key_insert (imp k v : string) (t : Targeting) : Targeting :=
  <[ imp := <[ k := v ]> (default ∅ (t !! imp)) ]> t.
(** [....entry(k).or_insert(v)] *)
Definition key_or_insert (imp k v : string) (t : Targeting) : Targeting :=
  let keys := default ∅ (t !! imp) in
  <[ imp := match keys !! k with Some _ => keys | None => <[ k := v ]> keys end ]> t.

(** [for (bidder, bids) in &results { for bid in bids { .. } }] *)
Definition for_each_bid {S} (f : string → TypedBid → S → S) (results : BidderResults) (s : S) : S :=
  fold_left (λ s r, fold_left (λ s tb, f r.1 tb s) r.2 s) results s.

(** The creative id, or the bid id. *)
Definition adid_of (tb : TypedBid) : string := default (tb_id tb) (bid_adid (tb_bid tb)).

Section Keys.
Context (pg : option PriceGranularity).

Definition bidder_keys (bidder : string) (tb : TypedBid) (t : Targeting) : Targeting :=
  let imp := tb_impid tb in
  let t := key_insert imp ("hb_pb_" +:+ bidder)
             (price_granularity_bucket (tb_price tb) pg) t in
  let t := key_insert imp ("hb_bidder_" +:+ bidder) bidder t in
  key_insert imp ("hb_adid_" +:+ bidder) (adid_of tb) t.

(** The winner of an imp so far: price, bidder, creative id. *)
Definition Winner : Type := f64 * string * string.
Definition winner_step (bidder : string) (tb : TypedBid) (winners : gmap string Winner)
    : gmap string Winner :=
  let entry := default (f64_neg_infinity, "", "") (winners !! tb_impid tb) in
  let entry' :=
    if f64_gtb (tb_price tb) entry.1.1 then (tb_price tb, bidder, adid_of tb) else entry in
  <[ tb_impid tb := entry' ]> winners.
Definition winners_of (results : BidderResults) : gmap string Winner :=
  for_each_bid winner_step results ∅.

Definition winner_keys (t : Targeting) (e : string * Winner) : Targeting :=
  let '(imp, (price, bidder, adid)) := e in
  let t := key_insert imp "hb_pb" (price_granularity_bucket price pg) t in
  let t := key_insert imp "hb_bidder" bidder t in
  key_insert imp "hb_adid" adid t.

Definition base_targeting (iter_map : ∀ A : Type, gmap string A → list (string * A))
    (results : BidderResults) : Targeting :=
  let t := for_each_bid bidder_keys results ∅ in
  fold_left winner_keys (iter_map _ (winners_of results)) t.

(** Category and duration of a video bid. *)
Definition category_keys (bidder : string) (tb : TypedBid) (t : Targeting) : Targeting :=
  if negb (bool_decide (tb_bid_type tb = BtVideo)) then t
  else
    match i32 <$> (json_path ["prebid"; "video"; "duration"] (bid_ext (tb_bid tb)) ≫= as_i64) with
    | Some duration =>
        if 0 <? duration then
          let category := default "uncategorized" (bid_cat (tb_bid tb) ≫= head) in
          let cat_dur := price_granularity_bucket (tb_price tb) pg +:+ "_" +:+ category
                           +:+ "_" +:+ pretty duration in
          let t := key_insert (tb_impid tb) ("hb_pb_cat_dur_" +:+ bidder) cat_dur t in
          key_or_insert (tb_impid tb) "hb_pb_cat_dur" cat_dur t
        else t
    | None => t
    end.
Definition category_targeting (include_brand_category : bool) (results : BidderResults)
    (t : Targeting) : Targeting :=
  if include_brand_category then for_each_bid category_keys results t else t.
End Keys.

(** ** Deals *)

(** openrtb-ext: [DealTier] *)
Record DealTier : Type := { dt_prefix : option string; dt_min_deal_tier : option Z }.

(** [&s[s.find('_')? + 1..]] *)
Fixpoint after_underscore (s : string) : option string :=
  match s with
  | "" => None
  | String a s' => if bool_decide (a = ch "_") then Some s' else after_underscore s'
  end.

Section Deals.
Context (from_value_deal_tier : Value → option DealTier).

Definition deal_tier_step (imp : Imp) (m : gmap string (gmap string DealTier)) (deal : Deal)
    : gmap string (gmap string DealTier) :=
  match json_path ["prebid"; "dealTier"] (deal_ext deal) ≫= from_value_deal_tier with
  | Some t => <[ imp_id imp := <[ deal_id deal := t ]> (default ∅ (m !! imp_id imp)) ]> m
  | None => m
  end.
Definition imp_deal_tiers (req : BidRequest) : gmap string (gmap string DealTier) :=
  fold_left (λ m imp,
    match imp_pmp imp with
    | Some pmp => fold_left (deal_tier_step imp) (pmp_deals pmp) m
    | None => m
    end) (req_imp req) ∅.

Definition deal_priority_of (tb : TypedBid) : Z :=
  default 0 (i32 <$> (json_path ["prebid"; "dealpriority"] (bid_ext (tb_bid tb)) ≫= as_i64)).

Definition deal_keys (tiers : gmap string (gmap string DealTier)) (bidder : string)
    (tb : TypedBid) (t : Targeting) : Targeting :=
  match bid_dealid (tb_bid tb) with
  | Some deal_id =>
      if str_is_empty deal_id then t
      else
        let imp := tb_impid tb in
        let t := key_insert imp ("hb_deal_" +:+ bidder) deal_id t in
        let t := key_or_insert imp "hb_deal" deal_id t in
        match (m ← tiers !! imp; m !! deal_id) with
        | Some tier =>
            let min_tier := default 0 (dt_min_deal_tier tier) in
            let prefix := default "" (dt_prefix tier) in
            let deal_priority := deal_priority_of tb in
            if negb (str_is_empty prefix) && (0 <? min_tier) && (min_tier <=? deal_priority)
            then
              let cat_dur_key := "hb_pb_cat_dur_" +:+ bidder in
              match (keys ← t !! imp; existing ← keys !! cat_dur_key;
                     after_underscore existing) with
              | Some rest =>
                  key_insert imp cat_dur_key
                    (prefix +:+ pretty deal_priority +:+ "_" +:+ rest) t
              | None => t
              end
            else t
        | None => t
        end
  | None => t
  end.
Definition deal_targeting (req : BidRequest) (results : BidderResults) (t : Targeting)
    : Targeting :=
  for_each_bid (deal_keys (imp_deal_tiers req)) results t.
End Deals.

(** ** Bid adjustment rules *)

(** openrtb-ext: [Adjustment] and [BidAdjustmentRule] *)
Record Adjustment : Type := {
  adj_type : string; adj_value : f64; adj_currency : option string;
}.
Record BidAdjustmentRule : Type := {
  bar_bidders : option (gmap string (gmap string (list Adjustment)));
}.

(** The first adjustment of a known type is applied. *)
Fixpoint apply_adjustments (adjustments : list Adjustment) (price : f64) : f64 :=
  match adjustments with
  | [] => price
  | adj :: rest =>
      if bool_decide (adj_type adj = "multiplier") then f64_mul price (adj_value adj)
      else if bool_decide (adj_type adj = "static") then adj_value adj
      else if bool_decide (adj_type adj = "cpm") then f64_add price (adj_value adj)
      else apply_adjustments rest price
  end.
(** [m.get(k).or_else(|| m.get("*"))] *)
Definition get_or_star {A} (m : gmap string A) (k : string) : option A :=
  match m !! k with Some a => Some a | None => m !! "*" end.
Definition adjust_typed_bid (bidder_rules : gmap string (list Adjustment)) (tb : TypedBid)
    : TypedBid :=
  let deal_id := default "*" (bid_dealid (tb_bid tb)) in
  match get_or_star bidder_rules deal_id with
  | Some adjustments => set_tb_price (apply_adjustments adjustments (tb_price tb)) tb
  | None => tb
  end.
Definition apply_bid_adjustments (rules : option BidAdjustmentRule) (results : BidderResults)
    : BidderResults :=
  match rules ≫= bar_bidders with
  | Some bidders_map =>
      (λ r : string * list TypedBid, match get_or_star bidders_map r.1 with
            | Some bidder_rules => (r.1, adjust_typed_bid bidder_rules <$> r.2)
            | None => r
            end) <$> results
  | None => results
  end.

(** ** Macros (exchange/src/macros.rs) *)

Record MacroValues : Type := {
  mv_auction_price : f64; mv_auction_currency : string; mv_auction_id : string;
  mv_bidder_name : string; mv_imp_id : string; mv_timeout : Z; mv_ad_markup : option string;
}.

Definition replace_macros (template : string) (values : MacroValues) : string :=
  let price_str_4 := format_f64 4 (mv_auction_price values) in
  let price_str_2 := format_f64 2 (mv_auction_price values) in
  let s := str_replace "${AUCTION_PRICE}" price_str_4 template in
  let s := str_replace "%24%7BAUCTION_PRICE%7D" price_str_4 s in
  let s := str_replace "${AUCTION_PRICE:2}" price_str_2 s in
  let s := str_replace "${AUCTION_CURRENCY}" (mv_auction_currency values) s in
  let s := str_replace "${AUCTION_ID}" (mv_auction_id values) s in
  let s := str_replace "${AUCTION_BID_ID}" (mv_imp_id values) s in
  let s := str_replace "${AUCTION_IMP_ID}" (mv_imp_id values) s in
  let s := str_replace "${AUCTION_SEAT_ID}" (mv_bidder_name values) s in
  str_replace "${AUCTION_AD_ID}" (default "" (mv_ad_markup values)) s.

Definition apply_bid_macros (values : MacroValues) (bid : Bid) : Bid :=
  let bid := match bid_nurl bid with
             | Some nurl => set_bid_nurl (Some (replace_macros nurl values)) bid
             | None => bid
             end in
  let bid := match bid_burl bid with
             | Some burl => set_bid_burl (Some (replace_macros burl values)) bid
             | None => bid
             end in
  match bid_adm bid with
  | Some adm =>
      if str_contains "${AUCTION_PRICE}" adm || str_contains "%24%7BAUCTION_PRICE%7D" adm
      then set_bid_adm (Some (replace_macros adm values)) bid else bid
  | None => bid
  end.

(** ** Seat bids *)

Definition seat_bid_of (req : BidRequest) (r : string * list TypedBid) : SeatBid :=
  let auction_currency := default "USD" (req_cur req ≫= head) in
  let timeout_ms := u64 (default 0 (req_tmax req)) in
  let bids :=
    (λ tb,
      let bid := tb_bid tb in
      apply_bid_macros {|
        mv_auction_price := bid_price bid; mv_auction_currency := auction_currency;
        mv_auction_id := req_id req; mv_bidder_name := r.1; mv_imp_id := bid_impid bid;
        mv_timeout := timeout_ms; mv_ad_markup := bid_adm bid |} bid) <$> r.2 in
  {| sb_bid := bids; sb_seat := Some r.1; sb_group := None; sb_ext := None |}.
Definition seat_bids (req : BidRequest) (results : BidderResults) : list SeatBid :=
  seat_bid_of req <$> results.

(** ** Specification *)

(** [tb] is a bid of bidder [name] on imp [i]. *)
Definition bid_in (results : BidderResults) (i name : string) (tb : TypedBid) : Prop :=
  ∃ bids, (name, bids) ∈ results ∧ tb ∈ bids ∧ tb_impid tb = i.
Definition bids_of (results : BidderResults) : list (string * TypedBid) :=
  flat_map (λ r, pair r.1 <$> r.2) results.
(** Winners are chosen among prices that compare: not NaN, above -infinity. *)
Definition real_price (x : f64) : Prop := f64_ltb f64_neg_infinity x = true.

(** ** Proofs *)

Lemma for_each_bid_eq {S} (f : string → TypedBid → S → S) results s :
  for_each_bid f results s = fold_left (λ s e, f e.1 e.2 s) (bids_of results) s.
Proof.
  unfold for_each_bid, bids_of. revert s. induction results as [|[name bids] rs IH]; intros s; [done|].
  simpl. rewrite fold_left_app, IH. f_equal. clear. revert s.
  induction bids as [|tb bids IH]; intros s; [done|]. simpl. apply IH.
Qed.

Lemma elem_of_bids_of results name tb :
  (name, tb) ∈ bids_of results ↔ bid_in results (tb_impid tb) name tb.
Proof.
  unfold bids_of, bid_in. rewrite list_elem_of_In, in_flat_map. split.
  - intros ([n bids]&Hr&Ht). apply list_elem_of_In, list_elem_of_fmap in Ht as (t&[= -> ->]&Ht).
    exists bids. by apply list_elem_of_In in Hr.
  - intros (bids&Hr&Ht&_). exists (name, bids). split; [by apply list_elem_of_In|].
    apply list_elem_of_In, list_elem_of_fmap. by exists tb.
Qed.

(** What the winner loop knows after the bids [seen]. *)
Definition winners_inv (seen : list (string * TypedBid)) (w : gmap string Winner) : Prop :=
  (∀ i p n a, w !! i = Some (p, n, a) → ∃ tb, (n, tb) ∈ seen ∧ tb_impid tb = i ∧
     tb_price tb = p ∧ a = adid_of tb) ∧
  ∀ n tb, (n, tb) ∈ seen → ∃ p n' a, w !! tb_impid tb = Some (p, n', a) ∧
    f64_leb (tb_price tb) p = true.

Lemma winner_step_inv seen w name tb :
  real_price (tb_price tb) → winners_inv seen w →
  winners_inv (seen ++ [(name, tb)]) (winner_step name tb w).
Proof.
  intros Hreal [Hfrom Hall]. unfold real_price in Hreal.
  destruct (f64_ltb_not_nan _ _ Hreal) as [_ Hnan].
  unfold winner_step, f64_gtb. set (entry := default (f64_neg_infinity, "", "") (w !! tb_impid tb)).
  assert (Hput : ∀ p n a,
    (∃ tb', (n, tb') ∈ seen ++ [(name, tb)] ∧ tb_impid tb' = tb_impid tb ∧
       tb_price tb' = p ∧ a = adid_of tb') →
    f64_leb (tb_price tb) p = true →
    (∀ p0 n0 a0, w !! tb_impid tb = Some (p0, n0, a0) → f64_leb p0 p = true) →
    winners_inv (seen ++ [(name, tb)]) (<[ tb_impid tb := (p, n, a) ]> w)).
  { intros p n a Hex Hle Hge. split.
    - intros i p' n' a'. rewrite lookup_insert_Some.
      intros [[<- [= <- <- <-]]|[_ Hw]]; [done|].
      destruct (Hfrom _ _ _ _ Hw) as (t&Ht&?). exists t. rewrite elem_of_app. auto.
    - intros n' t [Ht|[= -> ->]%list_elem_of_singleton]%elem_of_app.
      2: { exists p, n, a. by rewrite lookup_insert_eq. }
      destruct (Hall n' t Ht) as (p'&n''&a'&Hw&Hle').
      destruct (decide (tb_impid t = tb_impid tb)) as [He|He].
      + exists p, n, a. rewrite He in *. rewrite lookup_insert_eq. split; [done|].
        eapply f64_leb_trans; [exact Hle'|by eapply Hge].
      + exists p', n'', a'. by rewrite lookup_insert_ne. }
  destruct (f64_ltb entry.1.1 (tb_price tb)) eqn:Hgt.
  - apply Hput.
    + exists tb. rewrite elem_of_app. split_and!; [right; by left|done..].
    + by apply f64_leb_refl.
    + intros p0 n0 a0 Hw. subst entry. rewrite Hw in Hgt. by apply f64_ltb_leb.
  - subst entry. destruct (w !! tb_impid tb) as [[[p0 n0] a0]|] eqn:Hw; simpl in *.
    + destruct (Hfrom _ _ _ _ Hw) as (t&Ht&Hi&Hp&Ha). apply Hput.
      * exists t. rewrite elem_of_app. auto.
      * assert (Hn : f64_is_nan p0 = false).
        { destruct (Hall n0 t Ht) as (p1&n1&a1&Hw1&Hle). rewrite Hi, Hw in Hw1.
          injection Hw1 as <- _ _. by destruct (f64_leb_not_nan _ _ Hle). }
        rewrite f64_leb_ltb, Hgt by done. done.
      * intros p1 n1 a1 [= <- <- <-]. apply f64_leb_refl.
        destruct (Hall n0 t Ht) as (p1&n1&a1&Hw1&Hle). rewrite Hi, Hw in Hw1.
        injection Hw1 as <- _ _. by destruct (f64_leb_not_nan _ _ Hle).
    + unfold f64_neg_infinity in *. congruence.
Qed.

Lemma winners_spec results :
  (∀ n tb, (n, tb) ∈ bids_of results → real_price (tb_price tb)) →
  winners_inv (bids_of results) (winners_of results).
Proof.
  unfold winners_of. rewrite for_each_bid_eq. generalize (bids_of results) as l. intros l.
  induction l as [|[n tb] l IH] using rev_ind; intros Hreal.
  { split; [|by intros ?? ?%elem_of_nil]. intros i p n a. simpl. by rewrite lookup_empty. }
  rewrite fold_left_app. simpl. apply winner_step_inv.
  - apply (Hreal n). rewrite elem_of_app. right. by left.
  - apply IH. intros n' t Ht. apply (Hreal n'). rewrite elem_of_app. by left.
Qed.

Lemma key_insert_lookup imp k v t i :
  key_insert imp k v t !! i =
    if decide (imp = i) then Some (<[ k := v ]> (default ∅ (t !! i))) else t !! i.
Proof.
  unfold key_insert. destruct (decide (imp = i)) as [->|Hne].
  - by rewrite lookup_insert_eq.
  - by rewrite lookup_insert_ne.
Qed.

(** The winner keys of an imp: set by its own entry, left alone by the others. *)
Lemma winner_keys_lookup pg l t i p n a :
  NoDup l.*1 → (i, (p, n, a)) ∈ l →
  ∃ keys, fold_left (winner_keys pg) l t !! i = Some keys ∧
    keys !! "hb_pb" = Some (price_granularity_bucket p pg) ∧
    keys !! "hb_bidder" = Some n ∧ keys !! "hb_adid" = Some a.
Proof.
  assert (Hother : ∀ l t, i ∉ l.*1 → fold_left (winner_keys pg) l t !! i = t !! i).
  { clear. induction l as [|[i' [[p' n'] a']] l IH]; intros t; [done|]. simpl.
    intros [Hne Hl]%not_elem_of_cons. rewrite IH by done.
    rewrite !key_insert_lookup. by rewrite !decide_False by done. }
  revert t. induction l as [|[i' e] l IH]; intros t Hnd Hin; [by apply elem_of_nil in Hin|].
  simpl in *. apply NoDup_cons in Hnd as [Hni Hnd].
  apply elem_of_cons in Hin as [[= <- <-]|Hin]; [|by apply IH].
  rewrite Hother by done. simpl. rewrite !key_insert_lookup, !decide_True by done.
  eexists. split; [reflexivity|]. simpl.
  split_and!; rewrite ?lookup_insert_ne by done; by rewrite lookup_insert_eq.
Qed.

(** C15: The winner of an imp is its dearest bid.  If any bid was collected for
    imp [i], the targeting carries [hb_bidder], [hb_pb] and [hb_adid] for it,
    and these are the bidder, the price bucket and the creative (or bid) id of
    one bid whose price no other bid on [i] exceeds. *)
Theorem winner_keys_spec iter_map pg results i name0 tb0 :
  (∀ A (m : gmap string A), iter_map A m ≡ₚ map_to_list m) →
  (∀ name tb, bid_in results (tb_impid tb) name tb → real_price (tb_price tb)) →
  bid_in results i name0 tb0 →
  ∃ name tb keys, bid_in results i name tb ∧
    (∀ name' tb', bid_in results i name' tb' → f64_leb (tb_price tb') (tb_price tb) = true) ∧
    base_targeting pg iter_map results !! i = Some keys ∧
    keys !! "hb_bidder" = Some name ∧
    keys !! "hb_pb" = Some (price_granularity_bucket (tb_price tb) pg) ∧
    keys !! "hb_adid" = Some (adid_of tb).
Proof.
  intros Hiter Hreal Hin.
  assert (Hreal' : ∀ n tb, (n, tb) ∈ bids_of results → real_price (tb_price tb)).
  { intros n tb Ht. apply elem_of_bids_of in Ht. by eapply Hreal. }
  destruct (winners_spec results Hreal') as [Hfrom Hall].
  assert (Hi : tb_impid tb0 = i) by by destruct Hin as (?&?&?&?).
  assert (Hin0 : (name0, tb0) ∈ bids_of results).
  { apply elem_of_bids_of. by rewrite Hi. }
  destruct (Hall _ _ Hin0) as (p&n&a&Hw&_). rewrite Hi in Hw.
  destruct (Hfrom _ _ _ _ Hw) as (tb&Htb&Htbi&<-&->).
  destruct (winner_keys_lookup pg (iter_map _ (winners_of results))
    (for_each_bid (bidder_keys pg) results ∅) i (tb_price tb) n (adid_of tb))
    as (keys&Hk&Hpb&Hb&Ha).
  { rewrite Hiter. apply NoDup_fst_map_to_list. }
  { rewrite Hiter. by apply elem_of_map_to_list. }
  exists n, tb, keys. split_and!; [| |exact Hk|done..].
  - apply elem_of_bids_of in Htb. by rewrite Htbi in Htb.
  - intros name' tb' Hin'. assert (Hi' : tb_impid tb' = i) by by destruct Hin' as (?&?&?&?).
    rewrite <-Hi' in Hin'. apply elem_of_bids_of in Hin'.
    destruct (Hall _ _ Hin') as (p'&n'&a'&Hw'&Hle). rewrite Hi', Hw in Hw'. by injection Hw' as <- _ _.
Qed.

(** A bid adjustment rule changes the price of the response, not the keys. *)
Lemma targeting_before_adjustment :
  let tb := sample_bid "a" 2 in
  let rules := Some {| bar_bidders := Some {[ "*" := {[ "*" := [
    {| adj_type := "multiplier"; adj_value := f64_of_Z 3; adj_currency := None |} ] ]} ]} |} in
  let results := [("appnexus", [tb])] in
  (m ← base_targeting None (λ A, map_to_list) results !! "imp-1"; m !! "hb_pb") = Some "2.00" ∧
  (bid_price <$> (seat_bids sample_req (apply_bid_adjustments rules results) ≫= sb_bid))
    = [f64_of_Z 6].
Proof. by vm_compute. Qed.

(** The bid-id macro is replaced by the imp id. *)
Lemma bid_id_macro_is_imp_id :
  replace_macros "https://x/${AUCTION_BID_ID}" {| mv_auction_price := f64_of_Z 1;
    mv_auction_currency := "USD"; mv_auction_id := "r"; mv_bidder_name := "b";
    mv_imp_id := "imp-1"; mv_timeout := 0; mv_ad_markup := None |} = "https://x/imp-1".
Proof. by vm_compute. Qed.

Lemma winner_keys_spec_witness :
  let results := [("rubicon", [sample_bid "a" 2]); ("appnexus", [sample_bid "b" 5])] in
  ∃ name tb keys, bid_in results "imp-1" name tb ∧
    base_targeting None (λ A, map_to_list) results !! "imp-1" = Some keys ∧
    keys !! "hb_bidder" = Some name.
Proof.
  intros results.
  destruct (winner_keys_spec (λ A, map_to_list) None results "imp-1" "appnexus" (sample_bid "b" 5))
    as (n&tb&keys&Hin&_&Hk&Hb&_&_).
  - done.
  - intros n tb (bids&Hr&Ht&_).
    apply elem_of_cons in Hr as [[= -> ->]|[[= -> ->]|Hr%elem_of_nil]%elem_of_cons]; [..|done];
      apply list_elem_of_singleton in Ht as ->; reflexivity.
  - exists [sample_bid "b" 5]. split_and!; [right; by left|by left|reflexivity].
  - exists n, tb, keys. split_and!; [exact Hin|exact Hk|exact Hb].
Defined.
