(* ===== verification/Deals.v ===== *)
(** Deals (exchange/src/deals.rs): the deal tiers of the impressions and the deal
    prefix of the category keys.

    [to_lowercase], reading tiers from JSON and the order of maps are parameters. *)
From S2P Require Import Prelude Json OpenRtb OpenRtbExt AuctionTargeting.

Definition DEFAULT_BID_LIMIT : Z := 1.
Record ExtBidPrebidEvents : Type := { ebe_win : option string; ebe_imp : option string }.
Record PbsOrtbBid : Type := {
  pob_bid : Bid; pob_bid_type : BidType; pob_generated_bid_id : string;
  pob_bid_events : option ExtBidPrebidEvents; pob_deal_priority : Z; pob_deal_tier_satisfied : bool;
}.
Record PbsOrtbSeatBid : Type := {
  pos_bids : list PbsOrtbBid; pos_currency : string; pos_http_calls : list string; pos_seat : string;
}.
Record ExtMultiBid : Type := {
  emb_bidder : option string; emb_bidders : option (list string); emb_maxbids : option Z;
  emb_target_bidder_code_prefix : option string;
}.
Notation DealTierBidderMap := (gmap string DealTier).
Notation BidsByBidder := (gmap string (list PbsOrtbBid)).
Notation AllBidsByBidder := (gmap string BidsByBidder).

Section Deals.
Context `{MI : MapIter} (to_lowercase : string → string).
(** [serde_json::from_value::<ImpPrebidExt>]: per bidder, its optional tier. *)
Context (imp_prebid_from_value : Value → outcome string (gmap string (option DealTier))).

Definition get_deal_tiers (imp : Imp) : outcome string DealTierBidderMap :=
  match imp_ext imp with
  | None | Some VNull => Ok ∅
  | Some ext_val =>
      bidders ← map_err (λ e, "failed to unmarshal imp ext for deal tiers: " +:+ e)
        (imp_prebid_from_value ext_val);
      Ok (fold_left (λ tiers '(bidder_raw, wrapper),
            match wrapper with Some dt => <[to_lowercase bidder_raw := dt]> tiers | None => tiers end)
          (map_iter bidders) ∅)
  end.
Definition get_deal_tiers_from_request (imps : list Imp) : gmap string DealTierBidderMap :=
  fold_left (λ m imp, match get_deal_tiers imp with Ok dt_map => <[imp_id imp := dt_map]> m | _ => m end) imps ∅.
Definition validate_deal_tier (deal_tier : DealTier) : bool :=
  match dt_prefix deal_tier with Some p => negb (str_is_empty p) | None => false end &&
  match dt_min_deal_tier deal_tier with Some t => 0 <? t | None => false end.

Definition prefix_tier (deal_tier : DealTier) (priority : Z) : string :=
  default "" (dt_prefix deal_tier) +:+ pretty priority +:+ "_".
Definition satisfy_tier (bid : PbsOrtbBid) : PbsOrtbBid :=
  {| pob_bid := pob_bid bid; pob_bid_type := pob_bid_type bid;
     pob_generated_bid_id := pob_generated_bid_id bid; pob_bid_events := pob_bid_events bid;
     pob_deal_priority := pob_deal_priority bid; pob_deal_tier_satisfied := true |}.
(** What the first underscore of the old key is replaced by. *)
Definition new_cat_dur (deal_tier : DealTier) (priority : Z) (old_cat_dur : string) : string :=
  prefix_tier deal_tier priority +:+ default old_cat_dur (after_underscore old_cat_dur).
Definition update_hb_pb_cat_dur (bid : PbsOrtbBid) (deal_tier : DealTier) (bid_category : gmap string string)
    : PbsOrtbBid * gmap string string :=
  if default 0 (dt_min_deal_tier deal_tier) <=? pob_deal_priority bid then
    (satisfy_tier bid,
     match bid_category !! bid_id (pob_bid bid) with
     | Some old_cat_dur =>
         <[bid_id (pob_bid bid) := new_cat_dur deal_tier (pob_deal_priority bid) old_cat_dur]> bid_category
     | None => bid_category
     end)
  else (bid, bid_category).
(** [as usize] of an [i32]. *)
Definition bids_to_update (multi_bid : gmap string ExtMultiBid) (bidder : string) : Z :=
  match multi_bid !! bidder with
  | Some mb =>
      if match emb_target_bidder_code_prefix mb with Some p => negb (str_is_empty p) | None => false end
      then usize (default DEFAULT_BID_LIMIT (emb_maxbids mb)) else DEFAULT_BID_LIMIT
  | None => DEFAULT_BID_LIMIT
  end.

(** The categories and the errors so far. *)
Definition DealState : Type := gmap string string * list string.
Definition tier_error (bidder imp_id : string) : string :=
  "dealTier configuration invalid for bidder '" +:+ bidder +:+ "', imp ID '" +:+ imp_id +:+ "'".
(** The body of the loop over a bidder's bids. *)
Definition deal_bid (imp_id bidder : string) (tier : option DealTier) (bid : PbsOrtbBid) (st : DealState)
    : PbsOrtbBid * DealState :=
  if 0 <? pob_deal_priority bid then
    match tier with
    | Some tier =>
        if validate_deal_tier tier then
          let '(bid', cats) := update_hb_pb_cat_dur bid tier st.1 in (bid', (cats, st.2))
        else (bid, (st.1, st.2 ++ [tier_error bidder imp_id]))
    | None => (bid, st)
    end
  else (bid, st).
Fixpoint deal_bids (imp_id bidder : string) (tier : option DealTier) (max_bid i : Z)
    (top_bids : list PbsOrtbBid) (st : DealState) : list PbsOrtbBid * DealState :=
  match top_bids with
  | [] => ([], st)
  | top_bid :: rest =>
      if max_bid <=? i then (top_bids, st)
      else
        let '(bid', st') := deal_bid imp_id bidder tier top_bid st in
        let '(rest', st'') := deal_bids imp_id bidder tier max_bid (i + 1) rest st' in
        (bid' :: rest', st'')
  end.
Definition deal_bidder (multi_bid : gmap string ExtMultiBid) (imp_id : string) (imp_deal : DealTierBidderMap)
    (acc : BidsByBidder * DealState) (entry : string * list PbsOrtbBid) : BidsByBidder * DealState :=
  let '(bidder, top_bids) := entry in
  let bidder_normalized := to_lowercase bidder in
  let '(bids', st) := deal_bids imp_id bidder (imp_deal !! bidder_normalized)
                        (bids_to_update multi_bid bidder_normalized) 0 top_bids acc.2 in
  (<[bidder := bids']> acc.1, st).
Definition deal_imp (multi_bid : gmap string ExtMultiBid) (imp_deal_map : gmap string DealTierBidderMap)
    (acc : AllBidsByBidder * DealState) (entry : string * BidsByBidder) : AllBidsByBidder * DealState :=
  let '(imp_id, bids_per_imp) := entry in
  match imp_deal_map !! imp_id with
  | None => acc
  | Some imp_deal =>
      let '(bids', st) := fold_left (deal_bidder multi_bid imp_id imp_deal) (map_iter bids_per_imp) (bids_per_imp, acc.2) in
      (<[imp_id := bids']> acc.1, st)
  end.
(** The bids, the categories and the errors afterwards. *)
Definition apply_deal_support (imps : list Imp) (all_bids : AllBidsByBidder)
    (bid_category : gmap string string) (multi_bid : gmap string ExtMultiBid) : AllBidsByBidder * DealState :=
  fold_left (deal_imp multi_bid (get_deal_tiers_from_request imps)) (map_iter all_bids) (all_bids, (bid_category, [])).
End Deals.
Definition deal_adjustment_factor (adjustments : gmap string (gmap string f64)) (bidder deal_id : string)
    : option f64 :=
  bidder_adjustments ← adjustments !! bidder;
  match bidder_adjustments !! deal_id with Some x => Some x | None => bidder_adjustments !! "*" end.

(** ** What is promised *)

(** Whether a bid meets its tier. *)
Definition meets_tier (tier : option DealTier) (bid : PbsOrtbBid) : bool :=
  match tier with
  | Some t => (0 <? pob_deal_priority bid) && validate_deal_tier t &&
      (default 0 (dt_min_deal_tier t) <=? pob_deal_priority bid)
  | None => false
  end.
Definition with_tier (tier : option DealTier) (bid : PbsOrtbBid) : PbsOrtbBid :=
  if meets_tier tier bid then satisfy_tier bid else bid.
(** A bidder's bids up to the limit. *)
Definition with_tiers (tier : option DealTier) (max_bid : Z) (bids : list PbsOrtbBid) : list PbsOrtbBid :=
  imap (λ j b, if Z.of_nat j <? max_bid then with_tier tier b else b) bids.
(** The changes to the categories. *)
Definition Change : Type := string * (string → string).
Definition apply_changes (changes : list Change) (cats : gmap string string) : gmap string string :=
  fold_left (λ cats c, alter c.2 c.1 cats) changes cats.
Definition bid_change (tier : option DealTier) (bid : PbsOrtbBid) : list Change :=
  match tier with
  | Some t => if meets_tier tier bid then [(bid_id (pob_bid bid), new_cat_dur t (pob_deal_priority bid))] else []
  | None => []
  end.

Lemma deal_bid_spec imp_id bidder tier bid st :
  let r := deal_bid imp_id bidder tier bid st in
  r.1 = with_tier tier bid ∧ r.2.1 = apply_changes (bid_change tier bid) st.1.
Proof.
  unfold deal_bid, with_tier, bid_change, meets_tier, update_hb_pb_cat_dur.
  destruct (0 <? pob_deal_priority bid), tier as [t|]; cbn; try done.
  destruct (validate_deal_tier t); cbn; [|done]. destruct (_ <=? _); cbn; [|done]. split; [done|].
  apply map_eq. intros k. destruct (decide (k = bid_id (pob_bid bid))) as [->|Hne].
  - rewrite lookup_alter_eq. destruct (st.1 !! _) eqn:Hk; cbn; [by rewrite lookup_insert_eq|by rewrite Hk].
  - rewrite lookup_alter_ne by done. destruct (st.1 !! bid_id _); [by rewrite lookup_insert_ne|done].
Qed.
Lemma apply_changes_app c1 c2 cats : apply_changes (c1 ++ c2) cats = apply_changes c2 (apply_changes c1 cats).
Proof. apply fold_left_app. Qed.
Fixpoint bids_changes (tier : option DealTier) (max_bid i : Z) (bids : list PbsOrtbBid) : list Change :=
  match bids with
  | [] => []
  | b :: bids' => if max_bid <=? i then [] else bid_change tier b ++ bids_changes tier max_bid (i + 1) bids'
  end.
Lemma deal_bids_spec imp_id bidder tier max_bid i bids st : 0 ≤ i →
  let r := deal_bids imp_id bidder tier max_bid i bids st in
  r.1 = imap (λ j b, if i + Z.of_nat j <? max_bid then with_tier tier b else b) bids ∧
  r.2.1 = apply_changes (bids_changes tier max_bid i bids) st.1.
Proof.
  revert i st. induction bids as [|b bids IH]; intros i st Hi; cbn [deal_bids bids_changes]; [done|].
  destruct (Z.leb_spec max_bid i) as [Hm|Hm].
  - split; [|done]. cbn [fst]. rewrite <-(list_fmap_id (b :: bids)) at 1.
    rewrite <-(imap_const (λ b, b)). apply imap_ext. intros j x _. by destruct (Z.ltb_spec (i + Z.of_nat j) max_bid); [lia|].
  - pose proof (deal_bid_spec imp_id bidder tier b st) as [H1 H2].
    destruct (deal_bid imp_id bidder tier b st) as [b' st']. cbn in H1, H2. subst b'.
    destruct (IH (i + 1) st' ltac:(lia)) as [H3 H4].
    destruct (deal_bids imp_id bidder tier max_bid (i + 1) bids st') as [bids' st'']. cbn [fst snd] in *. subst bids'.
    split.
    + rewrite imap_cons. f_equal; [by destruct (Z.ltb_spec (i + Z.of_nat 0) max_bid); [|lia]|].
      apply imap_ext. intros j x _. unfold compose. by replace (i + Z.of_nat (S j)) with (i + 1 + Z.of_nat j) by lia.
    + by rewrite H4, H2, apply_changes_app.
Qed.

Section Spec.
Context `{MI : MapIter} (to_lowercase : string → string).
Context (imp_prebid_from_value : Value → outcome string (gmap string (option DealTier))).
Context (multi_bid : gmap string ExtMultiBid).
Definition bidder_changes (imp_deal : DealTierBidderMap) (entry : string * list PbsOrtbBid) : list Change :=
  bids_changes (imp_deal !! to_lowercase entry.1) (bids_to_update multi_bid (to_lowercase entry.1)) 0 entry.2.
Definition imp_changes (tiers : gmap string DealTierBidderMap) (entry : string * BidsByBidder) : list Change :=
  match tiers !! entry.1 with
  | Some imp_deal => flat_map (bidder_changes imp_deal) (map_iter entry.2)
  | None => []
  end.

Lemma deal_bidder_spec imp_id imp_deal acc entry :
  let r := deal_bidder to_lowercase multi_bid imp_id imp_deal acc entry in
  r.1 = <[entry.1 := with_tiers (imp_deal !! to_lowercase entry.1) (bids_to_update multi_bid (to_lowercase entry.1)) entry.2]> acc.1 ∧
  r.2.1 = apply_changes (bidder_changes imp_deal entry) acc.2.1.
Proof.
  destruct entry as [bidder bids]. unfold deal_bidder, bidder_changes. cbn [fst snd].
  set (max := bids_to_update multi_bid (to_lowercase bidder)).
  pose proof (deal_bids_spec imp_id bidder (imp_deal !! to_lowercase bidder) max 0 bids acc.2 ltac:(lia)) as [H1 H2].
  destruct (deal_bids _ _ _ _ _ _ _) as [bids' st]. cbn in *. split; [|done]. by subst bids'.
Qed.
Lemma deal_imp_spec tiers acc entry :
  let r := deal_imp to_lowercase multi_bid tiers acc entry in
  r.1 = match tiers !! entry.1 with
        | Some imp_deal => <[entry.1 := map_imap (λ bidder bids, Some (with_tiers (imp_deal !! to_lowercase bidder)
            (bids_to_update multi_bid (to_lowercase bidder)) bids)) entry.2]> acc.1
        | None => acc.1
        end ∧
  r.2.1 = apply_changes (imp_changes tiers entry) acc.2.1.
Proof.
  destruct entry as [imp_id per]. unfold deal_imp, imp_changes. cbn [fst snd].
  destruct (tiers !! imp_id) as [imp_deal|]; [|done].
  set (step := deal_bidder to_lowercase multi_bid imp_id imp_deal).
  assert (H2 : ∀ l acc, (fold_left step l acc).2.1 = apply_changes (flat_map (bidder_changes imp_deal) l) acc.2.1).
  { induction l as [|e l IH]; intros a; [done|]. cbn. rewrite IH, apply_changes_app. f_equal.
    by destruct (deal_bidder_spec imp_id imp_deal a e). }
  specialize (H2 (map_iter per) (per, acc.2)).
  assert (H1 : (fold_left step (map_iter per) (per, acc.2)).1 = map_imap (λ bidder bids, Some (with_tiers
    (imp_deal !! to_lowercase bidder) (bids_to_update multi_bid (to_lowercase bidder)) bids)) per).
  { apply map_eq. intros b. rewrite map_lookup_imap.
    rewrite (map_iter_fold_lookup step (λ bidder bids, Some (with_tiers (imp_deal !! to_lowercase bidder)
      (bids_to_update multi_bid (to_lowercase bidder)) bids))).
    - cbn. by destruct (per !! b).
    - intros a k v. by destruct (deal_bidder_spec imp_id imp_deal a (k, v)). }
  destruct (fold_left step _ _) as [bids' st]. cbn in *. by subst.
Qed.
Lemma apply_changes_lookup changes cats id f : NoDup changes.*1 → (id, f) ∈ changes →
  apply_changes changes cats !! id = f <$> cats !! id.
Proof.
  revert cats. induction changes as [|[id' f'] changes IH]; intros cats; cbn; [by intros _ ?%elem_of_nil|].
  intros [Hni Hnd]%NoDup_cons [[= -> ->]|Hin]%elem_of_cons.
  - clear IH. assert (H : ∀ c, id' ∉ changes.*1 → apply_changes changes c !! id' = c !! id').
    { clear. induction changes as [|[i f] changes IH]; intros c; cbn; [done|]. intros [Hne Hni]%not_elem_of_cons.
      unfold apply_changes in *. cbn. rewrite IH by done. by rewrite lookup_alter_ne. }
    etrans; [by apply H|]. apply lookup_alter_eq.
  - etrans; [by apply IH|]. rewrite lookup_alter_ne; [done|]. intros <-. apply Hni.
    apply list_elem_of_fmap. by exists (id', f).
Qed.
Lemma apply_changes_other changes cats id : id ∉ changes.*1 → apply_changes changes cats !! id = cats !! id.
Proof.
  revert cats. induction changes as [|[i f] changes IH]; intros c; cbn; [done|]. intros [Hne Hni]%not_elem_of_cons.
  unfold apply_changes in *. cbn. rewrite IH by done. by rewrite lookup_alter_ne.
Qed.

(** Deal support, whatever the order of the maps: each bid within its bidder's limit
    is marked exactly when it meets the tier its impression sets for the bidder, and
    nothing else changes; of bids with distinct ids, the category key of each that
    meets its tier gets the prefix and priority in place of its first part, and
    every other key stays. *)
Lemma deal_support_spec imps all_bids cats :
  let tiers := get_deal_tiers_from_request to_lowercase imp_prebid_from_value imps in
  let r := apply_deal_support to_lowercase imp_prebid_from_value imps all_bids cats multi_bid in
  let changes := flat_map (imp_changes tiers) (map_iter all_bids) in
  r.1 = map_imap (λ imp_id per, Some match tiers !! imp_id with
    | Some imp_deal => map_imap (λ bidder bids, Some (with_tiers (imp_deal !! to_lowercase bidder)
        (bids_to_update multi_bid (to_lowercase bidder)) bids)) per
    | None => per end) all_bids ∧
  (NoDup changes.*1 → ∀ id f, (id, f) ∈ changes → r.2.1 !! id = f <$> cats !! id) ∧
  (∀ id, id ∉ changes.*1 → r.2.1 !! id = cats !! id).
Proof.
  intros tiers r changes. unfold r, apply_deal_support. fold tiers.
  set (step := deal_imp to_lowercase multi_bid tiers).
  assert (H2 : ∀ l acc, (fold_left step l acc).2.1 = apply_changes (flat_map (imp_changes tiers) l) acc.2.1).
  { induction l as [|e l IH]; intros a; [done|].
    change (fold_left step (e :: l) a) with (fold_left step l (step a e)). rewrite IH.
    pose proof (proj2 (deal_imp_spec tiers a e)) as Ha. cbn [flat_map]. rewrite apply_changes_app, <-Ha. reflexivity. }
  rewrite H2. fold changes. cbn [fst snd]. split; [|split; [intros ? ? ?; by apply apply_changes_lookup|apply apply_changes_other]].
  apply map_eq. intros k. rewrite map_lookup_imap.
  rewrite (map_iter_fold_lookup step (λ imp_id per, (λ imp_deal, map_imap (λ bidder bids, Some (with_tiers
    (imp_deal !! to_lowercase bidder) (bids_to_update multi_bid (to_lowercase bidder)) bids)) per) <$> tiers !! imp_id)).
  - cbn. destruct (all_bids !! k) eqn:Hk; cbn; [|done]. by destruct (tiers !! k).
  - intros a i v. unfold step. destruct (deal_imp_spec tiers a (i, v)) as [-> _]. cbn. by destruct (tiers !! i).
Qed.
End Spec.
(** A negative limit is no limit. *)
Lemma negative_limit_is_huge : bids_to_update {[ "a" := {| emb_bidder := None; emb_bidders := None;
  emb_maxbids := Some (-1); emb_target_bidder_code_prefix := Some "p" |} ]} "a" = 2 ^ 64 - 1.
Proof. done. Qed.
