(* ===== verification/ExtPrebid.v ===== *)
(** * The prebid extension of a request

    openrtb-ext/src/lib.rs: [BidderName] and the table of core bidders, the structs
    of [ext.prebid], and the methods of price granularities and alternate bidder
    codes.  The types of price floors, supply chains and granularities that other
    crates define under the same names are prefixed with [Ext] here.

    serde's derived conversions and [to_lowercase] are parameters. *)

From S2P Require Import Prelude Json Text OpenRtb OpenRtbExt AuctionTargeting Deals StoredResponses.
Open Scope Z_scope.

(** ** Bidder names *)

(** The constants [BIDDER_...], in their order. *)
Definition CORE_BIDDERS : list string := [
  "33across"; "aax"; "aceex"; "acuityads"; "adagio"; "adelement"; "adf"; "adgeneration"; "adhese";
  "adkernel"; "adkernelAdn"; "adman"; "admatic"; "admixer"; "adnuntius"; "adot"; "adpone"; "adprime";
  "adquery"; "adrino"; "adtarget"; "adtrgtme"; "adtonos"; "adtelligent"; "aduptech"; "advangelists";
  "adverxo"; "adview"; "adxcg"; "adyoulike"; "afront"; "aidem"; "aja"; "akcelo"; "algorix"; "alkimi";
  "alliance_gravity"; "amx"; "apacdex"; "appnexus"; "appush"; "aso"; "audienceNetwork"; "automatad";
  "avocet"; "axis"; "axonix"; "beachfront"; "beintoo"; "bematterfull"; "beop"; "between"; "beyondmedia";
  "bidmachine"; "bidmatic"; "bidmyadz"; "bidscube"; "bidstack"; "bidtheatre"; "bigoad"; "blasto"; "bliink";
  "blis"; "blue"; "bluesea"; "bmtm"; "boldwin"; "boldwin_rapid"; "brave"; "bwx"; "cadent_aperture_mx"; "ccx";
  "clydo"; "cointraffic"; "coinzilla"; "colossus"; "compass"; "concert"; "connatix"; "connectad";
  "consumable"; "contxtful"; "conversant"; "copper6ssp"; "cpmstar"; "criteo"; "cwire"; "datablocks";
  "decenterads"; "deepintent"; "definemedia"; "dianomi"; "displayio"; "edge226"; "dmx"; "driftpixel";
  "elementaltv"; "emtv"; "emx_digital"; "eplanning"; "epom"; "escalax"; "exco"; "e_volution"; "feedad";
  "flatads"; "flipp"; "freewheelssp"; "fwssp"; "frvradn"; "gamma"; "gamoshi"; "globalsun"; "goldbach";
  "grid"; "gumgum"; "huaweiads"; "imds"; "impactify"; "improvedigital"; "infytv"; "inmobi"; "insticator";
  "intenze"; "interactiveoffers"; "invibes"; "iqx"; "iqzone"; "ix"; "jixie"; "kargo"; "kayzen"; "kidoz";
  "kiviads"; "lm_kiviads"; "kobler"; "krushmedia"; "kueezrtb"; "lemmadigital"; "limelightDigital";
  "lockerdome"; "logan"; "logicad"; "loopme"; "loyal"; "lunamedia"; "mabidder"; "madsense"; "madvertise";
  "marsmedia"; "mediafuse"; "mediago"; "medianet"; "mediasquare"; "melozen"; "metax"; "mgid"; "mgidX";
  "msft"; "minutemedia"; "missena"; "mobfoxpb"; "mobilefuse"; "mobkoi"; "motorik"; "nativery"; "nativo";
  "nextmillennium"; "nexx360"; "nobid"; "ogury"; "oms"; "onetag"; "openweb"; "openx"; "operaads";
  "optidigital"; "oraki"; "orbidder"; "outbrain"; "ownadx"; "pangle"; "pgamssp"; "playdigo"; "pubmatic";
  "pubrise"; "pubnative"; "pulsepoint"; "pwbid"; "qt"; "readpeak"; "rediads"; "relevantdigital";
  "resetdigital"; "revcontent"; "richaudience"; "rise"; "roulax"; "rtbhouse"; "rubicon"; "seedingAlliance";
  "seedtag"; "sa_lunamedia"; "sharethrough"; "showheroes"; "silvermob"; "silverpush"; "smaato";
  "smartadserver"; "smarthub"; "smartrtb"; "smartx"; "smartyads"; "smilewanted"; "smoot"; "smrtconnect";
  "sonobi"; "sovrn"; "sovrnXsp"; "sparteo"; "sspBC"; "startio"; "stroeerCore"; "taboola"; "tappx"; "teads";
  "telaria"; "teqblaze"; "theadx"; "thetradedesk"; "tpmn"; "tradplus"; "trafficgate"; "triplelift";
  "triplelift_native"; "trustedstack"; "trustx"; "ucfunnel"; "undertone"; "unicorn"; "unruly"; "vidazoo";
  "videobyte"; "videoheroes"; "vidoomy"; "visiblemeasures"; "visx"; "vox"; "vrtcal"; "vungle"; "xeworks";
  "yahooAds"; "yandex"; "yeahmobi"; "yieldlab"; "yieldmo"; "yieldone"; "zentotem"; "zeroclickfraud";
  "zeta_global_ssp"; "zmaticoo"].
(** The constants [BIDDER_RESERVED_...]. *)
Definition RESERVED_NAMES : list string := [
  "all"; "context"; "data"; "general"; "gpid"; "prebid"; "skadn"; "tid"; "ae"; "igs"].
Definition all_core_bidders : list string := CORE_BIDDERS.
Section BidderNames.
Context (to_lowercase : string → string).
Definition bidder_name_map : gmap string string :=
  fold_left (λ map name, <[ to_lowercase name := name ]> map) all_core_bidders ∅.
Definition is_bidder_name_reserved (name : string) : bool := existsb (λ r, eq_ignore_ascii_case r name) RESERVED_NAMES.
Definition is_potential_bidder (name : string) : bool := negb (is_bidder_name_reserved name).
Definition normalize_bidder_name (name : string) : string * bool :=
  match bidder_name_map !! to_lowercase name with Some bn => (bn, true) | None => (name, false) end.
Definition normalize_bidder_name_or_unchanged (name : string) : string := (normalize_bidder_name name).1.
End BidderNames.
Definition build_bidder_map : gmap string string :=
  fold_left (λ map name, <[ name := name ]> map) all_core_bidders ∅.
Definition build_bidder_string_slice : list string := all_core_bidders.
Definition build_bidder_name_hash_set : gset string := list_to_set all_core_bidders.

(** ** The structs of [ext.prebid] *)

Record ExtIncludeBrandCategory : Type := {
  ibc_primary_ad_server : option Z; ibc_publisher : option string; ibc_with_category : option bool;
  ibc_translate_categories : option bool; }.
Record ExtAdjustmentEntry : Type := {
  eae_adjtype : option string; eae_value : option f64; eae_currency : option string; }.
Definition AdjustmentsByDealID : Type := gmap string (list ExtAdjustmentEntry).
Record ExtMediaTypeAdjustments : Type := {
  emta_banner : option (gmap string AdjustmentsByDealID);
  emta_video_instream : option (gmap string AdjustmentsByDealID);
  emta_video_outstream : option (gmap string AdjustmentsByDealID);
  emta_audio : option (gmap string AdjustmentsByDealID);
  emta_native_type : option (gmap string AdjustmentsByDealID);
  emta_wildcard : option (gmap string AdjustmentsByDealID); }.
Record ExtRequestPrebidBidAdjustments : Type := {
  erba_mediatype : option ExtMediaTypeAdjustments; }.
Record ExtRequestPrebidCacheBids : Type := {
  ercb_ttl_seconds : option Z; ercb_return_creative : option bool; }.
Record ExtRequestPrebidCacheVAST : Type := {
  ercv_ttl_seconds : option Z; ercv_return_creative : option bool; }.
Record ExtRequestPrebidCache : Type := {
  erc_bids : option ExtRequestPrebidCacheBids; erc_vastxml : option ExtRequestPrebidCacheVAST;
  erc_winningonly : option bool; }.
Record ExtGranularityRange : Type := {
  egr_min : f64; egr_max : f64; egr_increment : f64; }.
Definition set_egr_min (x : f64) (r : ExtGranularityRange) : ExtGranularityRange := {|
  egr_min := x; egr_max := egr_max r; egr_increment := egr_increment r |}.
Record ExtPriceGranularity : Type := {
  epg_precision : option Z; epg_ranges : option (list ExtGranularityRange); }.
Definition set_epg_precision (x : option Z) (r : ExtPriceGranularity) : ExtPriceGranularity := {|
  epg_precision := x; epg_ranges := epg_ranges r |}.
Definition set_epg_ranges (x : option (list ExtGranularityRange)) (r : ExtPriceGranularity) : ExtPriceGranularity := {|
  epg_precision := epg_precision r; epg_ranges := x |}.
Record MediaTypePriceGranularity : Type := {
  mtpg_banner : option ExtPriceGranularity; mtpg_video : option ExtPriceGranularity;
  mtpg_native_type : option ExtPriceGranularity; }.
Definition set_mtpg_banner (x : option ExtPriceGranularity) (r : MediaTypePriceGranularity) : MediaTypePriceGranularity := {|
  mtpg_banner := x; mtpg_video := mtpg_video r; mtpg_native_type := mtpg_native_type r |}.
Definition set_mtpg_video (x : option ExtPriceGranularity) (r : MediaTypePriceGranularity) : MediaTypePriceGranularity := {|
  mtpg_banner := mtpg_banner r; mtpg_video := x; mtpg_native_type := mtpg_native_type r |}.
Definition set_mtpg_native_type (x : option ExtPriceGranularity) (r : MediaTypePriceGranularity) : MediaTypePriceGranularity := {|
  mtpg_banner := mtpg_banner r; mtpg_video := mtpg_video r; mtpg_native_type := x |}.
Record ExtRequestTargeting : Type := {
  ert_pricegranularity : option ExtPriceGranularity;
  ert_mediatypepricegranularity : option MediaTypePriceGranularity; ert_currency : option string;
  ert_includebrandcategory : option ExtIncludeBrandCategory; ert_includeformat : option bool;
  ert_durationrangesec : option (list Z); ert_preferdeals : option bool; ert_includewinners : option bool;
  ert_includebidderkeys : option bool; ert_truncateattrvalue : option Z; ert_appendbiddernames : option bool;
  ert_alwaysincludedeals : option bool; ert_prefix : option string; }.
Definition set_ert_pricegranularity (x : option ExtPriceGranularity) (r : ExtRequestTargeting) : ExtRequestTargeting := {|
  ert_pricegranularity := x; ert_mediatypepricegranularity := ert_mediatypepricegranularity r;
  ert_currency := ert_currency r; ert_includebrandcategory := ert_includebrandcategory r;
  ert_includeformat := ert_includeformat r; ert_durationrangesec := ert_durationrangesec r;
  ert_preferdeals := ert_preferdeals r; ert_includewinners := ert_includewinners r;
  ert_includebidderkeys := ert_includebidderkeys r; ert_truncateattrvalue := ert_truncateattrvalue r;
  ert_appendbiddernames := ert_appendbiddernames r; ert_alwaysincludedeals := ert_alwaysincludedeals r;
  ert_prefix := ert_prefix r |}.
Definition set_ert_mediatypepricegranularity (x : option MediaTypePriceGranularity) (r : ExtRequestTargeting) : ExtRequestTargeting := {|
  ert_pricegranularity := ert_pricegranularity r; ert_mediatypepricegranularity := x;
  ert_currency := ert_currency r; ert_includebrandcategory := ert_includebrandcategory r;
  ert_includeformat := ert_includeformat r; ert_durationrangesec := ert_durationrangesec r;
  ert_preferdeals := ert_preferdeals r; ert_includewinners := ert_includewinners r;
  ert_includebidderkeys := ert_includebidderkeys r; ert_truncateattrvalue := ert_truncateattrvalue r;
  ert_appendbiddernames := ert_appendbiddernames r; ert_alwaysincludedeals := ert_alwaysincludedeals r;
  ert_prefix := ert_prefix r |}.
Definition set_ert_includewinners (x : option bool) (r : ExtRequestTargeting) : ExtRequestTargeting := {|
  ert_pricegranularity := ert_pricegranularity r;
  ert_mediatypepricegranularity := ert_mediatypepricegranularity r; ert_currency := ert_currency r;
  ert_includebrandcategory := ert_includebrandcategory r; ert_includeformat := ert_includeformat r;
  ert_durationrangesec := ert_durationrangesec r; ert_preferdeals := ert_preferdeals r;
  ert_includewinners := x; ert_includebidderkeys := ert_includebidderkeys r;
  ert_truncateattrvalue := ert_truncateattrvalue r; ert_appendbiddernames := ert_appendbiddernames r;
  ert_alwaysincludedeals := ert_alwaysincludedeals r; ert_prefix := ert_prefix r |}.
Definition set_ert_includebidderkeys (x : option bool) (r : ExtRequestTargeting) : ExtRequestTargeting := {|
  ert_pricegranularity := ert_pricegranularity r;
  ert_mediatypepricegranularity := ert_mediatypepricegranularity r; ert_currency := ert_currency r;
  ert_includebrandcategory := ert_includebrandcategory r; ert_includeformat := ert_includeformat r;
  ert_durationrangesec := ert_durationrangesec r; ert_preferdeals := ert_preferdeals r;
  ert_includewinners := ert_includewinners r; ert_includebidderkeys := x;
  ert_truncateattrvalue := ert_truncateattrvalue r; ert_appendbiddernames := ert_appendbiddernames r;
  ert_alwaysincludedeals := ert_alwaysincludedeals r; ert_prefix := ert_prefix r |}.
Record ExtRequestPrebidChannel : Type := {
  erch_name : string; erch_version : string; }.
Record ExtRequestSdkRenderer : Type := {
  esr_name : string; esr_version : option string; esr_data : option Value; }.
Record ExtRequestSdk : Type := {
  esdk_renderers : option (list ExtRequestSdkRenderer); esdk_source : option string;
  esdk_version : option string; }.
Record ExtRequestPrebidDataEidPermission : Type := {
  eep_source : string; eep_bidders : list string; }.
Record ExtRequestPrebidData : Type := {
  erd_eidpermissions : option (list ExtRequestPrebidDataEidPermission); erd_bidders : option (list string); }.
Record ExtPrebidSChain : Type := {
  eps_bidders : option (list string); eps_schain : SupplyChain; }.
Record ExtPriceFloorEndpoint : Type := {
  epfe_url : option string; }.
Record ExtPriceFloorEnforcement : Type := {
  epfn_enforce_pbs : option bool; epfn_floor_deals : option bool; epfn_bid_adjustment : option bool;
  epfn_enforce_rate : option Z; }.
Record ExtPriceFloorSchema : Type := {
  epfs_fields : option (list string); epfs_delimiter : option string; }.
Record ExtPriceFloorModelGroup : Type := {
  epfm_currency : option string; epfm_model_weight : option Z; epfm_skip_rate : option Z;
  epfm_schema : option ExtPriceFloorSchema; epfm_values : option (gmap string f64);
  epfm_default_floor : option f64; }.
Record ExtPriceFloorData : Type := {
  epfd_currency : option string; epfd_skip_rate : option Z;
  epfd_model_groups : option (list ExtPriceFloorModelGroup); }.
Record ExtPriceFloorRules : Type := {
  epfr_floor_min : option f64; epfr_floor_min_cur : option string; epfr_skip_rate : option Z;
  epfr_location : option ExtPriceFloorEndpoint; epfr_data : option ExtPriceFloorData;
  epfr_enforcement : option ExtPriceFloorEnforcement; epfr_enabled : option bool; epfr_skipped : option bool;
  epfr_floor_provider : option string; epfr_fetch_status : option string;
  epfr_price_floor_location : option string; }.
Record ExtRequestPrebidServer : Type := {
  ersv_externalurl : option string; ersv_gvlid : option Z; ersv_datacenter : option string; }.
Record ExtRequestCurrency : Type := {
  ercu_conversion_rates : option (gmap string (gmap string f64)); ercu_use_pbs_rates : option bool; }.
Record ExtAdapterAlternateBidderCodes : Type := {
  eaa_enabled : option bool; eaa_allowed_bidder_codes : option (list string); }.
Record ExtAlternateBidderCodes : Type := {
  eab_enabled : option bool; eab_bidders : option (gmap string ExtAdapterAlternateBidderCodes); }.
Record ExtRequestPrebid : Type := {
  erp_aliases : option (gmap string string); erp_aliasgvlids : option (gmap string Z);
  erp_bidadjustmentfactors : option (gmap string f64);
  erp_bidadjustments : option ExtRequestPrebidBidAdjustments; erp_bidderparams : option Value;
  erp_cache : option ExtRequestPrebidCache; erp_channel : option ExtRequestPrebidChannel;
  erp_currency : option ExtRequestCurrency; erp_data : option ExtRequestPrebidData; erp_debug : option bool;
  erp_events : option Value; erp_floors : option ExtPriceFloorRules; erp_integration : option string;
  erp_multibid : option (list ExtMultiBid); erp_passthrough : option Value;
  erp_schains : option (list ExtPrebidSChain); erp_sdk : option ExtRequestSdk;
  erp_server : option ExtRequestPrebidServer; erp_storedrequest : option ExtStoredRequest;
  erp_supportdeals : option bool; erp_targeting : option ExtRequestTargeting;
  erp_alternatebiddercodes : option ExtAlternateBidderCodes; erp_adservertargeting : option Value;
  erp_analytics : option (gmap string Value); erp_bidderconfig : option Value; erp_experiment : option Value;
  erp_macros : option (gmap string string); erp_nosale : option (list string);
  erp_returnallbidstatus : option bool; erp_trace : option string;
  erp_biddercontrols : option (gmap string Value); }.
Definition set_erp_targeting (x : option ExtRequestTargeting) (r : ExtRequestPrebid) : ExtRequestPrebid := {|
  erp_aliases := erp_aliases r; erp_aliasgvlids := erp_aliasgvlids r;
  erp_bidadjustmentfactors := erp_bidadjustmentfactors r; erp_bidadjustments := erp_bidadjustments r;
  erp_bidderparams := erp_bidderparams r; erp_cache := erp_cache r; erp_channel := erp_channel r;
  erp_currency := erp_currency r; erp_data := erp_data r; erp_debug := erp_debug r;
  erp_events := erp_events r; erp_floors := erp_floors r; erp_integration := erp_integration r;
  erp_multibid := erp_multibid r; erp_passthrough := erp_passthrough r; erp_schains := erp_schains r;
  erp_sdk := erp_sdk r; erp_server := erp_server r; erp_storedrequest := erp_storedrequest r;
  erp_supportdeals := erp_supportdeals r; erp_targeting := x;
  erp_alternatebiddercodes := erp_alternatebiddercodes r; erp_adservertargeting := erp_adservertargeting r;
  erp_analytics := erp_analytics r; erp_bidderconfig := erp_bidderconfig r;
  erp_experiment := erp_experiment r; erp_macros := erp_macros r; erp_nosale := erp_nosale r;
  erp_returnallbidstatus := erp_returnallbidstatus r; erp_trace := erp_trace r;
  erp_biddercontrols := erp_biddercontrols r |}.

(** ** Methods *)

Definition bid_type_parse (s : string) : string + BidType :=
  if bool_decide (s = "banner") then inr BtBanner else if bool_decide (s = "video") then inr BtVideo
  else if bool_decide (s = "audio") then inr BtAudio else if bool_decide (s = "native") then inr BtNative
  else inl ("invalid BidType: " +:+ s).
Definition bid_type_all : list BidType := [BtBanner; BtVideo; BtAudio; BtNative].
Definition price_granularity_new_default : ExtPriceGranularity := {|
  epg_precision := Some 2;
  epg_ranges := Some [{| egr_min := f64_zero; egr_max := f64_of_Z 20; egr_increment := f64_of_dec 1 1 |}] |}.
(** [ExtAlternateBidderCodes::is_valid_bidder_code] *)
Definition is_valid_bidder_code (to_lowercase : string → string) (codes : ExtAlternateBidderCodes)
    (adapter bidder_code : string) : bool * string :=
  let not_found := (false, "adapter " +:+ adapter +:+ " not found in alternateBidderCodes") in
  if negb (default false (eab_enabled codes)) then (false, "alternateBidderCodes disabled") else
  if eq_ignore_ascii_case adapter bidder_code then (true, "") else
  match eab_bidders codes with
  | Some bidders =>
      let lower := bidders !! to_lowercase adapter in
      match (if decide (is_Some lower) then lower else bidders !! adapter) with
      | Some adapter_cfg =>
          if negb (default false (eaa_enabled adapter_cfg))
          then (false, "alternateBidderCodes disabled for adapter " +:+ adapter) else
          match eaa_allowed_bidder_codes adapter_cfg with
          | Some allowed =>
              if existsb (λ c, bool_decide (c = "*")) allowed || existsb (λ c, eq_ignore_ascii_case c bidder_code) allowed
              then (true, "")
              else (false, "bidder code " +:+ bidder_code +:+ " not allowed for adapter " +:+ adapter)
          | None => (false, "no allowed bidder codes configured for adapter " +:+ adapter)
          end
      | None => not_found
      end
  | None => not_found
  end.

(** ** Bidder names, read in any case *)

Lemma core_lower_distinct : NoDup (to_ascii_lowercase <$> CORE_BIDDERS).
Proof. apply (bool_decide_unpack _). by vm_compute. Qed.
Lemma core_not_reserved : Forall (λ n, is_potential_bidder n = true) CORE_BIDDERS.
Proof. apply (bool_decide_unpack _). by vm_compute. Qed.
(** A map built by inserting values under distinct keys has each of them. *)
Lemma prebid_fold_insert_lookup {A} (f : A → string) (l : list A) (m : gmap string A) k : NoDup (f <$> l) →
  fold_left (λ m a, <[ f a := a ]> m) l m !! k =
    match List.find (λ a, bool_decide (f a = k)) l with Some a => Some a | None => m !! k end.
Proof.
  revert m. induction l as [|a l IH]; intros m Hd; [done|]. cbn [fmap list_fmap] in Hd. apply NoDup_cons in Hd as [Ha Hd].
  cbn [fold_left List.find]. rewrite IH by done. case_bool_decide as Hk.
  - subst k. destruct (List.find _ l) as [b|] eqn:Hb; [|by rewrite lookup_insert_eq].
    apply find_some in Hb as [Hb He]. case_bool_decide as He'; [|done]. destruct Ha. rewrite <-He'.
    apply list_elem_of_fmap_2, list_elem_of_In, Hb.
  - destruct (List.find _ l); [done|]. by rewrite lookup_insert_ne.
Qed.
Section Normalize.
Context (to_lowercase : string → string).
(** [to_lowercase] is the ASCII one on ASCII texts. *)
Context (lower_ascii : ∀ s, ascii_text s → to_lowercase s = to_ascii_lowercase s).
Lemma core_ascii : Forall ascii_text CORE_BIDDERS.
Proof. apply (bool_decide_unpack _). by vm_compute. Qed.
(** A name is normalized to the core bidder that is the same name in lower case;
    any ASCII spelling of a core bidder is found, a core bidder is its own
    normal form, and no core bidder is a reserved name. *)
Theorem normalize_bidder_name_spec name :
  normalize_bidder_name to_lowercase name =
    match List.find (λ n, bool_decide (to_ascii_lowercase n = to_lowercase name)) CORE_BIDDERS with
    | Some n => (n, true) | None => (name, false)
    end ∧
  (∀ n, n ∈ CORE_BIDDERS → ascii_text name → eq_ignore_ascii_case n name = true →
    normalize_bidder_name to_lowercase name = (n, true)) ∧
  (∀ n, normalize_bidder_name to_lowercase name = (n, true) →
    n ∈ CORE_BIDDERS ∧ is_potential_bidder n = true ∧ normalize_bidder_name to_lowercase n = (n, true)).
Proof.
  assert (Hmap : ∀ key, bidder_name_map to_lowercase !! key =
    List.find (λ n, bool_decide (to_ascii_lowercase n = key)) CORE_BIDDERS).
  { intros key. pose proof core_ascii as Ha. unfold bidder_name_map, all_core_bidders.
    assert (Hf : ∀ l (m : gmap string string), Forall ascii_text l →
      fold_left (λ map name, <[ to_lowercase name := name ]> map) l m =
      fold_left (λ map name, <[ to_ascii_lowercase name := name ]> map) l m).
    { induction l as [|x l IH]; intros m Hl; [done|]. apply Forall_cons in Hl as [Hx Hl]. cbn. by rewrite (lower_ascii _ Hx), IH. }
    rewrite Hf, (prebid_fold_insert_lookup to_ascii_lowercase) by (done || apply core_lower_distinct).
    by destruct (List.find _ _). }
  assert (Hfound : ∀ n s, n ∈ CORE_BIDDERS → to_lowercase s = to_ascii_lowercase n → normalize_bidder_name to_lowercase s = (n, true)).
  { intros n s Hn Hs. unfold normalize_bidder_name. rewrite Hmap, Hs.
    destruct (List.find _ _) as [n'|] eqn:Hx.
    - apply find_some in Hx as [Hx He]. case_bool_decide as He'; [|done]. f_equal.
      apply list_elem_of_In in Hx. pose proof core_lower_distinct as Hd.
      apply list_elem_of_lookup in Hx as [i Hi]. apply list_elem_of_lookup in Hn as [j Hj].
      assert (i = j); [|congruence]. eapply (NoDup_lookup _ i j _ Hd); rewrite list_lookup_fmap; [by rewrite Hi|].
      rewrite Hj. cbn. by rewrite He'.
    - apply list_elem_of_In, (find_none _ _ Hx) in Hn. by rewrite bool_decide_eq_true_2 in Hn. }
  assert (Hcore : ∀ n, n ∈ CORE_BIDDERS → to_lowercase n = to_ascii_lowercase n).
  { intros n Hn. apply lower_ascii. pose proof core_ascii as Ha. rewrite Forall_forall in Ha. auto. }
  split_and!.
  - unfold normalize_bidder_name. by rewrite Hmap.
  - intros n Hn Ha He. apply Hfound; [done|]. rewrite lower_ascii by done. unfold eq_ignore_ascii_case in He. by case_bool_decide.
  - intros n. unfold normalize_bidder_name at 1. rewrite Hmap. destruct (List.find _ _) as [n'|] eqn:Hx; [|done]. intros [= ->].
    apply find_some in Hx as [Hx%list_elem_of_In _]. split_and!; [done| |by apply Hfound, Hcore].
    pose proof core_not_reserved as Hr. rewrite Forall_forall in Hr. auto.
Qed.
End Normalize.

(** ** Alternate bidder codes *)

Definition adapter_codes (to_lowercase : string → string) (codes : ExtAlternateBidderCodes) (adapter : string)
    : option ExtAdapterAlternateBidderCodes :=
  bidders ← eab_bidders codes;
  match bidders !! to_lowercase adapter with Some c => Some c | None => bidders !! adapter end.
(** A code is valid for an adapter when the feature is enabled and the code is the
    adapter's own name, in any case, or its settings are enabled and name the code,
    in any case, or the wildcard; a refusal, and nothing else, has a message. *)
Theorem is_valid_bidder_code_spec to_lowercase codes adapter code :
  ((is_valid_bidder_code to_lowercase codes adapter code).1 = true ↔
    eab_enabled codes = Some true ∧
    (eq_ignore_ascii_case adapter code = true ∨
     ∃ cfg allowed, adapter_codes to_lowercase codes adapter = Some cfg ∧ eaa_enabled cfg = Some true ∧
       eaa_allowed_bidder_codes cfg = Some allowed ∧
       ("*" ∈ allowed ∨ ∃ c, c ∈ allowed ∧ eq_ignore_ascii_case c code = true))) ∧
  ((is_valid_bidder_code to_lowercase codes adapter code).1 = true ↔
   (is_valid_bidder_code to_lowercase codes adapter code).2 = "").
Proof.
  unfold is_valid_bidder_code, adapter_codes.
  destruct (eab_enabled codes) as [[]|]; cbn [default negb]; [|split; naive_solver..].
  destruct (eq_ignore_ascii_case adapter code); [split; naive_solver|].
  destruct (eab_bidders codes) as [bidders|]; cbn; [|split; naive_solver].
  assert (Hl : (if decide (is_Some (bidders !! to_lowercase adapter)) then bidders !! to_lowercase adapter else bidders !! adapter) =
    match bidders !! to_lowercase adapter with Some c => Some c | None => bidders !! adapter end).
  { destruct (bidders !! to_lowercase adapter); [by rewrite decide_True|]. rewrite decide_False; [done|]. by intros [? ?]. }
  rewrite Hl. destruct (match _ with Some c => Some c | None => _ end) as [cfg|]; [|split; naive_solver].
  destruct (eaa_enabled cfg) as [[]|] eqn:He; cbn [default negb]; [|split; naive_solver..].
  destruct (eaa_allowed_bidder_codes cfg) as [allowed|] eqn:Ha; [|split; naive_solver].
  assert (Hx : existsb (λ c, bool_decide (c = "*")) allowed || existsb (λ c, eq_ignore_ascii_case c code) allowed = true ↔
    "*" ∈ allowed ∨ ∃ c, c ∈ allowed ∧ eq_ignore_ascii_case c code = true).
  { rewrite orb_true_iff, !existsb_exists. setoid_rewrite <-list_elem_of_In. setoid_rewrite bool_decide_eq_true. naive_solver. }
  destruct (_ || _); split; naive_solver.
Qed.
