(* ===== verification/OrtbCrate.v ===== *)
(** * The ortb crate and the request's defaults

    ortb/src/validate.rs: the crate's own impression validator, which the exchange's
    ([RequestValidator]) extends; ortb/src/default.rs and exchange/src/defaults.rs:
    the defaults a request is given.  The functions of the crate are prefixed with
    [ortb_] where the exchange has one of the same name.  The clone functions of both
    (ortb/src/clone.rs, exchange/src/clone.rs) copy field by field: on values they are
    the identity.

    serde's conversions of [ext.prebid] are the class [PrebidSerde]. *)

From S2P Require Import Prelude Json OpenRtb RequestValidator StoredResponses ExtPrebid.
Open Scope Z_scope.

(** ** validate.rs *)

Definition ortb_validate_format (format : Format) (imp_index format_index : Z) : outcome string () :=
  let w := default 0 (fmt_w format) in
  let h := default 0 (fmt_h format) in
  let wmin := default 0 (fmt_wmin format) in
  let wratio := default 0 (fmt_wratio format) in
  let hratio := default 0 (fmt_hratio format) in
  let uses_hw := negb (w =? 0) || negb (h =? 0) in
  let uses_ratios := negb (wmin =? 0) || negb (wratio =? 0) || negb (hratio =? 0) in
  let place := "imp[" +:+ pretty imp_index +:+ "].banner.format[" +:+ pretty format_index +:+ "]" in
  _ ← reject_if (w <? 0) ("request." +:+ place +:+ ".w must be a positive number");
  _ ← reject_if (h <? 0) ("request." +:+ place +:+ ".h must be a positive number");
  _ ← reject_if (wratio <? 0) ("request." +:+ place +:+ ".wratio must be a positive number");
  _ ← reject_if (hratio <? 0) ("request." +:+ place +:+ ".hratio must be a positive number");
  _ ← reject_if (wmin <? 0) ("request." +:+ place +:+ ".wmin must be a positive number");
  _ ← reject_if (uses_hw && uses_ratios) ("Request " +:+ place +:+
    " should define *either* {w, h} *or* {wmin, wratio, hratio}, but not both. If both are valid, send two " +:+
    dq +:+ "format" +:+ dq +:+ " objects in the request.");
  _ ← reject_if (negb uses_hw && negb uses_ratios) ("Request " +:+ place +:+
    " should define *either* {w, h} (for static size requirements) *or* {wmin, wratio, hratio} (for flexible sizes) to be non-zero.");
  _ ← reject_if (uses_hw && ((w =? 0) || (h =? 0))) ("Request " +:+ place +:+ " must define non-zero " +:+
    dq +:+ "h" +:+ dq +:+ " and " +:+ dq +:+ "w" +:+ dq +:+ " properties.");
  _ ← reject_if (uses_ratios && ((wmin =? 0) || (wratio =? 0) || (hratio =? 0))) ("Request " +:+ place +:+
    " must define non-zero " +:+ dq +:+ "wmin" +:+ dq +:+ ", " +:+ dq +:+ "wratio" +:+ dq +:+ ", and " +:+
    dq +:+ "hratio" +:+ dq +:+ " properties.");
  Ok ().
Definition ortb_validate_banner (banner : option Banner) (imp_index : Z) (is_interstitial : bool) : outcome string () :=
  match banner with
  | None => Ok ()
  | Some banner =>
      let at_imp := "request.imp[" +:+ pretty imp_index +:+ "].banner" in
      let deprecated (field : string) := at_imp +:+ " uses unsupported property: " +:+ dq +:+ field +:+ dq +:+
        ". Use the " +:+ dq +:+ "format" +:+ dq +:+ " array instead." in
      _ ← match ban_w banner with Some w => reject_if (w <? 0) (at_imp +:+ ".w must be a positive number") | None => Ok () end;
      _ ← match ban_h banner with Some h => reject_if (h <? 0) (at_imp +:+ ".h must be a positive number") | None => Ok () end;
      _ ← reject_if (negb (default 0 (ban_wmin banner) =? 0)) (deprecated "wmin");
      _ ← reject_if (negb (default 0 (ban_wmax banner) =? 0)) (deprecated "wmax");
      _ ← reject_if (negb (default 0 (ban_hmin banner) =? 0)) (deprecated "hmin");
      _ ← reject_if (negb (default 0 (ban_hmax banner) =? 0)) (deprecated "hmax");
      let has_root_size :=
        match ban_w banner with Some w => 0 <? w | None => false end &&
        match ban_h banner with Some h => 0 <? h | None => false end in
      let has_formats := match ban_format banner with Some f => negb (bool_decide (f = [])) | None => false end in
      _ ← reject_if (negb has_root_size && negb has_formats && negb is_interstitial)
        (at_imp +:+ " has no sizes. Define " +:+ dq +:+ "w" +:+ dq +:+ " and " +:+ dq +:+ "h" +:+ dq +:+
         ", or include " +:+ dq +:+ "format" +:+ dq +:+ " elements.");
      match ban_format banner with
      | Some formats => check_all (λ format i, ortb_validate_format format imp_index i) formats 0
      | None => Ok ()
      end
  end.
Definition no_mimes (mimes : option (list string)) : bool :=
  match mimes with Some m => bool_decide (m = []) | None => true end.
Definition ortb_validate_video (video : option Video) (imp_index : Z) : outcome string () :=
  match video with
  | None => Ok ()
  | Some video =>
      let at_imp := "request.imp[" +:+ pretty imp_index +:+ "].video" in
      _ ← reject_if (no_mimes (vid_mimes video)) (at_imp +:+ ".mimes must contain at least one supported MIME type");
      _ ← match vid_w video with Some w => reject_if (w <? 0) (at_imp +:+ ".w must be a positive number") | None => Ok () end;
      _ ← match vid_h video with Some h => reject_if (h <? 0) (at_imp +:+ ".h must be a positive number") | None => Ok () end;
      _ ← reject_if (default 0 (vid_minbitrate video) <? 0) (at_imp +:+ ".minbitrate must be a positive number");
      _ ← reject_if (default 0 (vid_maxbitrate video) <? 0) (at_imp +:+ ".maxbitrate must be a positive number");
      Ok ()
  end.
Definition ortb_validate_audio (audio : option Audio) (imp_index : Z) : outcome string () :=
  match audio with
  | None => Ok ()
  | Some audio =>
      let at_imp := "request.imp[" +:+ pretty imp_index +:+ "].audio" in
      _ ← reject_if (no_mimes (aud_mimes audio)) (at_imp +:+ ".mimes must contain at least one supported MIME type");
      _ ← reject_if (default 0 (aud_sequence audio) <? 0) (at_imp +:+ ".sequence must be a positive number");
      _ ← reject_if (default 0 (aud_maxseq audio) <? 0) (at_imp +:+ ".maxseq must be a positive number");
      _ ← reject_if (default 0 (aud_minbitrate audio) <? 0) (at_imp +:+ ".minbitrate must be a positive number");
      _ ← reject_if (default 0 (aud_maxbitrate audio) <? 0) (at_imp +:+ ".maxbitrate must be a positive number");
      Ok ()
  end.
Definition ortb_validate_pmp (pmp : option Pmp) (imp_index : Z) : outcome string () :=
  match pmp with
  | None => Ok ()
  | Some pmp =>
      check_all (λ deal deal_index, reject_if (str_is_empty (deal_id deal))
        ("request.imp[" +:+ pretty imp_index +:+ "].pmp.deals[" +:+ pretty deal_index +:+
         "] missing required field: " +:+ dq +:+ "id" +:+ dq)) (pmp_deals pmp) 0
  end.
Definition ortb_validate_imp (imp : Imp) (index : Z) : list string :=
  if str_is_empty (imp_id imp) then ["request.imp[" +:+ pretty index +:+ "] missing required field: " +:+ dq +:+ "id" +:+ dq] else
  if bool_decide (imp_banner imp = None) && bool_decide (imp_video imp = None) &&
     bool_decide (imp_audio imp = None) && bool_decide (imp_native imp = None)
  then ["request.imp[" +:+ pretty index +:+ "] must contain at least one of " +:+ dq +:+ "banner" +:+ dq +:+ ", " +:+
        dq +:+ "video" +:+ dq +:+ ", " +:+ dq +:+ "audio" +:+ dq +:+ ", or " +:+ dq +:+ "native" +:+ dq] else
  let is_interstitial := bool_decide (imp_instl imp = Some 1) in
  match ortb_validate_banner (imp_banner imp) index is_interstitial with Err e => [e] | _ =>
  match ortb_validate_video (imp_video imp) index with Err e => [e] | _ =>
  match ortb_validate_audio (imp_audio imp) index with Err e => [e] | _ =>
  match ortb_validate_pmp (imp_pmp imp) index with Err e => [e] | _ => [] end end end end.

(** ** default.rs *)

Definition DEFAULT_PRICE_GRANULARITY_PRECISION : Z := 2.
Definition DEFAULT_TARGETING_INCLUDE_WINNERS : bool := true.
Definition DEFAULT_TARGETING_INCLUDE_BIDDER_KEYS : bool := true.
Definition DEFAULT_SECURE : Z := 1.
(** One turn of the loop over [&mut imps]. *)
Definition secure_imp (imp : Imp) : Imp * bool :=
  match imp_secure imp with None => (set_imp_secure (Some DEFAULT_SECURE) imp, true) | Some _ => (imp, false) end.
Definition set_defaults_imp (imps : list Imp) : list Imp * bool :=
  ((secure_imp <$> imps).*1, existsb snd (secure_imp <$> imps)).
Definition tmax_unset (req : BidRequest) : bool :=
  match req_tmax req with None => true | Some t => t =? 0 end.
Definition set_default_tmax (req : BidRequest) (default_tmax : Z) : BidRequest :=
  if tmax_unset req then set_req_tmax (Some default_tmax) req else req.

(** ** exchange/src/defaults.rs *)

(** The loop that makes the ranges continuous. *)
Fixpoint join_ranges (prev_max : f64) (ranges : list ExtGranularityRange) : list ExtGranularityRange * bool :=
  match ranges with
  | [] => ([], false)
  | range :: ranges' =>
      let '(range, moved) :=
        if negb (f64_eqb (egr_min range) prev_max) then (set_egr_min prev_max range, true) else (range, false) in
      let '(ranges', modified) := join_ranges (egr_max range) ranges' in
      (range :: ranges', moved || modified)
  end.
Definition default_ranges : list ExtGranularityRange :=
  [{| egr_min := f64_zero; egr_max := f64_of_Z 20; egr_increment := f64_of_dec 1 1 |}].
Definition set_defaults_price_granularity (pg : ExtPriceGranularity) : ExtPriceGranularity * bool :=
  let '(pg, m1) := match epg_precision pg with
    | None => (set_epg_precision (Some DEFAULT_PRICE_GRANULARITY_PRECISION) pg, true) | Some _ => (pg, false) end in
  let '(pg, m2) := if match epg_ranges pg with Some (_ :: _) => false | _ => true end
    then (set_epg_ranges (Some default_ranges) pg, true) else (pg, false) in
  let '(pg, m3) := match epg_ranges pg with
    | Some ranges => let '(ranges, m) := join_ranges f64_zero ranges in (set_epg_ranges (Some ranges) pg, m)
    | None => (pg, false) end in
  (pg, m1 || m2 || m3).
(** [if let Some(ref mut pg) = o { if set_defaults_price_granularity(pg) {..} }] *)
Definition default_granularity (o : option ExtPriceGranularity) : option ExtPriceGranularity * bool :=
  match o with
  | Some pg => let '(pg, m) := set_defaults_price_granularity pg in (Some pg, m)
  | None => (None, false)
  end.
Definition default_media_type_granularity (mtpg : MediaTypePriceGranularity) : MediaTypePriceGranularity * bool :=
  let '(video, m1) := default_granularity (mtpg_video mtpg) in
  let '(banner, m2) := default_granularity (mtpg_banner mtpg) in
  let '(native, m3) := default_granularity (mtpg_native_type mtpg) in
  ({| mtpg_banner := banner; mtpg_video := video; mtpg_native_type := native |}, m1 || m2 || m3).
Definition set_defaults_targeting (t : ExtRequestTargeting) : ExtRequestTargeting * bool :=
  let '(pg, m1) := match ert_pricegranularity t with
    | Some pg => default_granularity (Some pg)
    | None => (Some price_granularity_new_default, true) end in
  let '(mtpg, m2) := match ert_mediatypepricegranularity t with
    | Some mtpg => let '(mtpg, m) := default_media_type_granularity mtpg in (Some mtpg, m)
    | None => (None, false) end in
  let '(winners, m3) := match ert_includewinners t with
    | None => (Some DEFAULT_TARGETING_INCLUDE_WINNERS, true) | Some b => (Some b, false) end in
  let '(bidder_keys, m4) := match ert_includebidderkeys t with
    | None => (Some DEFAULT_TARGETING_INCLUDE_BIDDER_KEYS, true) | Some b => (Some b, false) end in
  (set_ert_pricegranularity pg (set_ert_mediatypepricegranularity mtpg (set_ert_includewinners winners
     (set_ert_includebidderkeys bidder_keys t))), m1 || m2 || m3 || m4).

(** serde_json's [from_value] and [to_value] at [ExtRequestPrebid]. *)
Class PrebidSerde : Type := {
  prebid_from_value : Value → option ExtRequestPrebid;
  prebid_to_value : ExtRequestPrebid → option Value }.
(** The block under [if let Some(ref mut ext) = req.ext]. *)
Definition default_ext `{PrebidSerde} (ext : Value) : Value * bool :=
  match prebid_from_value (default VNull (get "prebid" ext)) with
  | Some prebid =>
      match erp_targeting prebid with
      | Some targeting =>
          let '(targeting, targeting_modified) := set_defaults_targeting targeting in
          if targeting_modified then
            match prebid_to_value (set_erp_targeting (Some targeting) prebid) with
            | Some prebid_val =>
                (match ext with VObject m => VObject (obj_insert "prebid" prebid_val m) | _ => ext end, true)
            | None => (ext, false)
            end
          else (ext, false)
      | None => (ext, false)
      end
  | None => (ext, false)
  end.
Definition set_defaults `{PrebidSerde} (req : BidRequest) (default_tmax : Z) : BidRequest * bool :=
  let '(req, m1) := if tmax_unset req then (set_req_tmax (Some default_tmax) req, true) else (req, false) in
  let '(imps, m2) := set_defaults_imp (req_imp req) in
  let req := set_req_imp imps req in
  let '(req, m3) := match req_ext req with
    | Some ext => let '(ext, m) := default_ext ext in (set_req_ext (Some ext) req, m)
    | None => (req, false) end in
  (req, m1 || m2 || m3).

(** ** The two validators *)

(** Messages, put together differently. *)
Ltac messages := unfold not_positive, unsupported, in_format, in_imp; rewrite ?str_app_assoc; reflexivity.
Definition has_metrics (imp : Imp) : bool := match imp_metric imp with Some (_ :: _) => true | _ => false end.
Lemma reject_then cond msg (k : outcome string ()) : (_ ← reject_if cond msg; k) = if cond then Err msg else k.
Proof. by destruct cond. Qed.
Lemma bind_unit_r (m : outcome string ()) : (_ ← m; Ok ()) = m.
Proof. by destruct m as [[]| |]. Qed.
Lemma check_all_ext {A} (f g : A → Z → outcome string ()) l i : (∀ x j, f x j = g x j) → check_all f l i = check_all g l i.
Proof. intros Hf. revert i. induction l as [|x l IH]; intros i; [done|]. cbn. rewrite Hf. destruct (g x i); cbn; [apply IH|done..]. Qed.
Lemma format_agrees f i j : ortb_validate_format f i j = validate_format f i j.
Proof. unfold ortb_validate_format, validate_format. rewrite !reject_then. messages. Qed.
Lemma reject_negative o msg :
  match o with Some w => reject_if (w <? 0) msg | None => Ok () end = reject_if (negative o) msg.
Proof. by destruct o. Qed.
Lemma default_negative o : (default 0 o <? 0) = negative o.
Proof. by destruct o. Qed.
Lemma no_mimes_has o : no_mimes o = negb (has_mimes o).
Proof. by destruct o as [[|? ?]|]. Qed.
Lemma root_size_agrees b : match ban_w b with Some w => 0 <? w | None => false end &&
  match ban_h b with Some h => 0 <? h | None => false end = has_root_size b.
Proof. unfold has_root_size. by destruct (ban_w b), (ban_h b); rewrite ?andb_false_r. Qed.
Lemma banner_agrees b i inst : ortb_validate_banner b i inst = on_some (λ b, rv_validate_banner b i inst) b.
Proof.
  destruct b as [b|]; [|done]. cbn [ortb_validate_banner on_some]. unfold rv_validate_banner.
  rewrite !reject_negative, root_size_agrees.
  assert (Hf : match ban_format b with Some f => check_all (λ format j, ortb_validate_format format i j) f 0 | None => Ok () end =
    check_all (λ format j, validate_format format i j) (default [] (ban_format b)) 0).
  { destruct (ban_format b); [|done]. apply check_all_ext. intros. apply format_agrees. }
  rewrite Hf.
  assert (Hn : negb match ban_format b with Some f => negb (bool_decide (f = [])) | None => false end =
    bool_decide (default [] (ban_format b) = [])).
  { by destruct (ban_format b) as [[|? ?]|]. }
  rewrite Hn, !reject_then. messages.
Qed.
Lemma video_agrees v i : ortb_validate_video v i = on_some (λ v, rv_validate_video v i) v.
Proof.
  destruct v as [v|]; [|done]. cbn [ortb_validate_video on_some]. unfold rv_validate_video.
  rewrite !reject_negative, !default_negative, no_mimes_has, !bind_unit_r, !reject_then. messages.
Qed.
Lemma audio_agrees a i : ortb_validate_audio a i = on_some (λ a, rv_validate_audio a i) a.
Proof.
  destruct a as [a|]; [|done]. cbn [ortb_validate_audio on_some]. unfold rv_validate_audio.
  rewrite !default_negative, no_mimes_has, !bind_unit_r, !reject_then. messages.
Qed.
Lemma pmp_agrees p i : ortb_validate_pmp p i = on_some (λ p, validate_pmp p i) p.
Proof. destruct p as [p|]; [|done]. apply check_all_ext. intros d j. messages. Qed.
(** No check panics. *)
Lemma bind_no_panic (m k : outcome string ()) : m ≠ Panic → k ≠ Panic → (_ ← m; k) ≠ Panic.
Proof. by destruct m. Qed.
Lemma reject_no_panic cond msg : reject_if cond msg ≠ Panic.
Proof. by destruct cond. Qed.
Lemma check_all_no_panic {A} (f : A → Z → outcome string ()) l i : (∀ x j, f x j ≠ Panic) → check_all f l i ≠ Panic.
Proof. intros Hf. revert i. induction l as [|x l IH]; intros i; [done|]. apply bind_no_panic; [apply Hf|apply IH]. Qed.
Lemma format_no_panic f i j : validate_format f i j ≠ Panic.
Proof. unfold validate_format. cbn zeta. repeat apply bind_no_panic; apply reject_no_panic. Qed.
Lemma on_some_no_panic {A} (f : A → outcome string ()) o : (∀ a, f a ≠ Panic) → on_some f o ≠ Panic.
Proof. destruct o; cbn; auto. Qed.
Lemma banner_no_panic b i inst : rv_validate_banner b i inst ≠ Panic.
Proof.
  unfold rv_validate_banner. cbn zeta. repeat apply bind_no_panic; try apply reject_no_panic.
  apply check_all_no_panic. intros. apply format_no_panic.
Qed.
Lemma video_no_panic v i : rv_validate_video v i ≠ Panic.
Proof. unfold rv_validate_video. repeat apply bind_no_panic; apply reject_no_panic. Qed.
Lemma audio_no_panic a i : rv_validate_audio a i ≠ Panic.
Proof. unfold rv_validate_audio. repeat apply bind_no_panic; apply reject_no_panic. Qed.
(** The exchange's validator is the crate's with one check more: an impression with
    an id and with metrics is refused, and on any other the two give the same
    messages, native objects included. *)
Theorem validators_agree imp cfg index :
  validate_imp imp cfg index =
    if negb (str_is_empty (imp_id imp)) && has_metrics imp
    then [in_imp index +:+ ".metric is not yet supported by prebid-server. Support may be added in the future"]
    else ortb_validate_imp imp index.
Proof.
  unfold validate_imp, imp_checks, ortb_validate_imp, validate_imp_ext_placeholder, fill_and_validate_native.
  rewrite banner_agrees, video_agrees, audio_agrees, pmp_agrees, !reject_then. unfold in_imp. rewrite !str_app_assoc.
  destruct (str_is_empty _); [done|]. cbn [negb andb]. unfold has_metrics.
  destruct (match imp_metric imp with Some (_ :: _) => true | _ => false end); [done|].
  destruct (_ && _); [done|].
  assert (Hn : (if vc_skip_native cfg then Ok () else on_some (λ _, Ok ()) (imp_native imp)) = Ok () :> outcome string ()).
  { by destruct (vc_skip_native cfg), (imp_native imp). }
  rewrite Hn. cbn zeta.
  pose proof (on_some_no_panic _ (imp_banner imp) (λ b, banner_no_panic b index (bool_decide (imp_instl imp = Some 1)))) as Hb.
  pose proof (on_some_no_panic _ (imp_video imp) (λ v, video_no_panic v index)) as Hv.
  pose proof (on_some_no_panic _ (imp_audio imp) (λ a, audio_no_panic a index)) as Ha.
  destruct (on_some (λ b, rv_validate_banner b index _) _) as [[]|e|]; [|done..].
  destruct (on_some (λ v, rv_validate_video v index) _) as [[]|e|]; [|done..].
  destruct (on_some (λ a, rv_validate_audio a index) _) as [[]|e|]; [|done..]. cbn.
  by destruct (on_some _ (imp_pmp imp)) as [[]|e|].
Qed.

(** ** The defaults settle *)

Definition ranges_finite (ranges : list ExtGranularityRange) : Prop := Forall (λ r, f64_is_nan (egr_max r) = false) ranges.
Definition granularity_finite (o : option ExtPriceGranularity) : Prop :=
  match o with Some pg => match epg_ranges pg with Some r => ranges_finite r | None => True end | None => True end.
(** The ranges' ends are numbers, as JSON's are. *)
Definition targeting_finite (t : ExtRequestTargeting) : Prop :=
  granularity_finite (ert_pricegranularity t) ∧
  match ert_mediatypepricegranularity t with
  | Some m => granularity_finite (mtpg_video m) ∧ granularity_finite (mtpg_banner m) ∧ granularity_finite (mtpg_native_type m)
  | None => True
  end.
(** Each range begins where the one before it ends. *)
Fixpoint continuous (prev_max : f64) (ranges : list ExtGranularityRange) : Prop :=
  match ranges with
  | [] => True
  | r :: ranges' => f64_eqb (egr_min r) prev_max = true ∧ continuous (egr_max r) ranges'
  end.
Lemma eqb_refl x : f64_is_nan x = false → f64_eqb x x = true.
Proof.
  intros Hx. unfold f64_eqb, SFeqb. destruct x as [| | |s m e]; try done; [by destruct s..|].
  cbn. destruct s; rewrite Z.compare_refl, Pos.compare_refl; done.
Qed.
Lemma join_continuous prev ranges : f64_is_nan prev = false → ranges_finite ranges →
  continuous prev (join_ranges prev ranges).1.
Proof.
  revert prev. induction ranges as [|r ranges IH]; intros prev Hp Hr; [done|]. apply Forall_cons in Hr as [Hm Hr]. cbn.
  destruct (negb (f64_eqb (egr_min r) prev)) eqn:He; cbn [egr_max set_egr_min];
    specialize (IH (egr_max r) Hm Hr); destruct (join_ranges _ ranges) as [ranges' m]; cbn in *.
  - split; [by apply eqb_refl|done].
  - apply negb_false_iff in He. done.
Qed.
Lemma continuous_join prev ranges : continuous prev ranges → join_ranges prev ranges = (ranges, false).
Proof.
  revert prev. induction ranges as [|r ranges IH]; intros prev Hc; [done|]. destruct Hc as [He Hc]. cbn.
  rewrite He. cbn. by rewrite IH.
Qed.
Lemma join_unchanged prev ranges : (join_ranges prev ranges).2 = false → (join_ranges prev ranges).1 = ranges.
Proof.
  revert prev. induction ranges as [|r ranges IH]; intros prev; [done|]. cbn.
  destruct (negb _); cbn [egr_max set_egr_min]; specialize (IH (egr_max r)); destruct (join_ranges _ ranges) as [ranges' m]; cbn in *; [done|].
  intros Hm. by rewrite IH.
Qed.
Definition settled_granularity (pg : ExtPriceGranularity) : Prop :=
  is_Some (epg_precision pg) ∧ ∃ ranges, epg_ranges pg = Some ranges ∧ ranges ≠ [] ∧ continuous f64_zero ranges.
Lemma join_nonempty prev ranges : ranges ≠ [] → (join_ranges prev ranges).1 ≠ [].
Proof. destruct ranges as [|r ranges]; [done|]. intros _. cbn. destruct (negb _), (join_ranges _ ranges); done. Qed.
Lemma granularity_settled pg : granularity_finite (Some pg) → settled_granularity (set_defaults_price_granularity pg).1.
Proof.
  intros Hf. unfold set_defaults_price_granularity, settled_granularity. cbn in Hf.
  destruct pg as [prec ranges]; cbn in *.
  destruct prec as [p|], ranges as [[|r rs]|]; cbn -[join_ranges default_ranges] in *;
    match goal with |- context [join_ranges f64_zero ?l] =>
      assert (Hl : continuous f64_zero (join_ranges f64_zero l).1) by (apply join_continuous; [done|first [exact Hf|by repeat constructor]]);
      assert (Hne : (join_ranges f64_zero l).1 ≠ []) by (by apply join_nonempty);
      destruct (join_ranges f64_zero l) as [l' m]
    end; cbn in *; split; eauto.
Qed.
Lemma settled_unchanged pg : settled_granularity pg → set_defaults_price_granularity pg = (pg, false).
Proof.
  intros [[p Hp] (ranges&Hr&Hne&Hc)]. unfold set_defaults_price_granularity. destruct pg; cbn in *. subst. cbn.
  destruct ranges as [|r rs]; [done|]. cbn -[join_ranges]. by rewrite continuous_join.
Qed.
Definition settled_option (o : option ExtPriceGranularity) : Prop := match o with Some pg => settled_granularity pg | None => True end.
Lemma default_settled o : granularity_finite o → settled_option (default_granularity o).1.
Proof.
  destruct o as [pg|]; [|done]. intros Hf%granularity_settled. cbn. by destruct (set_defaults_price_granularity pg).
Qed.
Lemma settled_default o : settled_option o → default_granularity o = (o, false).
Proof. destruct o as [pg|]; [|done]. intros Hs. cbn. by rewrite settled_unchanged. Qed.
Definition settled_targeting (t : ExtRequestTargeting) : Prop :=
  is_Some (ert_pricegranularity t) ∧ settled_option (ert_pricegranularity t) ∧
  match ert_mediatypepricegranularity t with
  | Some m => settled_option (mtpg_video m) ∧ settled_option (mtpg_banner m) ∧ settled_option (mtpg_native_type m)
  | None => True
  end ∧
  is_Some (ert_includewinners t) ∧ is_Some (ert_includebidderkeys t).
Lemma targeting_settled t : targeting_finite t → settled_targeting (set_defaults_targeting t).1.
Proof.
  intros [Hp Hm]. unfold set_defaults_targeting, settled_targeting.
  assert (H1 : let r := match ert_pricegranularity t with Some pg => default_granularity (Some pg)
      | None => (Some price_granularity_new_default, true) end in is_Some r.1 ∧ settled_option r.1).
  { destruct (ert_pricegranularity t) as [pg|].
    - split; [cbn; by destruct (set_defaults_price_granularity pg)|by apply default_settled].
    - cbn zeta. split; [done|]. cbn [fst settled_option]. split; [done|]. eexists. split_and!; [done..|]. split; [by vm_compute|done]. }
  destruct (match ert_pricegranularity t with Some pg => _ | None => _ end) as [pg m1]. cbn in H1. destruct H1 as [H1 H2].
  assert (H3 : match (match ert_mediatypepricegranularity t with
      | Some mtpg => let '(mtpg, m) := default_media_type_granularity mtpg in (Some mtpg, m) | None => (None, false) end).1 with
    | Some m => settled_option (mtpg_video m) ∧ settled_option (mtpg_banner m) ∧ settled_option (mtpg_native_type m) | None => True end).
  { destruct (ert_mediatypepricegranularity t) as [m|]; [|done]. destruct Hm as (Hv&Hb&Hn).
    apply default_settled in Hv, Hb, Hn. unfold default_media_type_granularity.
    destruct (default_granularity (mtpg_video m)), (default_granularity (mtpg_banner m)), (default_granularity (mtpg_native_type m)). done. }
  destruct (match ert_mediatypepricegranularity t with Some mtpg => _ | None => _ end) as [mtpg m2]. cbn in H3.
  destruct (ert_includewinners t), (ert_includebidderkeys t); cbn; split_and!; done.
Qed.
Lemma settled_targeting_unchanged t : settled_targeting t → set_defaults_targeting t = (t, false).
Proof.
  intros ([pg Hpg]&Hs&Hm&[w Hw]&[b Hb]). unfold set_defaults_targeting. rewrite Hpg in *. rewrite settled_default by done.
  destruct (ert_mediatypepricegranularity t) as [m|] eqn:Hmt.
  - destruct Hm as (Hv&Hbn&Hn). unfold default_media_type_granularity.
    rewrite !settled_default by done. cbn. rewrite Hw, Hb. cbn. destruct t, m; cbn in *. by subst.
  - rewrite Hw, Hb. cbn. destruct t; cbn in *. by subst.
Qed.
Lemma secure_unchanged imps : set_defaults_imp (set_defaults_imp imps).1 = ((set_defaults_imp imps).1, false).
Proof.
  unfold set_defaults_imp. cbn. induction imps as [|imp imps IH]; [done|]. cbn. injection IH as IH1 IH2.
  rewrite IH1, IH2. unfold secure_imp. destruct (imp_secure imp) eqn:Hs; cbn; by rewrite ?Hs.
Qed.

Section SetDefaults.
Context `{PrebidSerde}.
(** The derived conversions: what is written is read back, [null] is no object, and
    JSON has no NaN. *)
Context (serde_roundtrip : ∀ p v, prebid_to_value p = Some v → prebid_from_value v = Some p).
Context (null_refused : prebid_from_value VNull = None).
Context (numbers_finite : ∀ v p t, prebid_from_value v = Some p → erp_targeting p = Some t → targeting_finite t).
Lemma ext_settles ext : default_ext (default_ext ext).1 = ((default_ext ext).1, false).
Proof.
  destruct (default_ext ext) as [ext' m] eqn:He. cbn [fst]. pose proof He as He'. unfold default_ext in He'.
  destruct (prebid_from_value (default VNull (get "prebid" ext))) as [p|] eqn:Hp; [|by injection He' as <- <-].
  destruct (erp_targeting p) as [t|] eqn:Ht; [|by injection He' as <- <-].
  destruct (set_defaults_targeting t) as [t' []] eqn:Hs; [|by injection He' as <- <-].
  destruct (prebid_to_value _) as [v|] eqn:Hv; [|by injection He' as <- <-].
  destruct ext; cbn [get from_option] in Hp; try congruence. injection He' as <- <-. unfold default_ext. cbn [get].
  rewrite obj_get_insert_same. cbn [from_option id]. rewrite (serde_roundtrip _ _ Hv). cbn [erp_targeting set_erp_targeting].
  rewrite settled_targeting_unchanged; [done|]. pose proof (targeting_settled t (numbers_finite _ _ _ Hp Ht)) as Hx. by rewrite Hs in Hx.
Qed.
(** Setting a request's defaults leaves every impression with a [secure] flag and a
    tmax, changes no impression's flag or tmax that was set, and settles: a second
    time nothing is modified, so ranges are continuous and every granularity has
    its precision. *)
Theorem set_defaults_settles req default_tmax : default_tmax ≠ 0 →
  let '(req', modified) := set_defaults req default_tmax in
  set_defaults req' default_tmax = (req', false) ∧
  (∀ i imp, req_imp req !! i = Some imp → ∃ s, req_imp req' !! i = Some (set_imp_secure (Some s) imp) ∧
     (imp_secure imp = Some s ∨ imp_secure imp = None ∧ s = 1)) ∧
  length (req_imp req') = length (req_imp req) ∧
  req_tmax req' = (if tmax_unset req then Some default_tmax else req_tmax req).
Proof.
  intros Ht. pose proof (secure_unchanged (req_imp req)) as Hi.
  assert (Hl : ∀ i imp, req_imp req !! i = Some imp → ∃ s, (set_defaults_imp (req_imp req)).1 !! i = Some (set_imp_secure (Some s) imp) ∧
     (imp_secure imp = Some s ∨ imp_secure imp = None ∧ s = 1)).
  { intros i imp Himp. unfold set_defaults_imp. cbn. rewrite !list_lookup_fmap, Himp. cbn. unfold secure_imp.
    destruct (imp_secure imp) as [s|] eqn:Hs; [exists s|by exists 1; split; [|right]].
    split; [|by left]. cbn. f_equal. destruct imp; cbn in *. by subst. }
  assert (Hn : length (set_defaults_imp (req_imp req)).1 = length (req_imp req)). { unfold set_defaults_imp. cbn. by rewrite !length_fmap. }
  unfold set_defaults.
  assert (Htm : (let '(r, m1) := if tmax_unset req then (set_req_tmax (Some default_tmax) req, true) else (req, false) in
    tmax_unset r = false ∧ req_imp r = req_imp req ∧ req_ext r = req_ext req ∧
    req_tmax r = if tmax_unset req then Some default_tmax else req_tmax req)).
  { destruct (tmax_unset req) eqn:Hu; [|done]. split_and!; try done. unfold tmax_unset. cbn. by apply Z.eqb_neq. }
  destruct (if tmax_unset req then _ else _) as [r m1]. destruct Htm as (Hu&Hri&Hre&Hrt). rewrite Hri.
  destruct (set_defaults_imp (req_imp req)) as [imps m2] eqn:Hd. cbn [fst] in *.
  destruct (req_ext r) as [ext|] eqn:He; cbn [req_ext set_req_imp]; rewrite He.
  - pose proof (ext_settles ext) as Hx. destruct (default_ext ext) as [ext' m3]. cbn [fst] in Hx.
    cbn [req_imp req_tmax set_req_ext set_req_imp]. split_and!; [|done..].
    change (tmax_unset (set_req_ext (Some ext') (set_req_imp imps r))) with (tmax_unset r). rewrite Hu.
    cbn [req_imp req_ext set_req_ext set_req_imp]. rewrite Hi. cbn [req_ext set_req_imp set_req_ext]. by rewrite Hx.
  - cbn [req_imp req_tmax set_req_imp]. split_and!; [|done..].
    change (tmax_unset (set_req_imp imps r)) with (tmax_unset r). rewrite Hu. cbn [req_imp set_req_imp]. rewrite Hi.
    cbn [req_ext set_req_imp]. by rewrite He.
Qed.
End SetDefaults.
