(* ===== verification/ResponseBuilder.v ===== *)
(** * ResponseBuilder

    The assembly of a bid response (exchange/src/response_builder.rs): seats, the
    response's extension, the bids' extensions and the small checks around them.
    serde's conversions and rand's shuffle are parameters. *)

From S2P Require Import Prelude Json OpenRtb OpenRtbExt.

Definition build_bid_response (request_id : string) (seat_bids : list SeatBid) (currency : string)
    : BidResponse := {|
  resp_id := request_id; resp_seatbid := seat_bids; resp_bidid := None;
  resp_cur := Some (if str_is_empty currency then "USD" else currency);
  resp_customdata := None; resp_nbr := None; resp_ext := None |}.
Definition build_seat_bid (bidder_name : string) (bids : list Bid) : SeatBid := {|
  sb_bid := bids; sb_seat := Some bidder_name; sb_group := None; sb_ext := None |}.

(** [ext.get_or_insert_with(empty object)], then a change of its entries where it
    is an object. *)
Definition on_ext (f : list (string * Value) → list (string * Value)) (ext : option Value)
    : option Value :=
  Some (match default (VObject []) ext with VObject m => VObject (f m) | v => v end).

Definition set_seat_non_bid (seat_non_bids_to_value : list SeatNonBid → option Value)
    (response : BidResponse) (seat_non_bids : list SeatNonBid) : BidResponse :=
  match seat_non_bids with
  | [] => response
  | _ =>
      set_resp_ext (on_ext (λ obj,
        match seat_non_bids_to_value seat_non_bids with
        | Some val =>
            obj_insert "prebid" (insert_entry "seatnonbid" val (default (VObject []) (obj_get "prebid" obj)))
              (obj_remove "prebid" obj)
        | None => obj
        end) (resp_ext response)) response
  end.

Definition message_objects (msgs : list string) : Value :=
  VArray ((λ msg, VObject [("code", number 999); ("message", VString msg)]) <$> msgs).
Definition unless_empty {A} (m : gmap string A) (key : string) (f : A → Value)
    (obj : list (string * Value)) : list (string * Value) :=
  if bool_decide (m = ∅) then obj else obj_insert key (map_to_object f m) obj.
Definition set_response_ext_info (response : BidResponse) (response_time_millis : gmap string Z)
    (errors warnings : gmap string (list string)) : BidResponse :=
  set_resp_ext (on_ext (λ obj,
    unless_empty warnings "warnings" message_objects
      (unless_empty errors "errors" message_objects
        (unless_empty response_time_millis "responsetimemillis" number obj))) (resp_ext response))
    response.
Definition set_response_debug (response : BidResponse) (http_calls : gmap string (list Value))
    : BidResponse :=
  if bool_decide (http_calls = ∅) then response
  else set_resp_ext (on_ext (obj_insert "debug" (VObject [("httpcalls", map_to_object VArray http_calls)]))
         (resp_ext response)) response.

Definition enrich_prebid (bid_type : string) (targeting : option (gmap string string))
    (events : option Value) (prebid : list (string * Value)) : list (string * Value) :=
  let prebid := obj_insert "type" (VString bid_type) prebid in
  let prebid := match targeting with
                | Some tgt => obj_insert "targeting" (map_to_object VString tgt) prebid
                | None => prebid
                end in
  match events with Some ev => obj_insert "events" ev prebid | None => prebid end.
Definition enrich_bid_ext (bid : Bid) (bid_type : string) (targeting : option (gmap string string))
    (events : option Value) : Bid :=
  set_bid_ext (Some (with_entry "prebid" (λ prebid,
    match prebid with
    | VObject m => VObject (enrich_prebid bid_type targeting events m)
    | v => v
    end) (default (VObject []) (bid_ext bid)))) bid.
Definition set_win_url (bid_ext : Value) (win_url : string) : Value :=
  if str_is_empty win_url then bid_ext else insert_entry "wurl" (VString win_url) bid_ext.

(** [json!(x)]: null where JSON has no number. *)
Definition json_f64 (x : f64) : Value := if f64_is_finite x then VNumber (Float x) else VNull.
(** Assigning by index panics where the prebid value is no object and not null. *)
Definition make_bid_ext_json (ext : option Value) (prebid : Value) (original_bid_cpm : f64)
    (original_bid_cur : string) : outcome string Value :=
  let ext_map := match ext with Some (VObject m) => m | _ => [] end in
  let ext_map := if f64_geb original_bid_cpm f64_zero
                 then obj_insert "origbidcpm" (json_f64 original_bid_cpm) ext_map else ext_map in
  let ext_map := if negb (str_is_empty original_bid_cur)
                 then obj_insert "origbidcur" (VString original_bid_cur) ext_map else ext_map in
  prebid_merged ← match get "meta" prebid, obj_get "prebid" ext_map ≫= get "meta" with
                  | None, Some existing_meta => index_set "meta" existing_meta prebid
                  | _, _ => Ok prebid
                  end;
  prebid_merged ← match get "meta" prebid_merged with
                  | None => index_set "meta" (VObject []) prebid_merged
                  | Some _ => Ok prebid_merged
                  end;
  Ok (VObject (obj_insert "prebid" prebid_merged ext_map)).

Definition validate_banner_creative_size (bid_w bid_h max_w max_h : Z) : bool :=
  negb ((max_w <? bid_w) || (max_h <? bid_h)).
Definition validate_bid_adm_secure (adm : string) : bool :=
  let has_insecure := str_contains "http:" adm || str_contains "http%3A" adm in
  let has_secure := str_contains "https:" adm || str_contains "https%3A" adm in
  if has_insecure && negb has_secure then false else true.

(** The code point of a character, from its UTF-8 bytes. *)
Definition char_code (c : string) : Z :=
  match string_bytes c with
  | [a] => a
  | a :: rest => fold_left (λ acc b, 64 * acc + b mod 64) rest (a mod 2 ^ (6 - Z.of_nat (length rest)))
  | [] => 0
  end.
(** [format!("%{:02X}", c as u8)] *)
Definition upper_hex (d : Z) : Ascii.ascii := ascii_of_byte (if d <? 10 then d + 48 else d + 55).
Definition percent_byte (b : Z) : string :=
  String (ch "%") (String (upper_hex (b / 16)) (String (upper_hex (b mod 16)) "")).
Definition unreserved (c : string) : bool :=
  let n := char_code c in
  ((48 <=? n) && (n <=? 57)) || ((65 <=? n) && (n <=? 90)) || ((97 <=? n) && (n <=? 122)) ||
  bool_decide (c ∈ ["-"; "_"; "."; "~"]).
Definition encode_uuid (uuid : string) : string :=
  String.concat "" ((λ c, if unreserved c then c else percent_byte (char_code c mod 256)) <$> str_chars uuid).
Definition build_cache_url (scheme host path uuid : string) : string :=
  if str_is_empty host || str_is_empty path then ""
  else
    let query := "uuid=" +:+ encode_uuid uuid in
    if str_is_empty scheme then host +:+ path +:+ "?" +:+ query
    else scheme +:+ "://" +:+ host +:+ path +:+ "?" +:+ query.

Definition list_bidders_with_requests {R} (shuffle : list string → R → list string * R)
    (bidder_names : list string) (rng : R) : list string := (shuffle bidder_names rng).1.
Definition get_integration_type (ext : option Value) : string :=
  default "" (json_path ["prebid"; "integration"] ext ≫= as_str).
Definition get_imp_media_types (imp : Imp) : list string :=
  (if bool_decide (is_Some (imp_banner imp)) then ["banner"] else []) ++
  (if bool_decide (is_Some (imp_video imp)) then ["video"] else []) ++
  (if bool_decide (is_Some (imp_audio imp)) then ["audio"] else []) ++
  (if bool_decide (is_Some (imp_native imp)) then ["native"] else []).

(** ** Theorems *)

(** The extension of a bid as it is sent: the bid's own, with the original price
    and currency, and the prebid object, which always has a [meta]: its own, else
    that of the bid's extension, else an empty one.  It panics exactly where the
    prebid value is neither an object nor null. *)
Theorem make_bid_ext_json_spec ext prebid cpm cur :
  match make_bid_ext_json ext prebid cpm cur with
  | Panic => is_object prebid || is_null prebid = false
  | Err _ => False
  | Ok out =>
      is_object prebid || is_null prebid = true ∧
      (∀ k, k ∉ ["origbidcpm"; "origbidcur"; "prebid"] → get k out = ext ≫= get k) ∧
      get "prebid" out ≫= get "meta" =
        Some (default (VObject []) (option_or (get "meta" prebid) (json_path ["prebid"; "meta"] ext))) ∧
      (∀ k, k ≠ "meta" → get "prebid" out ≫= get k = get k prebid) ∧
      (f64_geb cpm f64_zero = true → get "origbidcpm" out = Some (json_f64 cpm)) ∧
      (cur ≠ "" → get "origbidcur" out = Some (VString cur))
  end.
Proof.
  unfold make_bid_ext_json. set (base := match ext with Some (VObject m) => m | _ => [] end).
  assert (Hbase : ∀ k, obj_get k base = ext ≫= get k) by (by destruct ext as [[]|]).
  set (m1 := if f64_geb cpm f64_zero then _ else base).
  set (m2 := if negb (str_is_empty cur) then _ else m1).
  assert (Hm : (∀ k, k ∉ ["origbidcpm"; "origbidcur"] → obj_get k m2 = ext ≫= get k) ∧
    (f64_geb cpm f64_zero = true → obj_get "origbidcpm" m2 = Some (json_f64 cpm)) ∧
    (cur ≠ "" → obj_get "origbidcur" m2 = Some (VString cur))).
  { subst m2 m1. unfold str_is_empty. split_and!.
    - intros k Hk. rewrite !not_elem_of_cons in Hk. destruct Hk as (H1&H2&_).
      destruct (negb _), (f64_geb _ _); rewrite ?obj_get_insert_other by done; apply Hbase.
    - intros ->. destruct (negb _); rewrite ?obj_get_insert_other by done; apply obj_get_insert_same.
    - intros Hc. rewrite bool_decide_false by done. apply obj_get_insert_same. }
  clearbody m2. clear m1 base Hbase. destruct Hm as (Hm&Hcpm&Hcur).
  rewrite (Hm "prebid") by set_solver.
  change (json_path ["prebid"; "meta"] ext) with ((ext ≫= get "prebid") ≫= get "meta").
  assert (Hout : ∀ p, (∀ k, k ≠ "meta" → obj_get k p = get k prebid) →
    obj_get "meta" p = Some (default (VObject []) (option_or (get "meta" prebid) ((ext ≫= get "prebid") ≫= get "meta"))) →
    let out := VObject (obj_insert "prebid" (VObject p) m2) in
    (∀ k, k ∉ ["origbidcpm"; "origbidcur"; "prebid"] → get k out = ext ≫= get k) ∧
    get "prebid" out ≫= get "meta" = Some (default (VObject [])
      (option_or (get "meta" prebid) ((ext ≫= get "prebid") ≫= get "meta"))) ∧
    (∀ k, k ≠ "meta" → get "prebid" out ≫= get k = get k prebid) ∧
    (f64_geb cpm f64_zero = true → get "origbidcpm" out = Some (json_f64 cpm)) ∧
    (cur ≠ "" → get "origbidcur" out = Some (VString cur))).
  { intros p Hp Hmeta. cbn [get]. rewrite obj_get_insert_same, !obj_get_insert_other by done.
    split_and!; [|done..]. intros k Hk. rewrite obj_get_insert_other by set_solver. apply Hm. set_solver. }
  clear Hm Hcpm Hcur. destruct prebid as [| | | | |p]; cbn [get] in *; cbn [is_object is_null orb];
    try (by destruct ((ext ≫= get "prebid") ≫= get "meta")).
  - destruct ((ext ≫= get "prebid") ≫= get "meta") as [v|]; cbn in *; (split; [done|]);
      apply Hout; cbn; try done; intros k Hk; by rewrite bool_decide_false.
  - destruct (obj_get "meta" p) as [v|] eqn:Hmeta; cbn [mbind outcome_bind option_or get] in *.
    { rewrite Hmeta. split; [done|]. by apply Hout. }
    destruct ((ext ≫= get "prebid") ≫= get "meta") as [v|]; cbn [mbind outcome_bind index_set get] in *.
    + rewrite obj_get_insert_same. split; [done|]. apply Hout; [|apply obj_get_insert_same].
      intros k Hk. by apply obj_get_insert_other.
    + rewrite Hmeta. split; [done|]. apply Hout; [|apply obj_get_insert_same].
      intros k Hk. by apply obj_get_insert_other.
Qed.

(** What the response's extension carries is added; the rest of it stays. *)
Lemma unless_empty_get {A} (m : gmap string A) key f obj k :
  obj_get k (unless_empty m key f obj) =
    if bool_decide (key = k ∧ m ≠ ∅) then Some (map_to_object f m) else obj_get k obj.
Proof.
  unfold unless_empty. destruct (decide (m = ∅)) as [->|Hm].
  { rewrite bool_decide_true by done. rewrite bool_decide_false; [done|naive_solver]. }
  rewrite bool_decide_false by done. destruct (decide (key = k)) as [->|Hne].
  - rewrite bool_decide_true by done. apply obj_get_insert_same.
  - rewrite (bool_decide_false (key = k ∧ _)) by naive_solver. by apply obj_get_insert_other.
Qed.
Lemma response_info_spec response times errors warnings k :
  is_object (default (VObject []) (resp_ext response)) = true →
  let entry {A} key (f : A → Value) (m : gmap string A) other :=
    if bool_decide (key = k ∧ m ≠ ∅) then Some (map_to_object f m) else other in
  json_path [k] (resp_ext (set_response_ext_info response times errors warnings)) =
    entry "warnings" message_objects warnings
      (entry "errors" message_objects errors
        (entry "responsetimemillis" number times (json_path [k] (resp_ext response)))).
Proof.
  intros Ho. unfold set_response_ext_info, on_ext. cbn [set_resp_ext resp_ext].
  destruct (resp_ext response) as [[]|]; try done; unfold json_path; cbn -[unless_empty map_to_object];
    by rewrite !unless_empty_get.
Qed.
Lemma seat_non_bid_spec to_value response nbs v k :
  nbs ≠ [] → to_value nbs = Some v →
  is_object (default (VObject []) (resp_ext response)) = true →
  is_object (default (VObject []) (json_path ["prebid"] (resp_ext response))) = true →
  let ext' := resp_ext (set_seat_non_bid to_value response nbs) in
  json_path ["prebid"; "seatnonbid"] ext' = Some v ∧
  (k ≠ "seatnonbid" → json_path ["prebid"; k] ext' = json_path ["prebid"; k] (resp_ext response)).
Proof.
  intros Hn Hv Ho Hp. unfold set_seat_non_bid. destruct nbs as [|nb nbs]; [done|].
  unfold on_ext. cbn [set_resp_ext resp_ext]. rewrite Hv.
  assert (He : ∃ m, default (VObject []) (resp_ext response) = VObject m ∧
    ∀ k, json_path [k] (resp_ext response) = obj_get k m).
  { destruct (resp_ext response) as [[]|]; try done; by eexists. }
  destruct He as (m&->&Hm). unfold json_path in *. cbn [fold_left mbind option_bind get] in *.
  rewrite obj_get_insert_same. cbn [mbind option_bind].
  rewrite (Hm "prebid") in *. destruct (obj_get "prebid" m) as [[]|] eqn:Hpm; cbn in Hp; try done;
    cbn -[obj_insert]; rewrite obj_get_insert_same; (split; [done|]); intros Hk;
    by rewrite obj_get_insert_other.
Qed.

(** Two ids, one cache URL: a character is cut to the low byte of its code point. *)
Definition a_macron : string := String (ascii_of_byte 196) (String (ascii_of_byte 129) "").
Lemma cache_urls_collide scheme host path : 
  build_cache_url scheme host path a_macron =
  build_cache_url scheme host path (String (ascii_of_byte 1) "") ∧
  encode_uuid a_macron = "%01".
Proof. unfold build_cache_url. by change (encode_uuid a_macron) with (encode_uuid (String (ascii_of_byte 1) "")). Qed.
