(* ===== verification/VastEvents.v ===== *)
(** * VastEvents

    Event tracking: VAST wrappers (exchange/src/vast.rs), the events of bids and
    their URLs (exchange/src/events.rs), the parameters of the event endpoint
    (exchange/src/event_request.rs) and video tracking (exchange/src/vtrack.rs).
    serde's conversions of bytes, and [to_uppercase], are parameters. *)

From S2P Require Import Prelude Json IpUtil Text OpenRtb OpenRtbExt PriceBucket Deals AuctionHelpers.

(** ** vast.rs *)

Definition vast_make_vast (adm nurl : string) : string :=
  if negb (str_is_empty adm) then adm
  else "<VAST version=" +:+ dq +:+ "3.0" +:+ dq +:+
    "><Ad><Wrapper><AdSystem>prebid.org wrapper</AdSystem><VASTAdTagURI><![CDATA[" +:+ nurl +:+
    "]]></VASTAdTagURI><Impression></Impression><Creatives></Creatives></Wrapper></Ad></VAST>".
Definition add_buffer (base buffer : Z) : Z := if base <=? 0 then 0 else i64 (base + buffer).
Definition vast_cache_ttl (imp_ttl bid_ttl def_ttl buffer : Z) : Z :=
  if (imp_ttl <=? 0) && (bid_ttl <=? 0) then add_buffer def_ttl buffer
  else if imp_ttl <=? 0 then add_buffer bid_ttl buffer
  else if bid_ttl <=? 0 then add_buffer imp_ttl buffer
  else if imp_ttl <? bid_ttl then add_buffer imp_ttl buffer
  else add_buffer bid_ttl buffer.
Definition vast_is_debug_override_enabled (debug_header config_override_token : string) : bool :=
  negb (str_is_empty config_override_token) && bool_decide (debug_header = config_override_token).

Record VastDebugData : Type := { vdd_request : string; vdd_headers : string; vdd_response : string }.
Record VastDebugLog : Type := {
  vdl_enabled : bool; vdl_data : VastDebugData; vdl_ttl : Z; vdl_cache_key : string;
  vdl_cache_string : string; vdl_debug_override : bool; vdl_debug_enabled_or_overridden : bool;
}.
Definition build_cache_string (l : VastDebugLog) : VastDebugLog := {|
  vdl_enabled := vdl_enabled l; vdl_data := vdl_data l; vdl_ttl := vdl_ttl l;
  vdl_cache_key := vdl_cache_key l;
  vdl_cache_string := "<?xml version=" +:+ dq +:+ "1.0" +:+ dq +:+ " encoding=" +:+ dq +:+ "UTF-8" +:+ dq +:+
    "?><Log><Request>" +:+ vdd_request (vdl_data l) +:+ "</Request><Headers>" +:+ vdd_headers (vdl_data l) +:+
    "</Headers><Response>" +:+ vdd_response (vdl_data l) +:+ "</Response></Log>";
  vdl_debug_override := vdl_debug_override l;
  vdl_debug_enabled_or_overridden := vdl_debug_enabled_or_overridden l |}.

(** [Err None] rejects a bid without a message. *)
Definition vast_validate_bid (bid_id imp_id : string) (price : f64) (deal_id cr_id : string) (debug : bool)
    : outcome (option string) () :=
  let of_bid rest := "Bid " +:+ dq +:+ bid_id +:+ dq +:+ rest in
  if str_is_empty bid_id then Err (Some "Bid missing required field 'id'")
  else if str_is_empty imp_id then Err (Some (of_bid " missing required field 'impid'"))
  else if f64_ltb price f64_zero then
    Err (if debug
         then Some (of_bid " does not contain a positive (or zero if there is a deal) 'price'") else None)
  else if f64_eqb price f64_zero && str_is_empty deal_id then
    Err (if debug
         then Some (of_bid " does not contain positive 'price' which is required since there is no deal set for this bid")
         else None)
  else if str_is_empty cr_id then Err (Some (of_bid " missing creative ID"))
  else Ok ().
Definition ascii_upper (a : Ascii.ascii) : bool :=
  let n := Z.of_N (Ascii.N_of_ascii a) in (65 <=? n) && (n <=? 90).
Definition vast_validate_currency (to_uppercase : string → string)
    (request_allowed_currencies : list string) (bid_currency : string) : outcome string () :=
  let bid_cur := if str_is_empty bid_currency then "USD" else bid_currency in
  let allowed := match request_allowed_currencies with [] => ["USD"] | l => l end in
  let bid_cur_upper := to_uppercase bid_cur in
  if negb (str_len bid_cur_upper =? 3) ||
     negb (forallb ascii_upper (String.list_ascii_of_string bid_cur_upper))
  then Err ("Invalid currency code: '" +:+ bid_cur +:+ "'")
  else if existsb (λ cur, bool_decide (to_uppercase cur = bid_cur_upper)) allowed then Ok ()
  else Err ("Bid currency is not allowed. Was '" +:+ bid_cur_upper +:+ "', wants: [" +:+
            join ", " ((λ s, "'" +:+ s +:+ "'") <$> allowed) +:+ "]").
Definition vast_is_new_winning_bid (bid_price : f64) (bid_has_deal : bool) (winning_price : f64)
    (winning_has_deal prefer_deals : bool) : bool :=
  if prefer_deals && winning_has_deal && negb bid_has_deal then false
  else if prefer_deals && negb winning_has_deal && bid_has_deal then true
  else f64_gtb bid_price winning_price.

(** ** Events *)

Inductive EventType : Type := EvWin | EvImp | EvVast.
Record BidderEventInfo : Type := { bei_modifying_vast_xml_allowed : bool }.
Record EventTracking : Type := {
  et_account_id : string; et_enabled_for_account : bool; et_enabled_for_request : bool;
  et_auction_timestamp_ms : Z; et_integration_type : string;
  et_bidder_infos : gmap string BidderEventInfo; et_external_url : string;
}.
Record TrackingRequest : Type := {
  tr_event_type : EventType; tr_bid_id : string; tr_bidder : string; tr_account_id : string;
  tr_timestamp : Z; tr_integration : string;
}.
(** What is read of the request's extension, the account and the bidders' files. *)
Record EventSettings : Type := {
  es_prebid : option (bool * option string); es_account_id : string; es_events_enabled : bool;
  es_modifying_vast_xml_allowed : gmap string bool;
}.
Definition get_event_tracking (settings : EventSettings) (timestamp_ms : Z) (external_url : string)
    : EventTracking := {|
  et_account_id := es_account_id settings; et_enabled_for_account := es_events_enabled settings;
  et_enabled_for_request := default false (fst <$> es_prebid settings);
  et_auction_timestamp_ms := timestamp_ms;
  et_integration_type := default "" (es_prebid settings ≫= snd);
  et_bidder_infos := (λ allowed, {| bei_modifying_vast_xml_allowed := allowed |}) <$>
    es_modifying_vast_xml_allowed settings;
  et_external_url := external_url |}.

(** A text with each character replaced.  The characters that are replaced are
    ASCII, so going by bytes leaves the others whole. *)
Fixpoint str_flat (f : Ascii.ascii → string) (s : string) : string :=
  match s with "" => "" | String a s' => f a +:+ str_flat f s' end.
Definition query_char (a : Ascii.ascii) : string :=
  if bool_decide (a = ch " ") then "%20" else if bool_decide (a = ch "&") then "%26"
  else if bool_decide (a = ch "=") then "%3D" else if bool_decide (a = ch "+") then "%2B"
  else if bool_decide (a = ch "%") then "%25" else if bool_decide (a = ch "#") then "%23"
  else if bool_decide (a = ch "?") then "%3F" else String a "".
Definition urlencoding (input : string) : string := str_flat query_char input.

Definition create_tracking_url (external_url : string) (req : TrackingRequest) : string :=
  let event_type_str := match tr_event_type req with
                        | EvWin => "win" | EvImp => "imp" | EvVast => "vast"
                        end in
  let url := trim_end_matches (ch "/") external_url +:+ "/event?t=" +:+ event_type_str +:+
    "&b=" +:+ urlencoding (tr_bid_id req) +:+ "&a=" +:+ urlencoding (tr_account_id req) +:+
    "&bidder=" +:+ urlencoding (tr_bidder req) +:+ "&ts=" +:+ pretty (tr_timestamp req) in
  let url := if negb (str_is_empty (tr_integration req))
             then url +:+ "&int=" +:+ urlencoding (tr_integration req) else url in
  url +:+ "&f=b".

Section EventTracking.
Context (tracking : EventTracking).

Definition is_event_allowed : bool := et_enabled_for_account tracking || et_enabled_for_request tracking.
Definition is_modifying_vast_xml_allowed (bidder_name : string) : bool :=
  match et_bidder_infos tracking !! bidder_name with
  | Some info => bei_modifying_vast_xml_allowed info
  | None => false
  end && is_event_allowed.
Definition make_event_url (event_type : EventType) (bid_id bidder : string) : string :=
  create_tracking_url (et_external_url tracking) {|
    tr_event_type := event_type; tr_bid_id := bid_id; tr_bidder := bidder;
    tr_account_id := et_account_id tracking; tr_timestamp := et_auction_timestamp_ms tracking;
    tr_integration := et_integration_type tracking |}.
Definition is_video (t : BidType) : bool := match t with BtVideo => true | _ => false end.
Definition make_bid_ext_events (bid_id : string) (bid_type : BidType) (bidder : string)
    : option ExtBidPrebidEvents :=
  if negb is_event_allowed || is_video bid_type then None
  else Some {| ebe_win := Some (make_event_url EvWin bid_id bidder);
               ebe_imp := Some (make_event_url EvImp bid_id bidder) |}.

(** [VastEventTracker::inject_tracking] *)
Definition impression_tag (bid_id bidder : string) : string :=
  "<Impression><![CDATA[" +:+ make_event_url EvImp bid_id bidder +:+ "]]></Impression>".
Definition insert_at (pos : nat) (tag s : string) : string :=
  String.substring 0 pos s +:+ tag +:+ str_drop pos s.
Fixpoint insert_before_first (close_tags : list string) (tag xml : string) : option string :=
  match close_tags with
  | [] => None
  | close_tag :: rest =>
      match str_find close_tag xml with
      | Some pos => Some (insert_at pos tag xml)
      | None => insert_before_first rest tag xml
      end
  end.
Definition inject_tracking (vast_xml bid_id bidder : string) : option string :=
  insert_before_first ["</InLine>"; "</Wrapper>"] (impression_tag bid_id bidder) vast_xml.

Definition effective_bid_id (pbs_bid : PbsOrtbBid) : string :=
  if negb (str_is_empty (pob_generated_bid_id pbs_bid)) then pob_generated_bid_id pbs_bid
  else bid_id (pob_bid pbs_bid).
Definition set_bid_events (bid : Bid) (events : option ExtBidPrebidEvents) (b : PbsOrtbBid) : PbsOrtbBid := {|
  pob_bid := bid; pob_bid_type := pob_bid_type b; pob_generated_bid_id := pob_generated_bid_id b;
  pob_bid_events := events; pob_deal_priority := pob_deal_priority b;
  pob_deal_tier_satisfied := pob_deal_tier_satisfied b |}.
Definition modify_bid_vast (pbs_bid : PbsOrtbBid) (bidder_name : string) : PbsOrtbBid :=
  let adm := default "" (bid_adm (pob_bid pbs_bid)) in
  let nurl := default "" (bid_nurl (pob_bid pbs_bid)) in
  if negb (is_video (pob_bid_type pbs_bid)) then pbs_bid
  else if str_is_empty adm && str_is_empty nurl then pbs_bid
  else
    match inject_tracking (vast_make_vast adm nurl) (effective_bid_id pbs_bid) bidder_name with
    | Some new_vast => set_bid_events (set_bid_adm (Some new_vast) (pob_bid pbs_bid)) (pob_bid_events pbs_bid) pbs_bid
    | None => pbs_bid
    end.
Definition modify_bid_for_events (bidder_name : string) (pbs_bid : PbsOrtbBid) : PbsOrtbBid :=
  let pbs_bid := if is_modifying_vast_xml_allowed bidder_name
                 then modify_bid_vast pbs_bid bidder_name else pbs_bid in
  set_bid_events (pob_bid pbs_bid)
    (make_bid_ext_events (effective_bid_id pbs_bid) (pob_bid_type pbs_bid) bidder_name) pbs_bid.
(** The seats are changed one by one, each on its own. *)
Definition modify_bids_for_events (seat_bids : gmap string PbsOrtbSeatBid) : gmap string PbsOrtbSeatBid :=
  map_imap (λ bidder_name seat_bid, Some {|
    pos_bids := modify_bid_for_events bidder_name <$> pos_bids seat_bid;
    pos_currency := pos_currency seat_bid; pos_http_calls := pos_http_calls seat_bid;
    pos_seat := pos_seat seat_bid |}) seat_bids.

Section Json.
Context (from_slice : list Z → outcome string Value) (to_vec : Value → outcome string (list Z)).
Definition insert_wurl (win_url : string) (json_bytes : list Z) : outcome string (list Z) :=
  value ← from_slice json_bytes; to_vec (insert_entry "wurl" (VString win_url) value).
Definition inject_tracking_into_bid (bid_type : BidType) (bid_id bidder : string) (json_bytes : list Z)
    : outcome string (list Z) :=
  if negb is_event_allowed || is_video bid_type then Ok json_bytes
  else insert_wurl (make_event_url EvWin bid_id bidder) json_bytes.
Definition modify_bid_json (pbs_bid : PbsOrtbBid) (bidder : string) (json_bytes : list Z)
    : outcome string (list Z) :=
  if negb is_event_allowed || is_video (pob_bid_type pbs_bid) then Ok json_bytes
  else insert_wurl match pob_bid_events pbs_bid with
                   | Some events => default "" (ebe_win events)
                   | None => make_event_url EvWin (effective_bid_id pbs_bid) bidder
                   end json_bytes.
End Json.
End EventTracking.

(** ** event_request.rs *)

Inductive RequestedEvent : Type := ReWin | ReImp | ReClick.
#[export] Instance RequestedEvent_eq_dec : EqDecision RequestedEvent.
Proof. solve_decision. Defined.
Definition event_as_str (t : RequestedEvent) : string :=
  match t with ReWin => "win" | ReImp => "imp" | ReClick => "click" end.
Definition event_from_str (s : string) : option RequestedEvent :=
  if bool_decide (s = "win") then Some ReWin else if bool_decide (s = "imp") then Some ReImp
  else if bool_decide (s = "click") then Some ReClick else None.
Record EventRequest : Type := {
  er_event_type : RequestedEvent; er_bid_id : string; er_account_id : string; er_bidder : string;
  er_timestamp : Z; er_format : string; er_analytics : string; er_integration_type : string;
  er_vtype : string;
}.

Definition parse_event_request (params : gmap string string) : outcome (list string) EventRequest :=
  let param key := default "" (params !! key) in
  let event_type := params !! "t" ≫= event_from_str in
  let errors :=
    (if bool_decide (is_Some event_type) then []
     else ["parameter 't' is required and must be one of: win, imp, click"]) ++
    (if str_is_empty (param "b") then ["parameter 'b' is required"] else []) ++
    (if str_is_empty (param "a") then ["parameter 'a' is required"] else []) in
  match errors with
  | [] => Ok {|
      er_event_type := default ReWin event_type; er_bid_id := param "b"; er_account_id := param "a";
      er_bidder := param "bidder";
      er_timestamp := default 0 (params !! "ts" ≫= parse_int (- 2 ^ 63) (2 ^ 63 - 1));
      er_format := param "f"; er_analytics := param "x"; er_integration_type := param "int";
      er_vtype := param "vtype" |}
  | _ => Err errors
  end.

Definition url_encode (s : string) : string :=
  str_replace "#" "%23" (str_replace "+" "%2B" (str_replace "=" "%3D" (str_replace "&" "%26"
    (str_replace " " "%20" (str_replace "%" "%25" s))))).
Definition event_request_to_url (external_url : string) (request : EventRequest) : string :=
  trim_end_matches (ch "/") external_url +:+ "/event?t=" +:+ event_as_str (er_event_type request) +:+
  "&b=" +:+ url_encode (er_bid_id request) +:+ "&a=" +:+ url_encode (er_account_id request) +:+
  (if negb (str_is_empty (er_bidder request)) then "&bidder=" +:+ url_encode (er_bidder request) else "") +:+
  (if 0 <? er_timestamp request then "&ts=" +:+ pretty (er_timestamp request) else "") +:+
  (if negb (str_is_empty (er_format request)) then "&f=" +:+ url_encode (er_format request) else "") +:+
  (if negb (str_is_empty (er_analytics request)) then "&x=" +:+ url_encode (er_analytics request) else "") +:+
  (if negb (str_is_empty (er_integration_type request))
   then "&int=" +:+ url_encode (er_integration_type request) else "").

(** ** vtrack.rs *)

Record CacheableBid : Type := {
  cbd_bid_id : string; cbd_bidder : string; cbd_cache_type : string; cbd_value : Value;
  cbd_ttlseconds : Z; cbd_key : string; cbd_timestamp : Z;
}.
Record BidCacheRequest : Type := { bcr_puts : list CacheableBid }.
Definition get_vast_url_tracking (external_url bid_id bidder account_id : string) (timestamp : Z)
    (integration : string) : string :=
  event_request_to_url external_url {|
    er_event_type := ReImp; er_bid_id := bid_id; er_account_id := account_id; er_bidder := bidder;
    er_timestamp := timestamp; er_format := ""; er_analytics := ""; er_integration_type := integration;
    er_vtype := "" |}.
Fixpoint insert_before_last (close_tags : list string) (tag xml : string) : option string :=
  match close_tags with
  | [] => None
  | close_tag :: rest =>
      match str_rfind close_tag xml with
      | Some pos => Some (insert_at pos tag xml)
      | None => insert_before_last rest tag xml
      end
  end.
Definition vtrack_modify_vast_xml_string (external_url vast bid_id bidder account_id : string)
    (timestamp : Z) (integration_type : string) : string * bool :=
  if str_is_empty vast then (vast, false)
  else
    let tracking_url := get_vast_url_tracking external_url bid_id bidder account_id timestamp integration_type in
    let tag := "<Impression>" +:+ "<![CDATA[" +:+ tracking_url +:+ "]]>" +:+ "</Impression>" in
    match str_rfind "</Impression>" vast with
    | Some pos => (insert_at (pos + String.length "</Impression>") tag vast, true)
    | None =>
        match insert_before_last ["</InLine>"; "</Wrapper>"] tag vast with
        | Some modified => (modified, true)
        | None => (vast, false)
        end
    end.
Definition modify_vast_xml_json (external_url : string) (data : Value) (bid_id bidder account_id : string)
    (timestamp : Z) (integration_type : string) : Value :=
  match as_str data with
  | None => data
  | Some xml_str => VString (vtrack_modify_vast_xml_string external_url xml_str bid_id bidder account_id
                               timestamp integration_type).1
  end.
Definition is_allow_vast_for_bidder (bidder : string) (bidder_infos : gmap string bool)
    (allow_unknown_bidder : bool) : bool :=
  match bidder_infos !! bidder with Some allowed => allowed | None => allow_unknown_bidder end.
Definition get_bidders_allowing_vast_update (request : BidCacheRequest) (bidder_infos : gmap string bool)
    (allow_unknown_bidder : bool) : gset string :=
  fold_left (λ allowed put,
    if is_allow_vast_for_bidder (cbd_bidder put) bidder_infos allow_unknown_bidder
    then {[cbd_bidder put]} ∪ allowed else allowed) (bcr_puts request) ∅.
Definition parse_vtrack_request (from_slice : list Z → outcome string BidCacheRequest) (body : list Z)
    (max_size : Z) : outcome string BidCacheRequest :=
  if max_size <? Z.of_nat (length body)
  then Err ("request body size " +:+ pretty (Z.of_nat (length body)) +:+ " exceeds max size " +:+ pretty max_size)
  else map_err (λ e, "failed to parse vtrack request: " +:+ e) (from_slice body).

(** ** Specification *)

(** A query of pairs, as both writers build it. *)
Definition raw_query (pairs : list (string * string)) : string :=
  join "&" ((λ p, p.1 +:+ "=" +:+ p.2) <$> pairs).
(** The bytes these URLs can carry: printable ASCII but the angle brackets, which no
    URL has and neither writer escapes. *)
Definition query_byte (a : Ascii.ascii) : Prop :=
  32 ≤ Z.of_N (Ascii.N_of_ascii a) ≤ 126 ∧ a ∉ [ch "<"; ch ">"].
#[export] Instance query_byte_dec a : Decision (query_byte a).
Proof. unfold query_byte. apply _. Defined.
Definition query_text (s : string) : Prop := Forall query_byte (String.list_ascii_of_string s).
#[export] Instance query_text_dec s : Decision (query_text s).
Proof. unfold query_text. apply _. Defined.
(** [raw] is a form encoding of [text]: its bytes stand for themselves, but for the
    characters with a meaning in a query, or are written as two hexadecimal digits. *)
Inductive form_encodes : string → string → Prop :=
| fe_end : form_encodes "" ""
| fe_plain a raw text :
    query_byte a → a ∉ [ch " "; ch "&"; ch "="; ch "+"; ch "%"; ch "#"] → form_encodes raw text →
    form_encodes (String a raw) (String a text)
| fe_hex h l x y raw text :
    hex_digit h = Some x → hex_digit l = Some y → 32 ≤ 16 * x + y ≤ 126 → form_encodes raw text →
    form_encodes (String (ch "%") (String h (String l raw))) (String (ascii_of_byte (16 * x + y)) text).
Definition encoded_pair (raw text : string * string) : Prop :=
  form_encodes raw.1 text.1 ∧ form_encodes raw.2 text.2 ∧ raw.1 ≠ "".
(** The server's extractor of query parameters, [axum]'s with [serde_urlencoded]: of
    a query of encoded pairs with distinct keys it reads the pairs. *)
Class QueryReader : Type := {
  query_params : string → gmap string string;
  query_params_pairs base raw text :
    no_char (ch "?") base → no_char (ch "#") base → raw ≠ [] → Forall2 encoded_pair raw text →
    NoDup text.*1 →
    ∀ k, query_params (base +:+ "?" +:+ raw_query raw) !! k = obj_get k text;
}.

(** ** Theorems *)

(** *** Texts *)

Lemma str_flat_app f s t : str_flat f (s +:+ t) = str_flat f s +:+ str_flat f t.
Proof.
  induction s as [|a s IH]; [done|]. change (String a s +:+ t) with (String a (s +:+ t)).
  cbn. by rewrite IH, str_app_assoc.
Qed.
Lemma str_flat_flat f g s : str_flat g (str_flat f s) = str_flat (λ a, str_flat g (f a)) s.
Proof. induction s as [|a s IH]; [done|]. cbn. by rewrite str_flat_app, IH. Qed.
Lemma str_flat_ext f g s : (∀ a, f a = g a) → str_flat f s = str_flat g s.
Proof. intros H. induction s as [|a s IH]; [done|]. cbn. by rewrite H, IH. Qed.
(** Replacing a character. *)
Lemma replace_char c to s :
  str_replace (String c "") to s = str_flat (λ a, if bool_decide (a = c) then to else String a "") s.
Proof.
  unfold str_replace. induction s as [|a s IH]; [done|]. cbn.
  destruct (Ascii.ascii_dec c a) as [->|Hne].
  - rewrite bool_decide_true by done. replace (String.prefix _ s) with true by by destruct s. by rewrite IH.
  - rewrite bool_decide_false by done. by rewrite IH.
Qed.
Definition param_char (a : Ascii.ascii) : string :=
  if bool_decide (a = ch "?") then "?" else query_char a.
Lemma url_encode_flat s : url_encode s = str_flat param_char s.
Proof.
  unfold url_encode. rewrite !replace_char, !str_flat_flat. apply str_flat_ext.
  by intros [[] [] [] [] [] [] [] []]; vm_compute.
Qed.

Lemma no_char_flat c f s : (∀ a, no_char c (f a)) → no_char c (str_flat f s).
Proof.
  intros H. induction s as [|a s IH]; [by apply not_elem_of_nil|]. cbn. rewrite no_char_app. done.
Qed.
Lemma form_encodes_flat f s :
  (∀ a raw text, query_byte a → form_encodes raw text → form_encodes (f a +:+ raw) (String a text)) →
  query_text s → form_encodes (str_flat f s) s.
Proof.
  intros H. unfold query_text. induction s as [|a s IH]; [constructor|]. cbn.
  intros [Ha Hs]%Forall_cons. by apply H, IH.
Qed.
Lemma fe_escape raw text h l : form_encodes raw text →
  ∀ x y, hex_digit h = Some x → hex_digit l = Some y → bool_decide (32 ≤ 16 * x + y ≤ 126) = true →
  ∀ a, a = ascii_of_byte (16 * x + y) →
  form_encodes (String (ch "%") (String h (String l raw))) (String a text).
Proof. intros Hr x y Hx Hy Hxy%bool_decide_eq_true a ->. by constructor. Qed.
Lemma query_char_encodes a raw text : query_byte a → form_encodes raw text →
  form_encodes (query_char a +:+ raw) (String a text).
Proof.
  intros Ha Hr. unfold query_char.
  repeat (case_bool_decide; [subst; by eapply fe_escape|]).
  apply (fe_plain a); [done|set_solver|done].
Qed.
Lemma param_char_encodes a raw text : query_byte a → form_encodes raw text →
  form_encodes (param_char a +:+ raw) (String a text).
Proof.
  intros Ha Hr. unfold param_char. case_bool_decide; [subst|by apply query_char_encodes].
  apply (fe_plain (ch "?")); [done| |done]. apply (bool_decide_unpack _). by vm_compute.
Qed.

(** *** Numbers *)

(** Text without special characters encodes itself. *)
Definition stands_for_itself (s : string) : Prop :=
  Forall (λ a, query_byte a ∧ a ∉ [ch " "; ch "&"; ch "="; ch "+"; ch "%"; ch "#"])
    (String.list_ascii_of_string s).
#[export] Instance stands_for_itself_dec s : Decision (stands_for_itself s).
Proof. unfold stands_for_itself. apply _. Defined.
Lemma stands_for_itself_encodes s : stands_for_itself s → form_encodes s s.
Proof.
  unfold stands_for_itself. induction s as [|a s IH]; intros Hs; [constructor|].
  cbn in Hs. apply Forall_cons in Hs as [[Ha Ha'] Hs]. apply fe_plain; auto.
Qed.
Lemma digit_text_unreserved s : digit_text s → stands_for_itself s.
Proof.
  intros Hs. eapply Forall_impl; [exact Hs|]. intros a [->|Ha]; [apply (bool_decide_unpack _); by vm_compute|].
  split; [split; [lia|]|]; intros Hin; cbn in Ha;
    repeat (apply elem_of_cons in Hin as [->|Hin]; [by destruct Ha|]); by apply elem_of_nil in Hin.
Qed.

(** *** URLs *)

Lemma trim_no_char c d s : no_char c s → no_char c (trim_end_matches d s).
Proof.
  unfold no_char. induction s as [|a s IH]; [done|]. cbn. intros [H1 H2]%not_elem_of_cons.
  destruct (_ && _); [apply not_elem_of_nil|]. cbn. apply not_elem_of_cons. auto.
Qed.
Definition amp_pairs (pairs : list (string * string)) : string :=
  String.concat "" ((λ p, "&" +:+ p.1 +:+ "=" +:+ p.2) <$> pairs).
Lemma amp_pairs_cons p l : amp_pairs (p :: l) = "&" +:+ p.1 +:+ "=" +:+ p.2 +:+ amp_pairs l.
Proof. unfold amp_pairs. cbn [fmap list_fmap]. by rewrite concat_cons, !str_app_assoc. Qed.
Lemma amp_pairs_app l1 l2 : amp_pairs (l1 ++ l2) = amp_pairs l1 +:+ amp_pairs l2.
Proof. induction l1 as [|p l1 IH]; [done|]. cbn [app]. by rewrite !amp_pairs_cons, IH, !str_app_assoc. Qed.
Lemma amp_pairs_if (b : bool) k v :
  (if b then "&" +:+ k +:+ "=" +:+ v else "") = amp_pairs (if b then [(k, v)] else []).
Proof. destruct b; [|done]. by rewrite amp_pairs_cons, str_app_nil_r. Qed.
Lemma raw_query_cons p l : raw_query (p :: l) = p.1 +:+ "=" +:+ p.2 +:+ amp_pairs l.
Proof.
  revert p. induction l as [|q l IH]; intros p.
  - unfold raw_query, amp_pairs. cbn [fmap list_fmap join]. by rewrite str_app_nil_r.
  - change (raw_query (p :: q :: l)) with ((p.1 +:+ "=" +:+ p.2) +:+ "&" +:+ raw_query (q :: l)).
    by rewrite IH, amp_pairs_cons, !str_app_assoc.
Qed.

(** The pairs the two writers put into a query, as text and as what they stand for. *)
Definition event_pairs (enc : string → string) (r : EventRequest) : list (string * string) :=
  [("t", event_as_str (er_event_type r)); ("b", enc (er_bid_id r)); ("a", enc (er_account_id r))] ++
  (if negb (str_is_empty (er_bidder r)) then [("bidder", enc (er_bidder r))] else []) ++
  (if 0 <? er_timestamp r then [("ts", pretty (er_timestamp r))] else []) ++
  (if negb (str_is_empty (er_format r)) then [("f", enc (er_format r))] else []) ++
  (if negb (str_is_empty (er_analytics r)) then [("x", enc (er_analytics r))] else []) ++
  (if negb (str_is_empty (er_integration_type r)) then [("int", enc (er_integration_type r))] else []).
Definition tracked_type (t : EventType) : string :=
  match t with EvWin => "win" | EvImp => "imp" | EvVast => "vast" end.
Definition tracking_pairs (enc : string → string) (r : TrackingRequest) : list (string * string) :=
  [("t", tracked_type (tr_event_type r)); ("b", enc (tr_bid_id r)); ("a", enc (tr_account_id r));
   ("bidder", enc (tr_bidder r)); ("ts", pretty (tr_timestamp r))] ++
  (if negb (str_is_empty (tr_integration r)) then [("int", enc (tr_integration r))] else []) ++ [("f", "b")].

Lemma event_url_pairs external_url r : event_request_to_url external_url r =
  (trim_end_matches (ch "/") external_url +:+ "/event") +:+ "?" +:+ raw_query (event_pairs url_encode r).
Proof.
  unfold event_request_to_url, event_pairs. cbn [app].
  rewrite raw_query_cons, !amp_pairs_cons, !amp_pairs_app, <-!amp_pairs_if, !str_app_assoc. done.
Qed.
Lemma tracking_url_pairs external_url r : create_tracking_url external_url r =
  (trim_end_matches (ch "/") external_url +:+ "/event") +:+ "?" +:+ raw_query (tracking_pairs urlencoding r).
Proof.
  unfold create_tracking_url, tracking_pairs, urlencoding. fold (tracked_type (tr_event_type r)). cbn [app].
  rewrite raw_query_cons, !amp_pairs_cons, amp_pairs_app, <-amp_pairs_if, !str_app_assoc.
  destruct (negb _); by rewrite ?str_app_assoc.
Qed.

Definition encodes (enc : string → string) : Prop := ∀ s, query_text s → form_encodes (enc s) s.
Lemma urlencoding_encodes : encodes urlencoding.
Proof. intros s. apply form_encodes_flat, query_char_encodes. Qed.
Lemma url_encode_encodes : encodes url_encode.
Proof. intros s. rewrite url_encode_flat. apply form_encodes_flat, param_char_encodes. Qed.
Definition event_texts (r : EventRequest) : Prop :=
  Forall query_text [er_bid_id r; er_account_id r; er_bidder r; er_format r; er_analytics r; er_integration_type r].
Definition tracking_texts (r : TrackingRequest) : Prop :=
  Forall query_text [tr_bid_id r; tr_account_id r; tr_bidder r; tr_integration r].
#[export] Instance event_texts_dec r : Decision (event_texts r).
Proof. unfold event_texts. apply _. Defined.
#[export] Instance tracking_texts_dec r : Decision (tracking_texts r).
Proof. unfold tracking_texts. apply _. Defined.
Lemma number_encodes z : form_encodes (pretty (z : Z)) (pretty z).
Proof. apply stands_for_itself_encodes, digit_text_unreserved, pretty_text. Qed.
Lemma word_encodes s : bool_decide (stands_for_itself s) = true → form_encodes s s.
Proof. intros Hs%bool_decide_eq_true. by apply stands_for_itself_encodes. Qed.
Lemma encoded_if (b : bool) p q : encoded_pair p q →
  Forall2 encoded_pair (if b then [p] else []) (if b then [q] else []).
Proof. intros H. destruct b; [constructor; [done|constructor]|constructor]. Qed.
Ltac encoded_pairs He :=
  repeat first [apply Forall2_app | apply Forall2_cons; split | apply Forall2_nil; done | apply encoded_if];
  (split; [apply word_encodes; by vm_compute|split; [|done]]);
  first [by apply He | apply number_encodes | apply word_encodes; by vm_compute].
Lemma event_pairs_encoded enc r : encodes enc → event_texts r →
  Forall2 encoded_pair (event_pairs enc r) (event_pairs id r).
Proof.
  intros He Ht. unfold event_texts in Ht. rewrite !Forall_cons in Ht. destruct_and!. unfold event_pairs. destruct (er_event_type r); encoded_pairs He.
Qed.
Lemma tracking_pairs_encoded enc r : encodes enc → tracking_texts r →
  Forall2 encoded_pair (tracking_pairs enc r) (tracking_pairs id r).
Proof.
  intros He Ht. unfold tracking_texts in Ht. rewrite !Forall_cons in Ht. destruct_and!. unfold tracking_pairs.
  destruct (tr_event_type r); encoded_pairs He.
Qed.

Lemma obj_get_if (b : bool) k k' (v : string) :
  obj_get k (if b then [(k', v)] else []) = if b && bool_decide (k' = k) then Some v else None.
Proof. by destruct b; cbn; [case_bool_decide|]. Qed.
Lemma default_non_empty s : default "" (if negb (str_is_empty s) then Some s else None) = s.
Proof. unfold str_is_empty. case_bool_decide; by subst. Qed.
Lemma event_as_str_from t : event_from_str (event_as_str t) = Some t.
Proof. by destruct t. Qed.
Lemma match_option_id {A} (o : option A) : match o with Some v => Some v | None => None end = o.
Proof. by destruct o. Qed.
Lemma event_pairs_nodup r : NoDup (event_pairs id r).*1.
Proof.
  unfold event_pairs. cbn [app].
  destruct (negb (str_is_empty (er_bidder r))), (0 <? er_timestamp r), (negb (str_is_empty (er_format r))),
    (negb (str_is_empty (er_analytics r))), (negb (str_is_empty (er_integration_type r)));
    apply (bool_decide_unpack (NoDup _)); by vm_compute.
Qed.
Lemma tracking_pairs_nodup r : NoDup (tracking_pairs id r).*1.
Proof.
  unfold tracking_pairs. cbn [app]. destruct (negb (str_is_empty (tr_integration r)));
    apply (bool_decide_unpack (NoDup _)); by vm_compute.
Qed.

Ltac look_up := unfold event_pairs, tracking_pairs; rewrite ?obj_get_app, ?obj_get_if; cbn [obj_get];
  repeat match goal with |- context [bool_decide (?a = ?b)] =>
    first [rewrite (bool_decide_true (a = b)) by done | rewrite (bool_decide_false (a = b)) by done] end;
  rewrite ?andb_false_r, ?andb_true_r, ?match_option_id; unfold id; rewrite ?default_non_empty.
Lemma event_pairs_values r (get := λ k, obj_get k (event_pairs id r)) :
  get "t" = Some (event_as_str (er_event_type r)) ∧ get "b" = Some (er_bid_id r) ∧
  get "a" = Some (er_account_id r) ∧ default "" (get "bidder") = er_bidder r ∧
  default "" (get "f") = er_format r ∧ default "" (get "x") = er_analytics r ∧
  default "" (get "int") = er_integration_type r ∧ get "vtype" = None ∧ get "analytics" = None ∧
  get "ts" = if 0 <? er_timestamp r then Some (pretty (er_timestamp r)) else None.
Proof. unfold get. split_and!; by look_up. Qed.
Lemma tracking_pairs_values r (get := λ k, obj_get k (tracking_pairs id r)) :
  get "t" = Some (tracked_type (tr_event_type r)) ∧ get "b" = Some (tr_bid_id r) ∧
  get "a" = Some (tr_account_id r) ∧ get "bidder" = Some (tr_bidder r) ∧ get "f" = Some "b" ∧
  get "x" = None ∧ default "" (get "int") = tr_integration r ∧ get "vtype" = None ∧ get "analytics" = None ∧
  get "ts" = Some (pretty (tr_timestamp r)).
Proof. unfold get. split_and!; by look_up. Qed.

(** What [parse_event_request] makes of a URL the auction wrote for a bid. *)
Definition tracked_request (t : RequestedEvent) (r : TrackingRequest) : EventRequest := {|
  er_event_type := t; er_bid_id := tr_bid_id r; er_account_id := tr_account_id r; er_bidder := tr_bidder r;
  er_timestamp := tr_timestamp r; er_format := "b"; er_analytics := ""; er_integration_type := tr_integration r;
  er_vtype := "" |}.

Section Reading.
Context {QR : QueryReader} (external_url : string)
  (Hquery : no_char (ch "?") external_url) (Hfragment : no_char (ch "#") external_url).
Lemma event_base_clean c : c ∈ [ch "?"; ch "#"] →
  no_char c (trim_end_matches (ch "/") external_url +:+ "/event").
Proof.
  intros Hc. apply no_char_app. split.
  - apply trim_no_char. by repeat (apply elem_of_cons in Hc as [->|Hc]; [done|]); apply elem_of_nil in Hc.
  - apply (bool_decide_unpack (no_char _ _)).
    repeat (apply elem_of_cons in Hc as [->|Hc]; [by vm_compute|]). by apply elem_of_nil in Hc.
Qed.
(** What a server finds in the URLs. *)
Lemma event_url_reads r k : event_texts r →
  query_params (event_request_to_url external_url r) !! k = obj_get k (event_pairs id r).
Proof.
  intros Ht. rewrite event_url_pairs. apply query_params_pairs; [apply event_base_clean; set_solver..|done| |].
  - apply event_pairs_encoded; [apply url_encode_encodes|done].
  - apply event_pairs_nodup.
Qed.
Lemma tracking_url_reads r k : tracking_texts r →
  query_params (create_tracking_url external_url r) !! k = obj_get k (tracking_pairs id r).
Proof.
  intros Ht. rewrite tracking_url_pairs. apply query_params_pairs; [apply event_base_clean; set_solver..|done| |].
  - apply tracking_pairs_encoded; [apply urlencoding_encodes|done].
  - apply tracking_pairs_nodup.
Qed.
(** The parser of the exchange reads back what [to_url] wrote. *)
Lemma event_url_parses r : event_texts r → er_bid_id r ≠ "" → er_account_id r ≠ "" → 0 ≤ er_timestamp r < 2 ^ 63 →
  er_vtype r = "" →
  parse_event_request (query_params (event_request_to_url external_url r)) = Ok r.
Proof.
  intros Ht Hbid Hacc Hts Hv. unfold parse_event_request. rewrite !event_url_reads by done.
  destruct (event_pairs_values r) as (->&->&->&->&->&->&->&->&_&->).
  cbn [mbind option_bind default from_option].
  rewrite event_as_str_from. unfold str_is_empty. rewrite !(bool_decide_false (_ = "")) by done.
  rewrite bool_decide_true by done. cbn [app]. destruct r as [t b a bd ts f x i vt]. cbn in *. subst vt.
  do 2 f_equal. destruct (0 <? ts) eqn:E; bools; cbn; [by rewrite parse_pretty by lia|lia].
Qed.
(** And of a URL the auction wrote. *)
Lemma tracking_url_parses r : tracking_texts r → tr_bid_id r ≠ "" → tr_account_id r ≠ "" →
  - 2 ^ 63 ≤ tr_timestamp r < 2 ^ 63 →
  parse_event_request (query_params (create_tracking_url external_url r)) =
    match tr_event_type r with
    | EvWin => Ok (tracked_request ReWin r)
    | EvImp => Ok (tracked_request ReImp r)
    | EvVast => Err ["parameter 't' is required and must be one of: win, imp, click"]
    end.
Proof.
  intros Ht Hbid Hacc Hts. unfold parse_event_request. rewrite !tracking_url_reads by done.
  destruct (tracking_pairs_values r) as (->&->&->&->&->&->&->&->&_&->).
  cbn [mbind option_bind default from_option].
  unfold str_is_empty. rewrite !(bool_decide_false (_ = "")) by done. rewrite parse_pretty by lia.
  by destruct (tr_event_type r).
Qed.
End Reading.

(** *** Bids *)

Lemma insert_at_spec pre tag post : insert_at (String.length pre) tag (pre +:+ post) = pre +:+ tag +:+ post.
Proof. unfold insert_at. by rewrite substring_app_l, str_drop_app. Qed.
Lemma insert_before_first_spec close_tags tag xml : 
  match insert_before_first close_tags tag xml with
  | Some out => ∃ close pre post, close ∈ close_tags ∧ xml = pre +:+ close +:+ post ∧
      out = pre +:+ tag +:+ close +:+ post
  | None => Forall (λ close, str_find close xml = None) close_tags
  end.
Proof.
  induction close_tags as [|close close_tags IH]; [constructor|]. cbn.
  destruct (str_find close xml) as [n|] eqn:Hf.
  - apply str_find_split in Hf as (pre&post&->&<-). exists close, pre, post.
    split_and!; [by left|done|]. apply insert_at_spec.
  - destruct (insert_before_first close_tags tag xml) as [out|]; [|by constructor].
    destruct IH as (c&pre&post&Hc&H1&H2). exists c, pre, post. split; [by right|done].
Qed.

(** What events do to a bid: its events are new, and only where events are allowed
    and the bid is no video; of the bid itself only a video's markup may change, by
    one impression before a closing tag, and only where the bidder allows it. *)
Lemma modify_bid_for_events_spec tracking name b :
  let b' := modify_bid_for_events tracking name b in
  pob_bid_events b' = make_bid_ext_events tracking (effective_bid_id b) (pob_bid_type b) name ∧
  pob_bid_type b' = pob_bid_type b ∧ effective_bid_id b' = effective_bid_id b ∧
  (pob_bid b' = pob_bid b ∨
   pob_bid_type b = BtVideo ∧ is_modifying_vast_xml_allowed tracking name = true ∧
   ∃ close pre post, close ∈ ["</InLine>"; "</Wrapper>"] ∧
     vast_make_vast (default "" (bid_adm (pob_bid b))) (default "" (bid_nurl (pob_bid b))) =
       pre +:+ close +:+ post ∧
     pob_bid b' = set_bid_adm (Some (pre +:+ impression_tag tracking (effective_bid_id b) name +:+
       close +:+ post)) (pob_bid b)).
Proof.
  cbn zeta. unfold modify_bid_for_events. destruct (is_modifying_vast_xml_allowed tracking name); [|by auto].
  unfold modify_bid_vast. destruct (is_video (pob_bid_type b)) eqn:Hv; cbn [negb]; [|by auto].
  destruct (_ && _); [by auto|]. unfold inject_tracking.
  pose proof (insert_before_first_spec ["</InLine>"; "</Wrapper>"]
    (impression_tag tracking (effective_bid_id b) name)
    (vast_make_vast (default "" (bid_adm (pob_bid b))) (default "" (bid_nurl (pob_bid b))))) as Hi.
  destruct (insert_before_first _ _ _) as [out|]; [|by auto].
  destruct Hi as (close&pre&post&Hc&Hx&->). split_and!; [done..|]. right.
  split_and!; [by destruct (pob_bid_type b)|done|]. by exists close, pre, post.
Qed.
Lemma modify_bids_for_events_lookup tracking seats name :
  pos_bids <$> modify_bids_for_events tracking seats !! name =
  (λ sb, modify_bid_for_events tracking name <$> pos_bids sb) <$> seats !! name.
Proof. unfold modify_bids_for_events. rewrite map_lookup_imap. by destruct (seats !! name). Qed.

(** Video tracking adds one impression: after the last one, else before the end of
    the ad; a text with neither is left alone. *)
Lemma vtrack_modify_spec external_url vast bid_id bidder account_id timestamp integration :
  let tag := "<Impression><![CDATA[" +:+
    get_vast_url_tracking external_url bid_id bidder account_id timestamp integration +:+ "]]></Impression>" in
  let '(out, modified) :=
    vtrack_modify_vast_xml_string external_url vast bid_id bidder account_id timestamp integration in
  if modified then
    ∃ pre post, vast = pre +:+ post ∧ out = pre +:+ tag +:+ post ∧
      match str_rfind "</Impression>" vast with
      | Some _ => ∃ before, pre = before +:+ "</Impression>" ∧
          ∀ a rest, "</Impression>" +:+ post = String a rest → str_rfind "</Impression>" rest = None
      | None => ∃ close after, close ∈ ["</InLine>"; "</Wrapper>"] ∧ post = close +:+ after
      end
  else out = vast ∧ str_rfind "</Impression>" vast = None.
Proof.
  cbn zeta. unfold vtrack_modify_vast_xml_string. unfold str_is_empty.
  case_bool_decide as He; [by subst|]. destruct (str_rfind "</Impression>" vast) as [n|] eqn:Hr.
  - apply str_rfind_split in Hr as (pre&post&->&<-&Hlast).
    exists (pre +:+ "</Impression>"), post. rewrite <-str_length_app, <-str_app_assoc, insert_at_spec.
    split_and!; [done|by rewrite ?str_app_assoc|]. exists pre. done.
  - cbn [insert_before_last]. destruct (str_rfind "</InLine>" vast) as [n|] eqn:H1.
    { apply str_rfind_split in H1 as (pre&post&->&<-&_). exists pre, ("</InLine>" +:+ post).
      rewrite insert_at_spec. split_and!; [done|done|]. exists "</InLine>", post. set_solver. }
    destruct (str_rfind "</Wrapper>" vast) as [n|] eqn:H2; [|done].
    apply str_rfind_split in H2 as (pre&post&->&<-&_). exists pre, ("</Wrapper>" +:+ post).
    rewrite insert_at_spec. split_and!; [done|done|]. exists "</Wrapper>", post. set_solver.
Qed.
Lemma bidders_allowing_update request infos unknown b :
  b ∈ get_bidders_allowing_vast_update request infos unknown ↔
  b ∈ cbd_bidder <$> bcr_puts request ∧ is_allow_vast_for_bidder b infos unknown = true.
Proof.
  unfold get_bidders_allowing_vast_update.
  assert (H : ∀ l (acc : gset string), b ∈ fold_left (λ allowed put,
      if is_allow_vast_for_bidder (cbd_bidder put) infos unknown
      then {[cbd_bidder put]} ∪ allowed else allowed) l acc ↔
    b ∈ acc ∨ (b ∈ cbd_bidder <$> l ∧ is_allow_vast_for_bidder b infos unknown = true)).
  { induction l as [|put l IH]; intros acc; cbn [fold_left fmap list_fmap]; [set_solver|].
    rewrite IH. destruct (is_allow_vast_for_bidder (cbd_bidder put) infos unknown) eqn:Ha;
      rewrite elem_of_cons, ?elem_of_union, ?elem_of_singleton; naive_solver congruence. }
  rewrite H. set_solver.
Qed.

(** *** Findings *)

(** The comment says whichever closing tag comes first; an InLine end anywhere is
    taken before a Wrapper end that precedes it. *)
Lemma inline_end_preferred tag :
  insert_before_first ["</InLine>"; "</Wrapper>"] tag "<Wrapper></Wrapper><InLine></InLine>" =
  Some ("<Wrapper></Wrapper><InLine>" +:+ tag +:+ "</InLine>").
Proof. done. Qed.
(** The comment says before the last impression's closing tag: it is after it. *)
Lemma vtrack_inserts_after :
  (vtrack_modify_vast_xml_string "h" "<Impression>x</Impression>" "b" "" "a" 0 "").1 =
  "<Impression>x</Impression><Impression><![CDATA[h/event?t=imp&b=b&a=a]]></Impression>".
Proof. by vm_compute. Qed.
(** The two cache life times of the same bid differ. *)
Lemma cache_ttls_disagree : vast_cache_ttl 60 300 0 0 = 60 ∧ cache_ttl 60 300 0 0 = 300.
Proof. done. Qed.

(** *** Witnesses *)

Definition sample_event : EventRequest := {|
  er_event_type := ReWin; er_bid_id := "a&b=c d%+#"; er_account_id := "acc"; er_bidder := "x y";
  er_timestamp := 1234; er_format := "i"; er_analytics := ""; er_integration_type := "pbjs"; er_vtype := "" |}.
Definition sample_tracking : TrackingRequest := {|
  tr_event_type := EvImp; tr_bid_id := "b?1"; tr_bidder := ""; tr_account_id := "acc";
  tr_timestamp := -5; tr_integration := "" |}.

(** A reader for the examples: form decoding, of equal keys the last. *)
Fixpoint form_decode (s : string) : string :=
  match s with
  | "" => ""
  | String a s' =>
      if bool_decide (a = ch "+") then String (ch " ") (form_decode s')
      else if bool_decide (a = ch "%") then
        match s' with
        | String h (String l rest) =>
            match hex_digit h, hex_digit l with
            | Some x, Some y => String (ascii_of_byte (16 * x + y)) (form_decode rest)
            | _, _ => String a (form_decode s')
            end
        | _ => String a (form_decode s')
        end
      else String a (form_decode s')
  end.
Definition form_pair (piece : string) : option (string * string) :=
  if str_is_empty piece then None
  else Some (match split_once (ch "=") piece with
             | Some (k, v) => (form_decode k, form_decode v)
             | None => (form_decode piece, "")
             end).
Definition sample_query_params (url : string) : gmap string string :=
  match split_once (ch "?") url with
  | Some (_, query) => list_to_map (reverse (omap form_pair (split_char (ch "&") query)))
  | None => ∅
  end.
Lemma form_encodes_decode raw text : form_encodes raw text → form_decode raw = text.
Proof.
  induction 1 as [|a raw text Hb Ha Hr IH|h l x y raw text Hx Hy Hxy Hr IH]; [done| |].
  - cbn. rewrite !bool_decide_false by set_solver. by rewrite IH.
  - cbn. rewrite Hx, Hy. by rewrite IH.
Qed.
Lemma hex_digit_not c a : c ∈ [ch "&"; ch "="] → is_Some (hex_digit a) → a ≠ c.
Proof.
  intros Hc [x Hx] ->. revert Hx.
  repeat (apply elem_of_cons in Hc as [->|Hc]; [done|]). by apply elem_of_nil in Hc.
Qed.
Lemma form_encodes_clean c raw text : c ∈ [ch "&"; ch "="] → form_encodes raw text → no_char c raw.
Proof.
  intros Hc. assert (Hp : c ≠ ch "%").
  { repeat (apply elem_of_cons in Hc as [->|Hc]; [done|]). by apply not_elem_of_nil in Hc. }
  unfold no_char. induction 1 as [|a raw text Hb Ha Hr IH|h l x y raw text Hx Hy Hxy Hr IH]; [apply not_elem_of_nil| |].
  - cbn. rewrite not_elem_of_cons. split; [|done]. intros ->. apply Ha. set_solver.
  - cbn. rewrite !not_elem_of_cons. split_and!; [done| | |done].
    + intros ->. by apply (hex_digit_not h h Hc); [eexists|].
    + intros ->. by apply (hex_digit_not l l Hc); [eexists|].
Qed.
Lemma form_pairs raw text : Forall2 encoded_pair raw text →
  omap form_pair ((λ p, p.1 +:+ "=" +:+ p.2) <$> raw) = text.
Proof.
  induction 1 as [|[k v] [k' v'] raw text (Hk&Hv&Hne) Hr IH]; [done|]. cbn in *.
  unfold form_pair at 1. unfold str_is_empty. rewrite bool_decide_false by by destruct k.
  change ("=" +:+ v) with (String (ch "=") v).
  rewrite split_once_app by (eapply form_encodes_clean; [|exact Hk]; set_solver).
  rewrite (form_encodes_decode k k'), (form_encodes_decode v v') by done. by rewrite IH.
Qed.
Lemma pieces_clean raw text : Forall2 encoded_pair raw text →
  Forall (no_char (ch "&")) ((λ p : string * string, p.1 +:+ "=" +:+ p.2) <$> raw).
Proof.
  induction 1 as [|[k v] [k' v'] raw text (Hk&Hv&_) Hr IH]; constructor; [|done].
  cbn in *. rewrite !no_char_app. split_and!; try (eapply form_encodes_clean; [|eassumption]; set_solver).
  apply (bool_decide_unpack (no_char _ _)). by vm_compute.
Qed.
Lemma params_lookup (l : list (string * string)) k : NoDup l.*1 →
  (list_to_map (reverse l) : gmap string string) !! k = obj_get k l.
Proof.
  intros Hnd. rewrite <-(list_to_map_proper l (reverse l)); [|done|by rewrite reverse_Permutation].
  clear Hnd. induction l as [|[k' v] l IH]; [done|]. cbn.
  destruct (decide (k' = k)) as [->|Hne].
  - by rewrite bool_decide_true, lookup_insert_eq.
  - by rewrite bool_decide_false, lookup_insert_ne.
Qed.
Lemma sample_query_pairs base raw text :
  no_char (ch "?") base → no_char (ch "#") base → raw ≠ [] → Forall2 encoded_pair raw text →
  NoDup text.*1 →
  ∀ k, sample_query_params (base +:+ "?" +:+ raw_query raw) !! k = obj_get k text.
Proof.
  intros Hb _ Hne Hr Hnd k. unfold sample_query_params.
  change ("?" +:+ raw_query raw) with (String (ch "?") (raw_query raw)).
  rewrite split_once_app by done. unfold raw_query. destruct raw as [|p raw]; [done|].
  cbn [fmap list_fmap]. rewrite split_char_join.
  - change ((p.1 +:+ "=" +:+ p.2) :: _) with ((λ p : string * string, p.1 +:+ "=" +:+ p.2) <$> p :: raw).
    rewrite (form_pairs _ text) by done. by apply params_lookup.
  - change ((p.1 +:+ "=" +:+ p.2) :: _) with ((λ p : string * string, p.1 +:+ "=" +:+ p.2) <$> p :: raw).
    by apply (pieces_clean _ text).
Qed.
Definition sample_reader : QueryReader :=
  {| query_params := sample_query_params; query_params_pairs := sample_query_pairs |}.
