(* ===== verification/Analytics.v ===== *)
(** * Analytics

    exchange/src/analytics.rs: the objects logged at the endpoints, the modules that
    log them (file, HTTP, log lines, Pubstack, AGMA, and the aggregator of several),
    and the workers behind the modules' channels, which batch what they receive;
    and the analytics crate's runner and Pubstack back end (analytics/src), whose
    buffer several tasks share.

    A module is the state of what it has sent so far; a worker is a step function on
    what it receives, and the list of its inputs is any interleaving of messages and
    timer ticks.  serde's serialization of the objects, gzip and the file system are
    parameters; times are milliseconds. *)

From S2P Require Import Prelude IpUtil Text Json VastEvents.
Open Scope Z_scope.

(** ** Objects *)

Inductive RequestType : Type := RtAuction | RtVideo | RtCookieSync | RtSetUid | RtAmp | RtNotificationEvent.
(** The name serde writes. *)
Definition request_type_name (t : RequestType) : string :=
  match t with
  | RtAuction => "/openrtb2/auction" | RtVideo => "/openrtb2/video" | RtCookieSync => "/cookie_sync"
  | RtSetUid => "/set_uid" | RtAmp => "/openrtb2/amp" | RtNotificationEvent => "/event"
  end.
Inductive ResponseFormat : Type := RfBlank | RfImage.
Inductive VastType : Type := VtStart | VtFirstQuartile | VtMidPoint | VtThirdQuartile | VtComplete.
Inductive AnalyticsEnabled : Type := AnEnabled | AnDisabled.
Record AuctionObject : Type := {
  ao_status : Z; ao_errors : list string; ao_request : option Value; ao_response : option Value; ao_account : option string;
  ao_start_time : Z; ao_hook_execution_outcome : list Value; ao_seat_non_bid : list Value }.
Record VideoObject : Type := {
  vo_status : Z; vo_errors : list string; vo_request : option Value; vo_response : option Value;
  vo_video_request : option Value; vo_video_response : option Value; vo_start_time : Z; vo_seat_non_bid : list Value }.
Record AnUsersyncInfo : Type := { aus_url : option string; aus_sync_type : option string }.
Record CookieSyncBidder : Type := { csb_bidder : string; csb_no_cookie : bool; csb_usersync : option AnUsersyncInfo }.
Record CookieSyncObject : Type := { cso_status : Z; cso_errors : list string; cso_bidder_status : list CookieSyncBidder }.
Record SetUIDObject : Type := { suo_status : Z; suo_bidder : string; suo_uid : string; suo_errors : list string; suo_success : bool }.
Record AmpObject : Type := {
  amo_status : Z; amo_errors : list string; amo_auction_response : option Value; amo_amp_targeting_values : gmap string string;
  amo_origin : string; amo_start_time : Z; amo_hook_execution_outcome : list Value; amo_seat_non_bid : list Value;
  amo_request : option Value }.
Record AnEventRequest : Type := {
  aer_event_type : option EventType; aer_format : option ResponseFormat; aer_analytics : option AnalyticsEnabled;
  aer_bidid : option string; aer_account_id : option string; aer_bidder : option string; aer_timestamp : option Z;
  aer_integration : option string; aer_vtype : option VastType }.
Record NotificationEvent : Type := { ne_request : option AnEventRequest; ne_account : option string }.
Record AuctionEvent : Type := {
  aev_timestamp : Z; aev_request_id : string; aev_status : string; aev_bidder_count : Z; aev_bid_count : Z; aev_total_revenue : f64 }.

(** serde_json: the JSON text of an object, alone or after a field of an envelope
    into which it is flattened. *)
Class Serialize (T : Type) : Type := {
  ser_to_string : T → option string;
  ser_after : string → string → T → option string }.

(** ** The trait, the silent module and the aggregator *)

Class AnalyticsModule (M : Type) : Type := {
  log_auction_object : M → AuctionObject → M;
  log_video_object : M → VideoObject → M;
  log_cookie_sync_object : M → CookieSyncObject → M;
  log_setuid_object : M → SetUIDObject → M;
  log_amp_object : M → AmpObject → M;
  log_notification_event : M → NotificationEvent → M;
  module_shutdown : M → M }.
Inductive NoopAnalyticsModule : Type := Noop.
Definition noop_module : AnalyticsModule NoopAnalyticsModule := {|
  log_auction_object m _ := m; log_video_object m _ := m; log_cookie_sync_object m _ := m; log_setuid_object m _ := m;
  log_amp_object m _ := m; log_notification_event m _ := m; module_shutdown m := m |}.
(** [Arc<dyn AnalyticsModule>] *)
Record DynModule : Type := { dm_type : Type; dm_module : AnalyticsModule dm_type; dm_state : dm_type }.
Definition dyn_step (f : ∀ M, AnalyticsModule M → M → M) (d : DynModule) : DynModule :=
  {| dm_type := dm_type d; dm_module := dm_module d; dm_state := f (dm_type d) (dm_module d) (dm_state d) |}.
Definition LogAggregator : Type := list DynModule.
Definition log_aggregator : AnalyticsModule LogAggregator := {|
  log_auction_object ms ao := dyn_step (λ M _ m, log_auction_object m ao) <$> ms;
  log_video_object ms vo := dyn_step (λ M _ m, log_video_object m vo) <$> ms;
  log_cookie_sync_object ms cso := dyn_step (λ M _ m, log_cookie_sync_object m cso) <$> ms;
  log_setuid_object ms so := dyn_step (λ M _ m, log_setuid_object m so) <$> ms;
  log_amp_object ms ao := dyn_step (λ M _ m, log_amp_object m ao) <$> ms;
  log_notification_event ms ne := dyn_step (λ M _ m, log_notification_event m ne) <$> ms;
  module_shutdown ms := dyn_step (λ M _ m, module_shutdown m) <$> ms |}.

(** ** Channels *)

(** What is sent to a worker, and what its loop wakes up for. *)
Inductive Msg (A : Type) : Type := MEvent (a : A) | MShutdown.
Arguments MEvent {A}. Arguments MShutdown {A}.
Inductive WorkerInput (A : Type) : Type := WMsg (m : Msg A) | WClosed | WTick.
Arguments WMsg {A}. Arguments WClosed {A}. Arguments WTick {A}.
(** The sender of an unbounded channel: what was sent, and whether there is still a
    receiver. *)
Record Sender (A : Type) : Type := { tx_sent : list (Msg A); tx_open : bool }.
Arguments tx_sent {A}. Arguments tx_open {A}. Arguments Build_Sender {A}.
Definition tx_send {A} (tx : Sender A) (m : Msg A) : Sender A :=
  if tx_open tx then {| tx_sent := tx_sent tx ++ [m]; tx_open := true |} else tx.
Section Worker.
Context {A S B : Type} (step : S → WorkerInput A → S * list B * bool).
(** A worker on its inputs, until its step says to stop. *)
Fixpoint run_worker (s : S) (inputs : list (WorkerInput A)) : S * list B * bool :=
  match inputs with
  | [] => (s, [], true)
  | i :: inputs' =>
      let '(s, out, running) := step s i in
      if running then let '(s, out', running) := run_worker s inputs' in (s, out ++ out', running)
      else (s, out, false)
  end.
End Worker.

(** ** FileLogger *)

Definition newline : string := String (Ascii.ascii_of_N 10) "".
(** [enqueue] with [LogEnvelope] *)
Definition file_enqueue `{Serialize T} (tx : Sender string) (request_type : RequestType) (payload : T) : Sender string :=
  match ser_after "type" (request_type_name request_type) payload with
  | Some json => tx_send tx (MEvent (json +:+ newline))
  | None => tx
  end.
Definition FileLogger : Type := Sender string.
Section FileModule.
Context `{!Serialize AuctionObject, !Serialize VideoObject, !Serialize CookieSyncObject, !Serialize SetUIDObject,
  !Serialize AmpObject, !Serialize NotificationEvent, !Serialize AuctionEvent}.
Definition file_logger : AnalyticsModule FileLogger := {|
  log_auction_object tx ao := file_enqueue tx RtAuction ao;
  log_video_object tx vo := file_enqueue tx RtVideo vo;
  log_cookie_sync_object tx cso := file_enqueue tx RtCookieSync cso;
  log_setuid_object tx so := file_enqueue tx RtSetUid so;
  log_amp_object tx ao := file_enqueue tx RtAmp ao;
  log_notification_event tx ne := file_enqueue tx RtNotificationEvent ne;
  module_shutdown tx := tx_send tx MShutdown |}.
(** [AnalyticsBackend::log_auction] *)
Definition file_log_auction (tx : FileLogger) (event : AuctionEvent) : FileLogger :=
  match ser_to_string event with Some json => tx_send tx (MEvent (json +:+ newline)) | None => tx end.
End FileModule.
(** The writer task; [write_all] gives the file after a write, failed or not. *)
Definition file_step (write_all : string → string → string) (file : string) (i : WorkerInput string) : string * list Empty_set * bool :=
  match i with
  | WMsg (MEvent line) => (write_all file line, [], true)
  | WMsg MShutdown | WClosed => (file, [], false)
  | WTick => (file, [], true)
  end.

(** ** HttpAnalytics *)

Record HttpAnalyticsConfig : Type := { hac_endpoint : string; hac_batch_size : Z; hac_flush_interval_ms : Z; hac_timeout_ms : Z }.
Definition default_http_analytics_config : HttpAnalyticsConfig := {|
  hac_endpoint := ""; hac_batch_size := 100; hac_flush_interval_ms := 5000; hac_timeout_ms := 10000 |}.
(** [flush_batch]: the payload that is posted, if any. *)
Definition http_flush_batch (endpoint : string) (batch : list string) : list string :=
  if str_is_empty endpoint || bool_decide (batch = []) then [] else ["[" +:+ join "," batch +:+ "]"].
(** The posts of a payload and the pauses between them: at most three, until one
    succeeds; [post] is the status of an attempt, if it had one. *)
Fixpoint http_attempts (post : Z → option Z) (attempt : Z) (remaining : nat) : list Z * bool :=
  match remaining with
  | O => ([], false)
  | S remaining =>
      match post attempt with
      | Some status =>
          if (200 <=? status) && (status <? 300) then ([], true)
          else let '(pauses, ok) := http_attempts post (attempt + 1) remaining in
            (if attempt <? 2 then 100 * 2 ^ attempt :: pauses else pauses, ok)
      | None =>
          let '(pauses, ok) := http_attempts post (attempt + 1) remaining in
            (if attempt <? 2 then 100 * 2 ^ attempt :: pauses else pauses, ok)
      end
  end.
Definition http_step (c : HttpAnalyticsConfig) (batch : list string) (i : WorkerInput string) : list string * list string * bool :=
  match i with
  | WMsg (MEvent json) =>
      let batch := batch ++ [json] in
      if hac_batch_size c <=? zlen batch then ([], http_flush_batch (hac_endpoint c) batch, true) else (batch, [], true)
  | WMsg MShutdown =>
      if negb (bool_decide (batch = [])) then ([], http_flush_batch (hac_endpoint c) batch, false) else (batch, [], false)
  | WClosed => (batch, [], false)
  | WTick => if negb (bool_decide (batch = [])) then ([], http_flush_batch (hac_endpoint c) batch, true) else (batch, [], true)
  end.
Definition http_enqueue `{Serialize T} (tx : Sender string) (request_type : RequestType) (payload : T) : Sender string :=
  match ser_after "type" (request_type_name request_type) payload with
  | Some json => tx_send tx (MEvent json)
  | None => tx
  end.
Definition HttpAnalytics : Type := Sender string.
Definition http_analytics `{!Serialize AuctionObject, !Serialize VideoObject, !Serialize CookieSyncObject, !Serialize SetUIDObject,
    !Serialize AmpObject, !Serialize NotificationEvent} : AnalyticsModule HttpAnalytics := {|
  log_auction_object tx ao := http_enqueue tx RtAuction ao;
  log_video_object tx vo := http_enqueue tx RtVideo vo;
  log_cookie_sync_object tx cso := http_enqueue tx RtCookieSync cso;
  log_setuid_object tx so := http_enqueue tx RtSetUid so;
  log_amp_object tx ao := http_enqueue tx RtAmp ao;
  log_notification_event tx ne := http_enqueue tx RtNotificationEvent ne;
  module_shutdown tx := tx_send tx MShutdown |}.

(** ** LogAnalytics *)

Inductive TraceLevel : Type := TlDebug | TlTrace | TlInfo.
Record LogAnalytics : Type := { la_level : string; la_lines : list (TraceLevel * RequestType * string) }.
Definition log_json `{Serialize T} (m : LogAnalytics) (request_type : RequestType) (payload : T) : LogAnalytics :=
  match ser_to_string payload with
  | Some json =>
      let level := if bool_decide (la_level m = "debug") then TlDebug else if bool_decide (la_level m = "trace") then TlTrace else TlInfo in
      {| la_level := la_level m; la_lines := la_lines m ++ [(level, request_type, json)] |}
  | None => m
  end.
Definition log_analytics `{!Serialize AuctionObject, !Serialize VideoObject, !Serialize CookieSyncObject, !Serialize SetUIDObject,
    !Serialize AmpObject, !Serialize NotificationEvent} : AnalyticsModule LogAnalytics := {|
  log_auction_object m ao := log_json m RtAuction ao;
  log_video_object m vo := log_json m RtVideo vo;
  log_cookie_sync_object m cso := log_json m RtCookieSync cso;
  log_setuid_object m so := log_json m RtSetUid so;
  log_amp_object m ao := log_json m RtAmp ao;
  log_notification_event m ne := log_json m RtNotificationEvent ne;
  module_shutdown m := m |}.

(** ** PubstackAnalytics *)

Record PubstackFeatures : Type := { pf_auction : bool; pf_video : bool; pf_amp : bool; pf_cookie_sync : bool; pf_set_uid : bool }.
Definition default_pubstack_features : PubstackFeatures := {|
  pf_auction := true; pf_video := true; pf_amp := true; pf_cookie_sync := true; pf_set_uid := true |}.
Record PubstackRemoteConfig : Type := { prc_scope_id : string; prc_endpoint : string; prc_features : gmap string bool }.
Record PubstackConfig : Type := {
  psc_scope_id : string; psc_endpoint : string; psc_features : PubstackFeatures; psc_max_event_count : Z;
  psc_max_byte_size : Z; psc_flush_interval : Z; psc_http_timeout : Z; psc_config_refresh_interval : option Z }.
Definition default_pubstack_config : PubstackConfig := {|
  psc_scope_id := ""; psc_endpoint := ""; psc_features := default_pubstack_features; psc_max_event_count := 2000;
  psc_max_byte_size := 100 * 1024 * 1024; psc_flush_interval := 30000; psc_http_timeout := 10000;
  psc_config_refresh_interval := Some 600000 |}.
(** flate2's encoder over a vector. *)
Class GzEncoder (G : Type) : Type := { gz_new : G; gz_write : G → string → G * bool; gz_finish : G → option string }.
Section PubstackChannel.
Context `{GzEncoder G}.
Record PubstackBuffer : Type := { pb_gz : G; pb_event_count : Z; pb_raw_size : Z }.
Definition pubstack_buffer_new : PubstackBuffer := {| pb_gz := gz_new; pb_event_count := 0; pb_raw_size := 0 |}.
(** [do_flush!]: the bodies posted to the intake. *)
Definition pubstack_flush (b : PubstackBuffer) : PubstackBuffer * list string :=
  if 0 <? pb_event_count b then
    let payload := default "" (gz_finish (pb_gz b)) in
    (pubstack_buffer_new, if str_is_empty payload then [] else [payload])
  else (b, []).
Definition pubstack_step (max_event_count max_byte_size : Z) (b : PubstackBuffer) (i : WorkerInput string)
    : PubstackBuffer * list string * bool :=
  match i with
  | WMsg (MEvent data) =>
      let '(gz, written) := gz_write (pb_gz b) data in
      let b := {| pb_gz := gz; pb_event_count := pb_event_count b + 1;
                  pb_raw_size := pb_raw_size b + Z.of_nat (String.length data) |} in
      if negb written then (b, [], true)
      else if (max_event_count <=? pb_event_count b) || (max_byte_size <=? pb_raw_size b)
      then let '(b, out) := pubstack_flush b in (b, out, true)
      else (b, [], true)
  | WMsg MShutdown | WClosed => let '(b, out) := pubstack_flush b in (b, out, false)
  | WTick => let '(b, out) := pubstack_flush b in (b, out, true)
  end.
End PubstackChannel.
Arguments PubstackBuffer : clear implicits.

Record PubstackEventChannel : Type := {
  pec_intake_url : string; pec_max_event_count : Z; pec_max_byte_size : Z; pec_flush_interval : Z; pec_tx : Sender string }.
Definition pubstack_event_channel (intake_url : string) (max_event_count max_byte_size flush_interval : Z) : PubstackEventChannel :=
  {| pec_intake_url := intake_url; pec_max_event_count := max_event_count; pec_max_byte_size := max_byte_size;
     pec_flush_interval := flush_interval; pec_tx := {| tx_sent := []; tx_open := true |} |}.
Definition pec_send (m : Msg string) (c : PubstackEventChannel) : PubstackEventChannel :=
  {| pec_intake_url := pec_intake_url c; pec_max_event_count := pec_max_event_count c; pec_max_byte_size := pec_max_byte_size c;
     pec_flush_interval := pec_flush_interval c; pec_tx := tx_send (pec_tx c) m |}.
Definition pec_push (c : PubstackEventChannel) (data : string) : PubstackEventChannel := pec_send (MEvent data) c.
Definition pec_close (c : PubstackEventChannel) : PubstackEventChannel := pec_send MShutdown c.
(** The module: its configuration, its channels by name, and the ones it closed. *)
Record PubstackAnalytics : Type := {
  pa_config : PubstackConfig; pa_channels : gmap string PubstackEventChannel; pa_closed : list PubstackEventChannel }.
Definition pubstack_features (f : PubstackFeatures) : list (string * bool) :=
  [("auction", pf_auction f); ("video", pf_video f); ("amp", pf_amp f); ("cookiesync", pf_cookie_sync f); ("setuid", pf_set_uid f)].
Definition build_channels (c : PubstackConfig) : gmap string PubstackEventChannel :=
  fold_left (λ (channels : gmap string PubstackEventChannel) '(name, enabled),
    if enabled : bool then
      <[ name := pubstack_event_channel (psc_endpoint c +:+ "/intake/" +:+ name) (psc_max_event_count c) (psc_max_byte_size c)
                   (psc_flush_interval c) ]> channels
    else channels) (pubstack_features (psc_features c)) ∅.
Definition pubstack_new (c : PubstackConfig) : PubstackAnalytics :=
  {| pa_config := c; pa_channels := build_channels c; pa_closed := [] |}.
(** A turn of the refresh task whose answer is a configuration. *)
Definition pubstack_refresh `{MI : MapIter} (remote : PubstackRemoteConfig) (m : PubstackAnalytics) : PubstackAnalytics :=
  let feature name := default false (prc_features remote !! name) in
  let c := pa_config m in
  let cfg := {| psc_scope_id := psc_scope_id c; psc_endpoint := prc_endpoint remote;
    psc_features := {| pf_auction := feature "auction"; pf_video := feature "video"; pf_amp := feature "amp";
      pf_cookie_sync := feature "cookiesync"; pf_set_uid := feature "setuid" |};
    psc_max_event_count := psc_max_event_count c; psc_max_byte_size := psc_max_byte_size c;
    psc_flush_interval := psc_flush_interval c; psc_http_timeout := psc_http_timeout c;
    psc_config_refresh_interval := psc_config_refresh_interval c |} in
  {| pa_config := cfg; pa_channels := build_channels cfg;
     pa_closed := pa_closed m ++ (pec_close ∘ snd <$> map_iter (pa_channels m)) |}.
Definition serialize_with_scope `{Serialize T} (scope : string) (payload : T) : option string :=
  match ser_after "scope" scope payload with Some data => Some (data +:+ newline) | None => None end.
Definition push_if_enabled `{Serialize T} (m : PubstackAnalytics) (channel_name : string) (payload : T) : PubstackAnalytics :=
  match serialize_with_scope (psc_scope_id (pa_config m)) payload with
  | Some data =>
      match pa_channels m !! channel_name with
      | Some c => {| pa_config := pa_config m; pa_channels := <[ channel_name := pec_push c data ]> (pa_channels m); pa_closed := pa_closed m |}
      | None => m
      end
  | None => m
  end.
Definition pubstack_analytics `{!Serialize AuctionObject, !Serialize VideoObject, !Serialize CookieSyncObject,
    !Serialize SetUIDObject, !Serialize AmpObject} : AnalyticsModule PubstackAnalytics := {|
  log_auction_object m ao := push_if_enabled m "auction" ao;
  log_video_object m vo := push_if_enabled m "video" vo;
  log_cookie_sync_object m cso := push_if_enabled m "cookiesync" cso;
  log_setuid_object m so := push_if_enabled m "setuid" so;
  log_amp_object m ao := push_if_enabled m "amp" ao;
  log_notification_event m _ := m;
  module_shutdown m := {| pa_config := pa_config m; pa_channels := pec_close <$> pa_channels m; pa_closed := pa_closed m |} |}.

(** ** AgmaAnalytics *)

Inductive AgmaEventType : Type := AgAuction | AgAmp | AgVideo.
Record AgmaAccount : Type := { aga_code : string; aga_publisher_id : string; aga_site_app_id : string }.
Record AgmaConfig : Type := {
  agc_endpoint : string; agc_accounts : list AgmaAccount; agc_max_event_count : Z; agc_max_buffer_size : Z;
  agc_flush_interval : Z; agc_http_timeout : Z; agc_gzip : bool }.
Definition default_agma_config : AgmaConfig := {|
  agc_endpoint := ""; agc_accounts := []; agc_max_event_count := 2000; agc_max_buffer_size := 100 * 1024 * 1024;
  agc_flush_interval := 60000; agc_http_timeout := 10000; agc_gzip := false |}.
Record AgmaLogObject : Type := {
  agl_event_type : AgmaEventType; agl_id : string; agl_code : string; agl_site : option Value; agl_app : option Value;
  agl_device : option Value; agl_user : option Value; agl_created_at : Z }.
(** The worker's buffer of bytes and its count of events. *)
Record AgmaBuffer : Type := { agb_buf : string; agb_event_count : Z }.
Definition agma_buffer_new : AgmaBuffer := {| agb_buf := "["; agb_event_count := 0 |}.
(** [if buf.last() == Some(&b',') { buf.pop(); }] *)
Fixpoint drop_last_comma (s : string) : string :=
  match s with
  | "" => ""
  | String a "" => if bool_decide (a = ch ",") then "" else s
  | String a s' => String a (drop_last_comma s')
  end.
Definition agma_flush (b : AgmaBuffer) : AgmaBuffer * list string :=
  if (0 <? agb_event_count b) && (1 <? String.length (agb_buf b))%nat
  then (agma_buffer_new, [drop_last_comma (agb_buf b) +:+ "]"]) else (b, []).
Definition agma_step (max_event_count max_buffer_size : Z) (b : AgmaBuffer) (i : WorkerInput string) : AgmaBuffer * list string * bool :=
  match i with
  | WMsg (MEvent data) =>
      let b := {| agb_buf := agb_buf b +:+ data +:+ ","; agb_event_count := agb_event_count b + 1 |} in
      if (max_event_count <=? agb_event_count b) || (max_buffer_size <=? Z.of_nat (String.length (agb_buf b)))
      then let '(b, out) := agma_flush b in (b, out, true)
      else (b, [], true)
  | WMsg MShutdown | WClosed => let '(b, out) := agma_flush b in (b, out, false)
  | WTick => let '(b, out) := agma_flush b in (b, out, true)
  end.
Definition agma_compress_gzip `{GzEncoder G} (data : string) : option string :=
  let '(encoder, written) := gz_write (gz_new : G) data in if written then gz_finish encoder else None.
(** The request the task spawned by a flush makes, if any. *)
Definition agma_post `{GzEncoder G} (c : AgmaConfig) (payload : string) : option (string * list (string * string) * string) :=
  body ← (if agc_gzip c then agma_compress_gzip (G := G) payload else Some payload);
  Some (agc_endpoint c, ("Content-Type", "application/json") ::
    (if agc_gzip c then [("Content-Encoding", "gzip")] else []), body).

Record AgmaAnalytics : Type := { ag_tx : Sender string; ag_config : AgmaConfig }.
Definition agma_new (c : AgmaConfig) : string + AgmaAnalytics :=
  match agc_accounts c with
  | [] => inl "AgmaAnalytics requires at least one account"
  | _ => inr {| ag_tx := {| tx_sent := []; tx_open := true |}; ag_config := c |}
  end.
(** [if let Some(id) = v.get(k).and_then(|v| v.as_str()) { place = id.to_string(); }] *)
Definition put_str (k : string) (v : Value) (place : string) : string := default place (get k v ≫= as_str).
Definition extract_publisher_and_site (request : Value) : string * string :=
  let '(publisher_id, app_site_id) :=
    match get "site" request with
    | Some site =>
        (match get "publisher" site with Some pub_obj => put_str "id" pub_obj "" | None => "" end, put_str "id" site "")
    | None => ("", "")
    end in
  match get "app" request with
  | Some app =>
      let publisher_id := match get "publisher" app with Some pub_obj => put_str "id" pub_obj publisher_id | None => publisher_id end in
      let app_site_id := put_str "id" app app_site_id in
      (publisher_id, if str_is_empty app_site_id then put_str "bundle" app app_site_id else app_site_id)
  | None => (publisher_id, app_site_id)
  end.
Fixpoint match_accounts (publisher_id app_site_id : string) (accounts : list AgmaAccount) : option string :=
  match accounts with
  | [] => None
  | account :: accounts =>
      if bool_decide (aga_publisher_id account = publisher_id) &&
         (str_is_empty (aga_site_app_id account) || bool_decide (aga_site_app_id account = app_site_id))
      then Some (aga_code account) else match_accounts publisher_id app_site_id accounts
  end.
Definition match_account (m : AgmaAnalytics) (request : Value) : option string :=
  let '(publisher_id, app_site_id) := extract_publisher_and_site request in
  if str_is_empty publisher_id && str_is_empty app_site_id then None
  else match_accounts publisher_id app_site_id (agc_accounts (ag_config m)).
Definition try_enqueue `{Serialize AgmaLogObject} (m : AgmaAnalytics) (event_type : AgmaEventType) (status : Z)
    (request : option Value) (start_time : Z) : AgmaAnalytics :=
  if negb (status =? 200) then m else
  match request with
  | None => m
  | Some request =>
      match match_account m request with
      | None => m
      | Some code =>
          let log_obj := {| agl_event_type := event_type; agl_id := put_str "id" request ""; agl_code := code;
            agl_site := get "site" request; agl_app := get "app" request; agl_device := get "device" request;
            agl_user := get "user" request; agl_created_at := start_time |} in
          match ser_to_string log_obj with
          | Some data => {| ag_tx := tx_send (ag_tx m) (MEvent data); ag_config := ag_config m |}
          | None => m
          end
      end
  end.
Definition agma_analytics `{Serialize AgmaLogObject} : AnalyticsModule AgmaAnalytics := {|
  log_auction_object m ao := try_enqueue m AgAuction (ao_status ao) (ao_request ao) (ao_start_time ao);
  log_video_object m vo := try_enqueue m AgVideo (vo_status vo) (vo_request vo) (vo_start_time vo);
  log_cookie_sync_object m _ := m;
  log_setuid_object m _ := m;
  log_amp_object m ao := try_enqueue m AgAmp (amo_status ao) (amo_request ao) (amo_start_time ao);
  log_notification_event m _ := m;
  module_shutdown m := {| ag_tx := tx_send (ag_tx m) MShutdown; ag_config := ag_config m |} |}.

(** ** The analytics crate *)

(** The six structs of [define_event!]. *)
Record CrateEvent : Type := {
  cev_timestamp : Z; cev_request_id : string; cev_account_id : string; cev_status : Z; cev_payload : Value }.
Inductive CrateEventType : Type := CetAuction | CetAmp | CetVideo | CetSetUid | CetCookieSync | CetNotification.
Definition crate_event_new (utc_now : Z) (request_id account_id : string) (status : Z) (payload : Value) : CrateEvent :=
  {| cev_timestamp := utc_now; cev_request_id := request_id; cev_account_id := account_id; cev_status := status; cev_payload := payload |}.
(** backends/file.rs: [append]; [write_all] gives the file and whether it was written. *)
Definition file_backend_append `{Serialize CrateEvent} (write_all : string → string → string * bool) (file : string) (evt : CrateEvent) : string :=
  match ser_to_string evt with
  | None => file
  | Some line =>
      let '(file, written) := write_all file line in
      if negb written then file else (write_all file newline).1
  end.
(** runner.rs: what a module does with an event, and how its task ends. *)
Definition DEFAULT_MODULE_TIMEOUT : Z := 1000.
Inductive ModuleRun : Type := Finishes (ms : Z) | Panics (ms : Z) | Hangs.
Inductive TaskEnd : Type := TaskDone | TaskTimedOut | TaskPanicked.
Definition task_end (module_timeout : Z) (r : ModuleRun) : TaskEnd * Z :=
  match r with
  | Finishes ms => if ms <=? module_timeout then (TaskDone, ms) else (TaskTimedOut, module_timeout)
  | Panics ms => if ms <=? module_timeout then (TaskPanicked, ms) else (TaskTimedOut, module_timeout)
  | Hangs => (TaskTimedOut, module_timeout)
  end.
(** [fanout!]: every module's task is spawned, then all are awaited. *)
Definition fanout (module_timeout : Z) (runs : list ModuleRun) : list TaskEnd * Z :=
  ((task_end module_timeout <$> runs).*1, foldr Z.max 0 (task_end module_timeout <$> runs).*2).

(** backends/pubstack.rs: the buffer under its lock, the tasks that have yet to flush
    it, the batches being posted by them and by the ticker's task, and where batches
    ended. *)
Record CratePubstackConfig : Type := { cpc_endpoint : string; cpc_scope_id : string; cpc_batch_size : Z; cpc_flush_interval : Z }.
Definition default_crate_pubstack_config : CratePubstackConfig := {|
  cpc_endpoint := ""; cpc_scope_id := ""; cpc_batch_size := 100; cpc_flush_interval := 60000 |}.
Record PubstackBackend : Type := {
  pbk_buffer : list Value; pbk_owed : nat; pbk_posting : list (list Value); pbk_flusher : option (list Value);
  pbk_posted : list (list Value); pbk_dropped : list (list Value); pbk_aborted : list (list Value) }.
Definition pubstack_backend_new : PubstackBackend := {|
  pbk_buffer := []; pbk_owed := 0; pbk_posting := []; pbk_flusher := None; pbk_posted := []; pbk_dropped := []; pbk_aborted := [] |}.
(** [push], with the buffer's lock held. *)
Definition backend_push (c : CratePubstackConfig) (value : Value) (s : PubstackBackend) : PubstackBackend :=
  let buffer := pbk_buffer s ++ [value] in
  {| pbk_buffer := buffer; pbk_owed := if cpc_batch_size c <=? zlen buffer then S (pbk_owed s) else pbk_owed s;
     pbk_posting := pbk_posting s; pbk_flusher := pbk_flusher s; pbk_posted := pbk_posted s; pbk_dropped := pbk_dropped s;
     pbk_aborted := pbk_aborted s |}.
(** The start of [flush] up to the post: the batch is taken with the lock held, and
    dropped without an endpoint. *)
Definition backend_take (c : CratePubstackConfig) (s : PubstackBackend) : PubstackBackend * option (list Value) :=
  match pbk_buffer s with
  | [] => (s, None)
  | batch =>
      let dropped := str_is_empty (cpc_endpoint c) in
      ({| pbk_buffer := []; pbk_owed := pbk_owed s; pbk_posting := pbk_posting s; pbk_flusher := pbk_flusher s;
          pbk_posted := pbk_posted s; pbk_dropped := if dropped then pbk_dropped s ++ [batch] else pbk_dropped s;
          pbk_aborted := pbk_aborted s |}, if dropped then None else Some batch)
  end.
Definition set_tasks (owed : nat) (posting : list (list Value)) (flusher : option (list Value)) (posted aborted : list (list Value))
    (s : PubstackBackend) : PubstackBackend := {|
  pbk_buffer := pbk_buffer s; pbk_owed := owed; pbk_posting := posting; pbk_flusher := flusher; pbk_posted := posted;
  pbk_dropped := pbk_dropped s; pbk_aborted := aborted |}.
(** A step of one of the tasks: a module call pushes; a call that filled the buffer
    flushes; the ticker flushes; a post ends, whatever its answer; and [shutdown]
    aborts the ticker's task, then flushes. *)
Inductive backend_step (c : CratePubstackConfig) : PubstackBackend → list Value → PubstackBackend → Prop :=
| step_push s v : backend_step c s [v] (backend_push c v s)
| step_flush s s' o n : pbk_owed s = S n → backend_take c s = (s', o) →
    backend_step c s [] (set_tasks n (pbk_posting s' ++ option_list o) (pbk_flusher s') (pbk_posted s') (pbk_aborted s') s')
| step_tick s s' o : pbk_flusher s = None → backend_take c s = (s', o) →
    backend_step c s [] (set_tasks (pbk_owed s') (pbk_posting s') o (pbk_posted s') (pbk_aborted s') s')
| step_posted s before batch after : pbk_posting s = before ++ batch :: after →
    backend_step c s [] (set_tasks (pbk_owed s) (before ++ after) (pbk_flusher s) (pbk_posted s ++ [batch]) (pbk_aborted s) s)
| step_tick_posted s batch : pbk_flusher s = Some batch →
    backend_step c s [] (set_tasks (pbk_owed s) (pbk_posting s) None (pbk_posted s ++ [batch]) (pbk_aborted s) s)
| step_shutdown s s' o : backend_take c s = (s', o) →
    backend_step c s [] (set_tasks (pbk_owed s') (pbk_posting s' ++ option_list o) None (pbk_posted s')
      (pbk_aborted s' ++ option_list (pbk_flusher s')) s').
Inductive backend_run (c : CratePubstackConfig) : PubstackBackend → list Value → PubstackBackend → Prop :=
| run_start s : backend_run c s [] s
| run_step s vs s' v s'' : backend_run c s vs s' → backend_step c s' v s'' → backend_run c s (vs ++ v) s''.

(** ** What a batching worker promises *)

(** The events a worker receives before it is told to stop, and what stops it: a
    shutdown ([true]) or the end of the channel. *)
Fixpoint received {A} (inputs : list (WorkerInput A)) : list A :=
  match inputs with
  | WMsg (MEvent a) :: inputs => a :: received inputs
  | WTick :: inputs => received inputs
  | _ => []
  end.
Fixpoint stopped {A} (inputs : list (WorkerInput A)) : option bool :=
  match inputs with
  | WMsg MShutdown :: _ => Some true
  | WClosed :: _ => Some false
  | _ :: inputs => stopped inputs
  | [] => None
  end.
(** A worker whose states stand for lists of pending events: at each step what it
    sends are batches of what was pending or comes in, none lost, none twice and in
    order, none empty and none longer than the bound; a shutdown leaves nothing. *)
Class BatchWorker {A S B} (step : S → WorkerInput A → S * list B * bool) (rep : S → list A → Prop)
    (prints : B → list A → Prop) (bound : nat) (keeps_on_close : bool) : Prop :=
  batch_step s l i : rep s l →
    let '(s', out, running) := step s i in
    ∃ batches l', rep s' l' ∧ Forall2 prints out batches ∧ Forall (λ b : list A, 0 < length b ≤ bound)%nat batches ∧
      concat batches ++ l' = l ++ (match i with WMsg (MEvent a) => [a] | _ => [] end) ∧
      running = (match i with WMsg MShutdown | WClosed => false | _ => true end) ∧
      (i = WMsg MShutdown → l' = []) ∧ (keeps_on_close = false → i = WClosed → l' = []).
Theorem run_batches {A S B} step rep prints bound k `{!BatchWorker (A:=A) (S:=S) (B:=B) step rep prints bound k} s l inputs :
  rep s l →
  let '(s', out, running) := run_worker step s inputs in
  ∃ batches l', rep s' l' ∧ Forall2 prints out batches ∧ Forall (λ b : list A, 0 < length b ≤ bound)%nat batches ∧
    concat batches ++ l' = l ++ received inputs ∧ running = bool_decide (stopped inputs = None) ∧
    (stopped inputs = Some true → l' = []) ∧ (k = false → stopped inputs = Some false → l' = []).
Proof.
  revert s l. induction inputs as [|i inputs IH]; intros s l Hr; cbn [run_worker].
  { exists [], l. cbn. rewrite app_nil_r. by split_and!. }
  pose proof (batch_step s l i Hr) as Hs. destruct (step s i) as [[s1 out1] r1].
  destruct Hs as (b1&l1&Hr1&Hp1&Hb1&Hc1&->&Hx1&Hk1).
  assert (Hstop : ∀ stop, match i with WMsg MShutdown => Some true | WClosed => Some false | _ => None end = Some stop →
    received (i :: inputs) = [] ∧ stopped (i :: inputs) = Some stop ∧ match i with WMsg (MEvent a) => [a] | _ => [] end = []).
  { destruct i as [[a|]| |]; cbn; naive_solver. }
  destruct (match i with WMsg MShutdown => Some true | WClosed => Some false | _ => None end) as [stop|] eqn:Hi.
  - destruct (Hstop stop eq_refl) as (Hrec&Hst&He).
    assert (Hrun : match i with WMsg MShutdown | WClosed => false | _ => true end = false) by (by destruct i as [[?|]| |]).
    rewrite Hrun. exists b1, l1. rewrite Hrec, Hst. rewrite He in Hc1. split_and!; try done.
    + intros [= ->]. apply Hx1. by destruct i as [[?|]| |].
    + intros Hk [= ->]. apply Hk1; [done|]. by destruct i as [[?|]| |].
  - assert (Hrun : match i with WMsg MShutdown | WClosed => false | _ => true end = true) by (by destruct i as [[?|]| |]).
    rewrite Hrun. specialize (IH s1 l1 Hr1). destruct (run_worker step s1 inputs) as [[s2 out2] r2].
    destruct IH as (b2&l2&Hr2&Hp2&Hb2&Hc2&->&Hx2&Hk2). exists (b1 ++ b2), l2.
    assert (Hst : stopped (i :: inputs) = stopped inputs) by (by destruct i as [[?|]| |]).
    rewrite Hst. split_and!; try done; [by apply Forall2_app|by apply Forall_app|].
    rewrite concat_app, <-app_assoc, Hc2, app_assoc, Hc1, <-app_assoc. f_equal. by destruct i as [[?|]| |].
Qed.

(** ** The workers *)

Definition print_batch (batch : list string) : string := "[" +:+ join "," batch +:+ "]".
Definition count_bound (n : Z) : nat := Z.to_nat (Z.max 1 n).
Lemma http_worker c : hac_endpoint c ≠ "" →
  BatchWorker (http_step c) (λ s l, s = l ∧ (length l < count_bound (hac_batch_size c))%nat)
    (λ p b, p = print_batch b) (count_bound (hac_batch_size c)) true.
Proof.
  intros He s l i [-> Hl]. assert (Hf : ∀ b, b ≠ [] → http_flush_batch (hac_endpoint c) b = [print_batch b]).
  { intros b Hb. unfold http_flush_batch, str_is_empty. by rewrite !bool_decide_eq_false_2. }
  assert (H0 : (0 < count_bound (hac_batch_size c))%nat) by (unfold count_bound; lia).
  assert (Hpend : ∃ batches, Forall2 (λ p b, p = print_batch b) (http_flush_batch (hac_endpoint c) l) batches ∧
    Forall (λ b : list string, 0 < length b ≤ count_bound (hac_batch_size c))%nat batches ∧ concat batches = l).
  { destruct l as [|a l].
    - exists []. unfold http_flush_batch. rewrite orb_true_r. by split_and!.
    - exists [a :: l]. rewrite Hf by done. cbn [concat]. rewrite !app_nil_r. split_and!; [by repeat constructor| |done].
      apply Forall_singleton. cbn in *. lia. }
  destruct i as [[a|]| |]; cbn [http_step].
  - cbn zeta. destruct (Z.leb_spec (hac_batch_size c) (zlen (l ++ [a]))) as [Hb|Hb].
    + exists [l ++ [a]], []. rewrite Hf by (by destruct l). cbn [concat]. rewrite !app_nil_r. split_and!; try done; [by repeat constructor|].
      apply Forall_singleton. rewrite length_app. cbn. lia.
    + exists [], (l ++ [a]). split_and!; try done. unfold zlen in Hb. unfold count_bound. lia.
  - destruct Hpend as (bs&Hp&Hb&Hc). case_bool_decide as Hl0; cbn [negb].
    + clear Hp Hb Hc. subst l. exists [], []. by split_and!.
    + exists bs, []. rewrite !app_nil_r. by split_and!.
  - exists [], l. cbn. rewrite app_nil_r. by split_and!.
  - destruct Hpend as (bs&Hp&Hb&Hc). case_bool_decide as Hl0; cbn [negb].
    + clear Hp Hb Hc. subst l. exists [], []. by split_and!.
    + exists bs, []. rewrite !app_nil_r. by split_and!.
Qed.
(** The AGMA buffer: an open bracket and each event with a comma. *)
Definition with_commas (l : list string) : string := foldr (λ d s, d +:+ "," +:+ s) "" l.
Lemma with_commas_app l d : with_commas (l ++ [d]) = with_commas l +:+ d +:+ ",".
Proof. induction l as [|x l IH]; [done|]. cbn [app with_commas foldr]. fold (with_commas (l ++ [d])) (with_commas l). by rewrite IH, !str_app_assoc. Qed.
Lemma drop_last_comma_app s : drop_last_comma (s +:+ ",") = s.
Proof.
  induction s as [|a s IH]; [done|]. change (String a s +:+ ",") with (String a (s +:+ ",")). cbn [drop_last_comma]. rewrite IH.
  by destruct s.
Qed.
Lemma with_commas_join l : l ≠ [] → with_commas l = join "," l +:+ ",".
Proof.
  induction l as [|d [|d' l] IH]; [done|done|]. intros _. change (with_commas (d :: d' :: l)) with (d +:+ "," +:+ with_commas (d' :: l)).
  rewrite IH by done. change (join "," (d :: d' :: l)) with (d +:+ "," +:+ join "," (d' :: l)). by rewrite !str_app_assoc.
Qed.
Definition agma_rep (max_event_count : Z) (b : AgmaBuffer) (l : list string) : Prop :=
  agb_buf b = "[" +:+ with_commas l ∧ agb_event_count b = zlen l ∧ (length l < count_bound max_event_count)%nat.
Lemma agma_flush_spec b l : agb_buf b = "[" +:+ with_commas l → agb_event_count b = zlen l →
  agma_flush b = if bool_decide (l = []) then (b, []) else (agma_buffer_new, [print_batch l]).
Proof.
  intros Hb Hc. unfold agma_flush. rewrite Hb, Hc. case_bool_decide as Hl; [by subst|].
  rewrite with_commas_join, <-str_app_assoc, drop_last_comma_app, str_length_app by done. unfold print_batch.
  rewrite str_app_assoc, (proj2 (Nat.ltb_lt _ _)) by (destruct l; [done|]; rewrite str_length_app; cbn; lia).
  rewrite (proj2 (Z.ltb_lt _ _)); [done|]. destruct l; [done|]. unfold zlen. cbn. lia.
Qed.
Lemma agma_worker max_event_count max_buffer_size :
  BatchWorker (agma_step max_event_count max_buffer_size) (agma_rep max_event_count)
    (λ p b, p = print_batch b) (count_bound max_event_count) false.
Proof.
  intros b l i (Hb&Hc&Hl).
  assert (H0 : agma_rep max_event_count agma_buffer_new []) by (split_and!; [done..|unfold count_bound; cbn; lia]).
  assert (Hpend : let '(b', out) := agma_flush b in ∃ batches, agma_rep max_event_count b' [] ∧
    Forall2 (λ p b, p = print_batch b) out batches ∧
    Forall (λ b : list string, 0 < length b ≤ count_bound max_event_count)%nat batches ∧ concat batches = l).
  { rewrite (agma_flush_spec b l) by done. case_bool_decide as Hn.
    - subst l. exists []. by split_and!.
    - exists [l]. cbn. rewrite app_nil_r. split_and!; [done|by repeat constructor| |done].
      apply Forall_singleton. split; [destruct l; [done|cbn; lia]|lia]. }
  destruct i as [[a|]| |]; cbn [agma_step].
  - cbn zeta. set (b1 := {| agb_buf := _; agb_event_count := _ |}).
    assert (Hb1 : agb_buf b1 = "[" +:+ with_commas (l ++ [a])). { cbn. by rewrite Hb, with_commas_app, !str_app_assoc. }
    assert (Hc1 : agb_event_count b1 = zlen (l ++ [a])). { cbn. rewrite Hc. unfold zlen. rewrite length_app. cbn. lia. }
    destruct (_ || _) eqn:Hfull.
    + rewrite (agma_flush_spec b1 (l ++ [a])) by done. rewrite bool_decide_eq_false_2 by (by destruct l).
      exists [l ++ [a]], []. cbn [concat]. rewrite !app_nil_r. split_and!; try done; [by repeat constructor|].
      apply Forall_singleton. rewrite length_app. cbn. lia.
    + exists [], (l ++ [a]). split_and!; try done. apply orb_false_iff in Hfull as [Hn _]. apply Z.leb_gt in Hn.
      rewrite Hc1 in Hn. unfold zlen in Hn. split_and!; [done..|unfold count_bound; lia].
  - destruct (agma_flush b) as [b' out]. destruct Hpend as (bs&H1&H2&H3&<-). exists bs, []. rewrite !app_nil_r. by split_and!.
  - destruct (agma_flush b) as [b' out]. destruct Hpend as (bs&H1&H2&H3&<-). exists bs, []. rewrite !app_nil_r. by split_and!.
  - destruct (agma_flush b) as [b' out]. destruct Hpend as (bs&H1&H2&H3&<-). exists bs, []. rewrite !app_nil_r. by split_and!.
Qed.
(** Pubstack's channel: flate2 writes into memory without failing, a finished stream
    is not empty, and it unpacks to what was written. *)
Section PubstackWorker.
Context `{GzEncoder G} (gunzip : string → option string).
Definition gz_written (l : list string) : G := fold_left (λ g d, (gz_write g d).1) l gz_new.
Lemma gz_written_app l d : gz_written (l ++ [d]) = (gz_write (gz_written l) d).1.
Proof. unfold gz_written. by rewrite fold_left_app. Qed.
Context (gz_write_ok : ∀ l d, (gz_write (gz_written l) d).2 = true).
Context (gz_finish_ok : ∀ l, ∃ p, gz_finish (gz_written l) = Some p ∧ p ≠ "" ∧ gunzip p = Some (String.concat "" l)).
Definition pubstack_rep (max_event_count : Z) (b : PubstackBuffer G) (l : list string) : Prop :=
  pb_gz b = gz_written l ∧ pb_event_count b = zlen l ∧ (length l < count_bound max_event_count)%nat.
Definition unpacks (p : string) (b : list string) : Prop := gunzip p = Some (String.concat "" b).
Lemma pubstack_flush_spec b l : pb_gz b = gz_written l → pb_event_count b = zlen l →
  (l = [] ∧ pubstack_flush b = (b, [])) ∨ (l ≠ [] ∧ ∃ p, pubstack_flush b = (pubstack_buffer_new, [p]) ∧ unpacks p l).
Proof.
  intros Hg Hc. unfold pubstack_flush. rewrite Hc, Hg. destruct l as [|d l]; [by left|right]. split; [done|].
  destruct (gz_finish_ok (d :: l)) as (p&Hp&Hne&Hu). exists p. rewrite Hp. cbn [from_option id]. unfold str_is_empty.
  rewrite bool_decide_eq_false_2 by done. by rewrite (proj2 (Z.ltb_lt _ _)) by (unfold zlen; cbn; lia).
Qed.
Lemma pubstack_worker max_event_count max_byte_size :
  BatchWorker (pubstack_step max_event_count max_byte_size) (pubstack_rep max_event_count) unpacks (count_bound max_event_count) false.
Proof.
  intros b l i (Hg&Hc&Hl).
  assert (H0 : pubstack_rep max_event_count pubstack_buffer_new []) by (split_and!; [done..|unfold count_bound; cbn; lia]).
  assert (Hpend : let '(b', out) := pubstack_flush b in ∃ batches, pubstack_rep max_event_count b' [] ∧
    Forall2 unpacks out batches ∧
    Forall (λ b : list string, 0 < length b ≤ count_bound max_event_count)%nat batches ∧ concat batches = l).
  { destruct (pubstack_flush_spec b l Hg Hc) as [[-> ->]|(Hn&p&->&Hp)].
    - exists []. by split_and!.
    - exists [l]. cbn. rewrite app_nil_r. split_and!; [done|by repeat constructor| |done].
      apply Forall_singleton. split; [destruct l; [done|cbn; lia]|lia]. }
  destruct i as [[a|]| |]; cbn [pubstack_step].
  - destruct (gz_write (pb_gz b) a) as [g w] eqn:Hw.
    assert (Hok : w = true ∧ g = gz_written (l ++ [a])).
    { rewrite Hg in Hw. pose proof (gz_write_ok l a) as Hx. by rewrite gz_written_app, Hw in *. }
    destruct Hok as [-> ->]. cbn [negb]. cbn zeta. set (b1 := {| pb_gz := _; pb_event_count := _; pb_raw_size := _ |}).
    assert (Hc1 : pb_event_count b1 = zlen (l ++ [a])). { cbn. rewrite Hc. unfold zlen. rewrite length_app. cbn. lia. }
    destruct (_ || _) eqn:Hfull.
    + destruct (pubstack_flush_spec b1 (l ++ [a]) eq_refl Hc1) as [[Hn _]|(Hn&p&->&Hp)]; [by destruct l|].
      exists [l ++ [a]], []. cbn [concat]. rewrite !app_nil_r. split_and!; try done; [by repeat constructor|].
      apply Forall_singleton. rewrite length_app. cbn. lia.
    + exists [], (l ++ [a]). split_and!; try done. apply orb_false_iff in Hfull as [Hn _]. apply Z.leb_gt in Hn.
      rewrite Hc1 in Hn. unfold zlen in Hn. split_and!; [done..|unfold count_bound; lia].
  - destruct (pubstack_flush b) as [b' out]. destruct Hpend as (bs&H1&H2&H3&<-). exists bs, []. rewrite !app_nil_r. by split_and!.
  - destruct (pubstack_flush b) as [b' out]. destruct Hpend as (bs&H1&H2&H3&<-). exists bs, []. rewrite !app_nil_r. by split_and!.
  - destruct (pubstack_flush b) as [b' out]. destruct Hpend as (bs&H1&H2&H3&<-). exists bs, []. rewrite !app_nil_r. by split_and!.
Qed.
End PubstackWorker.
(** The batches a worker's bodies are printed from. *)
Definition batched (bound : nat) (prints : string → list string → Prop) (payloads events pending : list string) : Prop :=
  ∃ batches, Forall2 prints payloads batches ∧ Forall (λ b : list string, 0 < length b ≤ bound)%nat batches ∧
    concat batches ++ pending = events.

(** A gzip that stores: a mark, then the bytes. *)
Definition storing_gz : GzEncoder string := {|
  gz_new := "z"; gz_write g d := (g +:+ d, true); gz_finish g := Some g |}.
Definition stored_gunzip (p : string) : option string := match p with String _ s => Some s | "" => None end.
Lemma stored_written l : gz_written (H := storing_gz) l = "z" +:+ String.concat "" l.
Proof.
  unfold gz_written. cbn. generalize "z" as g. induction l as [|d l IH]; intros g; cbn [fold_left fst].
  - cbn. by rewrite str_app_nil_r.
  - rewrite IH, str_app_assoc. destruct l; cbn; by rewrite ?str_app_nil_r.
Qed.
Lemma stored_finish (l : list string) : ∃ p, gz_finish (GzEncoder := storing_gz) (gz_written (H := storing_gz) l) = Some p ∧ p ≠ "" ∧
  stored_gunzip p = Some (String.concat "" l).
Proof. exists (gz_written (H := storing_gz) l). split; [done|]. by rewrite stored_written. Qed.
(** A channel that closes without a shutdown loses the HTTP module's last events. *)
Example http_close_loses_events :
  run_worker (http_step {| hac_endpoint := "https://x"; hac_batch_size := 2; hac_flush_interval_ms := 5000; hac_timeout_ms := 1 |}) []
    [WMsg (MEvent "1"); WClosed] = (["1"], [], false).
Proof. by vm_compute. Qed.

(** ** The shared buffer *)

(** Every batch, wherever it is. *)
Definition batches_of (s : PubstackBackend) : list (list Value) :=
  pbk_posting s ++ option_list (pbk_flusher s) ++ pbk_posted s ++ pbk_dropped s ++ pbk_aborted s.
Definition backend_inv (c : CratePubstackConfig) (pushed : list Value) (s : PubstackBackend) : Prop :=
  concat (batches_of s) ++ pbk_buffer s ≡ₚ pushed ∧
  (cpc_endpoint c ≠ "" → pbk_dropped s = []) ∧
  (zlen (pbk_buffer s) < cpc_batch_size c ∨ pbk_buffer s = [] ∨ (0 < pbk_owed s)%nat) ∧
  Forall (λ b, b ≠ []) (batches_of s).
Lemma backend_take_spec c s s' o : backend_take c s = (s', o) →
  (pbk_buffer s = [] ∧ s' = s ∧ o = None) ∨
  (pbk_buffer s ≠ [] ∧ pbk_buffer s' = [] ∧ pbk_owed s' = pbk_owed s ∧ pbk_posting s' = pbk_posting s ∧
   pbk_flusher s' = pbk_flusher s ∧ pbk_posted s' = pbk_posted s ∧ pbk_aborted s' = pbk_aborted s ∧
   ((cpc_endpoint c ≠ "" ∧ pbk_dropped s' = pbk_dropped s ∧ o = Some (pbk_buffer s)) ∨
    (cpc_endpoint c = "" ∧ pbk_dropped s' = pbk_dropped s ++ [pbk_buffer s] ∧ o = None))).
Proof.
  unfold backend_take, str_is_empty. destruct (pbk_buffer s) as [|v b] eqn:Hb; [intros [= <- <-]; by left|]. intros [= <- <-].
  right. split_and!; try done. cbn. case_bool_decide; [right|left]; done.
Qed.
(** A permutation between concatenations, from one between lists of lists. *)
Lemma concat_perm {A} (l k : list (list A)) : l ≡ₚ k → concat l ≡ₚ concat k.
Proof. induction 1; cbn; [done|by f_equiv|by rewrite !(assoc_L (++)), (comm (++) y)|by etrans]. Qed.
Ltac perm_batches Hp := rewrite <-Hp; cbn; rewrite ?concat_app; cbn; rewrite ?concat_app, ?app_nil_r; cbn; rewrite ?app_nil_r; solve_Permutation.
Ltac all_batches := rewrite ?Forall_app in *; cbn in *; rewrite ?Forall_cons, ?Forall_app, ?Forall_cons in *; naive_solver.
Lemma backend_step_inv c pushed s v s' : backend_inv c pushed s → backend_step c s v s' → backend_inv c (pushed ++ v) s'.
Proof.
  intros (Hp&Hd&Hb&Hn) Hs. unfold backend_inv, batches_of in *. destruct Hs as [s v|s s' o n Ho Ht|s s' o Hf Ht|s before batch after Hq|s batch Hf|s s' o Ht].
  - cbn. rewrite app_assoc, Hp. split_and!; try done.
    destruct (Z.leb_spec (cpc_batch_size c) (zlen (pbk_buffer s ++ [v]))); [right; right; lia|by left].
  - rewrite app_nil_r. apply backend_take_spec in Ht as [(Hb0&->&->)|(Hne&H1&H2&H3&H4&H5&H6&Hd')]; cbn; rewrite ?H1, ?H3, ?H4, ?H5, ?H6.
    + rewrite app_nil_r. split_and!; try done. right; by left.
    + destruct Hd' as [(He&Hd1&->)|(He&Hd1&->)]; rewrite Hd1; cbn.
      * split_and!; [|done|right; by left|].
        -- perm_batches Hp.
        -- all_batches.
      * split_and!; [|done|right; by left|].
        -- perm_batches Hp.
        -- all_batches.
  - rewrite app_nil_r. apply backend_take_spec in Ht as [(Hb0&->&->)|(Hne&H1&H2&H3&H4&H5&H6&Hd')]; cbn; rewrite ?H1, ?H3, ?H5, ?H6.
    + rewrite Hf in *. split_and!; try done.
    + rewrite Hf in *. destruct Hd' as [(He&Hd1&->)|(He&Hd1&->)]; rewrite Hd1; cbn.
      * split_and!; [|done|right; by left|].
        -- perm_batches Hp.
        -- all_batches.
      * split_and!; [|done|right; by left|].
        -- perm_batches Hp.
        -- all_batches.
  - rewrite app_nil_r. cbn. rewrite Hq in *. split_and!; try done.
    + perm_batches Hp.
    + all_batches.
  - rewrite app_nil_r. cbn. rewrite Hf in *. split_and!; try done.
    + perm_batches Hp.
    + all_batches.
  - rewrite app_nil_r. apply backend_take_spec in Ht as [(Hb0&->&->)|(Hne&H1&H2&H3&H4&H5&H6&Hd')]; cbn; rewrite ?H1, ?H2, ?H3, ?H4, ?H5, ?H6.
    + rewrite app_nil_r. split_and!; try done.
      * perm_batches Hp.
      * all_batches.
    + destruct Hd' as [(He&Hd1&->)|(He&Hd1&->)]; rewrite Hd1; cbn.
      * split_and!; [|done|right; by left|].
        -- perm_batches Hp.
        -- all_batches.
      * split_and!; [|done|right; by left|].
        -- perm_batches Hp.
        -- all_batches.
Qed.
(** The crate's Pubstack back end, under any interleaving of the tasks that push,
    flush, post and shut it down: every event pushed is in the buffer or in exactly
    one batch, once; a full buffer has a task that will flush it; with an endpoint a
    batch is posted or being posted, or was the one the aborted ticker was posting,
    which is lost. *)
Theorem backend_conserves c pushed s : backend_run c pubstack_backend_new pushed s →
  concat (batches_of s) ++ pbk_buffer s ≡ₚ pushed ∧ Forall (λ b, b ≠ []) (batches_of s) ∧
  (cpc_endpoint c ≠ "" → pbk_dropped s = []) ∧
  (zlen (pbk_buffer s) < cpc_batch_size c ∨ pbk_buffer s = [] ∨ (0 < pbk_owed s)%nat).
Proof.
  intros Hr. assert (backend_inv c pushed s) as (H1&H2&H3&H4); [|done].
  remember pubstack_backend_new as s0 eqn:Hs0. induction Hr as [s|s vs s' v s'' Hr IH Hs].
  - subst. split_and!; try done. right. by left.
  - eapply backend_step_inv; [by apply IH|done].
Qed.
(** A batch the ticker is posting when the module is shut down is lost. *)
Lemma shutdown_loses_batch : ∃ s, backend_run {| cpc_endpoint := "https://x"; cpc_scope_id := ""; cpc_batch_size := 100; cpc_flush_interval := 1 |}
  pubstack_backend_new [VNull] s ∧ pbk_aborted s = [[VNull]] ∧ pbk_posting s = [] ∧ pbk_posted s = [] ∧ pbk_buffer s = [].
Proof.
  set (c := {| cpc_endpoint := _; cpc_scope_id := _; cpc_batch_size := _; cpc_flush_interval := _ |}).
  eexists. split; [|split_and!].
  - change [VNull] with ((([] ++ [VNull]) ++ []) ++ []). eapply run_step; [eapply run_step; [eapply run_step; [apply run_start|]|]|].
    + apply (step_push c).
    + eapply step_tick; reflexivity.
    + eapply step_shutdown. reflexivity.
  - reflexivity.
  - reflexivity.
  - reflexivity.
  - reflexivity.
Qed.

(** ** The runner *)

(** However many modules hang, an event has been given to each when the runner
    returns, no later than the time-out, and each hanging one has timed out. *)
Theorem fanout_bounded module_timeout runs : 0 ≤ module_timeout →
  length (fanout module_timeout runs).1 = length runs ∧ 0 ≤ (fanout module_timeout runs).2 ≤ module_timeout ∧
  ∀ i r, runs !! i = Some r → ∃ e, (fanout module_timeout runs).1 !! i = Some e ∧
    (e = TaskDone ↔ ∃ ms, r = Finishes ms ∧ ms ≤ module_timeout) ∧ (r = Hangs → e = TaskTimedOut).
Proof.
  intros Ht. unfold fanout. cbn. split_and!; [by rewrite !length_fmap| | |].
  - induction runs as [|r runs IH]; cbn; [lia|]. lia.
  - induction runs as [|r runs IH]; cbn; [lia|]. apply Z.max_lub; [|done].
    destruct r as [ms|ms|]; cbn; try lia; destruct (Z.leb_spec ms module_timeout); cbn; lia.
  - intros i r Hr. exists (task_end module_timeout r).1. rewrite !list_lookup_fmap, Hr. split_and!; [done| |by intros ->].
    destruct r as [ms|ms|]; cbn; try destruct (Z.leb_spec ms module_timeout); naive_solver lia.
Qed.

(** ** Files, Pubstack's channels, AGMA's accounts *)

(** The file gets every line that was sent before the shutdown, whole and in order,
    when writes succeed. *)
Theorem file_lines (inputs : list (WorkerInput string)) file :
  let '(file', _, _) := run_worker (file_step (λ f line, f +:+ line)) file inputs in
  file' = file +:+ String.concat "" (received inputs).
Proof.
  revert file. induction inputs as [|[[line|]| |] inputs IH]; intros file; cbn.
  - by rewrite str_app_nil_r.
  - specialize (IH (file +:+ line)). destruct (run_worker _ _ inputs) as [[f o] r]. rewrite IH, str_app_assoc. f_equal.
    destruct (received inputs); cbn; by rewrite ?str_app_nil_r.
  - by rewrite str_app_nil_r.
  - by rewrite str_app_nil_r.
  - specialize (IH file). by destruct (run_worker _ _ inputs) as [[f o] r].
Qed.
(** What is sent to a channel that is open is what the serializer writes, after what
    was sent before. *)
Lemma build_channels_lookup c name :
  build_channels c !! name =
    if bool_decide ((name, true) ∈ pubstack_features (psc_features c))
    then Some (pubstack_event_channel (psc_endpoint c +:+ "/intake/" +:+ name) (psc_max_event_count c) (psc_max_byte_size c) (psc_flush_interval c))
    else None.
Proof.
  unfold build_channels. assert (Hnd : NoDup (pubstack_features (psc_features c)).*1).
  { apply (bool_decide_unpack _). by vm_compute. }
  revert Hnd. generalize (pubstack_features (psc_features c)). intros l. induction l as [|[k b] l IH] using rev_ind; intros Hnd; [done|].
  rewrite fmap_app, NoDup_app in Hnd. destruct Hnd as (Hl&Hk&_). rewrite fold_left_app. cbn. specialize (IH Hl).
  destruct (decide (name = k)) as [->|Hne].
  - destruct b; cbn.
    + rewrite lookup_insert_eq, bool_decide_eq_true_2 by set_solver. done.
    + rewrite IH. assert (Hx : (k, true) ∉ l).
      { intros Hin. apply (Hk k); [by apply (list_elem_of_fmap_2 fst) in Hin|by left]. }
      rewrite !bool_decide_eq_false_2; set_solver.
  - destruct b; cbn; rewrite ?lookup_insert_ne by done; rewrite IH;
      rewrite (bool_decide_ext ((name, true) ∈ l ++ _) ((name, true) ∈ l)); [done|set_solver|done|set_solver].
Qed.
(** After a refresh there are channels for exactly the features of the answer, at its
    endpoint, all empty; every old channel is told to flush; an event of a feature
    that is off changes nothing, and no other channel is touched by an event. *)
Theorem pubstack_refresh_spec `{MI : MapIter} `{Serialize T} remote m name (payload : T) :
  let m' := pubstack_refresh remote m in
  (is_Some (pa_channels m' !! name) ↔
     name ∈ ["auction"; "video"; "amp"; "cookiesync"; "setuid"] ∧ prc_features remote !! name = Some true) ∧
  (∀ c, pa_channels m' !! name = Some c → pec_intake_url c = prc_endpoint remote +:+ "/intake/" +:+ name ∧ tx_sent (pec_tx c) = []) ∧
  (∀ n c, pa_channels m !! n = Some c → pec_close c ∈ pa_closed m') ∧
  (pa_channels m' !! name = None → push_if_enabled m' name payload = m') ∧
  (∀ n, n ≠ name → pa_channels (push_if_enabled m' name payload) !! n = pa_channels m' !! n).
Proof.
  cbn zeta. split_and!.
  - cbn [pubstack_refresh pa_channels]. rewrite build_channels_lookup. cbn [psc_features pubstack_features pf_auction pf_video pf_amp pf_cookie_sync pf_set_uid].
    assert (Hf : ∀ n, true = default false (prc_features remote !! n) ↔ prc_features remote !! n = Some true).
    { intros n. destruct (prc_features remote !! n) as [[]|]; cbn; naive_solver. }
    case_bool_decide as Hin; [|split; [by intros []|]].
    + split; [intros _|by intros _; eexists].
      repeat (apply elem_of_cons in Hin as [Hin|Hin]; [injection Hin as -> Hv; apply Hf in Hv; split; [set_solver|done]|]). set_solver.
    + intros [Hn Hv]. destruct Hin. apply Hf in Hv.
      repeat (apply elem_of_cons in Hn as [->|Hn]; [rewrite <-Hv; set_solver|]). set_solver.
  - intros c. cbn [pubstack_refresh pa_channels]. rewrite build_channels_lookup. case_bool_decide; [|done]. by intros [= <-].
  - intros n c Hc. cbn [pubstack_refresh pa_closed]. apply elem_of_app. right.
    apply (list_elem_of_fmap_2 (pec_close ∘ snd) _ (n, c)), map_iter_elem, Hc.
  - intros Hn. unfold push_if_enabled. destruct (serialize_with_scope _ _); [|done]. by rewrite Hn.
  - intros n Hn. unfold push_if_enabled. destruct (serialize_with_scope _ _); [|done].
    destruct (pa_channels _ !! name) eqn:Hc; [|done]. cbn. by rewrite lookup_insert_ne.
Qed.
(** A request is logged under the code of the first account of its publisher that
    names its site or app, or none. *)
Theorem match_account_spec m request code :
  match_account m request = Some code ↔
  let '(publisher_id, app_site_id) := extract_publisher_and_site request in
  (publisher_id ≠ "" ∨ app_site_id ≠ "") ∧
  ∃ before account after, agc_accounts (ag_config m) = before ++ account :: after ∧ code = aga_code account ∧
    aga_publisher_id account = publisher_id ∧ aga_site_app_id account ∈ [""; app_site_id] ∧
    Forall (λ a, ¬ (aga_publisher_id a = publisher_id ∧ aga_site_app_id a ∈ [""; app_site_id])) before.
Proof.
  unfold match_account. destruct (extract_publisher_and_site request) as [p s].
  assert (Hacc : ∀ accounts, match_accounts p s accounts = Some code ↔
    ∃ before account after, accounts = before ++ account :: after ∧ code = aga_code account ∧
    aga_publisher_id account = p ∧ aga_site_app_id account ∈ [""; s] ∧
    Forall (λ a, ¬ (aga_publisher_id a = p ∧ aga_site_app_id a ∈ [""; s])) before).
  { induction accounts as [|a accounts IH]; cbn; [split; [done|]; by intros ([|??]&?&?&?&_)|].
    assert (Hc : bool_decide (aga_publisher_id a = p) && (str_is_empty (aga_site_app_id a) || bool_decide (aga_site_app_id a = s)) = true ↔
      aga_publisher_id a = p ∧ aga_site_app_id a ∈ [""; s]).
    { rewrite andb_true_iff, orb_true_iff. unfold str_is_empty. rewrite !bool_decide_eq_true. set_solver. }
    destruct (_ && _) eqn:Hb.
    - destruct Hc as [Hc _]. destruct (Hc eq_refl) as [Hb1 Hb2]. clear Hc. split; [intros [= <-]; by exists [], a, accounts|].
      intros ([|b before]&account&after&Heq&->&Hp&Hs&Hall); cbn in Heq; injection Heq as -> ->; [done|].
      apply Forall_cons in Hall as [Hn _]. by destruct Hn; split.
    - assert (Hn : ¬ (aga_publisher_id a = p ∧ aga_site_app_id a ∈ [""; s])) by (intros Hx; by apply Hc in Hx). rewrite IH. split.
      + intros (before&account&after&->&?&?&?&?). exists (a :: before), account, after. split_and!; try done. by constructor.
      + intros ([|b before]&account&after&Heq&->&Hp&Hs&Hall); cbn in Heq; injection Heq as -> ->; [by destruct Hn|].
        apply Forall_cons in Hall as [_ Hall]. by exists before, account, after. }
  unfold str_is_empty. destruct (bool_decide (p = "") && bool_decide (s = "")) eqn:Hb.
  - apply andb_prop in Hb as [->%bool_decide_eq_true ->%bool_decide_eq_true]. naive_solver.
  - rewrite Hacc. apply andb_false_iff in Hb. rewrite !bool_decide_eq_false in Hb. tauto.
Qed.
(** A payload is posted at most three times, with pauses of 100 and 200 ms; the posts
    stop at the first success. *)
Example http_retries : http_attempts (λ _, Some 500) 0 3 = ([100; 200], false) ∧
  http_attempts (λ a, if a =? 1 then Some 204 else None) 0 3 = ([100], true).
Proof. by vm_compute. Qed.
