(* ===== verification/AdServerTargeting.v ===== *)
(** * Ad-server targeting

    exchange/src/adserver_targeting.rs: the keys an ad server accepts (at most
    twenty bytes), the price granularity presets, the key-values of one bid and
    the rules of [ext.prebid.adservertargeting], which the auction applies.
    The builder of the key-values is exported and not called by the auction.
    Slicing a string inside a UTF-8 character panics. *)

From S2P Require Import Prelude Json OpenRtb PriceBucket.

(** ** Keys *)

Definition MAX_KEY_LENGTH : Z := 20.
Definition MIN_KEY_LENGTH : Z := 12.

Definition truncate_to (limit : Z) (key : string) : outcome string string :=
  if str_len key <=? limit then Ok key else slice_to (Z.to_nat limit) key.

Definition truncate_target_key (key : string) : outcome string string :=
  truncate_to MAX_KEY_LENGTH key.
Definition truncate_target_key_custom (key : string) (max_length : Z) : outcome string string :=
  truncate_to (if MIN_KEY_LENGTH <=? max_length then max_length else MAX_KEY_LENGTH) key.
Definition bidder_key (base bidder : string) : outcome string string :=
  truncate_target_key (base +:+ "_" +:+ bidder).
Definition bidder_key_custom (base bidder : string) (max_length : Z) : outcome string string :=
  truncate_target_key_custom (base +:+ "_" +:+ bidder) max_length.

(** ** Price granularity *)

Record GranularityRange : Type := { gr_min : f64; gr_max : f64; gr_increment : f64 }.
Record AstGranularity : Type := { ag_precision : Z; ag_ranges : list GranularityRange }.

(** A range, its bounds in dollars and its increment in cents. *)
Definition cents_range (min max increment : Z) : GranularityRange :=
  {| gr_min := f64_of_Z min; gr_max := f64_of_Z max; gr_increment := f64_of_dec increment 2 |}.
Definition low : AstGranularity := {| ag_precision := 2; ag_ranges := [cents_range 0 5 50] |}.
Definition medium : AstGranularity := {| ag_precision := 2; ag_ranges := [cents_range 0 20 10] |}.
Definition high : AstGranularity := {| ag_precision := 2; ag_ranges := [cents_range 0 20 1] |}.
Definition auto_preset : AstGranularity := {|
  ag_precision := 2; ag_ranges := [cents_range 0 5 5; cents_range 5 10 10; cents_range 10 20 50] |}.
Definition dense : AstGranularity := {|
  ag_precision := 2; ag_ranges := [cents_range 0 3 1; cents_range 3 8 5; cents_range 8 20 50] |}.
(** No character outside ASCII has one of the presets' letters as its lower case. *)
Definition granularity_from_name (name : string) : option AstGranularity :=
  let name := to_ascii_lowercase name in
  if bool_decide (name = "low") then Some low
  else if bool_decide (name = "medium") || bool_decide (name = "med") then Some medium
  else if bool_decide (name = "high") then Some high
  else if bool_decide (name = "auto") then Some auto_preset
  else if bool_decide (name = "dense") then Some dense
  else None.

Fixpoint bucket_of_ranges (prec : nat) (cpm : f64) (ranges : list GranularityRange)
    : option string :=
  match ranges with
  | [] => None
  | range :: ranges =>
      if f64_ltb cpm (gr_max range) && f64_geb cpm (gr_min range) then
        Some (if f64_leb (gr_increment range) f64_zero then format_f64 prec f64_zero
              else
                let buckets :=
                  f64_floor (f64_div (f64_sub cpm (gr_min range)) (gr_increment range)) in
                format_f64 prec (f64_add (gr_min range) (f64_mul buckets (gr_increment range))))
      else bucket_of_ranges prec cpm ranges
  end.
Definition get_price_bucket (cpm : f64) (granularity : AstGranularity) : string :=
  let prec := Z.to_nat (ag_precision granularity) in
  if f64_ltb cpm f64_zero then format_f64 prec f64_zero
  else
    match bucket_of_ranges prec cpm (ag_ranges granularity) with
    | Some bucket => bucket
    | None =>
        match last (ag_ranges granularity) with
        | Some range => format_f64 prec (gr_max range)
        | None => format_f64 prec f64_zero
        end
    end.

(** ** The key-values of a bid *)

Record TargetingParams : Type := {
  tp_bidder : string; tp_price : f64; tp_bid_id : string; tp_imp_id : string;
  tp_size : option (Z * Z); tp_deal_id : option string; tp_format : option string;
  tp_cache_id : option string; tp_vast_cache_id : option string; tp_cache_host : option string;
  tp_cache_path : option string; tp_env : option string; tp_is_winning_bid : bool;
  tp_category_duration : option string; tp_always_include_deals : bool;
  tp_include_bidder_keys : bool; tp_include_winners : bool;
}.

(** [if let Some(s) = s { if !s.is_empty() { .. } }] *)
Definition filled (s : option string) : option string :=
  s ← s; if str_is_empty s then None else Some s.

(** The keys in the order they are written, each with its value. *)
Definition target_values (params : TargetingParams) (bucket : string)
    : list (string * option string) := [
  ("hb_bidder", Some (tp_bidder params));
  ("hb_pb", Some bucket);
  ("hb_size", (λ wh : Z * Z, pretty wh.1 +:+ "x" +:+ pretty wh.2) <$> tp_size params);
  ("hb_deal", filled (tp_deal_id params));
  ("hb_cache_id", tp_cache_id params);
  ("hb_uuid", tp_vast_cache_id params);
  ("hb_format", tp_format params);
  ("hb_env", tp_env params);
  ("hb_cache_host", tp_cache_host params);
  ("hb_cache_path", tp_cache_path params);
  ("hb_cat_dur", filled (tp_category_duration params))].

(** Each key that has a value, under the name [key_of] gives it. *)
Definition insert_keys (key_of : string → outcome string string)
    (values : list (string * option string)) (kv : gmap string string)
    : outcome string (gmap string string) :=
  foldM (λ kv e,
    match e.2 with
    | Some v => k ← key_of e.1; Ok (<[ k := v ]> kv)
    | None => Ok kv
    end) kv values.
Definition adds_bidder_keys (params : TargetingParams) : bool :=
  let has_deal := match filled (tp_deal_id params) with Some _ => true | None => false end in
  tp_include_bidder_keys params || (tp_always_include_deals params && has_deal).
Definition make_targeting (params : TargetingParams) (granularity : AstGranularity)
    : outcome string (gmap string string) :=
  let bucket := get_price_bucket (tp_price params) granularity in
  let values := target_values params bucket in
  kv ← (if adds_bidder_keys params
        then insert_keys (λ base, bidder_key base (tp_bidder params)) values ∅ else Ok ∅);
  if tp_include_winners params && tp_is_winning_bid params then insert_keys Ok values kv else Ok kv.

(** ** Rules *)

Record AdServerTargetingRule : Type := {
  ast_key : string; ast_source : string; ast_value : string;
}.

Definition extract_from_request (req : BidRequest) (path : string) : option string :=
  if bool_decide (path = "site.page") then req_site req ≫= site_page
  else if bool_decide (path = "site.domain") then req_site req ≫= site_domain
  else if bool_decide (path = "app.bundle") then req_app req ≫= app_bundle
  else if bool_decide (path = "user.id") then req_user req ≫= user_id
  else None.

Section Rules.
(** [format!("{}", price)] *)
Context (display_f64 : f64 → string).

Definition extract_from_bid (bid : Bid) (path : string) : option string :=
  if bool_decide (path = "price") then Some (display_f64 (bid_price bid))
  else if bool_decide (path = "id") then Some (bid_id bid)
  else if bool_decide (path = "adid") then bid_adid bid
  else None.
Definition rule_value (bid_request : BidRequest) (bid : option Bid) (rule : AdServerTargetingRule)
    : option string :=
  if bool_decide (ast_source rule = "static") then Some (ast_value rule)
  else if bool_decide (ast_source rule = "bidrequest")
  then extract_from_request bid_request (ast_value rule)
  else if bool_decide (ast_source rule = "bidresponse")
  then b ← bid; extract_from_bid b (ast_value rule)
  else None.
Definition apply_adserver_targeting (rules : list AdServerTargetingRule) (bid_request : BidRequest)
    (bid : option Bid) : gmap string string :=
  fold_left (λ result rule,
    match rule_value bid_request bid rule with
    | Some v => <[ ast_key rule := v ]> result
    | None => result
    end) rules ∅.
End Rules.

(** ** Specification *)

(** The eleven key names. *)
Definition target_bases : list string :=
  ["hb_bidder"; "hb_pb"; "hb_size"; "hb_deal"; "hb_cache_id"; "hb_uuid"; "hb_format"; "hb_env";
   "hb_cache_host"; "hb_cache_path"; "hb_cat_dur"].
(** A bidder's key, when it does not panic. *)
Definition short_key (base bidder : string) : string :=
  String.substring 0 20 (base +:+ "_" +:+ bidder).
Definition ascii_only (s : string) : Prop :=
  Forall (λ a, is_continuation a = false) (String.list_ascii_of_string s).

Definition sample_params : TargetingParams := {|
  tp_bidder := "appnexus"; tp_price := f64_of_dec 153 2; tp_bid_id := "b"; tp_imp_id := "i";
  tp_size := Some (300, 250); tp_deal_id := None; tp_format := None; tp_cache_id := None;
  tp_vast_cache_id := None; tp_cache_host := None; tp_cache_path := None; tp_env := None;
  tp_is_winning_bid := true; tp_category_duration := None; tp_always_include_deals := false;
  tp_include_bidder_keys := true; tp_include_winners := true |}.

(** ** Proofs *)

Lemma substring_whole n s : (String.length s ≤ n)%nat → String.substring 0 n s = s.
Proof.
  revert s. induction n as [|n IH]; intros [|a s]; simpl; intros H; try done; [lia|].
  rewrite IH by lia. done.
Qed.
Lemma substring_short n s : (String.length (String.substring 0 n s) ≤ n)%nat.
Proof.
  revert s. induction n as [|n IH]; intros [|a s]; simpl; try lia. specialize (IH s). lia.
Qed.
Lemma get_in_list n s a : String.get n s = Some a → a ∈ String.list_ascii_of_string s.
Proof.
  revert s. induction n as [|n IH]; intros [|b s]; simpl; try done.
  - intros [= ->]. by left.
  - intros ?%IH. by right.
Qed.
Lemma get_none n s : String.get n s = None → (String.length s ≤ n)%nat.
Proof.
  revert s. induction n as [|n IH]; intros [|b s]; simpl; try done; try lia. intros ?%IH. lia.
Qed.
Lemma ascii_app s t : ascii_only s → ascii_only t → ascii_only (s +:+ t).
Proof.
  unfold ascii_only. induction s as [|a s IH]; simpl; [done|].
  intros [Ha Hs]%Forall_cons Ht. apply Forall_cons. auto.
Qed.

(** A key is cut to twenty bytes, and never panics when it is ASCII. *)
Lemma truncate_ascii key : ascii_only key →
  truncate_target_key key = Ok (String.substring 0 20 key).
Proof.
  intros Hk. unfold truncate_target_key, truncate_to, MAX_KEY_LENGTH, str_len, slice_to.
  destruct (Z.of_nat (String.length key) <=? 20) eqn:Hl; bools.
  - rewrite substring_whole by lia. done.
  - change (Z.to_nat 20) with 20%nat. unfold is_char_boundary.
    destruct (String.get 20 key) as [a|] eqn:Hg; [|apply get_none in Hg; lia].
    apply get_in_list in Hg. unfold ascii_only in Hk. rewrite Forall_forall in Hk.
    by rewrite Hk.
Qed.

Lemma bidder_key_ascii base bidder : base ∈ target_bases → ascii_only bidder →
  bidder_key base bidder = Ok (short_key base bidder).
Proof.
  intros Hb Ha. unfold bidder_key, short_key. rewrite truncate_ascii; [done|].
  apply ascii_app; [|by apply ascii_app; [repeat constructor|]].
  unfold target_bases in Hb. rewrite !elem_of_cons, elem_of_nil in Hb.
  decompose [or] Hb; try done; subst; repeat constructor.
Qed.

(** Truncation keeps the key names apart. *)
Lemma target_keys_distinct bidder :
  NoDup (((λ base, short_key base bidder) <$> target_bases) ++ target_bases).
Proof.
  unfold short_key, target_bases. simpl.
  repeat (apply NoDup_cons; split; [rewrite ?not_elem_of_cons; repeat (split; [done|]); apply not_elem_of_nil|]).
  apply NoDup_nil_2.
Qed.

(** Writing keys whose names differ. *)
Lemma insert_keys_spec key_of f values kv :
  (∀ base, base ∈ values.*1 → key_of base = Ok (f base)) → NoDup (f <$> values.*1) →
  (∀ base, base ∈ values.*1 → kv !! f base = None) →
  ∃ kv', insert_keys key_of values kv = Ok kv' ∧
    ∀ k v, kv' !! k = Some v ↔
      kv !! k = Some v ∨ ∃ base, (base, Some v) ∈ values ∧ k = f base.
Proof.
  unfold insert_keys. revert kv. induction values as [|[base w] values IH]; intros kv Hkey Hnd Hnew.
  { exists kv. split; [done|]. intros k v. split; [by left|].
    intros [?|(base&?%elem_of_nil&_)]; done. }
  simpl in *. apply NoDup_cons in Hnd as [Hni Hnd].
  assert (Hf : ∀ b, b ∈ values.*1 → f b ≠ f base).
  { intros b Hb He. apply Hni. rewrite <-He. by apply list_elem_of_fmap_2. }
  destruct w as [w|]; simpl.
  - rewrite Hkey by left. simpl.
    destruct (IH (<[ f base := w ]> kv)) as (kv'&Hkv&Hlook).
    { intros b Hb. apply Hkey. by right. }
    { done. }
    { intros b Hb. rewrite lookup_insert_ne by (symmetry; auto). apply Hnew. by right. }
    exists kv'. split; [exact Hkv|]. intros k v. rewrite Hlook, lookup_insert_Some. split.
    + intros [[[<- <-]|[? ?]]|(b&Hb&->)]; [right|by left|right].
      * exists base. split; [by left|done].
      * exists b. split; [by right|done].
    + intros [Hk|(b&[[= <- <-]|Hb]%elem_of_cons&->)]; [| |right; eauto].
      * left. right. split; [|done]. intros <-. rewrite Hnew in Hk; [done|by left].
      * left. by left.
  - destruct (IH kv) as (kv'&Hkv&Hlook); [intros b Hb; apply Hkey; by right|done| |].
    { intros b Hb. apply Hnew. by right. }
    exists kv'. split; [exact Hkv|]. intros k v. rewrite Hlook.
    setoid_rewrite elem_of_cons. naive_solver.
Qed.

(** The targeting of a bid holds its key-values and nothing else.  For a
    bidder with an ASCII name the builder does not panic; each of the eleven
    keys that has a value is there under its own name exactly when the bid won
    and winners are included, and under its bidder-suffixed name, cut to twenty
    bytes, exactly when bidder keys are on or the bid's deal asks for them; no
    two of these names collide, and none is longer than twenty bytes. *)
Theorem make_targeting_spec params granularity :
  ascii_only (tp_bidder params) →
  let values := target_values params (get_price_bucket (tp_price params) granularity) in
  ∃ kv, make_targeting params granularity = Ok kv ∧
    (∀ k v, kv !! k = Some v ↔ ∃ base, (base, Some v) ∈ values ∧
       ((adds_bidder_keys params = true ∧ k = short_key base (tp_bidder params)) ∨
        (tp_include_winners params && tp_is_winning_bid params = true ∧ k = base))) ∧
    ∀ k, is_Some (kv !! k) → str_len k ≤ MAX_KEY_LENGTH.
Proof.
  intros Ha values.
  pose proof (target_keys_distinct (tp_bidder params)) as Hnd.
  apply NoDup_app in Hnd as (Hnd1&Hcross&Hnd2).
  assert (Hbases : values.*1 = target_bases) by done.
  assert (Hkeys : ∃ kv, make_targeting params granularity = Ok kv ∧
    ∀ k v, kv !! k = Some v ↔ ∃ base, (base, Some v) ∈ values ∧
       ((adds_bidder_keys params = true ∧ k = short_key base (tp_bidder params)) ∨
        (tp_include_winners params && tp_is_winning_bid params = true ∧ k = base))).
  { unfold make_targeting. fold values.
    assert (H1 : ∃ kv1, (if adds_bidder_keys params
        then insert_keys (λ base, bidder_key base (tp_bidder params)) values ∅ else Ok ∅) = Ok kv1 ∧
      ∀ k v, kv1 !! k = Some v ↔ ∃ base, (base, Some v) ∈ values ∧
        adds_bidder_keys params = true ∧ k = short_key base (tp_bidder params)).
    { destruct (adds_bidder_keys params).
      - destruct (insert_keys_spec (λ base, bidder_key base (tp_bidder params))
          (λ base, short_key base (tp_bidder params)) values ∅) as (kv1&Hkv1&Hl).
        { intros base Hb. rewrite Hbases in Hb. by apply bidder_key_ascii. }
        { by rewrite Hbases. }
        { intros base _. apply lookup_empty. }
        exists kv1. split; [exact Hkv1|]. intros k v. rewrite Hl, lookup_empty. naive_solver.
      - exists ∅. split; [done|]. intros k v. rewrite lookup_empty. naive_solver. }
    destruct H1 as (kv1&->&Hl1). simpl.
    destruct (tp_include_winners params && tp_is_winning_bid params).
    - destruct (insert_keys_spec Ok id values kv1) as (kv2&Hkv2&Hl2); [done| | |].
      { by rewrite Hbases, list_fmap_id. }
      { intros base Hb. rewrite Hbases in Hb. apply eq_None_not_Some. intros [v Hv].
        apply Hl1 in Hv as (b&Hb'&_&Hk).
        apply (list_elem_of_fmap_2 fst) in Hb'. rewrite Hbases in Hb'. simpl in Hb'.
        apply (Hcross base); [|done]. unfold id in Hk. rewrite Hk.
        by apply (list_elem_of_fmap_2 (λ base, short_key base (tp_bidder params))). }
      exists kv2. split; [exact Hkv2|]. intros k v. rewrite Hl2, Hl1. naive_solver.
    - exists kv1. split; [done|]. intros k v. rewrite Hl1. naive_solver. }
  destruct Hkeys as (kv&Hkv&Hl). exists kv. split_and!; [exact Hkv|exact Hl|].
  intros k [v Hv]. apply Hl in Hv as (base&Hb&[[_ ->]|[_ ->]]).
  - unfold short_key, str_len, MAX_KEY_LENGTH.
    pose proof (substring_short 20 (base +:+ "_" +:+ tp_bidder params)). lia.
  - apply (list_elem_of_fmap_2 fst) in Hb. rewrite Hbases in Hb. simpl in Hb.
    assert (Hall : Forall (λ b, str_len b ≤ MAX_KEY_LENGTH) target_bases).
    { repeat constructor; by vm_compute. }
    rewrite Forall_forall in Hall. by apply Hall.
Qed.

(** The rules are applied in order; the last that has a value gives a key. *)
Lemma apply_adserver_targeting_app display_f64 rules rule req bid :
  apply_adserver_targeting display_f64 (rules ++ [rule]) req bid =
    match rule_value display_f64 req bid rule with
    | Some v => <[ ast_key rule := v ]> (apply_adserver_targeting display_f64 rules req bid)
    | None => apply_adserver_targeting display_f64 rules req bid
    end.
Proof. unfold apply_adserver_targeting. by rewrite fold_left_app. Qed.

(** Bidders whose names agree on their first bytes share keys. *)
Lemma long_bidders_share_keys :
  short_key "hb_cache_host" "appnexus_eu" = short_key "hb_cache_host" "appnexus_us".
Proof. reflexivity. Qed.
(** A name outside ASCII can panic. *)
Example cut_inside_character :
  bidder_key "hb_cache_host"
    ("bidde" +:+ String (ascii_of_byte 195) (String (ascii_of_byte 169) "")) = Panic.
Proof. reflexivity. Qed.

Lemma make_targeting_spec_witness :
  ascii_only "appnexus" ∧
  ∃ kv, make_targeting sample_params medium = Ok kv ∧
    kv !! "hb_pb_appnexus" = Some "1.50" ∧ kv !! "hb_size" = Some "300x250".
Proof.
  assert (Ha : ascii_only "appnexus") by repeat constructor.
  split; [exact Ha|].
  destruct (make_targeting_spec sample_params medium Ha) as (kv&Hkv&Hl&_).
  exists kv. split_and!; [exact Hkv|apply Hl|apply Hl].
  - exists "hb_pb". split; [right; left|by left].
  - exists "hb_size". split; [right; right; left|by right].
Defined.
