(* ===== verification/BidderRequests.v ===== *)
(** * The request each bidder gets

    exchange/src/lib.rs: the split of the impressions per bidder, the deep merge
    of first-party data into a bidder's request, the host's supply-chain node,
    and [AdaptedBidder::request_bid], the loop over a bidder's HTTP calls.

    The generated (de)serialisers, an adapter's [make_requests] and [make_bids]
    and the HTTP client are parameters. *)

From S2P Require Import Prelude Json OpenRtb OpenRtbExt BidPipeline.

(** ** Impressions per bidder *)

Definition skipped_ext_key (key : string) : bool :=
  bool_decide (key ∈ ["prebid"; "data"; "gpid"; "tid"; "skadn"; "context"]).

(** The bidders of an imp with their parameters: those of
    [ext.prebid.bidder], then the legacy top-level keys. *)
Definition prebid_bidder_params (ext : Value) : list (string * Value) :=
  default [] (json_path ["prebid"; "bidder"] (Some ext) ≫= as_object).
Definition legacy_step (known_bidders : list string) (bidder_params : list (string * Value))
    (e : string * Value) : list (string * Value) :=
  if skipped_ext_key e.1 then bidder_params
  else if bool_decide (e.1 ∈ known_bidders) then
    if existsb (λ p : string * Value, bool_decide (p.1 = e.1)) bidder_params then bidder_params
    else bidder_params ++ [e]
  else bidder_params.
Definition imp_bidder_params (known_bidders : list string) (ext : Value) : list (string * Value) :=
  fold_left (legacy_step known_bidders) (default [] (as_object ext)) (prebid_bidder_params ext).

(** The top-level keys a bidder may see. *)
Definition copied_ext (known_bidders : list string) (ext : Value) : list (string * Value) :=
  fold_left (λ m e,
    if bool_decide (e.1 = "prebid") then m
    else if bool_decide (e.1 ∈ known_bidders) then m
    else obj_insert e.1 e.2 m) (default [] (as_object ext)) [].
Definition sanitized_prebid (prebid : Value) : list (string * Value) :=
  fold_left (λ m allowed_key,
    match get allowed_key prebid with
    | Some val => obj_insert allowed_key val m
    | None => m
    end) ["is_rewarded_inventory"; "options"] [].
Definition sanitized_ext (known_bidders : list string) (ext params : Value)
    : list (string * Value) :=
  let m := copied_ext known_bidders ext in
  let m := match get "prebid" ext with
           | Some prebid =>
               match sanitized_prebid prebid with
               | [] => m
               | sanitized => obj_insert "prebid" (VObject sanitized) m
               end
           | None => m
           end in
  obj_insert "bidder" params m.

(** [bidder_imps.entry(bidder_name).or_default().push(imp_copy)] *)
Definition push_imp (bidder_imps : gmap string (list Imp)) (e : string * Imp)
    : gmap string (list Imp) :=
  <[ e.1 := default [] (bidder_imps !! e.1) ++ [e.2] ]> bidder_imps.
Definition imp_copies (known_bidders : list string) (imp : Imp) : list (string * Imp) :=
  match imp_ext imp with
  | None => []
  | Some ext =>
      (λ p, (p.1, set_imp_ext (Some (VObject (sanitized_ext known_bidders ext p.2))) imp))
        <$> imp_bidder_params known_bidders ext
  end.
Definition split_imps_for_bidders (imps : list Imp) (known_bidders : list string)
    : gmap string (list Imp) :=
  fold_left (λ m imp, fold_left push_imp (imp_copies known_bidders imp) m) imps ∅.

(** ** First-party data *)

(** Every overlay entry in turn; an absent base entry starts as null. *)
Fixpoint deep_merge_json (base overlay : Value) {struct overlay} : Value :=
  match base, overlay with
  | VObject base_obj, VObject overlay_obj =>
      VObject ((fix go (o b : list (string * Value)) : list (string * Value) :=
        match o with
        | [] => b
        | (k, v) :: o' =>
            let entry := default VNull (obj_get k b) in
            let entry' :=
              if is_null entry then v
              else if is_object entry && is_object v then deep_merge_json entry v
              else entry in
            go o' (obj_insert k entry' b)
        end) overlay_obj base_obj)
  | _, _ => base
  end.

Definition merge_string_arrays (base overlay : list string) : list string :=
  fold_left (λ base item, if bool_decide (item ∈ base) then base else base ++ [item])
    overlay base.
(** The three cases of the [cat] fields. *)
Definition merge_cats (base overlay : option (list string)) : option (list string) :=
  match base, overlay with
  | Some b, Some o => Some (merge_string_arrays b o)
  | None, Some o => Some o
  | _, None => base
  end.
(** [if let Some(new_ext) = .. { deep merge, or set }] *)
Definition merge_ext (base overlay : option Value) : option Value :=
  match overlay with
  | Some new_ext =>
      match base with
      | Some existing => Some (deep_merge_json existing new_ext)
      | None => Some new_ext
      end
  | None => base
  end.
(** [if overlay.is_some() { base = overlay }], and [if base.is_none() { .. }]. *)
Definition overlay_wins {A} (base overlay : option A) : option A :=
  match overlay with Some _ => overlay | None => base end.
Definition base_wins {A} (base overlay : option A) : option A :=
  match base with Some _ => base | None => overlay end.

Definition merge_site (o s : Site) : Site :=
  let s := set_site_page (overlay_wins (site_page s) (site_page o)) s in
  let s := set_site_domain (overlay_wins (site_domain s) (site_domain o)) s in
  let s := set_site_publisher (overlay_wins (site_publisher s) (site_publisher o)) s in
  let s := set_site_ref_ (base_wins (site_ref_ s) (site_ref_ o)) s in
  let s := set_site_search (base_wins (site_search s) (site_search o)) s in
  let s := set_site_cat (merge_cats (site_cat s) (site_cat o)) s in
  let s := set_site_sectioncat (merge_cats (site_sectioncat s) (site_sectioncat o)) s in
  let s := set_site_pagecat (merge_cats (site_pagecat s) (site_pagecat o)) s in
  set_site_ext (merge_ext (site_ext s) (site_ext o)) s.

Definition merge_app (o a : App) : App :=
  let a := set_app_bundle (base_wins (app_bundle a) (app_bundle o)) a in
  let a := set_app_domain (base_wins (app_domain a) (app_domain o)) a in
  let a := set_app_cat (merge_cats (app_cat a) (app_cat o)) a in
  set_app_ext (merge_ext (app_ext a) (app_ext o)) a.

Section FirstParty.
Context (site_from_value : Value → option Site) (user_from_value : Value → option User)
  (app_from_value : Value → option App)
  (geo_to_value : Geo → option Value) (geo_from_value : Value → option Geo).

(** A geo object merged as JSON; kept when a conversion fails. *)
Definition merge_geo (base overlay : option Geo) : option Geo :=
  match base, overlay with
  | Some base_geo, Some overlay_geo =>
      match geo_to_value base_geo, geo_to_value overlay_geo with
      | Some base_val, Some overlay_val =>
          match geo_from_value (deep_merge_json base_val overlay_val) with
          | Some merged => Some merged
          | None => base
          end
      | _, _ => base
      end
  | None, Some overlay_geo => Some overlay_geo
  | _, None => base
  end.
Definition merge_user (o u : User) : User :=
  let u := set_user_buyeruid (overlay_wins (user_buyeruid u) (user_buyeruid o)) u in
  let u := set_user_geo (merge_geo (user_geo u) (user_geo o)) u in
  let u := set_user_data (user_data u ++ user_data o) u in
  set_user_ext (merge_ext (user_ext u) (user_ext o)) u.

Definition apply_fpd_for_bidder (bidder_name : string) (req : BidRequest) : BidRequest :=
  match json_path ["prebid"; "data"; "bidderspecific"; bidder_name] (req_ext req) with
  | None => req
  | Some fpd =>
      let req :=
        match get "site" fpd ≫= site_from_value, req_site req with
        | Some o, Some site => set_req_site (Some (merge_site o site)) req
        | _, _ => req
        end in
      let req :=
        match get "user" fpd ≫= user_from_value, req_user req with
        | Some o, Some user => set_req_user (Some (merge_user o user)) req
        | _, _ => req
        end in
      match get "app" fpd ≫= app_from_value, req_app req with
      | Some o, Some app => set_req_app (Some (merge_app o app)) req
      | _, _ => req
      end
  end.
End FirstParty.

(** ** The host's supply-chain node *)

Definition schain_base_request (schain_node : option SupplyChainNode) (bid_request : BidRequest)
    : option BidRequest :=
  match schain_node with
  | None => None
  | Some host_node =>
      let source := default default_src (req_source bid_request) in
      let schain :=
        match src_schain source with
        | Some sc => {| sc_complete := sc_complete sc; sc_nodes := host_node :: sc_nodes sc;
                        sc_ver := sc_ver sc; sc_ext := sc_ext sc |}
        | None => {| sc_complete := 0; sc_nodes := [host_node]; sc_ver := "1.0";
                     sc_ext := None |}
        end in
      Some (set_req_source (Some (set_src_schain (Some schain) source)) bid_request)
  end.

(** ** The HTTP calls of a bidder *)

Section RequestBid.
(** [Bidder::make_requests] and [make_bids] of the adapter behind the trait
    object; an [Err] is [inl]. *)
Context (make_requests : BidRequest → ExtraRequestInfo → list RequestData * list BidderError).
Context (make_bids : BidRequest → RequestData → ResponseData →
  list BidderError + BidderResponse).
(** reqwest under tokio's timeout: [None] when the time is up, [inl] an error
    when sending, else the status and the body (or the error reading it).
    Then flate2's gzip ([None] on an I/O error) and two string functions of
    the standard library, [String::from_utf8_lossy] and [to_uppercase]. *)
Context (send : RequestData → list Z → option string → Z →
  option (string + Z * (string + list Z))).
Context (compress_gzip : list Z → option (list Z)).
Context (from_utf8_lossy : list Z → string) (to_uppercase : string → string).
Context (endpoint_compression : option string).

Definition execute_request (req : RequestData) (timeout_ms : Z)
    : BidderError + ResponseData * ExtHttpCall :=
  if negb (bool_decide (rqd_method req = "POST")) && negb (bool_decide (rqd_method req = "GET"))
  then inl (BadInput ("unsupported HTTP method: " +:+ rqd_method req))
  else
    let use_gzip := match endpoint_compression with
                    | Some s => bool_decide (to_uppercase s = "GZIP")
                    | None => false
                    end in
    let '(body_bytes, content_encoding) :=
      if use_gzip then
        match compress_gzip (rqd_body req) with
        | Some compressed => (compressed, Some "gzip")
        | None => (rqd_body req, None)
        end
      else (rqd_body req, None) in
    match send req body_bytes content_encoding timeout_ms with
    | Some (inr (status, inr body)) =>
        inr ({| rsd_status_code := status; rsd_body := body; rsd_headers := ∅ |},
             {| hc_uri := rqd_uri req; hc_request_body := from_utf8_lossy (rqd_body req);
                hc_request_headers := ∅; hc_response_body := from_utf8_lossy body;
                hc_status := status |})
    | Some (inr (_, inl e)) => inl (BadServerResponse e)
    | Some (inl e) => inl (FailedToRequestBids e)
    | None => inl Timeout
    end.

Record CallState : Type := {
  cs_all_bids : BidderResponse; cs_errs : list BidderError;
  cs_http_calls : list ExtHttpCall; cs_timed_out : bool;
}.

(** [all_bids] with the bids and configurations of one response. *)
Definition append_response (all br : BidderResponse) : BidderResponse := {|
  br_currency := if negb (bool_decide (br_currency br = "USD")) then br_currency br
                 else br_currency all;
  br_bids := br_bids all ++ br_bids br;
  br_fledge_auction_configs :=
    br_fledge_auction_configs all ++ br_fledge_auction_configs br |}.

Definition call_step (request : BidRequest) (timeout_ms : Z) (st : CallState)
    (req_data : RequestData) : CallState :=
  match execute_request req_data timeout_ms with
  | inr (response_data, http_call) =>
      let calls := cs_http_calls st ++ [http_call] in
      if rsd_status_code response_data =? 204 then
        {| cs_all_bids := cs_all_bids st; cs_errs := cs_errs st; cs_http_calls := calls;
           cs_timed_out := cs_timed_out st |}
      else match make_bids request req_data response_data with
      | inr br =>
          {| cs_all_bids := append_response (cs_all_bids st) br; cs_errs := cs_errs st;
             cs_http_calls := calls; cs_timed_out := cs_timed_out st |}
      | inl e =>
          {| cs_all_bids := cs_all_bids st; cs_errs := cs_errs st ++ e; cs_http_calls := calls;
             cs_timed_out := cs_timed_out st |}
      end
  | inl Timeout =>
      {| cs_all_bids := cs_all_bids st; cs_errs := cs_errs st ++ [Timeout];
         cs_http_calls := cs_http_calls st; cs_timed_out := true |}
  | inl e =>
      {| cs_all_bids := cs_all_bids st; cs_errs := cs_errs st ++ [e];
         cs_http_calls := cs_http_calls st; cs_timed_out := cs_timed_out st |}
  end.

(** The duration is the clock's. *)
Definition request_bid (request : BidRequest) (bidder_name : string)
    (extra_info : ExtraRequestInfo) (timeout_ms duration_ms : Z) : BidderResult :=
  let '(reqs, errs) := make_requests request extra_info in
  match reqs with
  | [] =>
      {| bres_bidder_name := bidder_name;
         bres_response := match errs with [] => inr bidder_response_new | _ => inl errs end;
         bres_duration_ms := duration_ms; bres_http_calls := []; bres_timed_out := false |}
  | _ :: _ =>
      let st := fold_left (call_step request timeout_ms) reqs
        {| cs_all_bids := bidder_response_new; cs_errs := errs; cs_http_calls := [];
           cs_timed_out := false |} in
      {| bres_bidder_name := bidder_name;
         bres_response :=
           if existsb is_fatal (cs_errs st) then inl (cs_errs st) else inr (cs_all_bids st);
         bres_duration_ms := duration_ms; bres_http_calls := cs_http_calls st;
         bres_timed_out := cs_timed_out st |}
  end.
End RequestBid.

(** ** Specification *)

(** The parameters an extension gives bidder [b]: those of
    [ext.prebid.bidder], else those of its legacy top-level key. *)
Definition params_for (known_bidders : list string) (b : string) (ext : Value) : option Value :=
  match json_path ["prebid"; "bidder"; b] (Some ext) with
  | Some params => Some params
  | None =>
      if skipped_ext_key b then None
      else if decide (b ∈ known_bidders) then get b ext else None
  end.
Definition copy_for (known_bidders : list string) (b : string) (imp : Imp) : option Imp :=
  ext ← imp_ext imp;
  params ← params_for known_bidders b ext;
  Some (set_imp_ext (Some (VObject (sanitized_ext known_bidders ext params))) imp).

(** What bidder [b] may see of an impression's extension [ext] with parameters
    [params]: its own parameters under [bidder], no other bidder's, of [prebid]
    the two allowed keys, and the other keys as they are. *)
Definition ext_sanitized (known_bidders : list string) (ext params : Value)
    (m : list (string * Value)) : Prop :=
  obj_get "bidder" m = Some params ∧
  (∀ k, k ≠ "bidder" → k ≠ "prebid" →
     obj_get k m = if decide (k ∈ known_bidders) then None else get k ext) ∧
  (∀ prebid k, obj_get "prebid" m = Some prebid → is_Some (get k prebid) →
     k ∈ ["is_rewarded_inventory"; "options"] ∧ (get "prebid" ext ≫= get k) = get k prebid).

(** One key of a merge. *)
Definition merge_entry (base overlay : option Value) : option Value :=
  match base, overlay with
  | (None | Some VNull), Some v => Some v
  | Some (VObject b), Some (VObject o) => Some (deep_merge_json (VObject b) (VObject o))
  | _, _ => base
  end.

Definition merge_value (entry v : Value) : Value :=
  if is_null entry then v
  else if is_object entry && is_object v then deep_merge_json entry v
  else entry.

(** What one HTTP call adds to a bidder's result. *)
Section CallSpec.
Context (result : RequestData → BidderError + ResponseData * ExtHttpCall)
  (make_bids : RequestData → ResponseData → list BidderError + BidderResponse).

(** The adapter's answer to a call that was not "no content". *)
Definition answer (req : RequestData) : option (list BidderError + BidderResponse) :=
  match result req with
  | inr (rd, _) => if rsd_status_code rd =? 204 then None else Some (make_bids req rd)
  | inl _ => None
  end.
Definition response_of (req : RequestData) : option BidderResponse :=
  match answer req with Some (inr br) => Some br | _ => None end.
Definition call_errors (req : RequestData) : list BidderError :=
  match result req with
  | inl e => [e]
  | inr _ => match answer req with Some (inl es) => es | _ => [] end
  end.
Definition call_log (req : RequestData) : option ExtHttpCall :=
  match result req with inr (_, call) => Some call | inl _ => None end.
Definition call_timed_out (req : RequestData) : bool :=
  match result req with inl Timeout => true | _ => false end.
(** The last currency that is not USD, for all the bids. *)
Definition gathered (reqs : list RequestData) : BidderResponse := {|
  br_currency := fold_left (λ cur br, if negb (bool_decide (br_currency br = "USD"))
                                      then br_currency br else cur)
                   (omap response_of reqs) "USD";
  br_bids := flat_map br_bids (omap response_of reqs);
  br_fledge_auction_configs := flat_map br_fledge_auction_configs (omap response_of reqs) |}.
End CallSpec.

(** *** Example data *)

Definition str_json (s : string) : Value := VString s.
Definition sample_ext : Value := VObject
  [("gpid", str_json "/1/home"); ("legacy", str_json "p2");
   ("prebid", VObject [("bidder", VObject [("appnexus", str_json "p1"); ("rubicon", str_json "p3")]);
                       ("options", VBool true)])].
Definition sample_imps : list Imp :=
  [set_imp_id "imp-1" (set_imp_ext (Some sample_ext) default_imp);
   set_imp_id "imp-2" default_imp].
Definition sample_bidders : list string := ["appnexus"; "legacy"; "rubicon"].
Definition one_bid (currency : string) (price : Z) : BidderResponse := {|
  br_currency := currency;
  br_bids := [typed_bid_new (set_bid_price (f64_of_Z price) default_bid) BtBanner];
  br_fledge_auction_configs := [] |}.
Definition sample_call (uri : string) : RequestData := {|
  rqd_method := "POST"; rqd_uri := uri; rqd_body := []; rqd_headers := ∅; rqd_imp_ids := [] |}.

(** ** Proofs: objects *)

(** Inserting the entries of an object that pass a test. *)
Lemma fold_insert_get {A} (skip : string → bool) (o m : list (string * A)) k :
  NoDup o.*1 → obj_sorted m →
  let r := fold_left (λ m e, if skip e.1 then m else obj_insert e.1 e.2 m) o m in
  obj_sorted r ∧
  obj_get k r = if skip k then obj_get k m
                else match obj_get k o with Some v => Some v | None => obj_get k m end.
Proof.
  revert m. induction o as [|[k' v'] o IH]; intros m Hnd Hm; simpl.
  { split; [done|]. by destruct (skip k). }
  simpl in Hnd. apply NoDup_cons in Hnd as [Hni Hnd].
  destruct (skip k') eqn:Hs.
  - destruct (IH m Hnd Hm) as [Hr Hg]. split; [done|]. rewrite Hg.
    destruct (decide (k' = k)) as [->|Hne]; [by rewrite Hs|]. by rewrite (bool_decide_false (k' = k)).
  - destruct (IH (obj_insert k' v' m) Hnd (obj_sorted_insert _ _ _ Hm)) as [Hr Hg].
    split; [done|]. rewrite Hg, obj_get_insert by done.
    destruct (decide (k' = k)) as [->|Hne].
    + rewrite Hs, bool_decide_true by done. by rewrite obj_get_not_in.
    + by rewrite !(bool_decide_false (k' = k)) by done.
Qed.

Lemma copied_ext_spec known ext k : value_wf ext →
  obj_sorted (copied_ext known ext) ∧
  obj_get k (copied_ext known ext) =
    if decide (k = "prebid" ∨ k ∈ known) then None else get k ext.
Proof.
  intros Hwf. unfold copied_ext.
  set (skip := λ k, bool_decide (k = "prebid") || bool_decide (k ∈ known)).
  assert (Heq : ∀ o m, fold_left (λ m (e : string * Value),
      if bool_decide (e.1 = "prebid") then m
      else if bool_decide (e.1 ∈ known) then m else obj_insert e.1 e.2 m) o m =
    fold_left (λ m e, if skip e.1 then m else obj_insert e.1 e.2 m) o m).
  { induction o as [|e o IH]; intros m; [done|]. simpl. rewrite IH. unfold skip.
    by destruct (bool_decide (e.1 = "prebid")), (bool_decide (e.1 ∈ known)). }
  rewrite Heq.
  destruct (fold_insert_get skip (default [] (as_object ext)) [] k) as [Hs Hg];
    [|done|].
  { destruct ext; try constructor. apply obj_sorted_NoDup. by destruct Hwf. }
  split; [done|]. rewrite Hg. unfold skip.
  destruct (decide (k = "prebid" ∨ k ∈ known)) as [Hk|Hk].
  - destruct Hk as [->|Hk]; [done|]. rewrite (bool_decide_true (k ∈ known)) by done.
    by rewrite orb_true_r.
  - rewrite !bool_decide_false by tauto. simpl. destruct ext as [| | | | |m]; try done. simpl. by destruct (obj_get k m).
Qed.

Lemma sanitized_prebid_spec prebid k :
  obj_sorted (sanitized_prebid prebid) ∧
  obj_get k (sanitized_prebid prebid) =
    if decide (k ∈ ["is_rewarded_inventory"; "options"]) then get k prebid else None.
Proof.
  unfold sanitized_prebid. simpl.
  destruct (get "is_rewarded_inventory" prebid) as [v1|] eqn:H1,
    (get "options" prebid) as [v2|] eqn:H2; simpl.
  all: split; [repeat constructor; done|].
  all: destruct (decide (k ∈ _)) as [Hk|Hk].
  all: try (apply elem_of_cons in Hk as [->|Hk]; [by rewrite H1|];
            apply list_elem_of_singleton in Hk as ->; by rewrite H2).
  all: apply not_elem_of_cons in Hk as [Hk1 Hk]; apply not_elem_of_cons in Hk as [Hk2 _];
    by rewrite ?bool_decide_false by done.
Qed.

Lemma sanitized_ext_spec known ext params : value_wf ext →
  ext_sanitized known ext params (sanitized_ext known ext params).
Proof.
  intros Hwf. unfold sanitized_ext. cbv zeta.
  set (m1 := copied_ext known ext).
  assert (Hm1 : obj_sorted m1) by (by destruct (copied_ext_spec known ext "" Hwf)).
  set (m2 := match get "prebid" ext with Some _ => _ | None => _ end).
  assert (Hm2 : obj_sorted m2 ∧ (∀ k, k ≠ "prebid" → obj_get k m2 = obj_get k m1) ∧
    ∀ prebid k, obj_get "prebid" m2 = Some prebid → is_Some (get k prebid) →
      k ∈ ["is_rewarded_inventory"; "options"] ∧ (get "prebid" ext ≫= get k) = get k prebid).
  { assert (Hnone : obj_get "prebid" m1 = None).
    { subst m1. destruct (copied_ext_spec known ext "prebid" Hwf) as [_ ->].
      by rewrite decide_True by by left. }
    subst m2. destruct (get "prebid" ext) as [p|] eqn:Hp; [|split_and!; [done..|congruence]].
    destruct (sanitized_prebid p) as [|e s] eqn:Hsp; [split_and!; [done..|congruence]|].
    split_and!; [by apply obj_sorted_insert| |].
    - intros k Hk. rewrite obj_get_insert, bool_decide_false by done. done.
    - intros prebid k. rewrite obj_get_insert, bool_decide_true by done.
      intros [= <-]. pose proof (proj2 (sanitized_prebid_spec p k)) as Hg.
      rewrite Hsp in Hg. change (get k (VObject (e :: s))) with (obj_get k (e :: s)).
      rewrite Hg. destruct (decide (k ∈ _)) as [Hk|Hk]; [done|by intros [? ?]]. }
  destruct Hm2 as (Hs2&Hother&Hpre). split_and!.
  - by rewrite obj_get_insert, bool_decide_true.
  - intros k Hb Hp. rewrite obj_get_insert, bool_decide_false, Hother by done.
    unfold m1. rewrite (proj2 (copied_ext_spec known ext k Hwf)).
    destruct (decide (k ∈ known)); [by rewrite decide_True by by right|].
    rewrite decide_False; [done|]. by intros [?|?].
  - intros prebid k. rewrite obj_get_insert, bool_decide_false by done. apply Hpre.
Qed.

(** ** Proofs: the split *)

Lemma push_imps_spec l m b :
  default [] (fold_left push_imp l m !! b) =
    default [] (m !! b) ++ (snd <$> List.filter (λ e : string * Imp, bool_decide (e.1 = b)) l).
Proof.
  revert m. induction l as [|[b' i] l IH]; intros m; simpl; [by rewrite app_nil_r|].
  rewrite IH. unfold push_imp. simpl. destruct (decide (b' = b)) as [->|Hne].
  - rewrite lookup_insert_eq, bool_decide_true by done. simpl. by rewrite <-app_assoc.
  - by rewrite lookup_insert_ne, bool_decide_false by done.
Qed.


Lemma filter_key {A} b (m : list (string * A)) : NoDup m.*1 →
  snd <$> List.filter (λ e : string * A, bool_decide (e.1 = b)) m = option_list (obj_get b m).
Proof.
  induction m as [|[k v] m IH]; [done|]. csimpl. intros [Hni Hnd]%NoDup_cons.
  destruct (decide (k = b)) as [->|Hne].
  - rewrite !bool_decide_true by done. csimpl. by rewrite IH, obj_get_not_in.
  - rewrite !bool_decide_false by done. by apply IH.
Qed.

Lemma existsb_key {A} k (l : list (string * A)) :
  existsb (λ p : string * A, bool_decide (p.1 = k)) l = bool_decide (k ∈ l.*1).
Proof.
  induction l as [|[k' v] l IH]; [done|]. simpl. rewrite IH.
  apply eq_true_iff_eq. rewrite orb_true_iff, !bool_decide_eq_true, elem_of_cons. naive_solver.
Qed.

Lemma legacy_get known b o acc : NoDup acc.*1 → NoDup o.*1 →
  let r := fold_left (legacy_step known) o acc in
  NoDup r.*1 ∧
  obj_get b r = match obj_get b acc with
                | Some v => Some v
                | None => if skipped_ext_key b then None
                          else if decide (b ∈ known) then obj_get b o else None
                end.
Proof.
  revert acc. induction o as [|[k v] o IH]; intros acc Ha Ho; simpl.
  { split; [done|]. destruct (obj_get b acc), (skipped_ext_key b); try done. by case_decide. }
  simpl in Ho. apply NoDup_cons in Ho as [Hni Ho]. unfold legacy_step at 2 4. simpl.
  destruct (skipped_ext_key k) eqn:Hs.
  { destruct (IH acc Ha Ho) as [Hr ->]. split; [done|].
    destruct (decide (k = b)) as [->|]; [by rewrite Hs|]. by rewrite (bool_decide_false (k = b)). }
  destruct (decide (k ∈ known)) as [Hk|Hk]; last first.
  { rewrite (bool_decide_false (k ∈ known)) by done.
    destruct (IH acc Ha Ho) as [Hr ->]. split; [done|].
    destruct (decide (k = b)) as [->|]; [by rewrite !decide_False by done|].
    by rewrite (bool_decide_false (k = b)). }
  rewrite (bool_decide_true (k ∈ known)), existsb_key by done.
  destruct (decide (k ∈ acc.*1)) as [Hin|Hin].
  - rewrite bool_decide_true by done. destruct (IH acc Ha Ho) as [Hr ->]. split; [done|].
    destruct (decide (k = b)) as [->|]; [|by rewrite (bool_decide_false (k = b))].
    destruct (obj_get b acc) eqn:Hg; [done|]. apply obj_get_elem in Hin as [? ?]. congruence.
  - rewrite bool_decide_false by done.
    destruct (IH (acc ++ [(k, v)])) as [Hr ->]; [|done|].
    { rewrite fmap_app. apply NoDup_app. split_and!; [done| |apply NoDup_singleton].
      intros x Hx ->%list_elem_of_singleton. done. }
    split; [done|]. rewrite obj_get_app. simpl. destruct (obj_get b acc); [done|].
    destruct (decide (k = b)) as [->|].
    + rewrite !bool_decide_true by done. by rewrite Hs, decide_True.
    + by rewrite !(bool_decide_false (k = b)).
Qed.

Lemma prebid_params_get known ext b : value_wf ext →
  NoDup (imp_bidder_params known ext).*1 ∧
  obj_get b (imp_bidder_params known ext) = params_for known b ext.
Proof.
  intros Hwf. unfold imp_bidder_params.
  assert (Ho : NoDup (default [] (as_object ext)).*1).
  { destruct ext; try constructor. apply obj_sorted_NoDup. by destruct Hwf. }
  assert (Hp : NoDup (prebid_bidder_params ext).*1 ∧
    obj_get b (prebid_bidder_params ext) = json_path ["prebid"; "bidder"; b] (Some ext)).
  { unfold prebid_bidder_params, json_path; simpl.
    destruct (get "prebid" ext) as [p|] eqn:Hp; [|by split; [constructor|]]. simpl.
    destruct (get "bidder" p) as [q|] eqn:Hq; [|by split; [constructor|]]. simpl.
    pose proof (value_wf_get _ _ _ (value_wf_get _ _ _ Hwf Hp) Hq) as Hwq.
    destruct q as [| | | | |m]; try by split; [constructor|].
    split; [|done]. apply obj_sorted_NoDup. by destruct Hwq. }
  destruct Hp as [Hnd Hg]. destruct (legacy_get known b _ _ Hnd Ho) as [Hr ->]. split; [done|].
  unfold params_for. rewrite Hg. by destruct ext.
Qed.

Lemma imp_copies_for known b imp :
  (∀ ext, imp_ext imp = Some ext → value_wf ext) →
  snd <$> List.filter (λ e : string * Imp, bool_decide (e.1 = b)) (imp_copies known imp) =
    option_list (copy_for known b imp).
Proof.
  intros Hwf. unfold imp_copies, copy_for. destruct (imp_ext imp) as [ext|] eqn:He; [|done].
  destruct (prebid_params_get known ext b (Hwf _ eq_refl)) as [Hnd Hg].
  assert (Hk : ∀ (f : Value → Imp) (l : list (string * Value)),
    ((λ p, (p.1, f p.2)) <$> l).*1 = l.*1 ∧
    obj_get b ((λ p, (p.1, f p.2)) <$> l) = f <$> obj_get b l).
  { intros f l. induction l as [|[k v] l [IH1 IH2]]; [done|]. csimpl. rewrite IH1, IH2.
    split; [done|]. by case_bool_decide. }
  set (f := λ params, set_imp_ext (Some (VObject (sanitized_ext known ext params))) imp).
  change (λ p : string * Value, _) with (λ p : string * Value, (p.1, f p.2)).
  destruct (Hk f (imp_bidder_params known ext)) as [Hk1 Hk2].
  rewrite filter_key by by rewrite Hk1. rewrite Hk2, Hg. csimpl. by destruct (params_for known b ext).
Qed.

Lemma omap_flat_map {A B} (f : A → option B) (l : list A) :
  omap f l = flat_map (λ x, option_list (f x)) l.
Proof. induction l as [|x l IH]; [done|]. csimpl. rewrite IH. by destruct (f x). Qed.

(** C12: The split of the impressions.  A bidder's impressions are, in request
    order, one copy of each impression whose extension gives the bidder
    parameters (under [prebid.bidder], else under its legacy top-level key); the
    copy differs in its extension only, which holds those parameters, none of
    any other known bidder, of [prebid] at most [is_rewarded_inventory] and
    [options], and every other key as it was. *)
Theorem split_imps_isolates imps known b :
  (∀ imp ext, imp ∈ imps → imp_ext imp = Some ext → value_wf ext) →
  default [] (split_imps_for_bidders imps known !! b) = omap (copy_for known b) imps ∧
  ∀ imp ext params, imp ∈ imps → imp_ext imp = Some ext →
    ext_sanitized known ext params (sanitized_ext known ext params).
Proof.
  intros Hwf. split; [|intros; apply sanitized_ext_spec; eauto].
  assert (H : ∀ m, default [] (fold_left (λ m imp, fold_left push_imp (imp_copies known imp) m)
      imps m !! b) = default [] (m !! b) ++ omap (copy_for known b) imps).
  { rewrite omap_flat_map. induction imps as [|imp imps IH]; intros m; simpl; [by rewrite app_nil_r|].
    rewrite IH, push_imps_spec, imp_copies_for, <-app_assoc; [done| |].
    - intros ext He. apply (Hwf imp); [by left|done].
    - intros imp' ext Hin. apply Hwf. by right. }
  unfold split_imps_for_bidders. by rewrite H, lookup_empty.
Qed.

(** ** Proofs: the deep merge *)

Lemma deep_merge_unfold b o :
  deep_merge_json (VObject b) (VObject o) =
  VObject (fold_left (λ b e, obj_insert e.1 (merge_value (default VNull (obj_get e.1 b)) e.2) b) o b).
Proof. simpl. f_equal. revert b. by induction o as [|[k v] o IH]; intros b; [|simpl; rewrite <-IH]. Qed.

Lemma deep_merge_get b o : obj_sorted b → NoDup o.*1 → ∃ m,
  deep_merge_json (VObject b) (VObject o) = VObject m ∧ obj_sorted m ∧
  ∀ k, obj_get k m = merge_entry (obj_get k b) (obj_get k o).
Proof.
  intros Hb Ho. rewrite deep_merge_unfold. eexists. split; [done|].
  assert (Hgoal : ∀ b, obj_sorted b →
    let m := fold_left (λ b e,
      obj_insert e.1 (merge_value (default VNull (obj_get e.1 b)) e.2) b) o b in
    obj_sorted m ∧ ∀ k, obj_get k m =
      match obj_get k o with
      | Some v => Some (merge_value (default VNull (obj_get k b)) v)
      | None => obj_get k b
      end).
  { clear b Hb. induction o as [|[k' v'] o IH]; intros b Hb; [done|]. csimpl.
    csimpl in Ho. apply NoDup_cons in Ho as [Hni Ho].
    destruct (IH Ho (obj_insert k' (merge_value (default VNull (obj_get k' b)) v') b))
      as [Hs Hg]; [by apply obj_sorted_insert|].
    split; [done|]. intros k. rewrite Hg, obj_get_insert by done.
    destruct (decide (k' = k)) as [->|Hne].
    - rewrite obj_get_not_in, !bool_decide_true by done. done.
    - by rewrite !(bool_decide_false (k' = k)) by done. }
  destruct (Hgoal b Hb) as [Hs Hg]. split; [done|]. intros k. rewrite Hg.
  unfold merge_entry, merge_value.
  destruct (obj_get k b) as [[]|], (obj_get k o) as [[]|]; reflexivity.
Qed.

(** The merge of two well-formed objects, with the induction hypothesis of a
    proof by induction on the overlay left open. *)
Lemma deep_merge_self v : value_wf v → deep_merge_json v v = v.
Proof.
  induction v as [| | | | |m IH] using Value_nested_ind; try done.
  intros Hwf. apply value_wf_object in Hwf as [Hs Hall].
  destruct (deep_merge_get m m Hs (obj_sorted_NoDup _ Hs)) as (r&->&Hr&Hg). f_equal.
  apply obj_sorted_ext; [done..|]. intros k. rewrite Hg. unfold merge_entry.
  destruct (obj_get k m) as [[]|] eqn:Hk; try done. f_equal.
  rewrite Forall_forall in IH. apply (IH _ (obj_get_elem_of _ _ _ Hk)). eauto.
Qed.

Lemma deep_merge_good o b : value_wf b → value_wf o →
  value_wf (deep_merge_json b o) ∧
  deep_merge_json (deep_merge_json b o) o = deep_merge_json b o.
Proof.
  revert b. induction o as [| | | | |o IH] using Value_nested_ind; intros base Hb Ho.
  1-5: by destruct base.
  destruct base as [| | | | |b]; [done..|].
  apply value_wf_object in Hb as [Hsb Hb]. apply value_wf_object in Ho as [Hso Ho]. rewrite Forall_forall in IH.
  destruct (deep_merge_get b o Hsb (obj_sorted_NoDup _ Hso)) as (m&->&Hm&Hg).
  assert (IH' : ∀ k b' o', obj_get k b = Some b' → obj_get k o = Some o' →
    value_wf (deep_merge_json b' o') ∧
    deep_merge_json (deep_merge_json b' o') o' = deep_merge_json b' o').
  { intros k b' o' Hkb Hko. apply (IH _ (obj_get_elem_of _ _ _ Hko)); eauto. }
  split.
  - apply value_wf_object. split; [done|]. intros k v. rewrite Hg. unfold merge_entry.
    destruct (obj_get k b) as [[]|] eqn:Hkb, (obj_get k o) as [[]|] eqn:Hko; try done;
      intros Hv; injection Hv as <-; eauto.
    apply (IH' k _ _ Hkb Hko).
  - destruct (deep_merge_get m o Hm (obj_sorted_NoDup _ Hso)) as (m'&->&Hm'&Hg'). f_equal.
    apply obj_sorted_ext; [done..|]. intros k. rewrite Hg', Hg. unfold merge_entry.
    destruct (obj_get k b) as [[]|] eqn:Hkb, (obj_get k o) as [[]|] eqn:Hko; try done.
    all: try (f_equal; apply deep_merge_self; by eauto).
    destruct (IH' k _ _ Hkb Hko) as [_ Hi].
    rewrite deep_merge_unfold in Hi |- *. by rewrite Hi.
Qed.

Lemma deep_merge_keeps path : ∀ b o v, value_wf b → value_wf o →
  json_path path (Some b) = Some v → is_object v = false → is_null v = false →
  json_path path (Some (deep_merge_json b o)) = Some v.
Proof.
  induction path as [|k path IH]; intros b o v Hb Ho Hp Hobj Hnull.
  { injection Hp as ->. by destruct v, o. }
  destruct b as [| | | | |bm], o as [| | | | |om]; try done. rename bm into b, om into o.
  pose proof Hb as [Hsb Hb']%value_wf_object. pose proof Ho as [Hso Ho']%value_wf_object.
  destruct (deep_merge_get b o Hsb (obj_sorted_NoDup _ Hso)) as (m&->&Hm&Hg).
  change (json_path path (obj_get k b) = Some v) in Hp.
  change (json_path path (obj_get k m) = Some v). rewrite Hg.
  destruct (obj_get k b) as [w|] eqn:Hk; [|by rewrite json_path_none in Hp].
  destruct (is_object w) eqn:Hw.
  - destruct w as [| | | | |w]; [done..|]. destruct (obj_get k o) as [[]|] eqn:Hk'; try done.
    apply IH; eauto.
  - pose proof (json_path_leaf _ _ _ Hp Hw) as ->.
    destruct w; try done; by destruct (obj_get k o) as [[]|].
Qed.

(** C36: The deep merge of first-party data.  On objects with ascending keys
    the merge is an object with ascending keys that has, under each key, the
    overlay's value where the base has none or null, the merge of the two where
    both are objects, and the base's value otherwise.  Nothing the base says is
    lost: a value other than null that is no object stays where it was, at any
    depth; and merging the same overlay again changes nothing. *)
Theorem deep_merge_spec b o :
  value_wf (VObject b) → value_wf (VObject o) → ∃ m,
  deep_merge_json (VObject b) (VObject o) = VObject m ∧ value_wf (VObject m) ∧
  (∀ k, obj_get k m = merge_entry (obj_get k b) (obj_get k o)) ∧
  (∀ path v, json_path path (Some (VObject b)) = Some v → is_object v = false →
     is_null v = false → json_path path (Some (VObject m)) = Some v) ∧
  deep_merge_json (VObject m) (VObject o) = VObject m.
Proof.
  intros Hb Ho. pose proof Hb as [Hsb _]%value_wf_object. pose proof Ho as [Hso _]%value_wf_object.
  destruct (deep_merge_get b o Hsb (obj_sorted_NoDup _ Hso)) as (m&Hm&_&Hg).
  destruct (deep_merge_good (VObject o) (VObject b) Hb Ho) as [Hwf Hi].
  exists m. rewrite Hm in Hwf, Hi. split_and!; [done..| |done].
  intros path v Hp Hobj Hnull. rewrite <-Hm. by apply deep_merge_keeps.
Qed.

(** ** Proofs: the calls of a bidder *)

Section RequestBidSpec.
Context (make_requests : BidRequest → ExtraRequestInfo → list RequestData * list BidderError).
Context (make_bids : BidRequest → RequestData → ResponseData →
  list BidderError + BidderResponse).
Context (send : RequestData → list Z → option string → Z →
  option (string + Z * (string + list Z))).
Context (compress_gzip : list Z → option (list Z)).
Context (from_utf8_lossy : list Z → string) (to_uppercase : string → string).
Context (endpoint_compression : option string).

Local Abbreviation exec timeout_ms := (λ req, execute_request send compress_gzip
  from_utf8_lossy to_uppercase endpoint_compression req timeout_ms).

Lemma calls_spec request timeout_ms reqs st :
  let r := exec timeout_ms in
  let mb := make_bids request in
  let st' := fold_left (call_step make_bids send compress_gzip from_utf8_lossy to_uppercase
               endpoint_compression request timeout_ms) reqs st in
  cs_errs st' = cs_errs st ++ flat_map (call_errors r mb) reqs ∧
  cs_http_calls st' = cs_http_calls st ++ omap (call_log r) reqs ∧
  cs_timed_out st' = cs_timed_out st || existsb (call_timed_out r) reqs ∧
  br_bids (cs_all_bids st') =
    br_bids (cs_all_bids st) ++ flat_map br_bids (omap (response_of r mb) reqs) ∧
  br_fledge_auction_configs (cs_all_bids st') = br_fledge_auction_configs (cs_all_bids st) ++
    flat_map br_fledge_auction_configs (omap (response_of r mb) reqs) ∧
  br_currency (cs_all_bids st') =
    fold_left (λ cur br, if negb (bool_decide (br_currency br = "USD"))
                         then br_currency br else cur)
      (omap (response_of r mb) reqs) (br_currency (cs_all_bids st)).
Proof.
  cbv zeta. revert st. induction reqs as [|req reqs IH]; intros st; csimpl.
  { by rewrite !app_nil_r, orb_false_r. }
  destruct (IH (call_step make_bids send compress_gzip from_utf8_lossy to_uppercase
                  endpoint_compression request timeout_ms st req))
    as (->&->&->&->&->&->). clear IH.
  unfold call_step, call_errors, call_log, call_timed_out, response_of, answer.
  destruct (execute_request _ _ _ _ _ req timeout_ms) as [e|[rd call]]; csimpl.
  { destruct e; csimpl; rewrite <-?app_assoc, ?orb_false_r, ?orb_true_r; done. }
  destruct (rsd_status_code rd =? 204); csimpl; [by rewrite <-?app_assoc|].
  destruct (make_bids request req rd) as [es|br]; csimpl; by rewrite <-?app_assoc.
Qed.

(** C35: A bidder's HTTP calls.  The result holds, in the order of the
    requests, the bids and auction configurations of every answer the adapter
    could read, the log of every completed call, and the flag of a timeout of
    any of them; it is an error exactly when some error is a bad input, or
    when there were errors and no request at all, and then it holds all the
    errors in order.  An error of one call loses no bid of another. *)
Theorem request_bid_spec request bidder_name extra timeout_ms duration_ms :
  let '(reqs, errs) := make_requests request extra in
  let result := exec timeout_ms in
  let all_errs := errs ++ flat_map (call_errors result (make_bids request)) reqs in
  request_bid make_requests make_bids send compress_gzip from_utf8_lossy to_uppercase
    endpoint_compression request bidder_name extra timeout_ms duration_ms =
  {| bres_bidder_name := bidder_name;
     bres_response :=
       if existsb is_fatal all_errs ||
          (bool_decide (reqs = []) && negb (bool_decide (errs = [])))
       then inl all_errs else inr (gathered result (make_bids request) reqs);
     bres_duration_ms := duration_ms;
     bres_http_calls := omap (call_log result) reqs;
     bres_timed_out := existsb (call_timed_out result) reqs |}.
Proof.
  unfold request_bid. destruct (make_requests request extra) as [reqs errs]. cbv zeta.
  destruct reqs as [|req reqs].
  { csimpl. rewrite app_nil_r. destruct errs as [|e errs]; [done|].
    rewrite (bool_decide_false (e :: errs = [])) by done.
    by rewrite orb_true_r. }
  destruct (calls_spec request timeout_ms (req :: reqs)
    {| cs_all_bids := bidder_response_new; cs_errs := errs; cs_http_calls := [];
       cs_timed_out := false |}) as (He&Hc&Ht&Hb&Hf&Hcur).
  rewrite He, Hc, Ht, (bool_decide_false (req :: reqs = [])), orb_false_r by done.
  cbn [cs_errs]. f_equal. destruct (existsb is_fatal _); [done|]. cbn [orb andb]. f_equal.
  destruct (cs_all_bids (fold_left _ _ _)) as [cur bids cfgs].
  cbn [br_currency br_bids br_fledge_auction_configs cs_all_bids] in Hb, Hf, Hcur.
  by rewrite Hb, Hf, Hcur.
Qed.
End RequestBidSpec.

(** ** Findings *)

(** A bidder that answers one call in EUR and the next in USD: the USD bid is
    taken for a EUR bid, since the response keeps one currency for all bids. *)
Lemma request_bid_mixes_currencies :
  gathered (λ req, inr ({| rsd_status_code := 200; rsd_body := []; rsd_headers := ∅ |},
                        {| hc_uri := rqd_uri req; hc_request_body := "";
                           hc_request_headers := ∅; hc_response_body := "";
                           hc_status := 200 |}))
    (λ req _, inr (if bool_decide (rqd_uri req = "eu") then one_bid "EUR" 1 else one_bid "USD" 2))
    [sample_call "eu"; sample_call "us"] =
  {| br_currency := "EUR"; br_bids := br_bids (one_bid "EUR" 1) ++ br_bids (one_bid "USD" 2);
     br_fledge_auction_configs := [] |}.
Proof. reflexivity. Qed.

(** ** Witnesses *)

Lemma sample_imps_wf imp ext : imp ∈ sample_imps → imp_ext imp = Some ext → value_wf ext.
Proof.
  intros [->|[->|[]%elem_of_nil]%elem_of_cons]%elem_of_cons; [|done].
  intros [= <-]. repeat constructor.
Qed.

Lemma split_imps_isolates_witness :
  let ext m := VObject ([("bidder", m)] ++ [("gpid", str_json "/1/home")] ++
                        [("prebid", VObject [("options", VBool true)])]) in
  let imp p := set_imp_id "imp-1" (set_imp_ext (Some (ext (str_json p))) default_imp) in
  default [] (split_imps_for_bidders sample_imps sample_bidders !! "appnexus") = [imp "p1"] ∧
  default [] (split_imps_for_bidders sample_imps sample_bidders !! "legacy") = [imp "p2"].
Proof.
  split.
  - rewrite (proj1 (split_imps_isolates sample_imps sample_bidders "appnexus" sample_imps_wf)).
    vm_compute. reflexivity.
  - rewrite (proj1 (split_imps_isolates sample_imps sample_bidders "legacy" sample_imps_wf)).
    vm_compute. reflexivity.
Defined.

Lemma deep_merge_spec_witness :
  let b := [("cat", str_json "a"); ("geo", VObject [("city", VNull); ("country", str_json "FR")])] in
  let o := [("cat", str_json "b"); ("geo", VObject [("city", str_json "Paris")]);
            ("id", str_json "7")] in
  ∃ m, deep_merge_json (VObject b) (VObject o) = VObject m ∧
    json_path ["geo"; "country"] (Some (VObject m)) = Some (str_json "FR") ∧
    json_path ["geo"; "city"] (Some (VObject m)) = Some (str_json "Paris") ∧
    obj_get "cat" m = Some (str_json "a") ∧ obj_get "id" m = Some (str_json "7").
Proof.
  intros b o.
  destruct (deep_merge_spec b o) as (m&Hm&_&Hg&Hp&_); [repeat constructor..|].
  exists m. split_and!; [done|by apply Hp| |by rewrite Hg|by rewrite Hg].
  pose proof (Hg "geo") as Hgeo. unfold json_path. simpl. rewrite Hgeo. reflexivity.
Defined.
