(* ===== verification/AdapterKit.v ===== *)
(** * What the adapters share

    adapters/src/lib.rs: the [Bidder] trait as a class, its helpers, and the steps
    most adapters are made of; then the contract an adapter keeps, whatever it
    makes of the impressions' parameters, and the lemmas and tactics its proof
    takes.  The files Adapters... hold the adapters of the directories of the
    same names.

    serde's generated conversions are the classes [OpenRtbJson], [Deserialize],
    [ToValue] and [FromSlice]; their errors are the texts they print. *)

From S2P Require Import Prelude Json OpenRtb OpenRtbExt.

(** ** [Result] on paths without a panic *)

#[export] Instance sum_ret E : MRet (sum E) := λ A a, inr a.
#[export] Instance sum_bind E : MBind (sum E) := λ A B k m,
  match m with inl e => inl e | inr a => k a end.

(** ** Conversions *)

Class OpenRtbJson : Type := {
  to_vec : BidRequest → string + list Z;
  bid_response_from_slice : list Z → string + BidResponse;
}.
Class Deserialize (A : Type) : Type := from_value : Value → string + A.
Class ToValue (A : Type) : Type := to_value : A → string + Value.
Class FromSlice (A : Type) : Type := from_slice : list Z → string + A.
Class ToVec (A : Type) : Type := to_json_bytes : A → string + list Z.

(** serde_json's printer of a number. *)
Class NumberText : Type := number_to_string : Number → string.

(** The order of a [HashMap] whose keys are not texts. *)
Class KeyIter : Type := {
  key_iter : ∀ K `{Countable K} A, gmap K A → list (K * A);
  key_iter_perm K `{Countable K} A (m : gmap K A) : key_iter K A m ≡ₚ map_to_list m;
}.
Arguments key_iter {_ K _ _ A} m.

(** The standard library's Unicode case tables, lossy decoding and shortest printing
    of floats, and the clock. *)
Class StdText : Type := {
  std_to_lowercase : string → string;
  std_to_uppercase : string → string;
  std_from_utf8_lossy : list Z → string;
  std_f64_to_string : f64 → string;
  std_unix_secs : Z;
}.

(** ** The trait and the helpers of lib.rs *)

Class Bidder (A : Type) : Type := {
  make_requests : A → BidRequest → ExtraRequestInfo → list RequestData * list BidderError;
  make_bids : A → BidRequest → RequestData → ResponseData → list BidderError + BidderResponse;
}.

Definition request_data_new (method uri : string) (body : list Z) : RequestData := {|
  rqd_method := method; rqd_uri := uri; rqd_body := body; rqd_headers := ∅; rqd_imp_ids := [] |}.
Definition content_type_json : gmap string string :=
  {[ "Content-Type" := "application/json;charset=utf-8" ]}.
(** Two headers, as most adapters send them. *)
Definition json_headers : gmap string string :=
  <["Accept" := "application/json"]> content_type_json.
Definition new_post (uri : string) (body : list Z) : RequestData := {|
  rqd_method := "POST"; rqd_uri := uri; rqd_body := body; rqd_headers := json_headers;
  rqd_imp_ids := [] |}.
Definition set_header (key value : string) (rd : RequestData) : RequestData := {|
  rqd_method := rqd_method rd; rqd_uri := rqd_uri rd; rqd_body := rqd_body rd;
  rqd_headers := <[key := value]> (rqd_headers rd); rqd_imp_ids := rqd_imp_ids rd |}.
Definition with_header (key value : string) (rd : RequestData) : RequestData := set_header key value rd.
Definition response_data_new (status_code : Z) (body : list Z) : ResponseData := {|
  rsd_status_code := status_code; rsd_body := body; rsd_headers := ∅ |}.

Definition get_imp_ids (imps : list Imp) : list string := imp_id <$> imps.
Definition get_bid_type_from_imp (imp : Imp) : BidType :=
  if bool_decide (is_Some (imp_video imp)) then BtVideo
  else if bool_decide (is_Some (imp_native imp)) then BtNative
  else if bool_decide (is_Some (imp_audio imp)) then BtAudio
  else BtBanner.
Definition check_response_status (status_code : Z) : BidderError + () :=
  if status_code =? 200 then inr ()
  else if status_code =? 204 then inl (Unknown "no content")
  else if status_code =? 400 then inl (BadInput ("Unexpected status code: " +:+ pretty status_code))
  else inl (BadServerResponse ("Unexpected status code: " +:+ pretty status_code)).
Definition get_bid_type_from_mtype (mtype : Z) : BidType :=
  match mtype with 2 => BtVideo | 3 => BtAudio | 4 => BtNative | _ => BtBanner end.

(** ** Steps of [make_requests] *)

(** The adapters' copies of one escaping function: every byte but the is_unreserved
    ASCII ones becomes a percent sign and two upper-case hexadecimal digits. *)
Definition is_unreserved (a : Ascii.ascii) : bool :=
  let n := Z.of_N (Ascii.N_of_ascii a) in
  ((65 <=? n) && (n <=? 90)) || ((97 <=? n) && (n <=? 122)) || ((48 <=? n) && (n <=? 57))
  || bool_decide (n ∈ [45; 95; 46; 126]).
Definition hex_digit (d : Z) : string :=
  default "" (String.get (Z.to_nat d) "0123456789ABCDEF" ≫= λ a, Some (String a "")).
Fixpoint percent_encode (s : string) : string :=
  match s with
  | "" => ""
  | String a s' =>
      let n := Z.of_N (Ascii.N_of_ascii a) in
      (if is_unreserved a then String a ""
       else "%" +:+ hex_digit (n / 16) +:+ hex_digit (n mod 16)) +:+ percent_encode s'
  end.

Definition is_nil {A} (l : list A) : bool := match l with [] => true | _ => false end.
Definition present {A} (o : option A) : bool := match o with Some _ => true | None => false end.
(** [o.and_then(Value::as_str).unwrap_or("")] under some keys of an extension. *)
Definition str_at (keys : list string) (ext : option Value) : string :=
  default "" (json_path keys ext ≫= as_str).
Definition bidder_str (key : string) (imp : Imp) : string := str_at ["bidder"; key] (imp_ext imp).

(** A header for a text that is there and not empty. *)
Definition header_if (key : string) (value : option string) (headers : gmap string string)
    : gmap string string :=
  match value with
  | Some s => if str_is_empty s then headers else <[key := s]> headers
  | None => headers
  end.
Definition device_header (key : string) (field : Device → option string) (request : BidRequest)
    : gmap string string → gmap string string :=
  header_if key (req_device request ≫= field).
Definition page_header (request : BidRequest) : gmap string string → gmap string string :=
  header_if "Referer" (req_site request ≫= site_page).

Definition post (uri : string) (body : list Z) (headers : gmap string string) (imp_ids : list string)
    : RequestData := {|
  rqd_method := "POST"; rqd_uri := uri; rqd_body := body; rqd_headers := headers;
  rqd_imp_ids := imp_ids |}.

(** The two lists of a loop that pushes each result to one or the other. *)
Fixpoint split_results {E A} (results : list (E + A)) : list A * list E :=
  match results with
  | [] => ([], [])
  | r :: results' =>
      let '(l, es) := split_results results' in
      match r with inr a => (a :: l, es) | inl e => (l, e :: es) end
  end.
(** Errors met before the calls were made. *)
Definition after_errors (errs : list BidderError) (r : list RequestData * list BidderError)
    : list RequestData * list BidderError := (r.1, errs ++ r.2).
(** [groups.entry(key).or_default().push(imp)] *)
Definition push_imp_group `{Countable K} (groups : gmap K (list Imp)) (e : K * Imp) : gmap K (list Imp) :=
  <[e.1 := default [] (groups !! e.1) ++ [e.2]]> groups.
Definition grouped `{Countable K} (l : list (K * Imp)) : gmap K (list Imp) := fold_left push_imp_group l ∅.
(** [l.chunks(n)], for [n] not zero. *)
Fixpoint chunks_go {A} (fuel : nat) (n : nat) (l : list A) : list (list A) :=
  match fuel, l with
  | O, _ | _, [] => []
  | S fuel', _ => take n l :: chunks_go fuel' n (drop n l)
  end.
Definition chunks {A} (n : nat) (l : list A) : list (list A) := chunks_go (length l) n l.
(** One request or one error, and the loop that leaves at the first error. *)
Definition single (r : BidderError + RequestData) : list RequestData * list BidderError :=
  match r with inl e => ([], [e]) | inr rd => ([rd], []) end.
Definition all_or_first_error (r : BidderError + list RequestData) : list RequestData * list BidderError :=
  match r with inl e => ([], [e]) | inr rds => (rds, []) end.
(** [.map_err(f)?] *)
Definition map_error {E F A} (f : E → F) (r : E + A) : F + A :=
  match r with inl e => inl (f e) | inr a => inr a end.
Definition ok_or {E A} (e : E) (o : option A) : E + A :=
  match o with Some a => inr a | None => inl e end.
Definition ensure {E} (b : bool) (e : E) : E + () := if b then inr () else inl e.

Section Json.
Context `{OpenRtbJson}.
Definition body_of (req : BidRequest) : BidderError + list Z := map_error BadInput (to_vec req).
(** [sent], posted in the name of [imps]. *)
Definition post_request (uri : string) (headers : gmap string string) (imps : list Imp) (sent : BidRequest)
    : BidderError + RequestData :=
  body ← body_of sent; inr (post uri body headers (get_imp_ids imps)).

(** ** Steps of [make_bids] *)

Definition parse_response (err : string → BidderError) (response : ResponseData)
    : list BidderError + BidResponse :=
  map_error (λ e, [err e]) (bid_response_from_slice (rsd_body response)).
End Json.

Definition check_status (response : ResponseData) : list BidderError + () :=
  map_error (λ e, [e]) (check_response_status (rsd_status_code response)).
(** The text around a status. *)
Definition status_text (before after : string) (response : ResponseData) : string :=
  before +:+ pretty (rsd_status_code response) +:+ after.
Definition only_200 (err : ResponseData → BidderError) (response : ResponseData)
    : list BidderError + () :=
  ensure (rsd_status_code response =? 200) [err response].

Definition reject_status (status : Z) (err : BidderError) (response : ResponseData) : list BidderError + () :=
  ensure (negb (rsd_status_code response =? status)) [err].
Definition unexpected_status : ResponseData → string :=
  status_text "Unexpected status code: " ". Run with request.debug = 1 for more info".
(** A client's error is bad input, any other failure the server's. *)
Definition ok_or_400 (response : ResponseData) : list BidderError + () :=
  reject_status 400 (BadInput (unexpected_status response)) response;;
  only_200 (λ r, BadServerResponse (unexpected_status r)) response.

(** The bids in the order of two nested loops. *)
Definition bids_of (r : BidResponse) : list Bid := resp_seatbid r ≫= sb_bid.
(** [if let Some(cur) .. { if !cur.is_empty() .. }] *)
Definition currency_or_usd (r : BidResponse) : string :=
  match resp_cur r with
  | Some cur => if str_is_empty cur then "USD" else cur
  | None => "USD"
  end.
Definition answer_with (currency : string) (bids : list TypedBid) : BidderResponse := {|
  br_currency := currency; br_bids := bids; br_fledge_auction_configs := [] |}.
Definition imp_with_id (impid : string) (imps : list Imp) : option Imp :=
  head (filter (λ i, imp_id i = impid) imps).
(** [imps.iter().find(..).map(f).unwrap_or(other)] *)
Definition type_of_imp (f : Imp → BidType) (other : BidType) (imps : list Imp) (bid : Bid) : BidType :=
  match imp_with_id (bid_impid bid) imps with Some i => f i | None => other end.
(** The first impression with the id that [f] finds a type for. *)
Definition first_type (f : Imp → option BidType) (impid : string) (imps : list Imp) : option BidType :=
  head (omap f (filter (λ i, imp_id i = impid) imps)).
(** Errors are gathered and, if there are some, returned instead of the bids. *)
Definition bids_or_errors (currency : string) (results : list (BidderError + TypedBid))
    : list BidderError + BidderResponse :=
  let '(bids, errs) := split_results results in
  match errs with [] => inr (answer_with currency bids) | _ => inl errs end.
(** Errors are returned where no bid is left. *)
Definition some_bids_or_errors (currency : string) (results : list (BidderError + TypedBid))
    : list BidderError + BidderResponse :=
  let '(bids, errs) := split_results results in
  match errs, bids with _ :: _, [] => inl errs | _, _ => inr (answer_with currency bids) end.
(** The loop that leaves at the first error. *)
Definition bids_or_first_error (currency : string) (results : list (BidderError + TypedBid))
    : list BidderError + BidderResponse :=
  match mapM id results with inl e => inl [e] | inr bids => inr (answer_with currency bids) end.

(** A type by the first medium an impression has. *)
Definition banner_video_native_imp (imp : Imp) : option BidType :=
  if present (imp_banner imp) then Some BtBanner
  else if present (imp_video imp) then Some BtVideo
  else if present (imp_native imp) then Some BtNative
  else None.
(** Tables that several adapters hold. *)
Definition banner_video_native (mtype : Z) (err : BidderError) : BidderError + BidType :=
  match mtype with 1 => inr BtBanner | 2 => inr BtVideo | 4 => inr BtNative | _ => inl err end.
Definition banner_video_audio_native (mtype : Z) (err : BidderError) : BidderError + BidType :=
  match mtype with
  | 1 => inr BtBanner | 2 => inr BtVideo | 3 => inr BtAudio | 4 => inr BtNative | _ => inl err
  end.
Definition ext_mtype (bid : Bid) : Z := default 0 (json_path ["mtype"] (bid_ext bid) ≫= as_u64).
Definition media_type_named (name : string) (err : BidderError) : BidderError + BidType :=
  if bool_decide (name = "banner") then inr BtBanner
  else if bool_decide (name = "video") then inr BtVideo
  else if bool_decide (name = "native") then inr BtNative
  else inl err.
(** Fields of a serialised struct that are left out when empty or zero. *)
Definition nonempty_field (key s : string) : list (string * Value) :=
  if str_is_empty s then [] else [(key, VString s)].
Definition nonzero_field (key : string) (z : Z) : list (string * Value) :=
  if z =? 0 then [] else [(key, number z)].
(** The publisher of the site or, without one, of the app; a default one where there
    is none. *)
Definition with_publisher (f : Publisher → Publisher) (request : BidRequest) : BidRequest :=
  let changed p := Some (f (default default_pub p)) in
  match req_site request, req_app request with
  | Some site, _ => set_req_site (Some (set_site_publisher (changed (site_publisher site)) site)) request
  | None, Some app => set_req_app (Some (set_app_publisher (changed (app_publisher app)) app)) request
  | None, None => request
  end.
Definition with_publisher_id (id : string) : BidRequest → BidRequest := with_publisher (set_pub_id (Some id)).
(** The extension that tells a publisher's placement from a network's endpoint. *)
Definition placement_or_endpoint_ext (imp : Imp) : Value :=
  let placement_id := bidder_str "placementId" imp in
  let endpoint_id := bidder_str "endpointId" imp in
  let inner :=
    if negb (str_is_empty placement_id)
    then object [("placementId", VString placement_id); ("type", VString "publisher")]
    else if negb (str_is_empty endpoint_id)
    then object [("endpointId", VString endpoint_id); ("type", VString "network")]
    else object [] in
  object [("bidder", inner)].
(** What a typed bid carries besides its bid. *)
Definition first_cat (bid : Bid) : string := default "" (bid_cat bid ≫= head).
Definition with_video (v : option ExtBidPrebidVideo) (tb : TypedBid) : TypedBid := {|
  tb_bid := tb_bid tb; tb_bid_meta := tb_bid_meta tb; tb_bid_type := tb_bid_type tb; tb_bid_video := v;
  tb_deal_priority := tb_deal_priority tb; tb_orig_bid_cpm := tb_orig_bid_cpm tb;
  tb_orig_bid_cur := tb_orig_bid_cur tb; tb_orig_bid_cpm_usd := tb_orig_bid_cpm_usd tb |}.
Definition with_meta (m : option ExtBidPrebidMeta) (tb : TypedBid) : TypedBid := {|
  tb_bid := tb_bid tb; tb_bid_meta := m; tb_bid_type := tb_bid_type tb; tb_bid_video := tb_bid_video tb;
  tb_deal_priority := tb_deal_priority tb; tb_orig_bid_cpm := tb_orig_bid_cpm tb;
  tb_orig_bid_cur := tb_orig_bid_cur tb; tb_orig_bid_cpm_usd := tb_orig_bid_cpm_usd tb |}.
Definition with_deal_priority (p : Z) (tb : TypedBid) : TypedBid := {|
  tb_bid := tb_bid tb; tb_bid_meta := tb_bid_meta tb; tb_bid_type := tb_bid_type tb;
  tb_bid_video := tb_bid_video tb; tb_deal_priority := p; tb_orig_bid_cpm := tb_orig_bid_cpm tb;
  tb_orig_bid_cur := tb_orig_bid_cur tb; tb_orig_bid_cpm_usd := tb_orig_bid_cpm_usd tb |}.
(** [ExtBidPrebidMeta::default()] and the fields adapters set. *)
Definition default_meta : ExtBidPrebidMeta := {|
  meta_adapter_code := None; meta_advertiser_domains := None; meta_advertiser_id := None;
  meta_advertiser_name := None; meta_agency_id := None; meta_agency_name := None; meta_brand_id := None;
  meta_brand_name := None; meta_dchain := None; meta_demand_source := None; meta_media_type := None;
  meta_network_id := None; meta_network_name := None; meta_primary_category_id := None;
  meta_renderer_name := None; meta_renderer_version := None; meta_renderer_data := None;
  meta_renderer_url := None; meta_secondary_category_ids := None; meta_seat := None |}.
Definition set_meta_advertiser_domains (x : option (list string)) (m : ExtBidPrebidMeta) : ExtBidPrebidMeta := {|
  meta_adapter_code := meta_adapter_code m; meta_advertiser_domains := x;
  meta_advertiser_id := meta_advertiser_id m; meta_advertiser_name := meta_advertiser_name m;
  meta_agency_id := meta_agency_id m; meta_agency_name := meta_agency_name m; meta_brand_id := meta_brand_id m;
  meta_brand_name := meta_brand_name m; meta_dchain := meta_dchain m;
  meta_demand_source := meta_demand_source m; meta_media_type := meta_media_type m;
  meta_network_id := meta_network_id m; meta_network_name := meta_network_name m;
  meta_primary_category_id := meta_primary_category_id m; meta_renderer_name := meta_renderer_name m;
  meta_renderer_version := meta_renderer_version m; meta_renderer_data := meta_renderer_data m;
  meta_renderer_url := meta_renderer_url m; meta_secondary_category_ids := meta_secondary_category_ids m;
  meta_seat := meta_seat m |}.
Definition set_meta_advertiser_id (x : option Z) (m : ExtBidPrebidMeta) : ExtBidPrebidMeta := {|
  meta_adapter_code := meta_adapter_code m; meta_advertiser_domains := meta_advertiser_domains m;
  meta_advertiser_id := x; meta_advertiser_name := meta_advertiser_name m; meta_agency_id := meta_agency_id m;
  meta_agency_name := meta_agency_name m; meta_brand_id := meta_brand_id m;
  meta_brand_name := meta_brand_name m; meta_dchain := meta_dchain m;
  meta_demand_source := meta_demand_source m; meta_media_type := meta_media_type m;
  meta_network_id := meta_network_id m; meta_network_name := meta_network_name m;
  meta_primary_category_id := meta_primary_category_id m; meta_renderer_name := meta_renderer_name m;
  meta_renderer_version := meta_renderer_version m; meta_renderer_data := meta_renderer_data m;
  meta_renderer_url := meta_renderer_url m; meta_secondary_category_ids := meta_secondary_category_ids m;
  meta_seat := meta_seat m |}.
Definition set_meta_brand_id (x : option Z) (m : ExtBidPrebidMeta) : ExtBidPrebidMeta := {|
  meta_adapter_code := meta_adapter_code m; meta_advertiser_domains := meta_advertiser_domains m;
  meta_advertiser_id := meta_advertiser_id m; meta_advertiser_name := meta_advertiser_name m;
  meta_agency_id := meta_agency_id m; meta_agency_name := meta_agency_name m; meta_brand_id := x;
  meta_brand_name := meta_brand_name m; meta_dchain := meta_dchain m;
  meta_demand_source := meta_demand_source m; meta_media_type := meta_media_type m;
  meta_network_id := meta_network_id m; meta_network_name := meta_network_name m;
  meta_primary_category_id := meta_primary_category_id m; meta_renderer_name := meta_renderer_name m;
  meta_renderer_version := meta_renderer_version m; meta_renderer_data := meta_renderer_data m;
  meta_renderer_url := meta_renderer_url m; meta_secondary_category_ids := meta_secondary_category_ids m;
  meta_seat := meta_seat m |}.
Definition set_meta_demand_source (x : option string) (m : ExtBidPrebidMeta) : ExtBidPrebidMeta := {|
  meta_adapter_code := meta_adapter_code m; meta_advertiser_domains := meta_advertiser_domains m;
  meta_advertiser_id := meta_advertiser_id m; meta_advertiser_name := meta_advertiser_name m;
  meta_agency_id := meta_agency_id m; meta_agency_name := meta_agency_name m; meta_brand_id := meta_brand_id m;
  meta_brand_name := meta_brand_name m; meta_dchain := meta_dchain m; meta_demand_source := x;
  meta_media_type := meta_media_type m; meta_network_id := meta_network_id m;
  meta_network_name := meta_network_name m; meta_primary_category_id := meta_primary_category_id m;
  meta_renderer_name := meta_renderer_name m; meta_renderer_version := meta_renderer_version m;
  meta_renderer_data := meta_renderer_data m; meta_renderer_url := meta_renderer_url m;
  meta_secondary_category_ids := meta_secondary_category_ids m; meta_seat := meta_seat m |}.
Definition set_meta_media_type (x : option string) (m : ExtBidPrebidMeta) : ExtBidPrebidMeta := {|
  meta_adapter_code := meta_adapter_code m; meta_advertiser_domains := meta_advertiser_domains m;
  meta_advertiser_id := meta_advertiser_id m; meta_advertiser_name := meta_advertiser_name m;
  meta_agency_id := meta_agency_id m; meta_agency_name := meta_agency_name m; meta_brand_id := meta_brand_id m;
  meta_brand_name := meta_brand_name m; meta_dchain := meta_dchain m;
  meta_demand_source := meta_demand_source m; meta_media_type := x; meta_network_id := meta_network_id m;
  meta_network_name := meta_network_name m; meta_primary_category_id := meta_primary_category_id m;
  meta_renderer_name := meta_renderer_name m; meta_renderer_version := meta_renderer_version m;
  meta_renderer_data := meta_renderer_data m; meta_renderer_url := meta_renderer_url m;
  meta_secondary_category_ids := meta_secondary_category_ids m; meta_seat := meta_seat m |}.
Definition set_meta_network_id (x : option Z) (m : ExtBidPrebidMeta) : ExtBidPrebidMeta := {|
  meta_adapter_code := meta_adapter_code m; meta_advertiser_domains := meta_advertiser_domains m;
  meta_advertiser_id := meta_advertiser_id m; meta_advertiser_name := meta_advertiser_name m;
  meta_agency_id := meta_agency_id m; meta_agency_name := meta_agency_name m; meta_brand_id := meta_brand_id m;
  meta_brand_name := meta_brand_name m; meta_dchain := meta_dchain m;
  meta_demand_source := meta_demand_source m; meta_media_type := meta_media_type m; meta_network_id := x;
  meta_network_name := meta_network_name m; meta_primary_category_id := meta_primary_category_id m;
  meta_renderer_name := meta_renderer_name m; meta_renderer_version := meta_renderer_version m;
  meta_renderer_data := meta_renderer_data m; meta_renderer_url := meta_renderer_url m;
  meta_secondary_category_ids := meta_secondary_category_ids m; meta_seat := meta_seat m |}.
Definition set_meta_network_name (x : option string) (m : ExtBidPrebidMeta) : ExtBidPrebidMeta := {|
  meta_adapter_code := meta_adapter_code m; meta_advertiser_domains := meta_advertiser_domains m;
  meta_advertiser_id := meta_advertiser_id m; meta_advertiser_name := meta_advertiser_name m;
  meta_agency_id := meta_agency_id m; meta_agency_name := meta_agency_name m; meta_brand_id := meta_brand_id m;
  meta_brand_name := meta_brand_name m; meta_dchain := meta_dchain m;
  meta_demand_source := meta_demand_source m; meta_media_type := meta_media_type m;
  meta_network_id := meta_network_id m; meta_network_name := x;
  meta_primary_category_id := meta_primary_category_id m; meta_renderer_name := meta_renderer_name m;
  meta_renderer_version := meta_renderer_version m; meta_renderer_data := meta_renderer_data m;
  meta_renderer_url := meta_renderer_url m; meta_secondary_category_ids := meta_secondary_category_ids m;
  meta_seat := meta_seat m |}.
Definition set_meta_renderer_name (x : option string) (m : ExtBidPrebidMeta) : ExtBidPrebidMeta := {|
  meta_adapter_code := meta_adapter_code m; meta_advertiser_domains := meta_advertiser_domains m;
  meta_advertiser_id := meta_advertiser_id m; meta_advertiser_name := meta_advertiser_name m;
  meta_agency_id := meta_agency_id m; meta_agency_name := meta_agency_name m; meta_brand_id := meta_brand_id m;
  meta_brand_name := meta_brand_name m; meta_dchain := meta_dchain m;
  meta_demand_source := meta_demand_source m; meta_media_type := meta_media_type m;
  meta_network_id := meta_network_id m; meta_network_name := meta_network_name m;
  meta_primary_category_id := meta_primary_category_id m; meta_renderer_name := x;
  meta_renderer_version := meta_renderer_version m; meta_renderer_data := meta_renderer_data m;
  meta_renderer_url := meta_renderer_url m; meta_secondary_category_ids := meta_secondary_category_ids m;
  meta_seat := meta_seat m |}.
Definition set_meta_renderer_version (x : option string) (m : ExtBidPrebidMeta) : ExtBidPrebidMeta := {|
  meta_adapter_code := meta_adapter_code m; meta_advertiser_domains := meta_advertiser_domains m;
  meta_advertiser_id := meta_advertiser_id m; meta_advertiser_name := meta_advertiser_name m;
  meta_agency_id := meta_agency_id m; meta_agency_name := meta_agency_name m; meta_brand_id := meta_brand_id m;
  meta_brand_name := meta_brand_name m; meta_dchain := meta_dchain m;
  meta_demand_source := meta_demand_source m; meta_media_type := meta_media_type m;
  meta_network_id := meta_network_id m; meta_network_name := meta_network_name m;
  meta_primary_category_id := meta_primary_category_id m; meta_renderer_name := meta_renderer_name m;
  meta_renderer_version := x; meta_renderer_data := meta_renderer_data m;
  meta_renderer_url := meta_renderer_url m; meta_secondary_category_ids := meta_secondary_category_ids m;
  meta_seat := meta_seat m |}.
Definition set_meta_primary_category_id (x : option string) (m : ExtBidPrebidMeta) : ExtBidPrebidMeta := {|
  meta_adapter_code := meta_adapter_code m; meta_advertiser_domains := meta_advertiser_domains m;
  meta_advertiser_id := meta_advertiser_id m; meta_advertiser_name := meta_advertiser_name m;
  meta_agency_id := meta_agency_id m; meta_agency_name := meta_agency_name m; meta_brand_id := meta_brand_id m;
  meta_brand_name := meta_brand_name m; meta_dchain := meta_dchain m;
  meta_demand_source := meta_demand_source m; meta_media_type := meta_media_type m;
  meta_network_id := meta_network_id m; meta_network_name := meta_network_name m;
  meta_primary_category_id := x; meta_renderer_name := meta_renderer_name m;
  meta_renderer_version := meta_renderer_version m; meta_renderer_data := meta_renderer_data m;
  meta_renderer_url := meta_renderer_url m; meta_secondary_category_ids := meta_secondary_category_ids m;
  meta_seat := meta_seat m |}.
Definition set_meta_secondary_category_ids (x : option (list string)) (m : ExtBidPrebidMeta) : ExtBidPrebidMeta := {|
  meta_adapter_code := meta_adapter_code m; meta_advertiser_domains := meta_advertiser_domains m;
  meta_advertiser_id := meta_advertiser_id m; meta_advertiser_name := meta_advertiser_name m;
  meta_agency_id := meta_agency_id m; meta_agency_name := meta_agency_name m; meta_brand_id := meta_brand_id m;
  meta_brand_name := meta_brand_name m; meta_dchain := meta_dchain m;
  meta_demand_source := meta_demand_source m; meta_media_type := meta_media_type m;
  meta_network_id := meta_network_id m; meta_network_name := meta_network_name m;
  meta_primary_category_id := meta_primary_category_id m; meta_renderer_name := meta_renderer_name m;
  meta_renderer_version := meta_renderer_version m; meta_renderer_data := meta_renderer_data m;
  meta_renderer_url := meta_renderer_url m; meta_secondary_category_ids := x; meta_seat := meta_seat m |}.
(** [serde_json::from_value(v.clone()).ok()] *)
Definition parsed (A : Type) `{Deserialize A} (v : option Value) : option A :=
  v ≫= λ v, match from_value v with inr x => Some x | inl _ => None end.
(** A bid with the type a function finds or its error. *)
Definition typed (f : Bid → BidderError + BidType) (bid : Bid) : BidderError + TypedBid :=
  t ← f bid; inr (typed_bid_new bid t).

(** ** The contract *)

(** What no adapter changes of a bid it hands on. *)
Definition bid_key (b : Bid) : string * f64 := (bid_id b, bid_price b).
Definition typed_keys (bids : list TypedBid) : list (string * f64) := (λ tb, bid_key (tb_bid tb)) <$> bids.

(** Every call is a POST for impressions of the request, and only an answer with
    status 200 yields bids. *)
Class SafeAdapter (A : Type) `{Bidder A} : Prop := {
  calls_for_imps (a : A) request info rd : rd ∈ (make_requests a request info).1 →
    rqd_method rd = "POST" ∧ rqd_imp_ids rd ⊆ get_imp_ids (req_imp request);
  bids_need_200 (a : A) request external response br :
    make_bids a request external response = inr br → br_bids br ≠ [] → rsd_status_code response = 200;
}.
(** Every bid is one of the OpenRTB response the body holds, in its order and at
    its price. *)
Class HonestAdapter (A : Type) `{OpenRtbJson, Bidder A} : Prop := {
  #[global] honest_safe :: SafeAdapter A;
  bids_from_response (a : A) request external response br :
    make_bids a request external response = inr br → br_bids br ≠ [] →
    ∃ parsed, bid_response_from_slice (rsd_body response) = inr parsed ∧
      typed_keys (br_bids br) `sublist_of` (bid_key <$> bids_of parsed);
}.

(** A [Box<dyn Bidder>]. *)
Record DynBidder : Type := {
  dyn_type : Type;
  dyn_self : dyn_type;
  dyn_bidder :: Bidder dyn_type;
}.
Arguments dyn_type : clear implicits.
Arguments Build_DynBidder {_} _ _.
Definition boxed {A} `{Bidder A} (a : A) : DynBidder := Build_DynBidder a _.

(** ** Lemmas *)

Lemma bind_inr {E A B} (m : E + A) (k : A → E + B) b :
  (m ≫= k) = inr b ↔ ∃ a, m = inr a ∧ k a = inr b.
Proof. destruct m; cbn; naive_solver. Qed.
Lemma map_error_inr {E F A} (f : E → F) (r : E + A) a : map_error f r = inr a ↔ r = inr a.
Proof. destruct r; cbn; naive_solver. Qed.
Lemma ok_or_inr {E A} (e : E) (o : option A) a : ok_or e o = inr a ↔ o = Some a.
Proof. destruct o; cbn; naive_solver. Qed.
Lemma ensure_inr {E} b (e : E) u : ensure b e = inr u → b = true.
Proof. by destruct b. Qed.
Lemma check_status_inr response u : check_status response = inr u → rsd_status_code response = 200.
Proof. unfold check_status, check_response_status. repeat case_match; naive_solver lia. Qed.
Lemma only_200_inr err response u : only_200 err response = inr u → rsd_status_code response = 200.
Proof. intros H%ensure_inr. lia. Qed.
Lemma parse_response_inr `{OpenRtbJson} err response r :
  parse_response err response = inr r → bid_response_from_slice (rsd_body response) = inr r.
Proof. by intros ?%map_error_inr. Qed.
Lemma reject_status_inr {s err response u} : reject_status s err response = inr u → rsd_status_code response ≠ s.
Proof. intros Hr%ensure_inr. lia. Qed.
Lemma ok_or_400_inr response u : ok_or_400 response = inr u → rsd_status_code response = 200.
Proof. unfold ok_or_400. intros (?&_&Hs)%bind_inr. by eapply only_200_inr. Qed.
Lemma mapM_inr {E A B} (f : A → E + B) l k : mapM f l = inr k → Forall2 (λ x y, f x = inr y) l k.
Proof.
  revert k. induction l as [|x l IH]; intros k; [intros [= <-]; constructor|].
  intros (y&Hy&(k'&Hk&Heq)%bind_inr)%bind_inr. injection Heq as <-. constructor; [done|by apply IH].
Qed.

Lemma split_results_cons {E A} (r : E + A) l :
  split_results (r :: l) =
    match r with
    | inr a => (a :: (split_results l).1, (split_results l).2)
    | inl e => ((split_results l).1, e :: (split_results l).2)
    end.
Proof. cbn. by destruct (split_results l), r. Qed.
Lemma elem_of_split {E A} (l : list (E + A)) a : a ∈ (split_results l).1 ↔ inr a ∈ l.
Proof.
  induction l as [|r l IH]; [cbn; by rewrite !elem_of_nil|].
  rewrite split_results_cons, elem_of_cons, <-IH. destruct r; cbn; rewrite ?elem_of_cons; naive_solver.
Qed.
Lemma elem_of_split_eq {E A} (l : list (E + A)) r es a : split_results l = (r, es) → a ∈ r → inr a ∈ l.
Proof. intros Hl Ha. apply elem_of_split. by rewrite Hl. Qed.
Lemma elem_of_single r rd : rd ∈ (single r).1 → r = inr rd.
Proof. destruct r; cbn; set_solver. Qed.
Lemma elem_of_all_or_first r rd : rd ∈ (all_or_first_error r).1 → ∃ rds, r = inr rds ∧ rd ∈ rds.
Proof. destruct r as [e|rds]; cbn; [set_solver|eauto]. Qed.
Lemma elem_of_mapM {E A B} (f : A → E + B) l k y : mapM f l = inr k → y ∈ k → ∃ x, x ∈ l ∧ f x = inr y.
Proof.
  intros Hk%mapM_inr Hy. induction Hk as [|x z l k Hx Hk IH]; [by apply not_elem_of_nil in Hy|].
  apply elem_of_cons in Hy as [->|Hy]; [set_solver|]. destruct (IH Hy) as (x'&?&?). set_solver.
Qed.

Lemma one_imp_id imp imp' imps : imp ∈ imps → imp_id imp' = imp_id imp → get_imp_ids [imp'] ⊆ get_imp_ids imps.
Proof. intros Hin Heq x ->%list_elem_of_singleton. rewrite Heq. by apply list_elem_of_fmap_2. Qed.
Lemma imp_ids_subset imps imps' : imps ⊆ imps' → get_imp_ids imps ⊆ get_imp_ids imps'.
Proof. intros Hs x (imp&->&Hin)%list_elem_of_fmap. apply list_elem_of_fmap_2. by apply Hs. Qed.
Lemma imp_ids_same (f : Imp → Imp) imps : (∀ imp, imp_id (f imp) = imp_id imp) →
  get_imp_ids (f <$> imps) = get_imp_ids imps.
Proof. intros Hf. unfold get_imp_ids. rewrite <-list_fmap_compose. apply list_fmap_ext; intros; cbn; auto. Qed.

(** Impressions changed one by one keep their ids. *)
Lemma mapM_imp_ids {B} (f : Imp → BidderError + B) (g : B → Imp) imps k : mapM f imps = inr k →
  (∀ imp b, f imp = inr b → imp_id (g b) = imp_id imp) → get_imp_ids (g <$> k) = get_imp_ids imps.
Proof.
  intros Hk%mapM_inr Hf. induction Hk as [|imp b imps k Hb Hk IH]; [done|].
  unfold get_imp_ids in *. csimpl. by rewrite IH, (Hf _ _ Hb).
Qed.
Lemma split_imp_ids (f : Imp → BidderError + Imp) imps : (∀ imp b, f imp = inr b → imp_id b = imp_id imp) →
  get_imp_ids (split_results (f <$> imps)).1 ⊆ get_imp_ids imps.
Proof.
  intros Hf x (b&->&(imp&Hb&Hin)%elem_of_split%list_elem_of_fmap)%list_elem_of_fmap.
  rewrite (Hf imp b) by done. by apply list_elem_of_fmap_2.
Qed.
Lemma split_imp_ids_eq (f : Imp → BidderError + Imp) imps k es : split_results (f <$> imps) = (k, es) →
  (∀ imp b, f imp = inr b → imp_id b = imp_id imp) → get_imp_ids k ⊆ get_imp_ids imps.
Proof. intros Hk Hf. pose proof (split_imp_ids f imps Hf) as Hs. by rewrite Hk in Hs. Qed.
Lemma split_snd_ids {K} (f : Imp → BidderError + K * Imp) imps l es : split_results (f <$> imps) = (l, es) →
  (∀ imp e, f imp = inr e → imp_id e.2 = imp_id imp) → get_imp_ids l.*2 ⊆ get_imp_ids imps.
Proof.
  intros Hl Hf x (i&->&(e&->&He)%list_elem_of_fmap)%list_elem_of_fmap.
  apply (elem_of_split_eq _ _ _ _ Hl), list_elem_of_fmap in He as (imp&He&Hin).
  rewrite (Hf imp e) by done. by apply list_elem_of_fmap_2.
Qed.
Lemma filter_imp_ids (P : Imp → Prop) `{∀ x, Decision (P x)} imps : get_imp_ids (filter P imps) ⊆ get_imp_ids imps.
Proof. apply imp_ids_subset. intros x [_ Hx]%list_elem_of_filter. done. Qed.
Lemma grouped_elem `{Countable K} (l : list (K * Imp)) k g imp :
  grouped l !! k = Some g → imp ∈ g → (k, imp) ∈ l.
Proof.
  enough (Hl : ∀ m, fold_left push_imp_group l m !! k = Some g → imp ∈ g →
    (k, imp) ∈ l ∨ ∃ g', m !! k = Some g' ∧ imp ∈ g').
  { intros Hg Hin. destruct (Hl ∅ Hg Hin) as [?|(?&Hk&_)]; [done|]. by rewrite lookup_empty in Hk. }
  induction l as [|[k' i] l IH]; intros m Hg Hin; [by right; exists g|].
  destruct (IH _ Hg Hin) as [?|(g'&Hk&Hin')]; [left; by apply elem_of_cons; right|].
  unfold push_imp_group in Hk. cbn in Hk. destruct (decide (k' = k)) as [->|Hne].
  - rewrite lookup_insert_eq in Hk. injection Hk as <-.
    apply elem_of_app in Hin' as [Hin'|Hin']; [|apply list_elem_of_singleton in Hin' as ->; left; set_solver].
    destruct (m !! k) as [g'|] eqn:Hm; [|by apply not_elem_of_nil in Hin']. right. eauto.
  - rewrite lookup_insert_ne in Hk by done. right. eauto.
Qed.
Lemma grouped_imp_ids `{Countable K} (f : Imp → BidderError + K * Imp) imps l es k g :
  split_results (f <$> imps) = (l, es) → grouped l !! k = Some g →
  (∀ imp e, f imp = inr e → imp_id e.2 = imp_id imp) → get_imp_ids g ⊆ get_imp_ids imps.
Proof.
  intros Hl Hg Hf x (i&->&Hin)%list_elem_of_fmap. apply (grouped_elem _ _ _ _ Hg) in Hin as He.
  apply (elem_of_split_eq _ _ _ _ Hl), list_elem_of_fmap in He as (imp&He&Hin').
  symmetry in He. apply Hf in He. cbn in He. rewrite He. by apply list_elem_of_fmap_2.
Qed.
(** The order of the other maps. *)
Lemma key_iter_elem `{KeyIter} `{Countable K} {A} (m : gmap K A) k v : (k, v) ∈ key_iter m ↔ m !! k = Some v.
Proof. by rewrite (key_iter_perm K A m), elem_of_map_to_list. Qed.
Lemma chunks_subset {A} (n : nat) (l : list A) c : c ∈ chunks n l → c ⊆ l.
Proof.
  unfold chunks. generalize (length l) as fuel. intros fuel. revert l.
  induction fuel as [|fuel IH]; intros l Hin; [by apply not_elem_of_nil in Hin|].
  destruct l as [|x l]; [by apply not_elem_of_nil in Hin|].
  change (chunks_go (S fuel) n (x :: l)) with (take n (x :: l) :: chunks_go fuel n (drop n (x :: l))) in Hin.
  apply elem_of_cons in Hin as [->|Hin]; [apply sublist_subseteq, sublist_take|].
  etrans; [by apply IH|]. apply sublist_subseteq, sublist_drop.
Qed.
(** Nothing is lost or repeated. *)
Lemma chunks_concat {A} (n : nat) (l : list A) : n ≠ 0%nat → concat (chunks n l) = l.
Proof.
  intros Hn. unfold chunks. enough (∀ fuel l, (length l ≤ fuel)%nat → concat (chunks_go fuel n l) = l) by auto.
  induction fuel as [|fuel IH]; intros [|x l'] Hl; try done; [by cbn in Hl; lia|].
  change (chunks_go (S fuel) n (x :: l')) with (take n (x :: l') :: chunks_go fuel n (drop n (x :: l'))).
  cbn [concat]. rewrite IH, take_drop; [done|]. rewrite length_drop. cbn in *. lia.
Qed.

(** *** Bids *)

(** A bid is handed on with its key. *)
Definition keeps_key (f : Bid → BidderError + TypedBid) : Prop :=
  ∀ b tb, f b = inr tb → bid_key (tb_bid tb) = bid_key b.

Lemma seat_sublist r sb : sb ∈ resp_seatbid r → sb_bid sb `sublist_of` bids_of r.
Proof.
  intros Hin. apply list_elem_of_split in Hin as (l1&l2&Heq). unfold bids_of. rewrite Heq, bind_app. cbn.
  apply sublist_inserts_l, sublist_inserts_r. done.
Qed.
Lemma first_seat_keys r sb seats : resp_seatbid r = sb :: seats →
  (bid_key <$> sb_bid sb) `sublist_of` (bid_key <$> bids_of r).
Proof. intros Hr. apply fmap_sublist, seat_sublist. rewrite Hr. set_solver. Qed.
Lemma first_bid_key r sb seats b bids : resp_seatbid r = sb :: seats → sb_bid sb = b :: bids →
  [bid_key b] `sublist_of` (bid_key <$> bids_of r).
Proof.
  intros Hr Hb. etrans; [|by eapply first_seat_keys]. rewrite Hb. csimpl. apply sublist_skip, sublist_nil_l.
Qed.
Lemma typed_keys_fmap (g : Bid → TypedBid) bids : (∀ b, bid_key (tb_bid (g b)) = bid_key b) →
  typed_keys (g <$> bids) = bid_key <$> bids.
Proof. intros Hg. unfold typed_keys. rewrite <-list_fmap_compose. apply list_fmap_ext; intros; cbn; auto. Qed.
Lemma typed_keys_omap (g : Bid → option TypedBid) bids :
  (∀ b tb, g b = Some tb → bid_key (tb_bid tb) = bid_key b) →
  typed_keys (omap g bids) `sublist_of` (bid_key <$> bids).
Proof.
  intros Hg. induction bids as [|b bids IH]; [done|]. csimpl. destruct (g b) as [tb|] eqn:Hb; csimpl.
  - rewrite (Hg _ _ Hb). by apply sublist_skip.
  - by apply sublist_cons.
Qed.
Lemma split_keys f bids : keeps_key f →
  typed_keys (split_results (f <$> bids)).1 `sublist_of` (bid_key <$> bids).
Proof.
  intros Hf. induction bids as [|b bids IH]; [done|]. rewrite fmap_cons, split_results_cons.
  destruct (f b) as [e|tb] eqn:Hb; csimpl; [by apply sublist_cons|]. rewrite (Hf _ _ Hb). by apply sublist_skip.
Qed.
Lemma mapM_keys {E} (f : Bid → E + TypedBid) bids k : mapM f bids = inr k →
  (∀ b tb, f b = inr tb → bid_key (tb_bid tb) = bid_key b) → typed_keys k = bid_key <$> bids.
Proof.
  intros Hk%mapM_inr Hf. induction Hk as [|b tb bids k Hb Hk IH]; [done|]. csimpl. by rewrite IH, (Hf _ _ Hb).
Qed.

(** The three ways to end the loop over the bids. *)
Lemma bids_or_errors_keys cur f bids br : bids_or_errors cur (f <$> bids) = inr br → keeps_key f →
  typed_keys (br_bids br) `sublist_of` (bid_key <$> bids).
Proof.
  intros Hbr Hf. pose proof (split_keys f bids Hf) as Hs. unfold bids_or_errors in Hbr.
  destruct (split_results _) as [tbs [|e es]]; [|done]. by injection Hbr as <-.
Qed.
Lemma some_bids_or_errors_keys cur f bids br : some_bids_or_errors cur (f <$> bids) = inr br → keeps_key f →
  typed_keys (br_bids br) `sublist_of` (bid_key <$> bids).
Proof.
  intros Hbr Hf. pose proof (split_keys f bids Hf) as Hs. unfold some_bids_or_errors in Hbr.
  destruct (split_results _) as [[|tb tbs] [|e es]]; try done; by injection Hbr as <-.
Qed.
Lemma bids_or_first_error_keys cur f bids br : bids_or_first_error cur (f <$> bids) = inr br → keeps_key f →
  typed_keys (br_bids br) `sublist_of` (bid_key <$> bids).
Proof.
  intros Hbr Hf. unfold bids_or_first_error in Hbr. destruct (mapM id _) as [e|tbs] eqn:Hm; [done|].
  injection Hbr as <-. cbn. clear -Hm Hf. apply mapM_inr in Hm.
  revert tbs Hm. induction bids as [|b bids IH]; intros tbs Hm; [by apply Forall2_nil_inv_l in Hm as ->|].
  apply Forall2_cons_inv_l in Hm as (tb&tbs'&Hb&Hm&->). csimpl. rewrite (Hf _ _ Hb). by apply sublist_skip, IH.
Qed.

(** *** Tactics *)

(** One step through the definition of [make_requests] or [make_bids] in a
    hypothesis. *)
Ltac adapter_step :=
  match goal with
  | H : _ ∈ [] |- _ => by apply not_elem_of_nil in H
  | H : _ ∈ [_] |- _ => apply list_elem_of_singleton in H
  | H : _ ∈ _ ++ _ |- _ => apply elem_of_app in H as [?|?]
  | Hl : split_results ?l = (?r, _), H : _ ∈ ?r |- _ => apply (elem_of_split_eq _ _ _ _ Hl) in H
  | H : _ ∈ (single _).1 |- _ => apply elem_of_single in H
  | H : _ ∈ (all_or_first_error _).1 |- _ => apply elem_of_all_or_first in H as (?&?&?)
  | H : _ ∈ (split_results _).1 |- _ => apply elem_of_split in H
  | H : _ ∈ _ <$> _ |- _ => apply list_elem_of_fmap in H as (?&?&?)
  | Hk : mapM _ _ = inr ?k, H : _ ∈ ?k |- _ => destruct (elem_of_mapM _ _ _ _ Hk H) as (?&?&?); clear Hk H
  | H : _ ∈ filter _ _ |- _ => apply list_elem_of_filter in H as [? ?]
  | H : (_, _) ∈ key_iter _ |- _ => apply key_iter_elem in H
  | H : (_, _) ∈ map_iter _ |- _ => apply map_iter_elem in H
  | H : _ ∈ (if ?b then _ else _) |- _ => destruct b eqn:?
  | H : _ ∈ match ?x with _ => _ end |- _ => destruct x eqn:?
  | H : (_ ≫= _) = inr _ |- _ => apply bind_inr in H as (?&?&?)
  | H : (_ ≫= _) = Some _ |- _ => apply bind_Some in H as (?&?&?)
  | H : map_error _ _ = inr _ |- _ => apply map_error_inr in H
  | H : ok_or _ _ = inr _ |- _ => apply ok_or_inr in H
  | H : ensure _ _ = inr _ |- _ => apply ensure_inr in H
  | H : check_status _ = inr _ |- _ => apply check_status_inr in H
  | H : parse_response _ _ = inr _ |- _ => apply parse_response_inr in H
  | H : typed _ _ = inr _ |- _ => unfold typed in H
  | H : _ ∈ (after_errors _ ?r).1 |- _ => change (after_errors _ r).1 with r.1 in H
  | H : reject_status _ _ _ = inr _ |- _ => apply reject_status_inr in H
  | H : ok_or_400 _ = inr _ |- _ => apply ok_or_400_inr in H
  | H : post_request _ _ _ _ = inr _ |- _ => unfold post_request in H
  | H : inr _ = post_request _ _ _ _ |- _ => symmetry in H
  | H : only_200 _ _ = inr _ |- _ => apply only_200_inr in H
  | H : inr _ = inr _ |- _ => injection H as H
  | H : inr _ = (_ ≫= _) |- _ => symmetry in H
  | H : inr _ = (if _ then _ else _) |- _ => symmetry in H
  | H : inr _ = match _ with _ => _ end |- _ => symmetry in H
  | H : Some _ = Some _ |- _ => injection H as H
  | H : (if ?b then _ else _) = Some _ |- _ => destruct b eqn:?
  | H : (if ?b then _ else _) = inr _ |- _ => destruct b eqn:?
  | H : _ ∈ (if ?b then _ else _).1 |- _ => destruct b eqn:?
  | H : match ?x with _ => _ end = inr _ |- _ => destruct x eqn:?
  | H : _ ∈ (match ?x with _ => _ end).1 |- _ => destruct x eqn:?
  end; try discriminate; subst.
(** The definitions of the adapters a proof unfolds. *)
Create HintDb adapters.
(** The lists of impressions' ids. *)
Create HintDb imp_ids.
#[export] Hint Resolve one_imp_id imp_ids_subset filter_imp_ids chunks_subset : imp_ids.
Arguments get_imp_ids : simpl never.
Arguments bids_or_errors : simpl never.
Arguments some_bids_or_errors : simpl never.
Arguments bids_or_first_error : simpl never.

Ltac adapter_run := intros; cbn in *; autounfold with adapters in *; repeat (adapter_step; cbn in *).
(** An impression keeps its id through a function. *)
Ltac solve_keeps_id := intros; adapter_run; repeat (case_match; cbn in *); done.
Ltac solve_imp_ids :=
  try match goal with |- context [req_imp (if ?b then _ else _)] => destruct b; cbn end;
  first
    [ done
    | by eauto with imp_ids
    | erewrite mapM_imp_ids; [done|eassumption|solve_keeps_id]
    | rewrite imp_ids_same by solve_keeps_id; by eauto with imp_ids
    | eapply split_imp_ids; solve_keeps_id
    | eapply split_imp_ids_eq; [eassumption|solve_keeps_id]
    | eapply split_snd_ids; [eassumption|solve_keeps_id]
    | eapply grouped_imp_ids; [eassumption|eassumption|solve_keeps_id]
    | set_solver ].
Ltac solve_calls := adapter_run; cbn; (split; [done|]); try solve_imp_ids.
Ltac solve_200 := adapter_run; first [done | congruence].
Ltac solve_keeps_key := intros ???; adapter_run; repeat (case_match; cbn in *); done.
Ltac solve_bids :=
  adapter_run; try congruence; (eexists; split; [eassumption|]); cbn;
  first
    [ eapply bids_or_errors_keys; [eassumption|solve_keeps_key]
    | eapply some_bids_or_errors_keys; [eassumption|solve_keeps_key]
    | eapply bids_or_first_error_keys; [eassumption|solve_keeps_key]
    | rewrite typed_keys_fmap by (intros; cbn; repeat (case_match; cbn); done); first [done | by eapply first_seat_keys]
    | eapply split_keys; solve_keeps_key
    | erewrite mapM_keys; [done|eassumption|solve_keeps_key]
    | apply typed_keys_omap; solve_keeps_key
    | eapply first_bid_key; eassumption
    | idtac ].
Ltac solve_adapter := split; [split; [solve_calls|solve_200]|solve_bids].
