(* ===== verification/Adapters1.v ===== *)
(** * Adapters of adapters

    adapters/src/adapters: across33, appnexus, beachfront, criteo, ix, openx,
    pubmatic, rubicon, sharethrough and sovrn. *)

From S2P Require Import Prelude IpUtil Json OpenRtb OpenRtbExt Text FloatText AdapterKit.

Section Adapters1.
Context `{OpenRtbJson, StdText, KeyIter}.

(** ** appnexus *)

Record AppnexusAdapter : Type := { appnexus_endpoint : string }.
Definition MAX_IMPS_PER_REQ : nat := 10.
Record ExtImpAppnexus : Type := {
  apx_member : string;
  apx_placement_id : Z; apx_placement_id_legacy : Z;
  apx_inv_code : string; apx_inv_code_legacy : string;
  apx_reserve : f64;
  apx_position : string;
  apx_traffic_source_code : string;
  apx_keywords : Value;
  apx_use_payment_rule : option bool;
  apx_private_sizes : option Value;
  apx_ext_inv_code : string;
  apx_external_imp_id : string;
  apx_generate_ad_pod_id : bool;
}.
Record AppnexusInExt : Type := { apx_bidder : ExtImpAppnexus; apx_gpid : string }.
(** What the adapter sends: a text is left out when empty. *)
Record AppnexusImpExtAppnexus : Type := {
  apo_placement_id : Z; apo_traffic_source_code : string; apo_use_pmt_rule : option bool;
  apo_ext_inv_code : string; apo_external_imp_id : string }.
Record AppnexusImpExt : Type := { apo_appnexus : AppnexusImpExtAppnexus; apo_gpid : string }.
Record BidExtAppnexus : Type := {
  abx_bid_ad_type : Z; abx_brand_category : Z; abx_deal_priority : Z; abx_duration : Z }.
Context `{!Deserialize AppnexusInExt, !ToValue AppnexusImpExt, !Deserialize BidExtAppnexus}.

Definition get_bid_type_from_appnexus (bid_ad_type : Z) : BidderError + BidType :=
  match bid_ad_type with
  | 0 => inr BtBanner | 1 => inr BtVideo | 3 => inr BtNative
  | t => inl (BadServerResponse ("Unrecognized bid_ad_type in response from appnexus: " +:+ pretty t))
  end.
(** The legacy spellings of two parameters. *)
Definition appnexus_placement (b : ExtImpAppnexus) : Z :=
  if (apx_placement_id b =? 0) && negb (apx_placement_id_legacy b =? 0)
  then apx_placement_id_legacy b else apx_placement_id b.
Definition appnexus_inv_code (b : ExtImpAppnexus) : string :=
  if str_is_empty (apx_inv_code b) && negb (str_is_empty (apx_inv_code_legacy b))
  then apx_inv_code_legacy b else apx_inv_code b.
Definition validate_appnexus_ext (b : ExtImpAppnexus) : BidderError + () :=
  ensure (negb ((appnexus_placement b =? 0)
                && (str_is_empty (appnexus_inv_code b) || str_is_empty (apx_member b))))
    (BadInput "No placement or member+invcode provided").
Definition appnexus_params (imp : Imp) : BidderError + AppnexusInExt :=
  ext ← ok_or (BadInput "Failed to parse appnexus imp ext") (parsed AppnexusInExt (imp_ext imp));
  validate_appnexus_ext (apx_bidder ext);;
  inr ext.
Definition appnexus_banner (b : ExtImpAppnexus) (banner : Banner) : Banner :=
  let banner :=
    if bool_decide (apx_position b = "above") then set_ban_pos (Some 1) banner
    else if bool_decide (apx_position b = "below") then set_ban_pos (Some 3) banner
    else banner in
  match ban_w banner, ban_h banner, ban_format banner ≫= head with
  | None, None, Some first => set_ban_h (fmt_h first) (set_ban_w (fmt_w first) banner)
  | _, _, _ => banner
  end.
Definition appnexus_imp_copy (b : ExtImpAppnexus) (imp : Imp) : Imp :=
  let imp := if str_is_empty (appnexus_inv_code b) then imp else set_imp_tagid (Some (appnexus_inv_code b)) imp in
  let imp := if f64_leb (default f64_zero (imp_bidfloor imp)) f64_zero && f64_gtb (apx_reserve b) f64_zero
             then set_imp_bidfloor (Some (apx_reserve b)) imp else imp in
  match imp_banner imp with Some banner => set_imp_banner (Some (appnexus_banner b banner)) imp | None => imp end.
Definition appnexus_imp_ext (ext : AppnexusInExt) : AppnexusImpExt := {|
  apo_appnexus := {|
    apo_placement_id := appnexus_placement (apx_bidder ext);
    apo_traffic_source_code := apx_traffic_source_code (apx_bidder ext);
    apo_use_pmt_rule := apx_use_payment_rule (apx_bidder ext);
    apo_ext_inv_code := apx_ext_inv_code (apx_bidder ext);
    apo_external_imp_id := apx_external_imp_id (apx_bidder ext) |};
  apo_gpid := apx_gpid ext |}.
(** The loop over the impressions: its errors and, unless two members differ, the
    impressions to send and the member. *)
Fixpoint appnexus_imps (imps : list Imp) (member : string) : list BidderError * option (list Imp * string) :=
  match imps with
  | [] => ([], Some ([], member))
  | imp :: imps' =>
      match appnexus_params imp with
      | inl e => let '(errs, r) := appnexus_imps imps' member in (e :: errs, r)
      | inr ext =>
          let member_id := apx_member (apx_bidder ext) in
          if negb (str_is_empty member_id) && negb (str_is_empty member) && negb (bool_decide (member = member_id))
          then ([BadInput ("all request.imp[i].ext.prebid.bidder.appnexus.member params must match. Request contained member IDs "
                  +:+ member +:+ " and " +:+ member_id)], None)
          else
            let member := if str_is_empty member_id then member else member_id in
            let '(errs, r) := appnexus_imps imps' member in
            match to_value (appnexus_imp_ext ext) with
            | inl e => (BadInput e :: errs, r)
            | inr v =>
                let imp_copy := set_imp_ext (Some v) (appnexus_imp_copy (apx_bidder ext) imp) in
                (errs, '(valid, member) ← r; Some (imp_copy :: valid, member))
            end
      end
  end.
Definition appnexus_uri (endpoint member : string) : string :=
  if str_is_empty member then endpoint
  else if str_contains "?" endpoint then endpoint +:+ "&member_id=" +:+ member
  else endpoint +:+ "?member_id=" +:+ member.
Definition appnexus_make_requests (a : AppnexusAdapter) (request : BidRequest) (_ : ExtraRequestInfo)
    : list RequestData * list BidderError :=
  match appnexus_imps (req_imp request) "" with
  | (errs, None) => ([], errs)
  | (errs, Some (valid_imps, member)) =>
      after_errors errs (all_or_first_error (mapM (λ chunk,
        post_request (appnexus_uri (appnexus_endpoint a) member) json_headers chunk (set_req_imp chunk request))
        (chunks MAX_IMPS_PER_REQ valid_imps)))
  end.
Definition appnexus_bid (bid : Bid) : BidderError + TypedBid :=
  let ext := default {| abx_bid_ad_type := 0; abx_brand_category := 0; abx_deal_priority := 0; abx_duration := 0 |}
               (parsed BidExtAppnexus (bid_ext bid)) in
  bid_type ← get_bid_type_from_appnexus (abx_bid_ad_type ext);
  let tb := with_deal_priority (abx_deal_priority ext) (typed_bid_new bid bid_type) in
  inr (if 0 <? abx_duration ext
       then with_video (Some {| bvid_duration := abx_duration ext; bvid_primary_category := "" |}) tb else tb).
Definition appnexus_make_bids (a : AppnexusAdapter) (_ : BidRequest) (_ : RequestData) (response : ResponseData)
    : list BidderError + BidderResponse :=
  if rsd_status_code response =? 204 then inr bidder_response_new else
  check_status response;;
  bid_resp ← parse_response BadServerResponse response;
  some_bids_or_errors (currency_or_usd bid_resp) (appnexus_bid <$> bids_of bid_resp).
#[export] Instance appnexus_bidder : Bidder AppnexusAdapter := {
  make_requests := appnexus_make_requests; make_bids := appnexus_make_bids }.


(** ** across33 *)

Record Across33Adapter : Type := { across33_endpoint : string }.
Record ExtImp33Across : Type := { a33_product_id : string; a33_site_id : string; a33_zone_id : string }.
Record TtxCaller : Type := { ttx_name : string; ttx_version : string }.
(** The callers a request's extension tells of, where it has a ttx part. *)
Record Across33ReqExt : Type := { a33_ttx_caller : option (list TtxCaller) }.
(** The media type of a bid's ttx part. *)
Record Across33BidExt : Type := { a33_ttx_media_type : option string }.
Context `{!Deserialize ExtImp33Across, !Deserialize Across33ReqExt, !Deserialize Across33BidExt, MapIter}.

(** [ImpTtxExt] as a value, and the text both its fields give, where both are there:
    an empty zone is not written. *)
Definition ImpTtxExt (prod zoneid : string) : Value :=
  object [("ttx", object (("prod", VString prod)
    :: (if str_is_empty zoneid then [] else [("zoneid", VString zoneid)])))].
Definition across33_key (imp : Imp) : string :=
  match json_path ["ttx"; "prod"] (imp_ext imp), json_path ["ttx"; "zoneid"] (imp_ext imp) with
  | Some (VString prod), Some (VString zoneid) => prod +:+ zoneid
  | _, _ => ""
  end.
Definition validate_video_params (video : Video) (prod : string) : BidderError + Video :=
  ensure (negb ((default 0 (vid_w video) =? 0) || (default 0 (vid_h video) =? 0)
                || negb (present (vid_protocols video)) || negb (present (vid_mimes video))
                || negb (present (vid_playbackmethod video))))
    (BadInput "One or more invalid or missing video field(s) w, h, protocols, mimes, playbackmethod");;
  inr (if bool_decide (prod = "instream") && negb (present (vid_startdelay video))
       then set_vid_startdelay (Some 0) video else video).
Definition across33_make_imps (imp : Imp) : BidderError + Imp :=
  ensure (present (imp_banner imp) || present (imp_video imp))
    (BadInput ("Imp ID " +:+ imp_id imp +:+ " must have at least one of [Banner, Video] defined"));;
  bidder_ext ← ok_or (BadInput "missing bidder ext in imp") (json_path ["bidder"] (imp_ext imp));
  ttx_ext ← map_error BadInput (from_value (A := ExtImp33Across) bidder_ext);
  let zoneid := if str_is_empty (a33_zone_id ttx_ext) then a33_site_id ttx_ext else a33_zone_id ttx_ext in
  let imp_copy := set_imp_ext (Some (ImpTtxExt (a33_product_id ttx_ext) zoneid)) imp in
  match imp_video imp with
  | Some video =>
      video_copy ← validate_video_params video (a33_product_id ttx_ext);
      inr (set_imp_video (Some video_copy) imp_copy)
  | None => inr imp_copy
  end.
Definition across33_req_ext (request : BidRequest) : Value :=
  let req_ext := default {| a33_ttx_caller := None |} (parsed Across33ReqExt (req_ext request)) in
  let caller := default [] (a33_ttx_caller req_ext) ++ [{| ttx_name := "Prebid-Server"; ttx_version := "n/a" |}] in
  object [("ttx", object [("caller", VArray ((λ c,
    object [("name", VString (ttx_name c)); ("version", VString (ttx_version c))]) <$> caller))])].
Definition across33_imp (imp : Imp) : BidderError + string * Imp :=
  imp_copy ← across33_make_imps imp; inr (across33_key imp_copy, imp_copy).
Definition across33_make_requests (a : Across33Adapter) (request : BidRequest) (_ : ExtraRequestInfo)
    : list RequestData * list BidderError :=
  let req := set_req_ext (Some (across33_req_ext request)) request in
  let '(keyed, errs) := split_results (across33_imp <$> req_imp request) in
  after_errors errs (split_results ((λ '(_, imps),
    post_request (across33_endpoint a) content_type_json imps (set_req_imp imps req)) <$> map_iter (grouped keyed))).
Definition across33_bid_type (ext : option Value) : BidType :=
  match parsed Across33BidExt ext ≫= a33_ttx_media_type with
  | Some media_type => if bool_decide (media_type = "video") then BtVideo else BtBanner
  | None => BtBanner
  end.
Definition across33_make_bids (a : Across33Adapter) (_ : BidRequest) (_ : RequestData) (response : ResponseData)
    : list BidderError + BidderResponse :=
  if rsd_status_code response =? 204 then inr bidder_response_new else
  ok_or_400 response;;
  bid_resp ← parse_response BadServerResponse response;
  inr (answer_with "USD" ((λ bid, typed_bid_new bid (across33_bid_type (bid_ext bid))) <$> bids_of bid_resp)).
#[export] Instance across33_bidder : Bidder Across33Adapter := {
  make_requests := across33_make_requests; make_bids := across33_make_bids }.

(** ** criteo *)

Record CriteoAdapter : Type := { criteo_endpoint : string; criteo_bidder_name : string }.
Definition criteo_new (endpoint : string) : CriteoAdapter := {|
  criteo_endpoint := endpoint; criteo_bidder_name := "criteo" |}.
Record CriteoBidExt : Type := { crt_type : option string; crt_network_name : string }.
Record CriteoExtIgi : Type := { igi_impid : string; igi_igs : list (option Value) }.
Record CriteoExt : Type := { crt_igi : list CriteoExtIgi }.
Context `{!Deserialize CriteoBidExt, !Deserialize CriteoExt}.
Definition criteo_parse_bid_type (s : string) : BidType :=
  if bool_decide (s = "video") then BtVideo else if bool_decide (s = "native") then BtNative
  else if bool_decide (s = "audio") then BtAudio else BtBanner.
Definition criteo_make_requests (a : CriteoAdapter) (request : BidRequest) (_ : ExtraRequestInfo)
    : list RequestData * list BidderError :=
  single (post_request (criteo_endpoint a) content_type_json (req_imp request) request).
Definition criteo_bid (bid : Bid) : BidderError + TypedBid :=
  let missing := BadServerResponse ("Missing ext.prebid.type in bid for impression : " +:+ bid_impid bid +:+ ".") in
  ext ← ok_or missing (parsed CriteoBidExt (bid_ext bid));
  type_name ← ok_or missing (crt_type ext);
  let bid_meta := if str_is_empty (crt_network_name ext) then None
                  else Some (set_meta_network_name (Some (crt_network_name ext)) default_meta) in
  inr (with_meta bid_meta (typed_bid_new bid (criteo_parse_bid_type type_name))).
(** The first configuration of each impression. *)
Definition criteo_fledge (a : CriteoAdapter) (bid_resp : BidResponse) : list FledgeAuctionConfig :=
  match parsed CriteoExt (resp_ext bid_resp) with
  | Some ext => omap (λ igi,
      config ← head (igi_igs igi) ≫= id;
      Some {| fledge_impid := igi_impid igi; fledge_bidder := Some (criteo_bidder_name a);
              fledge_adapter := None; fledge_config := config |}) (crt_igi ext)
  | None => []
  end.
Definition criteo_make_bids (a : CriteoAdapter) (_ : BidRequest) (_ : RequestData) (response : ResponseData)
    : list BidderError + BidderResponse :=
  if rsd_status_code response =? 204 then inr bidder_response_new else
  reject_status 400 (BadInput "Unexpected status code: 400. Run with request.debug = 1 for more info.") response;;
  only_200 (λ r, BadServerResponse (status_text "Unexpected status code: "
    ". Run with request.debug = 1 for more info." r)) response;;
  bid_resp ← parse_response BadServerResponse response;
  bids ← map_error (λ e, [e]) (mapM criteo_bid (bids_of bid_resp));
  inr {| br_currency := currency_or_usd bid_resp; br_bids := bids;
         br_fledge_auction_configs := criteo_fledge a bid_resp |}.
#[export] Instance criteo_bidder : Bidder CriteoAdapter := {
  make_requests := criteo_make_requests; make_bids := criteo_make_bids }.

(** ** sovrn *)

Record SovrnAdapter : Type := { sovrn_endpoint : string }.
Record ExtImpSovrn : Type := { svr_tagid : string; svr_tag_id : string; svr_bidfloor : Value }.
Context `{!Deserialize ExtImpSovrn}.
Definition sovrn_ext_bid_floor (ext : ExtImpSovrn) : f64 :=
  match svr_bidfloor ext with
  | VString s => default f64_zero (parse_f64 s)
  | VNumber n => default f64_zero (as_f64 (VNumber n))
  | _ => f64_zero
  end.
(** [byte as char] of a byte, in UTF-8. *)
Definition latin1 (byte : Z) : string :=
  if byte <? 128 then String (ascii_of_byte byte) ""
  else String (ascii_of_byte (192 + byte / 64)) (String (ascii_of_byte (128 + byte mod 64)) "").
Fixpoint sovrn_url_decode (s : string) : string :=
  match s with
  | "" => ""
  | String c t =>
      let rest := latin1 (if bool_decide (c = ch "+") then 32 else Z.of_N (Ascii.N_of_ascii c)) +:+ sovrn_url_decode t in
      match t with
      | String h (String l t') =>
          if bool_decide (c = ch "%") then
            match IpUtil.hex_digit h, IpUtil.hex_digit l with
            | Some hi, Some lo => latin1 (hi * 16 + lo) +:+ sovrn_url_decode t'
            | _, _ => rest
            end
          else rest
      | _ => rest
      end
  end.
Definition sovrn_imp (imp : Imp) : BidderError + Imp :=
  ext ← ok_or (BadInput "Failed to parse sovrn imp ext") (parsed ExtImpSovrn (imp_ext imp));
  let tag_id := if str_is_empty (svr_tagid ext) then svr_tag_id ext else svr_tagid ext in
  ensure (negb (str_is_empty tag_id)) (BadInput "Missing required parameter 'tagid'");;
  let imp_copy := set_imp_tagid (Some tag_id) imp in
  let ext_floor := sovrn_ext_bid_floor ext in
  let imp_copy := if f64_eqb (default f64_zero (imp_bidfloor imp_copy)) f64_zero && f64_gtb ext_floor f64_zero
                  then set_imp_bidfloor (Some ext_floor) imp_copy else imp_copy in
  match imp_video imp_copy with
  | Some video =>
      ensure (present (vid_mimes video) && negb (default 0 (vid_maxduration video) =? 0)
              && present (vid_protocols video)) (BadInput "Missing required video parameter");;
      inr imp_copy
  | None => inr imp_copy
  end.
Definition sovrn_headers (request : BidRequest) : gmap string string :=
  let headers := {[ "Content-Type" := "application/json" ]} in
  let headers := device_header "X-Forwarded-For" dev_ip request (device_header "User-Agent" dev_ua request headers) in
  let headers := device_header "Accept-Language" dev_language request headers in
  let headers := match req_device request ≫= dev_dnt with
                 | Some dnt => <["DNT" := pretty dnt]> headers | None => headers end in
  match req_user request ≫= user_buyeruid with
  | Some buyeruid =>
      let uid := trim buyeruid in
      if str_is_empty uid then headers else <["Cookie" := "ljt_reader=" +:+ uid]> headers
  | None => headers
  end.
Definition sovrn_make_requests (a : SovrnAdapter) (request : BidRequest) (_ : ExtraRequestInfo)
    : list RequestData * list BidderError :=
  let '(valid_imps, errs) := split_results (sovrn_imp <$> req_imp request) in
  if is_nil valid_imps then ([], errs) else
  match post_request (sovrn_endpoint a) (sovrn_headers request) valid_imps (set_req_imp valid_imps request) with
  | inl e => ([], [e])
  | inr rd => ([rd], errs)
  end.
(** Bids for no impression of the request are dropped, with their errors. *)
Definition sovrn_make_bids (a : SovrnAdapter) (internal : BidRequest) (_ : RequestData) (response : ResponseData)
    : list BidderError + BidderResponse :=
  if rsd_status_code response =? 204 then inr bidder_response_new else
  ok_or_400 response;;
  bid_resp ← parse_response BadServerResponse response;
  inr (answer_with "USD" (omap (λ bid,
    imp ← imp_with_id (bid_impid bid) (req_imp internal);
    Some (typed_bid_new (set_bid_adm (sovrn_url_decode <$> bid_adm bid) bid)
            (if present (imp_video imp) then BtVideo else BtBanner))) (bids_of bid_resp))).
#[export] Instance sovrn_bidder : Bidder SovrnAdapter := {
  make_requests := sovrn_make_requests; make_bids := sovrn_make_bids }.

(** ** ix *)

Record IxAdapter : Type := { ix_endpoint : string }.
Record ExtImpIx : Type := { ixe_site_id : string; ixe_sid : string }.
(** The type of the prebid part of a bid's extension, where there is one. *)
Record IxBidExt : Type := { ixe_prebid_type : option string }.
Context `{!Deserialize ExtImpIx, !Deserialize IxBidExt}.
Definition ix_media_type_for_bid (bid : Bid) (imp_media_types : gmap string BidType) : BidderError + BidType :=
  let by_imp := ok_or (BadServerResponse ("unmatched impression id: " +:+ bid_impid bid))
                  (imp_media_types !! bid_impid bid) in
  let by_ext :=
    match parsed IxBidExt (bid_ext bid) ≫= ixe_prebid_type with
    | Some t =>
        if str_is_empty t then by_imp
        else if bool_decide (t = "audio") then inr BtAudio
        else media_type_named t (BadServerResponse ("unsupported bid type: " +:+ t))
    | None => by_imp
    end in
  match bid_mtype bid with
  | Some 1 => inr BtBanner | Some 2 => inr BtVideo | Some 3 => inr BtAudio | Some 4 => inr BtNative
  | _ => by_ext
  end.
Definition ix_banner (banner : Banner) : Banner :=
  match default [] (ban_format banner) with
  | [] =>
      match ban_w banner, ban_h banner with
      | Some w, Some h => set_ban_format (Some [{|
          fmt_w := Some w; fmt_h := Some h; fmt_wratio := None; fmt_hratio := None; fmt_wmin := None;
          fmt_ext := None |}]) banner
      | _, _ => banner
      end
  | [fmt] => set_ban_h (fmt_h fmt) (set_ban_w (fmt_w fmt) banner)
  | _ => banner
  end.
Definition ix_imp (imp : Imp) : BidderError + string * Imp :=
  ext ← ok_or (BadInput "Failed to parse ix imp ext") (parsed ExtImpIx (imp_ext imp));
  let imp_copy := match imp_banner imp with
                  | Some banner => set_imp_banner (Some (ix_banner banner)) imp | None => imp end in
  inr (ixe_site_id ext,
       match imp_ext imp ≫= as_object with
       | Some m => if str_is_empty (ixe_sid ext) then imp_copy
                   else set_imp_ext (Some (VObject (obj_insert "sid" (VString (ixe_sid ext)) m))) imp_copy
       | None => imp_copy
       end).
(** The site id all impressions that have one agree on. *)
Definition ix_site_id (ids : list string) : option string :=
  match elements (list_to_set (filter (λ s, s ≠ "") ids) : gset string) with
  | [site_id] => Some site_id
  | _ => None
  end.
Definition ix_make_requests (a : IxAdapter) (request : BidRequest) (_ : ExtraRequestInfo)
    : list RequestData * list BidderError :=
  let '(pairs, errs) := split_results (ix_imp <$> req_imp request) in
  if is_nil pairs then ([], errs) else
  let req_copy := set_req_imp pairs.*2 request in
  let req_copy := match ix_site_id pairs.*1 with Some id => with_publisher_id id req_copy | None => req_copy end in
  after_errors errs (single (post_request (ix_endpoint a) json_headers pairs.*2 req_copy)).
Definition ix_imp_media_type (imp : Imp) : option BidType :=
  if present (imp_banner imp) then Some BtBanner else if present (imp_video imp) then Some BtVideo
  else if present (imp_native imp) then Some BtNative else if present (imp_audio imp) then Some BtAudio else None.
Definition ix_imp_media_types (imps : list Imp) : gmap string BidType :=
  fold_left (λ m imp, match ix_imp_media_type imp with Some t => <[imp_id imp := t]> m | None => m end) imps ∅.
(** Bids without a type are dropped, with their errors. *)
Definition ix_make_bids (a : IxAdapter) (internal : BidRequest) (_ : RequestData) (response : ResponseData)
    : list BidderError + BidderResponse :=
  if rsd_status_code response =? 204 then inr bidder_response_new else
  ok_or_400 response;;
  bid_resp ← parse_response (λ e, BadServerResponse ("JSON parsing error: " +:+ e)) response;
  let imp_media_types := ix_imp_media_types (req_imp internal) in
  inr (answer_with (default "USD" (resp_cur bid_resp))
    (split_results (typed (λ bid, ix_media_type_for_bid bid imp_media_types) <$> bids_of bid_resp)).1).
#[export] Instance ix_bidder : Bidder IxAdapter := { make_requests := ix_make_requests; make_bids := ix_make_bids }.

(** ** openx *)

Record OpenxAdapter : Type := { openx_endpoint : string; openx_bidder_name : string }.
Definition HB_CONFIG : string := "hb_pbs_1.0.0".
Record ExtImpOpenx : Type := {
  opx_del_domain : string; opx_platform : string; opx_unit : Value; opx_custom_floor : Value;
  opx_custom_params : option Value }.
Record OpenxRespExt : Type := { opx_fledge_auction_configs : gmap string Value }.
Record OxBidExt : Type := { opx_dsp_id : Z; opx_brand_id : Z; opx_buyer_id : string }.
Context `{NumberText, !Deserialize ExtImpOpenx, !Deserialize OpenxRespExt, !Deserialize OxBidExt}.
(** [OpenxReqExt] as a value. *)
Definition OpenxReqExt (del_domain platform : string) : Value :=
  object (nonempty_field "delDomain" del_domain ++ nonempty_field "platform" platform ++ [("bc", VString HB_CONFIG)]).
Definition value_to_f64 (v : Value) : option f64 :=
  match v with VNumber n => as_f64 (VNumber n) | VString s => parse_f64 s | _ => None end.
Definition openx_value_to_string (v : Value) : string :=
  match v with VString s => s | VNumber n => number_to_string n | _ => "" end.
Definition openx_bid_type_for_imp (imp : Imp) : BidType :=
  if negb (present (imp_banner imp)) && present (imp_video imp) then BtVideo
  else if negb (present (imp_banner imp)) && present (imp_native imp) then BtNative
  else BtBanner.
Definition openx_floor (ext : ExtImpOpenx) (imp : Imp) : Imp :=
  if f64_eqb (default f64_zero (imp_bidfloor imp)) f64_zero then
    match value_to_f64 (opx_custom_floor ext) with
    | Some floor => if f64_gtb floor f64_zero then set_imp_bidfloor (Some floor) imp else imp
    | None => imp
    end
  else imp.
(** The rest of the impression's extension, with the custom parameters. *)
Definition openx_imp_ext (ext : ExtImpOpenx) (ext_val : option Value) : option Value :=
  match ext_val ≫= as_object with
  | Some ext_map =>
      let ext_map := obj_remove "bidder" (obj_remove "prebid" ext_map) in
      let ext_map := match opx_custom_params ext with
                     | Some custom_params => obj_insert "customParams" custom_params ext_map | None => ext_map end in
      if is_nil ext_map then None else Some (VObject ext_map)
  | None => ext_val
  end.
(** With the impression come the fields it sets in the request's extension. *)
Definition openx_preprocess_imp (imp : Imp) : BidderError + (string * string) * Imp :=
  ext ← ok_or (BadInput "Failed to parse openx imp ext") (parsed ExtImpOpenx (imp_ext imp));
  let imp_copy := openx_floor ext (set_imp_tagid (Some (openx_value_to_string (opx_unit ext))) imp) in
  let imp_copy := set_imp_ext (openx_imp_ext ext (imp_ext imp)) imp_copy in
  inr ((opx_del_domain ext, opx_platform ext),
       match imp_video imp_copy with
       | Some video => set_imp_video (Some (set_vid_ext
           (if bool_decide (imp_rwdd imp_copy = Some 1) then Some (object [("rewarded", number 1)]) else None) video)) imp_copy
       | None => imp_copy
       end).
(** An impression's error is returned only where no impression is left. *)
Definition openx_make_single_request (request : BidRequest) (imps : list Imp) (endpoint : string)
    : list BidderError + RequestData :=
  let '(valid, errs) := split_results (openx_preprocess_imp <$> imps) in
  match last valid with
  | None => inl errs
  | Some ((del_domain, platform), _) =>
      map_error (λ e, [e]) (post_request endpoint json_headers valid.*2
        (set_req_ext (Some (OpenxReqExt del_domain platform)) (set_req_imp valid.*2 request)))
  end.
Definition openx_banner_or_native (imp : Imp) : bool :=
  present (imp_banner imp) || (negb (present (imp_video imp)) && present (imp_native imp)).
Definition openx_video_only (imp : Imp) : bool := negb (present (imp_banner imp)) && present (imp_video imp).
Definition openx_make_requests (a : OpenxAdapter) (request : BidRequest) (_ : ExtraRequestInfo)
    : list RequestData * list BidderError :=
  let banner_and_native_imps := filter (λ imp, openx_banner_or_native imp = true) (req_imp request) in
  let video_imps := filter (λ imp, openx_video_only imp = true) (req_imp request) in
  let '(requests, errs) := split_results ((λ imps, openx_make_single_request request imps (openx_endpoint a)) <$>
    ((if is_nil banner_and_native_imps then [] else [banner_and_native_imps]) ++ ((λ imp, [imp]) <$> video_imps))) in
  (requests, concat errs).
Definition openx_meta (bid : Bid) : option ExtBidPrebidMeta :=
  ext ← parsed OxBidExt (bid_ext bid);
  let buyer_id := default 0 (parse_int (- 2 ^ 31) (2 ^ 31 - 1) (opx_buyer_id ext)) in
  let some_id z := if z =? 0 then None else Some z in
  if (buyer_id <=? 0) && (opx_dsp_id ext <=? 0) && (opx_brand_id ext <=? 0) then None
  else Some (set_meta_network_id (some_id (opx_dsp_id ext)) (set_meta_advertiser_id (some_id buyer_id)
         (set_meta_brand_id (some_id (opx_brand_id ext)) default_meta))).
Definition openx_bid (imps : list Imp) (bid : Bid) : TypedBid :=
  with_meta (openx_meta bid) (with_video (Some {| bvid_duration := 0; bvid_primary_category := first_cat bid |})
    (typed_bid_new bid (type_of_imp openx_bid_type_for_imp BtBanner imps bid))).
Definition fledge_configs (bidder : option string) (configs : gmap string Value) : list FledgeAuctionConfig :=
  (λ '(imp_id, config), {| fledge_impid := imp_id; fledge_bidder := bidder; fledge_adapter := None;
                           fledge_config := config |}) <$> map_iter configs.
Definition openx_make_bids (a : OpenxAdapter) (internal : BidRequest) (_ : RequestData) (response : ResponseData)
    : list BidderError + BidderResponse :=
  if rsd_status_code response =? 204 then inr bidder_response_new else
  ok_or_400 response;;
  bid_resp ← parse_response BadServerResponse response;
  let configs := default ∅ (opx_fledge_auction_configs <$> parsed OpenxRespExt (resp_ext bid_resp)) in
  inr {| br_currency := currency_or_usd bid_resp;
         br_bids := openx_bid (req_imp internal) <$> bids_of bid_resp;
         br_fledge_auction_configs := fledge_configs (Some (openx_bidder_name a)) configs |}.
#[export] Instance openx_bidder : Bidder OpenxAdapter := {
  make_requests := openx_make_requests; make_bids := openx_make_bids }.

(** ** pubmatic *)

Record PubmaticAdapter : Type := { pubmatic_endpoint : string }.
Record PubmaticWrapperExt : Type := { pbm_profile : Z; pbm_version : Z }.
Record ExtImpPubmatic : Type := {
  pbm_publisher_id : string; pbm_ad_slot : string; pbm_pm_zone_id : string; pbm_pm_zone_id_alt : string;
  pbm_wrapper : option PubmaticWrapperExt }.
Record PubmaticBidExt : Type := { pbm_video_duration : option Z; pbm_deal_priority : Z }.
Record PubmaticRespExt : Type := { pbm_fledge_auction_configs : gmap string Value }.
Context `{!Deserialize ExtImpPubmatic, !Deserialize PubmaticBidExt, !Deserialize PubmaticRespExt}.
(** A tag and, after an at sign, the size. *)
Definition parse_ad_slot (ad_slot : string) : BidderError + string * option (Z * Z) :=
  let s := trim ad_slot in
  let i64 := parse_int (- 2 ^ 63) (2 ^ 63 - 1) in
  if str_is_empty s then inr ("", None) else
  match split_once (ch "@") s with
  | None => inr (s, None)
  | Some (tag, size) =>
      ensure (negb (str_is_empty tag) && negb (str_is_empty size)) (BadInput ("Invalid adSlot: " +:+ s));;
      '(w, h) ← ok_or (BadInput ("Invalid size in adSlot: " +:+ s)) (split_once (ch "x") (std_to_lowercase size));
      width ← ok_or (BadInput ("Invalid width in adSlot: " +:+ s)) (i64 (trim w));
      let height_str := trim (default "" (head (split_char (ch ":") h))) in
      height ← ok_or (BadInput ("Invalid height in adSlot: " +:+ s)) (i64 height_str);
      inr (trim tag, Some (width, height))
  end.
Definition pubmatic_banner (width height : Z) (banner : Banner) : Banner :=
  if present (ban_w banner) && present (ban_h banner) then banner
  else set_ban_h (Some (i32 height)) (set_ban_w (Some (i32 width)) banner).
Definition pubmatic_slot (ad_slot : string) (imp : Imp) : BidderError + Imp :=
  if str_is_empty ad_slot then inr imp else
  '(tag_id, size) ← parse_ad_slot ad_slot;
  let imp := if str_is_empty tag_id then imp else set_imp_tagid (Some tag_id) imp in
  inr match size, imp_banner imp with
      | Some (width, height), Some banner => set_imp_banner (Some (pubmatic_banner width height banner)) imp
      | _, _ => imp
      end.
Definition pubmatic_params (imp : Imp) : option ExtImpPubmatic := parsed ExtImpPubmatic (imp_ext imp).
Definition pubmatic_imp (imp : Imp) : BidderError + Imp :=
  ext ← ok_or (BadInput "Failed to parse pubmatic imp ext") (pubmatic_params imp);
  imp_copy ← pubmatic_slot (pbm_ad_slot ext) imp;
  let zone_id := if str_is_empty (pbm_pm_zone_id_alt ext) then pbm_pm_zone_id ext else pbm_pm_zone_id_alt ext in
  inr (set_imp_ext (if str_is_empty zone_id then None else Some (object [("pmZoneId", VString zone_id)])) imp_copy).
(** The first publisher and the first wrapper, an impression that is refused included. *)
Definition pubmatic_pub_id (exts : list ExtImpPubmatic) : string :=
  default "" (head (filter (λ s, s ≠ "") (pbm_publisher_id <$> exts))).
Definition pubmatic_req_ext (exts : list ExtImpPubmatic) : Value :=
  match head (omap pbm_wrapper exts) with
  | Some w => object [("wrapper", object [("profile", number (pbm_profile w)); ("version", number (pbm_version w))])]
  | None => object []
  end.
Definition pubmatic_make_requests (a : PubmaticAdapter) (request : BidRequest) (_ : ExtraRequestInfo)
    : list RequestData * list BidderError :=
  let exts := omap pubmatic_params (req_imp request) in
  let '(valid_imps, errs) := split_results (pubmatic_imp <$> req_imp request) in
  if is_nil valid_imps then ([], errs) else
  let req_copy := set_req_ext (Some (pubmatic_req_ext exts)) (set_req_imp valid_imps request) in
  after_errors errs (single (post_request (pubmatic_endpoint a) json_headers valid_imps
    (with_publisher_id (pubmatic_pub_id exts) req_copy))).
Definition pubmatic_bid (imps : list Imp) (bid : Bid) : TypedBid :=
  let tb := typed_bid_new bid (type_of_imp get_bid_type_from_imp BtBanner imps bid) in
  match parsed PubmaticBidExt (bid_ext bid) with
  | Some ext =>
      with_video ((λ dur, {| bvid_duration := dur; bvid_primary_category := "" |}) <$> pbm_video_duration ext)
        (with_deal_priority (pbm_deal_priority ext) tb)
  | None => with_video None (with_deal_priority 0 tb)
  end.
Definition pubmatic_make_bids (a : PubmaticAdapter) (internal : BidRequest) (_ : RequestData)
    (response : ResponseData) : list BidderError + BidderResponse :=
  if rsd_status_code response =? 204 then inr bidder_response_new else
  ok_or_400 response;;
  bid_resp ← parse_response BadServerResponse response;
  let configs := default ∅ (pbm_fledge_auction_configs <$> parsed PubmaticRespExt (resp_ext bid_resp)) in
  inr {| br_currency := currency_or_usd bid_resp;
         br_bids := pubmatic_bid (req_imp internal) <$> bids_of bid_resp;
         br_fledge_auction_configs := fledge_configs None configs |}.
#[export] Instance pubmatic_bidder : Bidder PubmaticAdapter := {
  make_requests := pubmatic_make_requests; make_bids := pubmatic_make_bids }.

(** ** sharethrough *)

Record SharethroughAdapter : Type := { sharethrough_endpoint : string }.
Record ExtImpSharethrough : Type := { shr_pkey : string; shr_bcat : list string; shr_badv : list string }.
Record SharethroughBidExt : Type := { shr_prebid_type : option string }.
Context `{!Deserialize ExtImpSharethrough, !Deserialize SharethroughBidExt}.
Definition sharethrough_media_type_for_bid (bid : Bid) : BidderError + BidType :=
  let err := BadServerResponse ("Failed to parse bid mediatype for impression " +:+ dq +:+ bid_impid bid +:+ dq) in
  t ← ok_or err (parsed SharethroughBidExt (bid_ext bid) ≫= shr_prebid_type);
  if bool_decide (t = "audio") then inr BtAudio else media_type_named t err.
Definition split_impressions_by_media_type (imp : Imp) : BidderError + list Imp :=
  ensure (present (imp_banner imp) || present (imp_video imp) || present (imp_native imp))
    (BadInput "Invalid MediaType. Sharethrough only supports Banner, Video and Native.");;
  let copy := set_imp_audio None imp in
  inr ((if present (imp_banner imp) then [set_imp_native None (set_imp_video None copy)] else [])
    ++ (if present (imp_video imp) then [set_imp_native None (set_imp_banner None copy)] else [])
    ++ (if present (imp_native imp) then [set_imp_video None (set_imp_banner None copy)] else [])).
(** A list in the request grows by the parameters' own. *)
Definition extend_list (old : option (list string)) (more : list string) : option (list string) :=
  if is_nil more then old else Some (default [] old ++ more).
(** What is sent for an impression carries the lists of all before it. *)
Fixpoint sharethrough_imps (endpoint : string) (req_copy : BidRequest) (imps : list Imp)
    : list (BidderError + RequestData) :=
  match imps with
  | [] => []
  | imp :: imps' =>
      match parsed ExtImpSharethrough (imp_ext imp) with
      | None => inl (BadInput "Failed to parse sharethrough imp ext") :: sharethrough_imps endpoint req_copy imps'
      | Some ext =>
          let req_copy := set_req_badv (extend_list (req_badv req_copy) (shr_badv ext))
                            (set_req_bcat (extend_list (req_bcat req_copy) (shr_bcat ext)) req_copy) in
          let imp_with_tagid := if str_is_empty (shr_pkey ext) then imp else set_imp_tagid (Some (shr_pkey ext)) imp in
          match split_impressions_by_media_type imp_with_tagid with
          | inl e => [inl e]
          | inr media_imps =>
              (λ media_imp, post_request endpoint json_headers [media_imp] (set_req_imp [media_imp] req_copy)) <$> media_imps
          end ++ sharethrough_imps endpoint req_copy imps'
      end
  end.
Definition sharethrough_make_requests (a : SharethroughAdapter) (request : BidRequest) (_ : ExtraRequestInfo)
    : list RequestData * list BidderError :=
  split_results (sharethrough_imps (sharethrough_endpoint a) (set_req_imp [] request) (req_imp request)).
Definition sharethrough_make_bids (a : SharethroughAdapter) (_ : BidRequest) (_ : RequestData)
    (response : ResponseData) : list BidderError + BidderResponse :=
  if rsd_status_code response =? 204 then inr bidder_response_new else
  reject_status 400 (BadInput (unexpected_status response)) response;;
  only_200 (λ r, BadServerResponse (status_text "unexpected status code: "
    ". Run with request.debug = 1 for more info" r)) response;;
  bid_resp ← parse_response BadServerResponse response;
  inr (answer_with "USD" (split_results (typed sharethrough_media_type_for_bid <$> bids_of bid_resp)).1).
#[export] Instance sharethrough_bidder : Bidder SharethroughAdapter := {
  make_requests := sharethrough_make_requests; make_bids := sharethrough_make_bids }.

(** ** rubicon *)

Record RubiconAdapter : Type := {
  rubicon_endpoint : string; rubicon_xapi_username : string; rubicon_xapi_password : string }.
Definition BADV_LIMIT : nat := 50.
Record ExtImpRubiconVideo : Type := { rbv_skip : Z; rbv_skip_delay : Z; rbv_video_size_id : Z }.
Record ExtImpRubicon : Type := {
  rbc_account_id : Z; rbc_site_id : Z; rbc_zone_id : Z; rbc_video : ExtImpRubiconVideo; rbc_inventory : option Value }.
Record RubiconImpBidderExt : Type := { rbc_bidder : ExtImpRubicon; rbc_gpid : string; rbc_tid : string }.
Context `{!Deserialize RubiconImpBidderExt, !FromSlice BidRequest}.
Definition base64_char (n : Z) : string :=
  default "" (String.get (Z.to_nat (Z.land n 63))
    "ABCDEFGHIJKLMNOPQRSTUVWXYZabcdefghijklmnopqrstuvwxyz0123456789+/" ≫= λ a, Some (String a "")).
(** Four characters for up to three bytes. *)
Definition base64_chunk (b0 : Z) (b1 b2 : option Z) : string :=
  let combined := Z.lor (Z.lor (Z.shiftl b0 16) (Z.shiftl (default 0 b1) 8)) (default 0 b2) in
  base64_char (Z.shiftr combined 18) +:+ base64_char (Z.shiftr combined 12)
  +:+ (if present b1 then base64_char (Z.shiftr combined 6) else "=")
  +:+ (if present b2 then base64_char combined else "=").
Fixpoint base64_bytes (bytes : list Z) : string :=
  match bytes with
  | b0 :: b1 :: b2 :: rest => base64_chunk b0 (Some b1) (Some b2) +:+ base64_bytes rest
  | [b0; b1] => base64_chunk b0 (Some b1) None
  | [b0] => base64_chunk b0 None None
  | [] => ""
  end.
Definition base64_encode (input : string) : string := base64_bytes (string_bytes input).
Definition basic_auth (user pass : string) : string := "Basic " +:+ base64_encode (user +:+ ":" +:+ pass).
(** A video alone, or one with all of its fields. *)
Definition rubicon_is_video (imp : Imp) : bool :=
  match imp_video imp with
  | Some video =>
      negb (present (imp_banner imp))
      || (negb (is_nil (default [] (vid_mimes video))) && negb (is_nil (default [] (vid_protocols video)))
          && negb (default 0 (vid_maxduration video) =? 0) && negb (default 0 (vid_linearity video) =? 0))
  | None => false
  end.
(** [RubiconImpExt], [RubiconVideoExt], [RubiconBannerExt], [RubiconPubExt] and
    [RubiconSiteExt] as values. *)
Definition RubiconImpExt (ext : RubiconImpBidderExt) : Value :=
  object (("rp", object (("zone_id", number (rbc_zone_id (rbc_bidder ext)))
            :: optional "target" (rbc_inventory (rbc_bidder ext))
            ++ [("track", object [("mint", VString ""); ("mint_version", VString "")])]))
    :: nonempty_field "gpid" (rbc_gpid ext) ++ nonempty_field "tid" (rbc_tid ext)).
Definition RubiconVideoExt (video : ExtImpRubiconVideo) (video_type : string) : Value :=
  object (nonzero_field "skip" (rbv_skip video) ++ nonzero_field "skipdelay" (rbv_skip_delay video)
    ++ nonempty_field "videotype" video_type
    ++ [("rp", object (nonzero_field "size_id" (rbv_video_size_id video)))]).
Definition RubiconBannerExt : Value := object [("rp", object [("mime", VString "text/html")])].
Definition RubiconPubExt (account_id : Z) : Value := object [("rp", object [("account_id", number account_id)])].
Definition RubiconSiteExt (site_id : Z) : Value := object [("rp", object [("site_id", number site_id)])].
Definition rubicon_video_imp (ext : ExtImpRubicon) (imp : Imp) : Imp :=
  let rewarded := default 0 (imp_rwdd imp) =? 1 in
  let imp := if rewarded then set_imp_rwdd (Some 0) imp else imp in
  let vc := set_vid_ext (Some (RubiconVideoExt (rbc_video ext) (if rewarded then "rewarded" else "")))
              (default default_vid (imp_video imp)) in
  set_imp_native None (set_imp_banner None (set_imp_video (Some vc) imp)).
Definition rubicon_banner_imp (banner : Banner) (imp : Imp) : BidderError + Imp :=
  let unset (o : option Z) := default 0 o =? 0 in
  ensure (negb (is_nil (default [] (ban_format banner))) || negb (unset (ban_w banner)) || negb (unset (ban_h banner)))
    (BadInput "rubicon imps must have at least one imp.format element");;
  inr (set_imp_native None (set_imp_video None (set_imp_banner (Some (set_ban_ext (Some RubiconBannerExt) banner)) imp))).
(** The impression with the one medium it is sent for. *)
Definition rubicon_media (ext : ExtImpRubicon) (imp : Imp) : BidderError + Imp :=
  if rubicon_is_video imp then inr (rubicon_video_imp ext imp)
  else match imp_banner imp, imp_native imp with
       | Some banner, _ => rubicon_banner_imp banner imp
       | None, Some _ => inr (set_imp_video None imp)
       | None, None => inl (BadInput ("no supported media type for imp id=" +:+ imp_id imp))
       end.
Definition rubicon_request (ext : ExtImpRubicon) (imp : Imp) (request : BidRequest) : BidRequest :=
  let req := set_req_ext None (set_req_cur None (set_req_imp [imp] request)) in
  let req := set_req_badv (take BADV_LIMIT <$> req_badv req) req in
  let site_ext := Some (RubiconSiteExt (rbc_site_id ext)) in
  let req := match req_site req, req_app req with
             | Some site, _ => set_req_site (Some (set_site_ext site_ext site)) req
             | None, Some app => set_req_app (Some (set_app_ext site_ext app)) req
             | None, None => req
             end in
  with_publisher (set_pub_ext (Some (RubiconPubExt (rbc_account_id ext)))) req.
Definition rubicon_headers (a : RubiconAdapter) : gmap string string :=
  <["Authorization" := basic_auth (rubicon_xapi_username a) (rubicon_xapi_password a)]>
    (<["User-Agent" := "prebid-server/1.0"]> json_headers).
Definition rubicon_imp (a : RubiconAdapter) (request : BidRequest) (imp : Imp) : BidderError + RequestData :=
  ext ← ok_or (BadInput ("failed to parse rubicon imp ext for imp id=" +:+ imp_id imp))
    (parsed RubiconImpBidderExt (imp_ext imp));
  imp_copy ← rubicon_media (rbc_bidder ext) (set_imp_ext (Some (RubiconImpExt ext)) (set_imp_secure (Some 1) imp));
  post_request (rubicon_endpoint a) (rubicon_headers a) [imp_copy] (rubicon_request (rbc_bidder ext) imp_copy request).
Definition rubicon_make_requests (a : RubiconAdapter) (request : BidRequest) (_ : ExtraRequestInfo)
    : list RequestData * list BidderError := split_results (rubicon_imp a request <$> req_imp request).
(** The type of the impression of the request that was sent. *)
Definition rubicon_bid_type (ext_req : BidRequest) : BidType :=
  match head (req_imp ext_req) with
  | Some imp => if rubicon_is_video imp then BtVideo else if present (imp_banner imp) then BtBanner else BtNative
  | None => BtBanner
  end.
Definition rubicon_make_bids (a : RubiconAdapter) (_ : BidRequest) (external : RequestData)
    (response : ResponseData) : list BidderError + BidderResponse :=
  if rsd_status_code response =? 204 then inr bidder_response_new else
  ok_or_400 response;;
  bid_resp ← parse_response BadServerResponse response;
  ext_req ← map_error (λ e, [BadServerResponse e]) (from_slice (A := BidRequest) (rqd_body external));
  inr (answer_with (currency_or_usd bid_resp) (omap (λ bid,
    if f64_eqb (bid_price bid) f64_zero then None
    else Some (typed_bid_new bid (rubicon_bid_type ext_req))) (bids_of bid_resp))).
#[export] Instance rubicon_bidder : Bidder RubiconAdapter := {
  make_requests := rubicon_make_requests; make_bids := rubicon_make_bids }.

(** ** beachfront *)

Record BeachfrontAdapter : Type := { beachfront_banner_endpoint : string; beachfront_video_endpoint : string }.
Definition NURL_VIDEO_ENDPOINT_SUFFIX : string := "&prebidserver".
Definition DEFAULT_VIDEO_WIDTH : Z := 300.
Definition DEFAULT_VIDEO_HEIGHT : Z := 250.
Record ExtImpBeachfront : Type := {
  bfr_app_id : string; bfr_app_ids_banner : string; bfr_app_ids_video : string; bfr_bid_floor : f64;
  bfr_video_response_type : string }.
Record BannerSlot : Type := {
  bfs_slot : string; bfs_id : string; bfs_bidfloor : f64; bfs_sizes : list (Z * Z) }.
Record BannerRequest : Type := {
  bfq_slots : list BannerSlot; bfq_domain : string; bfq_page : string; bfq_referrer : string; bfq_secure : Z;
  bfq_device_os : string; bfq_device_model : string; bfq_is_mobile : Z; bfq_ua : string; bfq_dnt : Z;
  bfq_adapter_name : string; bfq_adapter_version : string; bfq_request_id : string; bfq_real204 : bool;
  bfq_ip : string }.
Record BannerResponseSlot : Type := {
  bfp_crid : string; bfp_price : f64; bfp_w : Z; bfp_h : Z; bfp_slot : string; bfp_adm : string }.
Context `{!Deserialize ExtImpBeachfront, !ToVec BannerRequest, !FromSlice (list BannerResponseSlot)}.
Definition beachfront_app_id (ext : ExtImpBeachfront) (media_type : string) : BidderError + string :=
  let err := BadInput "unable to determine the appId(s) from the supplied extension" in
  let or_err s := if str_is_empty s then inl err else inr s in
  if negb (str_is_empty (bfr_app_id ext)) then inr (bfr_app_id ext)
  else if bool_decide (media_type = "video") then or_err (bfr_app_ids_video ext)
  else if bool_decide (media_type = "banner") then or_err (bfr_app_ids_banner ext)
  else inl err.
Definition beachfront_is_secure (page : string) : Z := if String.prefix "https://" page then 1 else 0.
Definition beachfront_domain (page : string) : string :=
  let without_proto := match str_find "//" page with Some i => str_drop (i + 2) page | None => page end in
  default "" (head (split_char (ch "/") without_proto)).
Definition beachfront_params (imp : Imp) : BidderError + ExtImpBeachfront :=
  ok_or (BadInput ("ignoring imp id=" +:+ imp_id imp +:+ ", error while decoding extImpBidder"))
    (parsed ExtImpBeachfront (imp_ext imp)).
(** The first format has a size. *)
Definition beachfront_has_banner (imp : Imp) : bool :=
  match (imp_banner imp ≫= ban_format) ≫= head with
  | Some f => negb (default 0 (fmt_w f) =? 0) && negb (default 0 (fmt_h f) =? 0)
  | None => false
  end.
Definition beachfront_headers (request : BidRequest) : gmap string string :=
  let headers := device_header "Accept-Language" dev_language request (device_header "User-Agent" dev_ua request json_headers) in
  let headers := match req_device request ≫= dev_dnt with
                 | Some dnt => <["DNT" := pretty dnt]> headers | None => headers end in
  header_if "Cookie" (match req_user request ≫= user_buyeruid with
                      | Some uid => if str_is_empty uid then None else Some ("__io_cid=" +:+ uid) | None => None end) headers.
Definition beachfront_slot (imp : Imp) : BidderError + BannerSlot :=
  ext ← beachfront_params imp;
  app_id ← beachfront_app_id ext "banner";
  inr {| bfs_slot := imp_id imp; bfs_id := app_id;
         bfs_bidfloor := (if f64_gtb (default f64_zero (imp_bidfloor imp)) f64_zero
                          then default f64_zero (imp_bidfloor imp) else bfr_bid_floor ext);
         bfs_sizes := (λ f, (u64 (default 0 (fmt_w f)), u64 (default 0 (fmt_h f)))) <$> default [] (imp_banner imp ≫= ban_format) |}.
(** Page, domain and whether the request comes from an app. *)
Definition beachfront_page (request : BidRequest) : string * string * Z :=
  let domain_or (domain : option string) (page : string) :=
    if str_is_empty (default "" domain) then beachfront_domain page else default "" domain in
  match req_site request, req_app request with
  | Some site, _ => let page := default "" (site_page site) in (page, domain_or (site_domain site) page, 0)
  | None, Some app => (default "" (app_bundle app), domain_or (app_domain app) (default "" (app_domain app)), 1)
  | None, None => ("", "", 0)
  end.
(** [z as i8] *)
Definition as_i8 (z : Z) : Z := (z + 2 ^ 7) mod 2 ^ 8 - 2 ^ 7.
Definition beachfront_banner_request (request : BidRequest) (slots : list BannerSlot) : BannerRequest :=
  let '(page, domain, is_mobile) := beachfront_page request in
  let device (f : Device → option string) := default "" (req_device request ≫= f) in
  {| bfq_slots := slots; bfq_domain := domain; bfq_page := page; bfq_referrer := "";
     bfq_secure := beachfront_is_secure page; bfq_device_os := device dev_os; bfq_device_model := device dev_model;
     bfq_is_mobile := is_mobile; bfq_ua := device dev_ua;
     bfq_dnt := as_i8 (default 0 (req_device request ≫= dev_dnt));
     bfq_adapter_name := "BF_PREBID_S2S"; bfq_adapter_version := "1.0.0"; bfq_request_id := req_id request;
     bfq_real204 := true; bfq_ip := device dev_ip |}.
(** One call for all banners, in the name of the impressions that have a slot. *)
Definition beachfront_banner_call (a : BeachfrontAdapter) (request : BidRequest) (banner_imps : list Imp)
    : list RequestData * list BidderError :=
  let '(slots, errs) := split_results (beachfront_slot <$> banner_imps) in
  if is_nil slots then ([], errs) else
  after_errors errs (single (
    body ← map_error BadInput (to_json_bytes (beachfront_banner_request request slots));
    inr (post (beachfront_banner_endpoint a) body (beachfront_headers request) (bfs_slot <$> slots)))).
Definition beachfront_video_request (request : BidRequest) (imp : Imp) (is_nurl : bool) : BidRequest :=
  let or_default d (o : option Z) := if default 0 o =? 0 then Some d else o in
  let video_imp := set_imp_ext None (set_imp_banner None imp) in
  let video_imp := set_imp_video ((λ video, set_vid_h (or_default DEFAULT_VIDEO_HEIGHT (vid_h video))
                     (set_vid_w (or_default DEFAULT_VIDEO_WIDTH (vid_w video)) video)) <$> imp_video imp) video_imp in
  let req := set_req_ext None (set_req_imp [video_imp] request) in
  let req := if is_nil (default [] (req_cur req)) then set_req_cur (Some ["USD"]) req else req in
  if is_nurl then req else
  let device := default default_dev (req_device req) in
  set_req_device (Some (if str_is_empty (default "" (dev_ip device))
                        then set_dev_ip (Some "255.255.255.255") device else device)) req.
(** The JSON text with one more field at its head. *)
Definition is_prebid_prefix : list Z := string_bytes ("{" +:+ dq +:+ "isPrebid" +:+ dq +:+ ":true,").
Definition prepend_is_prebid (body : list Z) : list Z :=
  match body with 123 :: rest => is_prebid_prefix ++ rest | _ => body end.
Definition beachfront_video_call (a : BeachfrontAdapter) (request : BidRequest) (imp : Imp)
    : BidderError + RequestData :=
  ext ← beachfront_params imp;
  app_id ← beachfront_app_id ext "video";
  let is_nurl := bool_decide (bfr_video_response_type ext = "nurl") in
  let uri := beachfront_video_endpoint a +:+ "=" +:+ app_id +:+ (if is_nurl then NURL_VIDEO_ENDPOINT_SUFFIX else "") in
  body ← body_of (beachfront_video_request request imp is_nurl);
  inr (post uri (if is_nurl then prepend_is_prebid body else body) (beachfront_headers request) [imp_id imp]).
Definition beachfront_make_requests (a : BeachfrontAdapter) (request : BidRequest) (_ : ExtraRequestInfo)
    : list RequestData * list BidderError :=
  let banner_imps := filter (λ imp, beachfront_has_banner imp = true) (req_imp request) in
  let video_imps := filter (λ imp, present (imp_video imp) = true) (req_imp request) in
  if is_nil banner_imps && is_nil video_imps
  then ([], [BadInput "no valid impressions were found in the request"]) else
  let '(banner_calls, banner_errs) := beachfront_banner_call a request banner_imps in
  let '(video_calls, video_errs) := split_results (beachfront_video_call a request <$> video_imps) in
  (banner_calls ++ video_calls, banner_errs ++ video_errs).
Definition beachfront_status (external : RequestData) (response : ResponseData) : list BidderError + () :=
  let s := rsd_status_code response in
  let text before := before +:+ pretty s +:+ " from " +:+ rqd_uri external +:+ ". Run with request.debug = 1 for more info" in
  if 500 <=? s then inl [BadServerResponse (text "server error status code ")]
  else if 400 <=? s then inl [BadInput (text "request error status code ")]
  else only_200 (λ _, BadServerResponse (text "unexpected status code ")) response.
Definition beachfront_slot_bid (slot : BannerResponseSlot) : Bid :=
  set_bid_h (Some (i32 (bfp_h slot))) (set_bid_w (Some (i32 (bfp_w slot))) (set_bid_adm (Some (bfp_adm slot))
    (set_bid_crid (Some (bfp_crid slot)) (set_bid_price (bfp_price slot) (set_bid_impid (bfp_slot slot)
      (set_bid_id (bfp_slot slot +:+ "Banner") default_bid)))))).
(** An OpenRTB answer with a seat, else, for banners, the bidder's own format. *)
Definition beachfront_make_bids (a : BeachfrontAdapter) (_ : BidRequest) (external : RequestData)
    (response : ResponseData) : list BidderError + BidderResponse :=
  if rsd_status_code response =? 204 then inr bidder_response_new else
  beachfront_status external response;;
  let invalid := inl [BadServerResponse
    "server response failed to unmarshal as valid rtb. Run with request.debug = 1 for more info"] in
  let is_video := str_contains "reachms.bfmio.com" (rqd_uri external) || str_contains "bid.json" (rqd_uri external) in
  let typed_all t (bids : list Bid) := inr (answer_with "USD" ((λ bid, typed_bid_new bid t) <$> bids)) in
  let other := if is_video then invalid else
               match from_slice (A := list BannerResponseSlot) (rsd_body response) with
               | inr banner_resp => typed_all BtBanner (beachfront_slot_bid <$> banner_resp)
               | inl _ => invalid
               end in
  match bid_response_from_slice (rsd_body response) with
  | inr bid_resp =>
      if is_nil (resp_seatbid bid_resp) then other
      else typed_all (if is_video then BtVideo else BtBanner) (bids_of bid_resp)
  | inl _ => other
  end.
#[export] Instance beachfront_bidder : Bidder BeachfrontAdapter := {
  make_requests := beachfront_make_requests; make_bids := beachfront_make_bids }.
End Adapters1.
#[export] Hint Unfold appnexus_make_requests appnexus_make_bids across33_make_requests across33_make_bids
   criteo_make_requests criteo_make_bids sovrn_make_requests sovrn_make_bids ix_make_requests
   ix_make_bids openx_make_requests openx_make_bids pubmatic_make_requests pubmatic_make_bids
   sharethrough_make_requests sharethrough_make_bids rubicon_make_requests rubicon_make_bids
   beachfront_make_requests beachfront_make_bids across33_imp across33_make_imps criteo_bid ix_imp
   sovrn_imp pubmatic_imp pubmatic_slot openx_bid pubmatic_bid beachfront_status : adapters.

(** ** The contract *)

Section Contracts.
Context `{OpenRtbJson, StdText, KeyIter, !Deserialize AppnexusInExt, !ToValue AppnexusImpExt, !Deserialize BidExtAppnexus, !Deserialize ExtImp33Across, !Deserialize Across33ReqExt, !Deserialize Across33BidExt, MapIter, !Deserialize CriteoBidExt, !Deserialize CriteoExt, !Deserialize ExtImpSovrn, !Deserialize ExtImpIx, !Deserialize IxBidExt, NumberText, !Deserialize ExtImpOpenx, !Deserialize OpenxRespExt, !Deserialize OxBidExt, !Deserialize ExtImpPubmatic, !Deserialize PubmaticBidExt, !Deserialize PubmaticRespExt, !Deserialize ExtImpSharethrough, !Deserialize SharethroughBidExt, !Deserialize RubiconImpBidderExt, !FromSlice BidRequest, !Deserialize ExtImpBeachfront, !ToVec BannerRequest, !FromSlice (list BannerResponseSlot)}.

(** The loops and helpers that keep an impression's id. *)
Lemma appnexus_copy_id b imp : imp_id (appnexus_imp_copy b imp) = imp_id imp.
Proof. unfold appnexus_imp_copy. repeat case_match; done. Qed.
Lemma appnexus_imp_ids imps : ∀ member errs valid member',
  appnexus_imps imps member = (errs, Some (valid, member')) → get_imp_ids valid ⊆ get_imp_ids imps.
Proof.
  induction imps as [|imp imps IH]; intros member errs valid member' Hr; cbn in Hr; [by injection Hr as <- <- <-|].
  assert (∀ v, get_imp_ids v ⊆ get_imp_ids imps → get_imp_ids v ⊆ get_imp_ids (imp :: imps)) as Hcons
    by (intros v Hv; unfold get_imp_ids in *; csimpl; set_solver).
  destruct (appnexus_params imp) as [e|ext]; [|case_match; [done|]];
    destruct (appnexus_imps imps _) as [es r] eqn:Hi; [|destruct (to_value _) as [e|v]].
  - injection Hr as <- ->. eauto.
  - injection Hr as <- ->. eauto.
  - destruct r as [[k m]|]; [|done]. injection Hr as <- <- <-.
    apply IH in Hi. unfold get_imp_ids in *. csimpl. rewrite appnexus_copy_id. set_solver.
Qed.
Lemma openx_preprocess_id imp e : openx_preprocess_imp imp = inr e → imp_id e.2 = imp_id imp.
Proof. unfold openx_preprocess_imp, openx_floor. solve_keeps_id. Qed.
Lemma openx_single_spec request imps endpoint rd : openx_make_single_request request imps endpoint = inr rd →
  imps ⊆ req_imp request → rqd_method rd = "POST" ∧ rqd_imp_ids rd ⊆ get_imp_ids (req_imp request).
Proof.
  unfold openx_make_single_request. intros Hr Hs. destruct (split_results _) as [valid errs] eqn:Hv.
  destruct (last valid) as [[[??]?]|]; [|done]. adapter_run. split; [done|].
  etrans; [eapply split_snd_ids; [done|apply openx_preprocess_id]|]. by apply imp_ids_subset.
Qed.
Lemma sharethrough_calls endpoint imps : ∀ req_copy rd, inr rd ∈ sharethrough_imps endpoint req_copy imps →
  rqd_method rd = "POST" ∧ rqd_imp_ids rd ⊆ get_imp_ids imps.
Proof.
  induction imps as [|imp imps IH]; intros req_copy rd Hin; cbn in Hin; [by apply not_elem_of_nil in Hin|].
  assert (∀ ids : list string, ids ⊆ get_imp_ids imps → ids ⊆ get_imp_ids (imp :: imps)) as Hcons
    by (intros; unfold get_imp_ids; csimpl; set_solver).
  destruct (parsed _ _) as [ext|].
  - apply elem_of_app in Hin as [Hin|Hin]; [|by destruct (IH _ _ Hin); eauto].
    destruct (split_impressions_by_media_type _) as [e|media] eqn:Hs; [set_solver|].
    apply list_elem_of_fmap in Hin as (mi&Hrd&Hmi). adapter_step. adapter_run. split; [done|].
    assert (imp_id mi = imp_id imp) as Hid.
    { unfold split_impressions_by_media_type in Hs. adapter_step. adapter_step. adapter_step.
      repeat match goal with H : _ ∈ _ ++ _ |- _ => apply elem_of_app in H as [?|?] end;
        destruct (str_is_empty _); repeat case_match; set_solver. }
    apply one_imp_id with imp; set_solver.
  - apply elem_of_cons in Hin as [?|Hin]; [done|]. by destruct (IH _ _ Hin); eauto.
Qed.
Lemma appnexus_keeps_key : keeps_key appnexus_bid.
Proof.
  intros bid tb Hb. unfold appnexus_bid in Hb. adapter_step. adapter_step. by destruct (0 <? _).
Qed.
Lemma rubicon_media_id ext imp imp' : rubicon_media ext imp = inr imp' → imp_id imp' = imp_id imp.
Proof.
  unfold rubicon_media, rubicon_banner_imp, rubicon_video_imp. intros Hi.
  repeat case_match; repeat adapter_step; done.
Qed.
Lemma rubicon_calls a request imp rd : rubicon_imp a request imp = inr rd → imp ∈ req_imp request →
  rqd_method rd = "POST" ∧ rqd_imp_ids rd ⊆ get_imp_ids (req_imp request).
Proof.
  unfold rubicon_imp. intros Hr Hin. do 2 adapter_step. adapter_run. split; [done|].
  eapply one_imp_id; [eassumption|]. etrans; [by eapply rubicon_media_id|done].
Qed.
Lemma beachfront_banner_calls a request imps rd : rd ∈ (beachfront_banner_call a request imps).1 →
  rqd_method rd = "POST" ∧ rqd_imp_ids rd ⊆ get_imp_ids imps.
Proof.
  unfold beachfront_banner_call. intros Hin. adapter_run. split; [done|].
  intros impid (slot&->&Hs)%list_elem_of_fmap. repeat adapter_step.
  match goal with H : inr _ = beachfront_slot _ |- _ => symmetry in H; unfold beachfront_slot in H end.
  repeat adapter_step. cbn. by apply (list_elem_of_fmap_2 imp_id).
Qed.
Lemma beachfront_video_calls a request imp rd : beachfront_video_call a request imp = inr rd →
  rqd_method rd = "POST" ∧ rqd_imp_ids rd = [imp_id imp].
Proof. unfold beachfront_video_call. intros Hr. by repeat adapter_step. Qed.
Lemma beachfront_status_inr external response u : beachfront_status external response = inr u →
  rsd_status_code response = 200.
Proof. unfold beachfront_status. intros Hs. repeat adapter_step. lia. Qed.
#[export] Instance appnexus_honest : HonestAdapter AppnexusAdapter.
Proof. 
  split; [split; [solve_calls|solve_200]|solve_bids].
  - etrans; [apply imp_ids_subset; by eapply chunks_subset|by eapply appnexus_imp_ids].
  - eapply some_bids_or_errors_keys; [eassumption|apply appnexus_keeps_key].
Qed.
#[export] Instance across33_honest : HonestAdapter Across33Adapter.
Proof. solve_adapter. Qed.
#[export] Instance criteo_honest : HonestAdapter CriteoAdapter.
Proof. solve_adapter. Qed.
#[export] Instance sovrn_honest : HonestAdapter SovrnAdapter.
Proof. solve_adapter. Qed.
#[export] Instance ix_honest : HonestAdapter IxAdapter.
Proof. solve_adapter. Qed.
#[export] Instance openx_honest : HonestAdapter OpenxAdapter.
Proof. 
  split; [split; [|solve_200]|solve_bids]. intros a request info rd. cbn. unfold openx_make_requests.
  destruct (split_results _) as [l es] eqn:Hl. cbn. intros Hin.
  apply (elem_of_split_eq _ _ _ _ Hl), list_elem_of_fmap in Hin as (imps&Hrd&Hin).
  eapply openx_single_spec; [done|]. apply elem_of_app in Hin as [Hin|(imp&->&Hin)%list_elem_of_fmap].
  - destruct (is_nil _); [by apply not_elem_of_nil in Hin|]. apply list_elem_of_singleton in Hin as ->.
    intros ? [_ ?]%list_elem_of_filter. done.
  - apply list_elem_of_filter in Hin as [_ Hin]. set_solver.
Qed.
#[export] Instance pubmatic_honest : HonestAdapter PubmaticAdapter.
Proof. solve_adapter. Qed.
#[export] Instance sharethrough_honest : HonestAdapter SharethroughAdapter.
Proof. split; [split; [|solve_200]|solve_bids]. intros. adapter_run. by eapply sharethrough_calls. Qed.
#[export] Instance rubicon_honest : HonestAdapter RubiconAdapter.
Proof. split; [split; [|solve_200]|solve_bids]. intros. adapter_run. by eapply rubicon_calls. Qed.
#[export] Instance beachfront_safe : SafeAdapter BeachfrontAdapter.
Proof. 
  split.
  - intros a request info rd. cbn. unfold beachfront_make_requests.
    destruct (_ && _); [by intros ?%not_elem_of_nil|].
    destruct (beachfront_banner_call _ _ _) as [l es] eqn:Hl, (split_results _) as [l2 es2] eqn:Hl2. cbn.
    intros [Hin|Hin]%elem_of_app.
    + pose proof (beachfront_banner_calls a request (filter (λ imp, beachfront_has_banner imp = true) (req_imp request)) rd)
        as Hb. rewrite Hl in Hb. destruct Hb as [? Hs]; [done|]. split; [done|]. etrans; [done|apply filter_imp_ids].
    + apply (elem_of_split_eq _ _ _ _ Hl2), list_elem_of_fmap in Hin as (imp&Hrd&[_ Hin]%list_elem_of_filter).
      symmetry in Hrd. destruct (beachfront_video_calls _ _ _ _ Hrd) as [? ->].
      split; [done|]. by apply (one_imp_id imp imp).
  - intros a request external response br. cbn. unfold beachfront_make_bids. intros Hb Hne. adapter_step; [by injection Hb as <-|].
    adapter_step. by eapply beachfront_status_inr.
Qed.
End Contracts.

(** ** Single adapters *)

(** rubicon answers with the type of the medium it sent: the impression of a call has
    one medium, and reading it back gives the type chosen when it was made. *)
Definition rubicon_type_chosen (imp : Imp) : BidType :=
  if rubicon_is_video imp then BtVideo else if present (imp_banner imp) then BtBanner else BtNative.
Lemma rubicon_type_agrees ext imp imp' request : rubicon_media ext imp = inr imp' →
  rubicon_bid_type (rubicon_request ext imp' request) = rubicon_type_chosen imp.
Proof.
  intros Hm. assert (req_imp (rubicon_request ext imp' request) = [imp']) as Hr.
  { unfold rubicon_request, with_publisher. cbn. repeat (case_match; cbn in *; simplify_eq); done. }
  unfold rubicon_bid_type. rewrite Hr. cbn. unfold rubicon_media, rubicon_type_chosen in *.
  destruct (rubicon_is_video imp) eqn:Hv.
  { injection Hm as <-. unfold rubicon_video_imp. by destruct (default 0 (imp_rwdd imp) =? 1). }
  destruct (imp_banner imp) as [banner|] eqn:Hb.
  { unfold rubicon_banner_imp in Hm. do 3 adapter_step. done. }
  destruct (imp_native imp); [|done]. injection Hm as <-. cbn. by rewrite Hb.
Qed.
(** The credentials of RFC 7617's example, and the other lengths of a last chunk. *)
Example base64_values :
  basic_auth "Aladdin" "open sesame" = "Basic QWxhZGRpbjpvcGVuIHNlc2FtZQ==" ∧ base64_encode "Man" = "TWFu"
  ∧ base64_encode "Ma" = "TWE=" ∧ base64_encode "" = "".
Proof. repeat split; reflexivity. Qed.

(** sovrn: decoding undoes percent encoding of an ASCII text; any other byte is
    taken for a character of its own and comes out as two. *)
Lemma sovrn_decode_escape h l hi lo s : IpUtil.hex_digit h = Some hi → IpUtil.hex_digit l = Some lo →
  sovrn_url_decode (String (ch "%") (String h (String l s))) = latin1 (hi * 16 + lo) +:+ sovrn_url_decode s.
Proof. intros Hh Hl. cbn [sovrn_url_decode]. by rewrite bool_decide_true, Hh, Hl by done. Qed.
Lemma sovrn_decode_plain c s : c ≠ ch "%" → c ≠ ch "+" →
  sovrn_url_decode (String c s) = latin1 (Z.of_N (Ascii.N_of_ascii c)) +:+ sovrn_url_decode s.
Proof.
  intros Hc Hp. cbn [sovrn_url_decode]. rewrite (bool_decide_false (c = ch "+")) by done.
  destruct s as [|h [|l s]]; [done..|]. by rewrite (bool_decide_false (c = ch "%")) by done.
Qed.
Lemma sovrn_decode_char c s : is_ascii_char c →
  sovrn_url_decode (percent_encode (String c s)) = String c (sovrn_url_decode (percent_encode s)).
Proof.
  intros Hc. cbn [percent_encode]. generalize (percent_encode s) as t. intros t.
  destruct c as [[] [] [] [] [] [] [] []]; try (by vm_compute in Hc).
  all: first
    [ exact (sovrn_decode_escape _ _ _ _ t eq_refl eq_refl)
    | match goal with |- _ = String ?c _ => exact (sovrn_decode_plain c t ltac:(discriminate) ltac:(discriminate)) end ].
Qed.
Lemma sovrn_decode_encode s : ascii_text s → sovrn_url_decode (percent_encode s) = s.
Proof.
  unfold ascii_text. induction s as [|c s IH]; cbn; [done|]. intros [Hc Hs]%Forall_cons.
  change (sovrn_url_decode (percent_encode (String c s)) = String c s). by rewrite sovrn_decode_char, IH.
Qed.
Example sovrn_mojibake : sovrn_url_decode (String (ascii_of_byte 195) (String (ascii_of_byte 169) ""))
  = String (ascii_of_byte 195) (String (ascii_of_byte 131) (String (ascii_of_byte 194) (String (ascii_of_byte 169) ""))).
Proof. reflexivity. Qed.

(** across33: impressions without a zone share one call, whatever their product. *)
Lemma across33_zoneless_key imp prod : imp_ext imp = Some (ImpTtxExt prod "") → across33_key imp = "".
Proof. intros Hi. unfold across33_key. by rewrite Hi. Qed.
