(* ===== verification/Adapters5.v ===== *)
(** * Adapters of adapters5 and adapters10

    adapters/src/adapters5: jixie, kayzen, kidoz, kobler, lunamedia, madvertise,
    medianet, mgid and minutemedia; adapters10: driftpixel, e_volution,
    elementaltv, escalax, freewheelssp, frvradn, fwssp, globalsun, huaweiads and
    imds. *)

From S2P Require Import Prelude IpUtil Json OpenRtb OpenRtbExt AdapterKit.

Section Adapters5.
Context `{OpenRtbJson, StdText, KeyIter}.

(** ** jixie *)

Record JixieAdapter : Type := { jixie_endpoint : string }.
Definition jixie_bid_type (adm : option string) : BidType :=
  match adm with
  | Some adm_str =>
      let lower := std_to_lowercase adm_str in
      if str_contains "<?xml" lower || str_contains "<vast" lower then BtVideo else BtBanner
  | None => BtBanner
  end.
Definition jixie_make_requests (a : JixieAdapter) (request : BidRequest) (_ : ExtraRequestInfo)
    : list RequestData * list BidderError :=
  let headers := page_header request (device_header "X-Forwarded-For" dev_ip request
                   (device_header "User-Agent" dev_ua request json_headers)) in
  single (post_request (jixie_endpoint a) headers (req_imp request) request).
(** A bid's own id replaces its impression's. *)
Definition jixie_make_bids (a : JixieAdapter) (_ : BidRequest) (_ : RequestData) (response : ResponseData)
    : list BidderError + BidderResponse :=
  if rsd_status_code response =? 204 then inr bidder_response_new else
  reject_status 400 (BadInput (unexpected_status response)) response;;
  only_200 (λ r, BadServerResponse (status_text "Invalid Status Returned: "
    ". Run with request.debug = 1 for more info" r)) response;;
  bid_resp ← parse_response (λ e, BadServerResponse ("Unable to unpackage bid response. Error: " +:+ e)) response;
  inr (answer_with (default "USD" (resp_cur bid_resp))
    ((λ bid, typed_bid_new (set_bid_impid (bid_id bid) bid) (jixie_bid_type (bid_adm bid))) <$> bids_of bid_resp)).
#[export] Instance jixie_bidder : Bidder JixieAdapter := {
  make_requests := jixie_make_requests; make_bids := jixie_make_bids }.

(** ** kayzen *)

Record KayzenAdapter : Type := { kayzen_endpoint : string }.
Record KayzenImpExt : Type := { kyz_zone : string; kyz_exchange : string }.
Context `{!Deserialize KayzenImpExt}.
Definition kayzen_media_type_for_imp (imp_id : string) (imps : list Imp) : BidType :=
  default BtBanner (first_type banner_video_native_imp imp_id imps).
Definition kayzen_make_requests (a : KayzenAdapter) (request : BidRequest) (_ : ExtraRequestInfo)
    : list RequestData * list BidderError :=
  match req_imp request with
  | [] => ([], [BadInput "Missing Imp Object"])
  | imp :: imps =>
      single (
        bidder_val ← ok_or (BadInput "Bidder extension not provided or can't be unmarshalled")
          (json_path ["bidder"] (imp_ext imp));
        kayzen_ext ← map_error (λ _, BadInput "Error while unmarshaling bidder extension")
          (from_value (A := KayzenImpExt) bidder_val);
        let req_copy := set_req_imp (set_imp_ext None imp :: imps) request in
        let uri := str_replace "{{.AccountID}}" (kyz_exchange kayzen_ext)
                     (str_replace "{{.ZoneID}}" (kyz_zone kayzen_ext) (kayzen_endpoint a)) in
        post_request uri json_headers (req_imp req_copy) req_copy)
  end.
Definition kayzen_make_bids (a : KayzenAdapter) (internal : BidRequest) (_ : RequestData)
    (response : ResponseData) : list BidderError + BidderResponse :=
  if rsd_status_code response =? 204 then inr bidder_response_new else
  reject_status 400 (BadInput
    "Unexpected status code: 400. Bad request from publisher. Run with request.debug = 1 for more info.") response;;
  only_200 (λ r, BadServerResponse (status_text "Unexpected status code: "
    ". Run with request.debug = 1 for more info." r)) response;;
  bid_resp ← parse_response (λ _, BadServerResponse "Bad Server Response") response;
  inr (answer_with "USD" ((λ bid, typed_bid_new bid (kayzen_media_type_for_imp (bid_impid bid) (req_imp internal)))
                            <$> bids_of bid_resp)).
#[export] Instance kayzen_bidder : Bidder KayzenAdapter := {
  make_requests := kayzen_make_requests; make_bids := kayzen_make_bids }.

(** ** kidoz *)

Record KidozAdapter : Type := { kidoz_endpoint : string }.
Record KidozImpExt : Type := { kdz_access_token : string; kdz_publisher_id : string }.
Context `{!Deserialize KidozImpExt}.
Definition kidoz_imp_type (imp : Imp) : option BidType :=
  option_or (banner_video_native_imp imp) (if present (imp_audio imp) then Some BtAudio else None).
Definition kidoz_media_type_for_imp (imp_id : string) (imps : list Imp) : option BidType :=
  first_type kidoz_imp_type imp_id imps.
Definition kidoz_imp_request (endpoint : string) (request : BidRequest) (imp : Imp) : BidderError + RequestData :=
  ensure (present (imp_banner imp) || present (imp_video imp)) (BadInput "Kidoz only supports banner or video ads");;
  ensure (match imp_banner imp with Some banner => negb (is_nil (default [] (ban_format banner))) | None => true end)
    (BadInput "banner format required");;
  ext ← ok_or (BadInput "impression extensions required") (imp_ext imp);
  bidder_val ← ok_or (BadInput "bidder required") (get "bidder" ext);
  kidoz_ext ← map_error BadInput (from_value (A := KidozImpExt) bidder_val);
  ensure (negb (str_is_empty (kdz_access_token kidoz_ext))) (BadInput "Kidoz access_token required");;
  ensure (negb (str_is_empty (kdz_publisher_id kidoz_ext))) (BadInput "Kidoz publisher_id required");;
  post_request endpoint (<["x-openrtb-version" := "2.5"]> json_headers) [imp] (set_req_imp [imp] request).
Definition kidoz_make_requests (a : KidozAdapter) (request : BidRequest) (_ : ExtraRequestInfo)
    : list RequestData * list BidderError :=
  split_results (kidoz_imp_request (kidoz_endpoint a) request <$> req_imp request).
Definition kidoz_make_bids (a : KidozAdapter) (internal : BidRequest) (_ : RequestData)
    (response : ResponseData) : list BidderError + BidderResponse :=
  let s := rsd_status_code response in
  let text := status_text "unexpected status code: " " " response +:+ std_from_utf8_lossy (rsd_body response) in
  if (s =? 204) || (s =? 503) then inr bidder_response_new else
  if (s =? 400) || (s =? 401) || (s =? 403) then inl [BadInput text] else
  only_200 (λ _, BadServerResponse text) response;;
  bid_resp ← parse_response BadServerResponse response;
  some_bids_or_errors "USD" (typed (λ bid,
    ok_or (BadServerResponse ("ignoring bid id=" +:+ bid_id bid
             +:+ ", request doesn't contain any valid impression with id=" +:+ bid_impid bid))
      (kidoz_media_type_for_imp (bid_impid bid) (req_imp internal))) <$> bids_of bid_resp).
#[export] Instance kidoz_bidder : Bidder KidozAdapter := {
  make_requests := kidoz_make_requests; make_bids := kidoz_make_bids }.

(** ** kobler *)

Definition KOBLER_DEV_ENDPOINT : string := "https://bid-service.dev.essrtb.com/bid/prebid_server_rtb_call".
Definition KOBLER_SUPPORTED_CURRENCY : string := "USD".
Record KoblerAdapter : Type := { kobler_endpoint : string }.
Record KoblerImpExt : Type := { kbl_test : bool }.
(** Of ExtBidPrebid the code reads the type. *)
Context `{!Deserialize KoblerImpExt}.
Record KoblerExtBidPrebid : Type := { kbl_bid_type : option BidType }.
Context `{!Deserialize KoblerExtBidPrebid}.
Definition kobler_bid_type_for_bid (bid : Bid) : BidType :=
  match json_path ["prebid"] (bid_ext bid) with
  | Some prebid_val =>
      match from_value (A := KoblerExtBidPrebid) prebid_val with
      | inr prebid => default BtBanner (kbl_bid_type prebid)
      | inl _ => BtBanner
      end
  | None => BtBanner
  end.
Definition kobler_sanitize (request : BidRequest) : BidRequest :=
  let req := set_req_user None request in
  let req := set_req_device ((λ d, set_dev_ipv6 None (set_dev_ip None d)) <$> req_device req) req in
  let cur := default [] (req_cur req) in
  if bool_decide (KOBLER_SUPPORTED_CURRENCY ∈ cur) then req
  else set_req_cur (Some (cur ++ [KOBLER_SUPPORTED_CURRENCY])) req.
Definition kobler_test_mode (request : BidRequest) : bool * list BidderError :=
  match head (req_imp request) ≫= imp_ext with
  | None => (false, [])
  | Some ext =>
      match get "bidder" ext with
      | None => (false, [BadInput "Error parsing bidderExt object"])
      | Some bidder_val =>
          match from_value (A := KoblerImpExt) bidder_val with
          | inr imp_ext => (kbl_test imp_ext, [])
          | inl _ => (false, [BadInput "Error parsing impExt object"])
          end
      end
  end.
Definition kobler_make_requests (a : KoblerAdapter) (request : BidRequest) (_ : ExtraRequestInfo)
    : list RequestData * list BidderError :=
  let req_copy := kobler_sanitize request in
  let '(test_mode, errs) := kobler_test_mode req_copy in
  match post_request (if test_mode then KOBLER_DEV_ENDPOINT else kobler_endpoint a) content_type_json
          (req_imp req_copy) req_copy with
  | inl e => ([], [e])
  | inr rd => ([rd], errs)
  end.
Definition kobler_make_bids (a : KoblerAdapter) (_ : BidRequest) (_ : RequestData) (response : ResponseData)
    : list BidderError + BidderResponse :=
  if (rsd_status_code response =? 204) || is_nil (rsd_body response) then inr bidder_response_new else
  only_200 (λ r, BadServerResponse (status_text "Unexpected status code: "
    ". Run with request.debug = 1 for more info." r)) response;;
  bid_resp ← parse_response BadServerResponse response;
  inr (answer_with (default "USD" (resp_cur bid_resp))
    ((λ bid, typed_bid_new bid (kobler_bid_type_for_bid bid)) <$> bids_of bid_resp)).
#[export] Instance kobler_bidder : Bidder KoblerAdapter := {
  make_requests := kobler_make_requests; make_bids := kobler_make_bids }.

(** ** lunamedia *)

Record LunamediaAdapter : Type := { lunamedia_endpoint : string }.
Record LunamediaImpExt : Type := { lun_pubid : string; lun_placement : string }.
Context `{!Deserialize LunamediaImpExt}.
Definition lunamedia_impression_ext (imp : Imp) : BidderError + LunamediaImpExt :=
  ext ← ok_or (BadInput "missing imp.ext") (imp_ext imp);
  bidder_val ← ok_or (BadInput "missing imp.ext.bidder") (get "bidder" ext);
  map_error BadInput (from_value bidder_val).
Definition lunamedia_compat_banner_imp (imp : Imp) : BidderError + Imp :=
  match imp_banner imp with
  | Some banner =>
      if present (ban_w banner) && present (ban_h banner) then inr imp else
      match default [] (ban_format banner) with
      | [] => inl (BadInput "Expected at least one banner.format entry or explicit w/h")
      | first :: remaining =>
          let banner := set_ban_h (fmt_h first) (set_ban_w (fmt_w first) banner) in
          let banner := set_ban_format (if is_nil remaining then None else Some remaining) banner in
          inr (set_imp_banner (Some banner) imp)
      end
  | None => inr imp
  end.
(** The group of an impression, and the impression as it is sent. *)
Definition lunamedia_imp (imp : Imp) : BidderError + (string * string) * Imp :=
  imp_ext ← lunamedia_impression_ext imp;
  ensure (negb (str_is_empty (lun_pubid imp_ext))) (BadInput "No pubid value provided");;
  let imp_copy := set_imp_ext None imp in
  let imp_copy := if str_is_empty (lun_placement imp_ext) then imp_copy
                  else set_imp_tagid (Some (lun_placement imp_ext)) imp_copy in
  imp_copy ← lunamedia_compat_banner_imp imp_copy;
  inr ((lun_pubid imp_ext, lun_placement imp_ext), imp_copy).
Definition lunamedia_request (imps : list Imp) (request : BidRequest) : BidRequest :=
  let req := set_req_imp imps request in
  let req := set_req_site ((λ s, set_site_domain None (set_site_publisher None s)) <$> req_site req) req in
  set_req_app (set_app_publisher None <$> req_app req) req.
(** One call per group, in the order of the map; an error takes them all away. *)
Definition lunamedia_make_requests (a : LunamediaAdapter) (request : BidRequest) (_ : ExtraRequestInfo)
    : list RequestData * list BidderError :=
  if is_nil (req_imp request) then ([], [BadInput "No impression in the bid request"]) else
  let '(imps, errs) := split_results (lunamedia_imp <$> req_imp request) in
  after_errors errs (all_or_first_error (mapM (λ '(key, imps),
    let req_copy := lunamedia_request imps request in
    let uri := str_replace "{{.PublisherID}}" key.1 (lunamedia_endpoint a) in
    post_request uri (<["x-openrtb-version" := "2.5"]> json_headers) (req_imp req_copy) req_copy)
      (key_iter (grouped imps)))).
Definition lunamedia_media_type_for_imp_id (imp_id0 : string) (imps : list Imp) : BidType :=
  if existsb (λ imp, bool_decide (imp_id imp = imp_id0) && present (imp_video imp)) imps then BtVideo else BtBanner.
Definition lunamedia_make_bids (a : LunamediaAdapter) (internal : BidRequest) (_ : RequestData)
    (response : ResponseData) : list BidderError + BidderResponse :=
  if rsd_status_code response =? 204 then inr bidder_response_new else
  only_200 (λ r, BadServerResponse (status_text "Unexpected http status code: " "" r)) response;;
  bid_resp ← parse_response (λ e, BadServerResponse ("Bad server response: " +:+ e)) response;
  match resp_seatbid bid_resp with
  | [seat_bid] => inr (answer_with "USD"
      ((λ bid, typed_bid_new bid (lunamedia_media_type_for_imp_id (bid_impid bid) (req_imp internal))) <$> sb_bid seat_bid))
  | seats => inl [BadServerResponse ("Invalid SeatBids count: " +:+ pretty (zlen seats))]
  end.
#[export] Instance lunamedia_bidder : Bidder LunamediaAdapter := {
  make_requests := lunamedia_make_requests; make_bids := lunamedia_make_bids }.

(** ** madvertise *)

Record MadvertiseAdapter : Type := { madvertise_endpoint : string }.
Record MadvertiseImpExt : Type := { mdv_zone_id : string }.
Context `{!Deserialize MadvertiseImpExt}.
Definition madvertise_media_type_for_bid (attr : option (list Z)) : BidType :=
  match attr with
  | Some attrs => if existsb (λ a, (a =? 16) || (a =? 6) || (a =? 7)) attrs then BtVideo else BtBanner
  | None => BtBanner
  end.
Definition madvertise_impression_ext (imp : Imp) : BidderError + MadvertiseImpExt :=
  ext ← ok_or (BadInput ("missing ext; ImpID=" +:+ imp_id imp)) (imp_ext imp);
  bidder_val ← ok_or (BadInput ("missing bidder ext; ImpID=" +:+ imp_id imp)) (get "bidder" ext);
  ext_parsed ← map_error (λ e, BadInput (e +:+ "; ImpID=" +:+ imp_id imp)) (from_value bidder_val);
  ensure (negb (str_is_empty (mdv_zone_id ext_parsed)))
    (BadInput ("ext.bidder.zoneId not provided; ImpID=" +:+ imp_id imp));;
  inr ext_parsed.
(** The one zone of all impressions. *)
Fixpoint madvertise_zone (imps : list Imp) (zone_id : string) : BidderError + string :=
  match imps with
  | [] => inr zone_id
  | imp :: imps' =>
      imp_ext ← madvertise_impression_ext imp;
      ensure (7 <=? str_len (mdv_zone_id imp_ext))
        (BadInput ("The minLength of zone ID is 7; ImpID=" +:+ imp_id imp));;
      if str_is_empty zone_id then madvertise_zone imps' (mdv_zone_id imp_ext)
      else ensure (bool_decide (zone_id = mdv_zone_id imp_ext)) (BadInput "There must be only one zone ID");;
           madvertise_zone imps' zone_id
  end.
Definition madvertise_make_requests (a : MadvertiseAdapter) (request : BidRequest) (_ : ExtraRequestInfo)
    : list RequestData * list BidderError :=
  single (
    zone_id ← madvertise_zone (req_imp request) "";
    let headers := <["X-Openrtb-Version" := "2.5"]> json_headers in
    let headers := device_header "X-Forwarded-For" dev_ip request (device_header "User-Agent" dev_ua request headers) in
    post_request (str_replace "{{.ZoneID}}" zone_id (madvertise_endpoint a)) headers (req_imp request) request).
Definition madvertise_make_bids (a : MadvertiseAdapter) (_ : BidRequest) (_ : RequestData)
    (response : ResponseData) : list BidderError + BidderResponse :=
  if rsd_status_code response =? 204 then inr bidder_response_new else
  only_200 (λ r, BadServerResponse (unexpected_status r)) response;;
  bid_resp ← parse_response BadServerResponse response;
  inr (answer_with (default "USD" (resp_cur bid_resp))
    ((λ bid, typed_bid_new bid (madvertise_media_type_for_bid (bid_attr bid))) <$> bids_of bid_resp)).
#[export] Instance madvertise_bidder : Bidder MadvertiseAdapter := {
  make_requests := madvertise_make_requests; make_bids := madvertise_make_bids }.

(** ** medianet *)

Record MedianetAdapter : Type := { medianet_endpoint : string }.
Definition medianet_bid_media_type_from_mtype (mtype : Z) (imp_id : string) : BidderError + BidType :=
  banner_video_native mtype (BadServerResponse ("Unable to fetch mediaType for imp: " +:+ imp_id)).
Definition medianet_make_requests (a : MedianetAdapter) (request : BidRequest) (_ : ExtraRequestInfo)
    : list RequestData * list BidderError :=
  single (post_request (medianet_endpoint a) content_type_json (req_imp request) request).
Definition medianet_make_bids (a : MedianetAdapter) (_ : BidRequest) (_ : RequestData) (response : ResponseData)
    : list BidderError + BidderResponse :=
  if rsd_status_code response =? 204 then inr bidder_response_new else
  ok_or_400 response;;
  bid_resp ← parse_response BadServerResponse response;
  some_bids_or_errors "USD"
    (typed (λ bid, medianet_bid_media_type_from_mtype (default 0 (bid_mtype bid)) (bid_impid bid)) <$> bids_of bid_resp).
#[export] Instance medianet_bidder : Bidder MedianetAdapter := {
  make_requests := medianet_make_requests; make_bids := medianet_make_bids }.

(** ** mgid *)

Record MgidAdapter : Type := { mgid_endpoint : string }.
Record MgidImpExt : Type := {
  mgd_account_id : string; mgd_placement_id : string; mgd_currency : string; mgd_cur : string;
  mgd_bid_floor : f64; mgd_bid_floor2 : f64 }.
Record MgidRespBidExt : Type := { mgd_crtype : option string }.
Context `{!Deserialize MgidImpExt, !Deserialize MgidRespBidExt}.
Definition mgid_imp (imp : Imp) : BidderError + Imp * string :=
  ext ← ok_or (BadInput "imp.ext missing") (imp_ext imp);
  bidder_val ← ok_or (BadInput "imp.ext.bidder missing") (get "bidder" ext);
  mgid_ext ← map_error BadInput (from_value (A := MgidImpExt) bidder_val);
  let imp := set_imp_tagid (Some (if str_is_empty (mgd_placement_id mgid_ext) then imp_id imp
                                  else mgd_placement_id mgid_ext +:+ "/" +:+ imp_id imp)) imp in
  let foreign (c : string) := negb (str_is_empty c) && negb (bool_decide (c = "USD")) in
  let cur := if foreign (mgd_currency mgid_ext) then mgd_currency mgid_ext
             else if foreign (mgd_cur mgid_ext) then mgd_cur mgid_ext else "" in
  let bid_floor := if f64_gtb (mgd_bid_floor mgid_ext) f64_zero then mgd_bid_floor mgid_ext
                   else if f64_gtb (mgd_bid_floor2 mgid_ext) f64_zero then mgd_bid_floor2 mgid_ext else f64_zero in
  let imp := if f64_gtb bid_floor f64_zero then set_imp_bidfloor (Some bid_floor) imp else imp in
  inr (if str_is_empty cur then imp else set_imp_bidfloorcur (Some cur) imp, mgd_account_id mgid_ext).
Definition mgid_make_requests (a : MgidAdapter) (request : BidRequest) (_ : ExtraRequestInfo)
    : list RequestData * list BidderError :=
  single (
    let req_copy := match req_tmax request with
                    | None | Some 0 => set_req_tmax (Some 200) request
                    | _ => request
                    end in
    imps ← mapM mgid_imp (req_imp request);
    let req_copy := set_req_imp imps.*1 req_copy in
    let path := default "" (head (filter (λ p, p ≠ "") imps.*2)) in
    ensure (negb (str_is_empty path)) (BadInput "accountId is not set");;
    post_request (mgid_endpoint a +:+ path) json_headers (req_imp req_copy) req_copy).
Definition mgid_bid_type (bid : Bid) : BidType :=
  match bid_ext bid ≫= (λ ext, match from_value (A := MgidRespBidExt) ext with inr e => mgd_crtype e | inl _ => None end) with
  | Some ct => match media_type_named ct (Unknown "") with inr t => t | inl _ => BtBanner end
  | None => BtBanner
  end.
Definition mgid_make_bids (a : MgidAdapter) (_ : BidRequest) (_ : RequestData) (response : ResponseData)
    : list BidderError + BidderResponse :=
  if rsd_status_code response =? 204 then inr bidder_response_new else
  ok_or_400 response;;
  bid_resp ← parse_response BadServerResponse response;
  inr (answer_with (default "USD" (resp_cur bid_resp))
    ((λ bid, typed_bid_new bid (mgid_bid_type bid)) <$> bids_of bid_resp)).
#[export] Instance mgid_bidder : Bidder MgidAdapter := {
  make_requests := mgid_make_requests; make_bids := mgid_make_bids }.

(** ** minutemedia *)

Definition MINUTEMEDIA_TEST_ENDPOINT : string := "https://pbs.minutemedia-prebid.com/pbs-test".
Record MinutemediaAdapter : Type := { minutemedia_endpoint : string }.
Record ImpExtMinuteMedia : Type := { mnm_org : string }.
Context `{!Deserialize ImpExtMinuteMedia}.
Definition minutemedia_extract_org (request : BidRequest) : BidderError + string :=
  imp ← ok_or (BadInput "no imps in bid request") (head (req_imp request));
  bidder_ext ← ok_or (BadInput "failed to unmarshal bidderExt") (json_path ["bidder"] (imp_ext imp));
  imp_ext ← map_error (λ e, BadInput ("failed to unmarshal ImpExtMinuteMedia: " +:+ e))
    (from_value (A := ImpExtMinuteMedia) bidder_ext);
  inr (trim (mnm_org imp_ext)).
Definition minutemedia_media_type_for_bid (bid : Bid) : BidderError + BidType :=
  let mtype := default 0 (bid_mtype bid) in
  match mtype with
  | 1 => inr BtBanner
  | 2 => inr BtVideo
  | _ => inl (BadServerResponse ("unsupported MType " +:+ pretty mtype))
  end.
Definition minutemedia_make_requests (a : MinutemediaAdapter) (request : BidRequest) (_ : ExtraRequestInfo)
    : list RequestData * list BidderError :=
  single (
    org ← minutemedia_extract_org request;
    let base_endpoint := if bool_decide (req_test request = Some 1) then MINUTEMEDIA_TEST_ENDPOINT
                         else minutemedia_endpoint a in
    post_request (base_endpoint +:+ "?publisher_id=" +:+ percent_encode org) content_type_json
      (req_imp request) request).
(** Bids of another type are dropped without a word. *)
Definition minutemedia_make_bids (a : MinutemediaAdapter) (_ : BidRequest) (_ : RequestData)
    (response : ResponseData) : list BidderError + BidderResponse :=
  if rsd_status_code response =? 204 then inr bidder_response_new else
  ok_or_400 response;;
  bid_resp ← parse_response BadServerResponse response;
  inr (answer_with (currency_or_usd bid_resp)
    (split_results (typed minutemedia_media_type_for_bid <$> bids_of bid_resp)).1).
#[export] Instance minutemedia_bidder : Bidder MinutemediaAdapter := {
  make_requests := minutemedia_make_requests; make_bids := minutemedia_make_bids }.

(** ** adapters10: driftpixel *)

Record DriftpixelAdapter : Type := { driftpixel_endpoint : string }.
Definition driftpixel_bid_type_from_mtype (mtype : Z) (imp_id : string) : BidderError + BidType :=
  banner_video_native mtype (BadServerResponse ("failed to parse bid mtype (" +:+ pretty mtype +:+
    ") for impression id " +:+ dq +:+ imp_id +:+ dq)).
Definition driftpixel_make_requests (a : DriftpixelAdapter) (request : BidRequest) (_ : ExtraRequestInfo)
    : list RequestData * list BidderError :=
  split_results ((λ imp,
    let env := bidder_str "env" imp in
    let pid := bidder_str "pid" imp in
    ensure (negb (str_is_empty env || str_is_empty pid))
      (BadInput "Failed to deserialize DriftPixel extension: missing env or pid");;
    let url := str_replace "{{.SourceId}}" pid (str_replace "{{.Host}}" env (driftpixel_endpoint a)) in
    post_request url json_headers [imp] (set_req_imp [imp] request)) <$> req_imp request).
Definition driftpixel_make_bids (a : DriftpixelAdapter) (_ : BidRequest) (_ : RequestData)
    (response : ResponseData) : list BidderError + BidderResponse :=
  if rsd_status_code response =? 204 then inr bidder_response_new else
  check_status response;;
  bid_resp ← parse_response BadServerResponse response;
  ensure (negb (is_nil (resp_seatbid bid_resp))) [BadServerResponse "Array SeatBid cannot be empty"];;
  some_bids_or_errors "USD"
    (typed (λ bid, driftpixel_bid_type_from_mtype (u64 (default 0 (bid_mtype bid))) (bid_impid bid)) <$> bids_of bid_resp).
#[export] Instance driftpixel_bidder : Bidder DriftpixelAdapter := {
  make_requests := driftpixel_make_requests; make_bids := driftpixel_make_bids }.

(** ** e_volution *)

Record EvolutionAdapter : Type := { evolution_endpoint : string }.
Definition evolution_bid_type_from_bid_ext (bid : Bid) : BidType :=
  let type_str := str_at ["mediaType"] (bid_ext bid) in
  if bool_decide (type_str = "video") then BtVideo
  else if bool_decide (type_str = "native") then BtNative else BtBanner.
Definition evolution_make_requests (a : EvolutionAdapter) (request : BidRequest) (_ : ExtraRequestInfo)
    : list RequestData * list BidderError :=
  single (post_request (evolution_endpoint a) json_headers (req_imp request) request).
(** Only the first seat is read. *)
Definition evolution_make_bids (a : EvolutionAdapter) (_ : BidRequest) (_ : RequestData)
    (response : ResponseData) : list BidderError + BidderResponse :=
  if rsd_status_code response =? 204 then inr bidder_response_new else
  reject_status 400 (BadInput ("Bad Request. " +:+ std_from_utf8_lossy (rsd_body response))) response;;
  if rsd_status_code response =? 503 then inr bidder_response_new else
  only_200 (λ r, BadServerResponse (status_text
    "Something went wrong, please contact your Account Manager. Status Code: [ " " ] " r)) response;;
  bid_resp ← parse_response (λ e, BadServerResponse ("Bad response, " +:+ e)) response;
  match resp_seatbid bid_resp with
  | [] => inl [BadServerResponse "Empty seatbid"]
  | sb :: _ => inr (answer_with "USD" ((λ bid, typed_bid_new bid (evolution_bid_type_from_bid_ext bid)) <$> sb_bid sb))
  end.
#[export] Instance evolution_bidder : Bidder EvolutionAdapter := {
  make_requests := evolution_make_requests; make_bids := evolution_make_bids }.

(** ** elementaltv *)

Record ElementaltvAdapter : Type := { elementaltv_endpoint : string }.
Record ExtImpElementalTV : Type := { etv_ad_unit : string }.
Record ElementaltvVideoExt : Type := { etv_duration : Z }.
Record ElementaltvAdsExt : Type := { etv_video : option ElementaltvVideoExt }.
Record ElementaltvBidExt : Type := { etv_ads : option ElementaltvAdsExt }.
Context `{!Deserialize ExtImpElementalTV, !Deserialize ElementaltvBidExt}.
Definition elementaltv_unmarshal_ext (ext : Value) : BidderError + ExtImpElementalTV :=
  bidder ← ok_or (BadInput "$.imp.ext.bidder required") (get "bidder" ext);
  ads_ext ← map_error BadInput (from_value bidder);
  ensure (negb (str_is_empty (etv_ad_unit ads_ext))) (BadInput "$.imp.ext.bidder.adunit required");;
  inr ads_ext.
Definition elementaltv_build_bid_uri (endpoint ad_unit : string) : string :=
  str_replace "{{.AdUnit}}" (percent_encode ad_unit) endpoint.
Definition elementaltv_make_requests (a : ElementaltvAdapter) (request : BidRequest) (_ : ExtraRequestInfo)
    : list RequestData * list BidderError :=
  split_results ((λ imp,
    imp_ext ← ok_or (BadInput ("missing ext for imp id=" +:+ imp_id imp)) (imp_ext imp);
    ext ← elementaltv_unmarshal_ext imp_ext;
    let per_req := set_req_imp [imp] (set_req_id (req_id request +:+ "-" +:+ etv_ad_unit ext) request) in
    post_request (elementaltv_build_bid_uri (elementaltv_endpoint a) (etv_ad_unit ext))
      (<["X-OpenRTB-Version" := "2.6"]> json_headers) (req_imp per_req) per_req) <$> req_imp request).
Definition elementaltv_imp_type (imp : Imp) : option BidType :=
  if present (imp_banner imp) then Some BtBanner
  else if present (imp_video imp) then Some BtVideo
  else if present (imp_audio imp) then Some BtAudio
  else if present (imp_native imp) then Some BtNative
  else None.
Fixpoint elementaltv_imp_types (imps : list Imp) (types : gmap string BidType)
    : list BidderError + gmap string BidType :=
  match imps with
  | [] => inr types
  | imp :: imps' =>
      ensure (negb (present (types !! imp_id imp))) [BadInput ("duplicate $.imp.id " +:+ imp_id imp)];;
      t ← ok_or [BadInput "one of $.imp.banner, $.imp.video, $.imp.audio and $.imp.native field required"]
            (elementaltv_imp_type imp);
      elementaltv_imp_types imps' (<[imp_id imp := t]> types)
  end.
Definition elementaltv_bid (types : gmap string BidType) (bid : Bid) : BidderError + TypedBid :=
  tp ← ok_or (BadServerResponse ("unknown impid: " +:+ bid_impid bid)) (types !! bid_impid bid);
  bid_video ←
    (if bool_decide (tp = BtVideo) then
       let ads := bid_ext bid ≫= (λ e, match from_value (A := ElementaltvBidExt) e with
                                       | inr w => etv_ads w | inl _ => None end) in
       v ← ok_or (BadServerResponse "$.seatbid.bid.ext.ads.video required") (ads ≫= etv_video);
       inr (Some {| bvid_duration := etv_duration v; bvid_primary_category := first_cat bid |})
     else inr None);
  inr (with_video bid_video (typed_bid_new bid tp)).
Definition elementaltv_make_bids (a : ElementaltvAdapter) (internal : BidRequest) (_ : RequestData)
    (response : ResponseData) : list BidderError + BidderResponse :=
  if rsd_status_code response =? 204 then inr bidder_response_new else
  reject_status 400 (BadInput "bad request") response;;
  only_200 (λ r, BadServerResponse (status_text "unexpected status: " "" r)) response;;
  bid_resp ← parse_response (λ e, BadServerResponse ("invalid body: " +:+ e)) response;
  types ← elementaltv_imp_types (req_imp internal) ∅;
  bids_or_first_error "USD" (elementaltv_bid types <$> bids_of bid_resp).
#[export] Instance elementaltv_bidder : Bidder ElementaltvAdapter := {
  make_requests := elementaltv_make_requests; make_bids := elementaltv_make_bids }.

(** ** escalax *)

Record EscalaxAdapter : Type := { escalax_endpoint : string }.
Definition escalax_bid_type_from_mtype (mtype : Z) : BidderError + BidType :=
  banner_video_native mtype (BadInput ("unsupported MType " +:+ pretty mtype)).
Definition escalax_headers (request : BidRequest) : gmap string string :=
  let headers := device_header "User-Agent" dev_ua request (<["X-Openrtb-Version" := "2.5"]> json_headers) in
  device_header "X-Forwarded-For" dev_ip request (device_header "X-Forwarded-For" dev_ipv6 request headers).
Definition escalax_make_requests (a : EscalaxAdapter) (request : BidRequest) (_ : ExtraRequestInfo)
    : list RequestData * list BidderError :=
  match req_imp request with
  | [] => ([], [])
  | imp :: imps =>
      let url := str_replace "{{.SourceId}}" (bidder_str "sourceId" imp)
                   (str_replace "{{.AccountID}}" (bidder_str "accountId" imp) (escalax_endpoint a)) in
      single (post_request url (escalax_headers request) (req_imp request)
        (set_req_imp (set_imp_ext None imp :: imps) request))
  end.
Definition escalax_make_bids (a : EscalaxAdapter) (_ : BidRequest) (_ : RequestData) (response : ResponseData)
    : list BidderError + BidderResponse :=
  if rsd_status_code response =? 204 then inr bidder_response_new else
  check_status response;;
  bid_resp ← parse_response (λ _, BadServerResponse "Bad Server Response") response;
  ensure (negb (is_nil (resp_seatbid bid_resp))) [BadServerResponse "Empty SeatBid array"];;
  bids_or_first_error "USD"
    (typed (λ bid, escalax_bid_type_from_mtype (default 0 (bid_mtype bid))) <$> bids_of bid_resp).
#[export] Instance escalax_bidder : Bidder EscalaxAdapter := {
  make_requests := escalax_make_requests; make_bids := escalax_make_bids }.

(** ** freewheelssp and fwssp *)

Record FreewheelsspAdapter : Type := { freewheelssp_endpoint : string }.
Record ImpExtFreewheelSSP : Type := { fws_zone_id : string }.
Context `{!Deserialize ImpExtFreewheelSSP} `{!ToValue ImpExtFreewheelSSP}.
(** The impressions with their extensions re-written, numbered from [i]. *)
Definition rewrite_ext (A : Type) `{!Deserialize A, !ToValue A} (i : Z) (imp : Imp)
    : BidderError + Imp :=
  let invalid (e : string) :=
    BadInput ("Invalid imp.ext for impression index " +:+ pretty i +:+ ". Error Infomation: " +:+ e) in
  bidder_val ← ok_or (invalid "missing bidder ext") (json_path ["bidder"] (imp_ext imp));
  imp_ext ← map_error invalid (from_value (A := A) bidder_val);
  v ← map_error (λ e, BadInput ("Unable to transfer requestImpExt to Json fomat, " +:+ e)) (to_value imp_ext);
  inr (set_imp_ext (Some v) imp).
Fixpoint rewrite_exts (A : Type) `{!Deserialize A, !ToValue A} (i : Z) (imps : list Imp)
    : BidderError + list Imp :=
  match imps with
  | [] => inr []
  | imp :: imps' =>
      imp ← rewrite_ext A i imp; rest ← rewrite_exts A (i + 1) imps'; inr (imp :: rest)
  end.
Definition freewheelssp_make_requests (a : FreewheelsspAdapter) (request : BidRequest) (_ : ExtraRequestInfo)
    : list RequestData * list BidderError :=
  single (
    imps ← rewrite_exts ImpExtFreewheelSSP 0 (req_imp request);
    body ← map_error (λ e, BadInput ("Unable to transfer request to Json fomat, " +:+ e))
      (to_vec (set_req_imp imps request));
    inr (post (freewheelssp_endpoint a) body {[ "Componentid" := "prebid-go" ]} (get_imp_ids (req_imp request)))).
Definition freewheelssp_bid (bid : Bid) : TypedBid :=
  let duration := match bid_dur bid with
                  | Some dur => if f64_gtb dur f64_zero
                                then Z.max (- 2 ^ 31) (Z.min (2 ^ 31 - 1) (f64_as_i64 dur)) else 0
                  | None => 0
                  end in
  with_video (Some {| bvid_duration := duration; bvid_primary_category := first_cat bid |})
    (typed_bid_new bid BtVideo).
(** A response without a currency leaves it empty. *)
Definition freewheelssp_make_bids (a : FreewheelsspAdapter) (_ : BidRequest) (_ : RequestData)
    (response : ResponseData) : list BidderError + BidderResponse :=
  if rsd_status_code response =? 204 then inr bidder_response_new else
  only_200 (λ r, BadServerResponse (unexpected_status r)) response;;
  bid_resp ← parse_response BadServerResponse response;
  inr (answer_with (default "" (resp_cur bid_resp)) (freewheelssp_bid <$> bids_of bid_resp)).
#[export] Instance freewheelssp_bidder : Bidder FreewheelsspAdapter := {
  make_requests := freewheelssp_make_requests; make_bids := freewheelssp_make_bids }.

Record FwsspAdapter : Type := { fwssp_endpoint : string }.
Record ImpExtFwssp : Type := { fwp_custom_site_section_id : string; fwp_network_id : string; fwp_profile_id : string }.
Context `{!Deserialize ImpExtFwssp} `{!ToValue ImpExtFwssp}.
Definition fwssp_make_requests (a : FwsspAdapter) (request : BidRequest) (_ : ExtraRequestInfo)
    : list RequestData * list BidderError :=
  single (
    imps ← rewrite_exts ImpExtFwssp 0 (req_imp request);
    let req := set_req_imp imps request in
    body ← map_error (λ e, BadInput ("Unable to transfer request to Json fomat, " +:+ e)) (to_vec req);
    inr (post (fwssp_endpoint a) body {[ "Componentid" := "prebid-go" ]} (get_imp_ids (req_imp req)))).
(** The duration stays zero. *)
Definition fwssp_make_bids (a : FwsspAdapter) (_ : BidRequest) (_ : RequestData) (response : ResponseData)
    : list BidderError + BidderResponse :=
  if (rsd_status_code response =? 204) || ((rsd_status_code response =? 200) && is_nil (rsd_body response))
  then inr bidder_response_new else
  ok_or_400 response;;
  bid_resp ← parse_response BadServerResponse response;
  inr (answer_with (default "" (resp_cur bid_resp))
    ((λ bid, with_video (Some {| bvid_duration := 0; bvid_primary_category := first_cat bid |})
               (typed_bid_new bid BtVideo)) <$> bids_of bid_resp)).
#[export] Instance fwssp_bidder : Bidder FwsspAdapter := {
  make_requests := fwssp_make_requests; make_bids := fwssp_make_bids }.

(** ** frvradn *)

Record FrvradnAdapter : Type := { frvradn_endpoint : string }.
Definition frvradn_bid_type_from_bid_ext (bid : Bid) : BidderError + BidType :=
  media_type_named (str_at ["prebid"; "type"] (bid_ext bid))
    (BadServerResponse ("imp " +:+ bid_impid bid +:+ " with unknown media type")).
Definition frvradn_make_requests (a : FrvradnAdapter) (request : BidRequest) (_ : ExtraRequestInfo)
    : list RequestData * list BidderError :=
  split_results ((λ imp,
    let publisher_id := bidder_str "publisher_id" imp in
    let ad_unit_id := bidder_str "ad_unit_id" imp in
    ensure (negb (str_is_empty publisher_id || str_is_empty ad_unit_id))
      (BadInput "publisher_id and ad_unit_id are required");;
    let new_ext := object [("publisher_id", VString publisher_id); ("ad_unit_id", VString ad_unit_id)] in
    let imp_copy := set_imp_ext (Some new_ext) imp in
    post_request (frvradn_endpoint a) ∅ [imp_copy] (set_req_imp [imp_copy] request)) <$> req_imp request).
Definition frvradn_make_bids (a : FrvradnAdapter) (_ : BidRequest) (_ : RequestData) (response : ResponseData)
    : list BidderError + BidderResponse :=
  if rsd_status_code response =? 204 then inr bidder_response_new else
  check_status response;;
  if is_nil (rsd_body response) then inr bidder_response_new else
  bid_resp ← parse_response BadServerResponse response;
  some_bids_or_errors (currency_or_usd bid_resp) (typed frvradn_bid_type_from_bid_ext <$> bids_of bid_resp).
#[export] Instance frvradn_bidder : Bidder FrvradnAdapter := {
  make_requests := frvradn_make_requests; make_bids := frvradn_make_bids }.

(** ** globalsun, huaweiads and imds *)

Record GlobalsunAdapter : Type := { globalsun_endpoint : string }.
Definition globalsun_media_type_for_imp (imp_id : string) (imps : list Imp) : BidderError + BidType :=
  ok_or (BadInput ("Failed to find impression " +:+ dq +:+ imp_id +:+ dq))
    (first_type banner_video_native_imp imp_id imps).
Definition globalsun_make_requests (a : GlobalsunAdapter) (request : BidRequest) (_ : ExtraRequestInfo)
    : list RequestData * list BidderError :=
  all_or_first_error (mapM (λ imp,
    let placement_id := bidder_str "placementId" imp in
    ensure (negb (str_is_empty placement_id)) (BadInput "missing placementId in imp.ext.bidder");;
    let new_ext := object [("bidder",
      object [("placementId", VString placement_id); ("type", VString "publisher")])] in
    let imp_copy := set_imp_ext (Some new_ext) imp in
    post_request (globalsun_endpoint a) json_headers [imp_copy] (set_req_imp [imp_copy] request)) (req_imp request)).
Definition globalsun_make_bids (a : GlobalsunAdapter) (internal : BidRequest) (_ : RequestData)
    (response : ResponseData) : list BidderError + BidderResponse :=
  if rsd_status_code response =? 204 then inr bidder_response_new else
  check_status response;;
  bid_resp ← parse_response BadServerResponse response;
  bids_or_first_error (currency_or_usd bid_resp)
    (typed (λ bid, globalsun_media_type_for_imp (bid_impid bid) (req_imp internal)) <$> bids_of bid_resp).
#[export] Instance globalsun_bidder : Bidder GlobalsunAdapter := {
  make_requests := globalsun_make_requests; make_bids := globalsun_make_bids }.

Record HuaweiadsAdapter : Type := { huaweiads_endpoint : string }.
Definition huaweiads_make_requests (a : HuaweiadsAdapter) (request : BidRequest) (_ : ExtraRequestInfo)
    : list RequestData * list BidderError :=
  single (post_request (huaweiads_endpoint a) json_headers (req_imp request) request).
Definition huaweiads_make_bids (a : HuaweiadsAdapter) (internal : BidRequest) (_ : RequestData)
    (response : ResponseData) : list BidderError + BidderResponse :=
  if rsd_status_code response =? 204 then inr bidder_response_new else
  check_status response;;
  bid_resp ← parse_response BadServerResponse response;
  inr (answer_with "USD"
    ((λ bid, typed_bid_new bid (type_of_imp get_bid_type_from_imp BtBanner (req_imp internal) bid)) <$> bids_of bid_resp)).
#[export] Instance huaweiads_bidder : Bidder HuaweiadsAdapter := {
  make_requests := huaweiads_make_requests; make_bids := huaweiads_make_bids }.

Definition IMDS_ADAPTER_VERSION : string := "pbs-go/1.0.0".
Record ImdsAdapter : Type := { imds_endpoint : string }.
Definition imds_imp (imp : Imp) : BidderError + string * Imp :=
  let seat_id := bidder_str "seatId" imp in
  let tag_id := bidder_str "tagId" imp in
  ensure (negb (str_is_empty seat_id || str_is_empty tag_id)) (BadServerResponse "Invalid Impression");;
  inr (seat_id, set_imp_tagid (Some tag_id) imp).
(** The call holds the valid impressions, in the name of all. *)
Definition imds_make_requests (a : ImdsAdapter) (request : BidRequest) (_ : ExtraRequestInfo)
    : list RequestData * list BidderError :=
  let '(valid, errs) := split_results (imds_imp <$> req_imp request) in
  match valid with
  | [] => ([], errs)
  | (seat_id, _) :: _ =>
      let req := set_req_ext (Some (object [("seatId", VString seat_id)])) (set_req_imp valid.*2 request) in
      let url := str_replace "{{.SourceId}}" (percent_encode IMDS_ADAPTER_VERSION)
                   (str_replace "{{.AccountID}}" (percent_encode seat_id) (imds_endpoint a)) in
      match post_request url json_headers (req_imp request) req with
      | inl e => ([], [e])
      | inr rd => ([rd], errs)
      end
  end.
Definition imds_bid_type_from_imp_for_id (imp_id : string) (imps : list Imp) : BidType :=
  match imp_with_id imp_id imps with Some imp => get_bid_type_from_imp imp | None => BtBanner end.
Definition imds_make_bids (a : ImdsAdapter) (internal : BidRequest) (_ : RequestData) (response : ResponseData)
    : list BidderError + BidderResponse :=
  if rsd_status_code response =? 204 then inr bidder_response_new else
  ok_or_400 response;;
  bid_resp ← parse_response BadServerResponse response;
  inr (answer_with "USD" (omap (λ bid,
    let media_type := imds_bid_type_from_imp_for_id (bid_impid bid) (req_imp internal) in
    if bool_decide (media_type = BtBanner ∨ media_type = BtVideo)
    then Some (typed_bid_new bid media_type) else None) (bids_of bid_resp))).
#[export] Instance imds_bidder : Bidder ImdsAdapter := {
  make_requests := imds_make_requests; make_bids := imds_make_bids }.
End Adapters5.
#[export] Hint Unfold jixie_make_requests jixie_make_bids kayzen_make_requests kayzen_make_bids kidoz_make_requests
   kidoz_make_bids kobler_make_requests kobler_make_bids lunamedia_make_requests
   lunamedia_make_bids madvertise_make_requests madvertise_make_bids medianet_make_requests
   medianet_make_bids mgid_make_requests mgid_make_bids minutemedia_make_requests
   minutemedia_make_bids driftpixel_make_requests driftpixel_make_bids evolution_make_requests
   evolution_make_bids elementaltv_make_requests elementaltv_make_bids escalax_make_requests
   escalax_make_bids freewheelssp_make_requests freewheelssp_make_bids fwssp_make_requests
   fwssp_make_bids frvradn_make_requests frvradn_make_bids globalsun_make_requests
   globalsun_make_bids huaweiads_make_requests huaweiads_make_bids imds_make_requests
   imds_make_bids kobler_sanitize lunamedia_compat_banner_imp kidoz_imp_request lunamedia_imp
   elementaltv_bid mgid_imp imds_imp : adapters.

(** ** The contract *)

Section Contracts.
Context `{OpenRtbJson, StdText, KeyIter, !Deserialize KayzenImpExt, !Deserialize KidozImpExt, !Deserialize KoblerImpExt, !Deserialize LunamediaImpExt, !Deserialize MadvertiseImpExt, !Deserialize MgidImpExt, !Deserialize MgidRespBidExt, !Deserialize ImpExtMinuteMedia, !Deserialize ExtImpElementalTV, !Deserialize ElementaltvBidExt, !Deserialize ImpExtFreewheelSSP, !Deserialize ImpExtFwssp, !Deserialize KoblerExtBidPrebid, !ToValue ImpExtFreewheelSSP, !ToValue ImpExtFwssp}.
Lemma rewrite_exts_imp_ids (A : Type) `{!Deserialize A, !ToValue A} i imps imps' :
  rewrite_exts A i imps = inr imps' → get_imp_ids imps' = get_imp_ids imps.
Proof.
  revert i imps'. induction imps as [|imp imps IH]; intros i imps'; cbn; [by intros [= <-]|].
  unfold rewrite_ext. intros Hr. adapter_run. unfold get_imp_ids in *. cbn. f_equal. by eapply IH.
Qed.
#[export] Instance jixie_honest : HonestAdapter JixieAdapter.
Proof. solve_adapter. Qed.
#[export] Instance kayzen_honest : HonestAdapter KayzenAdapter.
Proof. solve_adapter. Qed.
#[export] Instance kidoz_honest : HonestAdapter KidozAdapter.
Proof. solve_adapter. Qed.
#[export] Instance kobler_honest : HonestAdapter KoblerAdapter.
Proof. solve_adapter. Qed.
#[export] Instance lunamedia_honest : HonestAdapter LunamediaAdapter.
Proof. solve_adapter. Qed.
#[export] Instance madvertise_honest : HonestAdapter MadvertiseAdapter.
Proof. solve_adapter. Qed.
#[export] Instance medianet_honest : HonestAdapter MedianetAdapter.
Proof. solve_adapter. Qed.
#[export] Instance mgid_honest : HonestAdapter MgidAdapter.
Proof. solve_adapter. Qed.
#[export] Instance minutemedia_honest : HonestAdapter MinutemediaAdapter.
Proof. solve_adapter. Qed.
#[export] Instance driftpixel_honest : HonestAdapter DriftpixelAdapter.
Proof. solve_adapter. Qed.
#[export] Instance evolution_honest : HonestAdapter EvolutionAdapter.
Proof. solve_adapter. Qed.
#[export] Instance elementaltv_honest : HonestAdapter ElementaltvAdapter.
Proof. solve_adapter. Qed.
#[export] Instance escalax_honest : HonestAdapter EscalaxAdapter.
Proof. solve_adapter. Qed.
#[export] Instance freewheelssp_honest : HonestAdapter FreewheelsspAdapter.
Proof. solve_adapter. Qed.
#[export] Instance fwssp_honest : HonestAdapter FwsspAdapter.
Proof. solve_adapter. by erewrite rewrite_exts_imp_ids. Qed.
#[export] Instance frvradn_honest : HonestAdapter FrvradnAdapter.
Proof. solve_adapter. Qed.
#[export] Instance globalsun_honest : HonestAdapter GlobalsunAdapter.
Proof. solve_adapter. Qed.
#[export] Instance huaweiads_honest : HonestAdapter HuaweiadsAdapter.
Proof. solve_adapter. Qed.
#[export] Instance imds_honest : HonestAdapter ImdsAdapter.
Proof. solve_adapter. Qed.
End Contracts.
