(* ===== verification/Adapters9.v ===== *)
(** * Adapters of adapters9

    adapters/src/adapters9: boldwin, boldwin_rapid, brave, bwx, cadent_aperture_mx,
    ccx, clydo and cointraffic.  Each adapter is a record with its [make_requests]
    and [make_bids] as an instance of [Bidder], and a proof of the contract it
    keeps.  A structure only serde fills is read with [Deserialize]. *)

From S2P Require Import Prelude Json FloatText OpenRtb OpenRtbExt AdapterKit.

(** ** boldwin and boldwin_rapid *)

Section Adapters9.
Context `{OpenRtbJson, StdText}.

Record BoldwinAdapter : Type := { boldwin_endpoint : string }.
Definition boldwin_bid_type_from_mtype (mtype : Z) (imp_id : string) : BidderError + BidType :=
  banner_video_native mtype (BadServerResponse ("Unable to fetch mediaType in multi-format: " +:+ imp_id)).
Definition boldwin_imp_ext (imp : Imp) : BidderError + Value := inr (placement_or_endpoint_ext imp).
Definition boldwin_make_requests (a : BoldwinAdapter) (request : BidRequest) (_ : ExtraRequestInfo)
    : list RequestData * list BidderError :=
  all_or_first_error (mapM (λ imp,
    new_ext ← boldwin_imp_ext imp;
    let req_copy := set_req_imp [set_imp_ext (Some new_ext) imp] request in
    body ← body_of req_copy;
    inr (post (boldwin_endpoint a) body json_headers (get_imp_ids (req_imp req_copy)))) (req_imp request)).
Definition boldwin_make_bids (a : BoldwinAdapter) (_ : BidRequest) (_ : RequestData) (response : ResponseData)
    : list BidderError + BidderResponse :=
  if rsd_status_code response =? 204 then inr bidder_response_new else
  only_200 (λ r, BadServerResponse (status_text "Unexpected status code: "
    ". Run with request.debug = 1 for more info." r)) response;;
  bid_resp ← parse_response BadServerResponse response;
  bids_or_first_error (currency_or_usd bid_resp)
    (typed (λ bid, boldwin_bid_type_from_mtype (u64 (default 0 (bid_mtype bid))) (bid_impid bid)) <$> bids_of bid_resp).
#[export] Instance boldwin_bidder : Bidder BoldwinAdapter := {
  make_requests := boldwin_make_requests; make_bids := boldwin_make_bids }.

Record BoldwinRapidAdapter : Type := { boldwin_rapid_endpoint : string }.
Definition boldwin_rapid_bid_type_from_mtype (mtype : Z) (imp_id : string) : BidderError + BidType :=
  banner_video_native mtype (BadServerResponse ("Unable to fetch mediaType in multi-format: " +:+ imp_id)).
Definition boldwin_rapid_headers (request : BidRequest) : gmap string string :=
  let headers := <["Host" := "rtb.beardfleet.com"]> (<["x-openrtb-version" := "2.5"]> json_headers) in
  let headers := device_header "User-Agent" dev_ua request headers in
  let headers := device_header "X-Forwarded-For" dev_ipv6 request headers in
  device_header "IP" dev_ip request (device_header "X-Forwarded-For" dev_ip request headers).
Definition boldwin_rapid_make_requests (a : BoldwinRapidAdapter) (request : BidRequest) (_ : ExtraRequestInfo)
    : list RequestData * list BidderError :=
  all_or_first_error (mapM (λ imp,
    let url := str_replace "{{.PlacementID}}" (bidder_str "tid" imp)
                 (str_replace "{{.PublisherID}}" (bidder_str "pid" imp) (boldwin_rapid_endpoint a)) in
    let req_copy := set_req_imp [imp] request in
    body ← body_of req_copy;
    inr (post url body (boldwin_rapid_headers request) (get_imp_ids (req_imp req_copy)))) (req_imp request)).
Definition boldwin_rapid_make_bids (a : BoldwinRapidAdapter) (_ : BidRequest) (_ : RequestData)
    (response : ResponseData) : list BidderError + BidderResponse :=
  if rsd_status_code response =? 204 then inr bidder_response_new else
  check_status response;;
  bid_resp ← parse_response BadServerResponse response;
  bids_or_first_error (currency_or_usd bid_resp)
    (typed (λ bid, boldwin_rapid_bid_type_from_mtype (u64 (default 0 (bid_mtype bid))) (bid_impid bid)) <$> bids_of bid_resp).
#[export] Instance boldwin_rapid_bidder : Bidder BoldwinRapidAdapter := {
  make_requests := boldwin_rapid_make_requests; make_bids := boldwin_rapid_make_bids }.

(** ** brave *)

Record BraveAdapter : Type := { brave_endpoint : string }.
Definition brave_make_requests (a : BraveAdapter) (request : BidRequest) (_ : ExtraRequestInfo)
    : list RequestData * list BidderError :=
  match req_imp request with
  | [] => ([], [BadInput "no impressions"])
  | imp :: imps =>
      let placement_id := bidder_str "placementId" imp in
      if str_is_empty placement_id then ([], [BadInput "ext.bidder not provided"]) else
      let url := str_replace "{{.PublisherID}}" placement_id (brave_endpoint a) in
      let req := set_req_imp (set_imp_ext None imp :: imps) request in
      single (body ← body_of req; inr (post url body json_headers (get_imp_ids (req_imp request))))
  end.
Definition brave_status (response : ResponseData) : list BidderError + () :=
  let s := rsd_status_code response in
  if s =? 204 then inl [BadInput "No bid"]
  else if s =? 400 then inl [BadInput (status_text "Unexpected status code: "
    ". Run with request.debug = 1 for more info" response)]
  else if s =? 503 then inl [BadInput (status_text "Service Unavailable. Status Code: [ " " ] " response)]
  else only_200 (λ r, BadServerResponse (status_text
    "Something went wrong, please contact your Account Manager. Status Code: [ " " ] " r)) response.
Definition brave_make_bids (a : BraveAdapter) (internal : BidRequest) (_ : RequestData)
    (response : ResponseData) : list BidderError + BidderResponse :=
  brave_status response;;
  bid_resp ← parse_response (λ _, BadServerResponse "Bad Server Response") response;
  match resp_seatbid bid_resp with
  | [] => inl [BadServerResponse "Empty SeatBid array"]
  | sb :: _ =>
      inr (answer_with "USD"
        ((λ bid, typed_bid_new bid (type_of_imp get_bid_type_from_imp BtBanner (req_imp internal) bid))
           <$> sb_bid sb))
  end.
#[export] Instance brave_bidder : Bidder BraveAdapter := {
  make_requests := brave_make_requests; make_bids := brave_make_bids }.

(** ** bwx *)

Record BwxAdapter : Type := { bwx_endpoint : string }.
Definition bwx_bid_type_from_mtype (mtype : Z) (imp_id : string) : BidderError + BidType :=
  banner_video_native mtype (BadServerResponse ("failed to parse bid mtype (" +:+ pretty mtype +:+
    ") for impression id " +:+ dq +:+ imp_id +:+ dq)).
Definition bwx_make_requests (a : BwxAdapter) (request : BidRequest) (_ : ExtraRequestInfo)
    : list RequestData * list BidderError :=
  split_results ((λ imp,
    let env := bidder_str "env" imp in
    let pid := bidder_str "pid" imp in
    ensure (negb (str_is_empty env || str_is_empty pid))
      (BadInput "Failed to deserialize BoldwinX extension: missing env or pid");;
    let url := str_replace "{{.SourceId}}" pid (str_replace "{{.Host}}" env (bwx_endpoint a)) in
    let req_copy := set_req_imp [imp] request in
    body ← body_of req_copy;
    inr (post url body json_headers (get_imp_ids (req_imp req_copy)))) <$> req_imp request).
(** Bids of an unknown type are skipped. *)
Definition bwx_make_bids (a : BwxAdapter) (_ : BidRequest) (_ : RequestData) (response : ResponseData)
    : list BidderError + BidderResponse :=
  if rsd_status_code response =? 204 then inr bidder_response_new else
  check_status response;;
  bid_resp ← parse_response BadServerResponse response;
  match resp_seatbid bid_resp with
  | [] => inl [BadServerResponse "Array SeatBid cannot be empty"]
  | _ => inr (answer_with "USD" (split_results (typed (λ bid,
      bwx_bid_type_from_mtype (u64 (default 0 (bid_mtype bid))) (bid_impid bid)) <$> bids_of bid_resp)).1)
  end.
#[export] Instance bwx_bidder : Bidder BwxAdapter := {
  make_requests := bwx_make_requests; make_bids := bwx_make_bids }.

(** ** ccx, clydo and cointraffic *)

Record CcxAdapter : Type := { ccx_endpoint : string }.
Definition ccx_make_requests (a : CcxAdapter) (request : BidRequest) (_ : ExtraRequestInfo)
    : list RequestData * list BidderError :=
  single (body ← body_of request;
          inr (post (ccx_endpoint a) body ∅ (get_imp_ids (req_imp request)))).
(** The response's currency is taken even when it is empty. *)
Definition ccx_make_bids (a : CcxAdapter) (_ : BidRequest) (_ : RequestData) (response : ResponseData)
    : list BidderError + BidderResponse :=
  if rsd_status_code response =? 204 then inr bidder_response_new else
  if rsd_status_code response =? 400 then inl [BadInput
    "Unexpected status code: 400. Bad request from publisher. Run with request.debug = 1 for more info."] else
  check_status response;;
  bid_resp ← parse_response BadServerResponse response;
  inr (answer_with (default "USD" (resp_cur bid_resp)) ((λ bid, typed_bid_new bid BtBanner) <$> bids_of bid_resp)).
#[export] Instance ccx_bidder : Bidder CcxAdapter := {
  make_requests := ccx_make_requests; make_bids := ccx_make_bids }.

Record ClydoAdapter : Type := { clydo_endpoint : string }.
Definition clydo_headers (device : Device) : gmap string string :=
  let headers := <["X-OpenRTB-Version" := "2.5"]> (<["Accept" := "application/json"]>
    {[ "Content-Type" := "application/json; charset=utf-8" ]}) in
  header_if "User-Agent" (dev_ua device) (header_if "X-Forwarded-For" (dev_ip device)
    (header_if "X-Forwarded-For" (dev_ipv6 device) headers)).
(** Every call names all the impressions, though it holds one. *)
Definition clydo_make_requests (a : ClydoAdapter) (request : BidRequest) (_ : ExtraRequestInfo)
    : list RequestData * list BidderError :=
  let imp_ids := get_imp_ids (req_imp request) in
  match imp_ids with
  | [] => ([], [BadInput "Failed to get imp ids"])
  | _ =>
      match req_device request with
      | None => ([], [BadInput "Failed to get device headers"])
      | Some device =>
          split_results ((λ imp,
            let partner_id := bidder_str "partnerId" imp in
            ensure (negb (str_is_empty partner_id)) (BadInput "invalid partnerId");;
            let region := default "us" (json_path ["bidder"; "region"] (imp_ext imp) ≫= as_str) in
            let url := str_replace "{{.Region}}" region
                         (str_replace "{{.PartnerId}}" partner_id (clydo_endpoint a)) in
            body ← body_of (set_req_imp [imp] request);
            inr (post url body (clydo_headers device) imp_ids)) <$> req_imp request)
      end
  end.
Definition clydo_imp_type (imp : Imp) : option BidType :=
  if present (imp_audio imp) then Some BtAudio
  else if present (imp_video imp) then Some BtVideo
  else if present (imp_native imp) then Some BtNative
  else if present (imp_banner imp) then Some BtBanner
  else None.
Fixpoint clydo_bid_types (imps : list Imp) (types : gmap string BidType)
    : list BidderError + gmap string BidType :=
  match imps with
  | [] => inr types
  | imp :: imps' =>
      if present (types !! imp_id imp) then inl [BadInput "Duplicate impression ID found"] else
      match clydo_imp_type imp with
      | Some t => clydo_bid_types imps' (<[imp_id imp := t]> types)
      | None => inl [BadInput "Failed to get media type"]
      end
  end.
Definition clydo_make_bids (a : ClydoAdapter) (internal : BidRequest) (_ : RequestData)
    (response : ResponseData) : list BidderError + BidderResponse :=
  if rsd_status_code response =? 204 then inr bidder_response_new else
  check_status response;;
  bid_resp ← parse_response BadServerResponse response;
  types ← clydo_bid_types (req_imp internal) ∅;
  inr (answer_with (currency_or_usd bid_resp)
    ((λ bid, typed_bid_new bid (default BtBanner (types !! bid_impid bid))) <$> bids_of bid_resp)).
#[export] Instance clydo_bidder : Bidder ClydoAdapter := {
  make_requests := clydo_make_requests; make_bids := clydo_make_bids }.

Record CointrafficAdapter : Type := { cointraffic_endpoint : string }.
Definition cointraffic_make_requests (a : CointrafficAdapter) (request : BidRequest) (_ : ExtraRequestInfo)
    : list RequestData * list BidderError :=
  single (body ← body_of request;
          inr (post (cointraffic_endpoint a) body (<["x-openrtb-version" := "2.5"]> json_headers)
            (get_imp_ids (req_imp request)))).
Definition cointraffic_make_bids (a : CointrafficAdapter) (_ : BidRequest) (_ : RequestData)
    (response : ResponseData) : list BidderError + BidderResponse :=
  if rsd_status_code response =? 204 then inr bidder_response_new else
  check_status response;;
  bid_resp ← parse_response BadServerResponse response;
  inr (answer_with (currency_or_usd bid_resp) ((λ bid, typed_bid_new bid BtBanner) <$> bids_of bid_resp)).
#[export] Instance cointraffic_bidder : Bidder CointrafficAdapter := {
  make_requests := cointraffic_make_requests; make_bids := cointraffic_make_bids }.

(** ** cadent_aperture_mx *)

Record CadentApertureMxAdapter : Type := { cadent_endpoint : string }.
Record ExtImpCadentApertureMX : Type := { cdt_tagid : string; cdt_bidfloor : string }.
Record CadentExtImpBidder : Type := { cdt_bidder : Value }.
Context `{!Deserialize ExtImpCadentApertureMX, !Deserialize CadentExtImpBidder}.

Definition cadent_build_endpoint (endpoint : string) (tmax : option Z) : string :=
  endpoint +:+ "?t=" +:+ pretty (default 1000 tmax) +:+ "&ts=" +:+ pretty std_unix_secs +:+ "&src=pbserver".
Definition cadent_bid_type (adm : option string) : BidType :=
  match adm with
  | Some markup =>
      let lower := std_to_lowercase markup in
      if str_contains "<?xml" lower || str_contains "<vast" lower then BtVideo else BtBanner
  | None => BtBanner
  end.
Definition cadent_unpack_imp_ext (imp : Imp) : BidderError + ExtImpCadentApertureMX :=
  let invalid := BadInput ("ignoring imp id=" +:+ imp_id imp +:+ ", invalid ImpExt") in
  ext_val ← ok_or invalid (imp_ext imp);
  bidder_ext ← map_error BadInput (from_value ext_val);
  cadent_ext ← map_error (λ _, invalid) (from_value (cdt_bidder bidder_ext));
  ensure (negb (str_is_empty (cdt_tagid cadent_ext)))
    (BadInput ("Ignoring imp id=" +:+ imp_id imp +:+ ", no tagid present"));;
  ok_or (BadInput ("ignoring imp id=" +:+ imp_id imp +:+ ", invalid tagid must be a String of numbers"))
    (parse_int (- 2 ^ 63) (2 ^ 63 - 1) (cdt_tagid cadent_ext));;
  inr cadent_ext.
Definition cadent_add_imp_props (secure : Z) (ext : ExtImpCadentApertureMX) (imp : Imp) : Imp :=
  let imp := set_imp_secure (Some secure) (set_imp_tagid (Some (cdt_tagid ext)) imp) in
  if str_is_empty (cdt_bidfloor ext) then imp else
  match parse_f64 (cdt_bidfloor ext) with
  | Some bf => if f64_gtb bf f64_zero
               then set_imp_bidfloorcur (Some "USD") (set_imp_bidfloor (Some bf) imp) else imp
  | None => imp
  end.
Definition cadent_build_imp_banner (imp : Imp) : BidderError + Imp :=
  banner ← ok_or (BadInput "Request needs to include a Banner object") (imp_banner imp);
  match ban_w banner, ban_h banner with
  | None, None =>
      match ban_format banner with
      | Some (first :: formats) =>
          inr (set_imp_banner (Some (set_ban_h (fmt_h first) (set_ban_w (fmt_w first)
                 (set_ban_format (Some formats) banner)))) imp)
      | _ => inl (BadInput "Need at least one size to build request")
      end
  | _, _ => inr imp
  end.
Definition none_or_zero (x : option Z) : bool :=
  match x with None => true | Some z => z =? 0 end.
Definition cadent_build_imp_video (video : Video) (imp : Imp) : BidderError + Imp :=
  match vid_mimes video with
  | None | Some [] => inl (BadInput "Video: missing required field mimes")
  | Some (_ :: _) =>
      ensure (negb (none_or_zero (vid_h video) && none_or_zero (vid_w video)))
        (BadInput "Video: Need at least one size to build request");;
      let video := match vid_protocols video with
                   | Some ps => set_vid_protocols (Some (filter (λ p, p ≠ 7) ps)) video
                   | None => video
                   end in
      inr (set_imp_video (Some video) imp)
  end.
Definition cadent_imp (secure : Z) (imp : Imp) : BidderError + Imp :=
  cadent_ext ← cadent_unpack_imp_ext imp;
  let imp := cadent_add_imp_props secure cadent_ext imp in
  match imp_video imp with
  | Some video => cadent_build_imp_video video imp
  | None => cadent_build_imp_banner imp
  end.
Definition cadent_domain (request : BidRequest) : string :=
  match req_site request, req_app request with
  | Some site, _ => default "" (site_page site)
  | None, Some app => default "" (option_or (app_domain app) (app_storeurl app))
  | None, None => ""
  end.
Definition cadent_preprocess (request : BidRequest) : BidRequest * list BidderError :=
  let secure := if String.prefix "https://" (cadent_domain request) then 1 else 0 in
  let '(imps, errors) := split_results (cadent_imp secure <$> req_imp request) in
  (set_req_imp imps request, errors).
Definition cadent_headers (request : BidRequest) : gmap string string :=
  let headers := device_header "User-Agent" dev_ua request json_headers in
  let headers := device_header "X-Forwarded-For" dev_ip request headers in
  let headers := device_header "Accept-Language" dev_language request headers in
  let headers := match req_device request ≫= dev_dnt with
                 | Some dnt => <["DNT" := pretty dnt]> headers
                 | None => headers
                 end in
  page_header request headers.
Definition cadent_make_requests (a : CadentApertureMxAdapter) (request : BidRequest) (_ : ExtraRequestInfo)
    : list RequestData * list BidderError :=
  match req_imp request with
  | [] => ([], [BadInput "No Imps in Bid Request"])
  | _ =>
      let '(req, preprocess_errs) := cadent_preprocess request in
      match preprocess_errs with
      | e :: _ => ([], preprocess_errs ++ [BadInput ("Error in preprocess of Imp, err: " +:+ bidder_error_to_string e)])
      | [] =>
          match to_vec req with
          | inl _ => ([], [BadInput "Error in packaging request to JSON"])
          | inr body =>
              ([post (cadent_build_endpoint (cadent_endpoint a) (req_tmax request)) body
                  (cadent_headers request) (get_imp_ids (req_imp request))], [])
          end
      end
  end.
(** A bid's own id replaces its impression's. *)
Definition cadent_make_bids (a : CadentApertureMxAdapter) (_ : BidRequest) (_ : RequestData)
    (response : ResponseData) : list BidderError + BidderResponse :=
  if rsd_status_code response =? 204 then inr bidder_response_new else
  only_200 (λ r, BadServerResponse (status_text "Invalid Status Returned: "
    ". Run with request.debug = 1 for more info" r)) response;;
  bid_resp ← parse_response (λ e, BadServerResponse ("Unable to unpackage bid response. Error: " +:+ e)) response;
  inr (answer_with "USD" ((λ bid, typed_bid_new (set_bid_impid (bid_id bid) bid) (cadent_bid_type (bid_adm bid)))
                            <$> bids_of bid_resp)).
#[export] Instance cadent_bidder : Bidder CadentApertureMxAdapter := {
  make_requests := cadent_make_requests; make_bids := cadent_make_bids }.
End Adapters9.
#[export] Hint Unfold boldwin_make_requests boldwin_make_bids boldwin_imp_ext
  boldwin_rapid_make_requests boldwin_rapid_make_bids brave_make_requests brave_make_bids brave_status
  bwx_make_requests bwx_make_bids ccx_make_requests ccx_make_bids clydo_make_requests clydo_make_bids
  cointraffic_make_requests cointraffic_make_bids cadent_make_requests cadent_make_bids : adapters.

(** ** The contract *)

Section Contracts.
Context `{OpenRtbJson, StdText, !Deserialize ExtImpCadentApertureMX, !Deserialize CadentExtImpBidder}.
#[export] Instance boldwin_honest : HonestAdapter BoldwinAdapter.
Proof. solve_adapter. Qed.
#[export] Instance boldwin_rapid_honest : HonestAdapter BoldwinRapidAdapter.
Proof. solve_adapter. Qed.
#[export] Instance brave_honest : HonestAdapter BraveAdapter.
Proof. solve_adapter. Qed.
#[export] Instance bwx_honest : HonestAdapter BwxAdapter.
Proof. solve_adapter. Qed.
#[export] Instance ccx_honest : HonestAdapter CcxAdapter.
Proof. solve_adapter. Qed.
#[export] Instance clydo_honest : HonestAdapter ClydoAdapter.
Proof. solve_adapter. Qed.
#[export] Instance cointraffic_honest : HonestAdapter CointrafficAdapter.
Proof. solve_adapter. Qed.
#[export] Instance cadent_honest : HonestAdapter CadentApertureMxAdapter.
Proof. solve_adapter. Qed.
End Contracts.
