(* ===== verification/Adapters11.v ===== *)
(** * Adapters of adapters11 and adapters13

    adapters/src/adapters11: logicad, loyal, mabidder, madsense, marsmedia,
    mediafuse and mediago; adapters13: roulax, sa_lunamedia, seeding_alliance and
    seedtag. *)

From S2P Require Import Prelude Json OpenRtb OpenRtbExt AdapterKit.

Section Adapters11.
Context `{OpenRtbJson, StdText, MapIter}.

(** ** logicad *)

Record LogicadAdapter : Type := { logicad_endpoint : string }.
Definition logicad_tid (imp : Imp) : BidderError + string * Imp :=
  let tid := bidder_str "tid" imp in
  if str_is_empty tid then inl (BadInput "No tid value provided") else inr (tid, imp).
Definition logicad_imp (tid : string) (imp : Imp) : Imp := set_imp_ext None (set_imp_tagid (Some tid) imp).
(** One call per tid, in the order of the map. *)
Definition logicad_make_requests (a : LogicadAdapter) (request : BidRequest) (_ : ExtraRequestInfo)
    : list RequestData * list BidderError :=
  if is_nil (req_imp request) then ([], [BadInput "No impression in the bid request"]) else
  let '(tids, errs) := split_results (logicad_tid <$> req_imp request) in
  after_errors errs (split_results ((λ '(tid, imps),
    let imp_ids := get_imp_ids imps in
    body ← body_of (set_req_imp (logicad_imp tid <$> imps) request);
    inr (post (logicad_endpoint a) body json_headers imp_ids)) <$> map_iter (grouped tids))).
Definition logicad_make_bids (a : LogicadAdapter) (_ : BidRequest) (_ : RequestData) (response : ResponseData)
    : list BidderError + BidderResponse :=
  if rsd_status_code response =? 204 then inr bidder_response_new else
  only_200 (λ r, BadServerResponse (status_text "Unexpected http status code: " "" r)) response;;
  bid_resp ← parse_response (λ e, BadServerResponse ("Bad server response: " +:+ e)) response;
  match resp_seatbid bid_resp with
  | [seatbid] => inr (answer_with (currency_or_usd bid_resp)
                       ((λ bid, typed_bid_new bid BtBanner) <$> sb_bid seatbid))
  | seats => inl [BadServerResponse ("Invalid SeatBids count: " +:+ pretty (zlen seats))]
  end.
#[export] Instance logicad_bidder : Bidder LogicadAdapter := {
  make_requests := logicad_make_requests; make_bids := logicad_make_bids }.

(** ** loyal *)

Record LoyalAdapter : Type := { loyal_endpoint : string }.
Definition loyal_imp_ext (imp : Imp) : BidderError + Value := inr (placement_or_endpoint_ext imp).
Definition loyal_bid_type_from_bid_ext (bid : Bid) : BidderError + BidType :=
  let type_str := str_at ["prebid"; "type"] (bid_ext bid) in
  media_type_named type_str (BadServerResponse ("invalid BidType: " +:+ type_str)).
Definition loyal_make_requests (a : LoyalAdapter) (request : BidRequest) (_ : ExtraRequestInfo)
    : list RequestData * list BidderError :=
  let '(requests, errs) := split_results ((λ imp,
    new_ext ← loyal_imp_ext imp;
    let req_copy := set_req_imp [set_imp_ext (Some new_ext) imp] request in
    body ← body_of req_copy;
    inr (post (loyal_endpoint a) body json_headers (get_imp_ids (req_imp req_copy)))) <$> req_imp request) in
  match requests with
  | [] => ([], errs ++ [BadInput "found no valid impressions"])
  | _ => (requests, errs)
  end.
Definition loyal_make_bids (a : LoyalAdapter) (_ : BidRequest) (_ : RequestData) (response : ResponseData)
    : list BidderError + BidderResponse :=
  if rsd_status_code response =? 204 then inr bidder_response_new else
  check_status response;;
  bid_resp ← parse_response BadServerResponse response;
  bids_or_errors (currency_or_usd bid_resp) (typed loyal_bid_type_from_bid_ext <$> bids_of bid_resp).
#[export] Instance loyal_bidder : Bidder LoyalAdapter := {
  make_requests := loyal_make_requests; make_bids := loyal_make_bids }.

(** ** mabidder, whose answers are not OpenRTB *)

Record MabidderAdapter : Type := { mabidder_endpoint : string }.
Record MabidderBidMeta : Type := { mbm_advertiser_domains : list string }.
Record MabidderItem : Type := {
  mbi_request_id : string; mbi_currency : string; mbi_width : Z; mbi_height : Z;
  mbi_creative_id : string; mbi_deal_id : string; mbi_ttl : Z; mbi_ad : string;
  mbi_media_type : string; mbi_meta : MabidderBidMeta; mbi_cpm : f64 }.
Record MabidderServerResponse : Type := { mbs_responses : list MabidderItem }.
Context `{!FromSlice MabidderServerResponse}.
Definition mabidder_bid_type (media_type : string) : BidType :=
  if bool_decide (media_type = "video") then BtVideo
  else if bool_decide (media_type = "native") then BtNative
  else if bool_decide (media_type = "audio") then BtAudio
  else BtBanner.
Definition mabidder_unless_empty (s : string) : option string := if str_is_empty s then None else Some s.
Definition unless_zero (z : Z) : option Z := if z =? 0 then None else Some (i32 z).
Definition mabidder_bid (item : MabidderItem) : TypedBid :=
  let bid := set_bid_price (mbi_cpm item) (set_bid_impid (mbi_request_id item)
               (set_bid_id (mbi_request_id item) default_bid)) in
  let bid := set_bid_adm (mabidder_unless_empty (mbi_ad item)) bid in
  let bid := set_bid_h (unless_zero (mbi_height item)) (set_bid_w (unless_zero (mbi_width item)) bid) in
  let bid := set_bid_crid (mabidder_unless_empty (mbi_creative_id item)) bid in
  let bid := set_bid_dealid (mabidder_unless_empty (mbi_deal_id item)) bid in
  let domains := mbm_advertiser_domains (mbi_meta item) in
  typed_bid_new (set_bid_adomain (match domains with [] => None | _ => Some domains end) bid)
    (mabidder_bid_type (mbi_media_type item)).
Definition mabidder_make_requests (a : MabidderAdapter) (request : BidRequest) (_ : ExtraRequestInfo)
    : list RequestData * list BidderError :=
  single (body ← body_of request;
          inr (post (mabidder_endpoint a) body json_headers (get_imp_ids (req_imp request)))).
(** The last currency that is not empty is everyone's. *)
Definition mabidder_make_bids (a : MabidderAdapter) (_ : BidRequest) (_ : RequestData) (response : ResponseData)
    : list BidderError + BidderResponse :=
  if rsd_status_code response =? 204 then inr bidder_response_new else
  check_status response;;
  server_resp ← map_error (λ e, [BadServerResponse e]) (from_slice (rsd_body response));
  inr (answer_with
    (fold_left (λ cur item, if str_is_empty (mbi_currency item) then cur else mbi_currency item)
       (mbs_responses server_resp) "USD")
    (mabidder_bid <$> mbs_responses server_resp)).
#[export] Instance mabidder_bidder : Bidder MabidderAdapter := {
  make_requests := mabidder_make_requests; make_bids := mabidder_make_bids }.

(** ** madsense *)

Record MadsenseAdapter : Type := { madsense_endpoint : string }.
Definition madsense_bid_type (mtype : Z) : BidType :=
  match mtype with 2 => BtVideo | 4 => BtNative | _ => BtBanner end.
Definition madsense_make_single_request (endpoint : string) (request : BidRequest) (imps : list Imp)
    (company_id : string) : BidderError + RequestData :=
  let req_copy := set_req_imp imps request in
  body ← body_of req_copy;
  inr (post (endpoint +:+ "?company_id=" +:+ company_id) body json_headers (get_imp_ids (req_imp req_copy))).
Definition madsense_company_id (request : BidRequest) : string :=
  if bool_decide (req_test request = Some 1) then "test"
  else match req_imp request with imp :: _ => bidder_str "companyId" imp | [] => "" end.
(** A call per banner, then one for all the videos. *)
Definition madsense_make_requests (a : MadsenseAdapter) (request : BidRequest) (_ : ExtraRequestInfo)
    : list RequestData * list BidderError :=
  let company_id := madsense_company_id request in
  let banner_imps := filter (λ imp, is_Some (imp_banner imp)) (req_imp request) in
  let video_imps := filter (λ imp, imp_banner imp = None ∧ is_Some (imp_video imp)) (req_imp request) in
  split_results (((λ imp, madsense_make_single_request (madsense_endpoint a) request [imp] company_id) <$> banner_imps)
    ++ if is_nil video_imps then []
       else [madsense_make_single_request (madsense_endpoint a) request video_imps company_id]).
Definition madsense_make_bids (a : MadsenseAdapter) (_ : BidRequest) (_ : RequestData) (response : ResponseData)
    : list BidderError + BidderResponse :=
  if rsd_status_code response =? 204 then inr bidder_response_new else
  check_status response;;
  bid_resp ← parse_response BadServerResponse response;
  inr (answer_with (currency_or_usd bid_resp)
    ((λ bid, typed_bid_new bid (madsense_bid_type (default 0 (json_path ["mtype"] (bid_ext bid) ≫= as_u64))))
       <$> bids_of bid_resp)).
#[export] Instance madsense_bidder : Bidder MadsenseAdapter := {
  make_requests := madsense_make_requests; make_bids := madsense_make_bids }.

(** ** marsmedia *)

Record MarsmediaAdapter : Type := { marsmedia_endpoint : string }.
Definition marsmedia_media_type_for_imp (imp_id : string) (imps : list Imp) : BidType :=
  match imp_with_id imp_id imps with
  | Some imp => if present (imp_video imp) then BtVideo else BtBanner
  | None => BtBanner
  end.
(** The impression as sent, and whether it has a valid medium. *)
Definition marsmedia_imp (imp : Imp) : BidderError + Imp * bool :=
  match imp_banner imp with
  | Some banner =>
      match ban_format banner with
      | Some (first :: _) =>
          inr (set_imp_banner (Some (set_ban_h (fmt_h first) (set_ban_w (fmt_w first) banner))) imp, true)
      | _ =>
          if present (ban_w banner) && present (ban_h banner) then inr (imp, true)
          else inl (BadInput "No valid banner format in the bid request")
      end
  | None => inr (imp, present (imp_video imp))
  end.
Definition marsmedia_headers (request : BidRequest) : gmap string string :=
  let headers := <["x-openrtb-version" := "2.5"]> json_headers in
  let headers := device_header "User-Agent" dev_ua request headers in
  let headers := device_header "X-Forwarded-For" dev_ip request headers in
  let headers := device_header "Accept-Language" dev_language request headers in
  match req_device request ≫= dev_dnt with
  | Some dnt => <["DNT" := pretty dnt]> headers
  | None => headers
  end.
Definition marsmedia_make_requests (a : MarsmediaAdapter) (request : BidRequest) (_ : ExtraRequestInfo)
    : list RequestData * list BidderError :=
  single (
    first ← ok_or (BadInput "No impression in the bid request") (head (req_imp request));
    let zone_id := bidder_str "zoneId" first in
    ensure (negb (str_is_empty zone_id)) (BadInput "zoneId is empty");;
    imps ← mapM marsmedia_imp (req_imp request);
    ensure (existsb snd imps) (BadInput "No valid impression in the bid request");;
    let req_copy := set_req_at (Some 1) (set_req_imp imps.*1 request) in
    body ← body_of req_copy;
    inr (post (marsmedia_endpoint a +:+ "&zone=" +:+ zone_id) body (marsmedia_headers request)
           (get_imp_ids (req_imp req_copy)))).
Definition marsmedia_make_bids (a : MarsmediaAdapter) (internal : BidRequest) (_ : RequestData)
    (response : ResponseData) : list BidderError + BidderResponse :=
  if rsd_status_code response =? 204 then inr bidder_response_new else
  check_status response;;
  bid_resp ← parse_response BadServerResponse response;
  match resp_seatbid bid_resp with
  | [] => inr bidder_response_new
  | _ => inr (answer_with "USD"
           ((λ bid, typed_bid_new bid (marsmedia_media_type_for_imp (bid_impid bid) (req_imp internal)))
              <$> bids_of bid_resp))
  end.
#[export] Instance marsmedia_bidder : Bidder MarsmediaAdapter := {
  make_requests := marsmedia_make_requests; make_bids := marsmedia_make_bids }.

(** ** mediafuse *)

Record MediafuseAdapter : Type := { mediafuse_endpoint : string }.
Record ExtImpMediafuse : Type := { mfu_member : string; mfu_placement_id : Z; mfu_inv_code : string }.
Record MediafuseImpExt : Type := { mfu_bidder : ExtImpMediafuse }.
Context `{!Deserialize MediafuseImpExt}.
Definition MEDIAFUSE_MAX_IMPS_PER_REQ : nat := 10.
(** The impressions to send, the one member id and the errors, or the errors where
    two members differ. *)
Fixpoint mediafuse_imps (imps valid_imps : list Imp) (unique_member_id : string) (errs : list BidderError)
    : list BidderError + list Imp * string * list BidderError :=
  match imps with
  | [] => inr (valid_imps, unique_member_id, errs)
  | imp :: imps' =>
      match imp_ext imp ≫= λ e, match from_value (A := MediafuseImpExt) e with inr x => Some x | inl _ => None end with
      | None => mediafuse_imps imps' valid_imps unique_member_id
                  (errs ++ [BadInput "Failed to parse mediafuse imp ext"])
      | Some ext =>
          let member_id := mfu_member (mfu_bidder ext) in
          if str_is_empty member_id then mediafuse_imps imps' (valid_imps ++ [imp]) unique_member_id errs
          else if str_is_empty unique_member_id then mediafuse_imps imps' (valid_imps ++ [imp]) member_id errs
          else if bool_decide (unique_member_id = member_id)
          then mediafuse_imps imps' (valid_imps ++ [imp]) unique_member_id errs
          else inl (errs ++ [BadInput
            ("all request.imp[i].ext.prebid.bidder.mediafuse.member params must match. Request contained member IDs "
             +:+ unique_member_id +:+ " and " +:+ member_id)])
      end
  end.
Definition mediafuse_uri (endpoint member_id : string) : string :=
  if str_is_empty member_id then endpoint
  else if str_contains "?" endpoint then endpoint +:+ "&member_id=" +:+ member_id
  else endpoint +:+ "?member_id=" +:+ member_id.
Definition mediafuse_make_requests (a : MediafuseAdapter) (request : BidRequest) (_ : ExtraRequestInfo)
    : list RequestData * list BidderError :=
  match mediafuse_imps (req_imp request) [] "" [] with
  | inl errs => ([], errs)
  | inr (valid_imps, unique_member_id, errs) =>
      after_errors errs (all_or_first_error (mapM (λ chunk,
        let req_copy := set_req_imp chunk request in
        body ← body_of req_copy;
        inr (post (mediafuse_uri (mediafuse_endpoint a) unique_member_id) body json_headers
               (get_imp_ids (req_imp req_copy)))) (chunks MEDIAFUSE_MAX_IMPS_PER_REQ valid_imps)))
  end.
Definition mediafuse_make_bids (a : MediafuseAdapter) (internal : BidRequest) (_ : RequestData)
    (response : ResponseData) : list BidderError + BidderResponse :=
  if rsd_status_code response =? 204 then inr bidder_response_new else
  check_status response;;
  bid_resp ← parse_response BadServerResponse response;
  inr (answer_with "USD"
    ((λ bid, typed_bid_new bid (type_of_imp get_bid_type_from_imp BtBanner (req_imp internal) bid)) <$> bids_of bid_resp)).
#[export] Instance mediafuse_bidder : Bidder MediafuseAdapter := {
  make_requests := mediafuse_make_requests; make_bids := mediafuse_make_bids }.

(** ** mediago *)

Record MediagoAdapter : Type := { mediago_endpoint : string }.
Definition mediago_region_host (region : string) : string :=
  if bool_decide (region = "APAC") then "jp" else if bool_decide (region = "EU") then "eu" else "us".
Definition mediago_token_and_region (request : BidRequest) : BidderError + string * string :=
  imp ← ok_or (BadInput "no impressions") (head (req_imp request));
  bidder ← ok_or (BadInput "mediago token not found") (json_path ["bidder"] (imp_ext imp));
  let token := str_at ["token"] (Some bidder) in
  ensure (negb (str_is_empty token)) (BadInput "mediago token not found");;
  inr (token, default "US" (json_path ["region"] (Some bidder) ≫= as_str)).
Definition mediago_build_url (endpoint_template token region : string) : string :=
  str_replace "{{.Host}}" (mediago_region_host region) (str_replace "{{.AccountID}}" token endpoint_template).
Definition mediago_banner (banner : Banner) : Banner :=
  let no_size := negb (present (ban_w banner)) || negb (present (ban_h banner))
                 || bool_decide (ban_w banner = Some 0) || bool_decide (ban_h banner = Some 0) in
  match ban_format banner with
  | Some (first :: _) => if no_size then set_ban_h (fmt_h first) (set_ban_w (fmt_w first) banner) else banner
  | _ => banner
  end.
Definition mediago_preprocess_banner (request : BidRequest) : BidRequest :=
  set_req_imp ((λ imp, set_imp_banner (mediago_banner <$> imp_banner imp) imp) <$> req_imp request) request.
Definition mediago_bid_type (bid : Bid) (imps : list Imp) : BidderError + BidType :=
  let unsupported := BadServerResponse ("Unsupported MType " +:+ pretty (default 0 (bid_mtype bid))) in
  match bid_mtype bid with
  | Some 1 => inr BtBanner
  | Some 4 => inr BtNative
  | _ =>
      match imp_with_id (bid_impid bid) imps with
      | Some imp => if present (imp_banner imp) then inr BtBanner
                    else if present (imp_native imp) then inr BtNative else inl unsupported
      | None => inl unsupported
      end
  end.
Definition mediago_make_requests (a : MediagoAdapter) (request : BidRequest) (_ : ExtraRequestInfo)
    : list RequestData * list BidderError :=
  single (
    '(token, region) ← mediago_token_and_region request;
    let req_copy := mediago_preprocess_banner request in
    body ← body_of req_copy;
    inr (post (mediago_build_url (mediago_endpoint a) token region) body
           (<["x-openrtb-version" := "2.5"]> json_headers) (get_imp_ids (req_imp req_copy)))).
Definition mediago_make_bids (a : MediagoAdapter) (internal : BidRequest) (_ : RequestData)
    (response : ResponseData) : list BidderError + BidderResponse :=
  if rsd_status_code response =? 204 then inr bidder_response_new else
  check_status response;;
  bid_resp ← parse_response BadServerResponse response;
  some_bids_or_errors (currency_or_usd bid_resp)
    (typed (λ bid, mediago_bid_type bid (req_imp internal)) <$> bids_of bid_resp).
#[export] Instance mediago_bidder : Bidder MediagoAdapter := {
  make_requests := mediago_make_requests; make_bids := mediago_make_bids }.

(** ** adapters13: roulax *)

Record RoulaxAdapter : Type := { roulax_endpoint : string }.
Definition roulax_bid_type_from_mtype (mtype : Z) (imp_id : string) : BidderError + BidType :=
  banner_video_native mtype (BadServerResponse
    ("Unable to fetch mediaType in impID: " +:+ imp_id +:+ ", mType: " +:+ pretty mtype)).
Definition roulax_make_requests (a : RoulaxAdapter) (request : BidRequest) (_ : ExtraRequestInfo)
    : list RequestData * list BidderError :=
  single (
    first_imp ← ok_or (BadInput "no impressions") (head (req_imp request));
    let url := str_replace "{{.PublisherID}}" (bidder_str "publisherPath" first_imp)
                 (str_replace "{{.AccountID}}" (bidder_str "pid" first_imp) (roulax_endpoint a)) in
    body ← body_of request;
    inr (post url body {[ "Content-Type" := "application/json;charset=utf-8" ]} (get_imp_ids (req_imp request)))).
Definition roulax_make_bids (a : RoulaxAdapter) (_ : BidRequest) (_ : RequestData) (response : ResponseData)
    : list BidderError + BidderResponse :=
  if rsd_status_code response =? 204 then inr bidder_response_new else
  only_200 (λ r, BadServerResponse (status_text "Unexpected status code: " "" r)) response;;
  bid_resp ← parse_response BadServerResponse response;
  bids_or_errors (currency_or_usd bid_resp)
    (typed (λ bid, roulax_bid_type_from_mtype (u64 (default 0 (bid_mtype bid))) (bid_impid bid)) <$> bids_of bid_resp).
#[export] Instance roulax_bidder : Bidder RoulaxAdapter := {
  make_requests := roulax_make_requests; make_bids := roulax_make_bids }.

(** ** sa_lunamedia *)

Record SaLunamediaAdapter : Type := { sa_lunamedia_endpoint : string }.
Definition sa_lunamedia_parse_bid_type (media_type : string) : BidderError + BidType :=
  media_type_named media_type (BadServerResponse ("invalid bid type: " +:+ media_type)).
Definition sa_lunamedia_make_requests (a : SaLunamediaAdapter) (request : BidRequest) (_ : ExtraRequestInfo)
    : list RequestData * list BidderError :=
  single (body ← body_of request;
          inr (post (sa_lunamedia_endpoint a) body json_headers (get_imp_ids (req_imp request)))).
Definition sa_lunamedia_status (response : ResponseData) : list BidderError + () :=
  let s := rsd_status_code response in
  if s =? 400 then inl [BadInput ("Bad Request. " +:+ std_from_utf8_lossy (rsd_body response))]
  else if s =? 503 then inl [BadInput "Bidder unavailable. Please contact the bidder support."]
  else only_200 (λ r, BadServerResponse (status_text "Status Code: [ " " ] " r
    +:+ std_from_utf8_lossy (rsd_body r))) response.
(** Only the first bid of the first seat is read. *)
Definition sa_lunamedia_make_bids (a : SaLunamediaAdapter) (_ : BidRequest) (_ : RequestData)
    (response : ResponseData) : list BidderError + BidderResponse :=
  if rsd_status_code response =? 204 then inr bidder_response_new else
  sa_lunamedia_status response;;
  bid_resp ← parse_response BadServerResponse response;
  match resp_seatbid bid_resp with
  | [] => inl [BadServerResponse "Empty SeatBid"]
  | sb :: _ =>
      match sb_bid sb with
      | [] => inl [BadServerResponse "Empty SeatBid.Bids"]
      | bid :: _ =>
          let media_type := str_at ["mediaType"] (bid_ext bid) in
          ensure (negb (str_is_empty media_type)) [BadServerResponse "Missing BidExt"];;
          bid_type ← map_error (λ e, [e]) (sa_lunamedia_parse_bid_type media_type);
          inr (answer_with "USD" [typed_bid_new bid bid_type])
      end
  end.
#[export] Instance sa_lunamedia_bidder : Bidder SaLunamediaAdapter := {
  make_requests := sa_lunamedia_make_requests; make_bids := sa_lunamedia_make_bids }.

(** ** seeding_alliance *)

Record SeedingAllianceAdapter : Type := { seeding_alliance_endpoint : string }.
Definition seeding_alliance_parse_bid_type (type_str : string) : BidderError + BidType :=
  media_type_named type_str (BadServerResponse ("invalid bid type: " +:+ type_str)).
Definition seeding_alliance_media_type (ext : option Value) : BidderError + BidType :=
  let type_str := str_at ["prebid"; "type"] ext in
  ensure (negb (str_is_empty type_str)) (BadServerResponse "bid.Ext.Prebid is empty");;
  seeding_alliance_parse_bid_type type_str.
(** The impression with its tag id, and the account. *)
Definition seeding_alliance_ext_info (imp : Imp) : BidderError + Imp * string :=
  bidder ← ok_or (BadInput "could not unmarshal adapters.ExtImpBidder") (json_path ["bidder"] (imp_ext imp));
  let ad_unit_id := str_at ["adUnitId"] (Some bidder) in
  let imp := if str_is_empty ad_unit_id then imp else set_imp_tagid (Some ad_unit_id) imp in
  let seat_id := str_at ["seatId"] (Some bidder) in
  let account_id := str_at ["accountId"] (Some bidder) in
  inr (imp, if negb (str_is_empty seat_id) then seat_id
            else if negb (str_is_empty account_id) then account_id else "pbs").
Definition seeding_alliance_cur_exists (currencies : option (list string)) (target : string) : bool :=
  match currencies with Some c => bool_decide (target ∈ c) | None => false end.
Definition seeding_alliance_build_url (template account_id : string) : string :=
  str_replace "{{.AccountID}}" account_id template.
Definition seeding_alliance_resolve_price_macro (adm : string) (price : f64) : string :=
  str_replace "${AUCTION_PRICE}" (std_f64_to_string price) adm.
Definition seeding_alliance_make_requests (a : SeedingAllianceAdapter) (request : BidRequest)
    (_ : ExtraRequestInfo) : list RequestData * list BidderError :=
  single (
    imps ← mapM seeding_alliance_ext_info (req_imp request);
    let account_id := default "pbs" (last imps.*2) in
    let req_copy := set_req_imp imps.*1 request in
    let req_copy := if seeding_alliance_cur_exists (req_cur req_copy) "EUR" then req_copy
                    else set_req_cur (Some (default [] (req_cur req_copy) ++ ["EUR"])) req_copy in
    body ← body_of req_copy;
    inr (post (seeding_alliance_build_url (seeding_alliance_endpoint a) account_id) body
           {[ "Content-Type" := "application/json;charset=utf-8" ]} (get_imp_ids (req_imp req_copy)))).
Definition seeding_alliance_bid (bid : Bid) : BidderError + TypedBid :=
  let bid := match bid_adm bid with
             | Some adm => set_bid_adm (Some (seeding_alliance_resolve_price_macro adm (bid_price bid))) bid
             | None => bid
             end in
  t ← seeding_alliance_media_type (bid_ext bid); inr (typed_bid_new bid t).
Definition seeding_alliance_make_bids (a : SeedingAllianceAdapter) (_ : BidRequest) (_ : RequestData)
    (response : ResponseData) : list BidderError + BidderResponse :=
  if rsd_status_code response =? 204 then inr bidder_response_new else
  check_status response;;
  bid_resp ← parse_response BadServerResponse response;
  bids_or_errors (currency_or_usd bid_resp) (seeding_alliance_bid <$> bids_of bid_resp).
#[export] Instance seeding_alliance_bidder : Bidder SeedingAllianceAdapter := {
  make_requests := seeding_alliance_make_requests; make_bids := seeding_alliance_make_bids }.

(** ** seedtag *)

Record SeedtagAdapter : Type := { seedtag_endpoint : string }.
Definition seedtag_bid_type_from_mtype (mtype : Z) : BidderError + BidType :=
  match mtype with
  | 1 => inr BtBanner
  | 2 => inr BtVideo
  | _ => inl (BadServerResponse "bid.MType invalid")
  end.
(** A floor in another currency keeps its amount and is said to be in USD. *)
Definition seedtag_imp (imp : Imp) : Imp :=
  match imp_bidfloor imp, imp_bidfloorcur imp with
  | Some floor, Some cur =>
      if f64_gtb floor f64_zero && negb (bool_decide (std_to_uppercase cur = "USD"))
      then set_imp_bidfloorcur (Some "USD") imp else imp
  | _, _ => imp
  end.
Definition seedtag_make_requests (a : SeedtagAdapter) (request : BidRequest) (_ : ExtraRequestInfo)
    : list RequestData * list BidderError :=
  let valid_imps := seedtag_imp <$> req_imp request in
  if is_nil valid_imps then ([], []) else
  let req_copy := set_req_imp valid_imps (set_req_cur (Some ["USD"]) request) in
  single (body ← body_of req_copy;
          inr (post (seedtag_endpoint a) body json_headers (get_imp_ids (req_imp req_copy)))).
Definition seedtag_make_bids (a : SeedtagAdapter) (_ : BidRequest) (_ : RequestData) (response : ResponseData)
    : list BidderError + BidderResponse :=
  if rsd_status_code response =? 204 then inr bidder_response_new else
  check_status response;;
  bid_resp ← parse_response BadServerResponse response;
  some_bids_or_errors "USD"
    (typed (λ bid, seedtag_bid_type_from_mtype (u64 (default 0 (bid_mtype bid)))) <$> bids_of bid_resp).
#[export] Instance seedtag_bidder : Bidder SeedtagAdapter := {
  make_requests := seedtag_make_requests; make_bids := seedtag_make_bids }.
End Adapters11.
#[export] Hint Unfold logicad_make_requests logicad_make_bids loyal_make_requests loyal_make_bids
   mabidder_make_requests mabidder_make_bids madsense_make_requests madsense_make_bids
   marsmedia_make_requests marsmedia_make_bids mediafuse_make_requests mediafuse_make_bids
   mediago_make_requests mediago_make_bids roulax_make_requests roulax_make_bids
   sa_lunamedia_make_requests sa_lunamedia_make_bids seeding_alliance_make_requests
   seeding_alliance_make_bids seedtag_make_requests seedtag_make_bids logicad_tid
   madsense_make_single_request marsmedia_imp seeding_alliance_ext_info seeding_alliance_bid
   seedtag_imp sa_lunamedia_status : adapters.

(** ** The contract *)

Section Contracts.
Context `{OpenRtbJson, StdText, MapIter, !FromSlice MabidderServerResponse, !Deserialize MediafuseImpExt}.
Lemma mediafuse_imps_subset imps valid uid errs valid' uid' errs' :
  mediafuse_imps imps valid uid errs = inr (valid', uid', errs') → ∀ imp, imp ∈ valid' → imp ∈ valid ∨ imp ∈ imps.
Proof.
  revert valid uid errs. induction imps as [|i imps IH]; intros valid uid errs; cbn; [naive_solver|].
  repeat case_match; intros Hr imp Hin; try done; eapply IH in Hr as [?|?]; try done; set_solver.
Qed.
#[export] Instance logicad_honest : HonestAdapter LogicadAdapter.
Proof. solve_adapter. Qed.
#[export] Instance loyal_honest : HonestAdapter LoyalAdapter.
Proof. solve_adapter. Qed.
#[export] Instance mabidder_safe : SafeAdapter MabidderAdapter.
Proof. split; [solve_calls|solve_200]. Qed.
#[export] Instance madsense_honest : HonestAdapter MadsenseAdapter.
Proof. solve_adapter. Qed.
#[export] Instance marsmedia_honest : HonestAdapter MarsmediaAdapter.
Proof. solve_adapter. Qed.
#[export] Instance mediafuse_honest : HonestAdapter MediafuseAdapter.
Proof. solve_adapter. apply imp_ids_subset. intros imp Hin. eapply chunks_subset in Hin; [|eassumption]. eapply mediafuse_imps_subset in Hin as [?%not_elem_of_nil|?]; [done|done|eassumption]. Qed.
#[export] Instance mediago_honest : HonestAdapter MediagoAdapter.
Proof. solve_adapter. Qed.
#[export] Instance roulax_honest : HonestAdapter RoulaxAdapter.
Proof. solve_adapter. Qed.
#[export] Instance sa_lunamedia_honest : HonestAdapter SaLunamediaAdapter.
Proof. solve_adapter. Qed.
#[export] Instance seeding_alliance_honest : HonestAdapter SeedingAllianceAdapter.
Proof. solve_adapter. Qed.
#[export] Instance seedtag_honest : HonestAdapter SeedtagAdapter.
Proof. solve_adapter. Qed.
End Contracts.
