(* ===== verification/Adapters12.v ===== *)
(** * Adapters of adapters12

    adapters/src/adapters12: ogury, oms, openweb, operaads, optidigital, oraki,
    orbidder, ownadx, pgamssp and playdigo. *)

From S2P Require Import Prelude IpUtil Json OpenRtb OpenRtbExt AdapterKit.

(** serde_json's parser and printer of a [Value]. *)
Class ValueText : Type := {
  value_from_str : string → string + Value;
  value_to_string : Value → string + string;
}.

Section Adapters12.
Context `{OpenRtbJson, StdText, KeyIter, ValueText}.

(** ** ogury *)

Record OguryAdapter : Type := { ogury_endpoint : string }.
Definition ogury_bid_type_from_mtype (mtype : Z) (imp_id : string) : BidderError + BidType :=
  banner_video_audio_native mtype (BadServerResponse ("Unsupported MType " +:+ dq +:+ pretty mtype +:+ dq +:+
    ", for impression " +:+ dq +:+ imp_id +:+ dq)).
Definition ogury_has_publisher_id (request : BidRequest) : bool :=
  let id_ok (p : option Publisher) :=
    match p ≫= pub_id with Some id => negb (str_is_empty id) | None => false end in
  id_ok (req_site request ≫= site_publisher) || id_ok (req_app request ≫= app_publisher).
(** The bidder's parameters move up into the extension; with them come whether both
    keys are there. *)
Definition ogury_imp (imp : Imp) : BidderError + Imp * bool :=
  imp_ext ← ok_or (BadInput "Bidder extension not provided or can't be unmarshalled") (imp_ext imp ≫= as_object);
  let bidder_params := default [] (obj_get "bidder" imp_ext ≫= as_object) in
  let has_key (k : string) := present (obj_get k bidder_params) in
  let hoisted := fold_left (λ o e, obj_insert e.1 e.2 o) bidder_params imp_ext in
  inr (set_imp_tagid (Some (imp_id imp)) (set_imp_ext (Some (VObject (obj_remove "bidder" hoisted))) imp),
       has_key "assetKey" && has_key "adUnitId").
Definition ogury_headers (request : BidRequest) : gmap string string :=
  let headers := device_header "X-Forwarded-For" dev_ip request content_type_json in
  let headers := device_header "X-Forwarded-For-IPv6" dev_ipv6 request headers in
  device_header "Accept-Language" dev_language request (device_header "User-Agent" dev_ua request headers).
Definition ogury_make_requests (a : OguryAdapter) (request : BidRequest) (_ : ExtraRequestInfo)
    : list RequestData * list BidderError :=
  single (
    imps ← mapM ogury_imp (req_imp request);
    let imps_with_ogury_params := (filter (λ e : Imp * bool, e.2 = true) imps).*1 in
    imps ← (if is_nil imps_with_ogury_params
            then ensure (ogury_has_publisher_id request) (BadInput
                   "Invalid request. assetKey/adUnitId or request.site/app.publisher.id required");;
                 inr imps.*1
            else inr imps_with_ogury_params);
    post_request (ogury_endpoint a) (ogury_headers request) imps (set_req_imp imps request)).
Definition ogury_make_bids (a : OguryAdapter) (_ : BidRequest) (_ : RequestData) (response : ResponseData)
    : list BidderError + BidderResponse :=
  if rsd_status_code response =? 204 then inr bidder_response_new else
  check_status response;;
  bid_resp ← parse_response BadServerResponse response;
  bids_or_errors (default "USD" (resp_cur bid_resp))
    (typed (λ bid, ogury_bid_type_from_mtype (u64 (default 0 (bid_mtype bid))) (bid_impid bid)) <$> bids_of bid_resp).
#[export] Instance ogury_bidder : Bidder OguryAdapter := {
  make_requests := ogury_make_requests; make_bids := ogury_make_bids }.

(** ** oms *)

Record OmsAdapter : Type := { oms_endpoint : string }.
Definition oms_bid_type_from_mtype (mtype : Z) : BidType := match mtype with 2 => BtVideo | _ => BtBanner end.
Definition oms_bid_video (bid_type : BidType) (bid : Bid) : option ExtBidPrebidVideo :=
  if bool_decide (bid_type = BtVideo)
  then Some {| bvid_duration := 0; bvid_primary_category := first_cat bid |} else None.
Definition oms_uri (endpoint : string) (request : BidRequest) : string :=
  match head (req_imp request) with
  | Some imp =>
      let pid := bidder_str "pid" imp in
      let publisher_id_num := default 0 (json_path ["bidder"; "publisherId"] (imp_ext imp) ≫= as_i64) in
      if negb (str_is_empty pid) then endpoint +:+ "?publisherId=" +:+ pid
      else if 0 <? publisher_id_num then endpoint +:+ "?publisherId=" +:+ pretty publisher_id_num
      else endpoint
  | None => endpoint
  end.
Definition oms_make_requests (a : OmsAdapter) (request : BidRequest) (_ : ExtraRequestInfo)
    : list RequestData * list BidderError :=
  single (post_request (oms_uri (oms_endpoint a) request) ∅ (req_imp request) request).
Definition oms_make_bids (a : OmsAdapter) (_ : BidRequest) (_ : RequestData) (response : ResponseData)
    : list BidderError + BidderResponse :=
  if rsd_status_code response =? 204 then inr bidder_response_new else
  check_status response;;
  bid_resp ← parse_response BadServerResponse response;
  inr (answer_with "USD" ((λ bid,
    let bid_type := oms_bid_type_from_mtype (u64 (default 0 (bid_mtype bid))) in
    with_video (oms_bid_video bid_type bid) (typed_bid_new bid bid_type)) <$> bids_of bid_resp)).
#[export] Instance oms_bidder : Bidder OmsAdapter := {
  make_requests := oms_make_requests; make_bids := oms_make_bids }.

(** ** openweb *)

Record OpenwebAdapter : Type := { openweb_endpoint : string }.
Definition openweb_bid_type_from_mtype (mtype : Z) : BidderError + BidType :=
  match mtype with
  | 1 => inr BtBanner
  | 2 => inr BtVideo
  | _ => inl (BadServerResponse ("unsupported MType " +:+ pretty mtype))
  end.
Fixpoint openweb_extract_org (imps : list Imp) : BidderError + string :=
  match imps with
  | [] => inl (BadInput "no org or aid supplied")
  | imp :: imps' =>
      bidder ← ok_or (BadInput "unmarshal bidderExt: missing bidder") (json_path ["bidder"] (imp_ext imp));
      ensure (negb (str_is_empty (str_at ["placementId"] (Some bidder)))) (BadInput "no placement id supplied");;
      let org := trim (str_at ["org"] (Some bidder)) in
      if negb (str_is_empty org) then inr org else
      let aid := default 0 (get "aid" bidder ≫= as_i64) in
      if negb (aid =? 0) then inr (pretty aid) else openweb_extract_org imps'
  end.
Definition openweb_make_requests (a : OpenwebAdapter) (request : BidRequest) (_ : ExtraRequestInfo)
    : list RequestData * list BidderError :=
  single (
    org ← openweb_extract_org (req_imp request);
    post_request (openweb_endpoint a +:+ "?publisher_id=" +:+ org) content_type_json (req_imp request) request).
Definition openweb_make_bids (a : OpenwebAdapter) (_ : BidRequest) (_ : RequestData) (response : ResponseData)
    : list BidderError + BidderResponse :=
  if rsd_status_code response =? 204 then inr bidder_response_new else
  check_status response;;
  bid_resp ← parse_response BadServerResponse response;
  some_bids_or_errors (currency_or_usd bid_resp)
    (typed (λ bid, openweb_bid_type_from_mtype (u64 (default 0 (bid_mtype bid)))) <$> bids_of bid_resp).
#[export] Instance openweb_bidder : Bidder OpenwebAdapter := {
  make_requests := openweb_make_requests; make_bids := openweb_make_bids }.

(** ** operaads *)

Record OperaadsAdapter : Type := { operaads_endpoint : string }.
Definition build_opera_imp_id (origin_id bid_type : string) : string := origin_id +:+ ":opa:" +:+ bid_type.
Definition parse_opera_imp_id (imp_id : string) : string * BidType :=
  let parts := split_char (ch ":") imp_id in
  if (length parts <? 2)%nat then (imp_id, BtBanner) else
  let bid_type_str := default "" (last parts) in
  let bid_type := if bool_decide (bid_type_str = "video") then BtVideo
                  else if bool_decide (bid_type_str = "native") then BtNative else BtBanner in
  (join ":" (take (length parts - 2) parts), bid_type).
Definition operaads_convert_banner (banner : Banner) : BidderError + Banner :=
  let no_size := negb (present (ban_w banner)) || negb (present (ban_h banner))
                 || bool_decide (ban_w banner = Some 0) || bool_decide (ban_h banner = Some 0) in
  if no_size then
    match ban_format banner ≫= head with
    | Some fmt => inr (set_ban_h (fmt_h fmt) (set_ban_w (fmt_w fmt) banner))
    | None => inl (BadInput "Size information missing for banner")
    end
  else inr banner.
Definition operaads_convert_native (native : Native) : BidderError + Native :=
  match ntv_request native with
  | Some req =>
      if str_is_empty req then inr native else
      v ← map_error BadInput (value_from_str req);
      if present (get "native" v) then inr native else
      s ← map_error BadInput (value_to_string (VObject [("native", v)]));
      inr (set_ntv_request (Some s) native)
  | None => inr native
  end.
(** The impression in one of its formats, under an id that names the format. *)
Definition operaads_format_imp (imp : Imp) (bid_type : string) : BidderError + Imp :=
  let imp := set_imp_id (build_opera_imp_id (imp_id imp) bid_type) imp in
  if bool_decide (bid_type = "banner") then
    let imp := set_imp_native None (set_imp_video None imp) in
    match imp_banner imp with
    | Some banner => banner ← operaads_convert_banner banner; inr (set_imp_banner (Some banner) imp)
    | None => inr imp
    end
  else if bool_decide (bid_type = "video") then inr (set_imp_native None (set_imp_banner None imp))
  else if bool_decide (bid_type = "native") then
    let imp := set_imp_video None (set_imp_banner None imp) in
    match imp_native imp with
    | Some native => native ← operaads_convert_native native; inr (set_imp_native (Some native) imp)
    | None => inr imp
    end
  else inr imp.
Definition operaads_format_request (request : BidRequest) (endpoint : string) (imp : Imp) (bid_type : string)
    : BidderError + RequestData :=
  imp ← operaads_format_imp imp bid_type;
  post_request endpoint json_headers [imp] (set_req_imp [imp] request).
Definition operaads_imp (endpoint : string) (request : BidRequest) (imp : Imp) : list (BidderError + RequestData) :=
  let endpoint := str_replace "{{.AccountID}}" (bidder_str "endpointId" imp)
                    (str_replace "{{.PublisherID}}" (bidder_str "publisherId" imp) endpoint) in
  let imp_copy := set_imp_tagid (Some (bidder_str "placementId" imp)) imp in
  (if present (imp_native imp) then [operaads_format_request request endpoint imp_copy "native"] else [])
  ++ (if present (imp_video imp) then [operaads_format_request request endpoint imp_copy "video"] else [])
  ++ (if present (imp_banner imp) then [operaads_format_request request endpoint imp_copy "banner"] else []).
Definition operaads_make_requests (a : OperaadsAdapter) (request : BidRequest) (_ : ExtraRequestInfo)
    : list RequestData * list BidderError :=
  if str_is_empty (default "" (req_device request ≫= dev_os))
  then ([], [BadInput "Impression is missing device OS information"])
  else split_results (req_imp request ≫= operaads_imp (operaads_endpoint a) request).
(** Bids at price zero are dropped, the others get their impression's id back. *)
Definition operaads_make_bids (a : OperaadsAdapter) (_ : BidRequest) (_ : RequestData) (response : ResponseData)
    : list BidderError + BidderResponse :=
  if rsd_status_code response =? 204 then inr bidder_response_new else
  ok_or_400 response;;
  bid_resp ← parse_response BadServerResponse response;
  inr (answer_with "USD" (omap (λ bid,
    if f64_eqb (bid_price bid) f64_zero then None else
    let '(origin_id, bid_type) := parse_opera_imp_id (bid_impid bid) in
    Some (typed_bid_new (set_bid_impid origin_id bid) bid_type)) (bids_of bid_resp))).
#[export] Instance operaads_bidder : Bidder OperaadsAdapter := {
  make_requests := operaads_make_requests; make_bids := operaads_make_bids }.

(** ** optidigital and oraki *)

Record OptidigitalAdapter : Type := { optidigital_endpoint : string }.
Definition optidigital_make_requests (a : OptidigitalAdapter) (request : BidRequest) (_ : ExtraRequestInfo)
    : list RequestData * list BidderError :=
  single (post_request (optidigital_endpoint a) json_headers (req_imp request) request).
Definition optidigital_make_bids (a : OptidigitalAdapter) (_ : BidRequest) (_ : RequestData)
    (response : ResponseData) : list BidderError + BidderResponse :=
  if rsd_status_code response =? 204 then inr bidder_response_new else
  check_status response;;
  bid_resp ← parse_response (λ _, BadServerResponse "Bad Server Response") response;
  inr (answer_with (default "USD" (resp_cur bid_resp)) ((λ bid, typed_bid_new bid BtBanner) <$> bids_of bid_resp)).
#[export] Instance optidigital_bidder : Bidder OptidigitalAdapter := {
  make_requests := optidigital_make_requests; make_bids := optidigital_make_bids }.

Record OrakiAdapter : Type := { oraki_endpoint : string }.
Definition oraki_bid_type (mtype : Z) (imp_id : string) : BidderError + BidType :=
  banner_video_native mtype (BadServerResponse ("could not define media type for impression: " +:+ imp_id)).
Definition oraki_imp_ext (imp : Imp) : BidderError + Value := inr (placement_or_endpoint_ext imp).
Definition oraki_make_requests (a : OrakiAdapter) (request : BidRequest) (_ : ExtraRequestInfo)
    : list RequestData * list BidderError :=
  split_results ((λ imp,
    new_ext ← oraki_imp_ext imp;
    let imp_copy := set_imp_ext (Some new_ext) imp in
    post_request (oraki_endpoint a) json_headers [imp_copy] (set_req_imp [imp_copy] request)) <$> req_imp request).
Definition oraki_make_bids (a : OrakiAdapter) (_ : BidRequest) (_ : RequestData) (response : ResponseData)
    : list BidderError + BidderResponse :=
  if rsd_status_code response =? 204 then inr bidder_response_new else
  check_status response;;
  bid_resp ← parse_response BadServerResponse response;
  bids_or_first_error (currency_or_usd bid_resp)
    (typed (λ bid, oraki_bid_type (default 0 (bid_mtype bid)) (bid_impid bid)) <$> bids_of bid_resp).
#[export] Instance oraki_bidder : Bidder OrakiAdapter := {
  make_requests := oraki_make_requests; make_bids := oraki_make_bids }.

(** ** orbidder *)

Record OrbidderAdapter : Type := { orbidder_endpoint : string }.
Definition orbidder_bid_type_from_mtype (mtype : Z) (imp_id : string) : BidderError + BidType :=
  banner_video_audio_native mtype (BadInput ("Could not define media type for impression: " +:+ imp_id)).
(** A floor keeps its amount and is said to be in EUR. *)
Definition orbidder_imp (imp : Imp) : BidderError + Imp :=
  ensure (present (json_path ["bidder"] (imp_ext imp))) (BadInput "missing bidder ext");;
  inr match imp_bidfloorcur imp with
      | Some cur => if bool_decide (std_to_uppercase cur = "EUR") then imp else set_imp_bidfloorcur (Some "EUR") imp
      | None => set_imp_bidfloorcur (Some "EUR") imp
      end.
Definition orbidder_make_requests (a : OrbidderAdapter) (request : BidRequest) (_ : ExtraRequestInfo)
    : list RequestData * list BidderError :=
  let '(valid_imps, errs) := split_results (orbidder_imp <$> req_imp request) in
  if is_nil valid_imps then ([], errs) else
  after_errors errs (single (post_request (orbidder_endpoint a) json_headers valid_imps (set_req_imp valid_imps request))).
Definition orbidder_status (response : ResponseData) : list BidderError + () :=
  let s := rsd_status_code response in
  if 500 <=? s then inl [BadServerResponse (status_text "Unexpected status code: "
    ". Dsp server internal error." response)]
  else if 400 <=? s then inl [BadInput (status_text "Unexpected status code: " ". Bad request to dsp." response)]
  else check_status response.
Definition orbidder_make_bids (a : OrbidderAdapter) (_ : BidRequest) (_ : RequestData) (response : ResponseData)
    : list BidderError + BidderResponse :=
  if rsd_status_code response =? 204 then inr bidder_response_new else
  orbidder_status response;;
  bid_resp ← parse_response BadServerResponse response;
  bids_or_errors (currency_or_usd bid_resp)
    (typed (λ bid, orbidder_bid_type_from_mtype (ext_mtype bid) (bid_impid bid)) <$> bids_of bid_resp).
#[export] Instance orbidder_bidder : Bidder OrbidderAdapter := {
  make_requests := orbidder_make_requests; make_bids := orbidder_make_bids }.

(** ** ownadx *)

Record OwnadxAdapter : Type := { ownadx_endpoint : string }.
(** The ssp, seat and token ids. *)
Definition OwnAdxExt : Type := string * string * string.
Definition ownadx_imp_ext (imp : Imp) : BidderError + OwnAdxExt :=
  bidder ← ok_or (BadInput "Bidder extension not valid or can't be unmarshalled") (json_path ["bidder"] (imp_ext imp));
  inr (str_at ["sspId"] (Some bidder), str_at ["seatId"] (Some bidder), str_at ["tokenId"] (Some bidder)).
Definition ownadx_build_endpoint_url (template : string) (ext : OwnAdxExt) : string :=
  let '(ssp_id, seat_id, token_id) := ext in
  str_replace "{{.TokenID}}" token_id (str_replace "{{.SeatID}}" seat_id (str_replace "{{.SspID}}" ssp_id template)).
Definition ownadx_bid_type_from_mtype (mtype : Z) : BidderError + BidType :=
  banner_video_audio_native mtype (BadServerResponse "Bid type is invalid").
Definition ownadx_imp (imp : Imp) : BidderError + (string * string * string) * Imp :=
  ext ← ownadx_imp_ext imp; inr (ext, imp).
Definition ownadx_make_requests (a : OwnadxAdapter) (request : BidRequest) (_ : ExtraRequestInfo)
    : list RequestData * list BidderError :=
  if is_nil (req_imp request) then ([], [BadInput "No impression in the bid request"]) else
  let '(exts, errs) := split_results (ownadx_imp <$> req_imp request) in
  after_errors errs (split_results ((λ '(ext, imps),
    post_request (ownadx_build_endpoint_url (ownadx_endpoint a) ext) (<["x-openrtb-version" := "2.5"]> json_headers)
      imps (set_req_imp imps request)) <$> key_iter (grouped exts))).
Definition ownadx_make_bids (a : OwnadxAdapter) (_ : BidRequest) (_ : RequestData) (response : ResponseData)
    : list BidderError + BidderResponse :=
  if rsd_status_code response =? 204 then inr bidder_response_new else
  check_status response;;
  bid_resp ← parse_response BadServerResponse response;
  match resp_seatbid bid_resp with
  | [] => inl [BadServerResponse "Array SeatBid cannot be empty"]
  | seat_bid :: _ =>
      ensure (negb (is_nil (sb_bid seat_bid))) [BadServerResponse "Bid cannot be empty"];;
      bids_or_first_error "USD" (typed (λ bid, ownadx_bid_type_from_mtype (ext_mtype bid)) <$> bids_of bid_resp)
  end.
#[export] Instance ownadx_bidder : Bidder OwnadxAdapter := {
  make_requests := ownadx_make_requests; make_bids := ownadx_make_bids }.

(** ** pgamssp and playdigo *)

Record PgamsspAdapter : Type := { pgamssp_endpoint : string }.
Definition pgamssp_bid_type_from_mtype (mtype : Z) (imp_id : string) : BidderError + BidType :=
  banner_video_audio_native mtype (BadServerResponse ("Unable to fetch mediaType in multi-format: " +:+ imp_id)).
Definition pgamssp_imp_ext (imp : Imp) : BidderError + Value := inr (placement_or_endpoint_ext imp).
Definition pgamssp_make_requests (a : PgamsspAdapter) (request : BidRequest) (_ : ExtraRequestInfo)
    : list RequestData * list BidderError :=
  all_or_first_error (mapM (λ imp,
    new_ext ← pgamssp_imp_ext imp;
    let imp_copy := set_imp_ext (Some new_ext) imp in
    post_request (pgamssp_endpoint a) json_headers [imp_copy] (set_req_imp [imp_copy] request)) (req_imp request)).
Definition pgamssp_make_bids (a : PgamsspAdapter) (_ : BidRequest) (_ : RequestData) (response : ResponseData)
    : list BidderError + BidderResponse :=
  if rsd_status_code response =? 204 then inr bidder_response_new else
  check_status response;;
  bid_resp ← parse_response BadServerResponse response;
  bids_or_first_error (currency_or_usd bid_resp)
    (typed (λ bid, pgamssp_bid_type_from_mtype (ext_mtype bid) (bid_impid bid)) <$> bids_of bid_resp).
#[export] Instance pgamssp_bidder : Bidder PgamsspAdapter := {
  make_requests := pgamssp_make_requests; make_bids := pgamssp_make_bids }.

Record PlaydigoAdapter : Type := { playdigo_endpoint : string }.
Definition playdigo_bid_type_from_mtype (mtype : Z) (imp_id : string) : BidderError + BidType :=
  banner_video_audio_native mtype (BadServerResponse ("could not define media type for impression: " +:+ imp_id)).
Definition playdigo_imp_ext (imp : Imp) : BidderError + Value := inr (placement_or_endpoint_ext imp).
Definition playdigo_make_requests (a : PlaydigoAdapter) (request : BidRequest) (_ : ExtraRequestInfo)
    : list RequestData * list BidderError :=
  let '(requests, errs) := split_results ((λ imp,
    new_ext ← playdigo_imp_ext imp;
    let imp_copy := set_imp_ext (Some new_ext) imp in
    post_request (playdigo_endpoint a) json_headers [imp_copy] (set_req_imp [imp_copy] request)) <$> req_imp request) in
  if is_nil requests then ([], errs ++ [BadInput "found no valid impressions"]) else (requests, errs).
Definition playdigo_make_bids (a : PlaydigoAdapter) (_ : BidRequest) (_ : RequestData) (response : ResponseData)
    : list BidderError + BidderResponse :=
  if rsd_status_code response =? 204 then inr bidder_response_new else
  check_status response;;
  bid_resp ← parse_response BadServerResponse response;
  bids_or_first_error (currency_or_usd bid_resp)
    (typed (λ bid, playdigo_bid_type_from_mtype (u64 (default 0 (bid_mtype bid))) (bid_impid bid)) <$> bids_of bid_resp).
#[export] Instance playdigo_bidder : Bidder PlaydigoAdapter := {
  make_requests := playdigo_make_requests; make_bids := playdigo_make_bids }.
End Adapters12.
#[export] Hint Unfold ogury_make_requests ogury_make_bids oms_make_requests oms_make_bids openweb_make_requests
   openweb_make_bids operaads_make_requests operaads_make_bids optidigital_make_requests
   optidigital_make_bids oraki_make_requests oraki_make_bids orbidder_make_requests
   orbidder_make_bids ownadx_make_requests ownadx_make_bids pgamssp_make_requests pgamssp_make_bids
   playdigo_make_requests playdigo_make_bids orbidder_imp ownadx_imp orbidder_status : adapters.

(** ** The contract *)

Section Contracts.
Context `{OpenRtbJson, StdText, KeyIter, ValueText}.
(** The pairs with both keys keep their impressions. *)
Lemma ogury_imp_ids imps k : mapM ogury_imp imps = inr k → get_imp_ids k.*1 = get_imp_ids imps.
Proof. intros Hk. apply (mapM_imp_ids _ fst _ _ Hk). unfold ogury_imp. solve_keeps_id. Qed.
Lemma ogury_filter_ids imps k : mapM ogury_imp imps = inr k →
  get_imp_ids (filter (λ e : Imp * bool, e.2 = true) k).*1 ⊆ get_imp_ids imps.
Proof.
  intros Hk%ogury_imp_ids. rewrite <-Hk. apply imp_ids_subset. intros i (e&->&[_ He]%list_elem_of_filter)%list_elem_of_fmap.
  by apply list_elem_of_fmap_2.
Qed.
#[export] Instance ogury_honest : HonestAdapter OguryAdapter.
Proof. split; [split; [solve_calls|solve_200]|solve_bids]; [by erewrite ogury_imp_ids|by eapply ogury_filter_ids]. Qed.
#[export] Instance oms_honest : HonestAdapter OmsAdapter.
Proof. solve_adapter. Qed.
#[export] Instance openweb_honest : HonestAdapter OpenwebAdapter.
Proof. solve_adapter. Qed.
#[export] Instance optidigital_honest : HonestAdapter OptidigitalAdapter.
Proof. solve_adapter. Qed.
#[export] Instance oraki_honest : HonestAdapter OrakiAdapter.
Proof. solve_adapter. Qed.
#[export] Instance orbidder_honest : HonestAdapter OrbidderAdapter.
Proof. solve_adapter. Qed.
#[export] Instance ownadx_honest : HonestAdapter OwnadxAdapter.
Proof. solve_adapter. Qed.
#[export] Instance pgamssp_honest : HonestAdapter PgamsspAdapter.
Proof. solve_adapter. Qed.
#[export] Instance playdigo_honest : HonestAdapter PlaydigoAdapter.
Proof. solve_adapter. Qed.
End Contracts.

(** ** The ids of operaads *)

Lemma split_char_nonempty c s : split_char c s ≠ [].
Proof. destruct s as [|a s]; cbn; [done|]. case_bool_decide; [done|]. by destruct (split_char c s). Qed.
Lemma split_char_sep c o rest : split_char c (o +:+ String c rest) = split_char c o ++ split_char c rest.
Proof.
  induction o as [|a o IH]; simpl; [by rewrite bool_decide_true by done|]. rewrite IH.
  case_bool_decide; [done|]. pose proof (split_char_nonempty c o). by destruct (split_char c o).
Qed.
Lemma join_split_char c s : join (String c "") (split_char c s) = s.
Proof.
  induction s as [|a s IH]; [done|]. simpl. pose proof (split_char_nonempty c s). case_bool_decide; subst.
  - destruct (split_char c s); [done|]. change (String c (join (String c "") (s0 :: l)) = String c s). by rewrite IH.
  - destruct (split_char c s) as [|p [|q ps]]; [done|..]; cbn in *; by rewrite <-IH.
Qed.
(** operaads: a bid's impression gets back the id and the format it was sent with,
    whatever the id is, colons included. *)
Lemma opera_imp_id_roundtrip o name t :
  (name, t) ∈ [("banner", BtBanner); ("video", BtVideo); ("native", BtNative)] →
  parse_opera_imp_id (build_opera_imp_id o name) = (o, t).
Proof.
  intros Hin. unfold parse_opera_imp_id, build_opera_imp_id.
  change (o +:+ ":opa:" +:+ name) with (o +:+ String (ch ":") ("opa" +:+ String (ch ":") name)).
  rewrite split_char_sep, (split_char_sep _ "opa").
  assert (split_char (ch ":") "opa" ++ split_char (ch ":") name = ["opa"; name]) as ->.
  { repeat (apply elem_of_cons in Hin as [[= -> ->]|Hin]; [done|]). by apply not_elem_of_nil in Hin. }
  rewrite length_app, (proj2 (Nat.ltb_ge _ 2)) by (cbn; lia). change (length ["opa"; name]) with 2%nat.
  rewrite Nat.add_sub, take_app_length, (join_split_char (ch ":")), last_app. cbn.
  repeat (apply elem_of_cons in Hin as [[= -> ->]|Hin]; [done|]). by apply not_elem_of_nil in Hin.
Qed.
