(* ===== verification/Registry.v ===== *)
(** * The registry of adapters

    adapters/src/registry.rs: the endpoints and aliases read out of the bidders'
    YAML files, the generic adapter, and the map of adapters: the registrations, then
    an adapter for each alias, made by its parent's builder or generic.

    The file system is a parameter; the table holds the registrations whose adapters
    the files Adapters... model. *)

From S2P Require Import Prelude Json OpenRtb OpenRtbExt IpUtil ConfigData BidderInfos AdapterKit Adapters1 Adapters5 Adapters9 Adapters11 Adapters12.

(** ** YAML files, line by line *)

(** [s.lines()]: a last empty line is none, and a carriage return before the end of a
    line is not part of it. *)
Definition strip_cr (s : string) : string :=
  if bool_decide (last (String.list_ascii_of_string s) = Some (Ascii.ascii_of_nat 13))
  then String.substring 0 (String.length s - 1) s else s.
Definition str_lines (s : string) : list string :=
  let pieces := split_char (Ascii.ascii_of_nat 10) s in
  strip_cr <$> (if bool_decide (last pieces = Some "") then take (length pieces - 1) pieces else pieces).
Fixpoint trim_start_go (fuel : nat) (pat s : string) : string :=
  match fuel with
  | O => s
  | S fuel' => if String.prefix pat s then trim_start_go fuel' pat (str_drop (String.length pat) s) else s
  end.
(** [s.trim_start_matches(pat)] *)
Definition trim_start_matches (pat s : string) : string := trim_start_go (String.length s) pat s.
(** [s.trim_matches(c)] *)
Definition trim_matches (c : Ascii.ascii) (s : string) : string :=
  let drop := drop_while (λ a, bool_decide (a = c)) in
  String.string_of_list_ascii (reverse (drop (reverse (drop (String.list_ascii_of_string s))))).
(** The value of a line [key: value], without its quotes. *)
Definition yaml_value (key line : string) : string :=
  trim_matches (ch "'") (trim_matches (Ascii.ascii_of_nat 34) (trim (trim_start_matches key line))).
Definition endpoint_line (line : string) : option string :=
  let line := trim line in
  if String.prefix "endpoint:" line && negb (String.prefix "#" line) then
    let val := yaml_value "endpoint:" line in if str_is_empty val then None else Some val
  else None.
Definition BIDDER_INFO_DIRS : list string :=
  ["/home/user/prebid-server/static/bidder-info"; "static/bidder-info"; "../static/bidder-info"].

(** The files the registry sees. *)
Class Files : Type := {
  is_dir : string → bool;
  read_dir : string → option (list (option DirEntry));
  read_text : string → option string;
}.
Section Yaml.
Context `{Files}.
Definition find_bidder_info_dir : option string := head (filter (λ dir, is_dir dir = true) BIDDER_INFO_DIRS).
Definition file_endpoint (name dir : string) : option string :=
  content ← read_text (dir +:+ "/" +:+ name +:+ ".yaml"); head (omap endpoint_line (str_lines content)).
Definition read_endpoint (name dflt : string) : string :=
  default dflt (head (omap (file_endpoint name) BIDDER_INFO_DIRS)).
Definition ep (name : string) : string := read_endpoint name "".
(** The first line that starts with the key decides. *)
Definition alias_of_text (content : string) : option string :=
  line ← head (filter (λ line, String.prefix "aliasOf:" line = true) (trim <$> str_lines content));
  let parent := yaml_value "aliasOf:" line in if str_is_empty parent then None else Some parent.
Definition entry_alias (entry : option DirEntry) : option (string * string) :=
  e ← entry;
  if bool_decide (de_ext e = "yaml") then
    name ← de_stem e; content ← de_text e; parent ← alias_of_text content; Some (name, parent)
  else None.
Definition discover_yaml_aliases : list (string * string) :=
  match find_bidder_info_dir ≫= read_dir with Some entries => omap entry_alias entries | None => [] end.
End Yaml.

(** ** The generic adapter *)

Record GenericAdapter : Type := { generic_endpoint : string }.
Section Generic.
Context `{OpenRtbJson}.
Definition generic_make_requests (a : GenericAdapter) (request : BidRequest) (_ : ExtraRequestInfo)
    : list RequestData * list BidderError :=
  if str_is_empty (generic_endpoint a) then ([], []) else
  match to_vec request with
  | inr body => ([new_post (generic_endpoint a) body], [])
  | inl e => ([], [FailedToRequestBids e])
  end.
Definition generic_make_bids (_ : GenericAdapter) (_ : BidRequest) (_ : RequestData) (response : ResponseData)
    : list BidderError + BidderResponse :=
  if rsd_status_code response =? 204 then inr bidder_response_new else
  check_status response;;
  bid_resp ← parse_response BadServerResponse response;
  inr (answer_with "USD" ((λ bid, typed_bid_new bid (get_bid_type_from_mtype (default 0 (bid_mtype bid)))) <$> bids_of bid_resp)).
#[export] Instance generic_bidder : Bidder GenericAdapter := {
  make_requests := generic_make_requests; make_bids := generic_make_bids }.
End Generic.
#[export] Hint Unfold generic_make_requests generic_make_bids : adapters.
Section GenericContract.
Context `{OpenRtbJson}.
#[export] Instance generic_honest : HonestAdapter GenericAdapter.
Proof. solve_adapter. Qed.
End GenericContract.

(** ** The map of adapters *)

(** [reg!], [reg_with_builder!] and [gen!]: a name, the name its endpoint is read
    under, what makes the adapter, and whether aliases may use it. *)
Record Registration : Type := {
  reg_key : string; reg_endpoint : string; reg_shared : bool; reg_new : string → DynBidder }.
Definition reg (key : string) (mk : string → DynBidder) : Registration := {|
  reg_key := key; reg_endpoint := key; reg_shared := false; reg_new := mk |}.
Definition reg_with_builder (key : string) (mk : string → DynBidder) : Registration := {|
  reg_key := key; reg_endpoint := key; reg_shared := true; reg_new := mk |}.

Section Map.
Context `{OpenRtbJson, Files}.
Definition register_adapter (m : gmap string DynBidder) (r : Registration) : gmap string DynBidder :=
  <[reg_key r := reg_new r (ep (reg_endpoint r))]> m.
Definition add_builder (builders : gmap string (string → DynBidder)) (r : Registration)
    : gmap string (string → DynBidder) :=
  if reg_shared r then <[reg_key r := reg_new r]> builders else builders.
(** The alias's own endpoint, or its parent's. *)
Definition alias_endpoint (alias_name parent_name : string) : string :=
  if str_is_empty (ep alias_name) then ep parent_name else ep alias_name.
Definition register_alias (builders : gmap string (string → DynBidder)) (m : gmap string DynBidder)
    (alias : string * string) : gmap string DynBidder :=
  let '(alias_name, parent_name) := alias in
  if bool_decide (is_Some (m !! alias_name)) then m else
  let endpoint := alias_endpoint alias_name parent_name in
  match builders !! parent_name with
  | Some builder => <[alias_name := builder endpoint]> m
  | None => <[alias_name := boxed {| generic_endpoint := endpoint |}]> m
  end.
Definition build_adapter_map (table : list Registration) : gmap string DynBidder :=
  let m := fold_left register_adapter table ∅ in
  let builders := fold_left add_builder table ∅ in
  fold_left (register_alias builders) discover_yaml_aliases m.

(** ** What a name stands for *)

Definition last_registration (table : list Registration) (name : string) : option Registration :=
  last (filter (λ r, reg_key r = name) table).
Definition last_builder (table : list Registration) (name : string) : option (string → DynBidder) :=
  reg_new <$> last (filter (λ r, reg_key r = name ∧ reg_shared r = true) table).
Lemma register_lookup table name : fold_left register_adapter table ∅ !! name =
  (λ r, reg_new r (ep (reg_endpoint r))) <$> last_registration table name.
Proof.
  unfold last_registration. induction table as [|r table IH] using rev_ind; [done|].
  rewrite fold_left_app, filter_app. cbn [fold_left]. unfold register_adapter at 1.
  destruct (decide (reg_key r = name)) as [He|He].
  - by rewrite filter_cons_True, filter_nil, last_snoc, He, lookup_insert_eq.
  - by rewrite filter_cons_False, filter_nil, app_nil_r, lookup_insert_ne.
Qed.
Lemma builders_lookup table name : fold_left add_builder table ∅ !! name = last_builder table name.
Proof.
  unfold last_builder. induction table as [|r table IH] using rev_ind; [done|].
  rewrite fold_left_app, filter_app. cbn [fold_left]. unfold add_builder at 1.
  destruct (decide (reg_key r = name ∧ reg_shared r = true)) as [[He Hs]|Hn].
  - by rewrite filter_cons_True, filter_nil, last_snoc, Hs, He, lookup_insert_eq.
  - rewrite filter_cons_False, filter_nil, app_nil_r, <-IH by done.
    destruct (reg_shared r); [|done]. rewrite lookup_insert_ne; [done|]. tauto.
Qed.
(** An alias not registered by name: by its parent's builder, or generic. *)
Definition alias_adapter (table : list Registration) (alias : string * string) : DynBidder :=
  let endpoint := alias_endpoint alias.1 alias.2 in
  match last_builder table alias.2 with
  | Some builder => builder endpoint
  | None => boxed {| generic_endpoint := endpoint |}
  end.
Lemma register_aliases_lookup table aliases m name :
  fold_left (register_alias (fold_left add_builder table ∅)) aliases m !! name =
  match m !! name with
  | Some d => Some d
  | None => alias_adapter table <$> head (filter (λ e : string * string, e.1 = name) aliases)
  end.
Proof.
  revert m. induction aliases as [|[alias parent] aliases IH]; intros m; cbn [fold_left].
  { cbn. by destruct (m !! name). }
  rewrite IH. unfold register_alias at 1. rewrite builders_lookup.
  replace (match last_builder table parent with
    | Some builder => <[alias:=builder (alias_endpoint alias parent)]> m
    | None => <[alias:=boxed {| generic_endpoint := alias_endpoint alias parent |}]> m
    end) with (<[alias := alias_adapter table (alias, parent)]> m)
    by (unfold alias_adapter; cbn; by destruct (last_builder table parent)).
  destruct (decide (alias = name)) as [->|Hne].
  - rewrite filter_cons_True by done. cbn. destruct (m !! name) eqn:Hm.
    + rewrite bool_decide_eq_true_2 by (by eexists). by rewrite Hm.
    + rewrite bool_decide_eq_false_2 by (by intros []). by rewrite lookup_insert_eq.
  - rewrite filter_cons_False by done. destruct (bool_decide (is_Some (m !! alias))); [done|]. by rewrite lookup_insert_ne.
Qed.
(** A name stands for what registers it, else for what its alias file makes it. *)
Lemma build_adapter_map_lookup table name : build_adapter_map table !! name =
  match last_registration table name with
  | Some r => Some (reg_new r (ep (reg_endpoint r)))
  | None => alias_adapter table <$> head (filter (λ e : string * string, e.1 = name) discover_yaml_aliases)
  end.
Proof.
  unfold build_adapter_map. rewrite register_aliases_lookup, register_lookup. by destruct (last_registration table name).
Qed.
End Map.

(** ** Every adapter keeps the contract *)

(** The contracts [SafeAdapter] and [HonestAdapter] of an adapter in its box. *)
Definition keeps_contract (d : DynBidder) : Prop :=
  (∀ request info rd, rd ∈ (make_requests (dyn_self d) request info).1 →
    rqd_method rd = "POST" ∧ rqd_imp_ids rd ⊆ get_imp_ids (req_imp request)) ∧
  (∀ request external response br, make_bids (dyn_self d) request external response = inr br →
    br_bids br ≠ [] → rsd_status_code response = 200).
Definition hands_on_bids `{OpenRtbJson} (d : DynBidder) : Prop :=
  ∀ request external response br, make_bids (dyn_self d) request external response = inr br → br_bids br ≠ [] →
    ∃ parsed, bid_response_from_slice (rsd_body response) = inr parsed ∧
      typed_keys (br_bids br) `sublist_of` (bid_key <$> bids_of parsed).
Lemma boxed_keeps {A} `{SafeAdapter A} (a : A) : keeps_contract (boxed a).
Proof. split; cbn; intros; [by eapply calls_for_imps|by eapply bids_need_200]. Qed.
Lemma boxed_hands_on {A} `{HonestAdapter A} (a : A) : hands_on_bids (boxed a).
Proof. intros request external response br Hbr Hne. by eapply (bids_from_response a). Qed.
Lemma elem_of_last {A} (l : list A) x : last l = Some x → x ∈ l.
Proof. intros Hl. rewrite last_Some in Hl. destruct Hl as (l'&->). set_solver. Qed.
(** The registration behind a name: its own, or that of the builder of its parent. *)
Definition behind `{Files} (table : list Registration) (name : string) : option Registration :=
  match last_registration table name with
  | Some r => Some r
  | None =>
      alias ← head (filter (λ e : string * string, e.1 = name) discover_yaml_aliases);
      last (filter (λ r, reg_key r = alias.2 ∧ reg_shared r = true) table)
  end.
(** An adapter is made by the registration behind its name, or is generic. *)
Lemma build_adapter_map_behind `{OpenRtbJson, Files} table name d : build_adapter_map table !! name = Some d →
  (∃ r endpoint, behind table name = Some r ∧ r ∈ table ∧ d = reg_new r endpoint)
  ∨ behind table name = None ∧ ∃ endpoint, d = boxed {| generic_endpoint := endpoint |}.
Proof.
  rewrite build_adapter_map_lookup. unfold behind. destruct (last_registration table name) as [r|] eqn:Hr.
  { intros [= <-]. apply elem_of_last, list_elem_of_filter in Hr. left. eexists _, _. split; [done|]. split; [tauto|done]. }
  intros (alias&->&->)%fmap_Some_1. cbn. unfold alias_adapter, last_builder.
  destruct (last (filter _ table)) as [r|] eqn:Hb; cbn; [|right; eauto].
  apply elem_of_last, list_elem_of_filter in Hb. left. eexists _, _. split; [done|]. split; [tauto|done].
Qed.

(** ** The table *)

Section Table.
Context `{OpenRtbJson, StdText, KeyIter, MapIter, NumberText, ValueText, Files}.
Context `{!Deserialize AppnexusInExt, !ToValue AppnexusImpExt, !Deserialize BidExtAppnexus, !Deserialize ExtImp33Across, !Deserialize Across33ReqExt, !Deserialize Across33BidExt, !Deserialize CriteoBidExt, !Deserialize CriteoExt, !Deserialize ExtImpSovrn, !Deserialize ExtImpIx, !Deserialize IxBidExt, !Deserialize ExtImpOpenx, !Deserialize OpenxRespExt, !Deserialize OxBidExt, !Deserialize ExtImpPubmatic, !Deserialize PubmaticBidExt, !Deserialize PubmaticRespExt, !Deserialize ExtImpSharethrough, !Deserialize SharethroughBidExt, !Deserialize RubiconImpBidderExt, !FromSlice BidRequest, !Deserialize ExtImpBeachfront, !ToVec BannerRequest, !FromSlice (list BannerResponseSlot)}.
Context `{!Deserialize KayzenImpExt, !Deserialize KidozImpExt, !Deserialize KoblerImpExt, !Deserialize LunamediaImpExt, !Deserialize MadvertiseImpExt, !Deserialize MgidImpExt, !Deserialize MgidRespBidExt, !Deserialize ImpExtMinuteMedia, !Deserialize ExtImpElementalTV, !Deserialize ElementaltvBidExt, !Deserialize ImpExtFreewheelSSP, !Deserialize ImpExtFwssp, !Deserialize KoblerExtBidPrebid, !ToValue ImpExtFreewheelSSP, !ToValue ImpExtFwssp}.
Context `{!Deserialize ExtImpCadentApertureMX, !Deserialize CadentExtImpBidder, !FromSlice MabidderServerResponse, !Deserialize MediafuseImpExt}.
(** adapters/ *)
Definition registrations1 : list Registration := [
  reg_with_builder "appnexus" (λ e, boxed {| appnexus_endpoint := e |});
  reg_with_builder "sovrn" (λ e, boxed {| sovrn_endpoint := e |});
  reg_with_builder "rubicon" (λ e, boxed {| rubicon_endpoint := e; rubicon_xapi_username := ""; rubicon_xapi_password := "" |});
  reg_with_builder "ix" (λ e, boxed {| ix_endpoint := e |});
  reg_with_builder "openx" (λ e, boxed {| openx_endpoint := e; openx_bidder_name := "openx" |});
  reg_with_builder "pubmatic" (λ e, boxed {| pubmatic_endpoint := e |});
  reg_with_builder "33across" (λ e, boxed {| across33_endpoint := e |});
  reg_with_builder "beachfront" (λ e, boxed {| beachfront_banner_endpoint := e;
    beachfront_video_endpoint := "https://reachms.bfmio.com/bid.json?exchange_id" |});
  reg_with_builder "criteo" (λ e, boxed {| criteo_endpoint := e; criteo_bidder_name := "criteo" |});
  reg_with_builder "sharethrough" (λ e, boxed {| sharethrough_endpoint := e |})].
(** adapters5/ and adapters9/ *)
Definition registrations5 : list Registration := [
  reg "jixie" (λ e, boxed {| jixie_endpoint := e |}); reg "kayzen" (λ e, boxed {| kayzen_endpoint := e |});
  reg "kidoz" (λ e, boxed {| kidoz_endpoint := e |}); reg "kobler" (λ e, boxed {| kobler_endpoint := e |});
  reg "lunamedia" (λ e, boxed {| lunamedia_endpoint := e |}); reg "madvertise" (λ e, boxed {| madvertise_endpoint := e |});
  reg "medianet" (λ e, boxed {| medianet_endpoint := e |}); reg "mgid" (λ e, boxed {| mgid_endpoint := e |});
  reg "minutemedia" (λ e, boxed {| minutemedia_endpoint := e |})].
Definition registrations9 : list Registration := [
  reg "boldwin" (λ e, boxed {| boldwin_endpoint := e |}); reg "boldwin_rapid" (λ e, boxed {| boldwin_rapid_endpoint := e |});
  reg "brave" (λ e, boxed {| brave_endpoint := e |}); reg "bwx" (λ e, boxed {| bwx_endpoint := e |});
  reg "cadent_aperture_mx" (λ e, boxed {| cadent_endpoint := e |}); reg "ccx" (λ e, boxed {| ccx_endpoint := e |});
  reg "clydo" (λ e, boxed {| clydo_endpoint := e |}); reg "cointraffic" (λ e, boxed {| cointraffic_endpoint := e |})].
(** adapters10/ *)
Definition registrations10 : list Registration := [
  reg "driftpixel" (λ e, boxed {| driftpixel_endpoint := e |}); reg "e_volution" (λ e, boxed {| evolution_endpoint := e |});
  reg "elementaltv" (λ e, boxed {| elementaltv_endpoint := e |}); reg "escalax" (λ e, boxed {| escalax_endpoint := e |});
  reg_with_builder "freewheelssp" (λ e, boxed {| freewheelssp_endpoint := e |});
  reg "frvradn" (λ e, boxed {| frvradn_endpoint := e |}); reg "fwssp" (λ e, boxed {| fwssp_endpoint := e |});
  reg "globalsun" (λ e, boxed {| globalsun_endpoint := e |}); reg "huaweiads" (λ e, boxed {| huaweiads_endpoint := e |});
  reg_with_builder "imds" (λ e, boxed {| imds_endpoint := e |})].
(** adapters11/, adapters12/ and adapters13/ *)
Definition registrations11 : list Registration := [
  reg "logicad" (λ e, boxed {| logicad_endpoint := e |}); reg "loyal" (λ e, boxed {| loyal_endpoint := e |});
  reg "mabidder" (λ e, boxed {| mabidder_endpoint := e |}); reg "madsense" (λ e, boxed {| madsense_endpoint := e |});
  reg "marsmedia" (λ e, boxed {| marsmedia_endpoint := e |}); reg "mediafuse" (λ e, boxed {| mediafuse_endpoint := e |});
  reg "mediago" (λ e, boxed {| mediago_endpoint := e |})].
Definition registrations12 : list Registration := [
  reg "ogury" (λ e, boxed {| ogury_endpoint := e |}); reg "oms" (λ e, boxed {| oms_endpoint := e |});
  reg "openweb" (λ e, boxed {| openweb_endpoint := e |}); reg "operaads" (λ e, boxed {| operaads_endpoint := e |});
  reg "optidigital" (λ e, boxed {| optidigital_endpoint := e |}); reg "oraki" (λ e, boxed {| oraki_endpoint := e |});
  reg "orbidder" (λ e, boxed {| orbidder_endpoint := e |}); reg "ownadx" (λ e, boxed {| ownadx_endpoint := e |});
  reg "pgamssp" (λ e, boxed {| pgamssp_endpoint := e |}); reg "playdigo" (λ e, boxed {| playdigo_endpoint := e |})].
Definition registrations13 : list Registration := [
  reg "roulax" (λ e, boxed {| roulax_endpoint := e |}); reg "sa_lunamedia" (λ e, boxed {| sa_lunamedia_endpoint := e |});
  reg "seeding_alliance" (λ e, boxed {| seeding_alliance_endpoint := e |}); reg "seedtag" (λ e, boxed {| seedtag_endpoint := e |})].
(** The registrations under other names. *)
Definition registrations_more : list Registration := [
  reg "sspBC" (λ e, boxed {| generic_endpoint := e |});
  {| reg_key := "freewheel-ssp"; reg_endpoint := "freewheelssp"; reg_shared := false;
     reg_new := λ e, boxed {| freewheelssp_endpoint := e |} |}].
Definition registrations : list Registration :=
  registrations1 ++ registrations5 ++ registrations9 ++ registrations10 ++ registrations11 ++ registrations12
  ++ registrations13 ++ registrations_more.
(** operaads names its impressions afresh; it, mabidder and beachfront make bids of
    their own. *)
Definition registration_kept (r : Registration) : Prop :=
  (reg_key r ≠ "operaads" → ∀ endpoint, keeps_contract (reg_new r endpoint)) ∧
  (reg_key r ∉ ["operaads"; "mabidder"; "beachfront"] → ∀ endpoint, hands_on_bids (reg_new r endpoint)).
Lemma registrations_kept : Forall registration_kept registrations.
Proof.
  unfold registrations, registrations1, registrations5, registrations9, registrations10, registrations11, registrations12, registrations13, registrations_more.
  cbn [app]. repeat (apply Forall_cons; split); [..|by apply Forall_nil].
  all: split; [intros Hk endpoint; cbn; first [apply boxed_keeps|by destruct Hk]
    |intros Hk endpoint; cbn; first [apply boxed_hands_on|destruct Hk; cbn; set_solver]].
Qed.
(** C29: whatever the bidders' YAML files say, every adapter of the map that the
    registrations of the modelled adapters build, registered by name, made for an alias by its parent's builder or generic, calls by
    POST for impressions of the request only, and yields bids only of an answer with
    status 200 (operaads aside); its bids are bids of that answer, in its order and at
    its prices (operaads, mabidder and beachfront aside). A name without an adapter is
    neither registered nor an alias. *)
Theorem registry_safe name :
  match build_adapter_map registrations !! name with
  | Some d =>
      let key := default "" (reg_key <$> behind registrations name) in
      (key ≠ "operaads" → keeps_contract d) ∧
      (key ∉ ["operaads"; "mabidder"; "beachfront"] → hands_on_bids d)
  | None => name ∉ (reg_key <$> registrations) ∧ name ∉ discover_yaml_aliases.*1
  end.
Proof.
  destruct (build_adapter_map registrations !! name) as [d|] eqn:Hd.
  - apply build_adapter_map_behind in Hd as [(r&endpoint&->&Hr&->)|(->&endpoint&->)]; cbn.
    + pose proof registrations_kept as Hk. rewrite Forall_forall in Hk. destruct (Hk _ Hr) as [Hs Hb]. auto.
    + split; intros _; [apply boxed_keeps|apply boxed_hands_on].
  - rewrite build_adapter_map_lookup in Hd. destruct (last_registration registrations name) eqn:Hr; [done|]. split.
    + unfold last_registration in Hr. apply last_None in Hr. intros (r&->&Hin)%list_elem_of_fmap.
      by apply (not_elem_of_nil r); rewrite <-Hr; apply list_elem_of_filter.
    + apply fmap_None in Hd. intros (e&->&Hin)%list_elem_of_fmap.
      destruct (filter _ discover_yaml_aliases) as [|x l] eqn:Hf; [|done].
      by apply (not_elem_of_nil e); rewrite <-Hf; apply list_elem_of_filter.
Qed.
End Table.

(** Without an endpoint the generic adapter is silent. *)
Example generic_without_endpoint `{OpenRtbJson} request info :
  make_requests {| generic_endpoint := "" |} request info = ([], []).
Proof. done. Qed.
(** A comment after the value stays in the endpoint, and so does the quote before it. *)
Example comment_stays_in_endpoint : endpoint_line ("endpoint: https://x # no bids") = Some "https://x # no bids".
Proof. by vm_compute. Qed.
