(* ===== verification/StoredFetchers.v ===== *)
(** * Stored requests of the endpoints

    endpoints/src/stored_requests.rs: the in-memory fetcher of stored requests,
    impressions and responses, the merge of a stored fragment into a request,
    and the fetchers built around it: several in turn, a cache with a time to
    live, a chain of cache, file system and HTTP, and the poller of updates.
    Parameters: the file system ([read_dir]), serde_json and HTTP.  A lock
    that is poisoned is not modelled.  [Instant]s are nanoseconds. *)

From S2P Require Import Prelude Json OpenRtb BidderRequests.

(** ** The in-memory fetcher *)

Record StoredRequestFetcher : Type := {
  srf_requests : gmap string Value; srf_imps : gmap string Value; srf_responses : gmap string Value;
}.
Definition empty_fetcher : StoredRequestFetcher := {|
  srf_requests := ∅; srf_imps := ∅; srf_responses := ∅ |}.

(** [Path::file_stem] and [Path::extension] of a file name: what the last dot
    separates, unless it is the first character or there is none. *)
Fixpoint rsplit_dot (s : string) : option (string * string) :=
  match s with
  | "" => None
  | String a s' =>
      match rsplit_dot s' with
      | Some (stem, ext) => Some (String a stem, ext)
      | None => if bool_decide (a = ch ".") then Some ("", s') else None
      end
  end.
Definition file_stem_ext (name : string) : string * option string :=
  match rsplit_dot name with
  | Some ("", _) | None => (name, None)
  | Some (stem, ext) => (stem, Some ext)
  end.

Section Files.
(** The entries of a directory, with the contents of those that can be read as
    text, and serde_json's parser. *)
Context (read_dir : string → list (string * option string)) (from_str : string → option Value).

Definition load_json_file (m : gmap string Value) (entry : string * option string)
    : gmap string Value :=
  match file_stem_ext entry.1 with
  | (stem, Some "json") =>
      match entry.2 ≫= from_str with Some json => <[ stem := json ]> m | None => m end
  | _ => m
  end.
Definition load_json_files (path : string) (m : gmap string Value) : gmap string Value :=
  fold_left load_json_file (read_dir path) m.
Definition from_directory (dir : string) : StoredRequestFetcher := {|
  srf_requests := load_json_files (dir +:+ "/requests") (load_json_files dir ∅);
  srf_imps := load_json_files (dir +:+ "/imps") ∅;
  srf_responses := load_json_files (dir +:+ "/storedresponses") ∅ |}.
End Files.

Definition fetch (id : string) (f : StoredRequestFetcher) : option Value := srf_requests f !! id.
Definition fetcher_get (id : string) (f : StoredRequestFetcher) : option Value := fetch id f.
Definition fetch_imp (id : string) (f : StoredRequestFetcher) : option Value := srf_imps f !! id.
(** [StoredResponseFetcher::fetch]. *)
Definition fetch_response (id : string) (f : StoredRequestFetcher) : option Value :=
  match srf_responses f !! id with Some v => Some v | None => srf_requests f !! id end.
Definition fetch_stored_response (response_from_value : Value → string + BidResponse) (id : string)
    (f : StoredRequestFetcher) : option BidResponse :=
  v ← fetch_response id f;
  match response_from_value v with inr r => Some r | inl _ => None end.

(** The merge: [incoming] is the caller's, which wins unless it is null. *)
Fixpoint merge_request_fragment (stored incoming : Value) {struct stored} : Value :=
  match stored, incoming with
  | VObject stored_obj, VObject incoming_obj =>
      VObject ((fix go (o b : list (string * Value)) : list (string * Value) :=
        match o with
        | [] => b
        | (key, stored_val) :: o' =>
            let entry := match obj_get key b with Some v => v | None => VNull end in
            let entry :=
              match entry, stored_val with
              | VNull, _ => stored_val
              | VObject _, VObject _ => merge_request_fragment stored_val entry
              | _, _ => entry
              end in
            go o' (obj_insert key entry b)
        end) stored_obj incoming_obj)
  | _, _ => incoming
  end.

(** ** HTTP *)

Record HttpFetchResult : Type := {
  hfr_requests : gmap string Value; hfr_imps : gmap string Value;
}.
Inductive StoredRequestError : Type :=
| SreHttpError (e : string) | SreParseError (e : string) | SreNotFound (id : string).
Definition stored_request_error_to_string (e : StoredRequestError) : string :=
  match e with
  | SreHttpError e => "HTTP error: " +:+ e
  | SreParseError e => "parse error: " +:+ e
  | SreNotFound id => "stored request not found: " +:+ id
  end.
(** What a request over HTTP gives: no response, or its status and its body read
    as a result. *)
Definition HttpAnswer : Type := string + (Z * (string + HttpFetchResult)).
Definition is_success (status : Z) : bool := (200 <=? status) && (status <? 300).

Section Http.
(** A POST of the ids, a GET, and the text of a status. *)
Context (post : string → list string → list string → HttpAnswer) (get_url : string → HttpAnswer).
Context (status_text : Z → string).

Definition fetch_result (a : HttpAnswer) : StoredRequestError + HttpFetchResult :=
  match a with
  | inl e => inl (SreHttpError e)
  | inr (status, body) =>
      if negb (is_success status) then inl (SreHttpError ("HTTP " +:+ status_text status))
      else match body with inl e => inl (SreParseError e) | inr r => inr r end
  end.
Definition fetch_by_ids (endpoint : string) (request_ids imp_ids : list string)
    : StoredRequestError + HttpFetchResult :=
  fetch_result (post endpoint request_ids imp_ids).

(** ** Several fetchers *)

Record MultiFetcher : Type := {
  mf_primary : StoredRequestFetcher; mf_secondary : list StoredRequestFetcher;
}.
Definition with_secondary (f : StoredRequestFetcher) (m : MultiFetcher) : MultiFetcher := {|
  mf_primary := mf_primary m; mf_secondary := mf_secondary m ++ [f] |}.
Definition multi_fetch_request (id : string) (m : MultiFetcher) : option Value :=
  fetch id (mf_primary m).
Definition multi_fetch_imp (id : string) (m : MultiFetcher) : option Value :=
  fetch_imp id (mf_primary m).
(** The first secondary that has the id. *)
Fixpoint secondary_fetch (id : string) (l : list StoredRequestFetcher) : option Value :=
  match l with
  | [] => None
  | f :: l' => match fetch id f with Some v => Some v | None => secondary_fetch id l' end
  end.
Definition multi_fetch_step (m : MultiFetcher) (st : gmap string Value * list string) (id : string)
    : gmap string Value * list string :=
  match fetch id (mf_primary m) with
  | Some v => (<[ id := v ]> st.1, st.2)
  | None =>
      match secondary_fetch id (mf_secondary m) with
      | Some v => (<[ id := v ]> st.1, st.2)
      | None => (st.1, st.2 ++ [id])
      end
  end.
(** The values found and the ids missing. *)
Definition multi_fetch_requests (ids : list string) (m : MultiFetcher)
    : gmap string Value * list string :=
  fold_left (multi_fetch_step m) ids (∅, []).

(** ** The cache *)

Record CachingFetcher : Type := {
  cf_inner : StoredRequestFetcher; cf_request_cache : gmap string (Value * Z); cf_ttl_secs : Z;
}.
Definition caching_new (inner : StoredRequestFetcher) (ttl_secs : Z) : CachingFetcher := {|
  cf_inner := inner; cf_request_cache := ∅; cf_ttl_secs := ttl_secs |}.
Definition set_cache (m : gmap string (Value * Z)) (c : CachingFetcher) : CachingFetcher := {|
  cf_inner := cf_inner c; cf_request_cache := m; cf_ttl_secs := cf_ttl_secs c |}.
(** [elapsed().as_secs()] of an instant. *)
Definition elapsed_secs (now inserted : Z) : Z := Z.max 0 (now - inserted) / 1000000000.
Definition cached_value (now : Z) (id : string) (c : CachingFetcher) : option Value :=
  '(v, inserted) ← cf_request_cache c !! id;
  if elapsed_secs now inserted <? cf_ttl_secs c then Some v else None.
Definition cache_put (now : Z) (id : string) (v : Value) (c : CachingFetcher) : CachingFetcher :=
  set_cache (<[ id := (v, now) ]> (cf_request_cache c)) c.
Definition fetch_cached (now : Z) (id : string) (c : CachingFetcher)
    : option Value * CachingFetcher :=
  match cached_value now id c with
  | Some v => (Some v, c)
  | None =>
      match fetch id (cf_inner c) with
      | Some v => (Some v, cache_put now id v c)
      | None => (None, c)
      end
  end.
Definition invalidate (id : string) (c : CachingFetcher) : CachingFetcher :=
  set_cache (delete id (cf_request_cache c)) c.
Definition clear_cache (c : CachingFetcher) : CachingFetcher := set_cache ∅ c.
Definition cache_size (c : CachingFetcher) : Z := Z.of_nat (size (cf_request_cache c)).

(** ** Categories *)

Record CategoryFetcher : Type := {
  caf_categories : gmap (string * string) (gmap string string);
}.
Definition fetch_category (primary_ad_server publisher_id iab_id : string) (f : CategoryFetcher)
    : option string :=
  m ← caf_categories f !! (primary_ad_server, publisher_id); m !! iab_id.

(** ** The database, a stub in the source *)

Record DatabaseFetcher : Type := {
  dbf_connection_string : string; dbf_request_query : string; dbf_imp_query : string;
}.
Definition db_fetch_requests (f : DatabaseFetcher) (ids : list string)
    : StoredRequestError + gmap string Value * list string := inr (∅, ids).
Definition db_fetch_imps (f : DatabaseFetcher) (ids : list string)
    : StoredRequestError + gmap string Value * list string := inr (∅, ids).

(** ** The poller *)

Record PollingUpdater : Type := {
  pu_endpoint : string; pu_interval_secs : Z; pu_last_updated : option Z;
}.
Definition poll_url (now : Z) (p : PollingUpdater) : string :=
  match pu_last_updated p with
  | Some last => pu_endpoint p +:+ "?last-modified=" +:+ pretty (elapsed_secs now last)
  | None => pu_endpoint p
  end.
(** [now] and [later]: the clock when the URL is built and after the answer. *)
Definition fetch_updates (now later : Z) (p : PollingUpdater)
    : (StoredRequestError + HttpFetchResult) * PollingUpdater :=
  match fetch_result (get_url (poll_url now p)) with
  | inr result =>
      (inr result, {| pu_endpoint := pu_endpoint p; pu_interval_secs := pu_interval_secs p;
                      pu_last_updated := Some later |})
  | inl e => (inl e, p)
  end.
Definition apply_updates (updates : HttpFetchResult) (f : StoredRequestFetcher)
    : StoredRequestFetcher := {|
  srf_requests := hfr_requests updates ∪ srf_requests f;
  srf_imps := hfr_imps updates ∪ srf_imps f; srf_responses := srf_responses f |}.

(** ** The chain of fetchers *)

Record ComposedFetcher : Type := {
  cmf_cache : option CachingFetcher; cmf_filesystem : option StoredRequestFetcher;
  cmf_http : option string;
}.
Definition set_cmf_cache (c : option CachingFetcher) (f : ComposedFetcher) : ComposedFetcher := {|
  cmf_cache := c; cmf_filesystem := cmf_filesystem f; cmf_http := cmf_http f |}.
Definition http_request (id : string) (f : ComposedFetcher) : option Value :=
  endpoint ← cmf_http f;
  match fetch_by_ids endpoint [id] [] with
  | inr result => hfr_requests result !! id
  | inl _ => None
  end.
Definition composed_fetch_request (now : Z) (id : string) (f : ComposedFetcher)
    : option Value * ComposedFetcher :=
  let '(hit, f) :=
    match cmf_cache f with
    | Some cache => let '(hit, cache) := fetch_cached now id cache in (hit, set_cmf_cache (Some cache) f)
    | None => (None, f)
    end in
  match hit with
  | Some v => (Some v, f)
  | None =>
      match cmf_filesystem f ≫= fetch id with
      | Some v => (Some v, set_cmf_cache (cache_put now id v <$> cmf_cache f) f)
      | None => (http_request id f, f)
      end
  end.
Definition composed_fetch_imp (id : string) (f : ComposedFetcher) : option Value :=
  match cmf_filesystem f ≫= fetch_imp id with
  | Some v => Some v
  | None =>
      endpoint ← cmf_http f;
      match fetch_by_ids endpoint [] [id] with
      | inr result => hfr_imps result !! id
      | inl _ => None
      end
  end.
End Http.

(** ** Specification *)

(** Every cached value is what the inner fetcher has. *)
Definition cache_ok (c : CachingFetcher) : Prop :=
  ∀ id v t, cf_request_cache c !! id = Some (v, t) → fetch id (cf_inner c) = Some v.
(** The first of the primary and the secondaries that has the id. *)
Definition first_fetch (id : string) (m : MultiFetcher) : option Value :=
  secondary_fetch id (mf_primary m :: mf_secondary m).
(** The values of a directory filed under an id, in the order of its entries. *)
Definition json_files (from_str : string → option Value) (id : string)
    (entries : list (string * option string)) : list Value :=
  omap (λ e, match file_stem_ext e.1 with
             | (stem, Some "json") => if bool_decide (stem = id) then e.2 ≫= from_str else None
             | _ => None
             end) entries.
(** The chain without its cache: the fetcher the cache wraps, the file system,
    HTTP. *)
Definition inner_of (f : ComposedFetcher) : option StoredRequestFetcher := cf_inner <$> cmf_cache f.
Definition chain_fetch (id : string) (f : ComposedFetcher) : option Value :=
  match inner_of f ≫= fetch id with Some v => Some v | None => cmf_filesystem f ≫= fetch id end.
Definition composed_ok (f : ComposedFetcher) : Prop :=
  ∀ c id v t, cmf_cache f = Some c → cf_request_cache c !! id = Some (v, t) →
    chain_fetch id f = Some v.
Definition sample_fetcher (v : Z) : StoredRequestFetcher := {|
  srf_requests := {[ "a" := VNumber (PosInt v) ]}; srf_imps := ∅; srf_responses := ∅ |}.

(** ** Proofs *)

(** The merge is the exchange's deep merge with its arguments exchanged. *)
Lemma merge_fragment_is_deep_merge stored incoming :
  merge_request_fragment stored incoming = deep_merge_json incoming stored.
Proof.
  revert incoming. induction stored as [| | | | |o IH] using Value_nested_ind; intros inc;
    destruct inc as [| | | | |ob]; try done. cbn [merge_request_fragment deep_merge_json]. f_equal.
  revert ob.
  induction IH as [|[key v] o Hv Ho IHo]; intros ob; [done|]. cbn [snd] in Hv. rewrite IHo. f_equal.
  f_equal. unfold default, from_option, id. destruct (obj_get key ob) as [[| | | | |e]|]; cbn; try done;
    by destruct v.
Qed.

(** A key of the incoming object that is neither null nor an object is kept. *)
Lemma merge_keeps_leaf stored m k x : obj_sorted m → obj_get k m = Some x →
  is_null x = false → is_object x = false →
  get k (merge_request_fragment stored (VObject m)) = Some x.
Proof.
  intros Hm Hk Hn Ho. rewrite merge_fragment_is_deep_merge.
  destruct stored as [| | | | |o]; [exact Hk..|]. rewrite deep_merge_unfold. cbn [get].
  revert m Hm Hk. induction o as [|[k' v] o IH]; intros m Hm Hk; [exact Hk|]. cbn [fold_left fst snd].
  apply IH; [by apply obj_sorted_insert|]. rewrite obj_get_insert by done.
  case_bool_decide as He; [subst k'|done]. rewrite Hk. cbn [default from_option id].
  unfold merge_value. rewrite Hn, Ho. by destruct v.
Qed.

(** The cache is transparent: with a fetcher that does not change it answers as
    the fetcher, at any time, and stays so through every operation. *)
Lemma fetch_cached_spec now id c : cache_ok c →
  (fetch_cached now id c).1 = fetch id (cf_inner c) ∧
  cf_inner (fetch_cached now id c).2 = cf_inner c ∧ cache_ok (fetch_cached now id c).2.
Proof.
  intros Hok. unfold fetch_cached, cached_value.
  destruct (cf_request_cache c !! id) as [[v t]|] eqn:Hc; cbn.
  - destruct (elapsed_secs now t <? cf_ttl_secs c).
    + by rewrite (Hok _ _ _ Hc).
    + rewrite (Hok _ _ _ Hc). split; [done|]. split; [done|]. intros id' v' t'. cbn.
      destruct (decide (id = id')) as [->|]; simplify_map_eq; [|apply Hok].
      intros [= -> ->]. by apply (Hok _ _ t).
  - destruct (fetch id (cf_inner c)) as [v|] eqn:Hf; [|done].
    split; [done|]. split; [done|]. intros id' v' t'. cbn.
    destruct (decide (id = id')) as [->|]; simplify_map_eq; [|apply Hok]. by intros [= -> ->].
Qed.
Lemma caching_ops_ok c id inner ttl :
  cache_ok (caching_new inner ttl) ∧ (cache_ok c → cache_ok (invalidate id c)) ∧
  cache_ok (clear_cache c).
Proof.
  split; [done|]. split; [|done]. intros Hok id' v t. cbn. rewrite lookup_delete_Some.
  intros [_ ?]. by eapply Hok.
Qed.

(** A value that is expired is read again, one that is not is not. *)
Lemma cached_value_fresh now id c v t :
  cf_request_cache c !! id = Some (v, t) → t ≤ now → 0 ≤ cf_ttl_secs c →
  (cached_value now id c = Some v ↔ now < t + 1000000000 * cf_ttl_secs c).
Proof.
  intros Hc Ht Httl. unfold cached_value, elapsed_secs. rewrite Hc. cbn.
  rewrite Z.max_r by lia. destruct (Z.ltb_spec ((now - t) / 1000000000) (cf_ttl_secs c)) as [Hl|Hl].
  - split; [intros _|done]. apply Z.div_lt_upper_bound in Hl || idtac.
    pose proof (Z.mul_succ_div_gt (now - t) 1000000000 ltac:(lia)). nia.
  - split; [done|]. intros Hn. exfalso.
    pose proof (Z.mul_div_le (now - t) 1000000000 ltac:(lia)). nia.
Qed.

(** Several fetchers: what is found is what the first fetcher that has the id
    has; the missing ids are the others, in order. *)
Lemma multi_fetch_requests_spec ids m :
  (∀ id v, (multi_fetch_requests ids m).1 !! id = Some v ↔ id ∈ ids ∧ first_fetch id m = Some v) ∧
  (multi_fetch_requests ids m).2 = List.filter (λ id, bool_decide (first_fetch id m = None)) ids.
Proof.
  unfold multi_fetch_requests.
  assert (Hff : ∀ i, first_fetch i m = match fetch i (mf_primary m) with
    | Some v => Some v | None => secondary_fetch i (mf_secondary m) end) by done.
  assert (Hstep : ∀ st i, multi_fetch_step m st i =
    match first_fetch i m with Some v => (<[ i := v ]> st.1, st.2) | None => (st.1, st.2 ++ [i]) end).
  { intros st i. rewrite Hff. unfold multi_fetch_step. by destruct (fetch i (mf_primary m)). }
  assert (H : ∀ ids st, (∀ id, (fold_left (multi_fetch_step m) ids st).1 !! id =
      match (if decide (id ∈ ids) then first_fetch id m else None) with
      | Some v => Some v | None => st.1 !! id end) ∧
    (fold_left (multi_fetch_step m) ids st).2 =
      st.2 ++ List.filter (λ id, bool_decide (first_fetch id m = None)) ids).
  { clear ids. induction ids as [|i ids IH]; intros st; cbn [fold_left List.filter].
    { split; [done|by rewrite app_nil_r]. }
    destruct (IH (multi_fetch_step m st i)) as [H1 H2]. rewrite Hstep in *. split.
    - intros id. rewrite H1. destruct (decide (id = i)) as [->|Hne].
      + rewrite (decide_True (P := i ∈ i :: ids)) by (by left).
        destruct (first_fetch i m) as [v|]; cbn; [|by case_decide].
        rewrite lookup_insert_eq. by destruct (decide _).
      + assert (Hd : id ∈ i :: ids ↔ id ∈ ids) by (rewrite elem_of_cons; naive_solver).
        rewrite (decide_ext _ _ _ _ Hd).
        destruct (first_fetch i m) as [v|]; cbn; [by rewrite lookup_insert_ne|done].
    - rewrite H2. destruct (first_fetch i m) as [v|]; cbn; [done|]. by rewrite <-app_assoc. }
  destruct (H ids (∅, [])) as [H1 H2]. split; [|done]. intros id v. rewrite H1. clear H H1 H2.
  cbn [fst]. rewrite lookup_empty. case_decide as Hin.
  - destruct (first_fetch id m) as [w|]; cbn; naive_solver.
  - cbn. naive_solver.
Qed.

(** Loading a directory files each JSON file under its stem; of files with the
    same stem the last counts, and the [requests] directory before the root. *)
Lemma load_json_files_spec read_dir from_str path m id :
  load_json_files read_dir from_str path m !! id =
  match last (json_files from_str id (read_dir path)) with Some v => Some v | None => m !! id end.
Proof.
  unfold load_json_files, json_files. set (f := λ e : string * option string, _).
  assert (Hm : ∀ m e, load_json_file from_str m e !! id =
    match f e with Some v => Some v | None => m !! id end).
  { clear m. intros m [name content]. unfold load_json_file, f. cbn [fst snd].
    destruct (file_stem_ext name) as [stem [ext|]]; [|done].
    destruct (decide (ext = "json")) as [->|Hext].
    - destruct (content ≫= from_str) as [v|]; [|by case_bool_decide].
      case_bool_decide; subst; by simplify_map_eq.
    - repeat (destruct ext as [|[[] [] [] [] [] [] [] []] ext]; try done). }
  revert m. induction (read_dir path) as [|e l IH]; intros m; [done|].
  cbn [fold_left omap list_omap]. rewrite IH, Hm. destruct (f e) as [v|]; [|done].
  rewrite last_cons. by destruct (last (omap f l)).
Qed.

(** The chain is transparent too: the cache changes no answer, and holds only
    what the fetchers behind it have. *)
Lemma composed_fetch_spec post status_text now id f : composed_ok f →
  let out := composed_fetch_request post status_text now id f in
  out.1 = match chain_fetch id f with
          | Some v => Some v
          | None => http_request post status_text id f
          end ∧
  chain_fetch id out.2 = chain_fetch id f ∧ composed_ok out.2.
Proof.
  intros Hok. unfold composed_fetch_request, chain_fetch at 1 2 3, inner_of.
  destruct f as [[c|] fs http]; cbn.
  2: { unfold http_request. cbn. destruct (fs ≫= fetch id) as [v|] eqn:Hfs; cbn;
       rewrite ?Hfs; (split; [done|]; split; [done|]); intros ? ? ? ? [=]. }
  unfold fetch_cached. unfold composed_ok, chain_fetch, inner_of in Hok. cbn in Hok.
  assert (Hput : ∀ c' v, cf_inner c' = cf_inner c →
    (∀ id v t, cf_request_cache c' !! id = Some (v, t) →
       match fetch id (cf_inner c) with Some v => Some v | None => fs ≫= fetch id end = Some v) →
    match fetch id (cf_inner c) with Some v => Some v | None => fs ≫= fetch id end = Some v →
    composed_ok {| cmf_cache := Some (cache_put now id v c'); cmf_filesystem := fs; cmf_http := http |}).
  { intros c' v Hi Hc' Hv c0 id' v' t' [= <-]. unfold chain_fetch, inner_of. cbn. rewrite Hi.
    destruct (decide (id = id')) as [->|]; simplify_map_eq; [by intros [= <- <-]|]. apply Hc'. }
  destruct (cached_value now id c) as [v|] eqn:Hc; cbn.
  - unfold cached_value in Hc. destruct (cf_request_cache c !! id) as [[w t]|] eqn:Hw; [|done].
    cbn in Hc. destruct (_ <? _); [|done]. injection Hc as ->.
    rewrite (Hok c id v t eq_refl Hw). split; [done|].
    split; [by unfold chain_fetch, inner_of|].
    intros c0 id' v' t' [= <-] Hl. by apply (Hok c id' v' t').
  - destruct (fetch id (cf_inner c)) as [v|] eqn:Hf; cbn.
    + split; [done|]. split; [by unfold chain_fetch, inner_of; cbn; rewrite ?Hf|].
      refine (Hput c v eq_refl _ _); [|done].
      intros id' v' t' Hl. exact (Hok c id' v' t' eq_refl Hl).
    + destruct (fs ≫= fetch id) as [v|] eqn:Hfs; cbn.
      * split; [done|]. split; [by unfold chain_fetch, inner_of; cbn; rewrite ?Hf|].
        refine (Hput c v eq_refl _ _); [|done].
        intros id' v' t' Hl. exact (Hok c id' v' t' eq_refl Hl).
      * split; [done|]. split; [by unfold chain_fetch, inner_of; cbn; rewrite ?Hf|].
        intros c0 id' v' t' [= <-] Hl. by apply (Hok c id' v' t').
Qed.

(** ** Findings *)

(** [fetch_request] of several fetchers asks the primary only, though its comment
    says that it tries each secondary; [fetch_requests] does. *)
Lemma multi_fetch_ignores_secondaries :
  let m := with_secondary (sample_fetcher 1) {| mf_primary := empty_fetcher; mf_secondary := [] |} in
  multi_fetch_request "a" m = None ∧ (multi_fetch_requests ["a"] m).1 !! "a" = Some (VNumber (PosInt 1)).
Proof. by vm_compute. Qed.
(** The poller sends the seconds that have passed since the last answer where the
    parameter asks for its time. *)
Lemma poller_sends_an_age :
  let p := {| pu_endpoint := "http://h"; pu_interval_secs := 60; pu_last_updated := Some 5000000000 |} in
  poll_url 65000000000 p = "http://h?last-modified=60".
Proof. by vm_compute. Qed.
