(* ===== verification/StoredRequests.v ===== *)
(** * Stored requests

    Fetchers behind caches: the exchange's [FetcherWithCache]
    (exchange/src/stored_requests.rs), and the stored_requests crate, with its
    cached fetcher and its back ends of files, HTTP and SQL.

    A cache may forget at any time; what it holds is what was saved last.  The
    file system, HTTP, the database and serde_json are parameters; log lines are
    left out. *)

From S2P Require Import Prelude Json IpUtil Text Cache StoredFetchers.

(** ** exchange/src/stored_requests.rs *)

Record NotFoundError : Type := { nfe_id : string; nfe_data_type : string }.
Definition not_found_to_string (data_type id : string) : string :=
  "Stored " +:+ data_type +:+ " with ID=" +:+ dq +:+ id +:+ dq +:+ " not found.".
Definition not_found_error_to_string (e : NotFoundError) : string := not_found_to_string (nfe_data_type e) (nfe_id e).
Record Category : Type := { category_id : string; category_name : string }.
(** The traits. *)
Class ExFetcher (F : Type) : Type := {
  ex_fetch_requests : F → list string → list string → outcome (list string) (gmap string Value * gmap string Value);
  ex_fetch_responses : F → list string → outcome (list string) (gmap string Value);
}.
Class ExAccountFetcher (F : Type) : Type :=
  ex_fetch_account : F → list Z → string → outcome (list string) (list Z).
(** [CacheJson]: [json_holds c k v] when a look-up of [k] may still give [v]. *)
Class CacheJson (C : Type) : Type := {
  json_get : list string → C → gmap string Value * C;
  json_invalidate : list string → C → C;
  json_save : gmap string Value → C → C;
  json_holds : C → string → Value → Prop;
  json_get_holds ids c id v : (json_get ids c).1 !! id = Some v → id ∈ ids ∧ json_holds c id v;
  json_get_keeps ids c id v : json_holds (json_get ids c).2 id v → json_holds c id v;
  json_invalidate_holds ids c id v : json_holds (json_invalidate ids c) id v → ¬ (id ∈ ids) ∧ json_holds c id v;
  json_save_holds data c id v : json_holds (json_save data c) id v →
    data !! id = Some v ∨ data !! id = None ∧ json_holds c id v;
}.
#[export] Program Instance NoopCache_json : CacheJson unit := {|
  json_get _ c := (∅, c); json_invalidate _ c := c; json_save _ c := c; json_holds _ _ _ := False |}.
Next Obligation. intros ids c id v. cbn. by rewrite lookup_empty. Qed.
Next Obligation. done. Qed.
Next Obligation. done. Qed.
Next Obligation. done. Qed.
(** The cache that forgets nothing. *)
#[export] Program Instance kept_json : CacheJson (gmap string Value) := {|
  json_get ids c := (filter (λ e, e.1 ∈ ids) c, c); json_invalidate ids c := filter (λ e, e.1 ∉ ids) c;
  json_save data c := data ∪ c; json_holds c k v := c !! k = Some v |}.
Next Obligation. intros ids c id v. cbn. by intros [H Hi]%map_lookup_filter_Some. Qed.
Next Obligation. done. Qed.
Next Obligation. intros ids c id v. cbn. by intros [H Hi]%map_lookup_filter_Some. Qed.
Next Obligation. intros data c id v. cbn. rewrite lookup_union_Some_raw. tauto. Qed.

Record ExCache (C : Type) : Type := { exc_requests : C; exc_imps : C; exc_responses : C; exc_accounts : C }.
Arguments exc_requests {C} _.
Arguments exc_imps {C} _.
Arguments exc_responses {C} _.
Arguments exc_accounts {C} _.

Definition find_leftovers (ids : list string) (data : gmap string Value) : list string :=
  List.filter (λ id, negb (bool_decide (is_Some (data !! id)))) ids.
(** [for (key, value) in fetched { cached.insert(key, value); }] *)
Definition merge_data (cached fetched : gmap string Value) : gmap string Value := fetched ∪ cached.

Section FetcherWithCache.
Context {F C : Type} `{ExFetcher F, ExAccountFetcher F, CacheJson C}.
Context (to_vec : Value → string + list Z) (from_slice : list Z → option Value).
Definition fwc_fetch_requests (fetcher : F) (request_ids imp_ids : list string)
    : M (ExCache C) (list string) (gmap string Value * gmap string Value) := λ cache,
  let '(request_data, cr) := json_get request_ids (exc_requests cache) in
  let '(imp_data, ci) := json_get imp_ids (exc_imps cache) in
  let cache := {| exc_requests := cr; exc_imps := ci; exc_responses := exc_responses cache; exc_accounts := exc_accounts cache |} in
  let leftover_reqs := find_leftovers request_ids request_data in
  let leftover_imps := find_leftovers imp_ids imp_data in
  if bool_decide (leftover_reqs = []) && bool_decide (leftover_imps = []) then (Ok (request_data, imp_data), cache) else
  match ex_fetch_requests fetcher leftover_reqs leftover_imps with
  | Ok (fetched_reqs, fetched_imps) =>
      (Ok (merge_data request_data fetched_reqs, merge_data imp_data fetched_imps),
       {| exc_requests := json_save fetched_reqs cr; exc_imps := json_save fetched_imps ci;
          exc_responses := exc_responses cache; exc_accounts := exc_accounts cache |})
  | Err e => (Err e, cache)
  | Panic => (Panic, cache)
  end.
Definition fwc_fetch_responses (fetcher : F) (ids : list string) : M (ExCache C) (list string) (gmap string Value) := λ cache,
  let '(data, c) := json_get ids (exc_responses cache) in
  let set_responses c := {| exc_requests := exc_requests cache; exc_imps := exc_imps cache; exc_responses := c;
    exc_accounts := exc_accounts cache |} in
  let leftovers := find_leftovers ids data in
  if bool_decide (leftovers = []) then (Ok data, set_responses c) else
  match ex_fetch_responses fetcher leftovers with
  | Ok fetched => (Ok (merge_data data fetched), set_responses (json_save fetched c))
  | Err e => (Err e, set_responses c)
  | Panic => (Panic, set_responses c)
  end.
Definition fwc_fetch_account (fetcher : F) (account_default_json : list Z) (account_id : string)
    : M (ExCache C) (list string) (list Z) := λ cache,
  let '(cached, c) := json_get [account_id] (exc_accounts cache) in
  let set_accounts c := {| exc_requests := exc_requests cache; exc_imps := exc_imps cache;
    exc_responses := exc_responses cache; exc_accounts := c |} in
  match cached !! account_id with
  | Some account_val =>
      (match to_vec account_val with inr bytes => Ok bytes | inl e => Err [e] end, set_accounts c)
  | None =>
      match ex_fetch_account fetcher account_default_json account_id with
      | Ok result =>
          (Ok result, set_accounts (match from_slice result with
            | Some val => json_save {[ account_id := val ]} c
            | None => c
            end))
      | Err e => (Err e, set_accounts c)
      | Panic => (Panic, set_accounts c)
      end
  end.
End FetcherWithCache.

(** *** What a fetcher promises *)

(** The part of a store that is asked for. *)
Definition ask (store : gmap string Value) (ids : list string) : gmap string Value := filter (λ e, e.1 ∈ ids) store.
(** A fetcher over a store answers with what is asked of it, or refuses. *)
Class StoreFetcher (F : Type) `{ExFetcher F} : Type := {
  st_requests : F → gmap string Value; st_imps : F → gmap string Value; st_responses : F → gmap string Value;
  st_fetch_requests f ids imps r : ex_fetch_requests f ids imps = Ok r → r = (ask (st_requests f) ids, ask (st_imps f) imps);
  st_fetch_responses f ids r : ex_fetch_responses f ids = Ok r → r = ask (st_responses f) ids;
}.
Definition json_all {C} `{CacheJson C} (store : gmap string Value) (c : C) : Prop :=
  ∀ k v, json_holds c k v → store !! k = Some v.
(** Every entry of the caches is the store's. *)
Definition coherent {F C} `{StoreFetcher F, CacheJson C} (f : F) (c : ExCache C) : Prop :=
  json_all (st_requests f) (exc_requests c) ∧ json_all (st_imps f) (exc_imps c) ∧ json_all (st_responses f) (exc_responses c).

Section JsonAll.
Context {C : Type} `{CacheJson C} (store : gmap string Value).
Lemma json_all_get ids c : json_all store c → json_all store (json_get ids c).2.
Proof. intros Hc k v Hk. by eapply Hc, json_get_keeps. Qed.
Lemma json_all_save ids c : json_all store c → json_all store (json_save (ask store ids) c).
Proof.
  intros Hc k v Hk. apply json_save_holds in Hk as [Hk|[_ Hk]]; [|by apply Hc].
  by apply map_lookup_filter_Some in Hk as [Hk _].
Qed.
Lemma ask_lookup ids k : ask store ids !! k = if bool_decide (k ∈ ids) then store !! k else None.
Proof.
  unfold ask. rewrite map_lookup_filter. destruct (store !! k); cbn; [|by destruct (bool_decide _)].
  destruct (decide (k ∈ ids)); [by rewrite option_guard_True, bool_decide_eq_true_2|by rewrite option_guard_False, bool_decide_eq_false_2].
Qed.
Lemma leftover_elem ids data k : k ∈ find_leftovers ids data ↔ k ∈ ids ∧ data !! k = None.
Proof.
  unfold find_leftovers. rewrite list_elem_of_In, filter_In, <-list_elem_of_In, negb_true_iff, bool_decide_eq_false.
  by rewrite eq_None_not_Some.
Qed.
(** What is cached, and the rest fetched, is what is asked for. *)
Lemma ask_leftovers ids c : json_all store c →
  merge_data (json_get ids c).1 (ask store (find_leftovers ids (json_get ids c).1)) = ask store ids.
Proof.
  intros Hc. apply map_eq. intros k. unfold merge_data. rewrite lookup_union, !ask_lookup.
  rewrite (bool_decide_ext (k ∈ find_leftovers _ _) (k ∈ ids ∧ (json_get ids c).1 !! k = None)) by apply leftover_elem.
  destruct ((json_get ids c).1 !! k) as [v|] eqn:Hk.
  - apply json_get_holds in Hk as [Hin Hv]. rewrite bool_decide_eq_false_2 by naive_solver.
    rewrite bool_decide_eq_true_2 by done. by rewrite (Hc _ _ Hv).
  - rewrite (bool_decide_ext (_ ∧ _) (k ∈ ids)) by tauto. by destruct (bool_decide _), (store !! k).
Qed.
Lemma ask_no_leftovers ids c : json_all store c → find_leftovers ids (json_get ids c).1 = [] → (json_get ids c).1 = ask store ids.
Proof.
  intros Hc Hl. rewrite <-(ask_leftovers ids c) by done. rewrite Hl. unfold merge_data.
  replace (ask store []) with (∅ : gmap string Value); [by rewrite (left_id_L ∅ (∪))|].
  apply map_eq. intros k. by rewrite ask_lookup, lookup_empty, bool_decide_eq_false_2 by set_solver.
Qed.
End JsonAll.

(** a fetcher behind caches is the fetcher: while the caches hold only what is
    in the store, requests and impressions are answered with the part of the store
    that is asked for, exactly as without a cache, and so are responses; what is
    refused is refused by the fetcher, asked for the part that is not cached; and
    the caches hold only what is in the store afterwards, errors included. *)
Theorem fetcher_with_cache_transparent {F C} `{StoreFetcher F, CacheJson C} (f : F) (cache : ExCache C) reqs imps ids :
  coherent f cache →
  (match fwc_fetch_requests f reqs imps cache with
   | (Ok r, cache') => r = (ask (st_requests f) reqs, ask (st_imps f) imps) ∧ coherent f cache'
   | (e, cache') => coherent f cache' ∧
       e = ex_fetch_requests f (find_leftovers reqs (json_get reqs (exc_requests cache)).1)
             (find_leftovers imps (json_get imps (exc_imps cache)).1)
   end) ∧
  (match fwc_fetch_responses f ids cache with
   | (Ok r, cache') => r = ask (st_responses f) ids ∧ coherent f cache'
   | (e, cache') => coherent f cache' ∧
       e = ex_fetch_responses f (find_leftovers ids (json_get ids (exc_responses cache)).1)
   end).
Proof.
  intros (Hr&Hi&Hs). split.
  - unfold fwc_fetch_requests. pose proof (json_all_get _ reqs _ Hr) as Hr'. pose proof (json_all_get _ imps _ Hi) as Hi'.
    pose proof (ask_leftovers _ reqs _ Hr) as Lr. pose proof (ask_leftovers _ imps _ Hi) as Li.
    pose proof (ask_no_leftovers _ reqs _ Hr) as Nr. pose proof (ask_no_leftovers _ imps _ Hi) as Ni.
    destruct (json_get reqs _) as [rd cr]. destruct (json_get imps _) as [im ci]. cbn [fst snd] in *.
    destruct (bool_decide (find_leftovers reqs rd = []) && bool_decide (find_leftovers imps im = [])) eqn:Hb.
    { apply andb_prop in Hb as [Hb1%bool_decide_eq_true Hb2%bool_decide_eq_true]. by rewrite Nr, Ni. }
    destruct (ex_fetch_requests _ _ _) as [[fr fi]|e|] eqn:Hf; [|done..].
    apply st_fetch_requests in Hf. injection Hf as -> ->. rewrite Lr, Li. split; [done|]. split_and!; cbn; [by apply json_all_save..|done].
  - unfold fwc_fetch_responses. pose proof (json_all_get _ ids _ Hs) as Hs'.
    pose proof (ask_leftovers _ ids _ Hs) as L. pose proof (ask_no_leftovers _ ids _ Hs) as N.
    destruct (json_get ids _) as [d c]. cbn [fst snd] in *. case_bool_decide as Hb; [by rewrite N|].
    destruct (ex_fetch_responses _ _) as [r|e|] eqn:Hf; [|done..].
    apply st_fetch_responses in Hf. subst r. rewrite L. split; [done|]. split_and!; cbn; [done..|by apply json_all_save].
Qed.

(** ** The crate: fetcher.rs *)

Inductive SrFetchError : Type :=
| FeNotFound (id data_type : string)
| FeIo (e : string)
| FeJson (e : string)
| FeHttp (e : string)
| FeDatabase (e : string)
| FeOther (e : string).
Definition fetch_error_to_string (e : SrFetchError) : string :=
  match e with
  | FeNotFound id data_type => not_found_to_string data_type id
  | FeIo e => "I/O error: " +:+ e
  | FeJson e => "JSON parse error: " +:+ e
  | FeHttp e => "HTTP error: " +:+ e
  | FeDatabase e => "Database error: " +:+ e
  | FeOther e => e
  end.
Definition fetch_not_found (id data_type : string) : SrFetchError := FeNotFound id data_type.
Notation fetched := (gmap string Value * gmap string Value * list SrFetchError)%type.
Class SrFetcher (F : Type) : Type := {
  sr_fetch_requests : F → list string → list string → fetched;
  sr_fetch_account : F → string → SrFetchError + Value;
  sr_fetch_categories : F → string → string → SrFetchError + string;
  sr_fetch_responses : F → list string → SrFetchError + gmap string Value;
}.

(** ** cache.rs *)

Record CachedFetcher (F C : Type) : Type := { cf_inner : F; cf_requests : C; cf_imps : C }.
Arguments cf_inner {F C} _.
Arguments cf_requests {F C} _.
Arguments cf_imps {F C} _.
Section Cached.
Context {F C : Type} `{SrFetcher F, !Cache C Value, MapIter}.
Fixpoint drain_cache (cache : C) (ids : list string) : gmap string Value * list string * C :=
  match ids with
  | [] => (∅, [], cache)
  | id :: ids' =>
      let '(hit, cache) := cache_get id cache in
      let '(hits, misses, cache) := drain_cache cache ids' in
      match hit with
      | Some v => (hits ∪ {[ id := v ]}, misses, cache)
      | None => (hits, id :: misses, cache)
      end
  end.
(** [for (k, v) in fetched { cache.insert(k, v); hits.insert(k, v); }] *)
Definition keep_entry (acc : C * gmap string Value) (e : string * Value) : C * gmap string Value :=
  (cache_insert e.1 e.2 acc.1, <[ e.1 := e.2 ]> acc.2).
Definition keep_fetched (cache : C) (hits got : gmap string Value) : C * gmap string Value :=
  fold_left keep_entry (map_iter got) (cache, hits).
Definition cached_fetch_requests (f : CachedFetcher F C) (req_ids imp_ids : list string) : fetched * CachedFetcher F C :=
  let '(req_hits, req_misses, cr) := drain_cache (cf_requests f) req_ids in
  let '(imp_hits, imp_misses, ci) := drain_cache (cf_imps f) imp_ids in
  if bool_decide (req_misses = []) && bool_decide (imp_misses = [])
  then ((req_hits, imp_hits, []), {| cf_inner := cf_inner f; cf_requests := cr; cf_imps := ci |}) else
  let '(fetched_req, fetched_imp, errs) := sr_fetch_requests (cf_inner f) req_misses imp_misses in
  let '(cr, req_hits) := keep_fetched cr req_hits fetched_req in
  let '(ci, imp_hits) := keep_fetched ci imp_hits fetched_imp in
  ((req_hits, imp_hits, errs), {| cf_inner := cf_inner f; cf_requests := cr; cf_imps := ci |}).
Definition cached_fetch_account (f : CachedFetcher F C) (account_id : string) : SrFetchError + Value :=
  sr_fetch_account (cf_inner f) account_id.
Definition cached_fetch_categories (f : CachedFetcher F C) (primary_adserver publisher_id : string) : SrFetchError + string :=
  sr_fetch_categories (cf_inner f) primary_adserver publisher_id.
Definition cached_fetch_responses (f : CachedFetcher F C) (ids : list string) : SrFetchError + gmap string Value :=
  sr_fetch_responses (cf_inner f) ids.
End Cached.

(** ** backends/filesystem.rs *)

Record FileFetcher : Type := {
  ff_root : string; ff_requests : gmap string Value; ff_imps : gmap string Value;
  ff_responses : gmap string Value; ff_accounts : gmap string Value }.
(** A directory entry: an error, or its name, whether it is a file, and its bytes
    or the error of reading them. *)
Notation DirEntry := (string + (string * bool * (string + list Z)))%type.
Section Files.
(** [None] where the directory does not exist; [read_dir] may fail. *)
Context (dir_entries : string → option (string + list DirEntry)) (from_slice : list Z → string + Value).
Definition load_file_entry (map : gmap string Value) (entry : DirEntry) : outcome SrFetchError (gmap string Value) :=
  match entry with
  | inl e => Err (FeIo e)
  | inr (name, is_file, contents) =>
      let '(id, extension) := file_stem_ext name in
      if is_file && bool_decide (extension = Some "json") then
        match contents with
        | inl e => Err (FeIo e)
        | inr bytes =>
            match from_slice bytes with
            | inl e => Err (FeJson e)
            | inr value => Ok (<[ id := value ]> map)
            end
        end
      else Ok map
  end.
Definition load_dir (dir : string) : outcome SrFetchError (gmap string Value) :=
  match dir_entries dir with
  | None => Ok ∅
  | Some (inl e) => Err (FeIo e)
  | Some (inr entries) => foldM load_file_entry ∅ entries
  end.
Definition load_dir_optional (dir : string) : outcome SrFetchError (gmap string Value) :=
  match dir_entries dir with Some _ => load_dir dir | None => Ok ∅ end.
Definition ff_new (root : string) : outcome SrFetchError FileFetcher :=
  requests ← load_dir (root +:+ "/stored_requests");
  imps ← load_dir (root +:+ "/stored_imps");
  responses ← load_dir_optional (root +:+ "/stored_responses");
  accounts ← load_dir_optional (root +:+ "/accounts");
  Ok {| ff_root := root; ff_requests := requests; ff_imps := imps; ff_responses := responses; ff_accounts := accounts |}.
End Files.
Definition collect_found (map : gmap string Value) (ids : list string) (data_type : string) : gmap string Value * list SrFetchError :=
  fold_left (λ acc id,
    match map !! id with
    | Some v => (<[ id := v ]> acc.1, acc.2)
    | None => (acc.1, acc.2 ++ [fetch_not_found id data_type])
    end) ids (∅, []).
Section FileFetch.
(** Files outside the maps: [None] where there is none; the text is lossy UTF-8. *)
Context (read_file : string → option (string + string)).
Definition file_fetch_requests (f : FileFetcher) (req_ids imp_ids : list string) : fetched :=
  let '(req, errs) := collect_found (ff_requests f) req_ids "Request" in
  let '(imp, imp_errs) := collect_found (ff_imps f) imp_ids "Imp" in
  (req, imp, errs ++ imp_errs).
Definition ff_fetch_account (f : FileFetcher) (account_id : string) : SrFetchError + Value :=
  if str_is_empty account_id then inl (FeOther "Cannot look up an empty accountID") else
  match ff_accounts f !! account_id with Some v => inr v | None => inl (fetch_not_found account_id "Account") end.
Definition file_fetch_categories (f : FileFetcher) (primary_adserver publisher_id : string) : SrFetchError + string :=
  let file_name := if str_is_empty publisher_id then primary_adserver +:+ ".json"
    else primary_adserver +:+ "_" +:+ publisher_id +:+ ".json" in
  match read_file (ff_root f +:+ "/" +:+ primary_adserver +:+ "/" +:+ file_name) with
  | None => inl (fetch_not_found (primary_adserver +:+ "/" +:+ publisher_id) "Category")
  | Some (inl e) => inl (FeIo e)
  | Some (inr text) => inr text
  end.
Definition file_fetch_responses (f : FileFetcher) (ids : list string) : SrFetchError + gmap string Value :=
  inr (collect_found (ff_responses f) ids "Response").1.
Definition file_fetcher : SrFetcher FileFetcher := {|
  sr_fetch_requests := file_fetch_requests; sr_fetch_account := ff_fetch_account;
  sr_fetch_categories := file_fetch_categories; sr_fetch_responses := file_fetch_responses |}.
End FileFetch.

(** ** backends/http.rs *)

Record HttpFetcher : Type := { hf_endpoint_url : string }.
Record ResponseContract : Type := { rc_requests : gmap string (option Value); rc_imps : gmap string (option Value) }.
Section HttpFetch.
Context `{MapIter}.
(** A GET with a query: an error, or the status, its text and the body or its error. *)
Context (http_get : string → list (string * string) → string + (Z * string * (string + list Z))).
Context (contract_from_slice : list Z → string + ResponseContract).
Definition split_null (data_type : string) (acc : gmap string Value * list SrFetchError) (e : string * option Value)
    : gmap string Value * list SrFetchError :=
  match e.2 with
  | Some val => (<[ e.1 := val ]> acc.1, acc.2)
  | None => (acc.1, acc.2 ++ [fetch_not_found e.1 data_type])
  end.
Definition split_nulls (raw : gmap string (option Value)) (data_type : string) (errs : list SrFetchError)
    : gmap string Value * list SrFetchError := fold_left (split_null data_type) (map_iter raw) (∅, errs).
Definition http_query (req_ids imp_ids : list string) : list (string * string) :=
  (if bool_decide (req_ids = []) then [] else [("request-ids", join "," req_ids)])
  ++ (if bool_decide (imp_ids = []) then [] else [("imp-ids", join "," imp_ids)]).
Definition http_fetch_requests (f : HttpFetcher) (req_ids imp_ids : list string) : fetched :=
  if bool_decide (req_ids = []) && bool_decide (imp_ids = []) then (∅, ∅, []) else
  match http_get (hf_endpoint_url f) (http_query req_ids imp_ids) with
  | inl e => (∅, ∅, [FeHttp e])
  | inr (status, status_text, body) =>
      if negb (is_success status)
      then (∅, ∅, [FeOther ("Error fetching Stored Requests via HTTP. Response code was " +:+ status_text)]) else
      match body with
      | inl e => (∅, ∅, [FeHttp e])
      | inr bytes =>
          match contract_from_slice bytes with
          | inl e => (∅, ∅, [FeJson e])
          | inr parsed =>
              let '(req, errs) := split_nulls (rc_requests parsed) "Request" [] in
              let '(imp, errs) := split_nulls (rc_imps parsed) "Imp" errs in
              (req, imp, errs)
          end
      end
  end.
Definition http_fetch_account (f : HttpFetcher) (account_id : string) : SrFetchError + Value :=
  inl (fetch_not_found account_id "Account").
Definition http_fetcher : SrFetcher HttpFetcher := {|
  sr_fetch_requests := http_fetch_requests; sr_fetch_account := http_fetch_account;
  sr_fetch_categories _ _ _ := inl (FeOther "HttpFetcher::fetch_categories not implemented");
  sr_fetch_responses _ _ := inr ∅ |}.
End HttpFetch.

(** ** backends/database.rs *)

Record DatabaseConfig : Type := { query_template : string; amp_query_template : string; account_query : string }.
Definition sq : string := "'".
(** [format!(.., id.replace('\'', ..))]: an id in quotes, the ones it has doubled. *)
Definition quote_id (id : string) : string := sq +:+ str_replace sq (sq +:+ sq) id +:+ sq.
Definition id_list (ids : list string) : string :=
  if bool_decide (ids = []) then "NULL" else join "," (quote_id <$> ids).
Definition substitute (template : string) (ids : list string) : string :=
  str_replace "$LAST_UPDATED" "NULL" (str_replace "$ID_LIST" (id_list ids) template).
Section Database.
(** Rows, their columns as strings, and the two ways of running a query. *)
Context {Row : Type} (try_get : Row → nat → string + string).
Context (fetch_all : string → string + list Row) (fetch_optional : string → string + option Row).
Context (from_str : string → string + Value).
Definition take_row (acc : fetched) (row : Row) : fetched :=
  let '(requests, imps, errs) := acc in
  match try_get row 0 with
  | inl e => (requests, imps, errs ++ [FeDatabase e])
  | inr id =>
      match try_get row 1 with
      | inl e => (requests, imps, errs ++ [FeDatabase e])
      | inr data_str =>
          match try_get row 2 with
          | inl e => (requests, imps, errs ++ [FeDatabase e])
          | inr data_type =>
              match from_str data_str with
              | inl e => (requests, imps, errs ++ [FeJson e])
              | inr value =>
                  if bool_decide (data_type = "request") then (<[ id := value ]> requests, imps, errs)
                  else if bool_decide (data_type = "imp") then (requests, <[ id := value ]> imps, errs)
                  else acc
              end
          end
      end
  end.
Definition absent (map : gmap string Value) (data_type : string) (ids : list string) : list SrFetchError :=
  (λ id, fetch_not_found id data_type) <$> List.filter (λ id, negb (bool_decide (is_Some (map !! id)))) ids.
Definition sr_db_fetch_requests (c : DatabaseConfig) (req_ids imp_ids : list string) : fetched :=
  if bool_decide (req_ids = []) && bool_decide (imp_ids = []) then (∅, ∅, []) else
  let sql := substitute (query_template c) (req_ids ++ imp_ids) in
  match fetch_all sql with
  | inl e => (∅, ∅, [FeDatabase e])
  | inr rows =>
      let '(requests, imps, errs) := fold_left take_row rows (∅, ∅, []) in
      (requests, imps, errs ++ absent requests "Request" req_ids ++ absent imps "Imp" imp_ids)
  end.
Definition db_fetch_account (c : DatabaseConfig) (account_id : string) : SrFetchError + Value :=
  if str_is_empty account_id then inl (FeOther "Cannot look up an empty accountID") else
  match fetch_optional (substitute (account_query c) [account_id]) with
  | inl e => inl (FeDatabase e)
  | inr None => inl (fetch_not_found account_id "Account")
  | inr (Some row) =>
      match try_get row 0 with
      | inl e => inl (FeDatabase e)
      | inr data_str => match from_str data_str with inl e => inl (FeJson e) | inr v => inr v end
      end
  end.
Definition db_fetch_categories (c : DatabaseConfig) (primary_adserver publisher_id : string) : SrFetchError + string :=
  inl (FeOther ("DatabaseFetcher does not support fetch_categories (adserver=" +:+ primary_adserver +:+
    ", publisher=" +:+ publisher_id +:+ ")")).
Definition take_response (out : gmap string Value) (row : Row) : outcome SrFetchError (gmap string Value) :=
  match try_get row 0, try_get row 1 with
  | inl e, _ => Err (FeDatabase e)
  | inr _, inl e => Err (FeDatabase e)
  | inr id, inr data_str =>
      match from_str data_str with inl e => Err (FeJson e) | inr value => Ok (<[ id := value ]> out) end
  end.
Definition db_fetch_responses (c : DatabaseConfig) (ids : list string) : SrFetchError + gmap string Value :=
  if bool_decide (ids = []) then inr ∅ else
  match fetch_all (substitute (amp_query_template c) ids) with
  | inl e => inl (FeDatabase e)
  | inr rows => match foldM take_response ∅ rows with Ok out => inr out | Err e => inl e | Panic => inr ∅ end
  end.
Definition db_fetcher : SrFetcher DatabaseConfig := {|
  sr_fetch_requests := sr_db_fetch_requests; sr_fetch_account := db_fetch_account;
  sr_fetch_categories := db_fetch_categories; sr_fetch_responses := db_fetch_responses |}.
End Database.

(** ** A cached fetcher is its fetcher *)

Definition missing_errors (store : gmap string Value) (data_type : string) (ids : list string) : list SrFetchError :=
  (λ id, FeNotFound id data_type) <$> List.filter (λ id, bool_decide (store !! id = None)) ids.
(** A fetcher that looks each id up in a store, and has an error for each it does
    not find. *)
Class PointwiseFetcher (F : Type) `{SrFetcher F} : Type := {
  pw_requests : F → gmap string Value; pw_imps : F → gmap string Value;
  pw_fetch f reqs imps : sr_fetch_requests f reqs imps =
    (ask (pw_requests f) reqs, ask (pw_imps f) imps,
     missing_errors (pw_requests f) "Request" reqs ++ missing_errors (pw_imps f) "Imp" imps);
}.
Lemma collect_spec map ids data_type : collect_found map ids data_type = (ask map ids, missing_errors map data_type ids).
Proof.
  unfold collect_found, missing_errors, ask. induction ids as [|id ids IH] using rev_ind.
  { cbn. f_equal. symmetry. apply map_empty. intros k. rewrite map_lookup_filter.
    destruct (map !! k); [|done]. cbn. by rewrite option_guard_False by set_solver. }
  rewrite fold_left_app, IH, List.filter_app, fmap_app. cbn [fold_left List.filter].
  destruct (map !! id) as [v|] eqn:Hid; cbn.
  - rewrite app_nil_r. f_equal. apply map_eq. intros k.
    rewrite map_lookup_filter. destruct (decide (k = id)) as [->|Hk].
    + rewrite lookup_insert_eq, Hid. cbn. by rewrite option_guard_True by set_solver.
    + rewrite lookup_insert_ne, map_lookup_filter by done. destruct (map !! k); [|done]. cbn.
      destruct (decide (k ∈ ids)); [by rewrite !option_guard_True by set_solver|by rewrite !option_guard_False by set_solver].
  - f_equal. apply map_eq. intros k. rewrite !map_lookup_filter.
    destruct (map !! k) eqn:Hk; [|done]. cbn. assert (k ≠ id) by congruence.
    destruct (decide (k ∈ ids)); [by rewrite !option_guard_True by set_solver|by rewrite !option_guard_False by set_solver].
Qed.
Definition file_pointwise read_file : PointwiseFetcher FileFetcher (H := file_fetcher read_file).
Proof.
  refine {| pw_requests := ff_requests; pw_imps := ff_imps |}.
  intros f reqs imps. cbn. unfold file_fetch_requests. by rewrite !collect_spec.
Defined.

Section CachedProofs.
Context {F C : Type} `{PointwiseFetcher F, !Cache C Value, MapIter}.
(** The caches hold only what the fetcher's store has. *)
Definition cf_coherent (f : CachedFetcher F C) : Prop :=
  cache_all (λ k v, pw_requests (cf_inner f) !! k = Some v) (cf_requests f) ∧
  cache_all (λ k v, pw_imps (cf_inner f) !! k = Some v) (cf_imps f).
Lemma drain_spec (store : gmap string Value) ids c :
  cache_all (λ k v, store !! k = Some v) c →
  let '(hits, misses, c') := drain_cache c ids in
  cache_all (λ k v, store !! k = Some v) c' ∧
  (∀ k v, hits !! k = Some v → k ∈ ids ∧ store !! k = Some v) ∧
  (∀ k, k ∈ ids → k ∈ misses ∨ is_Some (hits !! k)) ∧ (∀ k, k ∈ misses → k ∈ ids) ∧
  (∀ data_type, missing_errors store data_type misses = missing_errors store data_type ids).
Proof.
  revert c. induction ids as [|id ids IH]; intros c Hc; cbn [drain_cache].
  { split_and!; [done|by intros k v; rewrite lookup_empty|set_solver|done|done]. }
  pose proof (cache_all_keep _ id c Hc) as Hc1.
  pose proof (λ v, cache_all_get (λ k v, store !! k = Some v) id c v Hc) as Hget.
  destruct (cache_get id c) as [hit c1]. cbn [fst snd] in *. specialize (IH c1 Hc1).
  destruct (drain_cache c1 ids) as [[hits misses] c2]. destruct IH as (D1&D2&D3&D4&D5).
  destruct hit as [v|].
  - specialize (Hget v eq_refl). split_and!; [done| | | |].
    + intros k v'. rewrite lookup_union_Some_raw. intros [Hk|[_ Hk]]; [apply D2 in Hk as [? ?]; split; [by right|done]|].
      apply lookup_singleton_Some in Hk as [<- <-]. split; [by left|done].
    + intros k [->|Hk]%elem_of_cons.
      * right. rewrite lookup_union, lookup_singleton_eq. destruct (hits !! id); cbn; eauto.
      * destruct (D3 k Hk) as [|[v' Hv]]; [by left|right]. rewrite lookup_union, Hv. destruct ({[ id := v ]} !! k); cbn; eauto.
    + intros k Hk. right. by apply D4.
    + intros data_type. rewrite D5. unfold missing_errors. cbn [List.filter]. by rewrite bool_decide_eq_false_2 by by rewrite Hget.
  - split_and!; [done| | | |].
    + intros k v' Hk. apply D2 in Hk as [? ?]. split; [by right|done].
    + intros k [->|Hk]%elem_of_cons; [left; by left|]. destruct (D3 k Hk); [left; by right|by right].
    + intros k [->|Hk]%elem_of_cons; [by left|right; by apply D4].
    + intros data_type. specialize (D5 data_type). unfold missing_errors in *. cbn [List.filter]. case_bool_decide; cbn; by rewrite D5.
Qed.
Lemma keep_fold (P : string → Value → Prop) (l : list (string * Value)) c hits :
  Forall (λ e, P e.1 e.2) l → cache_all P c → cache_all P (fold_left keep_entry l (c, hits)).1.
Proof.
  revert c hits. induction l as [|e l IH]; intros c hits Hl Hc; [done|]. apply Forall_cons in Hl as [He Hl].
  cbn [fold_left]. unfold keep_entry at 2. by apply IH, cache_all_insert.
Qed.
Lemma keep_fetched_hits c hits got : (keep_fetched c hits got).2 = got ∪ hits.
Proof.
  unfold keep_fetched. assert (Hf : ∀ l c hits, (fold_left keep_entry l (c, hits)).2 =
    fold_left (λ h e, <[ e.1 := e.2 ]> h) l hits).
  { clear. induction l as [|e l IH]; intros c hits; [done|]. cbn [fold_left]. apply IH. }
  rewrite Hf. apply map_eq. intros k.
  rewrite (map_iter_fold_update (λ h e, <[ e.1 := e.2 ]> h) (λ _ v _, Some v)) by done.
  rewrite lookup_union. destruct (got !! k), (hits !! k); done.
Qed.
Lemma keep_fetched_cache (store : gmap string Value) c hits ids :
  cache_all (λ k v, store !! k = Some v) c → cache_all (λ k v, store !! k = Some v) (keep_fetched c hits (ask store ids)).1.
Proof.
  intros Hc. apply keep_fold; [|done]. apply Forall_forall. intros [k v] Hk%map_iter_elem.
  by apply map_lookup_filter_Some in Hk as [Hk _].
Qed.
(** Hits and what is fetched for the misses are what is asked for. *)
Lemma ask_misses (store : gmap string Value) ids hits misses :
  (∀ k v, hits !! k = Some v → k ∈ ids ∧ store !! k = Some v) →
  (∀ k, k ∈ ids → k ∈ misses ∨ is_Some (hits !! k)) → (∀ k, k ∈ misses → k ∈ ids) →
  ask store misses ∪ hits = ask store ids.
Proof.
  intros D2 D3 D4. apply map_eq. intros k. rewrite lookup_union, !ask_lookup.
  destruct (hits !! k) as [v|] eqn:Hk.
  - apply D2 in Hk as [Hin Hs]. rewrite (bool_decide_eq_true_2 _ Hin), Hs. by destruct (bool_decide _).
  - rewrite (bool_decide_ext (k ∈ misses) (k ∈ ids)); [by destruct (bool_decide _), (store !! k)|].
    split; [apply D4|]. intros Hin. destruct (D3 k Hin) as [|[v Hv]]; [done|congruence].
Qed.
Lemma cached_requests_spec (f : CachedFetcher F C) reqs imps : cf_coherent f →
  (cached_fetch_requests f reqs imps).1 = sr_fetch_requests (cf_inner f) reqs imps ∧
  cf_inner (cached_fetch_requests f reqs imps).2 = cf_inner f ∧ cf_coherent (cached_fetch_requests f reqs imps).2.
Proof.
  intros [Hr Hi]. unfold cached_fetch_requests. rewrite pw_fetch.
  pose proof (drain_spec _ reqs _ Hr) as Dr. pose proof (drain_spec _ imps _ Hi) as Di.
  destruct (drain_cache _ reqs) as [[rh rm] cr]. destruct (drain_cache _ imps) as [[ih im] ci].
  destruct Dr as (R1&R2&R3&R4&R5), Di as (I1&I2&I3&I4&I5).
  pose proof (ask_misses _ _ _ _ R2 R3 R4) as Ar. pose proof (ask_misses _ _ _ _ I2 I3 I4) as Ai.
  assert (Hnil : ∀ s : gmap string Value, ask s [] = ∅).
  { intros s. apply map_eq. intros k. by rewrite ask_lookup, lookup_empty, bool_decide_eq_false_2 by set_solver. }
  destruct (bool_decide (rm = []) && bool_decide (im = [])) eqn:Hb.
  - apply andb_prop in Hb as [Hb1%bool_decide_eq_true Hb2%bool_decide_eq_true]. subst.
    rewrite Hnil, (left_id_L ∅ (∪)) in Ar, Ai. rewrite <-R5, <-I5. by subst.
  - rewrite pw_fetch. pose proof (keep_fetched_hits cr rh (ask (pw_requests (cf_inner f)) rm)) as Kr.
    pose proof (keep_fetched_cache _ cr rh rm R1) as Cr. pose proof (keep_fetched_hits ci ih (ask (pw_imps (cf_inner f)) im)) as Ki.
    pose proof (keep_fetched_cache _ ci ih im I1) as Ci.
    destruct (keep_fetched cr rh _) as [cr' rh']. destruct (keep_fetched ci ih _) as [ci' ih']. cbn [fst snd] in *.
    subst rh' ih'. rewrite Ar, Ai, R5, I5. by split_and!.
Qed.
End CachedProofs.

(** in front of the files, the crate's caches are never seen: whatever they
    keep or forget, a fetch gives what the files have of the requests and
    impressions asked for and a not-found error for each one they have not, in
    the order asked, as without a cache, and this stays so at the next fetch. *)
Theorem cached_files_transparent {C} `{!Cache C Value, MapIter} read_file (f : CachedFetcher FileFetcher C) reqs imps
    (FF := file_fetcher read_file) (PF := file_pointwise read_file) :
  cf_coherent f →
  let '(answer, f') := cached_fetch_requests f reqs imps in
  answer = (ask (ff_requests (cf_inner f)) reqs, ask (ff_imps (cf_inner f)) imps,
    missing_errors (ff_requests (cf_inner f)) "Request" reqs ++ missing_errors (ff_imps (cf_inner f)) "Imp" imps) ∧
  cf_inner f' = cf_inner f ∧ cf_coherent f'.
Proof.
  intros Hf. destruct (cached_requests_spec f reqs imps Hf) as (H1&H2&H3).
  destruct (cached_fetch_requests f reqs imps) as [answer f']. cbn in H1, H2, H3. split_and!; [|done|done].
  rewrite H1. unfold file_fetch_requests. by rewrite !collect_spec.
Qed.
Definition two_files : CachedFetcher FileFetcher (gmap string Value) := {|
  cf_inner := {| ff_root := "r"; ff_requests := {[ "a" := VNull ]}; ff_imps := ∅; ff_responses := ∅; ff_accounts := ∅ |};
  cf_requests := {[ "a" := VNull ]}; cf_imps := ∅ |}.
Lemma cached_files_transparent_witness : ∃ f',
  cached_fetch_requests (H := file_fetcher (λ _, None)) (H0 := map_iter_to_list) two_files ["b"; "a"] ["i"] =
    (({[ "a" := VNull ]}, ∅, [FeNotFound "b" "Request"; FeNotFound "i" "Imp"]), f').
Proof.
  assert (Hc : cf_coherent (H0 := file_pointwise (λ _, None)) two_files).
  { split; intros k v Hk; [exact Hk|by cbn in Hk; rewrite lookup_empty in Hk]. }
  pose proof (cached_files_transparent (H := map_iter_to_list) (λ _, None) two_files ["b"; "a"] ["i"] Hc) as Hw.
  destruct (cached_fetch_requests _ _ _) as [answer f']. exists f'. destruct Hw as [-> _]. f_equal.
Defined.

(** ** Loading, HTTP and SQL *)

(** What a directory gives: its JSON files, each under its name without the
    extension, the last of a name; the first that cannot be read or parsed, or an
    entry that cannot be listed, refuses all of them. *)
Definition json_file (entry : DirEntry) : option (string * (string + list Z)) :=
  match entry with
  | inr (name, is_file, contents) =>
      let '(id, extension) := file_stem_ext name in
      if is_file && bool_decide (extension = Some "json") then Some (id, contents) else None
  | inl _ => None
  end.
Section LoadProofs.
Context (from_slice : list Z → string + Value).
Lemma load_file_spec m entry : load_file_entry from_slice m entry =
  match entry with
  | inl e => Err (FeIo e)
  | inr _ =>
      match json_file entry with
      | None => Ok m
      | Some (_, inl e) => Err (FeIo e)
      | Some (id, inr bytes) => match from_slice bytes with inl e => Err (FeJson e) | inr v => Ok (<[ id := v ]> m) end
      end
  end.
Proof.
  destruct entry as [e|[[name is_file] contents]]; [done|]. cbn.
  destruct (file_stem_ext name) as [id extension]. by destruct (_ && _), contents.
Qed.
(** Every file of a directory that loads is there, and nothing else. *)
Theorem load_dir_spec dir_entries dir m entries :
  dir_entries dir = Some (inr entries) → load_dir dir_entries from_slice dir = Ok m →
  (∀ entry id contents, entry ∈ entries → json_file entry = Some (id, contents) →
    ∃ bytes v, contents = inr bytes ∧ from_slice bytes = inr v ∧ is_Some (m !! id)) ∧
  (∀ id v, m !! id = Some v → ∃ entry bytes, entry ∈ entries ∧ json_file entry = Some (id, inr bytes) ∧ from_slice bytes = inr v).
Proof.
  intros Hd. unfold load_dir. rewrite Hd. clear Hd. revert m. induction entries as [|entry entries IH] using rev_ind; intros m.
  { intros [= <-]. split; [set_solver|]. intros id v. by rewrite lookup_empty. }
  rewrite foldM_app. destruct (foldM _ _ _) as [m0| |]; [|done..]. cbn [mbind outcome_bind foldM].
  rewrite load_file_spec. destruct (IH m0 eq_refl) as [IH1 IH2]. clear IH. destruct entry as [e|entry]; [done|].
  destruct (json_file (inr entry)) as [[id [e|bytes]]|] eqn:Hj; [done| |].
  - destruct (from_slice bytes) as [e|v] eqn:Hv; [done|]. cbn. intros [= <-]. split.
    + intros entry' id' contents [Hin|Hin]%elem_of_app Hj'.
      * destruct (IH1 _ _ _ Hin Hj') as (b&v'&->&Hb&Hs). exists b, v'. split_and!; [done|done|].
        destruct (decide (id' = id)) as [->|]; [rewrite lookup_insert_eq; eauto|by rewrite lookup_insert_ne].
      * apply list_elem_of_singleton in Hin as ->. rewrite Hj in Hj'. injection Hj' as <- <-. exists bytes, v. rewrite lookup_insert_eq. eauto.
    + intros id' v' [[<- <-]|[Hne Hl]]%lookup_insert_Some; [exists (inr entry), bytes; set_solver|].
      destruct (IH2 _ _ Hl) as (entry'&b&Hin&?&?). exists entry', b. set_solver.
  - cbn. intros [= <-]. split.
    + intros entry' id' contents [Hin|Hin]%elem_of_app Hj'; [by eapply IH1|].
      apply list_elem_of_singleton in Hin as ->. congruence.
    + intros id' v' Hl. destruct (IH2 _ _ Hl) as (entry'&b&Hin&?&?). exists entry', b. set_solver.
Qed.
End LoadProofs.
(** A body's nulls are reported, and the rest is the answer. *)
Theorem split_nulls_spec `{MapIter} raw data_type errs :
  split_nulls raw data_type errs =
    (omap id raw, errs ++ ((λ e, FeNotFound e.1 data_type) <$> List.filter (λ e, bool_decide (e.2 = None)) (map_iter raw))).
Proof.
  assert (Hf : ∀ l m errs, fold_left (split_null data_type) l (m, errs) =
    ((fold_left (split_null data_type) l (m, errs)).1,
     errs ++ ((λ e, FeNotFound e.1 data_type) <$> List.filter (λ e, bool_decide (e.2 = None)) l))).
  { clear. induction l as [|[k [v|]] l IH]; intros m errs; cbn [fold_left List.filter]; [by rewrite app_nil_r|..];
      unfold split_null at 2 4; cbn [fst snd]; rewrite IH; [done|]. by rewrite <-app_assoc. }
  unfold split_nulls. rewrite Hf. f_equal. apply map_eq. intros k.
  rewrite (map_iter_fold_lookup (split_null data_type) (λ _ v, v)); [|by intros acc k' [v|]].
  rewrite lookup_omap. cbn. rewrite lookup_empty. by destruct (raw !! k) as [[v|]|].
Qed.

(** *** The list of ids in a query *)

(** A string literal after its opening quote, quotes doubled, as SQL reads it. *)
Fixpoint read_quoted (s : string) : option (string * string) :=
  match s with
  | "" => None
  | String a s' =>
      if bool_decide (a = ch sq) then
        match s' with
        | String b s'' => if bool_decide (b = ch sq) then '(t, rest) ← read_quoted s''; Some (String a t, rest) else Some ("", s')
        | "" => Some ("", "")
        end
      else '(t, rest) ← read_quoted s'; Some (String a t, rest)
  end.
(** Literals separated with commas. *)
Fixpoint read_literals (n : nat) (s : string) : option (list string * string) :=
  match n, s with
  | S n, String a s' =>
      if bool_decide (a = ch sq) then
        '(t, rest) ← read_quoted s';
        match rest with
        | String c rest' =>
            if bool_decide (c = ch ",") then '(ts, rest'') ← read_literals n rest'; Some (t :: ts, rest'')
            else Some ([t], rest)
        | "" => Some ([t], "")
        end
      else None
  | _, _ => None
  end.
Definition not_quote (s : string) : Prop := match s with String a _ => a ≠ ch sq | "" => True end.
Lemma replace_quotes a s : str_replace sq (sq +:+ sq) (String a s) =
  (if bool_decide (a = ch sq) then sq +:+ sq else String a "") +:+ str_replace sq (sq +:+ sq) s.
Proof.
  unfold str_replace, sq. cbn [replace_go]. rewrite prefix_cons.
  case_bool_decide as Ha; [subst|].
  - rewrite bool_decide_eq_true_2 by done. by destruct s.
  - rewrite bool_decide_eq_false_2; [done|]. intros Heq. by apply Ha, eq_sym.
Qed.
Lemma read_quoted_id id rest : not_quote rest →
  read_quoted (str_replace sq (sq +:+ sq) id +:+ sq +:+ rest) = Some (id, rest).
Proof.
  intros Hr. induction id as [|a id IH].
  - change (read_quoted (String (ch sq) rest) = Some ("", rest)). cbn [read_quoted]. rewrite bool_decide_eq_true_2 by done.
    destruct rest as [|b rest]; [done|]. by rewrite bool_decide_eq_false_2.
  - rewrite replace_quotes. case_bool_decide as Ha.
    + subst. change (read_quoted (String (ch sq) (String (ch sq) (str_replace sq (sq +:+ sq) id +:+ sq +:+ rest))) = Some (String (ch sq) id, rest)).
      cbn [read_quoted]. by rewrite !bool_decide_eq_true_2, IH by done.
    + change (read_quoted (String a (str_replace sq (sq +:+ sq) id +:+ sq +:+ rest)) = Some (String a id, rest)).
      cbn [read_quoted]. by rewrite bool_decide_eq_false_2, IH by done.
Qed.
(** whatever the ids asked for contain, the list [substitute] puts into the
    query is read as string literals of exactly those ids: an id cannot end its
    literal. *)
Theorem id_list_reads_back ids rest :
  ids ≠ [] → not_quote rest → (∀ s, rest ≠ String (ch ",") s) →
  read_literals (length ids) (id_list ids +:+ rest) = Some (ids, rest).
Proof.
  intros Hne Hq Hc. unfold id_list. rewrite bool_decide_eq_false_2 by done.
  induction ids as [|id [|id' ids] IH]; [done|..].
  - cbn [fmap list_fmap join length]. unfold quote_id. rewrite !str_app_assoc. cbn [read_literals].
    change (sq +:+ ?s) with (String (ch sq) s) at 1. cbn iota. rewrite bool_decide_eq_true_2, read_quoted_id by done.
    cbn. destruct rest as [|c rest]; [done|]. rewrite bool_decide_eq_false_2; [done|]. intros ->. by eapply Hc.
  - change (join "," (quote_id <$> id :: id' :: ids)) with (quote_id id +:+ "," +:+ join "," (quote_id <$> id' :: ids)).
    unfold quote_id at 1. rewrite !str_app_assoc. cbn [read_literals length].
    change (sq +:+ ?s) with (String (ch sq) s) at 1. cbn iota. rewrite bool_decide_eq_true_2, read_quoted_id by done.
    cbn [mbind option_bind]. specialize (IH ltac:(done)). cbn [length read_literals] in IH.
    change ("," +:+ ?s) with (String (ch ",") s). cbn iota. rewrite bool_decide_eq_true_2 by done. by rewrite IH.
Qed.
Lemma id_list_reads_back_witness : read_literals 2 "'o''reilly','b') OR 1" = Some (["o'reilly"; "b"], ") OR 1").
Proof.
  change "'o''reilly','b') OR 1" with (id_list ["o'reilly"; "b"] +:+ ") OR 1"). apply (id_list_reads_back ["o'reilly"; "b"] ") OR 1"); done.
Defined.
(** The second replacement reaches into the ids. *)
Example substitute_alters_ids : substitute "IN ($ID_LIST)" ["a$LAST_UPDATED"] = "IN ('aNULL')".
Proof. by vm_compute. Qed.
