(* ===== verification/StoredBackends.v ===== *)
(** * Stored-request back ends of the exchange

    exchange/src/stored_requests_http.rs, which asks an HTTP endpoint, and
    exchange/src/stored_requests_db.rs, which asks a database through a provider
    and expands the parameters of a query.

    HTTP, URLs and serde_json are parameters; log lines are left out.  How an
    asynchronous fetch is run on a thread is not modelled. *)

From S2P Require Import Prelude Json IpUtil Text StoredFetchers StoredRequests.

(** ** stored_requests_http.rs *)

Record SrHttpContract : Type := { shc_requests : gmap string (option Value); shc_imps : gmap string (option Value) }.
Record AccountsResponseContract : Type := { arc_accounts : gmap string (option Value) }.
Record HttpStoredRequestFetcher : Type := { hsf_endpoint : string; hsf_use_rfc_compliant_builder : bool }.
Definition rfc_compliant (enabled : bool) (f : HttpStoredRequestFetcher) : HttpStoredRequestFetcher := {|
  hsf_endpoint := hsf_endpoint f; hsf_use_rfc_compliant_builder := enabled |}.
Definition format_id_params (param_name : string) (ids : list string) (rfc : bool) : list (string * string) :=
  match ids with
  | [] => []
  | _ =>
      if rfc then pair param_name <$> ids
      else [(param_name +:+ "s", "[" +:+ join "," ((λ id, dq +:+ id +:+ dq) <$> ids) +:+ "]")]
  end.

Section Http.
Context `{MapIter}.
(** The url crate: a URL parsed, and one with pairs appended to its query. *)
Context (url_parse : string → string + string) (append_pairs : string → list (string * string) → string).
(** A GET: an error, or a status and the body or the error of reading it. *)
Context (http_get : string → string + (Z * (string + list Z))).
Context (contract_from_slice : list Z → string + SrHttpContract) (accounts_from_slice : list Z → string + AccountsResponseContract).

(** Panics on an endpoint that is no URL. *)
Definition hsf_new (endpoint : string) : outcome string HttpStoredRequestFetcher :=
  match url_parse endpoint with
  | inl _ => Panic
  | inr url => Ok {| hsf_endpoint := url; hsf_use_rfc_compliant_builder := false |}
  end.
Definition hsf_with_client (endpoint : string) : outcome string HttpStoredRequestFetcher :=
  match url_parse endpoint with
  | inl e => Err ("Invalid endpoint " +:+ dq +:+ endpoint +:+ dq +:+ ": " +:+ e)
  | inr url => Ok {| hsf_endpoint := url; hsf_use_rfc_compliant_builder := false |}
  end.
Definition build_request_url (f : HttpStoredRequestFetcher) (request_ids imp_ids : list string) : string :=
  append_pairs (hsf_endpoint f)
    (format_id_params "request-id" request_ids (hsf_use_rfc_compliant_builder f)
     ++ format_id_params "imp-id" imp_ids (hsf_use_rfc_compliant_builder f)).
Definition build_account_url (f : HttpStoredRequestFetcher) (account_ids : list string) : string :=
  append_pairs (hsf_endpoint f) (format_id_params "account-id" account_ids (hsf_use_rfc_compliant_builder f)).
Definition convert_null (data_type : string) (acc : gmap string Value * list string) (e : string * option Value)
    : gmap string Value * list string :=
  match e.2 with
  | Some v => (<[ e.1 := v ]> acc.1, acc.2)
  | None => (acc.1, acc.2 ++ [not_found_error_to_string {| nfe_id := e.1; nfe_data_type := data_type |}])
  end.
Definition convert_nulls_to_errs (map : gmap string (option Value)) (data_type : string) : gmap string Value * list string :=
  fold_left (convert_null data_type) (map_iter map) (∅, []).
Definition fetch_requests_async (f : HttpStoredRequestFetcher) (request_ids imp_ids : list string)
    : outcome (list string) (gmap string Value * gmap string Value) :=
  if bool_decide (request_ids = []) && bool_decide (imp_ids = []) then Ok (∅, ∅) else
  match http_get (build_request_url f request_ids imp_ids) with
  | inl e => Err ["Error fetching stored requests via HTTP: " +:+ e]
  | inr (status, body) =>
      if negb (is_success status)
      then Err ["Error fetching Stored Requests via HTTP. Response code was " +:+ pretty status] else
      match body with
      | inl e => Err ["Error reading HTTP response body: " +:+ e]
      | inr bytes =>
          match contract_from_slice bytes with
          | inl e => Err ["Error parsing stored-request response JSON: " +:+ e]
          | inr contract =>
              let '(req_data, errs) := convert_nulls_to_errs (shc_requests contract) "Request" in
              let '(imp_data, imp_errs) := convert_nulls_to_errs (shc_imps contract) "Imp" in
              if bool_decide (errs ++ imp_errs = []) then Ok (req_data, imp_data) else Ok (req_data, imp_data)
          end
      end
  end.
Definition fetch_responses_async (f : HttpStoredRequestFetcher) (ids : list string) : outcome (list string) (gmap string Value) :=
  Ok ∅.
Definition fetch_accounts_async (f : HttpStoredRequestFetcher) (account_ids : list string)
    : outcome (list string) (gmap string Value) :=
  if bool_decide (account_ids = []) then Ok ∅ else
  match http_get (build_account_url f account_ids) with
  | inl e => Err ["Error fetching accounts via HTTP: " +:+ e]
  | inr (status, body) =>
      if negb (is_success status)
      then Err ["Error fetching accounts via HTTP. Response code was " +:+ pretty status] else
      match body with
      | inl e => Err ["Error reading account response body: " +:+ e]
      | inr bytes =>
          match accounts_from_slice bytes with
          | inl e => Err ["Error parsing account response JSON: " +:+ e]
          | inr contract => Ok (convert_nulls_to_errs (arc_accounts contract) "Account").1
          end
      end
  end.
Definition http_stored_fetcher : ExFetcher HttpStoredRequestFetcher := {|
  ex_fetch_requests := fetch_requests_async; ex_fetch_responses := fetch_responses_async |}.
End Http.

(** ** stored_requests_db.rs *)

Record StoredDataRow : Type := { sdr_id : string; sdr_data : Value; sdr_data_type : string }.
Record QueryParam : Type := { qp_name : string; qp_values : list string }.
Inductive DbError : Type := DbQuery (e : string) | DbBadInput (e : string) | DbConnection (e : string).
Definition db_error_to_string (e : DbError) : string :=
  match e with
  | DbQuery e => "database query error: " +:+ e
  | DbBadInput e => "bad input: " +:+ e
  | DbConnection e => "connection error: " +:+ e
  end.
(** The trait. *)
Class DbProvider (P : Type) : Type := db_query : P → string → list QueryParam → DbError + list StoredDataRow.
Record DbStoredRequestFetcher (P : Type) : Type := {
  dsf_provider : P; dsf_query_template : string; dsf_response_query_template : string }.
Arguments dsf_provider {P} _.
Arguments dsf_query_template {P} _.
Arguments dsf_response_query_template {P} _.
Definition no_stored (data_type id : string) : string := "No stored " +:+ data_type +:+ " found for id: " +:+ id.
(** One row into the maps of requests and impressions. *)
Definition put_row (acc : gmap string Value * gmap string Value) (row : StoredDataRow) : gmap string Value * gmap string Value :=
  if bool_decide (sdr_data_type row = "request") then (<[ sdr_id row := sdr_data row ]> acc.1, acc.2)
  else if bool_decide (sdr_data_type row = "imp") then (acc.1, <[ sdr_id row := sdr_data row ]> acc.2)
  else acc.
Definition not_stored (data_type : string) (m : gmap string Value) (ids : list string) : list string :=
  no_stored data_type <$> List.filter (λ id, bool_decide (m !! id = None)) ids.
Section Db.
Context {P : Type} `{DbProvider P}.
Definition dsf_fetch_requests (f : DbStoredRequestFetcher P) (request_ids imp_ids : list string)
    : gmap string Value * gmap string Value * list string :=
  if bool_decide (request_ids = []) && bool_decide (imp_ids = []) then (∅, ∅, []) else
  let params := [{| qp_name := "REQUEST_ID_LIST"; qp_values := request_ids |}; {| qp_name := "IMP_ID_LIST"; qp_values := imp_ids |}] in
  match db_query (dsf_provider f) (dsf_query_template f) params with
  | inl e =>
      (∅, ∅, ("Error reading from Stored Request DB: " +:+ db_error_to_string e)
        :: (no_stored "Request" <$> request_ids) ++ (no_stored "Imp" <$> imp_ids))
  | inr rows =>
      let '(stored_requests, stored_imps) := fold_left put_row rows (∅, ∅) in
      (stored_requests, stored_imps,
       not_stored "Request" stored_requests request_ids ++ not_stored "Imp" stored_imps imp_ids)
  end.
Definition dsf_fetch_responses (f : DbStoredRequestFetcher P) (ids : list string) : gmap string Value * list string :=
  if bool_decide (ids = []) then (∅, []) else
  match db_query (dsf_provider f) (dsf_response_query_template f) [{| qp_name := "ID_LIST"; qp_values := ids |}] with
  | inl e => (∅, ["Error reading from Stored Response DB: " +:+ db_error_to_string e])
  | inr rows => (fold_left (λ m row, <[ sdr_id row := sdr_data row ]> m) rows ∅, [])
  end.
End Db.

(** *** Queries *)

Definition param_placeholder (param : QueryParam) : string := "{" +:+ qp_name param +:+ "}".
(** [expanded], [values] and [counter]. *)
Definition expand_param (placeholder_fn : Z → string) (acc : string * list string * Z) (param : QueryParam) : string * list string * Z :=
  let '(expanded, values, counter) := acc in
  let placeholders := imap (λ i _, placeholder_fn (counter + Z.of_nat i + 1)) (qp_values param) in
  let replacement := match placeholders with [] => "NULL" | _ => join ", " placeholders end in
  (str_replace (param_placeholder param) replacement expanded, values ++ qp_values param, counter + zlen (qp_values param)).
Definition expand_query_template (query : string) (params : list QueryParam) (placeholder_fn : Z → string) : string * list string :=
  let '(expanded, values, _) := fold_left (expand_param placeholder_fn) params (query, [], 0) in (expanded, values).
Definition postgres_placeholder (i : Z) : string := "$" +:+ pretty i.
Definition mysql_placeholder (_i : Z) : string := "?".

(** *** The provider in memory *)

Record MockDbProvider : Type := { mdp_data : gmap string StoredDataRow }.
Definition mdp_insert (id : string) (data : Value) (data_type : string) (p : MockDbProvider) : MockDbProvider := {|
  mdp_data := <[ id := {| sdr_id := id; sdr_data := data; sdr_data_type := data_type |} ]> (mdp_data p) |}.
Definition mdp_query (p : MockDbProvider) (params : list QueryParam) : list StoredDataRow :=
  params ≫= λ param, omap (λ id, mdp_data p !! id) (qp_values param).
#[export] Instance mock_provider : DbProvider MockDbProvider := λ p _ params, inr (mdp_query p params).

(** ** Properties *)

(** A null in the body is neither an entry nor, in the end, an error. *)
Lemma convert_nulls `{MapIter} m data_type : (convert_nulls_to_errs m data_type).1 = omap id m.
Proof.
  apply map_eq. intros k. unfold convert_nulls_to_errs.
  rewrite (map_iter_fold_lookup (convert_null data_type) (λ _ v, v)); [|by intros acc k' [v|]].
  rewrite lookup_omap. cbn. rewrite lookup_empty. by destruct (m !! k) as [[v|]|].
Qed.
Theorem fetch_requests_async_spec `{MapIter} append_pairs http_get from_slice f reqs imps bytes contract status :
  reqs ≠ [] ∨ imps ≠ [] → http_get (build_request_url append_pairs f reqs imps) = inr (status, inr bytes) →
  is_success status = true → from_slice bytes = inr contract →
  fetch_requests_async append_pairs http_get from_slice f reqs imps =
    Ok (omap id (shc_requests contract), omap id (shc_imps contract)).
Proof.
  intros Hne Hget Hs Hc. unfold fetch_requests_async.
  assert (bool_decide (reqs = []) && bool_decide (imps = []) = false) as ->.
  { apply andb_false_iff. rewrite !bool_decide_eq_false. done. }
  rewrite Hget, Hs, Hc. cbn [negb].
  pose proof (convert_nulls (shc_requests contract) "Request") as Hr. pose proof (convert_nulls (shc_imps contract) "Imp") as Hi.
  destruct (convert_nulls_to_errs _ "Request") as [r re], (convert_nulls_to_errs _ "Imp") as [i ie]. cbn in Hr, Hi. subst.
  by destruct (bool_decide _).
Qed.

(** The last row of an id and a type, if any. *)
Definition row_of (data_type : string) (rows : list StoredDataRow) (id : string) : option Value :=
  (list_to_map (reverse ((λ r, (sdr_id r, sdr_data r)) <$> List.filter (λ r, bool_decide (sdr_data_type r = data_type)) rows)) : gmap string Value) !! id.
Lemma put_rows rows : fold_left put_row rows (∅, ∅) =
  (list_to_map (reverse ((λ r, (sdr_id r, sdr_data r)) <$> List.filter (λ r, bool_decide (sdr_data_type r = "request")) rows)),
   list_to_map (reverse ((λ r, (sdr_id r, sdr_data r)) <$> List.filter (λ r, bool_decide (sdr_data_type r = "imp")) rows))).
Proof.
  induction rows as [|r rows IH] using rev_ind; [done|]. rewrite fold_left_app, IH, !List.filter_app, !fmap_app, !reverse_app.
  cbn [fold_left List.filter]. unfold put_row. destruct (decide (sdr_data_type r = "request")) as [Hr|Hr].
  - rewrite Hr. by rewrite bool_decide_eq_true_2, bool_decide_eq_false_2 by done.
  - rewrite bool_decide_eq_false_2 by done. by case_bool_decide.
Qed.
(** Every id asked for is answered, or is named by an error; no error is for an id
    that is answered; and a database that refuses the query leaves an error for
    each id. *)
Theorem dsf_fetch_requests_spec {P} `{DbProvider P} (f : DbStoredRequestFetcher P) reqs imps :
  let '(requests, imps', errors) := dsf_fetch_requests f reqs imps in
  (∀ id, id ∈ reqs → requests !! id = None → no_stored "Request" id ∈ errors) ∧
  (∀ id, id ∈ imps → imps' !! id = None → no_stored "Imp" id ∈ errors) ∧
  ∀ rows, (reqs ≠ [] ∨ imps ≠ []) →
    db_query (dsf_provider f) (dsf_query_template f) [{| qp_name := "REQUEST_ID_LIST"; qp_values := reqs |};
      {| qp_name := "IMP_ID_LIST"; qp_values := imps |}] = inr rows →
    (∀ id, requests !! id = row_of "request" rows id) ∧ (∀ id, imps' !! id = row_of "imp" rows id) ∧
    errors = not_stored "Request" requests reqs ++ not_stored "Imp" imps' imps.
Proof.
  unfold dsf_fetch_requests. destruct (bool_decide (reqs = []) && bool_decide (imps = [])) eqn:Hb.
  { apply andb_prop in Hb as [->%bool_decide_eq_true ->%bool_decide_eq_true]. split_and!; [set_solver|set_solver|by intros rows []]. }
  destruct (db_query _ _ _) as [e|rows].
  - split_and!; [..|done]; intros id Hid _; right; apply elem_of_app; [left|right]; by apply list_elem_of_fmap_2.
  - rewrite put_rows.
    assert (Hns : ∀ data_type (m : gmap string Value) ids id, id ∈ ids → m !! id = None → no_stored data_type id ∈ not_stored data_type m ids).
    { intros data_type m ids id Hid Hn. apply list_elem_of_fmap_2. rewrite list_elem_of_In, filter_In, <-list_elem_of_In.
      by rewrite bool_decide_eq_true_2. }
    split_and!; [intros id Hid Hn; apply elem_of_app; left; by apply Hns|intros id Hid Hn; apply elem_of_app; right; by apply Hns|].
    intros rows' _ [= <-]. done.
Qed.
(** What the provider in memory answers is what was inserted, whichever list an id
    was asked in. *)
Lemma mdp_rows p reqs imps row :
  row ∈ mdp_query p [{| qp_name := "REQUEST_ID_LIST"; qp_values := reqs |}; {| qp_name := "IMP_ID_LIST"; qp_values := imps |}] ↔
  ∃ id, id ∈ reqs ++ imps ∧ mdp_data p !! id = Some row.
Proof.
  unfold mdp_query. cbn. rewrite app_nil_r, elem_of_app, !list_elem_of_omap. setoid_rewrite elem_of_app. naive_solver.
Qed.

(** The values of a query are the parameters' in order, and the placeholders of
    each parameter number its own values. *)
Lemma expand_fold fn params query values counter :
  let '(_, values', counter') := fold_left (expand_param fn) params (query, values, counter) in
  values' = values ++ (params ≫= qp_values) ∧ counter' = counter + zlen (params ≫= qp_values).
Proof.
  revert query values counter. induction params as [|p params IH]; intros query values counter; cbn [fold_left].
  { cbn. rewrite app_nil_r. split; [done|unfold zlen; cbn; lia]. }
  unfold expand_param at 2. specialize (IH (str_replace (param_placeholder p)
    (match imap (λ i _, fn (counter + Z.of_nat i + 1)) (qp_values p) with [] => "NULL" | _ => join ", " (imap (λ i _, fn (counter + Z.of_nat i + 1)) (qp_values p)) end) query)
    (values ++ qp_values p) (counter + zlen (qp_values p))).
  destruct (fold_left _ _ _) as [[q' v'] c']. destruct IH as [-> ->]. rewrite bind_cons, <-app_assoc. split; [done|].
  unfold zlen. rewrite length_app. lia.
Qed.
(** the values a query is run with are the parameters' values in their order,
    and the number in the i-th placeholder of the k-th parameter is the position of
    that parameter's i-th value among them, so PostgreSQL binds each to its own. *)
Theorem expand_query_template_values query params fn :
  (expand_query_template query params fn).2 = params ≫= qp_values ∧
  ∀ k param i v, params !! k = Some param → qp_values param !! i = Some v →
    let '(_, _, counter) := fold_left (expand_param fn) (take k params) (query, [], 0) in
    (params ≫= qp_values) !! Z.to_nat (counter + Z.of_nat i + 1 - 1) = Some v.
Proof.
  split.
  - unfold expand_query_template. pose proof (expand_fold fn params query [] 0) as H.
    destruct (fold_left _ _ _) as [[q v] c]. by destruct H as [-> _].
  - intros k param i v Hk Hi. pose proof (expand_fold fn (take k params) query [] 0) as H.
    destruct (fold_left _ _ _) as [[q vs] c]. destruct H as [_ ->].
    assert (He : params ≫= qp_values = (take k params ≫= qp_values) ++ qp_values param ++ (drop (S k) params ≫= qp_values)).
    { by rewrite <-bind_cons, <-bind_app, take_drop_middle. }
    rewrite He. unfold zlen. rewrite lookup_app_r by lia. rewrite lookup_app_l; [|apply lookup_lt_Some in Hi; lia].
    rewrite <-Hi. f_equal. lia.
Qed.
(** With MySQL's placeholders the values are bound by their place in the query,
    which need not be the parameters' order. *)
Example mysql_binds_by_place :
  expand_query_template "id IN ({IMP_ID_LIST}) OR id IN ({REQUEST_ID_LIST})"
    [{| qp_name := "REQUEST_ID_LIST"; qp_values := ["r"] |}; {| qp_name := "IMP_ID_LIST"; qp_values := ["i"; "j"] |}]
    mysql_placeholder = ("id IN (?, ?) OR id IN (?)", ["r"; "i"; "j"]).
Proof. by vm_compute. Qed.
