(* ===== verification/Auction.v ===== *)
(** * The auction

    exchange/src/lib.rs, [hold_auction_with_timeouts]: how the parts modelled in
    the other files are put together.  The request is validated, the request
    hooks run, a stored auction response answers at once; otherwise each bidder
    named by an impression passes the privacy gate, is answered from stored
    responses or called, and the results are collected, priced into targeting
    keys and assembled into the response.

    Parameters: serde's generated conversions, the adapters and the network
    ([send], [compress_gzip]), the clock ([duration_ms], [elapsed_ms]), the
    order of hash maps ([iter_map]) and of the tasks' completion ([join_set]: a
    task that panicked gives no result).  Metrics, analytics and logging are
    left out.  The hook executor is any instance of [StageRunner]. *)

From S2P Require Import Prelude Json Hooks OpenRtb Validation OpenRtbExt ExchangePrivacy.
From S2P Require Import Scrubber PriceBucket Currency BidPipeline AuctionTargeting.
From S2P Require Import AdServerTargeting BidderRequests.

(** ** The interface to the hooks *)

(** What the auction needs of a hook executor: to run a stage, which can only
    end in the payload or a rejection, and the latter at rejectable stages
    only. *)
Class StageRunner (X S : Type) := {
  run_stage : X → Stage → Value → M S RejectError Value;
  run_stage_safe x stage payload s :
    (run_stage x stage payload s).1 ≠ Panic ∧
    (is_rejectable stage = false → is_Ok (run_stage x stage payload s).1 = true);
}.

#[export] Program Instance hook_executor_runner : StageRunner HookExecutor ExecutorState := {|
  run_stage := execute_stage |}.
Next Obligation. apply execute_stage_safe. Qed.
#[export] Program Instance empty_executor_runner : StageRunner unit unit := {|
  run_stage := λ _, empty_execute_stage |}.
Next Obligation. done. Qed.

(** ** Data *)

Record AdaptedBidder : Type := {
  ab_make_requests : BidRequest → ExtraRequestInfo → list RequestData * list BidderError;
  ab_make_bids : BidRequest → RequestData → ResponseData → list BidderError + BidderResponse;
  ab_endpoint : string;
  ab_endpoint_compression : option string;
}.
(** The traits [StoredResponseFetcher] and [CacheClient]. *)
Definition StoredResponseFetcher : Type := string → option Value.
Record CacheClient : Type := {
  cc_put_json : Value → Z → option string; cc_get_url : string → string;
}.
Record Exchange (X : Type) : Type := {
  xc_adapters : gmap string AdaptedBidder;
  xc_hook_executor : option X;
  xc_stored_responses : option StoredResponseFetcher;
  xc_aliases : gmap string string;
  xc_schain_node : option SupplyChainNode;
  xc_cache_client : option CacheClient;
}.
Arguments xc_adapters {X} _.
Arguments xc_hook_executor {X} _.
Arguments xc_stored_responses {X} _.
Arguments xc_aliases {X} _.
Arguments xc_schain_node {X} _.
Arguments xc_cache_client {X} _.
(** The same exchange without its hooks. *)
Definition without_hooks {X} (e : Exchange X) : Exchange X := {|
  xc_adapters := xc_adapters e; xc_hook_executor := None;
  xc_stored_responses := xc_stored_responses e; xc_aliases := xc_aliases e;
  xc_schain_node := xc_schain_node e; xc_cache_client := xc_cache_client e |}.
(** [AuctionRequest]; the account and the user syncs are not read. *)
Record AuctionRequest : Type := {
  arq_bid_request : BidRequest; arq_currency_rates : option CurrencyConverter;
}.
Record AuctionResponse : Type := {
  arp_bid_response : BidResponse; arp_seat_non_bids : list SeatNonBid;
  arp_targeting : Targeting; arp_timed_out_bidders : list string;
}.

Definition set_resp_id (x : string) (r : BidResponse) : BidResponse := {|
  resp_id := x; resp_seatbid := resp_seatbid r; resp_bidid := resp_bidid r; resp_cur := resp_cur r;
  resp_customdata := resp_customdata r; resp_nbr := resp_nbr r; resp_ext := resp_ext r |}.

(** An [outcome] among stateful steps. *)
Definition lift_outcome {S E A} (m : outcome E A) : M S E A := λ s, (m, s).

(** ** JSON of the response extension *)

Definition http_call_to_value (c : ExtHttpCall) : Value := object [
  ("uri", VString (hc_uri c)); ("requestbody", VString (hc_request_body c));
  ("requestheaders", map_to_object strings (hc_request_headers c));
  ("responsebody", VString (hc_response_body c)); ("status", number (hc_status c))].

(** ** The world around the auction *)

Class World : Type := {
  (** serde, on the types the auction converts. *)
  request_to_value : BidRequest → Value;
  response_to_value : BidResponse → Value;
  bid_to_value : Bid → Value;
  bid_from_value : Value → option Bid;
  response_from_value : Value → string + BidResponse;
  targeting_from_value : Value → option (gmap string string);
  multibid_from_value : Value → option (list MultiBid);
  factors_from_value : Value → option (gmap string f64);
  rules_from_value : Value → option BidAdjustmentRule;
  deal_tier_from_value : Value → option DealTier;
  ast_rules_from_value : Value → option (list AdServerTargetingRule);
  brand_category_deserialises : Value → bool;
  site_from_value : Value → option Site;
  user_from_value : Value → option User;
  app_from_value : Value → option App;
  geo_to_value : Geo → option Value;
  geo_from_value : Value → option Geo;
  dsa_to_value : Dsa → option Value;
  non_bid_ext_to_value : NonBidExt → Value;
  (** The network, gzip and the text functions. *)
  send : RequestData → list Z → option string → Z → option (string + Z * (string + list Z));
  compress_gzip : list Z → option (list Z);
  from_utf8_lossy : list Z → string;
  to_uppercase : string → string;
  display_f64 : f64 → string;
  (** The clock, the order of a hash map, and of the tasks. *)
  duration_ms : string → Z;
  elapsed_ms : Z;
  iter_map : ∀ A : Type, gmap string A → list (string * A);
  join_set : list BidderResult → list BidderResult;
}.
(** A hash map is iterated over once; every result joined is of a task. *)
Class WorldLaws (w : World) : Prop := {
  iter_map_perm A (m : gmap string A) : iter_map A m ≡ₚ map_to_list m;
  join_set_sub l : join_set l ⊆+ l;
}.

(** ** Samples *)

(** A world where nothing deserialises, and an exchange of one bidder that
    answers every request with the same bids. *)
Definition sample_world : World := {|
  request_to_value _ := VNull; response_to_value _ := VNull; bid_to_value _ := VNull;
  bid_from_value _ := None; response_from_value _ := inl ""; targeting_from_value _ := None;
  multibid_from_value _ := None; factors_from_value _ := None; rules_from_value _ := None;
  deal_tier_from_value _ := None; ast_rules_from_value _ := None;
  brand_category_deserialises _ := false; site_from_value _ := None; user_from_value _ := None;
  app_from_value _ := None; geo_to_value _ := None; geo_from_value _ := None;
  dsa_to_value _ := None; non_bid_ext_to_value _ := VNull;
  send _ _ _ _ := Some (inr (200, inr [])); compress_gzip _ := None; from_utf8_lossy _ := "";
  to_uppercase s := s; display_f64 _ := ""; duration_ms _ := 5; elapsed_ms := 7;
  iter_map _ m := map_to_list m; join_set l := l |}.
Definition sample_adapter : AdaptedBidder := {|
  ab_make_requests _ _ := ([{| rqd_method := "POST"; rqd_uri := "u"; rqd_body := [];
                               rqd_headers := ∅; rqd_imp_ids := [] |}], []);
  ab_make_bids _ _ _ := inr sample_response; ab_endpoint := "u"; ab_endpoint_compression := None |}.
(** An executor that turns every payload to null. *)
#[export] Program Instance null_runner : StageRunner bool unit := {|
  run_stage _ _ _ := mret VNull |}.
Next Obligation. done. Qed.
Definition sample_exchange : Exchange bool := {|
  xc_adapters := {[ "appnexus" := sample_adapter ]}; xc_hook_executor := Some true;
  xc_stored_responses := None; xc_aliases := ∅; xc_schain_node := None; xc_cache_client := None |}.
Definition sample_auction (coppa : Z) : AuctionRequest := {|
  arq_bid_request :=
    set_req_regs (Some (set_regs_coppa (Some coppa) default_regs)) (set_req_imp [
      set_imp_id "imp-1" (set_imp_banner (Some default_ban) (set_imp_ext (Some (object
        [("prebid", object [("bidder", object [("appnexus", object [])])])])) default_imp))]
      default_req);
  arq_currency_rates := None |}.

Section Auction.
Context {X S : Type} `{!StageRunner X S} {W : World}.
Context (exchange : Exchange X).

(** ** Hooks *)

(** [if let Some(executor) = &self.hook_executor { .. }]: the mutated payload
    is dropped, only a rejection counts. *)
Definition hook_stage (stage : Stage) (payload : Value) (s : S) : option RejectError * S :=
  match xc_hook_executor exchange with
  | None => (None, s)
  | Some executor =>
      match run_stage executor stage payload s with
      | (Err reject, s) => (Some reject, s)
      | (_, s) => (None, s)
      end
  end.
Definition reject_stage (stage : Stage) (prefix : string) (payload : Value) : M S string unit := λ s,
  match hook_stage stage payload s with
  | (Some reject, s) => (Err (prefix +:+ reject_error_to_string reject), s)
  | (None, s) => (Ok tt, s)
  end.

(** ** Stored responses *)

Definition stored_bid_keys (bidder_name : string) (bid : Bid) (targeting : Targeting) : Targeting :=
  let ext_targeting :=
    default ∅ (json_path ["prebid"; "targeting"] (bid_ext bid) ≫= targeting_from_value) in
  let keys := ext_targeting ∪ default ∅ (targeting !! bid_impid bid) in
  let targeting := <[ bid_impid bid := keys ]> targeting in
  let targeting := key_or_insert (bid_impid bid) "hb_bidder" bidder_name targeting in
  key_or_insert (bid_impid bid) "hb_pb" (price_granularity_bucket (bid_price bid) None) targeting.
Definition stored_targeting (response : BidResponse) : Targeting :=
  fold_left (λ t seat_bid,
    fold_left (λ t bid, stored_bid_keys (default "unknown" (sb_seat seat_bid)) bid t)
      (sb_bid seat_bid) t) (resp_seatbid response) ∅.
(** The short-circuit; [None] to go on. *)
Definition stored_auction_response (req : BidRequest) : option (outcome string AuctionResponse) :=
  match json_path ["prebid"; "storedauctionresponse"; "id"] (req_ext req) ≫= as_str,
        xc_stored_responses exchange with
  | Some stored_resp_id, Some fetch =>
      match fetch stored_resp_id with
      | Some stored_json =>
          match response_from_value stored_json with
          | inr response =>
              let response :=
                if str_is_empty (resp_id response) then set_resp_id (req_id req) response else response in
              Some (Ok {| arp_bid_response := response; arp_seat_non_bids := [];
                          arp_targeting := stored_targeting response; arp_timed_out_bidders := [] |})
          | inl e => Some (Err ("failed to parse stored auction response '" +:+ stored_resp_id +:+
                                "': " +:+ e))
          end
      | None => Some (Err ("stored auction response not found for id: " +:+ stored_resp_id))
      end
  | _, _ => None
  end.

(** Bidder to imp to stored response. *)
Definition stored_entry (imp : Imp) (m : gmap string (gmap string Value)) (entry : Value)
    : gmap string (gmap string Value) :=
  let bidder := default "" (get "bidder" entry ≫= as_str) in
  let resp_id := default "" (get "id" entry ≫= as_str) in
  if negb (str_is_empty bidder) && negb (str_is_empty resp_id) then
    match xc_stored_responses exchange ≫= (λ fetch, fetch resp_id) with
    | Some stored_json => <[ bidder := <[ imp_id imp := stored_json ]> (default ∅ (m !! bidder)) ]> m
    | None => m
    end
  else m.
Definition stored_bid_responses (req : BidRequest) : gmap string (gmap string Value) :=
  fold_left (λ m imp,
    fold_left (stored_entry imp)
      (default [] (json_path ["prebid"; "storedbidresponse"] (imp_ext imp) ≫= as_array)) m)
    (req_imp req) ∅.
(** The bids stored for one bidder; what does not parse is skipped. *)
Definition stored_bids_of (imp_id : string) (stored_json : Value) : list TypedBid :=
  bid_val ← flat_map (λ sb, default [] (get "bid" sb ≫= as_array)) (default [] (as_array stored_json));
  match bid_from_value bid_val with
  | Some bid =>
      let bid := set_bid_impid imp_id bid in
      [typed_bid_new bid (bid_type_from_mtype (default 0 (bid_mtype bid)))]
  | None => []
  end.
Definition stored_typed_bids (imp_responses : gmap string Value) : list TypedBid :=
  flat_map (λ e, stored_bids_of e.1 e.2) (iter_map _ imp_responses).

(** ** Checks and timeouts *)

Definition imp_check (imp : Imp) : outcome string unit :=
  if str_is_empty (imp_id imp) then Err "request.imp[].id required"
  else if no_media imp
  then Err ("request.imp[id=" +:+ imp_id imp +:+
            "] must specify at least one of banner/video/audio/native")
  else Ok tt.
Definition request_checks (req : BidRequest) : outcome string unit :=
  match req_imp req with
  | [] => Err "request.imp must contain at least one impression"
  | imps =>
      if match req_tmax req with Some tmax => tmax <? 0 | None => false end
      then Err "request.tmax must be nonneg"
      else foldM (λ _ imp, imp_check imp) tt imps
  end.
Definition bidder_timeout_ms (req : BidRequest) : Z :=
  let overhead := default 0 (json_path ["prebid"; "server"; "response_time_ms"] (req_ext req) ≫= as_i64) in
  match req_tmax req with
  | Some t => if 0 <? t then Z.max 1 (i64 (t - overhead)) else 1000
  | None => 1000
  end.

(** ** Fan-out *)

Definition all_bidder_names : list string :=
  let names := (iter_map _ (xc_adapters exchange)).*1 in
  fold_left (λ names alias, if bool_decide (alias ∈ names) then names else names ++ [alias])
    (iter_map _ (xc_aliases exchange)).*1 names.
Definition extra_info : ExtraRequestInfo := {|
  eri_pbs_entry_point := "openrtb2-auction"; eri_global_privacy_control_header := "" |}.
Definition privacy_status (r : PrivacyResult) : Z :=
  match r with
  | PrBlockGdpr => 50 | PrBlockCcpa => 51 | PrBlockCoppa => 52 | PrBlockLmt => 53 | PrAllow => 0
  end.

(** A task of the join set: a bidder answered from stored responses, or a call. *)
Inductive Task : Type :=
| StoredTask (name : string) (bids : list TypedBid)
| CallTask (name : string) (adapted : AdaptedBidder) (req : BidRequest) (timeout_ms : Z).
Definition task_name (t : Task) : string :=
  match t with StoredTask name _ | CallTask name _ _ _ => name end.
Definition task_result (t : Task) : BidderResult :=
  match t with
  | StoredTask name bids =>
      {| bres_bidder_name := name;
         bres_response := inr {| br_currency := "USD"; br_bids := bids;
                                 br_fledge_auction_configs := [] |};
         bres_duration_ms := 0; bres_http_calls := []; bres_timed_out := false |}
  | CallTask name adapted req timeout_ms =>
      request_bid (ab_make_requests adapted) (ab_make_bids adapted) send compress_gzip
        from_utf8_lossy to_uppercase (ab_endpoint_compression adapted) req name extra_info
        timeout_ms (duration_ms name)
  end.

(** The request a bidder gets: the host's node, its own impressions, its
    first-party data; then the sanitiser for child-directed requests. *)
Definition unsanitized_request (req : BidRequest) (bidder_imps : gmap string (list Imp))
    (bidder_name : string) : BidRequest :=
  let base := default req (schain_base_request (xc_schain_node exchange) req) in
  let base := match bidder_imps !! bidder_name with
              | Some imps => set_req_imp imps base
              | None => base
              end in
  apply_fpd_for_bidder site_from_value user_from_value app_from_value geo_to_value
    geo_from_value bidder_name base.
Definition bidder_request (req : BidRequest) (bidder_imps : gmap string (list Imp))
    (bidder_name : string) : BidRequest :=
  sanitize_request_for_coppa (unsanitized_request req bidder_imps bidder_name).

Definition spawn_bidder (req : BidRequest) (config : AuctionPrivacyConfig)
    (bidder_imps : gmap string (list Imp)) (stored : gmap string (gmap string Value))
    (st : list Task * list SeatNonBid * S) (bidder_name : string)
    : list Task * list SeatNonBid * S :=
  let '(tasks, non_bids, s) := st in
  match check_privacy_for_bidder config bidder_name with
  | PrAllow =>
      match default [] (stored_typed_bids <$> stored !! bidder_name) with
      | tb :: tbs => (tasks ++ [StoredTask bidder_name (tb :: tbs)], non_bids, s)
      | [] =>
          let canonical_name := default bidder_name (xc_aliases exchange !! bidder_name) in
          match xc_adapters exchange !! canonical_name with
          | Some adapted =>
              let breq := bidder_request req bidder_imps bidder_name in
              let payload := object [("bidder", VString bidder_name);
                                     ("bid_request", request_to_value breq)] in
              match hook_stage BidderRequestStage payload s with
              | (Some _, s) => (tasks, non_bids, s)
              | (None, s) =>
                  (tasks ++ [CallTask bidder_name adapted breq (bidder_timeout_ms req)], non_bids, s)
              end
          | None => (tasks, non_bids, s)
          end
      end
  | blocked =>
      let nbs := non_bid (privacy_status blocked) ∘ imp_id <$> req_imp req in
      (tasks,
       match nbs with
       | [] => non_bids
       | _ => non_bids ++ [{| snb_nonbid := nbs; snb_seat := bidder_name; snb_ext := None |}]
       end, s)
  end.
Definition spawn_bidders (req : BidRequest) (s : S) : list Task * list SeatNonBid * S :=
  let bidder_imps := split_imps_for_bidders (req_imp req) all_bidder_names in
  fold_left (spawn_bidder req (extract_privacy_config req) bidder_imps (stored_bid_responses req))
    (iter_map _ bidder_imps).*1 ([], [], s).

(** ** Collection *)

(** The bidders' results in the order they arrive; a rejection by the hooks is
    only logged. *)
Definition collect_step (req : BidRequest) (rates : option CurrencyConverter)
    (limits : gmap string Z) (acc : AuctionState * S) (r : BidderResult) : AuctionState * S :=
  let '(st, s) := acc in
  let payload := object [("bidder", VString (bres_bidder_name r));
                         ("timed_out", VBool (bres_timed_out r));
                         ("duration_ms", number (bres_duration_ms r))] in
  let '(_, s) := hook_stage RawBidderResponse payload s in
  (collect_result iter_map to_uppercase factors_from_value req rates limits st r, s).
Definition collect (req : BidRequest) (rates : option CurrencyConverter) (limits : gmap string Z)
    (skipped : list SeatNonBid) (results : list BidderResult) (s : S) : AuctionState * S :=
  fold_left (collect_step req rates limits) results
    (collect_results iter_map to_uppercase factors_from_value req rates limits skipped [], s).

(** ** Targeting *)

Definition custom_price_granularity (req : BidRequest) : option PriceGranularity :=
  json_path ["prebid"; "targeting"; "pricegranularity"] (req_ext req)
    ≫= price_granularity_from_json.
Definition adserver_keys (req : BidRequest) (rules : list AdServerTargetingRule) (_bidder : string)
    (tb : TypedBid) (t : Targeting) : Targeting :=
  let extra := apply_adserver_targeting display_f64 rules req (Some (tb_bid tb)) in
  <[ tb_impid tb := extra ∪ default ∅ (t !! tb_impid tb) ]> t.
Definition adserver_targeting (req : BidRequest) (results : BidderResults) (t : Targeting)
    : Targeting :=
  match default [] (json_path ["prebid"; "adservertargeting"] (req_ext req)
                      ≫= ast_rules_from_value) with
  | [] => t
  | rules => for_each_bid (adserver_keys req rules) results t
  end.
Definition include_brand_category (req : BidRequest) : bool :=
  match json_path ["prebid"; "targeting"; "includebrandcategory"] (req_ext req) with
  | Some v => brand_category_deserialises v
  | None => false
  end.
(** Everything up to the bid adjustments. *)
Definition auction_targeting (req : BidRequest) (results : BidderResults) : Targeting :=
  let pg := custom_price_granularity req in
  let t := base_targeting pg iter_map results in
  let t := adserver_targeting req results t in
  let t := category_targeting pg (include_brand_category req) results t in
  deal_targeting deal_tier_from_value req results t.
Definition adjusted_results (req : BidRequest) (results : BidderResults) : BidderResults :=
  apply_bid_adjustments
    (json_path ["prebid"; "bidadjustments"] (req_ext req) ≫= rules_from_value) results.

(** The winning bid of an imp goes to the cache for five minutes. *)
Definition cache_winner (cache : CacheClient) (results : BidderResults) (t : Targeting)
    (e : string * Winner) : Targeting :=
  let '(imp_id, (_, bidder_name, _)) := e in
  let winning_bid :=
    r ← List.find (λ r : string * list TypedBid, bool_decide (r.1 = bidder_name)) results;
    List.find (λ tb, bool_decide (tb_impid tb = imp_id)) r.2 in
  match winning_bid with
  | Some typed_bid =>
      match cc_put_json cache (bid_to_value (tb_bid typed_bid)) 300 with
      | Some cache_id =>
          let t := key_insert imp_id "hb_cache_id" cache_id t in
          let t := key_insert imp_id ("hb_cache_id_" +:+ bidder_name) cache_id t in
          let cache_url := cc_get_url cache cache_id in
          if str_is_empty cache_url then t else key_insert imp_id "hb_cache_host" cache_url t
      | None => t
      end
  | None => t
  end.
Definition cache_targeting (req : BidRequest) (winners : gmap string Winner)
    (results : BidderResults) (t : Targeting) : Targeting :=
  match json_path ["prebid"; "cache"; "bids"] (req_ext req), xc_cache_client exchange with
  | Some _, Some cache => fold_left (cache_winner cache results) (iter_map _ winners) t
  | _, _ => t
  end.

(** ** The response *)

Definition non_bid_to_value (nb : NonBid) : Value :=
  object ([("impid", VString (nb_impid nb)); ("statuscode", number (nb_statuscode nb))] ++
          optional "ext" (non_bid_ext_to_value <$> nb_ext nb)).
Definition seat_non_bid_to_value (snb : SeatNonBid) : Value :=
  object ([("nonbid", VArray (non_bid_to_value <$> snb_nonbid snb));
           ("seat", VString (snb_seat snb))] ++ optional "ext" (snb_ext snb)).

Definition prebid_ext (req : BidRequest) (st : AuctionState) : Value :=
  let o := [("timing", object [("respondedMs", number elapsed_ms)])] in
  let o := if bool_decide (st_bidder_errors st = ∅) then o
           else set_key "errors" (map_to_object strings (st_bidder_errors st)) o in
  let o := match st_collected_non_bids st with
           | [] => o
           | nbs => set_key "seatnonbid" (VArray (seat_non_bid_to_value <$> nbs)) o
           end in
  let o := if bool_decide (st_all_bidder_timing st = ∅) then o
           else set_key "responsetimemillis" (map_to_object number (st_all_bidder_timing st)) o in
  let o := match req_tmax req with
           | Some tmax => set_key "tmaxrequest" (number tmax) o
           | None => o
           end in
  VObject o.
Definition response_ext (req : BidRequest) (st : AuctionState) : Value :=
  let o := [("prebid", prebid_ext req st)] in
  let o := match (req_regs req ≫= regs_dsa) ≫= dsa_to_value with
           | Some dsa => set_key "dsa" dsa o
           | None => o
           end in
  let o := if bool_decide (req_test req = Some 1) then
             let bidmeta := map_to_object (λ ms, object [("serverResponseTimeMs", number ms)])
                              (st_debug_bidder_timing st) in
             let httpcalls := map_to_object (λ cs, VArray (http_call_to_value <$> cs))
                                (st_debug_http_calls st) in
             set_key "debug" (object [("httpcalls", httpcalls); ("bidmeta", bidmeta)]) o
           else o in
  VObject o.

Definition bid_response (req : BidRequest) (st : AuctionState) : BidResponse := {|
  resp_id := req_id req;
  resp_seatbid := seat_bids req (adjusted_results req (st_bidder_results st));
  resp_bidid := None; resp_cur := Some "USD"; resp_customdata := None; resp_nbr := None;
  resp_ext := Some (response_ext req st) |}.
(** From the collected results on; the hooks cannot reject any more. *)
Definition respond (req : BidRequest) (st : AuctionState) (s : S) : AuctionResponse * S :=
  let results := st_bidder_results st in
  let payload := object [("bidder_count", number (zlen results));
                         ("timed_out_bidders", strings (st_timed_out_bidders st))] in
  let '(_, s) := hook_stage AllProcessedBidResponses payload s in
  let targeting :=
    cache_targeting req (winners_of results) (adjusted_results req results)
      (auction_targeting req results) in
  let response := bid_response req st in
  let '(_, s) := hook_stage AuctionResponseStage (response_to_value response) s in
  ({| arp_bid_response := response; arp_seat_non_bids := st_collected_non_bids st;
      arp_targeting := targeting; arp_timed_out_bidders := st_timed_out_bidders st |}, s).

(** ** The auction *)

(** The bidders are called and their answers collected; the tasks are those of the
    join set. *)
Definition run_bidders (arq : AuctionRequest) (s : S) : list Task * AuctionState * S :=
  let req := arq_bid_request arq in
  let '(tasks, non_bids, s) := spawn_bidders req s in
  let '(st, s) :=
    collect req (arq_currency_rates arq) (multi_bid_limits multibid_from_value req) non_bids
      (join_set (task_result <$> tasks)) s in
  (tasks, st, s).

(** After the checks nothing fails. *)
Definition bidders_and_response (arq : AuctionRequest) : M S string (AuctionResponse * list Task) := λ s,
  let '(tasks, st, s) := run_bidders arq s in
  let '(response, s) := respond (arq_bid_request arq) st s in
  (Ok (response, tasks), s).

(** The auction, with the tasks it spawned beside its answer. *)
Definition auction_run (arq : AuctionRequest) : M S string (AuctionResponse * list Task) :=
  let req := arq_bid_request arq in
  let validation_errors := validate_request display_f64 req in
  if has_fatal_errors validation_errors then
    M_err ("invalid request: " +:+ join "; " (validation_error_to_string <$> validation_errors))
  else
    _ ← reject_stage EntrypointRaw "request rejected by hook: " (request_to_value req);
    _ ← reject_stage RawAuctionRequest "request rejected by RawAuctionRequest hook: "
          (request_to_value req);
    match stored_auction_response req with
    | Some out => response ← lift_outcome out; lift_outcome (Ok (response, []))
    | None =>
        _ ← lift_outcome (request_checks req);
        _ ← reject_stage ProcessedAuctionRequest
              "request rejected by ProcessedAuctionRequest hook: " (request_to_value req);
        bidders_and_response arq
    end.
Definition hold_auction_with_timeouts (arq : AuctionRequest) : M S string AuctionResponse :=
  run ← auction_run arq; lift_outcome (Ok run.1).
(** ** Specification *)

(** What the auction itself checks of a request. *)
Definition well_formed_request (req : BidRequest) : Prop :=
  (∀ tmax, req_tmax req = Some tmax → 0 ≤ tmax) ∧
  ∀ imp, imp ∈ req_imp req → imp_id imp ≠ "" ∧ no_media imp = false.
(** The bidders named by the impressions, and whether one is. *)
Definition bidder_imps_of (req : BidRequest) : gmap string (list Imp) :=
  split_imps_for_bidders (req_imp req) all_bidder_names.
Definition privacy_result (req : BidRequest) (bidder : string) : PrivacyResult :=
  check_privacy_for_bidder (extract_privacy_config req) bidder.
(** Why a task of the auction exists. *)
Definition task_ok (req : BidRequest) (t : Task) : Prop :=
  privacy_result req (task_name t) = PrAllow ∧
  match t with
  | StoredTask name bids =>
      bids ≠ [] ∧ Some bids = stored_typed_bids <$> stored_bid_responses req !! name
  | CallTask name adapted breq timeout_ms =>
      xc_adapters exchange !! default name (xc_aliases exchange !! name) = Some adapted ∧
      breq = bidder_request req (bidder_imps_of req) name ∧ timeout_ms = bidder_timeout_ms req
  end.
(** The non-bids of a request the privacy gate blocks. *)
Definition blocked_non_bids (req : BidRequest) : list SeatNonBid :=
  (λ bidder, {| snb_nonbid := non_bid (privacy_status (privacy_result req bidder)) ∘ imp_id
                  <$> req_imp req;
                snb_seat := bidder; snb_ext := None |}) <$> (iter_map _ (bidder_imps_of req)).*1.
(** No price of an answered task is NaN once it is converted and adjusted. *)
Definition priced_tasks (arq : AuctionRequest) : Prop :=
  let req := arq_bid_request arq in
  ∀ t response, task_ok req t → bres_response (task_result t) = inr response →
    no_nan (priced_bids factors_from_value req (arq_currency_rates arq) (task_name t) response).
(** What the answer to an auction keeps. *)
Definition answer_safe (arq : AuctionRequest) (r : BidResponse) : Prop :=
  let req := arq_bid_request arq in
  let limits := multi_bid_limits multibid_from_value req in
  resp_id r = req_id req ∧ NoDup (sb_seat <$> resp_seatbid r) ∧
  ∀ sb, sb ∈ resp_seatbid r → ∃ name, sb_seat sb = Some name ∧
    is_Some (bidder_imps_of req !! name) ∧ privacy_result req name = PrAllow ∧
    (is_Some (xc_adapters exchange !! default name (xc_aliases exchange !! name)) ∨
     is_Some (stored_bid_responses req !! name)) ∧
    sb_bid sb ≠ [] ∧ NoDup (bid_id <$> sb_bid sb) ∧
    (∀ i, Z.of_nat (length (List.filter (λ b, bool_decide (bid_impid b = i)) (sb_bid sb)))
          ≤ default 1 (limits !! name)) ∧
    ∀ b, b ∈ sb_bid sb → bid_id b ≠ "" ∧ bid_impid b ∈ (imp_id <$> req_imp req) ∧
      default "" (bid_crid b) ≠ "" ∧
      (json_path ["prebid"; "bidadjustments"] (req_ext req) = None →
       ∀ floor, floor_of (req_imp req) (bid_impid b) = Some floor →
         f64_ltb (bid_price b) floor = false).
(** A stored auction response, as it is answered: what is stored under the id the
    request names, under the request's id where it has none. *)
Definition stored_auction_answered (req : BidRequest) (resp : AuctionResponse) : Prop :=
  ∃ id fetch json response,
    json_path ["prebid"; "storedauctionresponse"; "id"] (req_ext req) ≫= as_str = Some id ∧
    xc_stored_responses exchange = Some fetch ∧ fetch id = Some json ∧
    response_from_value json = inr response ∧
    resp_seatbid (arp_bid_response resp) = resp_seatbid response ∧
    resp_id (arp_bid_response resp) = (if str_is_empty (resp_id response) then req_id req else resp_id response) ∧
    arp_seat_non_bids resp = [] ∧ arp_timed_out_bidders resp = [].
(** A bid is still the bidder's: its identity is kept. *)
Definition same_bid (b b' : Bid) : Prop :=
  bid_id b = bid_id b' ∧ bid_impid b = bid_impid b' ∧ bid_crid b = bid_crid b' ∧
  bid_dealid b = bid_dealid b'.

(** ** Proofs *)

Lemma hook_stage_none stage payload s :
  xc_hook_executor exchange = None → hook_stage stage payload s = (None, s).
Proof. unfold hook_stage. by intros ->. Qed.

Lemma foldM_check {A E} (f : A → outcome E unit) l :
  (∀ x, f x ≠ Panic) → foldM (λ _ x, f x) tt l ≠ Panic ∧
  (is_Ok (foldM (λ _ x, f x) tt l) = true ↔ ∀ x, x ∈ l → is_Ok (f x) = true).
Proof.
  intros Hf. induction l as [|x l [IHp IH]]; simpl.
  { split; [done|]. split; [|done]. by intros _ x ?%elem_of_nil. }
  destruct (f x) as [[]|e|] eqn:Hx; [| |by destruct (Hf x)]; simpl.
  - split; [done|]. rewrite IH. setoid_rewrite elem_of_cons. split; [|by auto].
    intros Hall y [->|Hy]; [by rewrite Hx|by apply Hall].
  - split; [done|]. split; [done|]. intros Hall. specialize (Hall x). rewrite Hx in Hall. apply Hall. by left.
Qed.

Lemma imp_check_ok imp : imp_check imp ≠ Panic ∧
  (is_Ok (imp_check imp) = true ↔ imp_id imp ≠ "" ∧ no_media imp = false).
Proof.
  unfold imp_check, str_is_empty. case_bool_decide; [split; [done|]; simpl; intuition congruence|].
  destruct (no_media imp); simpl; (split; [done|]); intuition congruence.
Qed.

(** The checks after validation, which already refused a request without impressions. *)
Lemma request_checks_ok req : req_imp req ≠ [] →
  request_checks req ≠ Panic ∧ (is_Ok (request_checks req) = true ↔ well_formed_request req).
Proof.
  intros Hne. unfold request_checks, well_formed_request.
  destruct (req_imp req) as [|imp imps] eqn:Hi; [done|].
  destruct (foldM_check imp_check (imp :: imps)) as [Hp Hok]; [intros; apply imp_check_ok|].
  destruct (match req_tmax req with Some tmax => tmax <? 0 | None => false end) eqn:Ht.
  - split; [done|]. split; [done|]. intros [H _]. destruct (req_tmax req) as [t|]; [|done].
    bools. specialize (H t eq_refl). lia.
  - split; [exact Hp|]. rewrite Hok. split.
    + intros H. split; [|intros x Hx; by apply imp_check_ok, H].
      intros t Ht'. rewrite Ht' in Ht. by bools.
    + intros [_ H] x Hx. by apply imp_check_ok, H.
Qed.

Lemma stored_auction_answer req resp : stored_auction_response req = Some (Ok resp) → stored_auction_answered req resp.
Proof.
  unfold stored_auction_response, stored_auction_answered. intros H.
  destruct (json_path _ _ ≫= as_str) as [id|]; [|done].
  destruct (xc_stored_responses exchange) as [fetch|]; [|done].
  destruct (fetch id) as [json|] eqn:Hf; [|done].
  destruct (response_from_value json) as [e|response] eqn:Hr; [done|]. injection H as <-.
  exists id, fetch, json, response. split_and!; try done; by destruct (str_is_empty _).
Qed.
Lemma stored_never_panics req : stored_auction_response req ≠ Some Panic.
Proof. unfold stored_auction_response. repeat break_match; done. Qed.

(** *** The outcome *)

(** The answer of a run. *)
Definition answer_of (run : outcome string (AuctionResponse * list Task) * S)
    : outcome string AuctionResponse * S :=
  (match run.1 with Ok r => Ok r.1 | Err e => Err e | Panic => Panic end, run.2).
Lemma hold_auction_run arq s : hold_auction_with_timeouts arq s = answer_of (auction_run arq s).
Proof.
  unfold hold_auction_with_timeouts, mbind, M_bind. by destruct (auction_run arq s) as [[[]| |] s'].
Qed.
Lemma auction_run_eq arq s :
  let req := arq_bid_request arq in
  let payload := request_to_value req in
  auction_run arq s =
    if has_fatal_errors (validate_request display_f64 req)
    then (Err ("invalid request: " +:+
           join "; " (validation_error_to_string <$> validate_request display_f64 req)), s)
    else match hook_stage EntrypointRaw payload s with
    | (Some e, s1) => (Err ("request rejected by hook: " +:+ reject_error_to_string e), s1)
    | (None, s1) =>
        match hook_stage RawAuctionRequest payload s1 with
        | (Some e, s2) =>
            (Err ("request rejected by RawAuctionRequest hook: " +:+ reject_error_to_string e), s2)
        | (None, s2) =>
            match stored_auction_response req with
            | Some (Ok response) => (Ok (response, []), s2)
            | Some (Err e) => (Err e, s2)
            | Some Panic => (Panic, s2)
            | None =>
                match request_checks req with
                | Err e => (Err e, s2)
                | Panic => (Panic, s2)
                | Ok _ =>
                    match hook_stage ProcessedAuctionRequest payload s2 with
                    | (Some e, s3) =>
                        (Err ("request rejected by ProcessedAuctionRequest hook: " +:+
                              reject_error_to_string e), s3)
                    | (None, s3) => bidders_and_response arq s3
                    end
                end
            end
        end
    end.
Proof.
  intros req payload. unfold auction_run. destruct (has_fatal_errors _); [done|].
  unfold reject_stage, mbind, M_bind, lift_outcome. subst req payload.
  destruct (hook_stage EntrypointRaw _ s) as [[e|] s1]; [done|].
  destruct (hook_stage RawAuctionRequest _ s1) as [[e|] s2]; [done|].
  destruct (stored_auction_response _) as [[]|]; [done..|]. destruct (request_checks _); [|done..].
  by destruct (hook_stage ProcessedAuctionRequest _ s2) as [[e|] s3].
Qed.
Lemma hold_auction_refused arq s : refused (arq_bid_request arq) →
  ∃ e, hold_auction_with_timeouts arq s = (Err ("invalid request: " +:+ e), s).
Proof.
  intros Hr. rewrite hold_auction_run, auction_run_eq. apply (has_fatal_iff display_f64) in Hr.
  rewrite Hr. by eexists.
Qed.

(** The auction without its hooks. *)
Lemma hold_auction_unhooked arq s : xc_hook_executor exchange = None →
  ¬ refused (arq_bid_request arq) →
  hold_auction_with_timeouts arq s =
    match stored_auction_response (arq_bid_request arq) with
    | Some out => (out, s)
    | None =>
        match request_checks (arq_bid_request arq) with
        | Ok _ => answer_of (bidders_and_response arq s)
        | Err e => (Err e, s)
        | Panic => (Panic, s)
        end
    end.
Proof.
  intros Hx Hr. rewrite hold_auction_run, auction_run_eq.
  rewrite <-(has_fatal_iff display_f64) in Hr. apply not_true_is_false in Hr. rewrite Hr.
  rewrite !hook_stage_none by done. destruct (stored_auction_response _) as [[]|]; [done..|].
  by destruct (request_checks _).
Qed.

Lemma not_refused_imps req : ¬ refused req → req_imp req ≠ [].
Proof. intros Hr Hi. apply Hr. by left. Qed.

Lemma bidders_and_response_ok arq s : ∃ r s', bidders_and_response arq s = (Ok r, s').
Proof.
  unfold bidders_and_response. destruct (run_bidders arq s) as [[tasks st] s'].
  destruct (respond (arq_bid_request arq) st s') as [response s'']. by eexists _, s''.
Qed.

(** *** Fan-out *)

Lemma privacy_result_all req b b' : privacy_result req b = privacy_result req b'.
Proof. reflexivity. Qed.

(** One bidder: the gate blocks it, or it gives at most one task. *)
Lemma spawn_bidder_cases req tasks nbs s b :
  let spawned := spawn_bidder req (extract_privacy_config req) (bidder_imps_of req)
                   (stored_bid_responses req) (tasks, nbs, s) b in
  (privacy_result req b ≠ PrAllow ∧
     spawned = (tasks, match req_imp req with [] => nbs | _ => nbs ++
       [{| snb_nonbid := non_bid (privacy_status (privacy_result req b)) ∘ imp_id <$> req_imp req;
           snb_seat := b; snb_ext := None |}] end, s)) ∨
  privacy_result req b = PrAllow ∧ ∃ new s', spawned = (tasks ++ new, nbs, s') ∧
    ∀ t, t ∈ new → new = [t] ∧ task_name t = b ∧ task_ok req t.
Proof.
  intros spawned. subst spawned. unfold spawn_bidder. fold (privacy_result req b).
  destruct (privacy_result req b) eqn:Hp; try (left; split; [done|by destruct (req_imp req)]).
  right. split; [done|].
  assert (Hnone : ∀ s' : S, ∃ new (s'' : S), (tasks, nbs, s') = (tasks ++ new, nbs, s'') ∧
    ∀ t, t ∈ new → new = [t] ∧ task_name t = b ∧ task_ok req t).
  { intros s'. exists [], s'. split; [by rewrite app_nil_r|]. by intros t ?%elem_of_nil. }
  destruct (default [] (stored_typed_bids <$> stored_bid_responses req !! b)) as [|tb tbs] eqn:Hst.
  - destruct (xc_adapters exchange !! default b (xc_aliases exchange !! b)) as [ad|] eqn:Had;
      [|apply Hnone].
    destruct (hook_stage BidderRequestStage _ s) as [[e|] s']; [apply Hnone|].
    eexists [_], s'. split; [reflexivity|]. by intros t ->%list_elem_of_singleton.
  - eexists [_], s. split; [reflexivity|]. intros t ->%list_elem_of_singleton.
    split_and!; [done..|]. split; [done|]. split; [done|].
    destruct (stored_typed_bids <$> _) as [l|]; by simpl in Hst; subst.
Qed.

Abbreviation spawn_all req names st :=
  (fold_left (spawn_bidder req (extract_privacy_config req) (bidder_imps_of req)
                (stored_bid_responses req)) names st).

Lemma spawn_all_ok req names tasks nbs s :
  ∃ new nbs' s', spawn_all req names (tasks, nbs, s) = (tasks ++ new, nbs', s') ∧
    sublist (task_name <$> new) names ∧ ∀ t, t ∈ new → task_ok req t.
Proof.
  revert tasks nbs s. induction names as [|b names IH]; intros tasks nbs s.
  { exists [], nbs, s. rewrite app_nil_r. split_and!; [done..|]. by intros t ?%elem_of_nil. }
  cbn [fold_left]. destruct (spawn_bidder_cases req tasks nbs s b) as [[_ ->]|(_&new&s'&->&Hnew)].
  - destruct (IH tasks (match req_imp req with [] => nbs | _ => nbs ++
       [{| snb_nonbid := non_bid (privacy_status (privacy_result req b)) ∘ imp_id <$> req_imp req;
           snb_seat := b; snb_ext := None |}] end) s) as (l&n&s'&->&Hl&Hok).
    exists l, n, s'. split_and!; [done|by apply sublist_cons|done].
  - destruct (IH (tasks ++ new) nbs s') as (l&n&s''&->&Hl&Hok). exists (new ++ l), n, s''.
    rewrite app_assoc. split_and!; [done| |].
    + rewrite fmap_app. destruct new as [|t new]; [by apply sublist_cons|].
      destruct (Hnew t) as ([= ->]&<-&_); [by left|]. by apply sublist_skip.
    + intros t [Ht|Ht]%elem_of_app; [by apply Hnew|by apply Hok].
Qed.

Lemma spawn_all_blocked req names tasks nbs s :
  privacy_result req "" ≠ PrAllow → req_imp req ≠ [] →
  spawn_all req names (tasks, nbs, s) =
    (tasks, nbs ++ ((λ b, {|
       snb_nonbid := non_bid (privacy_status (privacy_result req b)) ∘ imp_id <$> req_imp req;
       snb_seat := b; snb_ext := None |}) <$> names), s).
Proof.
  intros Hp Hi. revert nbs. induction names as [|b names IH]; intros nbs.
  { simpl. by rewrite app_nil_r. }
  cbn [fold_left]. destruct (spawn_bidder_cases req tasks nbs s b) as [[_ ->]|[Hall _]].
  - destruct (req_imp req) as [|i imps] eqn:Hreq; [done|]. rewrite IH, <-Hreq, <-app_assoc. done.
  - by destruct Hp.
Qed.

Lemma bidders_nodup {WL : WorldLaws W} req : NoDup (iter_map _ (bidder_imps_of req)).*1.
Proof. rewrite iter_map_perm. apply NoDup_fst_map_to_list. Qed.
Lemma elem_of_bidders {WL : WorldLaws W} req b :
  b ∈ (iter_map _ (bidder_imps_of req)).*1 ↔ is_Some (bidder_imps_of req !! b).
Proof.
  rewrite iter_map_perm, list_elem_of_fmap. split.
  - intros ([k l]&->&Hl%elem_of_map_to_list). eauto.
  - intros [l Hl]. exists (b, l). split; [done|]. by apply elem_of_map_to_list.
Qed.

(** The tasks: at most one for each bidder named by an impression, each let
    through by the gate, the calls with the bidder's own request. *)
Lemma spawn_bidders_ok {WL : WorldLaws W} req s :
  ∃ tasks nbs s', spawn_bidders req s = (tasks, nbs, s') ∧ NoDup (task_name <$> tasks) ∧
    ∀ t, t ∈ tasks → task_ok req t ∧ is_Some (bidder_imps_of req !! task_name t).
Proof.
  destruct (spawn_all_ok req (iter_map _ (bidder_imps_of req)).*1 [] [] s)
    as (tasks&nbs&s'&He&Hsub&Hok).
  exists tasks, nbs, s'. split_and!; [exact He| |].
  - eapply sublist_NoDup; [apply bidders_nodup|exact Hsub].
  - intros t Ht. split; [by apply Hok|]. apply elem_of_bidders.
    eapply elem_of_submseteq; [apply list_elem_of_fmap_2; exact Ht|by apply sublist_submseteq].
Qed.

Lemma spawn_bidders_blocked req s : privacy_result req "" ≠ PrAllow → req_imp req ≠ [] →
  spawn_bidders req s = ([], blocked_non_bids req, s).
Proof.
  intros Hp Hi. unfold spawn_bidders. fold (bidder_imps_of req).
  by rewrite spawn_all_blocked.
Qed.

(** *** Collection *)

Lemma collect_eq req rates limits skipped results s :
  (collect req rates limits skipped results s).1 =
    collect_results iter_map to_uppercase factors_from_value req rates limits skipped results.
Proof.
  unfold collect, collect_results. simpl.
  match goal with |- _ = fold_left _ _ ?st => generalize st as st0 end.
  revert s. induction results as [|r results IH]; intros s st; [done|]. simpl.
  destruct (hook_stage RawBidderResponse _ s) as [o s']. apply IH.
Qed.

(** The seats of the results are those of the bidders that answered. *)
Lemma collect_results_seats req rates limits skipped results :
  sublist (st_bidder_results (collect_results iter_map to_uppercase factors_from_value req rates
    limits skipped results)).*1 (bres_bidder_name <$> results).
Proof.
  induction results as [|r results IH] using rev_ind; [done|].
  unfold collect_results in *. rewrite fold_left_app, fmap_app. simpl.
  set (st := fold_left _ results _) in *. unfold collect_result. cbn [st_bidder_results].
  match goal with |- context [bo_bids ?o] => destruct (bo_bids o) as [|tb tbs] end.
  - by apply sublist_inserts_r.
  - rewrite fmap_app. by apply sublist_app.
Qed.

Lemma task_result_name t : bres_bidder_name (task_result t) = task_name t.
Proof.
  destruct t as [|name ad breq tm]; [done|]. simpl. unfold request_bid.
  repeat break_match; done.
Qed.

(** *** The seat bids *)

Lemma macros_keep values b :
  same_bid (apply_bid_macros values b) b ∧ bid_price (apply_bid_macros values b) = bid_price b.
Proof.
  destruct b. unfold apply_bid_macros, same_bid. simpl.
  repeat (break_match; simpl); split_and!; reflexivity.
Qed.
(** The adjustments change prices only. *)
Lemma adjusted_results_eq req results : ∃ f,
  adjusted_results req results = (λ r : string * list TypedBid, (r.1, f r.1 <$> r.2)) <$> results ∧
  (∀ n tb, same_bid (tb_bid (f n tb)) (tb_bid tb)) ∧
  (json_path ["prebid"; "bidadjustments"] (req_ext req) = None → ∀ n tb, f n tb = tb).
Proof.
  unfold adjusted_results, apply_bid_adjustments.
  assert (Hid : ∃ f, results = (λ r : string * list TypedBid, (r.1, f r.1 <$> r.2)) <$> results ∧
    (∀ n tb, same_bid (tb_bid (f n tb)) (tb_bid tb)) ∧
    (json_path ["prebid"; "bidadjustments"] (req_ext req) = None → ∀ n tb, f n tb = tb)).
  { exists (λ _ tb, tb). split_and!; [|done..]. induction results as [|[n l] rs IH]; [done|].
    csimpl. by rewrite list_fmap_id, <-IH. }
  destruct (json_path _ _) as [v|]; [|exact Hid]. simpl.
  destruct (rules_from_value v ≫= bar_bidders) as [m|]; [|exact Hid].
  exists (λ n tb, match get_or_star m n with Some rules => adjust_typed_bid rules tb | None => tb end).
  split_and!; [| |done].
  - apply list_fmap_ext. intros i [n l] _. simpl. destruct (get_or_star m n); [done|].
    by rewrite list_fmap_id.
  - intros n tb. destruct (get_or_star m n) as [rules|]; [|done]. unfold adjust_typed_bid.
    destruct (get_or_star rules _); [|done]. by destruct tb as [[]].
Qed.

Lemma seat_bid_in req results sb : sb ∈ seat_bids req (adjusted_results req results) →
  ∃ name bids g, (name, bids) ∈ results ∧ sb_seat sb = Some name ∧ sb_bid sb = g <$> bids ∧
    (∀ tb, same_bid (g tb) (tb_bid tb)) ∧
    (json_path ["prebid"; "bidadjustments"] (req_ext req) = None →
       ∀ tb, bid_price (g tb) = tb_price tb).
Proof.
  destruct (adjusted_results_eq req results) as (f&->&Hf&Hnone). unfold seat_bids.
  rewrite <-list_fmap_compose. intros ([name bids]&->&Hin)%list_elem_of_fmap.
  unfold seat_bid_of. cbn [sb_seat sb_bid compose fst snd].
  eexists name, bids, _. split_and!; [done|done|by rewrite <-list_fmap_compose| |].
  - intros tb. cbv beta zeta. cbn [compose fst snd].
    match goal with |- same_bid (apply_bid_macros ?v ?b) _ => destruct (macros_keep v b) as [(H1&H2&H3&H4) _] end.
    destruct (Hf name tb) as (G1&G2&G3&G4). unfold same_bid. by rewrite H1, H2, H3, H4.
  - intros Hj tb. cbv beta zeta. cbn [compose fst snd]. rewrite (proj2 (macros_keep _ _)).
    by rewrite (Hnone Hj).
Qed.

Lemma seats_eq req results :
  sb_seat <$> seat_bids req (adjusted_results req results) = Some <$> results.*1.
Proof.
  destruct (adjusted_results_eq req results) as (f&->&_&_). unfold seat_bids.
  by rewrite <-!list_fmap_compose.
Qed.

(** How an auction that passed its checks ends. *)
Lemma auction_run_ok arq s run s' : auction_run arq s = (Ok run, s') →
  ¬ refused (arq_bid_request arq) ∧
  match stored_auction_response (arq_bid_request arq) with
  | Some stored => stored = Ok run.1 ∧ run.2 = []
  | None => ∃ s0, bidders_and_response arq s0 = (Ok run, s')
  end.
Proof.
  rewrite auction_run_eq. intros Hh.
  destruct (has_fatal_errors _) eqn:Hf; [done|]. split.
  { rewrite <-(has_fatal_iff display_f64). by rewrite Hf. }
  destruct (hook_stage EntrypointRaw _ s) as [[e|] s1]; [done|].
  destruct (hook_stage RawAuctionRequest _ s1) as [[e|] s2]; [done|].
  destruct (stored_auction_response _) as [[resp| |]|]; [by injection Hh as <- <-|done..|].
  destruct (request_checks _); [|done..].
  destruct (hook_stage ProcessedAuctionRequest _ s2) as [[e|] s3]; [done|]. eauto.
Qed.
Lemma hold_auction_answer arq s resp s' : hold_auction_with_timeouts arq s = (Ok resp, s') →
  ∃ tasks, auction_run arq s = (Ok (resp, tasks), s').
Proof.
  rewrite hold_auction_run. destruct (auction_run arq s) as [[[r tasks]|e|] s1]; [|done..].
  intros [= <- <-]. eauto.
Qed.

(** The response, from the collected state. *)
Lemma bidders_and_response_eq arq s resp tasks s' : bidders_and_response arq s = (Ok (resp, tasks), s') →
  let req := arq_bid_request arq in
  ∃ nbs s1, spawn_bidders req s = (tasks, nbs, s1) ∧
    let st := collect_results iter_map to_uppercase factors_from_value req
                (arq_currency_rates arq) (multi_bid_limits multibid_from_value req) nbs
                (join_set (task_result <$> tasks)) in
    arp_bid_response resp = bid_response req st ∧
    arp_seat_non_bids resp = st_collected_non_bids st ∧
    arp_timed_out_bidders resp = st_timed_out_bidders st ∧
    arp_targeting resp =
      cache_targeting req (winners_of (st_bidder_results st))
        (adjusted_results req (st_bidder_results st)) (auction_targeting req (st_bidder_results st)).
Proof.
  intros Hb req. unfold bidders_and_response, run_bidders in Hb. subst req.
  destruct (spawn_bidders _ s) as [[tasks' nbs] s1] eqn:Hs.
  pose proof (λ a b c d e, collect_eq a b c d e s1) as Hc.
  destruct (collect _ _ _ _ _ s1) as [st s2] eqn:Hcol. unfold respond in Hb.
  destruct (hook_stage AllProcessedBidResponses _ s2) as [o s3].
  destruct (hook_stage AuctionResponseStage _ s3) as [o' s4]. injection Hb as <- <- <-.
  exists nbs, s1. split; [done|]. rewrite <-Hc, Hcol. done.
Qed.

(** A bidder may place at least one bid per impression. *)
Lemma multi_bid_limits_pos req :
  map_Forall (λ _ n, 1 ≤ n) (multi_bid_limits multibid_from_value req).
Proof.
  unfold multi_bid_limits.
  assert (H : ∀ entries m, map_Forall (λ _ n, 1 ≤ n) m →
    map_Forall (λ _ n, 1 ≤ n) (fold_left multi_bid_limit_step entries m)).
  { induction entries as [|e entries IH]; intros m Hm; [done|]. simpl. apply IH.
    unfold multi_bid_limit_step. set (mx := Z.max _ 1). assert (1 ≤ mx) by lia.
    assert (Hl : ∀ (l : list string) (m : gmap string Z), map_Forall (λ _ n, 1 ≤ n) m →
      map_Forall (λ _ n, 1 ≤ n) (fold_left (λ limits b, <[ b := mx ]> limits) l m)).
    { induction l as [|b l IHl]; intros m' Hm'; [done|]. simpl. apply IHl.
      by apply map_Forall_insert_2. }
    apply Hl. destruct (mb_bidder e); [by apply map_Forall_insert_2|done]. }
  apply H, map_Forall_empty.
Qed.

(** The checks do not panic. *)
Lemma hold_auction_no_panic arq s : (hold_auction_with_timeouts arq s).1 ≠ Panic.
Proof.
  rewrite hold_auction_run, auction_run_eq. destruct (has_fatal_errors _) eqn:Hf; [done|].
  assert (Hne : req_imp (arq_bid_request arq) ≠ []).
  { apply not_refused_imps. rewrite <-(has_fatal_iff display_f64), Hf. done. }
  destruct (hook_stage EntrypointRaw _ s) as [[e|] s1]; [done|].
  destruct (hook_stage RawAuctionRequest _ s1) as [[e|] s2]; [done|].
  destruct (stored_auction_response _) as [[]|] eqn:Hst; [done..|by destruct (stored_never_panics _ Hst)|].
  destruct (request_checks_ok _ Hne) as [Hp _]. destruct (request_checks _); [|done..].
  destruct (hook_stage ProcessedAuctionRequest _ s2) as [[e|] s3]; [done|].
  by destruct (bidders_and_response_ok arq s3) as (r&s'&->).
Qed.


Lemma auction_run_safe {WL : WorldLaws W} arq s0 resp tasks s' :
  bidders_and_response arq s0 = (Ok (resp, tasks), s') →
  priced_tasks arq → answer_safe arq (arp_bid_response resp).
Proof.
  intros Hb Hnan. unfold answer_safe.
  set (req := arq_bid_request arq). set (limits := multi_bid_limits multibid_from_value req).
  set (r := arp_bid_response resp).
  destruct (bidders_and_response_eq _ _ _ _ _ Hb) as (nbs&s1&Hsp&Hr&_). fold req in Hsp, Hr.
  set (st := collect_results _ _ _ _ _ _ _ _) in Hr.
  destruct (spawn_bidders_ok req s0) as (tasks'&nbs'&s1'&Hsp'&Hnd&Htasks).
  rewrite Hsp in Hsp'. injection Hsp' as <- <- <-.
  assert (Hjoin : ∀ x, x ∈ join_set (task_result <$> tasks) → ∃ t, t ∈ tasks ∧ x = task_result t).
  { intros x Hx. eapply elem_of_submseteq, list_elem_of_fmap in Hx as (t&->&Ht);
      [eauto|apply join_set_sub]. }
  assert (Hseats : (st_bidder_results st).*1 ⊆+ task_name <$> tasks).
  { etrans; [apply sublist_submseteq, collect_results_seats|].
    etrans; [apply fmap_submseteq, join_set_sub|].
    rewrite <-list_fmap_compose. apply Permutation_submseteq, Permutation_refl'.
    apply list_fmap_ext. intros ? t _. apply task_result_name. }
  destruct (collect_results_inv iter_map to_uppercase factors_from_value iter_map_perm req
    (arq_currency_rates arq) limits nbs (join_set (task_result <$> tasks))) as (Hok&_&_).
  { apply multi_bid_limits_pos. }
  { intros x response (t&Ht&->)%Hjoin Hx. rewrite task_result_name.
    apply Hnan; [by apply Htasks|done]. }
  fold st in Hok. subst r. rewrite Hr. unfold bid_response. cbn [resp_id resp_seatbid].
  split; [done|]. split.
  { rewrite seats_eq. apply NoDup_fmap_2; [by intros ?? [=]|].
    apply submseteq_Permutation in Hseats as [k Hk]. rewrite Hk in Hnd.
    by apply NoDup_app in Hnd as [? _]. }
  intros sb (name&bids&g&Hin&Hseat&Hbids&Hg&Hprice)%seat_bid_in. exists name.
  destruct (Hok _ _ Hin) as (Hne&Hids&Hbid&Hlen).
  assert (Hname : name ∈ task_name <$> tasks).
  { eapply elem_of_submseteq; [|exact Hseats]. by apply (list_elem_of_fmap_2 fst _ (name, bids)). }
  apply list_elem_of_fmap in Hname as (t&->&Ht). destruct (Htasks t Ht) as [[Hp Htask] Hdom].
  split_and!; [done..| |by rewrite Hbids; destruct bids| | |].
  - destruct t as [n l|n ad breq tm]; simpl in *.
    + right. destruct Htask as [_ Hst']. destruct (stored_bid_responses req !! n); [eauto|done].
    + left. destruct Htask as [-> _]. eauto.
  - rewrite Hbids, <-list_fmap_compose.
    replace (bid_id ∘ g <$> bids) with (bid_id ∘ tb_bid <$> bids); [done|].
    apply list_fmap_ext. intros ? tb _. simpl. by destruct (Hg tb) as (->&_).
  - intros i. etrans; [|apply (Hlen i)]. rewrite Hbids. clear -Hg.
    induction bids as [|tb bids IH]; [done|]. csimpl. destruct (Hg tb) as (_&->&_).
    unfold tb_impid at 1. destruct (bool_decide _); simpl; lia.
  - intros b Hb'. rewrite Hbids in Hb'. apply list_elem_of_fmap in Hb' as (tb&->&Htb).
    destruct (Hg tb) as (Hi&Hm&Hc&_). destruct (Hbid tb Htb) as (H1&_&H3&_&_&H6&H7).
    rewrite Hi, Hm, Hc. split_and!; [done..|]. intros Hj floor Hfl.
    rewrite (Hprice Hj). by apply H7.
Qed.
Lemma hold_auction_safe {WL : WorldLaws W} arq s resp s' :
  hold_auction_with_timeouts arq s = (Ok resp, s') →
  match stored_auction_response (arq_bid_request arq) with
  | Some _ => stored_auction_answered (arq_bid_request arq) resp
  | None => priced_tasks arq → answer_safe arq (arp_bid_response resp)
  end.
Proof.
  intros (tasks&Hh)%hold_auction_answer. destruct (auction_run_ok _ _ _ _ Hh) as [_ Hst].
  destruct (stored_auction_response _) eqn:Hs.
  - destruct Hst as [-> _]. by apply stored_auction_answer.
  - destruct Hst as [s0 Hb]. by eapply auction_run_safe.
Qed.
(** C1: What an auction answers.  Where the request names a stored auction response
    and a store is configured, the answer is what is stored, as it is stored: its
    seats, no non-bids and no timeouts, under its own id or else the request's.
    Otherwise, if no price is NaN once converted and adjusted: the response carries
    the request's id, and no two seats share a name.  Each seat is a bidder that an
    impression names and the privacy gate lets through, answered from stored bid
    responses or by a configured adapter; it has bids, with distinct ids, no more
    per impression than its limit, each for an impression of the request and with a
    creative id; and where the request adjusts no prices, no bid is below its
    floor. *)
Theorem auction_response_safe {WL : WorldLaws W} arq s resp s' :
  hold_auction_with_timeouts arq s = (Ok resp, s') →
  match stored_auction_response (arq_bid_request arq) with
  | Some _ => stored_auction_answered (arq_bid_request arq) resp
  | None => priced_tasks arq → answer_safe arq (arp_bid_response resp)
  end.
Proof. apply hold_auction_safe. Qed.

Lemma apply_fpd_regs bidder_name req :
  req_regs (apply_fpd_for_bidder site_from_value user_from_value app_from_value geo_to_value
    geo_from_value bidder_name req) = req_regs req.
Proof. unfold apply_fpd_for_bidder. repeat break_match; reflexivity. Qed.
Lemma unsanitized_regs req imps name : req_regs (unsanitized_request req imps name) = req_regs req.
Proof.
  unfold unsanitized_request. rewrite apply_fpd_regs. unfold schain_base_request.
  repeat break_match; reflexivity.
Qed.
Lemma allowed_not_child req name :
  privacy_result req name = PrAllow → req_regs req ≫= regs_coppa ≠ Some 1.
Proof.
  unfold privacy_result, check_privacy_for_bidder. intros Hp Hc.
  change (apc_coppa (extract_privacy_config req)) with (req_regs req ≫= regs_coppa) in Hp.
  by rewrite Hc in Hp.
Qed.
Lemma coppa_sanitiser_idle req imps name : privacy_result req name = PrAllow →
  bidder_request req imps name = unsanitized_request req imps name.
Proof.
  intros Hp%allowed_not_child. unfold bidder_request, sanitize_request_for_coppa.
  rewrite unsanitized_regs. by rewrite bool_decide_eq_false_2.
Qed.

(** Without results there are no seats and no keys. *)
Lemma no_seats req : seat_bids req (adjusted_results req []) = [].
Proof. by destruct (adjusted_results_eq req []) as (f&->&_). Qed.
Lemma no_targeting {WL : WorldLaws W} req :
  cache_targeting req (winners_of []) (adjusted_results req []) (auction_targeting req []) = ∅.
Proof.
  assert (Hiter : iter_map _ (∅ : gmap string Winner) = []).
  { apply Permutation_nil. by rewrite (iter_map_perm (w := W)), map_to_list_empty. }
  assert (Ht : auction_targeting req [] = ∅).
  { unfold auction_targeting, base_targeting, adserver_targeting, category_targeting,
      deal_targeting, winners_of, for_each_bid. simpl. rewrite Hiter.
    repeat break_match; reflexivity. }
  rewrite Ht. unfold cache_targeting, winners_of, for_each_bid. simpl. rewrite Hiter.
  repeat break_match; reflexivity.
Qed.

(** The tasks of a run, whether it blocks or not. *)
Lemma auction_run_tasks {WL : WorldLaws W} arq s resp tasks s' :
  auction_run arq s = (Ok (resp, tasks), s') →
  ∀ t, t ∈ tasks → task_ok (arq_bid_request arq) t.
Proof.
  intros Hh. destruct (auction_run_ok _ _ _ _ Hh) as [_ Hst].
  destruct (stored_auction_response _); cbn in Hst.
  { destruct Hst as [_ ->]. by intros t ?%elem_of_nil. }
  destruct Hst as [s0 (nbs&s1&Hsp&_)%bidders_and_response_eq]. intros t Ht.
  destruct (spawn_bidders_ok (arq_bid_request arq) s0) as (tasks'&nbs'&s2&Hsp'&_&Htasks).
  rewrite Hsp in Hsp'. injection Hsp' as <- <- <-. by apply Htasks.
Qed.
Lemma blocked_run_tasks {WL : WorldLaws W} arq s resp tasks s' :
  auction_run arq s = (Ok (resp, tasks), s') → privacy_result (arq_bid_request arq) "" ≠ PrAllow → tasks = [].
Proof.
  intros Hh Hp. destruct tasks as [|t tasks]; [done|]. destruct Hp.
  destruct (auction_run_tasks _ _ _ _ _ Hh t) as [Ht _]; [by left|]. exact Ht.
Qed.
Lemma stored_run_answer arq s resp tasks s' :
  auction_run arq s = (Ok (resp, tasks), s') → stored_auction_response (arq_bid_request arq) ≠ None →
  stored_auction_answered (arq_bid_request arq) resp ∧ tasks = [].
Proof.
  intros Hh Hst. destruct (auction_run_ok _ _ _ _ Hh) as [_ H].
  destruct (stored_auction_response _) eqn:Hs; [|done]. cbn in H. destruct H as [-> ->].
  split; [by apply stored_auction_answer|done].
Qed.
(** C3: The privacy gate holds for the whole auction.  When it blocks the request,
    the run spawns no task: no adapter is run, nothing is sent and no stored bid is
    used.  The answer is then the stored auction response, where the request names
    one and a store is configured, which is passed on as it is stored; else it has
    no seat, no targeting and no timeout, and reports for every bidder a non-bid on
    every impression, with the gate's code.  Whatever the gate says, every task of a
    run is one the gate let through, and the request a bidder is called with is
    never child-directed, so the sanitiser meant for those leaves it as it is. *)
Theorem privacy_gate_stops_auction {WL : WorldLaws W} arq s resp tasks s' :
  let req := arq_bid_request arq in
  auction_run arq s = (Ok (resp, tasks), s') →
  (privacy_result req "" ≠ PrAllow → tasks = [] ∧
    (stored_auction_response req ≠ None → stored_auction_answered req resp) ∧
    (stored_auction_response req = None →
     resp_seatbid (arp_bid_response resp) = [] ∧ arp_targeting resp = ∅ ∧
     arp_timed_out_bidders resp = [] ∧ arp_seat_non_bids resp = blocked_non_bids req)) ∧
  ∀ t, t ∈ tasks → privacy_result req (task_name t) = PrAllow ∧
    match t with
    | StoredTask _ _ => True
    | CallTask name _ breq _ =>
        req_regs breq ≫= regs_coppa ≠ Some 1 ∧ breq = unsanitized_request req (bidder_imps_of req) name
    end.
Proof.
  intros req Hh. split.
  - intros Hp. split; [by eapply blocked_run_tasks|]. split.
    { intros Hst. by apply (stored_run_answer _ _ _ _ _ Hh). }
    intros Hs. destruct (auction_run_ok _ _ _ _ Hh) as [Hr Hst]. fold req in Hr, Hst. rewrite Hs in Hst.
    destruct Hst as [s0 Hb]. destruct (bidders_and_response_eq _ _ _ _ _ Hb) as (nbs&s1&Hsp&H).
    fold req in Hsp, H. rewrite spawn_bidders_blocked in Hsp by (try done; by apply not_refused_imps).
    injection Hsp as <- <- <-. pose proof (join_set_sub (w := W) []) as Hj. apply submseteq_nil_r in Hj. simpl in H.
    rewrite Hj in H. cbv zeta in H. destruct H as (->&->&->&->).
    split_and!; try reflexivity; [apply no_seats|apply no_targeting].
  - intros t [Hp Hok]%(auction_run_tasks _ _ _ _ _ Hh). split; [done|].
    destruct t as [|name adapted breq timeout_ms]; [done|]. destruct Hok as (_&->&_). simpl in Hp.
    rewrite coppa_sanitiser_idle by done. split; [|done].
    rewrite unsanitized_regs. by eapply allowed_not_child.
Qed.
End Auction.

(** *** The hooks *)

Section Hooked.
Context {X S : Type} `{!StageRunner X S} {W : World}.
Context (exchange : Exchange X) (x : X).
(** The executor never rejects. *)
Context (Hx : xc_hook_executor exchange = Some x)
  (Hquiet : ∀ stage payload s, is_rejectable stage = true →
     is_Ok (run_stage x stage payload s).1 = true).

Lemma hook_stage_quiet stage payload s : ∃ s', hook_stage exchange stage payload s = (None, s').
Proof.
  unfold hook_stage. rewrite Hx. destruct (run_stage_safe x stage payload s) as [_ Hsafe].
  assert (Hok : is_Ok (run_stage x stage payload s).1 = true).
  { destruct (is_rejectable stage) eqn:Hr; [by apply Hquiet|by apply Hsafe]. }
  destruct (run_stage x stage payload s) as [[v|e|] s']; [eauto|done..].
Qed.

Lemma spawn_bidders_quiet req s s0 :
  (spawn_bidders exchange req s).1 = (spawn_bidders (without_hooks exchange) req s0).1.
Proof.
  unfold spawn_bidders.
  change (all_bidder_names (without_hooks exchange)) with (all_bidder_names exchange).
  change (stored_bid_responses (without_hooks exchange) req)
    with (stored_bid_responses exchange req).
  generalize (iter_map _ (split_imps_for_bidders (req_imp req) (all_bidder_names exchange))).*1
    as names. intros names.
  generalize ([] : list Task) as tasks, ([] : list SeatNonBid) as nbs. revert s s0.
  induction names as [|b names IH]; intros s s0 tasks nbs; [done|]. cbn [fold_left].
  unfold spawn_bidder at 2 4.
  destruct (check_privacy_for_bidder _ b); try apply IH.
  destruct (default [] _) as [|tb tbs]; [|apply IH].
  cbn [xc_aliases xc_adapters without_hooks].
  destruct (xc_adapters exchange !! _) as [ad|]; [|apply IH].
  match goal with |- context [hook_stage exchange ?st ?p s] =>
    destruct (hook_stage_quiet st p s) as [s1 ->] end.
  rewrite hook_stage_none by done. apply IH.
Qed.

Lemma bidders_and_response_quiet arq s s0 :
  (bidders_and_response exchange arq s).1 = (bidders_and_response (without_hooks exchange) arq s0).1.
Proof.
  unfold bidders_and_response, run_bidders.
  pose proof (spawn_bidders_quiet (arq_bid_request arq) s s0) as Hsp.
  destruct (spawn_bidders exchange _ s) as [[tasks nbs] s1].
  destruct (spawn_bidders (without_hooks exchange) _ s0) as [[tasks' nbs'] s1'].
  simpl in Hsp. injection Hsp as <- <-.
  match goal with |- context [collect exchange ?a ?b ?c ?d ?e s1] =>
    pose proof (collect_eq exchange a b c d e s1) as H1;
    pose proof (collect_eq (without_hooks exchange) a b c d e s1') as H2 end.
  rewrite <-H2 in H1.
  destruct (collect exchange _ _ _ _ _ s1) as [st s2].
  destruct (collect (without_hooks exchange) _ _ _ _ _ s1') as [st' s2'].
  simpl in H1. subst st'. unfold respond.
  repeat match goal with |- context [hook_stage ?e ?st ?p ?s] =>
    destruct (hook_stage e st p s) as [? ?] end.
  reflexivity.
Qed.

(** C18: Hooks can reject and observe, and change nothing else.  With an executor
    that rejects at no stage, whatever it does to the payloads it is given, the
    auction's outcome is that of the same exchange without hooks: the mutated
    payloads are dropped at all seven stages. *)
Theorem hooks_change_nothing arq s s0 :
  (hold_auction_with_timeouts exchange arq s).1 =
  (hold_auction_with_timeouts (without_hooks exchange) arq s0).1.
Proof.
  rewrite !hold_auction_run, !auction_run_eq.
  destruct (has_fatal_errors _); [done|]. rewrite !(hook_stage_none (without_hooks exchange)) by done.
  destruct (hook_stage_quiet EntrypointRaw (request_to_value (arq_bid_request arq)) s) as [s1 ->].
  destruct (hook_stage_quiet RawAuctionRequest (request_to_value (arq_bid_request arq)) s1)
    as [s2 ->].
  change (stored_auction_response (without_hooks exchange) (arq_bid_request arq))
    with (stored_auction_response exchange (arq_bid_request arq)).
  destruct (stored_auction_response _ _) as [[]|]; [done..|].
  destruct (request_checks _); [|done..].
  destruct (hook_stage_quiet ProcessedAuctionRequest (request_to_value (arq_bid_request arq)) s2)
    as [s3 ->].
  unfold answer_of. cbn [fst]. by rewrite (bidders_and_response_quiet arq s3 s0).
Qed.
End Hooked.

(** *** Witnesses *)

#[local] Existing Instance sample_world.
Lemma sample_laws : WorldLaws sample_world.
Proof. split; done. Qed.

Lemma sample_auction_ok coppa : coppa = 0 ∨ coppa = 1 → ∃ resp s',
  hold_auction_with_timeouts sample_exchange (sample_auction coppa) tt = (Ok resp, s').
Proof.
  intros Hc.
  assert (H : is_Ok (hold_auction_with_timeouts sample_exchange (sample_auction coppa) tt).1 = true)
    by by destruct Hc as [->| ->]; vm_compute.
  destruct (hold_auction_with_timeouts _ _ _) as [[resp|e|] s']; [eauto|done..].
Qed.

Lemma auction_response_safe_witness : ∃ resp s',
  hold_auction_with_timeouts sample_exchange (sample_auction 0) tt = (Ok resp, s') ∧
  ∀ sb, sb ∈ resp_seatbid (arp_bid_response resp) → NoDup (bid_id <$> sb_bid sb).
Proof.
  destruct (sample_auction_ok 0) as (resp&s'&Hh); [by left|]. exists resp, s'.
  split; [exact Hh|].
  pose proof (auction_response_safe (WL := sample_laws) sample_exchange (sample_auction 0) tt resp s' Hh)
    as Hsafe.
  change (priced_tasks sample_exchange (sample_auction 0) →
    answer_safe sample_exchange (sample_auction 0) (arp_bid_response resp)) in Hsafe.
  destruct Hsafe as (_&_&Hsb).
  - intros [name bids|name ad breq tm] response [_ Hok] Hr.
    + destruct Hok as [Hne Hs]. by vm_compute in Hs.
    + destruct Hok as (Had&->&->). revert Had. cbn [xc_adapters sample_exchange].
      intros [He <-]%lookup_singleton_Some.
      change ("appnexus" = name) in He. subst name. vm_compute in Hr. injection Hr as <-.
      by repeat constructor.
  - intros sb Hin. destruct (Hsb sb Hin) as (?&?&?&?&?&?&Hnd&?). exact Hnd.
Defined.

Lemma privacy_gate_stops_auction_witness : ∃ resp s',
  auction_run sample_exchange (sample_auction 1) tt = (Ok (resp, []), s') ∧
  arp_seat_non_bids resp =
    [{| snb_nonbid := [non_bid 52 "imp-1"]; snb_seat := "appnexus"; snb_ext := None |}].
Proof.
  destruct (sample_auction_ok 1) as (resp&s'&Hh); [by right|].
  apply hold_auction_answer in Hh as [tasks Hh].
  destruct (privacy_gate_stops_auction (WL := sample_laws) sample_exchange (sample_auction 1) tt
    resp tasks s' Hh) as [Hblock _].
  destruct Hblock as (->&_&Hnb); [by vm_compute|]. exists resp, s'. split; [exact Hh|].
  destruct Hnb as (_&_&_&->); [reflexivity|]. by vm_compute.
Defined.

Lemma hooks_change_nothing_witness :
  (hold_auction_with_timeouts sample_exchange (sample_auction 0) tt).1 =
  (hold_auction_with_timeouts (without_hooks sample_exchange) (sample_auction 0) tt).1.
Proof. by apply (hooks_change_nothing sample_exchange true). Defined.
