(* ===== verification/Endpoints.v ===== *)
(** * HTTP endpoints

    endpoints/src/lib.rs: the handlers of the auction (POST and GET), video and
    AMP endpoints, which prepare a request, hold the auction of [Auction] and
    answer with its result; opting out; events and VAST tracking; and the
    read-only endpoints.  A handler takes what axum extracted from the request
    and gives a [Response]; it runs in the state of the auction's hooks, and
    [Panic] is a panic in the handler.  serde's conversions and the text of an
    error are parameters; metrics and logging are left out. *)

From S2P Require Import Prelude Json IpUtil Text OpenRtb Validation ExchangePrivacy PriceBucket Currency.
From S2P Require Import AuctionTargeting UserSync Auction SyncEndpoints StoredFetchers Interstitial VastEvents.

(** ** State *)

(** Of an account: [privacy.gdpr.enabled] and [auction_timeout_ms]. *)
Record EpAccount : Type := {
  eac_gdpr_enabled : option bool; eac_auction_timeout_ms : option Z;
}.
(** The fields of [AppStateInner] these handlers read. *)
Record EpState (X : Type) : Type := {
  eps_exchange : Exchange X; eps_version : string; eps_revision : string;
  eps_bidder_info : gmap string Value; eps_bidder_params : gmap string Value;
  eps_host_cookie : HostCookieConfig; eps_status_response : option string;
  eps_stored_requests : StoredRequestFetcher; eps_max_request_size : Z;
  eps_accounts : gmap string EpAccount; eps_currency_converter : option CurrencyConverter;
}.
Arguments eps_exchange {X} _.
Arguments eps_version {X} _.
Arguments eps_revision {X} _.
Arguments eps_bidder_info {X} _.
Arguments eps_bidder_params {X} _.
Arguments eps_host_cookie {X} _.
Arguments eps_status_response {X} _.
Arguments eps_stored_requests {X} _.
Arguments eps_max_request_size {X} _.
Arguments eps_accounts {X} _.
Arguments eps_currency_converter {X} _.

(** serde's conversions of impressions and requests. *)
Class EndpointWorld : Type := {
  imp_to_value : Imp → option Value;
  imp_from_value : Value → option Imp;
  request_from_value : Value → string + BidRequest;
}.

(** ** Helpers on JSON *)

(** [s.filter(|s| !s.is_empty())] *)
Definition non_empty_opt (s : option string) : option string :=
  match s with Some s => if str_is_empty s then None else Some s | None => None end.

(** ** The auction *)

Definition validate_bid_request (display_f64 : f64 → string) (req : BidRequest)
    : outcome string unit :=
  if str_is_empty (req_id req) then Err "request missing required field: request.id"
  else
    let errors := validate_request display_f64 req in
    if existsb (λ e, match e with NoImps | BothSiteAndApp => true | _ => false end) errors
    then Err (join "; " (validation_error_to_string <$> errors)) else Ok tt.

Section Stored.
Context {EW : EndpointWorld}.

Definition stored_imp_id (imp : Imp) : option string :=
  json_path ["prebid"; "storedrequest"; "id"] (imp_ext imp) ≫= as_str.
Definition resolve_imp (stored_requests : StoredRequestFetcher) (imp : Imp) : Imp :=
  match stored_imp_id imp ≫= λ id, fetch_imp id stored_requests with
  | Some stored_imp_json =>
      match imp_to_value imp with
      | Some imp_value =>
          default imp (imp_from_value (merge_request_fragment stored_imp_json imp_value))
      | None => imp
      end
  | None => imp
  end.
Definition resolve_imp_stored_requests (stored_requests : StoredRequestFetcher) (req : BidRequest)
    : BidRequest :=
  set_req_imp (resolve_imp stored_requests <$> req_imp req) req.
End Stored.

Section Accounts.
Context {X : Type} (state : EpState X).

Definition account_of (req : BidRequest) : option EpAccount :=
  site ← req_site req; publisher ← site_publisher site; id ← pub_id publisher;
  eps_accounts state !! id.
(** The account asks for a consent string and the request has none. *)
Definition account_blocks (req : BidRequest) : bool :=
  match account_of req with
  | Some acct =>
      bool_decide (eac_gdpr_enabled acct = Some true) &&
      match json_path ["consent"] (req_user req ≫= user_ext) ≫= as_str with
      | Some s => str_is_empty s
      | None => true
      end
  | None => false
  end.
Definition apply_account_tmax (req : BidRequest) : BidRequest :=
  match account_of req ≫= eac_auction_timeout_ms with
  | Some tmax => set_req_tmax (Some (i64 tmax)) req
  | None => req
  end.
Definition request_too_large (content_length : option string) : option Z :=
  if 0 <? eps_max_request_size state then
    length ← content_length ≫= parse_int 0 usize_max;
    if eps_max_request_size state <? length then Some length else None
  else None.
End Accounts.

Section Handlers.
Context {X S : Type} `{!StageRunner X S} {W : World} {EW : EndpointWorld}.
Context (state : EpState X).

Definition Handler : Type := M S Empty_set Response.
Definition answer (r : Response) : Handler := mret r.
Definition response_json (r : BidResponse) : Response := json_response 200 (response_to_value r).
Definition auction_request (req : BidRequest) : AuctionRequest := {|
  arq_bid_request := req; arq_currency_rates := None |}.
(** Holds the auction; both its ends give an answer. *)
Definition hold_auction (req : BidRequest) (ok : AuctionResponse → Response)
    (err : string → Response) : Handler := λ s,
  match hold_auction_with_timeouts (eps_exchange state) (auction_request req) s with
  | (Ok r, s') => (Ok (ok r), s')
  | (Err e, s') => (Ok (err e), s')
  | (Panic, s') => (Panic, s')
  end.

(** The stored response that answers at once, given the request's id where it
    has none. *)
Definition stored_answer (req : BidRequest) : option BidResponse :=
  id ← json_path ["prebid"; "storedauctionresponse"; "id"] (req_ext req) ≫= as_str;
  stored ← fetch_stored_response response_from_value id (eps_stored_requests state);
  Some (if str_is_empty (resp_id stored) then set_resp_id (req_id req) stored else stored).
Definition prepare_request (req : BidRequest) : BidRequest :=
  ep_process_interstitials
    (resolve_imp_stored_requests (eps_stored_requests state) (apply_account_tmax state req)).
Definition auction_handler (content_length : option string) (req : BidRequest) : Handler :=
  match request_too_large state content_length with
  | Some length =>
      answer (text_response 400 ("request size " +:+ pretty length +:+ " exceeded max size of " +:+
                                 pretty (eps_max_request_size state) +:+ " bytes"))
  | None =>
      match validate_bid_request display_f64 req with
      | Err msg => answer (text_response 400 msg)
      | Panic => λ s, (Panic, s)
      | Ok _ =>
          if account_blocks state req
          then answer (response_json (set_resp_id (req_id req) default_resp))
          else
            match stored_answer req with
            | Some r => answer (response_json r)
            | None => hold_auction (prepare_request req) (λ r, response_json (arp_bid_response r))
                        (text_response 500)
            end
      end
  end.
(** The same by GET, with the request in a query parameter. *)
Definition auction_get_handler (from_str : string → string + BidRequest)
    (params : gmap string string) : Handler :=
  match params !! "request" with
  | None => answer (text_response 400 "missing request parameter")
  | Some body =>
      match from_str body with
      | inl e => answer (text_response 400 ("invalid request JSON: " +:+ e))
      | inr req =>
          match validate_bid_request display_f64 req with
          | Err msg => answer (text_response 400 msg)
          | Panic => λ s, (Panic, s)
          | Ok _ =>
              if account_blocks state req
              then answer (response_json (set_resp_id (req_id req) default_resp))
              else hold_auction
                     (resolve_imp_stored_requests (eps_stored_requests state)
                        (apply_account_tmax state req))
                     (λ r, response_json (arp_bid_response r)) (text_response 500)
          end
      end
  end.

(** ** Video *)

(** The stored request's impressions that the request lacks are appended, and its
    site and app stand in for missing ones. *)
Definition merge_stored_video (req stored_req : BidRequest) : BidRequest :=
  let existing_imp_ids := imp_id <$> req_imp req in
  let req := set_req_imp (req_imp req ++
    List.filter (λ imp, negb (bool_decide (imp_id imp ∈ existing_imp_ids))) (req_imp stored_req)) req in
  let req := match req_site req with None => set_req_site (req_site stored_req) req | _ => req end in
  match req_app req with None => set_req_app (req_app stored_req) req | _ => req end.
(** [imp.retain(|imp| seen_ids.insert(imp.id.clone()))] *)
Fixpoint retain_first (seen_ids : gset string) (imps : list Imp) : list Imp :=
  match imps with
  | [] => []
  | imp :: imps' =>
      if bool_decide (imp_id imp ∈ seen_ids) then retain_first seen_ids imps'
      else imp :: retain_first ({[ imp_id imp ]} ∪ seen_ids) imps'
  end.
Definition video_request (req : BidRequest) : BidRequest :=
  let stored_req :=
    id ← json_path ["prebid"; "storedrequest"; "id"] (req_ext req) ≫= as_str;
    stored ← fetcher_get id (eps_stored_requests state);
    match request_from_value stored with inr r => Some r | inl _ => None end in
  let req := match stored_req with Some r => merge_stored_video req r | None => req end in
  set_req_imp (retain_first ∅ (req_imp req)) req.
Definition cat_dur (bid : Bid) : string :=
  let category := default "unknown" (bid_cat bid ≫= head) in
  let duration := default 0 (json_path ["prebid"; "video"; "duration"] (bid_ext bid) ≫= as_i64) in
  format_f64 2 (bid_price bid) +:+ "_" +:+ category +:+ "_" +:+ pretty duration +:+ "s".
Definition inject_cat_dur (bid : Bid) : Bid :=
  let ext := default (VObject []) (bid_ext bid) in
  set_bid_ext (Some (with_entry "prebid" (with_entry "targeting"
    (insert_entry "hb_pb_cat_dur" (VString (cat_dur bid)))) ext)) bid.
Definition inject_adpod_targeting (r : BidResponse) : BidResponse :=
  set_resp_seatbid ((λ sb, set_sb_bid (inject_cat_dur <$> sb_bid sb) sb) <$> resp_seatbid r) r.
Definition video_auction_handler (req : BidRequest) : Handler :=
  let req := video_request req in
  match validate_bid_request display_f64 req with
  | Err msg => answer (text_response 400 msg)
  | Panic => λ s, (Panic, s)
  | Ok _ => hold_auction req (λ r, response_json (inject_adpod_targeting (arp_bid_response r)))
              (text_response 500)
  end.

(** ** AMP *)

Record AmpParams : Type := {
  amp_tag_id : option string; amp_w : option Z; amp_h : option Z; amp_ms : option string;
  amp_curl : option string; amp_slot : option string; amp_targeting : option string;
  amp_account : option string; amp_gdpr_applies : option bool; amp_gdpr_consent : option string;
  amp_us_privacy : option string; amp_consent_type : option Z;
}.
Definition amp_error (status code : Z) (message : string) : Response :=
  json_response status (object [
    ("targeting", VObject []);
    ("errors", object [("prebid", VArray [object [("code", number code); ("message", VString message)]])])]).

(** The first impression, changed in place. *)
Definition on_first_imp (f : Imp → Imp) (req : BidRequest) : BidRequest :=
  match req_imp req with imp :: imps => set_req_imp (f imp :: imps) req | [] => req end.
Definition on_banner (f : Banner → Banner) (imp : Imp) : Imp :=
  set_imp_banner (Some (f (default default_ban (imp_banner imp)))) imp.
Definition amp_page (params : AmpParams) (req : BidRequest) : BidRequest :=
  match non_empty_opt (amp_curl params) with
  | Some curl =>
      let site := default default_site (req_site req) in
      set_req_site (Some (match site_page site with
                          | None => set_site_page (Some curl) site
                          | Some _ => site
                          end)) req
  | None => req
  end.
Definition amp_size (params : AmpParams) (req : BidRequest) : BidRequest :=
  match amp_w params, amp_h params with
  | None, None => req
  | w, h =>
      on_first_imp (on_banner (λ banner,
        let banner := match w with Some w => set_ban_w (Some w) banner | None => banner end in
        match h with Some h => set_ban_h (Some h) banner | None => banner end)) req
  end.
Definition parse_size (size_str : string) : option Format :=
  '(w_str, h_str) ← split_once (ch "x") (trim size_str);
  w ← parse_int (- 2 ^ 31) (2 ^ 31 - 1) (trim w_str);
  h ← parse_int (- 2 ^ 31) (2 ^ 31 - 1) (trim h_str);
  if (0 <? w) && (0 <? h) then Some (size_format w h) else None.
Definition amp_multi_size (params : AmpParams) (req : BidRequest) : BidRequest :=
  match non_empty_opt (amp_ms params) with
  | Some ms =>
      match omap parse_size (split_char (ch ",") ms) with
      | [] => req
      | formats => on_first_imp (on_banner (set_ban_format (Some formats))) req
      end
  | None => req
  end.
Definition amp_slot_tag (params : AmpParams) (req : BidRequest) : BidRequest :=
  match non_empty_opt (amp_slot params) with
  | Some slot =>
      on_first_imp (λ imp, match imp_tagid imp with
                           | None => set_imp_tagid (Some slot) imp
                           | Some _ => imp
                           end) req
  | None => req
  end.
(** [ext.get(key).is_none()], then [ext[key] = x]. *)
Definition set_missing {E} (key : string) (x : Value) (ext : option Value) : outcome E Value :=
  let ext := default (VObject []) ext in
  match get key ext with None => index_set key x ext | Some _ => Ok ext end.
Definition amp_consent {E} (params : AmpParams) (req : BidRequest) : outcome E BidRequest :=
  match non_empty_opt (amp_gdpr_consent params) with
  | Some consent =>
      let user := default default_user (req_user req) in
      ext ← set_missing "consent" (VString consent) (user_ext user);
      Ok (set_req_user (Some (set_user_ext (Some ext) user)) req)
  | None => Ok req
  end.
Definition amp_gdpr {E} (params : AmpParams) (req : BidRequest) : outcome E BidRequest :=
  match amp_gdpr_applies params with
  | Some gdpr =>
      let regs := default default_regs (req_regs req) in
      ext ← set_missing "gdpr" (number (if gdpr then 1 else 0)) (regs_ext regs);
      Ok (set_req_regs (Some (set_regs_ext (Some ext) regs)) req)
  | None => Ok req
  end.
Definition amp_usp (params : AmpParams) (req : BidRequest) : BidRequest :=
  match non_empty_opt (amp_us_privacy params) with
  | Some usp =>
      let regs := default default_regs (req_regs req) in
      set_req_regs (Some (match regs_us_privacy regs with
                          | None => set_regs_us_privacy (Some usp) regs
                          | Some _ => regs
                          end)) req
  | None => req
  end.
Definition amp_publisher (params : AmpParams) (req : BidRequest) : BidRequest :=
  match non_empty_opt (amp_account params) with
  | Some account =>
      let site := default default_site (req_site req) in
      let publisher := default default_pub (site_publisher site) in
      set_req_site (Some (set_site_publisher (Some (match pub_id publisher with
                                                    | None => set_pub_id (Some account) publisher
                                                    | Some _ => publisher
                                                    end)) site)) req
  | None => req
  end.
(** The stored request with the query parameters applied. *)
Definition amp_overrides {E} (params : AmpParams) (req : BidRequest) : outcome E BidRequest :=
  let req := amp_multi_size params (amp_size params (amp_page params req)) in
  let req := amp_slot_tag params (ep_process_interstitials req) in
  req ← amp_consent params req;
  req ← amp_gdpr params req;
  Ok (amp_publisher params (amp_usp params req)).
(** The keys of all impressions in one map: the first to give a key counts. *)
Definition flat_targeting (targeting : Targeting) : gmap string string :=
  fold_left (λ flat e, flat ∪ e.2) (iter_map _ targeting) ∅.
Definition amp_request (tag_id : string) (stored : BidRequest) : BidRequest :=
  let req := if str_is_empty (req_id stored)
             then set_req_id tag_id stored else stored in
  resolve_imp_stored_requests (eps_stored_requests state) req.
Definition amp_handler (params : AmpParams) : Handler :=
  match non_empty_opt (amp_tag_id params) with
  | None => answer (text_response 400 "AMP request missing required tag_id query parameter")
  | Some tag_id =>
      match fetcher_get tag_id (eps_stored_requests state) with
      | None => answer (amp_error 400 2 ("stored request not found for tag_id: " +:+ tag_id))
      | Some stored_json =>
          match request_from_value stored_json with
          | inl e => answer (amp_error 400 3 ("stored request for tag_id '" +:+ tag_id +:+
                                              "' is not a valid BidRequest: " +:+ e))
          | inr stored =>
              req ← (λ s, (amp_overrides params (amp_request tag_id stored), s));
              hold_auction req
                (λ r, json_response 200 (object [
                   ("targeting", map_to_object VString (flat_targeting (arp_targeting r)))]))
                (λ e, amp_error 500 999 ("auction error: " +:+ e))
          end
      end
  end.

(** ** Read-only endpoints *)

Definition status_handler : Response :=
  match eps_status_response state with
  | Some custom => text_response 200 custom
  | None => json_response 200 (object [("ok", VString "ok")])
  end.
Definition version_handler : Response :=
  json_response 200 (object [("revision", VString (eps_revision state));
                             ("version", VString (eps_version state))]).
Definition health_handler : Response :=
  json_response 200 (object [("status", VString "UP"); ("checks", VArray [])]).
Definition readiness_handler : Response :=
  if bool_decide (size (xc_adapters (eps_exchange state)) = 0%nat)
  then text_response 503 "no adapters"
  else json_response 200 (object [("status", VString "READY")]).
Definition bidder_enabled (name : string) : bool :=
  default true (json_path ["enabled"] (eps_bidder_info state !! name) ≫= as_bool).
Definition info_bidders_handler (enabled_only : option bool) : Response :=
  let names := sort_strings (iter_map _ (eps_bidder_info state)).*1 in
  let names := if default false enabled_only then List.filter bidder_enabled names else names in
  json_response 200 (VArray (VString <$> names)).
Definition info_bidder_detail_handler (bidder_name : string) : Response :=
  match eps_bidder_info state !! bidder_name with
  | Some info => json_response 200 info
  | None => text_response 404 ("bidder " +:+ bidder_name +:+ " not found")
  end.
Definition bidder_params_handler : Response :=
  json_response 200 (object [
    ("$schema", VString "http://json-schema.org/draft-04/schema#"); ("title", VString "Bidder Params");
    ("description", VString "Per-bidder OpenRTB extension parameter schemas");
    ("oneOf", VArray (iter_map _ (eps_bidder_params state)).*2)]).
Definition currency_rates_handler : Response :=
  json_response 200 (object (
    match eps_currency_converter state with
    | Some converter =>
        [("active", VBool true)] ++ optional "source" (VString <$> cc_source converter) ++
        optional "lastUpdated" (number <$> cc_last_updated converter) ++
        [("rates", map_to_object (map_to_object (λ r, VNumber (Float r))) (cc_rates converter))]
    | None => [("active", VBool false)]
    end)).
End Handlers.

(** ** Events *)

Record EventParams : Type := {
  evp_event_type : option string; evp_bid_id : option string; evp_account_id : option string;
  evp_bidder : option string; evp_format : option string; evp_timestamp : option Z;
  evp_analytics : option string;
}.
(** What [Query<EventParams>] reads from a query; axum refuses a [ts] that is no
    number before the handler runs. *)
Definition read_event_params (params : gmap string string) : option EventParams :=
  let with_timestamp ts := {|
    evp_event_type := params !! "t"; evp_bid_id := params !! "b"; evp_account_id := params !! "a";
    evp_bidder := params !! "bidder"; evp_format := params !! "f"; evp_timestamp := ts;
    evp_analytics := params !! "analytics" |} in
  match params !! "ts" with
  | None => Some (with_timestamp None)
  | Some text => with_timestamp ∘ Some <$> parse_int (- 2 ^ 63) (2 ^ 63 - 1) text
  end.
Definition event_validate (p : EventParams) : outcome string unit :=
  _ ← match non_empty_opt (evp_event_type p) with
      | None => Err "parameter 't' is required"
      | Some t => if negb (bool_decide (t = "win")) && negb (bool_decide (t = "imp"))
                  then Err ("unknown type: '" +:+ t +:+ "'") else Ok tt
      end;
  match non_empty_opt (evp_bid_id p) with
  | None => Err "parameter 'b' is required"
  | Some _ =>
      match non_empty_opt (evp_account_id p) with
      | None => Err "parameter 'a' is required"
      | Some _ => Ok tt
      end
  end.
Definition event_handler (p : EventParams) : Response :=
  match event_validate p with
  | Err msg => text_response 400 ("invalid request: " +:+ msg)
  | _ => {| rp_status := 200;
            rp_body := if bool_decide (evp_format p = Some "i") then PixelBody else EmptyBody;
            rp_set_cookie := None; rp_location := None |}
  end.

Definition CLOSE_TAG : string := "</Impression>".
Definition OPEN_TAG : string := "<Impression>".
(** [ci - oi] wraps in a release build, so it differs from the tag's length where
    the closing tag comes first. *)
Definition modify_vast_xml (vast tracking_url : string) : string :=
  match str_find CLOSE_TAG vast with
  | None => vast
  | Some ci =>
      let cdata := "<![CDATA[" +:+ tracking_url +:+ "]]>" in
      let injection := CLOSE_TAG +:+ OPEN_TAG +:+ cdata +:+ CLOSE_TAG in
      match str_find OPEN_TAG vast with
      | Some oi =>
          if usize (Z.of_nat ci - Z.of_nat oi) =? str_len OPEN_TAG
          then replace_first OPEN_TAG (OPEN_TAG +:+ cdata) vast
          else replace_first CLOSE_TAG injection vast
      | None => replace_first CLOSE_TAG injection vast
      end
  end.
Definition build_vast_tracking_url (params : gmap string string) : string :=
  let param key := default "" (params !! key) in
  "/event?t=imp&b=" +:+ param "b" +:+ "&a=" +:+ param "a" +:+
  (if str_is_empty (param "bidder") then "" else "&bidder=" +:+ param "bidder") +:+
  (if str_is_empty (param "ts") then "" else "&ts=" +:+ param "ts").
(** [str::from_utf8] is a parameter. *)
Definition vtrack_handler (from_utf8 : string → option string) (params : gmap string string)
    (body : string) : Response :=
  match from_utf8 body with
  | None => text_response 200 body
  | Some vast_str =>
      match str_find "<VAST" vast_str with
      | None => text_response 200 body
      | Some _ => text_response 200 (modify_vast_xml vast_str (build_vast_tracking_url params))
      end
  end.

(** ** Opting out *)

Section OptOut.
Context (std_encode : string → string) (std_decode : string → option string).
Context (cookie_to_json : UserSyncCookie → option string).
Context (cookie_from_json : string → option UserSyncCookie).
Context (header_value_ok : string → bool) (host : HostCookieConfig).

Definition opt_cookie (is_opt_out : bool) (c : UserSyncCookie) : UserSyncCookie := {|
  usk_uids := if is_opt_out then ∅ else usk_uids c; usk_optout := Some is_opt_out |}.
Definition optout_handler (cookie_hdr optout : option string) : Response :=
  let cookie := from_request std_decode cookie_from_json cookie_hdr (hcc_cookie_name host) in
  let is_opt_out := match optout with Some v => negb (str_is_empty v) | None => false end in
  let set_cookie_value := build_set_cookie_header std_encode cookie_to_json (hcc_cookie_name host)
                            (hcc_ttl_days host) (hcc_domain host) (opt_cookie is_opt_out cookie) in
  let redirect_url := if is_opt_out then hcc_opt_out_url host else hcc_opt_in_url host in
  let set_cookie := if header_value_ok set_cookie_value then Some set_cookie_value else None in
  if str_is_empty redirect_url
  then {| rp_status := 200; rp_body := TextBody "opt-out preference saved";
          rp_set_cookie := set_cookie; rp_location := None |}
  else {| rp_status := 308; rp_body := EmptyBody; rp_set_cookie := set_cookie;
          rp_location := Some redirect_url |}.
End OptOut.

(** ** Specification *)

(** What the code relies on of serde: an impression's object has its id, which is
    read back from it. *)
Class EndpointLaws (EW : EndpointWorld) : Prop := {
  imp_value_id imp v : imp_to_value imp = Some v →
    ∃ m, v = VObject m ∧ obj_sorted m ∧ obj_get "id" m = Some (VString (imp_id imp));
  imp_from_value_id v imp s : imp_from_value v = Some imp → get "id" v = Some (VString s) →
    imp_id imp = s;
}.
(** The request the auction is held for asks for nothing the original does not:
    the same impressions by id, the same privacy signals, the same extension. *)
Definition same_auction (req req' : BidRequest) : Prop :=
  req_id req' = req_id req ∧ imp_id <$> req_imp req' = imp_id <$> req_imp req ∧
  req_ext req' = req_ext req ∧ (∀ name, privacy_result req' name = privacy_result req name).
(** An answer to [req]: bids of allowed bidders for impressions of the request. *)
Definition answers (req : BidRequest) (r : BidResponse) : Prop :=
  resp_id r = req_id req ∧
  (∀ sb, sb ∈ resp_seatbid r → ∃ name, sb_seat sb = Some name ∧ privacy_result req name = PrAllow ∧
     ∀ b, b ∈ sb_bid sb → bid_impid b ∈ (imp_id <$> req_imp req)) ∧
  (privacy_result req "" ≠ PrAllow → resp_seatbid r = []).
(** What a query parameter of AMP may change of the stored request. *)
Definition amp_keeps (req req' : BidRequest) : Prop :=
  req_id req' = req_id req ∧ imp_id <$> req_imp req' = imp_id <$> req_imp req ∧
  req_app req' = req_app req ∧ req_device req' = req_device req ∧ req_ext req' = req_ext req ∧
  (∀ site, req_site req = Some site → ∃ site', req_site req' = Some site' ∧
     (is_Some (site_page site) → site_page site' = site_page site) ∧
     (∀ p, site_publisher site = Some p → is_Some (pub_id p) → site_publisher site' = Some p)) ∧
  (∀ user v, req_user req = Some user → json_path ["consent"] (user_ext user) = Some v →
     ∃ user', req_user req' = Some user' ∧ json_path ["consent"] (user_ext user') = Some v) ∧
  (∀ regs, req_regs req = Some regs → ∃ regs', req_regs req' = Some regs' ∧
     (∀ v, json_path ["gdpr"] (regs_ext regs) = Some v →
        json_path ["gdpr"] (regs_ext regs') = Some v) ∧
     (is_Some (regs_us_privacy regs) → regs_us_privacy regs' = regs_us_privacy regs)).
(** The consent or the GDPR flag would be written into something other than an
    object. *)
Definition amp_cannot_write (params : AmpParams) (req : BidRequest) : Prop :=
  let bad ext := is_object (default (VObject []) ext) = false ∧ is_null (default (VObject []) ext) = false in
  (is_Some (non_empty_opt (amp_gdpr_consent params)) ∧ bad (req_user req ≫= user_ext)) ∨
  (is_Some (amp_gdpr_applies params) ∧ bad (req_regs req ≫= regs_ext)).

(** The sample auction of [Auction] behind an endpoint. *)
Definition sample_endpoint_world : EndpointWorld := {|
  imp_to_value imp := Some (VObject [("id", VString (imp_id imp))]);
  imp_from_value v := match get "id" v ≫= as_str with
                      | Some s => Some (set_imp_id s default_imp)
                      | None => None
                      end;
  request_from_value _ := inl "" |}.
Definition sample_host_cookie : HostCookieConfig := {|
  hcc_cookie_name := ""; hcc_family := ""; hcc_domain := ""; hcc_opt_out_url := "";
  hcc_opt_in_url := ""; hcc_ttl_days := 0 |}.
Definition sample_endpoint_state : EpState bool := {|
  eps_exchange := sample_exchange; eps_version := ""; eps_revision := ""; eps_bidder_info := ∅;
  eps_bidder_params := ∅; eps_host_cookie := sample_host_cookie; eps_status_response := None;
  eps_stored_requests := empty_fetcher; eps_max_request_size := 1000;
  eps_accounts := {[ "acc" := {| eac_gdpr_enabled := Some true; eac_auction_timeout_ms := Some 50 |} ]};
  eps_currency_converter := None |}.
Definition sample_endpoint_request : BidRequest :=
  set_req_id "req-1" (arq_bid_request (sample_auction 0)).

(** ** Proofs *)

(** *** Preparing the request *)

Section Prepare.
Context {EW : EndpointWorld} {EL : EndpointLaws EW}.

Lemma resolve_imp_id fetcher imp : imp_id (resolve_imp fetcher imp) = imp_id imp.
Proof.
  unfold resolve_imp. destruct (stored_imp_id imp ≫= _) as [stored|]; [|done].
  destruct (imp_to_value imp) as [v|] eqn:Hv; [|done].
  destruct (imp_value_id _ _ Hv) as (m & -> & Hm & Hid).
  destruct (imp_from_value _) as [imp'|] eqn:Hi; [|done]. cbn.
  eapply imp_from_value_id; [exact Hi|]. by apply merge_keeps_leaf.
Qed.
Lemma resolve_imps_ids fetcher req :
  imp_id <$> req_imp (resolve_imp_stored_requests fetcher req) = imp_id <$> req_imp req.
Proof.
  unfold resolve_imp_stored_requests. cbn [req_imp set_req_imp]. rewrite <-list_fmap_compose.
  apply list_fmap_ext. intros _ imp _. apply resolve_imp_id.
Qed.
End Prepare.
Lemma interstitials_ids req :
  imp_id <$> req_imp (ep_process_interstitials req) = imp_id <$> req_imp req.
Proof.
  destruct (ep_interstitials_spec req) as (_ & H & _).
  induction H as [|imp imp' l l' Himp _ IH]; [done|]. rewrite !fmap_cons, IH. f_equal.
  destruct Himp as [->|(banner & fs & _ & _ & -> & _)]; done.
Qed.
Lemma same_auction_imps req req' imps : same_auction req req' →
  imp_id <$> imps = imp_id <$> req_imp req' → same_auction req (set_req_imp imps req').
Proof. intros (H1 & H2 & H3 & H4) Hi. split_and!; [done|by rewrite <-H2|done|done]. Qed.
Lemma same_auction_trans req1 req2 req3 :
  same_auction req1 req2 → same_auction req2 req3 → same_auction req1 req3.
Proof.
  intros (H1 & H2 & H3 & H4) (K1 & K2 & K3 & K4).
  split_and!; [by rewrite K1|by rewrite K2|by rewrite K3|]. intros name. by rewrite K4.
Qed.
Lemma interstitials_same req : same_auction req (ep_process_interstitials req).
Proof.
  destruct (ep_interstitials_spec req) as (H & _).
  pose proof (interstitials_ids req) as Hi.
  set (req' := ep_process_interstitials req) in *.
  assert (Hr : req' = set_req_imp (req_imp req') req).
  { rewrite <-H at 1. by destruct req'. }
  rewrite Hr. apply same_auction_imps; [by split_and!|]. exact Hi.
Qed.
Section PrepareState.
Context {X : Type} {EW : EndpointWorld} {EL : EndpointLaws EW} (state : EpState X).
Lemma resolve_same fetcher req : same_auction req (resolve_imp_stored_requests fetcher req).
Proof. apply same_auction_imps; [by split_and!|]. apply (resolve_imps_ids fetcher req). Qed.
Lemma tmax_same req : same_auction req (apply_account_tmax state req).
Proof. unfold apply_account_tmax. destruct (account_of state req ≫= _); by split_and!. Qed.
(** Preparing a request changes neither what it asks for nor its privacy. *)
Lemma prepare_same req : same_auction req (prepare_request state req).
Proof.
  unfold prepare_request. eapply same_auction_trans; [|apply interstitials_same].
  eapply same_auction_trans; [apply tmax_same|apply resolve_same].
Qed.
End PrepareState.

(** *** The handlers of the auction *)

Section HandlerProofs.
Context {X S : Type} `{!StageRunner X S} {W : World} {WL : WorldLaws W}.
Context {EW : EndpointWorld} {EL : EndpointLaws EW} (state : EpState X).
Abbreviation exchange := (eps_exchange state).

Lemma stored_same req req' : same_auction req req' →
  stored_auction_response exchange req' = stored_auction_response exchange req.
Proof. intros (Hi & _ & He & _). unfold stored_auction_response. by rewrite He, Hi. Qed.
Lemma stored_answered_same req req' r : same_auction req req' →
  stored_auction_answered exchange req' r → stored_auction_answered exchange req r.
Proof. intros (Hi & _ & He & _). unfold stored_auction_answered. by rewrite He, Hi. Qed.
(** What an auction on a prepared request answers, answers the original. *)
Lemma prepared_answers req req' s resp s' : same_auction req req' →
  hold_auction_with_timeouts exchange (auction_request req') s = (Ok resp, s') →
  match stored_auction_response exchange req with
  | Some _ => stored_auction_answered exchange req resp
  | None => priced_tasks exchange (auction_request req') → answers req (arp_bid_response resp)
  end.
Proof.
  intros Hsame Hh. pose proof Hsame as (Hid & Himps & _ & Hpriv).
  pose proof (hold_auction_safe exchange _ _ _ _ Hh) as Hsafe.
  cbn [arq_bid_request auction_request] in *. rewrite (stored_same _ _ Hsame) in Hsafe.
  destruct (stored_auction_response exchange req); [by eapply stored_answered_same|].
  intros Hp. destruct (Hsafe Hp) as (H1 & _ & H2).
  cbn [arq_bid_request auction_request] in *.
  assert (Hsb : ∀ sb, sb ∈ resp_seatbid (arp_bid_response resp) → ∃ name, sb_seat sb = Some name ∧
    privacy_result req name = PrAllow ∧ ∀ b, b ∈ sb_bid sb → bid_impid b ∈ (imp_id <$> req_imp req)).
  { intros sb Hin. destruct (H2 sb Hin) as (name & Hs & _ & Hallow & _ & _ & _ & _ & Hb).
    exists name. rewrite <-Hpriv. split_and!; [done..|]. intros b Hb'%Hb. rewrite <-Himps. apply Hb'. }
  split; [by rewrite H1|]. split; [exact Hsb|]. intros Hn.
  destruct (resp_seatbid (arp_bid_response resp)) as [|sb l]; [done|].
  destruct (Hsb sb) as (name & _ & Ha & _); [by left|].
  by rewrite (privacy_result_all req name "") in Ha.
Qed.
Lemma hold_auction_answers req ok err s : ∃ resp s', hold_auction state req ok err s = (Ok resp, s') ∧
  ((∃ r, resp = ok r ∧
      hold_auction_with_timeouts exchange (auction_request req) s = (Ok r, s')) ∨
   ∃ e, resp = err e ∧ hold_auction_with_timeouts exchange (auction_request req) s = (Err e, s')).
Proof.
  unfold hold_auction. pose proof (hold_auction_no_panic exchange (auction_request req) s).
  destruct (hold_auction_with_timeouts _ _ _) as [[r|e|] s']; [eauto 10..|done].
Qed.
Lemma validate_no_panic display req : validate_bid_request display req ≠ Panic.
Proof. unfold validate_bid_request. by repeat case_match. Qed.

(** C2: POST /openrtb2/auction always answers, with status 200, 400 or 500.  For an
    account that requires consent, a request that has none holds no auction and, if
    it is valid, is answered without bids.  Otherwise an answer of 200 is one of
    three: the response stored under the id the request names, if the handlers'
    store has it, without an auction; or what an auction answered in which no bidder
    has a task, the response stored for the exchange; or the answer of an auction
    on the prepared request, which has no task where the gate blocks the request as
    it was received and, whatever stored impressions and interstitial sizes were
    filled in, has (if no price is NaN once converted and adjusted) only bids for
    impressions of the received request, of bidders the gate lets through for it.
    Stored responses are answered as they are stored. *)
Theorem auction_endpoint_safe content_length req s out s' :
  auction_handler state content_length req s = (out, s') →
  let stored := id ← json_path ["prebid"; "storedauctionresponse"; "id"] (req_ext req) ≫= as_str;
                fetch_stored_response response_from_value id (eps_stored_requests state) in
  let prepared := auction_request (prepare_request state req) in
  ∃ resp, out = Ok resp ∧ rp_status resp ∈ [200; 400; 500] ∧
    (account_blocks state req = true → s' = s ∧
       (rp_status resp = 200 →
        rp_body resp = JsonBody (response_to_value (set_resp_id (req_id req) default_resp)))) ∧
    (rp_status resp = 200 → account_blocks state req = false →
     match stored with
     | Some r => s' = s ∧ rp_body resp = JsonBody (response_to_value
         (if str_is_empty (resp_id r) then set_resp_id (req_id req) r else r))
     | None => ∃ r tasks, auction_run exchange prepared s = (Ok (r, tasks), s') ∧
         rp_body resp = JsonBody (response_to_value (arp_bid_response r)) ∧
         match stored_auction_response exchange req with
         | Some _ => tasks = [] ∧ stored_auction_answered exchange req r
         | None => (privacy_result req "" ≠ PrAllow → tasks = []) ∧
             (priced_tasks exchange prepared → answers req (arp_bid_response r))
         end
     end).
Proof.
  intros Hh stored prepared. revert Hh.
  unfold auction_handler, answer. destruct (request_too_large state content_length) as [n|].
  { intros [= <- <-]. eexists. split; [done|]. split; [set_solver|]. by split. }
  pose proof (validate_no_panic display_f64 req).
  destruct (validate_bid_request display_f64 req) as [?|msg|]; [|intros [= <- <-]|done].
  2: { eexists. split; [done|]. split; [set_solver|]. by split. }
  destruct (account_blocks state req).
  { intros [= <- <-]. eexists. split; [done|]. split; [set_solver|]. by split. }
  assert (Hst : stored_answer state req =
    (λ r, if str_is_empty (resp_id r) then set_resp_id (req_id req) r else r) <$> stored).
  { unfold stored_answer, stored. destruct (json_path _ _ ≫= as_str) as [id|]; [|done]. cbn.
    by destruct (fetch_stored_response _ _ _). }
  rewrite Hst. destruct stored as [r|]; cbn [fmap option_fmap option_map].
  { intros [= <- <-]. eexists. split; [done|]. split; [set_solver|]. by split. }
  destruct (hold_auction_answers (prepare_request state req)
    (λ r, response_json (arp_bid_response r)) (text_response 500) s) as (resp & s1 & -> & Hr).
  intros [= <- <-]. exists resp. split; [done|].
  destruct Hr as [(r & -> & Hh)|(e & -> & Hh)]; (split; [set_solver|]; split; [done|]); [|done].
  intros _ _. destruct (hold_auction_answer exchange _ _ _ _ Hh) as [tasks Hrun]. exists r, tasks.
  split; [exact Hrun|]. split; [done|].
  pose proof (prepare_same state req) as Hsame.
  pose proof (prepared_answers _ _ _ _ _ Hsame Hh) as Hans.
  pose proof (stored_run_answer exchange _ _ _ _ _ Hrun) as Hstored.
  unfold prepared in Hstored. cbn [arq_bid_request auction_request] in Hstored.
  rewrite (stored_same _ _ Hsame) in Hstored.
  destruct (stored_auction_response exchange req) as [o|]; [split; [by apply Hstored|done]|].
  split; [|exact Hans]. intros Hp. apply (blocked_run_tasks exchange _ _ _ _ _ Hrun).
  by destruct Hsame as (_ & _ & _ & ->).
Qed.

(** *** Video *)

Lemma retain_first_spec seen imps :
  (∀ imp, imp ∈ retain_first seen imps → imp ∈ imps ∧ imp_id imp ∉ seen) ∧
  NoDup (imp_id <$> retain_first seen imps) ∧
  ∀ imp, imp ∈ imps → imp_id imp ∈ seen ∨ imp_id imp ∈ (imp_id <$> retain_first seen imps).
Proof.
  revert seen. induction imps as [|imp imps IH]; intros seen; cbn [retain_first].
  { split; [by intros ? ?%elem_of_nil|]. split; [constructor|by intros ? ?%elem_of_nil]. }
  case_bool_decide as Hin.
  - destruct (IH seen) as (H1 & H2 & H3). split; [|split; [done|]].
    + intros i Hi%H1. split; [right|]; apply Hi.
    + intros i [->|Hi]%elem_of_cons; [by left|by apply H3].
  - destruct (IH ({[ imp_id imp ]} ∪ seen)) as (H1 & H2 & H3). split; [|split].
    + intros i [->|[Hi Hn]%H1]%elem_of_cons; [by split; [left|]|]. split; [by right|set_solver].
    + rewrite fmap_cons. constructor; [|done]. intros (i & He & [_ Hi]%H1)%list_elem_of_fmap. set_solver.
    + intros i [->|Hi]%elem_of_cons; [right; rewrite fmap_cons; by left|].
      rewrite fmap_cons. destruct (H3 i Hi) as [[Hs|Hs]%elem_of_union|Hs]; [|by left|by right; right].
      apply elem_of_singleton in Hs. right. rewrite Hs. by left.
Qed.
(** The impressions a video auction is held for: those of the request and of its
    stored request, one for each id. *)
Lemma video_request_imps req :
  NoDup (imp_id <$> req_imp (video_request state req)) ∧
  (∀ imp, imp ∈ req_imp req → imp_id imp ∈ (imp_id <$> req_imp (video_request state req))) ∧
  (video_request state req = set_req_imp (retain_first ∅ (req_imp req)) req ∨
   ∃ stored, video_request state req =
     set_req_imp (retain_first ∅ (req_imp (merge_stored_video req stored)))
       (merge_stored_video req stored)).
Proof.
  unfold video_request. set (stored := id ← _; _). destruct stored as [stored|].
  - split_and!; [apply retain_first_spec| |by right; exists stored]. intros imp Hi.
    cbn [req_imp set_req_imp].
    destruct (proj2 (proj2 (retain_first_spec ∅ (req_imp (merge_stored_video req stored)))) imp)
      as [?|?]; [|set_solver|done].
    assert (Hm : req_imp (merge_stored_video req stored) = req_imp req ++
      List.filter (λ imp, negb (bool_decide (imp_id imp ∈ imp_id <$> req_imp req))) (req_imp stored)).
    { unfold merge_stored_video. repeat case_match; reflexivity. }
    rewrite Hm, elem_of_app. by left.
  - split_and!; [apply retain_first_spec| |by left]. intros imp Hi. cbn [req_imp set_req_imp].
    by destruct (proj2 (proj2 (retain_first_spec ∅ (req_imp req))) imp Hi) as [?|?]; [set_solver|].
Qed.
Lemma with_entry_get key f v m : v = VObject m → obj_sorted m →
  get key (with_entry key f v) = Some (f (default (VObject []) (obj_get key m))).
Proof.
  intros -> Hm. cbn. destruct (obj_get key m) as [c|] eqn:Hc; cbn.
  - by rewrite Hc, obj_get_insert, bool_decide_true by done.
  - rewrite obj_get_insert, bool_decide_true by done. cbn.
    by rewrite obj_get_insert, bool_decide_true by (try apply obj_sorted_insert; done).
Qed.
(** Only the extension of a bid changes, and where the objects on the way are
    objects it names bucket, category and duration. *)
Lemma inject_cat_dur_spec bid :
  set_bid_ext (bid_ext bid) (inject_cat_dur bid) = bid ∧
  (∀ m, bid_ext bid = Some (VObject m) → obj_sorted m → obj_get "prebid" m = None →
     json_path ["prebid"; "targeting"; "hb_pb_cat_dur"] (bid_ext (inject_cat_dur bid)) =
       Some (VString (cat_dur bid))).
Proof.
  split; [by destruct bid|]. intros m Hm Hs Hp. unfold inject_cat_dur. rewrite Hm. cbn [default from_option id bid_ext set_bid_ext].
  cbn [json_path fold_left mbind option_bind].
  rewrite (with_entry_get "prebid" _ _ m) by done. by rewrite Hp.
Qed.

End HandlerProofs.

(** *** AMP *)

Lemma on_first_imp_ids f req : (∀ imp, imp_id (f imp) = imp_id imp) →
  imp_id <$> req_imp (on_first_imp f req) = imp_id <$> req_imp req.
Proof. intros Hf. unfold on_first_imp. destruct (req_imp req) eqn:Hi; cbn; [by rewrite Hi|by rewrite Hf]. Qed.
(** Writing a missing key panics exactly on a value that is neither an object nor
    null, and keeps what is there. *)
Lemma set_missing_spec {E} key x ext :
  (set_missing key x ext : outcome E Value) = Panic ∧
    is_object (default (VObject []) ext) = false ∧ is_null (default (VObject []) ext) = false ∨
  ∃ ext', (set_missing key x ext : outcome E Value) = Ok ext' ∧
    ¬ (is_object (default (VObject []) ext) = false ∧ is_null (default (VObject []) ext) = false) ∧
    ∀ v, json_path [key] ext = Some v → json_path [key] (Some ext') = Some v.
Proof.
  unfold set_missing. destruct ext as [v|].
  2: { right. eexists. split; [done|]. split; [naive_solver|done]. }
  cbn [default from_option id]. destruct v as [|b|n|s|l|m]; try (left; by split_and!).
  - right. eexists. split; [done|]. split; [naive_solver|done].
  - right. cbn [get]. destruct (obj_get key m) as [w|] eqn:Hw; eexists; (split; [done|]); (split; [naive_solver|]).
    + done.
    + cbn. rewrite Hw. by intros v [=].
Qed.

Lemma amp_keeps_refl req : amp_keeps req req.
Proof. split_and!; eauto. Qed.
Lemma amp_keeps_trans req1 req2 req3 : amp_keeps req1 req2 → amp_keeps req2 req3 → amp_keeps req1 req3.
Proof.
  intros (H1 & H2 & H3 & H4 & H5 & H6 & H7 & H8) (K1 & K2 & K3 & K4 & K5 & K6 & K7 & K8).
  split_and!; try congruence.
  - intros site (s2 & Hs2 & Hp & Hq)%H6. destruct (K6 _ Hs2) as (s3 & Hs3 & Hp' & Hq').
    exists s3. split; [done|]. split.
    + intros Hi. rewrite <-(Hp Hi). apply Hp'. by rewrite Hp.
    + intros p Hp1 Hi. apply Hq'; [by apply Hq|done].
  - intros user v Hu Hv. destruct (H7 _ _ Hu Hv) as (u2 & Hu2 & Hv2). by apply (K7 u2).
  - intros regs (r2 & Hr2 & Hp & Hq)%H8. destruct (K8 _ Hr2) as (r3 & Hr3 & Hp' & Hq').
    exists r3. split; [done|]. split; [eauto|].
    intros Hi. rewrite <-(Hq Hi). apply Hq'. by rewrite Hq.
Qed.
Lemma imps_keeps req imps : imp_id <$> imps = imp_id <$> req_imp req →
  amp_keeps req (set_req_imp imps req).
Proof. intros Hi. split_and!; eauto. Qed.
Lemma on_first_imp_keeps f req : (∀ imp, imp_id (f imp) = imp_id imp) → amp_keeps req (on_first_imp f req).
Proof.
  intros Hf. pose proof (on_first_imp_ids f req Hf) as Hi. unfold on_first_imp in *.
  destruct (req_imp req) as [|imp imps] eqn:He; [apply amp_keeps_refl|].
  apply imps_keeps. by rewrite He.
Qed.
Lemma interstitials_keeps req : amp_keeps req (ep_process_interstitials req).
Proof.
  destruct (ep_interstitials_spec req) as (H & _). pose proof (interstitials_ids req) as Hi.
  set (req' := ep_process_interstitials req) in *.
  assert (Hr : req' = set_req_imp (req_imp req') req) by (rewrite <-H at 1; by destruct req').
  rewrite Hr. by apply imps_keeps.
Qed.
Section AmpSteps.
Context (params : AmpParams).

Lemma page_keeps req : amp_keeps req (amp_page params req).
Proof.
  unfold amp_page. destruct (non_empty_opt _) as [curl|]; [|apply amp_keeps_refl].
  split_and!; try done; [|eauto..].
  intros site Hs. cbn. rewrite Hs. cbn. eexists. split; [done|].
  destruct (site_page site) eqn:Hp; [done|]. split; [by intros []|done].
Qed.
Lemma publisher_keeps req : amp_keeps req (amp_publisher params req).
Proof.
  unfold amp_publisher. destruct (non_empty_opt _) as [account|]; [|apply amp_keeps_refl].
  split_and!; try done; [|eauto..].
  intros site Hs. cbn. rewrite Hs. cbn. eexists. split; [done|]. cbn. split; [done|].
  intros p Hp [i Hi]. rewrite Hp. cbn. by rewrite Hi.
Qed.
Lemma usp_keeps req : amp_keeps req (amp_usp params req).
Proof.
  unfold amp_usp. destruct (non_empty_opt _) as [usp|]; [|apply amp_keeps_refl].
  split_and!; try done; [eauto..|].
  intros regs Hr. cbn. rewrite Hr. cbn. eexists. split; [done|].
  destruct (regs_us_privacy regs) eqn:Hp; cbn; [by rewrite Hp|]. split; [done|by intros []].
Qed.
Lemma size_keeps req : amp_keeps req (amp_size params req).
Proof. unfold amp_size. by repeat case_match; first [apply amp_keeps_refl|apply on_first_imp_keeps]. Qed.
Lemma multi_size_keeps req : amp_keeps req (amp_multi_size params req).
Proof. unfold amp_multi_size. by repeat case_match; first [apply amp_keeps_refl|apply on_first_imp_keeps]. Qed.
Lemma slot_keeps req : amp_keeps req (amp_slot_tag params req).
Proof.
  unfold amp_slot_tag. case_match; [|apply amp_keeps_refl]. apply on_first_imp_keeps.
  intros imp. by case_match.
Qed.
Lemma consent_step {E} req :
  (amp_consent params req : outcome E BidRequest) = Panic ∧
    is_Some (non_empty_opt (amp_gdpr_consent params)) ∧
    is_object (default (VObject []) (req_user req ≫= user_ext)) = false ∧
    is_null (default (VObject []) (req_user req ≫= user_ext)) = false ∨
  ∃ req', (amp_consent params req : outcome E BidRequest) = Ok req' ∧ amp_keeps req req' ∧
    req_regs req' = req_regs req ∧
    ¬ (is_Some (non_empty_opt (amp_gdpr_consent params)) ∧
       is_object (default (VObject []) (req_user req ≫= user_ext)) = false ∧
       is_null (default (VObject []) (req_user req ≫= user_ext)) = false).
Proof.
  unfold amp_consent. destruct (non_empty_opt _) as [consent|].
  2: { right. eexists. split; [done|]. split; [apply amp_keeps_refl|]. split; [done|]. by intros [[] _]. }
  assert (Hu : user_ext (default default_user (req_user req)) = req_user req ≫= user_ext)
    by by destruct (req_user req).
  rewrite Hu.
  destruct (set_missing_spec (E := E) "consent" (VString consent) (req_user req ≫= user_ext))
    as [(-> & Ho & Hn)|(ext' & -> & Hn & Hk)]; [left; by split_and!|right].
  eexists. split; [done|]. split; [|split; [done|naive_solver]].
  split_and!; try done; [eauto| |eauto]. intros user v Hr Hv. cbn. rewrite Hr. cbn. eexists.
  split; [done|]. cbn [user_ext set_user_ext]. apply Hk. by rewrite Hr.
Qed.
Lemma gdpr_step {E} req :
  (amp_gdpr params req : outcome E BidRequest) = Panic ∧
    is_Some (amp_gdpr_applies params) ∧
    is_object (default (VObject []) (req_regs req ≫= regs_ext)) = false ∧
    is_null (default (VObject []) (req_regs req ≫= regs_ext)) = false ∨
  ∃ req', (amp_gdpr params req : outcome E BidRequest) = Ok req' ∧ amp_keeps req req' ∧
    ¬ (is_Some (amp_gdpr_applies params) ∧
       is_object (default (VObject []) (req_regs req ≫= regs_ext)) = false ∧
       is_null (default (VObject []) (req_regs req ≫= regs_ext)) = false).
Proof.
  unfold amp_gdpr. destruct (amp_gdpr_applies params) as [gdpr|].
  2: { right. eexists. split; [done|]. split; [apply amp_keeps_refl|]. by intros [[] _]. }
  assert (Hu : regs_ext (default default_regs (req_regs req)) = req_regs req ≫= regs_ext)
    by by destruct (req_regs req).
  rewrite Hu.
  destruct (set_missing_spec (E := E) "gdpr" (number (if gdpr then 1 else 0)) (req_regs req ≫= regs_ext))
    as [(-> & Ho & Hn)|(ext' & -> & Hn & Hk)]; [left; by split_and!|right].
  eexists. split; [done|]. split; [|naive_solver].
  split_and!; try done; [eauto..|]. intros regs Hr. cbn. rewrite Hr. cbn. eexists.
  split; [done|]. split; [|done]. intros v Hv. cbn [regs_ext set_regs_ext]. apply Hk. by rewrite Hr.
Qed.
Lemma before_consent req :
  let req' := amp_slot_tag params (ep_process_interstitials
    (amp_multi_size params (amp_size params (amp_page params req)))) in
  amp_keeps req req' ∧ req_user req' = req_user req ∧ req_regs req' = req_regs req.
Proof.
  cbv zeta. split.
  { eapply amp_keeps_trans; [|apply slot_keeps]. eapply amp_keeps_trans; [|apply interstitials_keeps].
    eapply amp_keeps_trans; [|apply multi_size_keeps]. eapply amp_keeps_trans; [|apply size_keeps].
    apply page_keeps. }
  assert (Hfirst : ∀ f r, req_user (on_first_imp f r) = req_user r ∧ req_regs (on_first_imp f r) = req_regs r)
    by (intros f r; unfold on_first_imp; by destruct (req_imp r)).
  assert (Hint : ∀ r, req_user (ep_process_interstitials r) = req_user r ∧
    req_regs (ep_process_interstitials r) = req_regs r).
  { intros r. destruct (ep_interstitials_spec r) as (H & _). rewrite <-H at 2 4. done. }
  unfold amp_slot_tag, amp_multi_size, amp_size, amp_page.
  destruct (non_empty_opt (amp_slot params)); rewrite ?(proj1 (Hfirst _ _)), ?(proj2 (Hfirst _ _));
    rewrite (proj1 (Hint _)), (proj2 (Hint _)); clear Hint;
    repeat case_match; rewrite ?(proj1 (Hfirst _ _)), ?(proj2 (Hfirst _ _)); done.
Qed.
(** The parameters of AMP's URL fill in what the stored request leaves open (page,
    publisher, consent, GDPR flag and US Privacy string) and never change what it
    says; the impressions keep their ids.  They cannot fail, but panic where the
    consent or the flag is to be written into an extension that is no object. *)
Lemma amp_overrides_spec {E} req :
  ((amp_overrides params req : outcome E BidRequest) = Panic ↔ amp_cannot_write params req) ∧
  match (amp_overrides params req : outcome E BidRequest) with
  | Ok req' => amp_keeps req req'
  | Err _ => False
  | Panic => True
  end.
Proof.
  unfold amp_overrides, amp_cannot_write. destruct (before_consent req) as (H1 & Hu & Hr).
  set (req1 := amp_slot_tag _ _) in *. rewrite <-Hu, <-Hr.
  destruct (consent_step (E := E) req1) as [(-> & ?)|(req2 & -> & Hk2 & Hr2 & Hn2)].
  { cbn. split; [|done]. split; [auto|done]. }
  cbn [mbind outcome_bind].
  destruct (gdpr_step (E := E) req2) as [(-> & Hg)|(req3 & -> & Hk3 & Hn3)].
  { cbn. rewrite Hr2 in Hg. split; [|done]. split; [auto|done]. }
  cbn [mbind outcome_bind]. rewrite Hr2 in Hn3. split; [split; [done|naive_solver]|].
  eapply amp_keeps_trans; [exact H1|]. eapply amp_keeps_trans; [exact Hk2|].
  eapply amp_keeps_trans; [exact Hk3|]. eapply amp_keeps_trans; [apply usp_keeps|apply publisher_keeps].
Qed.
End AmpSteps.

(** *** The AMP handler *)

Section AmpHandler.
Context {X S : Type} `{!StageRunner X S} {W : World} {EW : EndpointWorld} (state : EpState X).

(** AMP answers 200, 400 or 500, and panics exactly when a parameter cannot be
    written into the stored request. *)
Lemma amp_handler_total params s :
  (∃ resp s', amp_handler state params s = (Ok resp, s') ∧ rp_status resp ∈ [200; 400; 500]) ∨
  ((amp_handler state params s).1 = Panic ∧ ∃ tag_id stored_json stored,
     amp_tag_id params = Some tag_id ∧ fetcher_get tag_id (eps_stored_requests state) = Some stored_json ∧
     request_from_value stored_json = inr stored ∧
     amp_cannot_write params (amp_request state tag_id stored)).
Proof.
  unfold amp_handler, answer.
  destruct (non_empty_opt (amp_tag_id params)) as [tag_id|] eqn:Ht.
  2: { left. eexists _, _. split; [done|]. set_solver. }
  assert (Htag : amp_tag_id params = Some tag_id).
  { unfold non_empty_opt in Ht. destruct (amp_tag_id params) as [t|]; [|done]. by destruct (str_is_empty t). }
  destruct (fetcher_get tag_id _) as [stored_json|] eqn:Hf.
  2: { left. eexists _, _. split; [done|]. set_solver. }
  destruct (request_from_value stored_json) as [e|stored] eqn:Hs.
  { left. eexists _, _. split; [done|]. set_solver. }
  unfold mbind, M_bind.
  destruct (amp_overrides_spec (E := Empty_set) params (amp_request state tag_id stored)) as [Hp Hk].
  destruct (amp_overrides params (amp_request state tag_id stored)) as [req|[]|] eqn:Ho.
  - left. destruct (hold_auction_answers state req
      (λ r, json_response 200 (object [("targeting", map_to_object VString (flat_targeting (arp_targeting r)))]))
      (λ e, amp_error 500 999 ("auction error: " +:+ e)) s) as (resp & s' & -> & Hr).
    exists resp, s'. split; [done|]. destruct Hr as [(r & -> & _)|(e & -> & _)]; set_solver.
  - right. split; [done|]. exists tag_id, stored_json, stored. split_and!; [done..|]. by apply Hp.
Qed.
End AmpHandler.

(** *** Events *)

Lemma event_validate_ok p : event_validate p = Ok tt ↔
  (evp_event_type p = Some "win" ∨ evp_event_type p = Some "imp") ∧
  is_Some (non_empty_opt (evp_bid_id p)) ∧ is_Some (non_empty_opt (evp_account_id p)).
Proof.
  unfold event_validate. destruct (evp_event_type p) as [t|]; cbn [non_empty_opt].
  2: { cbn. naive_solver. }
  unfold str_is_empty at 1. case_bool_decide as Ht; [subst; cbn; naive_solver|].
  repeat case_bool_decide; subst; cbn;
    repeat case_match; split; intros; destruct_and?; try naive_solver; unfold is_Some in *; naive_solver.
Qed.

(** VAST tracking only inserts: a CDATA section with the URL into the first
    impression element, or a new element after the first one; a text without a
    closed impression is left alone. *)
Lemma modify_vast_spec vast url : ∃ pre inserted post,
  vast = pre +:+ post ∧ modify_vast_xml vast url = pre +:+ inserted +:+ post ∧
  let cdata := "<![CDATA[" +:+ url +:+ "]]>" in
  match str_find CLOSE_TAG vast with
  | None => inserted = ""
  | Some _ => ∃ before, (pre = before +:+ OPEN_TAG ∧ inserted = cdata) ∨
      (pre = before +:+ CLOSE_TAG ∧ inserted = OPEN_TAG +:+ cdata +:+ CLOSE_TAG)
  end.
Proof.
  unfold modify_vast_xml. cbv zeta. set (cdata := "<![CDATA[" +:+ url +:+ "]]>").
  destruct (str_find CLOSE_TAG vast) as [ci|] eqn:Hc.
  2: { exists "", "", vast. done. }
  pose proof (replace_first_spec CLOSE_TAG (CLOSE_TAG +:+ OPEN_TAG +:+ cdata +:+ CLOSE_TAG) vast) as Hr.
  rewrite Hc in Hr. destruct Hr as (pre & post & Hv & _ & Hr).
  assert (Happend : ∃ pre inserted post, vast = pre +:+ post ∧
    replace_first CLOSE_TAG (CLOSE_TAG +:+ OPEN_TAG +:+ cdata +:+ CLOSE_TAG) vast =
      pre +:+ inserted +:+ post ∧ ∃ before, (pre = before +:+ OPEN_TAG ∧ inserted = cdata) ∨
      (pre = before +:+ CLOSE_TAG ∧ inserted = OPEN_TAG +:+ cdata +:+ CLOSE_TAG)).
  { exists (pre +:+ CLOSE_TAG), (OPEN_TAG +:+ cdata +:+ CLOSE_TAG), post. rewrite Hr, Hv.
    rewrite !str_app_assoc. split; [done|]. split; [done|]. exists pre. by right. }
  destruct (str_find OPEN_TAG vast) as [oi|] eqn:Ho; [|exact Happend].
  destruct (_ =? _); [|exact Happend].
  pose proof (replace_first_spec OPEN_TAG (OPEN_TAG +:+ cdata) vast) as Hr'.
  rewrite Ho in Hr'. destruct Hr' as (pre' & post' & Hv' & _ & Hr').
  exists (pre' +:+ OPEN_TAG), cdata, post'. rewrite Hr', Hv', !str_app_assoc.
  split; [done|]. split; [done|]. exists pre'. by left.
Qed.

(** *** Opting out *)

(** When the browser sends the cookie of /optout back, /getuids knows no uid after
    an opt-out, at any time, and what it knew before after an opt-in. *)
Lemma optout_getuids std_encode std_decode cookie_to_json cookie_from_json
    `{!CookieCodec std_encode std_decode cookie_to_json cookie_from_json}
    header_value_ok (sync : SyncState) hdr optout sc before after now :
  let host := ss_host_cookie sync in
  rp_set_cookie (optout_handler std_encode std_decode cookie_to_json cookie_from_json
    header_value_ok host hdr optout) = Some sc →
  let name := cookie_name_or_default (hcc_cookie_name host) in
  cookie_name_ok name → Forall (other_pair name) before → Forall (no_char (ch ";")) after →
  get_uids_handler std_decode cookie_from_json sync now
    (Some (cookie_header before (stored_pair sc) after)) =
  if match optout with Some v => negb (str_is_empty v) | None => false end then ∅
  else get_uids_handler std_decode cookie_from_json sync now hdr.
Proof.
  intros host Hsc name Hn Hb Ha. unfold get_uids_handler. fold host.
  set (out := match optout with Some v => _ | None => false end) in *.
  assert (Hc : ∃ c, c = opt_cookie out (from_request std_decode cookie_from_json hdr (hcc_cookie_name host))
    ∧ sc = build_set_cookie_header std_encode cookie_to_json (hcc_cookie_name host)
             (hcc_ttl_days host) (hcc_domain host) c).
  { eexists. split; [done|]. revert Hsc. unfold optout_handler. fold out.
    destruct (header_value_ok _), (str_is_empty _); cbn; by intros [=]. }
  destruct Hc as (c & -> & ->). unfold host.
  erewrite set_cookie_read by eassumption. unfold opt_cookie, buyeruids. cbn [usk_uids].
  destruct out; [|done]. by rewrite map_filter_empty, fmap_empty.
Qed.

(** *** Event URLs *)

Lemma event_answer p t bid account : evp_event_type p = Some (event_as_str t) →
  evp_bid_id p = Some bid → bid ≠ "" → evp_account_id p = Some account → account ≠ "" →
  match t with
  | ReClick => event_handler p = text_response 400 "invalid request: unknown type: 'click'"
  | _ => rp_status (event_handler p) = 200 ∧
      (rp_body (event_handler p) = PixelBody ↔ default "" (evp_format p) = "i")
  end.
Proof.
  intros Ht Hb Hbne Ha Hane. unfold event_handler.
  assert (Hok : t ≠ ReClick → event_validate p = Ok tt).
  { intros Hc. apply event_validate_ok. rewrite Ht, Hb, Ha. unfold non_empty_opt, str_is_empty.
    rewrite !bool_decide_false by done. split; [destruct t; auto; done|]. by split. }
  assert (Hpixel : (if bool_decide (evp_format p = Some "i") then PixelBody else EmptyBody) = PixelBody ↔
    default "" (evp_format p) = "i").
  { case_bool_decide as Hf; [by rewrite Hf|]. split; [done|]. destruct (evp_format p); cbn; congruence. }
  destruct t; [by rewrite Hok by done..|]. unfold event_validate. by rewrite Ht.
Qed.
(** C23: the event URLs are read back.  Where the query is read as axum reads form
    data, the server's address has no query or fragment, texts are printable ASCII
    without angle brackets, the bid and account ids are not empty and times fit 64
    bits: [parse_event_request] reads every field of the request that [to_url]
    wrote, if its time is not negative and it has no VAST type (neither is
    written), and of the URL the auction writes for a bid, but for a VAST event,
    which it refuses.  The handler of /event finds in both URLs the type, bid,
    account and time that were written, and the bidder and format if they were; it
    accepts wins and impressions, with a pixel exactly for the format "i", and
    refuses clicks and VAST events by name.  It never sees the analytics setting:
    the URL names it [x], the handler looks for [analytics]. *)
Theorem event_url_roundtrip `{QR : QueryReader} external_url r t :
  no_char (ch "?") external_url → no_char (ch "#") external_url →
  event_texts r → er_bid_id r ≠ "" → er_account_id r ≠ "" → 0 ≤ er_timestamp r < 2 ^ 63 →
  er_vtype r = "" →
  tracking_texts t → tr_bid_id t ≠ "" → tr_account_id t ≠ "" → - 2 ^ 63 ≤ tr_timestamp t < 2 ^ 63 →
  let event := query_params (event_request_to_url external_url r) in
  let tracking := query_params (create_tracking_url external_url t) in
  parse_event_request event = Ok r ∧
  parse_event_request tracking =
    match tr_event_type t with
    | EvWin => Ok (tracked_request ReWin t)
    | EvImp => Ok (tracked_request ReImp t)
    | EvVast => Err ["parameter 't' is required and must be one of: win, imp, click"]
    end ∧
  (∃ p, read_event_params event = Some p ∧
    evp_event_type p = Some (event_as_str (er_event_type r)) ∧
    evp_bid_id p = Some (er_bid_id r) ∧ evp_account_id p = Some (er_account_id r) ∧
    default "" (evp_bidder p) = er_bidder r ∧ default "" (evp_format p) = er_format r ∧
    evp_timestamp p = (if 0 <? er_timestamp r then Some (er_timestamp r) else None) ∧
    evp_analytics p = None ∧
    match er_event_type r with
    | ReClick => event_handler p = text_response 400 "invalid request: unknown type: 'click'"
    | _ => rp_status (event_handler p) = 200 ∧
        (rp_body (event_handler p) = PixelBody ↔ er_format r = "i")
    end) ∧
  ∃ p, read_event_params tracking = Some p ∧
    evp_bid_id p = Some (tr_bid_id t) ∧ evp_account_id p = Some (tr_account_id t) ∧
    evp_bidder p = Some (tr_bidder t) ∧ evp_timestamp p = Some (tr_timestamp t) ∧
    match tr_event_type t with
    | EvVast => event_handler p = text_response 400 "invalid request: unknown type: 'vast'"
    | _ => rp_status (event_handler p) = 200 ∧ rp_body (event_handler p) = EmptyBody
    end.
Proof.
  intros Hq Hf Hr Hrb Hra Hrt Hv Ht Htb Hta Htt event tracking.
  split; [by apply event_url_parses|]. split; [by apply tracking_url_parses|]. split.
  - unfold event, read_event_params. rewrite !event_url_reads by done.
    destruct (event_pairs_values r) as (->&->&->&Hbd&Hfm&_&_&_&->&->).
    exists {| evp_event_type := Some (event_as_str (er_event_type r)); evp_bid_id := Some (er_bid_id r);
      evp_account_id := Some (er_account_id r); evp_bidder := obj_get "bidder" (event_pairs id r);
      evp_format := obj_get "f" (event_pairs id r);
      evp_timestamp := if 0 <? er_timestamp r then Some (er_timestamp r) else None;
      evp_analytics := None |}.
    split.
    { destruct (0 <? er_timestamp r); [|done]. by rewrite parse_pretty by lia. }
    split_and!; [done..|]. rewrite <-Hfm. by eapply event_answer.
  - unfold tracking, read_event_params. rewrite !tracking_url_reads by done.
    destruct (tracking_pairs_values t) as (->&->&->&->&->&_&_&_&->&->).
    eexists. split; [by rewrite parse_pretty by lia|]. split_and!; [done..|].
    unfold event_handler, event_validate. cbn. unfold str_is_empty. rewrite !(bool_decide_false (_ = "")) by done.
    by destruct (tr_event_type t).
Qed.

(** *** Findings *)

(** A stored request whose user extension is a text makes AMP panic when the URL
    has a consent string. *)
Lemma amp_panics_on_text_extension :
  let params := {|
    amp_tag_id := Some "t"; amp_w := None; amp_h := None; amp_ms := None; amp_curl := None;
    amp_slot := None; amp_targeting := None; amp_account := None; amp_gdpr_applies := None;
    amp_gdpr_consent := Some "C"; amp_us_privacy := None; amp_consent_type := None |} in
  (amp_overrides params (set_req_user (Some (set_user_ext (Some (VString "x")) default_user)) default_req)
    : outcome string BidRequest) = Panic.
Proof. by vm_compute. Qed.
(** /setuid does not look at the opt-out: after an opt-out it stores a uid again,
    and /getuids answers it. *)
Lemma setuid_ignores_opt_out :
  let send sc := Some (stored_pair (default "" sc)) in
  let host := ss_host_cookie sample_sync_state in
  let opted_out := rp_set_cookie (optout_handler bits_encode bits_decode bits_to_json bits_from_json
    (λ _, true) host None (Some "1")) in
  let synced := rp_set_cookie (set_uid_handler bits_encode bits_decode bits_to_json bits_from_json
    (λ _, true) sample_sync_state 1000 (send opted_out) (sample_setuid "42")) in
  usk_optout (from_request bits_decode bits_from_json (send synced) (hcc_cookie_name host)) = Some true ∧
  get_uids_handler bits_decode bits_from_json sample_sync_state 2000 (send synced) !! "appnexus" =
    Some "42".
Proof. by vm_compute. Qed.

(** *** Witnesses *)

#[local] Existing Instance sample_world.
#[local] Existing Instance sample_endpoint_world.
Lemma sample_endpoint_laws : EndpointLaws sample_endpoint_world.
Proof.
  split.
  - intros imp v [= <-]. by eexists.
  - intros v imp s. cbn. destruct (get "id" v ≫= as_str) as [s'|] eqn:Hs; [|done].
    intros [= <-] Hg. rewrite Hg in Hs. by injection Hs as ->.
Qed.
Lemma auction_endpoint_safe_witness : ∃ resp s' r,
  auction_handler sample_endpoint_state (Some "100") sample_endpoint_request tt = (Ok resp, s') ∧
  rp_body resp = JsonBody (response_to_value r) ∧ answers sample_endpoint_request r.
Proof.
  assert (Hok : rp_status <$> (match (auction_handler sample_endpoint_state (Some "100")
    sample_endpoint_request tt).1 with Ok r => Some r | _ => None end) = Some 200) by by vm_compute.
  destruct (auction_handler sample_endpoint_state (Some "100") sample_endpoint_request tt)
    as [out s'] eqn:Hh.
  destruct (auction_endpoint_safe (WL := sample_laws) (EL := sample_endpoint_laws)
    sample_endpoint_state (Some "100") sample_endpoint_request tt out s' Hh)
    as (resp & -> & _ & _ & Hr).
  cbn in Hok. injection Hok as Hok.
  destruct (Hr Hok eq_refl) as (r & tasks & _ & Hb & _ & Ha).
  exists resp, s', (arp_bid_response r). split; [reflexivity|]. split; [exact Hb|]. apply Ha.
  intros [name bids|name ad breq tm] response [_ Hok'] Hp.
  - destruct Hok' as [Hne Hs]. by vm_compute in Hs.
  - destruct Hok' as (Had & -> & ->). revert Had.
    cbn [xc_adapters sample_exchange eps_exchange sample_endpoint_state].
    intros [He <-]%lookup_singleton_Some.
    change ("appnexus" = name) in He. subst name. vm_compute in Hp. injection Hp as <-.
    by repeat constructor.
Defined.
Lemma event_url_roundtrip_witness :
  let event := @query_params sample_reader (event_request_to_url "https://pbs.example/" sample_event) in
  let tracking := @query_params sample_reader (create_tracking_url "https://pbs.example/" sample_tracking) in
  parse_event_request event = Ok sample_event ∧
  parse_event_request tracking = Ok (tracked_request ReImp sample_tracking) ∧
  option_map (λ p, rp_status (event_handler p)) (read_event_params tracking) = Some 200.
Proof.
  destruct (event_url_roundtrip (QR := sample_reader) "https://pbs.example/" sample_event sample_tracking)
    as (H1 & H2 & _ & p & Hp & _ & _ & _ & _ & Hh & _);
    [apply (bool_decide_unpack _); vm_compute; reflexivity..|vm_compute; discriminate|vm_compute; discriminate
    |cbn; lia|reflexivity|apply (bool_decide_unpack _); vm_compute; reflexivity
    |vm_compute; discriminate|vm_compute; discriminate|cbn; lia|].
  cbn zeta. split; [exact H1|]. split; [exact H2|]. rewrite Hp. cbn. by rewrite Hh.
Defined.
